(* ===== verification/_CoqProject ===== *)
-Q . S2P
Prelude.v
RustStr.v
Net.v
ClientIpLimit.v
InFlight.v
WorkspaceConcurrency.v
IdentityLimit.v
Provider.v
ModelId.v
Float64.v
HealthMonitor.v
ModelMapper.v
Json.v
Sse.v
StepState.v
Egress.v
McpSession.v
Fallback.v
RateLimitMonitor.v
UpstreamOutcome.v
KvCache.v
Headers.v
Heartbeat.v
ModelSupport.v
DefaultModel.v
StrictJson.v
AgentContext.v
AgentPolicy.v
Validation.v
Routing.v
SyncDispatch.v
ToolCatalog.v
ToolCalls.v
AgentTools.v
EventAdapter.v
AgentEvents.v
MasterKeys.v
X402Proxy.v
X402Log.v
X402.v
ProviderCatalog.v
VirtualKeys.v
DbListener.v
Auth.v
Balance.v
ChatTypes.v
MapperProfiles.v
AnthropicMap.v
AnthropicStream.v
ResponsesToChat.v
MapperLenient.v
MapperRegistry.v
IngressNormalize.v
ResponsesIngress.v
Prompts.v
LargeContext.v
ContentFilter.v
TypedConverter.v
ResponsesBridge.v
MapperService.v
ToolObserver.v
AgentLogs.v
