(* ===== verification/Prelude.v ===== *)
(** * Alephant AI Gateway: verification library

    The gateway is a Rust service that accepts OpenAI-style requests, limits
    and routes them to inference providers, and watches the providers; beside
    it runs a runtime for agents and their tools.  This library models the
    parts of it that carry decisions of their own and proves what makes them
    correct.  Paths below are relative to the repository's
    [ai-gateway/src/] unless they start with [crates/].

    ** How the code is modelled

    Pure functions are functions.  A handler with state is a function from the
    state and its inputs to a result and a new state; what it asks of the
    outside (the clock, a Redis reply, a random index, the answer of a remote
    store) is an argument.  Concurrency is made of the atomic actions the code
    performs between await points: [InFlight] and [McpSession] are transition
    systems over them, [RateLimitMonitor] a fold over the events its
    [select!] handles.  Errors are values of [result]; a panic is a value too
    where the code can panic ([Fallback], [RateLimitMonitor], [DefaultModel],
    [Routing], [SyncDispatch], [AnthropicMap]).  Unsigned
    integers are [Z] with their saturation and limits written out, times and
    durations are nanoseconds, strings are byte strings, [f64] is IEEE binary64
    ([Float64], on the standard library's SpecFloat).  Third-party code
    (chrono, serde_json, SHA-256, rust_decimal, DNS, the HTTP client) is a
    parameter of the definitions that use it; what a theorem needs of it is a
    hypothesis, and its witness instantiates it.

    ** Files

    Foundations.
    - [Prelude]: results, machine integers, time, tactics, list and map lemmas.
    - [RustStr]: the [str] operations used, on UTF-8 bytes, with decimal text.
    - [Net]: the standard library's IP addresses, their classification and the
      parser of their text.
    - [Float64]: binary64.  [Json]: JSON values and the accessors used.
    - [Headers]: the header map, and what [dispatcher/upstream_auth.rs],
      [session_headers.rs], [agent/headers.rs] and [utils/debug_log.rs] do to
      it, with what a provider receives, name by name.

    Limits.
    - [ClientIpLimit]: [middleware/client_ip_rate_limit/]: sliding window per
      client address, address resolution behind trusted proxies, the layer with
      its Redis path.  C13 refines a log of admitted requests; a
      forwarded-for header of an untrusted peer is ignored, the layer follows
      the limiter, and bursts and memory are bounded.
    - [InFlight]: [middleware/gateway_in_flight_limit/] and
      [middleware/counted_body.rs]: C10 the counter is exact in every
      interleaving of requests that reach their response; requests cancelled
      before it keep their slot for ever.
    - [IdentityLimit]: [middleware/identity_rate_limit.rs]: fixed window per
      workspace; both backends refine an abstract window (C14 for Redis), and
      the announced waiting time is enough.

    - [WorkspaceConcurrency]: [middleware/workspace_concurrency/]: C11 what the
      counter of a workspace in Redis counts, and what it leaks.

    Keys and callers.
    - [MasterKeys]: [crypto/master_key.rs] and [store/master_key_cache.rs]: the
      cache of decrypted provider keys agrees with the database.
    - [VirtualKeys]: the keys of callers: rows and queries of [store/router.rs],
      [config/local_auth.rs], [virtual_key/legacy_key.rs] and the caches of
      [app_state.rs].
    - [ProviderCatalog]: [discover/router/provider_db_config.rs].
    - [DbListener]: [store/db_listener.rs], which keeps all of these up to date;
      C8 in runs whose polls were answered and not overtaken by writes, a key
      resolves to what the database entitles it to since the last poll; the
      changes that polling misses otherwise are shown beside it.
    - [Auth]: [middleware/auth.rs], which composes them with [IdentityLimit]; C7
      a request that is let in is entitled, or is one that authentication
      leaves alone; under the conditions of C8.

    Providers, models and routes.
    - [Provider], [ModelId]: [types/provider.rs], [types/model_id.rs]: codes
      and model names; lossless splitting and a round trip.
    - [ModelSupport]: [middleware/model_support/] and the index of bare names:
      of the kinds that are checked, what is forwarded names a model of the
      catalog.
    - [DefaultModel]: [default_model/] and [virtual_key/]: the model chosen
      for a request without one is one the key may use.
    - [ModelMapper]: [middleware/mapper/model.rs]: a mapped model is one the
      provider offers.
    - [Routing]: [router/router_details.rs], [middleware/routing_precheck.rs],
      the planner, the target provider, the workspace allow-list and
      [dispatcher/target_endpoint.rs], [dispatcher/regional_endpoint.rs]; C18:
      which paths are admitted, exactly, and with which methods where the code
      settles them before routing (not for media endpoints).  Also: a version in a path is not
      repeated, and when a region counts as learned.
    - [HealthMonitor]: [discover/monitor/health/provider.rs], the discovery
      modules and [config/balance.rs]; C15: the balancer's pool follows provider
      health under all four strategies, though a recovery inserts a key
      several times.
    - [Fallback]: [config/fallback_policy.rs], [fallback/evaluator.rs],
      [config/fallback_bridge.rs]; the exact wait of a rate-limited
      provider.
    - [RateLimitMonitor]: [discover/monitor/rate_limit/provider.rs], the
      reporting code of [dispatcher/service.rs] and the supervision in
      [main.rs]; C16 every removed key returns, while the channel is open and the events
      name keys of the pool; and three ways in which it
      fails (no model in the event, an overflowing wait, no coordination with
      the health monitor).

    - [Balance]: [crates/weighted-balance/], [crates/latency-router/] and
      [crates/dynamic-router/]; C17: a balancer that says ready can be called.

    Request mappers.
    - [ChatTypes]: the chat, Responses and Anthropic bodies of the vendored
      SDKs.
    - [MapperProfiles]: [middleware/mapper/]'s families, rules, capabilities and
      profiles, the embedded catalogue [mapper-profiles.yaml] and the request
      engine; C21: every provider's profile resolves, and every option of a
      prepared request is pinned: what a provider does not support is taken
      out, and nothing else.
    - [AnthropicMap]: [anthropic.rs], [openai.rs], [response_normalizer.rs] and
      [non_stream_response_interpreter.rs]; C22: a conversation sent to
      Anthropic is the client's, the instructions before it included (later
      ones are dropped), C23: a response survives the way there and
      back; and what is lost.
    - [AnthropicStream]: the streams of [anthropic.rs] and [openai.rs] with
      [stream_normalizer.rs] and [anthropic_stream_openai.rs]; C24: streamed
      text arrives whole, and the final usage is the latest report.
    - [ResponsesToChat]: [responses_to_chat_request.rs]; C26: the history of a
      Responses request, under all four roles, survives the crossing to chat;
      also on to Anthropic.
    - [MapperLenient]: [chat_completion_role_normalize.rs],
      [wrapped_error_lenient.rs] and [anthropic_error_lenient.rs]: what the
      repairs guarantee.
    - [MapperRegistry]: [endpoints/], [ide_adapation/client_profile.rs],
      [responses_upstream_strategy.rs] and [middleware/mapper/registry.rs];
      which requests find a converter, exactly; segments of upstream paths
      stay segments.
    - [IngressNormalize]: [ide_adapation/ide_ingress_adjust/] (the editors' chat requests);
      a normalised request is in normal form and stays there.
    - [ResponsesIngress]: [responses_ingress_normalize.rs] and
      [unified_chat_routing.rs]; C27: every item of a normalised Responses
      request is one the strict reader takes; the model that was planned is the
      one that is mapped.
    - [TypedConverter]: [middleware/mapper/mod.rs], with the chat converters of
      [openai.rs], [openai_compatible.rs], [google.rs] and [ollama.rs]; C29: an
      upstream's error reaches the client with the upstream's words, in the
      client's form; one shape of Bedrock errors does not.
    - [ResponsesBridge]: [ide_adapation/unified_responses_chat_compat.rs] and
      [cursor_responses_openrouter_bridge.rs]; C25: a chat stream that is turned
      into Responses events and back says the same; and which streams end
      without their end marker, or lose an error, an image or a call.
    - [MapperService]: [middleware/mapper/service.rs] and the hooks of
      [ide_adapation/mapper_service_hooks.rs]: the service that composes the
      parts above with [Prompts], [ContentFilter] and [LargeContext].  C20: a
      request is converted only when the content filter let it pass, and with a
      model its key may use or the filter's answer put in its place; it stays with its provider, and streamed answers
      are framed and ended as the client expects.

    What is done to a request before it is mapped.
    - [ContentFilter]: [content_filter/]; C28: a request passes only when policy
      allowed this very request (of a long body, its first mebibyte), or could
      not be asked about it and the settings say so.
    - [Prompts]: [middleware/prompts/] and [content_filter/prompt_cache.rs]:
      templates, their variables and the prompt that is put into a request.
    - [LargeContext]: [middleware/large_context/] and
      [middleware/prompt_compression/]; C30: a request that was shortened fits
      its budget and keeps its messages.

    Dispatch and responses.
    - [UpstreamOutcome]: [dispatcher/upstream_outcome.rs]: exactly the announced
      failures are recognised.
    - [SyncDispatch]: [dispatcher/sync_dispatch.rs], [utils/retry.rs],
      [dispatcher/regional_retry_executor.rs],
      [dispatcher/fallback_executor.rs] and their composition in
      [dispatcher/service.rs].  C1 every answer has its source: the first round, the
      China endpoint after a refusal, or the fallback after the retries ended in
      a failure that may be retried; C2 a fallback is chosen among the rows of
      the catalog and stays within what the key and the workspace permit, C3 the probe for
      failures is transparent, C4 the retry future is the plain loop.
    - [Heartbeat]: [dispatcher/downstream_heartbeat.rs]; the frame splitter
      ends and does not depend on how the bytes are cut, and heartbeats change no
      event.
    - [KvCache]: [crates/alephant-llm-kv-cache/], and the slot keys of
      [dispatcher/cache_coordinator.rs]: a bucket serves once it is full.
    - [StrictJson], [Validation]: [validation/]; C38 the strict reader terminates; it gives
      values with distinct keys and reads back what is printed; C37 a validated response matches its request, and what the box rules
      guarantee.

    Agents and tools.
    - [Sse]: [agent/tools/mcp_streamable_http/sse.rs]: the incremental event
      reader; C39: the result does not depend on how the stream is cut, for
      line-feed streams.
    - [StepState]: [agent/step_state.rs]; C19: conflicting reports of an agent
      step are found exactly, whatever the identifiers contain and whenever
      they arrive.
    - [Egress]: [agent/tools/egress_policy.rs]; which literal addresses a
      tool may reach.
    - [McpSession]: [agent/tools/mcp_streamable_http/session.rs]: session
      keys identify the principal, the singleflight has one owner
      per key, and C40 its waiters are not stranded: broadcast channels are
      modelled with their positions and their senders, the map's included.
    - [AgentContext]: [agent/context.rs], [agent/event.rs], [agent/name.rs],
      [agent/redaction.rs]: redaction leaks nothing under a sensitive key.
    - [AgentPolicy]: [agent/policy.rs]; C32 policy fails closed; the policy record of
      an event is the gateway's.
    - [EventAdapter], [AgentEvents]: [agent/adapter.rs], [agent/event.rs] and
      [agent/service.rs]: adapting an event loses nothing the client said,
      C33 an announced action needs policy's answer, C34 the events of an accepted batch are
      written in their order, each with its decision; what is written is
      redacted and within its limit.
    - [ToolCatalog], [ToolCalls], [AgentTools]: [agent/tools/catalog.rs],
      [schema_validator.rs], [openapi/outcome.rs], [types.rs], [response.rs],
      [audit.rs], [executor.rs] and [service.rs], with [agent/sink.rs] and
      [agent/log_transport.rs].  C9 a tool runs only when every check clears
      it, a call that is stopped costs nothing, C12 the limit of a workspace
      is exact in every interleaving; also: policy is asked about the very call,
      what a listing says can be sent back, a listing ends and its names are
      distinct and fit for frameworks, callable is listed, the argument check
      and the billing of OpenAPI outcomes, exactly.
    - [ToolObserver]: [agent/tool_observer.rs]: what is read of tool calls in
      answers; C36: the calls reported for a chat stream within the observer's limits
      are its calls, later frames are ignored, no call
      is reported twice under the same key, and summaries are redacted.
    - [AgentLogs]: [agent/log_payload.rs] and the observing part of
      [logger/service.rs]; C35: only the gateway's own tool calls are billed, though a
      client's own cost figure is logged.

    Payments.
    - [X402Proxy], [X402Log], [X402]: [x402/]: a request to a paid endpoint.
      C5 the seller is called only after settlement, C6 what is recorded
      of every payment, by how its settlement was answered (one whose answer
      never comes is not recorded), C31 the call stays below the seller's address, the signature covers the request; policy sees no credential.

    Interfaces between parts are type classes: [AgentContext.WireEnum] for the
    enumerations on the wire, [Routing.UrlLaws] for what the resolver relies on
    of the [url] crate, [X402Proxy.SegmentLaws] for path segments,
    [DbListener.VkHistory] for how the table of keys changes, and
    [Balance.ReadyCacheLaws] for tower's cache of services.  The trait of the
    converters is the record [MapperService.EndpointConverter], which
    [TypedConverter] implements.  Handlers with
    effects ([AgentTools], [X402],
    [MapperService]) are in the monad [Traced] of this file, with a
    rule for postconditions ([traced_post_bind]).

    ** Bounds and fuel

    The loops that are not structural have a fuel, and the fuel is shown to be
    enough.  [Net.read_digits] takes one more than the largest number of digits
    it accepts.  [RustStr.trim_start] and [RustStr.trim_start_matches] take the
    length of their text, and every step removes at least one byte.
    [Sse.drain] takes one more than the buffer's length, and every event
    removes a non-empty prefix.  [Heartbeat]'s splitter takes one more than the
    number of bytes of the source; [StrictJson.value] takes 129, since the
    reader stops at depth 128 (C38); the search for a free metadata key in
    [AgentPolicy] takes one more than the number of keys, and so does the one in
    [AgentEvents].
    [SyncDispatch.run] follows the readiness answers of the runtime; three per
    attempt are enough (C4).  The search for a framework name in [ToolCatalog]
    takes one more turn than there are names, which is enough when the salts
    give different digests.  The loops of [Balance] take the number of pending,
    and of ready, services (C17).  Numbers keep the limits of their Rust types; the
    theorems whose statement needs a sum to fit say so.

    ** Not modelled, and the plan

    Wiring (the layer stack, configuration loading, channels), I/O (databases,
    Redis connections, log transports, telemetry, the HTTP clients) and the
    Bedrock mapper have no definitions here, nor have the remote executors of
    MCP and OpenAPI tools, which [AgentTools] takes as a parameter, and the
    multipart bodies of media requests.  What could follow: the streaming path
    of the dispatcher and the cache coordination around it, the mapping of
    OpenAPI arguments and the rolling counters of the health metrics. *)

From Stdlib Require Export ZArith Lia.
From stdpp Require Export ssreflect gmap strings list fin_maps numbers sorting relations pretty.

(** ** Fallible code: Rust's [Result<A, E>] *)

Inductive result (A E : Type) : Type :=
| Ok (a : A)
| Err (e : E).
Arguments Ok {A E} a.
Arguments Err {A E} e.

Definition result_bind {A B E} (r : result A E) (k : A → result B E) : result B E :=
  match r with Ok a => k a | Err e => Err e end.

(** Rust's [.map_err(f)]. *)
Definition map_err {A E F} (f : E → F) (r : result A E) : result A F :=
  match r with Ok a => Ok a | Err e => Err (f e) end.

(** Rust's [Option::ok_or]. *)
Definition ok_or {A E} (o : option A) (e : E) : result A E :=
  match o with Some a => Ok a | None => Err e end.

(** Rust's [Result::is_ok]. *)
Definition is_ok {A E} (r : result A E) : bool :=
  match r with Ok _ => true | Err _ => false end.

(** Rust's [Result::ok]. *)
Definition result_ok {A E} (r : result A E) : option A :=
  match r with Ok a => Some a | Err _ => None end.

Declare Scope result_scope.
Delimit Scope result_scope with result.
Notation "'let?' x ':=' r 'in' k" := (result_bind r (fun x => k))
  (at level 10, x pattern, r at level 100, k at level 200) : result_scope.
Global Open Scope result_scope.

#[global] Instance result_eq_dec {A E} `{EqDecision A, EqDecision E} :
  EqDecision (result A E).
Proof. solve_decision. Defined.

(** ** Handlers with effects

    A step of a handler: the effects it has had, in order, and a value or the
    answer with which the handler returns early. *)

Definition Traced (E R A : Type) : Type := list E * (A + R).

Definition traced_ret {E R A} (a : A) : Traced E R A := ([], inl a).
Definition traced_stop {E R A} (r : R) : Traced E R A := ([], inr r).
Definition traced_tell {E R} (e : E) : Traced E R unit := ([e], inl tt).
Definition traced_bind {E R A B} (c : Traced E R A) (k : A → Traced E R B) : Traced E R B :=
  match c.2 with
  | inl a => let c' := k a in ((c.1 ++ c'.1)%list, c'.2)
  | inr r => (c.1, inr r)
  end.

Declare Scope traced_scope.
Delimit Scope traced_scope with traced.
Notation "'let*' x ':=' c 'in' k" := (traced_bind c (fun x => k))
  (at level 10, x binder, c at level 100, k at level 200) : traced_scope.
Global Open Scope traced_scope.

(** What holds of the effects and the value of a step, or of the effects and
    the answer when the handler stops in it. *)
Definition traced_post {E R A} (c : Traced E R A) (Q : list E → A → Prop) (S : list E → R → Prop) : Prop :=
  match c.2 with inl a => Q c.1 a | inr r => S c.1 r end.

Lemma traced_post_bind {E R A B} (c : Traced E R A) (k : A → Traced E R B) Q Q' S :
  traced_post c Q S →
  (∀ es a, Q es a → traced_post (k a) (λ es', Q' (es ++ es')%list) (λ es', S (es ++ es')%list)) →
  traced_post (traced_bind c k) Q' S.
Proof.
  unfold traced_post, traced_bind. destruct c as [es [a|r]]; simpl; intros H1 H2; [|done].
  specialize (H2 es a H1). by destruct (k a) as [es' [b|r]].
Qed.

Lemma traced_post_weaken {E R A} (c : Traced E R A) Q Q' S S' :
  (∀ es a, Q es a → Q' es a) → (∀ es r, S es r → S' es r) → traced_post c Q S → traced_post c Q' S'.
Proof. unfold traced_post. destruct c as [es [a|r]]; naive_solver. Qed.

(** ** Machine integers

    A [w]-bit unsigned integer is a [Z] in [0, 2^w); the operations below are
    the ones of the Rust primitive types, with saturation and wrap-around
    written out. *)

Definition u8_max : Z := 255.
Definition u32_max : Z := 4294967295.
Definition u64_max : Z := 18446744073709551615.
Definition i64_min : Z := -9223372036854775808.
Definition i64_max : Z := 9223372036854775807.
Definition i32_min : Z := -2147483648.
Definition i32_max : Z := 2147483647.

Definition u32_saturating_sub (a b : Z) : Z := Z.max 0 (a - b).
Definition u64_saturating_add (a b : Z) : Z := Z.min u64_max (a + b).
Definition u64_saturating_mul (a b : Z) : Z := Z.min u64_max (a * b).
Definition i64_saturating_mul (a b : Z) : Z := Z.max i64_min (Z.min i64_max (a * b)).

(** [u32::try_from(len).unwrap_or(u32::MAX)] for a [usize] length. *)
Definition u32_of_usize_or_max (n : Z) : Z := if (n <=? u32_max)%Z then n else u32_max.

(** ** Time

    [Instant]s and [Duration]s are nanosecond counts.  [duration_since] of the
    standard library saturates at zero. *)

Abbreviation Instant := Z (only parsing).
Abbreviation Duration := Z (only parsing).

Definition duration_since (now t : Instant) : Duration := Z.max 0 (now - t).
Definition from_secs (s : Z) : Duration := (s * 1000000000)%Z.
Definition from_millis (ms : Z) : Duration := (ms * 1000000)%Z.

(** ** Automation shared by the components *)

Create HintDb gw.
Create Rewrite HintDb gw_rw.

(** Case analysis on the boolean comparisons and matches of a goal, the way
    the source's guards branch. *)
Ltac bool_to_prop :=
  repeat match goal with
  | H : (_ && _) = true |- _ => apply andb_true_iff in H; destruct H
  | H : (_ || _) = false |- _ => apply orb_false_iff in H; destruct H
  | H : negb _ = true |- _ => apply negb_true_iff in H
  | H : negb _ = false |- _ => apply negb_false_iff in H
  | H : (_ <=? _)%Z = true |- _ => apply Z.leb_le in H
  | H : (_ <=? _)%Z = false |- _ => apply Z.leb_gt in H
  | H : (_ <? _)%Z = true |- _ => apply Z.ltb_lt in H
  | H : (_ <? _)%Z = false |- _ => apply Z.ltb_ge in H
  | H : (_ =? _)%Z = true |- _ => apply Z.eqb_eq in H
  | H : (_ =? _)%Z = false |- _ => apply Z.eqb_neq in H
  | H : bool_decide _ = true |- _ => apply bool_decide_eq_true in H
  | H : bool_decide _ = false |- _ => apply bool_decide_eq_false in H
  end.

(** Split on every [match] of the goal and of the hypotheses, then simplify. *)
Ltac split_match := repeat (case_match; simplify_eq/=).

(** ** List lemmas shared by the components *)

(** The prefix that a "pop while" loop removes. *)
Fixpoint drop_while {A} (p : A → bool) (l : list A) : list A :=
  match l with
  | [] => []
  | x :: l' => if p x then drop_while p l' else l
  end.

Fixpoint take_while {A} (p : A → bool) (l : list A) : list A :=
  match l with
  | [] => []
  | x :: l' => if p x then x :: take_while p l' else []
  end.

Lemma take_drop_while {A} (p : A → bool) l : take_while p l ++ drop_while p l = l.
Proof. induction l as [|x l IH]; simpl; [done|]. destruct (p x); simpl; congruence. Qed.

Lemma take_while_all {A} (p : A → bool) l : Forall (λ x, p x = true) (take_while p l).
Proof. induction l as [|x l IH]; simpl; [done|]. destruct (p x) eqn:?; auto. Qed.

Lemma drop_while_length {A} (p : A → bool) l : length (drop_while p l) ≤ length l.
Proof. induction l as [|x l IH]; simpl; [done|]. destruct (p x); simpl; lia. Qed.

Lemma drop_while_head {A} (p : A → bool) l x l' :
  drop_while p l = x :: l' → p x = false.
Proof.
  induction l as [|y l IH]; simpl; [done|].
  destruct (p y) eqn:E; [done|]. by intros [= -> ->].
Qed.

Lemma list_filter_all {A} (P : A → Prop) `{!∀ x, Decision (P x)} (l : list A) :
  Forall P l → filter P l = l.
Proof. induction 1; [done|]. rw filter_cons_True //. by f_equal. Qed.

Lemma list_filter_none {A} (P : A → Prop) `{!∀ x, Decision (P x)} (l : list A) :
  Forall (λ x, ¬ P x) l → filter P l = [].
Proof. induction 1; [done|]. by rw filter_cons_False. Qed.

(** ** Counting the entries of a map *)

Section count_map.
Context `{Countable K} {A : Type} (p : A → bool).
Local Open Scope Z_scope.

Definition count_map (m : gmap K A) : Z :=
  Z.of_nat (size (filter (λ kv : K * A, p kv.2 = true) m)).

Lemma count_map_empty : count_map ∅ = 0.
Proof. by rw /count_map map_filter_empty map_size_empty. Qed.

Lemma count_map_nonneg m : 0 ≤ count_map m.
Proof. unfold count_map. lia. Qed.

Lemma count_map_insert_None m i x :
  m !! i = None → count_map (<[i := x]> m) = Z.b2z (p x) + count_map m.
Proof.
  intros Hi. unfold count_map. destruct (p x) eqn:E; simpl.
  - rw map_filter_insert_True //= map_size_insert_None; [lia|].
    apply map_lookup_filter_None. by left.
  - rw map_filter_insert_not' //=; [by rw E|]. intros y. by rw Hi.
Qed.

Lemma count_map_delete m i x :
  m !! i = Some x → count_map (delete i m) = count_map m - Z.b2z (p x).
Proof.
  intros Hi. rw -{2}(insert_delete_id m i x Hi).
  rw count_map_insert_None; [|by rw lookup_delete_eq]. lia.
Qed.

Lemma count_map_insert_Some m i x y :
  m !! i = Some y → count_map (<[i := x]> m) = count_map m - Z.b2z (p y) + Z.b2z (p x).
Proof.
  intros Hi. rw -insert_delete_eq count_map_insert_None; [|by rw lookup_delete_eq].
  rw (count_map_delete _ _ y) //. lia.
Qed.
End count_map.

(** ** Spacing of time stamps *)

(** Any [n + 1] consecutive stamps span more than [w]. *)
Definition spaced (w n : Z) (ts : list Instant) : Prop :=
  ∀ (i : nat) a b, ts !! i = Some a → ts !! (i + Z.to_nat n)%nat = Some b → (w < b - a)%Z.

Lemma spaced_nil w n : spaced w n [].
Proof. intros i a b. by rw lookup_nil. Qed.

Lemma spaced_push w n now dropped rest :
  (0 < n)%Z → Forall (λ d, (w < now - d)%Z) dropped → (Z.of_nat (length rest) < n)%Z →
  spaced w n (dropped ++ rest) → spaced w n ((dropped ++ rest) ++ [now]).
Proof.
  intros Hn Hd Hlen Hsp i a b Ha Hb.
  apply lookup_lt_Some in Hb as Hlt. rw length_app /= in Hlt.
  destruct (decide (i + Z.to_nat n < length (dropped ++ rest))%nat) as [Hin|Hout].
  - rw lookup_app_l // in Hb. rw lookup_app_l in Ha; [|lia]. by eapply Hsp.
  - rw length_app in Hout, Hlt. rw lookup_app_r in Hb; [|rw length_app; lia].
    replace (i + Z.to_nat n - length (dropped ++ rest))%nat with 0%nat in Hb
      by (rw length_app; lia).
    injection Hb as <-.
    rw -app_assoc lookup_app_l in Ha; [|lia].
    by eapply Forall_lookup_1 in Hd.
Qed.

(** The clock of a sequence of stamped calls never goes back. *)
Fixpoint clocked {A} (last : Instant) (calls : list (Instant * A)) : Prop :=
  match calls with
  | [] => True
  | (now, _) :: rest => (last ≤ now)%Z ∧ clocked now rest
  end.
