(* ===== verification/RustStr.v ===== *)
(** * The string operations of the Rust standard library the gateway uses

    A [str] is its UTF-8 byte sequence, a [string] of bytes.  Lengths, slices,
    prefixes and searches are on bytes, as in Rust.  [trim] removes the
    characters with the Unicode property [White_Space], recognised by their
    UTF-8 encodings: on valid UTF-8 a continuation byte never starts one of
    them, so the byte-level recursion below cuts at character boundaries. *)

From S2P Require Import Prelude.
From Stdlib Require Import Ascii.
Local Open Scope string_scope.

#[global] Arguments String.append !_ _ : simpl nomatch.

(** ** Bytes *)

Definition byte_of (c : ascii) : Z := Z.of_N (N_of_ascii c).

Definition is_ascii_uppercase (c : ascii) : bool := (65 <=? byte_of c)%Z && (byte_of c <=? 90)%Z.
Definition is_ascii_lowercase (c : ascii) : bool := (97 <=? byte_of c)%Z && (byte_of c <=? 122)%Z.
Definition is_ascii_digit (c : ascii) : bool := (48 <=? byte_of c)%Z && (byte_of c <=? 57)%Z.
Definition is_ascii_alphanumeric (c : ascii) : bool :=
  is_ascii_uppercase c || is_ascii_lowercase c || is_ascii_digit c.

Definition ascii_to_lower (c : ascii) : ascii :=
  if is_ascii_uppercase c then ascii_of_N (N_of_ascii c + 32) else c.

Fixpoint str_map (f : ascii → ascii) (s : string) : string :=
  match s with
  | EmptyString => EmptyString
  | String c s' => String (f c) (str_map f s')
  end.

Fixpoint str_all (p : ascii → bool) (s : string) : bool :=
  match s with
  | EmptyString => true
  | String c s' => p c && str_all p s'
  end.

Definition str_any (p : ascii → bool) (s : string) : bool :=
  negb (str_all (λ c, negb (p c)) s).

(** [str::to_ascii_lowercase], [str::eq_ignore_ascii_case]. *)
Definition to_ascii_lowercase (s : string) : string := str_map ascii_to_lower s.
Definition to_ascii_uppercase (s : string) : string :=
  str_map (λ c, if is_ascii_lowercase c then ascii_of_N (N_of_ascii c - 32) else c) s.
Definition eq_ignore_ascii_case (a b : string) : bool :=
  String.eqb (to_ascii_lowercase a) (to_ascii_lowercase b).

Definition is_empty (s : string) : bool := match s with EmptyString => true | _ => false end.

(** [str::len], in bytes. *)
Definition len (s : string) : nat := String.length s.

(** ** Slices *)

Fixpoint str_take (n : nat) (s : string) : string :=
  match n, s with
  | S n', String c s' => String c (str_take n' s')
  | _, _ => EmptyString
  end.

Fixpoint str_drop (n : nat) (s : string) : string :=
  match n, s with
  | S n', String _ s' => str_drop n' s'
  | O, _ => s
  | _, EmptyString => EmptyString
  end.

(** ** Prefixes, suffixes and searches *)

Fixpoint strip_prefix (p s : string) : option string :=
  match p, s with
  | EmptyString, _ => Some s
  | String a p', String b s' => if Ascii.eqb a b then strip_prefix p' s' else None
  | _, EmptyString => None
  end.

Definition starts_with (p s : string) : bool :=
  match strip_prefix p s with Some _ => true | None => false end.

(** [str::strip_suffix]: the text before a final occurrence of [p]. *)
Definition strip_suffix (p s : string) : option string :=
  if (len p <=? len s)%nat
  then let n := (len s - len p)%nat in
       if String.eqb (str_drop n s) p then Some (str_take n s) else None
  else None.

Definition ends_with (p s : string) : bool :=
  match strip_suffix p s with Some _ => true | None => false end.

(** [str::contains] with a string pattern. *)
Fixpoint contains (p s : string) : bool :=
  starts_with p s ||
  match s with
  | EmptyString => false
  | String _ s' => contains p s'
  end.

(** [str::rfind]: the byte index of the last occurrence of [p]. *)
Fixpoint rfind (p s : string) : option nat :=
  match s with
  | EmptyString => if starts_with p s then Some 0%nat else None
  | String _ s' =>
      match rfind p s' with
      | Some i => Some (S i)
      | None => if starts_with p s then Some 0%nat else None
      end
  end.

(** [str::split_once] with a [char] pattern below 0x80. *)
Fixpoint split_once (c : ascii) (s : string) : option (string * string) :=
  match s with
  | EmptyString => None
  | String d s' =>
      if Ascii.eqb c d then Some (EmptyString, s')
      else match split_once c s' with
           | Some (a, b) => Some (String d a, b)
           | None => None
           end
  end.

(** [chars().filter(p).collect()] for a set of ASCII characters. *)
Fixpoint str_filter (p : ascii → bool) (s : string) : string :=
  match s with
  | EmptyString => ""
  | String c s => if p c then String c (str_filter p s) else str_filter p s
  end.

(** Number of occurrences of a byte. *)
Fixpoint count_byte (c : ascii) (s : string) : nat :=
  match s with
  | EmptyString => 0
  | String d s' => (if Ascii.eqb c d then 1 else 0) + count_byte c s'
  end.

(** [slice.join(sep)]. *)
Fixpoint str_join (sep : string) (l : list string) : string :=
  match l with
  | [] => ""
  | [s] => s
  | s :: l' => s ++ sep ++ str_join sep l'
  end.

(** ** Unicode white space *)

(** Byte length of the white-space character that starts [s], if one does. *)
Definition ws_prefix_len (s : string) : nat :=
  match s with
  | EmptyString => 0
  | String a s1 =>
      let x := byte_of a in
      if ((9 <=? x)%Z && (x <=? 13)%Z) || (x =? 32)%Z then 1
      else match s1 with
      | EmptyString => 0
      | String b s2 =>
          let y := byte_of b in
          if (x =? 194)%Z && ((y =? 133)%Z || (y =? 160)%Z) then 2
          else match s2 with
          | EmptyString => 0
          | String c _ =>
              let z := byte_of c in
              if (x =? 225)%Z && (y =? 154)%Z && (z =? 128)%Z then 3
              else if (x =? 226)%Z && (y =? 128)%Z
                   && (((128 <=? z)%Z && (z <=? 138)%Z) || (z =? 168)%Z || (z =? 169)%Z || (z =? 175)%Z)
                   then 3
              else if (x =? 226)%Z && (y =? 129)%Z && (z =? 159)%Z then 3
              else if (x =? 227)%Z && (y =? 128)%Z && (z =? 128)%Z then 3
              else 0
          end
      end
  end.

Fixpoint trim_start_fuel (n : nat) (s : string) : string :=
  match n with
  | O => s
  | S n' =>
      match ws_prefix_len s with
      | O => s
      | k => trim_start_fuel n' (str_drop k s)
      end
  end.

(** [str::trim_start]; each round removes at least one byte, so the length is
    enough fuel. *)
Definition trim_start (s : string) : string := trim_start_fuel (len s) s.

(** [str::trim_end]. *)
Fixpoint trim_end (s : string) : string :=
  match s with
  | EmptyString => EmptyString
  | String c s' => if is_empty (trim_start s) then EmptyString else String c (trim_end s')
  end.

Definition trim (s : string) : string := trim_end (trim_start s).

(** ** Lines and UTF-8 *)

Definition newline : ascii := ascii_of_N 10.
Definition carriage_return : ascii := ascii_of_N 13.

(** Removes one final carriage return. *)
Definition strip_cr (s : string) : string := default s (strip_suffix (String carriage_return "") s).

(** [str::lines]: the text between line feeds, without a final carriage
    return; an empty last line is not a line. *)
Fixpoint lines_from (cur s : string) : list string :=
  match s with
  | EmptyString => if is_empty cur then [] else [cur]
  | String c s' =>
      if Ascii.eqb c newline then strip_cr cur :: lines_from "" s'
      else lines_from (cur ++ String c "") s'
  end.
Definition lines (s : string) : list string := lines_from "" s.

Definition is_continuation (c : ascii) : bool := (128 <=? byte_of c)%Z && (byte_of c <=? 191)%Z.
(** [chars().take(n)]: whole code points. *)
Fixpoint take_chars (n : nat) (s : string) : string :=
  match s with
  | EmptyString => ""
  | String c s' =>
      if is_continuation c then String c (take_chars n s')
      else match n with O => "" | S n => String c (take_chars n s') end
  end.

(** [chars().count()]. *)
Fixpoint count_chars (s : string) : nat :=
  match s with EmptyString => 0 | String c s' => (if is_continuation c then 0 else 1) + count_chars s' end%nat.

Lemma take_chars_count n s : (count_chars (take_chars n s) ≤ n)%nat.
Proof.
  revert n. induction s as [|c s IH]; intros n; simpl; [lia|].
  destruct (is_continuation c) eqn:E; simpl; [rw E; apply IH|].
  destruct n; simpl; [lia|]. rw E. specialize (IH n). simpl. lia.
Qed.

Lemma take_chars_short n s : (count_chars s ≤ n)%nat → take_chars n s = s.
Proof.
  revert n. induction s as [|c s IH]; intros n; simpl; [done|].
  destruct (is_continuation c); simpl; intros H; [by rw IH|].
  destruct n; [lia|]. rw IH; [done|lia].
Qed.

Lemma count_chars_app a b : count_chars (a ++ b) = (count_chars a + count_chars b)%nat.
Proof. induction a as [|c a IH]; [done|]. simpl. rw IH. lia. Qed.

Definition byte_in (lo hi : Z) (c : ascii) : bool := (lo <=? byte_of c)%Z && (byte_of c <=? hi)%Z.

(** [str::from_utf8(..).is_ok()]: shortest-form sequences of scalar values. *)
Fixpoint utf8_valid (s : string) : bool :=
  match s with
  | EmptyString => true
  | String a s1 =>
      if (byte_of a <=? 127)%Z then utf8_valid s1
      else match s1 with
      | EmptyString => false
      | String b s2 =>
          if byte_in 194 223 a then is_continuation b && utf8_valid s2
          else match s2 with
          | EmptyString => false
          | String c s3 =>
              if byte_in 224 239 a then
                byte_in (if (byte_of a =? 224)%Z then 160%Z else 128%Z)
                        (if (byte_of a =? 237)%Z then 159%Z else 191%Z) b
                && is_continuation c && utf8_valid s3
              else match s3 with
              | EmptyString => false
              | String d s4 =>
                  byte_in 240 244 a
                  && byte_in (if (byte_of a =? 240)%Z then 144%Z else 128%Z)
                             (if (byte_of a =? 244)%Z then 143%Z else 191%Z) b
                  && is_continuation c && is_continuation d && utf8_valid s4
              end
          end
      end
  end.

(** The replacement character, U+FFFD. *)
Definition replacement : string := String (ascii_of_N 239) (String (ascii_of_N 191) (String (ascii_of_N 189) "")).

(** [String::from_utf8_lossy]: every longest prefix of a character that does
    not go on as one becomes a replacement character. *)
Fixpoint from_utf8_lossy (s : string) : string :=
  match s with
  | EmptyString => ""
  | String a s1 =>
      if (byte_of a <=? 127)%Z then String a (from_utf8_lossy s1)
      else if byte_in 194 223 a then
        match s1 with
        | String b s2 =>
            if is_continuation b then String a (String b (from_utf8_lossy s2)) else replacement ++ from_utf8_lossy s1
        | EmptyString => replacement
        end
      else if byte_in 224 239 a then
        match s1 with
        | String b s2 =>
            if byte_in (if (byte_of a =? 224)%Z then 160%Z else 128%Z) (if (byte_of a =? 237)%Z then 159%Z else 191%Z) b
            then match s2 with
                 | String c s3 =>
                     if is_continuation c then String a (String b (String c (from_utf8_lossy s3)))
                     else replacement ++ from_utf8_lossy s2
                 | EmptyString => replacement
                 end
            else replacement ++ from_utf8_lossy s1
        | EmptyString => replacement
        end
      else if byte_in 240 244 a then
        match s1 with
        | String b s2 =>
            if byte_in (if (byte_of a =? 240)%Z then 144%Z else 128%Z) (if (byte_of a =? 244)%Z then 143%Z else 191%Z) b
            then match s2 with
                 | String c s3 =>
                     if is_continuation c
                     then match s3 with
                          | String d s4 =>
                              if is_continuation d then String a (String b (String c (String d (from_utf8_lossy s4))))
                              else replacement ++ from_utf8_lossy s3
                          | EmptyString => replacement
                          end
                     else replacement ++ from_utf8_lossy s2
                 | EmptyString => replacement
                 end
            else replacement ++ from_utf8_lossy s1
        | EmptyString => replacement
        end
      else replacement ++ from_utf8_lossy s1
  end.

(** ** Lemmas *)

(** Text that is UTF-8 is read as it is. *)
Lemma from_utf8_lossy_valid s : utf8_valid s = true → from_utf8_lossy s = s.
Proof.
  induction s as [s IH] using (induction_ltof1 _ len). rw /ltof in IH.
  destruct s as [|a s1]; [done|]. cbn [utf8_valid from_utf8_lossy].
  destruct (byte_of a <=? 127)%Z; [intros H; by rw IH //; simpl; lia|].
  destruct s1 as [|b s2]; [done|]. destruct (byte_in 194 223 a).
  { intros [-> H]%andb_true_iff. rw IH //. simpl. lia. }
  destruct s2 as [|c s3]; [done|]. destruct (byte_in 224 239 a).
  { intros [[-> ->]%andb_true_iff H]%andb_true_iff. rw IH //. simpl. lia. }
  destruct s3 as [|d s4]; [done|].
  intros [[[[-> ->]%andb_true_iff ->]%andb_true_iff ->]%andb_true_iff H]%andb_true_iff. rw IH //. simpl. lia.
Qed.

Lemma str_app_assoc a b c : (a ++ b) ++ c = a ++ (b ++ c).
Proof. induction a; simpl; congruence. Qed.

Lemma str_app_nil_r s : s ++ "" = s.
Proof. induction s; simpl; congruence. Qed.

Lemma concat_cons s l : String.concat "" (s :: l) = s ++ String.concat "" l.
Proof. destruct l; simpl; [by rw str_app_nil_r|done]. Qed.

Lemma len_app a b : len (a ++ b) = (len a + len b)%nat.
Proof. unfold len. induction a; simpl; congruence. Qed.

Lemma str_app_inj_l a b c : a ++ b = a ++ c → b = c.
Proof. induction a; simpl; [done|]. intros [= H]. auto. Qed.

Lemma str_app_inj_r a b c : a ++ c = b ++ c → a = b.
Proof.
  revert b. induction a as [|x a IH]; intros [|y b]; simpl; intros H; [done| | |].
  - apply (f_equal len) in H. rw /len /= in H. fold (len (b ++ c)) in H.
    rw len_app in H. unfold len in H. lia.
  - apply (f_equal len) in H. rw /len /= in H. fold (len (a ++ c)) in H.
    rw len_app in H. unfold len in H. lia.
  - injection H as -> H. f_equal. auto.
Qed.

Lemma str_take_drop n s : str_take n s ++ str_drop n s = s.
Proof. revert s. induction n; intros [|c s]; simpl; congruence. Qed.

Lemma str_take_app a b : str_take (len a) (a ++ b) = a.
Proof. unfold len. induction a; simpl; [by destruct b | congruence]. Qed.

Lemma str_drop_app a b : str_drop (len a) (a ++ b) = b.
Proof. unfold len. induction a; simpl; [by destruct b | done]. Qed.

Lemma strip_prefix_Some p s r : strip_prefix p s = Some r ↔ s = p ++ r.
Proof.
  revert s. induction p as [|a p IH]; intros s; simpl.
  - split; congruence.
  - destruct s as [|b s]; simpl; [split; discriminate|].
    destruct (Ascii.eqb_spec a b) as [->|Hne].
    + rw IH. split; congruence.
    + split; [discriminate | congruence].
Qed.

Lemma strip_prefix_app p r : strip_prefix p (p ++ r) = Some r.
Proof. by apply strip_prefix_Some. Qed.

Lemma starts_with_spec p s : starts_with p s = true ↔ ∃ r, s = p ++ r.
Proof.
  unfold starts_with. destruct (strip_prefix p s) eqn:E.
  - apply strip_prefix_Some in E. split; eauto.
  - split; [done|]. intros [r ->]. by rw strip_prefix_app in E.
Qed.

Lemma strip_suffix_Some p s r : strip_suffix p s = Some r ↔ s = r ++ p.
Proof.
  unfold strip_suffix. split.
  - destruct (Nat.leb_spec (len p) (len s)); [|done].
    destruct (String.eqb_spec (str_drop (len s - len p) s) p) as [E|]; [|done].
    intros [= <-]. rw -{1}(str_take_drop (len s - len p) s). by f_equal.
  - intros ->. rw len_app.
    destruct (Nat.leb_spec (len p) (len r + len p)); [|lia].
    replace (len r + len p - len p)%nat with (len r) by lia.
    by rw str_drop_app str_take_app String.eqb_refl.
Qed.

Lemma rfind_Some p s i :
  rfind p s = Some i → s = str_take i s ++ p ++ str_drop (len p) (str_drop i s).
Proof.
  revert i. induction s as [|c s IH]; simpl; intros i.
  - destruct (starts_with p "") eqn:E; [|done]. intros [= <-].
    apply starts_with_spec in E as [r Hr]. destruct p; [|done]. done.
  - destruct (rfind p s) as [j|] eqn:E.
    + intros [= <-]. simpl. f_equal. by apply IH.
    + destruct (starts_with p (String c s)) eqn:E2; [|done]. intros [= <-].
      apply starts_with_spec in E2 as [r Hr]. rw Hr /=.
      by rw str_drop_app.
Qed.

Lemma split_once_Some c s a b :
  split_once c s = Some (a, b) ↔ s = a ++ String c b ∧ count_byte c a = 0%nat.
Proof.
  revert a. induction s as [|d s IH]; simpl; intros a.
  - split; [done|]. intros [H _]. by destruct a.
  - destruct (Ascii.eqb_spec c d) as [->|Hne].
    + split.
      * by intros [= <- <-].
      * intros [H Hc]. destruct a as [|x a]; simpl in *; [congruence|].
        injection H as <- _. by rw Ascii.eqb_refl in Hc.
    + destruct (split_once c s) as [[a' b']|] eqn:E.
      * split.
        -- intros [= <- <-]. destruct (proj1 (IH a') eq_refl) as [-> ?]. simpl.
           apply Ascii.eqb_neq in Hne. by rw Hne.
        -- intros [H Hc]. destruct a as [|x a]; simpl in *; [congruence|].
           injection H as <- H. apply Ascii.eqb_neq in Hne. rw Hne /= in Hc.
           pose proof (proj2 (IH a) (conj H Hc)) as HH. by simplify_eq.
      * split; [done|]. intros [H Hc]. destruct a as [|x a]; simpl in *; [congruence|].
        injection H as <- H. apply Ascii.eqb_neq in Hne. rw Hne /= in Hc.
        by pose proof (proj2 (IH a) (conj H Hc)).
Qed.

Lemma split_once_None c s : split_once c s = None ↔ count_byte c s = 0%nat.
Proof.
  induction s as [|d s IH]; simpl; [done|].
  destruct (Ascii.eqb_spec c d); [split; [done|lia]|].
  destruct (split_once c s) as [[]|]; simpl; rw -IH; split; done.
Qed.

Lemma count_byte_app c a b : count_byte c (a ++ b) = (count_byte c a + count_byte c b)%nat.
Proof. induction a; simpl; [done|]. lia. Qed.

Lemma str_all_app p a b : str_all p (a ++ b) = str_all p a && str_all p b.
Proof. induction a; simpl; [done|]. by rw IHa andb_assoc. Qed.

Lemma str_filter_all p s : str_all p (str_filter p s) = true.
Proof. induction s as [|c s IH]; simpl; [done|]. destruct (p c) eqn:E; simpl; [by rw E|done]. Qed.

Lemma str_map_app f a b : str_map f (a ++ b) = str_map f a ++ str_map f b.
Proof. induction a; simpl; congruence. Qed.

Lemma str_map_id f p s :
  (∀ c, p c = true → f c = c) → str_all p s = true → str_map f s = s.
Proof.
  intros Hf. induction s as [|c s IH]; simpl; [done|].
  intros [? ?]%andb_true_iff. by rw Hf // IH.
Qed.

Lemma ascii_to_lower_idemp c : ascii_to_lower (ascii_to_lower c) = ascii_to_lower c.
Proof. by destruct c as [[] [] [] [] [] [] [] []]. Qed.

Lemma to_ascii_lowercase_idemp s :
  to_ascii_lowercase (to_ascii_lowercase s) = to_ascii_lowercase s.
Proof. unfold to_ascii_lowercase. induction s; simpl; [done|]. by rw ascii_to_lower_idemp IHs. Qed.

Lemma eq_ignore_ascii_case_refl s : eq_ignore_ascii_case s s = true.
Proof. apply String.eqb_refl. Qed.

(** Text without white space and without multi-byte characters is not trimmed. *)
Definition is_graphic (c : ascii) : bool := (33 <=? byte_of c)%Z && (byte_of c <=? 126)%Z.

Lemma ws_prefix_graphic c s : is_graphic c = true → ws_prefix_len (String c s) = 0%nat.
Proof.
  intros H. unfold is_graphic in H. bool_to_prop. unfold ws_prefix_len.
  repeat match goal with
  | |- context [(?a <=? byte_of c)%Z] => destruct (Z.leb_spec a (byte_of c)); try lia
  | |- context [(byte_of c <=? ?a)%Z] => destruct (Z.leb_spec (byte_of c) a); try lia
  | |- context [(byte_of c =? ?a)%Z] => destruct (Z.eqb_spec (byte_of c) a); try lia
  end; simpl; by repeat case_match.
Qed.

Lemma trim_start_graphic s : str_all is_graphic s = true → trim_start s = s.
Proof.
  destruct s as [|c s]; [done|]. simpl. intros H. bool_to_prop.
  unfold trim_start. cbn [len String.length trim_start_fuel]. by rw ws_prefix_graphic.
Qed.

Lemma trim_end_graphic s : str_all is_graphic s = true → trim_end s = s.
Proof.
  induction s as [|c s IH]; intros H; [done|]. cbn [trim_end].
  rw trim_start_graphic //=. simpl in H. bool_to_prop. by rw IH.
Qed.

Lemma trim_graphic s : str_all is_graphic s = true → trim s = s.
Proof. intros H. unfold trim. by rw trim_start_graphic // trim_end_graphic. Qed.

Lemma str_all_impl (p q : ascii → bool) s :
  (∀ c, p c = true → q c = true) → str_all p s = true → str_all q s = true.
Proof.
  intros Hpq. induction s as [|c s IH]; simpl; [done|].
  intros [? ?]%andb_true_iff. by rw Hpq // IH.
Qed.

(** Text without the separator, then the separator: both parts are determined. *)
Lemma field_inj c a b x y :
  count_byte c a = 0%nat → count_byte c b = 0%nat → a ++ String c x = b ++ String c y → a = b ∧ x = y.
Proof.
  intros Ha Hb Heq. assert (Hs : split_once c (a ++ String c x) = Some (a, x)) by (by apply split_once_Some).
  rw Heq in Hs. apply split_once_Some in Hs as [Hs _].
  assert (Hs2 : split_once c (b ++ String c y) = Some (b, y)) by (by apply split_once_Some).
  rw Hs in Hs2. assert (Hs3 : split_once c (a ++ String c x) = Some (a, x)) by (by apply split_once_Some).
  rw Hs3 in Hs2. by simplify_eq.
Qed.

(** The same from the right: the part after the last separator. *)
Lemma field_inj_r c x y a b :
  count_byte c a = 0%nat → count_byte c b = 0%nat → x ++ String c a = y ++ String c b → x = y ∧ a = b.
Proof.
  intros Ha Hb. revert y. induction x as [|d x IH]; intros [|e y]; simpl.
  - by intros [= ->].
  - intros [= -> ->]. rw count_byte_app /= Ascii.eqb_refl in Ha. lia.
  - intros [= <- <-]. rw count_byte_app /= Ascii.eqb_refl in Hb. lia.
  - intros [= -> [-> ->]%IH]. done.
Qed.

(** ** Decimal text of integers *)

Lemma pretty_N_go_count c x : ∀ s,
  is_ascii_digit c = false → count_byte c (pretty_N_go x s) = count_byte c s.
Proof.
  induction (N.lt_wf_0 x) as [x _ IH]; intros s Hc.
  destruct (decide (x = 0)%N) as [->|Hx]; [by rw pretty_N_go_0|].
  rw pretty_N_go_step; [|lia]. rw IH //; [|apply N.div_lt; lia]. cbn [count_byte].
  destruct (Ascii.eqb_spec c (pretty_N_char (x `mod` 10))) as [->|]; [|done].
  exfalso. revert Hc. pose proof (N.mod_lt x 10 ltac:(lia)). generalize dependent (x `mod` 10)%N.
  intros n Hn. unfold pretty_N_char. destruct n as [|n]; [done|].
  by repeat (destruct n as [n|n|]; try done; try lia).
Qed.

Lemma pretty_N_go_nonempty x : ∀ s, s ≠ "" → pretty_N_go x s ≠ "".
Proof.
  induction (N.lt_wf_0 x) as [x _ IH]; intros s Hs.
  destruct (decide (x = 0)%N) as [->|Hx]; [by rw pretty_N_go_0|].
  rw pretty_N_go_step; [|lia]. apply IH; [apply N.div_lt; lia|done].
Qed.

Lemma pretty_nonempty (n : N) : pretty n ≠ "".
Proof.
  unfold pretty, pretty_N. case_decide as Hn; [done|].
  rw pretty_N_go_step; [|lia]. by apply pretty_N_go_nonempty.
Qed.

Lemma pretty_no_byte c (n : N) : is_ascii_digit c = false → count_byte c (pretty n) = 0%nat.
Proof.
  intros Hc. unfold pretty, pretty_N. case_decide.
  - destruct (Ascii.eqb_spec c "0"%char) as [->|Hne]; [done|]. cbn [count_byte].
    by rw (proj2 (Ascii.eqb_neq _ _) Hne).
  - by rw pretty_N_go_count.
Qed.

(** [str::parse::<uN>()] for the unsigned type with maximum [max]: an optional
    plus sign and at least one digit; a value above [max] is an error. *)
Fixpoint parse_digits (max acc : Z) (s : string) : option Z :=
  match s with
  | EmptyString => Some acc
  | String c s' =>
      if is_ascii_digit c then
        let acc' := (acc * 10 + (byte_of c - 48))%Z in
        if (acc' <=? max)%Z then parse_digits max acc' s' else None
      else None
  end.

Definition parse_uint (max : Z) (s : string) : option Z :=
  match s with
  | EmptyString => None
  | String c s' =>
      if Ascii.eqb c "+" then if is_empty s' then None else parse_digits max 0 s'
      else parse_digits max 0 s
  end.

Lemma byte_of_digit (n : N) : (n < 10)%N →
  byte_of (pretty_N_char n) = (48 + Z.of_N n)%Z ∧ is_ascii_digit (pretty_N_char n) = true.
Proof.
  intros Hn. destruct n as [|n]; [by vm_compute|].
  by repeat (destruct n as [n|n|]; try lia; try by vm_compute).
Qed.

Lemma pretty_N_go_digits x : ∀ s, str_all is_ascii_digit s = true →
  str_all is_ascii_digit (pretty_N_go x s) = true.
Proof.
  induction (N.lt_wf_0 x) as [x _ IH]; intros s Hs.
  destruct (decide (x = 0)%N) as [->|Hne]; [by rw pretty_N_go_0|].
  rw pretty_N_go_step; [|lia]. apply IH; [apply N.div_lt; lia|]. cbn [str_all]. rw Hs andb_true_r.
  by apply byte_of_digit, N.mod_lt.
Qed.

Lemma pretty_digits (n : N) : str_all is_ascii_digit (pretty n) = true.
Proof. unfold pretty, pretty_N. case_decide; [done|]. by apply pretty_N_go_digits. Qed.

Lemma parse_digits_pretty_go max x : ∀ s, (Z.of_N x ≤ max)%Z →
  parse_digits max 0 (pretty_N_go x s) = parse_digits max (Z.of_N x) s.
Proof.
  induction (N.lt_wf_0 x) as [x _ IH]; intros s Hx.
  destruct (decide (x = 0)%N) as [->|Hne]; [by rw pretty_N_go_0|].
  rw pretty_N_go_step; [|lia]. rw IH; [|apply N.div_lt; lia|].
  - cbn [parse_digits]. destruct (byte_of_digit (x `mod` 10)%N) as [-> ->]; [apply N.mod_lt; lia|].
    replace (Z.of_N (x `div` 10) * 10 + (48 + Z.of_N (x `mod` 10) - 48))%Z with (Z.of_N x).
    + by rw (proj2 (Z.leb_le _ _) Hx).
    + pose proof (N.div_mod x 10 ltac:(lia)). lia.
  - assert (x `div` 10 ≤ x)%N by (apply N.Div0.div_le_upper_bound; lia). lia.
Qed.

Lemma pretty_N_go_head x : ∀ c s, is_ascii_digit c = true →
  ∃ c' s', pretty_N_go x (String c s) = String c' s' ∧ is_ascii_digit c' = true.
Proof.
  induction (N.lt_wf_0 x) as [x _ IH]; intros c s Hc.
  destruct (decide (x = 0)%N) as [->|Hne]; [rw pretty_N_go_0; eauto|].
  rw pretty_N_go_step; [|lia]. apply IH; [apply N.div_lt; lia|].
  by apply byte_of_digit, N.mod_lt.
Qed.

(** Printing a number and parsing it back. *)
Lemma parse_uint_pretty max (n : N) : (Z.of_N n ≤ max)%Z → parse_uint max (pretty n) = Some (Z.of_N n).
Proof.
  intros Hn. unfold pretty, pretty_N. case_decide as H0.
  - subst. unfold parse_uint. cbn. by rw (proj2 (Z.leb_le _ _) Hn).
  - transitivity (parse_digits max 0 (pretty_N_go n "")).
    + rw pretty_N_go_step; [|lia].
      destruct (pretty_N_go_head (n `div` 10) (pretty_N_char (n `mod` 10)) "") as (c & s & -> & Hc);
        [by apply byte_of_digit, N.mod_lt|].
      unfold parse_uint. destruct (Ascii.eqb_spec c "+") as [->|]; [done|done].
    + by rw parse_digits_pretty_go.
Qed.

#[export] Hint Rewrite len_app str_take_app str_drop_app strip_prefix_app count_byte_app
  str_all_app str_app_assoc : gw_rw.

(** ** More of [str] *)

(** [str::rsplit_once] with a [char] pattern below 0x80. *)
Fixpoint rsplit_once (c : ascii) (s : string) : option (string * string) :=
  match s with
  | EmptyString => None
  | String d s' =>
      match rsplit_once c s' with
      | Some (a, b) => Some (String d a, b)
      | None => if Ascii.eqb c d then Some (EmptyString, s') else None
      end
  end.

(** [str::trim_start_matches]: every leading occurrence of a non-empty pattern. *)
Fixpoint trim_start_matches_fuel (n : nat) (p s : string) : string :=
  match n with
  | O => s
  | S n => match strip_prefix p s with
           | Some s' => trim_start_matches_fuel n p s'
           | None => s
           end
  end.
Definition trim_start_matches (p s : string) : string := trim_start_matches_fuel (len s) p s.

(** [str::trim_matches] with one byte. *)
Fixpoint trim_end_byte (c : ascii) (s : string) : string :=
  match s with
  | EmptyString => ""
  | String d s' =>
      let t := trim_end_byte c s' in
      if is_empty t && Ascii.eqb d c then "" else String d t
  end.
Definition trim_slashes (s : string) : string := trim_end_byte "/" (trim_start_matches "/" s).

(** [str::split] with a [char] pattern: always at least one piece. *)
Fixpoint split_from (c : ascii) (cur s : string) : list string :=
  match s with
  | EmptyString => [cur]
  | String d s' => if Ascii.eqb c d then cur :: split_from c "" s' else split_from c (cur ++ String d "") s'
  end.
Definition split (c : ascii) (s : string) : list string := split_from c "" s.

Lemma rsplit_once_None c s : rsplit_once c s = None → count_byte c s = 0%nat.
Proof.
  induction s as [|d s IH]; simpl; [done|]. destruct (rsplit_once c s) as [[]|]; [done|].
  destruct (Ascii.eqb c d); [done|]. intros _. by apply IH.
Qed.

Lemma rsplit_once_Some c s a b :
  rsplit_once c s = Some (a, b) → s = a ++ String c b ∧ count_byte c b = 0%nat.
Proof.
  revert a. induction s as [|d s IH]; simpl; intros a; [done|].
  destruct (rsplit_once c s) as [[a' b']|] eqn:E.
  - intros [= <- <-]. destruct (IH a' eq_refl) as [-> ?]. done.
  - destruct (Ascii.eqb_spec c d) as [<-|]; [|done]. intros [= <- <-].
    split; [done|by apply rsplit_once_None].
Qed.
