(* ===== verification/Net.v ===== *)
(** * IP addresses of the standard library

    [std::net::IpAddr] with its octets and segments, the classification
    predicates the egress policy uses, and the textual parser behind
    [str::parse::<IpAddr>()], which the client-IP resolution uses. *)

From S2P Require Import Prelude RustStr.
From Stdlib Require Import Ascii.
Local Open Scope string_scope.

(** An IPv4 address is its 32-bit value, an IPv6 address its 128-bit value,
    most significant octet first. *)
Inductive IpAddr :=
| V4 (bits : Z)
| V6 (bits : Z).

#[global] Instance IpAddr_eq_dec : EqDecision IpAddr.
Proof. solve_decision. Defined.
#[global] Instance IpAddr_countable : Countable IpAddr.
Proof.
  refine (inj_countable'
    (λ a, match a with V4 b => inl b | V6 b => inr b end)
    (λ s, match s with inl b => V4 b | inr b => V6 b end) _).
  by intros [].
Defined.

(** [Ipv4Addr::octets()[i]] and [Ipv6Addr::segments()[i]]. *)
Definition octet (bits i : Z) : Z := Z.land (Z.shiftr bits (8 * (3 - i))) 255.
Definition segment (bits i : Z) : Z := Z.land (Z.shiftr bits (16 * (7 - i))) 65535.

Definition ipv4_new (a b c d : Z) : Z :=
  Z.lor (Z.shiftl a 24) (Z.lor (Z.shiftl b 16) (Z.lor (Z.shiftl c 8) d)).

Definition ipv6_of_segments (l : list Z) : Z :=
  fold_left (λ acc s, Z.lor (Z.shiftl acc 16) s) l 0%Z.

(** [Ipv6Addr::to_ipv4_mapped]: [::ffff:a.b.c.d]. *)
Definition to_ipv4_mapped (bits : Z) : option Z :=
  if (Z.shiftr bits 32 =? 65535)%Z then Some (Z.land bits 4294967295) else None.

(** [Ipv4Addr::is_loopback] is 127.0.0.0/8, [Ipv6Addr::is_loopback] is [::1]. *)
Definition ipv4_is_loopback (bits : Z) : bool := (octet bits 0 =? 127)%Z.
Definition ipv6_is_loopback (bits : Z) : bool := (bits =? 1)%Z.

(** ** The parser of [core::net::parser]

    Each reader returns the value and the rest of the input, or [None] and
    leaves the input where it was ([read_atomically]). *)

Definition digit_val (radix : Z) (c : ascii) : option Z :=
  let x := byte_of c in
  let d := (if is_ascii_digit c then x - 48
            else if (97 <=? x) && (x <=? 102) then x - 87
            else if (65 <=? x) && (x <=? 70) then x - 55
            else 99)%Z in
  if (d <? radix)%Z then Some d else None.

(** The digits are read greedily; more than [max_digits] of them is an error.
    [fuel] is [max_digits + 1]. *)
Fixpoint read_digits (fuel : nat) (radix acc : Z) (n : nat) (s : string)
  : Z * nat * string :=
  match fuel, s with
  | S f, String c s' =>
      match digit_val radix c with
      | Some d => read_digits f radix (acc * radix + d) (S n) s'
      | None => (acc, n, s)
      end
  | _, _ => (acc, n, s)
  end.

Definition read_number (radix bound : Z) (max_digits : nat) (allow_zero_prefix : bool)
    (s : string) : option (Z * string) :=
  let '(v, n, rest) := read_digits (S max_digits) radix 0 0 s in
  if (max_digits <? n)%nat || (n =? 0)%nat || (bound <? v)%Z then None
  else if negb allow_zero_prefix && starts_with "0" s && (1 <? n)%nat then None
  else Some (v, rest).

Definition read_given_char (c : ascii) (s : string) : option string :=
  match s with
  | String d s' => if Ascii.eqb c d then Some s' else None
  | EmptyString => None
  end.

(** [read_separator(sep, index, inner)]: the separator is required before
    every element but the first. *)
Definition read_separator {A} (sep : ascii) (index : nat)
    (inner : string → option (A * string)) (s : string) : option (A * string) :=
  match index with
  | O => inner s
  | S _ => match read_given_char sep s with Some s' => inner s' | None => None end
  end.

Definition read_ipv4_addr (s : string) : option (Z * string) :=
  let oct i s := read_separator "." i (read_number 10 255 3 false) s in
  match oct 0%nat s with
  | None => None
  | Some (a, s) => match oct 1%nat s with
  | None => None
  | Some (b, s) => match oct 2%nat s with
  | None => None
  | Some (c, s) => match oct 3%nat s with
  | None => None
  | Some (d, s) => Some (ipv4_new a b c d, s)
  end end end end.

(** [read_groups]: the groups read (most recent last), whether the last two
    came from an embedded IPv4 address, and the rest.  [n] slots remain out of
    [i + n]. *)
Fixpoint read_groups (n i : nat) (acc : list Z) (s : string) : list Z * bool * string :=
  match n with
  | O => (acc, false, s)
  | S n' =>
      match (if (1 <=? n')%nat then read_separator ":" i read_ipv4_addr s else None) with
      | Some (v4, s') =>
          ((acc ++ [Z.lor (Z.shiftl (octet v4 0) 8) (octet v4 1);
                    Z.lor (Z.shiftl (octet v4 2) 8) (octet v4 3)])%list, true, s')
      | None =>
          match read_separator ":" i (read_number 16 65535 4 true) s with
          | Some (g, s') => read_groups n' (S i) (acc ++ [g])%list s'
          | None => (acc, false, s)
          end
      end
  end.

Definition read_ipv6_addr (s : string) : option (Z * string) :=
  let '(head, head_ipv4, s1) := read_groups 8 0 [] s in
  if (length head =? 8)%nat then Some (ipv6_of_segments head, s1)
  else if head_ipv4 then None
  else match read_given_char ":" s1 with
  | None => None
  | Some s2 => match read_given_char ":" s2 with
    | None => None
    | Some s3 =>
        let '(tail, _, s4) := read_groups (8 - (length head + 1)) 0 [] s3 in
        Some (ipv6_of_segments
                (head ++ replicate (8 - length head - length tail) 0%Z ++ tail)%list, s4)
    end
  end.

(** [str::parse::<IpAddr>()]: the whole input must be consumed. *)
Definition parse_ip_addr (s : string) : option IpAddr :=
  match (match read_ipv4_addr s with
         | Some (b, r) => Some (V4 b, r)
         | None => match read_ipv6_addr s with
                   | Some (b, r) => Some (V6 b, r)
                   | None => None
                   end
         end) with
  | Some (a, EmptyString) => Some a
  | _ => None
  end.

Example parse_v4 : parse_ip_addr "203.0.113.9" = Some (V4 3405803785).
Proof. reflexivity. Qed.
Example parse_v4_leading_zero : parse_ip_addr "10.0.0.01" = None.
Proof. reflexivity. Qed.
Example parse_v6_short : parse_ip_addr "2001:db8::1" = Some (V6 42540766411282592856903984951653826561).
Proof. reflexivity. Qed.
Example parse_v6_mapped : parse_ip_addr "::ffff:127.0.0.1" = Some (V6 281472812449793).
Proof. reflexivity. Qed.
