(* ===== verification/ClientIpLimit.v ===== *)
(** * Per-client-IP rate limit

    Models [ai-gateway/src/middleware/client_ip_rate_limit]: the in-process
    sliding window ([memory.rs]), the resolution of the client address behind
    trusted proxies ([resolve_ip.rs]) and the tower layer that combines the
    Redis and the in-process limiter ([layer.rs]).

    The mutex makes each [check] one atomic step, so an execution is a list of
    calls.  Redis is an environment: the reply to the [EVAL] of one request is
    an argument of the handler. *)

From S2P Require Import Prelude RustStr Net.
From Stdlib Require Import Ascii.
Local Open Scope Z_scope.

(** ** memory.rs *)

(* src: ai-gateway/src/middleware/client_ip_rate_limit/memory.rs:12-14 MAX_TRACKED_IPS *)
Definition MAX_TRACKED_IPS : Z := 100000.

(* src: ai-gateway/src/middleware/client_ip_rate_limit/memory.rs:16-23 MemoryLimiter *)
Record MemoryLimiter := mkMemoryLimiter {
  limit : Z;
  map : gmap IpAddr (list Instant)
}.

(* src: ai-gateway/src/middleware/client_ip_rate_limit/memory.rs:25-34 MemoryLimiter::new *)
Definition new_memory_limiter (limit : Z) : MemoryLimiter := mkMemoryLimiter limit ∅.

Definition window : Duration := from_secs 1.

(** The front entries [check] pops: strictly older than the window. *)
Definition expired (now t : Instant) : bool := window <? duration_since now t.

Section memory.
(** [guard.map.keys().next()]: the first key in hash-iteration order. *)
Context (first_key : gmap IpAddr (list Instant) → option IpAddr).

(* src: ai-gateway/src/middleware/client_ip_rate_limit/memory.rs:36-64 MemoryLimiter::check *)
Definition check (now : Instant) (ip : IpAddr) (m : MemoryLimiter)
  : result unit unit * MemoryLimiter :=
  if limit m =? 0 then (Ok tt, m)
  else
    let map1 :=
      if (MAX_TRACKED_IPS <=? Z.of_nat (size (map m))) && negb (bool_decide (is_Some (map m !! ip)))
      then match first_key (map m) with Some k => delete k (map m) | None => map m end
      else map m in
    let deque := drop_while (expired now) (default [] (map1 !! ip)) in
    let active := u32_of_usize_or_max (Z.of_nat (length deque)) in
    if limit m <=? active
    then (Err tt, mkMemoryLimiter (limit m) (<[ip := deque]> map1))
    else (Ok tt, mkMemoryLimiter (limit m) (<[ip := deque ++ [now]]> map1)).

(** A sequence of calls, with the verdict of each. *)
Fixpoint run (m : MemoryLimiter) (calls : list (Instant * IpAddr))
  : list bool * MemoryLimiter :=
  match calls with
  | [] => ([], m)
  | (now, ip) :: rest =>
      let '(r, m1) := check now ip m in
      let '(rs, m2) := run m1 rest in
      (is_ok r :: rs, m2)
  end.
End memory.

(** ** The abstract limiter

    It keeps every admission; a call is admitted when fewer than [lim]
    admissions of the same address are at most one window old. *)

Definition history := list (IpAddr * Instant).

Definition times (ip : IpAddr) (h : history) : list Instant :=
  (filter (λ p, p.1 = ip) h).*2.

Definition recent (now : Instant) (ts : list Instant) : list Instant :=
  filter (λ t, duration_since now t ≤ window) ts.

Definition spec_allows (lim : Z) (h : history) (now : Instant) (ip : IpAddr) : bool :=
  Z.of_nat (length (recent now (times ip h))) <? lim.

Fixpoint spec_run (lim : Z) (h : history) (calls : list (Instant * IpAddr))
  : list bool * history :=
  match calls with
  | [] => ([], h)
  | (now, ip) :: rest =>
      let b := spec_allows lim h now ip in
      let '(rs, h') := spec_run lim (if b then h ++ [(ip, now)] else h) rest in
      (b :: rs, h')
  end.

Definition callers (calls : list (Instant * IpAddr)) : gset IpAddr := list_to_set calls.*2.

(** ** The simulation relation

    The deque of an address is the history of its admissions without a prefix
    of entries that are out of the window. *)
Definition sim_ip (last : Instant) (deque ts : list Instant) : Prop :=
  ∃ dropped, ts = dropped ++ deque ∧ Forall (λ d, window < last - d) dropped
    ∧ StronglySorted Z.le ts ∧ Forall (λ t, t ≤ last) ts.

Definition sim (last : Instant) (m : MemoryLimiter) (h : history) : Prop :=
  ∀ ip, sim_ip last (default [] (map m !! ip)) (times ip h).

Lemma times_app ip h h' : times ip (h ++ h') = times ip h ++ times ip h'.
Proof. by rw /times filter_app fmap_app. Qed.

Lemma times_snoc_eq ip h t : times ip (h ++ [(ip, t)]) = times ip h ++ [t].
Proof. rw times_app. f_equal. by rw /times filter_cons_True. Qed.

Lemma times_snoc_ne ip ip' h t : ip' ≠ ip → times ip (h ++ [(ip', t)]) = times ip h.
Proof. intros. rw times_app {2}/times filter_cons_False //= app_nil_r //. Qed.

Lemma expired_false now t : expired now t = false ↔ duration_since now t ≤ window.
Proof. rw /expired Z.ltb_ge. done. Qed.

Lemma recent_app now ts ts' : recent now (ts ++ ts') = recent now ts ++ recent now ts'.
Proof. apply filter_app. Qed.

Lemma recent_expired now ts :
  Forall (λ d, window < now - d) ts → recent now ts = [].
Proof.
  intros H. apply list_filter_none. eapply Forall_impl; [exact H|].
  intros d ?. simpl in *. unfold duration_since. lia.
Qed.

Lemma recent_sorted now ts :
  StronglySorted Z.le ts → Forall (λ t, t ≤ now) ts →
  match ts with [] => True | t :: _ => expired now t = false end →
  recent now ts = ts.
Proof.
  intros Hs Hle Hhd. destruct ts as [|t ts]; [done|].
  apply expired_false in Hhd. apply list_filter_all.
  apply StronglySorted_cons in Hs as [Hs _].
  constructor; [done|]. eapply Forall_impl; [exact Hs|].
  intros u ?. simpl in *. unfold duration_since in *. lia.
Qed.

(** Popping the expired front of a simulated deque leaves exactly the recent
    admissions, and keeps the simulation at the later time. *)
Lemma sim_ip_pop last now deque ts :
  last ≤ now → sim_ip last deque ts →
  let deque' := drop_while (expired now) deque in
  sim_ip now deque' ts ∧ recent now ts = deque'.
Proof.
  intros Hlast (dropped & -> & Hd & Hs & Hle) deque'.
  assert (Hcut : Forall (λ d, window < now - d) (dropped ++ take_while (expired now) deque)).
  { apply Forall_app. split.
    - eapply Forall_impl; [exact Hd|]. intros d ?. simpl in *. lia.
    - eapply Forall_impl; [apply take_while_all|]. intros d Hx. simpl in Hx.
      unfold expired, duration_since in Hx. bool_to_prop. unfold window, from_secs in *. lia. }
  assert (Hsplit : dropped ++ deque = (dropped ++ take_while (expired now) deque) ++ deque').
  { rw -app_assoc take_drop_while //. }
  assert (Hle' : Forall (λ t, t ≤ now) (dropped ++ deque)).
  { eapply Forall_impl; [exact Hle|]. intros t ?. simpl in *. lia. }
  split.
  - exists (dropped ++ take_while (expired now) deque). done.
  - rw Hsplit recent_app recent_expired //=.
    rw Hsplit in Hs Hle'. apply StronglySorted_app_1_r in Hs.
    apply Forall_app in Hle' as [_ Hle'].
    apply recent_sorted; [done..|].
    unfold deque'. destruct (drop_while _ _) eqn:E; [done|]. by eapply drop_while_head.
Qed.

Lemma sim_ip_push now deque ts :
  sim_ip now deque ts → sim_ip now (deque ++ [now]) (ts ++ [now]).
Proof.
  intros (dropped & -> & Hd & Hs & Hle). exists dropped.
  rw app_assoc. split_and!; [done..| |].
  - apply StronglySorted_app_2; [|done|by repeat constructor].
    intros x y Hx Hy. apply list_elem_of_singleton in Hy as ->.
    by eapply Forall_forall in Hle; [|exact Hx].
  - apply Forall_app; split; [done|]. by constructor.
Qed.

Lemma sim_ip_mono last now deque ts : last ≤ now → sim_ip last deque ts → sim_ip now deque ts.
Proof.
  intros Hl (dropped & -> & Hd & Hs & Hle). exists dropped. split_and!; [done| |done|].
  - eapply Forall_impl; [exact Hd|]. intros d ?. simpl in *. lia.
  - eapply Forall_impl; [exact Hle|]. intros d ?. simpl in *. lia.
Qed.

(** ** Refinement *)

Lemma u32_active_le lim n :
  lim ≤ u32_max → (lim <=? u32_of_usize_or_max n) = (lim <=? n).
Proof. unfold u32_of_usize_or_max. case_match; bool_to_prop; lia. Qed.

Lemma room_from_callers (m : gmap IpAddr (list Instant)) (S : gset IpAddr) ip :
  dom m ⊆ S → ip ∈ S → Z.of_nat (size S) ≤ MAX_TRACKED_IPS →
  Z.of_nat (size m) < MAX_TRACKED_IPS ∨ is_Some (m !! ip).
Proof.
  intros Hdom Hip Hsz. destruct (decide (ip ∈ dom m)) as [Hin|Hout].
  - right. by apply elem_of_dom.
  - left. rw -size_dom.
    assert (dom m ⊆ S ∖ {[ip]}) as Hsub by set_solver.
    apply subseteq_size in Hsub. rw size_difference in Hsub; [|set_solver].
    rw size_singleton in Hsub.
    assert (size S ≠ 0%nat) by (apply size_non_empty_iff; set_solver). lia.
Qed.

Section refinement.
Context (first_key : gmap IpAddr (list Instant) → option IpAddr).

(** One call that needs no eviction agrees with the abstract limiter. *)
Lemma check_sim last now ip m h :
  0 < limit m ≤ u32_max → last ≤ now → sim last m h →
  Z.of_nat (size (map m)) < MAX_TRACKED_IPS ∨ is_Some (map m !! ip) →
  let '(r, m') := check first_key now ip m in
  is_ok r = spec_allows (limit m) h now ip ∧ limit m' = limit m
  ∧ dom (map m') = {[ip]} ∪ dom (map m)
  ∧ sim now m' (if is_ok r then h ++ [(ip, now)] else h).
Proof.
  intros Hlim Hlast Hsim Hroom. unfold check.
  rw (proj2 (Z.eqb_neq _ _)); [|lia].
  replace ((MAX_TRACKED_IPS <=? _) && _) with false; last first.
  { symmetry. apply andb_false_iff. destruct Hroom as [?|Hin].
    - left. apply Z.leb_gt. lia.
    - right. by rw bool_decide_eq_true_2. }
  destruct (sim_ip_pop _ _ _ _ Hlast (Hsim ip)) as [Hpop Hrec].
  set (deque := drop_while _ _) in *.
  rw u32_active_le; [|lia].
  assert (Hspec : spec_allows (limit m) h now ip = negb (limit m <=? Z.of_nat (length deque))).
  { rw /spec_allows Hrec. rw Z.ltb_antisym //. }
  assert (Hoth : ∀ ip', ip' ≠ ip → sim_ip now (default [] (map m !! ip')) (times ip' h)).
  { intros. eapply sim_ip_mono; [exact Hlast|]. apply Hsim. }
  rw Hspec. destruct (limit m <=? _); simpl; split_and!; try done;
    try (by rw dom_insert_L); intros ip'; destruct (decide (ip' = ip)) as [->|Hne]; simpl.
  - by rw lookup_insert_eq.
  - rw lookup_insert_ne //. by apply Hoth.
  - rw lookup_insert_eq times_snoc_eq. by apply sim_ip_push.
  - rw lookup_insert_ne // times_snoc_ne //. by apply Hoth.
Qed.

Lemma run_sim (S : gset IpAddr) calls : ∀ last m h,
  0 < limit m ≤ u32_max → clocked last calls → sim last m h →
  dom (map m) ⊆ S → callers calls ⊆ S → Z.of_nat (size S) ≤ MAX_TRACKED_IPS →
  (run first_key m calls).1 = (spec_run (limit m) h calls).1.
Proof.
  induction calls as [|[now ip] calls IH]; intros last m h Hlim Hck Hsim Hdom Hcall Hsz; [done|].
  destruct Hck as [Hle Hck]. unfold callers in *. simpl in Hcall |- *.
  pose proof (room_from_callers (map m) S ip Hdom ltac:(set_solver) Hsz) as Hroom.
  pose proof (check_sim last now ip m h Hlim Hle Hsim Hroom) as Hstep.
  destruct (check first_key now ip m) as [r m1].
  destruct Hstep as (Hr & Hl & Hd & Hs).
  specialize (IH now m1 (if is_ok r then h ++ [(ip, now)] else h)).
  rw Hl in IH. rw Hr in IH.
  destruct (run first_key m1 calls) as [rs m2] eqn:E1.
  destruct (spec_run (limit m) _ calls) as [rs' h'] eqn:E2.
  simpl in *. f_equal; [done|].
  apply IH; try done; [by rw -Hr|set_solver|set_solver].
Qed.

Lemma sim_init last lim : sim last (new_memory_limiter lim) [].
Proof.
  intros ip. simpl. rw lookup_empty /=. exists []. split_and!; [done|by constructor..].
Qed.

(** C13 (refinement). The in-process limiter is a sliding window: from the
    empty limiter, on every sequence of calls whose clock never goes back and
    that comes from at most [MAX_TRACKED_IPS] distinct addresses, the verdicts
    of [MemoryLimiter::check] are those of the abstract limiter that keeps
    every admission and admits a call exactly when fewer than [limit]
    admissions of the same address are at most one second old. *)
Theorem memory_limiter_refines_sliding_window lim t0 calls :
  0 < lim ≤ u32_max → clocked t0 calls →
  Z.of_nat (size (callers calls)) ≤ MAX_TRACKED_IPS →
  (run first_key (new_memory_limiter lim) calls).1 = (spec_run lim [] calls).1.
Proof.
  intros Hlim Hck Hsz.
  apply (run_sim (callers calls) calls t0 (new_memory_limiter lim) []); try done.
  apply sim_init.
Qed.
End refinement.

Lemma memory_limiter_refines_sliding_window_witness :
  (run (λ _, None) (new_memory_limiter 2)
     [(0, V4 1); (1, V4 1); (2, V4 2); (3, V4 1); (1000000001, V4 1); (1000000001, V4 1)]).1
  = [true; true; true; false; true; false].
Proof.
  rw (memory_limiter_refines_sliding_window _ 2 0);
    [by vm_compute|split; vm_compute; congruence|simpl; lia|by vm_compute].
Defined.

(** ** Spacing of the admissions *)

(** The admission times of one address, given the verdicts of the calls. *)
Fixpoint admissions (ip : IpAddr) (verdicts : list bool) (calls : list (Instant * IpAddr))
  : list Instant :=
  match verdicts, calls with
  | v :: vs, (now, ip') :: cs =>
      if v && bool_decide (ip' = ip) then now :: admissions ip vs cs else admissions ip vs cs
  | _, _ => []
  end.

Lemma spaced_admit lim now deque ts :
  0 < lim → sim_ip now deque ts → Z.of_nat (length deque) < lim →
  spaced window lim ts → spaced window lim (ts ++ [now]).
Proof. intros Hlim (dropped & -> & Hd & _ & _) Hlen. by apply spaced_push. Qed.

Lemma times_admissions lim ip calls : ∀ h,
  times ip (spec_run lim h calls).2
  = times ip h ++ admissions ip (spec_run lim h calls).1 calls.
Proof.
  induction calls as [|[now ip'] calls IH]; intros h; simpl; [by rw app_nil_r|].
  specialize (IH (if spec_allows lim h now ip' then h ++ [(ip', now)] else h)).
  destruct (spec_run _ _ calls) as [rs h'] eqn:E. simpl in *. rw IH.
  destruct (spec_allows lim h now ip'); simpl; [|done].
  case_bool_decide as Heq; simpl.
  - subst. rw times_snoc_eq -app_assoc //.
  - by rw times_snoc_ne.
Qed.

Section spacing.
Context (first_key : gmap IpAddr (list Instant) → option IpAddr).

Lemma run_spaced (S : gset IpAddr) calls : ∀ last m h,
  0 < limit m ≤ u32_max → clocked last calls → sim last m h →
  dom (map m) ⊆ S → callers calls ⊆ S → Z.of_nat (size S) ≤ MAX_TRACKED_IPS →
  (∀ ip, spaced window (limit m) (times ip h)) →
  ∀ ip, spaced window (limit m) (times ip (spec_run (limit m) h calls).2).
Proof.
  induction calls as [|[now ip] calls IH];
    intros last m h Hlim Hck Hsim Hdom Hcall Hsz Hsp; [done|].
  destruct Hck as [Hle Hck]. unfold callers in *. simpl in Hcall |- *.
  pose proof (room_from_callers (map m) S ip Hdom ltac:(set_solver) Hsz) as Hroom.
  pose proof (check_sim first_key last now ip m h Hlim Hle Hsim Hroom) as Hstep.
  destruct (check first_key now ip m) as [r m1].
  destruct Hstep as (Hr & Hl & Hd & Hs).
  assert (Hsp' : ∀ ip', spaced window (limit m)
            (times ip' (if is_ok r then h ++ [(ip, now)] else h))).
  { intros ip'. destruct (is_ok r); [|done].
    destruct (decide (ip = ip')) as [<-|Hne]; [|by rw times_snoc_ne].
    rw times_snoc_eq.
    destruct (sim_ip_pop _ _ _ _ Hle (Hsim ip)) as [Hpop Hrec].
    eapply spaced_admit; [lia|exact Hpop| |done].
    symmetry in Hr. unfold spec_allows in Hr. bool_to_prop. by rw -Hrec. }
  specialize (IH now m1 (if is_ok r then h ++ [(ip, now)] else h)).
  rw Hl Hr in IH. rw Hr in Hsp'. rw Hr in Hs.
  destruct (spec_run (limit m) _ calls) as [rs' h'] eqn:E2.
  simpl in *. apply IH; try done; set_solver.
Qed.

(** No burst above the limit: under the hypotheses of the
    refinement, any [limit + 1] consecutive admissions of one address by the
    in-process limiter are more than one second apart, so no one-second
    window ever holds more than [limit] admitted requests of one client. *)
Theorem memory_limiter_no_burst lim t0 calls ip :
  0 < lim ≤ u32_max → clocked t0 calls →
  Z.of_nat (size (callers calls)) ≤ MAX_TRACKED_IPS →
  spaced window lim (admissions ip (run first_key (new_memory_limiter lim) calls).1 calls).
Proof.
  intros Hlim Hck Hsz.
  rw (run_sim first_key (callers calls) calls t0 (new_memory_limiter lim) []) //;
    [|apply sim_init].
  pose proof (times_admissions lim ip calls []) as Hadm. simpl in Hadm. rw -Hadm.
  apply (run_spaced (callers calls) calls t0 (new_memory_limiter lim) []); try done.
  apply sim_init.
Qed.

(** ** Bounded memory *)

Context (first_key_spec : ∀ m k, first_key m = Some k → is_Some (m !! k)).
Context (first_key_total : ∀ m, m ≠ ∅ → is_Some (first_key m)).

Lemma check_size now ip m :
  Z.of_nat (size (map m)) ≤ MAX_TRACKED_IPS →
  Z.of_nat (size (map (check first_key now ip m).2)) ≤ MAX_TRACKED_IPS.
Proof.
  intros Hsz. unfold check. case_match; [done|].
  set (map1 := if _ && _ then _ else _).
  assert (Hroom : Z.of_nat (size map1) < MAX_TRACKED_IPS
           ∨ (Z.of_nat (size map1) ≤ MAX_TRACKED_IPS ∧ is_Some (map1 !! ip))).
  { unfold map1. destruct ((MAX_TRACKED_IPS <=? _) && _) eqn:E; bool_to_prop.
    - destruct (first_key (map m)) as [k|] eqn:Ek.
      + left. apply first_key_spec in Ek as [v Hv].
        rw map_size_delete_Some; [|by eexists].
        assert (size (map m) ≠ 0%nat); [|lia].
        intros Hz%map_size_empty_iff. by rw Hz lookup_empty in Hv.
      + exfalso. assert (map m ≠ ∅) as Hne.
        { intros Hz. rw Hz map_size_empty in H0. unfold MAX_TRACKED_IPS in H0. lia. }
        destruct (first_key_total _ Hne). congruence.
    - apply andb_false_iff in E as [E|E]; bool_to_prop; [left; lia|].
      right. done. }
  assert (Hins : ∀ d, Z.of_nat (size (<[ip := d]> map1)) ≤ MAX_TRACKED_IPS).
  { intros d. destruct Hroom as [?|[? Hin]].
    - rw map_size_insert. case_match; unfold id; lia.
    - rw map_size_insert_Some //. }
  case_match; apply Hins.
Qed.

(** The limiter never tracks more than [MAX_TRACKED_IPS]
    addresses: from the empty limiter every sequence of calls keeps the map
    within the bound, whatever the addresses and the clock, provided the
    eviction picks a key of the map. *)
Theorem memory_limiter_bounded lim calls :
  Z.of_nat (size (map (run first_key (new_memory_limiter lim) calls).2)) ≤ MAX_TRACKED_IPS.
Proof.
  assert (∀ m, Z.of_nat (size (map m)) ≤ MAX_TRACKED_IPS →
    Z.of_nat (size (map (run first_key m calls).2)) ≤ MAX_TRACKED_IPS) as H.
  { induction calls as [|[now ip] calls IH]; intros m Hm; simpl; [done|].
    pose proof (check_size now ip m Hm) as Hm1.
    destruct (check first_key now ip m) as [r m1].
    specialize (IH m1 Hm1). by destruct (run first_key m1 calls). }
  apply H. simpl. rw map_size_empty. done.
Qed.
End spacing.

Lemma memory_limiter_no_burst_witness :
  spaced window 1 (admissions (V4 7)
    (run (λ _, None) (new_memory_limiter 1) [(0, V4 7); (5, V4 7); (1000000001, V4 7)]).1
    [(0, V4 7); (5, V4 7); (1000000001, V4 7)]).
Proof.
  apply (memory_limiter_no_burst _ 1 0);
    [split; vm_compute; congruence|simpl; lia|by vm_compute].
Defined.

(** A concrete iteration order, for the witness: the one of [map_to_list]. *)
Definition first_listed (m : gmap IpAddr (list Instant)) : option IpAddr :=
  fst <$> head (map_to_list m).

Lemma first_listed_spec m k : first_listed m = Some k → is_Some (m !! k).
Proof.
  unfold first_listed. destruct (map_to_list m) as [|[k' v] l] eqn:E; [done|].
  intros [= ->]. exists v. apply elem_of_map_to_list. rw E. by left.
Qed.

Lemma first_listed_total m : m ≠ ∅ → is_Some (first_listed m).
Proof.
  intros Hm. unfold first_listed.
  destruct (map_to_list m) eqn:E; [|by eexists]. by apply map_to_list_empty_iff in E.
Qed.

Lemma memory_limiter_bounded_witness :
  Z.of_nat (size (map (run first_listed (new_memory_limiter 3) [(0, V4 1); (1, V6 1)]).2))
    ≤ MAX_TRACKED_IPS.
Proof.
  exact (memory_limiter_bounded _ first_listed_spec first_listed_total 3 [(0, V4 1); (1, V6 1)]).
Defined.

(** ** resolve_ip.rs *)

Section resolve_ip.
(** The [ipnetwork] crate: a parsed CIDR block and its membership test. *)
Context {IpNetwork : Type} (net_contains : IpNetwork → IpAddr → bool)
        (parse_network : string → option IpNetwork).

(* src: ai-gateway/src/middleware/client_ip_rate_limit/resolve_ip.rs:10-23 parse_trusted_proxy_networks *)
Fixpoint parse_trusted_proxy_networks (cidrs : list string)
  : result (list IpNetwork) string :=
  match cidrs with
  | [] => Ok []
  | s :: rest =>
      let? n := ok_or (parse_network s) s in
      let? ns := parse_trusted_proxy_networks rest in
      Ok (n :: ns)
  end.

(** [raw.split(',').next()]. *)
Definition first_segment (raw : string) : string :=
  match split_once ","%char raw with Some (a, _) => a | None => raw end.

(** [xff] is the value of the [x-forwarded-for] header when it is present and
    valid text. *)
(* src: ai-gateway/src/middleware/client_ip_rate_limit/resolve_ip.rs:25-40 effective_client_ip *)
Definition effective_client_ip (peer_ip : IpAddr) (xff : option string)
    (trusted : list IpNetwork) : IpAddr :=
  if existsb (λ n, net_contains n peer_ip) trusted then
    match xff with
    | Some raw =>
        match parse_ip_addr (trim (first_segment raw)) with
        | Some ip => ip
        | None => peer_ip
        end
    | None => peer_ip
    end
  else peer_ip.
End resolve_ip.

(** ** config/client_ip_rate_limit.rs *)

(* src: ai-gateway/src/config/client_ip_rate_limit.rs:55-61 ClientIpRateLimitBackend *)
Inductive ClientIpRateLimitBackend := Memory | Redis.

(* src: ai-gateway/src/config/client_ip_rate_limit.rs:28-41 ClientIpRateLimitConfig *)
Record ClientIpRateLimitConfig := mkConfig {
  enabled : bool;
  requests_per_second : Z;
  backend : ClientIpRateLimitBackend;
  trusted_proxy_cidrs : list string;
  redis_key_prefix : string
}.

(* src: ai-gateway/src/config/client_ip_rate_limit.rs:43-53 ClientIpRateLimitConfig::default *)
Definition default_config : ClientIpRateLimitConfig :=
  mkConfig false 0 Memory [] "gw:iprl:".

(* src: ai-gateway/src/config/client_ip_rate_limit.rs:8-26 validate_global_client_ip_rate_limit *)
Definition validate_global_client_ip_rate_limit (c : option ClientIpRateLimitConfig)
  : result unit string :=
  match c with
  | None => Ok tt
  | Some c =>
      if negb (enabled c) then Ok tt
      else if requests_per_second c =? 0
      then Err "global.client-ip-rate-limit: requests-per-second must be >= 1 when enabled"
      else Ok tt
  end.

(** ** layer.rs *)

(** Metric updates of the handler, in order. *)
Inductive metric :=
| RedisDegraded            (* client_ip_rate_limit_redis_degraded.add(1) *)
| DegradedGauge (v : Z)    (* rate_limit_redis_degraded_gauge.record(v) *)
| Rejected                 (* client_ip_rate_limit_rejected.add(1) *)
| Allowed.                 (* client_ip_rate_limit_allowed.add(1) *)

(** What the handler answers: the inner service's response, or a 429. *)
Inductive response :=
| InnerCall
| TooManyRequests (ratelimit_limit ratelimit_remaining retry_after : Z).

Section layer.
Context (first_key : gmap IpAddr (list Instant) → option IpAddr).
Context {IpNetwork : Type} (net_contains : IpNetwork → IpAddr → bool)
        (parse_network : string → option IpNetwork).

(* src: ai-gateway/src/middleware/client_ip_rate_limit/layer.rs:48-58 State *)
Record State := mkState {
  cfg : ClientIpRateLimitConfig;
  trusted : list IpNetwork;
  memory : MemoryLimiter;
  redis : bool;              (* whether an [AppRedis] is configured *)
  use_redis : bool
}.

(** [ping] is the outcome of the startup ping of Redis. *)
(* src: ai-gateway/src/middleware/client_ip_rate_limit/layer.rs:76-125 ClientIpRateLimitLayer::new *)
Definition new_layer (c : option ClientIpRateLimitConfig) (has_redis : bool)
    (ping : result unit unit) : result State string :=
  let c := default default_config c in
  let? nets := if enabled c
               then parse_trusted_proxy_networks parse_network (trusted_proxy_cidrs c)
               else Ok [] in
  let mem := new_memory_limiter (Z.max (requests_per_second c) 1) in
  let use := enabled c
             && match backend c with Redis => true | Memory => false end
             && has_redis && is_ok ping in
  Ok (mkState c nets mem has_redis use).

(** One tick of the background task, spawned only when Redis is configured. *)
(* src: ai-gateway/src/middleware/client_ip_rate_limit/layer.rs:127-151 recovery task *)
Definition recovery_tick (ping : result unit unit) (st : State) : State * list metric :=
  if use_redis st then (st, [])
  else match ping with
       | Ok _ => (mkState (cfg st) (trusted st) (memory st) (redis st) true, [DegradedGauge 0])
       | Err _ => (st, [])
       end.

Definition memory_check (now : Instant) (ip : IpAddr) (st : State) : bool * State :=
  let '(r, m') := check first_key now ip (memory st) in
  (is_ok r, mkState (cfg st) (trusted st) m' (redis st) (use_redis st)).

(** [peer] is the [SocketAddr] extension, [eval] the reply of the Redis
    script for this request. *)
(* src: ai-gateway/src/middleware/client_ip_rate_limit/layer.rs:187-258 ClientIpRateLimitService::call *)
Definition call (now : Instant) (peer : option IpAddr) (xff : option string)
    (eval : result bool unit) (st : State) : response * State * list metric :=
  if negb (enabled (cfg st)) then (InnerCall, st, [])
  else match peer with
  | None => (InnerCall, st, [])
  | Some peer_ip =>
      let ip := effective_client_ip net_contains peer_ip xff (trusted st) in
      let '(allowed, st1, ms) :=
        if use_redis st then
          if redis st then
            match eval with
            | Ok b => (b, st, [])
            | Err _ =>
                let st0 := mkState (cfg st) (trusted st) (memory st) (redis st) false in
                let '(b, st1) := memory_check now ip st0 in
                (b, st1, [RedisDegraded; DegradedGauge 1])
            end
          else let '(b, st1) := memory_check now ip st in (b, st1, [])
        else let '(b, st1) := memory_check now ip st in (b, st1, []) in
      if negb allowed
      then (TooManyRequests (requests_per_second (cfg st)) 0 1, st1, ms ++ [Rejected])
      else (InnerCall, st1, ms ++ [Allowed])
  end.

(** The verdict of the limiter in force for one request: the Redis script
    while Redis is in use and answers, the in-process window otherwise. *)
Definition limiter_verdict (now : Instant) (ip : IpAddr) (eval : result bool unit) (st : State)
  : bool :=
  match use_redis st && redis st, eval with
  | true, Ok b => b
  | _, _ => is_ok (check first_key now ip (memory st)).1
  end.

(** The handler fails closed on Redis: for an enabled layer
    and a known peer, the request reaches the inner service exactly when the
    limiter in force admits the resolved client address (a failing Redis call
    is decided by the in-process window, never waved through), is otherwise
    answered 429 with the configured limit, and a failing call switches Redis
    off until a successful ping of the recovery task switches it on again. *)
Theorem call_decided_by_limiter now peer xff eval st :
  enabled (cfg st) = true →
  let ip := effective_client_ip net_contains peer xff (trusted st) in
  let '(resp, st', _) := call now (Some peer) xff eval st in
  resp = (if limiter_verdict now ip eval st then InnerCall
          else TooManyRequests (requests_per_second (cfg st)) 0 1)
  ∧ use_redis st' = use_redis st && (negb (redis st) || is_ok eval)
  ∧ use_redis (recovery_tick (Ok tt) st').1 = true.
Proof.
  intros Hen ip. unfold call, limiter_verdict, memory_check, recovery_tick. rw Hen /=.
  fold ip. destruct (use_redis st) eqn:Hu, (redis st) eqn:Hr, eval as [[]|]; simpl;
    try destruct (check first_key now ip (memory st)) as [[?|?] m'] eqn:Ec; simpl;
    rw ?Hu ?Hr //.
Qed.

(** The forwarded-for header is trusted only from a trusted
    proxy: for a peer outside every trusted network the whole outcome of the
    handler (answer, limiter state and metrics) is the same whatever the
    header says, so a client cannot move to another bucket by forging it. *)
Theorem untrusted_xff_is_ignored now peer xff xff' eval st :
  existsb (λ n, net_contains n peer) (trusted st) = false →
  call now (Some peer) xff eval st = call now (Some peer) xff' eval st.
Proof. intros Hn. unfold call, effective_client_ip. by rw Hn. Qed.
End layer.

Definition sample_cfg : ClientIpRateLimitConfig := mkConfig true 2 Redis [] "gw:iprl:".

Lemma call_decided_by_limiter_witness :
  let st := mkState (IpNetwork := unit) sample_cfg [] (new_memory_limiter 2) true true in
  let '(resp, st', _) := call first_listed (λ _ _, false) 10 (Some (V4 1)) None (Err tt) st in
  resp = InnerCall ∧ use_redis st' = false.
Proof.
  pose proof (call_decided_by_limiter first_listed (λ _ _, false) 10 (V4 1) None (Err tt)
    (mkState (IpNetwork := unit) sample_cfg [] (new_memory_limiter 2) true true) eq_refl) as H.
  vm_compute in H |- *. destruct H as (? & ? & _). done.
Defined.

Lemma untrusted_xff_is_ignored_witness :
  let st := mkState (IpNetwork := unit) sample_cfg [tt] (new_memory_limiter 2) true true in
  call first_listed (λ _ _, false) 10 (Some (V4 1)) (Some "9.9.9.9"%string) (Ok true) st
  = call first_listed (λ _ _, false) 10 (Some (V4 1)) None (Ok true) st.
Proof. apply (untrusted_xff_is_ignored first_listed (λ _ _, false)). reflexivity. Defined.
