(* ===== verification/InFlight.v ===== *)
(** * Whole-gateway in-flight cap

    Models [ai-gateway/src/middleware/gateway_in_flight_limit] (the in-process
    counter, the Redis scripts and the tower layer) together with
    [middleware/counted_body.rs], the response body that gives the slot back.

    A request passes through three phases: the slot is acquired, the inner
    service is awaited, and the response body is streamed.  The phases of all
    requests are kept in one map, and the interleaving of requests is a list of
    events executed by [sys_step]. *)

From S2P Require Import Prelude.
Local Open Scope Z_scope.

(** ** memory.rs *)

(* src: ai-gateway/src/middleware/gateway_in_flight_limit/memory.rs:5-17 MemoryInFlightLimiter *)
Record MemoryInFlightLimiter := mkMem {
  max : Z;
  inner : Z
}.

Definition new_mem (max : Z) : MemoryInFlightLimiter := mkMem max 0.

(* src: ai-gateway/src/middleware/gateway_in_flight_limit/memory.rs:19-30 MemoryInFlightLimiter::try_acquire *)
Definition mem_try_acquire (m : MemoryInFlightLimiter) : result unit unit * MemoryInFlightLimiter :=
  if max m =? 0 then (Ok tt, m)
  else if max m <=? inner m then (Err tt, m)
  else (Ok tt, mkMem (max m) (inner m + 1)).

(* src: ai-gateway/src/middleware/gateway_in_flight_limit/memory.rs:32-35 MemoryInFlightLimiter::release *)
Definition mem_release (m : MemoryInFlightLimiter) : MemoryInFlightLimiter :=
  mkMem (max m) (u32_saturating_sub (inner m) 1).

(** ** counted_body.rs *)

(** What polling the inner body returns. *)
Inductive poll_out := Pending | ReadyFrame | ReadyNone | ReadyErr.

(* src: ai-gateway/src/middleware/counted_body.rs:16-29 CountedBody *)
Record CountedBody := mkBody { released : bool }.

Definition new_body : CountedBody := mkBody false.

(** The [bool] says whether [on_release] was called. *)
(* src: ai-gateway/src/middleware/counted_body.rs:31-39 CountedBody::fire_release *)
Definition fire_release (b : CountedBody) : CountedBody * bool :=
  if released b then (b, false) else (mkBody true, true).

(* src: ai-gateway/src/middleware/counted_body.rs:50-61 CountedBody::poll_frame *)
Definition poll_frame (out : poll_out) (b : CountedBody) : CountedBody * bool :=
  match out with
  | ReadyNone | ReadyErr => fire_release b
  | Pending | ReadyFrame => (b, false)
  end.

(* src: ai-gateway/src/middleware/counted_body.rs:68-72 CountedBody::drop *)
Definition drop_body (b : CountedBody) : CountedBody * bool := fire_release b.

(** Polls of one body, then its drop: how often [on_release] ran. *)
Fixpoint polls (outs : list poll_out) (b : CountedBody) : CountedBody * nat :=
  match outs with
  | [] => (b, 0%nat)
  | o :: outs' =>
      let '(b1, f) := poll_frame o b in
      let '(b2, n) := polls outs' b1 in
      (b2, (if f then S n else n))
  end.

Definition releases (outs : list poll_out) : nat :=
  let '(b, n) := polls outs new_body in
  if (drop_body b).2 then S n else n.

Lemma polls_released outs : ∀ b,
  let '(b', n) := polls outs b in
  (n + (if released b' then 0 else 1) = if released b then 0 else 1)%nat.
Proof.
  induction outs as [|o outs IH]; intros [r]; simpl; [by destruct r|].
  destruct o, r; simpl; try (specialize (IH (mkBody true)); by destruct (polls outs _));
    try (specialize (IH (mkBody false)); by destruct (polls outs _));
    specialize (IH (mkBody true)); destruct (polls outs _) as [b' n]; simpl in *; lia.
Qed.

(** The release callback of a counted response body runs exactly
    once: for every sequence of polls of the inner body (frames, pendings, an
    end, errors, polls after the end) followed by the drop of the body,
    [on_release] is called once, never zero times and never twice. *)
Theorem release_exactly_once outs : releases outs = 1%nat.
Proof.
  unfold releases. pose proof (polls_released outs new_body) as H.
  destruct (polls outs new_body) as [[r] n]. unfold drop_body, fire_release. simpl in *.
  destruct r; simpl in *; lia.
Qed.

(** ** The Redis scripts

    The counter key holds an integer; an absent key reads as 0. *)

(** [acquire_in_flight.lua]: INCR, and roll back above the maximum. *)
(* src: ai-gateway/src/middleware/gateway_in_flight_limit/redis_script.rs:3-6 acquire_in_flight_script *)
Definition acquire_script (max n : Z) : bool * Z :=
  let n1 := n + 1 in
  if max <? n1 then (false, n1 - 1) else (true, n1).

(* src: ai-gateway/src/middleware/gateway_in_flight_limit/redis_release.rs:9-24 decr_floor_refresh_ttl *)
Definition decr_floor (n : Z) : Z := if 0 <? n then n - 1 else n.

(** ** layer.rs *)

(* src: ai-gateway/src/config/gateway_in_flight_limit.rs:53-59 GatewayInFlightBackend *)
Inductive GatewayInFlightBackend := Memory | Redis.

(* src: ai-gateway/src/config/gateway_in_flight_limit.rs:29-40 GatewayInFlightLimitConfig *)
Record GatewayInFlightLimitConfig := mkConfig {
  enabled : bool;
  max_concurrent : Z;
  backend : GatewayInFlightBackend;
  redis_key_prefix : string
}.

(* src: ai-gateway/src/config/gateway_in_flight_limit.rs:42-51 GatewayInFlightLimitConfig::default *)
Definition default_config : GatewayInFlightLimitConfig := mkConfig false 0 Memory "gw:gifl:".

(* src: ai-gateway/src/config/gateway_in_flight_limit.rs:8-27 validate_global_gateway_in_flight_limit *)
Definition validate_global_gateway_in_flight_limit (c : option GatewayInFlightLimitConfig)
  : result unit string :=
  match c with
  | None => Ok tt
  | Some c =>
      if negb (enabled c) then Ok tt
      else if max_concurrent c =? 0
      then Err "global.gateway-in-flight-limit: max-concurrent must be >= 1 when enabled"
      else Ok tt
  end.

(* src: ai-gateway/src/middleware/gateway_in_flight_limit/layer.rs:49-53 HeldSlot *)
Inductive HeldSlot := SlotMemory | SlotRedis.

(* src: ai-gateway/src/middleware/gateway_in_flight_limit/layer.rs:55-65 State *)
Record State := mkState {
  cfg : GatewayInFlightLimitConfig;
  redis_counter_key : string;
  memory : MemoryInFlightLimiter;
  redis : bool;
  use_redis : bool
}.

Inductive metric :=
| RedisDegraded            (* gateway_in_flight_redis_degraded.add(1) *)
| DegradedGauge (v : Z)    (* rate_limit_redis_degraded_gauge.record(v) *)
| Rejected                 (* gateway_in_flight_rejected.add(1) *)
| Allowed.                 (* gateway_in_flight_allowed.add(1) *)

Definition with_memory (m : MemoryInFlightLimiter) (st : State) : State :=
  mkState (cfg st) (redis_counter_key st) m (redis st) (use_redis st).
Definition with_use_redis (b : bool) (st : State) : State :=
  mkState (cfg st) (redis_counter_key st) (memory st) (redis st) b.

(* src: ai-gateway/src/middleware/gateway_in_flight_limit/layer.rs:73-114 GatewayInFlightLimitLayer::new *)
Definition new_layer (c : option GatewayInFlightLimitConfig) (has_redis : bool)
    (ping : result unit unit) : State :=
  let c := default default_config c in
  mkState c (redis_key_prefix c +:+ "inflight") (new_mem (Z.max (max_concurrent c) 1)) has_redis
    (enabled c && match backend c with Redis => true | Memory => false end
     && has_redis && is_ok ping).

(* src: ai-gateway/src/middleware/gateway_in_flight_limit/layer.rs:116-140 recovery task *)
Definition recovery_tick (ping : result unit unit) (st : State) : State * list metric :=
  if use_redis st then (st, [])
  else match ping with
       | Ok _ => (with_use_redis true st, [DegradedGauge 0])
       | Err _ => (st, [])
       end.

Definition memory_acquire (st : State) : result HeldSlot unit * State :=
  let '(r, m) := mem_try_acquire (memory st) in
  (match r with Ok _ => Ok SlotMemory | Err e => Err e end, with_memory m st).

(** [eval] is the reply of the Redis script. *)
(* src: ai-gateway/src/middleware/gateway_in_flight_limit/layer.rs:145-178 GatewayInFlightLimitLayer::try_acquire *)
Definition try_acquire (eval : result bool unit) (st : State)
  : result HeldSlot unit * State * list metric :=
  if use_redis st && redis st then
    match eval with
    | Ok true => (Ok SlotRedis, st, [])
    | Ok false => (Err tt, st, [])
    | Err _ =>
        let '(r, st') := memory_acquire (with_use_redis false st) in
        (r, st', [RedisDegraded; DegradedGauge 1])
    end
  else let '(r, st') := memory_acquire st in (r, st', []).

(** The part of [call] up to the await of the inner service. *)
Inductive entry :=
| PassThrough                                                  (* layer disabled *)
| TooMany (ratelimit_limit ratelimit_remaining retry_after : Z)
| Proceed (slot : HeldSlot).

(* src: ai-gateway/src/middleware/gateway_in_flight_limit/layer.rs:180-187 GatewayInFlightLimitLayer::too_many *)
Definition too_many (max : Z) : entry := TooMany max 0 1.

(* src: ai-gateway/src/middleware/gateway_in_flight_limit/layer.rs:220-239 GatewayInFlightLimitService::call *)
Definition call_enter (eval : result bool unit) (st : State) : entry * State * list metric :=
  if negb (enabled (cfg st)) then (PassThrough, st, [])
  else
    let max := Z.max (max_concurrent (cfg st)) 1 in
    let '(r, st1, ms) := try_acquire eval st in
    match r with
    | Ok slot => (Proceed slot, st1, ms ++ [Allowed])
    | Err _ => (too_many max, st1, ms ++ [Rejected])
    end.

(** ** The system: layer, Redis counter and the requests in progress *)

(** [Awaiting]: the slot is held and [inner.call(req)] is awaited.
    [Streaming]: the response is wrapped in a [CountedBody]. *)
Inductive phase :=
| Awaiting (slot : HeldSlot)
| Streaming (slot : HeldSlot) (b : CountedBody).

Record Sys := mkSys {
  layer : State;
  redis_counter : Z;
  requests : gmap nat phase
}.

(** [on_release] of a slot; [decr_ok] says whether the spawned Redis task
    reached the server. *)
(* src: ai-gateway/src/middleware/gateway_in_flight_limit/layer.rs:240-279 on_release *)
Definition on_release (slot : HeldSlot) (decr_ok : bool) (s : Sys) : Sys :=
  match slot with
  | SlotMemory =>
      mkSys (with_memory (mem_release (memory (layer s))) (layer s)) (redis_counter s) (requests s)
  | SlotRedis =>
      if redis (layer s) && decr_ok
      then mkSys (layer s) (decr_floor (redis_counter s)) (requests s)
      else s
  end.

Inductive event :=
| Arrive (id : nat) (redis_up : bool)
| Respond (id : nat)
| Poll (id : nat) (out : poll_out) (decr_ok : bool)
| DropBody (id : nat) (decr_ok : bool)
| Cancel (id : nat)                (* the client goes away while the inner service is awaited *)
| Tick (ping : result unit unit).

Definition set_phase (id : nat) (ph : phase) (s : Sys) : Sys :=
  mkSys (layer s) (redis_counter s) (<[id := ph]> (requests s)).
Definition remove_phase (id : nat) (s : Sys) : Sys :=
  mkSys (layer s) (redis_counter s) (delete id (requests s)).

(** The reply of Redis and the counter after the script, when Redis is asked. *)
Definition redis_eval (up : bool) (s : Sys) : result bool unit * Z :=
  if up then
    let '(b, n) := acquire_script (Z.max (max_concurrent (cfg (layer s))) 1) (redis_counter s) in
    (Ok b, n)
  else (Err tt, redis_counter s).

Definition arrive (id : nat) (up : bool) (s : Sys) : Sys :=
  let asked := enabled (cfg (layer s)) && use_redis (layer s) && redis (layer s) in
  let '(reply, n) := if asked then redis_eval up s else (Err tt, redis_counter s) in
  let '(en, st', _) := call_enter reply (layer s) in
  let s' := mkSys st' n (requests s) in
  match en with
  | Proceed slot => set_phase id (Awaiting slot) s'
  | PassThrough | TooMany _ _ _ => s'
  end.

Definition fire_if (f : bool) (slot : HeldSlot) (decr_ok : bool) (s : Sys) : Sys :=
  if f then on_release slot decr_ok s else s.

Definition sys_step (e : event) (s : Sys) : Sys :=
  match e with
  | Arrive id up =>
      match requests s !! id with None => arrive id up s | Some _ => s end
  | Respond id =>
      match requests s !! id with
      | Some (Awaiting slot) => set_phase id (Streaming slot new_body) s
      | _ => s
      end
  | Poll id out ok =>
      match requests s !! id with
      | Some (Streaming slot b) =>
          let '(b', f) := poll_frame out b in
          set_phase id (Streaming slot b') (fire_if f slot ok s)
      | _ => s
      end
  | DropBody id ok =>
      match requests s !! id with
      | Some (Streaming slot b) =>
          let '(_, f) := drop_body b in
          remove_phase id (fire_if f slot ok s)
      | _ => s
      end
  | Cancel id =>
      match requests s !! id with
      | Some (Awaiting _) => remove_phase id s
      | _ => s
      end
  | Tick ping => mkSys (recovery_tick ping (layer s)).1 (redis_counter s) (requests s)
  end.

Definition sys_run (es : list event) (s : Sys) : Sys := fold_left (λ s e, sys_step e s) es s.

Definition is_cancel (e : event) : bool := match e with Cancel _ => true | _ => false end.

(** A request that still holds a slot of the in-process counter. *)
Definition holds_memory (ph : phase) : bool :=
  match ph with
  | Awaiting SlotMemory => true
  | Streaming SlotMemory b => negb (released b)
  | _ => false
  end.

Definition fresh_sys (c : GatewayInFlightLimitConfig) (has_redis : bool) (ping : result unit unit)
  : Sys := mkSys (new_layer (Some c) has_redis ping) 0 ∅.

(** [leak] slots were taken by requests that have gone. *)
Definition inv (cap leak : Z) (s : Sys) : Prop :=
  max (memory (layer s)) = cap ∧ 0 < cap
  ∧ inner (memory (layer s)) = count_map holds_memory (requests s) + leak
  ∧ 0 ≤ leak ∧ inner (memory (layer s)) ≤ cap.

(** ** Preservation *)

Lemma memory_acquire_inv cap leak s r st' :
  inv cap leak s → memory_acquire (layer s) = (r, st') →
  (r = Ok SlotMemory ∧ inner (memory st') = inner (memory (layer s)) + 1 ∧ max (memory st') = cap
   ∧ inner (memory (layer s)) < cap)
  ∨ (r = Err tt ∧ st' = layer s ∧ inner (memory (layer s)) = cap).
Proof.
  intros (Hmax & Hcap & Hin & Hl & Hle). unfold memory_acquire, mem_try_acquire.
  rw Hmax (proj2 (Z.eqb_neq _ _)); [|lia].
  destruct (cap <=? inner (memory (layer s))) eqn:E; intros [= <- <-]; bool_to_prop.
  - right. split_and!; [done| |lia]. by destruct (layer s).
  - left. done.
Qed.

Lemma with_use_redis_inv cap leak b s :
  inv cap leak s → inv cap leak (mkSys (with_use_redis b (layer s)) (redis_counter s) (requests s)).
Proof. done. Qed.

(** An arrival either takes one in-process slot or leaves the counter alone. *)
Lemma arrive_inv cap leak id up s :
  inv cap leak s → requests s !! id = None → inv cap leak (arrive id up s).
Proof.
  intros Hinv Hid. unfold arrive.
  destruct (if _ && _ && _ then _ else _) as [reply n].
  unfold call_enter. destruct (enabled (cfg (layer s))) eqn:Hen; simpl; [|done].
  unfold try_acquire.
  assert (Hmem : ∀ st, inv cap leak (mkSys st (redis_counter s) (requests s)) →
    let '(r, st') := memory_acquire st in
    match r with
    | Ok slot => inv cap leak (mkSys st' n (<[id := Awaiting slot]> (requests s)))
    | Err _ => inv cap leak (mkSys st' n (requests s))
    end).
  { intros st Hst. destruct (memory_acquire st) as [r st'] eqn:E.
    destruct (memory_acquire_inv _ _ _ _ _ Hst E) as [(-> & Hi & Hm & Hlt)|(-> & -> & _)]; [|done].
    destruct Hst as (_ & ? & Hin & ? & ?). unfold inv in *. simpl in *.
    rw (count_map_insert_None _ _ _ _ Hid) /=. lia. }
  destruct (use_redis (layer s) && redis (layer s)) eqn:Hu.
  - destruct reply as [[]|].
    + unfold inv, set_phase in *. simpl.
      rw (count_map_insert_None _ _ _ _ Hid) /=. lia.
    + done.
    + specialize (Hmem (with_use_redis false (layer s)) Hinv).
      destruct (memory_acquire _) as [[slot|] st']; done.
  - specialize (Hmem (layer s)). destruct (memory_acquire _) as [[slot|] st']; apply Hmem;
      by destruct s.
Qed.

Lemma release_inv cap leak id slot b f b' ok s :
  inv cap leak s → requests s !! id = Some (Streaming slot b) → fire_release b = (b', f) →
  inv cap leak (set_phase id (Streaming slot b') (fire_if f slot ok s))
  ∧ inv cap leak (remove_phase id (fire_if f slot ok s)).
Proof.
  intros Hinv Hid. unfold fire_release.
  pose proof (count_map_nonneg holds_memory (delete id (requests s))) as Hpos.
  rw (count_map_delete _ _ _ _ Hid) in Hpos.
  destruct (released b) eqn:Hr; intros [= <- <-]; unfold inv in *; simpl.
  - rw (count_map_insert_Some _ _ _ _ _ Hid) (count_map_delete _ _ _ _ Hid).
    destruct slot; simpl; rw ?Hr /=; lia.
  - destruct slot; simpl in *.
    + rw (count_map_insert_Some _ _ _ _ _ Hid) (count_map_delete _ _ _ _ Hid).
      rw Hr /= in Hpos. simpl. rw Hr /=. unfold u32_saturating_sub. lia.
    + destruct (redis (layer s) && ok); simpl;
        rw (count_map_insert_Some _ _ _ _ _ Hid) (count_map_delete _ _ _ _ Hid) /=; lia.
Qed.

Lemma poll_pending_inv cap leak id slot b s :
  inv cap leak s → requests s !! id = Some (Streaming slot b) →
  inv cap leak (set_phase id (Streaming slot b) s).
Proof.
  intros Hinv Hid. unfold inv, set_phase in *. simpl.
  rw (count_map_insert_Some _ _ _ _ _ Hid). lia.
Qed.

Lemma step_inv cap leak e s :
  is_cancel e = false → inv cap leak s → inv cap leak (sys_step e s).
Proof.
  intros Hc Hinv. destruct e as [id up|id|id out ok|id ok|id|ping]; simpl; [| | | |done|].
  - destruct (requests s !! id) eqn:Hid; [done|]. by apply arrive_inv.
  - destruct (requests s !! id) as [[slot|]|] eqn:Hid; [|done..].
    unfold inv, set_phase in *. simpl. rw (count_map_insert_Some _ _ _ _ _ Hid).
    destruct slot; simpl; lia.
  - destruct (requests s !! id) as [[|slot b]|] eqn:Hid; [done| |done].
    destruct out; simpl; try by apply poll_pending_inv.
    all: destruct (fire_release b) as [b' f] eqn:E; by eapply release_inv.
  - destruct (requests s !! id) as [[|slot b]|] eqn:Hid; [done| |done].
    destruct (drop_body b) as [b' f] eqn:E. by eapply (release_inv _ _ _ _ b).
  - unfold recovery_tick. destruct (use_redis (layer s)), ping; done.
Qed.

Lemma run_inv cap leak es : ∀ s,
  forallb (λ e, negb (is_cancel e)) es = true → inv cap leak s → inv cap leak (sys_run es s).
Proof.
  induction es as [|e es IH]; intros s; simpl; [done|].
  intros [He Hes]%andb_true_iff Hinv. apply IH; [done|].
  apply step_inv; [|done]. by apply negb_true_iff.
Qed.

Lemma fresh_inv c has_redis ping :
  inv (Z.max (max_concurrent c) 1) 0 (fresh_sys c has_redis ping).
Proof. unfold inv. simpl. rw count_map_empty. lia. Qed.

(** C10 (invariant). Slot accounting of the in-process cap: in every execution
    in which no client goes away while the inner service is awaited (any
    interleaving of arrivals, responses, body polls and drops, Redis outages
    and recoveries), the counter equals the number of requests that hold an
    in-process slot, and never exceeds [max(max_concurrent, 1)]. *)
Theorem in_flight_counter_exact c has_redis ping es :
  forallb (λ e, negb (is_cancel e)) es = true →
  let s := sys_run es (fresh_sys c has_redis ping) in
  inner (memory (layer s)) = count_map holds_memory (requests s)
  ∧ count_map holds_memory (requests s) ≤ Z.max (max_concurrent c) 1.
Proof.
  intros Hes. destruct (run_inv _ _ es _ Hes (fresh_inv c has_redis ping)) as (_ & _ & ? & _ & ?).
  simpl. lia.
Qed.

Definition sample_cfg : GatewayInFlightLimitConfig := mkConfig true 2 Memory "gw:gifl:".

Lemma in_flight_counter_exact_witness :
  let s := sys_run [Arrive 0 true; Arrive 1 true; Arrive 2 true; Respond 0; Poll 0 ReadyNone true;
                    DropBody 0 true; Arrive 3 true] (fresh_sys sample_cfg false (Err tt)) in
  inner (memory (layer s)) = count_map holds_memory (requests s) ∧ inner (memory (layer s)) = 2.
Proof.
  split; [|by vm_compute].
  apply (in_flight_counter_exact sample_cfg false (Err tt)
    [Arrive 0 true; Arrive 1 true; Arrive 2 true; Respond 0; Poll 0 ReadyNone true;
     DropBody 0 true; Arrive 3 true]). reflexivity.
Defined.

(** ** A cancelled request keeps its slot *)

Definition arrive_cancel (id : nat) : list event := [Arrive id true; Cancel id].
Definition arrive_cancels (n : nat) : list event := concat (arrive_cancel <$> seq 0 n).

(** The state reached after [k] cancelled requests on the in-process backend. *)
Definition leaked_sys (c : GatewayInFlightLimitConfig) (k : Z) : Sys :=
  mkSys (with_memory (mkMem (Z.max (max_concurrent c) 1) k) (new_layer (Some c) false (Err tt))) 0 ∅.

Lemma arrive_cancel_leaks c k id :
  enabled c = true → 0 ≤ k < Z.max (max_concurrent c) 1 →
  sys_run (arrive_cancel id) (leaked_sys c k) = leaked_sys c (k + 1).
Proof.
  intros Hen Hk. unfold sys_run, arrive_cancel. simpl. rw lookup_empty.
  unfold arrive, call_enter, try_acquire, memory_acquire, mem_try_acquire. simpl.
  rw Hen !andb_false_r /=.
  rw (proj2 (Z.eqb_neq _ _)); [|lia]. rw (proj2 (Z.leb_gt _ _)); [|lia]. simpl.
  rw lookup_insert_eq /remove_phase /= delete_insert_id //.
Qed.

Lemma arrive_cancels_leak c n :
  enabled c = true → Z.of_nat n ≤ Z.max (max_concurrent c) 1 →
  sys_run (arrive_cancels n) (leaked_sys c 0) = leaked_sys c (Z.of_nat n).
Proof.
  intros Hen. induction n as [|n IH]; intros Hn; [done|].
  unfold arrive_cancels, sys_run in *.
  rw seq_S fmap_app concat_app fold_left_app IH /=; [|lia].
  pose proof (arrive_cancel_leaks c (Z.of_nat n) n Hen ltac:(lia)) as H.
  unfold sys_run in H. simpl in H. rw H. f_equal. lia.
Qed.

(** With every slot leaked and no Redis, nothing is ever admitted again. *)
Definition stuck (c : GatewayInFlightLimitConfig) (s : Sys) : Prop :=
  requests s = ∅ ∧ cfg (layer s) = c ∧ redis (layer s) = false
  ∧ memory (layer s) = mkMem (Z.max (max_concurrent c) 1) (Z.max (max_concurrent c) 1).

Lemma stuck_step c e s : enabled c = true → stuck c s → stuck c (sys_step e s).
Proof.
  intros Hen (Hreq & Hcfg & Hred & Hmem).
  destruct e as [id up|id|id out ok|id ok|id|ping]; simpl; rw ?Hreq ?lookup_empty //=.
  - unfold arrive, call_enter, try_acquire, memory_acquire, mem_try_acquire.
    rw Hcfg Hen Hred !andb_false_r Hmem /=.
    rw (proj2 (Z.eqb_neq _ _)); [|lia]. rw (proj2 (Z.leb_le _ _)); [|lia]. done.
  - unfold recovery_tick. destruct (use_redis (layer s)), ping; done.
Qed.

(** Cancelled requests leak their slot: on an enabled layer with
    the in-process backend, once [max(max_concurrent, 1)] clients have gone
    away while the inner service was being awaited, no request is in progress
    and yet every later request is answered 429, whatever happens next; only a
    restart of the gateway frees the slots. *)
Theorem cancelled_requests_exhaust_the_gateway c later :
  enabled c = true →
  let s := sys_run (arrive_cancels (Z.to_nat (Z.max (max_concurrent c) 1)))
             (fresh_sys c false (Err tt)) in
  requests s = ∅
  ∧ requests (sys_run later s) = ∅
  ∧ ∀ eval, (call_enter eval (layer (sys_run later s))).1.1
            = too_many (Z.max (max_concurrent c) 1).
Proof.
  intros Hen s.
  assert (Hs : s = leaked_sys c (Z.max (max_concurrent c) 1)).
  { pose proof (arrive_cancels_leak c (Z.to_nat (Z.max (max_concurrent c) 1)) Hen) as H.
    rw Z2Nat.id in H; [|lia]. by apply H. }
  assert (Hstuck : ∀ l s', stuck c s' → stuck c (sys_run l s')).
  { induction l as [|e l IH]; intros s' Hs'; [done|]. apply IH. by apply stuck_step. }
  assert (Hs0 : stuck c s) by (by rw Hs).
  destruct (Hstuck later s Hs0) as (Hreq & Hcfg & Hred & Hmem).
  split; [apply Hs0|]. split; [done|]. intros eval.
  unfold call_enter, try_acquire, memory_acquire, mem_try_acquire.
  rw Hcfg Hen Hred andb_false_r Hmem /=.
  rw (proj2 (Z.eqb_neq _ _)); [|lia]. by rw (proj2 (Z.leb_le _ _)).
Qed.

Lemma cancelled_requests_exhaust_the_gateway_witness :
  let s := sys_run (arrive_cancels 2) (fresh_sys sample_cfg false (Err tt)) in
  requests s = ∅ ∧ (call_enter (Err tt) (layer (sys_run [Arrive 7 true] s))).1.1 = TooMany 2 0 1.
Proof.
  destruct (cancelled_requests_exhaust_the_gateway sample_cfg [Arrive 7 true] eq_refl)
    as (H1 & _ & H2).
  split; [exact H1|]. exact (H2 (Err tt)).
Defined.
