(* ===== verification/WorkspaceConcurrency.v ===== *)
(** * Requests in flight per workspace

    Models [ai-gateway/src/middleware/workspace_concurrency]: the counter in
    Redis that goes up when a request of a workspace comes and down when the
    body of its response is consumed or dropped.

    The counted body is that of [InFlight]; what Redis answers is part of each
    event. *)

From S2P Require Import Prelude InFlight.
Local Open Scope string_scope.

(* src: ai-gateway/src/middleware/workspace_concurrency/constants.rs:6-9 redis_key *)
Definition redis_key (workspace : string) : string := "lc:mq:rmt:concurrency:ws:" ++ workspace.

(* src: ai-gateway/src/middleware/workspace_concurrency/constants.rs:11-14 placeholder_workspace *)
Definition placeholder_workspace : string := "00000000-0000-0000-0000-000000000000".

(* src: ai-gateway/src/middleware/workspace_concurrency/service.rs:62-65 WorkspaceConcurrencyService::call *)
Definition workspace_of (auth_org_id : option string) : string := default placeholder_workspace auth_org_id.

(** The counters; an absent key reads as 0. *)
Abbreviation Counters := (gmap string Z).
Definition counter (k : string) (c : Counters) : Z := default 0%Z (c !! k).

(** [INCR] and [EXPIRE] are two commands: the second can fail alone. *)
Inductive incr_outcome := IncrFailed | ExpireFailed | IncrOk.

(* src: ai-gateway/src/app_redis.rs:122-133 AppRedis::incr_and_expire *)
Definition incr_and_expire (k : string) (o : incr_outcome) (c : Counters) : bool * Counters :=
  match o with
  | IncrFailed => (false, c)
  | ExpireFailed => (false, <[k := (counter k c + 1)%Z]> c)
  | IncrOk => (true, <[k := (counter k c + 1)%Z]> c)
  end.

(* src: ai-gateway/src/middleware/workspace_concurrency/redis_ops.rs:9-20 DECR_FLOOR *)
Definition decr_floor (k : string) (c : Counters) : Counters :=
  if (0 <? counter k c)%Z then <[k := (counter k c - 1)%Z]> c else c.

(** A request waits for the inner service, or its response is being sent;
    [counted] is [incr_ok]. *)
Inductive wphase := Calling (key : string) (counted : bool) | Sending (key : string) (b : CountedBody).

(** [tasks] are the decrements that were spawned and have not run. *)
Record WSys := mkWSys { counters : Counters; live : gmap nat wphase; tasks : list string }.

Inductive wevent :=
| WArrive (id : nat) (auth_org_id : option string) (o : incr_outcome)
| WRespond (id : nat)
| WFail (id : nat)       (* the inner service returns an error, or the caller goes away *)
| WPoll (id : nat) (out : poll_out)
| WDrop (id : nat)
| WTask (ok : bool).     (* the oldest spawned decrement runs *)

Definition release (fired : bool) (k : string) (s : WSys) : WSys :=
  if fired then mkWSys (counters s) (live s) (tasks s ++ [k])%list else s.

(** One step of a gateway with Redis. *)
(* src: ai-gateway/src/middleware/workspace_concurrency/service.rs:50-126 WorkspaceConcurrencyService::call *)
Definition wstep (s : WSys) (e : wevent) : WSys :=
  match e with
  | WArrive id org o =>
      match live s !! id with
      | Some _ => s
      | None =>
          let key := redis_key (workspace_of org) in
          let '(ok, c) := incr_and_expire key o (counters s) in
          mkWSys c (<[id := Calling key ok]> (live s)) (tasks s)
      end
  | WRespond id =>
      match live s !! id with
      | Some (Calling key true) => mkWSys (counters s) (<[id := Sending key new_body]> (live s)) (tasks s)
      | Some (Calling _ false) => mkWSys (counters s) (delete id (live s)) (tasks s)
      | _ => s
      end
  | WFail id =>
      match live s !! id with
      | Some (Calling _ _) => mkWSys (counters s) (delete id (live s)) (tasks s)
      | _ => s
      end
  | WPoll id out =>
      match live s !! id with
      | Some (Sending key b) =>
          let '(b', fired) := poll_frame out b in
          release fired key (mkWSys (counters s) (<[id := Sending key b']> (live s)) (tasks s))
      | _ => s
      end
  | WDrop id =>
      match live s !! id with
      | Some (Sending key b) =>
          let '(_, fired) := drop_body b in release fired key (mkWSys (counters s) (delete id (live s)) (tasks s))
      | _ => s
      end
  | WTask ok =>
      match tasks s with
      | k :: rest => mkWSys (if ok then decr_floor k (counters s) else counters s) (live s) rest
      | [] => s
      end
  end.

Definition wrun (es : list wevent) (s : WSys) : WSys := fold_left wstep es s.

(** ** What the counter counts *)

Section accounting.
Context (k : string).

(** A request whose increment has not been taken back. *)
Definition holds (p : wphase) : bool :=
  match p with
  | Calling key counted => counted && bool_decide (key = k)
  | Sending key b => negb (released b) && bool_decide (key = k)
  end.

Definition spawned (l : list string) : Z := Z.of_nat (length (filter (λ x, x = k) l)).

(** What a step adds to the counter for good: an increment whose request
    failed, or whose [EXPIRE] did, and a decrement that did not run. *)
Definition leak_of (s : WSys) (e : wevent) : Z :=
  match e with
  | WArrive id org ExpireFailed =>
      match live s !! id with None => Z.b2z (bool_decide (redis_key (workspace_of org) = k)) | Some _ => 0 end
  | WFail id => match live s !! id with Some (Calling key counted) => Z.b2z (holds (Calling key counted)) | _ => 0 end
  | WTask false => match tasks s with x :: _ => Z.b2z (bool_decide (x = k)) | [] => 0 end
  | _ => 0
  end.

Fixpoint leaks (es : list wevent) (s : WSys) : Z :=
  match es with [] => 0 | e :: es => leak_of s e + leaks es (wstep s e) end.

Definition accounted (leak : Z) (s : WSys) : Prop :=
  counter k (counters s) = (count_map holds (live s) + spawned (tasks s) + leak)%Z ∧ (0 ≤ leak)%Z.

Lemma counter_insert k' n c : counter k (<[k' := n]> c) = if bool_decide (k' = k) then n else counter k c.
Proof. rw /counter. case_bool_decide as H; [by rw H lookup_insert_eq|by rw lookup_insert_ne]. Qed.

Lemma spawned_snoc l x : spawned (l ++ [x])%list = (spawned l + Z.b2z (bool_decide (x = k)))%Z.
Proof.
  rw /spawned filter_app length_app. case_bool_decide as H; [rw filter_cons_True //|rw filter_cons_False //]; cbn; lia.
Qed.

Lemma spawned_cons x l : spawned (x :: l) = (Z.b2z (bool_decide (x = k)) + spawned l)%Z.
Proof. rw /spawned. case_bool_decide as H; [rw filter_cons_True //|rw filter_cons_False //]; cbn [length Z.b2z]; lia. Qed.

Lemma leak_of_nonneg s e : (0 ≤ leak_of s e)%Z.
Proof. rw /leak_of. repeat case_match; try lia; destruct (bool_decide _) || destruct (holds _); cbn; lia. Qed.

Lemma wstep_accounted leak s e : accounted leak s → accounted (leak + leak_of s e) (wstep s e).
Proof.
  intros [Hc Hl]. pose proof (leak_of_nonneg s e) as Hn. split; [|lia].
  destruct e as [id org o|id|id|id out|id|ok]; cbn [wstep leak_of].
  - destruct (live s !! id) as [p|] eqn:Hi; [destruct o; rw Hc; lia|].
    destruct o; cbn; rw (count_map_insert_None _ _ _ _ Hi) /= ?counter_insert; try (case_bool_decide as Hk; rw ?Hk); cbn; lia.
  - destruct (live s !! id) as [[key [|]|key b]|] eqn:Hi; cbn; try lia.
    + rw (count_map_insert_Some _ _ _ _ _ Hi) /=. lia.
    + rw (count_map_delete _ _ _ _ Hi) /=. lia.
  - destruct (live s !! id) as [[key counted|key b]|] eqn:Hi; cbn [counters live tasks]; try lia.
    rw (count_map_delete _ _ _ _ Hi). lia.
  - destruct (live s !! id) as [[key counted|key b]|] eqn:Hi; cbn; try lia.
    destruct b as [[|]], out; cbn; rw ?(count_map_insert_Some _ _ _ _ _ Hi) ?spawned_snoc /=; repeat case_bool_decide; cbn in *; lia.
  - destruct (live s !! id) as [[key counted|key b]|] eqn:Hi; cbn; try lia.
    destruct b as [[|]]; cbn; rw (count_map_delete _ _ _ _ Hi) ?spawned_snoc /=; repeat case_bool_decide; cbn in *; lia.
  - destruct (tasks s) as [|x rest] eqn:Ht; [destruct ok; rw ?Ht; cbn in *; lia|]. rw spawned_cons in Hc. destruct ok; cbn; [|lia].
    rw /decr_floor. assert (0 ≤ count_map holds (live s))%Z by apply count_map_nonneg.
    assert (0 ≤ spawned rest)%Z by (rw /spawned; lia).
    destruct (decide (x = k)) as [->|Hx].
    + rw (bool_decide_true _ eq_refl) /= in Hc. rw (proj2 (Z.ltb_lt _ _)); [rw counter_insert bool_decide_true //; lia|lia].
    + rw bool_decide_false // /= in Hc. case_match; [rw counter_insert bool_decide_false //|]; lia.
Qed.

Lemma wrun_accounted es leak s : accounted leak s → accounted (leak + leaks es s) (wrun es s).
Proof.
  revert leak s. induction es as [|e es IH]; intros leak s H; cbn [leaks wrun fold_left].
  { by rw Z.add_0_r. }
  rw Z.add_assoc. by apply IH, wstep_accounted.
Qed.

(** C11 (invariant). While Redis keeps its key, a workspace's counter is the
    number of its requests that are waiting or being answered, plus the
    decrements under way, plus what was leaked: nothing but a failed request, a
    failed [EXPIRE] or a failed decrement leaks. *)
Theorem workspace_counter_accounts es :
  let s := wrun es (mkWSys ∅ ∅ []) in
  counter k (counters s) = (count_map holds (live s) + spawned (tasks s) + leaks es (mkWSys ∅ ∅ []))%Z ∧
  (0 ≤ leaks es (mkWSys ∅ ∅ []))%Z.
Proof. apply (wrun_accounted es 0 (mkWSys ∅ ∅ [])). split; [|done]. by rw count_map_empty. Qed.
End accounting.

(** Requests whose inner service fails are counted for good: after [n] of
    them nothing is in flight and the counter says [n]. *)
Lemma failed_requests_stay_counted n org :
  let s := wrun (concat (replicate n [WArrive 0 (Some org) IncrOk; WFail 0])) (mkWSys ∅ ∅ []) in
  live s = ∅ ∧ tasks s = [] ∧ counter (redis_key org) (counters s) = Z.of_nat n.
Proof.
  cut (∀ s, live s = ∅ → tasks s = [] →
    let s' := wrun (concat (replicate n [WArrive 0 (Some org) IncrOk; WFail 0])) s in
    live s' = ∅ ∧ tasks s' = [] ∧ counter (redis_key org) (counters s') = (counter (redis_key org) (counters s) + Z.of_nat n)%Z).
  { intros H. destruct (H (mkWSys ∅ ∅ []) eq_refl eq_refl) as (H1 & H2 & H3). by split_and!. }
  induction n as [|n IH]; intros s Hl Ht; cbn [replicate concat wrun fold_left app].
  { split_and!; [done|done|lia]. }
  cbn [wstep]. rw Hl lookup_empty /=. rw lookup_insert_eq.
  destruct (IH (mkWSys (<[redis_key org := (counter (redis_key org) (counters s) + 1)%Z]> (counters s)) ∅ [])) as (H1 & H2 & H3); [done..|].
  rw Ht delete_insert_id //. split_and!; [done|done|]. rw H3 /= counter_insert bool_decide_true //. lia.
Qed.
