(* ===== verification/IdentityLimit.v ===== *)
(** * Per-workspace request rate limit

    Models [ai-gateway/src/middleware/identity_rate_limit.rs], its
    configuration [config/identity_rate_limit.rs] and the Lua script of
    [AppRedis::identity_rate_limit_count].

    Both backends are compared with one reference, [fw_step]: a fixed window
    per workspace, opened by the first call after the previous window ended.
    The in-process table with its periodic cleanup and the Redis script are
    both shown to give exactly the verdicts of that reference. *)

From S2P Require Import Prelude ClientIpLimit.
Local Open Scope Z_scope.

Abbreviation Uuid := Z (only parsing).

(* src: ai-gateway/src/middleware/identity_rate_limit.rs:16-20 IdentityRateLimitError *)
Inductive IdentityRateLimitError :=
| Rejected (retry_after : Z)
| Unavailable.

(* src: ai-gateway/src/middleware/identity_rate_limit.rs:22-26 Window *)
Record Window := mkWindow { count : Z; expires : Instant }.

(* src: ai-gateway/src/middleware/identity_rate_limit.rs:28-37 MemoryState *)
Record MemoryState := mkMemoryState {
  windows : gmap Uuid Window;
  last_cleanup : option Instant
}.

Definition default_memory : MemoryState := mkMemoryState ∅ None.

(** ** config/identity_rate_limit.rs *)

(* src: ai-gateway/src/types/extensions.rs:279-288 RequestKind *)
Inductive RequestKind :=
| Router | UnifiedApi | DirectProxy | CustomProvider | AgentEvents | AgentTools | X402Agent.

(* src: ai-gateway/src/config/identity_rate_limit.rs:9-14 IdentityRateLimitScope *)
Inductive IdentityRateLimitScope := Models | Tools.

#[global] Instance scope_eq_dec : EqDecision IdentityRateLimitScope.
Proof. solve_decision. Defined.

(* src: ai-gateway/src/config/identity_rate_limit.rs:16-25 IdentityRateLimitConfig *)
Record IdentityRateLimitConfig := mkConfig {
  enabled : bool;
  requests : Z;
  window_seconds : Z;
  backend : ClientIpLimit.ClientIpRateLimitBackend;
  redis_key_prefix : string;
  scopes : list IdentityRateLimitScope
}.

(* src: ai-gateway/src/config/identity_rate_limit.rs:27-41 IdentityRateLimitConfig::default *)
Definition default_config : IdentityRateLimitConfig :=
  mkConfig false 100 60 ClientIpLimit.Memory "gw:identityrl:" [Models; Tools].

(* src: ai-gateway/src/config/identity_rate_limit.rs:43-57 IdentityRateLimitConfig::applies_to *)
Definition applies_to (c : IdentityRateLimitConfig) (kind : option RequestKind) : bool :=
  match kind with
  | Some (Router | UnifiedApi | DirectProxy | CustomProvider) =>
      enabled c && bool_decide (Models ∈ scopes c)
  | Some AgentTools => enabled c && bool_decide (Tools ∈ scopes c)
  | _ => false
  end.

(* src: ai-gateway/src/config/identity_rate_limit.rs:59-90 validate_identity_rate_limit *)
Definition validate_identity_rate_limit (limit : option IdentityRateLimitConfig)
    (auth_disabled has_redis_url : bool) : result unit string :=
  match limit with
  | None => Ok tt
  | Some l =>
      if negb (enabled l) then Ok tt
      else if (requests l =? 0)
              || negb ((1 <=? window_seconds l) && (window_seconds l <=? 86400))
              || bool_decide (redis_key_prefix l = "")
              || bool_decide (scopes l = [])
      then Err "identity-rate-limit requires positive requests, a 1..86400 second window, a key prefix and at least one scope"
      else if auth_disabled
      then Err "identity-rate-limit requires authenticated identities"
      else if match backend l with ClientIpLimit.Redis => negb has_redis_url | _ => false end
      then Err "identity-rate-limit Redis backend requires REDIS_URL"
      else Ok tt
  end.

(** ** The limiter *)

(** [left.as_secs() + (left.subsec_nanos() > 0)], at least one second. *)
Definition retry_after_secs (left : Duration) : Z :=
  Z.max 1 (left / from_secs 1 + (if 0 <? left mod from_secs 1 then 1 else 0)).

(* src: ai-gateway/src/middleware/identity_rate_limit.rs:91-97 IdentityRateLimiter::check_memory_at *)
Definition cleanup (window : Duration) (now : Instant) (memory : MemoryState) : MemoryState :=
  if match last_cleanup memory with
     | None => true
     | Some last => window <=? duration_since now last
     end
  then mkMemoryState (filter (λ kv, now < expires kv.2) (windows memory)) (Some now)
  else memory.

(** The entry of the workspace, inserted or restarted when it is over. *)
(* src: ai-gateway/src/middleware/identity_rate_limit.rs:98-107 IdentityRateLimiter::check_memory_at *)
Definition current_window (window : Duration) (now : Instant) (w : option Window) : Window :=
  let state := default (mkWindow 0 (now + window)) w in
  if expires state <=? now then mkWindow 0 (now + window) else state.

(** [poisoned] says whether a previous holder of the mutex panicked. *)
(* src: ai-gateway/src/middleware/identity_rate_limit.rs:80-116 IdentityRateLimiter::check_memory_at *)
Definition check_memory_at (poisoned : bool) (workspace : Uuid) (config : IdentityRateLimitConfig)
    (now : Instant) (memory : MemoryState)
  : result unit IdentityRateLimitError * MemoryState :=
  let window := from_secs (window_seconds config) in
  if poisoned then (Err Unavailable, memory)
  else
    let memory1 := cleanup window now memory in
    let state1 := current_window window now (windows memory1 !! workspace) in
    let state2 := mkWindow (u64_saturating_add (count state1) 1) (expires state1) in
    let memory2 := mkMemoryState (<[workspace := state2]> (windows memory1)) (last_cleanup memory1) in
    if requests config <? count state2
    then (Err (Rejected (retry_after_secs (duration_since (expires state2) now))), memory2)
    else (Ok tt, memory2).

(** What one call learns from Redis: the script reply, an error, or the
    one-second timeout. *)
Inductive redis_outcome :=
| TimedOut
| Replied (r : result (Z * Z * Z) unit).

(* src: ai-gateway/src/middleware/identity_rate_limit.rs:40-78 IdentityRateLimiter::check *)
Definition check (poisoned : bool) (workspace : Uuid) (config : IdentityRateLimitConfig)
    (redis : option redis_outcome) (now : Instant) (memory : MemoryState)
  : result unit IdentityRateLimitError * MemoryState :=
  if negb (enabled config) then (Ok tt, memory)
  else match backend config with
  | ClientIpLimit.Memory => check_memory_at poisoned workspace config now memory
  | ClientIpLimit.Redis =>
      (match redis with
       | None | Some TimedOut | Some (Replied (Err _)) => Err Unavailable
       | Some (Replied (Ok (count, ttl, repaired))) =>
           if (count <? 1) || negb ((0 <=? ttl) && (ttl <=? 86400000)) then Err Unavailable
           else if requests config <? count
           then Err (Rejected (Z.max ((ttl + 999) / 1000) 1))
           else Ok tt
       end, memory)
  end.

(** ** The Redis script

    The key holds a counter and, possibly, an absolute expiry in
    milliseconds.  Redis deletes a key once the server time has passed its
    expiry; [PTTL] is -1 for a key without expiry; [INCR] fails when the
    counter would leave the signed 64-bit range. *)

Record Cell := mkCell { counter : Z; deadline : option Z }.

Definition live (now : Z) (c : option Cell) : option Cell :=
  match c with
  | Some (mkCell _ (Some d)) => if d <? now then None else c
  | _ => c
  end.

(* src: ai-gateway/src/app_redis.rs:42-81 AppRedis::identity_rate_limit_count *)
Definition identity_rate_limit_count (now window_ms : Z) (c : option Cell)
  : result (Z * Z * Z) unit * option Cell :=
  let cell := default (mkCell 0 None) (live now c) in
  if counter cell =? i64_max then (Err tt, Some cell)
  else
    let count := counter cell + 1 in
    if count <? 1 then (Err tt, Some (mkCell count (deadline cell)))
    else
      let ttl := match deadline cell with Some d => Z.max 0 (d - now) | None => -1 end in
      if ttl <? 0
      then (Ok (count, window_ms, if 1 <? count then 1 else 0),
            Some (mkCell count (Some (now + window_ms))))
      else (Ok (count, ttl, 0), Some (mkCell count (deadline cell))).

(** ** The reference: a fixed window per workspace *)

Section fixed_window.
(** [unit]: clock ticks per second; [ended]: whether a window that expires at
    its first argument is over at its second; [W]: window length in ticks. *)
Context (unit : Z) (ended : Z → Z → bool) (W req : Z).

Definition fw_window (now : Z) (w : option Window) : Window :=
  match w with
  | Some x => if ended (expires x) now then mkWindow 0 (now + W) else x
  | None => mkWindow 0 (now + W)
  end.

Definition fw_retry (left : Z) : Z := Z.max 1 ((left + unit - 1) / unit).

Definition fw_step (now : Z) (w : option Window)
  : result () IdentityRateLimitError * option Window :=
  let x := fw_window now w in
  let x' := mkWindow (count x + 1) (expires x) in
  ((if req <? count x' then Err (Rejected (fw_retry (expires x - now))) else Ok tt), Some x').

Fixpoint fw_run (w : option Window) (ts : list Z) : list (result () IdentityRateLimitError) :=
  match ts with
  | [] => []
  | now :: ts' => let '(r, w') := fw_step now w in r :: fw_run w' ts'
  end.

Lemma fw_run_cons w now ts :
  fw_run w (now :: ts) = (fw_step now w).1 :: fw_run (fw_step now w).2 ts.
Proof. done. Qed.
End fixed_window.

(** The windows of the in-process backend end at their expiry, those of Redis
    one tick later. *)
Definition ended_memory (e now : Z) : bool := e <=? now.
Definition ended_redis (e now : Z) : bool := e <? now.

Lemma fw_retry_secs left : 0 ≤ left → retry_after_secs left = fw_retry (from_secs 1) left.
Proof.
  intros H. unfold retry_after_secs, fw_retry. f_equal.
  change (from_secs 1) with 1000000000.
  pose proof (Z.div_mod left 1000000000 ltac:(lia)) as E.
  pose proof (Z.mod_pos_bound left 1000000000 ltac:(lia)).
  set (q := left / 1000000000) in *. set (r := left mod 1000000000) in *.
  destruct (0 <? r) eqn:?; bool_to_prop.
  - apply (Z.div_unique _ _ _ (r - 1)); lia.
  - apply (Z.div_unique _ _ _ 999999999); lia.
Qed.

Lemma fw_retry_bounds unit left k :
  0 < unit → 0 < left ≤ k * unit →
  1 ≤ fw_retry unit left ≤ k ∧ left ≤ fw_retry unit left * unit.
Proof.
  intros Hu Hl. unfold fw_retry.
  pose proof (Z.div_mod (left + unit - 1) unit ltac:(lia)).
  pose proof (Z.mod_pos_bound (left + unit - 1) unit ltac:(lia)).
  set (q := (left + unit - 1) / unit) in *. nia.
Qed.

(** ** Executions of the in-process backend *)

Definition verdict := result unit IdentityRateLimitError.

Fixpoint run (config : IdentityRateLimitConfig) (m : MemoryState)
    (calls : list (Instant * Uuid)) : list (Uuid * verdict) * MemoryState :=
  match calls with
  | [] => ([], m)
  | (now, ws) :: rest =>
      let '(r, m1) := check_memory_at false ws config now m in
      let '(rs, m2) := run config m1 rest in
      ((ws, r) :: rs, m2)
  end.

(** The calls, and the verdicts, of one workspace. *)
Definition calls_of (ws : Uuid) (calls : list (Instant * Uuid)) : list Instant :=
  (filter (λ c, c.2 = ws) calls).*1.
Definition verdicts_of (ws : Uuid) (vs : list (Uuid * verdict)) : list verdict :=
  (filter (λ v, v.1 = ws) vs).*2.

#[global] Arguments calls_of : simpl never.
#[global] Arguments verdicts_of : simpl never.
#[global] Arguments check_memory_at : simpl never.
#[global] Arguments fw_step : simpl never.

Lemma calls_of_cons now ws' ws calls :
  calls_of ws ((now, ws') :: calls) =
  if decide (ws' = ws) then now :: calls_of ws calls else calls_of ws calls.
Proof. unfold calls_of. case_decide; [by rw filter_cons_True|by rw filter_cons_False]. Qed.

Lemma verdicts_of_cons v ws' ws vs :
  verdicts_of ws ((ws', v) :: vs) =
  if decide (ws' = ws) then v :: verdicts_of ws vs else verdicts_of ws vs.
Proof. unfold verdicts_of. case_decide; [by rw filter_cons_True|by rw filter_cons_False]. Qed.

(** A window of the table and the reference's window agree; the cleanup may
    have dropped one that is over. *)
Definition same_window (last : Instant) (w : option Window) (x : option Window) : Prop :=
  match w, x with
  | Some w, Some x => expires w = expires x ∧ count w = Z.min u64_max (count x) ∧ 0 ≤ count x
  | None, Some x => expires x ≤ last ∧ 0 ≤ count x
  | None, None => True
  | Some _, None => False
  end.

Lemma same_window_mono last now w x : last ≤ now → same_window last w x → same_window now w x.
Proof. intros ?. destruct w, x; simpl; try done. lia. Qed.

(** The cleanup does not change what any workspace sees. *)
Lemma cleanup_same W now m k x :
  same_window now (windows m !! k) x → same_window now (windows (cleanup W now m) !! k) x.
Proof.
  intros H. unfold cleanup.
  enough (same_window now (filter (λ kv : Uuid * Window, now < expires kv.2) (windows m) !! k) x)
    by (repeat case_match; done).
  rw map_lookup_filter. destruct (windows m !! k) as [w|] eqn:E; simpl; [|done].
  case_guard as Hlt; [done|]. destruct x; [|done]. simpl in *. lia.
Qed.

(** The window a call works on is the reference's, and is not over. *)
Lemma current_window_same W now w x :
  0 < W → same_window now w x →
  same_window now (Some (current_window W now w)) (Some (fw_window ended_memory W now x))
  ∧ now < expires (fw_window ended_memory W now x).
Proof.
  intros HW H. unfold current_window, fw_window, ended_memory.
  destruct w as [w|], x as [x|]; simpl in *; try done.
  - destruct H as (E & H & ?). rw E. case_match; bool_to_prop; simpl; unfold u64_max in *; lia.
  - rw (proj2 (Z.leb_gt (now + W) now)); [|lia]. rw (proj2 (Z.leb_le _ _)); [|lia].
    simpl. unfold u64_max. lia.
  - rw (proj2 (Z.leb_gt (now + W) now)); [|lia]. simpl. unfold u64_max. lia.
Qed.

Section memory_refinement.
Context (config : IdentityRateLimitConfig)
        (Hwin : 0 < window_seconds config) (Hreq : requests config ≤ u32_max).

Let W := from_secs (window_seconds config).
Let spec := fw_step (from_secs 1) ended_memory W (requests config).

Lemma W_pos : 0 < W.
Proof. unfold W, from_secs. lia. Qed.

Lemma check_memory_step last now ws m x :
  last ≤ now → same_window last (windows m !! ws) x →
  let '(r, m') := check_memory_at false ws config now m in
  let '(v, x') := spec now x in
  r = v ∧ same_window now (windows m' !! ws) x'.
Proof.
  intros Hle Hsame. apply (same_window_mono _ now) in Hsame; [|done].
  apply (cleanup_same W) in Hsame.
  destruct (current_window_same W now _ x W_pos Hsame) as [(He & Hc & Hpos) Hlive].
  unfold check_memory_at, spec, fw_step. fold W. simpl.
  set (s1 := current_window _ _ _) in *. set (y := fw_window _ _ _ _) in *.
  unfold u64_saturating_add, u32_max, u64_max in *.
  rw fw_retry_secs; [|unfold duration_since; lia].
  unfold duration_since. rw He Z.max_r; [|lia].
  replace (requests config <? Z.min _ _) with (requests config <? count y + 1).
  { destruct (requests config <? _); simpl; rw lookup_insert_eq; simpl; (split; [done|]); unfold u64_max; lia. }
  rw Hc. destruct (Z.ltb_spec (requests config) (count y + 1)); symmetry;
    [apply Z.ltb_lt|apply Z.ltb_ge]; lia.
Qed.

Lemma check_memory_other last now ws ws' m x :
  ws ≠ ws' → last ≤ now → same_window last (windows m !! ws) x →
  same_window now (windows (check_memory_at false ws' config now m).2 !! ws) x.
Proof.
  intros Hne Hle Hsame. apply (same_window_mono _ now) in Hsame; [|done].
  apply (cleanup_same W) in Hsame.
  unfold check_memory_at. fold W. case_match; simpl; rw lookup_insert_ne //.
Qed.

Lemma run_same ws calls : ∀ last m x,
  clocked last calls → same_window last (windows m !! ws) x →
  verdicts_of ws (run config m calls).1
  = fw_run (from_secs 1) ended_memory W (requests config) x (calls_of ws calls).
Proof.
  induction calls as [|[now ws'] calls IH]; intros last m x Hck Hs; [done|].
  destruct Hck as [Hle Hck]. rw calls_of_cons.
  change (run config m ((now, ws') :: calls)) with
    (let '(r, m1) := check_memory_at false ws' config now m in
     let '(rs, m2) := run config m1 calls in ((ws', r) :: rs, m2)).
  pose proof (check_memory_step last now ws m x Hle Hs) as Hst.
  pose proof (check_memory_other last now ws ws' m x) as Hoth.
  destruct (decide (ws' = ws)) as [->|Hne].
  - destruct (check_memory_at _ _ _ _ _) as [r m1]. rw fw_run_cons. fold spec.
    destruct (spec now x) as [v x1]. destruct Hst as [-> Hs1].
    specialize (IH now m1 x1 Hck Hs1). destruct (run config m1 calls) as [rs m2]. simpl in *.
    rw verdicts_of_cons decide_True //. by f_equal.
  - specialize (Hoth ltac:(done) Hle Hs). destruct (check_memory_at false ws' _ _ _) as [r m1].
    specialize (IH now m1 x Hck Hoth). destruct (run config m1 calls) as [rs m2]. simpl in *.
    by rw verdicts_of_cons decide_False.
Qed.
End memory_refinement.

(** ** Admissions of the fixed window *)

Section admissions.
Context (unit W req : Z) (HW : 0 < W) (Hreq : 0 < req).

Fixpoint fw_admissions (w : option Window) (ts : list Z) : list Z :=
  match ts with
  | [] => []
  | now :: ts' =>
      let '(r, w') := fw_step unit ended_memory W req now w in
      if is_ok r then now :: fw_admissions w' ts' else fw_admissions w' ts'
  end.

(** The admissions so far are those of the current window, at most [req] of
    the one before it, and older ones more than [W] before the current
    window's start. *)
Definition layered (last : Z) (w : option Window) (adm : list Z) : Prop :=
  spaced W (2 * req) adm ∧
  match w with
  | None => adm = []
  | Some x => expires x - W ≤ last ∧ 0 ≤ count x ∧ ∃ old mid cur, adm = old ++ mid ++ cur
      ∧ Forall (λ o, o + W < expires x - W) old
      ∧ Forall (λ o, o < expires x - W) mid ∧ Z.of_nat (length mid) ≤ req
      ∧ Forall (λ o, o < expires x) cur
      ∧ Z.of_nat (length cur) = Z.min (count x) req
  end.

Lemma layered_window last now w adm :
  last ≤ now → layered last w adm → layered now (Some (fw_window ended_memory W now w)) adm.
Proof.
  intros Hle [Hsp Hw]. split; [done|]. unfold fw_window, ended_memory.
  destruct w as [x|]; [destruct Hw as (? & ? & old & mid & cur & -> & Ho & Hm & Hl & Hc & Hn);
                       case_match; bool_to_prop|].
  - simpl. split_and!; [lia..|]. exists (old ++ mid), cur, [].
    rw app_nil_r app_assoc. split_and!; try done; simpl; try lia.
    + apply Forall_app; split; (eapply Forall_impl; [eassumption|]); simpl; intros; lia.
    + eapply Forall_impl; [exact Hc|]. simpl. intros; lia.
  - split_and!; [lia..|]. by exists old, mid, cur.
  - subst. simpl. split_and!; [lia..|]. exists [], [], []. simpl. split_and!; try done; lia.
Qed.

Lemma fw_window_live now w : now < expires (fw_window ended_memory W now w).
Proof. unfold fw_window, ended_memory. destruct w; [case_match; bool_to_prop|]; simpl; lia. Qed.

Lemma layered_step last now w adm :
  last ≤ now → layered last w adm →
  layered now (fw_step unit ended_memory W req now w).2
    (if is_ok (fw_step unit ended_memory W req now w).1 then adm ++ [now] else adm).
Proof.
  intros Hle H%(layered_window _ now); [|done]. unfold fw_step.
  pose proof (fw_window_live now w) as Hlive. set (x := fw_window _ _ _ _) in *.
  destruct H as (Hsp & Hst & Hct & old & mid & cur & -> & Ho & Hm & Hl & Hc & Hn). simpl.
  destruct (req <? count x + 1) eqn:E; bool_to_prop; (split; [|split_and!; simpl; [lia..|]]); simpl.
  - done.
  - exists old, mid, cur. split_and!; try done. lia.
  - apply spaced_push; [lia| |rw length_app; lia|done].
    eapply Forall_impl; [exact Ho|]. simpl. intros; lia.
  - exists old, mid, (cur ++ [now]). rw -!app_assoc length_app. split_and!; try done; simpl; [|lia].
    apply Forall_app. split; [done|]. by constructor.
Qed.

Lemma fw_admissions_spaced ts : ∀ last w adm,
  layered last w adm → clocked last ((λ t, (t, tt)) <$> ts) →
  spaced W (2 * req) (adm ++ fw_admissions w ts).
Proof.
  induction ts as [|now ts IH]; intros last w adm Hl Hck; [rw app_nil_r; apply Hl|].
  destruct Hck as [Hle Hck]. apply (layered_step _ now) in Hl; [|done].
  specialize (IH now _ _ Hl Hck).
  change (fw_admissions w (now :: ts)) with
    (if is_ok (fw_step unit ended_memory W req now w).1
     then now :: fw_admissions (fw_step unit ended_memory W req now w).2 ts
     else fw_admissions (fw_step unit ended_memory W req now w).2 ts).
  destruct (is_ok _); [|done]. by rw -app_assoc in IH.
Qed.
End admissions.

(** The stamps whose verdict is an admission. *)
Fixpoint accepted (ts : list Z) (vs : list verdict) : list Z :=
  match ts, vs with
  | t :: ts', v :: vs' => if is_ok v then t :: accepted ts' vs' else accepted ts' vs'
  | _, _ => []
  end.

Lemma accepted_fw_run unit W req ts : ∀ w,
  accepted ts (fw_run unit ended_memory W req w ts) = fw_admissions unit W req w ts.
Proof. induction ts as [|now ts IH]; intros w; [done|]. simpl. by rw IH. Qed.

Lemma clocked_le {A} last last' (calls : list (Instant * A)) :
  last ≤ last' → clocked last' calls → clocked last calls.
Proof. destruct calls as [|[now ?]]; simpl; [done|]. intros ? []. split; [lia|done]. Qed.

Lemma clocked_calls_of ws calls : ∀ last,
  clocked last calls → clocked last ((λ t, (t, tt)) <$> calls_of ws calls).
Proof.
  induction calls as [|[now ws'] calls IH]; intros last; [done|]. intros [Hle Hck].
  rw calls_of_cons. case_decide; [by split; auto|]. eapply clocked_le; [exact Hle|auto].
Qed.

(** The in-process limiter gives every workspace exactly the
    verdicts of a fixed window of its own: for any interleaved calls under a
    clock that does not go back, the verdicts of one workspace are those of
    the reference run on its calls alone.  The calls of other workspaces, the
    periodic cleanup of the table and the saturating counter are invisible. *)
Theorem memory_backend_refines_fixed_window config t0 calls ws :
  0 < window_seconds config → requests config ≤ u32_max → clocked t0 calls →
  verdicts_of ws (run config default_memory calls).1
  = fw_run (from_secs 1) ended_memory (from_secs (window_seconds config)) (requests config)
      None (calls_of ws calls).
Proof. intros. by eapply run_same. Qed.

Definition sample_config : IdentityRateLimitConfig :=
  mkConfig true 1 2 ClientIpLimit.Memory "gw:identityrl:" [Models].

(** Two workspaces; 7 is refused inside its window, admitted after it. *)
Definition sample_calls : list (Instant * Uuid) :=
  [(from_secs 0, 7); (from_secs 1, 8); (from_millis 1500, 7); (from_secs 2, 7); (from_secs 2, 8)].

Lemma memory_backend_refines_fixed_window_witness :
  verdicts_of 7 (run sample_config default_memory sample_calls).1
  = [Ok tt; Err (Rejected 1); Ok tt].
Proof.
  rw (memory_backend_refines_fixed_window sample_config 0 sample_calls 7); [|done..|].
  - vm_compute. reflexivity.
  - vm_compute. repeat split; discriminate.
Defined.


(** Bound on bursts across a window boundary: under a monotone
    clock, any [2 * requests + 1] consecutive admissions of one workspace by
    the in-process limiter span more than a whole window, whatever the other
    workspaces do. *)
Theorem workspace_burst_bounded config t0 calls ws :
  0 < window_seconds config → 0 < requests config ≤ u32_max → clocked t0 calls →
  spaced (from_secs (window_seconds config)) (2 * requests config)
    (accepted (calls_of ws calls) (verdicts_of ws (run config default_memory calls).1)).
Proof.
  intros HW Hreq Hck.
  rw (run_same config HW ltac:(lia) ws calls t0 default_memory None) // accepted_fw_run.
  apply (fw_admissions_spaced _ (from_secs (window_seconds config)) (requests config)
           ltac:(unfold from_secs; lia) ltac:(lia) _ t0 None []).
  - split; [apply spaced_nil|done].
  - by apply clocked_calls_of.
Qed.

Lemma workspace_burst_bounded_witness :
  accepted (calls_of 7 sample_calls) (verdicts_of 7 (run sample_config default_memory sample_calls).1)
    = [from_secs 0; from_secs 2]
  ∧ spaced (from_secs 2) 2
      (accepted (calls_of 7 sample_calls) (verdicts_of 7 (run sample_config default_memory sample_calls).1)).
Proof.
  split; [vm_compute; reflexivity|].
  apply (workspace_burst_bounded sample_config 0 sample_calls 7); [done..|].
  vm_compute. repeat split; discriminate.
Defined.

(** ** Retry-After *)

(** Calls of other workspaces leave the window of [ws] alone, or drop it. *)
Lemma run_other_keeps config ws calls : ∀ m,
  Forall (λ c, c.2 ≠ ws) calls →
  windows (run config m calls).2 !! ws = windows m !! ws
  ∨ windows (run config m calls).2 !! ws = None.
Proof.
  induction calls as [|[now ws'] calls IH]; intros m Hall; [by left|].
  apply Forall_cons in Hall as [Hne Hall]. simpl in Hne.
  assert (Hst : windows (check_memory_at false ws' config now m).2 !! ws = windows m !! ws
                ∨ windows (check_memory_at false ws' config now m).2 !! ws = None).
  { unfold check_memory_at, cleanup. rw ?map_lookup_filter.
    assert (∀ x (w : gmap Uuid Window), <[ws' := x]> w !! ws = w !! ws) as Hins
      by (intros; by rw lookup_insert_ne).
    repeat case_match; simpl; rw Hins; try (by left); rw map_lookup_filter;
      destruct (windows m !! ws); simpl; try case_guard; auto. }
  simpl. destruct (check_memory_at _ _ _ _ _) as [r m1]. simpl in Hst.
  specialize (IH m1 Hall). destruct (run config m1 calls) as [rs m2]. simpl in *.
  destruct Hst as [<-|E]; [done|]. rw E in IH. right. by destruct IH.
Qed.

Lemma cleanup_sub W now m ws w :
  windows (cleanup W now m) !! ws = Some w → windows m !! ws = Some w.
Proof.
  unfold cleanup. repeat case_match; simpl; rw ?map_lookup_filter;
    try (destruct (windows m !! ws); simpl; try case_guard); done.
Qed.

(** A workspace without a window, or with one that is over, is admitted. *)
Lemma admitted_after_end config ws now m :
  0 < window_seconds config → 0 < requests config →
  (∀ w, windows m !! ws = Some w → expires w ≤ now) →
  (check_memory_at false ws config now m).1 = Ok tt.
Proof.
  intros HW Hreq Hend. unfold check_memory_at. simpl.
  set (W := from_secs (window_seconds config)).
  assert (Hc : count (current_window W now (windows (cleanup W now m) !! ws)) = 0).
  { unfold current_window. destruct (windows (cleanup W now m) !! ws) eqn:E; simpl; [|by case_match].
    apply cleanup_sub, Hend in E. by rw (proj2 (Z.leb_le _ _) E). }
  rw Hc. by rw (proj2 (Z.ltb_ge _ _)); [|unfold u64_saturating_add, u64_max; lia].
Qed.

(** [retry_after] is honest: when a call is rejected it is
    told a number of seconds between 1 and the window length, and the next
    call of that workspace at least that many seconds later is admitted,
    whatever calls of other workspaces happened in between. *)
Theorem retry_after_is_sufficient config ws now m r m' others later :
  0 < window_seconds config → 0 < requests config →
  (∀ w, windows m !! ws = Some w → expires w ≤ now + from_secs (window_seconds config)) →
  check_memory_at false ws config now m = (Err (Rejected r), m') →
  Forall (λ c, c.2 ≠ ws) others → now + from_secs r ≤ later →
  1 ≤ r ≤ window_seconds config
  ∧ (check_memory_at false ws config later (run config m' others).2).1 = Ok tt.
Proof.
  intros HW Hreq Hinv Hck Hoth Hlater. revert Hck. unfold check_memory_at at 1. simpl.
  set (W := from_secs (window_seconds config)) in *.
  assert (HWp : 0 < W) by (unfold W, from_secs; lia).
  assert (Hx : now < expires (current_window W now (windows (cleanup W now m) !! ws)) ≤ now + W).
  { unfold current_window. destruct (windows (cleanup W now m) !! ws) eqn:E; simpl;
      [apply cleanup_sub, Hinv in E|]; case_match; bool_to_prop; simpl; lia. }
  set (x := current_window _ _ _) in *.
  destruct (requests config <? _); [|done]. intros [= Hr <-].
  rw fw_retry_secs in Hr; [|unfold duration_since; lia].
  unfold duration_since in Hr. rw (Z.max_r 0) in Hr; [|simpl; lia]. simpl in Hr.
  destruct (fw_retry_bounds (from_secs 1) (expires x - now) (window_seconds config)) as [Hb Hs];
    [done|unfold W, from_secs in *; lia|].
  rw Hr in Hb Hs. split; [done|].
  set (m' := mkMemoryState _ _).
  assert (Hend : ∀ y, windows (run config m' others).2 !! ws = Some y → expires y ≤ later).
  { intros y Hy. destruct (run_other_keeps config ws others m' Hoth) as [E|E]; rw E in Hy; [|done].
    simpl in Hy. rw lookup_insert_eq in Hy. simplify_eq/=. unfold from_secs in *. lia. }
  by apply admitted_after_end.
Qed.

Lemma retry_after_is_sufficient_witness :
  let m := (check_memory_at false 7 sample_config 0 default_memory).2 in
  let res := check_memory_at false 7 sample_config (from_millis 500) m in
  let m' := (run sample_config res.2 [(from_secs 1, 8)]).2 in
  res.1 = Err (Rejected 2)
  ∧ (check_memory_at false 7 sample_config (from_millis 2500) m').1 = Ok tt.
Proof.
  split; [vm_compute; reflexivity|].
  apply (retry_after_is_sufficient sample_config 7 (from_millis 500)
           (check_memory_at false 7 sample_config 0 default_memory).2 2
           (check_memory_at false 7 sample_config (from_millis 500)
              (check_memory_at false 7 sample_config 0 default_memory).2).2
           [(from_secs 1, 8)] (from_millis 2500)).
  - done.
  - done.
  - intros w E. vm_compute in E. simplify_eq. vm_compute. discriminate.
  - vm_compute. reflexivity.
  - constructor; [done|constructor].
  - vm_compute. discriminate.
Defined.

(** ** The Redis backend

    Gateway instances that share a Redis key: the server executes their
    scripts one after the other, at server times [ts]. *)

Definition redis_config (c : IdentityRateLimitConfig) : Prop :=
  enabled c = true ∧ backend c = ClientIpLimit.Redis ∧ 1 ≤ window_seconds c ≤ 86400.

Fixpoint redis_run (config : IdentityRateLimitConfig) (c : option Cell) (ts : list Z)
  : list verdict :=
  match ts with
  | [] => []
  | now :: ts' =>
      let '(reply, c') := identity_rate_limit_count now (window_seconds config * 1000) c in
      (check false 0 config (Some (Replied reply)) now default_memory).1 :: redis_run config c' ts'
  end.

(** The key holds the reference's window: same counter, same end. *)
Definition same_cell (last W : Z) (c : option Cell) (x : option Window) : Prop :=
  match c, x with
  | Some c, Some x => 1 ≤ counter c ∧ counter c = count x ∧ deadline c = Some (expires x)
                      ∧ expires x ≤ last + W
  | None, None => True
  | _, _ => False
  end.

Section redis_refinement.
Context (config : IdentityRateLimitConfig) (Hcfg : redis_config config).
Let W := window_seconds config * 1000.
Let spec := fw_step 1000 ended_redis W (requests config).

Lemma check_redis_reply now count ttl repaired :
  1 ≤ count → 0 ≤ ttl ≤ 86400000 →
  (check false 0 config (Some (Replied (Ok (count, ttl, repaired)))) now default_memory).1
  = if requests config <? count then Err (Rejected (fw_retry 1000 ttl)) else Ok tt.
Proof.
  destruct Hcfg as (Hen & Hbk & _). intros Hc Ht. unfold check. rw Hen Hbk /=.
  rw (proj2 (Z.ltb_ge _ _) Hc) !(proj2 (Z.leb_le _ _)) //=; [|lia..].
  case_match; [|done]. unfold fw_retry. do 2 f_equal. rw Z.max_comm. do 2 f_equal. lia.
Qed.

Lemma redis_step last now c x :
  last ≤ now → same_cell last W c x →
  (∀ y, x = Some y → count y < i64_max) →
  let '(reply, c') := identity_rate_limit_count now W c in
  (check false 0 config (Some (Replied reply)) now default_memory).1 = (spec now x).1
  ∧ same_cell now W c' (spec now x).2
  ∧ (∀ y, (spec now x).2 = Some y → count y ≤ 1 + from_option count 0 x).
Proof.
  destruct Hcfg as (Hen & Hbk & Hwin). assert (HW : 1000 ≤ W ≤ 86400000) by (unfold W; lia).
  intros Hle Hs Hbound.
  set (y := fw_window ended_redis W now x).
  assert (Hcell : let cell := default (mkCell 0 None) (live now c) in
    0 ≤ counter cell ∧ counter cell = count y ∧ count y < i64_max
    ∧ expires y ≤ now + W ∧ now ≤ expires y ∧ count y ≤ from_option count 0 x
    ∧ (deadline cell = Some (expires y) ∨ deadline cell = None ∧ count y = 0 ∧ expires y = now + W)).
  { unfold y, fw_window, live, ended_redis. destruct c as [[n d]|], x as [x|]; simpl in Hs; try done.
    - destruct Hs as (? & ? & -> & ?). specialize (Hbound _ eq_refl).
      destruct (expires x <? now) eqn:E; bool_to_prop; simpl.
      + unfold i64_max. split_and!; try lia. by right.
      + split_and!; try lia. by left.
    - simpl. unfold i64_max. split_and!; try lia. by right. }
  cbv zeta in Hcell. unfold identity_rate_limit_count, spec, fw_step. fold y.
  destruct Hcell as (H0 & Hc & Hb & He & Hl & Hx & Hd). set (cell := default _ _) in *.
  rw Hc (proj2 (Z.eqb_neq _ _)); [|lia]. rw (proj2 (Z.ltb_ge _ _)); [|lia].
  destruct Hd as [->|(-> & Hz & HE)]; simpl.
  - rw (proj2 (Z.ltb_ge _ _)); [|lia]. rw Z.max_r; [|lia]. rw check_redis_reply; [|lia..].
    split; [done|]. split; [simpl; split_and!; try done; lia|]. intros ? [= <-]. simpl. lia.
  - rw check_redis_reply; [|lia..]. rw HE. replace (now + W - now) with W by lia.
    split; [done|]. split; [simpl; split_and!; try done; lia|]. intros ? [= <-]. simpl. lia.
Qed.

Lemma redis_run_same ts : ∀ last c x,
  same_cell last W c x → clocked last ((λ t, (t, tt)) <$> ts) →
  from_option count 0 x + Z.of_nat (length ts) ≤ i64_max →
  redis_run config c ts = fw_run 1000 ended_redis W (requests config) x ts.
Proof.
  induction ts as [|now ts IH]; intros last c x Hs Hck Hlen; [done|].
  destruct Hck as [Hle Hck]. rw fw_run_cons. fold spec.
  pose proof (redis_step last now c x Hle Hs) as Hst.
  change (redis_run config c (now :: ts)) with
    (let '(reply, c') := identity_rate_limit_count now W c in
     (check false 0 config (Some (Replied reply)) now default_memory).1 :: redis_run config c' ts).
  destruct (identity_rate_limit_count now W c) as [reply c'].
  simpl in Hlen. destruct Hst as (-> & Hs' & Hb); [intros y ->; simpl in Hlen; lia|].
  f_equal. apply (IH now); [done..|]. assert (∃ y, (spec now x).2 = Some y) as [y E] by (by eexists).
  specialize (Hb _ E). rw E /=. lia.
Qed.
End redis_refinement.

(** C14 (refinement). With the Redis backend, all gateway instances that share
    a workspace key together enforce one fixed window: for at most 2^63 - 1
    calls at server times that do not go back, the verdicts computed from the
    script replies are those of the reference with a millisecond clock, and
    never [Unavailable].  In particular no counter is left without an expiry. *)
Theorem redis_backend_refines_fixed_window config t0 ts :
  redis_config config → clocked t0 ((λ t, (t, tt)) <$> ts) → Z.of_nat (length ts) ≤ i64_max →
  redis_run config None ts
  = fw_run 1000 ended_redis (window_seconds config * 1000) (requests config) None ts.
Proof. intros. by eapply redis_run_same. Qed.

Lemma redis_backend_refines_fixed_window_witness :
  redis_run (mkConfig true 1 2 ClientIpLimit.Redis "p:" [Models]) None [0; 1999; 2000; 2001]
  = [Ok tt; Err (Rejected 1); Err (Rejected 1); Ok tt].
Proof.
  rw (redis_backend_refines_fixed_window _ 0 [0; 1999; 2000; 2001]).
  - vm_compute. reflexivity.
  - repeat split; discriminate.
  - repeat split; discriminate.
  - done.
Defined.
