(* ===== verification/Provider.v ===== *)
(** * Inference providers

    Models [ai-gateway/src/types/provider.rs]: the provider enumeration, the
    parsing and printing of provider codes, and the per-organisation table of
    provider keys. *)

From S2P Require Import Prelude RustStr.
From Stdlib Require Import Ascii.
Local Open Scope string_scope.

(* src: ai-gateway/src/types/provider.rs:47-64 InferenceProvider *)
Inductive InferenceProvider :=
| OpenAI | Anthropic | Bedrock | Ollama | GoogleGemini | Custom
| Named (name : string).

#[global] Instance InferenceProvider_eq_dec : EqDecision InferenceProvider.
Proof. solve_decision. Defined.

#[global] Instance InferenceProvider_countable : Countable InferenceProvider.
Proof.
  refine (inj_countable'
    (λ p, match p with
          | OpenAI => inl 0%nat | Anthropic => inl 1%nat | Bedrock => inl 2%nat
          | Ollama => inl 3%nat | GoogleGemini => inl 4%nat | Custom => inl 5%nat
          | Named n => inr n
          end)
    (λ x : nat + string, match x with
          | inl 0 => OpenAI | inl 1 => Anthropic | inl 2 => Bedrock
          | inl 3 => Ollama | inl 4 => GoogleGemini | inl _ => Custom
          | inr n => Named n
          end) _).
  by intros [].
Defined.

(* src: ai-gateway/src/types/provider.rs:172-184 InferenceProvider::as_ref *)
Definition as_ref (p : InferenceProvider) : string :=
  match p with
  | Named name => name
  | OpenAI => "openai"
  | Anthropic => "anthropic"
  | Bedrock => "bedrock"
  | Ollama => "ollama"
  | GoogleGemini => "gemini"
  | Custom => "custom"
  end.

(* src: ai-gateway/src/types/provider.rs:186-193 InferenceProvider::fmt *)
Definition provider_display (p : InferenceProvider) : string :=
  match p with Named name => name | _ => as_ref p end.

(* src: ai-gateway/src/types/provider.rs:100-111 InferenceProvider::as_provider_code *)
Definition as_provider_code (p : InferenceProvider) : string :=
  match p with GoogleGemini => "google" | _ => as_ref p end.

Definition is_code_byte (b : ascii) : bool :=
  is_ascii_lowercase b || is_ascii_digit b || Ascii.eqb b "-"%char.

(* src: ai-gateway/src/types/provider.rs:153-160 is_valid_named_provider_code *)
Definition is_valid_named_provider_code (code : string) : bool :=
  negb (is_empty code) && negb (starts_with "-" code) && negb (ends_with "-" code)
  && str_all is_code_byte code.

(** The names [from_provider_code] knows, normalised. *)
(* src: ai-gateway/src/types/provider.rs:115-126 from_provider_code match *)
Definition known_code (n : string) : option InferenceProvider :=
  if String.eqb n "openai" then Some OpenAI
  else if String.eqb n "anthropic" then Some Anthropic
  else if String.eqb n "aws bedrock" || String.eqb n "bedrock" || String.eqb n "amazon" then Some Bedrock
  else if String.eqb n "ollama" then Some Ollama
  else if String.eqb n "google" || String.eqb n "google ai (gemini)" || String.eqb n "gemini"
  then Some GoogleGemini
  else if String.eqb n "custom" then Some Custom
  else if String.eqb n "mistral ai" then Some (Named "mistral")
  else if String.eqb n "zai" then Some (Named "z-ai")
  else if String.eqb n "x.ai (grok)" || String.eqb n "xai" then Some (Named "x-ai")
  else None.

Inductive ProviderError := InvalidProviderName (name : string).

(* src: ai-gateway/src/types/provider.rs:113-136 InferenceProvider::from_provider_code *)
Definition from_provider_code (provider_name : string) : result InferenceProvider ProviderError :=
  let normalized := to_ascii_lowercase (trim provider_name) in
  match known_code normalized with
  | Some p => Ok p
  | None =>
      if is_valid_named_provider_code normalized then Ok (Named normalized)
      else Err (InvalidProviderName provider_name)
  end.

(* src: ai-gateway/src/types/provider.rs:162-170 InferenceProvider::from_str *)
Definition provider_from_str (s : string) : InferenceProvider :=
  let normalized := trim s in
  match from_provider_code normalized with
  | Ok p => p
  | Err _ => Named normalized
  end.

(* src: ai-gateway/src/types/provider.rs:138-150 skips_model_mapping_catalog_for_static_validation *)
Definition skips_model_mapping_catalog_for_static_validation (p : InferenceProvider) : bool :=
  match p with Named name => String.eqb name "openrouter" | _ => false end.

(** ** Provider keys *)

(* src: ai-gateway/src/types/provider.rs:195-203 ProviderKey *)
Inductive ProviderKey :=
| Secret (key : string)
| AwsCredentials (access_key secret_key : string)
| NotRequired.

(* src: ai-gateway/src/types/provider.rs:205-212 ProviderKey::as_secret *)
Definition as_secret (k : ProviderKey) : option string :=
  match k with Secret key => Some key | _ => None end.

(* src: ai-gateway/src/types/provider.rs:214-224 ProviderKey::as_aws_credentials *)
Definition as_aws_credentials (k : ProviderKey) : option string * option string :=
  match k with AwsCredentials a s => (Some a, Some s) | _ => (None, None) end.

Abbreviation OrgId := Z (only parsing).

(* src: ai-gateway/src/types/provider.rs:258-274 ProviderKeyMap *)
Definition ProviderKeyMap := gmap InferenceProvider ProviderKey.

(* src: ai-gateway/src/types/provider.rs:226-233 ProviderKeys *)
Definition ProviderKeys := gmap OrgId ProviderKeyMap.

(* src: ai-gateway/src/types/provider.rs:235-238 ProviderKeys::set_all_provider_keys *)
Definition set_all_provider_keys (provider_keys : ProviderKeys) (keys : ProviderKeys) : ProviderKeys :=
  provider_keys.

(* src: ai-gateway/src/types/provider.rs:240-243 ProviderKeys::set_org_provider_keys *)
Definition set_org_provider_keys (org_id : OrgId) (provider_keys : ProviderKeyMap)
    (keys : ProviderKeys) : ProviderKeys := <[org_id := provider_keys]> keys.

(* src: ai-gateway/src/types/provider.rs:245-256 ProviderKeys::get_provider_key *)
Definition get_provider_key (provider : InferenceProvider) (org_id : option OrgId)
    (keys : ProviderKeys) : option ProviderKey :=
  org_id ← org_id; org_keys ← keys !! org_id; org_keys !! provider.

(** ** Lemmas on codes *)

Lemma code_byte_graphic c : is_code_byte c = true → is_graphic c = true.
Proof. by destruct c as [[] [] [] [] [] [] [] []]. Qed.

Lemma code_byte_lower c : is_code_byte c = true → ascii_to_lower c = c.
Proof. by destruct c as [[] [] [] [] [] [] [] []]. Qed.

Lemma normalized_code code :
  str_all is_code_byte code = true → to_ascii_lowercase (trim code) = code.
Proof.
  intros H. rw trim_graphic; [|by eapply str_all_impl; [apply code_byte_graphic|]].
  eapply str_map_id; [apply code_byte_lower|done].
Qed.

(** Codes of known names are canonical. *)
Lemma known_code_canonical n p :
  known_code n = Some p → from_provider_code (as_provider_code p) = Ok p.
Proof. unfold known_code. intros H. repeat case_match; simplify_eq/=; by vm_compute. Qed.

(** Provider codes are canonical: whatever spelling is accepted
    (surrounding white space, upper case, display names, legacy aliases), the
    code stored for the resulting provider parses back to that provider. *)
Theorem provider_code_roundtrip s p :
  from_provider_code s = Ok p → from_provider_code (as_provider_code p) = Ok p.
Proof.
  unfold from_provider_code at 1. destruct (known_code _) as [q|] eqn:E.
  - intros [= ->]. by eapply known_code_canonical.
  - set (n := to_ascii_lowercase (trim s)) in *.
    destruct (is_valid_named_provider_code n) eqn:Hv; [|done]. intros [= <-]. simpl.
    unfold from_provider_code. rw normalized_code.
    + by rw E Hv.
    + unfold is_valid_named_provider_code in Hv. by bool_to_prop.
Qed.

Lemma provider_code_roundtrip_witness :
  from_provider_code "  X.AI (Grok) " = Ok (Named "x-ai")
  ∧ from_provider_code (as_provider_code (Named "x-ai")) = Ok (Named "x-ai").
Proof.
  split; [vm_compute; reflexivity|].
  apply (provider_code_roundtrip "  X.AI (Grok) "). vm_compute. reflexivity.
Defined.
