(* ===== verification/ModelId.v ===== *)
(** * Model identifiers

    Models [ai-gateway/src/types/model_id.rs]: versions, the
    [{provider}/{model}-{version}] syntax, the Ollama and Bedrock syntaxes, and
    the version-blind equality and hash used as a map key.

    Dates are the [chrono] crate's: its parser, its formatter and the current
    year are parameters; [parse_date] is the source's sequence of attempts
    over them.  The source reads the clock anew at every attempt, the model
    once per run. *)

From S2P Require Import Prelude RustStr Provider.
From Stdlib Require Import Ascii.
Local Open Scope string_scope.

(** ** Data *)

(* src: ai-gateway/src/types/model_id.rs:14-34 Version *)
Inductive Version (Date : Type) :=
| ImplicitLatest
| Latest
| Preview
| DateVersionedPreview (date : Date) (format : string)
| DateVersion (date : Date) (format : string).
Arguments ImplicitLatest {Date}.
Arguments Latest {Date}.
Arguments Preview {Date}.
Arguments DateVersionedPreview {Date} date format.
Arguments DateVersion {Date} date format.

(* src: ai-gateway/src/types/model_id.rs:381-386 ModelIdWithVersion *)
Record ModelIdWithVersion (Date : Type) := mkModelIdWithVersion {
  model : string;
  version : Version Date
}.
Arguments mkModelIdWithVersion {Date} model version.
Arguments model {Date}.
Arguments version {Date}.

(* src: ai-gateway/src/types/model_id.rs:453-458 OllamaModelId *)
Record OllamaModelId := mkOllama { o_model : string; o_tag : option string }.

(* src: ai-gateway/src/types/model_id.rs:507-517 BedrockModelId *)
Record BedrockModelId (Date : Type) := mkBedrock {
  geo : option string;
  b_provider : string;
  b_model : string;
  b_version : Version Date;
  bedrock_internal_version : string
}.
Arguments mkBedrock {Date}.
Arguments geo {Date}.
Arguments b_provider {Date}.
Arguments b_model {Date}.
Arguments b_version {Date}.
Arguments bedrock_internal_version {Date}.

(* src: ai-gateway/src/types/model_id.rs:133-142 ModelId *)
Inductive ModelId (Date : Type) :=
| WithVersion (provider : InferenceProvider) (id : ModelIdWithVersion Date)
| BedrockId (b : BedrockModelId Date)
| OllamaId (o : OllamaModelId)
| Unknown (s : string).
Arguments WithVersion {Date} provider id.
Arguments BedrockId {Date} b.
Arguments OllamaId {Date} o.
Arguments Unknown {Date} s.

Inductive MapperError :=
| InvalidModelName (s : string)
| ProviderNotSupported (s : string).

(** ** Decidable equality and countability: identifiers as map keys *)

#[global] Instance Version_eq_dec {Date} `{EqDecision Date} : EqDecision (Version Date).
Proof. solve_decision. Defined.
#[global] Instance WithVersion_eq_dec {Date} `{EqDecision Date} : EqDecision (ModelIdWithVersion Date).
Proof. solve_decision. Defined.
#[global] Instance Ollama_eq_dec : EqDecision OllamaModelId.
Proof. solve_decision. Defined.
#[global] Instance Bedrock_eq_dec {Date} `{EqDecision Date} : EqDecision (BedrockModelId Date).
Proof. solve_decision. Defined.
#[global] Instance ModelId_eq_dec {Date} `{EqDecision Date} : EqDecision (ModelId Date).
Proof. solve_decision. Defined.

#[global] Instance Version_countable {Date} `{Countable Date} : Countable (Version Date).
Proof.
  refine (inj_countable'
    (λ v, match v with
          | ImplicitLatest => inl 0%nat | Latest => inl 1%nat | Preview => inl 2%nat
          | DateVersionedPreview d f => inr (true, d, f)
          | DateVersion d f => inr (false, d, f)
          end)
    (λ x : nat + bool * Date * string, match x with
          | inl 0 => ImplicitLatest | inl 1 => Latest | inl _ => Preview
          | inr (true, d, f) => DateVersionedPreview d f
          | inr (false, d, f) => DateVersion d f
          end) _).
  by intros [].
Defined.

#[global] Instance ModelId_countable {Date} `{Countable Date} : Countable (ModelId Date).
Proof.
  refine (inj_countable'
    (λ m, match m with
          | WithVersion p id => inl (inl (p, model id, version id))
          | BedrockId b => inl (inr (geo b, b_provider b, b_model b, b_version b,
                                     bedrock_internal_version b))
          | OllamaId o => inr (inl (o_model o, o_tag o))
          | Unknown s => inr (inr s)
          end)
    (λ x, match x with
          | inl (inl (p, m, v)) => WithVersion p (mkModelIdWithVersion m v)
          | inl (inr (g, p, m, v, i)) => BedrockId (mkBedrock g p m v i)
          | inr (inl (m, t)) => OllamaId (mkOllama m t)
          | inr (inr s) => Unknown s
          end) _).
  by intros [? []|[]|[]|].
Defined.

(** [s.splitn(2, c)]: the text before the first [c], and the text after it. *)
Definition splitn2 (c : ascii) (s : string) : string * option string :=
  match split_once c s with
  | Some (a, b) => (a, Some b)
  | None => (s, None)
  end.

Section model_id.
Context {Date : Type}.
(** [NaiveDate::parse_from_str(input, format)], [date.format(format)] and
    [chrono::Utc::now().year()]. *)
Context (parse_from_str : string → string → option Date)
        (date_format : Date → string → string) (year : string).

(* src: ai-gateway/src/types/model_id.rs:622-651 parse_date *)
Definition parse_date (input : string) : option (Date * string) :=
  match parse_from_str input "%Y-%m-%d" with
  | Some d => Some (d, "%Y-%m-%d")
  | None =>
  match parse_from_str input "%Y%m%d" with
  | Some d => Some (d, "%Y%m%d")
  | None =>
  match parse_from_str (year ++ "-" ++ input) "%Y-%m-%d" with
  | Some d => Some (d, "%m-%d")
  | None =>
  match parse_from_str (year ++ input) "%Y%m%d" with
  | Some d => Some (d, "%m%d")
  | None => None
  end end end end.

(* src: ai-gateway/src/types/model_id.rs:55-69 Version::fmt *)
Definition version_display (v : Version Date) : string :=
  match v with
  | ImplicitLatest => ""
  | Latest => "latest"
  | Preview => "preview"
  | DateVersionedPreview date format => "preview-" ++ date_format date format
  | DateVersion date format => date_format date format
  end.

(* src: ai-gateway/src/types/model_id.rs:71-98 Version::from_str *)
Definition version_from_str (input : string) : result (Version Date) MapperError :=
  if eq_ignore_ascii_case input "latest" then Ok Latest
  else if eq_ignore_ascii_case input "preview" then Ok Preview
  else match strip_prefix "preview-" input with
  | Some rest =>
      match parse_date rest with
      | Some (dt, fmt) => Ok (DateVersionedPreview dt fmt)
      | None => Err (InvalidModelName input)
      end
  | None =>
      match parse_date input with
      | Some (dt, fmt) => Ok (DateVersion dt fmt)
      | None => if is_empty input then Ok ImplicitLatest else Err (InvalidModelName input)
      end
  end.

(** The byte indices of a one-byte character, ascending. *)
Fixpoint indices_from (i : nat) (c : ascii) (s : string) : list nat :=
  match s with
  | EmptyString => []
  | String d s' => (if Ascii.eqb c d then [i] else []) ++ indices_from (S i) c s'
  end.

(** The candidates, scanned from the right and reversed. *)
(* src: ai-gateway/src/types/model_id.rs:679-693 parse_model_and_version *)
Definition version_candidates (s : string) (separator : ascii) : list (nat * string) :=
  reverse
    (omap (λ idx, if (idx =? len s - 1)%nat then None else Some (idx, str_drop (idx + 1) s))
       (reverse (indices_from 0 separator s))).

(** First loop: the leftmost candidate that is a full date. *)
(* src: ai-gateway/src/types/model_id.rs:695-712 parse_model_and_version *)
Fixpoint find_full_date (s : string) (candidates : list (nat * string))
  : option (string * Version Date) :=
  match candidates with
  | [] => None
  | (idx, candidate) :: rest =>
      match parse_date candidate with
      | Some (dt, fmt) =>
          if String.eqb fmt "%Y-%m-%d" || String.eqb fmt "%Y%m%d"
          then Some (str_take idx s, DateVersion dt fmt)
          else find_full_date s rest
      | None => find_full_date s rest
      end
  end.

(** Second loop: the leftmost candidate that is any date or a keyword. *)
(* src: ai-gateway/src/types/model_id.rs:714-736 parse_model_and_version *)
Fixpoint find_any_version (s : string) (candidates : list (nat * string))
  : option (string * Version Date) :=
  match candidates with
  | [] => None
  | (idx, candidate) :: rest =>
      match parse_date candidate with
      | Some (dt, fmt) => Some (str_take idx s, DateVersion dt fmt)
      | None =>
          if eq_ignore_ascii_case candidate "latest" then Some (str_take idx s, Latest)
          else if eq_ignore_ascii_case candidate "preview" then Some (str_take idx s, Preview)
          else find_any_version s rest
      end
  end.

(* src: ai-gateway/src/types/model_id.rs:669-740 parse_model_and_version *)
Definition parse_undated_preview (s : string) (separator : ascii)
  : string * option (Version Date) :=
  match strip_suffix "-preview" s with
  | Some model => (model, Some Preview)
  | None =>
  match strip_suffix "-latest" s with
  | Some model => (model, Some Latest)
  | None =>
      let candidates := version_candidates s separator in
      match find_full_date s candidates with
      | Some (model, v) => (model, Some v)
      | None =>
          match find_any_version s candidates with
          | Some (model, v) => (model, Some v)
          | None => (s, None)
          end
      end
  end end.

(* src: ai-gateway/src/types/model_id.rs:653-740 parse_model_and_version *)
Definition parse_model_and_version (s : string) (separator : ascii)
  : string * option (Version Date) :=
  match rfind "-preview-" s with
  | Some preview_pos =>
      match parse_date (str_drop (preview_pos + 9) s) with
      | Some (dt, fmt) => (str_take preview_pos s, Some (DateVersionedPreview dt fmt))
      | None => parse_undated_preview s separator
      end
  | None => parse_undated_preview s separator
  end.

(** ** ModelIdWithVersion *)

(* src: ai-gateway/src/types/model_id.rs:388-423 ModelIdWithVersion::from_str *)
Definition with_version_from_str (s : string) : result (ModelIdWithVersion Date) MapperError :=
  if is_empty s then Err (InvalidModelName "Model name cannot be empty")
  else if ends_with "-" s then Err (InvalidModelName "Model name cannot end with dash")
  else if ends_with "." s then Err (InvalidModelName "Model name cannot end with dot")
  else if ends_with "@" s then Err (InvalidModelName "Model name cannot end with @ symbol")
  else
    let '(model, version) := parse_model_and_version s "-"%char in
    Ok (mkModelIdWithVersion model (default ImplicitLatest version)).

(* src: ai-gateway/src/types/model_id.rs:425-432 ModelIdWithVersion::fmt *)
Definition with_version_display (id : ModelIdWithVersion Date) : string :=
  match version id with
  | ImplicitLatest => model id
  | v => model id ++ "-" ++ version_display v
  end.

(** ** OllamaModelId *)

(* src: ai-gateway/src/types/model_id.rs:460-477 OllamaModelId::from_str *)
Definition ollama_from_str (s : string) : result OllamaModelId MapperError :=
  let '(model, tag) := splitn2 ":"%char s in
  Ok (mkOllama model (match tag with
                      | Some t => if is_empty t then None else Some t
                      | None => None
                      end)).

(* src: ai-gateway/src/types/model_id.rs:479-486 OllamaModelId::fmt *)
Definition ollama_display (o : OllamaModelId) : string :=
  match o_tag o with
  | Some tag => o_model o ++ ":" ++ tag
  | None => o_model o
  end.

(** ** BedrockModelId *)

(** [geo], [provider] and the rest: [splitn(3, '.')] or [splitn(2, '.')]. *)
(* src: ai-gateway/src/types/model_id.rs:523-552 BedrockModelId::from_str *)
Definition bedrock_parts (s : string) : result (option string * string * string) MapperError :=
  let dot_count := count_byte "."%char s in
  if (2 <=? dot_count)%nat then
    let? (geo, after) := ok_or (split_once "."%char s) (InvalidModelName s) in
    let? (provider, rest) := ok_or (split_once "."%char after) (InvalidModelName s) in
    Ok (Some geo, provider, rest)
  else if (dot_count =? 1)%nat then
    let? (provider, rest) := ok_or (split_once "."%char s) (InvalidModelName s) in
    Ok (None, provider, rest)
  else Err (InvalidModelName s).

(* src: ai-gateway/src/types/model_id.rs:519-573 BedrockModelId::from_str *)
Definition bedrock_from_str (s : string) : result (BedrockModelId Date) MapperError :=
  let? (geo, provider_str, rest) := bedrock_parts s in
  match rfind "-v" rest with
  | None => Err (InvalidModelName s)
  | Some v_pos =>
      let model_part := str_take v_pos rest in
      let bedrock_version := str_drop (v_pos + 1) rest in
      let '(model, version) := parse_model_and_version model_part "-"%char in
      Ok (mkBedrock geo provider_str model (default ImplicitLatest version) bedrock_version)
  end.

(* src: ai-gateway/src/types/model_id.rs:575-601 BedrockModelId::fmt *)
Definition bedrock_display (b : BedrockModelId Date) : string :=
  match geo b, b_version b with
  | Some geo, ImplicitLatest =>
      geo ++ "." ++ b_provider b ++ "." ++ b_model b ++ "-" ++ bedrock_internal_version b
  | Some geo, version =>
      geo ++ "." ++ b_provider b ++ "." ++ b_model b ++ "-" ++ version_display version
      ++ "-" ++ bedrock_internal_version b
  | None, ImplicitLatest =>
      b_provider b ++ "." ++ b_model b ++ "-" ++ bedrock_internal_version b
  | None, version =>
      b_provider b ++ "." ++ b_model b ++ "-" ++ version_display version
      ++ "-" ++ bedrock_internal_version b
  end.

(** ** ModelId *)

(* src: ai-gateway/src/types/model_id.rs:144-198 ModelId::from_str_and_provider *)
Definition from_str_and_provider (request_style : InferenceProvider) (s : string)
  : result (ModelId Date) MapperError :=
  match request_style with
  | Bedrock => let? b := bedrock_from_str s in Ok (BedrockId b)
  | Ollama => let? o := ollama_from_str s in Ok (OllamaId o)
  | OpenAI | Anthropic | GoogleGemini | Custom | Named _ =>
      let? id := with_version_from_str s in Ok (WithVersion request_style id)
  end.

(* src: ai-gateway/src/types/model_id.rs:200-208 ModelId::inference_provider *)
Definition inference_provider (m : ModelId Date) : option InferenceProvider :=
  match m with
  | WithVersion provider _ => Some provider
  | BedrockId _ => Some Bedrock
  | OllamaId _ => Some Ollama
  | Unknown _ => None
  end.

(* src: ai-gateway/src/types/model_id.rs:210-228 ModelId::as_model_name *)
Definition as_model_name (m : ModelId Date) : string :=
  match m with
  | WithVersion _ id => model id
  | BedrockId b => b_model b
  | OllamaId o => o_model o
  | Unknown s => s
  end.

(* src: ai-gateway/src/types/model_id.rs:230-254 ModelId::with_latest_version *)
Definition with_latest_version (m : ModelId Date) : ModelId Date :=
  match m with
  | WithVersion provider id => WithVersion provider (mkModelIdWithVersion (model id) Latest)
  | BedrockId b =>
      BedrockId (mkBedrock (geo b) (b_provider b) (b_model b) Latest (bedrock_internal_version b))
  | OllamaId o => OllamaId (mkOllama (o_model o) (o_tag o))
  | Unknown s => Unknown s
  end.

(* src: ai-gateway/src/types/model_id.rs:308-317 ModelId::fmt *)
Definition model_id_display (m : ModelId Date) : string :=
  match m with
  | WithVersion _ id => with_version_display id
  | BedrockId b => bedrock_display b
  | OllamaId o => ollama_display o
  | Unknown s => s
  end.

(* src: ai-gateway/src/types/model_id.rs:266-277 ModelId::serialize *)
Definition model_id_serialize (m : ModelId Date) : string :=
  match inference_provider m with
  | Some provider => provider_display provider ++ "/" ++ model_id_display m
  | None => model_id_display m
  end.

(* src: ai-gateway/src/types/model_id.rs:279-306 ModelId::from_str *)
Definition model_id_from_str (s : string) : result (ModelId Date) MapperError :=
  match splitn2 "/"%char s with
  | (provider_str, Some model_name) =>
      if is_empty model_name
      then Err (InvalidModelName "Model name cannot be empty after provider")
      else from_str_and_provider (provider_from_str provider_str) model_name
  | (_, None) =>
      Err (InvalidModelName ("Model string must be in format '{provider}/{model_name}', got '"
                             ++ s ++ "'"))
  end.

(** ** ModelIdWithoutVersion *)

(* src: ai-gateway/src/types/model_id.rs:325-353 ModelIdWithoutVersion::eq *)
Definition without_version_eq (a b : ModelId Date) : bool :=
  match a, b with
  | WithVersion provider id, WithVersion other_provider other_id =>
      bool_decide (provider = other_provider) && String.eqb (model id) (model other_id)
  | BedrockId this, BedrockId other =>
      String.eqb (b_provider this) (b_provider other) && String.eqb (b_model this) (b_model other)
      && String.eqb (bedrock_internal_version this) (bedrock_internal_version other)
  | OllamaId this, OllamaId other =>
      String.eqb (o_model this) (o_model other) && bool_decide (o_tag this = o_tag other)
  | Unknown this, Unknown other => String.eqb this other
  | _, _ => false
  end.

(** What the hasher is fed. *)
Inductive hash_item :=
| HProvider (p : InferenceProvider)
| HStr (s : string)
| HOptStr (o : option string).

(* src: ai-gateway/src/types/model_id.rs:355-374 ModelIdWithoutVersion::hash *)
Definition without_version_hash (m : ModelId Date) : list hash_item :=
  match m with
  | WithVersion provider id => [HProvider provider; HStr (model id)]
  | BedrockId b => [HStr (b_provider b); HStr (b_model b); HStr (bedrock_internal_version b)]
  | OllamaId o => [HStr (o_model o); HOptStr (o_tag o)]
  | Unknown s => [HStr s]
  end.
End model_id.

(** ** Lemmas *)

Lemma str_drop_drop a b s : str_drop a (str_drop b s) = str_drop (b + a) s.
Proof.
  revert s. induction b as [|b IH]; intros s; simpl; [done|].
  destruct s as [|c s]; simpl; [by destruct a|apply IH].
Qed.

Lemma str_cut_char i c s : str_drop i s = String c (str_drop (i + 1) s) →
  s = str_take i s ++ String c (str_drop (i + 1) s).
Proof. intros H. rw -{1}(str_take_drop i s). by rw H. Qed.

Lemma indices_from_spec c s : ∀ i k,
  k ∈ indices_from i c s →
  (i ≤ k)%nat ∧ str_drop (k - i) s = String c (str_drop (k - i + 1) s).
Proof.
  induction s as [|d s IH]; intros i k; simpl; [by intros ?%elem_of_nil|].
  intros [Hk|Hk]%elem_of_app.
  - destruct (Ascii.eqb_spec c d) as [->|]; [|by apply elem_of_nil in Hk].
    apply list_elem_of_singleton in Hk as ->. split; [lia|].
    by replace (i - i)%nat with 0%nat by lia.
  - destruct (IH (S i) k Hk) as [? E]. split; [lia|].
    replace (k - i)%nat with (S (k - S i)) by lia. simpl. done.
Qed.

(** Every candidate follows a separator. *)
Lemma version_candidates_spec s sep idx cand :
  (idx, cand) ∈ version_candidates s sep → s = str_take idx s ++ String sep cand.
Proof.
  unfold version_candidates. rw elem_of_reverse list_elem_of_omap.
  intros (k & Hk & E). rw elem_of_reverse in Hk.
  destruct (k =? len s - 1)%nat; [done|]. injection E as -> <-.
  apply indices_from_spec in Hk as [_ Hk]. rw Nat.sub_0_r in Hk. by apply str_cut_char.
Qed.

Definition is_ascii_alphabetic (c : ascii) : bool := is_ascii_uppercase c || is_ascii_lowercase c.

(** A string that is a keyword, or starts with a letter, has a letter. *)
Lemma eq_ignore_case_letters s t :
  eq_ignore_ascii_case s t = true →
  str_all (λ c, negb (is_ascii_alphabetic c)) s = true →
  str_all (λ c, negb (is_ascii_alphabetic c)) t = true.
Proof.
  unfold eq_ignore_ascii_case. intros H%String.eqb_eq. revert t H.
  induction s as [|c s IH]; intros [|d t]; simpl; try done.
  unfold to_ascii_lowercase in *. simpl. intros [= Hc Hs] [Ha Hall]%andb_true_iff.
  rw (IH t Hs Hall) andb_true_r. revert Hc Ha. clear.
  destruct (is_ascii_alphabetic d) eqn:E; [|done]. intros Hc Ha. exfalso.
  assert (is_ascii_alphabetic (ascii_to_lower d) = true) as H1.
  { revert E. by destruct d as [[] [] [] [] [] [] [] []]. }
  rw -Hc in H1. destruct (is_ascii_alphabetic c) eqn:E2; [done|]. revert H1 E2.
  clear. by destruct c as [[] [] [] [] [] [] [] []].
Qed.

Section correctness.
Context {Date : Type}.
Context (parse_from_str : string → string → option Date)
        (date_format : Date → string → string) (year : string).

(** The numeric formats [%Y-%m-%d] and [%Y%m%d] of chrono never match text
    with a letter in it. *)
Definition chrono_numeric : Prop :=
  ∀ input fmt d, (fmt = "%Y-%m-%d" ∨ fmt = "%Y%m%d") → parse_from_str input fmt = Some d →
  str_all (λ c, negb (is_ascii_alphabetic c)) input = true.

Abbreviation parse_date := (parse_date parse_from_str year).
Abbreviation version_from_str := (version_from_str parse_from_str year).
Abbreviation parse_model_and_version := (parse_model_and_version parse_from_str year).
Abbreviation no_letters := (str_all (λ c, negb (is_ascii_alphabetic c))).

Context (Hnum : chrono_numeric).

Lemma parse_date_no_letters input r : parse_date input = Some r → no_letters input = true.
Proof.
  unfold ModelId.parse_date. intros H.
  destruct (parse_from_str input "%Y-%m-%d") eqn:E1; [by eapply Hnum in E1; auto|].
  destruct (parse_from_str input "%Y%m%d") eqn:E2; [by eapply Hnum in E2; auto|].
  destruct (parse_from_str (year ++ "-" ++ input) "%Y-%m-%d") eqn:E3.
  { eapply Hnum in E3; auto. rw !str_all_app in E3. by bool_to_prop. }
  destruct (parse_from_str (year ++ input) "%Y%m%d") eqn:E4; [|done].
  eapply Hnum in E4; auto. rw str_all_app in E4. by bool_to_prop.
Qed.

(** Text that parses as a date is read as that date by [Version::from_str]. *)
Lemma version_from_date text dt fmt :
  parse_date text = Some (dt, fmt) → version_from_str text = Ok (DateVersion dt fmt).
Proof.
  intros H. pose proof (parse_date_no_letters _ _ H) as Hn. unfold ModelId.version_from_str.
  destruct (eq_ignore_ascii_case text "latest") eqn:E1.
  { by pose proof (eq_ignore_case_letters _ _ E1 Hn). }
  destruct (eq_ignore_ascii_case text "preview") eqn:E2.
  { by pose proof (eq_ignore_case_letters _ _ E2 Hn). }
  destruct (strip_prefix "preview-" text) as [rest|] eqn:E3.
  - apply strip_prefix_Some in E3 as ->. by rw str_all_app /= in Hn.
  - by rw H.
Qed.

Lemma version_from_preview_date text dt fmt :
  parse_date text = Some (dt, fmt) →
  version_from_str ("preview-" ++ text) = Ok (DateVersionedPreview dt fmt).
Proof.
  intros H. unfold ModelId.version_from_str.
  change (eq_ignore_ascii_case ("preview-" ++ text) "latest") with false.
  change (eq_ignore_ascii_case ("preview-" ++ text) "preview") with false. simpl. by rw H.
Qed.

(** [s] is [model], a dash, and the text of version [v]. *)
Definition splits_as (s model : string) (v : Version Date) : Prop :=
  ∃ text, s = model ++ "-" ++ text ∧ version_from_str text = Ok v.

Definition cuts (s : string) (cands : list (nat * string)) : Prop :=
  Forall (λ c, s = str_take c.1 s ++ "-" ++ c.2) cands.

Lemma candidates_cut s : cuts s (version_candidates s "-"%char).
Proof. apply Forall_forall. intros [idx cand] H. by apply version_candidates_spec in H. Qed.

Lemma find_full_date_splits s cands model v :
  cuts s cands → find_full_date parse_from_str year s cands = Some (model, v) → splits_as s model v.
Proof.
  induction 1 as [|[idx cand] cands Hc _ IH]; [done|]. cbn [find_full_date].
  destruct (parse_date cand) as [[dt fmt]|] eqn:E; [|auto]. destruct (_ || _); [|auto].
  intros [= <- <-]. exists cand. split; [done|]. by apply version_from_date.
Qed.

Lemma find_any_version_splits s cands model v :
  cuts s cands → find_any_version parse_from_str year s cands = Some (model, v) → splits_as s model v.
Proof.
  induction 1 as [|[idx cand] cands Hc _ IH]; [done|]. cbn [find_any_version].
  destruct (parse_date cand) as [[dt fmt]|] eqn:E.
  { intros [= <- <-]. exists cand. split; [done|]. by apply version_from_date. }
  destruct (eq_ignore_ascii_case cand "latest") eqn:E1.
  { intros [= <- <-]. exists cand. split; [done|]. unfold ModelId.version_from_str. by rw E1. }
  destruct (eq_ignore_ascii_case cand "preview") eqn:E2; [|auto].
  intros [= <- <-]. exists cand. split; [done|]. unfold ModelId.version_from_str. by rw E1 E2.
Qed.

Lemma parse_splits s model v :
  parse_model_and_version s "-"%char = (model, v) →
  match v with None => model = s | Some v => splits_as s model v end.
Proof.
  assert (Hrest : parse_undated_preview parse_from_str year s "-"%char = (model, v) →
    match v with None => model = s | Some v => splits_as s model v end).
  { unfold parse_undated_preview.
    destruct (strip_suffix "-preview" s) eqn:E1.
    { apply strip_suffix_Some in E1 as ->. intros [= <- <-]. by exists "preview". }
    destruct (strip_suffix "-latest" s) eqn:E2.
    { apply strip_suffix_Some in E2 as ->. intros [= <- <-]. by exists "latest". }
    destruct (find_full_date _ _ _ _) as [[m w]|] eqn:E3.
    { intros [= <- <-]. eapply find_full_date_splits; [apply candidates_cut|done]. }
    destruct (find_any_version _ _ _ _) as [[m w]|] eqn:E4; [|by intros [= <- <-]].
    intros [= <- <-]. eapply find_any_version_splits; [apply candidates_cut|done]. }
  unfold ModelId.parse_model_and_version.
  destruct (rfind "-preview-" s) as [pos|] eqn:E; [|done].
  destruct (parse_date (str_drop (pos + 9) s)) as [[dt fmt]|] eqn:Ed; [|done].
  intros [= <- <-]. exists ("preview-" ++ str_drop (pos + 9) s). split.
  - apply rfind_Some in E. by rw str_drop_drop in E.
  - by apply version_from_preview_date.
Qed.

(** ** The last character decides that no dated preview is found *)

Lemma str_snoc_suffix a b after c :
  a ++ String c "" = b ++ after → after = "" ∨ ∃ after', after = after' ++ String c "".
Proof.
  revert a. induction b as [|x b IH]; intros a; simpl.
  - intros <-. right. by exists a.
  - destruct a as [|y a]; simpl; intros [= -> H]; [|by eapply IH].
    left. destruct b, after; done.
Qed.

Lemma no_dated_preview m c :
  is_ascii_alphabetic c = true →
  parse_model_and_version (m ++ String c "") "-"%char
  = parse_undated_preview parse_from_str year (m ++ String c "") "-"%char.
Proof.
  intros Hc. unfold ModelId.parse_model_and_version. set (s := m ++ String c "").
  destruct (rfind "-preview-" s) as [pos|] eqn:E; [|done].
  destruct (parse_date (str_drop (pos + 9) s)) as [[dt fmt]|] eqn:Ed; [exfalso|done].
  apply rfind_Some in E. rw str_drop_drop in E. change (len "-preview-") with 9%nat in E.
  set (after := str_drop (pos + 9) s) in *.
  assert (Hs : m ++ String c "" = (str_take pos s ++ "-preview-") ++ after) by (by rw str_app_assoc).
  apply parse_date_no_letters in Ed.
  destruct (str_snoc_suffix _ _ _ _ Hs) as [Ha|[after' Ha]].
  - rw Ha str_app_nil_r in Hs.
    change "-preview-" with ("-preview" ++ "-") in Hs. rw -str_app_assoc in Hs.
    destruct (str_snoc_suffix _ _ "-" _ Hs) as [?|[after' Hx]]; [done|].
    destruct after' as [|? after']; simpl in Hx; [by simplify_eq|].
    by destruct after'.
  - rw Ha str_all_app /= Hc in Ed. by rw andb_false_r in Ed.
Qed.

Lemma parse_latest m : parse_model_and_version (m ++ "-latest") "-"%char = (m, Some Latest).
Proof.
  change "-latest" with ("-lates" ++ "t"). rw -str_app_assoc no_dated_preview // str_app_assoc.
  unfold parse_undated_preview.
  destruct (strip_suffix "-preview" _) eqn:E.
  - exfalso. apply strip_suffix_Some in E. change "-preview" with ("-previe" ++ "w") in E.
    rw -!str_app_assoc in E. apply str_snoc_suffix in E as [E|[r E]]; [done|].
    destruct r as [|? r]; [by simplify_eq|]. by destruct r.
  - by rw (proj2 (strip_suffix_Some "-latest" _ m)).
Qed.

Lemma parse_preview m : parse_model_and_version (m ++ "-preview") "-"%char = (m, Some Preview).
Proof.
  change "-preview" with ("-previe" ++ "w"). rw -str_app_assoc no_dated_preview // str_app_assoc.
  unfold parse_undated_preview. by rw (proj2 (strip_suffix_Some "-preview" _ m)).
Qed.
End correctness.

(** A date reader for the witnesses: ten digits and dashes, or eight digits. *)
Definition sample_parse (input fmt : string) : option string :=
  if String.eqb fmt "%Y-%m-%d"
  then if str_all (λ c, is_ascii_digit c || Ascii.eqb c "-"%char) input && (len input =? 10)%nat
       then Some input else None
  else if str_all is_ascii_digit input && (len input =? 8)%nat then Some input else None.
Definition sample_format (date fmt : string) : string := date.

Lemma sample_numeric : chrono_numeric sample_parse.
Proof.
  intros input fmt d _. unfold sample_parse. destruct (String.eqb _ _).
  - destruct (str_all _ input) eqn:E; [|done]. intros _. eapply str_all_impl; [|exact E].
    clear. intros c. by destruct c as [[] [] [] [] [] [] [] []].
  - destruct (str_all _ input) eqn:E; [|done]. intros _. eapply str_all_impl; [|exact E].
    clear. intros c. by destruct c as [[] [] [] [] [] [] [] []].
Qed.

(** Parsing a versioned model name loses nothing: the input is
    either the model name itself, with the implicit latest version, or it is
    the model name, one dash and a text which the version parser reads as
    exactly the version returned.  This covers all the paths of the parser:
    dated previews, keywords, full dates and month-day dates. *)
Theorem model_name_splits_losslessly {Date : Type}
    (parse_from_str : string → string → option Date) (year s : string)
    (id : ModelIdWithVersion Date) :
  chrono_numeric parse_from_str →
  with_version_from_str parse_from_str year s = Ok id →
  (model id = s ∧ version id = ImplicitLatest)
  ∨ ∃ text, s = model id ++ "-" ++ text
      ∧ version_from_str parse_from_str year text = Ok (version id).
Proof.
  intros Hnum. unfold with_version_from_str. repeat (case_match; [done|]).
  intros Hid. destruct (parse_model_and_version _ _ _ _) as [m v] eqn:E.
  apply parse_splits in E; [|done]. injection Hid as <-. simpl.
  destruct v as [v|]; [by right|by left].
Qed.

Lemma model_name_splits_losslessly_witness :
  ∃ text, "gpt-4o-2024-05-13" = "gpt-4o" ++ "-" ++ text
    ∧ version_from_str sample_parse "2026" text = Ok (DateVersion "2024-05-13" "%Y-%m-%d").
Proof.
  destruct (model_name_splits_losslessly sample_parse "2026" "gpt-4o-2024-05-13"
              (mkModelIdWithVersion "gpt-4o" (DateVersion "2024-05-13" "%Y-%m-%d"))
              sample_numeric ltac:(vm_compute; reflexivity)) as [[H _]|H].
  - discriminate H.
  - exact H.
Defined.

(** ** Serialised identifiers *)

Lemma code_byte_no_slash code :
  str_all is_code_byte code = true → count_byte "/"%char code = 0%nat.
Proof.
  induction code as [|c code IH]; cbn [str_all count_byte]; [done|].
  intros [Hc Hall]%andb_true_iff. rw IH //.
  destruct (Ascii.eqb_spec "/"%char c) as [<-|]; done.
Qed.

(** The display form of a recognised provider is a name it is parsed from,
    and has no slash. *)
Lemma provider_display_parses c p :
  from_provider_code c = Ok p →
  provider_from_str (provider_display p) = p ∧ count_byte "/"%char (provider_display p) = 0%nat.
Proof.
  unfold from_provider_code. destruct (known_code _) as [q|] eqn:E.
  - intros [= ->]. unfold known_code in E. repeat case_match; simplify_eq/=; by vm_compute.
  - set (n := to_ascii_lowercase (trim c)) in *.
    destruct (is_valid_named_provider_code n) eqn:Hv; [|done]. intros [= <-]. simpl.
    assert (Hall : str_all is_code_byte n = true)
      by (unfold is_valid_named_provider_code in Hv; by bool_to_prop).
    split; [|by apply code_byte_no_slash].
    assert (Ht : trim n = n).
    { apply trim_graphic. eapply str_all_impl; [apply code_byte_graphic|done]. }
    unfold provider_from_str, from_provider_code. rw Ht Ht. cbv zeta.
    assert (Hl : to_ascii_lowercase n = n) by (eapply str_map_id; [apply code_byte_lower|done]).
    by rw Hl E Hv.
Qed.

Lemma splitn2_first c a b : count_byte c a = 0%nat → splitn2 c (a ++ String c b) = (a, Some b).
Proof. intros H. unfold splitn2. by rw (proj2 (split_once_Some c _ a b)). Qed.

Lemma ends_with_last (c d : ascii) m : c ≠ d → ends_with (String c "") (m ++ String d "") = false.
Proof.
  intros Hne. unfold ends_with. destruct (strip_suffix _ _) eqn:E; [exfalso|done].
  apply strip_suffix_Some in E. apply str_snoc_suffix in E as [?|[r E]]; [done|].
  destruct r as [|? r]; simpl in E; [by simplify_eq|]. by destruct r.
Qed.

Lemma with_version_latest {Date} (parse : string → string → option Date) year m :
  chrono_numeric parse →
  with_version_from_str parse year (m ++ "-latest") = Ok (mkModelIdWithVersion m Latest).
Proof.
  intros Hnum. unfold with_version_from_str. rw parse_latest //.
  replace (is_empty (m ++ "-latest")) with false by (by destruct m).
  change "-latest" with ("-lates" ++ "t"). rw -str_app_assoc.
  by rw !ends_with_last.
Qed.

(** The alias produced by [with_latest_version] survives
    serialisation: for every recognised provider whose models use the
    [{model}-{version}] syntax, every model name and every version, the
    serialised [{provider}/{model}-latest] parses back to that identifier. *)
Theorem latest_alias_roundtrip {Date : Type}
    (parse_from_str : string → string → option Date) (date_format : Date → string → string)
    (year code m : string) (p : InferenceProvider) (v : Version Date) :
  chrono_numeric parse_from_str →
  from_provider_code code = Ok p → p ≠ Bedrock → p ≠ Ollama →
  let alias := with_latest_version (WithVersion p (mkModelIdWithVersion m v)) in
  model_id_from_str parse_from_str year (model_id_serialize date_format alias) = Ok alias.
Proof.
  intros Hnum Hp HB HO alias. destruct (provider_display_parses _ _ Hp) as [Hd Hs].
  unfold alias, model_id_serialize, model_id_from_str. cbn [inference_provider with_latest_version].
  change ("/" ++ ?x) with (String "/" x). rw splitn2_first // Hd. cbn [model_id_display model].
  assert (Hl : with_version_display date_format (mkModelIdWithVersion m Latest) = m ++ "-latest") by done.
  rw Hl. replace (is_empty (m ++ "-latest")) with false by (by destruct m).
  unfold from_str_and_provider. rw with_version_latest //. by destruct p.
Qed.

Lemma latest_alias_roundtrip_witness :
  model_id_from_str sample_parse "2026" "x-ai/grok-4-latest"
  = Ok (WithVersion (Named "x-ai") (mkModelIdWithVersion "grok-4" Latest)).
Proof.
  apply (latest_alias_roundtrip sample_parse sample_format "2026" "xai" "grok-4" (Named "x-ai")
           (DateVersion "20260101" "%Y%m%d") sample_numeric).
  - vm_compute. reflexivity.
  - done.
  - done.
Defined.

(** ** The version-blind map key *)

Section without_version.
Context {Date : Type}.
Implicit Types a b c : ModelId Date.

Lemma without_version_eq_refl a : without_version_eq a a = true.
Proof. destruct a; simpl; rw ?String.eqb_refl ?bool_decide_eq_true_2 //. Qed.

Ltac eqb_to_eq := repeat match goal with
  | H : String.eqb _ _ = true |- _ => apply String.eqb_eq in H
  end.

Ltac solve_key :=
  intros; bool_to_prop; eqb_to_eq;
  repeat match goal with H : ?x = ?y |- context [?x] => rw H end;
  by rw ?String.eqb_refl ?bool_decide_eq_true_2.

Lemma without_version_eq_sym a b : without_version_eq a b = true → without_version_eq b a = true.
Proof. destruct a, b; simpl; try done; solve_key. Qed.

Lemma without_version_eq_trans a b c :
  without_version_eq a b = true → without_version_eq b c = true → without_version_eq a c = true.
Proof.
  destruct a, b, c; simpl; try done; solve_key.
Qed.

Lemma without_version_eq_hash a b :
  without_version_eq a b = true → without_version_hash a = without_version_hash b.
Proof.
  destruct a, b; simpl; try done; intros; bool_to_prop; eqb_to_eq; congruence.
Qed.

(** [ModelIdWithoutVersion] is a lawful hash-map key: its
    equality is an equivalence relation, equal keys feed the hasher the same
    data, and an identifier is equal to itself at the latest version, so a
    lookup finds an entry whatever version it was stored with. *)
Theorem without_version_key_lawful :
  Equivalence (λ a b, without_version_eq a b = true)
  ∧ (∀ a b, without_version_eq a b = true → without_version_hash a = without_version_hash b)
  ∧ (∀ a, without_version_eq a (with_latest_version a) = true).
Proof.
  split_and!; [split| |].
  - exact without_version_eq_refl.
  - exact without_version_eq_sym.
  - exact without_version_eq_trans.
  - exact without_version_eq_hash.
  - intros []; simpl; rw ?String.eqb_refl ?bool_decide_eq_true_2 //.
Qed.
End without_version.

(** ** Bedrock *)

(** The text in front of the model: optional geography and vendor. *)
Definition bedrock_prefix (geo : option string) (provider : string) : string :=
  match geo with
  | Some g => g ++ "." ++ provider ++ "."
  | None => provider ++ "."
  end.

Lemma bedrock_parts_spec s geo provider rest :
  bedrock_parts s = Ok (geo, provider, rest) →
  s = bedrock_prefix geo provider ++ rest ∧ count_byte "."%char provider = 0%nat
  ∧ (∀ g, geo = Some g → count_byte "."%char g = 0%nat)
  ∧ (geo = None → count_byte "."%char rest = 0%nat).
Proof.
  unfold bedrock_parts. destruct (Nat.leb_spec 2 (count_byte "."%char s)).
  - destruct (split_once "."%char s) as [[g after]|] eqn:E1; [|done]. simpl.
    destruct (split_once "."%char after) as [[p r]|] eqn:E2; [|done]. simpl.
    intros [= <- <- <-]. apply split_once_Some in E1 as [-> H1].
    apply split_once_Some in E2 as [-> H2]. simpl.
    split; [by rw !str_app_assoc /= !str_app_assoc|]. split; [done|]. split; [|done]. by intros ? [= <-].
  - destruct (Nat.eqb_spec (count_byte "."%char s) 1) as [Hc|]; [|done].
    destruct (split_once "."%char s) as [[p r]|] eqn:E1; [|done]. simpl.
    intros [= <- <- <-]. apply split_once_Some in E1 as [-> H1]. simpl.
    rw !str_app_assoc /=. split; [done|]. split; [done|]. split; [done|]. intros _.
    rw count_byte_app /= in Hc. lia.
Qed.

(** A Bedrock identifier is taken apart without loss: the input
    is the optional geography, the vendor, the model part, a dash and the
    internal version [v...]; vendor and geography have no dots, without a
    geography nothing after the vendor has one, and the model part is the
    model name followed, when a version was found, by a dash and its text. *)
Theorem bedrock_id_splits_losslessly {Date : Type}
    (parse_from_str : string → string → option Date) (year s : string) (b : BedrockModelId Date) :
  chrono_numeric parse_from_str →
  bedrock_from_str parse_from_str year s = Ok b →
  ∃ model_part, s = bedrock_prefix (geo b) (b_provider b) ++ model_part ++ "-"
                    ++ bedrock_internal_version b
    ∧ starts_with "v" (bedrock_internal_version b) = true
    ∧ count_byte "."%char (b_provider b) = 0%nat
    ∧ (geo b = None → count_byte "."%char model_part = 0%nat)
    ∧ ((b_model b = model_part ∧ b_version b = ImplicitLatest)
       ∨ ∃ text, model_part = b_model b ++ "-" ++ text
           ∧ version_from_str parse_from_str year text = Ok (b_version b)).
Proof.
  intros Hnum. unfold bedrock_from_str.
  destruct (bedrock_parts s) as [[[g p] rest]|] eqn:Eparts; [|done]. simpl.
  destruct (rfind "-v" rest) as [pos|] eqn:Ev; [|done].
  destruct (parse_model_and_version _ _ _ _) as [m v] eqn:Em. intros [= <-]. simpl.
  apply bedrock_parts_spec in Eparts as (-> & Hp & Hg & Hn).
  apply rfind_Some in Ev. rw str_drop_drop in Ev. change (len "-v") with 2%nat in Ev.
  assert (Hv : str_drop (pos + 1) rest = "v" ++ str_drop (pos + 2) rest).
  { rw -str_drop_drop. replace (str_drop pos rest) with ("-v" ++ str_drop (pos + 2) rest); [done|].
    apply (str_app_inj_l (str_take pos rest)). by rw -Ev str_take_drop. }
  exists (str_take pos rest). rw Hv. split_and!.
  - by rw {1}Ev.
  - apply starts_with_spec. by eexists.
  - done.
  - intros Hgn. specialize (Hn Hgn). rw Ev count_byte_app in Hn. lia.
  - apply parse_splits in Em; [|done]. destruct v; [by right|by left].
Qed.

Lemma bedrock_id_splits_losslessly_witness :
  bedrock_from_str sample_parse "2026" "us.anthropic.claude-3-sonnet-20240229-v1:0"
  = Ok (mkBedrock (Some "us") "anthropic" "claude-3-sonnet" (DateVersion "20240229" "%Y%m%d") "v1:0")
  ∧ starts_with "v" "v1:0" = true.
Proof.
  split; [vm_compute; reflexivity|].
  destruct (bedrock_id_splits_losslessly sample_parse "2026"
              "us.anthropic.claude-3-sonnet-20240229-v1:0"
              (mkBedrock (Some "us") "anthropic" "claude-3-sonnet"
                 (DateVersion "20240229" "%Y%m%d") "v1:0") sample_numeric
              ltac:(vm_compute; reflexivity)) as (mp & _ & H & _). exact H.
Defined.
