(* ===== verification/HealthMonitor.v ===== *)
(** * Provider health monitor

    Models [ai-gateway/src/discover/monitor/health/provider.rs]: the periodic
    pass that removes the load-balancer entries of unhealthy providers and adds
    them back, for the four balancing strategies, together with the health
    verdict of [check_health] and the initial discovery of
    [discover/model/weighted_key.rs] and its siblings.

    A pass is a state transformer on the set of unhealthy keys which emits the
    changes sent to the balancer.  The balancer's pool is the map obtained by
    applying those changes in order.  Hash-map and hash-set iterations are
    lists: the theorems hold for every order. *)

From S2P Require Import Prelude RustStr Provider ModelId Float64.
Local Open Scope Z_scope.

(** ** Endpoints *)

(* src: ai-gateway/src/endpoints/openai/mod.rs:23-33 OpenAI *)
Inductive OpenAIEndpoint :=
| ChatCompletions | Completions | Embeddings | ImageGenerations | ImageEdits | Responses
| AudioSpeech | AudioTranscriptions.

(* src: ai-gateway/src/endpoints/mod.rs:70-81 ApiEndpoint *)
Inductive ApiEndpoint :=
| EOpenAI (e : OpenAIEndpoint)
| EAnthropicMessages
| EGoogleGenerateContents
| EOllamaChatCompletions
| EBedrockConverse
| EOpenAICompatible (provider : InferenceProvider) (e : OpenAIEndpoint).

(* src: ai-gateway/src/endpoints/mod.rs:189-199 EndpointType *)
Inductive EndpointType := Chat | EmbeddingsType | Image | Audio.

#[global] Instance EndpointType_eq_dec : EqDecision EndpointType.
Proof. solve_decision. Defined.
#[global] Instance EndpointType_countable : Countable EndpointType.
Proof.
  refine (inj_countable'
    (λ e, match e with Chat => 0%nat | EmbeddingsType => 1%nat | Image => 2%nat | Audio => 3%nat end)
    (λ n : nat, match n with 0 => Chat | 1 => EmbeddingsType | 2 => Image | _ => Audio end)%nat _).
  by intros [].
Defined.

(** [OpenAI::iter()]. *)
Definition openai_iter : list OpenAIEndpoint :=
  [ChatCompletions; Completions; Embeddings; ImageGenerations; ImageEdits; Responses;
   AudioSpeech; AudioTranscriptions].

(* src: ai-gateway/src/types/provider.rs:66-98 InferenceProvider::endpoints *)
Definition endpoints (p : InferenceProvider) : list ApiEndpoint :=
  match p with
  | OpenAI => EOpenAI <$> openai_iter
  | Anthropic => [EAnthropicMessages]
  | Ollama => [EOllamaChatCompletions]
  | Bedrock => [EBedrockConverse]
  | GoogleGemini => [EGoogleGenerateContents]
  | Custom | Named _ => EOpenAICompatible p <$> openai_iter
  end.

(** ** Health verdict *)

(* src: ai-gateway/src/config/fallback_bridge.rs:30-42 HealthMonitorParams *)
Record HealthMonitorParams := mkParams {
  error_threshold : f64;
  min_requests : Z           (* [GracePeriod::Requests { min_requests }] *)
}.

Inductive MonitorError :=
| MetricsNotConfigured (e : ApiEndpoint)
| InvalidWeight (p : InferenceProvider)
| ModelIdNotRecognized (m : string)
| Internal
| InvalidBalancer
| InitFailed (p : InferenceProvider).

#[global] Instance OpenAIEndpoint_eq_dec : EqDecision OpenAIEndpoint.
Proof. solve_decision. Defined.
#[global] Instance ApiEndpoint_eq_dec : EqDecision ApiEndpoint.
Proof. solve_decision. Defined.
#[global] Instance MonitorError_eq_dec : EqDecision MonitorError.
Proof. solve_decision. Defined.

Section check_health.
Context (params : HealthMonitorParams).
(** [health_metrics(endpoint)]: the request and error totals of an endpoint. *)
Context (health_metrics : ApiEndpoint → option (Z * Z)).

(* src: ai-gateway/src/discover/monitor/health/provider.rs:680-697 check_health loop *)
Fixpoint check_endpoints (es : list ApiEndpoint) (all_healthy : bool) : result bool MonitorError :=
  match es with
  | [] => Ok all_healthy
  | endpoint :: es' =>
      match health_metrics endpoint with
      | None => Err (MetricsNotConfigured endpoint)
      | Some (requests, errors) =>
          if requests <? min_requests params then check_endpoints es' all_healthy
          else
            let error_ratio := f64_div (f64_of_Z errors) (f64_of_Z requests) in
            check_endpoints es'
              (if f64_lt (error_threshold params) error_ratio then false else all_healthy)
      end
  end.

(* src: ai-gateway/src/discover/monitor/health/provider.rs:672-700 ProviderMonitorInner::check_health *)
Definition check_health (provider : InferenceProvider) : result bool MonitorError :=
  match provider with
  | Custom => Ok true
  | _ => check_endpoints (endpoints provider) true
  end.
End check_health.

(** ** Keys, services and changes *)

Section monitor.
Context {Date : Type} `{Countable Date}.
(** A configured weight and its conversion [Weight::from(weight.to_f64()?)]. *)
Context {Decimal : Type} (to_weight : Decimal → option Z).
Context (date_format : Date → string → string).

(** The keys of the four discovery modules. *)
(* src: ai-gateway/src/discover/model/weighted_key.rs:27-43 WeightedKey *)
Inductive Key :=
| KProviderWeighted (provider : InferenceProvider) (endpoint_type : EndpointType) (weight : Z)
| KModelWeighted (model_id : ModelId Date) (endpoint_type : EndpointType) (weight : Z)
| KProvider (provider : InferenceProvider) (endpoint_type : EndpointType)
| KModel (model_id : ModelId Date) (endpoint_type : EndpointType).

#[global] Instance Key_eq_dec : EqDecision Key.
Proof. solve_decision. Defined.
#[global] Instance Key_countable : Countable Key.
Proof.
  refine (inj_countable'
    (λ k, match k with
          | KProviderWeighted p e w => inl (inl (p, e, w))
          | KModelWeighted m e w => inl (inr (m, e, w))
          | KProvider p e => inr (inl (p, e))
          | KModel m e => inr (inr (m, e))
          end)
    (λ x, match x with
          | inl (inl (p, e, w)) => KProviderWeighted p e w
          | inl (inr (m, e, w)) => KModelWeighted m e w
          | inr (inl (p, e)) => KProvider p e
          | inr (inr (m, e)) => KModel m e
          end) _).
  by intros [].
Defined.

(** A dispatcher: its provider, and the model its mapper is pinned to
    ([ModelMapper::new_with_model_id]) if any. *)
(* src: ai-gateway/src/dispatcher/service.rs:156-176 Dispatcher::new *)
Record DispatcherService := mkService {
  svc_provider : InferenceProvider;
  svc_model : option (ModelId Date)
}.

(* src: ai-gateway/src/config/balance.rs:129-151 BalanceConfigInner *)
Inductive BalanceConfigInner :=
| ProviderWeighted (providers : list (InferenceProvider * Decimal))
| BalancedLatency (providers : list InferenceProvider)
| ModelWeighted (models : list (ModelId Date * Decimal))
| ModelLatency (models : list (ModelId Date)).

Definition BalanceConfig := list (EndpointType * BalanceConfigInner).

Inductive HealthStatus := Up | Down.

(** What a pass does to the outside, in order. *)
Inductive effect :=
| SendRemove (k : Key)
| SendInsert (k : Key) (s : DispatcherService)
| Publish (p : InferenceProvider) (st : HealthStatus)
| RecordHealth (p : InferenceProvider) (v : Z).

(** The state of one pass: the unhealthy keys; results of steps. *)
Definition step_result : Type := result unit MonitorError * gset Key * list effect.

(** [Dispatcher::new(..)]: fails when the provider's client cannot be built. *)
Context (client_ok : InferenceProvider → bool).
Definition dispatcher_new (p : InferenceProvider) : result DispatcherService MonitorError :=
  if client_ok p then Ok (mkService p None) else Err (InitFailed p).

Context (params : HealthMonitorParams) (health_metrics : ApiEndpoint → option (Z * Z)).
(** Whether a [HealthEventPublisher] is configured. *)
Context (broadcaster : bool).

Definition publish (p : InferenceProvider) (st : HealthStatus) : list effect :=
  if broadcaster then [Publish p st] else [].

(** Inserting the group's keys into the unhealthy set, up to the first key
    that cannot be built; the spawned sends are aborted in that case. *)
Fixpoint mark_group (group : list (result Key MonitorError)) (u : gset Key) (sends : list effect)
  : step_result :=
  match group with
  | [] => (Ok tt, u, sends)
  | Ok k :: group' => mark_group group' ({[k]} ∪ u) (sends ++ [SendRemove k])
  | Err e :: _ => (Err e, u, [])
  end.

(** Adding the group's keys back, each with a new dispatcher. *)
Fixpoint restore_group (provider : InferenceProvider) (group : list (result Key MonitorError))
    (u : gset Key) (sends : list effect) : step_result :=
  match group with
  | [] => (Ok tt, u, sends)
  | Ok k :: group' =>
      match dispatcher_new provider with
      | Ok s => restore_group provider group' u (sends ++ [SendInsert k s])
      | Err e => (Err e, u, sends)
      end
  | Err e :: _ => (Err e, u, sends)
  end.

(** The body of the inner loop for one target: [group] is the target's key for
    the provider strategies, and the keys of all models of the same provider
    for the model strategies. *)
(* src: ai-gateway/src/discover/monitor/health/provider.rs:127-208 check_provider_weighted_monitor *)
Definition check_target (provider : InferenceProvider) (key : result Key MonitorError)
    (group : list (result Key MonitorError)) (u : gset Key) : step_result :=
  match key with
  | Err e => (Err e, u, [])
  | Ok key =>
  match check_health params health_metrics provider with
  | Err e => (Err e, u, [])
  | Ok is_healthy =>
      let was_unhealthy := bool_decide (key ∈ u) in
      let '(r, u1, es) :=
        if negb is_healthy && negb was_unhealthy then
          let '(r, u1, es) := mark_group group u [] in
          (r, u1, if is_ok r then es ++ publish provider Down else es)
        else if is_healthy && was_unhealthy then
          let '(r, u1, es) := restore_group provider group (u ∖ {[key]}) [] in
          (r, u1, if is_ok r then es ++ publish provider Up else es)
        else (Ok tt, u, []) in
      (r, u1, if is_ok r then es ++ [RecordHealth provider (if is_healthy then 1 else 0)] else es)
  end end.

(** A loop whose body returns early on an error. *)
Fixpoint run_each {A} (body : A → gset Key → step_result) (l : list A) (u : gset Key) : step_result :=
  match l with
  | [] => (Ok tt, u, [])
  | x :: l' =>
      let '(r, u1, es1) := body x u in
      match r with
      | Err e => (Err e, u1, es1)
      | Ok _ => let '(r2, u2, es2) := run_each body l' u1 in (r2, u2, es1 ++ es2)
      end
  end.

Definition provider_weighted_key (et : EndpointType) (t : InferenceProvider * Decimal)
  : result Key MonitorError :=
  match to_weight t.2 with
  | Some w => Ok (KProviderWeighted t.1 et w)
  | None => Err (InvalidWeight t.1)
  end.

Definition model_weighted_key (provider : InferenceProvider) (et : EndpointType)
    (t : ModelId Date * Decimal) : result Key MonitorError :=
  match to_weight t.2 with
  | Some w => Ok (KModelWeighted t.1 et w)
  | None => Err (InvalidWeight provider)
  end.

(* src: ai-gateway/src/discover/monitor/health/provider.rs:119-225 check_provider_weighted_monitor *)
Definition check_provider_weighted_monitor (cfg : BalanceConfig) : gset Key → step_result :=
  run_each (λ '(et, balance_config) u,
    match balance_config with
    | ProviderWeighted providers =>
        run_each (λ target u,
          check_target target.1 (provider_weighted_key et target) [provider_weighted_key et target] u)
          providers u
    | _ => (Err Internal, u, [])
    end) cfg.

(* src: ai-gateway/src/discover/monitor/health/provider.rs:227-392 check_model_weighted_monitor *)
Definition check_model_weighted_monitor (cfg : BalanceConfig) : gset Key → step_result :=
  run_each (λ '(et, balance_config) u,
    match balance_config with
    | ModelWeighted models =>
        run_each (λ target u,
          match inference_provider target.1 with
          | None => (Err (ModelIdNotRecognized (model_id_display date_format target.1)), u, [])
          | Some provider =>
              check_target provider (model_weighted_key provider et target)
                (model_weighted_key provider et
                   <$> filter (λ m, inference_provider m.1 = Some provider) models) u
          end) models u
    | _ => (Err Internal, u, [])
    end) cfg.

(* src: ai-gateway/src/discover/monitor/health/provider.rs:394-491 check_provider_latency_monitor *)
Definition check_provider_latency_monitor (cfg : BalanceConfig) : gset Key → step_result :=
  run_each (λ '(et, balance_config) u,
    match balance_config with
    | BalancedLatency providers =>
        run_each (λ provider u,
          check_target provider (Ok (KProvider provider et)) [Ok (KProvider provider et)] u) providers u
    | _ => (Err Internal, u, [])
    end) cfg.

(* src: ai-gateway/src/discover/monitor/health/provider.rs:493-629 check_model_latency_monitor *)
Definition check_model_latency_monitor (cfg : BalanceConfig) : gset Key → step_result :=
  run_each (λ '(et, balance_config) u,
    match balance_config with
    | ModelLatency models =>
        run_each (λ model u,
          match inference_provider model with
          | None => (Err (ModelIdNotRecognized (model_id_display date_format model)), u, [])
          | Some provider =>
              check_target provider (Ok (KModel model et))
                ((λ m, Ok (KModel m et)) <$> filter (λ m, inference_provider m = Some provider) models) u
          end) models u
    | _ => (Err Internal, u, [])
    end) cfg.

(* src: ai-gateway/src/discover/monitor/health/provider.rs:38-44 ProviderHealthMonitor *)
Inductive MonitorKind := MProviderWeighted | MModelWeighted | MProviderLatency | MModelLatency.

(* src: ai-gateway/src/discover/monitor/health/provider.rs:103-116 ProviderHealthMonitor::check_monitor *)
Definition check_monitor (kind : MonitorKind) (cfg : BalanceConfig) : gset Key → step_result :=
  match kind with
  | MProviderWeighted => check_provider_weighted_monitor cfg
  | MModelWeighted => check_model_weighted_monitor cfg
  | MProviderLatency => check_provider_latency_monitor cfg
  | MModelLatency => check_model_latency_monitor cfg
  end.

(** ** Initial discovery *)

(** [Dispatcher::new_with_model_id(..)]: a dispatcher pinned to a model. *)
Definition dispatcher_new_with_model_id (p : InferenceProvider) (m : ModelId Date)
  : result DispatcherService MonitorError :=
  if client_ok p then Ok (mkService p (Some m)) else Err (InitFailed p).

(** The loops that fill the service map, stopping at the first error. *)
Fixpoint insert_each {A} (entry : A → result (Key * DispatcherService) MonitorError) (l : list A)
    (acc : gmap Key DispatcherService) : result (gmap Key DispatcherService) MonitorError :=
  match l with
  | [] => Ok acc
  | x :: l' => let? (k, s) := entry x in insert_each entry l' (<[k := s]> acc)
  end.

Fixpoint fold_config (f : EndpointType → BalanceConfigInner → gmap Key DispatcherService
                          → result (gmap Key DispatcherService) MonitorError)
    (cfg : BalanceConfig) (acc : gmap Key DispatcherService)
  : result (gmap Key DispatcherService) MonitorError :=
  match cfg with
  | [] => Ok acc
  | (et, bc) :: cfg' => let? acc1 := f et bc acc in fold_config f cfg' acc1
  end.

(* src: ai-gateway/src/discover/model/weighted_key.rs:45-105 DispatcherDiscovery::new_weighted_model *)
Definition new_weighted_model (cfg : BalanceConfig) : result (gmap Key DispatcherService) MonitorError :=
  fold_config (λ et bc,
    match bc with
    | ModelWeighted models => insert_each (λ t,
        let? provider := ok_or (inference_provider t.1)
                           (ModelIdNotRecognized (model_id_display date_format t.1)) in
        let? key := model_weighted_key provider et t in
        let? dispatcher := dispatcher_new_with_model_id provider t.1 in
        Ok (key, dispatcher)) models
    | _ => λ _, Err InvalidBalancer
    end) cfg ∅.

(* src: ai-gateway/src/discover/model/key.rs:54-93 DispatcherDiscovery::new_model *)
Definition new_model (cfg : BalanceConfig) : result (gmap Key DispatcherService) MonitorError :=
  fold_config (λ et bc,
    match bc with
    | ModelLatency models => insert_each (λ m,
        let? provider := ok_or (inference_provider m)
                           (ModelIdNotRecognized (model_id_display date_format m)) in
        let? dispatcher := dispatcher_new_with_model_id provider m in
        Ok (KModel m et, dispatcher)) models
    | _ => λ _, Err InvalidBalancer
    end) cfg ∅.

(* src: ai-gateway/src/discover/provider/weighted_key.rs:45-101 DispatcherDiscovery::new_weighted_provider *)
Definition new_weighted_provider (cfg : BalanceConfig) : result (gmap Key DispatcherService) MonitorError :=
  fold_config (λ et bc,
    match bc with
    | ProviderWeighted providers => insert_each (λ t,
        let? key := provider_weighted_key et t in
        let? dispatcher := dispatcher_new t.1 in
        Ok (key, dispatcher)) providers
    | _ => λ _, Err InvalidBalancer
    end) cfg ∅.

(** The provider-latency discovery asks the balance configuration for its
    providers whatever the strategy is; a model without provider is skipped. *)
(* src: ai-gateway/src/config/balance.rs:153-185 BalanceConfigInner::providers *)
Definition balance_providers (bc : BalanceConfigInner) : list InferenceProvider :=
  match bc with
  | ProviderWeighted providers => providers.*1
  | BalancedLatency providers => providers
  | ModelWeighted models => omap (λ m, inference_provider m.1) models
  | ModelLatency models => omap inference_provider models
  end.

(* src: ai-gateway/src/discover/provider/key.rs:45-69 DispatcherDiscovery::new *)
Definition new_provider (cfg : BalanceConfig) : result (gmap Key DispatcherService) MonitorError :=
  fold_config (λ et bc, insert_each (λ p,
    let? dispatcher := dispatcher_new p in Ok (KProvider p et, dispatcher)) (balance_providers bc)) cfg ∅.

Definition discover (kind : MonitorKind) (cfg : BalanceConfig)
  : result (gmap Key DispatcherService) MonitorError :=
  match kind with
  | MProviderWeighted => new_weighted_provider cfg
  | MModelWeighted => new_weighted_model cfg
  | MProviderLatency => new_provider cfg
  | MModelLatency => new_model cfg
  end.

(** ** The targets of a pass

    The pass seen as one flat loop over (provider, key, group) triples, for a
    configuration that matches the monitor's strategy, with convertible
    weights and recognised models. *)

Record target := mkTarget { t_provider : InferenceProvider; t_key : Key; t_group : list Key }.

Definition entry_targets (kind : MonitorKind) (e : EndpointType * BalanceConfigInner)
  : option (list target) :=
  let et := e.1 in
  match kind, e.2 with
  | MProviderWeighted, ProviderWeighted providers =>
      mapM (λ t, k ← result_ok (provider_weighted_key et t); Some (mkTarget t.1 k [k])) providers
  | MModelWeighted, ModelWeighted models =>
      mapM (λ t, p ← inference_provider t.1;
                 k ← result_ok (model_weighted_key p et t);
                 g ← mapM (λ m, result_ok (model_weighted_key p et m))
                       (filter (λ m, inference_provider m.1 = Some p) models);
                 Some (mkTarget p k g)) models
  | MProviderLatency, BalancedLatency providers =>
      mapM (λ p, Some (mkTarget p (KProvider p et) [KProvider p et])) providers
  | MModelLatency, ModelLatency models =>
      mapM (λ m, p ← inference_provider m;
                 Some (mkTarget p (KModel m et)
                   ((λ m, KModel m et) <$> filter (λ m, inference_provider m = Some p) models))) models
  | _, _ => None
  end.

Definition targets (kind : MonitorKind) (cfg : BalanceConfig) : option (list target) :=
  mjoin <$> mapM (entry_targets kind) cfg.

Definition run_target (t : target) (u : gset Key) : step_result :=
  check_target (t_provider t) (Ok (t_key t)) (Ok <$> t_group t) u.

Definition keys (ts : list target) : gset Key := list_to_set (t_key <$> ts).

(** The provider a key belongs to. *)
Definition owner (k : Key) : option InferenceProvider :=
  match k with
  | KProviderWeighted p _ _ | KProvider p _ => Some p
  | KModelWeighted m _ _ | KModel m _ => inference_provider m
  end.

(** Applying the emitted changes to the balancer's pool. *)
Definition apply_effect (pool : gmap Key DispatcherService) (e : effect) : gmap Key DispatcherService :=
  match e with
  | SendRemove k => delete k pool
  | SendInsert k s => <[k := s]> pool
  | _ => pool
  end.
Definition apply_effects (es : list effect) (pool : gmap Key DispatcherService) :=
  foldl apply_effect pool es.

Lemma apply_effects_app es es' pool :
  apply_effects (es ++ es') pool = apply_effects es' (apply_effects es pool).
Proof. apply foldl_app. Qed.

(** ** Flattening *)

Lemma run_each_app {A} (body : A → gset Key → step_result) l l' u :
  run_each body (l ++ l') u =
  let '(r, u1, es1) := run_each body l u in
  match r with
  | Err e => (Err e, u1, es1)
  | Ok _ => let '(r2, u2, es2) := run_each body l' u1 in (r2, u2, es1 ++ es2)
  end.
Proof.
  revert u. induction l as [|x l IH]; intros u; simpl.
  - by destruct (run_each body l' u) as [[] ?].
  - destruct (body x u) as [[[[]|e] u1] es1]; [|done]. rw IH.
    destruct (run_each body l u1) as [[[[]|e] u2] es2]; [|done].
    destruct (run_each body l' u2) as [[r3 u3] es3]. by rw app_assoc.
Qed.

Lemma run_each_ext {A B} (f : A → gset Key → step_result) (g : B → gset Key → step_result) l l' u :
  Forall2 (λ a b, ∀ u, f a u = g b u) l l' → run_each f l u = run_each g l' u.
Proof.
  intros Hl. revert u. induction Hl as [|a b l l' Hab _ IH]; intros u; simpl; [done|].
  rw Hab. destruct (g b u) as [[[] ?] ?]; [|done]. by rw IH.
Qed.

Lemma mapM_result_ok {A} (f : A → result Key MonitorError) l ks :
  mapM (λ a, result_ok (f a)) l = Some ks → f <$> l = Ok <$> ks.
Proof.
  intros Hm%mapM_Some. induction Hm as [|a k l ks Ha _ IH]; [done|]. rw !fmap_cons IH.
  by destruct (f a); simplify_eq/=.
Qed.

Lemma entry_targets_run kind e ts :
  entry_targets kind e = Some ts → ∀ u,
  check_monitor kind [e] u = run_each run_target ts u.
Proof.
  intros Hts u. destruct e as [et bc].
  assert (Hone : ∀ body : EndpointType * BalanceConfigInner → gset Key → step_result,
    run_each body [(et, bc)] u = body (et, bc) u).
  { intros body. simpl. destruct (body (et, bc) u) as [[[[]|] ?] ?]; [|done]. by rw app_nil_r. }
  destruct kind, bc; simpl in Hts; try done; apply mapM_Some in Hts;
    unfold check_monitor; (etrans; [apply Hone|]); cbn; apply run_each_ext;
    (eapply Forall2_impl; [exact Hts|]); intros a t Ht u'; cbn in Ht.
  - destruct (provider_weighted_key et a) as [k|]; simplify_eq/=. done.
  - destruct (inference_provider a.1) as [p|]; simplify_eq/=.
    destruct (model_weighted_key p et a) as [k|] eqn:Ek; simplify_eq/=.
    destruct (mapM _ _) as [g|] eqn:Eg; simplify_eq/=. apply mapM_result_ok in Eg.
    unfold run_target. simpl. by rw Eg.
  - by simplify_eq/=.
  - destruct (inference_provider a) as [p|]; simplify_eq/=. unfold run_target. simpl.
    by rw -list_fmap_compose.
Qed.

Lemma check_monitor_cons kind e cfg u :
  check_monitor kind (e :: cfg) u =
  let '(r, u1, es1) := check_monitor kind [e] u in
  match r with
  | Err e => (Err e, u1, es1)
  | Ok _ => let '(r2, u2, es2) := check_monitor kind cfg u1 in (r2, u2, es1 ++ es2)
  end.
Proof. destruct kind; apply (run_each_app _ [e] cfg). Qed.

(** A pass over a valid configuration is the flat loop over its targets. *)
Lemma check_monitor_targets kind cfg ts :
  targets kind cfg = Some ts → ∀ u, check_monitor kind cfg u = run_each run_target ts u.
Proof.
  unfold targets. rw fmap_Some. intros (tss & Hm%mapM_Some & ->).
  induction Hm as [|e ets cfg tss He _ IH]; intros u; [by destruct kind|].
  rw check_monitor_cons (entry_targets_run _ _ _ He) /= run_each_app.
  destruct (run_each run_target ets u) as [[[] ?] ?]; [|done]. by rw IH.
Qed.

(** ** Well-formed targets *)

(** Every group holds its own key and consists of keys of targets of the same
    provider; a key determines its provider. *)
Definition wf_targets (ts : list target) : Prop :=
  ∀ t, t ∈ ts → t_key t ∈ t_group t ∧ owner (t_key t) = Some (t_provider t)
    ∧ ∀ k, k ∈ t_group t → k ∈ keys ts ∧ owner k = Some (t_provider t).

Lemma elem_of_keys k ts : k ∈ keys ts ↔ ∃ t, t ∈ ts ∧ t_key t = k.
Proof. unfold keys. rw elem_of_list_to_set list_elem_of_fmap. naive_solver. Qed.

Lemma wf_concat tss : Forall wf_targets tss → wf_targets (mjoin tss).
Proof.
  intros Hall t Ht. apply list_elem_of_join in Ht as (ts & Ht & Hts).
  rw Forall_forall in Hall. destruct (Hall ts Hts t Ht) as (Hk & Ho & Hg).
  split_and!; [done..|]. intros k Hin. destruct (Hg k Hin) as [H1 ?]. split; [|done].
  apply elem_of_keys in H1 as (t' & ? & ?). apply elem_of_keys. exists t'. split; [|done].
  apply list_elem_of_join. by exists ts.
Qed.

Lemma wf_singleton t ts :
  t ∈ ts → t_group t = [t_key t] → owner (t_key t) = Some (t_provider t) →
  t_key t ∈ t_group t ∧ owner (t_key t) = Some (t_provider t)
  ∧ ∀ k, k ∈ t_group t → k ∈ keys ts ∧ owner k = Some (t_provider t).
Proof.
  intros Ht -> Ho. split; [by apply list_elem_of_singleton|]. split; [done|].
  intros k ->%list_elem_of_singleton. split; [|done]. apply elem_of_keys. by exists t.
Qed.

Lemma model_weighted_key_Ok p et m k :
  model_weighted_key p et m = Ok k → ∃ w, k = KModelWeighted m.1 et w.
Proof. unfold model_weighted_key. destruct (to_weight m.2); [|done]. intros [= <-]. by eexists. Qed.

Lemma entry_targets_wf kind e ts : entry_targets kind e = Some ts → wf_targets ts.
Proof.
  destruct e as [et bc]. intros Hts t Ht.
  destruct kind, bc; simpl in Hts; try done; apply mapM_Some in Hts; pose proof Ht as Hin;
    apply list_elem_of_lookup in Ht as [i Ht];
    destruct (Forall2_lookup_r _ _ _ _ _ Hts Ht) as (a & Ha & Hat); simpl in Hat.
  - apply wf_singleton; [done|..]; unfold provider_weighted_key in Hat;
      destruct (to_weight a.2); by simplify_eq/=.
  - destruct (inference_provider a.1) as [p|] eqn:Ep; simplify_eq/=.
    destruct (model_weighted_key p et a) as [k|] eqn:Ek; simplify_eq/=.
    destruct (mapM _ _) as [g|] eqn:Eg; simplify_eq/=. apply mapM_Some in Eg.
    destruct (model_weighted_key_Ok _ _ _ _ Ek) as [w ->].
    split; [|split; [done|]].
    + assert (Hf : a ∈ filter (λ m, inference_provider m.1 = Some p) models).
      { apply list_elem_of_filter. split; [done|]. by eapply list_elem_of_lookup_2. }
      apply list_elem_of_lookup in Hf as [j Hj].
      destruct (Forall2_lookup_l _ _ _ _ _ Eg Hj) as (k' & Hk' & E). rw Ek in E. simplify_eq/=.
      by eapply list_elem_of_lookup_2.
    + intros k Hk. apply list_elem_of_lookup in Hk as [j Hj].
      destruct (Forall2_lookup_r _ _ _ _ _ Eg Hj) as (m & Hm & E).
      destruct (model_weighted_key p et m) as [k0|] eqn:Em; simplify_eq/=.
      apply list_elem_of_lookup_2, list_elem_of_filter in Hm as [Hp Hm].
      destruct (model_weighted_key_Ok _ _ _ _ Em) as [w' ->].
      split; [|done]. apply list_elem_of_lookup in Hm as [l Hl].
      destruct (Forall2_lookup_l _ _ _ _ _ Hts Hl) as (t' & Ht' & E). rw Hp /= Em /= in E.
      destruct (mapM _ _) as [g'|]; simplify_eq/=.
      apply elem_of_keys. eexists. split; [by eapply list_elem_of_lookup_2|done].
  - apply wf_singleton; [done|..]; by simplify_eq/=.
  - destruct (inference_provider a) as [p|] eqn:Ep; simplify_eq/=.
    split; [|split; [done|]].
    + apply list_elem_of_fmap. exists a. split; [done|]. apply list_elem_of_filter.
      split; [done|]. by eapply list_elem_of_lookup_2.
    + intros k Hk. apply list_elem_of_fmap in Hk as (m & -> & Hm).
      apply list_elem_of_filter in Hm as [Hp Hm]. split; [|done].
      apply list_elem_of_lookup in Hm as [l Hl].
      destruct (Forall2_lookup_l _ _ _ _ _ Hts Hl) as (t' & Ht' & E). rw Hp /= in E. simplify_eq/=.
      apply elem_of_keys. eexists. split; [by eapply list_elem_of_lookup_2|done].
Qed.

Lemma targets_wf kind cfg ts : targets kind cfg = Some ts → wf_targets ts.
Proof.
  unfold targets. rw fmap_Some. intros (tss & Hm%mapM_Some & ->). apply wf_concat.
  induction Hm as [|e ts cfg tss He _ IH]; constructor; [|done]. by eapply entry_targets_wf.
Qed.

(** ** The invariant of a pass *)

Abbreviation health := (check_health params health_metrics).

(** For an unhealthy owner, marked and removed coincide; for a healthy one, a
    key that is not marked is in the pool.  Nothing else is in either. *)
Definition consistent (C u : gset Key) (pool : gmap Key DispatcherService) : Prop :=
  u ⊆ C ∧ dom pool ⊆ C ∧
  ∀ k p, k ∈ C → owner k = Some p →
    (health p = Ok false → (k ∈ u ↔ k ∉ dom pool)) ∧ (k ∉ u → k ∈ dom pool).

Lemma mark_group_ok ks : ∀ u sends pool,
  ∃ es, mark_group (Ok <$> ks) u sends = (Ok tt, list_to_set ks ∪ u, sends ++ es)
    ∧ dom (apply_effects es pool) = dom pool ∖ list_to_set ks.
Proof.
  induction ks as [|k ks IH]; intros u sends pool; [|rw fmap_cons; cbn [mark_group]].
  - exists []. cbn. rw app_nil_r. split; [|set_solver]. do 2 f_equal. set_solver.
  - destruct (IH ({[k]} ∪ u) (sends ++ [SendRemove k]) (delete k pool)) as (es & -> & Hd).
    exists (SendRemove k :: es). rw -app_assoc /=. split.
    + do 2 f_equal. set_solver.
    + change (apply_effects (SendRemove k :: es) pool) with (apply_effects es (delete k pool)).
      rw Hd dom_delete_L. set_solver.
Qed.

Lemma restore_group_ok p ks : ∀ u sends pool r u' es',
  restore_group p (Ok <$> ks) u sends = (Ok r, u', es') →
  ∃ es, u' = u ∧ es' = sends ++ es
    ∧ dom (apply_effects es pool) = dom pool ∪ list_to_set ks.
Proof.
  induction ks as [|k ks IH]; intros u sends pool r u' es'; [|rw fmap_cons; cbn [restore_group]].
  - intros [= <- <- <-]. exists []. rw app_nil_r. split_and!; [done..|set_solver].
  - destruct (dispatcher_new p) as [s|e]; [|done].
    intros Hr. destruct (IH _ _ (<[k := s]> pool) _ _ _ Hr) as (es & -> & -> & Hd).
    exists (SendInsert k s :: es). rw -app_assoc /=. split_and!; [done..|].
    change (apply_effects (SendInsert k s :: es) pool) with (apply_effects es (<[k := s]> pool)).
    rw Hd dom_insert_L. set_solver.
Qed.

Lemma apply_noise es' pool es :
  es' = publish es.1 es.2 → apply_effects es' pool = pool.
Proof. intros ->. unfold publish. by destruct broadcaster. Qed.

(** What one successful target does to the marks and to the pool's keys. *)
Lemma run_target_cases t u r u' es pool :
  run_target t u = (Ok r, u', es) →
  ∃ h, health (t_provider t) = Ok h ∧
    ((h = false ∧ (t_key t ∉ u) ∧ u' = list_to_set (t_group t) ∪ u
      ∧ dom (apply_effects es pool) = dom pool ∖ list_to_set (t_group t))
     ∨ (h = true ∧ t_key t ∈ u ∧ u' = u ∖ {[t_key t]}
        ∧ dom (apply_effects es pool) = dom pool ∪ list_to_set (t_group t))
     ∨ ((h = false ∧ t_key t ∈ u ∨ h = true ∧ t_key t ∉ u) ∧ u' = u
        ∧ dom (apply_effects es pool) = dom pool)).
Proof.
  unfold run_target, check_target. destruct (health (t_provider t)) as [h|]; [|done].
  case_bool_decide as Hk; destruct h; simpl; intros Hrun; eexists; (split; [done|]).
  - destruct (restore_group _ _ _ _) as [[[r1|] u1] es1] eqn:E; [|done].
    apply (restore_group_ok _ _ _ _ pool) in E as (es2 & -> & -> & Hd).
    injection Hrun as <- <- <-. right; left. split_and!; [done..|]. simpl.
    rw !apply_effects_app /=. by rw (apply_noise _ _ (t_provider t, Up)).
  - injection Hrun as <- <- <-. right; right. split_and!; [by left|done..].
  - injection Hrun as <- <- <-. right; right. split_and!; [by right|done..].
  - destruct (mark_group_ok (t_group t) u [] pool) as (es1 & Hm & Hd). rw Hm /= in Hrun.
    injection Hrun as <- <- <-. left. split_and!; [done..|].
    rw !apply_effects_app /=. by rw (apply_noise _ _ (t_provider t, Down)).
Qed.

(** The key of a target carries the right mark. *)
Definition settled (u : gset Key) (k : Key) : Prop :=
  ∀ p h, owner k = Some p → health p = Ok h → (k ∈ u ↔ h = false).

Lemma run_target_consistent ts t u r u' es pool :
  wf_targets ts → t ∈ ts → run_target t u = (Ok r, u', es) →
  consistent (keys ts) u pool →
  consistent (keys ts) u' (apply_effects es pool)
  ∧ settled u' (t_key t) ∧ (∀ k, settled u k → settled u' k).
Proof.
  intros Hwf Ht Hrun (Hu & Hp & Hc). destruct (Hwf t Ht) as (Hkey & Hown & Hgrp).
  assert (HkC : t_key t ∈ keys ts) by (apply elem_of_keys; by exists t).
  destruct (run_target_cases _ _ _ _ _ pool Hrun) as (h & Hh & Hcase).
  assert (HgC : list_to_set (t_group t) ⊆ keys ts).
  { intros k Hk%elem_of_list_to_set. by apply Hgrp. }
  unfold consistent, settled. destruct Hcase as
    [(-> & Hk & -> & ->)|[(-> & Hk & -> & ->)|(Hk & -> & ->)]]; (split; [|split]).
  - split; [clear -Hu HgC; set_solver|]. split; [clear -Hp; set_solver|].
    intros k p HkC' Hop. destruct (Hc k p HkC' Hop) as [H1 H2].
    rw elem_of_difference elem_of_union elem_of_list_to_set.
    destruct (decide (k ∈ t_group t)); tauto.
  - intros p h' Hop Hh'. assert (h' = false) as -> by congruence.
    rw elem_of_union elem_of_list_to_set. split; auto.
  - intros k Hs p h' Hop Hh'. specialize (Hs p h' Hop Hh').
    rw elem_of_union elem_of_list_to_set Hs.
    destruct (decide (k ∈ t_group t)) as [Hg|Hg]; [|tauto].
    destruct (Hgrp k Hg) as [_ Ho]. assert (h' = false) as -> by congruence. split; auto.
  - split; [clear -Hu; set_solver|]. split; [clear -Hp HgC; set_solver|].
    intros k p HkC' Hop. destruct (Hc k p HkC' Hop) as [H1 H2].
    rw elem_of_difference elem_of_union elem_of_list_to_set elem_of_singleton. split.
    + intros Hf. specialize (H1 Hf).
      assert (k ∉ t_group t) by (intros Hg; destruct (Hgrp k Hg); congruence).
      assert (k ≠ t_key t) by (intros ->; congruence). tauto.
    + destruct (decide (k = t_key t)) as [->|]; tauto.
  - intros p h' Hop Hh'. assert (h' = true) as -> by congruence.
    rw elem_of_difference elem_of_singleton. split; [tauto|done].
  - intros k Hs p h' Hop Hh'. specialize (Hs p h' Hop Hh').
    rw elem_of_difference elem_of_singleton Hs.
    destruct (decide (k = t_key t)) as [->|]; [|tauto].
    assert (h' = true) as -> by congruence. split; [by intros []|done].
  - done.
  - intros p h' Hop Hh'. assert (h' = h) as -> by congruence. by destruct Hk as [[-> ?]|[-> ?]].
  - done.
Qed.

Lemma run_all_consistent ts l : ∀ u r u' es pool,
  wf_targets ts → (∀ t, t ∈ l → t ∈ ts) → run_each run_target l u = (Ok r, u', es) →
  consistent (keys ts) u pool →
  consistent (keys ts) u' (apply_effects es pool)
  ∧ (∀ t, t ∈ l → settled u' (t_key t) ∧ is_Some (result_ok (health (t_provider t))))
  ∧ (∀ k, settled u k → settled u' k).
Proof.
  induction l as [|t l IH]; intros u r u' es pool Hwf Hl; simpl.
  - intros [= <- <- <-] Hc. split_and!; [done| |done]. by intros t ?%elem_of_nil.
  - destruct (run_target t u) as [[[r1|] u1] es1] eqn:Et; [|done].
    destruct (run_each run_target l u1) as [[[r2|] u2] es2] eqn:El; [|done].
    intros [= <- <- <-] Hc. assert (Hts : t ∈ ts) by (apply Hl; by left).
    destruct (run_target_cases _ _ _ _ _ pool Et) as (h & Hh & _).
    destruct (run_target_consistent ts t u _ _ _ _ Hwf Hts Et Hc) as (Hc1 & Hs1 & Hmono).
    destruct (IH _ _ _ _ _ Hwf ltac:(set_solver) El Hc1) as (Hc2 & Hs2 & Hmono2).
    rw apply_effects_app. split_and!; [done| |by auto].
    intros t' [->|Ht']%elem_of_cons; [|by apply Hs2]. split; [by apply Hmono2|].
    rw Hh. by eexists.
Qed.

(** The keys of a configuration whose provider has health [h]. *)
Definition keys_with_health (h : bool) (ts : list target) : gset Key :=
  keys (filter (λ t, health (t_provider t) = Ok h) ts).

Lemma elem_of_keys_with_health h ts k :
  wf_targets ts →
  k ∈ keys_with_health h ts ↔ k ∈ keys ts ∧ ∃ p, owner k = Some p ∧ health p = Ok h.
Proof.
  intros Hwf. unfold keys_with_health. rw !elem_of_keys. split.
  - intros (t & [Hh Ht]%list_elem_of_filter & <-). split; [by exists t|].
    exists (t_provider t). split; [|done]. by destruct (Hwf t Ht) as (_ & ? & _).
  - intros ((t & Ht & <-) & p & Ho & Hh). exists t. split; [|done].
    apply list_elem_of_filter. split; [|done]. destruct (Hwf t Ht) as (_ & ? & _). congruence.
Qed.

(** A completed pass makes marks and pool agree with provider health. *)
Lemma pass_tracks_health kind cfg ts u r u' es pool :
  targets kind cfg = Some ts → u ⊆ keys ts → dom pool = keys ts ∖ u →
  check_monitor kind cfg u = (Ok r, u', es) →
  u' = keys_with_health false ts ∧ dom (apply_effects es pool) = keys_with_health true ts
  ∧ u' ⊆ keys ts ∧ dom (apply_effects es pool) = keys ts ∖ u'.
Proof.
  intros Hts Hu Hpool Hrun. pose proof (targets_wf _ _ _ Hts) as Hwf.
  rw (check_monitor_targets _ _ _ Hts) in Hrun.
  assert (Hc : consistent (keys ts) u pool).
  { split; [done|]. split; [clear -Hpool; set_solver|]. intros k p Hk _.
    rw Hpool elem_of_difference. destruct (decide (k ∈ u)); tauto. }
  destruct (run_all_consistent ts ts _ _ _ _ _ Hwf ltac:(done) Hrun Hc) as ((Hu' & Hp' & Hc') & Hs & _).
  assert (Hall : ∀ k, k ∈ keys ts → ∃ p h, owner k = Some p ∧ health p = Ok h ∧ (k ∈ u' ↔ h = false)).
  { intros k (t & Ht & <-)%elem_of_keys. destruct (Hs t Ht) as [Hst [h Hh]].
    destruct (Hwf t Ht) as (_ & Ho & _). exists (t_provider t), h.
    destruct (health (t_provider t)) as [h'|] eqn:E; simplify_eq/=. split_and!; [done..|].
    by apply (Hst (t_provider t)). }
  assert (Hpart : dom (apply_effects es pool) = keys ts ∖ u').
  { apply set_eq. intros k. rw elem_of_difference. split.
    - intros Hk. pose proof (Hp' k Hk) as HkC. split; [done|]. intros Hku.
      destruct (Hall k HkC) as (p & h & Ho & Hh & Hiff). apply Hiff in Hku as ->.
      destruct (Hc' k p HkC Ho) as [H1 _]. specialize (H1 Hh). tauto.
    - intros [HkC Hku]. destruct (Hall k HkC) as (p & h & Ho & Hh & Hiff).
      by apply (Hc' k p HkC Ho). }
  assert (Hmark : ∀ k h, k ∈ keys_with_health h ts ↔ k ∈ keys ts ∧ (k ∈ u' ↔ h = false)).
  { intros k h. rw elem_of_keys_with_health //. split.
    - intros [HkC (p & Ho & Hh)]. split; [done|].
      destruct (Hall k HkC) as (p' & h' & Ho' & Hh' & Hiff). by assert (h' = h) as <- by congruence.
    - intros [HkC Hiff]. split; [done|]. destruct (Hall k HkC) as (p & h' & Ho & Hh & Hiff').
      exists p. split; [done|]. rw Hh. f_equal. destruct h, h'; naive_solver. }
  split_and!; [| |done..]; apply set_eq; intros k; rw Hmark.
  - split; [|naive_solver]. intros Hk. split; [by apply Hu'|done].
  - rw Hpart elem_of_difference. naive_solver.
Qed.

(** ** Discovery fills the pool with the configured keys *)

Lemma insert_each_dom {A} (entry : A → result (Key * DispatcherService) MonitorError) l ts : ∀ acc acc',
  Forall2 (λ x t, ∀ k s, entry x = Ok (k, s) → k = t_key t) l ts →
  insert_each entry l acc = Ok acc' → dom acc' = dom acc ∪ keys ts.
Proof.
  intros acc acc' Hl. revert acc. induction Hl as [|x t l ts Hx _ IH]; intros acc; simpl.
  - intros [= ->]. unfold keys. set_solver.
  - destruct (entry x) as [[k s]|] eqn:E; [|done]. simpl. intros Hi%IH.
    rw Hi dom_insert_L (Hx k s eq_refl). unfold keys. rw fmap_cons list_to_set_cons.
    clear. set_solver.
Qed.

Definition discover_entry (kind : MonitorKind) (e : EndpointType * BalanceConfigInner)
    (acc : gmap Key DispatcherService) : result (gmap Key DispatcherService) MonitorError :=
  match kind, e.2 with
  | MProviderWeighted, ProviderWeighted providers => insert_each (λ t,
        let? key := provider_weighted_key e.1 t in
        let? dispatcher := dispatcher_new t.1 in
        Ok (key, dispatcher)) providers acc
  | MModelWeighted, ModelWeighted models => insert_each (λ t,
        let? provider := ok_or (inference_provider t.1)
                           (ModelIdNotRecognized (model_id_display date_format t.1)) in
        let? key := model_weighted_key provider e.1 t in
        let? dispatcher := dispatcher_new_with_model_id provider t.1 in
        Ok (key, dispatcher)) models acc
  | MProviderLatency, bc => insert_each (λ p,
        let? dispatcher := dispatcher_new p in Ok (KProvider p e.1, dispatcher)) (balance_providers bc) acc
  | MModelLatency, ModelLatency models => insert_each (λ m,
        let? provider := ok_or (inference_provider m)
                           (ModelIdNotRecognized (model_id_display date_format m)) in
        let? dispatcher := dispatcher_new_with_model_id provider m in
        Ok (KModel m e.1, dispatcher)) models acc
  | _, _ => Err InvalidBalancer
  end.

Lemma discover_fold kind cfg : discover kind cfg = fold_config (λ et bc, discover_entry kind (et, bc)) cfg ∅.
Proof.
  assert (Hext : ∀ f g acc, (∀ et bc acc, f et bc acc = g et bc acc) →
    fold_config f cfg acc = fold_config g cfg acc).
  { clear. intros f g acc Hfg. revert acc. induction cfg as [|[et bc] cfg IH]; intros acc; simpl; [done|].
    rw Hfg. destruct (g et bc acc); [apply IH|done]. }
  destruct kind; apply Hext; by intros et [] acc.
Qed.

Lemma discover_entry_dom kind e ts acc acc' :
  entry_targets kind e = Some ts → discover_entry kind e acc = Ok acc' →
  dom acc' = dom acc ∪ keys ts.
Proof.
  destruct e as [et bc]. intros Hts.
  destruct kind, bc; simpl in Hts; try done; apply mapM_Some in Hts; unfold discover_entry;
    cbn [fst snd balance_providers]; apply insert_each_dom;
    (eapply Forall2_impl; [exact Hts|]); intros a t Ht k s Hk; cbn in Ht, Hk.
  - destruct (provider_weighted_key et a) as [k'|]; simplify_eq/=.
    destruct (dispatcher_new a.1); by simplify_eq/=.
  - destruct (inference_provider a.1) as [p|]; simplify_eq/=.
    destruct (model_weighted_key p et a) as [k'|] eqn:Ek; simplify_eq/=.
    destruct (mapM _ _) as [g|] eqn:Eg; simplify_eq/=.
    destruct (dispatcher_new_with_model_id p a.1); by simplify_eq/=.
  - destruct (dispatcher_new a); by simplify_eq/=.
  - destruct (inference_provider a) as [p|]; simplify_eq/=.
    destruct (dispatcher_new_with_model_id p a); by simplify_eq/=.
Qed.

Lemma discover_dom kind cfg ts pool :
  targets kind cfg = Some ts → discover kind cfg = Ok pool → dom pool = keys ts.
Proof.
  unfold targets. rw fmap_Some. intros (tss & Hm%mapM_Some & ->). rw discover_fold.
  assert (Hgen : ∀ acc, fold_config (λ et bc, discover_entry kind (et, bc)) cfg acc = Ok pool →
    dom pool = dom acc ∪ keys (mjoin tss)).
  { induction Hm as [|[et bc] ts cfg tss He _ IH]; intros acc; simpl.
    - intros [= ->]. unfold keys. clear. set_solver.
    - destruct (discover_entry kind (et, bc) acc) as [acc1|] eqn:E; [|done]. simpl. intros Hi%IH.
      rw Hi (discover_entry_dom _ _ _ _ _ He E). unfold keys.
      rw fmap_app list_to_set_app_L. clear. set_solver. }
  intros Hf%Hgen. rw Hf dom_empty_L. clear. set_solver.
Qed.
End monitor.

(** ** The life of a router's monitor *)

Section lifetime.
Context {Date : Type} `{Countable Date} {Decimal : Type} (to_weight : Decimal → option Z).
Context (date_format : Date → string → string) (client_ok : InferenceProvider → bool).
Context (params : HealthMonitorParams) (broadcaster : bool).

(** One pass per tick of the interval; [obs] are the endpoint totals each of
    them reads.  A failing pass ends the monitor. *)
(* src: ai-gateway/src/discover/monitor/health/provider.rs:714-743 HealthMonitor::run_forever *)
Fixpoint run_forever (kind : MonitorKind) (cfg : BalanceConfig) (obs : list (ApiEndpoint → option (Z * Z)))
    (u : gset Key) (pool : gmap Key DispatcherService)
  : option (gset Key * gmap Key (DispatcherService (Date := Date))) :=
  match obs with
  | [] => Some (u, pool)
  | metrics :: obs' =>
      let '(r, u1, es) := check_monitor (Decimal := Decimal) to_weight date_format client_ok params
                            metrics broadcaster kind cfg u in
      if is_ok r then run_forever kind cfg obs' u1 (apply_effects es pool) else None
  end.

(** C15 (invariant). The load balancer's pool follows provider health, for all
    four balancing strategies: start from the discovered pool of a valid
    configuration and run any number of passes with arbitrary request and
    error totals; after the last pass, if none failed, the pool holds exactly
    the configured keys whose provider that pass found healthy, and the marked
    keys are exactly the others.  In particular a removed key is in the pool
    again once its provider recovers.  The pool is a map from keys to services:
    an insertion of a key that is there replaces its service, and when a
    provider with several models recovers its keys are inserted several times
    ([recovery_inserts_repeatedly]). *)
Theorem pool_tracks_provider_health kind cfg ts pool0 obs metrics u pool :
  targets to_weight kind cfg = Some ts →
  discover to_weight date_format client_ok kind cfg = Ok pool0 →
  run_forever kind cfg (obs ++ [metrics]) ∅ pool0 = Some (u, pool) →
  u = keys_with_health params metrics false ts
  ∧ dom pool = keys_with_health params metrics true ts.
Proof.
  intros Hts Hd. pose proof (discover_dom _ _ _ _ _ _ _ Hts Hd) as Hdom.
  assert (H0 : ∅ ⊆ keys ts ∧ dom pool0 = keys ts ∖ ∅) by (rw Hdom; clear; set_solver).
  revert H0. generalize (∅ : gset (Key (Date := Date))) as u0. clear Hd Hdom.
  revert pool0. induction obs as [|m obs IH]; intros pool0 u0 [Hu Hp]; simpl;
    destruct (check_monitor _ _ _ _ _ _ _ _ u0) as [[[r|] u1] es] eqn:E; try done; simpl;
    destruct (pass_tracks_health _ _ _ _ _ _ _ _ _ _ _ _ _ _ Hts Hu Hp E) as (H1 & H2 & H3 & H4).
  - by intros [= <- <-].
  - intros Hrun. by eapply IH.
Qed.
End lifetime.

(** A router that spreads chat requests over two Anthropic models and one of
    OpenAI. *)
Definition sample_opus : ModelId string := WithVersion Anthropic (mkModelIdWithVersion "claude-opus-4" ImplicitLatest).
Definition sample_haiku : ModelId string := WithVersion Anthropic (mkModelIdWithVersion "claude-haiku-4" ImplicitLatest).
Definition sample_gpt : ModelId string := WithVersion OpenAI (mkModelIdWithVersion "gpt-5" ImplicitLatest).
Definition sample_cfg : BalanceConfig (Date := string) (Decimal := Z) :=
  [(Chat, ModelWeighted [(sample_opus, 1); (sample_haiku, 2); (sample_gpt, 1)])].
Definition sample_weight (d : Z) : option Z := Some (d * 10000).
(** Threshold 0.1, 20 requests of grace. *)
Definition sample_params : HealthMonitorParams := mkParams (f64_div (f64_of_Z 1) (f64_of_Z 10)) 20.
(** Anthropic's messages endpoint fails for half, or none, of 40 requests. *)
Definition failing (e : ApiEndpoint) : option (Z * Z) :=
  match e with EAnthropicMessages => Some (40, 20) | _ => Some (40, 0) end.
Definition fine (e : ApiEndpoint) : option (Z * Z) := Some (40, 0).

Definition sample_targets : list (target (Date := string)) :=
  default [] (targets sample_weight MModelWeighted sample_cfg).

Definition sample_run (obs : list (ApiEndpoint → option (Z * Z))) :=
  match discover sample_weight sample_format (λ _, true) MModelWeighted sample_cfg with
  | Ok pool0 => run_forever sample_weight sample_format (λ _, true) sample_params false
                  MModelWeighted sample_cfg obs ∅ pool0
  | Err _ => None
  end.

Lemma pool_tracks_provider_health_witness :
  match sample_run [fine; failing] with
  | Some (u, pool) =>
      (map_to_list pool).*1 = [KModelWeighted sample_gpt Chat 10000]
      ∧ dom pool = keys_with_health sample_params failing true sample_targets
  | None => False
  end.
Proof.
  assert (Hc : match sample_run [fine; failing] with
               | Some (u, pool) => (map_to_list pool).*1 = [KModelWeighted sample_gpt Chat 10000]
               | None => False
               end) by (vm_compute; reflexivity).
  unfold sample_run in *.
  destruct (discover _ _ _ _ _) as [pool0|] eqn:Ed; [|destruct Hc].
  destruct (run_forever _ _ _ _ _ _ _ _ _ _) as [[u pool]|] eqn:Er; [|destruct Hc].
  split; [exact Hc|].
  exact (proj2 (pool_tracks_provider_health sample_weight sample_format (λ _, true) sample_params false
    MModelWeighted sample_cfg sample_targets pool0 [fine] failing u pool
    ltac:(vm_compute; reflexivity) Ed Er)).
Defined.

(** Two models of one provider: each is put back twice. *)
Example recovery_inserts_repeatedly :
  omap (λ e, match e with SendInsert k _ => Some k | _ => None end)
    (check_monitor sample_weight sample_format (λ _, true) sample_params fine false MModelWeighted sample_cfg
       (keys_with_health sample_params failing false sample_targets)).2
  = [KModelWeighted sample_opus Chat 10000; KModelWeighted sample_haiku Chat 20000;
     KModelWeighted sample_opus Chat 10000; KModelWeighted sample_haiku Chat 20000].
Proof. vm_compute. reflexivity. Qed.
