(* ===== verification/ModelMapper.v ===== *)
(** * Model mapping

    Models [ai-gateway/src/middleware/mapper/model.rs]: which model name a
    request is sent upstream with, given the model the client asked for, the
    target provider and, for the model strategies of the load balancer, the
    model the dispatcher is pinned to. *)

From S2P Require Import Prelude RustStr Provider ModelId Float64 HealthMonitor.
Local Open Scope Z_scope.

Section mapper.
Context {Date : Type} `{Countable Date}.

(** [AppState::get_provider_is_router_flags]. *)
Definition RouterFlags := gmap string bool.

(* src: ai-gateway/src/app_state.rs:272-282 AppState::provider_skips_model_mapping_catalog *)
Definition provider_skips_model_mapping_catalog (flags : RouterFlags) (provider : InferenceProvider) : bool :=
  match provider with
  | Named code =>
      if bool_decide (flags = ∅) then String.eqb code "openrouter"
      else default false (flags !! code)
  | _ => false
  end.

(* src: ai-gateway/src/config/model_mapping.rs:9-10 ModelMappingConfig *)
Definition ModelMappingConfig := list (string * list (ModelId Date)).

Definition mapping_get (name : string) (cfg : ModelMappingConfig) : option (list (ModelId Date)) :=
  match list_find (λ e, e.1 = name) cfg with Some (_, e) => Some e.2 | None => None end.

(** The offered models of each provider; membership ignores versions. *)
(* src: ai-gateway/src/middleware/mapper/model.rs:16-28 ProviderModels *)
Definition ProviderModels := gmap InferenceProvider (list (ModelId Date)).

Definition offers (models : list (ModelId Date)) (m : ModelId Date) : bool :=
  existsb (without_version_eq m) models.

(* src: ai-gateway/src/middleware/mapper/model.rs:30-36 ModelMapper *)
Record ModelMapper := mkMapper {
  router_flags : RouterFlags;
  router_mappings : option ModelMappingConfig;   (* [router_config.model_mappings()] *)
  default_model_mapping : ModelMappingConfig;
  model_id : option (ModelId Date);
  provider_models : ProviderModels
}.

Inductive MapError :=
| NoProviderConfig (p : InferenceProvider)
| NoModelMapping (p : InferenceProvider) (model : string).

(* src: ai-gateway/src/middleware/mapper/model.rs:92-168 ModelMapper::map_model *)
Definition map_model (mm : ModelMapper) (source_model : ModelId Date) (target_provider : InferenceProvider)
  : result (ModelId Date) MapError :=
  match model_id mm with
  | Some m => Ok m
  | None =>
      if provider_skips_model_mapping_catalog (router_flags mm) target_provider then Ok source_model
      else
        let? offered := ok_or (provider_models mm !! target_provider) (NoProviderConfig target_provider) in
        if offers offered source_model then Ok source_model
        else
          let mapping := default (default_model_mapping mm) (router_mappings mm) in
          let source_model_name := as_model_name source_model in
          let? possible_mappings := ok_or (mapping_get source_model_name mapping)
                                      (NoModelMapping target_provider source_model_name) in
          match list_find (λ m, offers offered m = true ∧ inference_provider m = Some target_provider)
                  possible_mappings with
          | Some (_, m) => Ok m
          | None => Err (NoModelMapping target_provider source_model_name)
          end
  end.

(** Mapping never sends a provider a model it does not offer: for a
    dispatcher without a pinned model and a provider whose catalogue is
    checked, the mapped model is, up to its version, in the provider's
    catalogue; and it is the requested model itself unless that one is not
    offered, in which case it is a model of the target provider listed for the
    requested name. *)
Theorem mapped_model_is_offered mm source target m :
  model_id mm = None →
  provider_skips_model_mapping_catalog (router_flags mm) target = false →
  map_model mm source target = Ok m →
  ∃ offered, provider_models mm !! target = Some offered ∧ offers offered m = true
    ∧ (m = source
       ∨ offers offered source = false ∧ inference_provider m = Some target
         ∧ ∃ alts, mapping_get (as_model_name source)
                     (default (default_model_mapping mm) (router_mappings mm)) = Some alts ∧ m ∈ alts).
Proof.
  intros Hpin Hskip. unfold map_model. rw Hpin Hskip.
  destruct (provider_models mm !! target) as [offered|]; [|done]. simpl.
  destruct (offers offered source) eqn:Eo.
  { intros [= <-]. exists offered. split_and!; [done..|by left]. }
  destruct (mapping_get _ _) as [alts|] eqn:Ea; [|done]. simpl.
  destruct (list_find _ alts) as [[i m']|] eqn:Ef; [|done]. intros [= <-].
  apply list_find_Some in Ef as (Hi & [Hoff Hp] & _).
  exists offered. split_and!; [done..|]. right. split_and!; [done..|].
  exists alts. split; [done|]. by eapply list_elem_of_lookup_2.
Qed.

(** ** The mapper of a dispatcher *)

(** [ModelMapper::new_for_router] and [new_with_model_id], as called by
    [Dispatcher::new] and [Dispatcher::new_with_model_id]. *)
(* src: ai-gateway/src/middleware/mapper/model.rs:38-63 ModelMapper::new_for_router *)
Definition service_mapper (flags : RouterFlags) (router : option ModelMappingConfig)
    (dflt : ModelMappingConfig) (models : ProviderModels) (s : DispatcherService (Date := Date))
  : ModelMapper :=
  mkMapper flags router dflt (svc_model s) models.
End mapper.

Section pinning.
Context {Date : Type} `{Countable Date} {Decimal : Type} (to_weight : Decimal → option Z).
Context (date_format : Date → string → string) (client_ok : InferenceProvider → bool).
Context (params : HealthMonitorParams) (broadcaster : bool) (metrics : ApiEndpoint → option (Z * Z)).

(** The model of a model-strategy key. *)
Definition key_model (k : Key (Date := Date)) : option (ModelId Date) :=
  match k with
  | KModelWeighted m _ _ | KModel m _ => Some m
  | _ => None
  end.

Lemma restore_group_unpinned p group : ∀ u sends r u' es (k : Key (Date := Date)) s,
  restore_group client_ok p group u sends = (r, u', es) →
  SendInsert k s ∈ es → SendInsert k s ∈ sends ∨ svc_model s = None.
Proof.
  induction group as [|[k0|e] group IH]; intros u sends r u' es k s; simpl.
  - intros [= <- <- <-]. by left.
  - unfold dispatcher_new. destruct (client_ok p); [|intros [= <- <- <-]; by left].
    intros Hr Hin. destruct (IH _ _ _ _ _ _ _ Hr Hin) as [Hs|]; [|by right].
    apply elem_of_app in Hs as [?|Hs]; [by left|]. apply list_elem_of_singleton in Hs.
    right. by simplify_eq.
  - intros [= <- <- <-]. by left.
Qed.

Lemma mark_group_no_insert group : ∀ u sends r u' es (k : Key (Date := Date)) s,
  (∀ k s, SendInsert k s ∉ sends) →
  mark_group group u sends = (r, u', es) → SendInsert k s ∉ es.
Proof.
  induction group as [|[k0|e] group IH]; intros u sends r u' es k s Hs; simpl.
  - intros [= <- <- <-]. apply Hs.
  - apply IH. intros k1 s1 [Hin|Hin]%elem_of_app; [by eapply Hs|].
    by apply list_elem_of_singleton in Hin.
  - intros [= <- <- <-]. by intros ?%elem_of_nil.
Qed.

Lemma check_target_unpinned p key group u r u' es (k : Key (Date := Date)) s :
  check_target client_ok params metrics broadcaster p key group u = (r, u', es) →
  SendInsert k s ∈ es → svc_model s = None.
Proof.
  unfold check_target. destruct key as [key|]; [|intros [= <- <- <-]; by intros ?%elem_of_nil].
  destruct (check_health _ _ _) as [h|]; [|intros [= <- <- <-]; by intros ?%elem_of_nil].
  assert (Htail : ∀ (b : bool) es0 (x : effect) , SendInsert k s ∈ (if b then es0 ++ [x] else es0) →
    (∀ k s, x ≠ SendInsert k s) → SendInsert k s ∈ es0).
  { intros [] es0 x; [|done]. intros [?|Hx%list_elem_of_singleton]%elem_of_app Hne; [done|].
    by destruct (Hne k s). }
  assert (Hpub : ∀ (b : bool) es0 st, SendInsert k s ∈ (if b then es0 ++ publish broadcaster p st else es0) →
    SendInsert k s ∈ es0).
  { intros [] es0 st; [|done]. unfold publish. destruct broadcaster; [|by rw app_nil_r].
    by intros [?|?%list_elem_of_singleton]%elem_of_app. }
  destruct (negb h && _); [|destruct (h && _)].
  - destruct (mark_group _ _ _) as [[r1 u1] es1] eqn:E. intros [= <- <- <-] Hin.
    apply Htail in Hin; [|done]. apply Hpub in Hin.
    exfalso. revert Hin. eapply mark_group_no_insert; [|exact E]. by intros ? ? ?%elem_of_nil.
  - destruct (restore_group _ _ _ _ _) as [[r1 u1] es1] eqn:E. intros [= <- <- <-] Hin.
    apply Htail in Hin; [|done]. apply Hpub in Hin.
    by destruct (restore_group_unpinned _ _ _ _ _ _ _ _ _ E Hin) as [?%elem_of_nil|].
  - intros [= <- <- <-] Hin. by apply list_elem_of_singleton in Hin.
Qed.

Lemma run_each_unpinned {A} (body : A → gset (Key (Date := Date)) → step_result) l : ∀ u r u' es k s,
  (∀ x u r u' es, body x u = (r, u', es) → SendInsert k s ∈ es → svc_model s = None) →
  run_each body l u = (r, u', es) → SendInsert k s ∈ es → svc_model s = None.
Proof.
  induction l as [|x l IH]; intros u r u' es k s Hb; simpl.
  - intros [= <- <- <-]. by intros ?%elem_of_nil.
  - destruct (body x u) as [[[r1|] u1] es1] eqn:Eb; [|intros [= <- <- <-]; by eapply Hb].
    destruct (run_each body l u1) as [[r2 u2] es2] eqn:El. intros [= <- <- <-].
    intros [Hin|Hin]%elem_of_app; [by eapply Hb|]. by eapply IH.
Qed.

Lemma check_monitor_unpinned kind cfg u r u' es (k : Key (Date := Date)) s :
  check_monitor (Decimal := Decimal) to_weight date_format client_ok params metrics broadcaster kind cfg u
    = (r, u', es) →
  SendInsert k s ∈ es → svc_model s = None.
Proof.
  assert (Hnil : ∀ (e : MonitorError) (u1 : gset (Key (Date := Date))) r u' es,
    (Err e, u1, []) = (r, u', es) :> step_result → SendInsert k s ∈ es → svc_model s = None).
  { intros ????? [= <- <- <-]. by intros ?%elem_of_nil. }
  destruct kind; simpl; apply run_each_unpinned; clear u r u' es;
    intros [et bc] u r u' es; destruct bc; try apply Hnil; apply run_each_unpinned;
    clear u r u' es; intros x u r u' es; cbv beta; try (destruct (inference_provider _); [|apply Hnil]);
    apply check_target_unpinned.
Qed.

(** Discovery pins every model key to its model. *)
Definition all_pinned (pool : gmap (Key (Date := Date)) DispatcherService) : Prop :=
  ∀ k s, pool !! k = Some s → svc_model s = key_model k.

Lemma insert_each_pinned {A} (entry : A → result (Key (Date := Date) * DispatcherService) MonitorError) l :
  (∀ x k s, entry x = Ok (k, s) → svc_model s = key_model k) →
  ∀ acc acc', all_pinned acc → insert_each entry l acc = Ok acc' → all_pinned acc'.
Proof.
  intros He. induction l as [|x l IH]; intros acc acc' Hacc; simpl; [by intros [= ->]|].
  destruct (entry x) as [[k s]|] eqn:E; [|done]. simpl. apply IH.
  intros k' s' [[<- <-]|[_ Hk]]%lookup_insert_Some; [by eapply He|by apply Hacc].
Qed.

Lemma discover_pinned kind cfg pool :
  kind = MModelWeighted ∨ kind = MModelLatency →
  discover (Decimal := Decimal) to_weight date_format client_ok kind cfg = Ok pool → all_pinned pool.
Proof.
  intros Hk. rw discover_fold.
  assert (Hgen : ∀ acc, all_pinned acc →
    fold_config (λ et bc, discover_entry to_weight date_format client_ok kind (et, bc)) cfg acc = Ok pool →
    all_pinned pool).
  { induction cfg as [|[et bc] cfg IH]; intros acc Hacc; simpl; [by intros [= ->]|].
    destruct (discover_entry _ _ _ kind (et, bc) acc) as [acc1|] eqn:E; [|done]. simpl. apply IH.
    destruct Hk as [->| ->], bc; try done; cbn in E; (eapply insert_each_pinned; [|exact Hacc|exact E]);
      intros x k s; cbv beta;
      match goal with |- context [inference_provider ?y] => destruct (inference_provider y) as [p|] end;
      try done; cbn;
      unfold model_weighted_key, dispatcher_new_with_model_id;
      try (destruct (to_weight _); [|done]); cbn; destruct (client_ok p); try done;
      by intros [= <- <-]. }
  apply Hgen. intros k s. by rw lookup_empty.
Qed.

(** A load-balancer entry of a model strategy forgets its model when
    it is restored: discovery creates the entry's dispatcher pinned to the
    model of its key, so every request is sent with that model; the dispatcher
    a health pass inserts for the same key after a recovery is not pinned, so a
    request for another model the provider offers is sent with the requested
    model instead.  (The source restores with [Dispatcher::new] where discovery
    uses [Dispatcher::new_with_model_id].) *)
Theorem recovered_entry_forgets_its_model kind cfg pool0 k m s0 u r u' es s
    flags router dflt models offered source p :
  kind = MModelWeighted ∨ kind = MModelLatency →
  discover (Decimal := Decimal) to_weight date_format client_ok kind cfg = Ok pool0 →
  pool0 !! k = Some s0 → key_model k = Some m →
  check_monitor to_weight date_format client_ok params metrics broadcaster kind cfg u = (r, u', es) →
  SendInsert k s ∈ es →
  provider_skips_model_mapping_catalog flags p = false →
  models !! p = Some offered → offers offered source = true →
  map_model (service_mapper flags router dflt models s0) source p = Ok m
  ∧ map_model (service_mapper flags router dflt models s) source p = Ok source.
Proof.
  intros Hkind Hd Hs0 Hm Hrun Hin Hskip Hmodels Hoff.
  apply (discover_pinned _ _ _ Hkind Hd) in Hs0. rw Hm in Hs0.
  pose proof (check_monitor_unpinned _ _ _ _ _ _ _ _ Hrun Hin) as Hs.
  unfold map_model, service_mapper. simpl. rw Hs0 Hs Hskip Hmodels /= Hoff. done.
Qed.
End pinning.

(** Haiku is restored while the client asks for Opus: before the outage the
    entry sends Haiku, after it Opus. *)
Definition sample_key : Key (Date := string) := KModelWeighted sample_haiku Chat 20000.

Lemma recovered_entry_forgets_its_model_witness :
  let models := {[Anthropic := [sample_opus; sample_haiku]]} in
  map_model (service_mapper ∅ None [] models (mkService Anthropic (Some sample_haiku))) sample_opus Anthropic
    = Ok sample_haiku
  ∧ map_model (service_mapper ∅ None [] models (mkService Anthropic None)) sample_opus Anthropic
    = Ok sample_opus.
Proof.
  set (u := {[KModelWeighted sample_opus Chat 10000; sample_key]} : gset (Key (Date := string))).
  assert (Hok : is_ok (discover sample_weight sample_format (λ _, true) MModelWeighted sample_cfg) = true)
    by (vm_compute; reflexivity).
  destruct (discover sample_weight sample_format (λ _, true) MModelWeighted sample_cfg) as [pool0|] eqn:Ed;
    [|discriminate Hok].
  destruct (check_monitor sample_weight sample_format (λ _, true) sample_params fine false
              MModelWeighted sample_cfg u) as [[r u'] es] eqn:Ec.
  assert (Hp : pool0 !! sample_key = Some (mkService Anthropic (Some sample_haiku))).
  { assert (Hx : (match discover sample_weight sample_format (λ _, true) MModelWeighted sample_cfg with
                  | Ok pool => pool !! sample_key | Err _ => None end)
                 = Some (mkService Anthropic (Some sample_haiku))) by (vm_compute; reflexivity).
    rw Ed in Hx. exact Hx. }
  assert (He : es !! 1%nat = Some (SendInsert sample_key (mkService Anthropic None))).
  { assert (Hx : (check_monitor sample_weight sample_format (λ _, true) sample_params fine false
                    MModelWeighted sample_cfg u).2 !! 1%nat
                 = Some (SendInsert sample_key (mkService Anthropic None))) by (vm_compute; reflexivity).
    rw Ec in Hx. exact Hx. }
  exact (recovered_entry_forgets_its_model sample_weight sample_format (λ _, true) sample_params false fine
    MModelWeighted sample_cfg pool0 sample_key sample_haiku _ u r u' es _ ∅ None []
    {[Anthropic := [sample_opus; sample_haiku]]} [sample_opus; sample_haiku] sample_opus Anthropic
    (or_introl eq_refl) Ed Hp eq_refl Ec (list_elem_of_lookup_2 _ _ _ He) eq_refl eq_refl eq_refl).
Defined.

(** A request for Opus routed to a provider that lists GPT-5 as its substitute. *)
Definition sample_mapper : ModelMapper (Date := string) :=
  mkMapper ∅ None [("claude-opus-4", [sample_haiku; sample_gpt])] None {[OpenAI := [sample_gpt]]}.

Lemma mapped_model_is_offered_witness :
  map_model sample_mapper sample_opus OpenAI = Ok sample_gpt
  ∧ ∃ offered, provider_models sample_mapper !! OpenAI = Some offered ∧ offers offered sample_gpt = true.
Proof.
  split; [vm_compute; reflexivity|].
  destruct (mapped_model_is_offered sample_mapper sample_opus OpenAI sample_gpt eq_refl eq_refl
              ltac:(vm_compute; reflexivity)) as (offered & H1 & H2 & _).
  by exists offered.
Defined.
