(* ===== verification/Json.v ===== *)
(** * JSON values

    [serde_json::Value] and the accessors the gateway uses.  Objects keep their
    entries in a list with distinct keys; numbers are kept as their text, which
    is all that the modelled code compares.  Reading and writing JSON text is
    the [serde_json] crate's, a parameter where it is used. *)

From S2P Require Import Prelude RustStr.
From Stdlib Require Import Ascii.
Local Open Scope string_scope.

Inductive Value :=
| Null
| Bool (b : bool)
| Number (text : string)
| Str (s : string)
| Array (items : list Value)
| Object (fields : list (string * Value)).

Fixpoint assoc (key : string) (fields : list (string * Value)) : option Value :=
  match fields with
  | [] => None
  | (k, v) :: rest => if String.eqb k key then Some v else assoc key rest
  end.

(** [value.get(key)]: the field of an object, nothing for other values. *)
Definition get (key : string) (v : Value) : option Value :=
  match v with Object fields => assoc key fields | _ => None end.

Definition as_str (v : Value) : option string := match v with Str s => Some s | _ => None end.
Definition as_object (v : Value) : option (list (string * Value)) :=
  match v with Object f => Some f | _ => None end.
Definition as_array (v : Value) : option (list Value) := match v with Array l => Some l | _ => None end.

(** [value.get(key) == Some(&json!(s))]. *)
Definition field_is_str (key s : string) (v : Value) : bool :=
  match get key v with Some (Str t) => String.eqb t s | _ => false end.

Definition as_bool (v : Value) : option bool := match v with Bool b => Some b | _ => None end.

(** [Value::as_u64], and the JSON of an integer. *)
Definition as_u64 (v : Value) : option Z :=
  match v with Number t => if is_empty t then None else parse_digits u64_max 0 t | _ => None end.

Definition num (n : Z) : Value := Number (pretty n).

(** [value.get(a).and_then(|v| v.get(b))]. *)
Definition get2 (a b : string) (v : Value) : option Value :=
  match get a v with Some w => get b w | None => None end.

(** Updating a map of fields: an existing key keeps its place. *)
Fixpoint assoc_set (key : string) (v : Value) (fields : list (string * Value)) : list (string * Value) :=
  match fields with
  | [] => [(key, v)]
  | (k, w) :: rest => if String.eqb k key then (k, v) :: rest else (k, w) :: assoc_set key v rest
  end.

(** [value[key] = v] on an object. *)
Definition set_field (key : string) (v : Value) (o : Value) : Value :=
  match o with Object fields => Object (assoc_set key v fields) | _ => o end.

(** [map.remove(key)]. *)
Definition assoc_remove (key : string) (fields : list (string * Value)) : list (string * Value) :=
  filter (λ f, f.1 ≠ key) fields.

Lemma assoc_set_eq key v fields : assoc key (assoc_set key v fields) = Some v.
Proof.
  induction fields as [|[k w] rest IH]; simpl; [by rw String.eqb_refl|].
  destruct (String.eqb k key) eqn:E; simpl; by rw E.
Qed.

Lemma assoc_set_ne key key' v fields :
  key ≠ key' → assoc key' (assoc_set key v fields) = assoc key' fields.
Proof.
  intros Hne. induction fields as [|[k w] rest IH]; simpl.
  - by destruct (String.eqb_spec key key').
  - destruct (String.eqb_spec k key) as [->|Hk]; simpl; [|by rw IH].
    by destruct (String.eqb_spec key key').
Qed.

Lemma get_set_field key v o : is_Some (as_object o) → get key (set_field key v o) = Some v.
Proof. intros [f Hf]. destruct o; try done. apply assoc_set_eq. Qed.

Lemma get_set_field_ne key key' v o : key ≠ key' → get key' (set_field key v o) = get key' o.
Proof. intros Hne. destruct o; try done. by apply assoc_set_ne. Qed.

Lemma get_Some_object key o v : get key o = Some v → is_Some (as_object o).
Proof. by destruct o. Qed.

Lemma assoc_None key fields : assoc key fields = None ↔ key ∉ fields.*1.
Proof.
  induction fields as [|[k v] fields IH]; [set_solver|]. cbn [assoc]. rw fmap_cons /=.
  destruct (String.eqb_spec k key) as [->|]; [set_solver|]. rw IH. set_solver.
Qed.

Lemma assoc_remove_eq key fields : assoc key (assoc_remove key fields) = None.
Proof.
  apply assoc_None. intros ([k v] & -> & [Hne _]%list_elem_of_filter)%list_elem_of_fmap. done.
Qed.

Lemma assoc_remove_ne key key' fields : key ≠ key' → assoc key' (assoc_remove key fields) = assoc key' fields.
Proof.
  intros Hne. rw /assoc_remove. induction fields as [|[k v] fields IH]; [done|].
  destruct (decide (k = key)) as [->|Hk].
  - rw filter_cons_False; [|by intros []]. rw IH. cbn [assoc]. by destruct (String.eqb_spec key key').
  - rw filter_cons_True //. cbn [assoc]. by rw IH.
Qed.

Lemma assoc_set_same key v fields : assoc key fields = Some v → assoc_set key v fields = fields.
Proof.
  induction fields as [|[k w] rest IH]; simpl; [done|]. destruct (String.eqb k key); [by intros [= ->]|].
  intros H. by rw IH.
Qed.

Lemma set_field_same key v o : get key o = Some v → set_field key v o = o.
Proof. destruct o; try done. simpl. intros H. by rw assoc_set_same. Qed.

Lemma assoc_remove_id key fields : assoc key fields = None → assoc_remove key fields = fields.
Proof.
  induction fields as [|[k w] rest IH]; simpl; [done|]. destruct (String.eqb_spec k key) as [|Hne]; [done|].
  intros H. rw /assoc_remove filter_cons_True //. by rw -/(assoc_remove key rest) IH.
Qed.

Lemma field_is_set_ne key key' v s o : key ≠ key' → field_is_str key' s (set_field key v o) = field_is_str key' s o.
Proof. intros H. by rw /field_is_str get_set_field_ne. Qed.

Lemma field_is_str_true key s o : field_is_str key s o = true ↔ get key o = Some (Str s).
Proof.
  rw /field_is_str. destruct (get key o) as [[]|]; try (split; [done|congruence]).
  rw String.eqb_eq. split; congruence.
Qed.

Lemma field_is_str_exclusive key s s' o : field_is_str key s o = true → s ≠ s' → field_is_str key s' o = false.
Proof. rw field_is_str_true. intros H Hne. rw /field_is_str H. by apply String.eqb_neq. Qed.

Lemma as_u64_num n : (0 ≤ n ≤ u64_max)%Z → as_u64 (num n) = Some n.
Proof.
  intros Hn. rw /as_u64 /num.
  assert (Hp : pretty n = pretty (Z.to_N n)) by (by destruct n; [..|lia]). rw Hp.
  pose proof (parse_uint_pretty u64_max (Z.to_N n)) as H. rw Z2N.id in H; [|lia]. specialize (H ltac:(lia)).
  pose proof (pretty_digits (Z.to_N n)) as Hd. revert H Hd. rw /parse_uint. destruct (pretty (Z.to_N n)) as [|c s]; [done|].
  destruct (Ascii.eqb_spec c "+") as [->|]; [by intros _ ?|]. done.
Qed.

(** ** Structure *)

Section value_ind.
Variable P : Value → Prop.
Hypothesis P_Null : P Null.
Hypothesis P_Bool : ∀ b, P (Bool b).
Hypothesis P_Number : ∀ t, P (Number t).
Hypothesis P_Str : ∀ s, P (Str s).
Hypothesis P_Array : ∀ items, Forall P items → P (Array items).
Hypothesis P_Object : ∀ fields, Forall (λ f, P f.2) fields → P (Object fields).

(** Induction that reaches the values inside arrays and objects. *)
Fixpoint Value_nested_ind (v : Value) : P v :=
  match v with
  | Null => P_Null
  | Bool b => P_Bool b
  | Number t => P_Number t
  | Str s => P_Str s
  | Array items =>
      P_Array items ((fix go l : Forall P l :=
        match l with [] => Forall_nil_2 _ | x :: l => Forall_cons_2 _ _ _ (Value_nested_ind x) (go l) end) items)
  | Object fields =>
      P_Object fields ((fix go l : Forall (λ f, P f.2) l :=
        match l with
        | [] => Forall_nil_2 _
        | x :: l => Forall_cons_2 _ _ _ (Value_nested_ind x.2) (go l)
        end) fields)
  end.
End value_ind.

(** Every object of the value has distinct keys, as a [serde_json::Map] has. *)
Fixpoint distinct_keys (v : Value) : Prop :=
  match v with
  | Array items => (fix go l := match l with [] => True | x :: l => distinct_keys x ∧ go l end) items
  | Object fields =>
      NoDup (fields.*1) ∧
      (fix go l := match l with [] => True | x :: l => distinct_keys x.2 ∧ go l end) fields
  | _ => True
  end.

Lemma distinct_keys_Array items : distinct_keys (Array items) ↔ Forall distinct_keys items.
Proof. simpl. induction items as [|x l IH]; [done|]. rw Forall_cons. by rw IH. Qed.

Lemma distinct_keys_Object fields :
  distinct_keys (Object fields) ↔ NoDup (fields.*1) ∧ Forall (λ f, distinct_keys f.2) fields.
Proof.
  simpl. apply and_iff_compat_l. induction fields as [|x l IH]; [done|]. rw Forall_cons. by rw IH.
Qed.
