(* ===== verification/Sse.v ===== *)
(** * Server-sent events of MCP tool servers

    Models [ai-gateway/src/agent/tools/mcp_streamable_http/sse.rs]: the
    incremental reader that looks for the JSON-RPC response with an expected id
    in an event stream, under limits on lines, events and bytes.

    [serde_json::from_str] is a parameter. *)

From S2P Require Import Prelude RustStr Json.
From Stdlib Require Import Ascii.
Local Open Scope Z_scope.

(* src: ai-gateway/src/agent/tools/mcp_streamable_http/sse.rs:1-8 SseLimits *)
Record SseLimits := mkLimits {
  max_total_bytes : Z;
  max_event_bytes : Z;
  max_line_bytes : Z;
  max_events : Z;
  max_batch_items : Z
}.

(* src: ai-gateway/src/agent/tools/mcp_streamable_http/sse.rs:10-20 SseLimits::default *)
Definition default_limits : SseLimits := mkLimits 65536 16384 8192 256 64.

(* src: ai-gateway/src/agent/tools/mcp_streamable_http/sse.rs:22-27 SseAccumulator *)
Record SseAccumulator := mkAcc {
  buffer : string;
  total_bytes : Z;
  completed_events : Z
}.

Definition new_acc : SseAccumulator := mkAcc "" 0 0.

(* src: ai-gateway/src/agent/tools/mcp_streamable_http/sse.rs:109-129 SseParseError *)
Inductive SseParseError :=
| LineTooLarge | EventTooLarge | TooManyEvents | TotalTooLarge | InvalidUtf8 | BatchTooLarge
| ServerRequestUnsupported | MatchingResponseMissing | InvalidJson.

(** One pass over the buffer: [cur] is the length of the current line so far,
    [last_cr] says whether its last byte is a carriage return. *)
(* src: ai-gateway/src/agent/tools/mcp_streamable_http/sse.rs:69-94 validate_buffered_line_lengths *)
Fixpoint line_lengths_ok (max_line_bytes cur : Z) (last_cr : bool) (buf : string) : bool :=
  match buf with
  | EmptyString => cur <=? max_line_bytes
  | String byte rest =>
      if Ascii.eqb byte newline then
        ((if last_cr then cur - 1 else cur) <=? max_line_bytes)
        && line_lengths_ok max_line_bytes 0 false rest
      else line_lengths_ok max_line_bytes (cur + 1) (Ascii.eqb byte carriage_return) rest
  end.

Definition validate_buffered_line_lengths (buf : string) (max_line_bytes : Z) : result unit SseParseError :=
  if line_lengths_ok max_line_bytes 0 false buf then Ok tt else Err LineTooLarge.

(** [buffer.windows(len p).position(|w| w == p)]. *)
Fixpoint position (p buf : string) : option nat :=
  if starts_with p buf then Some 0%nat
  else match buf with
       | EmptyString => None
       | String _ rest => S <$> position p rest
       end.

Definition lf_lf : string := String newline (String newline "").
Definition crlf_crlf : string :=
  String carriage_return (String newline (String carriage_return (String newline ""))).

(* src: ai-gateway/src/agent/tools/mcp_streamable_http/sse.rs:96-107 completed_event_boundary *)
Definition completed_event_boundary (buf : string) : option nat :=
  match position lf_lf buf with
  | Some idx => Some (idx + 2)%nat
  | None => (λ idx, (idx + 4)%nat) <$> position crlf_crlf buf
  end.

(* src: ai-gateway/src/agent/tools/mcp_streamable_http/sse.rs:218-220 is_server_request *)
Definition is_server_request (v : Value) : bool :=
  bool_decide (is_Some (get "method" v)) && bool_decide (is_Some (get "id" v)).

Section sse.
Context (from_str : string → option Value).
Context (expected_id : string) (limits : SseLimits).

(** The loop over the items of a batch. *)
Fixpoint find_in_batch (items : list Value) : result (option Value) SseParseError :=
  match items with
  | [] => Ok None
  | item :: rest =>
      if is_server_request item then Err ServerRequestUnsupported
      else if field_is_str "id" expected_id item then Ok (Some item)
      else find_in_batch rest
  end.

(* src: ai-gateway/src/agent/tools/mcp_streamable_http/sse.rs:178-216 process_event *)
Definition process_event (data_lines : list string) : result (option Value) SseParseError :=
  match data_lines with
  | [] => Ok None
  | _ =>
      match from_str (str_join (String newline "") data_lines) with
      | None => Err InvalidJson
      | Some value =>
          match as_array value with
          | Some items =>
              if max_batch_items limits <? Z.of_nat (length items) then Err BatchTooLarge
              else find_in_batch items
          | None =>
              if is_server_request value then Err ServerRequestUnsupported
              else if field_is_str "id" expected_id value then Ok (Some value)
              else Ok None
          end
      end
  end.

Definition data_size (data_lines : list string) : Z :=
  foldr (λ l n, Z.of_nat (len l) + n) 0 data_lines.

(* src: ai-gateway/src/agent/tools/mcp_streamable_http/sse.rs:139-175 find_json_rpc_response loop *)
Fixpoint scan_lines (ls : list string) (event_count : Z) (data_lines : list string)
  : result Value SseParseError :=
  match ls with
  | [] =>
      let? found := process_event data_lines in
      match found with Some value => Ok value | None => Err MatchingResponseMissing end
  | line :: rest =>
      if max_line_bytes limits <? Z.of_nat (len line) then Err LineTooLarge
      else if is_empty line then
        let event_count := match data_lines with [] => event_count | _ => event_count + 1 end in
        if match data_lines with [] => false | _ => max_events limits <? event_count end
        then Err TooManyEvents
        else
          let? found := process_event data_lines in
          match found with
          | Some value => Ok value
          | None => scan_lines rest event_count []
          end
      else if starts_with ":" line then scan_lines rest event_count data_lines
      else match strip_prefix "data:" line with
           | Some data =>
               let data_lines := data_lines ++ [trim_start data] in
               if max_event_bytes limits <? data_size data_lines then Err EventTooLarge
               else scan_lines rest event_count data_lines
           | None => scan_lines rest event_count data_lines
           end
  end.

(* src: ai-gateway/src/agent/tools/mcp_streamable_http/sse.rs:131-176 find_json_rpc_response *)
Definition find_json_rpc_response (sse_text : string) : result Value SseParseError :=
  scan_lines (lines sse_text) 0 [].

(** The [while let] loop; every round removes at least two bytes, so the
    buffer's length is enough fuel. *)
(* src: ai-gateway/src/agent/tools/mcp_streamable_http/sse.rs:47-65 push_and_try_find loop *)
Fixpoint drain (fuel : nat) (buf : string) (completed : Z)
  : result (option Value) SseParseError * string * Z :=
  match fuel with
  | O => (Ok None, buf, completed)
  | S fuel' =>
      match completed_event_boundary buf with
      | None => (Ok None, buf, completed)
      | Some split_at =>
          let event := str_take split_at buf in
          let buf' := str_drop split_at buf in
          if completed =? u64_max then (Err TooManyEvents, buf', completed)
          else
            let completed' := completed + 1 in
            if max_events limits <? completed' then (Err TooManyEvents, buf', completed')
            else if negb (utf8_valid event) then (Err InvalidUtf8, buf', completed')
            else match find_json_rpc_response event with
                 | Ok value => (Ok (Some value), buf', completed')
                 | Err MatchingResponseMissing => drain fuel' buf' completed'
                 | Err err => (Err err, buf', completed')
                 end
      end
  end.

(* src: ai-gateway/src/agent/tools/mcp_streamable_http/sse.rs:29-67 SseAccumulator::push_and_try_find *)
Definition push_and_try_find (chunk : string) (acc : SseAccumulator)
  : result (option Value) SseParseError * SseAccumulator :=
  let buf := buffer acc +:+ chunk in
  match validate_buffered_line_lengths buf (max_line_bytes limits) with
  | Err e => (Err e, mkAcc buf (total_bytes acc) (completed_events acc))
  | Ok _ =>
      let total := total_bytes acc + Z.of_nat (len chunk) in
      if u64_max <? total
      then (Err TotalTooLarge, mkAcc buf (total_bytes acc) (completed_events acc))
      else if max_total_bytes limits <? total
      then (Err TotalTooLarge, mkAcc buf total (completed_events acc))
      else
        let '(r, buf', completed) := drain (S (len buf)) buf (completed_events acc) in
        (r, mkAcc buf' total completed)
  end.

(** Reading a stream chunk by chunk, until a response or an error. *)
Fixpoint feed (chunks : list string) (acc : SseAccumulator) : result (option Value) SseParseError :=
  match chunks with
  | [] => Ok None
  | chunk :: rest =>
      let '(r, acc') := push_and_try_find chunk acc in
      match r with
      | Ok None => feed rest acc'
      | _ => r
      end
  end.
End sse.

(** ** Event boundaries *)

Abbreviation no_cr s := (count_byte carriage_return s = 0%nat).

Lemma starts_lf_lf_app b c : (2 ≤ len b)%nat → starts_with lf_lf (b +:+ c) = starts_with lf_lf b.
Proof.
  destruct b as [|x [|y b]]; unfold len; simpl; intros Hl; [lia..|].
  unfold starts_with. cbn. destruct x as [[] [] [] [] [] [] [] []]; try done;
    destruct y as [[] [] [] [] [] [] [] []]; done.
Qed.

Lemma position_len p b i : position p b = Some i → (i + len p ≤ len b)%nat.
Proof.
  revert i. induction b as [|x b IH]; intros i; cbn [position].
  - destruct (starts_with p "") eqn:E; [|done]. intros [= <-].
    apply starts_with_spec in E as [r Hr]. destruct p; [|done]. done.
  - destruct (starts_with p (String x b)) eqn:E.
    + intros [= <-]. apply starts_with_spec in E as [r ->]. rw len_app. lia.
    + destruct (position p b) as [j|]; [|done]. intros [= <-].
      specialize (IH j eq_refl). change (len (String x b)) with (S (len b)). lia.
Qed.

Lemma position_split p b i :
  position p b = Some i → b = str_take i b +:+ p +:+ str_drop (i + len p) b.
Proof.
  revert i. induction b as [|x b IH]; intros i; cbn [position].
  - destruct (starts_with p "") eqn:E; [|done]. intros [= <-].
    apply starts_with_spec in E as [r Hr]. by destruct p.
  - destruct (starts_with p (String x b)) eqn:E.
    + intros [= <-]. apply starts_with_spec in E as [r Hr]. rw {1 2}Hr /=. rw Hr.
      by rw str_drop_app.
    + destruct (position p b) as [j|]; [|done]. intros [= <-]. simpl. f_equal. by apply IH.
Qed.

(** A boundary that was found stays the first one when more bytes arrive. *)
Lemma position_lf_lf_app b c i : position lf_lf b = Some i → position lf_lf (b +:+ c) = Some i.
Proof.
  revert i. induction b as [|x b IH]; intros i Hp; [done|].
  pose proof (position_len _ _ _ Hp) as Hl. change (len lf_lf) with 2%nat in Hl.
  change (String x b +:+ c) with (String x (b +:+ c)). cbn [position] in *.
  change (String x (b +:+ c)) with (String x b +:+ c). rw starts_lf_lf_app; [|lia].
  destruct (starts_with lf_lf (String x b)); [done|].
  destruct (position lf_lf b) as [j|]; [|done]. by rw (IH j).
Qed.

Lemma starts_with_count p s c : starts_with p s = true → (count_byte c p ≤ count_byte c s)%nat.
Proof. intros [r ->]%starts_with_spec. rw count_byte_app. lia. Qed.

Lemma position_crlf_None b : no_cr b → position crlf_crlf b = None.
Proof.
  induction b as [|x b IH]; intros Hc; [done|].
  assert (Hs : starts_with crlf_crlf (String x b) = false).
  { destruct (starts_with crlf_crlf (String x b)) eqn:E; [|done].
    apply (starts_with_count _ _ carriage_return) in E. rw Hc in E.
    change (count_byte carriage_return crlf_crlf) with 2%nat in E. lia. }
  cbn [position]. rw Hs. rw IH //. simpl in Hc. lia.
Qed.

Lemma boundary_lf b : no_cr b →
  completed_event_boundary b = (λ i, (i + 2)%nat) <$> position lf_lf b.
Proof.
  intros Hc. unfold completed_event_boundary. destruct (position lf_lf b); [done|].
  by rw position_crlf_None.
Qed.

Lemma no_cr_app a b : no_cr (a +:+ b) → no_cr a ∧ no_cr b.
Proof. rw count_byte_app. lia. Qed.

Lemma len_drop n s : len (str_drop n s) = (len s - n)%nat.
Proof.
  revert s. induction n as [|n IH]; intros s; [by rw Nat.sub_0_r; destruct s|].
  destruct s as [|c s]; [done|]. simpl. rw IH. unfold len. simpl. lia.
Qed.

Lemma str_take_app_le n a b : (n ≤ len a)%nat → str_take n (a +:+ b) = str_take n a.
Proof.
  revert a. induction n as [|n IH]; intros a Hl; [by destruct a, b|].
  destruct a as [|c a]; unfold len in *; simpl in *; [lia|]. f_equal. apply IH. lia.
Qed.

Lemma str_drop_app_le n a b : (n ≤ len a)%nat → str_drop n (a +:+ b) = str_drop n a +:+ b.
Proof.
  revert a. induction n as [|n IH]; intros a Hl; [by destruct a, b|].
  destruct a as [|c a]; unfold len in *; simpl in *; [lia|]. apply IH. lia.
Qed.

Lemma no_cr_drop n s : no_cr s → no_cr (str_drop n s).
Proof. rw -{1}(str_take_drop n s). intros []%no_cr_app. done. Qed.

(** The first boundary of a buffer, with or without more bytes behind it. *)
Lemma boundary_app b c i :
  no_cr (b +:+ c) → completed_event_boundary b = Some i →
  completed_event_boundary (b +:+ c) = Some i ∧ (2 ≤ i ≤ len b)%nat
  ∧ str_take i (b +:+ c) = str_take i b ∧ str_drop i (b +:+ c) = str_drop i b +:+ c
  ∧ ∃ x, str_take i b = x +:+ String newline "".
Proof.
  intros Hc Hb. destruct (no_cr_app _ _ Hc) as [Hcb _]. rw boundary_lf // in Hb.
  destruct (position lf_lf b) as [j|] eqn:Ej; [|done]. injection Hb as <-.
  pose proof (position_len _ _ _ Ej) as Hl. change (len lf_lf) with 2%nat in Hl.
  rw boundary_lf // (position_lf_lf_app _ _ _ Ej). split_and!; [done|lia|lia|..].
  - by apply str_take_app_le.
  - by apply str_drop_app_le.
  - apply position_split in Ej. change (len lf_lf) with 2%nat in Ej.
    exists (str_take j b +:+ String newline "").
    apply (str_app_inj_r _ _ (str_drop (j + 2) b)). rw str_take_drop {1}Ej !str_app_assoc. done.
Qed.

(** ** Line lengths of parts of a valid buffer *)

Lemma lengths_after_newline m x y : ∀ cur cr,
  line_lengths_ok m cur cr (x +:+ String newline y) = true → line_lengths_ok m 0 false y = true.
Proof.
  induction x as [|c x IH]; intros cur cr; cbn [String.append line_lengths_ok].
  - rw Ascii.eqb_refl. by intros [_ ?]%andb_true_iff.
  - destruct (Ascii.eqb c newline); [intros [_ Hm]%andb_true_iff; by eapply IH|apply IH].
Qed.

Lemma lengths_current m s : ∀ cur, no_cr s → line_lengths_ok m cur false s = true → cur ≤ m.
Proof.
  induction s as [|c s IH]; intros cur Hc; cbn [line_lengths_ok].
  - intros. by bool_to_prop.
  - destruct (Ascii.eqb c newline); [intros; by bool_to_prop|].
    cbn [count_byte] in Hc. rw (Ascii.eqb_sym c). destruct (Ascii.eqb carriage_return c); [lia|].
    intros ?%IH; lia.
Qed.

(** Without carriage returns a prefix of a valid buffer is valid. *)
Lemma lengths_prefix m a b : ∀ cur,
  no_cr (a +:+ b) → line_lengths_ok m cur false (a +:+ b) = true → line_lengths_ok m cur false a = true.
Proof.
  induction a as [|c a IH]; intros cur Hc; cbn [String.append line_lengths_ok].
  - intros Hl. apply Z.leb_le. by eapply lengths_current.
  - cbn [String.append count_byte] in Hc. destruct (Ascii.eqb c newline).
    + intros [-> Hl]%andb_true_iff. simpl. apply IH; [lia|done].
    + rw (Ascii.eqb_sym c). destruct (Ascii.eqb carriage_return c); [lia|]. apply IH. lia.
Qed.

(** ** Draining *)

Section invariance.
Context (from_str : string → option Value) (expected_id : string) (limits : SseLimits).
Abbreviation drain := (drain from_str expected_id limits).
Abbreviation push := (push_and_try_find from_str expected_id limits).
Abbreviation feed := (feed from_str expected_id limits).

Lemma drain_fuel f1 : ∀ f2 b n, no_cr b → (len b < f1)%nat → (len b < f2)%nat → drain f1 b n = drain f2 b n.
Proof.
  induction f1 as [|f1 IH]; intros [|f2] b n Hc H1 H2; try lia. cbn [Sse.drain].
  destruct (completed_event_boundary b) as [i|] eqn:Eb; [|done].
  assert (Hi : (2 ≤ i ≤ len b)%nat).
  { destruct (boundary_app b "" i) as (_ & ? & _); [by rw str_app_nil_r|done|done]. }
  repeat (case_match; try done). apply IH; [by apply no_cr_drop|rw len_drop; lia..].
Qed.

Lemma drain_app f : ∀ f2 b n c,
  no_cr (b +:+ c) → (len b < f)%nat → (len (b +:+ c) < f2)%nat →
  let '(r, b', n') := drain f b n in
  match r with
  | Ok None =>
      completed_event_boundary b' = None ∧ no_cr (b' +:+ c)
      ∧ (∀ f3, (len (b' +:+ c) < f3)%nat → drain f2 (b +:+ c) n = drain f3 (b' +:+ c) n')
      ∧ (∀ m, line_lengths_ok m 0 false (b +:+ c) = true → line_lengths_ok m 0 false (b' +:+ c) = true)
  | _ => (drain f2 (b +:+ c) n).1.1 = r
  end.
Proof.
  induction f as [|f IH]; intros [|f2] b n c Hc H1 H2; try lia. cbn [Sse.drain].
  destruct (completed_event_boundary b) as [i|] eqn:Eb.
  - destruct (boundary_app b c i Hc Eb) as (Ebc & Hi & Et & Ed & [x Hx]).
    rw Ebc Et Ed. destruct (n =? u64_max); [done|]. destruct (max_events limits <? n + 1); [done|].
    destruct (negb _); [done|]. destruct (find_json_rpc_response _ _ _ _) as [v|e]; [done|].
    destruct e; try done.
    assert (Hcd : no_cr (str_drop i b +:+ c)) by (rw -Ed; by apply no_cr_drop).
    specialize (IH f2 (str_drop i b) (n + 1) c Hcd). rw len_app len_drop in IH.
    rw len_app in H2. specialize (IH ltac:(lia) ltac:(lia)).
    destruct (drain f (str_drop i b) (n + 1)) as [[r b'] n']. destruct r as [[v|]|e]; try done.
    destruct IH as (Hb' & Hc' & Hd' & Hl'). split_and!; [done..|].
    intros m Hm. apply Hl'. rw -(str_take_drop i b) Hx !str_app_assoc in Hm.
    by eapply lengths_after_newline.
  - split_and!; [done..| |done]. intros f3 Hf3. apply (drain_fuel (S f2) f3); [done|lia..].
Qed.

(** A push of two pieces at once is, when it succeeds, the push of the first
    and, if that finds nothing, of the second. *)
Lemma push_app c w acc r acc2 :
  no_cr (buffer acc +:+ c +:+ w) →
  push (c +:+ w) acc = (Ok r, acc2) →
  ∃ r1 acc1, push c acc = (Ok r1, acc1) ∧
    match r1 with
    | Some v => r = Some v
    | None => no_cr (buffer acc1 +:+ w) ∧ completed_event_boundary (buffer acc1) = None
              ∧ (push w acc1).1 = Ok r
    end.
Proof.
  intros Hc. unfold push_and_try_find, validate_buffered_line_lengths.
  destruct (line_lengths_ok _ _ _ (buffer acc +:+ c +:+ w)) eqn:El; [|done].
  rw -str_app_assoc in Hc El. pose proof (lengths_prefix _ _ _ _ Hc El) as El1. rw El1.
  rw -str_app_assoc. set (b := buffer acc +:+ c) in *.
  rw len_app Nat2Z.inj_add. destruct (u64_max <? _) eqn:E1; [done|].
  destruct (max_total_bytes limits <? _) eqn:E2; [done|]. bool_to_prop.
  rw (proj2 (Z.ltb_ge _ _)); [|lia]. rw (proj2 (Z.ltb_ge _ _)); [|lia].
  pose proof (drain_app (S (len b)) (S (len (b +:+ w))) b (completed_events acc) w Hc
                ltac:(lia) ltac:(lia)) as Hd.
  destruct (drain (S (len b)) b _) as [[r1 b1] n1].
  destruct (drain (S (len (b +:+ w))) (b +:+ w) _) as [[r2 b2] n2] eqn:E3.
  intros [= -> <-]. destruct r1 as [[v|]|e]; simpl in Hd.
  - eexists _, _. split; [done|]. simpl. congruence.
  - destruct Hd as (Hb & Hcb & Hdr & Hl). eexists _, _. split; [done|].
    cbn [buffer total_bytes completed_events]. split_and!; [done..|]. rw (Hl _ El). rw (proj2 (Z.ltb_ge _ _)); [|lia]. rw (proj2 (Z.ltb_ge _ _)); [|lia].
    by rw -(Hdr (S (len (b1 +:+ w)))); [|apply Nat.lt_succ_diag_r].
  - done.
Qed.

Lemma feed_push chunks : ∀ acc r acc2,
  no_cr (buffer acc +:+ str_join "" chunks) → completed_event_boundary (buffer acc) = None →
  push (str_join "" chunks) acc = (Ok r, acc2) → feed chunks acc = Ok r.
Proof.
  induction chunks as [|c chunks IH]; intros acc r acc2 Hc Hb Hp; cbn [Sse.feed].
  - unfold push_and_try_find in Hp. cbn [str_join] in Hp. rw str_app_nil_r in Hp.
    destruct (validate_buffered_line_lengths _ _); [|done].
    destruct (u64_max <? _); [done|]. destruct (max_total_bytes limits <? _); [done|].
    cbn [Sse.drain] in Hp. rw Hb in Hp. by simplify_eq.
  - assert (Hj : str_join "" (c :: chunks) = c +:+ str_join "" chunks).
    { destruct chunks; [by rw /= str_app_nil_r|done]. }
    rw Hj in Hp Hc. apply push_app in Hp as (r1 & acc1 & Hp1 & Hr); [|done]. rw Hp1.
    destruct r1 as [v|]; [by subst|]. destruct Hr as (Hc1 & Hb1 & Hp2).
    destruct (push (str_join "" chunks) acc1) as [r' acc'] eqn:E. simpl in Hp2. subst.
    by eapply IH.
Qed.
End invariance.

(** C39 (equivalence). Reading is independent of how the network cuts the stream,
    for streams whose lines end in line feeds: if the whole stream, delivered
    as one chunk, yields a result (the matching response, or none), then
    delivering it in any chunks whatsoever yields the same result. *)
Theorem chunking_is_irrelevant from_str expected_id limits chunks r acc :
  count_byte carriage_return (str_join "" chunks) = 0%nat →
  push_and_try_find from_str expected_id limits (str_join "" chunks) new_acc = (Ok r, acc) →
  feed from_str expected_id limits chunks new_acc = Ok r.
Proof. intros Hc Hp. by eapply feed_push. Qed.

(** A reader of the one JSON text the witnesses use. *)
Definition sample_from_str (s : string) : option Value :=
  if String.eqb s "{id:r1}" then Some (Object [("id", Str "r1")]) else None.

Definition lf : string := String newline "".
Definition cr : string := String carriage_return "".

(** The response arrives in pieces that cut the [data] line and the blank line. *)
Definition sample_chunks : list string :=
  [": hello" +:+ lf; lf +:+ "da"; "ta: {id:"; "r1}" +:+ lf; lf].

Lemma chunking_is_irrelevant_witness :
  feed sample_from_str "r1" default_limits sample_chunks new_acc = Ok (Some (Object [("id", Str "r1")])).
Proof.
  apply (chunking_is_irrelevant sample_from_str "r1" default_limits sample_chunks _
           (push_and_try_find sample_from_str "r1" default_limits (str_join "" sample_chunks) new_acc).2).
  - vm_compute. reflexivity.
  - vm_compute. reflexivity.
Defined.

Abbreviation plain := (str_all (λ c, negb (Ascii.eqb c newline) && negb (Ascii.eqb c carriage_return))).

Lemma lengths_plain m line rest : ∀ cur,
  plain line = true →
  line_lengths_ok m cur false (line +:+ rest) = line_lengths_ok m (cur + Z.of_nat (len line)) false rest.
Proof.
  induction line as [|c line IH]; intros cur Hp; cbn [String.append line_lengths_ok].
  - by rw Z.add_0_r.
  - cbn [str_all] in Hp. apply andb_true_iff in Hp as [[Hn Hc]%andb_true_iff Hp].
    rw (proj1 (negb_true_iff _) Hn) (proj1 (negb_true_iff _) Hc) IH //.
    f_equal. unfold len. simpl. lia.
Qed.

Lemma plain_no_newline line : plain line = true → count_byte newline line = 0%nat.
Proof.
  induction line as [|c line IH]; cbn [str_all count_byte]; [done|].
  intros [[Hn _]%andb_true_iff Hp]%andb_true_iff. rw IH // (Ascii.eqb_sym newline).
  by rw (proj1 (negb_true_iff _) Hn).
Qed.

Lemma position_None_count p s c : (count_byte c s < count_byte c p)%nat → position p s = None.
Proof.
  induction s as [|x s IH]; intros Hc; cbn [position].
  - destruct (starts_with p "") eqn:E; [|done]. apply (starts_with_count _ _ c) in E. lia.
  - destruct (starts_with p (String x s)) eqn:E.
    + apply (starts_with_count _ _ c) in E. lia.
    + rw IH //. cbn [count_byte] in Hc. lia.
Qed.

(** With carriage returns the cut matters: a line of exactly the
    maximal length ended by CR LF is accepted when the chunk holds both bytes,
    and refused as too large when the chunk ends between them. *)
Theorem crlf_cut_rejects_maximal_line from_str expected_id limits (line : string) :
  plain line = true →
  Z.of_nat (len line) = max_line_bytes limits →
  Z.of_nat (len line) + 2 ≤ max_total_bytes limits ≤ u64_max →
  feed from_str expected_id limits [line +:+ cr +:+ lf] new_acc = Ok None
  ∧ feed from_str expected_id limits [line +:+ cr; lf] new_acc = Err LineTooLarge.
Proof.
  intros Hall Hlen Htot. split; cbn [feed]; unfold push_and_try_find, validate_buffered_line_lengths;
    cbn [buffer new_acc String.append]; rw lengths_plain // Hlen.
  - cbn [line_lengths_ok cr lf String.append]. rw Ascii.eqb_refl.
    change (Ascii.eqb carriage_return newline) with false.
    change (Ascii.eqb carriage_return carriage_return) with true.
    rw !(proj2 (Z.leb_le _ _)); [|lia..]. cbn [andb total_bytes].
    rw len_app. change (len (String carriage_return lf)) with 2%nat. change (total_bytes new_acc) with 0.
    rw !(proj2 (Z.ltb_ge _ _)); [|lia..]. cbn [drain].
    assert (Hn : count_byte newline (line +:+ String carriage_return lf) = 1%nat).
    { rw count_byte_app (plain_no_newline _ Hall). done. }
    unfold completed_event_boundary. rw !(position_None_count _ _ newline); [done|rw Hn; vm_compute; lia..].
  - cbn [line_lengths_ok cr]. change (Ascii.eqb carriage_return newline) with false. cbn [andb].
    destruct (Z.leb_spec (0 + max_line_bytes limits + 1) (max_line_bytes limits)); [lia|done].
Qed.

Lemma crlf_cut_rejects_maximal_line_witness :
  feed sample_from_str "r1" (mkLimits 100 100 4 10 10) ["data" +:+ cr +:+ lf] new_acc = Ok None
  ∧ feed sample_from_str "r1" (mkLimits 100 100 4 10 10) ["data" +:+ cr; lf] new_acc = Err LineTooLarge.
Proof.
  apply (crlf_cut_rejects_maximal_line sample_from_str "r1" (mkLimits 100 100 4 10 10) "data").
  - vm_compute. reflexivity.
  - vm_compute. reflexivity.
  - vm_compute. split; discriminate.
Defined.
