(* ===== verification/StepState.v ===== *)
(** * Conflicting agent steps

    Models [ai-gateway/src/agent/step_state.rs]: the Redis key and the
    fingerprint of an agent step and the detection of two reports that claim
    the same step with different contents. *)

From S2P Require Import Prelude RustStr.
From Stdlib Require Import Ascii.
Local Open Scope string_scope.

(* src: ai-gateway/src/agent/context.rs:66-80 AgentStepKind *)
Inductive AgentStepKind :=
| Planning | Reasoning | LlmCall | ToolCall | ToolResult | Handoff | Approval | Checkpoint
| FinalAnswer | Retry | ErrorRecovery | UnknownKind.

(* src: ai-gateway/src/agent/context.rs:82-100 AgentStepKind::as_str *)
Definition kind_as_str (k : AgentStepKind) : string :=
  match k with
  | Planning => "planning" | Reasoning => "reasoning" | LlmCall => "llm_call"
  | ToolCall => "tool_call" | ToolResult => "tool_result" | Handoff => "handoff"
  | Approval => "approval" | Checkpoint => "checkpoint" | FinalAnswer => "final_answer"
  | Retry => "retry" | ErrorRecovery => "error_recovery" | UnknownKind => "unknown"
  end.

(* src: ai-gateway/src/agent/step_state.rs:9-17 StepFingerprintInput *)
Record StepFingerprintInput := mkInput {
  parent_step_id : option string;
  step_kind : option AgentStepKind;
  graph_node : option string;
  tool_call_id : option string;
  attempt : option N;
  input_hash : option string
}.

(* src: ai-gateway/src/config/agent.rs:264-269 AgentConflictAction *)
Inductive AgentConflictAction := Disabled | Warn | Strict.

(* src: ai-gateway/src/agent/step_state.rs:19-25 StepConflictDecision *)
Inductive StepConflictDecision := NoConflict | ConflictWarn | ConflictStrict | DecisionDisabled.

#[global] Instance AgentStepKind_eq_dec : EqDecision AgentStepKind.
Proof. solve_decision. Defined.
#[global] Instance AgentConflictAction_eq_dec : EqDecision AgentConflictAction.
Proof. solve_decision. Defined.

(* src: ai-gateway/src/agent/step_state.rs:77-79 should_percent_encode *)
Definition should_percent_encode (ch : ascii) (encode_colon : bool) : bool :=
  Ascii.eqb ch "%" || Ascii.eqb ch "|" || Ascii.eqb ch "=" || (encode_colon && Ascii.eqb ch ":").

(** For the values 0 to 15 the source calls it with. *)
(* src: ai-gateway/src/agent/step_state.rs:81-87 hex_digit *)
Definition hex_digit (value : N) : ascii :=
  if (value <=? 9)%N then ascii_of_N (48 + value) else ascii_of_N (65 + (value - 10)).

Fixpoint encode_all (value : string) (encode_colon : bool) : string :=
  match value with
  | EmptyString => ""
  | String ch rest =>
      if should_percent_encode ch encode_colon then
        let byte := N_of_ascii ch in
        String "%" (String (hex_digit (N.shiftr byte 4)) (String (hex_digit (N.land byte 15))
          (encode_all rest encode_colon)))
      else String ch (encode_all rest encode_colon)
  end.

(* src: ai-gateway/src/agent/step_state.rs:55-75 encode_component *)
Definition encode_component (value : string) (encode_colon : bool) : string :=
  if negb (str_any (λ ch, should_percent_encode ch encode_colon) value) then value
  else encode_all value encode_colon.

(* src: ai-gateway/src/agent/step_state.rs:27-38 step_fingerprint *)
Definition step_fingerprint (input : StepFingerprintInput) : string :=
  "parent=" ++ encode_component (default "" (parent_step_id input)) false
  ++ "|kind=" ++ from_option kind_as_str "unknown" (step_kind input)
  ++ "|graph=" ++ encode_component (default "" (graph_node input)) false
  ++ "|tool=" ++ encode_component (default "" (tool_call_id input)) false
  ++ "|attempt=" ++ from_option pretty "" (attempt input)
  ++ "|input=" ++ encode_component (default "" (input_hash input)) false.

Section keys.
(** The [uuid] crate's hyphenated text of a UUID. *)
Context {Uuid : Type} (uuid_display : Uuid → string).

(* src: ai-gateway/src/agent/step_state.rs:40-53 step_state_key *)
Definition step_state_key (workspace_id : Uuid) (agent_identity run_id step_id : string) : string :=
  "agent:step:" ++ uuid_display workspace_id
  ++ ":" ++ encode_component agent_identity true
  ++ ":" ++ encode_component run_id true
  ++ ":" ++ encode_component step_id true.
End keys.

(** [setnx] and [existing] are the replies of Redis to [SET NX EX] and [GET]. *)
(* src: ai-gateway/src/agent/step_state.rs:89-113 detect_step_conflict *)
Definition detect_step_conflict {E} (has_redis : bool) (setnx : result bool E)
    (existing : result (option string) E) (fingerprint : string) (action : AgentConflictAction)
  : result StepConflictDecision E :=
  if bool_decide (action = Disabled) then Ok DecisionDisabled
  else if negb has_redis then Ok NoConflict
  else
    let? stored := setnx in
    if stored then Ok NoConflict
    else
      let? existing := existing in
      if bool_decide (existing = Some fingerprint) then Ok NoConflict
      else if bool_decide (action = Strict) then Ok ConflictStrict
      else Ok ConflictWarn.

(** ** Decoding *)

Definition hex_value (c : ascii) : N :=
  let n := N_of_ascii c in if (n <=? 57)%N then (n - 48)%N else (n - 55)%N.

Fixpoint decode (s : string) : string :=
  match s with
  | String "%" (String h (String l rest)) =>
      String (ascii_of_N (16 * hex_value h + hex_value l)) (decode rest)
  | String c rest => String c (decode rest)
  | EmptyString => ""
  end.

Lemma decode_escape ch rest :
  decode (String "%" (String (hex_digit (N.shiftr (N_of_ascii ch) 4))
            (String (hex_digit (N.land (N_of_ascii ch) 15)) rest)))
  = String ch (decode rest).
Proof. by destruct ch as [[] [] [] [] [] [] [] []]. Qed.

Lemma decode_plain c rest : c ≠ "%"%char → decode (String c rest) = String c (decode rest).
Proof. intros Hne. by destruct c as [[] [] [] [] [] [] [] []]. Qed.

Lemma decode_encode_all s colon : decode (encode_all s colon) = s.
Proof.
  induction s as [|c s IH]; [done|]. cbn [encode_all].
  destruct (should_percent_encode c colon) eqn:E.
  - by rw decode_escape IH.
  - rw decode_plain ?IH //. intros ->. done.
Qed.

Lemma encode_all_plain s colon :
  str_any (λ ch, should_percent_encode ch colon) s = false → encode_all s colon = s.
Proof.
  unfold str_any. rw negb_false_iff. induction s as [|c s IH]; [done|]. cbn [str_all encode_all].
  intros [Hc Hs]%andb_true_iff. by rw (proj1 (negb_true_iff _) Hc) IH.
Qed.

(** The early return does not change the result. *)
Lemma encode_component_all s colon : encode_component s colon = encode_all s colon.
Proof.
  unfold encode_component. destruct (str_any _ s) eqn:E; [done|]. simpl. by rw encode_all_plain.
Qed.

Lemma encode_component_inj s s' colon : encode_component s colon = encode_component s' colon → s = s'.
Proof.
  rw !encode_component_all. intros H%(f_equal decode). by rw !decode_encode_all in H.
Qed.

Lemma hex_high c : is_ascii_alphanumeric (hex_digit (N.shiftr (N_of_ascii c) 4)) = true.
Proof. by destruct c as [[] [] [] [] [] [] [] []]. Qed.
Lemma hex_low c : is_ascii_alphanumeric (hex_digit (N.land (N_of_ascii c) 15)) = true.
Proof. by destruct c as [[] [] [] [] [] [] [] []]. Qed.

Lemma encode_no_byte b s colon :
  should_percent_encode b colon = true → is_ascii_alphanumeric b = false → b ≠ "%"%char →
  count_byte b (encode_component s colon) = 0%nat.
Proof.
  intros Hb Ha Hp. rw encode_component_all. induction s as [|c s IH]; [done|]. cbn [encode_all].
  destruct (should_percent_encode c colon) eqn:E; cbn [count_byte]; rw IH.
  - assert (Hh : ∀ h, is_ascii_alphanumeric h = true → Ascii.eqb b h = false).
    { intros h Hh. apply Ascii.eqb_neq. intros ->. congruence. }
    rw (Hh _ (hex_high c)) (Hh _ (hex_low c)). by rw (proj2 (Ascii.eqb_neq _ _) Hp).
  - destruct (Ascii.eqb_spec b c) as [<-|]; [congruence|done].
Qed.

(** ** Separators *)

Lemma kind_no_bar k : count_byte "|" (from_option kind_as_str "unknown" k) = 0%nat.
Proof. by destruct k as [[]|]. Qed.

Lemma kind_as_str_inj k k' :
  from_option kind_as_str "unknown" k = from_option kind_as_str "unknown" k' →
  default UnknownKind k = default UnknownKind k'.
Proof. by destruct k as [[]|], k' as [[]|]. Qed.

Lemma attempt_no_bar (a : option N) : count_byte "|" (from_option pretty "" a) = 0%nat.
Proof.
  destruct a as [n|]; [|done]. by apply pretty_no_byte.
Qed.

Lemma attempt_inj (a a' : option N) : from_option pretty "" a = from_option pretty "" a' → a = a'.
Proof.
  destruct a as [n|], a' as [n'|]; simpl; intros Heq; [|by destruct (pretty_nonempty n)|..].
  - f_equal. by apply (inj pretty).
  - by destruct (pretty_nonempty n').
  - done.
Qed.

(** What a fingerprint identifies: absent text counts as empty, an absent kind
    as unknown. *)
Definition fingerprint_fields (i : StepFingerprintInput) :=
  (default "" (parent_step_id i), default UnknownKind (step_kind i), default "" (graph_node i),
   default "" (tool_call_id i), attempt i, default "" (input_hash i)).

Lemma step_fingerprint_inj i i' :
  step_fingerprint i = step_fingerprint i' → fingerprint_fields i = fingerprint_fields i'.
Proof.
  unfold step_fingerprint, fingerprint_fields. intros H.
  repeat match goal with
  | H : (?l ++ _ = ?l ++ _)%string |- _ => apply str_app_inj_l in H
  end.
  assert (Hbar : ∀ o, count_byte "|" (encode_component (default "" o) false) = 0%nat)
    by (intros; by apply encode_no_byte).
  apply field_inj in H as [H1 H]; [|apply Hbar..]. injection H as H.
  apply field_inj in H as [H2 H]; [|apply kind_no_bar..]. injection H as H.
  apply field_inj in H as [H3 H]; [|apply Hbar..]. injection H as H.
  apply field_inj in H as [H4 H]; [|apply Hbar..]. injection H as H.
  apply field_inj in H as [H5 H]; [|apply attempt_no_bar..]. injection H as H.
  apply encode_component_inj in H1, H3, H4, H. apply kind_as_str_inj in H2. apply attempt_inj in H5.
  congruence.
Qed.

Section key_inj.
Context {Uuid : Type} (uuid_display : Uuid → string).
(** The text of a UUID is 36 hexadecimal digits and hyphens, and identifies it. *)
Definition uuid_text : Prop :=
  (∀ u u', uuid_display u = uuid_display u' → u = u') ∧ (∀ u, count_byte ":" (uuid_display u) = 0%nat).

Lemma step_state_key_inj w w' a a' r r' s s' :
  uuid_text →
  step_state_key uuid_display w a r s = step_state_key uuid_display w' a' r' s' →
  w = w' ∧ a = a' ∧ r = r' ∧ s = s'.
Proof.
  intros [Hinj Hcol]. unfold step_state_key. intros H%str_app_inj_l.
  assert (Hc : ∀ x, count_byte ":" (encode_component x true) = 0%nat)
    by (intros; by apply encode_no_byte).
  apply field_inj in H as [H1 H]; [|apply Hcol..]. cbn [String.append] in H.
  apply field_inj in H as [H2 H]; [|apply Hc..]. cbn [String.append] in H.
  apply field_inj in H as [H3 H]; [|apply Hc..]. cbn [String.append] in H.
  apply Hinj in H1. apply encode_component_inj in H2, H3, H. done.
Qed.

(** ** A store of steps *)

Record step_report := mkReport {
  rep_at : Z; rep_workspace : Uuid; rep_agent : string; rep_run : string; rep_step : string;
  rep_input : StepFingerprintInput
}.

(** A value of Redis with its expiry, in seconds. *)
Definition unexpired {A} (now : Z) (cell : option (A * Z)) : option A :=
  match cell with Some (v, expires) => if (now <? expires)%Z then Some v else None | None => None end.

Definition rep_key (r : step_report) : string :=
  step_state_key uuid_display (rep_workspace r) (rep_agent r) (rep_run r) (rep_step r).

Context `{EqDecision Uuid}.

Section store.
Context (ttl : Z) (action : AgentConflictAction).

(** One report against a Redis that answers: [SET NX EX] stores when no value
    of the key is alive, [GET] reads the value otherwise. *)
Definition report (r : step_report) (store : gmap string (string * Z))
  : result StepConflictDecision unit * gmap string (string * Z) :=
  let key := rep_key r in
  let fp := step_fingerprint (rep_input r) in
  let existing := unexpired (rep_at r) (store !! key) in
  let free := bool_decide (existing = None) in
  (detect_step_conflict true (Ok free) (Ok existing) fp action,
   if bool_decide (action = Disabled) then store
   else if free then <[key := (fp, rep_at r + ttl)%Z]> store else store).

Definition reports (l : list step_report) (store : gmap string (string * Z)) : gmap string (string * Z) :=
  fold_left (λ st r, (report r st).2) l store.

Definition same_step (a b : step_report) : Prop :=
  rep_workspace a = rep_workspace b ∧ rep_agent a = rep_agent b ∧ rep_run a = rep_run b
  ∧ rep_step a = rep_step b.

Lemma fingerprint_fields_iff i i' :
  step_fingerprint i = step_fingerprint i' ↔ fingerprint_fields i = fingerprint_fields i'.
Proof.
  split; [apply step_fingerprint_inj|]. unfold fingerprint_fields, step_fingerprint.
  intros [= -> Hk -> -> -> ->].
  assert (Hs : ∀ k, from_option kind_as_str "unknown" k = kind_as_str (default UnknownKind k))
    by (by intros []).
  by rw !Hs Hk.
Qed.

#[global] Instance same_step_dec a b : Decision (same_step a b).
Proof. unfold same_step. apply _. Defined.

Lemma rep_key_iff a b : uuid_text → rep_key a = rep_key b ↔ same_step a b.
Proof.
  intros Hu. split.
  - intros (? & ? & ? & ?)%step_state_key_inj; [|done]. done.
  - intros (H1 & H2 & H3 & H4). unfold rep_key. by rw H1 H2 H3 H4.
Qed.

(** Which report a step stands by: the first one, or the first one after the
    time to live of the one before it, and until when. *)
Definition stands (r : step_report) (h : option (StepFingerprintInput * Z)) (r0 : step_report)
  : option (StepFingerprintInput * Z) :=
  if decide (same_step r0 r) then
    match unexpired (rep_at r0) h with Some _ => h | None => Some (rep_input r0, (rep_at r0 + ttl)%Z) end
  else h.
Definition standing (l : list step_report) (r : step_report) : option StepFingerprintInput :=
  unexpired (rep_at r) (fold_left (stands r) l None).

(** What a report should be answered, from the reports before it. *)
Definition expected_decision (l : list step_report) (r : step_report) : StepConflictDecision :=
  match standing l r with
  | None => NoConflict
  | Some i =>
      if decide (fingerprint_fields i = fingerprint_fields (rep_input r)) then NoConflict
      else if decide (action = Strict) then ConflictStrict else ConflictWarn
  end.

Definition stored (h : StepFingerprintInput * Z) : string * Z := (step_fingerprint h.1, h.2).

Lemma unexpired_stored now h : unexpired now (stored <$> h) = step_fingerprint <$> unexpired now h.
Proof. destruct h as [[i e]|]; [|done]. simpl. by case_match. Qed.

(** The store holds, for every step, the fingerprint of the report it stands by. *)
Lemma reports_lookup r l : uuid_text → action ≠ Disabled → ∀ store h,
  store !! rep_key r = stored <$> h →
  reports l store !! rep_key r = stored <$> fold_left (stands r) l h.
Proof.
  intros Hu Ha. induction l as [|r0 l IH]; intros store h Hh; [done|]. cbn [reports fold_left].
  apply IH. unfold report, stands. cbn [snd]. rw (bool_decide_eq_false_2 _ Ha).
  destruct (decide (same_step r0 r)) as [Hs|Hs].
  - apply (rep_key_iff _ _ Hu) in Hs. rw Hs Hh unexpired_stored.
    destruct (unexpired (rep_at r0) h); simpl; [done|]. by rw lookup_insert_eq.
  - rewrite <-(rep_key_iff _ _ Hu) in Hs. case_bool_decide; [|done]. by rw lookup_insert_ne.
Qed.
End store.

(** C19 (functional). Step conflicts are detected exactly: after any sequence of
    reports on an empty store, at whatever times, a further report is a conflict
    if and only if its workspace, agent, run and step stand by an earlier
    report, the first one or the first one after the time to live of the one
    before it, that is still within its time to live and differs in parent,
    kind, graph node, tool call, attempt or input hash, where an absent text
    counts as empty and an absent kind as unknown; it is a warning or a
    refusal as configured.  Whatever characters the identifiers contain,
    separators and percent signs included, distinct steps never share a key and
    distinct contents never share a fingerprint.  This is with detection
    switched on and a Redis that answers, the reports reaching it one after
    the other; without Redis nothing is detected. *)
Theorem step_conflicts_detected_exactly ttl action l r :
  uuid_text → action ≠ Disabled →
  (report ttl action r (reports ttl action l ∅)).1 = Ok (expected_decision ttl action l r).
Proof.
  intros Hu Ha. unfold report, expected_decision, standing, detect_step_conflict.
  rw (bool_decide_eq_false_2 _ Ha) /=.
  rewrite -> (reports_lookup ttl action r l Hu Ha ∅ None) by done. rw unexpired_stored.
  destruct (unexpired (rep_at r) _) as [i|]; [|done]. simpl.
  assert (Hf := fingerprint_fields_iff i (rep_input r)).
  destruct (decide (fingerprint_fields i = _)) as [E|E].
  - by rewrite -> bool_decide_eq_true_2 by (f_equal; by apply Hf).
  - rewrite -> bool_decide_eq_false_2 by (intros H'%(inj Some); by apply E, Hf). by case_bool_decide; case_decide.
Qed.
End key_inj.

(** A printer of small UUIDs for the witness. *)
Definition sample_uuid (u : N) : string := pretty u.

Lemma sample_uuid_text : uuid_text sample_uuid.
Proof.
  split; [intros u u' Hu; by apply (inj pretty)|]. intros u. by apply pretty_no_byte.
Qed.

(** The same step reported twice, with another parent the second time; a step
    whose run id holds the separator is another step, and the report that
    expired in between no longer counts. *)
Definition sample_report (at_ : Z) (run parent : string) : step_report :=
  mkReport at_ 7%N "agent" run "s1" (mkInput (Some parent) (Some ToolCall) None None (Some 1%N) None).
Definition sample_reports : list step_report :=
  [sample_report 0 "r:s1" "p0"; sample_report 1 "r" "p2"; sample_report 70 "r" "p1"; sample_report 90 "r" "p3"].

Lemma step_conflicts_detected_exactly_witness :
  (report sample_uuid 60 Strict (sample_report 100 "r" "p2") (reports sample_uuid 60 Strict sample_reports ∅)).1
  = Ok ConflictStrict.
Proof.
  etrans; [apply (step_conflicts_detected_exactly sample_uuid 60 Strict sample_reports
           (sample_report 100 "r" "p2") sample_uuid_text); discriminate|].
  vm_compute. reflexivity.
Defined.
