(* ===== verification/Egress.v ===== *)
(** * Egress policy of agent tools

    Models [ai-gateway/src/agent/tools/egress_policy.rs] and the request check
    of [agent/tools/openapi/egress.rs]: which URLs a tool may call.  The URL
    parser is the [url] crate's: a parsed URL is the data the code reads from
    it. *)

From S2P Require Import Prelude RustStr Net.
Local Open Scope Z_scope.

(** [url::Host]. *)
Inductive Host :=
| Domain (name : string)
| Ipv4 (bits : Z)
| Ipv6 (bits : Z).

(** What the code reads from a [url::Url]. *)
Record Url := mkUrl {
  scheme : string;
  username : string;
  password : option string;
  host : option Host;
  host_str : option string;
  port_or_known_default : option Z;
  fragment : option string
}.

(* src: ai-gateway/src/agent/tools/egress_policy.rs:5-19 EgressPolicyError *)
Inductive EgressPolicyError :=
| HttpsRequired | LoopbackBlocked | MetadataBlocked | LinkLocalBlocked | PrivateNetworkBlocked
| UnsupportedUrl.

(* src: ai-gateway/src/config/agent.rs:152-161 AgentToolEgressPolicyConfig *)
Record AgentToolEgressPolicyConfig := mkPolicy {
  https_only : bool;
  block_loopback : bool;
  block_link_local : bool;
  block_metadata_ip : bool;
  block_private_network : bool;
  allow_environment_proxy : bool
}.

(* src: ai-gateway/src/config/agent.rs:163-174 AgentToolEgressPolicyConfig::default *)
Definition default_policy : AgentToolEgressPolicyConfig := mkPolicy true true true true true false.

(* src: ai-gateway/src/agent/tools/egress_policy.rs:116-118 ipv6_mapped_ipv4 *)
Definition ipv6_mapped_ipv4 (addr : Z) : option Z := to_ipv4_mapped addr.

(* src: ai-gateway/src/agent/tools/egress_policy.rs:92-94 is_metadata_ipv4 *)
Definition is_metadata_ipv4 (addr : Z) : bool := addr =? ipv4_new 169 254 169 254.

(* src: ai-gateway/src/agent/tools/egress_policy.rs:96-99 is_link_local_ipv4 *)
Definition is_link_local_ipv4 (addr : Z) : bool := (octet addr 0 =? 169) && (octet addr 1 =? 254).

(* src: ai-gateway/src/agent/tools/egress_policy.rs:101-106 is_private_ipv4 *)
Definition is_private_ipv4 (addr : Z) : bool :=
  (octet addr 0 =? 10)
  || ((octet addr 0 =? 172) && ((16 <=? octet addr 1) && (octet addr 1 <=? 31)))
  || ((octet addr 0 =? 192) && (octet addr 1 =? 168)).

(* src: ai-gateway/src/agent/tools/egress_policy.rs:108-110 is_link_local_ipv6 *)
Definition is_link_local_ipv6 (addr : Z) : bool := Z.land (segment addr 0) 65472 =? 65152.

(* src: ai-gateway/src/agent/tools/egress_policy.rs:112-114 is_unique_local_ipv6 *)
Definition is_unique_local_ipv6 (addr : Z) : bool := Z.land (segment addr 0) 65024 =? 64512.

(* src: ai-gateway/src/agent/tools/egress_policy.rs:54-62 is_loopback_host *)
Definition is_loopback_host (h : Host) : bool :=
  match h with
  | Domain domain => eq_ignore_ascii_case domain "localhost"
  | Ipv4 addr => ipv4_is_loopback addr
  | Ipv6 addr =>
      match ipv6_mapped_ipv4 addr with
      | Some a => ipv4_is_loopback a
      | None => ipv6_is_loopback addr
      end
  end.

(* src: ai-gateway/src/agent/tools/egress_policy.rs:64-70 is_metadata_host *)
Definition is_metadata_host (h : Host) : bool :=
  match h with
  | Ipv4 addr => addr =? ipv4_new 169 254 169 254
  | Ipv6 addr => match ipv6_mapped_ipv4 addr with Some a => is_metadata_ipv4 a | None => false end
  | Domain _ => false
  end.

(* src: ai-gateway/src/agent/tools/egress_policy.rs:72-80 is_link_local_host *)
Definition is_link_local_host (h : Host) : bool :=
  match h with
  | Ipv4 addr => is_link_local_ipv4 addr
  | Ipv6 addr =>
      match ipv6_mapped_ipv4 addr with
      | Some a => is_link_local_ipv4 a
      | None => is_link_local_ipv6 addr
      end
  | Domain _ => false
  end.

(* src: ai-gateway/src/agent/tools/egress_policy.rs:82-90 is_private_network_host *)
Definition is_private_network_host (h : Host) : bool :=
  match h with
  | Ipv4 addr => is_private_ipv4 addr
  | Ipv6 addr =>
      match ipv6_mapped_ipv4 addr with
      | Some a => is_private_ipv4 a
      | None => is_unique_local_ipv6 addr
      end
  | Domain _ => false
  end.

(** The checks on a parsed URL; [None] stands for a parse error. *)
(* src: ai-gateway/src/agent/tools/egress_policy.rs:21-52 validate_target_url *)
Definition validate_target_url (parsed : option Url) (cfg : AgentToolEgressPolicyConfig)
  : result unit EgressPolicyError :=
  let? parsed := ok_or parsed UnsupportedUrl in
  if negb (String.eqb (scheme parsed) "http" || String.eqb (scheme parsed) "https")
  then Err UnsupportedUrl
  else
    let? host := ok_or (host parsed) UnsupportedUrl in
    if block_loopback cfg && is_loopback_host host then Err LoopbackBlocked
    else if block_metadata_ip cfg && is_metadata_host host then Err MetadataBlocked
    else if block_link_local cfg && is_link_local_host host then Err LinkLocalBlocked
    else if block_private_network cfg && is_private_network_host host then Err PrivateNetworkBlocked
    else if https_only cfg && negb (String.eqb (scheme parsed) "https") then Err HttpsRequired
    else Ok tt.

(** ** OpenAPI requests *)

(* src: ai-gateway/src/agent/tools/openapi/egress.rs:9-29 OpenApiEgressError *)
Inductive OpenApiEgressError :=
| SchemeMismatch | HostMismatch | PortMismatch | UserInfoForbidden | FragmentForbidden
| MissingHost | MissingPort | MetadataHostBlocked | EgressPolicyBlocked.

(** The fields of a runtime target the check reads. *)
Record RuntimeOpenApiTarget := mkOpenApiTarget {
  allowed_scheme : string;
  canonical_host : string;
  allowed_port : Z
}.

(* src: ai-gateway/src/agent/tools/openapi/egress.rs:72-77 is_known_metadata_hostname *)
Definition is_known_metadata_hostname (host : string) : bool :=
  let h := to_ascii_lowercase host in
  String.eqb h "metadata.google.internal" || String.eqb h "metadata"
  || String.eqb h "instance-data" || String.eqb h "instance-data.ec2.internal".

(* src: ai-gateway/src/agent/tools/openapi/egress.rs:31-70 validate_openapi_egress *)
Definition validate_openapi_egress (target : RuntimeOpenApiTarget) (url : Url)
    (policy : AgentToolEgressPolicyConfig) : result unit OpenApiEgressError :=
  if negb (String.eqb (scheme url) (allowed_scheme target)) then Err SchemeMismatch
  else if negb (is_empty (username url)) || bool_decide (is_Some (password url)) then Err UserInfoForbidden
  else if bool_decide (is_Some (fragment url)) then Err FragmentForbidden
  else
    let? host := ok_or (host_str url) MissingHost in
    if negb (eq_ignore_ascii_case host (canonical_host target)) then Err HostMismatch
    else
      let? port := ok_or (port_or_known_default url) MissingPort in
      if negb (port =? allowed_port target) then Err PortMismatch
      else if is_known_metadata_hostname host then Err MetadataHostBlocked
      else
        let? _ := map_err (λ _, EgressPolicyBlocked) (validate_target_url (Some url) policy) in
        Ok tt.

(** ** The blocked networks *)

(** [b] is in the network of [net] with [len] leading bits. *)
Definition in_cidr (net len b : Z) : bool := b / 2 ^ (32 - len) =? net / 2 ^ (32 - len).

Definition blocked_networks : list (Z * Z) :=
  [(ipv4_new 127 0 0 0, 8); (ipv4_new 169 254 0 0, 16); (ipv4_new 10 0 0 0, 8);
   (ipv4_new 172 16 0 0, 12); (ipv4_new 192 168 0 0, 16)].

Definition in_blocked_network (b : Z) : bool :=
  existsb (λ n, in_cidr n.1 n.2 b) blocked_networks.

(** An IPv4 address as itself, or mapped into IPv6. *)
Definition mapped (b : Z) : Z := Z.lor (Z.shiftl 65535 32) b.

Lemma octet_div b i : 0 ≤ b → 0 ≤ i ≤ 3 → octet b i = (b / 2 ^ (8 * (3 - i))) mod 256.
Proof.
  intros Hb Hi. unfold octet. rw Z.shiftr_div_pow2; [|lia].
  change 255 with (Z.ones 8). by rw Z.land_ones.
Qed.

Lemma octet0 b : 0 ≤ b < 2 ^ 32 → octet b 0 = b / 2 ^ 24.
Proof.
  intros Hb. rw octet_div; [|lia..]. apply Z.mod_small. simpl.
  change (Z.pow_pos 2 24) with 16777216 in *. change (2 ^ 32) with 4294967296 in Hb.
  split; [apply Z.div_pos; lia|apply Z.div_lt_upper_bound; lia].
Qed.

Lemma octet1 b : 0 ≤ b < 2 ^ 32 → octet b 1 = b / 2 ^ 16 - 256 * (b / 2 ^ 24).
Proof.
  intros Hb. rw octet_div; [|lia..].
  change (2 ^ (8 * (3 - 1))) with (2 ^ 16). change (2 ^ 24) with (2 ^ 16 * 256).
  rw -Z.div_div; [|lia..]. rw Z.mod_eq; lia.
Qed.

(** The code's octet tests are membership in the five networks. *)
Lemma blocked_octets b : 0 ≤ b < 2 ^ 32 →
  ipv4_is_loopback b || is_metadata_ipv4 b || is_link_local_ipv4 b || is_private_ipv4 b
  = in_blocked_network b.
Proof.
  intros Hb. unfold ipv4_is_loopback, is_metadata_ipv4, is_link_local_ipv4, is_private_ipv4,
    in_blocked_network, blocked_networks, in_cidr. cbn [existsb fst snd].
  rw octet0 // octet1 //.
  change (ipv4_new 169 254 169 254) with 2852039166.
  repeat match goal with |- context [ipv4_new ?a ?b ?c ?d / ?e] =>
    let v := eval vm_compute in (ipv4_new a b c d / e) in change (ipv4_new a b c d / e) with v end.
  repeat match goal with |- context [2 ^ (32 - ?n)] =>
    let v := eval vm_compute in (2 ^ (32 - n)) in change (2 ^ (32 - n)) with v end.
  change (2 ^ 24) with 16777216. change (2 ^ 16) with 65536. change (2 ^ 32) with 4294967296 in Hb.
  pose proof (Z.div_mod b 16777216 ltac:(lia)). pose proof (Z.mod_pos_bound b 16777216 ltac:(lia)).
  pose proof (Z.div_mod b 65536 ltac:(lia)). pose proof (Z.mod_pos_bound b 65536 ltac:(lia)).
  pose proof (Z.div_mod b 1048576 ltac:(lia)). pose proof (Z.mod_pos_bound b 1048576 ltac:(lia)).
  set (q24 := b / 16777216) in *. set (q16 := b / 65536) in *. set (q20 := b / 1048576) in *.
  set (r24 := b mod 16777216) in *. set (r16 := b mod 65536) in *. set (r20 := b mod 1048576) in *.
  clearbody q24 q16 q20 r24 r16 r20.
  apply eq_true_iff_eq. rw !orb_true_iff !andb_true_iff !Z.eqb_eq !Z.leb_le. simpl. lia.
Qed.

Lemma mapped_ipv4 b : 0 ≤ b < 2 ^ 32 → ipv6_mapped_ipv4 (mapped b) = Some b.
Proof.
  intros Hb. unfold ipv6_mapped_ipv4, to_ipv4_mapped, mapped.
  assert (Hh : Z.shiftr b 32 = 0).
  { rw Z.shiftr_div_pow2; [|lia]. by apply Z.div_small. }
  rw Z.shiftr_lor Hh Z.shiftr_shiftl_l; [|lia]. simpl. f_equal.
  change 4294967295 with (Z.ones 32). rw Z.land_lor_distr_l !Z.land_ones; [|lia..].
  rw Z.shiftl_mul_pow2; [|lia]. rw Z.mod_mul; [|lia]. rw Z.lor_0_l. by apply Z.mod_small.
Qed.

Lemma validate_ip cfg url h :
  scheme url = "https" → host url = Some h → cfg = default_policy →
  is_ok (validate_target_url (Some url) cfg)
  = negb (is_loopback_host h || is_metadata_host h || is_link_local_host h || is_private_network_host h).
Proof.
  intros Hs Hh ->. unfold validate_target_url. simpl. rw Hs Hh /=.
  destruct (is_loopback_host h), (is_metadata_host h), (is_link_local_host h),
    (is_private_network_host h); done.
Qed.

(** Under the default policy an address literal is accepted exactly
    when it lies outside 127.0.0.0/8, 169.254.0.0/16, 10.0.0.0/8, 172.16.0.0/12
    and 192.168.0.0/16, both when written as IPv4 and when written as the
    IPv4-mapped IPv6 address, for each of the 2^32 addresses. *)
Theorem ip_literals_filtered_by_network b url :
  0 ≤ b < 2 ^ 32 → scheme url = "https" →
  host url = Some (Ipv4 b) ∨ host url = Some (Ipv6 (mapped b)) →
  is_ok (validate_target_url (Some url) default_policy) = negb (in_blocked_network b).
Proof.
  intros Hb Hs Hh. rw -(blocked_octets b Hb).
  destruct Hh as [Hh|Hh]; rw (validate_ip _ _ _ Hs Hh eq_refl);
    cbn [is_loopback_host is_metadata_host is_link_local_host is_private_network_host].
  - unfold is_metadata_ipv4. reflexivity.
  - rw mapped_ipv4; [reflexivity|exact Hb].
Qed.

Definition https_url (h : Host) : Url := mkUrl "https" "" None (Some h) None (Some 443) None.

Lemma ip_literals_filtered_by_network_witness :
  is_ok (validate_target_url (Some (https_url (Ipv6 (mapped (ipv4_new 169 254 169 254))))) default_policy)
  = false.
Proof.
  rw (ip_literals_filtered_by_network (ipv4_new 169 254 169 254)).
  - vm_compute. reflexivity.
  - vm_compute. split; [discriminate|reflexivity].
  - reflexivity.
  - right. reflexivity.
Defined.

(** The unspecified address is not treated as loopback: under every
    policy, the one that blocks loopback included, an https URL whose host is
    [0.0.0.0] or [::] is accepted, although connecting to either reaches the
    local host. *)
Theorem unspecified_address_passes cfg url :
  scheme url = "https" → host url = Some (Ipv4 0) ∨ host url = Some (Ipv6 0) →
  validate_target_url (Some url) cfg = Ok tt.
Proof.
  intros Hs Hh. unfold validate_target_url. cbn [ok_or result_bind]. rw Hs.
  assert (∃ h, host url = Some h ∧ is_loopback_host h = false ∧ is_metadata_host h = false
    ∧ is_link_local_host h = false ∧ is_private_network_host h = false) as (h & -> & H1 & H2 & H3 & H4).
  { destruct Hh as [-> | ->]; eexists; (split; [reflexivity|]); vm_compute; done. }
  cbn [ok_or result_bind]. rw H1 H2 H3 H4 !andb_false_r. reflexivity.
Qed.

Lemma unspecified_address_passes_witness :
  validate_target_url (Some (https_url (Ipv4 0))) default_policy = Ok tt.
Proof. apply unspecified_address_passes; [reflexivity|left; reflexivity]. Defined.
