(* ===== verification/McpSession.v ===== *)
(** * MCP sessions

    Models [ai-gateway/src/agent/tools/mcp_streamable_http/session.rs] and the
    protocol checks of [json_rpc.rs]: session keys, eviction, the lock's time to
    live, and the in-memory singleflight that lets one task initialise a
    session while the others wait for it.

    The singleflight is a transition system.  A task's code runs between
    atomic actions: the critical sections of the mutex, the broadcast, the
    drop of a sender, the receive.  A channel is closed when neither the map
    nor a task has a sender of it, and a receiver gets what is sent after it
    subscribed.  Any task may be cancelled at its await points. *)

From S2P Require Import Prelude RustStr Json.
From Stdlib Require Import Ascii.
Local Open Scope string_scope.

(** ** json_rpc.rs *)

(* src: ai-gateway/src/agent/tools/mcp_streamable_http/json_rpc.rs:5-6 SUPPORTED_PROTOCOL_VERSIONS *)
Definition SUPPORTED_PROTOCOL_VERSIONS : list string := ["2025-03-26"; "2025-06-18"; "2025-11-25"].

(* src: ai-gateway/src/agent/tools/mcp_streamable_http/json_rpc.rs:86-93 JsonRpcProtocolError *)
Inductive JsonRpcProtocolError :=
| InvalidEnvelope | UnsupportedProtocolVersion | ToolsCapabilityMissing.

(* src: ai-gateway/src/agent/tools/mcp_streamable_http/json_rpc.rs:48-60 validate_json_rpc_envelope *)
Definition validate_json_rpc_envelope (jsonrpc : option string) (id : option Value) (expected_id : string)
  : result unit JsonRpcProtocolError :=
  if negb (bool_decide (jsonrpc = Some "2.0")) then Err InvalidEnvelope
  else match id with
       | Some (Str s) => if String.eqb s expected_id then Ok tt else Err InvalidEnvelope
       | _ => Err InvalidEnvelope
       end.

(* src: ai-gateway/src/agent/tools/mcp_streamable_http/json_rpc.rs:62-70 validate_supported_protocol_version *)
Definition validate_supported_protocol_version (protocol_version : string)
  : result unit JsonRpcProtocolError :=
  if bool_decide (protocol_version ∈ SUPPORTED_PROTOCOL_VERSIONS) then Ok tt
  else Err UnsupportedProtocolVersion.

(* src: ai-gateway/src/agent/tools/mcp_streamable_http/json_rpc.rs:72-83 validate_tools_capability *)
Definition validate_tools_capability (capabilities : Value) : result unit JsonRpcProtocolError :=
  match get "tools" capabilities with
  | Some (Object _) => Ok tt
  | _ => Err ToolsCapabilityMissing
  end.

(* src: ai-gateway/src/agent/tools/mcp_streamable_http/json_rpc.rs:95-97 mcp_error_retryable *)
Definition mcp_error_retryable (code : Z) : bool :=
  negb ((code =? -32700) || (code =? -32600) || (code =? -32601) || (code =? -32602))%Z.

(** ** session.rs: keys, eviction, lock *)

(** The fields of the execution context this file reads. *)
(* src: ai-gateway/src/agent/tools/executor.rs:34-52 ToolExecutionContext *)
Record ToolExecutionContext := mkCtx {
  workspace_id : string;
  virtual_key_id : option string;
  agent_id : string;
  caller_principal_id : string;
  target_id : string;
  target_revision : N;
  target_hash : string;
  auth_revision : string;
  mcp_session_lock_ttl_secs : Z
}.

(* src: ai-gateway/src/agent/tools/mcp_streamable_http/session.rs:19-29 McpStreamableSession *)
Record McpStreamableSession := mkSession {
  session_id : string;
  negotiated_protocol_version : string;
  s_target_hash : string;
  s_auth_revision : string;
  server_info : Value;
  capabilities : Value;
  created_at : Z;
  last_used_at : Z;
  expires_at : Z
}.

(* src: ai-gateway/src/agent/tools/mcp_streamable_http/session.rs:261-275 session_key *)
Definition session_key (ctx : ToolExecutionContext) : string :=
  "agent:mcp:streamable-http:session:workspace:" ++ workspace_id ctx
  ++ ":vk:" ++ default "no-vk" (virtual_key_id ctx)
  ++ ":agent:" ++ agent_id ctx
  ++ ":caller:" ++ caller_principal_id ctx
  ++ ":target:" ++ target_id ctx
  ++ ":target-rev:" ++ pretty (target_revision ctx)
  ++ ":target-hash:" ++ target_hash ctx
  ++ ":auth-rev:" ++ auth_revision ctx
  ++ ":protocol:" ++ "mcp-2025-06-18-compatible".

(* src: ai-gateway/src/agent/tools/mcp_streamable_http/session.rs:277-282 session_lock_key *)
Definition session_lock_key (ctx : ToolExecutionContext) : string :=
  "agent:mcp:streamable-http:session-lock:" ++ session_key ctx.

Definition visible_ascii (c : ascii) : bool := (33 <=? byte_of c)%Z && (byte_of c <=? 126)%Z.

(* src: ai-gateway/src/agent/tools/mcp_streamable_http/session.rs:284-295 validate_session_id *)
Definition validate_session_id (session_id : string) : result unit string :=
  if is_empty session_id then Err "session id must not be empty"
  else if (256 <? Z.of_nat (len session_id))%Z then Err "session id must be at most 256 bytes"
  else if negb (str_all visible_ascii session_id)
  then Err "session id must contain only visible ASCII bytes"
  else Ok tt.

(* src: ai-gateway/src/agent/tools/mcp_streamable_http/session.rs:120-129 should_evict_session *)
Definition should_evict_session (now : Z) (ctx : ToolExecutionContext) (s : McpStreamableSession) : bool :=
  negb (String.eqb (s_target_hash s) (target_hash ctx))
  || negb (String.eqb (s_auth_revision s) (auth_revision ctx))
  || (expires_at s <=? now)%Z
  || negb (is_ok (validate_session_id (session_id s)))
  || negb (is_ok (validate_supported_protocol_version (negotiated_protocol_version s))).

(* src: ai-gateway/src/agent/tools/mcp_streamable_http/session.rs:131-135 session_lock_ttl_secs_for_timeout *)
Definition session_lock_ttl_secs_for_timeout (ctx : ToolExecutionContext) (timeout_ms : Z) : Z :=
  let timeout_secs :=
    u64_saturating_add (timeout_ms / 1000) (if (timeout_ms mod 1000 =? 0)%Z then 0%Z else 1%Z) in
  Z.max (mcp_session_lock_ttl_secs ctx) (u64_saturating_add timeout_secs 1).

(** ** Keys are injective *)

Definition colon_free (s : string) : Prop := count_byte ":" s = 0%nat.

(** Everything but the caller-chosen agent id comes from identifiers, hashes
    and configuration without colons. *)
Definition wf_ctx (ctx : ToolExecutionContext) : Prop :=
  colon_free (workspace_id ctx) ∧ colon_free (default "no-vk" (virtual_key_id ctx))
  ∧ colon_free (caller_principal_id ctx) ∧ colon_free (target_id ctx)
  ∧ colon_free (target_hash ctx) ∧ colon_free (auth_revision ctx).

Lemma field_named_r (name x y a b : string) :
  colon_free name → colon_free a → colon_free b →
  x ++ String ":" (name ++ String ":" a) = y ++ String ":" (name ++ String ":" b) → x = y ∧ a = b.
Proof.
  intros Hn Ha Hb H.
  assert (Hs : ∀ x a, x ++ String ":" (name ++ String ":" a) = (x ++ String ":" name) ++ String ":" a)
    by (intros; by rw str_app_assoc).
  rw !Hs in H. apply field_inj_r in H as [H ->]; [|done..].
  by apply field_inj_r in H as [-> _].
Qed.

(** The part of the key up to the agent id and the part behind it. *)
Definition key_head (ctx : ToolExecutionContext) : string :=
  "agent:mcp:streamable-http:session:workspace:" ++ workspace_id ctx
  ++ ":vk:" ++ default "no-vk" (virtual_key_id ctx) ++ ":agent:" ++ agent_id ctx.

Lemma session_key_fields ctx :
  session_key ctx =
  ((((((key_head ctx ++ String ":" ("caller" ++ String ":" (caller_principal_id ctx)))
   ++ String ":" ("target" ++ String ":" (target_id ctx)))
   ++ String ":" ("target-rev" ++ String ":" (pretty (target_revision ctx))))
   ++ String ":" ("target-hash" ++ String ":" (target_hash ctx)))
   ++ String ":" ("auth-rev" ++ String ":" (auth_revision ctx)))
   ++ String ":" ("protocol" ++ String ":" "mcp-2025-06-18-compatible")).
Proof. unfold session_key, key_head. rw !str_app_assoc. done. Qed.

(** A caller cannot reach another principal's session by choosing an
    agent id: with colon-free identifiers on all other sides, equal session
    keys mean equal workspace, virtual key, agent, caller, target, revision,
    target hash and authentication revision, whatever text the two agent ids
    are, colons and field names included. *)
Theorem session_key_identifies_principal ctx ctx' :
  wf_ctx ctx → wf_ctx ctx' → session_key ctx = session_key ctx' →
  workspace_id ctx = workspace_id ctx'
  ∧ default "no-vk" (virtual_key_id ctx) = default "no-vk" (virtual_key_id ctx')
  ∧ agent_id ctx = agent_id ctx' ∧ caller_principal_id ctx = caller_principal_id ctx'
  ∧ target_id ctx = target_id ctx' ∧ target_revision ctx = target_revision ctx'
  ∧ target_hash ctx = target_hash ctx' ∧ auth_revision ctx = auth_revision ctx'.
Proof.
  intros (W & V & C & T & H & A) (W' & V' & C' & T' & H' & A'). rw !session_key_fields. intros K.
  apply field_named_r in K as [K _]; [|done..].
  apply field_named_r in K as [K Ka]; [|done..].
  apply field_named_r in K as [K Kh]; [|done..].
  apply field_named_r in K as [K Kr]; [|done|by apply pretty_no_byte..].
  apply field_named_r in K as [K Kt]; [|done..].
  apply field_named_r in K as [K Kc]; [|done..].
  unfold key_head in K. apply str_app_inj_l in K.
  apply field_inj in K as [Kw K]; [|done..]. apply (str_app_inj_l "vk:") in K.
  apply field_inj in K as [Kv K]; [|done..]. apply (str_app_inj_l "agent:") in K.
  split_and!; try done. by apply (inj pretty).
Qed.

Definition sample_ctx (agent caller : string) : ToolExecutionContext :=
  mkCtx "w1" None agent caller "t1" 0%N "h1" "0/static" 5.

Lemma session_key_identifies_principal_witness :
  session_key (sample_ctx "a:caller:u2" "u1") ≠ session_key (sample_ctx "a" "u2")
  ∧ agent_id (sample_ctx "a:caller:u2" "u1") = "a:caller:u2".
Proof.
  assert (Hwf : wf_ctx (sample_ctx "a:caller:u2" "u1")) by (vm_compute; repeat split).
  assert (Hwf2 : wf_ctx (sample_ctx "a" "u2")) by (vm_compute; repeat split).
  split.
  - intros Hk. pose proof (session_key_identifies_principal _ _ Hwf Hwf2 Hk) as (_ & _ & _ & Hc & _).
    discriminate Hc.
  - exact (proj1 (proj2 (proj2 (session_key_identifies_principal _ _ Hwf Hwf eq_refl)))).
Defined.

(** The session lock outlives the operation it protects: for every
    timeout in the 64-bit range, in which no addition saturates, the lock's
    life in seconds exceeds the operation's timeout by at least one second, and
    is never shorter than the configured life. *)
Theorem lock_outlives_timeout ctx timeout_ms :
  (0 ≤ timeout_ms ≤ u64_max)%Z →
  (from_millis timeout_ms + from_secs 1 ≤ from_secs (session_lock_ttl_secs_for_timeout ctx timeout_ms))%Z
  ∧ (mcp_session_lock_ttl_secs ctx ≤ session_lock_ttl_secs_for_timeout ctx timeout_ms)%Z.
Proof.
  intros Ht. unfold session_lock_ttl_secs_for_timeout, u64_saturating_add, from_secs, from_millis, u64_max in *.
  pose proof (Z.div_mod timeout_ms 1000 ltac:(lia)). pose proof (Z.mod_pos_bound timeout_ms 1000 ltac:(lia)).
  destruct (Z.eqb_spec (timeout_ms mod 1000) 0); lia.
Qed.

Lemma lock_outlives_timeout_witness :
  session_lock_ttl_secs_for_timeout (sample_ctx "a" "u") 8000 = 9%Z
  ∧ (from_millis 8000 + from_secs 1 ≤ from_secs (session_lock_ttl_secs_for_timeout (sample_ctx "a" "u") 8000))%Z.
Proof.
  split; [vm_compute; reflexivity|].
  apply (lock_outlives_timeout (sample_ctx "a" "u") 8000). vm_compute. split; discriminate.
Defined.

(** ** The singleflight *)

Section singleflight.
Context {T E : Type}.

(** Where a call of [get_or_try_init] is.  The channel number stands for the
    sender an owner holds and for the receiver of a waiter, which starts at a
    position of the channel: the number of values sent when it subscribed. *)
(* src: ai-gateway/src/agent/tools/mcp_streamable_http/session.rs:215-218 SingleflightRole *)
Inductive task :=
| AtLoop (key : string)                       (* before the lock *)
| Owner (key : string) (ch : nat)             (* awaiting its initialiser *)
| Sending (ch : nat) (v : option T)           (* in [finish], entry removed, before the send *)
| Dropping (ch : nat) (r : result (option T) (option E))   (* about to drop its sender and to return *)
| Waiting (key : string) (ch pos : nat)       (* awaiting recv *)
| Returned (ch : nat) (v : option T)          (* returned Ok, from channel [ch] *)
| Failed (r : option E).                      (* returned Err, or cancelled *)

(** A broadcast channel is the values that were sent on it; the map keeps a
    clone of a sender under each key in flight. *)
(* src: ai-gateway/src/agent/tools/mcp_streamable_http/session.rs:137-139 InMemorySessionSingleflight *)
Record Sf := mkSf {
  in_flight : gmap string nat;
  chans : gmap nat (list (option T));
  tasks : gmap nat task;
  next : nat                                   (* channels made so far *)
}.

Definition sf_empty : Sf := mkSf ∅ ∅ ∅ 0.

Definition set_task (i : nat) (t : task) (s : Sf) : Sf :=
  mkSf (in_flight s) (chans s) (<[i := t]> (tasks s)) (next s).

(** The task holds a sender of the channel. *)
Definition holds (t : task) (ch : nat) : Prop :=
  match t with
  | Owner _ c | Sending c _ | Dropping c _ => c = ch
  | _ => False
  end.

#[global] Instance holds_dec t ch : Decision (holds t ch).
Proof. destruct t; simpl; apply _. Defined.

(** A channel is closed when no sender of it is left, neither in the map nor
    with a task. *)
Definition has_sender (s : Sf) (ch : nat) : bool :=
  bool_decide (map_Exists (λ _ c, c = ch) (in_flight s)) || bool_decide (map_Exists (λ _ t, holds t ch) (tasks s)).

(** What [Receiver::recv] gives on a channel of capacity one, of which all but
    the last value are gone. *)
Inductive Received := Value (v : option T) | Lagged | ClosedChannel | Pending.

Definition recv (s : Sf) (ch pos : nat) : Received :=
  let sent := default [] (chans s !! ch) in
  if (pos + 1 <? length sent)%nat then Lagged
  else match sent !! pos with
       | Some v => Value v
       | None => if has_sender s ch then Pending else ClosedChannel
       end.

(** The critical section at the head of the loop: subscribe to the sender in the
    map, or make a channel and leave a clone of its sender there. *)
(* src: ai-gateway/src/agent/tools/mcp_streamable_http/session.rs:181-194 get_or_try_init role *)
Definition take_role (i : nat) (key : string) (s : Sf) : Sf :=
  match in_flight s !! key with
  | Some sender => set_task i (Waiting key sender (length (default [] (chans s !! sender)))) s
  | None =>
      let ch := next s in
      mkSf (<[key := ch]> (in_flight s)) (<[ch := []]> (chans s))
           (<[i := Owner key ch]> (tasks s)) (S ch)
  end.

(** [finish]: the entry is removed under the lock, the value sent after it. *)
(* src: ai-gateway/src/agent/tools/mcp_streamable_http/session.rs:242-246 SingleflightOwner::finish removal *)
Definition finish_remove (i : nat) (key : string) (ch : nat) (v : option T) (s : Sf) : Sf :=
  mkSf (delete key (in_flight s)) (chans s) (<[i := Sending ch v]> (tasks s)) (next s).

(* src: ai-gateway/src/agent/tools/mcp_streamable_http/session.rs:247-249 SingleflightOwner::finish send *)
Definition finish_send (i : nat) (ch : nat) (v : option T) (s : Sf) : Sf :=
  mkSf (in_flight s) (alter (λ sent, sent ++ [v])%list ch (chans s)) (<[i := Dropping ch (Ok v)]> (tasks s)) (next s).

(** Drop of an owner that did not finish: an initialiser error, or a
    cancelled task.  Its sender, a field, is dropped after it. *)
(* src: ai-gateway/src/agent/tools/mcp_streamable_http/session.rs:253-258 SingleflightOwner::drop *)
Definition owner_drop (i : nat) (key : string) (ch : nat) (r : option E) (s : Sf) : Sf :=
  mkSf (delete key (in_flight s)) (chans s) (<[i := Dropping ch (Err r)]> (tasks s)) (next s).

(** The task's own sender goes; the channel is closed only when the map has
    none either. *)
Definition sender_drop (i : nat) (ch : nat) (r : result (option T) (option E)) (s : Sf) : Sf :=
  set_task i (match r with Ok v => Returned ch v | Err e => Failed e end) s.

(** The end of a wait. *)
(* src: ai-gateway/src/agent/tools/mcp_streamable_http/session.rs:203-209 get_or_try_init wait *)
Definition received (key : string) (ch : nat) (r : Received) : option task :=
  match r with
  | Value v => Some (Returned ch v)
  | ClosedChannel | Lagged => Some (AtLoop key)
  | Pending => None
  end.

(** One atomic action of one task. *)
(* src: ai-gateway/src/agent/tools/mcp_streamable_http/session.rs:174-212 get_or_try_init *)
Inductive sf_step : Sf → Sf → Prop :=
| step_call s i key :
    tasks s !! i = None → sf_step s (set_task i (AtLoop key) s)
| step_take_role s i key :
    tasks s !! i = Some (AtLoop key) → sf_step s (take_role i key s)
| step_init_ok s i key ch v :
    tasks s !! i = Some (Owner key ch) → sf_step s (finish_remove i key ch v s)
| step_send s i ch v :
    tasks s !! i = Some (Sending ch v) → sf_step s (finish_send i ch v s)
| step_init_err s i key ch e :
    tasks s !! i = Some (Owner key ch) → sf_step s (owner_drop i key ch (Some e) s)
| step_owner_cancelled s i key ch :
    tasks s !! i = Some (Owner key ch) → sf_step s (owner_drop i key ch None s)
| step_sender_drop s i ch r :
    tasks s !! i = Some (Dropping ch r) → sf_step s (sender_drop i ch r s)
| step_recv s i key ch pos t :
    tasks s !! i = Some (Waiting key ch pos) → received key ch (recv s ch pos) = Some t →
    sf_step s (set_task i t s)
| step_waiter_cancelled s i key ch pos :
    tasks s !! i = Some (Waiting key ch pos) → sf_step s (set_task i (Failed None) s).

Definition sf_reachable (s : Sf) : Prop := rtc sf_step sf_empty s.

(** What a task knows of a channel: nothing was sent yet, or its value was. *)
Definition knows (t : task) : option (nat * list (option T)) :=
  match t with
  | Owner _ c | Sending c _ | Dropping c (Err _) => Some (c, [])
  | Dropping c (Ok v) | Returned c v => Some (c, [v])
  | AtLoop _ | Waiting _ _ _ | Failed _ => None
  end.

Definition is_owner (t : task) : bool := match t with Owner _ _ => true | _ => false end.

(** Entries belong to owners; no two tasks hold senders of one channel; what
    tasks know of channels is so; a waiter subscribed before anything was sent;
    a channel carries at most one value. *)
Record sf_inv (s : Sf) : Prop := mkInv {
  inv_entry : ∀ key ch, in_flight s !! key = Some ch → ∃ i, tasks s !! i = Some (Owner key ch);
  inv_owner : ∀ i key ch, tasks s !! i = Some (Owner key ch) → in_flight s !! key = Some ch;
  inv_unique : ∀ i j t t' ch,
    tasks s !! i = Some t → tasks s !! j = Some t' → holds t ch → holds t' ch → i = j;
  inv_knows : ∀ i t ch l, tasks s !! i = Some t → knows t = Some (ch, l) → chans s !! ch = Some l;
  inv_waiter : ∀ i key ch pos, tasks s !! i = Some (Waiting key ch pos) → pos = 0%nat ∧ is_Some (chans s !! ch);
  inv_short : ∀ ch l, chans s !! ch = Some l → (length l ≤ 1)%nat;
  inv_fresh : ∀ ch, is_Some (chans s !! ch) → (ch < next s)%nat
}.

Ltac lookups := repeat match goal with
  | H : <[_ := _]> _ !! _ = Some _ |- _ => apply lookup_insert_Some in H as [[? ?]|[? ?]]; simplify_eq/=
  | H : delete _ _ !! _ = Some _ |- _ => apply lookup_delete_Some in H as [? ?]
  end.

(** A task that is no owner moves to a place where it is none and holds no more
    than before. *)
Lemma inv_move i t s :
  sf_inv s →
  (∀ t0, tasks s !! i = Some t0 → is_owner t0 = false) → is_owner t = false →
  (∀ ch, holds t ch → ∃ t0, tasks s !! i = Some t0 ∧ holds t0 ch) →
  (∀ key ch pos, t = Waiting key ch pos → pos = 0%nat ∧ is_Some (chans s !! ch)) →
  (∀ ch l, knows t = Some (ch, l) → chans s !! ch = Some l) →
  sf_inv (set_task i t s).
Proof.
  intros [] H0 H1 Hh Hw Hk. split; simpl; try done.
  - intros key ch (j & Hj)%inv_entry0. exists j. rw lookup_insert_ne //. intros ->. by specialize (H0 _ Hj).
  - intros j key ch ?. lookups; try done; eauto.
  - intros j j' t1 t2 ch ????. lookups; [done| | |eauto].
    + destruct (Hh ch) as (t0 & Ht0 & ?); [done|]. by eapply inv_unique0.
    + destruct (Hh ch) as (t0 & Ht0 & ?); [done|]. symmetry. by eapply inv_unique0.
  - intros j t' ch l ? ?. lookups; eauto.
  - intros j key ch pos ?. lookups; eauto.
Qed.

(** An owner gives up its entry but keeps its sender. *)
Lemma inv_release i key ch t s :
  sf_inv s → tasks s !! i = Some (Owner key ch) →
  (∀ c, holds t c → c = ch) → is_owner t = false → knows t = Some (ch, []) →
  sf_inv (mkSf (delete key (in_flight s)) (chans s) (<[i := t]> (tasks s)) (next s)).
Proof.
  intros [] Hi Ht Ho Hk. split; simpl; try done.
  - intros key' ch' ?. lookups. destruct (inv_entry0 key' ch') as [j Hj]; [done|].
    exists j. rw lookup_insert_ne //. intros ->. simplify_eq.
  - intros j key' ch' ?. lookups. rw lookup_delete_ne; [eauto|]. intros ->. apply inv_owner0 in H0 as Hk'.
    rw (inv_owner0 _ _ _ Hi) in Hk'. simplify_eq.
    by assert (i = j) by (eapply inv_unique0; [exact Hi|exact H0|done|done]).
  - intros j j' t1 t2 c ????. lookups; [done| | |eauto].
    all: assert (c = ch) as -> by auto.
    all: first [by eapply inv_unique0; [exact Hi|..] | by eapply inv_unique0; [|exact Hi|..]].
  - intros j t' c l ? ?. lookups; [|eauto]. simplify_eq. eapply inv_knows0; [exact Hi|done].
  - intros j key' c pos ?. lookups; try done; eauto.
Qed.

(** What the others know is not about a channel that somebody is to send on. *)
Lemma knows_other s i j v t ch l :
  sf_inv s → tasks s !! i = Some (Sending ch v) → tasks s !! j = Some t → j ≠ i → knows t ≠ Some (ch, l).
Proof.
  intros [] Hi Hj Hne Hk. pose proof (inv_knows0 _ _ _ _ Hi eq_refl) as Hc.
  pose proof (inv_knows0 _ _ _ _ Hj Hk) as Hc'. rw Hc in Hc'. injection Hc' as <-. apply Hne.
  eapply inv_unique0; [exact Hj|exact Hi| |done]. by destruct t as [| | |? []| | |]; simplify_eq/=.
Qed.

Lemma inv_send i ch v s : sf_inv s → tasks s !! i = Some (Sending ch v) → sf_inv (finish_send i ch v s).
Proof.
  intros Hinv Hi. pose proof (knows_other s i) as Hoth. pose proof Hinv as [].
  pose proof (inv_knows0 _ _ _ _ Hi eq_refl) as Hc. split; simpl.
  - intros key ch' (j & Hj)%inv_entry0. exists j. rw lookup_insert_ne //. intros ->. simplify_eq.
  - intros j key ch' ?. lookups; eauto.
  - intros j j' t1 t2 c ????. lookups; [done| | |eauto].
    all: first [by eapply inv_unique0; [exact Hi|..] | by eapply inv_unique0; [|exact Hi|..]].
  - intros j t' c l ? Hk. lookups; [by rw lookup_alter_eq Hc|].
    rw lookup_alter_ne; [eauto|]. intros <-. by eapply Hoth.
  - intros j key c pos ?. lookups. destruct (inv_waiter0 _ _ _ _ H0) as [-> Hs]. split; [done|].
    destruct (decide (c = ch)) as [->|]; [by rw lookup_alter_eq Hc|by rw lookup_alter_ne].
  - intros c l. destruct (decide (c = ch)) as [->|]; [rw lookup_alter_eq Hc; by intros [= <-]|rw lookup_alter_ne //; eauto].
  - intros c. destruct (decide (c = ch)) as [->|]; [intros _; apply inv_fresh0; by eexists|rw lookup_alter_ne //; eauto].
Qed.

(** A task becomes the owner of a new channel, or waits for a value that is not
    sent yet. *)
Lemma inv_take_role i key s :
  sf_inv s → tasks s !! i = Some (AtLoop key) → sf_inv (take_role i key s).
Proof.
  intros Hinv Hi. unfold take_role. destruct (in_flight s !! key) as [ch|] eqn:Ek.
  - apply inv_move; try done; [by intros ? [= <-]%(eq_trans (eq_sym Hi))|].
    intros ? ? ? [= <- <- <-]. destruct Hinv. destruct (inv_entry0 _ _ Ek) as [j Hj].
    by rw (inv_knows0 _ _ _ _ Hj eq_refl).
  - destruct Hinv. set (ch := next s).
    assert (Hfresh : chans s !! ch = None).
    { destruct (chans s !! ch) eqn:Hx; [|done]. pose proof (inv_fresh0 ch (ex_intro _ _ Hx)). unfold ch in *. lia. }
    assert (Hnok : ∀ j t l, tasks s !! j = Some t → knows t ≠ Some (ch, l)).
    { intros j t l Hj Hk. by rw (inv_knows0 _ _ _ _ Hj Hk) in Hfresh. }
    assert (Hnoh : ∀ j t, tasks s !! j = Some t → ¬ holds t ch).
    { intros j t Hj Hh. destruct t as [| | |? []| | |]; simpl in Hh; subst; try done; by eapply Hnok. }
    split; simpl.
    + intros key' ch' ?. lookups; [exists i; by rw lookup_insert_eq|].
      destruct (inv_entry0 key' ch') as [j Hj]; [done|]. exists j. rw lookup_insert_ne //. intros ->. simplify_eq.
    + intros j key' ch' ?. lookups; [by rw lookup_insert_eq|]. apply inv_owner0 in H0.
      rw lookup_insert_ne //. intros ->. congruence.
    + intros j j' t t' c ????. lookups; [done|exfalso; by eapply Hnoh..|eauto].
    + intros j t c l ? ?. lookups; [by rw lookup_insert_eq|]. rw lookup_insert_ne; [eauto|]. intros <-. by eapply Hnok.
    + intros j key' c pos ?. lookups. destruct (inv_waiter0 _ _ _ _ H0) as [-> [x Hx]]. split; [done|].
      rw lookup_insert_ne; [by eexists|]. intros <-. congruence.
    + intros c l ?. lookups; [lia|eauto].
    + intros c [x ?]. lookups; [lia|]. enough (c < next s)%nat by (unfold ch; lia). apply inv_fresh0. by eexists.
Qed.

Lemma recv_value s ch pos v : recv s ch pos = Value v → default [] (chans s !! ch) !! pos = Some v.
Proof. unfold recv. case_match; [done|]. case_match; [by intros [= <-]|by destruct (has_sender s ch)]. Qed.

Lemma inv_step s s' : sf_inv s → sf_step s s' → sf_inv s'.
Proof.
  intros Hinv Hst. destruct Hst as [s i key Hi|s i key Hi|s i key ch v Hi|s i ch v Hi|s i key ch e Hi|s i key ch Hi
    |s i ch r Hi|s i key ch pos t Hi Hr|s i key ch pos Hi].
  - apply inv_move; try done. by rw Hi.
  - by apply inv_take_role.
  - eapply inv_release; try done; by intros ? <-.
  - by apply inv_send.
  - eapply inv_release; try done; by intros ? <-.
  - eapply inv_release; try done; by intros ? <-.
  - apply inv_move; try done; rw ?Hi; [by intros ? [= <-]|by destruct r|by destruct r|by destruct r|].
    destruct Hinv. intros c l Hk. eapply inv_knows0; [exact Hi|]. by destruct r.
  - destruct (inv_waiter s Hinv _ _ _ _ Hi) as [-> [l Hl]]. apply inv_move; try done; rw ?Hi; [by intros ? [= <-]|..].
    all: destruct (recv s ch 0) as [v| | |] eqn:Ev; simplify_eq/=; try done.
    intros c l' [= <- <-]. apply recv_value in Ev. rw Hl /= in Ev. pose proof (inv_short s Hinv _ _ Hl) as Hs.
    destruct l as [|x [|]]; simplify_eq/=; [done|lia].
  - apply inv_move; try done. rw Hi. by intros ? [= <-].
Qed.

Lemma inv_empty : sf_inv sf_empty.
Proof. split; simpl; intros *; rw ?lookup_empty; try done. Qed.

Lemma reachable_inv s : sf_reachable s → sf_inv s.
Proof. apply (rtc_ind_r (λ s, sf_inv s)); [apply inv_empty|]. intros y z _ Hst Hinv. by eapply inv_step. Qed.

(** In every reachable state of the singleflight, whatever
    the interleaving of calls, initialiser results, errors and cancellations,
    at most one call per key is running its initialiser. *)
Theorem singleflight_single_owner s i j key ch ch' :
  sf_reachable s →
  tasks s !! i = Some (Owner key ch) → tasks s !! j = Some (Owner key ch') → i = j.
Proof.
  intros []%reachable_inv Hi Hj. apply inv_owner0 in Hi as Ei. apply inv_owner0 in Hj as Ej.
  rw Ei in Ej. simplify_eq. by eapply inv_unique0; [exact Hi|exact Hj|..].
Qed.

(** Some execution takes call [i] to [t]. *)
Definition leads (s : Sf) (i : nat) (t : task) : Prop := ∃ s', rtc sf_step s s' ∧ tasks s' !! i = Some t.

Lemma leads_after s s1 i t : sf_step s s1 → leads s1 i t → leads s i t.
Proof. intros H (s' & Hs & Ho). exists s'. split; [by eapply rtc_l|done]. Qed.

Lemma leads_recv s i key ch t :
  tasks s !! i = Some (Waiting key ch 0) → received key ch (recv s ch 0) = Some t → leads s i t.
Proof.
  intros Hi Ht. exists (set_task i t s). split; [by apply rtc_once, (step_recv s i key ch 0)|].
  by rw /= lookup_insert_eq.
Qed.

(** A waiter gets out of a state when a value has been sent or the channel is
    closed. *)
Lemma leads_sent s i key ch v :
  tasks s !! i = Some (Waiting key ch 0) → chans s !! ch = Some [v] → leads s i (Returned ch v).
Proof. intros Hi Hc. apply (leads_recv _ _ key ch); [done|]. by rw /recv Hc. Qed.

Lemma leads_closed s i key ch :
  tasks s !! i = Some (Waiting key ch 0) → chans s !! ch = Some [] → has_sender s ch = false → leads s i (AtLoop key).
Proof. intros Hi Hc Hs. apply (leads_recv _ _ key ch); [done|]. by rw /recv Hc /= Hs. Qed.

(** The last sender of a channel goes when the task that holds it drops it. *)
Lemma closed_after_drop s j ch r :
  sf_inv s → tasks s !! j = Some (Dropping ch r) → has_sender (sender_drop j ch r s) ch = false.
Proof.
  intros Hinv Hj. pose proof Hinv as []. unfold has_sender. apply orb_false_iff. split; apply bool_decide_eq_false.
  - intros (key & c & Hk & ->). destruct (inv_entry0 _ _ Hk) as [i Hi].
    assert (i = j) as -> by (by eapply inv_unique0; [exact Hi|exact Hj|..]). simplify_eq.
  - intros (i & t & Hi & Hh). simpl in Hi. lookups; [by destruct r|].
    by assert (i = j) by (by eapply inv_unique0; [exact H0|exact Hj|..]).
Qed.

Definition woken (key : string) (ch : nat) {F} (r : result (option T) F) : task :=
  match r with Ok v => Returned ch v | Err _ => AtLoop key end.

Lemma leads_dropping s j ch r i key :
  sf_inv s → tasks s !! j = Some (Dropping ch r) → tasks s !! i = Some (Waiting key ch 0) → leads s i (woken key ch r).
Proof.
  intros Hinv Hj Hi. assert (Hne : i ≠ j) by (intros ->; simplify_eq).
  destruct r as [v|e]; simpl; pose proof (inv_knows s Hinv _ _ _ _ Hj eq_refl) as Hc; [by eapply leads_sent|].
  eapply leads_after; [by apply step_sender_drop|].
  apply (leads_closed _ _ _ ch); [by rw /= lookup_insert_ne|done|by apply closed_after_drop].
Qed.

Lemma leads_sending s j ch v i key :
  sf_inv s → tasks s !! j = Some (Sending ch v) → tasks s !! i = Some (Waiting key ch 0) → leads s i (Returned ch v).
Proof.
  intros Hinv Hj Hi. assert (Hne : i ≠ j) by (intros ->; simplify_eq).
  eapply leads_after; [by apply step_send|]. apply (leads_sent _ _ key); [by rw /= lookup_insert_ne|].
  by rw /= lookup_alter_eq (inv_knows s Hinv _ _ _ _ Hj eq_refl).
Qed.

Lemma leads_owner s j key' ch (outcome : result (option T) E) i key :
  sf_inv s → tasks s !! j = Some (Owner key' ch) → tasks s !! i = Some (Waiting key ch 0) →
  leads s i (woken key ch outcome).
Proof.
  intros Hinv Hj Hi. assert (Hne : i ≠ j) by (intros ->; simplify_eq). destruct outcome as [v|e].
  - assert (Hst : sf_step s (finish_remove j key' ch v s)) by by apply step_init_ok.
    eapply leads_after; [done|].
    eapply (leads_sending _ j ch v); [by eapply inv_step|by rw /= lookup_insert_eq|by rw /= lookup_insert_ne].
  - assert (Hst : sf_step s (owner_drop j key' ch (Some e) s)) by by apply step_init_err.
    eapply leads_after; [done|].
    eapply (leads_dropping _ j ch (Err (Some e))); [by eapply inv_step|by rw /= lookup_insert_eq|by rw /= lookup_insert_ne].
Qed.

(** A waiter whose channel has nothing for it waits for a task that holds its
    sender: an entry of the map alone does not keep it waiting. *)
Lemma waiter_has_holder s ch :
  sf_inv s → has_sender s ch = true → ∃ j t, tasks s !! j = Some t ∧ holds t ch.
Proof.
  intros [] [H|H]%orb_true_iff; apply bool_decide_eq_true in H.
  - destruct H as (key & c & Hk & ->). destruct (inv_entry0 _ _ Hk) as [j Hj]. by exists j, (Owner key ch).
  - destruct H as (j & t & Hj & Hh). by exists j, t.
Qed.

Lemma holder_has_sender s j t ch : tasks s !! j = Some t → holds t ch → has_sender s ch = true.
Proof. intros Hj Hh. apply orb_true_iff. right. apply bool_decide_eq_true. by exists j, t. Qed.

(** C40 (liveness). No waiter is stranded: from every reachable state in which
    call [i] waits for another call's session there is an execution after
    which it has returned a session sent on its channel, or is back at the head
    of its loop, where it may become the owner itself.  It depends on the
    owner which: while the owner's initialiser runs, both ways in which it can
    end are possible, and the waiter returns the owner's session when it
    succeeds and goes back to its loop when it fails; when the owner is about
    to send a session, the waiter returns that one.  A waiter receives only
    what is sent after it subscribed, and sees its channel closed only when the
    sender in the map and the owner's are both gone. *)
Theorem waiter_never_stranded (outcome : result (option T) E) s i key ch pos :
  sf_reachable s → tasks s !! i = Some (Waiting key ch pos) →
  ∃ s' t, rtc sf_step s s' ∧ tasks s' !! i = Some t ∧
    ((∃ v, t = Returned ch v) ∨ t = AtLoop key) ∧
    (∀ j key', tasks s !! j = Some (Owner key' ch) →
       t = match outcome with Ok v => Returned ch v | Err _ => AtLoop key end) ∧
    (∀ j v, tasks s !! j = Some (Sending ch v) → t = Returned ch v).
Proof.
  intros Hinv%reachable_inv Hi. destruct (inv_waiter s Hinv _ _ _ _ Hi) as [-> [l Hl]].
  assert (Hu := inv_unique s Hinv). destruct (has_sender s ch) eqn:Hs.
  - destruct (waiter_has_holder _ _ Hinv Hs) as (j & t & Hj & Hh).
    assert (Hj' : ∀ j' t', tasks s !! j' = Some t' → holds t' ch → t' = t).
    { intros j' t' Hj' Hh'. assert (j' = j) as -> by by eapply Hu. by simplify_eq. }
    destruct t as [|key' c|c v|c r| | |]; simpl in Hh; try done; subst c.
    + destruct (leads_owner s j key' ch outcome i key Hinv Hj Hi) as (s' & Hr & Ht). exists s', (woken key ch outcome).
      split_and!; [done|done|destruct outcome; simpl; eauto|done|]. intros j' v H. by specialize (Hj' _ _ H eq_refl).
    + destruct (leads_sending s j ch v i key Hinv Hj Hi) as (s' & Hr & Ht). exists s', (Returned ch v).
      split_and!; [done|done|eauto|..]; intros j' x H; by specialize (Hj' _ _ H eq_refl); simplify_eq.
    + destruct (leads_dropping s j ch r i key Hinv Hj Hi) as (s' & Hr & Ht). exists s', (woken key ch r).
      split_and!; [done|done|destruct r; simpl; eauto|..]; intros j' x H; by specialize (Hj' _ _ H eq_refl).
  - assert (Hl' : ∃ t, leads s i t ∧ ((∃ v, t = Returned ch v) ∨ t = AtLoop key)).
    { pose proof (inv_short s Hinv _ _ Hl) as Hsh. destruct l as [|v [|]]; simpl in Hsh; [| |lia].
      - exists (AtLoop key). split; [by eapply leads_closed|by right].
      - exists (Returned ch v). split; [by eapply leads_sent|eauto]. }
    destruct Hl' as (t & (s' & Hr & Ht) & Hc). exists s', t.
    split_and!; [done|done|done|..]; intros j x H; by rw (holder_has_sender _ _ _ _ H eq_refl) in Hs.
Qed.

(** All calls served by one flight agree: in every reachable
    state, two calls that returned from the same channel, the owner included,
    returned the same session. *)
Theorem same_flight_same_session s i j ch v v' :
  sf_reachable s →
  tasks s !! i = Some (Returned ch v) → tasks s !! j = Some (Returned ch v') → v = v'.
Proof.
  intros []%reachable_inv Hi Hj. pose proof (inv_knows0 _ _ _ _ Hi eq_refl) as Hc.
  rw (inv_knows0 _ _ _ _ Hj eq_refl) in Hc. by simplify_eq.
Qed.
End singleflight.

(** Two calls for one key, the first running its initialiser, the second
    waiting for it; then the first finishes and both return. *)
Definition two_calls : Sf (T:=nat) (E:=nat) :=
  take_role 1 "k" (set_task 1 (AtLoop "k") (take_role 0 "k" (set_task 0 (AtLoop "k") sf_empty))).

Definition both_returned : Sf (T:=nat) (E:=nat) :=
  set_task 1 (Returned 0 (Some 7))
    (sender_drop 0 0 (Ok (Some 7)) (finish_send 0 0 (Some 7) (finish_remove 0 "k" 0 (Some 7) two_calls))).

Lemma two_calls_reachable : sf_reachable two_calls.
Proof.
  unfold two_calls. eapply rtc_l; [apply (step_call sf_empty 0 "k"); reflexivity|].
  eapply rtc_l; [apply (step_take_role _ 0 "k"); reflexivity|].
  eapply rtc_l; [apply (step_call _ 1 "k"); reflexivity|].
  apply rtc_once, (step_take_role _ 1 "k"); reflexivity.
Qed.

Lemma both_returned_reachable : sf_reachable both_returned.
Proof.
  eapply rtc_r; [eapply rtc_r; [eapply rtc_r; [eapply rtc_r; [exact two_calls_reachable|]|]|]|].
  - apply (step_init_ok _ 0 "k" 0 (Some 7)); reflexivity.
  - apply (step_send _ 0 0 (Some 7)); reflexivity.
  - apply (step_sender_drop _ 0 0 (Ok (Some 7))); reflexivity.
  - apply (step_recv _ 1 "k" 0 0); reflexivity.
Qed.

Lemma singleflight_single_owner_witness :
  sf_reachable two_calls ∧ tasks two_calls !! 0 = Some (Owner "k" 0) ∧ 0 = 0.
Proof.
  split; [exact two_calls_reachable|]. split; [reflexivity|].
  apply (singleflight_single_owner two_calls 0 0 "k" 0 0 two_calls_reachable); reflexivity.
Defined.

Lemma waiter_never_stranded_witness :
  ∃ s', rtc sf_step two_calls s' ∧ tasks s' !! 1 = Some (Returned 0 (Some 7)).
Proof.
  destruct (waiter_never_stranded (Ok (Some 7)) two_calls 1 "k" 0 0 two_calls_reachable)
    as (s' & t & Hs & Ht & _ & Ho & _); [reflexivity|].
  exists s'. split; [exact Hs|]. rw Ht. f_equal. exact (Ho 0 "k" eq_refl).
Defined.

Lemma same_flight_same_session_witness :
  tasks both_returned !! 0 = Some (Returned 0 (Some 7))
  ∧ tasks both_returned !! 1 = Some (Returned 0 (Some 7)) ∧ Some 7 = Some 7.
Proof.
  split; [reflexivity|]. split; [reflexivity|].
  apply (same_flight_same_session both_returned 0 1 0 (Some 7) (Some 7) both_returned_reachable); reflexivity.
Defined.
