(* ===== verification/Fallback.v ===== *)
(** * Fallback policy

    Models [ai-gateway/src/config/fallback_policy.rs] (the [fallback-policy]
    block and its start-up validation), [ai-gateway/src/fallback/evaluator.rs]
    (the judgements of dispatcher and monitors) and the resolution of effective
    settings in [ai-gateway/src/config/fallback_bridge.rs].

    [Decimal] is the type of a third-party crate; what the code asks of it, the
    conversion to a float and whether clamping to the unit interval changes the
    value, are parameters.  Adding two [Duration]s panics when the sum does not
    fit the type: [duration_add] is [None] then. *)

From S2P Require Import Prelude RustStr Float64.
Local Open Scope Z_scope.

(** [Duration::MAX]: 2^64 - 1 seconds and 999,999,999 nanoseconds. *)
Definition duration_max : Duration := from_secs u64_max + 999999999.

Definition duration_add (a b : Duration) : option Duration :=
  if a + b <=? duration_max then Some (a + b) else None.

Section policy.
Context {Decimal : Type} (to_f64 : Decimal → option f64) (clamp_unit_is_id : Decimal → bool).

(* src: ai-gateway/src/config/fallback_policy.rs:11-18 FallbackMode *)
Inductive FallbackMode := Compat | Unified.

(* src: ai-gateway/src/config/monitor.rs:66-75 GracePeriod *)
Inductive GracePeriod := Requests (min_requests : Z).

(* src: ai-gateway/src/config/fallback_policy.rs:20-32 ProviderFailoverHealthPolicy *)
Record ProviderFailoverHealthPolicy := mkHealthPolicy {
  health_enabled : bool;
  error_ratio_threshold : Decimal;
  interval : Duration;
  grace_period : GracePeriod
}.

(* src: ai-gateway/src/config/fallback_policy.rs:34-48 ProviderFailoverRateLimitPolicy *)
Record ProviderFailoverRateLimitPolicy := mkRateLimitPolicy {
  rate_limit_enabled : bool;
  default_retry_after_seconds : Z;
  restore_buffer : Duration
}.

(* src: ai-gateway/src/config/fallback_policy.rs:50-57 ProviderFailoverPolicyBlock *)
Record ProviderFailoverPolicyBlock := mkFailover {
  health : ProviderFailoverHealthPolicy;
  rate_limit : ProviderFailoverRateLimitPolicy
}.

(* src: ai-gateway/src/config/fallback_policy.rs:59-66 FallbackObservabilityPolicy *)
Record FallbackObservabilityPolicy := mkObservability {
  emit_decision_log : bool;
  metrics_prefix : string
}.

(* src: ai-gateway/src/config/retry.rs:9-36 RetryConfig *)
Inductive RetryConfig :=
| Exponential (min_delay max_delay : Duration) (max_retries : Z) (factor : Decimal)
| Constant (delay : Duration) (max_retries : Z).

(* src: ai-gateway/src/config/fallback_policy.rs:68-82 FallbackPolicyConfig *)
Record FallbackPolicyConfig := mkPolicy {
  enabled : bool;
  mode : FallbackMode;
  retry : RetryConfig;
  provider_failover : ProviderFailoverPolicyBlock;
  observability : FallbackObservabilityPolicy
}.

(** [InitError::InvalidFallbackPolicy] with its message. *)
Inductive PolicyError := InvalidFallbackPolicy (msg : string).

Definition reject (cond : bool) (msg : string) : result unit PolicyError :=
  if cond then Err (InvalidFallbackPolicy msg) else Ok tt.

Definition validate_health (h : ProviderFailoverHealthPolicy) : result unit PolicyError :=
  if health_enabled h then
    let? _ := reject (interval h =? 0)
      "provider-failover.health.interval must be positive when health failover is enabled" in
    let? _ := reject (negb (clamp_unit_is_id (error_ratio_threshold h)))
      "provider-failover.health.error-ratio-threshold must be between 0 and 1 inclusive" in
    match grace_period h with
    | Requests n => reject (n =? 0) "provider-failover.health.grace-period.min-requests must be > 0"
    end
  else Ok tt.

Definition validate_rate_limit (r : ProviderFailoverRateLimitPolicy) : result unit PolicyError :=
  if rate_limit_enabled r then
    let? _ := reject (default_retry_after_seconds r =? 0)
      "provider-failover.rate-limit.default-retry-after-seconds must be > 0 when rate-limit failover is enabled" in
    reject (restore_buffer r =? 0)
      "provider-failover.rate-limit.restore-buffer must be positive when rate-limit failover is enabled"
  else Ok tt.

(* src: ai-gateway/src/config/fallback_policy.rs:126-201 FallbackPolicyConfig::validate *)
Definition validate (p : FallbackPolicyConfig) : result unit PolicyError :=
  let? _ := validate_health (health (provider_failover p)) in
  let? _ := validate_rate_limit (rate_limit (provider_failover p)) in
  let? _ := match retry p with
            | Exponential min_delay max_delay _ _ =>
                reject (max_delay <? min_delay) "fallback-policy.retry.min-delay must be <= max-delay"
            | Constant _ _ => Ok tt
            end in
  reject (is_empty (trim (metrics_prefix (observability p))))
    "observability.metrics-prefix must be non-empty".

(** ** Judgements *)

(* src: ai-gateway/src/fallback/evaluator.rs:15-30 ErrorClass *)
Inductive ErrorClass := Upstream5xx | ConnectionError | StreamRetryable | NonRetryable.

(* src: ai-gateway/src/fallback/evaluator.rs:36-43 FailoverSource *)
Inductive FailoverSource := Health | RateLimit.

(* src: ai-gateway/src/fallback/evaluator.rs:49-65 should_retry *)
Definition should_retry (policy : FallbackPolicyConfig) (error_class : ErrorClass) : bool :=
  if negb (enabled policy) then false
  else match mode policy with
       | Compat | Unified =>
           match error_class with
           | Upstream5xx | ConnectionError | StreamRetryable => true
           | NonRetryable => false
           end
       end.

(* src: ai-gateway/src/fallback/evaluator.rs:67-78 should_remove *)
Definition should_remove (policy : FallbackPolicyConfig) (source : FailoverSource) : bool :=
  if negb (enabled policy) then false
  else match source with
       | Health => health_enabled (health (provider_failover policy))
       | RateLimit => rate_limit_enabled (rate_limit (provider_failover policy))
       end.

(** [None]: the addition of the two durations panics. *)
(* src: ai-gateway/src/fallback/evaluator.rs:80-98 restore_after *)
Definition restore_after (policy : FallbackPolicyConfig) (retry_after_header_secs : option Z)
  : option Duration :=
  let rl := rate_limit (provider_failover policy) in
  let base := from_secs (default (default_retry_after_seconds rl) retry_after_header_secs) in
  duration_add base (restore_buffer rl).

(** ** Effective settings *)

(* src: ai-gateway/src/config/monitor.rs:41-64 HealthMonitorConfig *)
Record MonitorConfig := mkMonitorConfig {
  ratio : Decimal;
  legacy_interval : Duration;
  legacy_grace_period : GracePeriod
}.

(** The fields of the gateway configuration the bridge reads; routers in the
    order of the iteration. *)
Record Config := mkConfig {
  fallback_policy : FallbackPolicyConfig;
  monitor : MonitorConfig;
  global_retries : option RetryConfig;
  unified_api_retries : option RetryConfig;
  routers : list (string * option RetryConfig)
}.

Record ResolvedHealth := mkResolved {
  resolved_threshold : f64;
  resolved_interval : Duration;
  resolved_grace : GracePeriod
}.

(** The constants 0.1 and 0.15 of the two fallbacks. *)
Context (f64_0_1 f64_0_15 : f64).

(* src: ai-gateway/src/config/fallback_bridge.rs:50-66 resolved_health_monitor_config *)
Definition resolved_health_monitor_config (config : Config) : ResolvedHealth :=
  let fp := fallback_policy config in
  let h := health (provider_failover fp) in
  if enabled fp && health_enabled h then
    mkResolved (default f64_0_1 (to_f64 (error_ratio_threshold h))) (interval h) (grace_period h)
  else
    let m := monitor config in
    mkResolved (default f64_0_15 (to_f64 (ratio m))) (legacy_interval m) (legacy_grace_period m).

(* src: ai-gateway/src/config/fallback_bridge.rs:78-84 resolved_rate_limit_restore_after *)
Definition resolved_rate_limit_restore_after (config : Config) (retry_after_secs : option Z)
  : option Duration := restore_after (fallback_policy config) retry_after_secs.

(* src: ai-gateway/src/config/fallback_bridge.rs:96-104 resolved_global_retry *)
Definition resolved_global_retry (config : Config) : option RetryConfig :=
  if enabled (fallback_policy config) then Some (retry (fallback_policy config))
  else global_retries config.

(* src: ai-gateway/src/config/fallback_bridge.rs:86-94 DeprecatedRetryLocation *)
Inductive DeprecatedRetryLocation := UnifiedApi | Router (id : string).

(* src: ai-gateway/src/config/fallback_bridge.rs:106-120 deprecated_per_path_retries *)
Definition deprecated_per_path_retries (config : Config) : list DeprecatedRetryLocation :=
  match unified_api_retries config with Some _ => [UnifiedApi] | None => [] end
  ++ omap (λ '(id, r), match r with Some _ => Some (Router id) | None => None end) (routers config).

(** ** What a validated policy guarantees *)

Lemma reject_Ok b msg x : reject b msg = Ok x → b = false.
Proof. by destruct b. Qed.

Lemma validate_rate_limit_positive p :
  validate p = Ok tt → rate_limit_enabled (rate_limit (provider_failover p)) = true →
  default_retry_after_seconds (rate_limit (provider_failover p)) ≠ 0
  ∧ restore_buffer (rate_limit (provider_failover p)) ≠ 0.
Proof.
  unfold validate, validate_rate_limit. destruct (validate_health _); [|done]. simpl.
  intros Hv He. rw He in Hv.
  destruct (reject (default_retry_after_seconds _ =? 0) _) as [[]|] eqn:E1; [|done]. simpl in Hv.
  destruct (reject (restore_buffer _ =? 0) _) as [[]|] eqn:E2; [|done].
  apply reject_Ok in E1, E2. by bool_to_prop.
Qed.

(** How long a rate-limited provider stays out: for a policy the
    start-up validation accepts and a [Retry-After] value that leaves room for
    the buffer in a [Duration], the wait exists, equals the announced (or
    configured) seconds plus the buffer, and is never zero; and the addition
    panics exactly for the other values. *)
Theorem restore_wait_is_exact p header :
  let rl := rate_limit (provider_failover p) in
  let secs := default (default_retry_after_seconds rl) header in
  validate p = Ok tt → should_remove p RateLimit = true →
  0 ≤ secs → 0 ≤ restore_buffer rl →
  (restore_after p header = None ↔ duration_max < from_secs secs + restore_buffer rl)
  ∧ (∀ d, restore_after p header = Some d → d = from_secs secs + restore_buffer rl ∧ 0 < d).
Proof.
  intros rl secs Hv Hr H0 Hb. unfold should_remove in Hr. destruct (enabled p); [|done]. simpl in Hr.
  destruct (validate_rate_limit_positive p Hv Hr) as [_ Hne]. unfold restore_after, duration_add.
  fold rl in Hne |- *. fold secs. destruct (Z.leb_spec (from_secs secs + restore_buffer rl) duration_max).
  - split; [split; [done|lia]|]. intros d [= <-]. split; [done|]. unfold from_secs. lia.
  - split; [done|]. by intros d.
Qed.
End policy.

Arguments Exponential {Decimal} _ _ _ _.
Arguments Constant {Decimal} _ _.
Arguments mkPolicy {Decimal} _ _ _ _ _.

(** The defaults of the block, with decimals as tenths. *)
(* src: ai-gateway/src/config/fallback_policy.rs:84-124 FallbackPolicyConfig::default *)
Definition default_policy : FallbackPolicyConfig (Decimal := Z) :=
  mkPolicy true Compat (Exponential (from_secs 1) (from_secs 30) 2 20)
    (mkFailover (mkHealthPolicy true 1 (from_secs 5) (Requests 20))
                (mkRateLimitPolicy true 30 (from_secs 30)))
    (mkObservability true "ai_gateway.fallback").

Definition tenths_in_unit (d : Z) : bool := (0 <=? d) && (d <=? 10).

Lemma restore_wait_is_exact_witness :
  restore_after default_policy (Some 7) = Some (from_secs 37)
  ∧ (from_secs 37 = from_secs 7 + from_secs 30 ∧ 0 < from_secs 37).
Proof.
  split; [vm_compute; reflexivity|].
  apply (proj2 (restore_wait_is_exact tenths_in_unit default_policy (Some 7)
    ltac:(vm_compute; reflexivity) ltac:(vm_compute; reflexivity) ltac:(vm_compute; discriminate)
    ltac:(vm_compute; discriminate))).
  vm_compute. reflexivity.
Defined.
