(* ===== verification/RateLimitMonitor.v ===== *)
(** * Provider rate-limit monitor

    Models [ai-gateway/src/discover/monitor/rate_limit/provider.rs]: the task
    of a router that takes a provider which answered 429 out of the load
    balancer and puts it back when its [Retry-After] time has passed, for the
    four balancing strategies, together with the dispatcher code that reports
    the 429 and the supervision of the task.

    The loop of a task is [tokio::select!] over two sources, so a run is a list
    of inputs, each an event from the dispatcher or the completion of one of
    the pending timers, at the time the loop handles it.  A timer that is not
    due cannot complete: that input changes nothing.  The keys, dispatchers,
    changes and the pool are those of the health monitor, which feeds the same
    balancer. *)

From S2P Require Import Prelude RustStr Provider ModelId Float64 HealthMonitor Fallback.
Local Open Scope Z_scope.

(** ** Endpoints *)

(* src: ai-gateway/src/endpoints/openai/mod.rs:75-86 OpenAI::endpoint_type *)
Definition openai_endpoint_type (e : OpenAIEndpoint) : EndpointType :=
  match e with
  | ChatCompletions | Completions | Responses => Chat
  | Embeddings => EmbeddingsType
  | ImageGenerations | ImageEdits => Image
  | AudioSpeech | AudioTranscriptions => Audio
  end.

(* src: ai-gateway/src/endpoints/mod.rs:174-187 ApiEndpoint::endpoint_type *)
Definition endpoint_type (e : ApiEndpoint) : EndpointType :=
  match e with
  | EOpenAI o | EOpenAICompatible _ o => openai_endpoint_type o
  | EAnthropicMessages | EGoogleGenerateContents | EOllamaChatCompletions | EBedrockConverse => Chat
  end.

(* src: ai-gateway/src/endpoints/mod.rs:139-149 ApiEndpoint::provider *)
Definition ep_provider (e : ApiEndpoint) : InferenceProvider :=
  match e with
  | EOpenAI _ => OpenAI
  | EAnthropicMessages => Anthropic
  | EGoogleGenerateContents => GoogleGemini
  | EOllamaChatCompletions => Ollama
  | EBedrockConverse => Bedrock
  | EOpenAICompatible p _ => p
  end.

Lemma elem_of_delete_NoDup {A} (l : list A) i x y :
  NoDup l → l !! i = Some x → (y ∈ delete i l) ↔ (y ∈ l ∧ y ≠ x).
Proof.
  intros Hnd Hi. pose proof (delete_Permutation l i x Hi) as Hp.
  pose proof (elem_of_Permutation_proper y _ _ Hp) as Hy. rw elem_of_cons in Hy.
  rw Hp in Hnd. apply NoDup_cons in Hnd as [Hx _]. split; [|naive_solver].
  intros Hin. split; [naive_solver|]. by intros ->.
Qed.

Lemma fmap_delete {A B} (f : A → B) i (l : list A) : f <$> delete i l = delete i (f <$> l).
Proof. revert i. induction l as [|x l IH]; intros [|i]; simpl; [done..|]. by rw -IH. Qed.

(** ** What the dispatcher reports *)

Section rate_limit.
Context {Date : Type} `{Countable Date}.
Context {Decimal : Type} (to_weight : Decimal → option Z).

Abbreviation Config := (BalanceConfig (Date := Date) (Decimal := Decimal)).
Abbreviation Key := (HealthMonitor.Key (Date := Date)).
Abbreviation effect := (HealthMonitor.effect (Date := Date)).

(* src: ai-gateway/src/types/rate_limit.rs:22-45 RateLimitEvent *)
Record RateLimitEvent := mkEvent {
  api_endpoint : ApiEndpoint;
  model_id : option (ModelId Date);
  retry_after_seconds : option Z
}.

(** [RateLimitEvent::new]. *)
Definition event_new (e : ApiEndpoint) (retry_after : option Z) : RateLimitEvent :=
  mkEvent e None retry_after.

(** [header] is the value of [Retry-After] when it is there and visible ASCII;
    [parse_date] is chrono's parser for the HTTP date format, giving seconds
    since the epoch; [now] is the system clock in seconds. *)
(* src: ai-gateway/src/dispatcher/service.rs:1829-1854 extract_retry_after *)
Definition extract_retry_after (parse_date : string → option Z) (now : Z) (header : option string)
  : option Z :=
  match header with
  | None => None
  | Some s =>
      match parse_uint u64_max s with
      | Some seconds => Some seconds
      | None =>
          match parse_date s with
          | Some ts =>
              let target := if 0 <=? ts then ts else 0 in
              if now <? target then Some (target - now) else None
          | None => None
          end
      end
  end.

(** The event a load-balanced dispatcher sends for an upstream response. *)
(* src: ai-gateway/src/dispatcher/service.rs:1041-1079 handle_error_and_rate_limiting *)
Definition rate_limit_event (parse_date : string → option Z) (now status : Z) (header : option string)
    (endpoint : option ApiEndpoint) : option RateLimitEvent :=
  if (500 <=? status) && (status <=? 599) then None
  else if status =? 429 then
    match endpoint with
    | Some e => Some (event_new e (extract_retry_after parse_date now header))
    | None => None
    end
  else None.

(** ** Keys *)

(** [load_balance.0.get(&endpoint_type)]. *)
Definition config_get (et : EndpointType) (cfg : Config)
  : option (BalanceConfigInner (Date := Date) (Decimal := Decimal)) :=
  match list_find (λ e, e.1 = et) cfg with Some (_, e) => Some e.2 | None => None end.

(* src: ai-gateway/src/discover/monitor/rate_limit/provider.rs:266-305 create_key_for_endpoint *)
Definition create_provider_weighted_key (cfg : Config) (e : ApiEndpoint) : result Key MonitorError :=
  let provider := ep_provider e in
  let et := endpoint_type e in
  match config_get et cfg with
  | Some (ProviderWeighted providers) =>
      match list_find (λ t, t.1 = provider) providers with
      | Some (_, target) =>
          let? w := ok_or (to_weight target.2) Internal in
          Ok (KProviderWeighted provider et w)
      | None => Err Internal
      end
  | _ => Err Internal
  end.

(* src: ai-gateway/src/discover/monitor/rate_limit/provider.rs:425-463 create_model_weighted_key *)
Definition create_model_weighted_key (cfg : Config) (event : RateLimitEvent) : result Key MonitorError :=
  let? m := ok_or (model_id event) Internal in
  let et := endpoint_type (api_endpoint event) in
  match config_get et cfg with
  | Some (ModelWeighted models) =>
      let? model_config := ok_or (snd <$> list_find (λ t, t.1 = m) models) Internal in
      let? w := ok_or (to_weight model_config.2) Internal in
      Ok (KModelWeighted m et w)
  | _ => Err Internal
  end.

(* src: ai-gateway/src/discover/monitor/rate_limit/provider.rs:583-594 create_model_latency_key *)
Definition create_model_latency_key (event : RateLimitEvent) : result Key MonitorError :=
  let? m := ok_or (model_id event) Internal in
  Ok (KModel m (endpoint_type (api_endpoint event))).

(* src: ai-gateway/src/discover/monitor/rate_limit/provider.rs:146-151 create_key_for_endpoint *)
Definition create_provider_key (e : ApiEndpoint) : Key :=
  KProvider (ep_provider e) (endpoint_type e).

(** The key computation of the four [monitor] loops. *)
Definition create_key (kind : MonitorKind) (cfg : Config) (event : RateLimitEvent)
  : result Key MonitorError :=
  match kind with
  | MProviderLatency => Ok (create_provider_key (api_endpoint event))
  | MProviderWeighted => create_provider_weighted_key cfg (api_endpoint event)
  | MModelWeighted => create_model_weighted_key cfg event
  | MModelLatency => create_model_latency_key event
  end.

(** ** The loop of one task *)

Context (policy : FallbackPolicyConfig (Decimal := Decimal)).
Context (client_ok : InferenceProvider → bool).
(** Whether the balancer still receives changes. *)
Context (tx_open : bool).

(* src: ai-gateway/src/types/rate_limit.rs:47-54 ProviderRestore *)
Record ProviderRestore := mkRestore {
  r_key : Key;
  r_endpoint : ApiEndpoint;
  r_due : Instant
}.

(** The locals of [monitor]; the time stamps stored with the rate-limited keys
    are never read, so the map is a set. *)
Record RlState := mkRl {
  rate_limited : gset Key;
  pending : list ProviderRestore
}.
Definition rl_empty : RlState := mkRl ∅ [].

(** How a task ends before its channel is closed. *)
Inductive Exit := Failed (e : MonitorError) | ChannelSendFailed | Panicked.

(* src: ai-gateway/src/discover/monitor/rate_limit/provider.rs:315-373 ProviderMonitorInner<ProviderWeightedKey>::monitor *)
Definition on_event (kind : MonitorKind) (cfg : Config) (now : Instant) (event : RateLimitEvent)
    (s : RlState) : result RlState Exit * list effect :=
  if negb (should_remove policy RateLimit) then (Ok s, [])
  else
    match create_key kind cfg event with
    | Err e => (Err (Failed e), [])
    | Ok key =>
        if bool_decide (key ∈ rate_limited s) then (Ok s, [])
        else
          let sent := if tx_open then [SendRemove key] else [] in
          match restore_after policy (retry_after_seconds event) with
          | None => (Err Panicked, sent)
          | Some duration =>
              (Ok (mkRl ({[key]} ∪ rate_limited s)
                        (pending s ++ [mkRestore key (api_endpoint event) (now + duration)])), sent)
          end
    end.

(** The completion of the [i]-th pending timer. *)
(* src: ai-gateway/src/discover/monitor/rate_limit/provider.rs:373-414 ProviderMonitorInner<ProviderWeightedKey>::monitor *)
Definition on_restore (now : Instant) (i : nat) (s : RlState)
  : result RlState Exit * list effect :=
  match pending s !! i with
  | Some r =>
      if r_due r <=? now then
        match dispatcher_new client_ok (ep_provider (r_endpoint r)) with
        | Err e => (Err (Failed e), [])
        | Ok service =>
            if tx_open
            then (Ok (mkRl (rate_limited s ∖ {[r_key r]}) (delete i (pending s))),
                  [SendInsert (r_key r) service])
            else (Err ChannelSendFailed, [])
        end
      else (Ok s, [])
  | None => (Ok s, [])
  end.

Inductive input := Event (event : RateLimitEvent) | Timer (i : nat).

(** The body of the [select!], the same in the four loops. *)
(* src: ai-gateway/src/discover/monitor/rate_limit/provider.rs:153-262 ProviderMonitorInner<ProviderKey>::monitor *)
Definition handle (kind : MonitorKind) (cfg : Config) (now : Instant) (x : input) (s : RlState)
  : result RlState Exit * list effect :=
  match x with
  | Event event => on_event kind cfg now event s
  | Timer i => on_restore now i s
  end.

(** The loop over a sequence of inputs: the state it is left in, or why the
    task ended, and the changes sent to the balancer. *)
(* src: ai-gateway/src/discover/monitor/rate_limit/provider.rs:465-579 ProviderMonitorInner<ModelWeightedKey>::monitor *)
Fixpoint run_inputs (kind : MonitorKind) (cfg : Config) (l : list (Instant * input)) (s : RlState)
  : result RlState Exit * list effect :=
  match l with
  | [] => (Ok s, [])
  | (now, x) :: l' =>
      let '(r, es) := handle kind cfg now x s in
      match r with
      | Err e => (Err e, es)
      | Ok s1 => let '(r2, es2) := run_inputs kind cfg l' s1 in (r2, es ++ es2)
      end
  end.

(** ** The invariant of the loop *)

(** Every rate-limited key waits for exactly one timer. *)
Definition rl_inv (s : RlState) : Prop :=
  NoDup (r_key <$> pending s) ∧ rate_limited s = list_to_set (r_key <$> pending s).

Lemma rl_inv_empty : rl_inv rl_empty.
Proof. split; [constructor|done]. Qed.

Lemma on_event_cases kind cfg now ev s s' es :
  on_event kind cfg now ev s = (Ok s', es) →
  (s' = s ∧ es = []) ∨
  ∃ key d, create_key kind cfg ev = Ok key ∧ (key ∉ rate_limited s)
    ∧ restore_after policy (retry_after_seconds ev) = Some d
    ∧ es = (if tx_open then [SendRemove key] else [])
    ∧ s' = mkRl ({[key]} ∪ rate_limited s) (pending s ++ [mkRestore key (api_endpoint ev) (now + d)]).
Proof.
  unfold on_event. destruct (negb _); [intros [= <- <-]; by left|].
  destruct (create_key kind cfg ev) as [key|]; [|done].
  case_bool_decide; [intros [= <- <-]; by left|].
  destruct (restore_after _ _) as [d|]; [|done]. intros [= <- <-]. right. by exists key, d.
Qed.

Lemma on_restore_cases now i s s' es :
  on_restore now i s = (Ok s', es) →
  (s' = s ∧ es = []) ∨
  ∃ r svc, pending s !! i = Some r ∧ r_due r ≤ now ∧ tx_open = true
    ∧ dispatcher_new client_ok (ep_provider (r_endpoint r)) = Ok svc
    ∧ es = [SendInsert (r_key r) svc]
    ∧ s' = mkRl (rate_limited s ∖ {[r_key r]}) (delete i (pending s)).
Proof.
  unfold on_restore. destruct (pending s !! i) as [r|] eqn:Er; [|intros [= <- <-]; by left].
  destruct (Z.leb_spec (r_due r) now); [|intros [= <- <-]; by left].
  destruct (dispatcher_new _ _) as [svc|] eqn:Ed; [|done]. destruct tx_open; [|done].
  intros [= <- <-]. right. by exists r, svc.
Qed.

Lemma handle_inv kind cfg now x s s' es :
  rl_inv s → handle kind cfg now x s = (Ok s', es) → rl_inv s'.
Proof.
  intros [Hnd Hset]. destruct x as [ev|i]; simpl.
  - intros [[-> _]|(key & d & _ & Hk & _ & _ & ->)]%on_event_cases; [done|].
    unfold rl_inv. simpl. rw fmap_app /= list_to_set_app_L Hset. rw Hset elem_of_list_to_set in Hk.
    split; [|clear; set_solver]. apply NoDup_app. split_and!; [done| |apply NoDup_singleton].
    intros k Hin ->%list_elem_of_singleton. done.
  - intros [[-> _]|(r & svc & Hi & _ & _ & _ & _ & ->)]%on_restore_cases; [done|].
    unfold rl_inv. simpl. rw fmap_delete.
    assert (Hki : (r_key <$> pending s) !! i = Some (r_key r)) by (by rw list_lookup_fmap Hi).
    split; [by eapply sublist_NoDup, sublist_delete|].
    apply set_eq. intros k. rw Hset elem_of_difference elem_of_singleton !elem_of_list_to_set.
    by rw (elem_of_delete_NoDup _ _ _ _ Hnd Hki).
Qed.

Lemma run_inputs_inv kind cfg l : ∀ s s' es,
  rl_inv s → run_inputs kind cfg l s = (Ok s', es) → rl_inv s'.
Proof.
  induction l as [|[now x] l IH]; intros s s' es Hinv; simpl; [by intros [= <- <-]|].
  destruct (handle kind cfg now x s) as [[s1|] es1] eqn:Eh; [|done].
  destruct (run_inputs kind cfg l s1) as [r2 es2] eqn:El. intros [= -> <-].
  eapply IH; [|exact El]. by eapply handle_inv.
Qed.

(** ** The pool *)

Lemma handle_pool kind cfg now x s s' es pool (D : gset Key) :
  tx_open = true → rl_inv s → rate_limited s ⊆ D → dom pool = D ∖ rate_limited s →
  (∀ ev key, x = Event ev → create_key kind cfg ev = Ok key → key ∈ D) →
  handle kind cfg now x s = (Ok s', es) →
  rate_limited s' ⊆ D ∧ dom (apply_effects es pool) = D ∖ rate_limited s'.
Proof.
  intros Htx [Hnd Hset] Hsub Hdom Hkey. destruct x as [ev|i]; simpl.
  - intros [[-> ->]|(key & d & Hc & Hk & _ & -> & ->)]%on_event_cases; [done|].
    rw Htx /= dom_delete_L Hdom. specialize (Hkey ev key eq_refl Hc).
    clear -Hsub Hkey. set_solver.
  - intros [[-> ->]|(r & svc & Hi & _ & _ & _ & -> & ->)]%on_restore_cases; [done|].
    simpl. rw dom_insert_L Hdom.
    assert (Hin : r_key r ∈ rate_limited s).
    { rw Hset elem_of_list_to_set list_elem_of_fmap. exists r. split; [done|].
      by eapply list_elem_of_lookup_2. }
    split; [clear -Hsub; set_solver|]. apply set_eq. intros k.
    rw elem_of_union !elem_of_difference elem_of_singleton.
    destruct (decide (k = r_key r)) as [->|]; [|tauto]. specialize (Hsub _ Hin). tauto.
Qed.

Lemma run_inputs_pool kind cfg l : ∀ s s' es pool (D : gset Key),
  tx_open = true → rl_inv s → rate_limited s ⊆ D → dom pool = D ∖ rate_limited s →
  (∀ now ev key, (now, Event ev) ∈ l → create_key kind cfg ev = Ok key → key ∈ D) →
  run_inputs kind cfg l s = (Ok s', es) →
  dom (apply_effects es pool) = D ∖ rate_limited s'.
Proof.
  induction l as [|[now x] l IH]; intros s s' es pool D Htx Hinv Hsub Hdom Hkey; simpl.
  { by intros [= <- <-]. }
  destruct (handle kind cfg now x s) as [[s1|] es1] eqn:Eh; [|done].
  destruct (run_inputs kind cfg l s1) as [r2 es2] eqn:El. intros [= -> <-].
  destruct (handle_pool kind cfg now x s s1 es1 pool D) as [Hsub1 Hdom1]; [done..| |done|].
  { intros ev key -> Hc. eapply Hkey; [by left|exact Hc]. }
  rw apply_effects_app. eapply IH; [done|by eapply handle_inv|done|done| |exact El].
  intros now' ev key Hin. eapply Hkey. by right.
Qed.

(** A waiting restore survives every input that comes before it is due, and
    nothing puts its key back meanwhile. *)
Lemma handle_keeps kind cfg now x s s' es r :
  rl_inv s → r ∈ pending s → now < r_due r → handle kind cfg now x s = (Ok s', es) →
  r ∈ pending s' ∧ ∀ svc, SendInsert (r_key r) svc ∉ es.
Proof.
  intros [Hnd Hset] Hr Hdue. destruct x as [ev|i]; simpl.
  - intros [[-> ->]|(key & d & _ & _ & _ & -> & ->)]%on_event_cases.
    { split; [done|]. intros svc. apply not_elem_of_nil. }
    split; [apply elem_of_app; by left|]. intros svc.
    destruct tx_open; [|apply not_elem_of_nil]. by intros ?%list_elem_of_singleton.
  - intros [[-> ->]|(r' & svc & Hi & Hd & _ & _ & -> & ->)]%on_restore_cases.
    { split; [done|]. intros svc. apply not_elem_of_nil. }
    assert (Hne : r_key r ≠ r_key r').
    { intros He. apply list_elem_of_lookup in Hr as [j Hj].
      assert (j = i) as ->; [|simplify_eq; lia].
      eapply (NoDup_lookup (r_key <$> pending s)); [done|..]; rw list_lookup_fmap ?Hj ?Hi //=.
      by rw He. }
    split.
    + simpl. apply (elem_of_delete_NoDup _ _ r'); [by eapply NoDup_fmap_1|done|].
      split; [done|]. by intros ->.
    + intros svc'. rw list_elem_of_singleton. by intros [= ? _].
Qed.

Lemma run_inputs_keeps kind cfg l : ∀ s s' es r,
  rl_inv s → r ∈ pending s → (∀ now x, (now, x) ∈ l → now < r_due r) →
  run_inputs kind cfg l s = (Ok s', es) →
  r ∈ pending s' ∧ ∀ svc, SendInsert (r_key r) svc ∉ es.
Proof.
  induction l as [|[now x] l IH]; intros s s' es r Hinv Hr Hdue; simpl.
  { intros [= <- <-]. split; [done|]. intros svc. apply not_elem_of_nil. }
  destruct (handle kind cfg now x s) as [[s1|] es1] eqn:Eh; [|done].
  destruct (run_inputs kind cfg l s1) as [r2 es2] eqn:El. intros [= -> <-].
  destruct (handle_keeps _ _ _ _ _ _ _ r Hinv Hr ltac:(eapply Hdue; by left) Eh) as [Hr1 Hno1].
  destruct (IH s1 s' es2 r) as [Hr2 Hno2]; [by eapply handle_inv|done| |done|].
  { intros now' x' Hin. eapply Hdue. by right. }
  split; [done|]. intros svc. rw elem_of_app. intros [?|?]; [by eapply Hno1|by eapply Hno2].
Qed.

Lemma apply_effects_absent k (es : list effect) : ∀ pool,
  k ∉ dom pool → (∀ svc, SendInsert k svc ∉ es) → k ∉ dom (apply_effects es pool).
Proof.
  induction es as [|e es IH]; intros pool Hk Hno; simpl; [done|]. apply IH.
  - destruct e as [k'|k' svc| |]; simpl; [rw dom_delete_L|rw dom_insert_L|done..].
    + clear -Hk. set_solver.
    + rw elem_of_union elem_of_singleton. intros [->|?]; [|done]. eapply Hno. by left.
  - intros svc Hin. eapply Hno. by right.
Qed.

(** ** Supervision *)

(** What [run_forever] does with a joined task: only a clean end lets it go on. *)
(* src: ai-gateway/src/discover/monitor/rate_limit/provider.rs:728-749 RateLimitMonitor::run_forever *)
Definition run_forever_returns (joined : result unit Exit) : option Exit :=
  match joined with
  | Ok _ => None
  | Err e => Some e
  end.

(** The services of the process in the order they stop; the first one to stop,
    in whatever way, makes [run_app] stop all others. *)
(* src: ai-gateway/src/main.rs:147-158 run_app *)
Fixpoint run_app (stopped : list (string * result unit Exit)) (shutting_down : bool) : bool :=
  match stopped with
  | [] => shutting_down
  | (_, _) :: rest => run_app rest (if negb shutting_down then true else shutting_down)
  end.

(** [RateLimitMonitor::run]: the error is logged, the service stops. *)
(* src: ai-gateway/src/discover/monitor/rate_limit/provider.rs:783-804 RateLimitMonitor::run *)
Definition service_stops (returned : option Exit) : list (string * result unit Exit) :=
  match returned with
  | Some _ => [("provider-rate-limit-monitor", Ok tt)]
  | None => []
  end.

(** C16 (invariant). While the channel to the pool is open and every event
    whose key can be computed is about a key of the initial pool, a task that
    has handled any sequence of such rate-limit events and of timer completions
    without failing has exactly one timer for every rate-limited key, and the
    pool is the initial pool without the rate-limited keys: no provider is lost,
    and once no timer is pending the pool has all its initial keys again.  (An
    event for a key outside the pool would bring that key in when its timer
    ends; a closed channel is only logged.) *)
Theorem rate_limited_keys_return kind cfg l s es (pool : gmap Key DispatcherService) :
  tx_open = true →
  (∀ now ev key, (now, Event ev) ∈ l → create_key kind cfg ev = Ok key → key ∈ dom pool) →
  run_inputs kind cfg l rl_empty = (Ok s, es) →
  NoDup (r_key <$> pending s)
  ∧ rate_limited s = list_to_set (r_key <$> pending s)
  ∧ dom (apply_effects es pool) = dom pool ∖ rate_limited s
  ∧ (pending s = [] → dom (apply_effects es pool) = dom pool).
Proof.
  intros Htx Hkeys Hrun. destruct (run_inputs_inv _ _ _ _ _ _ rl_inv_empty Hrun) as [Hnd Hset].
  assert (Hdom : dom (apply_effects es pool) = dom pool ∖ rate_limited s).
  { eapply run_inputs_pool; [done|apply rl_inv_empty| | |done|exact Hrun]; simpl; clear; set_solver. }
  split_and!; [done..|]. intros Hp. rw Hdom Hset Hp. clear. set_solver.
Qed.

(** A provider that answered 429 gets no traffic before its time:
    when the event removes a key, then whatever the task handles before the
    announced time plus buffer has passed, further 429s of the same provider
    included, the key stays out of the pool; and its timer is still pending, so
    that its completion at any later time puts the key back, with a dispatcher
    for the endpoint's provider. *)
Theorem rate_limited_provider_stays_out kind cfg l0 s es0 now ev s1 k d l s2 es pool :
  tx_open = true →
  run_inputs kind cfg l0 rl_empty = (Ok s, es0) →
  on_event kind cfg now ev s = (Ok s1, [SendRemove k]) →
  restore_after policy (retry_after_seconds ev) = Some d →
  (∀ t x, (t, x) ∈ l → t < now + d) →
  run_inputs kind cfg l s1 = (Ok s2, es) →
  (k ∉ dom (apply_effects (SendRemove k :: es) pool))
  ∧ ∃ i, ∀ t svc, now + d ≤ t → dispatcher_new client_ok (ep_provider (api_endpoint ev)) = Ok svc →
      ∃ s3, on_restore t i s2 = (Ok s3, [SendInsert k svc]) ∧ (k ∉ rate_limited s3).
Proof.
  intros Htx Hrun0 Hev Hd Hearly Hrun. pose proof (run_inputs_inv _ _ _ _ _ _ rl_inv_empty Hrun0) as Hinv.
  pose proof (handle_inv kind cfg now (Event ev) _ _ _ Hinv Hev) as Hinv1.
  destruct (on_event_cases _ _ _ _ _ _ _ Hev) as [[_ ?]|(key & d' & _ & Hk & Hd' & He & ->)]; [done|].
  rw Htx in He. simplify_eq/=.
  set (r := mkRestore key (api_endpoint ev) (now + d)) in *.
  destruct (run_inputs_keeps kind cfg l _ s2 es r Hinv1) as [Hr Hno]; [|done|exact Hrun|].
  { simpl. apply elem_of_app. right. by apply list_elem_of_singleton. }
  split.
  - simpl. apply apply_effects_absent; [|done]. simpl. rw dom_delete_L. clear. set_solver.
  - apply list_elem_of_lookup in Hr as [i Hi]. exists i. intros t svc Ht Hs.
    eexists. unfold on_restore. rw Hi. simpl. rw (proj2 (Z.leb_le _ _) Ht) Hs Htx.
    split; [done|]. simpl. clear. set_solver.
Qed.

(** The first 429 of a model strategy ends its task. *)
Lemma event_without_model kind cfg now ev s :
  kind = MModelWeighted ∨ kind = MModelLatency → model_id ev = None →
  should_remove policy RateLimit = true →
  on_event kind cfg now ev s = (Err (Failed Internal), []).
Proof.
  intros Hkind Hm Hr. unfold on_event. rw Hr /=.
  by destruct Hkind as [-> | ->]; simpl; unfold create_model_weighted_key, create_model_latency_key; rw Hm.
Qed.

(** One rate-limited response stops the gateway when a router
    balances over models: the event a dispatcher sends for an upstream 429
    never carries a model, so the key of the entry cannot be computed, the
    router's rate-limit task ends with an internal error, the monitor service
    stops with it and the process shuts down.  This holds in every state of the
    task, for both model strategies, with rate-limit failover enabled. *)
Theorem rate_limited_model_router_stops_the_gateway kind cfg now s parse_date clock header e ev :
  kind = MModelWeighted ∨ kind = MModelLatency →
  should_remove policy RateLimit = true →
  rate_limit_event parse_date clock 429 header (Some e) = Some ev →
  on_event kind cfg now ev s = (Err (Failed Internal), [])
  ∧ run_app (service_stops (run_forever_returns (Err (Failed Internal)))) false = true.
Proof.
  intros Hkind Hr Hev. split; [|done]. apply event_without_model; [done| |done].
  unfold rate_limit_event in Hev. simpl in Hev. by simplify_eq.
Qed.

(** A [Retry-After] of the largest 64-bit number of seconds makes
    the monitor panic: for the strategies over providers, a 429 with that header
    for a key that is not yet rate-limited ends the task, since the buffer,
    if at least one second, cannot be added to the wait; the panic stops the
    gateway as well. *)
Theorem largest_retry_after_panics kind cfg now s parse_date clock e ev key :
  should_remove policy RateLimit = true →
  from_secs 1 ≤ restore_buffer (rate_limit (provider_failover policy)) →
  rate_limit_event parse_date clock 429 (Some "18446744073709551615") (Some e) = Some ev →
  create_key kind cfg ev = Ok key → (key ∉ rate_limited s) →
  (on_event kind cfg now ev s).1 = Err Panicked
  ∧ run_app (service_stops (run_forever_returns (Err Panicked))) false = true.
Proof.
  intros Hr Hb Hev Hk Hn. split; [|done]. unfold on_event. rw Hr /= Hk.
  rw (bool_decide_eq_false_2 _ Hn).
  assert (Hs : retry_after_seconds ev = Some u64_max).
  { unfold rate_limit_event in Hev. simpl in Hev. injection Hev as <-. vm_compute. done. }
  rw Hs. unfold restore_after, duration_add, default, duration_max, id.
  destruct (Z.leb_spec (from_secs u64_max + restore_buffer (rate_limit (provider_failover policy)))
              (from_secs u64_max + 999999999)) as [Hle|]; [|done].
  unfold from_secs in Hb. lia.
Qed.
End rate_limit.

(** ** Two monitors on one pool *)

Section interplay.
Context {Date : Type} `{Countable Date} {Decimal : Type} (to_weight : Decimal → option Z).
Context (date_format : Date → string → string) (client_ok : InferenceProvider → bool).
Context (params : HealthMonitorParams) (broadcaster : bool).

Abbreviation verdict m := (check_health params m).

(** A health pass whose marks already agree with the verdicts changes nothing. *)
Lemma quiet_target metrics t u pool h :
  verdict metrics (t_provider t) = Ok h → (t_key t ∈ u ↔ h = false) →
  ∃ es, run_target (Date := Date) client_ok params metrics broadcaster t u = (Ok tt, u, es)
    ∧ apply_effects es pool = pool.
Proof.
  intros Hh Hk. unfold run_target, check_target. rw Hh.
  destruct h; [rw bool_decide_eq_false_2|rw bool_decide_eq_true_2]; simpl; try naive_solver;
    eexists; split; done.
Qed.

Lemma quiet_pass metrics ts u pool :
  (∀ t, t ∈ ts → ∃ h, verdict metrics (t_provider t) = Ok h ∧ (t_key t ∈ u ↔ h = false)) →
  ∃ es, run_each (run_target (Date := Date) client_ok params metrics broadcaster) ts u = (Ok tt, u, es)
    ∧ apply_effects es pool = pool.
Proof.
  induction ts as [|t ts IH]; intros Hts; simpl; [by exists []|].
  destruct (Hts t ltac:(by left)) as (h & Hh & Hk).
  destruct (quiet_target _ _ _ pool _ Hh Hk) as (es & -> & Hes).
  destruct IH as (es2 & -> & Hes2); [intros; apply Hts; by right|].
  exists (es ++ es2). split; [done|]. by rw apply_effects_app Hes.
Qed.

Lemma quiet_passes kind cfg ts metrics u pool obs :
  targets to_weight kind cfg = Some ts → u = keys_with_health params metrics false ts →
  (∀ t, t ∈ ts → is_ok (verdict metrics (t_provider t)) = true) →
  (∀ m p, m ∈ obs → verdict m p = verdict metrics p) →
  run_forever (Decimal := Decimal) to_weight date_format client_ok params broadcaster kind cfg obs u pool
    = Some (u, pool).
Proof.
  intros Hts Hu Hok Hobs. induction obs as [|m obs IH]; simpl; [done|].
  rw (check_monitor_targets _ _ _ _ _ _ _ _ _ Hts).
  destruct (quiet_pass m ts u pool) as (es & -> & Hes).
  - intros t Ht. rw (Hobs m (t_provider t)); [|by left]. specialize (Hok t Ht).
    destruct (verdict metrics (t_provider t)) as [h|] eqn:Eh; [|done]. exists h. split; [done|].
    pose proof (targets_wf _ _ _ _ Hts) as Hwf.
    rw Hu elem_of_keys_with_health //. destruct (Hwf t Ht) as (_ & Ho & _). split.
    + intros (_ & p & Hp & Hf). congruence.
    + intros ->. split; [apply elem_of_keys; by exists t|]. by exists (t_provider t).
  - simpl. rw Hes. apply IH. intros m' p Hm. apply Hobs. by right.
Qed.

(** The rate-limit monitor puts unhealthy providers back: both
    monitors feed the same balancer without knowing of each other.  If a key is
    rate-limited and its provider is then found unhealthy, the key is marked by
    the health monitor; when the rate-limit timer completes, the key is
    inserted into the pool nevertheless, and every further health pass that
    still finds the provider unhealthy leaves it there, because the key is
    already marked. *)
Theorem rate_limit_restore_readmits_unhealthy kind cfg ts metrics u s i r now s' svc pool obs :
  targets to_weight kind cfg = Some ts →
  (∀ t, t ∈ ts → is_ok (verdict metrics (t_provider t)) = true) →
  u = keys_with_health params metrics false ts →
  pending s !! i = Some r → r_key r ∈ u →
  on_restore client_ok true now i s = (Ok s', [SendInsert (r_key r) svc]) →
  (∀ m p, m ∈ obs → verdict m p = verdict metrics p) →
  run_forever (Decimal := Decimal) to_weight date_format client_ok params broadcaster kind cfg obs u
      (apply_effects [SendInsert (r_key r) svc] pool)
    = Some (u, <[r_key r := svc]> pool)
  ∧ r_key r ∈ dom (<[r_key r := svc]> pool) ∧ r_key r ∈ keys_with_health params metrics false ts.
Proof.
  intros Hts Hok Hu Hi Hr Hrestore Hobs. split_and!.
  - by eapply quiet_passes.
  - rw dom_insert_L. clear. set_solver.
  - by rw -Hu.
Qed.
End interplay.

(** ** A router over two providers *)

Definition rl_cfg : BalanceConfig (Date := string) (Decimal := Z) := [(Chat, BalancedLatency [OpenAI; Anthropic])].
Definition rl_pool : gmap (Key (Date := string)) (DispatcherService (Date := string)) :=
  {[KProvider OpenAI Chat := mkService OpenAI None; KProvider Anthropic Chat := mkService Anthropic None]}.
(** Anthropic answers 429 and asks for seven seconds. *)
Definition rl_event : RateLimitEvent (Date := string) := event_new EAnthropicMessages (Some 7).

Abbreviation sample_inputs := (run_inputs (Date := string) sample_weight default_policy (λ _, true) true
                                 MProviderLatency rl_cfg).
Definition two_429s_and_restore : list (Instant * input (Date := string)) :=
  [(0, Event rl_event); (from_secs 20, Event rl_event); (from_secs 37, Timer 0)].

Lemma rate_limited_keys_return_witness :
  let es := (sample_inputs two_429s_and_restore rl_empty).2 in
  es = [SendRemove (KProvider Anthropic Chat);
        SendInsert (KProvider Anthropic Chat) (mkService Anthropic None)]
  ∧ dom (apply_effects es rl_pool) = dom rl_pool.
Proof.
  assert (Hp : match (sample_inputs two_429s_and_restore rl_empty).1 with
               | Ok s => pending s = [] | Err _ => False end) by (vm_compute; reflexivity).
  split; [vm_compute; reflexivity|].
  destruct (sample_inputs two_429s_and_restore rl_empty) as [[s|] es] eqn:E; [|destruct Hp].
  apply (rate_limited_keys_return sample_weight default_policy (λ _, true) true MProviderLatency rl_cfg
           two_429s_and_restore s es rl_pool eq_refl); [|exact E|exact Hp].
  intros now ev key Hin. unfold two_429s_and_restore in Hin. rw !elem_of_cons elem_of_nil in Hin.
  destruct Hin as [[= _ ->]|[[= _ ->]|[?|[]]]]; [..|done]; intros [= <-];
    apply elem_of_dom; eexists; reflexivity.
Defined.

Lemma rate_limited_provider_stays_out_witness :
  let es := (sample_inputs [(from_secs 36, Event rl_event)]
               (mkRl {[KProvider Anthropic Chat]} [mkRestore (KProvider Anthropic Chat) EAnthropicMessages (0 + from_secs 37)])).2 in
  ¬ (KProvider Anthropic Chat ∈ dom (apply_effects (SendRemove (KProvider Anthropic Chat) :: es) rl_pool)).
Proof.
  set (s1 := mkRl {[KProvider Anthropic Chat]}
               [mkRestore (KProvider Anthropic Chat) EAnthropicMessages (0 + from_secs 37)]).
  assert (Hok : is_ok (sample_inputs [(from_secs 36, Event rl_event)] s1).1 = true) by (vm_compute; reflexivity).
  destruct (sample_inputs [(from_secs 36, Event rl_event)] s1) as [[s2|] es] eqn:E; [|discriminate Hok].
  apply (rate_limited_provider_stays_out sample_weight default_policy (λ _, true) true MProviderLatency rl_cfg
           [] rl_empty [] 0 rl_event s1 (KProvider Anthropic Chat) (from_secs 37)
           [(from_secs 36, Event rl_event)] s2 es rl_pool eq_refl eq_refl); [|reflexivity| |exact E].
  - unfold on_event, s1. simpl. rw bool_decide_eq_false_2; [|apply not_elem_of_empty].
    simpl. rw right_id_L. reflexivity.
  - intros t x Hin. rw !elem_of_cons elem_of_nil in Hin. destruct Hin as [[= -> _]|[]].
    vm_compute. reflexivity.
Defined.

Lemma rate_limited_model_router_stops_the_gateway_witness :
  on_event sample_weight default_policy true MModelWeighted sample_cfg 0
    (event_new EAnthropicMessages (Some 7)) rl_empty = (Err (Failed Internal), []).
Proof.
  apply (proj1 (rate_limited_model_router_stops_the_gateway sample_weight default_policy true
    MModelWeighted sample_cfg 0 rl_empty (λ _, None) 0 (Some "7") EAnthropicMessages _
    (or_introl eq_refl) eq_refl eq_refl)).
Defined.

Lemma largest_retry_after_panics_witness :
  (on_event sample_weight default_policy true MProviderLatency rl_cfg 0
    (event_new EAnthropicMessages (Some u64_max)) rl_empty).1 = Err Panicked.
Proof.
  apply (proj1 (largest_retry_after_panics sample_weight default_policy true MProviderLatency rl_cfg
    0 rl_empty (λ _, None) 0 EAnthropicMessages _ (KProvider Anthropic Chat) eq_refl
    ltac:(vm_compute; discriminate) eq_refl eq_refl (not_elem_of_empty _))).
Defined.

(** Anthropic fails while it is rate-limited. *)
Definition rl_targets : list (target (Date := string)) :=
  (λ p, mkTarget p (KProvider p Chat) [KProvider p Chat]) <$> [OpenAI; Anthropic].
Definition rl_waiting : RlState (Date := string) :=
  mkRl {[KProvider Anthropic Chat]} [mkRestore (KProvider Anthropic Chat) EAnthropicMessages (from_secs 37)].

Lemma rate_limit_restore_readmits_unhealthy_witness :
  KProvider Anthropic Chat ∈ keys_with_health sample_params failing false rl_targets
  ∧ run_forever sample_weight sample_format (λ _, true) sample_params false MProviderLatency rl_cfg
      [failing; failing] (keys_with_health sample_params failing false rl_targets)
      (apply_effects [SendInsert (KProvider Anthropic Chat) (mkService Anthropic None)] ∅)
    = Some (keys_with_health sample_params failing false rl_targets,
            <[KProvider Anthropic Chat := mkService Anthropic None]> ∅).
Proof.
  assert (Hin : KProvider Anthropic Chat ∈ keys_with_health sample_params failing false rl_targets).
  { apply elem_of_list_to_set. vm_compute. by left. }
  split; [exact Hin|].
  apply (proj1 (rate_limit_restore_readmits_unhealthy sample_weight sample_format (λ _, true) sample_params
    false MProviderLatency rl_cfg rl_targets failing _ rl_waiting 0
    (mkRestore (KProvider Anthropic Chat) EAnthropicMessages (from_secs 37)) (from_secs 40) _
    (mkService Anthropic None) ∅ [failing; failing] eq_refl
    ltac:(intros t Ht; unfold rl_targets in Ht; rw !fmap_cons fmap_nil in Ht;
          rw !elem_of_cons elem_of_nil in Ht; destruct Ht as [-> |[-> |[]]]; vm_compute; reflexivity)
    eq_refl eq_refl Hin eq_refl
    ltac:(intros m p Hm; rw !elem_of_cons elem_of_nil in Hm; destruct Hm as [-> |[-> |[]]]; reflexivity))).
Defined.
