(* ===== verification/UpstreamOutcome.v ===== *)
(** * Business failures in successful upstream responses

    Models [ai-gateway/src/dispatcher/upstream_outcome.rs]: an upstream that
    answers 200 with a JSON body that describes a failure is turned into an
    error response with a fixed message and a filtered code.  The JSON reader
    and the conversion of a JSON number to a float belong to [serde_json] and
    are parameters. *)

From S2P Require Import Prelude RustStr Json.
From Stdlib Require Import Ascii.
Local Open Scope string_scope.

(* src: ai-gateway/src/dispatcher/upstream_outcome.rs:7-7 MAX_PROBE_BYTES *)
Definition MAX_PROBE_BYTES : Z := 64 * 1024.

(* src: ai-gateway/src/dispatcher/upstream_outcome.rs:9-16 BusinessFailureKind *)
Inductive BusinessFailureKind := InvalidRequest | ContentPolicy | RateLimited | ModelUnavailable | Service.

(* src: ai-gateway/src/dispatcher/upstream_outcome.rs:18-22 BusinessFailure *)
Record BusinessFailure := mkFailure { kind : BusinessFailureKind; code : string }.

(* src: ai-gateway/src/dispatcher/upstream_outcome.rs:25-34 BusinessFailure::status *)
Definition status (f : BusinessFailure) : Z :=
  match kind f with
  | InvalidRequest | ContentPolicy => 400
  | RateLimited => 429
  | ModelUnavailable => 404
  | Service => 502
  end.

Definition public_message (k : BusinessFailureKind) : string :=
  match k with
  | InvalidRequest => "The upstream service rejected the request parameters."
  | ContentPolicy => "The upstream service rejected the request under its content policy."
  | RateLimited => "The upstream service is rate limited. Retry later."
  | ModelUnavailable => "The requested upstream model is unavailable."
  | Service => "The upstream service reported a business failure."
  end.

(* src: ai-gateway/src/dispatcher/upstream_outcome.rs:36-51 BusinessFailure::public_body *)
Definition public_body (f : BusinessFailure) : Value :=
  Object [("error", Object [("code", Str (code f)); ("type", Str "upstream_error");
                            ("message", Str (public_message (kind f)))])].

Section classify.
(** [serde_json::from_slice] and [number.as_f64() != Some(0.0)]. *)
Context (from_slice : string → option Value) (nonzero : string → bool).

(** Whether a value in an error field says anything. *)
(* src: ai-gateway/src/dispatcher/upstream_outcome.rs:62-69 classify_business_failure *)
Definition informative (v : Value) : bool :=
  match v with
  | Null | Bool false => false
  | Str text => negb (is_empty (trim text))
  | Object fields => match fields with [] => false | _ => true end
  | Array items => match items with [] => false | _ => true end
  | Number number => nonzero number
  | Bool true => true
  end.

(** [value.pointer("/error")] and so on, for the paths of the source. *)
Definition error_paths (value : Value) : list (option Value) :=
  [get "error" value;
   match get "data" value with Some d => get "error" d | None => None end;
   match get "result" value with Some r => get "error" r | None => None end].

(* src: ai-gateway/src/dispatcher/upstream_outcome.rs:59-69 classify_business_failure *)
Definition find_error (value : Value) : option Value :=
  snd <$> list_find (λ v, informative v = true) (omap id (error_paths value)).

(* src: ai-gateway/src/dispatcher/upstream_outcome.rs:70-78 classify_business_failure *)
Definition status_failed (value : Value) : bool :=
  match get "status" value with
  | Some (Str s) =>
      let l := to_ascii_lowercase s in
      String.eqb l "error" || String.eqb l "failed" || String.eqb l "failure" || String.eqb l "rejected"
  | _ => false
  end.

Definition success_is_false (value : Value) : bool :=
  match get "success" value with Some (Bool false) => true | _ => false end.

(** [error.and_then(|e| e.get(field)).and_then(Value::as_str)]. *)
Definition error_str (error : option Value) (field : string) : option string :=
  match error with
  | Some e => match get field e with Some v => as_str v | None => None end
  | None => None
  end.

Definition any_contained (words : list string) (signal : string) : bool :=
  existsb (λ w, contains w signal) words.

(* src: ai-gateway/src/dispatcher/upstream_outcome.rs:96-131 classify_business_failure *)
Definition kind_of_signal (signal : string) : BusinessFailureKind :=
  if any_contained ["rate_limit"; "rate limit"; "too many requests"; "quota_exceeded"] signal then RateLimited
  else if any_contained ["content_policy"; "content_filter"; "safety"] signal then ContentPolicy
  else if any_contained ["invalid_request"; "invalid_argument"; "bad_request"; "invalid parameter"] signal
  then InvalidRequest
  else if any_contained ["model_not_found"; "model_not_available"; "model_unavailable"] signal
  then ModelUnavailable
  else Service.

Definition is_safe_byte (c : ascii) : bool :=
  is_ascii_alphanumeric c || Ascii.eqb c "_" || Ascii.eqb c "-" || Ascii.eqb c ".".

(* src: ai-gateway/src/dispatcher/upstream_outcome.rs:134-139 classify_business_failure *)
Definition is_safe_code (text : string) : bool :=
  negb (is_empty text) && (Z.of_nat (len text) <=? 128)%Z && str_all is_safe_byte text.

(* src: ai-gateway/src/dispatcher/upstream_outcome.rs:54-146 classify_business_failure *)
Definition classify_business_failure (body : string) : option BusinessFailure :=
  if (MAX_PROBE_BYTES <? Z.of_nat (len body))%Z then None
  else
    match from_slice body with
    | None => None
    | Some value =>
        match as_object value with
        | None => None
        | Some _ =>
            let error := find_error value in
            if negb (bool_decide (is_Some error)) && negb (success_is_false value) && negb (status_failed value)
            then None
            else
              let code :=
                match match error with Some e => get "code" e | None => None end with
                | Some c => Some c
                | None => get "code" value
                end in
              let signal := to_ascii_lowercase (str_join " " (omap id
                [match code with Some c => as_str c | None => None end;
                 error_str error "type";
                 error_str error "message";
                 match error with Some e => as_str e | None => None end])) in
              let safe_code :=
                match code with
                | Some (Str text) => if is_safe_code text then text else "upstream_business_error"
                | _ => "upstream_business_error"
                end in
              Some (mkFailure (kind_of_signal signal) safe_code)
        end
    end.

(** ** What is recognised as a failure *)

(** A failure is announced by an informative error value at one of the three
    places, an explicit [success: false], or a failed status. *)
Definition announces_failure (value : Value) : Prop :=
  (∃ e, Some e ∈ error_paths value ∧ informative e = true)
  ∨ get "success" value = Some (Bool false)
  ∨ (∃ s, get "status" value = Some (Str s)
       ∧ to_ascii_lowercase s ∈ ["error"; "failed"; "failure"; "rejected"]).

Lemma find_error_Some value : is_Some (find_error value) ↔ ∃ e, Some e ∈ error_paths value ∧ informative e = true.
Proof.
  unfold find_error. rw fmap_is_Some. split.
  - intros [[i e] (Hi & Hinf & _)%list_find_Some]. exists e. split; [|done].
    apply list_elem_of_lookup_2, list_elem_of_omap in Hi as (x & Hx & Hid). unfold id in Hid. by subst.
  - intros (e & He & Hinf). eapply list_find_elem_of; [|exact Hinf].
    apply list_elem_of_omap. by exists (Some e).
Qed.

Lemma success_is_false_spec value : success_is_false value = true ↔ get "success" value = Some (Bool false).
Proof. unfold success_is_false. destruct (get "success" value) as [[|[]| | | |]|]; naive_solver. Qed.

Lemma status_failed_spec value :
  status_failed value = true ↔ ∃ s, get "status" value = Some (Str s)
    ∧ to_ascii_lowercase s ∈ ["error"; "failed"; "failure"; "rejected"].
Proof.
  unfold status_failed. destruct (get "status" value) as [[| | |s| |]|]; try naive_solver.
  rw !orb_true_iff !String.eqb_eq. split.
  - intros Hs. exists s. split; [done|]. rw !elem_of_cons. tauto.
  - intros (s' & [= ->] & Hs). rw !elem_of_cons elem_of_nil in Hs. tauto.
Qed.

(** A successful upstream response is treated as a failure
    exactly when it is a JSON object of at most 64 KiB that announces one: empty
    error values ([null], [false], a zero, blank text, an empty object or
    array), other bodies and larger ones never are. *)
Theorem business_failure_iff_announced body :
  is_Some (classify_business_failure body)
  ↔ (Z.of_nat (len body) ≤ MAX_PROBE_BYTES)%Z
    ∧ ∃ fields, from_slice body = Some (Object fields) ∧ announces_failure (Object fields).
Proof.
  unfold classify_business_failure. destruct (Z.ltb_spec MAX_PROBE_BYTES (Z.of_nat (len body))) as [Hl|Hl].
  { split; [by intros []|]. intros [? _]. lia. }
  destruct (from_slice body) as [value|]; [|split; [by intros []|naive_solver]].
  destruct (as_object value) as [fields|] eqn:Eo; last first.
  { split; [by intros []|]. intros (_ & f & [= ->] & _). done. }
  destruct value; simplify_eq/=. set (value := Object fields).
  transitivity (announces_failure value).
  - unfold announces_failure. rw -find_error_Some -success_is_false_spec -status_failed_spec.
    case_bool_decide; destruct (success_is_false value), (status_failed value); simpl;
      (split; [naive_solver|]); first [intros _; by eexists | intros [?|[?|?]]; done].
  - split; [|naive_solver]. intros Ha. split; [done|]. by exists fields.
Qed.

(** Nothing of the upstream's text reaches the client but a
    filtered code: whatever the body, the public response of a failure is one
    of five fixed messages with its fixed status, and its code is a non-empty
    text of at most 128 letters, digits, underscores, hyphens and dots. *)
Theorem failure_leaks_only_safe_code body f :
  classify_business_failure body = Some f →
  is_safe_code (code f) = true
  ∧ (status f, public_body f) ∈
      (λ km : Z * string, (km.1, Object [("error", Object [("code", Str (code f)); ("type", Str "upstream_error");
                                                  ("message", Str km.2)])])) <$>
      [(400%Z, "The upstream service rejected the request parameters.");
       (400%Z, "The upstream service rejected the request under its content policy.");
       (429%Z, "The upstream service is rate limited. Retry later.");
       (404%Z, "The requested upstream model is unavailable.");
       (502%Z, "The upstream service reported a business failure.")].
Proof.
  intros Hf. split.
  - revert Hf. unfold classify_business_failure. case_match; [done|].
    destruct (from_slice body) as [value|]; [|done]. destruct (as_object value); [|done].
    case_match; [done|]. intros [= <-]. simpl.
    destruct (match match find_error value with Some e => get "code" e | None => None end with
              | Some c => Some c | None => get "code" value end) as [[| | |text| |]|]; try done.
    by destruct (is_safe_code text) eqn:E.
  - clear Hf. destruct f as [[] c]; unfold status, public_body; simpl; rw !elem_of_cons; tauto.
Qed.
End classify.

(** A reader for one body. *)
Definition sample_reader (body : string) : option Value :=
  if String.eqb body "1" then
    Some (Object [("success", Bool false); ("error", Object [("code", Str "rate_limit_exceeded");
                                                             ("message", Str "private-value")])])
  else None.

Lemma failure_leaks_only_safe_code_witness :
  classify_business_failure sample_reader (λ _, true) "1" = Some (mkFailure RateLimited "rate_limit_exceeded")
  ∧ is_safe_code "rate_limit_exceeded" = true.
Proof.
  split; [vm_compute; reflexivity|].
  exact (proj1 (failure_leaks_only_safe_code sample_reader (λ _, true) "1"
    (mkFailure RateLimited "rate_limit_exceeded") ltac:(vm_compute; reflexivity))).
Defined.
