(* ===== verification/KvCache.v ===== *)
(** * Response cache

    Models the crate [crates/alephant-llm-kv-cache] and the slot keys of
    [ai-gateway/src/dispatcher/cache_coordinator.rs]: the request headers that
    control the cache, the keys of a request's bucket, and the reading and
    filling of the bucket.

    The back ends (Cloudflare KV, TiKV) are remote stores: [LlmKvBackend] is
    their trait as a class over the store's state, [HealthyBackend] what such a
    store does when it answers and no entry expires.  The hash, the JSON reader
    and writer are parameters.  Header values are visible ASCII, so [\d] of the
    regular expressions is an ASCII digit. *)

From S2P Require Import Prelude RustStr Json.
From Stdlib Require Import Ascii.
Local Open Scope string_scope.

(** ** Cache settings *)

(* src: crates/alephant-llm-kv-cache/src/settings.rs:3-10 CacheSettings *)
Record CacheSettings := mkSettings {
  should_read : bool;
  should_write : bool;
  cache_control_value : string;
  bucket_size : Z;
  cache_seed : option string
}.

Definition MAX_CACHE_AGE : Z := 60 * 60 * 24 * 365.
Definition DEFAULT_CACHE_AGE : Z := 60 * 60 * 24 * 7.

Fixpoint digits (s : string) : string :=
  match s with
  | String c s' => if is_ascii_digit c then String c (digits s') else ""
  | "" => ""
  end.

(** The number after the leftmost [pat] that is followed by a digit; [pat] is
    the literal part of the regular expression [pat(\d+)]. *)
(* src: crates/alephant-llm-kv-cache/src/settings.rs:61-64 regex_once *)
Fixpoint regex_once (pat hay : string) : option Z :=
  let here := match strip_prefix pat hay with Some rest => digits rest | None => "" end in
  if is_empty here
  then match hay with String _ hay' => regex_once pat hay' | "" => None end
  else parse_uint u64_max here.

(* src: crates/alephant-llm-kv-cache/src/settings.rs:53-59 build_cache_control *)
Definition build_cache_control (cache_control : string) : string :=
  let s_max := regex_once "s-maxage=" cache_control in
  let max := regex_once "max-age=" cache_control in
  let sec := default DEFAULT_CACHE_AGE (match s_max with Some x => Some x | None => max end) in
  let sec := Z.min sec MAX_CACHE_AGE in
  "public, max-age=" ++ pretty (Z.to_N sec).

(* src: crates/alephant-llm-kv-cache/src/settings.rs:66-68 parse_max_age_seconds *)
Definition parse_max_age_seconds (cache_control : string) : option Z := regex_once "max-age=" cache_control.

(* src: crates/alephant-llm-kv-cache/src/settings.rs:44-47 CacheSettings::expiration_ttl_secs *)
Definition expiration_ttl_secs (s : CacheSettings) : Z :=
  default 60%Z (parse_max_age_seconds (cache_control_value s)).

(** [headers name] is the header's value, if there and visible ASCII. *)
(* src: crates/alephant-llm-kv-cache/src/settings.rs:13-42 CacheSettings::parse *)
Definition parse (headers : string → option string) : result CacheSettings string :=
  let is_true name := match headers name with Some s => eq_ignore_ascii_case s "true" | None => false end in
  let enabled := is_true "Alephant-Cache-Enabled" in
  let save := is_true "Alephant-Cache-Save" in
  let read := is_true "Alephant-Cache-Read" in
  let bucket := default 1%Z
    (match headers "Alephant-Cache-Bucket-Max-Size" with Some s => parse_uint u8_max s | None => None end) in
  if (bucket =? 0)%Z || (20 <? bucket)%Z
  then Err ("Cache bucket size must be 1..=20, got " ++ pretty bucket)
  else
    let cc_in := default "" (headers "Alephant-Cache-Control") in
    Ok (mkSettings (enabled || read) (enabled || save) (build_cache_control cc_in) bucket
          (headers "Alephant-Cache-Seed")).

(** ** The life of an entry *)

Lemma digits_all s : str_all is_ascii_digit s = true → digits s = s.
Proof.
  induction s as [|c s IH]; simpl; [done|]. rw andb_true_iff. intros [-> Hs]. by rw IH.
Qed.

Lemma regex_once_skip c hay :
  c ≠ "m"%char → regex_once "max-age=" (String c hay) = regex_once "max-age=" hay.
Proof.
  intros Hc. cbn [regex_once]. destruct (strip_prefix "max-age=" (String c hay)) as [r|] eqn:E; [|done].
  apply strip_prefix_Some in E. by injection E as ->.
Qed.

(** What the gateway writes into the value it reads back. *)
Lemma max_age_roundtrip (n : N) : (Z.of_N n ≤ u64_max)%Z →
  parse_max_age_seconds ("public, max-age=" ++ pretty n) = Some (Z.of_N n).
Proof.
  intros Hn. unfold parse_max_age_seconds.
  change ("public, max-age=" ++ pretty n) with
    (String "p" (String "u" (String "b" (String "l" (String "i" (String "c" (String "," (String " "
      ("max-age=" ++ pretty n))))))))).
  do 8 (rw regex_once_skip; [|by intros ?]).
  pose proof (strip_prefix_app "max-age=" (pretty n)) as Hs.
  assert (Hd : is_empty (digits (pretty n)) = false ∧ digits (pretty n) = pretty n).
  { rw (digits_all _ (pretty_digits n)). split; [|done]. pose proof (pretty_nonempty n).
    by destruct (pretty n). }
  destruct Hd as [He Hd]. destruct ("max-age=" ++ pretty n) as [|c hay] eqn:E; [done|].
  cbn [regex_once]. rw Hs He Hd. by apply parse_uint_pretty.
Qed.

(** What the client asked for: [s-maxage], else [max-age], else a week. *)
Definition requested_age (cache_control : string) : Z :=
  match regex_once "s-maxage=" cache_control with
  | Some x => x
  | None => default DEFAULT_CACHE_AGE (regex_once "max-age=" cache_control)
  end.

Lemma parse_digits_nonneg max s : ∀ acc x, (0 ≤ acc)%Z → parse_digits max acc s = Some x → (0 ≤ x)%Z.
Proof.
  induction s as [|c s IH]; intros acc x Ha; cbn [parse_digits]; [by intros [= <-]|].
  destruct (is_ascii_digit c) eqn:Ec; [|done]. case_match; [|done]. apply IH.
  unfold is_ascii_digit in Ec. bool_to_prop. lia.
Qed.

Lemma parse_uint_nonneg max s x : parse_uint max s = Some x → (0 ≤ x)%Z.
Proof.
  unfold parse_uint. destruct s as [|c s]; [done|]. destruct (Ascii.eqb c "+").
  - destruct (is_empty s); [done|]. by apply parse_digits_nonneg.
  - by apply parse_digits_nonneg.
Qed.

Lemma regex_once_nonneg pat hay x : regex_once pat hay = Some x → (0 ≤ x)%Z.
Proof.
  induction hay as [|c hay IH]; cbn [regex_once].
  - destruct (strip_prefix pat ""); case_match; try done; apply parse_uint_nonneg.
  - case_match; [done|]. apply parse_uint_nonneg.
Qed.

Lemma requested_age_nonneg cc : (0 ≤ requested_age cc)%Z.
Proof.
  unfold requested_age. destruct (regex_once "s-maxage=" cc) eqn:E; [by eapply regex_once_nonneg|].
  destruct (regex_once "max-age=" cc) eqn:E2; [by eapply regex_once_nonneg|]. done.
Qed.

Lemma build_cache_control_age cc :
  build_cache_control cc = "public, max-age=" ++ pretty (Z.to_N (Z.min (requested_age cc) MAX_CACHE_AGE)).
Proof. unfold build_cache_control, requested_age. by destruct (regex_once "s-maxage=" cc). Qed.

(** How long a cached response lives, and in how many slots: for
    every accepted set of headers the bucket has 1 to 20 slots and the life of
    an entry is the number of seconds the client asked for, [s-maxage] before
    [max-age] before one week, at most a year; the life the gateway reads back
    from the cache-control text it wrote is that number, never the 60-second
    fallback of a text without one. *)
Theorem cache_settings_bounds headers settings :
  parse headers = Ok settings →
  (1 ≤ bucket_size settings ≤ 20)%Z
  ∧ expiration_ttl_secs settings
    = Z.min (requested_age (default "" (headers "Alephant-Cache-Control"))) MAX_CACHE_AGE.
Proof.
  unfold parse. set (b := default 1%Z _).
  assert (Hb : (0 ≤ b)%Z).
  { unfold b. destruct (headers "Alephant-Cache-Bucket-Max-Size"); [|done].
    destruct (parse_uint u8_max _) eqn:E; [by eapply parse_uint_nonneg|done]. }
  destruct (_ || _)%bool eqn:E; [done|]. bool_to_prop. intros [= <-]. cbn [bucket_size].
  split; [lia|]. unfold expiration_ttl_secs. cbn [cache_control_value]. rw build_cache_control_age.
  set (age := requested_age _). pose proof (requested_age_nonneg (default "" (headers "Alephant-Cache-Control"))).
  fold age in H. rw max_age_roundtrip.
  - cbn. unfold MAX_CACHE_AGE. lia.
  - unfold MAX_CACHE_AGE, u64_max. lia.
Qed.

Definition sample_headers (name : string) : option string :=
  if String.eqb name "Alephant-Cache-Enabled" then Some "TRUE"
  else if String.eqb name "Alephant-Cache-Bucket-Max-Size" then Some "3"
  else if String.eqb name "Alephant-Cache-Control" then Some "private, max-age=120"
  else None.

Lemma cache_settings_bounds_witness :
  match parse sample_headers with
  | Ok settings => (1 ≤ bucket_size settings ≤ 20)%Z ∧ expiration_ttl_secs settings = 120%Z
  | Err _ => False
  end.
Proof.
  destruct (parse sample_headers) as [settings|] eqn:E; [|discriminate E].
  destruct (cache_settings_bounds sample_headers settings E) as [H1 H2].
  split; [exact H1|]. rw H2. vm_compute. reflexivity.
Defined.

(** ** Slot keys *)

Section keys.
Context (from_str : string → option Value) (to_text : Value → string) (sha256_hex : string → string).

(* src: crates/alephant-llm-kv-cache/src/key.rs:3-13 body_for_cache *)
Definition body_for_cache (body : string) (ignore_keys : list string) : string :=
  match from_str body with
  | None => body
  | Some (Object m) =>
      to_text (Object (foldl (λ m k, filter (λ kv, kv.1 ≠ k) m) m ignore_keys))
  | Some v => to_text v
  end.

Definition key_material (seed url body : string) (ignore_keys : list string) (bucket_index : Z) : string :=
  seed ++ url ++ body_for_cache body ignore_keys
  ++ (if (1 <=? bucket_index)%Z then pretty (Z.to_N bucket_index) else "").

(* src: crates/alephant-llm-kv-cache/src/key.rs:15-38 kv_key_sha256_hex *)
Definition kv_key_sha256_hex (seed url body : string) (ignore_keys : list string) (bucket_index : Z) : string :=
  sha256_hex (key_material seed url body ignore_keys bucket_index).

(* src: ai-gateway/src/dispatcher/cache_coordinator.rs:15-33 llm_kv_slot_keys *)
Definition llm_kv_slot_keys (settings : CacheSettings) (target_url body : string) : list string :=
  (λ i : nat, kv_key_sha256_hex (default "" (cache_seed settings)) target_url body [] (Z.of_nat i))
    <$> seq 0 (Z.to_nat (bucket_size settings)).

(** The keys of a bucket's slots differ, as long as the hash does not collide. *)
Lemma slot_keys_NoDup settings url body :
  Inj (=) (=) sha256_hex → NoDup (llm_kv_slot_keys settings url body).
Proof.
  intros Hinj. unfold llm_kv_slot_keys. apply NoDup_fmap_2_strong; [|apply NoDup_seq].
  intros i j _ _ Heq%Hinj. unfold key_material in Heq. do 3 apply str_app_inj_l in Heq.
  destruct (Z.leb_spec 1 (Z.of_nat i)), (Z.leb_spec 1 (Z.of_nat j)); [|exfalso..|lia].
  - apply (inj pretty) in Heq. lia.
  - by eapply pretty_nonempty.
  - by eapply pretty_nonempty.
Qed.
End keys.

(** ** The bucket *)

(* src: crates/alephant-llm-kv-cache/src/value.rs:5-10 LlmCacheEntry *)
Record LlmCacheEntry := mkEntry {
  entry_headers : list (string * string);
  latency : Z;
  entry_body : list string
}.

Inductive LlmKvCacheError := Http (msg : string) | Serde | BadConfig (msg : string) | Tikv (msg : string).

(** The trait of the back ends, over the state of the store. *)
(* src: crates/alephant-llm-kv-cache/src/backend.rs:3-13 LlmKvBackend *)
Class LlmKvBackend (St : Type) := {
  kv_get : St → string → result (option string) LlmKvCacheError;
  kv_put : St → string → string → Z → result St LlmKvCacheError
}.

(** A store that answers: what is put is read back, the rest is unchanged. *)
Class HealthyBackend (St : Type) `{LlmKvBackend St} := {
  healthy_put : ∀ s k v ttl, ∃ s', kv_put s k v ttl = Ok s'
    ∧ ∀ k', kv_get s' k' = if decide (k' = k) then Ok (Some v) else kv_get s k'
}.

Section bucket.
Context {St : Type} `{!LlmKvBackend St}.
Context (entry_from_str : string → option LlmCacheEntry) (entry_to_string : LlmCacheEntry → option string).

(** All slots, or the first error. *)
Fixpoint gets (s : St) (keys : list string) : result (list (option string)) LlmKvCacheError :=
  match keys with
  | [] => Ok []
  | k :: keys' => let? o := kv_get s k in let? os := gets s keys' in Ok (o :: os)
  end.

(** [in_time]: the reads end within the two seconds; [choose n] is the random
    index below [n]. *)
(* src: crates/alephant-llm-kv-cache/src/bucket.rs:10-38 read_bucket *)
Definition read_bucket (in_time : bool) (choose : nat → nat) (s : St) (keys : list string)
  : option (LlmCacheEntry * nat) :=
  if negb in_time then None
  else
    match gets s keys with
    | Err _ => None
    | Ok outs =>
        let slots := (λ o, match o with Some t => entry_from_str t | None => None end) <$> outs in
        match mapM id slots with
        | None => None
        | Some [] => None
        | Some entries => let idx := choose (length entries) in (λ e, (e, idx)) <$> entries !! idx
        end
    end.

(* src: crates/alephant-llm-kv-cache/src/bucket.rs:40-110 try_save_to_first_free_slot *)
Definition try_save_to_first_free_slot (s : St) (keys : list string) (entry : LlmCacheEntry) (ttl : Z)
  : result (bool * St) LlmKvCacheError :=
  match gets s keys with
  | Err _ => Ok (false, s)
  | Ok slots =>
      match list_find (λ o, o = None) slots with
      | None => Ok (false, s)
      | Some (free_idx, _) =>
          match entry_to_string entry, keys !! free_idx with
          | None, _ => Err Serde
          | Some json, Some key => let? s' := kv_put s key json ttl in Ok (true, s')
          | Some _, None => Ok (false, s)      (* not reached: the index is one of the keys' *)
          end
      end
  end.

(** Responses of one request saved one after the other. *)
Fixpoint save_all (s : St) (keys : list string) (entries : list LlmCacheEntry) (ttl : Z)
  : result St LlmKvCacheError :=
  match entries with
  | [] => Ok s
  | e :: rest => let? (_, s1) := try_save_to_first_free_slot s keys e ttl in save_all s1 keys rest ttl
  end.

(** ** Filling *)

(** A bucket of [n] slots into which the texts [ts] were saved. *)
Definition slot_view (n : nat) (ts : list string) : list (option string) :=
  (Some <$> take n ts) ++ replicate (n - length ts) None.

Lemma length_slot_view n ts : length (slot_view n ts) = n.
Proof. unfold slot_view. rw length_app length_fmap length_take length_replicate. lia. Qed.

Lemma slot_view_free n ts :
  list_find (λ o : option string, o = None) (slot_view n ts)
  = if decide (length ts < n)%nat then Some (length ts, None) else None.
Proof.
  unfold slot_view. case_decide as Hn.
  - apply list_find_Some. rw take_ge; [|lia]. split_and!.
    + rw lookup_app_r length_fmap; [|lia]. rw Nat.sub_diag lookup_replicate_2 //. lia.
    + done.
    + intros j y Hj Hlt. rw lookup_app_l in Hj; [|rw length_fmap; lia].
      apply list_lookup_fmap_Some in Hj as (x & -> & _). done.
  - apply list_find_None. replace (n - length ts)%nat with 0%nat by lia. rw app_nil_r.
    apply Forall_fmap, Forall_true. done.
Qed.

Lemma slot_view_save n ts t :
  (length ts < n)%nat → <[length ts := Some t]> (slot_view n ts) = slot_view n (ts ++ [t]).
Proof.
  intros Hn. unfold slot_view. rw !take_ge; [|rw ?length_app /=; lia..].
  rw insert_app_r_alt length_fmap; [|lia]. rw Nat.sub_diag fmap_app -app_assoc /=. f_equal.
  rw length_app /=. replace (n - length ts)%nat with (S (n - (length ts + 1))) by lia. done.
Qed.

Lemma slot_view_full n ts t : (n ≤ length ts)%nat → slot_view n (ts ++ [t]) = slot_view n ts.
Proof.
  intros Hn. unfold slot_view. rw take_app_le //. rw length_app /=.
  by replace (n - (length ts + 1))%nat with (n - length ts)%nat by lia.
Qed.

Lemma gets_Ok s keys L :
  gets s keys = Ok L ↔ length L = length keys ∧
    ∀ i k o, keys !! i = Some k → L !! i = Some o → kv_get s k = Ok o.
Proof.
  revert L. induction keys as [|k keys IH]; intros L; simpl.
  - split; [by intros [= <-]|]. intros [Hl _]. by destruct L.
  - destruct (kv_get s k) as [o|e] eqn:Eo; simpl.
    + destruct (gets s keys) as [os|e] eqn:Eg; simpl.
      * split.
        { intros [= <-]. destruct (proj1 (IH os) eq_refl) as [Hl Hk]. split; [simpl; lia|].
          intros [|i] k' o' ??; simplify_eq/=; eauto. }
        { intros [Hl Hk]. destruct L as [|o' L]; [done|].
          assert (o' = o) as -> by (specialize (Hk 0%nat k o' eq_refl eq_refl); congruence).
          pose proof (proj2 (IH L) (conj (eq_add_S _ _ Hl) (λ i, Hk (S i)))). congruence. }
      * split; [done|]. intros [Hl Hk]. destruct L as [|o' L]; [done|].
        pose proof (proj2 (IH L) (conj (eq_add_S _ _ Hl) (λ i, Hk (S i)))). congruence.
    + split; [done|]. intros [Hl Hk]. destruct L as [|o' L]; [done|].
      specialize (Hk 0%nat k o' eq_refl eq_refl). congruence.
Qed.

Context `{!HealthyBackend St}.

(** The entry can be written and its text reads back. *)
Definition readable (e : LlmCacheEntry) : Prop :=
  ∃ t, entry_to_string e = Some t ∧ entry_from_str t = Some e.

Lemma gets_put s s' keys L m k v :
  NoDup keys → keys !! m = Some k → gets s keys = Ok L →
  (∀ k', kv_get s' k' = if decide (k' = k) then Ok (Some v) else kv_get s k') →
  gets s' keys = Ok (<[m := Some v]> L).
Proof.
  intros Hnd Hm [Hl Hk]%gets_Ok Hs'. apply gets_Ok. rw length_insert. split; [done|].
  intros i k' o Hi Ho. rw Hs'. case_decide as Hkk.
  - subst. assert (i = m) as -> by (by eapply NoDup_lookup). apply lookup_lt_Some in Hm.
    rw list_lookup_insert_eq in Ho; [|lia]. by simplify_eq.
  - rw list_lookup_insert_ne in Ho; [|by intros ->; simplify_eq]. by eapply Hk.
Qed.

Lemma save_view s keys e t ts ttl :
  NoDup keys → entry_to_string e = Some t → gets s keys = Ok (slot_view (length keys) ts) →
  ∃ b s', try_save_to_first_free_slot s keys e ttl = Ok (b, s')
    ∧ gets s' keys = Ok (slot_view (length keys) (ts ++ [t])).
Proof.
  intros Hnd Ht Hg. unfold try_save_to_first_free_slot. rw Hg slot_view_free. case_decide as Hn.
  - rw Ht. destruct (lookup_lt_is_Some_2 keys (length ts) Hn) as [k Hk]. rw Hk.
    destruct (healthy_put s k t ttl) as (s' & -> & Hs'). exists true, s'. split; [done|].
    rw -slot_view_save //. by eapply gets_put.
  - exists false, s. split; [done|]. rw slot_view_full //. lia.
Qed.

(** The texts of a list of entries. *)
Definition texts (entries : list LlmCacheEntry) : list string := omap entry_to_string entries.

Lemma save_all_view keys entries ttl : ∀ s ts,
  NoDup keys → Forall readable entries → gets s keys = Ok (slot_view (length keys) ts) →
  ∃ s', save_all s keys entries ttl = Ok s'
    ∧ gets s' keys = Ok (slot_view (length keys) (ts ++ texts entries)).
Proof.
  induction entries as [|e entries IH]; intros s ts Hnd Hr Hg; simpl.
  - exists s. by rw app_nil_r.
  - apply Forall_cons in Hr as [(t & Ht & _) Hr]. rw Ht.
    destruct (save_view s keys e t ts ttl Hnd Ht Hg) as (b & s1 & -> & Hg1). simpl.
    destruct (IH s1 (ts ++ [t])%list Hnd Hr Hg1) as (s' & -> & Hg'). exists s'. split; [done|].
    by rw -app_assoc in Hg'.
Qed.

Lemma texts_lookup entries i : Forall readable entries → texts entries !! i = entries !! i ≫= entry_to_string.
Proof.
  intros Hr. revert i. induction Hr as [|e entries (t & Ht & _) _ IH]; intros i; simpl; [done|].
  rw Ht. destruct i; simpl; [done|]. apply IH.
Qed.

Lemma length_texts entries : Forall readable entries → length (texts entries) = length entries.
Proof.
  induction 1 as [|e entries (t & Ht & _) _ IH]; simpl; [done|]. rw Ht. simpl. by rw IH.
Qed.

(** Reading the slots back gives entries exactly when the bucket is full. *)
Lemma read_view n entries :
  Forall readable entries →
  mapM id ((λ o, match o with Some t => entry_from_str t | None => None end)
             <$> slot_view n (texts entries))
  = if decide (n ≤ length entries)%nat then Some (take n entries) else None.
Proof.
  intros Hr. unfold slot_view. rw fmap_app fmap_replicate length_texts //. case_decide as Hn.
  - replace (n - length entries)%nat with 0%nat by lia. rw app_nil_r. apply mapM_Some.
    apply Forall2_same_length_lookup. rw !length_fmap !length_take length_texts //. split; [done|].
    intros i x y Hx Hy. rw !list_lookup_fmap in Hx. apply lookup_take_Some in Hy as [Hy Hi].
    rw lookup_take_lt // texts_lookup // Hy /= in Hx.
    destruct (Forall_lookup_1 _ _ _ _ Hr Hy) as (t & Ht & Hb). rw Ht in Hx. by simplify_eq/=.
  - apply eq_None_not_Some. intros [l Hl%mapM_Some].
    destruct (Forall2_lookup_l _ _ _ (length entries) None Hl) as (y & _ & Hy); [|done].
    rw lookup_app_r !length_fmap length_take length_texts //; [|lia].
    rw lookup_replicate_2 //. lia.
Qed.

(** A bucket serves once it is full: start from a store in
    which the slots of a request are empty, and save any responses to the
    request one after the other.  Every save succeeds; while fewer responses
    were saved than there are slots every read misses, and from then on every
    read hits and returns one of the first responses saved, the one whose index
    it reports.  This is for a store that answers, a hash without collisions
    and entries whose JSON text reads back. *)
Theorem bucket_serves_once_full from_str to_text sha256_hex settings url body s entries ttl choose :
  let keys := llm_kv_slot_keys from_str to_text sha256_hex settings url body in
  Inj (=) (=) sha256_hex → (1 ≤ bucket_size settings)%Z → Forall readable entries →
  (∀ k, k ∈ keys → kv_get s k = Ok None) →
  (∀ n, (0 < n)%nat → (choose n < n)%nat) →
  ∃ s', save_all s keys entries ttl = Ok s'
    ∧ read_bucket true choose s' keys
      = let n := Z.to_nat (bucket_size settings) in
        if decide (n ≤ length entries)%nat
        then (λ e, (e, choose n)) <$> entries !! choose n
        else None.
Proof.
  intros keys Hinj Hb Hread Hempty Hch. pose proof (slot_keys_NoDup from_str to_text sha256_hex settings url body Hinj) as Hnd.
  fold keys in Hnd. assert (Hlen : length keys = Z.to_nat (bucket_size settings)).
  { unfold keys, llm_kv_slot_keys. by rw length_fmap length_seq. }
  destruct (save_all_view keys entries ttl s [] Hnd Hread) as (s' & Hs & Hg).
  { apply gets_Ok. rw length_slot_view. split; [done|]. intros i k o Hi Ho.
    rw (Hempty k); [|by eapply list_elem_of_lookup_2]. unfold slot_view in Ho. simpl in Ho.
    rw take_nil fmap_nil app_nil_l in Ho. by apply lookup_replicate_1 in Ho as [-> _]. }
  exists s'. split; [done|]. unfold read_bucket. rw Hg app_nil_l. cbn [negb].
  rw read_view // Hlen. set (n := Z.to_nat (bucket_size settings)). case_decide as Hn; [|done].
  assert (0 < n)%nat by (unfold n; lia). destruct (take n entries) as [|e0 es] eqn:Et.
  { apply (f_equal length) in Et. rw length_take /= in Et. lia. }
  rw -Et length_take Nat.min_l //. rw lookup_take_lt //. by apply Hch.
Qed.
End bucket.

(** ** An in-memory store *)

#[global] Instance memory_backend : LlmKvBackend (gmap string string) := {
  kv_get s k := Ok (s !! k);
  kv_put s k v _ := Ok (<[k := v]> s)
}.

#[global] Instance memory_healthy : HealthyBackend (gmap string string).
Proof.
  split. intros s k v ttl. exists (<[k := v]> s). split; [done|]. intros k'. simpl.
  case_decide as H; [subst; by rw lookup_insert_eq|]. by rw lookup_insert_ne.
Qed.

(** A cache of two slots for entries written as their single chunk. *)
Definition chunk_text (e : LlmCacheEntry) : option string := Some (str_join "" (entry_body e)).
Definition two_slots : CacheSettings := mkSettings true true "public, max-age=60" 2 (Some "seed").
Definition two_keys : list string :=
  llm_kv_slot_keys (λ _, None) (λ _, "") id two_slots "https://example.com/v1" "{}".

Definition chunk_entry (t : string) : option LlmCacheEntry := Some (mkEntry [] 0 [t]).
Definition entry_a : LlmCacheEntry := mkEntry [] 0 ["a"].
Definition entry_b : LlmCacheEntry := mkEntry [] 0 ["b"].

Lemma bucket_serves_once_full_witness :
  ∃ s' : gmap string string, save_all chunk_text ∅ two_keys [entry_a; entry_b; entry_a] 60 = Ok s'
    ∧ read_bucket chunk_entry true Nat.pred s' two_keys = Some (entry_b, 1%nat).
Proof.
  destruct (bucket_serves_once_full chunk_entry chunk_text (λ _, None) (λ _, "") id two_slots
    "https://example.com/v1" "{}" (∅ : gmap string string) [entry_a; entry_b; entry_a] 60%Z
    Nat.pred) as (s' & H1 & H2).
  - by intros x y.
  - vm_compute. discriminate.
  - repeat constructor; eexists; split; reflexivity.
  - intros k _. reflexivity.
  - intros n Hn. lia.
  - exists s'. split; [exact H1|]. exact H2.
Defined.
