(* ===== verification/Headers.v ===== *)
(** * HTTP headers and what the gateway removes from them

    A header map as the [http] crate presents it, keyed by lower-case name with
    the values of a name in order, and the operations of the gateway on it:
    [dispatcher/upstream_auth.rs] (what is stripped before a request goes to a
    provider), [session_headers.rs], the agent headers of [agent/headers.rs] and
    the debug headers of [utils/debug_log.rs]. *)

From S2P Require Import Prelude RustStr.
From Stdlib Require Import Ascii.
Local Open Scope string_scope.

(** ** The header map *)

Definition HeaderMap := gmap string (list string).

Definition hget_all (name : string) (h : HeaderMap) : list string :=
  default [] (h !! to_ascii_lowercase name).
Definition hget (name : string) (h : HeaderMap) : option string := head (hget_all name h).
Definition hcontains (name : string) (h : HeaderMap) : bool := bool_decide (is_Some (h !! to_ascii_lowercase name)).
Definition hinsert (name value : string) (h : HeaderMap) : HeaderMap := <[to_ascii_lowercase name := [value]]> h.
Definition happend (name value : string) (h : HeaderMap) : HeaderMap :=
  <[to_ascii_lowercase name := (hget_all name h ++ [value])%list]> h.
Definition hremove (name : string) (h : HeaderMap) : HeaderMap := delete (to_ascii_lowercase name) h.
Definition hremove_all (names : list string) (h : HeaderMap) : HeaderMap := foldr hremove h names.

(** [HeaderValue::to_str]: visible ASCII, spaces and tabs. *)
Definition is_visible (c : ascii) : bool :=
  (32 <=? byte_of c)%Z && (byte_of c <? 127)%Z || (byte_of c =? 9)%Z.
Definition to_str (value : string) : option string := if str_all is_visible value then Some value else None.

Definition header_str (name : string) (h : HeaderMap) : option string :=
  match hget name h with Some v => to_str v | None => None end.

Lemma lookup_hremove n name h :
  hremove name h !! n = if decide (n = to_ascii_lowercase name) then None else h !! n.
Proof. rw /hremove. case_decide; subst; [by rw lookup_delete_eq|by rw lookup_delete_ne]. Qed.

Lemma lookup_hremove_all n names h :
  hremove_all names h !! n = if decide (n ∈ map to_ascii_lowercase names) then None else h !! n.
Proof.
  induction names as [|m names IH]; [done|]. cbn [hremove_all foldr map].
  rw lookup_hremove IH. repeat case_decide; set_solver.
Qed.

(** ** Agent headers *)

(* src: ai-gateway/src/agent/headers.rs:7-33 EXTRA_AGENT_HEADERS *)
Definition EXTRA_AGENT_HEADERS : list string :=
  ["alephant-run-id"; "alephant-step-id"; "alephant-parent-step-id"; "alephant-tool-call-id";
   "alephant-handoff-id"; "alephant-graph-node"; "alephant-iteration"; "alephant-state-hash";
   "alephant-step-kind"].

(* src: ai-gateway/src/agent/headers.rs:36-43 is_agent_header_name *)
Definition is_agent_header_name (name : string) : bool :=
  let lower := to_ascii_lowercase name in
  starts_with "alephant-agent-" lower
  || String.eqb lower "alephant-step-source"
  || String.eqb lower "alephant-step-attempt"
  || String.eqb lower "alephant-step-input-hash"
  || bool_decide (lower ∈ EXTRA_AGENT_HEADERS).

(** ** Session headers *)

(* src: ai-gateway/src/session_headers.rs:14-19 SessionHeaders *)
Record SessionHeaders := mkSession {
  session_id : string;
  session_path : option string;
  session_name : option string
}.

Inductive InvalidRequestError := InvalidRequestHeader.

(* src: ai-gateway/src/session_headers.rs:21-31 parse_header_string *)
Definition parse_header_string (h : HeaderMap) (key : string) : result (option string) InvalidRequestError :=
  match hget key h with
  | None => Ok None
  | Some value =>
      match to_str value with
      | None => Err InvalidRequestHeader
      | Some v => let v := trim v in Ok (if is_empty v then None else Some v)
      end
  end.

(* src: ai-gateway/src/session_headers.rs:33-41 normalize_session_path *)
Definition normalize_session_path (path : option string) : option string :=
  (λ value, if starts_with "/" value then value else "/" ++ value) <$> path.

(* src: ai-gateway/src/session_headers.rs:43-59 parse_session_headers *)
Definition parse_session_headers (h : HeaderMap) : result (option SessionHeaders) InvalidRequestError :=
  let? session_id := parse_header_string h "alephant-session-id" in
  match session_id with
  | None => Ok None
  | Some session_id =>
      let? path := parse_header_string h "alephant-session-path" in
      let? session_name := parse_header_string h "alephant-session-name" in
      Ok (Some (mkSession session_id (normalize_session_path path) session_name))
  end.

(* src: ai-gateway/src/session_headers.rs:61-65 remove_session_headers *)
Definition remove_session_headers (h : HeaderMap) : HeaderMap :=
  hremove_all ["alephant-session-id"; "alephant-session-path"; "alephant-session-name"] h.

(** [IndexMap::insert]: an existing key keeps its place. *)
Fixpoint index_insert (k v : string) (m : list (string * string)) : list (string * string) :=
  match m with
  | [] => [(k, v)]
  | (k', w) :: m => if String.eqb k' k then (k', v) :: m else (k', w) :: index_insert k v m
  end.

(* src: ai-gateway/src/session_headers.rs:67-87 inject_session_properties *)
Definition inject_session_properties (properties : list (string * string)) (session : SessionHeaders)
  : list (string * string) :=
  let p := index_insert "Alephant-Session-Id" (session_id session) properties in
  let p := match session_path session with Some v => index_insert "Alephant-Session-Path" v p | None => p end in
  match session_name session with Some v => index_insert "Alephant-Session-Name" v p | None => p end.

(** ** Debug headers *)

(* src: ai-gateway/src/utils/debug_log.rs:50-53 remove_debug_control_headers *)
Definition remove_debug_control_headers (h : HeaderMap) : HeaderMap :=
  hremove_all ["alephant-debug-headers"; "alephant-debug-body"] h.

(* src: ai-gateway/src/utils/debug_log.rs:60-66 parse_debug_bool_header_value *)
Definition parse_debug_bool_header_value (value : string) : option bool :=
  let v := to_ascii_lowercase (trim value) in
  if bool_decide (v ∈ ["1"; "true"; "yes"; "on"]) then Some true
  else if bool_decide (v ∈ ["0"; "false"; "no"; "off"]) then Some false
  else None.

(* src: ai-gateway/src/utils/debug_log.rs:55-58 take_debug_bool_header *)
Definition take_debug_bool_header (h : HeaderMap) (name : string) : option bool * HeaderMap :=
  (match header_str name h with Some v => parse_debug_bool_header_value v | None => None end, hremove name h).

(* src: ai-gateway/src/utils/debug_log.rs:10-14 DebugLogConfig *)
Record DebugLogConfig := mkDebug { debug_headers : bool; debug_body : bool }.

(* src: ai-gateway/src/utils/debug_log.rs:28-40 DebugLogConfig::from_headers_with_env *)
Definition from_headers_with_env (h : HeaderMap) (getenv : string → option string) : DebugLogConfig * HeaderMap :=
  let env_headers := bool_decide (is_Some (getenv "AI_GATEWAY_DEBUG_HEADERS")) in
  let env_body := bool_decide (is_Some (getenv "AI_GATEWAY_DEBUG_BODY")) in
  let '(header_override, h) := take_debug_bool_header h "alephant-debug-headers" in
  let '(body_override, h) := take_debug_bool_header h "alephant-debug-body" in
  (mkDebug (default env_headers header_override) (default env_body body_override), h).

(* src: ai-gateway/src/utils/debug_log.rs:84-89 header_value_should_redact_for_debug_log *)
Definition header_value_should_redact_for_debug_log (name : string) : bool :=
  eq_ignore_ascii_case name "authorization" || eq_ignore_ascii_case name "cookie"
  || eq_ignore_ascii_case name "proxy-authorization" || eq_ignore_ascii_case name "x-api-key".

(** The entries in the order of the map's iterator. *)
(* src: ai-gateway/src/utils/debug_log.rs:91-103 debug_header_lines *)
Definition debug_header_lines (entries : list (string * string)) : string :=
  str_join (String newline "")
    (map (λ '(name, value),
            name ++ ": " ++
            (if header_value_should_redact_for_debug_log name then "<redacted>"
             else default "<non-utf8>" (to_str value))) entries).

(** ** What a provider receives *)

(* src: ai-gateway/src/dispatcher/upstream_auth.rs:86-88 remove_internal_gateway_auth_headers *)
Definition remove_internal_gateway_auth_headers (h : HeaderMap) : HeaderMap := hremove "alephant-api-key" h.

(* src: ai-gateway/src/dispatcher/upstream_auth.rs:90-99 remove_agent_headers *)
Definition remove_agent_headers (h : HeaderMap) : HeaderMap :=
  filter (λ kv, is_agent_header_name kv.1 = false) h.

(* src: ai-gateway/src/dispatcher/upstream_auth.rs:48-67 sanitize_headers_inner *)
Definition sanitize_headers_inner (forward_agent_headers_upstream : bool) (h : HeaderMap) : HeaderMap :=
  let h := hremove "content-length" (hremove "authorization" (hremove "host" h)) in
  let h := remove_internal_gateway_auth_headers h in
  let h := remove_debug_control_headers h in
  let h := if forward_agent_headers_upstream then h else remove_agent_headers h in
  let h := hremove_all ["Alephant-Cache-Ttl"; "Alephant-Cache-Semantic-Threshold";
                        "Alephant-Embeddings-Model"; "Alephant-Embeddings-Key"] h in
  let h := remove_session_headers h in
  let h := hremove "accept-encoding" h in
  hinsert "accept-encoding" "identity" h.

(* src: ai-gateway/src/dispatcher/upstream_auth.rs:32-34 sanitize_headers *)
Definition sanitize_headers (h : HeaderMap) : HeaderMap := sanitize_headers_inner false h.

(* src: ai-gateway/src/dispatcher/upstream_auth.rs:36-46 sanitize_headers_with_agent_forwarding *)
Definition sanitize_headers_with_agent_forwarding (h : HeaderMap) (forward_agent_headers_upstream : bool)
  : HeaderMap :=
  if negb forward_agent_headers_upstream then sanitize_headers h else sanitize_headers_inner true h.

(** ** Theorems *)

(** The names that never reach a provider. *)
Definition internal_names : list string :=
  ["host"; "authorization"; "content-length"; "alephant-api-key"; "alephant-debug-headers";
   "alephant-debug-body"; "alephant-embeddings-key"; "alephant-embeddings-model";
   "alephant-cache-semantic-threshold"; "alephant-cache-ttl";
   "alephant-session-id"; "alephant-session-path"; "alephant-session-name"].

Lemma not_internal n l :
  forallb (λ x, bool_decide (x ∈ internal_names)) l = true → n ∉ internal_names → n ∉ l.
Proof.
  intros H Hn Hl. apply Hn. rw forallb_forall in H. apply list_elem_of_In, H in Hl. by bool_to_prop.
Qed.

Lemma sanitize_headers_inner_lookup forward h n :
  sanitize_headers_inner forward h !! n =
  if decide (n = "accept-encoding") then Some ["identity"]
  else if decide (n ∈ internal_names) then None
  else if negb forward && is_agent_header_name n then None
  else h !! n.
Proof.
  rw /sanitize_headers_inner /hinsert. change (to_ascii_lowercase "accept-encoding") with "accept-encoding".
  case_decide; [subst; by rw lookup_insert_eq|]. rw lookup_insert_ne // /remove_session_headers
    lookup_hremove decide_False // !lookup_hremove_all.
  assert (Hagent : ∀ g : HeaderMap, (if forward then g else remove_agent_headers g) !! n
    = if negb forward && is_agent_header_name n then None else g !! n).
  { intros g. destruct forward; [done|]. rw /remove_agent_headers /=. destruct (is_agent_header_name n) eqn:E.
    - apply map_lookup_filter_None. right. intros x _. simpl. congruence.
    - destruct (g !! n) eqn:Hg; [by apply map_lookup_filter_Some|apply map_lookup_filter_None; by left]. }
  rw Hagent /remove_debug_control_headers /remove_internal_gateway_auth_headers lookup_hremove_all !lookup_hremove.
  destruct (decide (n ∈ internal_names)) as [Hin|Hin].
  - clear Hagent. rw /internal_names in Hin.
    repeat (apply elem_of_cons in Hin as [->|Hin]; [by destruct forward|]). by apply elem_of_nil in Hin.
  - rw !(decide_False (P := n ∈ map _ _)); [|by eapply not_internal..].
    rw !decide_False //; intros ->; by apply Hin; set_solver.
Qed.

(** What a provider receives, name by name: the gateway's
    credentials, its own control headers and, unless they are forwarded, the
    agent headers are gone; the encoding is fixed; every other header arrives
    with all its values unchanged. *)
Theorem sanitize_headers_spec forward h n :
  sanitize_headers_inner forward h !! n =
  if decide (n = "accept-encoding") then Some ["identity"]
  else if decide (n ∈ internal_names) then None
  else if negb forward && is_agent_header_name n then None
  else h !! n.
Proof. apply sanitize_headers_inner_lookup. Qed.

(** Stripping twice is stripping once. *)
Lemma sanitize_headers_idemp forward h :
  sanitize_headers_inner forward (sanitize_headers_inner forward h) = sanitize_headers_inner forward h.
Proof. apply map_eq. intros n. rw !sanitize_headers_inner_lookup. repeat case_match; try done. Qed.

(** The header that carries the gateway's own key is stripped before a provider
    sees it, but it is not one of those the debug log hides. *)
Lemma api_key_header_logged :
  debug_header_lines [("authorization", "Bearer sk-1"); ("alephant-api-key", "sk-1")]
  = "authorization: <redacted>" ++ String newline "alephant-api-key: sk-1".
Proof. reflexivity. Qed.
