(* ===== verification/Heartbeat.v ===== *)
(** * Downstream keepalives: the frame splitter and the heartbeat bodies

    Models [ai-gateway/src/dispatcher/downstream_heartbeat.rs].  A byte stream
    arrives in transport chunks; [frames] cuts it at blank lines (LF, CR or
    CRLF line ends) under a byte limit, and the response bodies put heartbeats
    between frames only.

    The loops of [take_frame] and [frames] are fuelled; [frames_all_total] and
    [frames_all_refines] show that the stated fuel is enough for every source.
    [serde_json] and the collected upstream response are parameters. *)

From S2P Require Import Prelude RustStr Json Headers UpstreamOutcome.
From Stdlib Require Import Ascii.
Local Open Scope nat_scope.

Abbreviation Bytes := (list ascii) (only parsing).

(** ** Configuration *)

(* src: ai-gateway/src/dispatcher/downstream_heartbeat.rs:13-21 HeartbeatConfig *)
Record HeartbeatConfig := mkHeartbeat {
  interval_ms : Z;
  early_sse : bool;
  json_whitespace : bool;
  max_frame_bytes : Z;
  paths : list string
}.

(* src: ai-gateway/src/dispatcher/downstream_heartbeat.rs:22-32 HeartbeatConfig::default *)
Definition default_config : HeartbeatConfig :=
  mkHeartbeat 15000 false false 262144 ["chat/completions"; "responses"]%string.

Definition heartbeat_paths : list string :=
  ["chat/completions"; "completions"; "responses"; "embeddings"; "images/generations"]%string.

Inductive InitError := InvalidPayloadValidation (message : string).

(* src: ai-gateway/src/dispatcher/downstream_heartbeat.rs:33-55 HeartbeatConfig::validate *)
Definition validate (c : HeartbeatConfig) : result unit InitError :=
  if negb ((10 <=? interval_ms c) && (interval_ms c <=? 60000))%Z
     || negb ((1024 <=? max_frame_bytes c) && (max_frame_bytes c <=? 4 * 1024 * 1024))%Z
     || match paths c with [] => true | _ => false end
     || existsb (λ p, bool_decide (p ∉ heartbeat_paths)) (paths c)
  then Err (InvalidPayloadValidation "invalid downstream heartbeat bounds or endpoint")
  else Ok tt.

(* src: ai-gateway/src/dispatcher/downstream_heartbeat.rs:56-60 Mode *)
Inductive Mode := Sse | Json.

#[global] Instance Mode_eq_dec : EqDecision Mode.
Proof. solve_decision. Defined.

(** The counter of sent heartbeats is telemetry and is left out. *)
(* src: ai-gateway/src/dispatcher/downstream_heartbeat.rs:61-66 Active *)
Record Active := mkActive { config : HeartbeatConfig; mode : Mode }.

(* src: ai-gateway/src/dispatcher/downstream_heartbeat.rs:67-89 select *)
Definition select (from_slice : string → option Value)
    (config : option HeartbeatConfig) (path body : string) : option Active :=
  match config with
  | None => None
  | Some config =>
      if negb (existsb (String.eqb path) (paths config)) then None
      else match from_slice body with
           | None => None
           | Some value =>
               let stream := default false (get "stream" value ≫= as_bool) in
               if stream then Some (mkActive config Sse)
               else if json_whitespace config then Some (mkActive config Json)
               else None
           end
  end.

(** ** The frame splitter *)

Section frames.
(** Errors of the transport below the splitter. *)
Context {E : Type}.

(* src: ai-gateway/src/dispatcher/downstream_heartbeat.rs:90-96 fail *)
Inductive StreamError :=
| fail (code : string)
| transport (e : E)
| UpstreamError (status_code : Z) (body : string).

(* src: ai-gateway/src/dispatcher/downstream_heartbeat.rs:98-105 FrameState *)
Record FrameState := mkFrames {
  source : list (result Bytes E);
  chunk : Bytes;
  pending : Bytes;
  scan : nat;
  line_start : nat;
  limit : nat
}.

Inductive scan_result := Found (end_ : nat) | NotFound (scan line_start : nat).

Definition is_byte (c : ascii) (o : option ascii) : bool := bool_decide (o = Some c).

(** The [while] loop; [None] is a loop that has not returned within the fuel. *)
(* src: ai-gateway/src/dispatcher/downstream_heartbeat.rs:107-129 FrameState::take_frame *)
Fixpoint take_frame_loop (fuel : nat) (eof : bool) (pending : Bytes) (scan line_start : nat)
  : option scan_result :=
  match fuel with
  | O => None
  | S fuel =>
      if scan <? length pending then
        let i := scan in
        let at_end end_ :=
          if i =? line_start then Some (Found end_)
          else take_frame_loop fuel eof pending end_ end_ in
        if is_byte newline (pending !! i) then at_end (i + 1)
        else if is_byte carriage_return (pending !! i) then
          if (i + 1 =? length pending) && negb eof then Some (NotFound scan line_start)
          else at_end (i + 1 + (if is_byte newline (pending !! (i + 1)) then 1 else 0))
        else take_frame_loop fuel eof pending (scan + 1) line_start
      else Some (NotFound scan line_start)
  end.

(* src: ai-gateway/src/dispatcher/downstream_heartbeat.rs:106-130 FrameState::take_frame *)
Definition take_frame (eof : bool) (s : FrameState) : option (option Bytes * FrameState) :=
  (λ r, match r with
        | Found end_ =>
            (Some (take end_ (pending s)),
             mkFrames (source s) (chunk s) (drop end_ (pending s)) 0 0 (limit s))
        | NotFound scan line_start =>
            (None, mkFrames (source s) (chunk s) (pending s) scan line_start (limit s))
        end) <$> take_frame_loop (S (length (pending s) - scan s)) eof (pending s) (scan s) (line_start s).

(* src: ai-gateway/src/dispatcher/downstream_heartbeat.rs:141-166 frames *)
Fixpoint frames_next (fuel : nat) (s : FrameState)
  : option (result (option (Bytes * FrameState)) StreamError) :=
  match fuel with
  | O => None
  | S fuel =>
      match take_frame false s with
      | None => None
      | Some (Some frame, s) => Some (Ok (Some (frame, s)))
      | Some (None, s) =>
          if limit s <=? length (pending s) then Some (Err (fail "sse_frame_limit"))
          else match chunk s with
               | _ :: _ =>
                   let n := (limit s - length (pending s)) `min` length (chunk s) in
                   frames_next fuel (mkFrames (source s) (drop n (chunk s))
                                       (pending s ++ take n (chunk s)) (scan s) (line_start s) (limit s))
               | [] =>
                   match source s with
                   | Ok bytes :: rest =>
                       frames_next fuel (mkFrames rest bytes (pending s) (scan s) (line_start s) (limit s))
                   | Err e :: _ => Some (Err (transport e))
                   | [] =>
                       match pending s with
                       | [] => Some (Ok None)
                       | _ =>
                           match take_frame true s with
                           | None => None
                           | Some (Some frame, s) => Some (Ok (Some (frame, s)))
                           | Some (None, _) => Some (Err (fail "incomplete_sse_frame"))
                           end
                       end
                   end
               end
      end
  end.

(** What is left to read: one for each chunk and one for each byte not yet in
    [pending]; each turn of the loop above lowers it. *)
Definition source_cost (src : list (result Bytes E)) : nat :=
  sum_list_with (λ r, match r with Ok b => S (length b) | Err _ => 1 end) src.
Definition fuel_for (s : FrameState) : nat := S (source_cost (source s) + length (chunk s)).

(* src: ai-gateway/src/dispatcher/downstream_heartbeat.rs:132-140 frames *)
Definition frames_init (source : list (result Bytes E)) (limit : nat) : FrameState :=
  mkFrames source [] [] 0 0 limit.

(** [try_unfold] driven to its end: the frames, then how the stream ended. *)
(* src: ai-gateway/src/dispatcher/downstream_heartbeat.rs:132-167 frames *)
Fixpoint frames_all (fuel : nat) (s : FrameState) : option (list Bytes * result unit StreamError) :=
  match fuel with
  | O => None
  | S fuel =>
      match frames_next (fuel_for s) s with
      | None => None
      | Some (Err e) => Some ([], Err e)
      | Some (Ok None) => Some ([], Ok tt)
      | Some (Ok (Some (frame, s))) => (λ '(fs, r), (frame :: fs, r)) <$> frames_all fuel s
      end
  end.

(** ** Reference definition

    The end of the first blank line of [b], when [at_start] says whether [b]
    begins at the start of a line.  A final CR counts only at the end of the
    stream, since an LF may follow it. *)
Fixpoint first_blank (eof at_start : bool) (b : Bytes) : option nat :=
  match b with
  | [] => None
  | c :: b' =>
      if Ascii.eqb c newline then if at_start then Some 1 else S <$> first_blank eof true b'
      else if Ascii.eqb c carriage_return then
        match b' with
        | [] => if eof && at_start then Some 1 else None
        | d :: b'' =>
            if Ascii.eqb d newline then if at_start then Some 2 else (λ n, S (S n)) <$> first_blank eof true b''
            else if at_start then Some 1 else S <$> first_blank eof true b'
        end
      else S <$> first_blank eof false b'
  end.

(** What the next frame of a whole byte sequence [b] is, when [b] ends with the
    end of the stream or with the transport error [tail]: the length of the
    frame, the end, or an error. *)
Definition frame_step (limit : nat) (b : Bytes) (tail : option E) : result (option nat) StreamError :=
  match first_blank false true (take limit b) with
  | Some n => Ok (Some n)
  | None =>
      if limit <=? length b then Err (fail "sse_frame_limit")
      else match tail with
           | Some e => Err (transport e)
           | None =>
               match b with
               | [] => Ok None
               | _ => match first_blank true true b with
                      | Some n => Ok (Some n)
                      | None => Err (fail "incomplete_sse_frame")
                      end
               end
           end
  end.

(** All the frames of [b], and how its stream ends. *)
Fixpoint frames_spec (fuel limit : nat) (b : Bytes) (tail : option E)
  : option (list Bytes * result unit StreamError) :=
  match fuel with
  | O => None
  | S fuel =>
      match frame_step limit b tail with
      | Ok (Some n) => (λ '(fs, r), (take n b :: fs, r)) <$> frames_spec fuel limit (drop n b) tail
      | Ok None => Some ([], Ok tt)
      | Err e => Some ([], Err e)
      end
  end.

(** The bytes a source delivers, and the error that cuts it short. *)
Fixpoint source_bytes (src : list (result Bytes E)) : Bytes :=
  match src with
  | Ok b :: src => b ++ source_bytes src
  | _ => []
  end.
Fixpoint source_error (src : list (result Bytes E)) : option E :=
  match src with
  | Ok _ :: src => source_error src
  | Err e :: _ => Some e
  | [] => None
  end.

(** ** The scan agrees with the reference *)

Lemma first_blank_bounds eof st b n : first_blank eof st b = Some n → 1 ≤ n ≤ length b.
Proof.
  revert st n. induction b as [b IH] using (induction_ltof1 _ (@length ascii)).
  unfold ltof in IH. destruct b as [|c b]; intros st n; cbn [first_blank length]; [done|].
  destruct (Ascii.eqb c newline).
  { destruct st; [intros [= <-]; lia|]. intros (m & Hm & ->)%fmap_Some. apply IH in Hm; simpl; lia. }
  destruct (Ascii.eqb c carriage_return).
  - destruct b as [|d b]; [destruct eof, st; simpl; intros [=]; lia|].
    destruct (Ascii.eqb d newline).
    { destruct st; [intros [= <-]; simpl; lia|]. intros (m & Hm & ->)%fmap_Some.
      apply IH in Hm; simpl; lia. }
    destruct st; [intros [= <-]; simpl; lia|]. intros (m & Hm & ->)%fmap_Some. apply IH in Hm; simpl in *; lia.
  - intros (m & Hm & ->)%fmap_Some. apply IH in Hm; simpl; lia.
Qed.

(** A blank line found before the end of the data stays the first one when
    more data arrives. *)
Lemma first_blank_app eof st a b n :
  first_blank false st a = Some n → first_blank eof st (a ++ b) = Some n.
Proof.
  revert st n. induction a as [a IH] using (induction_ltof1 _ (@length ascii)).
  unfold ltof in IH. destruct a as [|c a]; intros st n; cbn [first_blank app]; [done|].
  destruct (Ascii.eqb c newline).
  { destruct st; [done|]. intros (m & Hm & ->)%fmap_Some. rw (IH a _ true m) //. simpl; lia. }
  destruct (Ascii.eqb c carriage_return).
  - destruct a as [|d a]; [done|]. cbn [app]. destruct (Ascii.eqb d newline).
    { destruct st; [done|]. intros (m & Hm & ->)%fmap_Some. rw (IH a _ true m) //. simpl; lia. }
    destruct st; [done|]. intros (m & Hm & ->)%fmap_Some.
    rw (IH (d :: a) _ true m) //. simpl; lia.
  - intros (m & Hm & ->)%fmap_Some. rw (IH a _ false m) //. simpl; lia.
Qed.

(** Scanning may resume at [scan]: whatever arrives next, the answer is the
    one of a scan from the start.  At the end of the stream nothing arrives. *)
Definition resumable (eof : bool) (pending : Bytes) (scan line_start : nat) : Prop :=
  line_start ≤ scan ≤ length pending ∧
  ∀ more eof', (eof = true → more = [] ∧ eof' = true) →
    first_blank eof' true (pending ++ more)
    = (λ n, scan + n) <$> first_blank eof' (scan =? line_start) (drop scan pending ++ more).

Lemma resumable_init eof b : resumable eof b 0 0.
Proof. split; [lia|]. intros more eof' _. simpl. by destruct (first_blank _ _ _). Qed.

Lemma resumable_app b more scan line_start :
  resumable false b scan line_start → resumable false (b ++ more) scan line_start.
Proof.
  intros [Hle H]. split; [rw length_app; lia|]. intros more' eof' _.
  rw -app_assoc H // drop_app_le; [|lia]. by rw -app_assoc.
Qed.

Lemma resumable_eof b scan line_start :
  resumable false b scan line_start → resumable true b scan line_start.
Proof. intros [Hle H]. split; [done|]. intros more eof' _. by apply H. Qed.

(** One step of the scan: the reference after [k] more bytes. *)
Lemma resumable_step eof b i ls i' ls' :
  resumable eof b i ls → ls' ≤ i' ≤ length b → i ≤ i' →
  (∀ more eof', (eof = true → more = [] ∧ eof' = true) →
     first_blank eof' (i =? ls) (drop i b ++ more)
     = (λ n, (i' - i) + n) <$> first_blank eof' (i' =? ls') (drop i' b ++ more)) →
  resumable eof b i' ls'.
Proof.
  intros [Hle H] Hle' Hi Hs. split; [done|]. intros more eof' Hm. rw H // Hs //.
  rw -option_fmap_compose. apply option_fmap_ext. intros n. simpl. lia.
Qed.

Lemma resumable_now eof b i ls :
  resumable eof b i ls →
  first_blank eof true b = (λ n, i + n) <$> first_blank eof (i =? ls) (drop i b).
Proof. intros [_ H]. specialize (H [] eof). rw !app_nil_r in H. by apply H. Qed.

Lemma first_blank_eqb c d : Ascii.eqb c d = bool_decide (c = d).
Proof. destruct (Ascii.eqb_spec c d); [by rw bool_decide_true|by rw bool_decide_false]. Qed.

Lemma is_byte_lookup (b : Bytes) i c x :
  b !! i = Some c → is_byte x (b !! i) = Ascii.eqb c x.
Proof. intros ->. rw /is_byte first_blank_eqb. apply bool_decide_ext. split; congruence. Qed.

Lemma take_frame_loop_spec eof b : ∀ fuel i ls,
  length b - i < fuel → resumable eof b i ls →
  ∃ r, take_frame_loop fuel eof b i ls = Some r ∧
    match r with
    | Found e => first_blank eof true b = Some e
    | NotFound i' ls' => first_blank eof true b = None ∧ resumable eof b i' ls'
    end.
Proof.
  induction fuel as [|fuel IH]; intros i ls Hf Hr; [lia|]. cbn [take_frame_loop].
  pose proof (resumable_now _ _ _ _ Hr) as Hnow. pose proof Hr as [Hle _].
  destruct (Nat.ltb_spec i (length b)) as [Hi|Hi]; cycle 1.
  { eexists; split; [done|]. split; [|done]. rw Hnow drop_ge //; lia. }
  destruct (lookup_lt_is_Some_2 b i Hi) as [c Hc]. rw !(is_byte_lookup b i c) //.
  pose proof (drop_S _ _ _ Hc) as Hd. rw Hd /= in Hnow.
  destruct (Ascii.eqb c newline) eqn:Hn.
  { destruct (i =? ls) eqn:Hls; [eexists; split; [done|]; by rw Hnow /= ?Nat.add_1_r|].
    apply IH; [lia|]. apply (resumable_step _ _ i ls); [done|lia..|]. intros more eof' Hm.
    rw Hd Hls Nat.eqb_refl /= Hn Nat.add_1_r. replace (S i - i) with 1 by lia. done. }
  destruct (Ascii.eqb c carriage_return) eqn:Hcr; cycle 1.
  { apply IH; [lia|]. apply (resumable_step _ _ i ls); [done|lia..|]. intros more eof' Hm.
    rw Hd /= Hn Hcr Nat.add_1_r. replace (S i - i) with 1 by lia.
    by replace (S i =? ls) with false by (symmetry; apply Nat.eqb_neq; lia). }
  destruct (Nat.eqb_spec (i + 1) (length b)) as [Hlast|Hnl]; simpl.
  - assert (Hdr : drop (S i) b = []) by (apply drop_ge; lia). rw Hdr in Hd Hnow. destruct eof; simpl in *; cycle 1.
    { eexists; split; [done|]. by rw Hnow. }
    rw (lookup_ge_None_2 b (i + 1)) /=; [|lia]. rw Nat.add_0_r.
    destruct (i =? ls) eqn:Hls; [eexists; split; [done|]; by rw Hnow /= Nat.add_1_r|].
    apply IH; [lia|]. apply (resumable_step _ _ i ls); [done|lia..|]. intros more eof' Hm.
    destruct (Hm eq_refl) as [-> ->].
    rw Hd Hls Nat.eqb_refl /= Hn Hcr drop_ge //; lia.
  - destruct (lookup_lt_is_Some_2 b (i + 1)) as [d Hd1]; [lia|]. rw (is_byte_lookup b _ d) //.
    rw Nat.add_1_r in Hd1 |- *. pose proof (drop_S _ _ _ Hd1) as Hd2. rw Hd2 /= in Hnow.
    destruct (Ascii.eqb d newline) eqn:Hdn; simpl.
    + rw Nat.add_1_r. destruct (i =? ls) eqn:Hls; [eexists; split; [done|]; rw Hnow /=; f_equal; lia|].
      apply IH; [lia|]. apply (resumable_step _ _ i ls); [done|lia..|]. intros more eof' Hm.
      rw Hd Hd2 Hls Nat.eqb_refl /= Hn Hcr Hdn. replace (S (S i) - i) with 2 by lia. done.
    + rw Nat.add_0_r. destruct (i =? ls) eqn:Hls; [eexists; split; [done|]; rw Hnow /=; f_equal; lia|].
      apply IH; [lia|]. apply (resumable_step _ _ i ls); [done|lia..|]. intros more eof' Hm.
      rw Hd Hd2 Hls Nat.eqb_refl. cbn [app first_blank]. rw Hn Hcr Hdn.
      by replace (S i - i) with 1 by lia.
Qed.

(** ** The splitter refines the reference *)

Definition state_bytes (s : FrameState) : Bytes := pending s ++ chunk s ++ source_bytes (source s).

Record frames_wf (s : FrameState) : Prop := {
  wf_resumable : resumable false (pending s) (scan s) (line_start s);
  wf_limit : length (pending s) ≤ limit s
}.

Lemma frames_init_wf src n : frames_wf (frames_init src n).
Proof. split; [apply resumable_init|simpl; lia]. Qed.

Lemma take_frame_spec eof s :
  resumable eof (pending s) (scan s) (line_start s) →
  match first_blank eof true (pending s) with
  | Some n =>
      take_frame eof s = Some (Some (take n (pending s)),
        mkFrames (source s) (chunk s) (drop n (pending s)) 0 0 (limit s))
  | None => ∃ i ls,
      take_frame eof s = Some (None, mkFrames (source s) (chunk s) (pending s) i ls (limit s))
      ∧ resumable eof (pending s) i ls
  end.
Proof.
  intros Hr. rw /take_frame.
  destruct (take_frame_loop_spec eof (pending s) (S (length (pending s) - scan s)) (scan s) (line_start s))
    as (r & -> & Hspec); [lia|done|].
  destruct r as [e|i ls]; [by rw Hspec|]. destruct Hspec as [-> Hr']. by exists i, ls.
Qed.

(** A found frame: the state keeps the bytes after it. *)
Lemma state_bytes_drop s n :
  n ≤ length (pending s) →
  take n (pending s) = take n (state_bytes s) ∧
  drop n (pending s) ++ chunk s ++ source_bytes (source s) = drop n (state_bytes s).
Proof. intros Hn. rw /state_bytes take_app_le // drop_app_le //. Qed.

Lemma frame_step_found s n :
  frames_wf s → first_blank false true (pending s) = Some n →
  frame_step (limit s) (state_bytes s) (source_error (source s)) = Ok (Some n).
Proof.
  intros [_ Hl] Hn. rw /frame_step /state_bytes take_app_ge //.
  by rw (first_blank_app false true (pending s) _ n).
Qed.

(** With nothing buffered beyond [pending] the bytes left are [pending]. *)
Lemma state_bytes_quiet s :
  chunk s = [] → source_bytes (source s) = [] → state_bytes s = pending s.
Proof. intros Hc Hs. rw /state_bytes Hc Hs. apply app_nil_r. Qed.

Lemma frame_step_quiet s tail :
  chunk s = [] → source_bytes (source s) = [] → length (pending s) < limit s →
  first_blank false true (pending s) = None →
  frame_step (limit s) (state_bytes s) tail =
  match tail with
  | Some e => Err (transport e)
  | None => match pending s with
            | [] => Ok None
            | _ => match first_blank true true (pending s) with
                   | Some n => Ok (Some n)
                   | None => Err (fail "incomplete_sse_frame")
                   end
            end
  end.
Proof.
  intros Hc Hs Hl Hn. rw state_bytes_quiet // /frame_step take_ge ?Hn; [|lia].
  destruct (Nat.leb_spec (limit s) (length (pending s))); [lia|done].
Qed.

Definition step_ok (s : FrameState) (r : result (option (Bytes * FrameState)) StreamError) : Prop :=
  match frame_step (limit s) (state_bytes s) (source_error (source s)) with
  | Err e => r = Err e
  | Ok None => r = Ok None
  | Ok (Some n) => ∃ s', r = Ok (Some (take n (state_bytes s), s')) ∧ frames_wf s' ∧
      state_bytes s' = drop n (state_bytes s) ∧
      source_error (source s') = source_error (source s) ∧ limit s' = limit s
  end.

(** Two states with the same bytes, tail and limit are at the same point. *)
Lemma step_ok_same s s2 r :
  state_bytes s2 = state_bytes s → source_error (source s2) = source_error (source s) →
  limit s2 = limit s → step_ok s2 r → step_ok s r.
Proof. rw /step_ok. by intros -> -> ->. Qed.

Lemma step_ok_emit s n :
  length (pending s) ≤ limit s →
  frame_step (limit s) (state_bytes s) (source_error (source s)) = Ok (Some n) →
  n ≤ length (pending s) →
  step_ok s (Ok (Some (take n (pending s),
    mkFrames (source s) (chunk s) (drop n (pending s)) 0 0 (limit s)))).
Proof.
  intros Hl Hstep Hn. rw /step_ok Hstep. destruct (state_bytes_drop s n Hn) as [-> Hd].
  eexists; split_and!; [done|split|exact Hd|done|done]; [apply resumable_init|].
  simpl. rw length_drop. lia.
Qed.

Lemma frames_next_spec : ∀ fuel s,
  frames_wf s → fuel_for s ≤ fuel → ∃ r, frames_next fuel s = Some r ∧ step_ok s r.
Proof.
  induction fuel as [|fuel IH]; intros s Hwf Hf; [rw /fuel_for in Hf; lia|].
  cbn [frames_next]. pose proof (take_frame_spec false s (wf_resumable _ Hwf)) as Ht.
  destruct (first_blank false true (pending s)) as [n|] eqn:Hn.
  { rw Ht. eexists; split; [done|]. apply (step_ok_emit s n); [apply Hwf|by apply frame_step_found|].
    by apply first_blank_bounds in Hn as [_ ?]. }
  destruct Ht as (i & ls & -> & Hr). cbn [limit pending chunk source scan line_start].
  destruct (Nat.leb_spec (limit s) (length (pending s))) as [Hl|Hl].
  { eexists; split; [done|]. pose proof (wf_limit _ Hwf) as Hle.
    rw /step_ok /frame_step /state_bytes take_app_length' ?Hn; [|lia].
    destruct (Nat.leb_spec (limit s) (length (pending s ++ chunk s ++ source_bytes (source s)))) as [|Hx];
      [done|]. rw length_app in Hx. lia. }
  destruct (chunk s) as [|c ch] eqn:Hch.
  - destruct (source s) as [|[b|e] src] eqn:Hsrc.
    + destruct (pending s) as [|c b] eqn:Hp; rw -?Hp in Hn Hl Hr |- *.
      { eexists; split; [done|]. rw /step_ok frame_step_quiet // Hsrc //. by rw Hp. }
      pose proof (take_frame_spec true (mkFrames [] [] (pending s) i ls (limit s))
                    (resumable_eof _ _ _ Hr)) as Ht.
      cbn [limit pending chunk source scan line_start] in Ht.
      destruct (first_blank true true (pending s)) as [n|] eqn:Hn'.
      * rw Ht -Hsrc -Hch. eexists; split; [done|].
        apply (step_ok_emit s n); [apply Hwf|by rw frame_step_quiet // Hsrc // {1}Hp Hn'|].
        by apply first_blank_bounds in Hn' as [_ ?].
      * destruct Ht as (? & ? & -> & _). eexists; split; [done|].
        by rw /step_ok frame_step_quiet // Hsrc // {1}Hp Hn'.
    + destruct (IH (mkFrames src b (pending s) i ls (limit s))) as (r & -> & Hok).
      { split; [done|simpl; lia]. }
      { move: Hf. rw /fuel_for Hsrc Hch /source_cost /=. lia. }
      eexists; split; [done|]. apply (step_ok_same s) in Hok; [done|..]; by rw /state_bytes /= ?Hsrc ?Hch.
    + eexists; split; [done|]. by rw /step_ok frame_step_quiet // Hsrc.
  - set (n := (limit s - length (pending s)) `min` length (c :: ch)).
    destruct (IH (mkFrames (source s) (drop n (c :: ch)) (pending s ++ take n (c :: ch)) i ls (limit s)))
      as (r & -> & Hok).
    { split; [by apply resumable_app|]. simpl pending. simpl limit.
      rw length_app length_take. lia. }
    { move: Hf. rw /fuel_for Hch. cbn [source chunk]. rw length_drop. subst n. simpl length. lia. }
    eexists; split; [done|]. apply (step_ok_same s) in Hok; [done|..|done|done].
    rw /state_bytes Hch. cbn [source chunk pending].
    by rw -(app_assoc (pending s)) (app_assoc (take n _)) take_drop.
Qed.

Lemma frames_all_refines fuel : ∀ s,
  frames_wf s → frames_all fuel s = frames_spec fuel (limit s) (state_bytes s) (source_error (source s)).
Proof.
  induction fuel as [|fuel IH]; intros s Hwf; [done|]. cbn [frames_all frames_spec].
  destruct (frames_next_spec (fuel_for s) s Hwf) as (r & -> & Hok); [done|]. rw /step_ok in Hok.
  destruct (frame_step _ _ _) as [[n|]|e]; [|by rw Hok..].
  destruct Hok as (s' & -> & Hwf' & Hb & He & Hlim). by rw IH // Hb He Hlim.
Qed.

Lemma first_blank_take eof st b n :
  first_blank eof st b = Some n → first_blank true st (take n b) = Some n.
Proof.
  revert st n. induction b as [b IH] using (induction_ltof1 _ (@length ascii)).
  unfold ltof in IH. destruct b as [|c b]; intros st n; cbn [first_blank]; [done|].
  destruct (Ascii.eqb c newline) eqn:Hc.
  { destruct st; [intros [= <-]|intros (m & Hm & ->)%fmap_Some]; cbn [take first_blank]; rw Hc //.
    rw (IH b) //. simpl; lia. }
  destruct (Ascii.eqb c carriage_return) eqn:Hr.
  - destruct b as [|d b].
    { destruct eof, st; try done. intros [= <-]. cbn [take first_blank]. by rw Hc Hr. }
    destruct (Ascii.eqb d newline) eqn:Hd.
    { destruct st; [intros [= <-]|intros (m & Hm & ->)%fmap_Some]; cbn [take first_blank];
        rw Hc Hr Hd //. rw (IH b) //. simpl; lia. }
    destruct st; [intros [= <-]; cbn [take first_blank]; by rw Hc Hr|].
    intros (m & Hm & ->)%fmap_Some. apply first_blank_bounds in Hm as Hb.
    destruct m as [|m]; [lia|]. apply IH in Hm; [|simpl; lia].
    cbn [take first_blank] in Hm |- *. rw Hd in Hm |- *. by rw Hc Hr Hm.
  - intros (m & Hm & ->)%fmap_Some. cbn [take first_blank]. rw Hc Hr (IH b) //. simpl; lia.
Qed.

(** A frame: its only blank line is its last line. *)
Definition is_frame (f : Bytes) : Prop := first_blank true true f = Some (length f).

Lemma frame_step_Some lim b tail n :
  frame_step lim b tail = Ok (Some n) → 1 ≤ n ≤ length b ∧ n ≤ lim ∧ is_frame (take n b).
Proof.
  rw /frame_step. destruct (first_blank false true (take lim b)) as [m|] eqn:Hm.
  - intros [= ->]. apply first_blank_bounds in Hm as Hb. rw length_take in Hb.
    apply first_blank_take in Hm. rw take_take Nat.min_l in Hm; [|lia].
    split_and!; try lia. rw /is_frame length_take Nat.min_l //; lia.
  - destruct (Nat.leb_spec lim (length b)); [done|]. destruct tail; [done|]. destruct b as [|c b]; [done|].
    destruct (first_blank true true (c :: b)) as [m|] eqn:Hm'; [|done]. intros [= ->].
    apply first_blank_bounds in Hm' as Hb. apply first_blank_take in Hm'.
    split_and!; try lia. rw /is_frame length_take Nat.min_l //; lia.
Qed.

Lemma frames_spec_total : ∀ fuel lim b tail,
  length b < fuel → ∃ fs r, frames_spec fuel lim b tail = Some (fs, r).
Proof.
  induction fuel as [|fuel IH]; intros lim b tail Hf; [lia|]. cbn [frames_spec].
  destruct (frame_step lim b tail) as [[n|]|e] eqn:Hs; [|by eauto..].
  apply frame_step_Some in Hs as [Hn _].
  destruct (IH lim (drop n b) tail) as (fs & r & ->); [rw length_drop; lia|]. by eauto.
Qed.

Lemma frames_spec_sound : ∀ fuel lim b tail fs r,
  frames_spec fuel lim b tail = Some (fs, r) →
  (∃ rest, b = concat fs ++ rest ∧ (r = Ok tt → rest = [] ∧ tail = None)) ∧
  Forall (λ f, is_frame f ∧ length f ≤ lim) fs.
Proof.
  induction fuel as [|fuel IH]; intros lim b tail fs r; [done|]. cbn [frames_spec].
  destruct (frame_step lim b tail) as [[n|]|e] eqn:Hs.
  - destruct (frames_spec fuel lim (drop n b) tail) as [[fs' r']|] eqn:Hf; [|done].
    intros [= <- <-]. apply IH in Hf as [(rest & Hb & Hr) Hall].
    apply frame_step_Some in Hs as (Hn & Hl & Hfr). split; [|constructor; [|done]].
    + exists rest. split; [|done]. by rw /= -app_assoc -Hb take_drop.
    + split; [done|]. rw length_take. lia.
  - intros [= <- <-]. split; [|done]. exists b. split; [done|]. intros _. move: Hs. rw /frame_step.
    repeat (case_match; try done).
  - intros [= <- <-]. split; [|done]. exists b. done.
Qed.
End frames.

Arguments StreamError : clear implicits.
Arguments FrameState : clear implicits.

(** ** Reading an upstream event stream *)

(** [str::split(['\r', '\n'])]. *)
Fixpoint split_eol (cur s : string) : list string :=
  match s with
  | EmptyString => [cur]
  | String c s' =>
      if Ascii.eqb c carriage_return || Ascii.eqb c newline then cur :: split_eol "" s'
      else split_eol (cur ++ String c "") s'
  end.

(** [trim_start_matches('\u{feff}')]: the three bytes of the byte order mark. *)
Fixpoint trim_bom (s : string) : string :=
  match s with
  | String a (String b (String c s')) =>
      if ((byte_of a =? 239) && (byte_of b =? 187) && (byte_of c =? 191))%Z then trim_bom s' else s
  | _ => s
  end.

Definition data_of_line (line : string) : option string :=
  (λ v, default v (strip_prefix " " v)) <$> strip_prefix "data:" line.

(* src: ai-gateway/src/dispatcher/downstream_heartbeat.rs:213-221 upstream_sse *)
Definition frame_data (text : string) : string :=
  str_join (String newline "") (omap data_of_line (split_eol "" (trim_bom text))).

Section upstream.
Context {E : Type} (from_str : string → option Value).

Definition terminal_types : list string :=
  ["response.completed"; "response.failed"; "response.incomplete"; "message_stop"]%string.

(* src: ai-gateway/src/dispatcher/downstream_heartbeat.rs:226-239 upstream_sse *)
Definition is_terminal (data : string) : bool :=
  match from_str data with
  | None => false
  | Some v =>
      bool_decide (is_Some (get "error" v))
      || match get "type" v ≫= as_str with
         | Some t => bool_decide (t ∈ terminal_types)
         | None => false
         end
  end.

(** The events a client of the returned stream receives, given the frames of
    the response and how they end. *)
(* src: ai-gateway/src/dispatcher/downstream_heartbeat.rs:204-245 upstream_sse *)
Fixpoint upstream_events (frames : list Bytes) (ending : result unit (StreamError E))
  : list string * result unit (StreamError E) :=
  match frames with
  | [] => ([], match ending with Ok _ => Err (fail "upstream_stream_incomplete") | Err e => Err e end)
  | frame :: frames =>
      let text := String.string_of_list_ascii frame in
      if negb (utf8_valid text) then ([], Err (fail "invalid_sse_utf8"))
      else
        let data := frame_data text in
        if String.eqb data "[DONE]" then ([], Ok tt)
        else if is_empty data then upstream_events frames ending
        else if is_terminal data then ([data], Ok tt)
        else let '(events, r) := upstream_events frames ending in (data :: events, r)
  end.

Definition before_semicolon (s : string) : string :=
  match split_once ";" s with Some (a, _) => a | None => s end.

Definition is_success (status : Z) : bool := (200 <=? status)%Z && (status <? 300)%Z.

(** [send] is the transport's answer: a status, the content type and the body. *)
(* src: ai-gateway/src/dispatcher/downstream_heartbeat.rs:169-246 upstream_sse *)
Definition upstream_sse (send : result (Z * option string * list (result Bytes E)) E) (limit : nat)
  : option (result (list string * result unit (StreamError E)) (StreamError E)) :=
  match send with
  | Err e => Some (Err (transport e))
  | Ok (status, content_type, body) =>
      if negb (is_success status) then
        Some (Err (UpstreamError status "upstream stream request failed"))
      else if negb (match content_type ≫= to_str with
                    | Some s => eq_ignore_ascii_case (trim (before_semicolon s)) "text/event-stream"
                    | None => false
                    end) then Some (Err (fail "invalid_sse_content_type"))
      else (λ '(fs, ending), Ok (upstream_events fs ending))
           <$> frames_all (S (length (source_bytes body))) (frames_init body limit)
  end.
End upstream.

(** ** Response bodies with heartbeats *)

Definition bytes_of (s : string) : Bytes := String.list_ascii_of_string s.
Definition lf : string := String newline "".

(* src: ai-gateway/src/dispatcher/downstream_heartbeat.rs:247-255 heartbeat *)
Definition heartbeat (mode : Mode) : Bytes :=
  match mode with
  | Sse => bytes_of (": alephant heartbeat" ++ lf ++ lf)
  | Json => bytes_of lf
  end.

Section bodies.
Context {E : Type}.
(** [serde_json::to_vec] and [serde_json::from_slice]. *)
Context (to_vec : Value → string) (from_slice : string → option Value).
(** Whether a number is not zero, for [classify_business_failure]. *)
Context (nonzero : string → bool).

(* src: ai-gateway/src/dispatcher/downstream_heartbeat.rs:256-258 error_json *)
Definition error_value (status : Z) : Value :=
  Object [("error", Object [("type", Str "server_error"); ("code", Str "upstream_request_failed");
                            ("message", Str "The upstream request did not complete successfully.")]);
          ("gateway_status", Number (pretty status))]%string.

Definition error_json (status : Z) : Bytes := bytes_of (to_vec (error_value status)).

(* src: ai-gateway/src/dispatcher/downstream_heartbeat.rs:259-264 terminal_sse *)
Definition terminal_sse (status : Z) : Bytes :=
  bytes_of "data: " ++ error_json status ++ bytes_of (lf ++ lf ++ "data: [DONE]" ++ lf ++ lf).

(** One poll of the unfolded body.  [timer] says that the sleep finishes before
    the next frame is there; the outer [None] is a splitter out of fuel. *)
(* src: ai-gateway/src/dispatcher/downstream_heartbeat.rs:265-288 sse_body *)
Definition sse_body_poll (timer : bool) (state : option (FrameState E))
  : option (option (Bytes * option (FrameState E))) :=
  match state with
  | None => Some None
  | Some stream =>
      if timer then Some (Some (heartbeat Sse, Some stream))
      else match frames_next (fuel_for stream) stream with
           | None => None
           | Some (Ok (Some (frame, stream))) => Some (Some (frame, Some stream))
           | Some (Err _) => Some (Some (terminal_sse 502, None))
           | Some (Ok None) => Some None
           end
  end.

(** The chunks of a body polled once for each entry of [timers]. *)
Fixpoint sse_body_run (timers : list bool) (state : option (FrameState E)) : option (list Bytes) :=
  match timers with
  | [] => Some []
  | timer :: timers =>
      match sse_body_poll timer state with
      | None => None
      | Some None => Some []
      | Some (Some (chunk, state)) => cons chunk <$> sse_body_run timers state
      end
  end.

(** A body: the chunks of the upstream, or one with heartbeats between frames. *)
Inductive Body := Plain (chunks : list (result Bytes E)) | Kept (state : option (FrameState E)).

Definition body_poll (timer : bool) (b : Body) : option (option (result Bytes E * Body)) :=
  match b with
  | Plain [] => Some None
  | Plain (c :: rest) => Some (Some (c, Plain rest))
  | Kept state =>
      match sse_body_poll timer state with
      | None => None
      | Some None => Some None
      | Some (Some (c, state)) => Some (Some (Ok c, Kept state))
      end
  end.

(** A response, as far as this module looks at it. *)
Record Response := mkResponse {
  status : Z;
  headers : HeaderMap;
  (** the extension [OriginalUpstreamStatus] *)
  original_upstream_status : option Z;
  body : Body
}.

(** The chunks of a body that is not wrapped; [established] runs once, on the
    dispatcher's response. *)
Definition chunks_of (b : Body) : list (result Bytes E) :=
  match b with Plain chunks => chunks | Kept _ => [] end.

(* src: ai-gateway/src/dispatcher/downstream_heartbeat.rs:289-310 established *)
Definition established (active : Active) (r : Response) : Response :=
  if bool_decide (mode active = Sse) && is_success (status r)
     && match header_str "content-type" (headers r) with
        | Some v => starts_with "text/event-stream" v
        | None => false
        end
  then mkResponse (status r)
         (hinsert "cache-control" "no-store, no-transform"
            (hinsert "x-accel-buffering" "no" (hremove "content-length" (headers r))))
         (original_upstream_status r)
         (Kept (Some (frames_init (chunks_of (body r)) (Z.to_nat (max_frame_bytes (config active))))))
  else r.

(** [Limited::new(body, limit).collect()]: an error of the body, or more bytes
    than the limit, fails. *)
Fixpoint collect_limited (limit : Z) (chunks : list (result Bytes E)) : option Bytes :=
  match chunks with
  | [] => Some []
  | Ok b :: rest =>
      if (limit <? Z.of_nat (length b))%Z then None
      else app b <$> collect_limited (limit - Z.of_nat (length b)) rest
  | Err _ :: _ => None
  end.

Definition with_statuses (r : Response) (value : Value) : Value :=
  let value := match original_upstream_status r with
               | Some s => set_field "upstream_status" (Number (pretty s)) value
               | None => value
               end in
  set_field "gateway_status" (Number (pretty (status r))) value.

Context (is_json : Response → bool).

(** The body of the fixed error is parsed back from its own text before the
    statuses are set; here it is the value itself. *)
(* src: ai-gateway/src/dispatcher/downstream_heartbeat.rs:311-368 final_json *)
Definition final_json (r : Response) : Bytes :=
  if negb (is_success (status r)) then
    let failure :=
      match collect_limited MAX_PROBE_BYTES (chunks_of (body r)) with
      | Some b => classify_business_failure from_slice nonzero (String.string_of_list_ascii b)
      | None => None
      end in
    match failure with
    | Some failure => bytes_of (to_vec (with_statuses r (public_body failure)))
    | None => bytes_of (to_vec (with_statuses r (error_value (status r))))
    end
  else if negb (is_json r) then error_json 502
  else match collect_limited (32 * 1024 * 1024) (chunks_of (body r)) with
       | Some bytes =>
           if bool_decide (is_Some (from_slice (String.string_of_list_ascii bytes))) then bytes
           else error_json 502
       | None => error_json 502
       end.

(** In JSON mode the awaited operation includes the whole body. *)
(* src: ai-gateway/src/dispatcher/downstream_heartbeat.rs:373-386 respond *)
Definition respond_future (mode : Mode) (outcome : result Response (StreamError E))
  : result Response (StreamError E) :=
  match mode, outcome with
  | Json, Ok r =>
      match collect_limited (32 * 1024 * 1024) (chunks_of (body r)) with
      | None => Err (fail "response_body_limit")
      | Some b => Ok (mkResponse (status r) (headers r) (original_upstream_status r) (Plain [Ok b]))
      end
  | _, _ => outcome
  end.

(** The state of an early body; the pending future is its outcome. *)
(* src: ai-gateway/src/dispatcher/downstream_heartbeat.rs:397-401 State *)
Inductive State := Waiting (first : bool) | Streaming (stream : Body) | Done.

Definition bad_gateway : Response := mkResponse 502 ∅ None (Plain []).

(** What one poll meets: [tick], the sleep finishes before the future, and
    [inner], the sleep of a wrapped body finishes before its next frame. *)
Record Poll := mkPoll { tick : bool; inner : bool }.

Definition poll_stream (inner : bool) (stream : Body) : option (option (Bytes * State)) :=
  match body_poll inner stream with
  | None => None
  | Some (Some (Ok bytes, stream)) => Some (Some (bytes, Streaming stream))
  | Some (Some (Err _, _)) => Some (Some (terminal_sse 502, Done))
  | Some None => Some None
  end.

(* src: ai-gateway/src/dispatcher/downstream_heartbeat.rs:404-435 respond *)
Definition respond_poll (active : Active) (outcome : result Response (StreamError E))
    (p : Poll) (state : State) : option (option (Bytes * State)) :=
  match state with
  | Waiting true => Some (Some (heartbeat (mode active), Waiting false))
  | Waiting false =>
      if tick p then Some (Some (heartbeat (mode active), Waiting false))
      else
        let response := match outcome with Ok r => r | Err _ => bad_gateway end in
        if bool_decide (mode active = Json) then Some (Some (final_json response, Done))
        else if negb (is_success (status response)) then
          Some (Some (terminal_sse (status response), Done))
        else poll_stream (inner p) (body (established active response))
  | Streaming stream => poll_stream (inner p) stream
  | Done => Some None
  end.

(** The chunks of the early body for a sequence of polls, and whether it ended. *)
Fixpoint respond_run (active : Active) (outcome : result Response (StreamError E))
    (polls : list Poll) (state : State) : option (list Bytes * bool) :=
  match polls with
  | [] => Some ([], false)
  | p :: polls =>
      match respond_poll active outcome p state with
      | None => None
      | Some None => Some ([], true)
      | Some (Some (chunk, state)) =>
          (λ '(cs, e), (chunk :: cs, e)) <$> respond_run active outcome polls state
      end
  end.

(** The answer: a response of the dispatcher, or status 200 with an early body
    whose chunks [respond_run] gives. *)
Inductive Answer := Direct (r : Response) | Early (headers : HeaderMap).

(* src: ai-gateway/src/dispatcher/downstream_heartbeat.rs:369-451 respond *)
Definition respond (active : Active) (outcome : result Response (StreamError E)) (ready_first : bool)
  : result Answer (StreamError E) :=
  let future := respond_future (mode active) outcome in
  let early := bool_decide (mode active = Json) || early_sse (config active) in
  if negb early || ready_first then
    match future with Ok r => Ok (Direct (established active r)) | Err e => Err e end
  else
    Ok (Early
      (hinsert "x-alephant-heartbeat" "true" (hinsert "x-accel-buffering" "no"
         (hinsert "cache-control" "no-store, no-transform"
            (hinsert "content-type" (match mode active with Sse => "text/event-stream" | Json => "application/json" end)
               ∅))))).
End bodies.

(** ** Heartbeats and the frames around them *)

Lemma heartbeat_is_frame : is_frame (heartbeat Sse).
Proof. reflexivity. Qed.

Lemma heartbeat_no_data : frame_data (String.string_of_list_ascii (heartbeat Sse)) = "".
Proof. reflexivity. Qed.

(** The chunks of a body whose frames are [fs], with a heartbeat at each [true]
    and the chunk [last], if any, at its end. *)
Fixpoint interleave (timers : list bool) (fs : list Bytes) (last : option Bytes) : list Bytes :=
  match timers with
  | [] => []
  | true :: timers => heartbeat Sse :: interleave timers fs last
  | false :: timers =>
      match fs, last with
      | f :: fs, _ => f :: interleave timers fs last
      | [], Some l => [l]
      | [], None => []
      end
  end.

Section body_lemmas.
Context {E : Type} (to_vec : Value → string).

Definition last_chunk (r : result unit (StreamError E)) : option Bytes :=
  match r with Ok _ => None | Err _ => Some (terminal_sse to_vec 502) end.

Lemma sse_body_run_done timers : sse_body_run (E := E) to_vec timers None = Some [].
Proof. by destruct timers. Qed.

Lemma sse_body_run_spec : ∀ timers fuel s fs r,
  frames_wf s → frames_spec fuel (limit s) (state_bytes s) (source_error (source s)) = Some (fs, r) →
  sse_body_run (E := E) to_vec timers (Some s) = Some (interleave timers fs (last_chunk r)).
Proof.
  induction timers as [|[] timers IH]; intros fuel s fs r Hwf Hspec; [done|..]; cbn [sse_body_run sse_body_poll].
  { by rw (IH fuel s fs r). }
  destruct fuel as [|fuel]; [done|]. cbn [frames_spec] in Hspec.
  destruct (frames_next_spec (fuel_for s) s Hwf) as (o & -> & Hok); [done|]. rw /step_ok in Hok.
  destruct (frame_step _ _ _) as [[n|]|e].
  - destruct Hok as (s' & -> & Hwf' & Hb & He & Hl). rw -He -Hb -Hl in Hspec.
    destruct (frames_spec _ _ _ _) as [[fs' r']|] eqn:Hs; [|done].
    simpl in Hspec. injection Hspec as <- <-. by rw (IH fuel s' fs' r').
  - rw Hok. by injection Hspec as <- <-.
  - rw Hok sse_body_run_done. by injection Hspec as <- <-.
Qed.
End body_lemmas.

Lemma omap_cons {A B} (g : A → option B) x l :
  omap g (x :: l) = match g x with Some y => y :: omap g l | None => omap g l end.
Proof. done. Qed.

Lemma interleave_data {A} (g : Bytes → option A) timers fs last :
  g (heartbeat Sse) = None →
  omap g (interleave timers fs last) = omap g (interleave (filter (λ t, t = false) timers) fs last).
Proof.
  intros Hh. revert fs. induction timers as [|[] timers IH]; intros fs; [done|..].
  - rw filter_cons_False // -IH. cbn [interleave]. by rw omap_cons Hh.
  - rw filter_cons_True //. cbn [interleave]. destruct fs as [|f fs]; [done|].
    by rw !omap_cons IH.
Qed.

(** ** Theorems *)

Lemma frames_all_total {E} (src : list (result Bytes E)) (lim : nat) :
  ∃ fs r, frames_all (S (length (source_bytes src))) (frames_init src lim) = Some (fs, r).
Proof.
  rw frames_all_refines; [|apply frames_init_wf]. apply frames_spec_total.
  rw /state_bytes /=. lia.
Qed.

(** How the transport cuts the bytes into chunks does not
    matter: the splitter always comes to an end, within a fuel computed from
    the source, whatever its chunks, empty chunks and errors; and the frames
    and the ending are those of the reference definition on the whole byte
    sequence, for every source and limit. *)
Theorem frames_chunking_irrelevant {E} (src : list (result Bytes E)) (lim : nat) :
  (∃ fs r, frames_all (S (length (source_bytes src))) (frames_init src lim) = Some (fs, r))
  ∧ ∀ fuel, frames_all fuel (frames_init src lim) = frames_spec fuel lim (source_bytes src) (source_error src).
Proof.
  split; [apply frames_all_total|]. intros fuel. by rw frames_all_refines; [|apply frames_init_wf].
Qed.

(** No byte is lost, duplicated or reordered: the frames are, in
    order, a prefix of the bytes received, the whole of them when the stream
    ends well; every frame fits the limit and contains one blank line, its
    last. *)
Theorem frames_partition {E} (src : list (result Bytes E)) (lim fuel : nat) fs r :
  frames_all fuel (frames_init src lim) = Some (fs, r) →
  (∃ rest, source_bytes src = concat fs ++ rest ∧ (r = Ok tt → rest = [] ∧ source_error src = None)) ∧
  Forall (λ f, is_frame f ∧ length f ≤ lim) fs.
Proof. rw frames_all_refines; [|apply frames_init_wf]. apply frames_spec_sound. Qed.

Definition demo_source : list (result Bytes unit) :=
  [Ok (bytes_of "data: a"); Ok []; Ok (bytes_of (String carriage_return lf ++ String carriage_return ""));
   Ok (bytes_of (lf ++ "b" ++ lf ++ lf))].

Definition demo_frames : list Bytes :=
  [bytes_of ("data: a" ++ String carriage_return lf ++ String carriage_return lf); bytes_of ("b" ++ lf ++ lf)].

Lemma frames_partition_witness :
  frames_all 30 (frames_init demo_source 16) = Some (demo_frames, Ok tt) ∧
  source_bytes demo_source = concat demo_frames.
Proof.
  assert (H : frames_all 30 (frames_init demo_source 16) = Some (demo_frames, Ok tt))
    by (vm_compute; reflexivity).
  split; [exact H|].
  destruct (frames_partition demo_source 16 30 demo_frames (Ok tt) H) as [(rest & -> & Hr) _].
  destruct (Hr eq_refl) as [-> _]. apply app_nil_r.
Defined.

(** What a reader of the event stream takes from one chunk of the body. *)
Definition chunk_event (chunk : Bytes) : option string :=
  let data := frame_data (String.string_of_list_ascii chunk) in
  if is_empty data then None else Some data.

(** Heartbeats go between frames only and change no event: for
    every source, limit and timing of the timer, the body is the frames in
    order with heartbeat comments between them and, after an error, the
    terminal error chunk; a reader of its chunks gets the events of the body
    in which the timer never fires. *)
Theorem sse_body_transparent {E} to_vec (src : list (result Bytes E)) (lim : nat) (timers : list bool) :
  ∃ fs r,
    frames_all (S (length (source_bytes src))) (frames_init src lim) = Some (fs, r) ∧
    sse_body_run to_vec timers (Some (frames_init src lim))
      = Some (interleave timers fs (last_chunk to_vec r)) ∧
    omap chunk_event (interleave timers fs (last_chunk to_vec r))
      = omap chunk_event (interleave (filter (λ t, t = false) timers) fs (last_chunk to_vec r)).
Proof.
  pose proof (frames_init_wf src lim) as Hwf.
  destruct (frames_spec_total (S (length (source_bytes src))) lim (source_bytes src) (source_error src))
    as (fs & r & Hspec); [lia|].
  exists fs, r. rw frames_all_refines // . split_and!; [done|by eapply sse_body_run_spec|].
  by apply interleave_data.
Qed.

Lemma upstream_events_ok {E} from_str (fs : list Bytes) (ending : result unit (StreamError E)) events :
  upstream_events from_str fs ending = (events, Ok tt) →
  ∃ f, f ∈ fs ∧ let data := frame_data (String.string_of_list_ascii f) in
                data = "[DONE]"%string ∨ is_terminal from_str data = true.
Proof.
  revert events. induction fs as [|f fs IH]; intros events; cbn [upstream_events]; [by destruct ending|].
  destruct (utf8_valid _); cbn [negb]; [|done].
  destruct (String.eqb_spec (frame_data (String.string_of_list_ascii f)) "[DONE]") as [Hd|Hd].
  { intros _. exists f. split; [by left|]. by left. }
  destruct (is_empty _).
  { intros (g & Hg & HT)%IH. exists g. split; [by right|done]. }
  destruct (is_terminal _ _) eqn:Ht.
  { intros _. exists f. split; [by left|]. by right. }
  destruct (upstream_events from_str fs ending) as [ev r] eqn:Hev. intros [= <- ->].
  destruct (IH ev eq_refl) as (g & Hg & HT). exists g. split; [by right|done].
Qed.

(** A truncated upstream stream never looks complete: the
    gateway's reader ends without an error only after a frame that says so, a
    [DONE] marker, an error object or a final event type, and only for a
    successful response; every other ending is an error value. *)
Theorem upstream_sse_complete {E} from_str status content_type (body : list (result Bytes E)) lim events :
  upstream_sse from_str (Ok (status, content_type, body)) lim = Some (Ok (events, Ok tt)) →
  is_success status = true ∧
  ∃ fs r f, frames_all (S (length (source_bytes body))) (frames_init body lim) = Some (fs, r) ∧ f ∈ fs ∧
    let data := frame_data (String.string_of_list_ascii f) in
    data = "[DONE]"%string ∨ is_terminal from_str data = true.
Proof.
  cbn [upstream_sse]. destruct (is_success status); cbn [negb]; [|done]. case_match; [done|].
  destruct (frames_all _ _) as [[fs r]|]; [|done]. intros [= Hev]. split; [done|].
  apply upstream_events_ok in Hev as (f & Hf & Hd). by exists fs, r, f.
Qed.

Definition demo_stream : list (result Bytes unit) :=
  [Ok (bytes_of ("data: hello" ++ lf)); Ok (bytes_of (lf ++ "data: [DONE]" ++ lf ++ lf))].

Lemma upstream_sse_complete_witness :
  upstream_sse (λ _, None) (Ok (200%Z, Some "text/event-stream; charset=utf-8"%string, demo_stream)) 64
    = Some (Ok (["hello"%string], Ok tt)) ∧ is_success 200 = true.
Proof.
  assert (H : upstream_sse (λ _, None) (Ok (200%Z, Some "text/event-stream; charset=utf-8"%string, demo_stream)) 64
    = Some (Ok (["hello"%string], Ok tt))) by (vm_compute; reflexivity).
  split; [exact H|]. exact (proj1 (upstream_sse_complete _ _ _ _ _ _ H)).
Defined.

Section json_document.
Context {E : Type} (to_vec : Value → string) (from_slice : string → option Value).
Context (nonzero : string → bool) (is_json : Response (E := E) → bool).
(** [serde_json] reads back what it has written. *)
Hypothesis written_parses : ∀ v, is_Some (from_slice (to_vec v)).

Lemma string_bytes_of s : String.string_of_list_ascii (bytes_of s) = s.
Proof. apply String.string_of_list_ascii_of_string. Qed.

Lemma final_json_parses r :
  is_Some (from_slice (String.string_of_list_ascii (final_json to_vec from_slice nonzero is_json r))).
Proof.
  assert (He : ∀ v, is_Some (from_slice (String.string_of_list_ascii (bytes_of (to_vec v)))))
    by (intros v; rw string_bytes_of; apply written_parses).
  rw /final_json /error_json.
  repeat first [apply He|case_match]; by bool_to_prop.
Qed.

Lemma respond_run_waits active outcome waits polls :
  mode active = Json → Forall (λ p, tick p = true) waits →
  respond_run to_vec from_slice nonzero is_json active outcome (waits ++ polls) (Waiting false)
  = (λ '(cs, e), (replicate (length waits) (heartbeat Json) ++ cs, e))
      <$> respond_run to_vec from_slice nonzero is_json active outcome polls (Waiting false).
Proof.
  intros Hm. induction 1 as [|p waits Hp _ IH]; cbn [app length replicate respond_run].
  - by destruct (respond_run _ _ _ _ _ _ _ _) as [[]|].
  - cbn [respond_poll]. rw Hp Hm IH. destruct (respond_run _ _ _ _ _ _ polls _) as [[]|]; reflexivity.
Qed.

(** A JSON client gets one JSON document: however long the
    dispatcher takes and whatever it answers, the early body is newlines (one
    at once, one for each interval waited) followed by exactly one document
    that parses, and then it ends. *)
Theorem respond_json_document active outcome first waits ready final :
  mode active = Json → Forall (λ p, tick p = true) waits → tick ready = false →
  ∃ doc,
    respond_run to_vec from_slice nonzero is_json active outcome
      (first :: waits ++ [ready; final]) (Waiting true)
    = Some (replicate (S (length waits)) (bytes_of lf) ++ [doc], true) ∧
    is_Some (from_slice (String.string_of_list_ascii doc)).
Proof.
  intros Hm Hw Hr.
  exists (final_json to_vec from_slice nonzero is_json (match outcome with Ok r => r | Err _ => bad_gateway end)).
  split; [|apply final_json_parses].
  cbn [respond_run respond_poll]. rw respond_run_waits // Hm.
  cbn [respond_run respond_poll]. by rw Hr Hm.
Qed.
End json_document.

Lemma respond_json_document_witness :
  ∃ doc, respond_run (E := unit) (λ _, "{}"%string) (λ _, Some Null) (λ _, true) (λ _, true)
    (mkActive default_config Json) (Err (fail "x")) [mkPoll false false; mkPoll true false; mkPoll false false; mkPoll false false]
    (Waiting true) = Some ([bytes_of lf; bytes_of lf; doc], true).
Proof.
  destruct (respond_json_document (E := unit) (λ _, "{}"%string) (λ _, Some Null) (λ _, true) (λ _, true)
    (λ _, mk_is_Some _ _ eq_refl) (mkActive default_config Json) (Err (fail "x"))
    (mkPoll false false) [mkPoll true false] (mkPoll false false) (mkPoll false false)) as (doc & H & _).
  - reflexivity.
  - repeat constructor.
  - reflexivity.
  - exists doc. exact H.
Defined.
