(* ===== verification/ModelSupport.v ===== *)
(** * The model-support middleware

    Models [ai-gateway/src/middleware/model_support] and the index of bare
    model names of [discover/router/bare_model_expand_index.rs]: every POST with
    a JSON [model] is checked against the catalog before it is routed, and a
    model without a provider prefix is resolved to the one provider that has it.

    [serde_json], the Redis client and the database queries are parameters. *)

From S2P Require Import Prelude RustStr Json Provider.
From Stdlib Require Import Ascii.
Local Open Scope string_scope.

(** ** Parsing the model field *)

(* src: ai-gateway/src/middleware/model_support/parse.rs:4-4 MODEL_SUPPORT_MAX_BODY_BYTES *)
Definition MODEL_SUPPORT_MAX_BODY_BYTES : Z := 1024 * 1024.

(* src: ai-gateway/src/middleware/model_support/parse.rs:6-10 ParsedProviderModel *)
Record ParsedProviderModel := mkParsed { provider_raw : string; model_raw : string }.

(* src: ai-gateway/src/middleware/model_support/parse.rs:27-38 split_provider_model *)
Definition split_provider_model (model : string) : result ParsedProviderModel unit :=
  match split_once "/" model with
  | None => Err tt
  | Some (a, b) =>
      let a := trim a in
      let b := trim b in
      if is_empty a || is_empty b then Err tt else Ok (mkParsed a b)
  end.

(* src: ai-gateway/src/middleware/model_support/parse.rs:42-48 catalog_redis_key *)
Definition catalog_redis_key (provider_raw model_raw : string) : string :=
  to_ascii_lowercase provider_raw ++ "::" ++ to_ascii_lowercase model_raw.

(** ** The index of bare model names *)

(* src: ai-gateway/src/discover/router/bare_model_expand_index.rs:10-13 BareModelExpandIndex *)
Definition BareModelExpandIndex := gmap string (list string).

(* src: ai-gateway/src/discover/router/bare_model_expand_index.rs:18-28 BareModelExpandIndex::push *)
Definition push (provider_code model_id_in_db : string) (inner : BareModelExpandIndex)
  : BareModelExpandIndex :=
  if is_empty model_id_in_db then inner
  else
    let key := to_ascii_lowercase model_id_in_db in
    let full := provider_code ++ "/" ++ model_id_in_db in
    let v := default [] (inner !! key) in
    <[key := if bool_decide (full ∈ v) then v else (v ++ [full])%list]> inner.

(* src: ai-gateway/src/discover/router/bare_model_expand_index.rs:32-37 gateway_models_for_bare_id *)
Definition gateway_models_for_bare_id (bare_trimmed : string) (inner : BareModelExpandIndex) : list string :=
  default [] (inner !! to_ascii_lowercase bare_trimmed).

(** ** Requests and answers *)

(* src: ai-gateway/src/types/extensions.rs:280-288 RequestKind *)
Inductive RequestKind :=
| Router | UnifiedApi | DirectProxy | CustomProvider | AgentEvents | AgentTools | X402Agent.

#[global] Instance RequestKind_eq_dec : EqDecision RequestKind.
Proof. solve_decision. Defined.

Inductive ApiError :=
| UnsupportedGatewayModel (model : string)
| AmbiguousBareModel (model_id : string) (candidates : list string)
| InternalError.

(* src: ai-gateway/src/middleware/model_support/service.rs:28-30 should_inspect_post_body *)
Definition should_inspect_post_body (method : string) : bool := String.eqb method "POST".

(* src: ai-gateway/src/middleware/model_support/service.rs:32-34 should_skip_model_support *)
Definition should_skip_model_support (request_kind : option RequestKind) : bool :=
  bool_decide (request_kind = Some UnifiedApi).

(* src: ai-gateway/src/middleware/model_support/service.rs:36-41 should_bypass_model_support_before_body_read *)
Definition should_bypass_model_support_before_body_read (request_kind : option RequestKind) : bool :=
  match request_kind with Some (AgentEvents | AgentTools) => true | _ => false end.

(* src: ai-gateway/src/endpoints/media.rs:16-21 is_media_path *)
Definition is_media_path (path : string) : bool :=
  let p := trim_start_matches "v1/" (trim_start_matches "/" path) in
  String.eqb p "audio/speech" || String.eqb p "audio/transcriptions" || String.eqb p "images/edits".

(* src: ai-gateway/src/middleware/model_support/service.rs:43-47 canonical_provider_code *)
Definition canonical_provider_code (provider_raw : string) : option string :=
  as_provider_code <$> result_ok (from_provider_code provider_raw).

(* src: ai-gateway/src/app_state.rs:272-282 AppState::provider_skips_model_mapping_catalog *)
Definition provider_skips_model_mapping_catalog (flags : gmap string bool) (p : InferenceProvider) : bool :=
  match p with
  | Named code =>
      if bool_decide (flags = ∅) then String.eqb code "openrouter" else default false (flags !! code)
  | _ => false
  end.

Definition candidate_allowed (allowed_providers : list InferenceProvider) (candidate : string) : bool :=
  match split_provider_model candidate with
  | Err _ => false
  | Ok parsed =>
      existsb (λ provider, eq_ignore_ascii_case (provider_raw parsed) (as_provider_code provider))
        allowed_providers
  end.

(* src: ai-gateway/src/middleware/model_support/service.rs:126-147 restrict_bare_model_candidates_to_allowed_providers *)
Definition restrict_bare_model_candidates_to_allowed_providers
    (candidates : list string) (allowed_providers : option (list InferenceProvider)) : list string :=
  match allowed_providers with
  | Some (p :: ps) => filter (λ candidate, candidate_allowed (p :: ps) candidate = true) candidates
  | _ => candidates
  end.

Definition all_digits (s : string) : bool := str_all is_ascii_digit s.

(* src: ai-gateway/src/middleware/model_support/service.rs:226-241 normalize_async_openai_claude_model *)
Definition normalize_async_openai_claude_model (model : string) : option string :=
  if negb (contains "claude-" model) then None
  else match rsplit_once "-" model with
       | None => None
       | Some (head, minor) =>
           if negb (all_digits minor) then None
           else match rsplit_once "-" head with
                | None => None
                | Some (prefix, major) =>
                    if negb (all_digits major) then None
                    else Some (prefix ++ "-" ++ major ++ "." ++ minor)
                end
       end.

Section model_support.
(** [serde_json]. *)
Context (from_slice : string → option Value) (to_vec : Value → string).
(** [AppRedis::key_exists], when Redis is configured; a failure is [Err]. *)
Context (redis : option (string → result bool unit)).
(** [gateway_model_pair_supported] and [find_providers_for_bare_model] of the
    router store, when it is configured. *)
Record Store := mkStore {
  pair_supported : string → string → result bool unit;
  find_providers : string → result (list (string * string)) unit
}.
Context (store : option Store).
(** The snapshots of the application state. *)
Context (index : BareModelExpandIndex) (is_router_flags : gmap string bool).

(* src: ai-gateway/src/middleware/model_support/parse.rs:15-23 model_field_from_json_body *)
Definition model_field_from_json_body (body : string) : option string :=
  match from_slice body with
  | None => None
  | Some v =>
      match get "model" v with
      | Some (Str s) => let t := trim s in if is_empty t then None else Some t
      | _ => None
      end
  end.

(** A failing lookup counts as absent. *)
Definition key_exists (client : string → result bool unit) (key : string) : bool :=
  match client key with Ok b => b | Err _ => false end.

(* src: ai-gateway/src/middleware/model_support/service.rs:57-94 gateway_model_supported *)
Definition in_redis (provider_raw model_raw : string) : bool :=
  match redis with
  | None => false
  | Some client =>
      if key_exists client (catalog_redis_key provider_raw model_raw) then true
      else match canonical_provider_code provider_raw with
           | Some canonical =>
               if eq_ignore_ascii_case canonical provider_raw then false
               else key_exists client (catalog_redis_key canonical model_raw)
           | None => false
           end
  end.

(* src: ai-gateway/src/middleware/model_support/service.rs:50-124 gateway_model_supported *)
Definition gateway_model_supported (provider_raw model_raw : string) : result bool ApiError :=
  if in_redis provider_raw model_raw then Ok true
  else match store with
       | None => Ok true
       | Some st =>
           let? supported := map_err (λ _, InternalError) (pair_supported st provider_raw model_raw) in
           if supported then Ok true
           else match canonical_provider_code provider_raw with
                | Some canonical =>
                    if eq_ignore_ascii_case canonical provider_raw then Ok false
                    else map_err (λ _, InternalError) (pair_supported st canonical model_raw)
                | None => Ok false
                end
       end.

(** [auth] is the request's [AuthContext]: its allowed providers. *)
(* src: ai-gateway/src/middleware/model_support/service.rs:149-169 is_router_master_key_bare_model_passthrough *)
Definition is_router_master_key_bare_model_passthrough
    (auth : option (option (list InferenceProvider))) (model : string) : bool :=
  if contains "/" model then false
  else match auth with
       | Some (Some [provider]) => provider_skips_model_mapping_catalog is_router_flags provider
       | _ => false
       end.

(* src: ai-gateway/src/middleware/model_support/service.rs:179-214 resolve_bare_model *)
Definition resolve_bare_model (bare_model_id : string) (allowed_providers : option (list InferenceProvider))
  : result string ApiError :=
  let candidates := gateway_models_for_bare_id bare_model_id index in
  let? candidates :=
    match candidates, store with
    | [], Some st =>
        let? rows := map_err (λ _, InternalError) (find_providers st bare_model_id) in
        Ok (map (λ '(code, model_id), code ++ "/" ++ model_id) rows)
    | _, _ => Ok candidates
    end in
  match restrict_bare_model_candidates_to_allowed_providers candidates allowed_providers with
  | [] => Err (UnsupportedGatewayModel bare_model_id)
  | [c] => Ok c
  | cs => Err (AmbiguousBareModel bare_model_id cs)
  end.

(* src: ai-gateway/src/middleware/model_support/service.rs:219-224 rewrite_model_in_body *)
Definition rewrite_model_in_body (body new_model : string) : option string :=
  match from_slice body with
  | None => None
  | Some v =>
      match get "model" v with
      | None => None
      | Some _ => Some (to_vec (set_field "model" (Str new_model) v))
      end
  end.

(* src: ai-gateway/src/middleware/model_support/service.rs:243-251 maybe_rewrite_async_openai_claude_model *)
Definition maybe_rewrite_async_openai_claude_model (user_agent body : string) : option string :=
  if negb (contains "AsyncOpenAI" user_agent) then None
  else match model_field_from_json_body body with
       | None => None
       | Some model =>
           match normalize_async_openai_claude_model model with
           | None => None
           | Some normalized => rewrite_model_in_body body normalized
           end
       end.

(** ** The middleware *)

Record Request := mkRequest {
  request_kind : option RequestKind;
  path : string;
  method : string;
  user_agent : option string;
  auth : option (option (list InferenceProvider))
}.

(** What reaches the inner service: the body as it came, or collected bytes. *)
Inductive Outcome := ForwardUnread | ForwardBytes (bytes : string) | Reject (e : ApiError).

(** The body of the loop, for a candidate model; it returns the bytes to forward. *)
(* src: ai-gateway/src/middleware/model_support/service.rs:841-882 ModelSupportService::call *)
Definition check_candidate (req : Request) (bytes candidate : string) : result string ApiError :=
  let supported_or model p :=
    let? supported := gateway_model_supported (provider_raw p) (model_raw p) in
    if supported then Ok tt else Err (UnsupportedGatewayModel model) in
  if bool_decide (request_kind req = Some DirectProxy) || contains "/" candidate then
    match split_provider_model candidate with
    | Err _ => Err (UnsupportedGatewayModel candidate)
    | Ok parsed => let? _ := supported_or candidate parsed in Ok bytes
    end
  else if is_router_master_key_bare_model_passthrough (auth req) candidate then Ok bytes
  else
    let? resolved := resolve_bare_model candidate (default None (auth req)) in
    let bytes := default bytes (rewrite_model_in_body bytes resolved) in
    match split_provider_model resolved with
    | Err _ => Err (UnsupportedGatewayModel resolved)
    | Ok parsed => let? _ := supported_or resolved parsed in Ok bytes
    end.

(** [Limited::new(body, MODEL_SUPPORT_MAX_BODY_BYTES).collect()] of a body that
    is [None] when reading it fails. *)
Definition collect_body (body : option string) : option string :=
  match body with
  | Some b => if (MODEL_SUPPORT_MAX_BODY_BYTES <? Z.of_nat (len b))%Z then None else Some b
  | None => None
  end.

(* src: ai-gateway/src/middleware/model_support/service.rs:758-887 ModelSupportService::call *)
Definition call (req : Request) (body : option string) : Outcome :=
  if bool_decide (request_kind req = Some X402Agent) then ForwardUnread
  else if should_bypass_model_support_before_body_read (request_kind req) || is_media_path (path req)
  then ForwardUnread
  else if negb (should_inspect_post_body (method req)) then ForwardUnread
  else match collect_body body with
       | None => Reject InternalError
       | Some bytes =>
           let bytes :=
             match user_agent req with
             | Some ua => default bytes (maybe_rewrite_async_openai_claude_model ua bytes)
             | None => bytes
             end in
           if should_skip_model_support (request_kind req) then ForwardBytes bytes
           else match model_field_from_json_body bytes with
                | None => ForwardBytes bytes
                | Some candidate =>
                    if bool_decide (request_kind req = Some CustomProvider) then ForwardBytes bytes
                    else match check_candidate req bytes candidate with
                         | Ok bytes => ForwardBytes bytes
                         | Err e => Reject e
                         end
                end
       end.

(** ** What a forwarded body carries *)

(** The model a service that reads the body sees, as written. *)
Definition raw_model (body : string) : option string :=
  match from_slice body with Some v => get "model" v ≫= as_str | None => None end.

(** [m] names a catalog entry. *)
Definition catalogued (m : string) : Prop :=
  ∃ p, split_provider_model m = Ok p ∧ gateway_model_supported (provider_raw p) (model_raw p) = Ok true.

Lemma model_field_Some body m :
  model_field_from_json_body body = Some m →
  ∃ v s, from_slice body = Some v ∧ get "model" v = Some (Str s) ∧ trim s = m.
Proof.
  rw /model_field_from_json_body. destruct (from_slice body) as [v|]; [|done].
  destruct (get "model" v) as [[]|] eqn:E; try done. case_match; [done|]. intros [= <-]. by eauto.
Qed.

Lemma supported_ok {m p} :
  (let? supported := gateway_model_supported (provider_raw p) (model_raw p) in
   if supported then Ok tt else Err (UnsupportedGatewayModel m)) = Ok tt →
  gateway_model_supported (provider_raw p) (model_raw p) = Ok true.
Proof. by destruct (gateway_model_supported _ _) as [[]|]. Qed.

(** [serde_json] reads back an object it has written. *)
Hypothesis reserialize : ∀ b v m,
  from_slice b = Some v → from_slice (to_vec (set_field "model" (Str m) v)) = Some (set_field "model" (Str m) v).

Lemma rewrite_model_raw body new_model body' :
  rewrite_model_in_body body new_model = Some body' → raw_model body' = Some new_model.
Proof.
  rw /rewrite_model_in_body /raw_model. destruct (from_slice body) as [v|] eqn:Hv; [|done].
  destruct (get "model" v) eqn:Hm; [|done]. intros [= <-]. rw (reserialize body) // get_set_field //.
  by eapply get_Some_object.
Qed.

Lemma rewrite_model_defined body m new_model :
  model_field_from_json_body body = Some m → is_Some (rewrite_model_in_body body new_model).
Proof.
  intros (v & s & Hv & Hs & _)%model_field_Some. by rw /rewrite_model_in_body Hv Hs.
Qed.

Lemma check_candidate_ok req bytes m bytes' :
  model_field_from_json_body bytes = Some m → check_candidate req bytes m = Ok bytes' →
  (bytes' = bytes ∧ catalogued m) ∨
  (bytes' = bytes ∧ is_router_master_key_bare_model_passthrough (auth req) m = true) ∨
  (∃ r, raw_model bytes' = Some r ∧ catalogued r ∧
        resolve_bare_model m (default None (auth req)) = Ok r).
Proof.
  intros Hm. rw /check_candidate. destruct (bool_decide _ || contains "/" m).
  { destruct (split_provider_model m) as [p|] eqn:Hp; [|done]. simpl.
    destruct (gateway_model_supported _ _) as [[]|] eqn:Hs; try done. intros [= <-].
    left. split; [done|]. by exists p. }
  destruct (is_router_master_key_bare_model_passthrough _ _); [intros [= <-]; by right; left|].
  destruct (resolve_bare_model _ _) as [r|] eqn:Hr; [|done]. simpl.
  destruct (split_provider_model r) as [p|] eqn:Hp; [|done]. simpl.
  destruct (gateway_model_supported _ _) as [[]|] eqn:Hs; try done. intros [= <-].
  right; right. exists r. split_and!; [|by exists p|done].
  destruct (rewrite_model_defined bytes m r Hm) as [b Hb]. rw Hb. by eapply rewrite_model_raw.
Qed.

(** A request that names a model reaches the router only with a
    model of the catalog: when the middleware forwards a collected body of a
    kind it checks, and the body names a model, either that model is a
    provider and model the catalog supports, or it was a bare name and the
    body has been rewritten to the resolved catalog name, or the key is a
    single-provider key of a provider that takes any name. *)
Theorem forwarded_model_catalogued req body bytes m :
  call req body = ForwardBytes bytes →
  request_kind req ∉ [Some UnifiedApi; Some CustomProvider] →
  model_field_from_json_body bytes = Some m →
  catalogued m ∨
  is_router_master_key_bare_model_passthrough (auth req) m = true ∨
  (∃ r bare, raw_model bytes = Some r ∧ catalogued r ∧
     resolve_bare_model bare (default None (auth req)) = Ok r).
Proof.
  rw /call. do 3 (case_match; [done|]). destruct (collect_body body) as [b0|]; [|done].
  set (b1 := match user_agent req with Some ua => _ | None => b0 end).
  intros Hc Hk Hm. rw /should_skip_model_support bool_decide_false in Hc; [|set_solver].
  destruct (model_field_from_json_body b1) as [m1|] eqn:Hm1; [|congruence].
  rw bool_decide_false in Hc; [|set_solver].
  destruct (check_candidate req b1 m1) as [b2|] eqn:Hcc; [|done]. injection Hc as ->.
  destruct (check_candidate_ok req b1 m1 bytes Hm1 Hcc) as [[-> ?]|[[-> ?]|(r & ?)]].
  - left. congruence.
  - right; left. congruence.
  - right; right. exists r, m1. naive_solver.
Qed.
End model_support.

(** A wire format with one field, and a catalog with two providers. *)
Definition demo_from_slice (b : string) : option Value :=
  match strip_prefix "M" b with Some m => Some (Object [("model", Str m)]) | None => None end.
Definition demo_to_vec (v : Value) : string :=
  match v with Object [(_, Str m)] => String "M" m | _ => "" end.
Lemma demo_reserialize b v m :
  demo_from_slice b = Some v →
  demo_from_slice (demo_to_vec (set_field "model" (Str m) v)) = Some (set_field "model" (Str m) v).
Proof. rw /demo_from_slice. destruct (strip_prefix "M" b); [|done]. by intros [= <-]. Qed.

Definition demo_index : BareModelExpandIndex := push "openai" "GPT-4o" (push "azure" "phi-4" ∅).
Definition demo_store : Store := mkStore (λ p m, Ok (String.eqb p "openai")) (λ _, Ok []).
Definition demo_request : Request :=
  mkRequest (Some Router) "/v1/chat/completions" "POST" (Some "curl/8") (Some (Some [OpenAI])).

Lemma forwarded_model_catalogued_witness :
  call demo_from_slice demo_to_vec None (Some demo_store) demo_index ∅ demo_request (Some "Mgpt-4o")
    = ForwardBytes "Mopenai/GPT-4o" ∧
  (∃ r bare, raw_model demo_from_slice "Mopenai/GPT-4o" = Some r ∧
     resolve_bare_model (Some demo_store) demo_index bare (Some [OpenAI]) = Ok r).
Proof.
  assert (H : call demo_from_slice demo_to_vec None (Some demo_store) demo_index ∅ demo_request (Some "Mgpt-4o")
    = ForwardBytes "Mopenai/GPT-4o") by (vm_compute; reflexivity).
  split; [exact H|].
  destruct (forwarded_model_catalogued demo_from_slice demo_to_vec None (Some demo_store) demo_index ∅
    demo_reserialize demo_request (Some "Mgpt-4o") "Mopenai/GPT-4o" "openai/GPT-4o" H) as [_|[_|_]];
    [set_solver|vm_compute; reflexivity|..]; exists "openai/GPT-4o", "gpt-4o"; split; vm_compute; reflexivity.
Defined.

(** ** Resolution of bare names *)

(** Rows registered in the index, in the order of registration. *)
Definition build_index (rows : list (string * string)) : BareModelExpandIndex :=
  foldl (λ idx '(code, model_id), push code model_id idx) ∅ rows.

Definition full_name (row : string * string) : string := row.1 ++ "/" ++ row.2.
Definition row_matches (bare : string) (row : string * string) : Prop :=
  row.2 ≠ "" ∧ eq_ignore_ascii_case row.2 bare = true.

Lemma push_lookup code m idx bare :
  gateway_models_for_bare_id bare (push code m idx)
  = if negb (is_empty m) && eq_ignore_ascii_case m bare
       && negb (bool_decide (full_name (code, m) ∈ gateway_models_for_bare_id bare idx))
    then (gateway_models_for_bare_id bare idx ++ [full_name (code, m)])%list
    else gateway_models_for_bare_id bare idx.
Proof.
  rw /push /gateway_models_for_bare_id /full_name /eq_ignore_ascii_case.
  destruct (is_empty m); simpl; [done|].
  destruct (String.eqb_spec (to_ascii_lowercase m) (to_ascii_lowercase bare)) as [->|Hne]; simpl.
  - rw lookup_insert_eq /=. by destruct (bool_decide _).
  - by rw lookup_insert_ne.
Qed.

Lemma eq_ignore_ascii_case_spec a b :
  eq_ignore_ascii_case a b = true ↔ to_ascii_lowercase a = to_ascii_lowercase b.
Proof. apply String.eqb_eq. Qed.

Lemma build_index_spec rows bare :
  NoDup (gateway_models_for_bare_id bare (build_index rows)) ∧
  ∀ full, full ∈ gateway_models_for_bare_id bare (build_index rows) ↔
          ∃ row, row ∈ rows ∧ row_matches bare row ∧ full = full_name row.
Proof.
  rw /build_index. induction rows as [|[code m] rows [IHn IHs]] using rev_ind.
  { rw /gateway_models_for_bare_id lookup_empty. split; [constructor|]. set_solver. }
  rw foldl_app /= push_lookup. set (old := gateway_models_for_bare_id bare _) in *.
  assert (Hrow : row_matches bare (code, m) ↔ negb (is_empty m) && eq_ignore_ascii_case m bare = true).
  { rw /row_matches andb_true_iff negb_true_iff /=. destruct m; naive_solver. }
  split.
  - case_match eqn:E; [|done]. bool_to_prop. apply NoDup_app. split_and!; [done| |apply NoDup_singleton].
    set_solver.
  - intros full. split.
    + intros Hin. case_match eqn:E.
      * apply elem_of_app in Hin as [Hin|Hin]; [apply IHs in Hin as (row & ? & ?); exists row; set_solver|].
        apply list_elem_of_singleton in Hin as ->. bool_to_prop. exists (code, m).
        split_and!; [set_solver| |done]. apply Hrow.
        by destruct (is_empty m), (eq_ignore_ascii_case m bare).
      * apply IHs in Hin as (row & ? & ?). exists row. set_solver.
    + intros (row & [Hin|Hin%list_elem_of_singleton]%elem_of_app & Hm & ->).
      * assert (full_name row ∈ old) by (apply IHs; by exists row). case_match; set_solver.
      * subst row. apply Hrow in Hm. rw Hm. simpl.
        destruct (bool_decide _) eqn:Hd; simpl; bool_to_prop; set_solver.
Qed.

(** A bare model name is resolved only when it is
    unambiguous: the answer is the full name of a registered row whose model
    matches the name without regard to case and whose provider the key allows,
    and every other such row has the same full name. *)
Theorem resolve_bare_model_unique store rows bare p ps c :
  gateway_models_for_bare_id bare (build_index rows) ≠ [] →
  resolve_bare_model store (build_index rows) bare (Some (p :: ps)) = Ok c →
  (∃ row, row ∈ rows ∧ row_matches bare row ∧ c = full_name row) ∧
  candidate_allowed (p :: ps) c = true ∧
  ∀ row, row ∈ rows → row_matches bare row → candidate_allowed (p :: ps) (full_name row) = true →
    full_name row = c.
Proof.
  intros Hne Hr. destruct (build_index_spec rows bare) as [_ Hs].
  assert (Hf : filter (λ x, candidate_allowed (p :: ps) x = true)
                 (gateway_models_for_bare_id bare (build_index rows)) = [c]).
  { move: Hr. rw /resolve_bare_model.
    destruct (gateway_models_for_bare_id bare (build_index rows)) as [|x l]; [done|].
    cbn [result_bind restrict_bare_model_candidates_to_allowed_providers].
    destruct (filter _ _) as [|y [|]]; [done| |done]. by intros [= ->]. }
  assert (Hc : c ∈ filter (λ x, candidate_allowed (p :: ps) x = true)
                 (gateway_models_for_bare_id bare (build_index rows))) by (rw Hf; set_solver).
  apply list_elem_of_filter in Hc as [Ha Hin]. split_and!; [by apply Hs|done|].
  intros row Hrow Hm Hal. apply list_elem_of_singleton. rw -Hf. apply list_elem_of_filter.
  split; [done|]. apply Hs. by exists row.
Qed.

Definition demo_rows : list (string * string) := [("azure", "GPT-4o"); ("openai", "gpt-4o"); ("openai", "o1")].

Lemma resolve_bare_model_unique_witness :
  resolve_bare_model None (build_index demo_rows) "gpt-4o" (Some [OpenAI]) = Ok "openai/gpt-4o" ∧
  candidate_allowed [OpenAI] "openai/gpt-4o" = true.
Proof.
  assert (H : resolve_bare_model None (build_index demo_rows) "gpt-4o" (Some [OpenAI]) = Ok "openai/gpt-4o")
    by (vm_compute; reflexivity).
  split; [exact H|].
  refine (proj1 (proj2 (resolve_bare_model_unique None demo_rows "gpt-4o" OpenAI [] "openai/gpt-4o" _ H))).
  vm_compute. discriminate.
Defined.

(** ** The rewriting of Claude model names for one client library *)

Lemma rsplit_once_app c a b : count_byte c b = 0%nat → rsplit_once c (a ++ String c b) = Some (a, b).
Proof.
  intros Hb. assert (Hn : ∀ s, count_byte c s = 0%nat → rsplit_once c s = None).
  { induction s as [|d s IH]; simpl; [done|]. destruct (Ascii.eqb c d) eqn:E; [done|]. intros ?. by rw IH. }
  induction a as [|d a IH]; simpl; [by rw Hn // Ascii.eqb_refl|]. by rw IH.
Qed.

Lemma all_digits_no_dash s : all_digits s = true → count_byte "-" s = 0%nat.
Proof.
  induction s as [|c s IH]; cbn [all_digits str_all count_byte]; [done|].
  intros [Hc Hs]%andb_true_iff. destruct (Ascii.eqb_spec "-" c) as [<-|]; [done|]. by apply IH.
Qed.

(** The rule is purely lexical: any two numbers at the end are taken for a
    major and a minor version. *)
Lemma normalize_claude_spec prefix major minor :
  contains "claude-" (prefix ++ "-" ++ major ++ "-" ++ minor) = true →
  all_digits major = true → all_digits minor = true →
  normalize_async_openai_claude_model (prefix ++ "-" ++ major ++ "-" ++ minor)
  = Some (prefix ++ "-" ++ major ++ "." ++ minor).
Proof.
  intros Hc Hma Hmi. rw /normalize_async_openai_claude_model Hc. cbn [negb].
  replace (prefix ++ "-" ++ major ++ "-" ++ minor) with ((prefix ++ "-" ++ major) ++ String "-" minor)
    by by rw !str_app_assoc.
  rw rsplit_once_app; [|by apply all_digits_no_dash]. rw Hmi. cbn [negb].
  rw (rsplit_once_app "-" prefix major); [|by apply all_digits_no_dash]. by rw Hma.
Qed.

(** So the date of a dated model is taken for a minor version. *)
Lemma dated_claude_model_rewritten :
  normalize_async_openai_claude_model "claude-sonnet-4-20250514" = Some "claude-sonnet-4.20250514".
Proof. exact (normalize_claude_spec "claude-sonnet" "4" "20250514" eq_refl eq_refl eq_refl). Qed.
