(* ===== verification/DefaultModel.v ===== *)
(** * The default model of a virtual key

    Models [ai-gateway/src/default_model] and [ai-gateway/src/virtual_key]: when
    a request names no model, one is chosen from the lists of the key's policy,
    the dearest of those that the catalog and the endpoint allow.

    The database queries, Unicode lower-casing, the derived reader of the legacy
    list document and the conversion of JSON numbers are parameters. *)

From S2P Require Import Prelude RustStr Json Float64 Provider ModelSupport.
From Stdlib Require Import Ascii SpecFloat.
Local Open Scope string_scope.

(** ** Floats used by the choice *)

Definition f64_sub (a b : f64) : f64 := SFsub f64_prec f64_emax a b.
Definition f64_abs (a : f64) : f64 := SFabs a.
Definition f64_le (a b : f64) : bool := SFleb a b.

(** [f64::max]: a NaN operand is ignored. *)
Definition f64_max (a b : f64) : f64 :=
  if is_nan a then b else if is_nan b then a else if f64_lt a b then b else a.

Definition is_finite (a : f64) : bool := negb (is_nan a) && negb (is_infinite a).

(** The literal [1e-9]. *)
Definition f64_1e_9 : f64 := S754_finite false 4835703278458517 (-82).
Definition f64_neg_infinity : f64 := S754_infinity true.

(** ** Lists of model names in policy documents *)

Definition trimmed_nonempty (l : list string) : list string :=
  filter (λ s, is_empty s = false) (map trim l).

Definition nonempty_list (l : list string) : option (list string) :=
  match l with [] => None | _ => Some l end.

(* src: ai-gateway/src/default_model/resolve.rs:17-25 non_empty_string_ids *)
Definition non_empty_string_ids (a : Value) : option (list string) :=
  match as_array a with
  | None => None
  | Some items => nonempty_list (trimmed_nonempty (omap as_str items))
  end.

(* src: ai-gateway/src/default_model/resolve.rs:45-61 first_non_empty_list *)
Definition first_non_empty_list (a b c : option (list string)) : option (list string) :=
  let pick o := match o with Some l => nonempty_list (trimmed_nonempty l) | None => None end in
  match pick a with
  | Some v => Some v
  | None => match pick b with Some v => Some v | None => pick c end
  end.

(* src: ai-gateway/src/default_model/choose.rs:378-385 nonempty_allow_list *)
Definition nonempty_allow_list (allowed : option (list string)) : option (list string) :=
  match allowed with Some l => nonempty_list (trimmed_nonempty l) | None => None end.

Definition first_some {A} (a b : option A) : option A := match a with Some _ => a | None => b end.

Section documents.
(** [serde_json::from_value::<ModelListDoc>]: the field [allowed_models] of a
    document that deserialises. *)
Context (model_list_doc : Value → option (option (list string))).

(* src: ai-gateway/src/default_model/resolve.rs:29-40 model_ids_from_config_json *)
Definition model_ids_from_config_json (v : Value) : option (list string) :=
  match first_some (get "allowedModels" v) (get "allowed_models" v) ≫= non_empty_string_ids with
  | Some l => Some l
  | None => match model_list_doc v with
            | None => None
            | Some allowed_models => first_non_empty_list allowed_models None None
            end
  end.

(* src: ai-gateway/src/default_model/resolve.rs:65-83 model_ids_from_policy_overrides_json *)
Definition model_ids_from_policy_overrides_json (v : Value) : option (list string) :=
  let whitelist := first_some (get "modelWhitelist" v) (get "model_whitelist" v) in
  first_some (get2 "modelWhitelist" "models" v ≫= non_empty_string_ids)
  (first_some (get2 "model_whitelist" "models" v ≫= non_empty_string_ids)
  (first_some (match whitelist with Some w => get "models" w ≫= non_empty_string_ids | None => None end)
  (first_some (model_ids_from_config_json v)
  (match get "model_access" v with Some a => model_ids_from_config_json a | None => None end)))).
End documents.

(** ** Prices *)

(* src: ai-gateway/src/default_model/price.rs:5-15 price_sum_from_info *)
Definition price_sum_from_info (as_f64 : string → f64) (info : Value) : f64 :=
  let price key := match get key info with Some (Number t) => as_f64 t | _ => S754_zero false end in
  f64_add (price "prompt") (price "completion").

Definition nearly (a b : f64) : bool :=
  f64_le (f64_abs (f64_sub a b)) (f64_max f64_1e_9 (f64_mul f64_1e_9 (f64_abs b))).

Definition max_price (scored : list (string * f64)) : f64 :=
  fold_left f64_max (map snd scored) f64_neg_infinity.

(** [Iterator::max] on strings, by bytes. *)
Definition max_str (l : list string) : option string :=
  fold_left (λ m s, match m with
                    | None => Some s
                    | Some t => if String.leb t s then Some s else Some t
                    end) l None.

(** [None] is a panic: an empty list, or no price near the greatest one. *)
(* src: ai-gateway/src/default_model/resolve.rs:95-108 pick_greatest_by_price_and_name *)
Definition pick_greatest_by_price_and_name (scored : list (string * f64)) : option string :=
  match scored with
  | [] => None
  | _ => max_str (map fst (filter (λ ms, nearly ms.2 (max_price scored) = true) scored))
  end.

(** ** Virtual-key model policy *)

Section policy.
(** [str::to_lowercase]. *)
Context (to_lowercase : string → string).

Definition listed (model : string) (models : option (list string)) : bool :=
  match models with
  | Some l => existsb (λ m, String.eqb (to_lowercase m) (to_lowercase model)) l
  | None => false
  end.

(* src: ai-gateway/src/virtual_key/model_policy.rs:10-30 model_access_allowed *)
Definition model_access_allowed (request_model : string) (allowed_models blocked_models : option (list string))
  : bool :=
  if listed request_model allowed_models then true
  else if listed request_model blocked_models then false
  else true.

(* src: ai-gateway/src/types/extensions.rs:28-32 VkPolicy *)
Record VkPolicy := mkPolicy {
  virtual_key_id : string;
  allowed_models : option (list string);
  blocked_models : option (list string)
}.

Inductive ApiError :=
| NoModelAvailable
| ModelAccessDenied (model : string)
| Internal
| Panic.

(* src: ai-gateway/src/virtual_key/enforce.rs:25-41 check_model_access *)
Definition check_model_access (policy : option VkPolicy) (model_str : string) : result unit ApiError :=
  match policy with
  | None => Ok tt
  | Some p =>
      if negb (model_access_allowed model_str (allowed_models p) (blocked_models p))
      then Err (ModelAccessDenied model_str) else Ok tt
  end.
End policy.

(** ** Choosing *)

(* src: ai-gateway/src/default_model/choose.rs:24-29 DefaultModelCandidate *)
Record DefaultModelCandidate := mkCandidate {
  original : string;
  candidate_provider : string;
  candidate_model : string
}.

(* src: ai-gateway/src/default_model/choose.rs:31-36 ScoredGatewayModel *)
Record ScoredGatewayModel := mkScored {
  gateway_model : string;
  provider_code : string;
  price_sum : f64
}.

(* src: ai-gateway/src/default_model/choose.rs:271-277 candidate_lookup_key *)
Definition candidate_lookup_key (provider_code model_id : string) : string :=
  to_ascii_lowercase provider_code ++ "/" ++ to_ascii_lowercase model_id.

(* src: ai-gateway/src/default_model/choose.rs:306-313 ModelInteractionSelectionPolicy *)
Inductive ModelInteractionSelectionPolicy := ChatMultimodalReasoning | EmbeddingOnly | LegacyCompatible.

(* src: ai-gateway/src/default_model/choose.rs:315-323 selection_policy_for_unified_path *)
Definition selection_policy_for_unified_path (path : string) : ModelInteractionSelectionPolicy :=
  if String.eqb path "chat/completions" || String.eqb path "messages" || String.eqb path "responses"
  then ChatMultimodalReasoning
  else if String.eqb path "embeddings" then EmbeddingOnly
  else LegacyCompatible.

(* src: ai-gateway/src/default_model/choose.rs:325-330 model_interaction_type_from_info *)
Definition model_interaction_type_from_info (info : option Value) : option string :=
  match info with Some i => get "model_interaction_type" i ≫= as_str | None => None end.

(* src: ai-gateway/src/default_model/choose.rs:332-343 policy_allows_interaction_type *)
Definition policy_allows_interaction_type (policy : ModelInteractionSelectionPolicy)
    (interaction_type : option string) : bool :=
  match policy with
  | ChatMultimodalReasoning =>
      match interaction_type with
      | Some t => String.eqb t "chat" || String.eqb t "multimodal" || String.eqb t "reasoning"
      | None => false
      end
  | EmbeddingOnly => bool_decide (interaction_type = Some "embedding")
  | LegacyCompatible => bool_decide (interaction_type ≠ Some "embedding")
  end.

(* src: ai-gateway/src/default_model/choose.rs:345-349 model_info_allows_unified_path *)
Definition model_info_allows_unified_path (info : option Value) (path : string) : bool :=
  policy_allows_interaction_type (selection_policy_for_unified_path path)
    (model_interaction_type_from_info info).

(** The loop body's [seen_lower.insert] and [push]. *)
Definition push_unseen (full : string) (acc : list string * gset string) : list string * gset string :=
  let '(out, seen) := acc in
  let l := to_ascii_lowercase full in
  if bool_decide (l ∈ seen) then acc else ((out ++ [full])%list, {[l]} ∪ seen).

(* src: ai-gateway/src/default_model/choose.rs:285-302 expand_policy_model_list *)
Definition expand_one (index : BareModelExpandIndex) (acc : list string * gset string) (raw : string)
  : list string * gset string :=
  let m := trim raw in
  if is_empty m then acc
  else match split_provider_model m with
       | Ok parsed => push_unseen (provider_raw parsed ++ "/" ++ model_raw parsed) acc
       | Err _ => fold_left (λ acc g, push_unseen g acc) (gateway_models_for_bare_id m index) acc
       end.

(* src: ai-gateway/src/default_model/choose.rs:281-304 expand_policy_model_list *)
Definition expand_policy_model_list (index : BareModelExpandIndex) (models : list string) : list string :=
  (fold_left (expand_one index) models ([], ∅)).1.

(* src: ai-gateway/src/default_model/choose.rs:252-269 pick_best_scored_gateway_model *)
Definition pick_best_scored_gateway_model (scored : list ScoredGatewayModel)
    (excluded_provider_code : option string) : option (result string ApiError) :=
  let filtered :=
    map (λ c, (gateway_model c, price_sum c))
      (filter (λ c, match excluded_provider_code with
                    | None => true
                    | Some excluded => negb (eq_ignore_ascii_case (provider_code c) excluded)
                    end = true) scored) in
  match filtered with
  | [] => None
  | _ => Some (match pick_greatest_by_price_and_name filtered with Some m => Ok m | None => Err Panic end)
  end.

Section choose.
Context (to_lowercase : string → string) (as_f64 : string → f64).
Context (model_list_doc : Value → option (option (list string))).
Context (index : BareModelExpandIndex).

(** The queries of the router store: the policy documents of a department, a
    virtual key and a workspace, and the catalog rows of a batch of models. *)
Record RouterStore := mkRouterStore {
  overrides_by_department : string → string → result (option Value) unit;
  overrides_for_virtual_key : string → string → result (option Value) unit;
  overrides_workspace_default : string → result (option Value) unit;
  policy_config_model_access : string → result (option Value) unit;
  selection_info_batch : list (string * string) → result (list (string * string * option Value)) unit
}.

Definition db {A} (r : result A unit) : result A ApiError := map_err (λ _, Internal) r.

Definition uuid_nil : string := "00000000-0000-0000-0000-000000000000".

Definition overrides_list (row : option Value) : option (list string) :=
  match row with
  | Some v => match model_ids_from_policy_overrides_json model_list_doc v with
              | Some ids => nonempty_list ids
              | None => None
              end
  | None => None
  end.

(* src: ai-gateway/src/default_model/choose.rs:387-419 load_overrides_list *)
Definition load_overrides_list (store : RouterStore) (workspace_id virtual_key_id department_id : string)
  : result (option (list string)) ApiError :=
  let? by_department :=
    if String.eqb department_id uuid_nil then Ok None
    else let? row := db (overrides_by_department store workspace_id department_id) in
         Ok (overrides_list row) in
  match by_department with
  | Some ids => Ok (Some ids)
  | None =>
      let? row := db (overrides_for_virtual_key store workspace_id virtual_key_id) in
      match overrides_list row with
      | Some ids => Ok (Some ids)
      | None =>
          let? row := db (overrides_workspace_default store workspace_id) in
          Ok (overrides_list row)
      end
  end.

(* src: ai-gateway/src/default_model/choose.rs:351-376 resolve_model_id_list *)
Definition resolve_model_id_list (store : RouterStore) (workspace_id department_id : string) (vk : VkPolicy)
  : result (list string) ApiError :=
  match nonempty_allow_list (allowed_models vk) with
  | Some v => Ok v
  | None =>
      let? overrides := load_overrides_list store workspace_id (virtual_key_id vk) department_id in
      match overrides with
      | Some v => Ok v
      | None =>
          let? row := db (policy_config_model_access store workspace_id) in
          Ok (default [] (row ≫= model_ids_from_config_json model_list_doc))
      end
  end.

(** The first loop: what may be looked up. *)
(* src: ai-gateway/src/default_model/choose.rs:137-161 resolve_scored_gateway_models *)
Definition candidate_of (blocked : option (list string)) (m : string) : option DefaultModelCandidate :=
  if negb (model_access_allowed to_lowercase m None blocked) then None
  else match split_provider_model m with
       | Err _ => None
       | Ok parsed => Some (mkCandidate m (provider_raw parsed) (model_raw parsed))
       end.

(** The rows by lookup key; of several rows with one key the last one stays. *)
(* src: ai-gateway/src/default_model/choose.rs:191-199 resolve_scored_gateway_models *)
Definition selection_info_by_key (rows : list (string * string * option Value)) : gmap string (option Value) :=
  fold_left (λ m '(code, model_id, info), <[candidate_lookup_key code model_id := info]> m) rows ∅.

(** The second loop. *)
(* src: ai-gateway/src/default_model/choose.rs:201-247 resolve_scored_gateway_models *)
Definition score_candidate (path : string) (infos : gmap string (option Value)) (c : DefaultModelCandidate)
  : option ScoredGatewayModel :=
  match infos !! candidate_lookup_key (candidate_provider c) (candidate_model c) with
  | None => None
  | Some info =>
      if negb (model_info_allows_unified_path info path) then None
      else
        let sum := match info with Some i => price_sum_from_info as_f64 i | None => S754_zero false end in
        Some (mkScored (original c) (candidate_provider c) sum)
  end.

(* src: ai-gateway/src/default_model/choose.rs:126-250 resolve_scored_gateway_models *)
Definition resolve_scored_gateway_models (store : RouterStore) (path : string) (vk : VkPolicy)
    (models : list string) : result (list ScoredGatewayModel) ApiError :=
  let candidates := omap (candidate_of (blocked_models vk)) models in
  let? rows := db (selection_info_batch store (map (λ c, (candidate_provider c, candidate_model c)) candidates)) in
  Ok (omap (score_candidate path (selection_info_by_key rows)) candidates).

(* src: ai-gateway/src/default_model/choose.rs:49-124 choose_default_gateway_model_excluding_provider *)
Definition choose_default_gateway_model_excluding_provider (store : option RouterStore)
    (path workspace_id department_id : string) (vk : VkPolicy) (excluded_provider_code : option string)
  : result string ApiError :=
  match store with
  | None => Err NoModelAvailable
  | Some store =>
      let? raw := resolve_model_id_list store workspace_id department_id vk in
      let models := expand_policy_model_list index raw in
      match models with
      | [] => Err NoModelAvailable
      | _ =>
          let? scored := resolve_scored_gateway_models store path vk models in
          match pick_best_scored_gateway_model scored excluded_provider_code with
          | None => Err NoModelAvailable
          | Some r => r
          end
      end
  end.

(* src: ai-gateway/src/default_model/choose.rs:40-47 choose_default_gateway_model *)
Definition choose_default_gateway_model (store : option RouterStore)
    (path workspace_id department_id : string) (vk : VkPolicy) : result string ApiError :=
  choose_default_gateway_model_excluding_provider store path workspace_id department_id vk None.
End choose.

(** ** The greatest price *)

Lemma f64_sub_diag x : is_finite x = true → f64_sub x x = S754_zero false.
Proof.
  destruct x as [[]|[]| |s m e]; try done. intros _.
  rw /f64_sub /SFsub /= Z.min_id Z.sub_diag. reflexivity.
Qed.

Lemma nearly_refl x : is_finite x = true → nearly x x = true.
Proof.
  intros Hx. rw /nearly f64_sub_diag //. rw /f64_max.
  destruct (f64_mul f64_1e_9 (f64_abs x)) as [[]|[]| |[] m e]; try done.
  cbn [is_nan f64_1e_9]. by destruct (f64_lt _ _).
Qed.

Lemma fold_max_in l a : fold_left f64_max l a = a ∨ fold_left f64_max l a ∈ l.
Proof.
  revert a. induction l as [|s l IH]; intros a; simpl; [by left|].
  destruct (IH (f64_max a s)) as [->|?]; [|right; set_solver].
  rw /f64_max. repeat case_match; set_solver.
Qed.

(** The order of the floats that are not NaN, as a lexicographic order. *)
Definition rank (x : f64) : Z * Z * Z :=
  match x with
  | S754_infinity true => (-2, 0, 0)
  | S754_finite true m e => (-1, - e, - Z.pos m)
  | S754_finite false m e => (1, e, Z.pos m)
  | S754_infinity false => (2, 0, 0)
  | _ => (0, 0, 0)
  end%Z.

Definition rank_lt (a b : f64) : Prop :=
  let '(a1, a2, a3) := rank a in
  let '(b1, b2, b3) := rank b in
  (a1 < b1 ∨ a1 = b1 ∧ (a2 < b2 ∨ a2 = b2 ∧ a3 < b3))%Z.

(** Comparing two floats by cases; the finite ones by exponent and mantissa. *)
Ltac solve_rank :=
  repeat match goal with
  | |- context [Pos.compare_cont Eq ?m ?m'] => change (Pos.compare_cont Eq m m') with (m ?= m')%positive
  | |- context [(?e ?= ?e')%Z] => destruct (Z.compare_spec e e')
  | |- context [(?m ?= ?m')%positive] => destruct (Pos.compare_spec m m')
  end; simpl; split; intros; first [done | lia].

Lemma f64_lt_rank a b : is_nan a = false → is_nan b = false → f64_lt a b = true ↔ rank_lt a b.
Proof.
  intros Ha Hb. rw /f64_lt /SFltb /rank_lt.
  destruct a as [?|[]| |[] m e], b as [?|[]| |[] m' e']; simpl; solve_rank.
Qed.

Lemma f64_le_rank a b : is_nan a = false → is_nan b = false → f64_le a b = true ↔ ¬ rank_lt b a.
Proof.
  intros Ha Hb. rw /f64_le /SFleb /rank_lt.
  destruct a as [?|[]| |[] m e], b as [?|[]| |[] m' e']; simpl; solve_rank.
Qed.

Lemma rank_lt_trans_not a b c : ¬ rank_lt a b → ¬ rank_lt b c → ¬ rank_lt a c.
Proof. rw /rank_lt. destruct (rank a) as [[]], (rank b) as [[]], (rank c) as [[]]. lia. Qed.

Lemma f64_max_ub a b :
  is_nan a = false → is_nan b = false →
  is_nan (f64_max a b) = false ∧ ¬ rank_lt (f64_max a b) a ∧ ¬ rank_lt (f64_max a b) b.
Proof.
  intros Ha Hb. rw /f64_max Ha Hb.
  destruct (f64_lt a b) eqn:E.
  - apply f64_lt_rank in E; [|done..]. move: E. rw /rank_lt.
    destruct (rank a) as [[]], (rank b) as [[]]. split; [done|lia].
  - assert (¬ rank_lt a b) as Hn by (intros H%f64_lt_rank; [congruence|done..]). move: Hn. rw /rank_lt.
    destruct (rank a) as [[]], (rank b) as [[]]. split; [done|lia].
Qed.

Lemma fold_max_ub l : ∀ a, is_nan a = false → Forall (λ x, is_nan x = false) l →
  ¬ rank_lt (fold_left f64_max l a) a ∧ Forall (λ x, ¬ rank_lt (fold_left f64_max l a) x) l.
Proof.
  induction l as [|s l IH]; intros a Ha Hl; simpl.
  { split; [|done]. rw /rank_lt. destruct (rank a) as [[]]. lia. }
  apply Forall_cons in Hl as [Hs Hl]. destruct (f64_max_ub a s Ha Hs) as (Hn & H1 & H2).
  destruct (IH _ Hn Hl) as [H3 H4]. split; [by eapply rank_lt_trans_not|].
  constructor; [by eapply rank_lt_trans_not|done].
Qed.

(** The greatest of finitely many finite prices is one of them. *)
Lemma max_price_spec scored :
  scored ≠ [] → Forall (λ ms, is_finite ms.2 = true) scored →
  max_price scored ∈ map snd scored ∧ Forall (λ ms, f64_le ms.2 (max_price scored) = true) scored.
Proof.
  intros Hne Hfin.
  assert (Hnan : Forall (λ x, is_nan x = false) (map snd scored)).
  { apply Forall_map. eapply Forall_impl; [done|]. intros [m s] H. simpl in *. by destruct s. }
  assert (Hin : max_price scored ∈ map snd scored).
  { destruct scored as [|[m s] rest]; [done|]. apply Forall_cons in Hfin as [Hs _]. simpl in Hs.
    rw /max_price /=. replace (f64_max f64_neg_infinity s) with s by by destruct s as [[]|[]| |[]].
    destruct (fold_max_in (map snd rest) s) as [->|H]; set_solver. }
  split; [done|]. destruct (fold_max_ub (map snd scored) f64_neg_infinity eq_refl Hnan) as [_ Hub].
  apply Forall_forall. intros [m s] Hms. simpl.
  rw Forall_forall in Hnan. rw Forall_forall in Hub. assert (s ∈ map snd scored) by (apply list_elem_of_fmap; by exists (m, s)).
  apply f64_le_rank; [by apply Hnan|by apply Hnan|]. by apply Hub.
Qed.

Lemma str_leb_trans a b c : String.leb a b = true → String.leb b c = true → String.leb a c = true.
Proof.
  rw /String.leb. revert b c. induction a as [|x a IH]; intros [|y b] [|z c]; simpl; try done.
  rw /Ascii.compare.
  destruct (N.compare_spec (N_of_ascii x) (N_of_ascii y)) as [Hxy|Hxy|Hxy]; [|intros _|done];
    (destruct (N.compare_spec (N_of_ascii y) (N_of_ascii z)) as [Hyz|Hyz|Hyz]; [| |done]);
    try (intros; destruct (N.compare_spec (N_of_ascii x) (N_of_ascii z)); [lia|done|lia]).
  rw Hxy Hyz N.compare_refl. apply IH.
Qed.

Lemma str_leb_refl a : String.leb a a = true.
Proof. destruct (String.leb_total a a) as [H|H]; exact H. Qed.

Lemma max_str_spec l :
  match max_str l with
  | None => l = []
  | Some m => m ∈ l ∧ Forall (λ s, String.leb s m = true) l
  end.
Proof.
  rw /max_str. induction l as [|s l IH] using rev_ind; [done|]. rw fold_left_app /=.
  destruct (fold_left _ l None) as [t|]; [|subst l; split; [set_solver|]; by rw /= Forall_singleton str_leb_refl].
  destruct IH as [Ht Hl]. destruct (String.leb t s) eqn:E.
  - split; [set_solver|]. apply Forall_app. split; [|by rw Forall_singleton str_leb_refl].
    eapply Forall_impl; [exact Hl|]. intros x Hx. exact (str_leb_trans _ _ _ Hx E).
  - split; [set_solver|]. apply Forall_app. split; [done|]. rw Forall_singleton.
    destruct (String.leb_total t s); congruence.
Qed.

(** A price that is not finite makes the choice panic. *)
Lemma pick_greatest_infinite_panics :
  pick_greatest_by_price_and_name [("openai/gpt-4o", S754_infinity false)] = None.
Proof. vm_compute. reflexivity. Qed.

(** Two finite prices whose sum is infinite. *)
Definition f64_1e308 : f64 := S754_finite false 5010420900022432 971.

(** Two prices of the catalog that are finite, and the panic of the choice when
    it meets their sum. *)
Lemma price_overflow_panics :
  let as_f64 := λ _, f64_1e308 in
  let info := Object [("prompt", Number "1e308"); ("completion", Number "1e308")] in
  is_finite (as_f64 "1e308") = true ∧
  pick_greatest_by_price_and_name [("openai/gpt-4o", price_sum_from_info as_f64 info)] = None.
Proof. split; vm_compute; reflexivity. Qed.

(** ** The expanded candidate list *)

Definition unseen_inv (acc : list string * gset string) : Prop :=
  NoDup (map to_ascii_lowercase acc.1) ∧ list_to_set (map to_ascii_lowercase acc.1) = acc.2.

Lemma push_unseen_inv full acc : unseen_inv acc → unseen_inv (push_unseen full acc).
Proof.
  destruct acc as [out seen]. intros [Hn Hs]. rw /push_unseen. case_match; [done|]. bool_to_prop.
  rw /unseen_inv /= map_app /=. simpl in *. split; [|set_solver].
  apply NoDup_app. split_and!; [done|set_solver|apply NoDup_singleton].
Qed.

Lemma expand_one_inv index acc raw : unseen_inv acc → unseen_inv (expand_one index acc raw).
Proof.
  intros H. rw /expand_one. case_match; [done|]. case_match; [by apply push_unseen_inv|].
  generalize dependent acc. induction (gateway_models_for_bare_id (trim raw) index) as [|g l IH]; intros acc Hacc; simpl; [done|].
  apply IH. by apply push_unseen_inv.
Qed.

(** No candidate appears twice, not even with another case. *)
Lemma expand_policy_model_list_distinct index models :
  NoDup (map to_ascii_lowercase (expand_policy_model_list index models)).
Proof.
  rw /expand_policy_model_list.
  assert (H : ∀ acc, unseen_inv acc → unseen_inv (fold_left (expand_one index) models acc)).
  { induction models as [|m l IH]; intros acc Hacc; simpl; [done|]. by apply IH, expand_one_inv. }
  apply (H ([], ∅)). split; [constructor|done].
Qed.

(** ** The chosen model *)

Lemma pick_greatest_in scored m :
  pick_greatest_by_price_and_name scored = Some m → m ∈ map fst scored.
Proof.
  rw /pick_greatest_by_price_and_name. destruct scored as [|x l]; [done|].
  intros Hm. pose proof (max_str_spec (map fst (filter (λ ms : string * f64, nearly ms.2 (max_price (x :: l)) = true) (x :: l)))) as H.
  rw Hm in H. destruct H as [([m' s] & -> & [_ Hin]%list_elem_of_filter)%list_elem_of_fmap _].
  apply list_elem_of_fmap. by exists (m', s).
Qed.

Lemma selection_info_lookup rows k info :
  selection_info_by_key rows !! k = Some info →
  ∃ code model_id, (code, model_id, info) ∈ rows ∧ candidate_lookup_key code model_id = k.
Proof.
  rw /selection_info_by_key. induction rows as [|[[code m] i] rows IH] using rev_ind; [by rw lookup_empty|].
  rw fold_left_app /=. destruct (decide (candidate_lookup_key code m = k)) as [Hk|Hk].
  - rw Hk lookup_insert_eq. intros [= ->]. exists code, m. set_solver.
  - rw lookup_insert_ne //. intros (c & m' & Hin & Hkey)%IH. exists c, m'. set_solver.
Qed.

Lemma pick_best_ok scored excluded m :
  pick_best_scored_gateway_model scored excluded = Some (Ok m) →
  ∃ c, c ∈ scored ∧ gateway_model c = m ∧
    match excluded with Some e => eq_ignore_ascii_case (provider_code c) e = false | None => True end.
Proof.
  rw /pick_best_scored_gateway_model. set (keep := filter _ scored). destruct (map _ keep) eqn:Hk; [done|].
  rw -Hk. destruct (pick_greatest_by_price_and_name _) as [m'|] eqn:Hp; [|done]. intros [= ->].
  apply pick_greatest_in in Hp. rw map_map in Hp. simpl in Hp.
  apply list_elem_of_fmap in Hp as (c & -> & [He Hin]%list_elem_of_filter).
  exists c. split_and!; [done|done|]. destruct excluded; [|done]. by apply negb_true_iff in He.
Qed.

(** The candidates a choice may fall on. *)
Definition eligible (to_lowercase : string → string) (path : string) (vk : VkPolicy) (excluded : option string)
    (rows : list (string * string * option Value)) (m : string) : Prop :=
  model_access_allowed to_lowercase m None (blocked_models vk) = true ∧
  ∃ p, split_provider_model m = Ok p ∧
    match excluded with Some e => eq_ignore_ascii_case (provider_raw p) e = false | None => True end ∧
    ∃ code model_id info, (code, model_id, info) ∈ rows ∧
      candidate_lookup_key code model_id = candidate_lookup_key (provider_raw p) (model_raw p) ∧
      model_info_allows_unified_path info path = true.

Lemma candidate_of_Some to_lowercase blocked m c :
  candidate_of to_lowercase blocked m = Some c →
  model_access_allowed to_lowercase m None blocked = true ∧
  ∃ p, split_provider_model m = Ok p ∧ c = mkCandidate m (provider_raw p) (model_raw p).
Proof.
  rw /candidate_of. destruct (model_access_allowed _ _ _ _); [|done]. cbn [negb].
  destruct (split_provider_model m) as [p|]; [|done]. intros [= <-]. by eauto.
Qed.

Lemma score_candidate_Some as_f64 path rows c sc :
  score_candidate as_f64 path (selection_info_by_key rows) c = Some sc →
  gateway_model sc = original c ∧ provider_code sc = candidate_provider c ∧
  ∃ code model_id info, (code, model_id, info) ∈ rows ∧
    candidate_lookup_key code model_id = candidate_lookup_key (candidate_provider c) (candidate_model c) ∧
    model_info_allows_unified_path info path = true.
Proof.
  rw /score_candidate. destruct (selection_info_by_key rows !! _) as [info|] eqn:E; [|done].
  destruct (model_info_allows_unified_path info path) eqn:Ha; [|done]. intros [= <-].
  apply selection_info_lookup in E as (code & mid & Hin & Hk). split_and!; [done|done|]. by exists code, mid, info.
Qed.

Lemma choose_default_model_inv to_lowercase as_f64 model_list_doc index store path ws dept vk excluded m :
  choose_default_gateway_model_excluding_provider to_lowercase as_f64 model_list_doc index (Some store)
    path ws dept vk excluded = Ok m →
  ∃ raw rows,
    resolve_model_id_list model_list_doc store ws dept vk = Ok raw ∧
    m ∈ expand_policy_model_list index raw ∧
    selection_info_batch store
      (map (λ c, (candidate_provider c, candidate_model c))
         (omap (candidate_of to_lowercase (blocked_models vk)) (expand_policy_model_list index raw))) = Ok rows ∧
    eligible to_lowercase path vk excluded rows m.
Proof.
  rw /choose_default_gateway_model_excluding_provider.
  destruct (resolve_model_id_list _ _ _ _ _) as [raw|]; [|done]. cbn [result_bind].
  set (models := expand_policy_model_list index raw).
  intros H. assert (Hs : ∃ scored, resolve_scored_gateway_models to_lowercase as_f64 store path vk models = Ok scored ∧
    pick_best_scored_gateway_model scored excluded = Some (Ok m)).
  { destruct models; [done|]. destruct (resolve_scored_gateway_models _ _ _ _ _ _) as [scored|]; [|done].
    exists scored. split; [done|]. cbn [result_bind] in H. by destruct (pick_best_scored_gateway_model _ _) as [r|]; subst. }
  clear H. destruct Hs as (scored & Hs & Hp). rw /resolve_scored_gateway_models in Hs.
  destruct (selection_info_batch store _) as [rows|] eqn:Hb; [|done]. cbn [result_bind db map_err] in Hs.
  injection Hs as <-. apply pick_best_ok in Hp as (sc & Hsc & <- & Hex).
  apply list_elem_of_omap in Hsc as (c & Hc & Hsc). apply list_elem_of_omap in Hc as (m' & Hm' & Hc).
  apply candidate_of_Some in Hc as (Hacc & p & Hsp & ->).
  apply score_candidate_Some in Hsc as (Hg & Hpc & Hrow). simpl in Hg, Hpc, Hrow. rw Hg.
  exists raw, rows. split_and!; [done|done|done|]. split; [done|]. exists p. rw Hpc in Hex. by split_and!.
Qed.

(** The default model is one the key may use: it is one of the
    policy's models after expansion, it is not on the key's block list, its
    provider is not the excluded one, and the catalog has an enabled row for it
    whose interaction type the endpoint accepts. *)
Theorem choose_default_model_sound to_lowercase as_f64 model_list_doc index store path ws dept vk excluded m :
  choose_default_gateway_model_excluding_provider to_lowercase as_f64 model_list_doc index (Some store)
    path ws dept vk excluded = Ok m →
  ∃ raw rows,
    resolve_model_id_list model_list_doc store ws dept vk = Ok raw ∧
    m ∈ expand_policy_model_list index raw ∧
    selection_info_batch store
      (map (λ c, (candidate_provider c, candidate_model c))
         (omap (candidate_of to_lowercase (blocked_models vk)) (expand_policy_model_list index raw))) = Ok rows ∧
    eligible to_lowercase path vk excluded rows m.
Proof. apply choose_default_model_inv. Qed.

Definition demo_db : RouterStore :=
  mkRouterStore (λ _ _, Ok None) (λ _ _, Ok None) (λ _, Ok None)
    (λ _, Ok (Some (Object [("allowedModels", Array [Str "gpt-4o"; Str "anthropic/claude-sonnet-4"; Str "o1"])])))
    (λ models, Ok (map (λ '(p, m), (p, m, Some (Object [("model_interaction_type", Str "chat");
                                                        ("prompt", Number p)]))) models)).
Definition demo_price (t : string) : f64 := if String.eqb t "anthropic" then f64_of_Z 3 else f64_of_Z 2.
Definition demo_vk : VkPolicy := mkPolicy "vk" None (Some ["OpenAI/o1"]).
Definition demo_catalog : BareModelExpandIndex := build_index [("openai", "gpt-4o"); ("openai", "o1")].

Lemma choose_default_model_sound_witness :
  choose_default_gateway_model_excluding_provider to_ascii_lowercase demo_price (λ _, None) demo_catalog
    (Some demo_db) "chat/completions" "ws" uuid_nil demo_vk (Some "Anthropic") = Ok "openai/gpt-4o" ∧
  ∃ raw, resolve_model_id_list (λ _, None) demo_db "ws" uuid_nil demo_vk = Ok raw ∧
    "openai/gpt-4o" ∈ expand_policy_model_list demo_catalog raw.
Proof.
  assert (H : choose_default_gateway_model_excluding_provider to_ascii_lowercase demo_price (λ _, None) demo_catalog
    (Some demo_db) "chat/completions" "ws" uuid_nil demo_vk (Some "Anthropic") = Ok "openai/gpt-4o")
    by (vm_compute; reflexivity).
  split; [exact H|].
  destruct (choose_default_model_sound _ _ _ _ _ _ _ _ _ _ _ H) as (raw & rows & Hr & Hin & _).
  exists raw. split; assumption.
Defined.

(** The dearest model wins, and the choice never panics on
    finite prices: the chosen name has a price within the tolerance of the
    greatest, which bounds every price, and among the names within the
    tolerance it is the last in byte order. *)
Theorem pick_greatest_dearest scored :
  scored ≠ [] → Forall (λ ms, is_finite ms.2 = true) scored →
  ∃ m s, pick_greatest_by_price_and_name scored = Some m ∧ (m, s) ∈ scored ∧
    nearly s (max_price scored) = true ∧
    (∀ m' s', (m', s') ∈ scored → f64_le s' (max_price scored) = true ∧
       (nearly s' (max_price scored) = true → String.leb m' m = true)).
Proof.
  intros Hne Hfin. destruct (max_price_spec scored Hne Hfin) as [Hin Hub].
  rw /pick_greatest_by_price_and_name. destruct scored as [|x rest] eqn:Hs; [done|]. 
  rw -Hs in Hne Hfin Hin Hub |- *.
  apply list_elem_of_fmap in Hin as ([m0 s0] & Hmax & Hin0). simpl in Hmax.
  assert (Hfin0 : is_finite s0 = true) by (rw Forall_forall in Hfin; by apply (Hfin (m0, s0))).
  set (near := filter (λ ms : string * f64, nearly ms.2 (max_price scored) = true) scored).
  assert (Hnear : m0 ∈ map fst near).
  { apply list_elem_of_fmap. exists (m0, s0). split; [done|]. apply list_elem_of_filter. split; [|done].
    rw Hmax. by apply nearly_refl. }
  pose proof (max_str_spec (map fst near)) as Hm. 
  destruct (max_str (map fst near)) as [m|]; [|rw Hm in Hnear; set_solver].
  destruct Hm as [Hmi Hmu]. apply list_elem_of_fmap in Hmi as ([m1 s] & -> & [Hns Hms]%list_elem_of_filter).
  exists m1, s. split_and!; [done|done|done|]. intros m' s' H'. 
  rw Forall_forall in Hub. rw Forall_forall in Hmu. split; [by apply (Hub (m', s'))|].
  intros Hn'. apply Hmu, list_elem_of_fmap. exists (m', s'). split; [done|]. by apply list_elem_of_filter.
Qed.

Definition demo_scored : list (string * f64) := [("a/x", f64_of_Z 2); ("b/y", f64_of_Z 5); ("c/z", f64_of_Z 5)].

Lemma pick_greatest_dearest_witness : ∃ m, pick_greatest_by_price_and_name demo_scored = Some m ∧ m = "c/z".
Proof.
  destruct (pick_greatest_dearest demo_scored) as (m & s & Hm & _).
  - discriminate.
  - repeat constructor.
  - exists m. split; [exact Hm|]. vm_compute in Hm. congruence.
Defined.

(** ** Key policy *)

(** The allow list outranks the block list, which outranks the default. *)
Lemma check_model_access_spec to_lowercase p m :
  check_model_access to_lowercase (Some p) m = Ok tt ↔
  listed to_lowercase m (allowed_models p) = true ∨ listed to_lowercase m (blocked_models p) = false.
Proof. rw /check_model_access /model_access_allowed. repeat case_match; naive_solver. Qed.
