(* ===== verification/StrictJson.v ===== *)
(** * The strict JSON reader of payload validation

    Models [ai-gateway/src/validation/strict_json.rs]: a recursive-descent scan
    of the bytes that rejects duplicate keys and nesting of 128 levels or more.
    String literals and scalars are handed to [serde_json::from_slice], a
    parameter.

    The recursion of [value] takes a fuel; 129 is enough for every input, since
    the source stops at depth 128, and the loop over the items of a container
    takes one turn per byte at most ([value_total]). *)

From S2P Require Import Prelude RustStr Json.
From Stdlib Require Import Ascii.
Local Open Scope nat_scope.

Definition is_ws (c : ascii) : bool :=
  Ascii.eqb c " " || Ascii.eqb c carriage_return || Ascii.eqb c newline || Ascii.eqb c "009".

Definition is_delimiter (c : ascii) : bool :=
  Ascii.eqb c "," || Ascii.eqb c "]" || Ascii.eqb c "}" || is_ws c.

Definition quote_char : ascii := "034".
Definition backslash : ascii := "092".

(** The number of bytes of a string literal after its opening quote: a
    backslash skips the byte after it, and may skip past the end. *)
(* src: ai-gateway/src/validation/strict_json.rs:19-28 Scanner::string *)
Fixpoint string_end (s : list ascii) : option nat :=
  match s with
  | [] => None
  | c :: s =>
      if Ascii.eqb c backslash then
        match s with [] => None | _ :: s => (λ n, S (S n)) <$> string_end s end
      else if Ascii.eqb c quote_char then Some 1
      else S <$> string_end s
  end.

(** The nesting of a value: 1 for a scalar, one more for each container. *)
Fixpoint height (v : Value) : nat :=
  match v with
  | Array l => S ((fix go l := match l with [] => 0 | x :: l => height x `max` go l end) l)
  | Object f => S ((fix go l := match l with [] => 0 | x :: l => height x.2 `max` go l end) f)
  | _ => 1
  end.

(** What the rest of validation relies on: distinct keys, bounded nesting. *)
Definition doc_ok (n : nat) (v : Value) : Prop := distinct_keys v ∧ height v ≤ n.

(** The same under a condition [typed], so that one induction serves both the
    termination of the scan and the shape of its results. *)
Definition typed_ok (typed : Prop) (n : nat) (v : Value) : Prop := typed → doc_ok n v.

Lemma typed_ok_Array typed n l : Forall (typed_ok typed n) l → typed_ok typed (S n) (Array l).
Proof.
  intros Hl Ht. assert (H : Forall (doc_ok n) l) by (eapply Forall_impl; [exact Hl|]; intros v Hv; by apply Hv).
  clear Hl. split.
  - apply distinct_keys_Array. eapply Forall_impl; [exact H|]. by intros v [].
  - cbn [height]. apply le_n_S. induction H as [|x l [_ Hx] _ IH]; [lia|]. apply Nat.max_lub; done.
Qed.

Lemma typed_ok_Object typed n f :
  NoDup (f.*1) → Forall (λ x, typed_ok typed n x.2) f → typed_ok typed (S n) (Object f).
Proof.
  intros Hn Hf Ht.
  assert (H : Forall (λ x, doc_ok n x.2) f) by (eapply Forall_impl; [exact Hf|]; intros v Hv; by apply Hv).
  clear Hf. split.
  - apply distinct_keys_Object. split; [done|]. eapply Forall_impl; [exact H|]. by intros v [].
  - cbn [height]. apply le_n_S. induction H as [|x l [_ Hx] _ IH]; [lia|].
    apply NoDup_cons in Hn as [_ Hn]. apply Nat.max_lub; [done|by apply IH].
Qed.

Section scanner.
(** [serde_json::from_slice] at [String] and at [Value]. *)
Context (read_string : list ascii → option string) (read_scalar : list ascii → option Value).
Context (bytes : list ascii).

Definition at_pos (pos : nat) (c : ascii) : bool := bool_decide (bytes !! pos = Some c).

(** [&self.bytes[start..end]]. *)
Definition slice (start end_ : nat) : list ascii := take (end_ - start) (drop start bytes).

(* src: ai-gateway/src/validation/strict_json.rs:9-15 Scanner::whitespace *)
Definition whitespace (pos : nat) : nat := pos + length (take_while is_ws (drop pos bytes)).

(* src: ai-gateway/src/validation/strict_json.rs:16-30 Scanner::string *)
Definition scan_string (start : nat) : result (String.string * nat) String.string :=
  match string_end (drop (start + 1) bytes) with
  | None => Err "unterminated JSON string"%string
  | Some n =>
      let pos := start + 1 + n in
      match read_string (slice start pos) with
      | Some s => Ok (s, pos)
      | None => Err "serde"%string
      end
  end.

(* src: ai-gateway/src/validation/strict_json.rs:83-95 Scanner::value *)
Definition scalar (start : nat) : result (Value * nat) String.string :=
  let pos := start + length (take_while (λ c, negb (is_delimiter c)) (drop start bytes)) in
  if negb (start <? pos) then Err "invalid JSON value"%string
  else match read_scalar (slice start pos) with
       | Some v => Ok (v, pos)
       | None => Err "serde"%string
       end.

Definition container (object : list (String.string * Value)) (array : list Value) (is_object : bool) : Value :=
  if is_object then Object object else Array array.

(** The key of a member, up to and including its colon. *)
(* src: ai-gateway/src/validation/strict_json.rs:54-62 Scanner::value *)
Definition member_key (object : list (String.string * Value)) (pos : nat)
  : result (String.string * nat) String.string :=
  if negb (at_pos pos quote_char) then Err "expected object key"%string
  else
    let? (key, pos) := scan_string pos in
    if bool_decide (key ∈ object.*1) then Err "duplicate JSON key"%string
    else
      let pos := whitespace pos in
      if negb (at_pos pos ":"%char) then Err "expected colon"%string else Ok (key, pos + 1).

(** The loop over the members or items; [value] reads one at [depth + 1]. *)
(* src: ai-gateway/src/validation/strict_json.rs:51-76 Scanner::value *)
Fixpoint items (value : nat → option (result (Value * nat) String.string)) (turns : nat) (is_object : bool)
    (object : list (String.string * Value)) (array : list Value) (pos : nat)
  : option (result (Value * nat) String.string) :=
  match turns with
  | O => None
  | S turns =>
      let pos := whitespace pos in
      let key := if is_object then member_key object pos else Ok (""%string, pos) in
      match key with
      | Err e => Some (Err e)
      | Ok (key, pos) =>
          match value pos with
          | None => None
          | Some (Err e) => Some (Err e)
          | Some (Ok (v, pos)) =>
              let object := if is_object then object ++ [(key, v)] else object in
              let array := if is_object then array else array ++ [v] in
              let pos := whitespace pos in
              if at_pos pos (if is_object then "}" else "]")%char then
                Some (Ok (container object array is_object, pos + 1))
              else if at_pos pos ","%char then items value turns is_object object array (pos + 1)
              else Some (Err "invalid JSON container"%string)
          end
      end
  end.

(* src: ai-gateway/src/validation/strict_json.rs:31-97 Scanner::value *)
Fixpoint value (fuel depth pos : nat) : option (result (Value * nat) String.string) :=
  match fuel with
  | O => None
  | S fuel =>
      if negb (depth <? 128) then Some (Err "JSON nesting too deep"%string)
      else
        let pos := whitespace pos in
        match bytes !! pos with
        | None => Some (Err "missing JSON value"%string)
        | Some c =>
            if Ascii.eqb c quote_char then
              Some (let? (s, pos) := scan_string pos in Ok (Str s, pos))
            else if Ascii.eqb c "{" || Ascii.eqb c "[" then
              let is_object := Ascii.eqb c "{" in
              let pos := whitespace (pos + 1) in
              if at_pos pos (if is_object then "}" else "]")%char then
                Some (Ok (container [] [] is_object, pos + 1))
              else items (value fuel (depth + 1)) (S (length bytes)) is_object [] [] pos
            else Some (scalar pos)
        end
  end.

(* src: ai-gateway/src/validation/strict_json.rs:3-104 parse_json_strict *)
Definition parse_json_strict : option (result Value String.string) :=
  match value 129 0 0 with
  | None => None
  | Some (Err e) => Some (Err e)
  | Some (Ok (v, pos)) =>
      if whitespace pos =? length bytes then Some (Ok v) else Some (Err "trailing JSON content"%string)
  end.

(** ** Every scan ends, and what it returns *)

Lemma whitespace_ge pos : pos ≤ whitespace pos.
Proof. rw /whitespace. lia. Qed.

Lemma string_advances pos s pos' : scan_string pos = Ok (s, pos') → pos < pos'.
Proof. rw /scan_string. repeat case_match; try done. intros [= _ <-]. lia. Qed.

Lemma at_pos_lt pos c : at_pos pos c = true → pos < length bytes.
Proof. intros H%bool_decide_eq_true. by apply lookup_lt_Some in H. Qed.

Lemma member_key_ok object pos key pos' :
  member_key object pos = Ok (key, pos') → pos < pos' ∧ (key ∉ object.*1).
Proof.
  rw /member_key. destruct (at_pos pos quote_char); [|done]. cbn [negb].
  destruct (scan_string pos) as [[k p]|] eqn:Hs; [|done]. apply string_advances in Hs. cbn [result_bind].
  destruct (bool_decide _) eqn:Hd; [done|]. destruct (at_pos (whitespace p) ":"); [|done].
  intros [= <- <-]. bool_to_prop. split; [|done]. pose proof (whitespace_ge p). lia.
Qed.

Context (typed : Prop).

(** A reader that always answers, moves forward and returns good documents. *)
Definition good_reader (n : nat) (f : nat → option (result (Value * nat) String.string)) : Prop :=
  ∀ pos, ∃ r, f pos = Some r ∧ ∀ v pos', r = Ok (v, pos') → pos < pos' ∧ typed_ok typed n v.

Lemma items_good n f : good_reader n f → ∀ turns is_object object array pos,
  length bytes - pos < turns →
  NoDup (object.*1) → Forall (λ x, typed_ok typed n x.2) object → Forall (typed_ok typed n) array →
  ∃ r, items f turns is_object object array pos = Some r ∧
    ∀ v pos', r = Ok (v, pos') → pos < pos' ∧ typed_ok typed (S n) v.
Proof.
  intros Hf. induction turns as [|turns IH]; intros o object array pos Ht Hn Ho Ha; [lia|]. cbn [items].
  pose proof (whitespace_ge pos) as Hws.
  destruct (if o then member_key object (whitespace pos) else Ok (""%string, whitespace pos)) as [[key p]|] eqn:Hk;
    [|by eexists].
  assert (Hp : pos ≤ p ∧ (o = true → key ∉ object.*1)).
  { destruct o; [apply member_key_ok in Hk as [? ?]; split; [lia|done]|]. by injection Hk as _ <-. }
  destruct Hp as [Hp Hnew]. destruct (Hf p) as (r & -> & Hr). destruct r as [[v q]|e]; [|by eexists].
  destruct (Hr v q eq_refl) as [Hq Hv]. pose proof (whitespace_ge q) as Hwq.
  assert (Hn' : NoDup ((if o then object ++ [(key, v)] else object).*1)).
  { destruct o; [|done]. rw fmap_app. apply NoDup_app. split_and!; [done| |apply NoDup_singleton].
    intros x Hx ->%list_elem_of_singleton. by apply Hnew. }
  assert (Ho' : Forall (λ x, typed_ok typed n x.2) (if o then object ++ [(key, v)] else object)).
  { destruct o; [|done]. apply Forall_app. split; [done|]. by apply Forall_singleton. }
  assert (Ha' : Forall (typed_ok typed n) (if o then array else array ++ [v])).
  { destruct o; [done|]. apply Forall_app. split; [done|]. by apply Forall_singleton. }
  destruct (at_pos (whitespace q) _).
  { eexists; split; [done|]. intros v' pos' [= <- <-]. split; [lia|].
    destruct o; [by apply typed_ok_Object|by apply typed_ok_Array]. }
  destruct (at_pos (whitespace q) ",") eqn:Hcomma; [|by eexists].
  apply at_pos_lt in Hcomma.
  destruct (IH o _ _ (whitespace q + 1) ltac:(lia) Hn' Ho' Ha') as (r & -> & Hres).
  eexists; split; [done|]. intros v' pos' ->. destruct (Hres v' pos' eq_refl). split; [lia|done].
Qed.

(** [serde_json] reads a token that starts with no bracket as a scalar. *)
Hypothesis scalar_flat : typed → ∀ t v, read_scalar t = Some v → height v = 1 ∧ distinct_keys v.

Lemma value_total : ∀ fuel depth, 128 - depth < fuel → good_reader (128 - depth) (value fuel depth).
Proof.
  induction fuel as [|fuel IH]; intros depth Hf pos; [lia|]. cbn [value].
  destruct (Nat.ltb_spec depth 128) as [Hd|]; [|by eexists]. cbn [negb].
  pose proof (whitespace_ge pos) as Hws. destruct (bytes !! whitespace pos) as [c|] eqn:Hc; [|by eexists].
  destruct (Ascii.eqb c quote_char).
  { eexists; split; [done|]. intros v pos'. destruct (scan_string (whitespace pos)) as [[s q]|] eqn:Hs; [|done].
    apply string_advances in Hs. intros [= <- <-]. split; [lia|]. intros _. split; [done|simpl; lia]. }
  destruct (Ascii.eqb c "{" || Ascii.eqb c "[").
  - pose proof (whitespace_ge (whitespace pos + 1)) as Hw2.
    replace (128 - depth) with (S (128 - (depth + 1))) by lia.
    destruct (at_pos _ _).
    + eexists; split; [done|]. intros v pos' [= <- <-]. split; [lia|].
      destruct (Ascii.eqb c "{"); [apply typed_ok_Object; constructor|apply typed_ok_Array; constructor].
    + destruct (items_good _ _ (IH (depth + 1) ltac:(lia)) (S (length bytes)) (Ascii.eqb c "{") [] []
                  (whitespace (whitespace pos + 1))) as (r & -> & Hr); [lia|constructor..|].
      eexists; split; [done|]. intros v pos' ->. destruct (Hr v pos' eq_refl). split; [lia|done].
  - eexists; split; [done|]. intros v pos'. rw /scalar.
    set (q := whitespace pos + _). destruct (Nat.ltb_spec (whitespace pos) q) as [Hlt|]; [|done].
    cbn [negb]. destruct (read_scalar _) as [w|] eqn:Hr; [|done]. intros [= <- <-].
    split; [lia|]. intros Hty. destruct (scalar_flat Hty _ _ Hr) as [Hh Hdk]. split; [done|lia].
Qed.
End scanner.

(** ** Documents as text *)

Lemma string_end_app a b n : string_end a = Some n → string_end (a ++ b) = Some n.
Proof.
  revert n. induction a as [a IH] using (induction_ltof1 _ (@length ascii)). unfold ltof in IH.
  destruct a as [|c a]; intros n; cbn [string_end app]; [done|]. destruct (Ascii.eqb c backslash).
  { destruct a as [|d a]; [done|]. cbn [app]. intros (m & Hm & ->)%fmap_Some. rw (IH a _ m) //. simpl; lia. }
  destruct (Ascii.eqb c quote_char); [done|]. intros (m & Hm & ->)%fmap_Some. rw (IH a _ m) //. simpl; lia.
Qed.

Section printing.
(** How a writer renders a string literal and a scalar. *)
Context (quote : String.string → list ascii) (print_scalar : Value → list ascii).

Fixpoint print (v : Value) : list ascii :=
  match v with
  | Str s => quote s
  | Array [] => ["["; "]"]%char
  | Array (x :: l) =>
      "["%char :: print x ++
      (fix go l := match l with [] => ["]"%char] | y :: l => ","%char :: print y ++ go l end) l
  | Object [] => ["{"; "}"]%char
  | Object ((k, x) :: l) =>
      "{"%char :: quote k ++ ":"%char :: print x ++
      (fix go l := match l with
                   | [] => ["}"%char]
                   | (k, y) :: l => ","%char :: quote k ++ ":"%char :: print y ++ go l
                   end) l
  | _ => print_scalar v
  end.

(** The text after the first item of a container. *)
Fixpoint more_items (l : list Value) : list ascii :=
  match l with [] => ["]"%char] | y :: l => ","%char :: print y ++ more_items l end.
Fixpoint more_members (l : list (String.string * Value)) : list ascii :=
  match l with
  | [] => ["}"%char]
  | (k, y) :: l => ","%char :: quote k ++ ":"%char :: print y ++ more_members l
  end.

Lemma print_Array_cons x l : print (Array (x :: l)) = "["%char :: print x ++ more_items l.
Proof. done. Qed.
Lemma print_Object_cons k x l :
  print (Object ((k, x) :: l)) = "{"%char :: quote k ++ ":"%char :: print x ++ more_members l.
Proof. done. Qed.

Definition is_scalar (v : Value) : Prop :=
  match v with Null | Bool _ | Number _ => True | _ => False end.

(** What the writer and [serde_json] agree on, string by string and scalar by
    scalar. *)
Context (read_string : list ascii → option String.string) (read_scalar : list ascii → option Value).
Class Codec : Prop := {
  quote_literal : ∀ s, ∃ body, quote s = quote_char :: body ∧ string_end body = Some (length body);
  quote_read : ∀ s, read_string (quote s) = Some s;
  scalar_token : ∀ v, is_scalar v →
    ∃ c t, print_scalar v = c :: t ∧ (c ∉ [quote_char; "{"; "["]%char) ∧
      Forall (λ d, is_delimiter d = false) (c :: t);
  scalar_read : ∀ v, is_scalar v → read_scalar (print_scalar v) = Some v
}.
Context `{Hcodec : !Codec}.

Lemma print_head v : ∃ c t, print v = c :: t ∧ is_delimiter c = false.
Proof.
  assert (Hs : ∀ v, is_scalar v → ∃ c t, print_scalar v = c :: t ∧ is_delimiter c = false).
  { intros w Hw. destruct (scalar_token w Hw) as (c & t & -> & _ & [Hd _]%Forall_cons). by exists c, t. }
  destruct v as [| | |s|[|x l]|[|[k x] l]]; try (by apply Hs); try (by eexists _, _).
  destruct (quote_literal s) as (b & Hb & _). cbn [print]. rw Hb. by eexists _, _.
Qed.

(** ** Reading what was written *)

Context (bytes : list ascii).
Abbreviation ws := (whitespace bytes) (only parsing).

Definition post_ok (post : list ascii) : Prop :=
  match post with [] => True | c :: _ => is_delimiter c = true end.

Lemma at_drop pos c r : drop pos bytes = c :: r → bytes !! pos = Some c.
Proof. intros H. by rw -(Nat.add_0_r pos) -lookup_drop H. Qed.

Lemma at_pos_drop pos c r d : drop pos bytes = c :: r → at_pos bytes pos d = Ascii.eqb c d.
Proof.
  intros H%at_drop. rw /at_pos H. destruct (Ascii.eqb_spec c d) as [->|Hne]; [by rw bool_decide_true|].
  rw bool_decide_false //. congruence.
Qed.

Lemma drop_shift pos a b : drop pos bytes = a ++ b → drop (pos + length a) bytes = b.
Proof. intros H. by rw -drop_drop H drop_app_length. Qed.

Lemma ws_stay pos c r : drop pos bytes = c :: r → is_ws c = false → ws pos = pos.
Proof. intros H Hc. rw /whitespace H /= Hc. simpl. lia. Qed.

Lemma slice_of pos a b : drop pos bytes = a ++ b → slice bytes pos (pos + length a) = a.
Proof. intros H. rw /slice H. replace (pos + length a - pos) with (length a) by lia. by rw take_app_length. Qed.

Lemma string_quote pos s post :
  drop pos bytes = quote s ++ post → scan_string read_string bytes pos = Ok (s, pos + length (quote s)).
Proof.
  intros H. rw /scan_string. destruct (quote_literal s) as (body & Hq & He).
  assert (Hd : drop (pos + 1) bytes = body ++ post).
  { rw -drop_drop H Hq. done. }
  rw Hd (string_end_app _ _ (length body)) //.
  replace (pos + 1 + length body) with (pos + length (quote s)) by (rw Hq; simpl; lia).
  by rw (slice_of pos (quote s) post) // quote_read.
Qed.

Lemma take_while_app {A} (p : A → bool) a b :
  Forall (λ x, p x = true) a → take_while p (a ++ b) = a ++ take_while p b.
Proof. induction 1 as [|x a Hx _ IH]; [done|]. by rw /= Hx IH. Qed.

Lemma scalar_print pos v post :
  is_scalar v → drop pos bytes = print_scalar v ++ post → post_ok post →
  scalar read_scalar bytes pos = Ok (v, pos + length (print_scalar v)).
Proof.
  intros Hv H Hpost. rw /scalar.
  destruct (scalar_token v Hv) as (c & t & Hp & _ & Hd).
  assert (Hl : length (take_while (λ c, negb (is_delimiter c)) (drop pos bytes)) = length (print_scalar v)).
  { rw H take_while_app; [|rw Hp; eapply Forall_impl; [exact Hd|]; by intros x ->].
    destruct post as [|d post]; [by rw app_nil_r|]. simpl in *. by rw Hpost app_nil_r. }
  rw Hl. destruct (Nat.ltb_spec pos (pos + length (print_scalar v))) as [|Hx]; [|rw Hp /= in Hx; lia].
  cbn [negb]. by rw (slice_of pos (print_scalar v) post) // scalar_read.
Qed.

Lemma ws_print pos v post : drop pos bytes = print v ++ post → ws pos = pos.
Proof.
  intros H. destruct (print_head v) as (c & t & Hc & Hd). eapply ws_stay; [by rw H Hc|].
  move: Hd. rw /is_delimiter. by intros [_ ?]%orb_false_iff.
Qed.

(** A reader of [v] wherever its text stands. *)
Definition reads (f : nat → option (result (Value * nat) String.string)) (v : Value) : Prop :=
  ∀ pos post, drop pos bytes = print v ++ post → post_ok post → f pos = Some (Ok (v, pos + length (print v))).

Lemma items_array f : ∀ l x acc turns pos post,
  Forall (reads f) (x :: l) → length l < turns →
  drop pos bytes = print x ++ more_items l ++ post →
  items read_string bytes f turns false [] acc pos
  = Some (Ok (Array (acc ++ x :: l), pos + length (print x ++ more_items l))).
Proof.
  induction l as [|y l IH]; intros x acc turns pos post [Hx Hl]%Forall_cons Ht H;
    (destruct turns as [|turns]; [simpl in Ht; lia|]); cbn [items].
  all: rw (ws_print _ _ _ H); rw (Hx pos _ H); [|done]; apply drop_shift in H.
  - rw (ws_stay _ "]"%char post) // (at_pos_drop _ "]"%char post) //. simpl.
    rw length_app /=. do 3 f_equal. lia.
  - cbn [more_items app] in H. rw (ws_stay _ "," _ H) // !(at_pos_drop _ "," _ _ H).
    cbn -[more_items print app]. rewrite -> (IH y (acc ++ [x]) turns _ post); [|done|simpl in Ht; lia|].
    + rw -app_assoc !length_app /= !length_app. do 3 f_equal. lia.
    + apply (drop_shift _ [","%char]) in H. simpl in H. by rw H -app_assoc.
Qed.

Lemma quote_head pos k post : drop pos bytes = quote k ++ post → ws pos = pos ∧ at_pos bytes pos quote_char = true.
Proof.
  destruct (quote_literal k) as (b & -> & _). intros H. split; [by eapply ws_stay|].
  by rw (at_pos_drop _ _ _ _ H) Ascii.eqb_refl.
Qed.

Lemma member_key_print object pos k post :
  k ∉ object.*1 → drop pos bytes = quote k ++ ":"%char :: post →
  member_key read_string bytes object pos = Ok (k, pos + length (quote k) + 1).
Proof.
  intros Hk H. rw /member_key (proj2 (quote_head _ _ _ H)). cbn [negb].
  rw (string_quote _ _ _ H). cbn [result_bind]. rw bool_decide_false //.
  apply drop_shift in H. rw (ws_stay _ _ _ H) //. by rw (at_pos_drop _ _ _ _ H).
Qed.

Lemma items_object f : ∀ l k x acc turns pos post,
  Forall (λ m, reads f m.2) ((k, x) :: l) → length l < turns → NoDup ((acc ++ (k, x) :: l).*1) →
  drop pos bytes = quote k ++ ":"%char :: print x ++ more_members l ++ post →
  items read_string bytes f turns true acc [] pos
  = Some (Ok (Object (acc ++ (k, x) :: l), pos + length (quote k ++ ":"%char :: print x ++ more_members l))).
Proof.
  induction l as [|[k' y] l IH]; intros k x acc turns pos post [Hx Hl]%Forall_cons Ht Hn H;
    (destruct turns as [|turns]; [simpl in Ht; lia|]); cbn [items].
  all: assert (Hk : k ∉ acc.*1) by
    (rw fmap_app in Hn; apply NoDup_app in Hn as (_ & Hdis & _); intros Hin; apply (Hdis k Hin); simpl; set_solver).
  all: rw (proj1 (quote_head _ _ _ H)) (member_key_print _ _ _ _ Hk H).
  all: apply drop_shift in H; apply (drop_shift _ [":"%char]) in H; simpl in H.
  all: rw (Hx _ _ H); [|done]; apply drop_shift in H.
  - rw (ws_stay _ "}"%char post) // (at_pos_drop _ "}"%char post) //. simpl.
    rw length_app /= length_app /=. do 3 f_equal. lia.
  - cbn [more_members app] in H. rw (ws_stay _ "," _ H) // !(at_pos_drop _ "," _ _ H).
    cbn -[more_members print app]. rewrite -> (IH k' y (acc ++ [(k, x)]) turns _ post).
    + rw -app_assoc !length_app /= !length_app /= !length_app /= !length_app. do 3 f_equal. lia.
    + done.
    + simpl in Ht. lia.
    + by rw -app_assoc.
    + apply (drop_shift _ [","%char]) in H. simpl in H. by rw H -!app_assoc /= -!app_assoc.
Qed.

Lemma height_item n l : height (Array l) ≤ S n → Forall (λ v, height v ≤ n) l.
Proof. induction l as [|x l IH]; intros H; [done|]. cbn [height] in H, IH. constructor; [lia|]. apply IH. lia. Qed.

Lemma height_member n l : height (Object l) ≤ S n → Forall (λ m, height m.2 ≤ n) l.
Proof. induction l as [|x l IH]; intros H; [done|]. cbn [height] in H, IH. constructor; [lia|]. apply IH. lia. Qed.

Lemma length_more_items l : length l ≤ length (more_items l).
Proof. induction l as [|y l IH]; simpl; [lia|]. rw length_app. lia. Qed.

Lemma length_more_members l : length l ≤ length (more_members l).
Proof. induction l as [|[k y] l IH]; simpl; [lia|]. rw length_app /= length_app. lia. Qed.

Abbreviation value_at := (value read_string read_scalar bytes) (only parsing).

Lemma value_scalar v fuel depth :
  is_scalar v → print v = print_scalar v → depth < 128 → reads (value_at (S fuel) depth) v.
Proof.
  intros Hw Hpw Hd pos post H Hpost. cbn [value].
  destruct (Nat.ltb_spec depth 128); [|lia]. cbn [negb]. rw (ws_print _ _ _ H).
  destruct (scalar_token v Hw) as (c & t & Hp & Hc & _). rw Hpw in H |- *.
  rw (at_drop pos c (t ++ post)); [|by rw H Hp].
  destruct (Ascii.eqb_spec c quote_char); [set_solver|]. destruct (Ascii.eqb_spec c "{"); [set_solver|].
  destruct (Ascii.eqb_spec c "["); [set_solver|]. simpl. by rw (scalar_print _ _ _ Hw H Hpost).
Qed.

Lemma value_str s fuel depth : depth < 128 → reads (value_at (S fuel) depth) (Str s).
Proof.
  intros Hd pos post H Hpost. cbn [value].
  destruct (Nat.ltb_spec depth 128); [|lia]. cbn [negb]. rw (ws_print _ _ _ H).
  destruct (quote_literal s) as (b & Hq & _). cbn [print] in H |- *.
  rw (at_drop pos quote_char (b ++ post)); [|by rw H Hq].
  rw Ascii.eqb_refl. by rw (string_quote _ _ _ H).
Qed.

(** The number of turns of the loop is bounded by the text that is left. *)
Lemma drop_length_le pos (a : list ascii) b : drop pos bytes = a ++ b → length a ≤ length bytes.
Proof.
  intros H. assert (Hl : length (drop pos bytes) = length (a ++ b)) by by rw H.
  rw length_drop length_app in Hl. lia.
Qed.

Lemma value_array l fuel depth :
  depth < 128 → Forall (reads (value_at fuel (depth + 1))) l → reads (value_at (S fuel) depth) (Array l).
Proof.
  intros Hd Hl pos post H Hpost. cbn [value].
  destruct (Nat.ltb_spec depth 128); [|lia]. cbn [negb]. rw (ws_print _ _ _ H).
  destruct l as [|x l].
  - cbn [print app] in H. rw (at_drop _ _ _ H). simpl. apply (drop_shift _ ["["%char]) in H. simpl in H.
    rw (ws_stay _ _ _ H) // (at_pos_drop _ _ _ _ H). simpl. do 3 f_equal. lia.
  - rw print_Array_cons in H. simpl in H. rw (at_drop _ _ _ H). cbn -[items whitespace print].
    apply (drop_shift _ ["["%char]) in H. simpl in H. rw -app_assoc in H.
    rw (ws_print _ _ _ H). destruct (print_head x) as (c & t & Hc & Hdel).
    rw (at_pos_drop _ c (t ++ more_items l ++ post)); [|by rw H Hc].
    destruct (Ascii.eqb_spec c "]") as [->|_]; [done|].
    rewrite -> (items_array _ l x [] _ _ post); [|done| |exact H].
    + rw print_Array_cons. simpl. do 3 f_equal. lia.
    + rw app_assoc in H. apply drop_length_le in H. rw length_app in H. pose proof (length_more_items l). lia.
Qed.

Lemma value_object l fuel depth :
  depth < 128 → NoDup (l.*1) → Forall (λ m, reads (value_at fuel (depth + 1)) m.2) l →
  reads (value_at (S fuel) depth) (Object l).
Proof.
  intros Hd Hn Hl pos post H Hpost. cbn [value].
  destruct (Nat.ltb_spec depth 128); [|lia]. cbn [negb]. rw (ws_print _ _ _ H).
  destruct l as [|[k x] l].
  - cbn [print app] in H. rw (at_drop _ _ _ H). simpl. apply (drop_shift _ ["{"%char]) in H. simpl in H.
    rw (ws_stay _ _ _ H) // (at_pos_drop _ _ _ _ H). simpl. do 3 f_equal. lia.
  - rw print_Object_cons in H. simpl in H. rw (at_drop _ _ _ H). cbn -[items whitespace print].
    apply (drop_shift _ ["{"%char]) in H. simpl in H. rw -app_assoc /= -app_assoc in H.
    rw (proj1 (quote_head _ _ _ H)). destruct (quote_literal k) as (b & Hq & _).
    rw (at_pos_drop _ quote_char (b ++ ":"%char :: print x ++ more_members l ++ post)); [|by rw H Hq].
    rewrite -> (items_object _ l k x [] _ _ post); [|done| |done|exact H].
    + rw print_Object_cons. simpl. do 3 f_equal. lia.
    + pose proof (length_more_members l). assert (Hl2 := drop_length_le (pos + 1) (quote k ++ ":"%char :: print x ++ more_members l) post).
      rw length_app /= length_app in Hl2. rw -app_assoc /= -app_assoc in Hl2. specialize (Hl2 H). lia.
Qed.

Lemma value_print v : distinct_keys v → ∀ fuel depth,
  height v + depth ≤ 128 → height v ≤ fuel → reads (value_at fuel depth) v.
Proof.
  induction v as [| | |s|l IH|l IH] using Value_nested_ind; intros Hdk fuel depth Hh Hf;
    (destruct fuel as [|fuel]; [cbn [height] in Hf; lia|]).
  1-3: apply value_scalar; [done|done|cbn [height] in Hh; lia].
  - apply value_str. cbn [height] in Hh. lia.
  - apply distinct_keys_Array in Hdk. assert (Hd : depth < 128) by (cbn [height] in Hh; lia).
    apply value_array; [done|]. apply height_item in Hf as Hf'.
    assert (Hh' := height_item (127 - depth) l ltac:(lia)). rw Forall_forall in IH.
    rw Forall_forall in Hdk. rw Forall_forall in Hf'. rw Forall_forall in Hh'. apply Forall_forall. intros x Hx.
    specialize (Hh' x Hx). apply IH; [done|by apply Hdk|lia|by apply Hf'].
  - apply distinct_keys_Object in Hdk as [Hn Hdk]. assert (Hd : depth < 128) by (cbn [height] in Hh; lia).
    apply value_object; [done|done|]. apply height_member in Hf as Hf'.
    assert (Hh' := height_member (127 - depth) l ltac:(lia)). rw Forall_forall in IH.
    rw Forall_forall in Hdk. rw Forall_forall in Hf'. rw Forall_forall in Hh'. apply Forall_forall. intros x Hx.
    specialize (Hh' x Hx). apply IH; [done|by apply Hdk|lia|by apply Hf'].
Qed.
End printing.

(** ** Theorems *)

(** C38 (termination). The scan of any byte sequence ends: whatever
    [serde_json] makes of the tokens, the reader returns a value or an error
    within the fuel of its nesting limit. *)
Theorem parse_json_strict_terminates read_string read_scalar bytes :
  is_Some (parse_json_strict read_string read_scalar bytes).
Proof.
  rw /parse_json_strict.
  destruct (value_total read_string read_scalar bytes False ltac:(done) 129 0 ltac:(lia) 0) as ([[v pos]|e] & -> & _);
    [|done]. by case_match.
Qed.

(** An accepted document is well formed: no object of it, at any
    level, has the same key twice, and its nesting is at most 128. *)
Theorem parse_json_strict_well_formed read_string read_scalar bytes v :
  (∀ t w, read_scalar t = Some w → height w = 1 ∧ distinct_keys w) →
  parse_json_strict read_string read_scalar bytes = Some (Ok v) →
  distinct_keys v ∧ height v ≤ 128.
Proof.
  intros Hflat. rw /parse_json_strict.
  destruct (value_total read_string read_scalar bytes True ltac:(done) 129 0 ltac:(lia) 0)
    as ([[w pos]|e] & -> & Hr); [|done].
  case_match; [|done]. intros [= ->]. destruct (Hr v pos eq_refl) as [_ Hok]. by apply Hok.
Qed.

(** A reader of literals without escapes, and of [null]. *)
Definition demo_read_string (t : list ascii) : option String.string :=
  Some (String.string_of_list_ascii (take (length t - 2) (drop 1 t))).
Definition demo_read_scalar (t : list ascii) : option Value :=
  if bool_decide (t = String.list_ascii_of_string "null") then Some Null else None.
Definition demo_bytes : list ascii :=
  String.list_ascii_of_string
    (String "{" (String quote_char (String "a" (String quote_char ": [null , null] }")))).

Lemma demo_scalar_flat t w : demo_read_scalar t = Some w → height w = 1 ∧ distinct_keys w.
Proof. rw /demo_read_scalar. case_match; [|done]. by intros [= <-]. Qed.

Lemma parse_json_strict_well_formed_witness :
  parse_json_strict demo_read_string demo_read_scalar demo_bytes = Some (Ok (Object [("a"%string, Array [Null; Null])])) ∧
  height (Object [("a"%string, Array [Null; Null])]) ≤ 128.
Proof.
  assert (H : parse_json_strict demo_read_string demo_read_scalar demo_bytes
    = Some (Ok (Object [("a"%string, Array [Null; Null])]))) by (vm_compute; reflexivity).
  split; [exact H|].
  exact (proj2 (parse_json_strict_well_formed _ _ _ _ demo_scalar_flat H)).
Defined.

(** Every well-formed document is accepted and read back as it
    is: the compact text of any value with distinct keys and nesting below
    the limit parses to that value, for every writer and reader of literals
    that agree on string literals and on scalars. *)
Theorem parse_json_strict_print quote print_scalar read_string read_scalar v :
  Codec quote print_scalar read_string read_scalar →
  distinct_keys v → height v ≤ 128 →
  parse_json_strict read_string read_scalar (print quote print_scalar v) = Some (Ok v).
Proof.
  intros Hc Hd Hh. rw /parse_json_strict.
  rewrite -> (value_print quote print_scalar read_string read_scalar
               (print quote print_scalar v) v Hd 129 0 ltac:(lia) ltac:(lia) 0 []);
    [|by rw drop_0 app_nil_r|done].
  rw /whitespace drop_ge //= Nat.add_0_r Nat.eqb_refl //.
Qed.

(** A codec for every string and scalar: each byte of a literal escaped, the
    text of a number spelled in bits. *)
Module DemoCodec.
Definition quote (s : String.string) : list ascii :=
  quote_char :: concat (map (λ c, [backslash; c]) (String.list_ascii_of_string s)) ++ [quote_char].
Fixpoint unescape (l : list ascii) : list ascii :=
  match l with _ :: c :: l => c :: unescape l | _ => [] end.
Definition read_string (t : list ascii) : option String.string :=
  Some (String.string_of_list_ascii (unescape (drop 1 t))).

Definition bit (b : bool) : ascii := if b then "1"%char else "0"%char.
Definition unbit (c : ascii) : bool := Ascii.eqb c "1".
Fixpoint spell (s : String.string) : list ascii :=
  match s with
  | EmptyString => []
  | String (Ascii b0 b1 b2 b3 b4 b5 b6 b7) s => map bit [b0; b1; b2; b3; b4; b5; b6; b7] ++ spell s
  end.
Fixpoint unspell (l : list ascii) : String.string :=
  match l with
  | c0 :: c1 :: c2 :: c3 :: c4 :: c5 :: c6 :: c7 :: l =>
      String (Ascii (unbit c0) (unbit c1) (unbit c2) (unbit c3) (unbit c4) (unbit c5) (unbit c6) (unbit c7))
        (unspell l)
  | _ => EmptyString
  end.
Definition print_scalar (v : Value) : list ascii :=
  match v with
  | Bool true => ["t"%char]
  | Bool false => ["f"%char]
  | Number t => "n"%char :: spell t
  | _ => ["z"%char]
  end.
Definition read_scalar (t : list ascii) : option Value :=
  match t with
  | c :: t =>
      Some (if Ascii.eqb c "t" then Bool true else if Ascii.eqb c "f" then Bool false
            else if Ascii.eqb c "n" then Number (unspell t) else Null)
  | [] => None
  end.

Lemma unspell_spell s : unspell (spell s) = s.
Proof. induction s as [|[[] [] [] [] [] [] [] []] s IH]; [done|..]; cbn; by rw IH. Qed.
Lemma spell_plain s : Forall (λ d, is_delimiter d = false) (spell s).
Proof.
  induction s as [|[b0 b1 b2 b3 b4 b5 b6 b7] s IH]; [constructor|]. apply Forall_app. split; [|done].
  apply Forall_map, Forall_true. by intros [].
Qed.
Lemma unescape_quote l : unescape (concat (map (λ c, [backslash; c]) l) ++ [quote_char]) = l.
Proof. induction l as [|c l IH]; [done|]. cbn. by rw IH. Qed.
Lemma string_end_quote l :
  string_end (concat (map (λ c, [backslash; c]) l) ++ [quote_char])
  = Some (length (concat (map (λ c, [backslash; c]) l) ++ [quote_char])).
Proof. induction l as [|c l IH]; [done|]. cbn. by rw IH. Qed.

#[local] Instance demo_codec : Codec quote print_scalar read_string read_scalar.
Proof.
  split.
  - intros s. eexists; split; [done|]. apply string_end_quote.
  - intros s. rw /read_string /quote /= unescape_quote. by rw String.string_of_list_ascii_of_string.
  - intros v Hv. destruct v as [|[]|t| | |]; try done; cbn; eexists _, _; (split_and!; [done|set_solver|]);
      repeat constructor. apply spell_plain.
  - intros v Hv. destruct v as [|[]|t| | |]; try done; cbn. by rw unspell_spell.
Qed.
End DemoCodec.

Definition demo_value : Value := Object [("k"%string, Array [Number "1"; Str "x"; Object []])].

Lemma parse_json_strict_print_witness :
  parse_json_strict DemoCodec.read_string DemoCodec.read_scalar
    (print DemoCodec.quote DemoCodec.print_scalar demo_value) = Some (Ok demo_value).
Proof.
  apply parse_json_strict_print.
  - exact DemoCodec.demo_codec.
  - apply distinct_keys_Object. split; [apply NoDup_singleton|]. repeat constructor.
  - cbn. lia.
Defined.
