(* ===== verification/AgentContext.v ===== *)
(** * Agent context: wire enumerations, headers, names and redaction

    Models [ai-gateway/src/agent/context.rs], the enumerations and requests of
    [agent/event.rs], the reading of agent headers in [agent/headers.rs],
    [agent/name.rs] and the two redactions of JSON ([agent/redaction.rs] and
    [utils/debug_log.rs]).

    The enumerations share one interface, [WireEnum]: a name for every value
    and a reader that never fails, with the law that reading a value's own name
    gives the value back. *)

From S2P Require Import Prelude RustStr Json StepState Headers.
From Stdlib Require Import Ascii.
Local Open Scope string_scope.

(** ** Wire enumerations *)

(** [names] lists the spellings [FromStr] accepts, in the order of its arms;
    every other input is [fallback]. *)
Class WireEnum (A : Type) := {
  as_str : A → string;
  names : list (string * A);
  fallback : A
}.

Fixpoint lookup_name {A} (s : string) (l : list (string * A)) : option A :=
  match l with
  | [] => None
  | (n, a) :: l => if String.eqb n s then Some a else lookup_name s l
  end.

(** [FromStr::from_str]: trimmed and lower-cased, then matched. *)
Definition from_str {A} `{!WireEnum A} (value : string) : A :=
  default fallback (lookup_name (to_ascii_lowercase (trim value)) names).

(** [Deserialize]: a JSON string through the same reader. *)
Definition deserialize {A} `{!WireEnum A} (v : Value) : option A := from_str <$> Json.as_str v.

(** What [Display] writes, the reader reads back. *)
Class LawfulEnum (A : Type) `{!WireEnum A} := read_back : ∀ a : A, from_str (as_str a) = a.

(* src: ai-gateway/src/agent/context.rs:108-127 AgentStepKind::from_str *)
Definition step_kind_names : list (string * AgentStepKind) :=
  [("planning", Planning); ("reasoning", Reasoning); ("llm_call", LlmCall); ("llm-call", LlmCall);
   ("tool_call", ToolCall); ("tool-call", ToolCall); ("tool_result", ToolResult);
   ("tool-result", ToolResult); ("handoff", Handoff); ("approval", Approval);
   ("checkpoint", Checkpoint); ("final_answer", FinalAnswer); ("final-answer", FinalAnswer);
   ("retry", Retry); ("error_recovery", ErrorRecovery); ("error-recovery", ErrorRecovery)].

#[global] Instance AgentStepKind_wire : WireEnum AgentStepKind :=
  { as_str := kind_as_str; names := step_kind_names; fallback := UnknownKind }.

(* src: ai-gateway/src/agent/context.rs:139-148 AgentStepSource *)
Inductive AgentStepSource := Runtime | Gateway | Rule | Heuristic | UnknownSource.

(* src: ai-gateway/src/agent/context.rs:150-161 AgentStepSource::as_str *)
Definition step_source_as_str (s : AgentStepSource) : string :=
  match s with
  | Runtime => "runtime" | Gateway => "gateway" | Rule => "rule"
  | Heuristic => "heuristic" | UnknownSource => "unknown"
  end.

(* src: ai-gateway/src/agent/context.rs:169-181 AgentStepSource::from_str *)
Definition step_source_names : list (string * AgentStepSource) :=
  [("runtime", Runtime); ("gateway", Gateway); ("rule", Rule); ("heuristic", Heuristic)].

#[global] Instance AgentStepSource_wire : WireEnum AgentStepSource :=
  { as_str := step_source_as_str; names := step_source_names; fallback := UnknownSource }.

(* src: ai-gateway/src/agent/context.rs:193-201 AgentConfidence *)
Inductive AgentConfidence := High | Medium | Low | UnknownConfidence.

(* src: ai-gateway/src/agent/context.rs:203-213 AgentConfidence::as_str *)
Definition confidence_as_str (c : AgentConfidence) : string :=
  match c with High => "high" | Medium => "medium" | Low => "low" | UnknownConfidence => "unknown" end.

(* src: ai-gateway/src/agent/context.rs:221-232 AgentConfidence::from_str *)
Definition confidence_names : list (string * AgentConfidence) :=
  [("high", High); ("medium", Medium); ("low", Low)].

#[global] Instance AgentConfidence_wire : WireEnum AgentConfidence :=
  { as_str := confidence_as_str; names := confidence_names; fallback := UnknownConfidence }.

(* src: ai-gateway/src/agent/context.rs:244-252 AgentEventPhase *)
Inductive AgentEventPhase := Before | After | State | UnknownPhase.

(* src: ai-gateway/src/agent/context.rs:254-264 AgentEventPhase::as_str *)
Definition event_phase_as_str (p : AgentEventPhase) : string :=
  match p with Before => "before" | After => "after" | State => "state" | UnknownPhase => "unknown" end.

(* src: ai-gateway/src/agent/context.rs:272-283 AgentEventPhase::from_str *)
Definition event_phase_names : list (string * AgentEventPhase) :=
  [("before", Before); ("after", After); ("state", State)].

#[global] Instance AgentEventPhase_wire : WireEnum AgentEventPhase :=
  { as_str := event_phase_as_str; names := event_phase_names; fallback := UnknownPhase }.

(* src: ai-gateway/src/agent/context.rs:295-302 AgentPolicyStage *)
Inductive AgentPolicyStage := PreAction | PostAction | AuditOnly.

(* src: ai-gateway/src/agent/context.rs:304-313 AgentPolicyStage::as_str *)
Definition policy_stage_as_str (p : AgentPolicyStage) : string :=
  match p with PreAction => "pre_action" | PostAction => "post_action" | AuditOnly => "audit_only" end.

(* src: ai-gateway/src/agent/context.rs:321-332 AgentPolicyStage::from_str *)
Definition policy_stage_names : list (string * AgentPolicyStage) :=
  [("pre_action", PreAction); ("pre-action", PreAction); ("post_action", PostAction);
   ("post-action", PostAction); ("audit_only", AuditOnly); ("audit-only", AuditOnly)].

#[global] Instance AgentPolicyStage_wire : WireEnum AgentPolicyStage :=
  { as_str := policy_stage_as_str; names := policy_stage_names; fallback := AuditOnly }.

(* src: ai-gateway/src/agent/context.rs:346-352 AgentPolicyMode *)
Inductive AgentPolicyMode := Audit | Enforce.

(* src: ai-gateway/src/agent/context.rs:354-362 AgentPolicyMode::as_str *)
Definition policy_mode_as_str (p : AgentPolicyMode) : string :=
  match p with Audit => "audit" | Enforce => "enforce" end.

(* src: ai-gateway/src/agent/context.rs:370-379 AgentPolicyMode::from_str *)
Definition policy_mode_names : list (string * AgentPolicyMode) :=
  [("enforce", Enforce)].

#[global] Instance AgentPolicyMode_wire : WireEnum AgentPolicyMode :=
  { as_str := policy_mode_as_str; names := policy_mode_names; fallback := Audit }.

(* src: ai-gateway/src/agent/context.rs:391-400 AgentEventSourceTrust *)
Inductive AgentEventSourceTrust :=
| TrustSelfReported | AdapterDetected | GatewayObserved | GatewayExecuted | Registered.

(* src: ai-gateway/src/agent/context.rs:402-413 AgentEventSourceTrust::as_str *)
Definition source_trust_as_str (t : AgentEventSourceTrust) : string :=
  match t with
  | TrustSelfReported => "self_reported" | AdapterDetected => "adapter_detected"
  | GatewayObserved => "gateway_observed" | GatewayExecuted => "gateway_executed"
  | Registered => "registered"
  end.

(* src: ai-gateway/src/agent/context.rs:421-433 AgentEventSourceTrust::from_str *)
Definition source_trust_names : list (string * AgentEventSourceTrust) :=
  [("adapter_detected", AdapterDetected); ("adapter-detected", AdapterDetected);
   ("gateway_observed", GatewayObserved); ("gateway-observed", GatewayObserved);
   ("gateway_executed", GatewayExecuted); ("gateway-executed", GatewayExecuted);
   ("registered", Registered)].

#[global] Instance AgentEventSourceTrust_wire : WireEnum AgentEventSourceTrust :=
  { as_str := source_trust_as_str; names := source_trust_names; fallback := TrustSelfReported }.

(* src: ai-gateway/src/agent/event.rs:68-79 AgentEventSource *)
Inductive AgentEventSource := Alephant | LangGraph | OpenAiAgents | N8n | CrewAi | Mastra | UnknownEventSource.

(* src: ai-gateway/src/agent/event.rs:81-94 AgentEventSource::as_str *)
Definition event_source_as_str (s : AgentEventSource) : string :=
  match s with
  | Alephant => "alephant" | LangGraph => "langgraph" | OpenAiAgents => "openai_agents"
  | N8n => "n8n" | CrewAi => "crewai" | Mastra => "mastra" | UnknownEventSource => "unknown"
  end.

(* src: ai-gateway/src/agent/event.rs:102-117 AgentEventSource::from_str *)
Definition event_source_names : list (string * AgentEventSource) :=
  [("alephant", Alephant); ("alephant_agent", Alephant); ("alephant-agent", Alephant);
   ("langgraph", LangGraph); ("lang_graph", LangGraph); ("lang-graph", LangGraph);
   ("openai_agents", OpenAiAgents); ("openai-agents", OpenAiAgents); ("openaiagents", OpenAiAgents);
   ("openai_agent_sdk", OpenAiAgents); ("openai-agent-sdk", OpenAiAgents);
   ("n8n", N8n); ("crew_ai", CrewAi); ("crew-ai", CrewAi); ("crewai", CrewAi); ("mastra", Mastra)].

#[global] Instance AgentEventSource_wire : WireEnum AgentEventSource :=
  { as_str := event_source_as_str; names := event_source_names; fallback := UnknownEventSource }.

(* src: ai-gateway/src/agent/context.rs:447-455 AgentTrustLevel *)
Inductive AgentTrustLevel := SelfReported | AuthBound | RegistryVerified | SystemDerived.

(* src: ai-gateway/src/agent/context.rs:457-467 AgentTrustLevel::as_str *)
Definition trust_level_as_str (t : AgentTrustLevel) : string :=
  match t with
  | SelfReported => "self_reported" | AuthBound => "auth_bound" | RegistryVerified => "registry_verified"
  | SystemDerived => "system_derived"
  end.

#[global] Instance AgentTrustLevel_eq_dec : EqDecision AgentTrustLevel.
Proof. solve_decision. Defined.
#[global] Instance AgentStepSource_eq_dec : EqDecision AgentStepSource.
Proof. solve_decision. Defined.
#[global] Instance AgentConfidence_eq_dec : EqDecision AgentConfidence.
Proof. solve_decision. Defined.

#[global] Instance AgentEventSource_eq_dec : EqDecision AgentEventSource.
Proof. solve_decision. Defined.

Ltac lawful := intros []; reflexivity.
#[global] Instance AgentStepKind_lawful : LawfulEnum AgentStepKind. Proof. lawful. Qed.
#[global] Instance AgentStepSource_lawful : LawfulEnum AgentStepSource. Proof. lawful. Qed.
#[global] Instance AgentConfidence_lawful : LawfulEnum AgentConfidence. Proof. lawful. Qed.
#[global] Instance AgentEventPhase_lawful : LawfulEnum AgentEventPhase. Proof. lawful. Qed.
#[global] Instance AgentPolicyStage_lawful : LawfulEnum AgentPolicyStage. Proof. lawful. Qed.
#[global] Instance AgentPolicyMode_lawful : LawfulEnum AgentPolicyMode. Proof. lawful. Qed.
#[global] Instance AgentEventSourceTrust_lawful : LawfulEnum AgentEventSourceTrust. Proof. lawful. Qed.
#[global] Instance AgentEventSource_lawful : LawfulEnum AgentEventSource. Proof. lawful. Qed.

(** [Serialize] with serde's [snake_case] rule, which puts an underscore before
    every inner capital. *)
(* src: ai-gateway/src/agent/event.rs:68-79 AgentEventSource::serialize *)
Definition event_source_serialize (s : AgentEventSource) : string :=
  match s with
  | Alephant => "alephant" | LangGraph => "lang_graph" | OpenAiAgents => "open_ai_agents"
  | N8n => "n8n" | CrewAi => "crew_ai" | Mastra => "mastra" | UnknownEventSource => "unknown"
  end.

(** Of the names the gateway writes to JSON, its own reader knows all but one. *)
Lemma event_source_reads_serialized s :
  from_str (event_source_serialize s) = if decide (s = OpenAiAgents) then UnknownEventSource else s.
Proof. by destruct s. Qed.

(** ** The agent context of a request *)

(* src: ai-gateway/src/agent/context.rs:6-24 AgentContext *)
Record AgentContext := mkContext {
  agent_id_external : option string;
  agent_name : option string;
  agent_uid : option string;
  run_id : option string;
  ctx_step_id : option string;
  ctx_parent_step_id : option string;
  ctx_tool_call_id : option string;
  handoff_id : option string;
  ctx_graph_node : option string;
  iteration : option Z;
  state_hash : option string;
  ctx_step_kind : option AgentStepKind;
  step_source : AgentStepSource;
  step_confidence : AgentConfidence;
  trust_level : AgentTrustLevel;
  partial : bool
}.

Definition is_none {A} (o : option A) : bool := match o with None => true | Some _ => false end.

(* src: ai-gateway/src/agent/context.rs:28-44 AgentContext::is_empty *)
Definition context_is_empty (c : AgentContext) : bool :=
  is_none (agent_id_external c) && is_none (agent_name c) && is_none (agent_uid c) && is_none (run_id c)
  && is_none (ctx_step_id c) && is_none (ctx_parent_step_id c) && is_none (ctx_tool_call_id c)
  && is_none (handoff_id c) && is_none (ctx_graph_node c) && is_none (iteration c) && is_none (state_hash c)
  && is_none (ctx_step_kind c)
  && bool_decide (step_source c = UnknownSource)
  && bool_decide (step_confidence c = UnknownConfidence)
  && bool_decide (trust_level c = SelfReported).

(* src: ai-gateway/src/agent/context.rs:47-61 AgentContext::agent_identity_for_namespace *)
Definition agent_identity_for_namespace (c : AgentContext) (virtual_key_id : option string) : string :=
  match agent_uid c with
  | Some uid => uid
  | None =>
      match agent_id_external c with
      | Some external => external
      | None => match virtual_key_id with Some id => "vk:" ++ id | None => "unknown" end
      end
  end.

(* src: ai-gateway/src/agent/headers.rs:87-94 header_string *)
Definition header_string (h : HeaderMap) (max_value_bytes : Z) (name : string) : option string :=
  match header_str name h with
  | None => None
  | Some v =>
      let text := trim v in
      if is_empty text || (max_value_bytes <? Z.of_nat (len text))%Z then None else Some text
  end.

(* src: ai-gateway/src/agent/headers.rs:46-85 parse_agent_context_from_headers *)
Definition parse_agent_context_from_headers (h : HeaderMap) (max_value_bytes : Z) : option AgentContext :=
  let get := header_string h max_value_bytes in
  let ctx := mkContext (get "alephant-agent-id") (get "alephant-agent-name") None (get "alephant-run-id")
               (get "alephant-step-id") (get "alephant-parent-step-id") (get "alephant-tool-call-id")
               (get "alephant-handoff-id") (get "alephant-graph-node")
               (get "alephant-iteration" ≫= parse_uint u32_max) (get "alephant-state-hash")
               (from_str <$> get "alephant-step-kind")
               (default UnknownSource (from_str <$> get "alephant-step-source"))
               UnknownConfidence SelfReported false in
  if context_is_empty ctx then None
  else Some (mkContext (agent_id_external ctx) (agent_name ctx) (agent_uid ctx) (run_id ctx)
               (ctx_step_id ctx) (ctx_parent_step_id ctx) (ctx_tool_call_id ctx) (handoff_id ctx)
               (ctx_graph_node ctx) (iteration ctx) (state_hash ctx) (ctx_step_kind ctx) (step_source ctx)
               High SelfReported (is_none (agent_id_external ctx) || is_none (run_id ctx))).

(** ** Agent names *)

(* src: ai-gateway/src/agent/name.rs:7-12 AgentNameConflict *)
Record AgentNameConflict := mkConflict {
  registered_agent_name : string;
  self_reported_agent_name : string;
  self_reported_agent_name_source : string
}.

(* src: ai-gateway/src/agent/name.rs:14-20 ResolvedAgentName *)
Record ResolvedAgentName := mkResolved {
  name : option string;
  source : option string;
  resolved_trust : option AgentTrustLevel;
  conflict : option AgentNameConflict
}.

(* src: ai-gateway/src/agent/name.rs:23-33 parse_agent_name_from_vk_label *)
Definition parse_agent_name_from_vk_label (label : string) : option string :=
  match split_once ":" label with
  | None => None
  | Some (prefix, name) =>
      if negb (eq_ignore_ascii_case (trim prefix) "agent") then None
      else let name := trim name in if is_empty name then None else Some name
  end.

(* src: ai-gateway/src/agent/name.rs:82-84 nonempty_trimmed *)
Definition nonempty_trimmed (value : option string) : option string :=
  match value with
  | Some v => let v := trim v in if is_empty v then None else Some v
  | None => None
  end.

(* src: ai-gateway/src/agent/name.rs:36-80 resolve_agent_name *)
Definition resolve_agent_name (registered_agent_name event_agent_name header_agent_name : option string)
  : ResolvedAgentName :=
  let self_reported :=
    match nonempty_trimmed event_agent_name with
    | Some n => Some (n, "self_reported_event")
    | None => (λ n, (n, "self_reported_header")) <$> nonempty_trimmed header_agent_name
    end in
  match nonempty_trimmed registered_agent_name with
  | Some registered =>
      let conflict :=
        match self_reported with
        | Some (self_name, source) =>
            if negb (String.eqb self_name registered) then Some (mkConflict registered self_name source) else None
        | None => None
        end in
      mkResolved (Some registered) (Some "virtual_key_label") (Some AuthBound) conflict
  | None =>
      match self_reported with
      | Some (n, source) => mkResolved (Some n) (Some source) (Some SelfReported) None
      | None => mkResolved None None None None
      end
  end.

(** ** Redaction *)

(** Both redactions walk a value the same way; they differ in which keys they
    hide and in what they put there. *)
Section redact.
Context (sensitive : string → bool) (mark : string).

(* src: ai-gateway/src/agent/redaction.rs:26-44 redact_value *)
Fixpoint redact_value (v : Value) : Value :=
  match v with
  | Object fields =>
      Object (map (λ '(key, value), (key, if sensitive key then Str mark else redact_value value)) fields)
  | Array items => Array (map redact_value items)
  | Null | Bool _ | Number _ | Str _ => v
  end.
End redact.

(* src: ai-gateway/src/agent/redaction.rs:3-18 SENSITIVE_KEYS *)
Definition SENSITIVE_KEYS : list string :=
  ["authorization"; "cookie"; "set-cookie"; "api_key"; "apikey"; "x-api-key"; "token"; "access_token";
   "refresh_token"; "password"; "secret"; "client_secret"; "payment_signature"].

(* src: ai-gateway/src/agent/redaction.rs:46-51 is_sensitive_key *)
Definition is_sensitive_key (key : string) : bool :=
  let lower := to_ascii_lowercase key in
  existsb (λ s, String.eqb lower s || contains s lower) SENSITIVE_KEYS.

(* src: ai-gateway/src/agent/redaction.rs:20-24 redact_metadata *)
Definition redact_metadata (value : Value) : Value := redact_value is_sensitive_key "[redacted]" value.

Section debug_log.
(** [char::to_lowercase] over a string. *)
Context (to_lowercase : string → string).

(* src: ai-gateway/src/utils/debug_log.rs:153-172 json_key_should_redact *)
Definition json_key_should_redact (key : string) : bool :=
  let compact := to_lowercase (str_filter (λ c, negb (Ascii.eqb c "_" || Ascii.eqb c "-" || Ascii.eqb c " ")) key) in
  bool_decide (compact ∈ ["authorization"; "key"; "password"; "secret"; "token"])
  || existsb (λ suffix, ends_with suffix compact)
       ["apikey"; "accesstoken"; "refreshtoken"; "idtoken"; "secretkey"; "privatekey"; "providerkey"].

(* src: ai-gateway/src/utils/debug_log.rs:133-151 redact_json_value *)
Definition redact_json_value (value : Value) : Value := redact_value json_key_should_redact "<redacted>" value.

(* src: ai-gateway/src/utils/debug_log.rs:43-48 DebugBodyPreview *)
Record DebugBodyPreview := mkPreview { body_len : Z; truncated : bool; preview_body : string }.

(** [serde_json]. *)
Context (from_slice : string → option Value) (to_string : Value → string).

(* src: ai-gateway/src/utils/debug_log.rs:127-131 redacted_json_body *)
Definition redacted_json_body (body : string) : option string :=
  (λ v, to_string (redact_json_value v)) <$> from_slice body.

(* src: ai-gateway/src/utils/debug_log.rs:109-125 debug_body_preview_with_limit *)
Definition debug_body_preview_with_limit (body : string) (max_log_bytes : nat) : DebugBodyPreview :=
  let display_body := default (from_utf8_lossy body) (redacted_json_body body) in
  let truncated := (max_log_bytes <? len display_body)%nat in
  mkPreview (Z.of_nat (len body)) truncated
    (if truncated then from_utf8_lossy (str_take max_log_bytes display_body) else display_body).
End debug_log.

(** ** Theorems *)

(** A place in a value: the keys and indices that lead to it. *)
Inductive step := Key (k : string) | Index (i : nat).

Fixpoint at_path (path : list step) (v : Value) : option Value :=
  match path with
  | [] => Some v
  | Key k :: path => match get k v with Some w => at_path path w | None => None end
  | Index i :: path =>
      match as_array v with
      | Some items => match items !! i with Some w => at_path path w | None => None end
      | None => None
      end
  end.

Definition hidden (sensitive : string → bool) (path : list step) : bool :=
  existsb (λ s, match s with Key k => sensitive k | Index _ => false end) path.

Section redaction_lemmas.
Context (sensitive : string → bool) (mark : string).

Lemma assoc_redact k fields :
  assoc k (map (λ '(key, value), (key, if sensitive key then Str mark else redact_value sensitive mark value)) fields)
  = (λ v, if sensitive k then Str mark else redact_value sensitive mark v) <$> assoc k fields.
Proof.
  induction fields as [|[k' v] fields IH]; [done|]. simpl.
  destruct (String.eqb_spec k' k) as [->|]; [done|]. apply IH.
Qed.

Lemma get_redact k v :
  get k (redact_value sensitive mark v)
  = (λ w, if sensitive k then Str mark else redact_value sensitive mark w) <$> get k v.
Proof. destruct v; try done. apply assoc_redact. Qed.

(** Below a path without sensitive keys the value is the redacted one; below a
    sensitive key there is the mark and nothing under it. *)
Lemma at_path_redact path : ∀ v w,
  at_path path (redact_value sensitive mark v) = Some w →
  w = Str mark ∨ (hidden sensitive path = false ∧ ∃ u, at_path path v = Some u ∧ w = redact_value sensitive mark u).
Proof.
  induction path as [|[k|i] path IH]; intros v w; cbn [at_path hidden existsb].
  - intros [= <-]. right. split; [done|]. by exists v.
  - rw get_redact. destruct (get k v) as [u|]; [|done]. simpl. destruct (sensitive k) eqn:Hk; simpl.
    + intros Hp. left. destruct path as [|[] path]; simpl in Hp; by simplify_eq.
    + apply IH.
  - destruct v as [| | | |items|]; try done. simpl. rw list_lookup_fmap.
    destruct (items !! i) as [u|]; [|done]. apply IH.
Qed.

Lemma redact_value_idemp v :
  redact_value sensitive mark (redact_value sensitive mark v) = redact_value sensitive mark v.
Proof.
  induction v as [| | | |items IH|fields IH] using Value_nested_ind; try done; simpl; f_equal; rw map_map.
  - induction IH as [|v items Hv _ IH2]; [done|]. simpl. by rw Hv IH2.
  - induction IH as [|[k v] fields Hv _ IH2]; [done|]. simpl in *. rw IH2.
    destruct (sensitive k); [done|]. by rw Hv.
Qed.
End redaction_lemmas.

(** Redaction leaks nothing under a sensitive key: a string found
    anywhere in redacted metadata is the mark, or stood at the same place of
    the original, reached through no sensitive key at any depth; and redacting
    again changes nothing. *)
Theorem redact_metadata_safe v path s :
  (at_path path (redact_metadata v) = Some (Str s) →
   s = "[redacted]" ∨ (hidden is_sensitive_key path = false ∧ at_path path v = Some (Str s))) ∧
  redact_metadata (redact_metadata v) = redact_metadata v.
Proof.
  split; [|apply redact_value_idemp]. intros H.
  apply at_path_redact in H as [[= ->]|(Hh & u & Hu & Hs)]; [by left|right].
  split; [done|]. destruct u; try done. by injection Hs as ->.
Qed.

Definition demo_metadata : Value :=
  Object [("user", Str "ann"); ("auth", Object [("X-Access_Token", Str "s3cr3t")])].

Lemma redact_metadata_safe_witness :
  at_path [Key "user"] (redact_metadata demo_metadata) = Some (Str "ann") ∧
  at_path [Key "user"] demo_metadata = Some (Str "ann") ∧
  at_path [Key "auth"; Key "X-Access_Token"] (redact_metadata demo_metadata) = Some (Str "[redacted]").
Proof.
  assert (H : at_path [Key "user"] (redact_metadata demo_metadata) = Some (Str "ann")) by (vm_compute; reflexivity).
  split; [exact H|]. split; [|vm_compute; reflexivity].
  destruct (proj1 (redact_metadata_safe demo_metadata [Key "user"] "ann") H) as [Hx|[_ Hx]]; [discriminate Hx|exact Hx].
Defined.

(** Every wire enumeration reads back its own name: for step
    kinds, step sources, confidences, event phases, policy stages, policy
    modes, source trusts and event sources, parsing what is displayed gives
    the value. *)
Theorem wire_enums_read_back :
  (∀ k : AgentStepKind, from_str (as_str k) = k) ∧ (∀ s : AgentStepSource, from_str (as_str s) = s) ∧
  (∀ c : AgentConfidence, from_str (as_str c) = c) ∧ (∀ p : AgentEventPhase, from_str (as_str p) = p) ∧
  (∀ p : AgentPolicyStage, from_str (as_str p) = p) ∧ (∀ m : AgentPolicyMode, from_str (as_str m) = m) ∧
  (∀ t : AgentEventSourceTrust, from_str (as_str t) = t) ∧ (∀ s : AgentEventSource, from_str (as_str s) = s).
Proof. repeat split; apply read_back. Qed.

(** A registered name always wins, and is the only one trusted. *)
Lemma resolve_agent_name_trust registered event header :
  resolved_trust (resolve_agent_name registered event header) = Some AuthBound ↔
  ∃ n, nonempty_trimmed registered = Some n ∧ name (resolve_agent_name registered event header) = Some n.
Proof.
  rw /resolve_agent_name. destruct (nonempty_trimmed registered) as [n|]; simpl; [naive_solver|].
  destruct (nonempty_trimmed event), (nonempty_trimmed header); naive_solver.
Qed.

(** Headers never raise the trust of a context above what the client says of
    itself. *)
Lemma parse_agent_context_self_reported h max c :
  parse_agent_context_from_headers h max = Some c → trust_level c = SelfReported ∧ agent_uid c = None.
Proof. rw /parse_agent_context_from_headers. case_match; [done|]. by intros [= <-]. Qed.
