(* ===== verification/AgentPolicy.v ===== *)
(** * Agent policy decisions

    Models [ai-gateway/src/agent/policy.rs]: the request to the policy service,
    the decision made of its answer, the refusal when it is unavailable, and the
    record of the decision in an event's metadata.

    The policy service and the conversion of JSON numbers are parameters; the
    messages are those of [proto/evaluate.proto]. *)

From S2P Require Import Prelude RustStr Json StepState AgentContext.
From Stdlib Require Import Ascii.
Local Open Scope string_scope.

(** ** Messages *)

Inductive AgentPolicyPhase := PhaseUnspecified | ModelRequest | PhaseToolCall | RunUpdate | ToolApprovalResume.
Inductive AgentPolicyDecisionKind := KindUnspecified | Allow | Deny | Block | ApprovalRequired | AuditWarning.
Inductive AgentPolicyScope := ScopeUnspecified | ScopeNone | ScopeWorkspace | ScopeDepartment | ScopeAgent.

(** [try_from(i32)] of the generated enumerations. *)
Definition decision_kind_try_from (n : Z) : option AgentPolicyDecisionKind :=
  match n with
  | 0 => Some KindUnspecified | 1 => Some Allow | 2 => Some Deny | 3 => Some Block
  | 4 => Some ApprovalRequired | 5 => Some AuditWarning | _ => None
  end%Z.
Definition scope_try_from (n : Z) : option AgentPolicyScope :=
  match n with
  | 0 => Some ScopeUnspecified | 1 => Some ScopeNone | 2 => Some ScopeWorkspace
  | 3 => Some ScopeDepartment | 4 => Some ScopeAgent | _ => None
  end%Z.
Definition scope_as_str_name (s : AgentPolicyScope) : string :=
  match s with
  | ScopeUnspecified => "AGENT_POLICY_SCOPE_UNSPECIFIED" | ScopeNone => "AGENT_POLICY_SCOPE_NONE"
  | ScopeWorkspace => "AGENT_POLICY_SCOPE_WORKSPACE" | ScopeDepartment => "AGENT_POLICY_SCOPE_DEPARTMENT"
  | ScopeAgent => "AGENT_POLICY_SCOPE_AGENT"
  end.

(** An issue reported by the policy service; the numeric fields are kept as
    their text. *)
(* src: ai-gateway/src/agent/event.rs:334-346 AgentPolicyIssueDto *)
Record AgentPolicyIssue := mkIssue {
  field : string; issue_reason : string; issue_blocked_by : string; issue_reason_message : string;
  actual : string; expected : list string; actual_value : option string; expected_value : option string;
  unit_name : string; operator : string
}.

Record ValidateAgentPolicyResponse := mkResponse {
  response_allowed : bool;
  response_decision : Z;
  response_reason : string;
  response_blocked_by : string;
  response_route_hint : string;
  response_snapshot_revision : Z;
  response_reason_message : string;
  response_policy_id : string;
  response_policy_scope : Z;
  response_violations : list AgentPolicyIssue;
  response_warnings : list AgentPolicyIssue
}.

(** The fields of an event that policy looks at. *)
(* src: ai-gateway/src/agent/event.rs:264-302 AgentEventEnvelope *)
Record AgentEventEnvelope := mkEnvelope {
  event_id : string;
  event_type : string;
  policy_stage : AgentPolicyStage;
  envelope_name : option string;
  envelope_agent_id_external : option string;
  envelope_agent_uid : option string;
  envelope_run_id : option string;
  envelope_step_id : option string;
  envelope_tool_call_id : option string;
  envelope_step_kind : option AgentStepKind;
  metadata : Value
}.

(** The fields of the caller's authentication that policy and the tools look
    at; an identifier that is nil is [None], [auth_agent_name] is the registered
    agent name. *)
Record AuthContext := mkAuth {
  org_id : string;
  user_id : string;
  department_id : option string;
  virtual_key_id : option string;
  entity_type : string;
  entity_id : option string;
  auth_agent_name : option string
}.

(* src: ai-gateway/src/agent/event.rs:313-332 AgentPolicyDecision *)
Record AgentPolicyDecision := mkDecision {
  decision_event_id : string;
  decision_event_type : string;
  decision_run_id : option string;
  decision_step_id : option string;
  allowed : bool;
  policy_decision : string;
  decision_policy_stage : string;
  sink_status : string;
  reason : string;
  blocked_by : string;
  route_hint : string;
  snapshot_revision : Z;
  reason_message : string;
  policy_id : string;
  policy_scope : string;
  violations : list AgentPolicyIssue;
  warnings : list AgentPolicyIssue
}.

(** ** The request *)

(* src: ai-gateway/src/agent/policy.rs:85-103 phase_for_step_kind *)
Definition phase_for_step_kind (kind : option AgentStepKind) : AgentPolicyPhase :=
  match kind with
  | Some (Planning | Reasoning | LlmCall) => ModelRequest
  | Some ToolCall => PhaseToolCall
  | Some (ToolResult | Handoff | Approval | Checkpoint | FinalAnswer | Retry | ErrorRecovery | UnknownKind)
  | None => RunUpdate
  end.

(* src: ai-gateway/src/agent/policy.rs:175-185 policy_agent_id *)
Definition policy_agent_id (auth : AuthContext) (envelope : AgentEventEnvelope) : string :=
  let reported :=
    match envelope_agent_uid envelope with
    | Some uid => uid
    | None => match virtual_key_id auth with
              | Some vk => "vk:" ++ vk
              | None => default "" (envelope_agent_id_external envelope)
              end
    end in
  match entity_id auth with
  | Some id => if eq_ignore_ascii_case (entity_type auth) "agent" then id else reported
  | None => reported
  end.

Section request.
(** [Value::as_i64] on a number's text, and [serde_json::to_vec]. *)
Context (as_i64 : string → option Z) (to_vec : Value → string).

(* src: ai-gateway/src/agent/policy.rs:364-370 metadata_string *)
Definition metadata_string (metadata : Value) (key : string) : string :=
  default "" (get key metadata ≫= Json.as_str).

(* src: ai-gateway/src/agent/policy.rs:372-374 metadata_i64 *)
Definition metadata_i64 (metadata : Value) (key : string) : option Z :=
  match get key metadata with Some (Number t) => as_i64 t | _ => None end.

(* src: ai-gateway/src/agent/policy.rs:376-381 metadata_i32 *)
Definition metadata_i32 (metadata : Value) (key : string) : option Z :=
  match metadata_i64 metadata key with
  | Some v => if ((i32_min <=? v) && (v <=? i32_max))%Z then Some v else None
  | None => None
  end.

Record AgentPolicyRuntimeContext := mkRuntime {
  request_count : option Z; duration_sec : option Z; retry_count : option Z
}.

(* src: ai-gateway/src/agent/policy.rs:383-399 runtime_context_from_metadata *)
Definition runtime_context_from_metadata (metadata : Value) : option AgentPolicyRuntimeContext :=
  let runtime := mkRuntime (metadata_i32 metadata "request_count") (metadata_i32 metadata "duration_sec")
                   (metadata_i32 metadata "retry_count") in
  if is_none (request_count runtime) && is_none (duration_sec runtime) && is_none (retry_count runtime)
  then None else Some runtime.

(* src: ai-gateway/src/agent/policy.rs:118-123 build_validate_agent_policy_request *)
Definition estimated_cost_micros (metadata : Value) : Z :=
  match metadata_i64 metadata "estimated_cost_micros" with
  | Some micros => micros
  | None => match metadata_i64 metadata "estimated_cost_cents" with
            | Some cents => i64_saturating_mul cents 10000
            | None => 0
            end
  end.

Record ValidateAgentPolicyRequest := mkPolicyRequest {
  req_workspace_id : string; req_request_id : string; req_agent_id : string; req_department_id : string;
  req_run_id : string; req_phase : AgentPolicyPhase; req_model : string; req_provider : string;
  req_tool_name : string; req_estimated_cost_cents : option Z; req_runtime : option AgentPolicyRuntimeContext;
  req_locale : string; req_user_id : string; req_virtual_key_id : string; req_step_id : string;
  req_metadata : string; req_entity_type : string; req_entity_id : string; req_tool_execution_id : string;
  req_tool_id : string; req_tool_call_id : string; req_snapshot_revision_text : string;
  req_policy_revision_text : string; req_schema_hash : string; req_arguments_hash : string;
  req_estimated_cost_micros : Z; req_currency : string
}.

(* src: ai-gateway/src/agent/policy.rs:106-173 build_validate_agent_policy_request *)
Definition build_validate_agent_policy_request (auth : AuthContext) (envelope : AgentEventEnvelope)
  : ValidateAgentPolicyRequest :=
  let m := metadata envelope in
  let text := metadata_string m in
  let tool_name := text "tool_name" in
  mkPolicyRequest (org_id auth) (event_id envelope) (policy_agent_id auth envelope)
    (default "" (department_id auth)) (default "" (envelope_run_id envelope))
    (phase_for_step_kind (envelope_step_kind envelope)) (text "model") (text "provider")
    (if is_empty tool_name then default "" (envelope_name envelope) else tool_name)
    (metadata_i64 m "estimated_cost_cents") (runtime_context_from_metadata m) ""
    (user_id auth) (default "" (virtual_key_id auth)) (default "" (envelope_step_id envelope))
    (to_vec m) (entity_type auth) (default "" (entity_id auth))
    (text "tool_execution_id") (text "tool_id")
    (match envelope_tool_call_id envelope with Some id => id | None => text "tool_call_id" end)
    (text "snapshot_revision_text") (text "policy_revision_text") (text "schema_hash")
    (text "arguments_hash") (estimated_cost_micros m) (text "currency").
End request.

(** ** Decisions *)

(* src: ai-gateway/src/agent/policy.rs:217-231 event_decision_from_policy_response *)
Definition event_decision_from_policy_response (response : ValidateAgentPolicyResponse) : bool * string :=
  match default KindUnspecified (decision_kind_try_from (response_decision response)) with
  | Allow => (true, "allowed")
  | Deny => (false, "denied")
  | Block => (false, "blocked")
  | ApprovalRequired => (false, "approval_required")
  | AuditWarning => (true, "audit_warning")
  | KindUnspecified => if response_allowed response then (true, "allowed") else (false, "denied")
  end.

(* src: ai-gateway/src/agent/policy.rs:188-215 decision_from_policy_response *)
Definition decision_from_policy_response (envelope : AgentEventEnvelope) (response : ValidateAgentPolicyResponse)
  : AgentPolicyDecision :=
  let '(allowed, policy_decision) := event_decision_from_policy_response response in
  mkDecision (event_id envelope) (event_type envelope) (envelope_run_id envelope) (envelope_step_id envelope)
    allowed policy_decision (policy_stage_as_str (policy_stage envelope)) ""
    (response_reason response) (response_blocked_by response) (response_route_hint response)
    (response_snapshot_revision response) (response_reason_message response) (response_policy_id response)
    (scope_as_str_name (default ScopeUnspecified (scope_try_from (response_policy_scope response))))
    (response_violations response) (response_warnings response).

Definition local_decision (envelope : AgentEventEnvelope) (policy_decision reason : string) : AgentPolicyDecision :=
  mkDecision (event_id envelope) (event_type envelope) (envelope_run_id envelope) (envelope_step_id envelope)
    true policy_decision (policy_stage_as_str (policy_stage envelope)) "" reason "" "" 0 "" ""
    (scope_as_str_name ScopeNone) [] [].

(* src: ai-gateway/src/agent/policy.rs:234-254 disabled_allowed_decision *)
Definition disabled_allowed_decision (envelope : AgentEventEnvelope) : AgentPolicyDecision :=
  local_decision envelope "allowed" "policy_disabled_allowed".

(* src: ai-gateway/src/agent/policy.rs:257-277 skipped_audit_decision *)
Definition skipped_audit_decision (envelope : AgentEventEnvelope) : AgentPolicyDecision :=
  local_decision envelope "skipped" "policy_skipped_audit_event".

(* src: ai-gateway/src/agent/policy.rs:20-24 AgentPolicyError *)
Inductive AgentPolicyError := Unavailable.

(** What the call to the policy service comes to within its timeout. *)
Inductive PolicyCall := Answered (r : ValidateAgentPolicyResponse) | StatusError | TimedOut.

(** [client] is the policy client when it is initialised. *)
(* src: ai-gateway/src/agent/policy.rs:30-82 validate_agent_policy *)
Definition validate_agent_policy (as_i64 : string → option Z) (to_vec : Value → string) (policy_enabled : bool)
    (client : option (ValidateAgentPolicyRequest → PolicyCall)) (auth : AuthContext) (envelope : AgentEventEnvelope)
  : result AgentPolicyDecision AgentPolicyError :=
  if negb policy_enabled then Ok (disabled_allowed_decision envelope)
  else match client with
       | None => Err Unavailable
       | Some client =>
           match client (build_validate_agent_policy_request as_i64 to_vec auth envelope) with
           | Answered response => Ok (decision_from_policy_response envelope response)
           | StatusError | TimedOut => Err Unavailable
           end
       end.

(** ** The decision in the metadata *)

Definition Fields := list (string * Value).
Definition has_key (key : string) (obj : Fields) : bool := bool_decide (key ∈ obj.*1).

Definition numbered_key (index : N) : string := "policy_client_original_" ++ pretty index.

(** The [loop] of [available_policy_original_key]. *)
(* src: ai-gateway/src/agent/policy.rs:339-346 available_policy_original_key *)
Fixpoint numbered_key_loop (fuel : nat) (index : N) (obj : Fields) : option string :=
  match fuel with
  | O => None
  | S fuel =>
      let key := numbered_key index in
      if negb (has_key key obj) then Some key else numbered_key_loop fuel (index + 1) obj
  end.

(* src: ai-gateway/src/agent/policy.rs:332-347 available_policy_original_key *)
Definition available_policy_original_key (obj : Fields) : option string :=
  if negb (has_key "policy_original" obj) then Some "policy_original"
  else if negb (has_key "policy_client_original" obj) then Some "policy_client_original"
  else numbered_key_loop (S (length obj)) 1 obj.

Definition policy_object (d : AgentPolicyDecision) : Value :=
  Object [("allowed", Bool (allowed d)); ("decision", Str (policy_decision d));
          ("policyDecision", Str (policy_decision d)); ("reason", Str (reason d));
          ("blocked_by", Str (blocked_by d)); ("route_hint", Str (route_hint d));
          ("policy_id", Str (policy_id d)); ("policy_scope", Str (policy_scope d));
          ("snapshot_revision", Number (pretty (snapshot_revision d)))].

(** The outer [None] would be a search for a free key that does not end. *)
(* src: ai-gateway/src/agent/policy.rs:279-308 attach_policy_decision_to_metadata *)
Definition attach_policy_decision_to_metadata (metadata : Value) (decision : AgentPolicyDecision) : option Value :=
  let obj := match metadata with Object fields => fields | original => [("value", original)] end in
  let moved :=
    match assoc "policy" obj with
    | None => Some obj
    | Some existing =>
        let obj := assoc_remove "policy" obj in
        (λ key, assoc_set key existing obj) <$> available_policy_original_key obj
    end in
  (λ obj, Object (assoc_set "policy" (policy_object decision) obj)) <$> moved.

(* src: ai-gateway/src/agent/policy.rs:328-330 truncate_policy_field *)
Definition truncate_policy_field (value : string) : string := take_chars 128 value.

(* src: ai-gateway/src/agent/policy.rs:311-326 compact_policy_decision_metadata *)
Definition compact_policy_decision_metadata (d : AgentPolicyDecision) : Value :=
  Object [("metadata_truncated", Bool true);
          ("metadata_truncation_reason", Str "agent_policy_metadata_limit");
          ("policy", Object [("allowed", Bool (allowed d)); ("decision", Str (policy_decision d));
             ("policyDecision", Str (policy_decision d)); ("reason", Str (truncate_policy_field (reason d)));
             ("blocked_by", Str (truncate_policy_field (blocked_by d)));
             ("policy_id", Str (truncate_policy_field (policy_id d))); ("policy_scope", Str (policy_scope d));
             ("snapshot_revision", Number (pretty (snapshot_revision d)))])].

(** ** The search for a free key ends *)

#[local] Instance numbered_key_inj : Inj (=) (=) numbered_key.
Proof. intros i j H. rw /numbered_key in H. apply str_app_inj_l in H. by apply (inj pretty) in H. Qed.

Lemma numbered_key_loop_spec fuel : ∀ index obj,
  match numbered_key_loop fuel index obj with
  | Some key => (key ∉ obj.*1) ∧ ∃ i, key = numbered_key i
  | None => ∀ i, (i < fuel)%nat → numbered_key (index + N.of_nat i) ∈ obj.*1
  end.
Proof.
  induction fuel as [|fuel IH]; intros index obj; cbn [numbered_key_loop]; [intros; lia|].
  rw /has_key. destruct (bool_decide _) eqn:Hin; bool_to_prop; simpl; [|by eauto].
  specialize (IH (index + 1)%N obj). destruct (numbered_key_loop fuel _ obj); [done|].
  intros [|i] Hi; [by rw N.add_0_r|]. replace (index + N.of_nat (S i))%N with (index + 1 + N.of_nat i)%N by lia.
  apply IH. lia.
Qed.

(** More candidates than keys: one of them is free. *)
Lemma numbered_key_pigeonhole (obj : Fields) (index : N) :
  ¬ ∀ i, (i < S (length obj))%nat → numbered_key (index + N.of_nat i) ∈ obj.*1.
Proof.
  intros H. set (keys := (λ i, numbered_key (index + N.of_nat i)) <$> seq 0 (S (length obj))).
  assert (Hn : NoDup keys).
  { apply NoDup_fmap; [|apply NoDup_seq]. intros i j Hij. apply (inj numbered_key) in Hij. lia. }
  assert (Hlen : (length keys ≤ length (obj.*1))%nat).
  { apply submseteq_length, NoDup_submseteq; [done|]. intros k (i & -> & Hi)%list_elem_of_fmap.
    apply H. apply elem_of_seq in Hi. lia. }
  rw /keys !length_fmap length_seq in Hlen. lia.
Qed.

Lemma available_key_free obj :
  ∃ key, available_policy_original_key obj = Some key ∧ (key ∉ obj.*1) ∧ key ≠ "policy".
Proof.
  rw /available_policy_original_key /has_key.
  destruct (bool_decide ("policy_original" ∈ obj.*1)) eqn:H1; bool_to_prop; simpl; [|by eauto].
  destruct (bool_decide ("policy_client_original" ∈ obj.*1)) eqn:H2; bool_to_prop; simpl; [|by eauto].
  pose proof (numbered_key_loop_spec (S (length obj)) 1 obj) as H.
  destruct (numbered_key_loop (S (length obj)) 1 obj) as [key|] eqn:Hk.
  - destruct H as [Hn [i ->]]. exists (numbered_key i). by cbn [numbered_key_loop] in Hk; rw Hk.
  - by apply numbered_key_pigeonhole in H.
Qed.

(** The fields the decision is attached to. *)
Definition metadata_fields (metadata : Value) : Fields :=
  match metadata with Object fields => fields | original => [("value", original)] end.

(** The policy record of an event is the gateway's: attaching a
    decision always succeeds, afterwards [policy] holds that decision whatever
    the client had put there, the client's own [policy] is kept under a key
    that was free, and every other key keeps its value. *)
Theorem attach_policy_decision_safe m d :
  ∃ m', attach_policy_decision_to_metadata m d = Some m' ∧
    get "policy" m' = Some (policy_object d) ∧
    match assoc "policy" (metadata_fields m) with
    | None => ∀ k, k ≠ "policy" → get k m' = assoc k (metadata_fields m)
    | Some client => ∃ key, assoc key (metadata_fields m) = None ∧ key ≠ "policy" ∧ get key m' = Some client ∧
        ∀ k, k ≠ "policy" → k ≠ key → get k m' = assoc k (metadata_fields m)
    end.
Proof.
  rw /attach_policy_decision_to_metadata -/(metadata_fields m). set (obj := metadata_fields m).
  destruct (assoc "policy" obj) as [client|] eqn:Hc; simpl.
  - destruct (available_key_free (assoc_remove "policy" obj)) as (key & -> & Hfree & Hne).
    eexists; split; [done|]. split; [apply assoc_set_eq|]. exists key.
    apply assoc_None in Hfree. rw assoc_remove_ne // in Hfree. split_and!; [done|done|..].
    + cbn [get]. by rw assoc_set_ne // assoc_set_eq.
    + intros k Hk Hkk. cbn [get]. by rw !assoc_set_ne // assoc_remove_ne.
  - eexists; split; [done|]. split; [apply assoc_set_eq|]. intros k Hk. cbn [get]. by rw assoc_set_ne.
Qed.

(** C32 (error). Policy fails closed: when policy is enabled, an event passes
    only with an answer of the policy service that allows it; a missing
    client, an error status and a timeout are all refusals, and an unknown or
    unspecified decision counts as what the answer's own flag says. *)
Theorem validate_agent_policy_fails_closed as_i64 to_vec client auth envelope :
  match validate_agent_policy as_i64 to_vec true client auth envelope with
  | Ok d =>
      ∃ call r, client = Some call ∧
        call (build_validate_agent_policy_request as_i64 to_vec auth envelope) = Answered r ∧
        (allowed d = true ↔ decision_kind_try_from (response_decision r) ∈ [Some Allow; Some AuditWarning] ∨
          (decision_kind_try_from (response_decision r) ∈ [None; Some KindUnspecified] ∧ response_allowed r = true))
  | Err Unavailable => ∀ call r, client = Some call →
      call (build_validate_agent_policy_request as_i64 to_vec auth envelope) ≠ Answered r
  end.
Proof.
  rw /validate_agent_policy. simpl. destruct client as [call|]; [|done].
  destruct (call _) as [r| |] eqn:Hc; [|intros ? ? [= <-]; by rw Hc..].
  exists call, r. split_and!; [done|done|].
  rw /decision_from_policy_response /event_decision_from_policy_response.
  destruct (decision_kind_try_from (response_decision r)) as [[]|]; destruct (response_allowed r); simpl; set_solver.
Qed.
