(* ===== verification/Validation.v ===== *)
(** * Payload validation policies

    Models [ai-gateway/src/validation]: selectors into JSON payloads, bounding
    boxes, header rules and the policy that combines them for requests and
    responses.  Checks never rewrite a payload; they accept it or give an error.

    [serde_json]'s pointers, equality and number conversion, the [http] crate's
    syntax checks of header names and values, and the image decoders are
    parameters. *)

From S2P Require Import Prelude RustStr Json Float64 DefaultModel Headers StrictJson.
From Stdlib Require Import Ascii SpecFloat.
Local Open Scope string_scope.

(* src: ai-gateway/src/validation/mod.rs:24-37 ValidationError *)
Record ValidationError := mkVError { error_code : string; error_path : string }.

(** ** Selectors *)

(* src: ai-gateway/src/validation/select.rs:5-5 MAX_ITEMS *)
Definition MAX_ITEMS : Z := 1024.

(* src: ai-gateway/src/validation/select.rs:7-14 Each *)
Inductive Each := Single | ObjectValue | ArrayItem.

#[global] Instance Each_eq_dec : EqDecision Each.
Proof. solve_decision. Defined.

(* src: ai-gateway/src/validation/select.rs:16-21 Filter *)
Record Filter := mkFilter { filter_pointer : string; equals : Value }.

(* src: ai-gateway/src/validation/select.rs:23-37 Selector *)
Record Selector := mkSelector {
  sel_pointer : string;
  each : Each;
  sel_required : bool;
  min_items : Z;
  sel_filter : option Filter;
  value_pointer : string
}.

(** The characters of a pointer: a tilde must be followed by 0 or 1.  The bytes
    of other characters are never 126. *)
Fixpoint tildes_ok (s : string) : bool :=
  match s with
  | EmptyString => true
  | String c s' =>
      if Ascii.eqb c "~" then
        match s' with
        | String d s'' => (Ascii.eqb d "0" || Ascii.eqb d "1") && tildes_ok s''
        | EmptyString => false
        end
      else tildes_ok s'
  end.

(* src: ai-gateway/src/validation/select.rs:43-54 valid_pointer *)
Definition valid_pointer (pointer : string) : bool :=
  if (512 <? Z.of_nat (len pointer))%Z || (negb (is_empty pointer) && negb (starts_with "/" pointer))
  then false else tildes_ok pointer.

Definition is_scalar_value (v : Value) : bool :=
  match v with Str _ | Bool _ | Number _ | Null => true | _ => false end.

(* src: ai-gateway/src/validation/select.rs:62-73 Selector::validate *)
Definition selector_validate (s : Selector) : bool :=
  valid_pointer (sel_pointer s) && valid_pointer (value_pointer s) && (min_items s <=? MAX_ITEMS)%Z
  && match sel_filter s with
     | Some f => valid_pointer (filter_pointer f) && is_scalar_value (equals f)
     | None => true
     end.

(* src: ai-gateway/src/validation/select.rs:56-59 Selected *)
Record Selected := mkSelected { key : string; selected_value : Value }.

Section validation.
(** [Value::pointer], [Value == Value] and [Value::as_f64] of [serde_json]. *)
Context (pointer : string → Value → option Value) (value_eq : Value → Value → bool)
  (as_f64 : Value → option f64).
(** [HeaderName::from_bytes(_).is_ok()] and [HeaderValue::from_str(_).is_ok()]. *)
Context (header_name_ok header_value_ok : string → bool).

Fixpoint select_loop (s : Selector) (l : list (string * Value)) : result (list Selected) ValidationError :=
  match l with
  | [] => Ok []
  | (k, value) :: rest =>
      let fail code := mkVError code (sel_pointer s) in
      let? keep :=
        match sel_filter s with
        | None => Ok true
        | Some f =>
            if match value with Object _ | Array _ => false | _ => true end then Err (fail "invalid_item")
            else match pointer (filter_pointer f) value with
                 | None => Err (fail "missing_discriminator")
                 | Some found => Ok (value_eq found (equals f))
                 end
        end in
      if negb keep then select_loop s rest
      else match pointer (value_pointer s) value with
           | Some v => let? more := select_loop s rest in Ok (mkSelected k v :: more)
           | None => if sel_required s then Err (fail "missing_field") else select_loop s rest
           end
  end.

(* src: ai-gateway/src/validation/select.rs:84-111 Selector::select *)
Definition selected_items (s : Selector) (collection : Value) : result (list (string * Value)) ValidationError :=
  let fail code := mkVError code (sel_pointer s) in
  match each s with
  | Single => Ok [("", collection)]
  | ObjectValue =>
      match as_object collection with
      | None => Err (fail "expected_object")
      | Some object =>
          if (MAX_ITEMS <? Z.of_nat (length object))%Z then Err (fail "too_many_items")
          else if (65536 <? Z.of_nat (sum_list_with (λ f, len f.1) object))%Z
          then Err (fail "selection_keys_too_large")
          else Ok object
      end
  | ArrayItem =>
      match as_array collection with
      | None => Err (fail "expected_array")
      | Some array =>
          if (MAX_ITEMS <? Z.of_nat (length array))%Z then Err (fail "too_many_items")
          else Ok (imap (λ i v, (pretty (N.of_nat i), v)) array)
      end
  end.

(** The first error of the loop is the answer, whatever the later items hold. *)
(* src: ai-gateway/src/validation/select.rs:75-135 Selector::select *)
Definition select (s : Selector) (root : Value) : result (list Selected) ValidationError :=
  let fail code := mkVError code (sel_pointer s) in
  match pointer (sel_pointer s) root with
  | None => if sel_required s || (0 <? min_items s)%Z then Err (fail "missing_field") else Ok []
  | Some collection =>
      let? items := selected_items s collection in
      let? res := select_loop s items in
      if (Z.of_nat (length res) <? min_items s)%Z then Err (fail "too_few_items") else Ok res
  end.

(** ** Headers *)

(* src: ai-gateway/src/validation/header.rs:32-72 business_header *)
Definition business_header (name : string) : bool :=
  if (128 <? Z.of_nat (len name))%Z || negb (header_name_ok name) then false
  else if eq_ignore_ascii_case name "x-agent-info" then true
  else
    hcontains name (sanitize_headers (hinsert name "header-check" ∅))
    && negb (bool_decide (to_ascii_lowercase name ∈
         ["content-type"; "accept-encoding"; "cookie"; "set-cookie"; "keep-alive"; "proxy-connection";
          "x-request-id"; "api-key"; "x-api-key"; "proxy-authorization"; "proxy-authenticate"; "host";
          "connection"; "transfer-encoding"; "te"; "trailer"; "upgrade"; "content-length"; "content-encoding"]))
    && negb (existsb (λ p, starts_with p (to_ascii_lowercase name))
         ["x-forwarded-"; "alephant-"; "x-alephant-"; "x-agent-"]).

(* src: ai-gateway/src/validation/header.rs:74-86 check_value *)
Definition check_value (headers : HeaderMap) (name : string) (required : bool) (accepts : string → bool)
  : result unit ValidationError :=
  match hget_all name headers with
  | [] => if required then Err (mkVError "invalid_header" "/headers") else Ok tt
  | [v] => if accepts v then Ok tt else Err (mkVError "invalid_header" "/headers")
  | _ => Err (mkVError "invalid_header" "/headers")
  end.

(* src: ai-gateway/src/validation/mod.rs:39-44 HeaderRequirement *)
Record HeaderRequirement := mkRequirement { requirement_name : string; requirement_value : string }.

(* src: ai-gateway/src/validation/mod.rs:46-50 HeaderRequirement::valid *)
Definition requirement_valid (r : HeaderRequirement) : bool :=
  business_header (requirement_name r) && (Z.of_nat (len (requirement_value r)) <=? 1024)%Z
  && header_value_ok (requirement_value r).

(* src: ai-gateway/src/validation/mod.rs:51-55 HeaderRequirement::check *)
Definition requirement_check (r : HeaderRequirement) (headers : HeaderMap) (required : bool)
  : result unit ValidationError :=
  check_value headers (requirement_name r) required (λ v, String.eqb v (requirement_value r)).

(* src: ai-gateway/src/validation/header.rs:8-20 HeaderRule *)
Record HeaderRule := mkHeaderRule {
  rule_name : string;
  rule_required : bool;
  allowed_values : option (list string);
  min_length : Z;
  max_length : Z
}.

(** The number of code points of valid UTF-8. *)
Fixpoint char_count (s : string) : Z :=
  match s with
  | EmptyString => 0
  | String c s => if is_continuation c then char_count s else 1 + char_count s
  end%Z.

(* src: ai-gateway/src/validation/header.rs:113-124 HeaderRule::check *)
Definition header_rule_check (r : HeaderRule) (headers : HeaderMap) : result unit ValidationError :=
  check_value headers (rule_name r) (rule_required r)
    (λ v, (Z.of_nat (len v) <=? 1024)%Z
          && (utf8_valid v && (min_length r <=? char_count v)%Z && (char_count v <=? max_length r)%Z)
          && match allowed_values r with
             | None => true
             | Some values => existsb (String.eqb v) values
             end).

(** [Vec::sort] on strings, by bytes. *)
Definition str_le (a b : string) : Prop := String.leb a b = true.
#[local] Instance str_le_dec a b : Decision (str_le a b) := bool_eq_dec _ _.
Definition sort_strings (l : list string) : list string := merge_sort str_le l.

Fixpoint adjacent_distinct (l : list string) : bool :=
  match l with
  | a :: (b :: _) as rest => negb (String.eqb a b) && adjacent_distinct rest
  | _ => true
  end.

(* src: ai-gateway/src/validation/header.rs:89-111 HeaderRule::normalize *)
Definition header_rule_normalize (r : HeaderRule) : result HeaderRule string :=
  if negb (business_header (rule_name r)) then Err "invalid business header"
  else
    let r := mkHeaderRule (to_ascii_lowercase (rule_name r)) (rule_required r) (allowed_values r)
               (min_length r) (max_length r) in
    if negb ((min_length r <=? max_length r) && (max_length r <=? 1024))%Z
    then Err "invalid header length bounds"
    else match allowed_values r with
         | None => Ok r
         | Some values =>
             if negb ((1 <=? Z.of_nat (length values)) && (Z.of_nat (length values) <=? 128))%Z
             then Err "invalid header enum"
             else if negb (forallb (λ v, (Z.of_nat (len v) <=? 1024)%Z && header_value_ok v
                                    && (min_length r <=? char_count v)%Z && (char_count v <=? max_length r)%Z) values)
             then Err "invalid header enum"
             else
               let values := sort_strings values in
               if negb (adjacent_distinct values) then Err "duplicate header enum"
               else Ok (mkHeaderRule (rule_name r) (rule_required r) (Some values) (min_length r) (max_length r))
         end.

(** ** Bounding boxes *)

(* src: ai-gateway/src/validation/mod.rs:58-65 Coordinates *)
Record Coordinates := mkCoordinates { left : string; top : string; right : string; bottom : string }.

(* src: ai-gateway/src/validation/mod.rs:67-73 Representation *)
Inductive Representation := Corners | OriginSize.

(* src: ai-gateway/src/validation/mod.rs:75-87 Confidence *)
Record Confidence := mkConfidence {
  confidence_pointer : string;
  confidence_required : bool;
  nullable : bool;
  confidence_min : f64;
  confidence_max : f64
}.

(* src: ai-gateway/src/validation/mod.rs:93-110 BoxRule *)
Record BoxRule := mkBoxRule {
  box_select : Selector;
  fields : Coordinates;
  box_min : f64;
  box_max : f64;
  representation : Representation;
  confidence : option Confidence;
  request_selector : option Selector;
  requires_image : bool;
  box_required_header : option HeaderRequirement
}.

Definition coordinate_pointers (c : Coordinates) : list string := [left c; top c; right c; bottom c].

(* src: ai-gateway/src/validation/mod.rs:112-135 BoxRule::valid *)
Definition box_valid (r : BoxRule) : bool :=
  selector_validate (box_select r)
  && forallb valid_pointer (coordinate_pointers (fields r))
  && bool_decide (NoDup (coordinate_pointers (fields r)))
  && is_finite (box_min r) && is_finite (box_max r) && f64_lt (box_min r) (box_max r)
  && match confidence r with
     | Some c => valid_pointer (confidence_pointer c) && is_finite (confidence_min c)
                 && is_finite (confidence_max c) && f64_lt (confidence_min c) (confidence_max c)
     | None => true
     end
  && match box_required_header r with Some h => requirement_valid h | None => true end
  && match request_selector r with
     | Some s => selector_validate s && bool_decide (each s ≠ Single) && bool_decide (each (box_select r) = each s)
     | None => true
     end.

Definition finite_f64 (v : Value) : option f64 :=
  match as_f64 v with Some x => if is_finite x then Some x else None | None => None end.

(** One item of the loop. *)
(* src: ai-gateway/src/validation/mod.rs:153-192 BoxRule::check *)
Definition check_box (r : BoxRule) (item : Value) : result unit ValidationError :=
  let fail code := mkVError code (sel_pointer (box_select r)) in
  let number p := ok_or (match pointer p item with Some v => finite_f64 v | None => None end)
                        (fail "invalid_box_coordinate") in
  let? l := number (left (fields r)) in
  let? t := number (top (fields r)) in
  let? rt := number (right (fields r)) in
  let? bt := number (bottom (fields r)) in
  let? (rt, bt) :=
    match representation r with
    | Corners => Ok (rt, bt)
    | OriginSize =>
        if f64_le rt (S754_zero false) || f64_le bt (S754_zero false) then Err (fail "invalid_box_order")
        else Ok (f64_add rt l, f64_add bt t)
    end in
  if negb (forallb (λ v, is_finite v && f64_le (box_min r) v && f64_le v (box_max r)) [l; t; rt; bt])
  then Err (fail "box_out_of_range")
  else if f64_le rt l || f64_le bt t then Err (fail "invalid_box_order")
  else match confidence r with
       | None => Ok tt
       | Some c =>
           match pointer (confidence_pointer c) item with
           | None => if confidence_required c then Err (fail "invalid_box_confidence") else Ok tt
           | Some v =>
               if match v with Null => nullable c | _ => false end then Ok tt
               else match as_f64 v with
                    | Some x =>
                        if is_finite x && f64_le (confidence_min c) x && f64_le x (confidence_max c)
                        then Ok tt else Err (fail "invalid_box_confidence")
                    | None => Err (fail "invalid_box_confidence")
                    end
           end
       end.

Fixpoint check_boxes (r : BoxRule) (items : list Selected) : result unit ValidationError :=
  match items with
  | [] => Ok tt
  | item :: rest => let? _ := check_box r (selected_value item) in check_boxes r rest
  end.

Definition keys_of (items : list Selected) : gset string := list_to_set (map key items).

(* src: ai-gateway/src/validation/mod.rs:136-194 BoxRule::check *)
Definition box_check (r : BoxRule) (root : Value) (expected : option (gset string)) : result Z ValidationError :=
  let? items := select (box_select r) root in
  if match expected with Some e => bool_decide (keys_of items ≠ e) | None => false end
  then Err (mkVError "response_items_mismatch" (sel_pointer (box_select r)))
  else let? _ := check_boxes r items in Ok (Z.of_nat (length items)).

(** ** Images *)

(* src: ai-gateway/src/validation/image.rs:10-15 Dimension *)
Record Dimension := mkDimension { dim_min : Z; dim_max : Z }.

(* src: ai-gateway/src/validation/image.rs:17-31 Format *)
Inductive Format := Png | Jpeg.

#[global] Instance Format_eq_dec : EqDecision Format.
Proof. solve_decision. Defined.

(* src: ai-gateway/src/validation/image.rs:33-39 References *)
Record References := mkReferences { search : list Selector; max_key_bytes : Z; max_total_key_bytes : Z }.

(* src: ai-gateway/src/validation/image.rs:41-61 ImageRule *)
Record ImageRule := mkImageRule {
  image_select : Selector;
  data_pointer : string;
  encoding : string;
  formats : list Format;
  max_decoded_bytes : Z;
  width : Dimension;
  height_dim : Dimension;
  format_pointer : option string;
  allow_animation : bool;
  forbidden_fields : list string;
  image_required_header : option HeaderRequirement;
  references : option References
}.

(* src: ai-gateway/src/validation/mod.rs:19-19 MAX_BODY_BYTES *)
Definition MAX_BODY_BYTES : Z := 32 * 1024 * 1024.

Definition dimension_valid (d : Dimension) : bool :=
  ((0 <? dim_min d) && (dim_min d <=? dim_max d) && (dim_max d <=? 8192))%Z.

(* src: ai-gateway/src/validation/image.rs:64-93 ImageRule::valid *)
Definition image_valid (r : ImageRule) : bool :=
  selector_validate (image_select r) && valid_pointer (data_pointer r) && String.eqb (encoding r) "base64"
  && match formats r with [] => false | _ => true end && (Z.of_nat (length (formats r)) <=? 3)%Z
  && ((1 <=? max_decoded_bytes r) && (max_decoded_bytes r <=? MAX_BODY_BYTES))%Z
  && dimension_valid (width r) && dimension_valid (height_dim r)
  && match format_pointer r with Some p => valid_pointer p | None => true end
  && (Z.of_nat (length (forbidden_fields r)) <=? 16)%Z && forallb valid_pointer (forbidden_fields r)
  && match image_required_header r with Some h => requirement_valid h | None => true end
  && match references r with
     | Some refs =>
         bool_decide (each (image_select r) = ObjectValue)
         && match search refs with [] => false | _ => true end
         && (Z.of_nat (length (search refs)) <=? 16)%Z && forallb selector_validate (search refs)
         && (0 <? max_key_bytes refs)%Z && (max_key_bytes refs <=? max_total_key_bytes refs)%Z
         && (max_total_key_bytes refs <=? 65536)%Z
     | None => true
     end.

(* src: ai-gateway/src/validation/mod.rs:240-253 WorkBudget *)
Record WorkBudget := mkBudget { image_bytes : Z; reference_bytes : Z; reference_nodes : Z }.
Definition default_budget : WorkBudget := mkBudget (64 * 1024 * 1024) (128 * 1024 * 1024) 1000000.

Definition checked_sub (a b : Z) : option Z := if (b <=? a)%Z then Some (a - b)%Z else None.

(** A scan for [key] that pays for every node and every string byte it looks
    at; [None] when a budget is used up. *)
(* src: ai-gateway/src/validation/image.rs:273-298 referenced *)
Fixpoint referenced (v : Value) (key : string) (budget nodes : Z) : option (bool * Z * Z) :=
  match checked_sub nodes 1 with
  | None => None
  | Some nodes =>
      match v with
      | Str s =>
          match checked_sub budget (Z.of_nat (len s)) with
          | None => None
          | Some budget => Some (contains key s, budget, nodes)
          end
      | Array items =>
          (fix go (l : list Value) (budget nodes : Z) : option (bool * Z * Z) :=
             match l with
             | [] => Some (false, budget, nodes)
             | x :: l =>
                 match referenced x key budget nodes with
                 | None => None
                 | Some (true, budget, nodes) => Some (true, budget, nodes)
                 | Some (false, budget, nodes) => go l budget nodes
                 end
             end) items budget nodes
      | Object members =>
          (fix go (l : list (string * Value)) (budget nodes : Z) : option (bool * Z * Z) :=
             match l with
             | [] => Some (false, budget, nodes)
             | (_, x) :: l =>
                 match referenced x key budget nodes with
                 | None => None
                 | Some (true, budget, nodes) => Some (true, budget, nodes)
                 | Some (false, budget, nodes) => go l budget nodes
                 end
             end) members budget nodes
      | _ => Some (false, budget, nodes)
      end
  end.

(** What the decoders report of a file. *)
Record PngInfo := mkPngInfo {
  png_width : Z; png_height : Z;
  animation_frames : option Z;
  has_frame_control : bool;
  png_buffer_size : option Z;
  frames_decode : Z → bool;
  finish_ok : bool
}.
Record JpegInfo := mkJpegInfo { jpeg_dimensions : option (Z * Z); jpeg_buffer_size : option Z; decode_ok : bool }.
Context (base64_decode : string → option string).
(** Header of a PNG file, its info, and a JPEG file decoded up to the limits. *)
Context (png_header : string → option (Z * Z)) (png_info : string → option PngInfo)
  (jpeg_headers : Z → Z → string → option JpegInfo).

(* src: ai-gateway/src/validation/image.rs:262-270 ImageRule::dimensions *)
Definition dimensions (r : ImageRule) (w h : Z) : result unit ValidationError :=
  if ((w <? dim_min (width r)) || (h <? dim_min (height_dim r))
      || (dim_max (width r) <? w) || (dim_max (height_dim r) <? h))%Z
  then Err (mkVError "image_dimensions" (sel_pointer (image_select r))) else Ok tt.

Definition bytes_prefix (l : list Z) (s : string) : bool :=
  starts_with (foldr (λ b acc, String (ascii_of_N (Z.to_N b)) acc) "" l) s.
Definition bytes_suffix (l : list Z) (s : string) : bool :=
  ends_with (foldr (λ b acc, String (ascii_of_N (Z.to_N b)) acc) "" l) s.

(** The search of one item's key in the places the rule names. *)
(* src: ai-gateway/src/validation/image.rs:123-140 ImageRule::check *)
Fixpoint find_reference (r : ImageRule) (searches : list Selector) (root : Value) (key : string) (b : WorkBudget)
  : result (bool * WorkBudget) ValidationError :=
  match searches with
  | [] => Ok (false, b)
  | s :: searches =>
      let? values := select s root in
      let? (found, b) :=
        (fix go (l : list Selected) (b : WorkBudget) : result (bool * WorkBudget) ValidationError :=
           match l with
           | [] => Ok (false, b)
           | v :: l =>
               match referenced (selected_value v) key (reference_bytes b) (reference_nodes b) with
               | None => Err (mkVError "reference_work_limit" (sel_pointer (image_select r)))
               | Some (found, rb, rn) =>
                   let b := mkBudget (image_bytes b) rb rn in
                   if found then Ok (true, b) else go l b
               end
           end) values b in
      if found then Ok (true, b) else find_reference r searches root key b
  end.

(** The decoding of a PNG or JPEG file, paid for from the budget. *)
(* src: ai-gateway/src/validation/image.rs:182-257 ImageRule::check *)
Definition decode_image (r : ImageRule) (format : Format) (bytes : string) (b : WorkBudget)
  : result WorkBudget ValidationError :=
  let fail code := mkVError code (sel_pointer (image_select r)) in
  let spend size frames :=
    match checked_sub (image_bytes b) (size * frames) with
    | Some left => Ok (mkBudget left (reference_bytes b) (reference_nodes b))
    | None => Err (fail "image_work_limit")
    end in
  let buffer o :=
    match o with
    | Some size => if (size <=? 64 * 1024 * 1024)%Z then Ok size else Err (fail "image_work_limit")
    | None => Err (fail "image_work_limit")
    end in
  match format with
  | Png =>
      let? (w, h) := ok_or (png_header bytes) (fail "invalid_image") in
      let? _ := dimensions r w h in
      let? info := ok_or (png_info bytes) (fail "invalid_image") in
      let? frames :=
        match animation_frames info with
        | None => Ok 1%Z
        | Some n =>
            if negb (allow_animation r) then Err (fail "animated_image")
            else let total := (n + if has_frame_control info then 0 else 1)%Z in
                 if (total <=? u32_max)%Z then Ok total else Err (fail "image_work_limit")
        end in
      if ((frames =? 0) || (32 <? frames) || (16 * 1024 * 1024 <? png_width info * png_height info * frames))%Z
      then Err (fail "image_work_limit")
      else
        let? size := buffer (png_buffer_size info) in
        let? b := spend size frames in
        if negb (frames_decode info frames) then Err (fail "invalid_image")
        else if negb (finish_ok info) then Err (fail "invalid_image") else Ok b
  | Jpeg =>
      if negb (bytes_suffix [255; 217]%Z bytes) then Err (fail "invalid_image")
      else
        let? info := ok_or (jpeg_headers (dim_max (width r)) (dim_max (height_dim r)) bytes) (fail "invalid_image") in
        let? (w, h) := ok_or (jpeg_dimensions info) (fail "invalid_image") in
        let? _ := dimensions r w h in
        let? size := buffer (jpeg_buffer_size info) in
        let? b := spend size 1%Z in
        if negb (decode_ok info) then Err (fail "invalid_image") else Ok b
  end.

Definition format_of (bytes : string) : option Format :=
  if bytes_prefix [137; 80; 78; 71; 13; 10; 26; 10]%Z bytes then Some Png
  else if bytes_prefix [255; 216]%Z bytes then Some Jpeg
  else None.

Definition declared_format (s : string) : option Format :=
  if String.eqb s "png" then Some Png
  else if String.eqb s "jpg" || String.eqb s "jpeg" then Some Jpeg
  else None.

(** The body of the loop over the items; [key_bytes] is threaded with the
    budget. *)
(* src: ai-gateway/src/validation/image.rs:107-258 ImageRule::check *)
Definition check_image (r : ImageRule) (root : Value) (item : Selected) (key_bytes : Z) (b : WorkBudget)
  : result (Z * WorkBudget) ValidationError :=
  let fail code := mkVError code (sel_pointer (image_select r)) in
  let v := selected_value item in
  if existsb (λ p, bool_decide (is_Some (pointer p v))) (forbidden_fields r) then Err (fail "forbidden_field")
  else
    let? (key_bytes, b) :=
      match references r with
      | None => Ok (key_bytes, b)
      | Some refs =>
          let key_bytes := (key_bytes + Z.of_nat (len (key item)))%Z in
          if is_empty (trim (key item)) || (max_key_bytes refs <? Z.of_nat (len (key item)))%Z
             || (max_total_key_bytes refs <? key_bytes)%Z
          then Err (fail "invalid_reference")
          else
            let? (found, b) := find_reference r (search refs) root (key item) b in
            if negb found then Err (fail "unused_reference") else Ok (key_bytes, b)
      end in
    let? text := ok_or (match pointer (data_pointer r) v with Some w => as_str w | None => None end)
                       (fail "missing_image_data") in
    if ((max_decoded_bytes r + 2) / 3 * 4 <? Z.of_nat (len text))%Z then Err (fail "image_too_large")
    else
      let? bytes := ok_or (base64_decode text) (fail "invalid_base64") in
      if (max_decoded_bytes r <? Z.of_nat (len bytes))%Z then Err (fail "image_too_large")
      else
        let? format := ok_or (format_of bytes) (fail "unsupported_image_format") in
        if negb (existsb (λ f, bool_decide (f = format)) (formats r)) then Err (fail "unsupported_image_format")
        else
          let? _ :=
            match format_pointer r with
            | None => Ok tt
            | Some p =>
                let? declared := ok_or (match pointer p v with Some w => as_str w | None => None end)
                                       (fail "missing_image_format") in
                let? expected := ok_or (declared_format declared) (fail "unsupported_image_format") in
                if bool_decide (format ≠ expected) then Err (fail "image_format_mismatch") else Ok tt
            end in
          let? b := decode_image r format bytes b in
          Ok (key_bytes, b).

Fixpoint check_image_items (r : ImageRule) (root : Value) (items : list Selected) (key_bytes : Z) (b : WorkBudget)
  : result WorkBudget ValidationError :=
  match items with
  | [] => Ok b
  | item :: rest =>
      let? (key_bytes, b) := check_image r root item key_bytes b in
      check_image_items r root rest key_bytes b
  end.

(* src: ai-gateway/src/validation/image.rs:95-260 ImageRule::check *)
Definition image_check (r : ImageRule) (root : Value) (headers : HeaderMap) (b : WorkBudget)
  : result (Z * WorkBudget) ValidationError :=
  let? items := select (image_select r) root in
  let? _ := match image_required_header r with
            | Some h => requirement_check h headers (match items with [] => false | _ => true end)
            | None => Ok tt
            end in
  let? b := check_image_items r root items 0 b in
  Ok (Z.of_nat (length items), b).

(** ** Policies *)

(* src: ai-gateway/src/validation/mod.rs:197-203 Check *)
Inductive Check := ImageCheck (r : ImageRule) | BoundingBox (r : BoxRule) | HeaderCheck (r : HeaderRule).

(* src: ai-gateway/src/validation/mod.rs:205-211 Check::header *)
Definition check_header (c : Check) : option HeaderRequirement :=
  match c with
  | ImageCheck r => image_required_header r
  | BoundingBox r => box_required_header r
  | HeaderCheck _ => None
  end.

(* src: ai-gateway/src/validation/mod.rs:212-218 Check::valid *)
Definition check_valid (c : Check) : bool :=
  match c with ImageCheck r => image_valid r | BoundingBox r => box_valid r | HeaderCheck _ => true end.

(* src: ai-gateway/src/validation/mod.rs:221-233 ValidationPolicy *)
Record ValidationPolicy := mkValidation {
  version : Z;
  request_checks : list Check;
  response_checks : list Check;
  denied_header_prefixes : list string;
  fixed_headers : HeaderMap
}.

Definition all_checks (p : ValidationPolicy) : list Check := (request_checks p ++ response_checks p)%list.
Definition requirements (p : ValidationPolicy) : list HeaderRequirement := omap check_header (all_checks p).
Definition is_header_check (c : Check) : bool := match c with HeaderCheck _ => true | _ => false end.
Definition has_request_selector (c : Check) : bool :=
  match c with BoundingBox b => bool_decide (is_Some (request_selector b)) | _ => false end.

(** The header rules are normalised in place, and their names are distinct. *)
Fixpoint normalize_checks (version : Z) (names : gset string) (checks : list Check)
  : result (list Check) string :=
  match checks with
  | [] => Ok []
  | HeaderCheck rule :: rest =>
      if negb (version =? 2)%Z then Err "header checks require validation v2"
      else
        let? rule := header_rule_normalize rule in
        if bool_decide (rule_name rule ∈ names) then Err "duplicate header check"
        else let? rest := normalize_checks version ({[rule_name rule]} ∪ names) rest in
             Ok (HeaderCheck rule :: rest)
  | c :: rest => let? rest := normalize_checks version names rest in Ok (c :: rest)
  end.

(** One requirement against the fixed headers, the ones before it and the
    declared header rules. *)
Definition requirement_consistent (p : ValidationPolicy) (dependencies : gmap string string)
    (requirement : HeaderRequirement) : result (gmap string string) string :=
  let name := to_ascii_lowercase (requirement_name requirement) in
  let value := requirement_value requirement in
  if match hget name (fixed_headers p) with Some v => negb (String.eqb v value) | None => false end
  then Err "fixed header conflicts with validation"
  else if match dependencies !! name with Some v => negb (String.eqb v value) | None => false end
  then Err "conflicting header dependencies"
  else if existsb (λ c, match c with
                        | HeaderCheck rule =>
                            String.eqb (rule_name rule) name
                            && negb (bool_decide (allowed_values rule = Some [value]))
                        | _ => false
                        end) (request_checks p)
  then Err "header dependency conflicts with declaration"
  else Ok (<[name := value]> dependencies).

Fixpoint requirements_consistent (p : ValidationPolicy) (dependencies : gmap string string)
    (l : list HeaderRequirement) : result unit string :=
  match l with
  | [] => Ok tt
  | r :: l => let? d := requirement_consistent p dependencies r in requirements_consistent p d l
  end.

(* src: ai-gateway/src/validation/mod.rs:364-399 validate_header_dependencies *)
Definition validate_header_dependencies (p : ValidationPolicy) : result unit string :=
  requirements_consistent p ∅ (requirements p).

Definition prefix_byte (c : ascii) : bool := is_ascii_lowercase c || is_ascii_digit c || Ascii.eqb c "-".

(** [parsed] is the document read by the derived deserialiser, and
    [config_bytes] the size of its text. *)
(* src: ai-gateway/src/validation/mod.rs:256-314 ValidationPolicy::parse *)
Definition parse (config_bytes : Z) (parsed : option ValidationPolicy) : result ValidationPolicy string :=
  if (65536 <? config_bytes)%Z then Err "validation config exceeds size limit"
  else match parsed with
       | None => Err "invalid validation config"
       | Some p =>
           if negb ((version p =? 1) || (version p =? 2))%Z then Err "unsupported validation version"
           else
             let? checks := normalize_checks (version p) ∅ (request_checks p) in
             let p := mkValidation (version p) checks (response_checks p) (denied_header_prefixes p) ∅ in
             if (32 <? Z.of_nat (length (request_checks p) + length (response_checks p)))%Z
             then Err "too many validation checks"
             else if negb (forallb check_valid (all_checks p)) then Err "invalid validation rule"
             else if existsb has_request_selector (request_checks p)
             then Err "request selector is only supported on response checks"
             else if negb (forallb (λ c, match c with
                                         | BoundingBox b =>
                                             (negb (requires_image b)
                                              && negb (bool_decide (is_Some (box_required_header b))))
                                             || bool_decide (is_Some (request_selector b))
                                         | ImageCheck i => negb (bool_decide (is_Some (image_required_header i)))
                                         | HeaderCheck _ => false
                                         end) (response_checks p))
             then Err "response dependency requires a request selector"
             else if negb ((Z.of_nat (length (denied_header_prefixes p)) <=? 16)%Z
                           && forallb (λ s, negb (is_empty s) && (Z.of_nat (len s) <=? 128)%Z
                                            && str_all prefix_byte s) (denied_header_prefixes p))
             then Err "invalid header prefix"
             else let? _ := validate_header_dependencies p in Ok p
       end.

(* src: ai-gateway/src/validation/mod.rs:405-410 has_media_checks *)
Definition has_media_checks (p : ValidationPolicy) : bool :=
  existsb (λ c, negb (is_header_check c)) (all_checks p).

(* src: ai-gateway/src/validation/mod.rs:401-403 has_response_checks *)
Definition has_response_checks (p : ValidationPolicy) : bool :=
  match response_checks p with [] => false | _ => true end.

Fixpoint all_ok {A E} (f : A → result unit E) (l : list A) : result unit E :=
  match l with
  | [] => Ok tt
  | x :: l => let? _ := f x in all_ok f l
  end.

(** The values of [x-agent-info] replace those of the outgoing headers when the
    policy mentions the header; the fixed headers come last. *)
(* src: ai-gateway/src/validation/mod.rs:412-433 apply_upstream_headers *)
Definition apply_upstream_headers (p : ValidationPolicy) (incoming outgoing : HeaderMap) : HeaderMap :=
  let name := "x-agent-info" in
  let declared :=
    existsb (λ c, match c with HeaderCheck rule => String.eqb (rule_name rule) name | _ => false end
                  || match check_header c with
                     | Some h => eq_ignore_ascii_case (requirement_name h) name
                     | None => false
                     end) (all_checks p) in
  let outgoing :=
    if declared
    then fold_left (λ h v, happend name v h) (hget_all name incoming) (hremove name outgoing)
    else outgoing in
  fixed_headers p ∪ outgoing.

(** Whether the policy forbids a header that the request carries. *)
(* src: ai-gateway/src/validation/mod.rs:449-465 validate_headers *)
Definition forbidden_name (p : ValidationPolicy) (name : string) : bool :=
  existsb (λ prefix, starts_with prefix name) (denied_header_prefixes p)
  && negb (hcontains name (fixed_headers p))
  && negb (existsb (λ c, match c with HeaderCheck h => String.eqb (rule_name h) name | _ => false end)
             (request_checks p))
  && negb (existsb (λ h, eq_ignore_ascii_case name (requirement_name h)) (requirements p)).

(* src: ai-gateway/src/validation/mod.rs:435-470 validate_headers *)
Definition validate_headers (p : ValidationPolicy) (headers : HeaderMap) : result unit ValidationError :=
  let? _ := all_ok (λ c, match c with HeaderCheck rule => header_rule_check rule headers | _ => Ok tt end)
              (request_checks p) in
  let? _ := all_ok (λ r, requirement_check r headers false) (requirements p) in
  if existsb (forbidden_name p) (map fst (map_to_list headers))
  then Err (mkVError "forbidden_header" "/headers") else Ok tt.

(** The strict reader of the payload. *)
Context (parse_json : string → option Value).

(* src: ai-gateway/src/validation/mod.rs:575-580 parse *)
Definition parse_body (body : string) : result Value ValidationError :=
  if (MAX_BODY_BYTES <? Z.of_nat (len body))%Z then Err (mkVError "body_too_large" "/")
  else ok_or (parse_json body) (mkVError "invalid_json" "/").

(* src: ai-gateway/src/validation/mod.rs:543-557 check_images *)
Fixpoint check_images (rules : list Check) (root : Value) (headers : HeaderMap) (total : Z) (b : WorkBudget)
  : result Z ValidationError :=
  match rules with
  | [] => Ok total
  | ImageCheck rule :: rest =>
      let? (n, b) := image_check rule root headers b in check_images rest root headers (total + n) b
  | _ :: rest => check_images rest root headers total b
  end.

(* src: ai-gateway/src/validation/mod.rs:560-573 check_dependencies *)
Definition check_dependencies (rule : BoxRule) (count images : Z) (headers : HeaderMap)
  : result unit ValidationError :=
  let? _ := match box_required_header rule with
            | Some h => requirement_check h headers (0 <? count)%Z
            | None => Ok tt
            end in
  if (0 <? count)%Z && requires_image rule && (images =? 0)%Z
  then Err (mkVError "image_required" (sel_pointer (box_select rule))) else Ok tt.

(** What a request leaves for the check of its response: for each response
    check the keys it expects. *)
(* src: ai-gateway/src/validation/mod.rs:235-238 ValidationContext *)
Definition ValidationContext := list (option (gset string)).

(* src: ai-gateway/src/validation/mod.rs:503-517 validate_request *)
Fixpoint expectations (root : Value) (images : Z) (headers : HeaderMap) (checks : list Check)
  : result ValidationContext ValidationError :=
  match checks with
  | [] => Ok []
  | c :: rest =>
      let? e :=
        match c with
        | BoundingBox rule =>
            match request_selector rule with
            | Some s =>
                let? items := select s root in
                let? _ := check_dependencies rule (Z.of_nat (length items)) images headers in
                Ok (Some (keys_of items))
            | None => Ok None
            end
        | _ => Ok None
        end in
      let? rest := expectations root images headers rest in
      Ok (e :: rest)
  end.

(* src: ai-gateway/src/validation/mod.rs:472-519 validate_request *)
Definition validate_request (p : ValidationPolicy) (headers : HeaderMap) (body : string)
  : result ValidationContext ValidationError :=
  let? _ := validate_headers p headers in
  if negb (has_media_checks p) then Ok []
  else if negb (existsb (λ c, negb (is_header_check c)) (request_checks p)
                || existsb has_request_selector (response_checks p))
  then Ok (map (λ _, None) (response_checks p))
  else
    let? root := parse_body body in
    let? images := check_images (request_checks p) root headers 0 default_budget in
    let? _ := all_ok (λ c, match c with
                           | BoundingBox rule =>
                               let? count := box_check rule root None in
                               check_dependencies rule count images headers
                           | _ => Ok tt
                           end) (request_checks p) in
    expectations root images headers (response_checks p).

(* src: ai-gateway/src/validation/mod.rs:535-539 validate_response *)
Fixpoint check_responses (root : Value) (checks : list Check) (context : ValidationContext)
  : result unit ValidationError :=
  match checks, context with
  | c :: checks, e :: context =>
      let? _ := match c with
                | BoundingBox rule => let? _ := box_check rule root e in Ok tt
                | _ => Ok tt
                end in
      check_responses root checks context
  | _, _ => Ok tt
  end.

(* src: ai-gateway/src/validation/mod.rs:521-541 validate_response *)
Definition validate_response (p : ValidationPolicy) (context : ValidationContext) (status : Z) (body : string)
  : result unit ValidationError :=
  if negb ((200 <=? status) && (status <? 300))%Z || negb (has_response_checks p) then Ok tt
  else if negb (length context =? length (response_checks p))%nat
  then Err (mkVError "missing_validation_context" "/")
  else
    let? root := parse_body body in
    let? _ := check_images (response_checks p) root ∅ 0 default_budget in
    check_responses root (response_checks p) context.

(** ** Boxes that pass *)

(** The corners a rule reads from an item. *)
Definition coordinate (p : string) (item : Value) : option f64 :=
  match pointer p item with Some v => finite_f64 v | None => None end.

Definition box_corners (r : BoxRule) (item : Value) : option (f64 * f64 * f64 * f64) :=
  match coordinate (left (fields r)) item, coordinate (top (fields r)) item,
        coordinate (right (fields r)) item, coordinate (bottom (fields r)) item with
  | Some l, Some t, Some rt, Some bt =>
      match representation r with
      | Corners => Some (l, t, rt, bt)
      | OriginSize => Some (l, t, f64_add rt l, f64_add bt t)
      end
  | _, _, _, _ => None
  end.

(** A proper box inside the rule's bounds. *)
Definition box_inside (r : BoxRule) (item : Value) : Prop :=
  ∃ l t rt bt, box_corners r item = Some (l, t, rt, bt) ∧
    f64_le (box_min r) l = true ∧ f64_lt l rt = true ∧ f64_le rt (box_max r) = true ∧
    f64_le (box_min r) t = true ∧ f64_lt t bt = true ∧ f64_le bt (box_max r) = true.

Lemma is_finite_not_nan x : is_finite x = true → is_nan x = false.
Proof. by destruct x. Qed.

Lemma f64_not_le_lt a b : is_finite a = true → is_finite b = true → f64_le b a = false → f64_lt a b = true.
Proof.
  intros Ha%is_finite_not_nan Hb%is_finite_not_nan Hle. apply f64_lt_rank; [done|done|].
  destruct (decide (f64_lt a b = true)) as [H|H]; [by apply f64_lt_rank|].
  exfalso. assert (f64_le b a = true); [|congruence]. apply f64_le_rank; [done|done|].
  intros H'. apply H. by apply f64_lt_rank.
Qed.

Lemma check_box_inside r item : check_box r item = Ok tt → box_inside r item.
Proof.
  rw /check_box /box_inside /box_corners /coordinate.
  destruct (match pointer (left (fields r)) item with Some v => finite_f64 v | None => None end) as [l|]; [|done].
  destruct (match pointer (top (fields r)) item with Some v => finite_f64 v | None => None end) as [t|]; [|done].
  destruct (match pointer (right (fields r)) item with Some v => finite_f64 v | None => None end) as [rt|]; [|done].
  destruct (match pointer (bottom (fields r)) item with Some v => finite_f64 v | None => None end) as [bt|]; [|done].
  cbn [ok_or result_bind]. intros H.
  assert (Hc : ∃ R B, (match representation r with Corners => Some (l, t, rt, bt)
      | OriginSize => Some (l, t, f64_add rt l, f64_add bt t) end) = Some (l, t, R, B) ∧
      forallb (λ v, is_finite v && f64_le (box_min r) v && f64_le v (box_max r)) [l; t; R; B] = true ∧
      f64_le R l = false ∧ f64_le B t = false).
  { destruct (representation r).
    - exists rt, bt. cbn [result_bind] in H. destruct (forallb _ _); [|done]. cbn [negb] in H.
      destruct (f64_le rt l), (f64_le bt t); done.
    - destruct (f64_le rt (S754_zero false) || f64_le bt (S754_zero false)); [done|].
      exists (f64_add rt l), (f64_add bt t). cbn [result_bind] in H. destruct (forallb _ _); [|done]. cbn [negb] in H.
      destruct (f64_le (f64_add rt l) l), (f64_le (f64_add bt t) t); done. }
  destruct Hc as (R & B & Hc & Hall & HR & HB). exists l, t, R, B. split; [done|].
  cbn [forallb] in Hall. bool_to_prop. split_and!; try done; by apply f64_not_le_lt.
Qed.

Lemma check_boxes_inside r items :
  check_boxes r items = Ok tt → Forall (λ i, box_inside r (selected_value i)) items.
Proof.
  induction items as [|i items IH]; cbn [check_boxes]; [constructor|].
  destruct (check_box r (selected_value i)) as [[]|] eqn:Hb; [|done]. intros H.
  constructor; [by apply check_box_inside|by apply IH].
Qed.

Lemma box_check_ok r root expected n :
  box_check r root expected = Ok n →
  ∃ items, select (box_select r) root = Ok items ∧ n = Z.of_nat (length items) ∧
    match expected with Some e => keys_of items = e | None => True end ∧
    Forall (λ i, box_inside r (selected_value i)) items.
Proof.
  rw /box_check. destruct (select (box_select r) root) as [items|]; [|done]. cbn [result_bind].
  case_match eqn:He; [done|]. destruct (check_boxes r items) as [[]|] eqn:Hc; [|done]. intros [= <-].
  exists items. split_and!; [done|done| |by apply check_boxes_inside].
  destruct expected; [|done]. bool_to_prop. by apply dec_stable in He.
Qed.

(** Accepted boxes are proper and inside the bounds: when a
    bounding-box check accepts a payload, every selected item has four finite
    coordinates, its left edge is below its right edge and its top below its
    bottom (with the size added to the origin in that representation), all
    within the rule's range, and the keys are the expected ones. *)
Theorem box_check_bounds r root expected n :
  box_check r root expected = Ok n →
  ∃ items, select (box_select r) root = Ok items ∧ n = Z.of_nat (length items) ∧
    match expected with Some e => keys_of items = e | None => True end ∧
    Forall (λ i, box_inside r (selected_value i)) items.
Proof. apply box_check_ok. Qed.

(** ** A response against its request *)

Lemma expectations_ok root images headers checks ctx :
  expectations root images headers checks = Ok ctx →
  length ctx = length checks ∧
  ∀ i rule s, checks !! i = Some (BoundingBox rule) → request_selector rule = Some s →
    ∃ items, select s root = Ok items ∧ ctx !! i = Some (Some (keys_of items)).
Proof.
  revert ctx. induction checks as [|c checks IH]; intros ctx; cbn [expectations].
  { intros [= <-]. split; [done|]. intros i rule s. by rw lookup_nil. }
  set (e := match c with BoundingBox rule => _ | _ => _ end). destruct e as [e0|] eqn:He; [|done]. cbn [result_bind].
  destruct (expectations root images headers checks) as [rest|]; [|done]. cbn [result_bind]. intros [= <-].
  destruct (IH rest eq_refl) as [Hl Hi]. split; [simpl; by rw Hl|].
  intros [|i] rule s; [|apply Hi]. simpl. intros [= ->] Hs. subst e. rw Hs in He.
  destruct (select s root) as [items|]; [|done]. cbn [result_bind] in He.
  destruct (check_dependencies _ _ _ _) as [[]|]; [|done]. injection He as <-. by exists items.
Qed.

Lemma check_responses_ok root checks ctx i rule e :
  check_responses root checks ctx = Ok tt → checks !! i = Some (BoundingBox rule) → ctx !! i = Some e →
  ∃ n, box_check rule root e = Ok n.
Proof.
  revert ctx i. induction checks as [|c checks IH]; intros ctx i; [by rw lookup_nil|].
  destruct ctx as [|e' ctx]; [by rw (lookup_nil i)|]. cbn [check_responses].
  set (x := match c with BoundingBox rule => _ | _ => _ end). destruct x as [[]|] eqn:Hx; [|done]. cbn [result_bind].
  destruct i as [|i]; [|exact (IH ctx i)]. simpl. intros _ [= ->] [= ->]. subst x. cbn in Hx.
  destruct (box_check rule root e) as [n|]; [by exists n|done].
Qed.

(** C37 (safety). A validated response answers its own request: when a
    successful response passes, every response check that names a selector in
    the request selects in the response exactly the keys that the selector
    selected in the request, and its boxes are proper and inside the bounds. *)
Theorem validated_response_matches_request p headers body ctx status body' i rule s :
  validate_request p headers body = Ok ctx →
  validate_response p ctx status body' = Ok tt →
  ((200 <=? status) && (status <? 300))%Z = true →
  response_checks p !! i = Some (BoundingBox rule) → request_selector rule = Some s →
  ∃ req resp req_items resp_items,
    parse_body body = Ok req ∧ parse_body body' = Ok resp ∧
    select s req = Ok req_items ∧ select (box_select rule) resp = Ok resp_items ∧
    keys_of resp_items = keys_of req_items ∧
    Forall (λ i, box_inside rule (selected_value i)) resp_items.
Proof.
  clear header_name_ok header_value_ok. intros Hreq Hresp Hst Hi Hs.
  assert (Hin : BoundingBox rule ∈ response_checks p) by by eapply list_elem_of_lookup_2.
  assert (Hmedia : has_media_checks p = true).
  { rw /has_media_checks /all_checks. apply existsb_exists. exists (BoundingBox rule).
    rw -list_elem_of_In. split; [set_solver|done]. }
  assert (Hsel : existsb has_request_selector (response_checks p) = true).
  { apply existsb_exists. exists (BoundingBox rule). rw -list_elem_of_In. split; [done|].
    simpl. rw Hs. by apply bool_decide_eq_true. }
  move: Hreq. rw /validate_request. destruct (validate_headers p headers) as [[]|]; [|done]. cbn [result_bind].
  rw Hmedia Hsel orb_true_r. cbn [negb]. destruct (parse_body body) as [req|]; [|done]. cbn [result_bind].
  destruct (check_images (request_checks p) _ _ _ _) as [images|]; [|done]. cbn [result_bind].
  destruct (all_ok _ _) as [[]|]; [|done]. cbn [result_bind].
  intros [_ Hctx]%expectations_ok. destruct (Hctx i rule s Hi Hs) as (req_items & Hsr & Hc).
  move: Hresp. rw /validate_response Hst. destruct (has_response_checks p) eqn:Hhas.
  2: { rw /has_response_checks in Hhas. destruct (response_checks p); [set_solver|done]. }
  cbn [negb orb]. case_match; [done|]. destruct (parse_body body') as [resp|]; [|done]. cbn [result_bind].
  destruct (check_images (response_checks p) _ _ _ _); [|done]. cbn [result_bind]. intros Hr.
  destruct (check_responses_ok _ _ _ _ _ _ Hr Hi Hc) as [n Hn].
  apply box_check_ok in Hn as (resp_items & Hsel' & _ & Hk & Hin').
  by exists req, resp, req_items, resp_items.
Qed.
End validation.

(** ** A concrete policy

    Pointers of one level, a JSON reader with two documents, and numbers that
    are small decimal integers. *)
Module Demo.
Definition pointer (p : string) (v : Value) : option Value :=
  match p with
  | EmptyString => Some v
  | String _ field => get field v
  end.
Definition as_f64 (v : Value) : option f64 :=
  match v with Number t => f64_of_Z <$> parse_uint 1000000 t | _ => None end.
Definition a_box (l t r b : string) : Value :=
  Object [("l", Number l); ("t", Number t); ("r", Number r); ("b", Number b)].
Definition request : Value := Object [("pages", Object [("p1", Null)])].
Definition response : Value := Object [("boxes", Object [("p1", a_box "1" "2" "30" "40")])].
Definition parse_json (s : string) : option Value :=
  if String.eqb s "request" then Some request else if String.eqb s "response" then Some response else None.
Definition rule : BoxRule :=
  mkBoxRule (mkSelector "/boxes" ObjectValue true 0 None "") (mkCoordinates "/l" "/t" "/r" "/b")
    (f64_of_Z 0) (f64_of_Z 1000) Corners None
    (Some (mkSelector "/pages" ObjectValue true 0 None "")) false None.
Definition policy : ValidationPolicy := mkValidation 1 [] [BoundingBox rule] [] ∅.
Definition no_png (_ : string) : option (Z * Z) := None.
Definition no_png_info (_ : string) : option PngInfo := None.
Definition no_jpeg (_ _ : Z) (_ : string) : option JpegInfo := None.
Definition same (a b : Value) : bool := false.
End Demo.

Lemma box_check_bounds_witness :
  box_check Demo.pointer Demo.same Demo.as_f64 Demo.rule Demo.response None = Ok 1%Z ∧
  ∃ items, select Demo.pointer Demo.same (box_select Demo.rule) Demo.response = Ok items ∧
    Forall (λ i, box_inside Demo.pointer Demo.as_f64 Demo.rule (selected_value i)) items.
Proof.
  assert (H : box_check Demo.pointer Demo.same Demo.as_f64 Demo.rule Demo.response None = Ok 1%Z)
    by (vm_compute; reflexivity).
  split; [exact H|].
  destruct (box_check_bounds _ _ _ _ _ _ _ H) as (items & Hs & _ & _ & Hb). exists items. split; assumption.
Defined.

Definition demo_ctx : ValidationContext := [Some (keys_of [mkSelected "p1" Null])].

Lemma validated_response_matches_request_witness :
  validate_request Demo.pointer Demo.same Demo.as_f64 (λ _, None) Demo.no_png Demo.no_png_info Demo.no_jpeg
    Demo.parse_json Demo.policy ∅ "request" = Ok demo_ctx ∧
  ∃ items, select Demo.pointer Demo.same (box_select Demo.rule) Demo.response = Ok items ∧
    Forall (λ i, box_inside Demo.pointer Demo.as_f64 Demo.rule (selected_value i)) items.
Proof.
  assert (Hq : validate_request Demo.pointer Demo.same Demo.as_f64 (λ _, None) Demo.no_png Demo.no_png_info
    Demo.no_jpeg Demo.parse_json Demo.policy ∅ "request" = Ok demo_ctx) by reflexivity.
  assert (Hr : validate_response Demo.pointer Demo.same Demo.as_f64 (λ _, None) Demo.no_png Demo.no_png_info
    Demo.no_jpeg Demo.parse_json Demo.policy demo_ctx 200 "response" = Ok tt) by (vm_compute; reflexivity).
  split; [exact Hq|].
  destruct (validated_response_matches_request _ _ _ _ _ _ _ _ _ _ _ _ _ _ 0%nat Demo.rule
    (mkSelector "/pages" ObjectValue true 0 None "") Hq Hr)
    as (req & resp & qi & items & _ & Hp & _ & Hs & _ & Hb).
  - reflexivity.
  - reflexivity.
  - reflexivity.
  - exists items. injection Hp as <-. split; assumption.
Defined.

(** ** Saved request contracts *)

Section contract.
Context (header_name_ok header_value_ok : string → bool).
(** [Value == Value], [from_value] at [Vec<bool>], [Vec<String>] and [usize]. *)
Context (value_eq : Value → Value → bool) (bool_vec : Value → option (list bool))
  (string_vec : Value → option (list string)) (usize_of : Value → option Z).

(** [value[key]]: [Null] when the key is missing. *)
Definition index (key : string) (v : Value) : Value := default Null (get key v).

Definition member_keys (v : Value) : list string := match v with Object f => f.*1 | _ => [] end.

Definition header_input_keys : list string :=
  ["location"; "name"; "type"; "required"; "nullable"; "description"; "enum_values"; "min_length"; "max_length"].

Definition length_field (key : string) (dflt : Z) (input : Value) : result Z string :=
  match get key input with
  | None => Ok dflt
  | Some v => ok_or (usize_of v) "serde"
  end.

(** A header input of the contract as a rule. *)
(* src: ai-gateway/src/validation/header.rs:160-213 compile_contract *)
Definition compile_header_input (input : Value) : result HeaderRule string :=
  if negb (forallb (λ k, bool_decide (k ∈ header_input_keys)) (member_keys input))
  then Err "unsupported header constraint"
  else
    let ty := as_str (index "type" input) in
    if negb (bool_decide (ty ∈ [Some "string"; Some "boolean"])
             && match index "nullable" input with Bool false => true | _ => false end)
    then Err "header must be a non-nullable string or boolean"
    else
      let? allowed :=
        if bool_decide (ty = Some "boolean") then
          let? values :=
            match get "enum_values" input with
            | Some v => ok_or (bool_vec v) "invalid boolean header enum"
            | None => Ok [false; true]
            end in
          Ok (Some (map (λ b : bool, if b then "true" else "false") values))
        else match get "enum_values" input with
             | None => Ok None
             | Some v => let? l := ok_or (string_vec v) "serde" in Ok (Some l)
             end in
      let? name := ok_or (as_str (index "name" input)) "header name missing" in
      let? required := ok_or (as_bool (index "required" input)) "header required missing" in
      let? lo := length_field "min_length" 0 input in
      let? hi := length_field "max_length" 1024 input in
      header_rule_normalize header_name_ok header_value_ok (mkHeaderRule name required allowed lo hi).

(* src: ai-gateway/src/validation/header.rs:147-216 compile_contract *)
Fixpoint compile_inputs (inputs : list Value) (rules : list HeaderRule) : result (list HeaderRule) string :=
  match inputs with
  | [] => Ok rules
  | input :: inputs =>
      let? location := ok_or (as_str (index "location" input)) "input location missing" in
      if negb (bool_decide (location ∈ ["header"; "body"; "query"; "path"])) then Err "unsupported input location"
      else if negb (String.eqb location "header") then compile_inputs inputs rules
      else
        let? rule := compile_header_input input in
        if bool_decide (rule_name rule ∈ map rule_name rules) then Err "duplicate header input"
        else compile_inputs inputs (rules ++ [rule])%list
  end.

(* src: ai-gateway/src/validation/header.rs:217-247 compile_contract *)
Fixpoint compile_mappings (names : gset string) (mappings : list Value) (mapped : gset string)
  : result (gset string) string :=
  match mappings with
  | [] => Ok mapped
  | mapping :: mappings =>
      let? source := ok_or (as_str (index "source" mapping)) "mapping source missing" in
      let? target := ok_or (as_str (index "target" mapping)) "mapping target missing" in
      if starts_with "header:" source || starts_with "header:" target then
        if negb (forallb (λ k, bool_decide (k ∈ ["source"; "target"])) (member_keys mapping))
        then Err "unsupported header mapping"
        else
          let? name := ok_or (strip_prefix "header:" source) "header identity mapping required" in
          let name := to_ascii_lowercase name in
          if match strip_prefix "header:" target with
             | Some t => eq_ignore_ascii_case t name
             | None => false
             end && bool_decide (name ∈ names) && negb (bool_decide (name ∈ mapped))
          then compile_mappings names mappings ({[name]} ∪ mapped)
          else Err "header identity mapping required"
      else compile_mappings names mappings mapped
  end.

(* src: ai-gateway/src/validation/header.rs:253-266 compile_contract *)
Fixpoint compile_fixed (names : gset string) (fixed : list (string * Value)) (headers : HeaderMap)
  : result HeaderMap string :=
  match fixed with
  | [] => Ok headers
  | (name, value) :: fixed =>
      if negb (business_header header_name_ok name) then Err "invalid fixed header"
      else if bool_decide (to_ascii_lowercase name ∈ names) || hcontains name headers
      then Err "fixed header conflicts with header input"
      else
        let? value := ok_or (as_str value) "invalid fixed header value" in
        if (1024 <? Z.of_nat (len value))%Z || negb (header_value_ok value) then Err "invalid fixed header value"
        else compile_fixed names fixed (hinsert name value headers)
  end.

(** [contract_bytes] is the size of the contract's text. *)
(* src: ai-gateway/src/validation/header.rs:128-269 compile_contract *)
Definition compile_contract (contract_bytes : Z) (value : Value) : result (list HeaderRule * HeaderMap) string :=
  if (65536 <? contract_bytes)%Z then Err "request contract too large"
  else if negb (value_eq (index "version" value) (Number "1")) then Err "unsupported request contract version"
  else
    let? inputs := ok_or (as_array (index "inputs" value)) "contract inputs missing" in
    let? mappings := ok_or (as_array (index "mappings" value)) "contract mappings missing" in
    if ((128 <? Z.of_nat (length inputs)) || (128 <? Z.of_nat (length mappings)))%Z
    then Err "request contract too large"
    else
      let? rules := compile_inputs inputs [] in
      let names : gset string := list_to_set (map rule_name rules) in
      let? mapped := compile_mappings names mappings ∅ in
      if bool_decide (mapped ≠ names) then Err "header mapping missing"
      else
        let? headers :=
          match get "fixed_headers" value with
          | None => Ok ∅
          | Some fixed =>
              let? fixed := ok_or (as_object fixed) "invalid fixed headers" in
              if (128 <? Z.of_nat (length fixed))%Z then Err "too many fixed headers"
              else compile_fixed names fixed ∅
          end in
        Ok (rules, headers).

#[local] Instance HeaderRule_eq_dec : EqDecision HeaderRule.
Proof. solve_decision. Defined.

(** The saved rules are added to the declared ones, which must agree with them. *)
Fixpoint merge_rules (rules : list HeaderRule) (checks : list Check) : result (list Check) string :=
  match rules with
  | [] => Ok checks
  | rule :: rules =>
      match list_find (λ r, rule_name r = rule_name rule)
              (omap (λ c, match c with HeaderCheck h => Some h | _ => None end) checks) with
      | Some (_, existing) =>
          if bool_decide (existing = rule) then merge_rules rules checks
          else Err "header contract conflicts with validation"
      | None => merge_rules rules (checks ++ [HeaderCheck rule])%list
      end
  end.

(** [policy] is the parsed validation document and [contract] the compiled
    contract, each when the route has one. *)
(* src: ai-gateway/src/validation/mod.rs:316-362 ValidationPolicy::for_route *)
Definition for_route (policy : result (option ValidationPolicy) string)
    (contract : option (result (list HeaderRule * HeaderMap) string)) : result (option ValidationPolicy) string :=
  let? policy := policy in
  match contract with
  | None => Ok policy
  | Some contract =>
      let? (rules, fixed) := contract in
      if match policy with
         | Some p => existsb (λ c, match c with
                                   | HeaderCheck h => negb (bool_decide (h ∈ rules))
                                   | _ => false
                                   end) (request_checks p)
         | None => false
         end then Err "header validation exceeds saved contract"
      else if match rules with [] => true | _ => false end && bool_decide (fixed = ∅) then Ok policy
      else
        let p := default (mkValidation 2 [] [] [] ∅) policy in
        let? checks := merge_rules rules (request_checks p) in
        let p := mkValidation 2 checks (response_checks p) (denied_header_prefixes p) fixed in
        if (32 <? Z.of_nat (length (request_checks p) + length (response_checks p)))%Z
        then Err "too many validation checks"
        else let? _ := validate_header_dependencies p in Ok (Some p)
  end.

(** ** Fixed headers and declared inputs never meet *)

Lemma compile_inputs_names inputs : ∀ rules rules',
  compile_inputs inputs rules = Ok rules' → NoDup (map rule_name rules) → NoDup (map rule_name rules').
Proof.
  induction inputs as [|input inputs IH]; intros rules rules'; cbn [compile_inputs]; [by intros [= ->]|].
  destruct (as_str (index "location" input)) as [location|]; [|done]. cbn [ok_or result_bind].
  case_match; [done|]. case_match; [by apply IH|].
  destruct (compile_header_input input) as [rule|]; [|done]. cbn [result_bind].
  case_match; [done|]. bool_to_prop. intros Hc Hn. apply IH in Hc; [done|]. rw map_app.
  apply NoDup_app. split_and!; [done|set_solver|apply NoDup_singleton].
Qed.

Lemma compile_fixed_disjoint names fixed : ∀ headers headers',
  compile_fixed names fixed headers = Ok headers' →
  (∀ n, is_Some (headers !! n) → n ∉ names) → ∀ n, is_Some (headers' !! n) → n ∉ names.
Proof.
  induction fixed as [|[name v] fixed IH]; intros headers headers'; cbn [compile_fixed]; [by intros [= ->]|].
  case_match; [done|]. case_match eqn:Hc; [done|]. bool_to_prop.
  destruct (as_str v) as [value|]; [|done]. cbn [ok_or result_bind]. case_match; [done|].
  intros Hf Hinv. eapply IH; [exact Hf|]. intros n. rw /hinsert lookup_insert_is_Some'. naive_solver.
Qed.

(** A compiled contract is unambiguous: its header rules have
    distinct names, and no fixed header it sends has the name of a header the
    client may send. *)
Theorem compile_contract_disjoint bytes value rules fixed :
  compile_contract bytes value = Ok (rules, fixed) →
  NoDup (map rule_name rules) ∧ ∀ n, is_Some (fixed !! n) → n ∉ map rule_name rules.
Proof.
  rw /compile_contract. do 2 (case_match; [done|]).
  destruct (as_array (index "inputs" value)) as [inputs|]; [|done]. cbn [ok_or result_bind].
  destruct (as_array (index "mappings" value)) as [mappings|]; [|done]. cbn [ok_or result_bind].
  case_match; [done|]. destruct (compile_inputs inputs []) as [rs|] eqn:Hi; [|done]. cbn [result_bind].
  destruct (compile_mappings _ _ _) as [mapped|]; [|done]. cbn [result_bind]. case_match; [done|].
  assert (Hn := compile_inputs_names _ _ _ Hi (NoDup_nil_2)).
  destruct (get "fixed_headers" value) as [f|]; cbn [result_bind].
  - destruct (as_object f) as [f'|]; [|done]. cbn [ok_or result_bind]. case_match; [done|].
    destruct (compile_fixed _ f' ∅) as [hs|] eqn:Hf; [|done]. intros [= -> ->]. split; [done|].
    intros n Hs. apply (compile_fixed_disjoint _ _ _ _ Hf) in Hs; [set_solver|].
    intros m. rw lookup_empty. by intros [].
  - intros [= -> <-]. split; [done|]. intros n. rw lookup_empty. by intros [].
Qed.
End contract.

Definition demo_contract : Value :=
  Object [("version", Number "1");
          ("inputs", Array [Object [("location", Str "header"); ("name", Str "X-Mode"); ("type", Str "boolean");
                                    ("required", Bool true); ("nullable", Bool false)]]);
          ("mappings", Array [Object [("source", Str "header:X-Mode"); ("target", Str "header:x-mode")]]);
          ("fixed_headers", Object [("X-Tenant", Str "a")])].
Definition demo_rule : HeaderRule := mkHeaderRule "x-mode" true (Some ["false"; "true"]) 0 1024.
Definition demo_fixed : HeaderMap := hinsert "X-Tenant" "a" ∅.
Definition demo_value_eq (a b : Value) : bool :=
  match a, b with Number s, Number t => String.eqb s t | _, _ => false end.

Lemma compile_contract_disjoint_witness :
  compile_contract (λ _, true) (λ _, true) demo_value_eq (λ _, None) (λ _, None) (λ _, None) 100 demo_contract
    = Ok ([demo_rule], demo_fixed) ∧ "x-tenant" ∉ map rule_name [demo_rule].
Proof.
  assert (H : compile_contract (λ _, true) (λ _, true) demo_value_eq (λ _, None) (λ _, None) (λ _, None) 100
    demo_contract = Ok ([demo_rule], demo_fixed)) by reflexivity.
  split; [exact H|].
  apply (proj2 (compile_contract_disjoint _ _ _ _ _ _ _ _ _ _ H)). exists ["a"]. reflexivity.
Defined.
