(* ===== verification/Routing.v ===== *)
(** * Routes, target providers and upstream addresses

    Models what decides where a request goes: the path analysis of
    [router/router_details.rs], the method check of
    [middleware/routing_precheck.rs], the planner and the target provider of
    [router/unified_route_planner.rs] and [router/target_provider_resolve.rs],
    the workspace allow-list of [dispatcher/provider_allowlist.rs] and the URL
    arithmetic of [dispatcher/target_endpoint.rs].

    The [http] crate's [PathAndQuery], the [url] crate's [Url] and the typed
    request bodies of vendored SDKs are parameters. *)

From S2P Require Import Prelude RustStr Provider ModelId ModelSupport DefaultModel.
From Stdlib Require Import Ascii.
Local Open Scope string_scope.

(** ** Paths *)

Fixpoint str_span (p : ascii → bool) (s : string) : string * string :=
  match s with
  | EmptyString => ("", "")
  | String c s' => if p c then let '(a, b) := str_span p s' in (String c a, b) else ("", s)
  end.

Definition not_slash_or_query (c : ascii) : bool := negb (Ascii.eqb c "/") && negb (Ascii.eqb c "?").
Definition not_query (c : ascii) : bool := negb (Ascii.eqb c "?").
Definition not_newline (c : ascii) : bool := negb (Ascii.eqb c newline).

(** The groups [first_segment] and [rest] of the gateway's URL pattern: a slash,
    a segment without slash and question mark, optionally a slash with what
    follows it up to a question mark, optionally a question mark and the rest of
    the line.  The classes of neighbouring groups are disjoint, so that a match
    is unique. *)
(* src: ai-gateway/src/router/router_details.rs:17-18 UNIFIED_URL_REGEX *)
Definition unified_captures (path : string) : option (string * option string) :=
  match path with
  | String "/" tail =>
      let '(first_segment, after) := str_span not_slash_or_query tail in
      if is_empty first_segment then None
      else
        let '(rest, query) := if starts_with "/" after then let '(r, q) := str_span not_query after in (Some r, q)
                              else (None, after) in
        if str_all not_newline query then Some (first_segment, rest) else None
  | _ => None
  end.

(* src: ai-gateway/src/router/router_details.rs:65-69 AgentToolsRouteAction *)
Inductive AgentToolsRouteAction := ToolsList | ToolsCall.

(* src: ai-gateway/src/router/router_details.rs:50-63 RouteType *)
Inductive RouteType :=
| AgentEventsRoute
| AgentToolsRoute (action : AgentToolsRouteAction)
| UnifiedApiRoute (path : string)
| X402AgentRoute (slug remaining_path : string).

(* src: ai-gateway/src/router/router_details.rs:138-158 parse_x402_path *)
Definition parse_x402_path (path : string) : option (string * string) :=
  match strip_prefix "/x402/" path with
  | None => None
  | Some rest =>
      let '(slug, remaining) :=
        match split_once "/" rest with
        | None => (rest, "")
        | Some (slug, remaining) => (slug, if is_empty remaining then "" else str_drop (len slug) rest)
        end in
      let slug := trim slug in
      if is_empty slug || String.eqb slug "agents" || String.eqb slug "api" then None
      else Some (slug, remaining)
  end.

(** [InvalidRequestError::NotFound], [MethodNotAllowed] and the internal error
    of a path that is no [PathAndQuery]. *)
Inductive RouteError :=
| NotFound (path : string)
| MethodNotAllowed (method path : string)
| RouteInternal.

(* src: ai-gateway/src/router/router_details.rs:82-135 parse_route *)
Definition parse_route (path : string) : result RouteType RouteError :=
  match parse_x402_path path with
  | Some (slug, remaining_path) => Ok (X402AgentRoute slug remaining_path)
  | None =>
      if String.eqb path "/x402" || starts_with "/x402/" path then Err (NotFound path)
      else match unified_captures path with
           | None => Err (NotFound path)
           | Some (first_segment, rest) =>
               if negb (String.eqb first_segment "v1") then Err (NotFound path)
               else
                 let rest_path := default "" rest in
                 if String.eqb rest_path "/agent/events" then Ok AgentEventsRoute
                 else if String.eqb rest_path "/agent/tools/list" then Ok (AgentToolsRoute ToolsList)
                 else if String.eqb rest_path "/agent/tools/call" then Ok (AgentToolsRoute ToolsCall)
                 else Ok (UnifiedApiRoute (trim_start_matches "/" rest_path))
           end
  end.

(* src: ai-gateway/src/router/unified_api.rs:181-192 UnifiedApi *)
Inductive UnifiedApiKind :=
| ChatCompletions | Completions | Embeddings | ImageGenerations | ImageEdits
| AudioSpeech | AudioTranscriptions | Responses | Messages | Models.

(* src: ai-gateway/src/router/unified_api.rs:194-211 UnifiedApi::try_from *)
Definition unified_api_try_from (value : string) : option UnifiedApiKind :=
  if String.eqb value "chat/completions" then Some ChatCompletions
  else if String.eqb value "completions" then Some Completions
  else if String.eqb value "embeddings" then Some Embeddings
  else if String.eqb value "images/edits" then Some ImageEdits
  else if String.eqb value "images/generations" then Some ImageGenerations
  else if String.eqb value "responses" then Some Responses
  else if String.eqb value "messages" then Some Messages
  else if String.eqb value "audio/speech" then Some AudioSpeech
  else if String.eqb value "audio/transcriptions" then Some AudioTranscriptions
  else if String.eqb value "models" then Some Models
  else None.

(* src: ai-gateway/src/middleware/routing_precheck.rs:47-94 path_requires_post *)
Definition path_requires_post (path : string) : bool :=
  let p := trim_start_matches "/" path in
  if String.eqb p "chat/completions" || ends_with "/chat/completions" p then true
  else if String.eqb p "v1/chat/completions" || ends_with "/v1/chat/completions" p then true
  else if String.eqb p "messages" || String.eqb p "v1/messages" || ends_with "/v1/messages" p
          || ends_with "/messages" p then true
  else if contains "/converse" p then true
  else if contains "v1beta/openai/chat/completions" p then true
  else if String.eqb p "embeddings" || ends_with "/v1/embeddings" p || ends_with "v1/embeddings" p
          || ends_with "/embeddings" p then true
  else if String.eqb p "images/generations" || contains "images/generations" p then true
  else if String.eqb p "responses" || String.eqb p "v1/responses" || ends_with "/v1/responses" p
          || ends_with "/responses" p then true
  else String.eqb p "completions" || (ends_with "/completions" p && negb (ends_with "/chat/completions" p)).

(* src: ai-gateway/src/middleware/routing_precheck.rs:96-118 check_method *)
Definition check_method (method path : string) : result unit RouteError :=
  if String.eqb method "OPTIONS" then Ok tt
  else if String.eqb (trim_start_matches "/" path) "models" && negb (String.eqb method "GET")
  then Err (MethodNotAllowed method path)
  else if path_requires_post path && negb (String.eqb method "POST")
  then Err (MethodNotAllowed method path)
  else Ok tt.

Record HttpRequest := mkRequest { method : string; uri_path : string; uri_query : option string }.

Section paths.
(** [PathAndQuery::from_str], [PathAndQuery::path]. *)
Context {PathAndQuery : Type} (pq_from_str : string → option PathAndQuery) (pq_path : PathAndQuery → string).

(** The extensions the layer inserts. *)
Record RouteExtensions := mkExtensions {
  request_kind : RequestKind;
  route_type : RouteType;
  path_and_query : option PathAndQuery
}.

(* src: ai-gateway/src/router/router_details.rs:160-171 extract_path_and_query *)
Definition extract_path_and_query (path : string) (query : option string) : result PathAndQuery RouteError :=
  ok_or (pq_from_str (match query with Some query_params => path ++ "?" ++ query_params | None => path end))
    RouteInternal.

(* src: ai-gateway/src/router/router_details.rs:186-219 RouterDetailsService::call *)
Definition router_details_call (req : HttpRequest) : result RouteExtensions RouteError :=
  let? route := parse_route (uri_path req) in
  match route with
  | AgentEventsRoute => Ok (mkExtensions AgentEvents route None)
  | AgentToolsRoute _ => Ok (mkExtensions AgentTools route None)
  | UnifiedApiRoute path =>
      let? pq := extract_path_and_query path (uri_query req) in
      Ok (mkExtensions UnifiedApi route (Some pq))
  | X402AgentRoute _ _ => Ok (mkExtensions X402Agent route None)
  end.

(* src: ai-gateway/src/middleware/routing_precheck.rs:120-146 precheck *)
Definition precheck (req : HttpRequest) (ext : RouteExtensions) : result unit RouteError :=
  match route_type ext with
  | AgentEventsRoute | AgentToolsRoute _ | X402AgentRoute _ _ => Ok tt
  | UnifiedApiRoute _ =>
      let? pq := ok_or (path_and_query ext) RouteInternal in
      let path := pq_path pq in
      let? _ := ok_or (unified_api_try_from path) (NotFound (uri_path req)) in
      check_method (method req) path
  end.

(** The two layers in the order of the stack. *)
(* src: ai-gateway/src/router/meta.rs:46-52 MetaRouter::build *)
Definition admit_route (req : HttpRequest) : result RouteExtensions RouteError :=
  let? ext := router_details_call req in
  let? _ := precheck req ext in
  Ok ext.
End paths.

(** ** Target providers *)

Section providers.
Context {Date : Type} (parse_from_str : string → string → option Date) (year : string).

(** The errors of the routing functions; [JoinPanicked] is the [expect] on the
    joined URL. *)
Inductive RoutingError :=
| MapperFailed (e : MapperError)
| UnsupportedEndpoint (what : string)
| UnsupportedModel (what : string)
| InvalidRequestBody
| MissingModelId
| AccessDenied (e : DefaultModel.ApiError)
| ProviderNotConfigured (p : InferenceProvider)
| ProviderNotAllowedForWorkspace (p : InferenceProvider)
| JoinPanicked.

(** The provider a model name carries; the same function is written out as
    [inference_provider_from_gateway_model] in [dispatcher/fallback_executor.rs]. *)
(* src: ai-gateway/src/router/target_provider_resolve.rs:13-24 provider_from_bare_model *)
Definition provider_from_bare_model (model : string) : result InferenceProvider RoutingError :=
  let? source_model := map_err MapperFailed (model_id_from_str parse_from_str year model) in
  match source_model with
  | WithVersion provider _ => Ok provider
  | BedrockId _ => Ok Bedrock
  | OllamaId _ => Ok Ollama
  | Unknown s =>
      Err (UnsupportedEndpoint ("provider for the given model: '" ++ s ++ "' not supported"))
  end.

(* src: ai-gateway/src/dispatcher/fallback_executor.rs:187-198 inference_provider_from_gateway_model *)
Definition inference_provider_from_gateway_model (model : string) : result InferenceProvider RoutingError :=
  let? source_model := map_err MapperFailed (model_id_from_str parse_from_str year model) in
  match source_model with
  | WithVersion provider _ => Ok provider
  | BedrockId _ => Ok Bedrock
  | OllamaId _ => Ok Ollama
  | Unknown s =>
      Err (UnsupportedEndpoint ("provider for the given model: '" ++ s ++ "' not supported"))
  end.

(* src: ai-gateway/src/router/target_provider_resolve.rs:38-70 resolve_unified_target_provider *)
Definition resolve_unified_target_provider (compat : bool) (compat_fallback : InferenceProvider) (model : string)
    (master_key_allowed_providers : option (list InferenceProvider)) : result InferenceProvider RoutingError :=
  let resolve := if compat then Ok compat_fallback else provider_from_bare_model model in
  match master_key_allowed_providers with
  | Some [p] => Ok p
  | Some (p :: q :: l) =>
      let? resolved := resolve in
      if bool_decide (resolved ∈ p :: q :: l) then Ok resolved
      else Err (UnsupportedModel "requested model routes to a provider not allowed for this API key")
  | Some [] | None => resolve
  end.
End providers.

(** What the routing reads of the authenticated key and of the request. *)
(* src: ai-gateway/src/types/extensions.rs:35-80 AuthContext *)
Record AuthContext := mkAuth {
  org_id : string;
  master_key_id : option string;
  master_key_base_url : option string;
  department_id : string;
  is_custom_provider : bool;
  master_key_allowed_providers : option (list InferenceProvider)
}.

(** The allow-lists by workspace. *)
(* src: ai-gateway/src/app_state.rs:224-247 is_provider_allowed_for_workspace *)
Definition is_provider_allowed_for_workspace (allowlist : gmap string (gset InferenceProvider))
    (workspace_id : string) (provider : InferenceProvider) : bool :=
  if bool_decide (allowlist = ∅) then true
  else match allowlist !! workspace_id with
       | None => true
       | Some allowed => if bool_decide (allowed = ∅) then true else bool_decide (provider ∈ allowed)
       end.

(* src: ai-gateway/src/dispatcher/provider_allowlist.rs:36-38 allowlist_workspace_id_for_request *)
Definition allowlist_workspace_id_for_request (auth_ctx : option AuthContext) : option string :=
  org_id <$> auth_ctx.

(* src: ai-gateway/src/dispatcher/provider_allowlist.rs:9-34 enforce_workspace_provider_allowlist *)
Definition enforce_workspace_provider_allowlist (allowlist : gmap string (gset InferenceProvider))
    (auth_ctx : option AuthContext) (target_provider : InferenceProvider) : result unit RoutingError :=
  match allowlist_workspace_id_for_request auth_ctx with
  | None => Ok tt
  | Some workspace_id =>
      if negb (is_provider_allowed_for_workspace allowlist workspace_id target_provider)
      then Err (ProviderNotAllowedForWorkspace target_provider) else Ok tt
  end.

(** The provider the allow-list is asked about. *)
(* src: ai-gateway/src/dispatcher/service.rs:267-276 Dispatcher::dispatch *)
Definition provider_for_allowlist (auth_ctx : option AuthContext) (target_provider : InferenceProvider)
  : InferenceProvider :=
  match auth_ctx with
  | Some a => if is_custom_provider a && bool_decide (is_Some (master_key_base_url a)) then Custom
              else target_provider
  | None => target_provider
  end.

(** *** The planner *)

(** [async_openai]'s [ImageModel]. *)
Inductive ImageModel := DallE2 | DallE3 | OtherImageModel (model : string).

(* src: ai-gateway/src/router/unified_route_planner.rs:150-156 image_model_routing_name *)
Definition image_model_routing_name (m : ImageModel) : string :=
  match m with DallE2 => "dall-e-2" | DallE3 => "dall-e-3" | OtherImageModel s => s end.

(* src: ai-gateway/src/router/unified_route_planner.rs:51-58 RouteCandidateReason *)
Inductive RouteCandidateReason :=
| SingleProviderMasterKey | ExplicitProviderModel | DefaultModelReason | CustomProviderBaseUrl.

(* src: ai-gateway/src/router/unified_route_planner.rs:43-49 RouteCandidate *)
Record RouteCandidate := mkRouteCandidate {
  rc_provider : InferenceProvider;
  rc_model : string;
  rc_reason : RouteCandidateReason
}.

(* src: ai-gateway/src/router/unified_route_planner.rs:32-41 RouteDecision *)
Record RouteDecision := mkDecision {
  selected_provider : InferenceProvider;
  selected_model : string;
  out_body : string;
  candidates : list RouteCandidate;
  policy_checked : bool;
  model_body_passthrough : bool
}.

Section planner.
Context {Profile : Type}.
(** The readers of typed bodies: the chat and the [responses] normalisers of the
    IDE adaptation, and [serde_json::from_slice] into the request types of
    [async_openai] and [anthropic_ai_sdk], of which only the model is read. *)
Record BodyReaders := mkReaders {
  chat_routing_model : string → result string RoutingError;
  responses_normalize : string → Profile → result string RoutingError;
  responses_model : string → result string RoutingError;
  completion_model : string → option string;
  embedding_model : string → option string;
  image_model : string → option (option ImageModel);
  message_model : string → option string
}.
Context (readers : BodyReaders).

(* src: ai-gateway/src/router/unified_route_planner.rs:97-148 routing_model_for_path *)
Definition routing_model_for_path (path body : string) (client_profile : Profile)
  : result (string * string) RoutingError :=
  if String.eqb path "chat/completions" then
    let? model := chat_routing_model readers body in Ok (model, body)
  else if String.eqb path "responses" then
    let? body := responses_normalize readers body client_profile in
    let? model := responses_model readers body in Ok (model, body)
  else if String.eqb path "completions" then
    let? model := ok_or (completion_model readers body) InvalidRequestBody in Ok (model, body)
  else if String.eqb path "embeddings" then
    let? model := ok_or (embedding_model readers body) InvalidRequestBody in Ok (model, body)
  else if String.eqb path "images/generations" then
    let? request := ok_or (image_model readers body) InvalidRequestBody in
    let? model_s := ok_or request MissingModelId in
    let model := image_model_routing_name model_s in
    if is_empty model then Err (MapperFailed (InvalidModelName "Model name cannot be empty"))
    else Ok (model, body)
  else if String.eqb path "messages" then
    let? model := ok_or (message_model readers body) InvalidRequestBody in Ok (model, body)
  else Err (UnsupportedEndpoint path).

(** [auth] and [vk] are the extensions of the request. *)
(* src: ai-gateway/src/router/unified_route_planner.rs:75-90 resolve_provider_from_master_key *)
Definition resolve_provider_from_master_key (auth : option AuthContext) : result InferenceProvider RoutingError :=
  match auth with
  | None => Err (UnsupportedModel "missing auth context for unified provider routing")
  | Some auth =>
      match master_key_allowed_providers auth with
      | Some [provider] => Ok provider
      | _ => Err (UnsupportedModel "master key must resolve to exactly one provider")
      end
  end.

Context (to_lowercase : string → string).

(* src: ai-gateway/src/router/unified_route_planner.rs:159-192 plan *)
Definition plan (path body : string) (auth : option AuthContext) (vk : option VkPolicy)
    (explicit_client_model : bool) (client_profile : Profile) : result RouteDecision RoutingError :=
  let? (selected_model, out_body) := routing_model_for_path path body client_profile in
  let? _ := map_err AccessDenied (check_model_access to_lowercase vk selected_model) in
  let? selected_provider := resolve_provider_from_master_key auth in
  Ok (mkDecision selected_provider selected_model out_body
        [mkRouteCandidate selected_provider selected_model SingleProviderMasterKey]
        true explicit_client_model).
End planner.

(** ** The learned region of a key *)

(* src: ai-gateway/src/dispatcher/regional_endpoint.rs:9-12 EndpointRegion *)
Inductive EndpointRegion := Cn.

#[global] Instance EndpointRegion_eq_dec : EqDecision EndpointRegion.
Proof. solve_decision. Defined.

(* src: ai-gateway/src/dispatcher/regional_endpoint.rs:15-20 EndpointRegion::as_str *)
Definition region_as_str (r : EndpointRegion) : string := match r with Cn => "cn" end.

(* src: ai-gateway/src/dispatcher/regional_endpoint.rs:22-28 EndpointRegion::parse *)
Definition region_parse (value : string) : option EndpointRegion :=
  if String.eqb value "cn" then Some Cn else None.

(* src: ai-gateway/src/dispatcher/regional_endpoint.rs:44-46 redis_key *)
Definition redis_key (master_key_id : string) : string := "regional_endpoint:" ++ master_key_id.

(* src: ai-gateway/src/dispatcher/regional_endpoint.rs:51-53 regional_retry_eligible_status *)
Definition regional_retry_eligible_status (status : Z) : bool := (status =? 401)%Z || (status =? 403)%Z.

(** Redis, when it is configured, and the cache in memory.  Entries of both
    expire: [expire_redis] and [expire_cache] are the environment's steps. *)
(* src: ai-gateway/src/dispatcher/regional_endpoint.rs:31-39 RegionalEndpointCache *)
Record Regional := mkRegional {
  region_redis : option (gmap string string);
  region_cache : gmap string EndpointRegion
}.

(** [redis_up]: whether Redis answers this call. *)
(* src: ai-gateway/src/dispatcher/regional_endpoint.rs:57-87 get_learned_region *)
Definition get_learned_region (redis_up : bool) (master_key_id : option string) (st : Regional)
  : option EndpointRegion :=
  match master_key_id with
  | None => None
  | Some id =>
      let from_redis :=
        match region_redis st with
        | Some redis => if redis_up then redis !! redis_key id ≫= region_parse else None
        | None => None
        end in
      match from_redis with Some region => Some region | None => region_cache st !! id end
  end.

(* src: ai-gateway/src/dispatcher/regional_endpoint.rs:91-119 remember_region *)
Definition remember_region (redis_up : bool) (master_key_id : option string) (region : EndpointRegion)
    (st : Regional) : Regional :=
  match master_key_id with
  | None => st
  | Some id =>
      mkRegional
        ((λ redis, if redis_up then <[redis_key id := region_as_str region]> redis else redis)
         <$> region_redis st)
        (<[id := region]> (region_cache st))
  end.

(* src: ai-gateway/src/dispatcher/regional_endpoint.rs:123-144 forget_region *)
Definition forget_region (redis_up : bool) (master_key_id : option string) (st : Regional) : Regional :=
  match master_key_id with
  | None => st
  | Some id =>
      mkRegional ((λ redis, if redis_up then delete (redis_key id) redis else redis) <$> region_redis st)
                 (delete id (region_cache st))
  end.

Definition expire_redis (id : string) (st : Regional) : Regional :=
  mkRegional (delete (redis_key id) <$> region_redis st) (region_cache st).
Definition expire_cache (id : string) (st : Regional) : Regional :=
  mkRegional (region_redis st) (delete id (region_cache st)).

(** ** Upstream addresses *)

(* src: ai-gateway/src/dispatcher/target_endpoint.rs:136-145 segment_is_v_digit_version *)
Definition segment_is_v_digit_version (segment : string) : bool :=
  match segment with
  | String c ((String _ _) as digits) =>
      (Ascii.eqb c "v" || Ascii.eqb c "V") && str_all is_ascii_digit digits
  | _ => false
  end.

(* src: ai-gateway/src/dispatcher/target_endpoint.rs:147-157 strip_leading_numeric_v_revision_prefix *)
Definition strip_leading_numeric_v_revision_prefix (path : string) : option string :=
  match split_once "/" (trim_start_matches "/" path) with
  | None => None
  | Some (first, rest) =>
      if is_empty rest then None
      else if negb (segment_is_v_digit_version first) then None
      else Some rest
  end.

(** The last element of a split at slashes. *)
Definition last_segment (s : string) : string := default "" (last (split "/" s)).

Definition path_ends_with_version (url_path : string) : bool :=
  let path := trim_slashes url_path in
  if is_empty path then false else segment_is_v_digit_version (last_segment path).

(** Path and query of a request target. *)
Definition split_query (path_and_query : string) : string * option string :=
  match split_once "?" path_and_query with
  | Some (p, q) => (p, Some q)
  | None => (path_and_query, None)
  end.
Definition with_query (path : string) (query : option string) : string :=
  match query with Some q => path ++ "?" ++ q | None => path end.

(* src: ai-gateway/src/dispatcher/target_endpoint.rs:12-19 TargetEndpointSource *)
Inductive TargetEndpointSource :=
| MasterKeyBaseUrl | RouterProviderBaseUrl | LearnedCn | GlobalProviderBaseUrl.

#[global] Instance TargetEndpointSource_eq_dec : EqDecision TargetEndpointSource.
Proof. solve_decision. Defined.

Section endpoint.
(** The [url] crate: [Url::path], [Url::set_path], [Url::join], [Url::parse]. *)
Context {Url : Type} (url_path : Url → string) (set_path : string → Url → Url)
        (join : Url → string → option Url) (url_parse : string → option Url).

(* src: ai-gateway/src/dispatcher/target_endpoint.rs:21-27 TargetEndpoint *)
Record TargetEndpoint := mkEndpoint {
  url : Url;
  source : TargetEndpointSource;
  cn_retry_url : option Url
}.

(* src: ai-gateway/src/dispatcher/target_endpoint.rs:127-134 base_path_ends_with_v_version_segment *)
Definition base_path_ends_with_v_version_segment (u : Url) : bool := path_ends_with_version (url_path u).

(* src: ai-gateway/src/dispatcher/target_endpoint.rs:159-179 adjust_upstream_path_for_versioned_base *)
Definition adjust_upstream_path_for_versioned_base (base_url : Url) (path_and_query : string) : string :=
  if negb (base_path_ends_with_v_version_segment base_url) then path_and_query
  else
    let '(path_only, query) := split_query path_and_query in
    match strip_leading_numeric_v_revision_prefix path_only with
    | None => path_and_query
    | Some stripped => with_query stripped query
    end.

(* src: ai-gateway/src/dispatcher/target_endpoint.rs:181-197 join_provider_upstream_url *)
Definition join_provider_upstream_url (base_url : Url) (path_and_query : string) : option Url :=
  let slice := adjust_upstream_path_for_versioned_base base_url path_and_query in
  let normalized_base :=
    if base_path_ends_with_v_version_segment base_url && negb (ends_with "/" (url_path base_url))
    then set_path (url_path base_url ++ "/") base_url else base_url in
  join normalized_base slice.

Definition joined (base_url : Url) (path_and_query : string) : result Url RoutingError :=
  ok_or (join_provider_upstream_url base_url path_and_query) JoinPanicked.

(* src: ai-gateway/src/dispatcher/target_endpoint.rs:199-213 resolve_master_key_target_url *)
Definition resolve_master_key_target_url (auth_ctx : option AuthContext) (path_and_query : string)
  : result (option Url) RoutingError :=
  match auth_ctx ≫= master_key_base_url with
  | None => Ok None
  | Some base_url_str =>
      match url_parse base_url_str with
      | Some base_url => let? u := joined base_url path_and_query in Ok (Some u)
      | None => Ok None
      end
  end.

Record ProviderConfig := mkProviderConfig { base_url : Url; cn_base_url : option Url }.

(** The parts of the request's context and of the application the resolver
    reads; [router_providers] are the base addresses of the router's own
    provider settings. *)
Record EndpointContext := mkEndpointContext {
  auth_context : option AuthContext;
  router_providers : option (gmap InferenceProvider Url);
  providers_config : gmap InferenceProvider ProviderConfig
}.

(* src: ai-gateway/src/dispatcher/target_endpoint.rs:51-122 TargetEndpointResolver::resolve *)
Definition resolve (ctx : EndpointContext) (redis_up : bool) (st : Regional) (target_provider : InferenceProvider)
    (path_and_query : string) (allow_learned_region : bool) : result TargetEndpoint RoutingError :=
  let? master_url := resolve_master_key_target_url (auth_context ctx) path_and_query in
  match master_url with
  | Some master_url => Ok (mkEndpoint master_url MasterKeyBaseUrl None)
  | None =>
  match router_providers ctx ≫= (.!! target_provider) with
  | Some router_base_url =>
      let? u := joined router_base_url path_and_query in
      Ok (mkEndpoint u RouterProviderBaseUrl None)
  | None =>
      let? selected := ok_or (providers_config ctx !! target_provider) (ProviderNotConfigured target_provider) in
      let? cn_retry_url :=
        match cn_base_url selected with
        | None => Ok None
        | Some cn => let? u := joined cn path_and_query in Ok (Some u)
        end in
      let learned_region :=
        match auth_context ctx ≫= master_key_id with
        | Some id => if allow_learned_region && bool_decide (is_Some cn_retry_url)
                     then get_learned_region redis_up (Some id) st else None
        | None => None
        end in
      match learned_region, cn_retry_url with
      | Some Cn, Some cn_url => Ok (mkEndpoint cn_url LearnedCn cn_retry_url)
      | _, _ =>
          let? u := joined (base_url selected) path_and_query in
          Ok (mkEndpoint u GlobalProviderBaseUrl cn_retry_url)
      end
  end
  end.
End endpoint.

(** ** Which routes are admitted *)

Fixpoint slashes (n : nat) : string := match n with O => "" | S n => String "/" (slashes n) end.

Definition api_name (api : UnifiedApiKind) : string :=
  match api with
  | ChatCompletions => "chat/completions" | Completions => "completions" | Embeddings => "embeddings"
  | ImageGenerations => "images/generations" | ImageEdits => "images/edits" | AudioSpeech => "audio/speech"
  | AudioTranscriptions => "audio/transcriptions" | Responses => "responses" | Messages => "messages"
  | Models => "models"
  end.

Definition method_admitted (api : UnifiedApiKind) (m : string) : bool :=
  String.eqb m "OPTIONS"
  || match api with
     | Models => String.eqb m "GET"
     | AudioSpeech | AudioTranscriptions | ImageEdits => true
     | _ => String.eqb m "POST"
     end.

Lemma unified_api_try_from_spec value api : unified_api_try_from value = Some api ↔ value = api_name api.
Proof.
  split; [|intros ->; by destruct api]. rw /unified_api_try_from.
  repeat (case_match; [intros [= <-]; by apply String.eqb_eq|]). done.
Qed.

Lemma check_method_api m api :
  check_method m (api_name api) = Ok tt ↔ method_admitted api m = true.
Proof.
  rw /check_method /method_admitted. destruct (String.eqb m "OPTIONS"); [done|].
  destruct api; cbn;
    destruct (String.eqb m "GET"), (String.eqb m "POST"); split; done.
Qed.

Lemma trim_start_matches_fuel_slashes n k s :
  (k ≤ n)%nat → starts_with "/" s = false → trim_start_matches_fuel n "/" (slashes k ++ s) = s.
Proof.
  revert k. induction n as [|n IH]; intros k Hk Hs; [by replace k with 0%nat by lia|].
  destruct k as [|k].
  - change (slashes 0 ++ s) with s. cbn [trim_start_matches_fuel]. rw /starts_with in Hs.
    by destruct (strip_prefix "/" s).
  - apply IH; [lia|done].
Qed.

Lemma len_slashes n : len (slashes n) = n.
Proof. induction n; simpl; congruence. Qed.

Lemma trim_start_slashes k s :
  starts_with "/" s = false → trim_start_matches "/" (slashes k ++ s) = s.
Proof.
  intros Hs. rw /trim_start_matches len_app len_slashes. apply trim_start_matches_fuel_slashes; [lia|done].
Qed.

Lemma trim_start_matches_fuel_split n s :
  (len s ≤ n)%nat →
  ∃ k, s = slashes k ++ trim_start_matches_fuel n "/" s
     ∧ starts_with "/" (trim_start_matches_fuel n "/" s) = false.
Proof.
  revert s. induction n as [|n IH]; intros s Hn.
  { exists 0%nat. destruct s; [done|simpl in Hn; lia]. }
  cbn [trim_start_matches_fuel]. destruct (strip_prefix "/" s) as [s'|] eqn:E.
  - apply strip_prefix_Some in E as ->. simpl in Hn. destruct (IH s' ltac:(lia)) as (k & Hk & Hs).
    exists (S k). split; [|done]. by rw {1}Hk.
  - exists 0%nat. by rw /starts_with E.
Qed.

(** Trimming removes exactly the leading slashes. *)
Lemma trim_start_split s :
  ∃ k, s = slashes k ++ trim_start_matches "/" s ∧ starts_with "/" (trim_start_matches "/" s) = false.
Proof. by apply trim_start_matches_fuel_split. Qed.

Lemma str_span_app p s : s = (str_span p s).1 ++ (str_span p s).2.
Proof.
  induction s as [|c s IH]; simpl; [done|]. destruct (p c); simpl; [|done].
  destruct (str_span p s). simpl in *. congruence.
Qed.

Lemma str_span_all p s : str_all p s = true → str_span p s = (s, "").
Proof.
  induction s as [|c s IH]; simpl; [done|]. intros [Hc Hs]%andb_true_iff. by rw Hc IH.
Qed.

Lemma str_span_stop p a c s :
  str_all p a = true → p c = false → str_span p (a ++ String c s) = (a, String c s).
Proof.
  induction a as [|d a IH]; simpl; [by intros _ ->|]. intros [Hd Ha]%andb_true_iff Hc. by rw Hd IH.
Qed.

Lemma str_span_head p s c r : (str_span p s).2 = String c r → p c = false.
Proof.
  induction s as [|d s IH]; simpl; [done|]. destruct (p d) eqn:E.
  - destruct (str_span p s). simpl in *. apply IH.
  - by intros [= -> ->].
Qed.

Lemma no_query_all s : count_byte "?" s = 0%nat → str_all not_query s = true.
Proof.
  induction s as [|c s IH]; [done|]. cbn [count_byte str_all]. rw /not_query (Ascii.eqb_sym c).
  destruct (Ascii.eqb "?" c) eqn:E; [simpl; lia|]. intros H. by rw IH.
Qed.

(** The pattern on a path without a query. *)
Lemma unified_captures_Some path first rest :
  count_byte "?" path = 0%nat → unified_captures path = Some (first, rest) →
  path = String "/" (first ++ default "" rest) ∧ first ≠ ""
  ∧ (rest = None ∨ starts_with "/" (default "" rest) = true).
Proof.
  destruct path as [|c tail]; [done|]. intros Hq. rw /unified_captures.
  destruct (Ascii.eqb_spec c "/") as [->|Hc]; [|by repeat case_match].
  cbn [count_byte Ascii.eqb] in Hq. pose proof (str_span_app not_slash_or_query tail) as Hs.
  destruct (str_span not_slash_or_query tail) as [a b] eqn:E. cbn [fst snd] in Hs.
  destruct a as [|a0 a']; [done|]. cbn [is_empty].
  assert (Hb : count_byte "?" b = 0%nat).
  { cbn in Hq. rw Hs count_byte_app in Hq. lia. }
  destruct (starts_with "/" b) eqn:Eb.
  - rw (str_span_all not_query b); [|by apply no_query_all]. cbn [str_all]. intros [= <- <-].
    rw Hs. naive_solver.
  - destruct (str_all not_newline b); [|done]. intros [= <- <-].
    assert (b = "") as ->.
    { destruct b as [|d b]; [done|]. apply (f_equal snd) in E as Hh. cbn [snd] in Hh.
      apply str_span_head in Hh. rw /not_slash_or_query in Hh. apply andb_false_iff in Hh as [Hh|Hh].
      - apply negb_false_iff, Ascii.eqb_eq in Hh as ->. done.
      - apply negb_false_iff, Ascii.eqb_eq in Hh as ->. done. }
    rw Hs. naive_solver.
Qed.

Lemma count_slashes n : count_byte "?" (slashes n) = 0%nat.
Proof. induction n as [|n IH]; [done|]. apply IH. Qed.

Lemma parse_route_unified n api :
  parse_route ("/v1" ++ slashes (S n) ++ api_name api) = Ok (UnifiedApiRoute (api_name api)).
Proof.
  rw /parse_route. cbn [parse_x402_path].
  replace (unified_captures ("/v1" ++ slashes (S n) ++ api_name api))
    with (Some ("v1", Some (slashes (S n) ++ api_name api))).
  2: { change ("/v1" ++ slashes (S n) ++ api_name api) with (String "/" ("v1" ++ String "/" (slashes n ++ api_name api))).
       cbn [unified_captures]. rw str_span_stop //. cbn [is_empty starts_with strip_prefix Ascii.eqb Bool.eqb].
       change (String "/" (slashes n ++ api_name api)) with (slashes (S n) ++ api_name api).
       rw (str_span_all not_query); [done|]. apply no_query_all. rw count_byte_app count_slashes. by destruct api. }
  cbn [String.eqb Ascii.eqb Bool.eqb negb default].
  rw trim_start_slashes; [|by destruct api].
  destruct n as [|n]; [by destruct api|]. done.
Qed.

Lemma parse_route_inv path r :
  count_byte "?" path = 0%nat → parse_route path = Ok r →
  match r with
  | AgentEventsRoute => path = "/v1/agent/events"
  | AgentToolsRoute ToolsList => path = "/v1/agent/tools/list"
  | AgentToolsRoute ToolsCall => path = "/v1/agent/tools/call"
  | UnifiedApiRoute p => ∃ k, path = "/v1" ++ slashes k ++ p ∧ (k = 0%nat → p = "")
  | X402AgentRoute slug rest => parse_x402_path path = Some (slug, rest)
  end.
Proof.
  intros Hq. rw /parse_route. destruct (parse_x402_path path) as [[slug rest]|]; [by intros [= <-]|].
  destruct (String.eqb path "/x402" || starts_with "/x402/" path); [done|].
  destruct (unified_captures path) as [[first rest]|] eqn:E; [|done].
  apply unified_captures_Some in E as (Hp & _ & Hrest); [|done].
  destruct (String.eqb_spec first "v1") as [->|]; [|done]. cbn [negb].
  destruct (String.eqb_spec (default "" rest) "/agent/events") as [He|_]; [intros [= <-]; by rw Hp He|].
  destruct (String.eqb_spec (default "" rest) "/agent/tools/list") as [He|_]; [intros [= <-]; by rw Hp He|].
  destruct (String.eqb_spec (default "" rest) "/agent/tools/call") as [He|_]; [intros [= <-]; by rw Hp He|].
  intros [= <-]. destruct (trim_start_split (default "" rest)) as (k & Hk & Hs).
  exists k. split; [by rw Hp {1}Hk|]. intros ->. destruct Hrest as [->|Hrest]; [done|].
  simpl in Hk. by rw -Hk Hrest in Hs.
Qed.

Section admitted.
Context {PathAndQuery : Type} (pq_from_str : string → option PathAndQuery) (pq_path : PathAndQuery → string).

(** The method of an endpoint, or the preflight's. *)
Definition documented_method (api : UnifiedApiKind) (m : string) : bool :=
  String.eqb m "OPTIONS" || String.eqb m (match api with Models => "GET" | _ => "POST" end).

Definition is_media_api (api : UnifiedApiKind) : bool :=
  match api with AudioSpeech | AudioTranscriptions | ImageEdits => true | _ => false end.

Lemma documented_admitted api m : documented_method api m = true → method_admitted api m = true.
Proof. rw /documented_method /method_admitted. by destruct (String.eqb m "OPTIONS"), api. Qed.

Lemma admitted_documented api m :
  is_media_api api = false → method_admitted api m = true → documented_method api m = true.
Proof. rw /documented_method /method_admitted. by destruct (String.eqb m "OPTIONS"), api. Qed.

(** [PathAndQuery::path] of a text without a fragment: what precedes the
    question mark, or a slash. *)
Definition path_law : Prop :=
  ∀ s pq, count_byte "#" s = 0%nat → pq_from_str s = Some pq →
    pq_path pq = let p := fst (split_query s) in if is_empty p then "/" else p.

Lemma split_query_with_query p q : count_byte "?" p = 0%nat → split_query (with_query p q) = (p, q).
Proof.
  intros Hp. rw /split_query. destruct q as [q|]; cbn [with_query].
  - by rw (proj2 (split_once_Some "?" (p ++ "?" ++ q) p q)).
  - by rw (proj2 (split_once_None "?" p)).
Qed.

(** What an [http::Uri] guarantees of its parts: the path ends at the first
    question mark, and there is no fragment. *)
Definition uri_parts (req : HttpRequest) : Prop :=
  count_byte "?" (uri_path req) = 0%nat ∧ count_byte "#" (uri_path req) = 0%nat
  ∧ count_byte "#" (default "" (uri_query req)) = 0%nat.

Lemma with_query_no_fragment p q :
  count_byte "#" p = 0%nat → count_byte "#" (default "" q) = 0%nat → count_byte "#" (with_query p q) = 0%nat.
Proof. destruct q as [q|]; cbn [with_query default]; [|done]. intros Hp Hq. rw !count_byte_app Hp. exact Hq. Qed.

(** C18 (functional). The requests that reach authentication as inference
    requests have as path one of the ten endpoints below [/v1] (any number of
    slashes between) and a target the [http] crate accepts; all those with the
    endpoint's method, GET for the list of models, POST for the others, or
    OPTIONS, are admitted; and for the seven endpoints other than the three
    media ones no other method is.  A query changes nothing.  (The media
    endpoints are missing from the check of methods, see
    [media_method_not_checked].) *)
Theorem admitted_routes_exact req :
  path_law → uri_parts req →
  ((∃ ext, admit_route pq_from_str pq_path req = Ok ext ∧ request_kind ext = UnifiedApi) →
   ∃ api n, uri_path req = "/v1" ++ slashes (S n) ++ api_name api
     ∧ (is_media_api api = false → documented_method api (method req) = true)
     ∧ is_Some (pq_from_str (with_query (api_name api) (uri_query req))))
  ∧ ((∃ api n, uri_path req = "/v1" ++ slashes (S n) ++ api_name api
        ∧ documented_method api (method req) = true
        ∧ is_Some (pq_from_str (with_query (api_name api) (uri_query req)))) →
     ∃ ext, admit_route pq_from_str pq_path req = Ok ext ∧ request_kind ext = UnifiedApi).
Proof.
  intros Hlaw (Hq & Hf & Hfq). rw /admit_route /router_details_call /extract_path_and_query. split.
  - intros (ext & H & Hkind). destruct (parse_route (uri_path req)) as [r|] eqn:E; [|done].
    apply (parse_route_inv _ _ Hq) in E. cbn [result_bind] in H.
    destruct r as [| |p|]; try (injection H as <-; done).
    change (match uri_query req with Some q => p ++ "?" ++ q | None => p end)
      with (with_query p (uri_query req)) in H.
    destruct (pq_from_str (with_query p (uri_query req))) as [pq|] eqn:Epq; [|done].
    cbn [ok_or result_bind precheck route_type path_and_query] in H.
    destruct E as (k & Hp & Hk).
    assert (Hp0 : count_byte "?" p = 0%nat). { rw Hp !count_byte_app in Hq. lia. }
    assert (Hp1 : count_byte "#" p = 0%nat). { rw Hp !count_byte_app in Hf. lia. }
    rw (Hlaw _ _ (with_query_no_fragment _ _ Hp1 Hfq) Epq) split_query_with_query // in H. cbn [fst] in H.
    destruct (is_empty p) eqn:Ee; [done|].
    destruct (unified_api_try_from p) as [api|] eqn:Eapi; [|done]. cbn [ok_or result_bind] in H.
    apply unified_api_try_from_spec in Eapi as ->.
    destruct (check_method (method req) (api_name api)) as [[]|] eqn:Em; [|done].
    apply check_method_api in Em. destruct k as [|k]; [by rw Hk in Ee|]. exists api, k. rw Epq.
    split_and!; [done| |done]. intros Hm. by apply admitted_documented.
  - intros (api & n & Hp & Hm%documented_admitted & pq & Epq). rw Hp parse_route_unified. cbn [result_bind].
    change (match uri_query req with Some q => api_name api ++ "?" ++ q | None => api_name api end)
      with (with_query (api_name api) (uri_query req)).
    rw Epq. cbn [ok_or result_bind precheck route_type path_and_query].
    assert (Hn : count_byte "#" (api_name api) = 0%nat) by by destruct api.
    rw (Hlaw _ _ (with_query_no_fragment _ _ Hn Hfq) Epq) split_query_with_query; [|by destruct api]. cbn [fst].
    replace (is_empty (api_name api)) with false by (by destruct api).
    rw (proj2 (unified_api_try_from_spec _ _) eq_refl). cbn [ok_or result_bind].
    rw (proj2 (check_method_api _ _) Hm). eauto.
Qed.
End admitted.

Definition sample_pq_path (s : string) : string :=
  let p := fst (split_query s) in if is_empty p then "/" else p.

Lemma admitted_routes_exact_witness :
  ∃ ext, admit_route Some sample_pq_path (mkRequest "POST" "/v1//chat/completions" (Some "a=1")) = Ok ext
       ∧ request_kind ext = UnifiedApi.
Proof.
  apply (admitted_routes_exact Some sample_pq_path (mkRequest "POST" "/v1//chat/completions" (Some "a=1"))).
  - intros s pq _ [= <-]. reflexivity.
  - repeat split; reflexivity.
  - exists ChatCompletions, 1%nat. split; [reflexivity|]. split; [reflexivity|]. eexists. reflexivity.
Defined.

(** The speech endpoint expects a POST, but any method passes the check. *)
Lemma media_method_not_checked : check_method "DELETE" "audio/speech" = Ok tt.
Proof. reflexivity. Qed.

(** ** Who may serve *)

Lemma target_provider_allowed {Date} (parse_from_str : string → string → option Date) year compat fb model l p :
  resolve_unified_target_provider parse_from_str year compat fb model (Some l) = Ok p → l ≠ [] → p ∈ l.
Proof.
  destruct l as [|a [|b l]]; cbn; [done|intros [= <-] _; set_solver|].
  destruct (if compat then _ else _) as [r|]; cbn; [|done]. case_bool_decide; [|done]. by intros [= <-].
Qed.

Lemma plan_Ok {Profile} (readers : BodyReaders (Profile := Profile)) tl path body auth vk explicit prof d :
  plan readers tl path body auth vk explicit prof = Ok d →
  routing_model_for_path readers path body prof = Ok (selected_model d, out_body d)
  ∧ check_model_access tl vk (selected_model d) = Ok tt
  ∧ (auth ≫= master_key_allowed_providers) = Some [selected_provider d].
Proof.
  rw /plan. destruct (routing_model_for_path readers path body prof) as [[m b]|] eqn:Er; [|done]. cbn [result_bind].
  destruct (check_model_access tl vk m) as [[]|] eqn:Ea; [|done]. cbn [map_err result_bind].
  rw /resolve_provider_from_master_key. destruct auth as [auth|]; [|done]. cbn.
  destruct (master_key_allowed_providers auth) as [[|q []]|] eqn:Eq; try done. by intros [= <-].
Qed.

(** ** One version segment *)

Lemma version_segment_no_byte c w :
  segment_is_v_digit_version w = true → Ascii.eqb c "v" = false → Ascii.eqb c "V" = false →
  is_ascii_digit c = false → count_byte c w = 0%nat.
Proof.
  destruct w as [|d [|e w]]; [done|done|]. cbn [segment_is_v_digit_version]. intros [Hd Hw]%andb_true_iff Hv HV Hc.
  assert (Hall : ∀ s, str_all is_ascii_digit s = true → count_byte c s = 0%nat).
  { induction s as [|x s IH]; [done|]. cbn [str_all count_byte]. intros [Hx Hs]%andb_true_iff.
    destruct (Ascii.eqb_spec c x) as [->|]; [congruence|]. by rw IH. }
  cbn [count_byte]. fold (count_byte c (String e w)).
  change ((if Ascii.eqb c e then 1 else 0) + count_byte c w)%nat with (count_byte c (String e w)).
  rw Hall //. apply orb_true_iff in Hd as [Hd|Hd]; apply Ascii.eqb_eq in Hd as ->; by rw ?Hv ?HV.
Qed.

Lemma strip_version_prefix k w rest :
  segment_is_v_digit_version w = true → rest ≠ "" →
  strip_leading_numeric_v_revision_prefix (slashes k ++ w ++ "/" ++ rest) = Some rest.
Proof.
  intros Hw Hr. rw /strip_leading_numeric_v_revision_prefix trim_start_slashes.
  - rw (proj2 (split_once_Some "/" (w ++ "/" ++ rest) w rest)).
    + destruct rest; [done|]. cbn [is_empty]. by rw Hw.
    + split; [done|]. by apply version_segment_no_byte.
  - destruct w as [|d [|e w]]; [done|done|]. cbn in Hw. apply andb_true_iff in Hw as [Hd _].
    apply orb_true_iff in Hd as [Hd|Hd]; by apply Ascii.eqb_eq in Hd as ->.
Qed.

Definition is_plain_byte (c : ascii) : bool :=
  is_ascii_alphanumeric c || Ascii.eqb c "-" || Ascii.eqb c "_" || Ascii.eqb c "/".
Definition plain_path (s : string) : bool :=
  negb (is_empty s) && negb (starts_with "/" s) && str_all is_plain_byte s.

(** What the resolver relies on of the [url] crate: the path that was set is
    the one read back, and joining a relative reference to an address whose
    path ends in a slash appends it. *)
Class UrlLaws {Url : Type} (url_path : Url → string) (set_path : string → Url → Url)
    (join : Url → string → option Url) : Prop := {
  set_path_slash : ∀ u, starts_with "/" (url_path u) = true →
    url_path (set_path (url_path u ++ "/") u) = url_path u ++ "/";
  join_relative : ∀ u u' r q, starts_with "/" (url_path u) = true → ends_with "/" (url_path u) = true →
    plain_path r = true → join u (with_query r q) = Some u' → url_path u' = url_path u ++ r
}.

Lemma plain_no_query s : str_all is_plain_byte s = true → count_byte "?" s = 0%nat.
Proof.
  induction s as [|c s IH]; [done|]. cbn [str_all count_byte]. intros [Hc Hs]%andb_true_iff.
  destruct (Ascii.eqb_spec "?" c) as [<-|]; [done|]. by rw IH.
Qed.

Lemma ends_with_app_slash s : ends_with "/" (s ++ "/") = true.
Proof.
  rw /ends_with. destruct (strip_suffix "/" (s ++ "/")) eqn:E; [done|].
  by rw (proj2 (strip_suffix_Some "/" (s ++ "/") s)) in E.
Qed.

Section urls.
Context {Url : Type} (url_path : Url → string) (set_path : string → Url → Url)
        (join : Url → string → option Url) `{!UrlLaws url_path set_path join}.

Lemma adjust_query_kept base k w rest q :
  base_path_ends_with_v_version_segment url_path base = true → segment_is_v_digit_version w = true →
  rest ≠ "" → count_byte "?" rest = 0%nat →
  adjust_upstream_path_for_versioned_base url_path base (with_query (slashes k ++ w ++ "/" ++ rest) q)
  = with_query rest q.
Proof.
  intros Hb Hw Hr Hq. rw /adjust_upstream_path_for_versioned_base Hb. cbn [negb].
  rw split_query_with_query; [by rw strip_version_prefix|].
  rw !count_byte_app count_slashes Hq (version_segment_no_byte "?" w) //.
Qed.

(** The version in a path is not repeated: for a base
    address that ends in a version such as [v1], a request path with a version
    of its own in front is joined to the same address as the path without it,
    query included; and the address that results has the base's path, one
    slash, and that path. *)
Theorem version_prefix_collapses base k w rest q :
  base_path_ends_with_v_version_segment url_path base = true → starts_with "/" (url_path base) = true →
  segment_is_v_digit_version w = true → plain_path rest = true →
  strip_leading_numeric_v_revision_prefix rest = None →
  let joined := join_provider_upstream_url url_path set_path join base in
  joined (with_query (slashes k ++ w ++ "/" ++ rest) q) = joined (with_query rest q)
  ∧ ∀ u, joined (with_query rest q) = Some u →
      url_path u = (if ends_with "/" (url_path base) then url_path base else url_path base ++ "/") ++ rest.
Proof.
  intros Hb Habs Hw Hplain Hnone joined. apply andb_true_iff in Hplain as Hp. destruct Hp as [Hp Hall].
  apply andb_true_iff in Hp as [Hne _]. apply plain_no_query in Hall as Hq.
  assert (Hr : rest ≠ "") by (by intros ->).
  assert (Hadj : adjust_upstream_path_for_versioned_base url_path base (with_query rest q) = with_query rest q).
  { rw /adjust_upstream_path_for_versioned_base Hb. cbn [negb]. by rw split_query_with_query // Hnone. }
  rw /joined /join_provider_upstream_url adjust_query_kept // Hadj Hb. split; [done|].
  intros u Hu. destruct (ends_with "/" (url_path base)) eqn:E; cbn [negb andb] in Hu.
  - by apply (join_relative _ _ _ _ Habs E Hplain) in Hu.
  - apply join_relative in Hu; [by rw set_path_slash in Hu| | |done]; rw set_path_slash //.
    + apply starts_with_spec in Habs as [r ->]. apply starts_with_spec. exists (r ++ "/"). by rw str_app_assoc.
    + apply ends_with_app_slash.
Qed.
End urls.

(** An address as the part before its path, and its path. *)
Definition sample_join (u : string * string) (r : string) : option (string * string) :=
  let p := fst (split_query r) in
  if starts_with "/" p then Some (u.1, p)
  else match rsplit_once "/" u.2 with Some (dir, _) => Some (u.1, dir ++ "/" ++ p) | None => None end.

Lemma rsplit_once_last c a : rsplit_once c (a ++ String c "") = Some (a, "").
Proof. induction a as [|d a IH]; simpl; [by rw Ascii.eqb_refl|]. by rw IH. Qed.

#[global] Instance sample_url_laws : UrlLaws snd (λ p (u : string * string), (u.1, p)) sample_join.
Proof.
  split; [done|]. intros u u' r q _ He Hp. rw /sample_join.
  apply andb_true_iff in Hp as [Hp Hall]. apply andb_true_iff in Hp as [_ Hs].
  rw split_query_with_query; [|by apply plain_no_query]. cbn [fst]. apply negb_true_iff in Hs. rw Hs.
  rw /ends_with in He. destruct (strip_suffix "/" u.2) as [d|] eqn:E; [|done].
  apply strip_suffix_Some in E. rw E rsplit_once_last. intros [= <-]. cbn [snd]. by rw str_app_assoc.
Qed.

Lemma version_prefix_collapses_witness :
  join_provider_upstream_url snd (λ p u, (u.1, p)) sample_join ("https://api", "/compat/v1")
    "/v2/chat/completions?a=1" = Some ("https://api", "/compat/v1/chat/completions").
Proof.
  assert (E : join_provider_upstream_url snd (λ p u, (u.1, p)) sample_join ("https://api", "/compat/v1")
    "chat/completions?a=1" = Some ("https://api", "/compat/v1/chat/completions")) by reflexivity.
  rewrite <- E. apply (proj1 (version_prefix_collapses snd (λ p u, (u.1, p)) sample_join
    ("https://api", "/compat/v1") 1 "v2" "chat/completions" (Some "a=1")
    eq_refl eq_refl eq_refl eq_refl eq_refl)).
Defined.

(** ** When the China endpoint is used *)

Section region.
Context {Url : Type} (url_path : Url → string) (set_path : string → Url → Url)
        (join : Url → string → option Url) (url_parse : string → option Url).

Abbreviation resolve := (resolve url_path set_path join url_parse).
Abbreviation join_url := (join_provider_upstream_url url_path set_path join).

(** A key's own address and the router's are never left for another one. *)
Lemma resolve_retry_url ctx up st p pq allow e :
  resolve ctx up st p pq allow = Ok e → is_Some (cn_retry_url e) →
  (source e = LearnedCn ∨ source e = GlobalProviderBaseUrl)
  ∧ ∃ cfg cn, providers_config ctx !! p = Some cfg ∧ cn_base_url cfg = Some cn ∧ join_url cn pq = cn_retry_url e.
Proof.
  rw /Routing.resolve /joined. destruct (resolve_master_key_target_url _ _ _ _ _ _) as [[u|]|]; cbn [result_bind];
    [by intros [= <-] []| |done].
  destruct (router_providers ctx ≫= _) as [rb|].
  { destruct (join_url rb pq); cbn [ok_or result_bind]; [by intros [= <-] []|done]. }
  destruct (providers_config ctx !! p) as [cfg|]; [|done]. cbn [ok_or result_bind].
  destruct (cn_base_url cfg) as [cn|] eqn:Ecn; cbn [result_bind].
  - destruct (join_url cn pq) as [u|] eqn:Ej; [|done]. cbn [ok_or result_bind]. intros H Hs.
    assert (Hsrc : (source e = LearnedCn ∨ source e = GlobalProviderBaseUrl) ∧ cn_retry_url e = Some u).
    { destruct (match auth_context ctx ≫= master_key_id with Some _ => _ | None => _ end) as [[]|];
        [injection H as <-; auto|]. destruct (join_url (base_url cfg) pq); [|done].
      injection H as <-. auto. }
    destruct Hsrc as [Hsrc ->]. naive_solver.
  - intros H Hs. destruct (match auth_context ctx ≫= master_key_id with Some _ => _ | None => _ end) as [[]|];
      destruct (join_url (base_url cfg) pq); cbn [ok_or result_bind] in H; try done; injection H as <-; by destruct Hs.
Qed.

Lemma resolve_learned ctx up st p pq allow e :
  resolve ctx up st p pq allow = Ok e → source e = LearnedCn →
  allow = true ∧ cn_retry_url e = Some (url e)
  ∧ ∃ id, auth_context ctx ≫= master_key_id = Some id ∧ get_learned_region up (Some id) st = Some Cn.
Proof.
  rw /Routing.resolve /joined. destruct (resolve_master_key_target_url _ _ _ _ _ _) as [[u|]|]; cbn [result_bind];
    [by intros [= <-]| |done].
  destruct (router_providers ctx ≫= _) as [rb|].
  { destruct (join_url rb pq); cbn [ok_or result_bind]; [by intros [= <-]|done]. }
  destruct (providers_config ctx !! p) as [cfg|]; [|done]. cbn [ok_or result_bind].
  destruct (match cn_base_url cfg with Some _ => _ | None => _ end) as [cn|]; [|done]. cbn [result_bind].
  destruct (auth_context ctx ≫= master_key_id) as [id|].
  2: { destruct (join_url (base_url cfg) pq); cbn; [by intros [= <-]|done]. }
  destruct allow; cbn [andb].
  2: { destruct (join_url (base_url cfg) pq); cbn; [by intros [= <-]|done]. }
  destruct cn as [cn|].
  - cbn [bool_decide is_Some]. rw bool_decide_true; [|eauto].
    destruct (get_learned_region up (Some id) st) as [[]|] eqn:E; [intros [= <-] _; eauto|].
    destruct (join_url (base_url cfg) pq); cbn; [by intros [= <-]|done].
  - rw bool_decide_false; [|by intros []].
    destruct (join_url (base_url cfg) pq); cbn; [by intros [= <-]|done].
Qed.
End region.

(** *** The store of learned regions *)

(** Calls of the dispatcher, with whether Redis answers, and expiry. *)
Inductive region_op :=
| Remember (id : string) (redis_up : bool)
| Forget (id : string) (redis_up : bool)
| ExpireRedis (id : string)
| ExpireCache (id : string).

Definition region_step (st : Regional) (op : region_op) : Regional :=
  match op with
  | Remember id up => remember_region up (Some id) Cn st
  | Forget id up => forget_region up (Some id) st
  | ExpireRedis id => expire_redis id st
  | ExpireCache id => expire_cache id st
  end.

Definition region_run (ops : list region_op) (st : Regional) : Regional := fold_left region_step ops st.

Definition touches (id : string) (op : region_op) : bool :=
  match op with
  | Remember id' _ | Forget id' _ | ExpireRedis id' | ExpireCache id' => String.eqb id id'
  end.

(** A key's region in the store: the two places where it can be. *)
Definition in_redis (id : string) (st : Regional) : Prop :=
  ∃ redis, region_redis st = Some redis ∧ redis !! redis_key id ≫= region_parse = Some Cn.
Definition in_cache (id : string) (st : Regional) : Prop := region_cache st !! id = Some Cn.

Lemma get_learned_region_spec up id st :
  get_learned_region up (Some id) st = Some Cn ↔ (up = true ∧ in_redis id st) ∨ in_cache id st.
Proof.
  rw /get_learned_region /in_redis /in_cache. destruct (region_redis st) as [redis|].
  - destruct up.
    + destruct (redis !! redis_key id ≫= region_parse) as [[]|] eqn:E; naive_solver.
    + naive_solver.
  - naive_solver.
Qed.

Lemma redis_key_inj a b : redis_key a = redis_key b → a = b.
Proof. apply str_app_inj_l. Qed.

(** How one call changes the two places. *)
Lemma in_cache_step id st op :
  in_cache id (region_step st op) ↔
  match op with
  | Remember i _ => i = id ∨ in_cache id st
  | Forget i _ | ExpireCache i => i ≠ id ∧ in_cache id st
  | ExpireRedis _ => in_cache id st
  end.
Proof.
  rw /in_cache. destruct op as [i up|i up|i|i]; cbn [region_step remember_region forget_region expire_redis expire_cache region_cache];
    try (destruct (decide (i = id)) as [->|]; [rw ?lookup_insert_eq ?lookup_delete_eq|rw ?lookup_insert_ne ?lookup_delete_ne //]; naive_solver).
Qed.

Definition says_cn (id : string) (redis : gmap string string) : Prop :=
  redis !! redis_key id ≫= region_parse = Some Cn.

Lemma says_cn_insert i id redis : says_cn id (<[redis_key i := region_as_str Cn]> redis) ↔ i = id ∨ says_cn id redis.
Proof.
  rw /says_cn. destruct (decide (i = id)) as [->|Hi]; [rw lookup_insert_eq; naive_solver|].
  rw lookup_insert_ne; [naive_solver|]. by intros ?%redis_key_inj.
Qed.

Lemma says_cn_delete i id redis : says_cn id (delete (redis_key i) redis) ↔ i ≠ id ∧ says_cn id redis.
Proof.
  rw /says_cn. destruct (decide (i = id)) as [->|Hi]; [rw lookup_delete_eq; naive_solver|].
  rw lookup_delete_ne; [naive_solver|]. by intros ?%redis_key_inj.
Qed.

Lemma in_redis_Some id redis cache : in_redis id (mkRegional (Some redis) cache) ↔ says_cn id redis.
Proof. rw /in_redis /says_cn. naive_solver. Qed.

Lemma in_redis_step id st op :
  in_redis id (region_step st op) ↔
  match op with
  | Remember i up => (i = id ∧ up = true ∧ is_Some (region_redis st)) ∨ in_redis id st
  | Forget i up => (up = true → i ≠ id) ∧ in_redis id st
  | ExpireRedis i => i ≠ id ∧ in_redis id st
  | ExpireCache _ => in_redis id st
  end.
Proof.
  destruct st as [[redis|] cache]; destruct op as [i up|i up|i|i]; cbn [region_step remember_region forget_region
    expire_redis expire_cache region_redis region_cache fmap option_fmap option_map];
    rw ?in_redis_Some ?says_cn_delete; try (destruct up; rw ?says_cn_insert ?says_cn_delete);
    rw /in_redis /is_Some /=; naive_solver.
Qed.

(** Remembered, and not removed from both places since. *)
Definition last_learned (id : string) (ops : list region_op) : Prop :=
  ∃ before up after, ops = (before ++ Remember id up :: after)%list ∧ Forget id true ∉ after.

Lemma last_learned_snoc id ops op :
  last_learned id ops → op ≠ Forget id true → last_learned id (ops ++ [op])%list.
Proof.
  intros (b & up & a & -> & Hf) Hop. exists b, up, (a ++ [op])%list. rw -app_assoc. set_solver.
Qed.

Lemma learned_run_sound id ops redis :
  default ∅ redis = ∅ →
  let st := region_run ops (mkRegional redis ∅) in in_redis id st ∨ in_cache id st → last_learned id ops.
Proof.
  intros H0. induction ops as [|op ops IH] using rev_ind; cbn zeta.
  - intros [(r & Er & Hr)|Hc]; [|done]. cbn in Er. subst redis. cbn in H0. subst r. by rw lookup_empty in Hr.
  - rw /region_run fold_left_app /=. fold (region_run ops (mkRegional redis ∅)).
    rw in_redis_step in_cache_step. cbn zeta in IH. intros H.
    assert (Hc : (∃ up, op = Remember id up) ∨ (last_learned id ops ∧ op ≠ Forget id true)).
    { destruct op as [i up|i up|i|i]; naive_solver. }
    destruct Hc as [[up ->]|[Hl Hop]]; [|by apply last_learned_snoc].
    exists ops, up, []. set_solver.
Qed.

Lemma in_cache_run id ops st :
  Forall (λ op, touches id op = false) ops → in_cache id st → in_cache id (region_run ops st).
Proof.
  intros Hall. revert st. induction Hall as [|op ops Hop _ IH]; intros st Hc; [done|]. apply IH, in_cache_step.
  destruct op as [i up|i up|i|i]; simpl in Hop; apply String.eqb_neq in Hop; naive_solver.
Qed.

(** Whatever the sequence of calls, expiries and Redis
    failures, from an empty store: a key has a learned region only if the
    dispatcher learned it and no forgetting that reached Redis followed; and
    once learned it is found, with or without Redis, until a call or an expiry
    concerns that key. *)
Theorem learned_region_exact id ops redis up :
  default ∅ redis = ∅ →
  let st := region_run ops (mkRegional redis ∅) in
  (get_learned_region up (Some id) st = Some Cn → last_learned id ops)
  ∧ ∀ up' later, Forall (λ op, touches id op = false) later →
      get_learned_region up (Some id) (region_run (Remember id up' :: later) st) = Some Cn.
Proof.
  intros H0 st. split.
  - intros H%get_learned_region_spec. apply (learned_run_sound id ops redis H0). fold st. naive_solver.
  - intros up' later Hl. apply get_learned_region_spec. right. apply (in_cache_run id later _ Hl), in_cache_step. auto.
Qed.

Lemma learned_region_exact_witness :
  last_learned "k" [Remember "k" true; Forget "k" false]
  ∧ get_learned_region false (Some "k") (region_run [Remember "k" true; Forget "j" true] (mkRegional (Some ∅) ∅)) = Some Cn.
Proof.
  split.
  - apply (learned_region_exact "k" [Remember "k" true; Forget "k" false] (Some ∅) true eq_refl). reflexivity.
  - apply (proj2 (learned_region_exact "k" [] (Some ∅) false eq_refl) true [Forget "j" true]).
    repeat constructor.
Defined.
