(* ===== verification/SyncDispatch.v ===== *)
(** * Dispatching one request

    Models the non-streaming path of the dispatcher: one upstream exchange with
    its probe for business failures ([dispatcher/sync_dispatch.rs]), the retry
    loop ([utils/retry.rs]), the retry against a provider's China endpoint
    ([dispatcher/regional_retry_executor.rs]), the fallback to another
    provider's default model ([dispatcher/fallback_executor.rs]) and the
    composition of these in [dispatcher/service.rs], with the model policy of
    direct requests.

    The HTTP client answers through [send], numbered by the requests sent so
    far; the authentication of a request, the client's construction and the
    delays of the back-off crate are parameters.  The tap that copies a body to
    the log and to the cache is not modelled. *)

From S2P Require Import Prelude RustStr Float64 Json Provider Fallback UpstreamOutcome Headers.
From S2P Require Import ModelId ModelSupport DefaultModel Routing.
From Stdlib Require Import Ascii.
Local Open Scope string_scope.

(** ** Settings *)

(* src: ai-gateway/src/config/dispatcher.rs:6-11 BusinessErrorCheck *)
Record BusinessErrorCheck := mkCheck { check_provider : InferenceProvider; check_path : string }.

Definition before_query (s : string) : string := fst (split_query s).

(* src: ai-gateway/src/config/dispatcher.rs:62-71 checks_business_errors *)
Definition checks_business_errors (checks : list BusinessErrorCheck) (provider : InferenceProvider) (path : string)
  : bool :=
  let path := trim_start_matches "/" (before_query path) in
  existsb (λ check, bool_decide (check_provider check = provider)
                    && String.eqb (trim_start_matches "/" (check_path check)) path) checks.

(* src: ai-gateway/src/config/dispatcher.rs:48-61 protects_payload_logs *)
Definition protects_payload_logs (rules : list (string * option Value * option Value)) (path : string) : bool :=
  let normalize s := trim_start_matches "v1/" (trim_start_matches "/" (before_query s)) in
  existsb (λ '(rule_path, validation, request_contract),
             (bool_decide (is_Some validation) || bool_decide (is_Some request_contract))
             && String.eqb (normalize rule_path) (normalize path)) rules.

(** ** One exchange *)

(** [reqwest::Error]: whether it is a connection error, and its status. *)
Record SendError := mkSendError { is_connect : bool; error_status : option Z }.

Record Upstream := mkUpstream {
  up_status : Z;
  up_headers : HeaderMap;
  up_chunks : list (result string SendError)
}.

Record Response := mkResponse {
  resp_status : Z;
  resp_headers : HeaderMap;
  resp_body : list (result string SendError);
  original_status : Z
}.

Inductive DispatchError :=
| ReqwestError (e : SendError)
| RoutingFailed (e : RoutingError)
| DefaultModelFailed (e : DefaultModel.ApiError)
| DispatchInternal
| DispatchInvalidBody
| DispatchPanicked.

Definition is_success (status : Z) : bool := (200 <=? status)%Z && (status <? 300)%Z.
Definition is_server_error (status : Z) : bool := (500 <=? status)%Z && (status <? 600)%Z.

(* src: ai-gateway/src/dispatcher/sync_dispatch.rs:56-68 dispatch_sync_with_limits *)
Definition json_response (h : HeaderMap) : bool :=
  match header_str "content-type" h with
  | None => false
  | Some v =>
      let mime := to_ascii_lowercase (trim (default "" (head (split ";" v)))) in
      String.eqb mime "application/json"
      || (starts_with "application/" mime && ends_with "+json" mime)
  end.

(** The loop that collects the body: whether it is complete, the chunks read
    and the ones left. *)
(* src: ai-gateway/src/dispatcher/sync_dispatch.rs:70-85 dispatch_sync_with_limits *)
Fixpoint probe (length : Z) (prefix : list string) (chunks : list (result string SendError))
  : result (bool * list string * list (result string SendError)) SendError :=
  match chunks with
  | [] => Ok (true, prefix, [])
  | Err e :: _ => Err e
  | Ok chunk :: rest =>
      let length := u64_saturating_add length (Z.of_nat (len chunk)) in
      let prefix := (prefix ++ [chunk])%list in
      if (MAX_PROBE_BYTES <? length)%Z then Ok (false, prefix, rest) else probe length prefix rest
  end.

Section exchange.
Context (from_slice : string → option Value) (to_vec : Value → string) (nonzero : string → bool).

Abbreviation classify := (classify_business_failure from_slice nonzero).

(** [sent]: what the client answered; [None] when the request could not be
    cloned. *)
(* src: ai-gateway/src/dispatcher/sync_dispatch.rs:17-140 dispatch_sync_with_limits *)
Definition dispatch_sync (check_business_errors : bool) (sent : option (result Upstream SendError))
  : result Response DispatchError :=
  let? response := ok_or sent DispatchInternal in
  let? response := map_err ReqwestError response in
  let original_status := up_status response in
  let headers := up_headers response in
  if check_business_errors && is_success original_status && json_response headers then
    let? probed := map_err ReqwestError (probe 0 [] (up_chunks response)) in
    let '(complete, prefix, rest) := probed in
    match if complete : bool then classify (str_join "" prefix) else None with
    | Some failure =>
        let headers := hinsert "x-alephant-upstream-status" (pretty (Z.to_N original_status)) headers in
        let headers := hremove_all ["transfer-encoding"; "content-encoding"; "last-modified"; "etag";
                                    "content-length"] headers in
        let headers := hinsert "content-type" "application/json" headers in
        Ok (mkResponse (status failure) headers
              (([Ok (to_vec (public_body failure))] ++ rest)%list) original_status)
    | None => Ok (mkResponse original_status headers ((map Ok prefix ++ rest)%list) original_status)
    end
  else Ok (mkResponse original_status headers (up_chunks response) original_status).
End exchange.

(** ** Retrying *)

Section retry.
Context {T F : Type} (attempt : nat → result T F) (retryable : result T F → bool).

(** [Polling]: the future created last has not answered. *)
(* src: ai-gateway/src/utils/retry.rs:112-118 State *)
Inductive RetryState := Idle | Polling | Sleeping (d : Duration).

(** [created]: the futures created so far. *)
(* src: ai-gateway/src/utils/retry.rs:15-34 RetryWithResult *)
Record Retry := mkRetry { backoff : list Duration; state : RetryState; created : nat }.

Inductive Iteration := Continue (r : Retry) | Pending | Ready (x : result T F) (created : nat).

(** One turn of the loop in [poll]; [ready]: whether the future or the timer
    polled in this turn answers. *)
(* src: ai-gateway/src/utils/retry.rs:132-183 RetryWithResult::poll *)
Definition iterate (ready : bool) (r : Retry) : Iteration :=
  match state r with
  | Idle => Continue (mkRetry (backoff r) Polling (S (created r)))
  | Polling =>
      if negb ready then Pending
      else
        let x := attempt (pred (created r)) in
        if negb (retryable x) then Ready x (created r)
        else match backoff r with
             | [] => Ready x (created r)
             | dur :: rest => Continue (mkRetry rest (Sleeping dur) (created r))
             end
  | Sleeping _ => if negb ready then Pending else Continue (mkRetry (backoff r) Idle (created r))
  end.

(** The task is polled again after each [Pending], with any answers. *)
Fixpoint run (readiness : list bool) (r : Retry) : option (result T F * nat) :=
  match readiness with
  | [] => None
  | b :: rest =>
      match iterate b r with
      | Continue r' => run rest r'
      | Pending => run rest r
      | Ready x n => Some (x, n)
      end
  end.

(** The reference: attempts in order, one more for each delay. *)
Fixpoint attempts (delays : list Duration) (n : nat) : result T F * nat :=
  let x := attempt n in
  if negb (retryable x) then (x, S n)
  else match delays with
       | [] => (x, S n)
       | _ :: rest => attempts rest (S n)
       end.

(** What a state will come to. *)
Definition outcome_of (r : Retry) : result T F * nat :=
  match state r with
  | Idle | Sleeping _ => attempts (backoff r) (created r)
  | Polling => attempts (backoff r) (pred (created r))
  end.

Definition started (r : Retry) : Prop := state r = Polling → created r ≠ 0%nat.

Lemma iterate_outcome b r :
  started r →
  match iterate b r with
  | Continue r' => outcome_of r' = outcome_of r ∧ started r'
  | Pending => True
  | Ready x n => outcome_of r = (x, n)
  end.
Proof.
  intros Hs. rw /iterate /outcome_of /started. destruct (state r) as [| |d] eqn:E.
  - done.
  - destruct b; [|done]. cbn [negb]. specialize (Hs E). destruct (created r) as [|n]; [done|]. cbn [pred].
    destruct (backoff r) as [|dur rest]; cbn [attempts];
      by destruct (negb (retryable (attempt n))) eqn:Er.
  - by destruct b.
Qed.

Lemma run_outcome readiness r x : started r → run readiness r = Some x → outcome_of r = x.
Proof.
  revert r. induction readiness as [|b rest IH]; intros r Hs; [done|]. cbn [run].
  pose proof (iterate_outcome b r Hs) as H. destruct (iterate b r) as [r'| |y n]; [|by apply IH|].
  - destruct H as [<- Hs']. by apply IH.
  - rw H. by intros [= <-].
Qed.

(** The turns of the loop that remain. *)
Definition turns (r : Retry) : nat :=
  (3 * length (backoff r) + match state r with Idle => 2 | Polling => 1 | Sleeping _ => 3 end)%nat.

Lemma run_finishes r readiness :
  (turns r ≤ length (filter (λ b, b = true) readiness))%nat → is_Some (run readiness r).
Proof.
  revert r. induction readiness as [|b rest IH]; intros r Hr.
  { rw /turns /= in Hr. destruct (state r); lia. }
  cbn [run]. destruct (iterate b r) as [r'| |] eqn:E; [| |by eexists].
  - apply IH. assert (Ht : (turns r' < turns r)%nat).
    { rw /iterate /turns in E |- *. destruct (state r) as [| |d] eqn:Es.
      - injection E as <-. cbn [backoff state]. lia.
      - destruct b; [|done]. cbn [negb] in E. destruct (negb _); [done|].
        destruct (backoff r); [done|]. injection E as <-. cbn [backoff state length]. lia.
      - destruct b; [|done]. injection E as <-. cbn [backoff state]. lia. }
    destruct b; [rw filter_cons_True // in Hr; simpl in Hr; lia|]. rw filter_cons_False // in Hr. lia.
  - destruct b; [|apply IH; by rw filter_cons_False in Hr].
    rw /iterate in E. destruct (state r); try done. cbn [negb] in E. repeat case_match; done.
Qed.

Lemma attempts_spec delays n :
  let '(x, m) := attempts delays n in
  (n < m ≤ n + S (length delays))%nat ∧ x = attempt (pred m)
  ∧ (∀ i, (n ≤ i < pred m)%nat → retryable (attempt i) = true)
  ∧ (retryable x = true → m = (n + S (length delays))%nat).
Proof.
  revert n. induction delays as [|d rest IH]; intros n; cbn [attempts length].
  - destruct (retryable (attempt n)) eqn:E; cbn [negb]; (split_and!; [lia..|done|intros i Hi; lia|]);
      [intros; lia|by rw E].
  - destruct (retryable (attempt n)) eqn:E; cbn [negb].
    + specialize (IH (S n)). destruct (attempts rest (S n)) as [x m]. destruct IH as (H1 & H2 & H3 & H4).
      split_and!; [lia..|done| |intros Hx; specialize (H4 Hx); lia].
      intros i Hi. destruct (decide (i = n)) as [->|]; [done|]. apply H3. lia.
    + split_and!; [lia..|done|intros i Hi; lia|by rw E].
Qed.

(** C4 (refinement). The hand-written future is the plain loop: whatever the
    readiness of futures and timers, an answer of the task is the answer of
    trying in order with one more attempt per delay, and three ready answers
    per attempt are enough for it.  At most one attempt more than delays is
    made, the last one answers, every earlier one failed in a retryable way,
    and a retryable answer means that the delays are used up. *)
Theorem retry_future_refines_loop delays readiness :
  let r := mkRetry delays Idle 0 in
  (∀ x m, run readiness r = Some (x, m) →
     attempts delays 0 = (x, m) ∧ (1 ≤ m ≤ S (length delays))%nat ∧ x = attempt (pred m)
     ∧ (∀ i, (i < pred m)%nat → retryable (attempt i) = true)
     ∧ (retryable x = true → m = S (length delays)))
  ∧ ((3 * length delays + 2 ≤ length (filter (λ b, b = true) readiness))%nat → is_Some (run readiness r)).
Proof.
  intros r. split.
  - intros x m H. apply run_outcome in H; [|done]. change (attempts delays 0 = (x, m)) in H. split; [done|].
    pose proof (attempts_spec delays 0) as Hs. rw H in Hs. destruct Hs as (H1 & H2 & H3 & H4).
    split_and!; [lia..|done|intros i Hi; apply H3; lia|done].
  - intros H. by apply run_finishes.
Qed.
End retry.

(** ** The decisions between the attempts *)

(* src: ai-gateway/src/dispatcher/service.rs:1544-1555 sync_dispatch_result_is_retryable *)
Definition sync_dispatch_result_is_retryable (x : result Response DispatchError) : bool :=
  match x with
  | Ok response => is_server_error (resp_status response)
  | Err (ReqwestError e) =>
      is_connect e || match error_status e with Some s => is_server_error s | None => false end
  | Err _ => false
  end.

Section decisions.
Context {Url : Type}.

(* src: ai-gateway/src/dispatcher/service.rs:1557-1564 should_attempt_regional_endpoint_retry *)
Definition should_attempt_regional_endpoint_retry (endpoint : TargetEndpoint (Url := Url)) (status : Z) : bool :=
  bool_decide (source endpoint = GlobalProviderBaseUrl) && bool_decide (is_Some (cn_retry_url endpoint))
  && regional_retry_eligible_status status.

(* src: ai-gateway/src/dispatcher/service.rs:1570-1575 target_endpoint_response_is_final *)
Definition target_endpoint_response_is_final (endpoint : TargetEndpoint (Url := Url))
    (x : result Response DispatchError) : bool :=
  bool_decide (source endpoint = LearnedCn) && is_ok x.

(** The result, the effective address and whether the retry answered. *)
(* src: ai-gateway/src/dispatcher/service.rs:1577-1607 apply_regional_retry_result *)
Definition apply_regional_retry_result (x : result Response DispatchError) (effective_target_url : Url)
    (cn_retry_url : option Url) (regional_retry_result : result (option Response) DispatchError)
  : result Response DispatchError * Url * bool :=
  match regional_retry_result with
  | Ok (Some regional_response) =>
      (Ok regional_response, default effective_target_url cn_retry_url, true)
  | Ok None | Err _ => (x, effective_target_url, false)
  end.
End decisions.

(* src: ai-gateway/src/dispatcher/service.rs:1632-1637 unified_chat_completions_path *)
Definition unified_chat_completions_path (extracted_path_and_query : string) : bool :=
  ends_with "chat/completions" (before_query extracted_path_and_query).

(* src: ai-gateway/src/dispatcher/service.rs:1609-1623 should_attempt_cross_provider_default_model_fallback *)
Definition should_attempt_cross_provider_default_model_fallback (retry_exhausted_before_fallback
    regional_retry_produced_response : bool) (request_kind : RequestKind) (extracted_path_and_query : string)
    (implicit_model_fallback_ctx : option string) (x : result Response DispatchError) : bool :=
  retry_exhausted_before_fallback && negb regional_retry_produced_response
  && bool_decide (request_kind = UnifiedApi)
  && unified_chat_completions_path extracted_path_and_query
  && bool_decide (is_Some implicit_model_fallback_ctx)
  && sync_dispatch_result_is_retryable x.

(* src: ai-gateway/src/dispatcher/service.rs:1625-1630 retry_config_allows_retry_attempts *)
Definition retry_config_allows_retry_attempts {Decimal} (c : RetryConfig (Decimal := Decimal)) : bool :=
  match c with Exponential _ _ max_retries _ | Constant _ max_retries => (0 <? max_retries)%Z end.

(* src: ai-gateway/src/dispatcher/service.rs:1881-1893 get_retry_config *)
Definition get_retry_config {Decimal} (config : Config (Decimal := Decimal)) (request_kind : RequestKind)
  : option (RetryConfig (Decimal := Decimal)) :=
  match request_kind with
  | DirectProxy | CustomProvider => None
  | _ => resolved_global_retry config
  end.

(** [value["model"] = ..] creates an object from null and panics on the other
    values. *)
(* src: ai-gateway/src/dispatcher/fallback_executor.rs:178-185 rewrite_chat_completion_model *)
Definition rewrite_chat_completion_model (from_slice : string → option Value) (to_vec : Value → string)
    (body new_model : string) : result string DispatchError :=
  let? value := ok_or (from_slice body) DispatchInvalidBody in
  match value with
  | Object _ => Ok (to_vec (set_field "model" (Str new_model) value))
  | Null => Ok (to_vec (Object [("model", Str new_model)]))
  | _ => Err DispatchPanicked
  end.

Definition is_panic (e : DispatchError) : bool :=
  match e with
  | DispatchPanicked | RoutingFailed JoinPanicked | DefaultModelFailed Panic => true
  | _ => false
  end.

(** ** The composition *)

(* src: ai-gateway/src/dispatcher/fallback_executor.rs:43-50 CrossProviderFallbackOutcome *)
Record Outcome {Url : Type} := mkOutcome {
  response : Response;
  effective_provider : InferenceProvider;
  effective_target_url : Url;
  effective_request_body : string
}.
Arguments Outcome : clear implicits.
Arguments mkOutcome {Url} _ _ _ _.

(** The requests sent so far and the learned regions. *)
Record DState := mkDState { sent : nat; regional : Regional }.

Section dispatch.
Context {Url Date Decimal : Type}.
Context (url_path : Url → string) (set_path : string → Url → Url)
        (join : Url → string → option Url) (url_parse : string → option Url).
Context (from_slice : string → option Value) (to_vec : Value → string) (nonzero : string → bool).
Context (parse_from_str : string → string → option Date) (year : string).
Context (to_lowercase : string → string) (as_f64 : string → f64)
        (model_list_doc : Value → option (option (list string))) (index : BareModelExpandIndex)
        (store : option RouterStore).
(** The HTTP client's answer to the [n]-th request, the outcome of
    [Client::authenticate], whether a client for a provider can be built, and
    the delays of a retry configuration. *)
Context (send : nat → InferenceProvider → Url → string → option (result Upstream SendError)).
Context (authenticate : InferenceProvider → Url → string → result unit DispatchError).
Context (client_ok : InferenceProvider → bool) (delays : RetryConfig (Decimal := Decimal) → list Duration).
(** The gateway's settings, the request's context, its provider and policy; the
    model chosen for a request that named none. *)
Context (config : Config (Decimal := Decimal)) (checks : list BusinessErrorCheck)
        (allowlist : gmap string (gset InferenceProvider)) (ctx : EndpointContext (Url := Url)).
Context (provider : InferenceProvider) (vk_policy : option VkPolicy) (implicit_ctx : option string).

Abbreviation resolve := (resolve url_path set_path join url_parse).

Definition exchange (check : bool) (p : InferenceProvider) (u : Url) (body : string) (st : DState)
  : result Response DispatchError * DState :=
  (dispatch_sync from_slice to_vec nonzero check (send (sent st) p u body), mkDState (S (sent st)) (regional st)).

(** [redis_up] here and below: whether Redis answers. *)
(* src: ai-gateway/src/dispatcher/regional_retry_executor.rs:49-115 RegionalRetryExecutor::retry_once *)
Definition retry_once (redis_up : bool) (endpoint : TargetEndpoint (Url := Url)) (body : string) (st : DState)
  : result (option Response) DispatchError * DState :=
  match cn_retry_url endpoint with
  | None => (Ok None, st)
  | Some u =>
      match authenticate provider u body with
      | Err e => (Err e, st)
      | Ok _ =>
          let '(r, st) := exchange (checks_business_errors checks provider (url_path u)) provider u body st in
          match r with
          | Err e => (Err e, st)
          | Ok resp =>
              let st := if is_success (resp_status resp)
                        then mkDState (sent st)
                               (remember_region redis_up (auth_context ctx ≫= master_key_id) Cn (regional st))
                        else st in
              (Ok (Some resp), st)
          end
      end
  end.

(* src: ai-gateway/src/dispatcher/fallback_executor.rs:156-175 cross_provider_fallback_request_details *)
Definition cross_provider_fallback_request_details (redis_up : bool) (path body fallback_model : string) (st : DState)
  : result (InferenceProvider * Url * string) DispatchError :=
  let? fallback_provider :=
    map_err RoutingFailed (inference_provider_from_gateway_model parse_from_str year fallback_model) in
  let? endpoint :=
    map_err RoutingFailed (resolve ctx redis_up (regional st) fallback_provider path true) in
  let? fallback_body := rewrite_chat_completion_model from_slice to_vec body fallback_model in
  Ok (fallback_provider, url endpoint, fallback_body).

(** What precedes the fallback's own request; [Ok None]: there is nothing to
    fall back to. *)
(* src: ai-gateway/src/dispatcher/fallback_executor.rs:58-104 try_cross_provider_default_model_fallback *)
Definition fallback_request (redis_up : bool) (path body : string) (st : DState)
  : result (option (InferenceProvider * Url * string)) DispatchError :=
  match auth_context ctx, vk_policy, implicit_ctx with
  | Some auth, Some vk, Some selected_model =>
      match split_provider_model selected_model with
      | Err _ => Ok None
      | Ok parsed_current =>
          match choose_default_gateway_model_excluding_provider to_lowercase as_f64 model_list_doc index store
                  "chat/completions" (org_id auth) (department_id auth) vk (Some (provider_raw parsed_current)) with
          | Err NoModelAvailable => Ok None
          | Err e => Err (DefaultModelFailed e)
          | Ok fallback_model =>
              if eq_ignore_ascii_case fallback_model selected_model then Ok None
              else
                let? p := map_err RoutingFailed
                            (inference_provider_from_gateway_model parse_from_str year fallback_model) in
                let? _ := map_err RoutingFailed
                            (enforce_workspace_provider_allowlist allowlist (auth_context ctx) p) in
                let? details := cross_provider_fallback_request_details redis_up path body fallback_model st in
                Ok (Some details)
          end
      end
  | _, _, _ => Ok None
  end.

(* src: ai-gateway/src/dispatcher/fallback_executor.rs:58-154 try_cross_provider_default_model_fallback *)
Definition try_cross_provider_default_model_fallback (redis_up : bool) (path body : string) (st : DState)
  : result (option (Outcome Url)) DispatchError * DState :=
  match fallback_request redis_up path body st with
  | Err e => (Err e, st)
  | Ok None => (Ok None, st)
  | Ok (Some (p, u, fallback_body)) =>
      if negb (client_ok p) then (Err DispatchInternal, st)
      else match authenticate p u fallback_body with
           | Err e => (Err e, st)
           | Ok _ =>
               let '(r, st) := exchange (checks_business_errors checks p path) p u fallback_body st in
               match r with
               | Err e => (Err e, st)
               | Ok resp => (Ok (Some (mkOutcome resp p u fallback_body)), st)
               end
           end
  end.

(** The first request, with its retries. *)
(* src: ai-gateway/src/dispatcher/service.rs:1293-1458 Dispatcher::dispatch_sync_with_retry *)
Definition primary (request_kind : RequestKind) (check : bool) (u : Url) (body : string) (st : DState)
  : result Response DispatchError * DState :=
  match get_retry_config config request_kind with
  | None => exchange check provider u body st
  | Some retry_config =>
      let '(x, n) :=
        attempts (λ i, dispatch_sync from_slice to_vec nonzero check (send (sent st + i)%nat provider u body))
          sync_dispatch_result_is_retryable (delays retry_config) 0 in
      (x, mkDState (sent st + n) (regional st))
  end.

Definition retry_exhausted_before_fallback (request_kind : RequestKind) : bool :=
  match get_retry_config config request_kind with
  | Some c => retry_config_allows_retry_attempts c
  | None => false
  end.

(** The region retry between the first result and the fallback: the result, the
    address that answered, whether the answer is final, and the state. *)
(* src: ai-gateway/src/dispatcher/service.rs:1460-1487 Dispatcher::dispatch_sync_with_retry *)
Definition regional_retry (redis_up : bool) (endpoint : TargetEndpoint (Url := Url)) (body : string)
    (x : result Response DispatchError) (st : DState)
  : result Response DispatchError * Url * bool * DState :=
  let final := target_endpoint_response_is_final endpoint x in
  match x with
  | Ok resp =>
      if should_attempt_regional_endpoint_retry endpoint (resp_status resp) then
        let '(r, st) := retry_once redis_up endpoint body st in
        (apply_regional_retry_result x (url endpoint) (cn_retry_url endpoint) r, st)
      else (x, url endpoint, final, st)
  | Err _ => (x, url endpoint, final, st)
  end.

(** [redis1], [redis2]: whether Redis answers to the region retry and to the
    fallback's resolver. *)
(* src: ai-gateway/src/dispatcher/service.rs:1252-1542 Dispatcher::dispatch_sync_with_retry *)
Definition dispatch_sync_with_retry (redis1 redis2 : bool) (request_kind : RequestKind) (path body : string)
    (endpoint : TargetEndpoint (Url := Url)) (st : DState)
  : result (Outcome Url) DispatchError * DState :=
  let check := checks_business_errors checks provider path in
  let outcome u resp := mkOutcome resp provider u body in
  if is_media_path (before_query path) then
    let '(r, st) := exchange check provider (url endpoint) body st in
    (let? resp := r in Ok (outcome (url endpoint) resp), st)
  else
    let '(x, st) := primary request_kind check (url endpoint) body st in
    let '(x, effective_url, produced, st) := regional_retry redis1 endpoint body x st in
    let original := let? resp := x in Ok (outcome effective_url resp) in
    if should_attempt_cross_provider_default_model_fallback (retry_exhausted_before_fallback request_kind)
         produced request_kind path implicit_ctx x then
      let '(r, st) := try_cross_provider_default_model_fallback redis2 path body st in
      match r with
      | Ok (Some o) => (Ok o, st)
      | Ok None => (original, st)
      | Err e => (if is_panic e then Err e else original, st)
      end
    else (original, st).

(** *** Where an answer comes from *)

(** One of the requests sent between two states was answered with [o]. *)
Definition answered_between (st st' : DState) (o : Outcome Url) : Prop :=
  ∃ n check, (sent st ≤ n < sent st')%nat ∧
    dispatch_sync from_slice to_vec nonzero check
      (send n (effective_provider o) (effective_target_url o) (effective_request_body o)) = Ok (response o).

Definition retries (request_kind : RequestKind) : nat :=
  match get_retry_config config request_kind with Some c => length (delays c) | None => 0%nat end.

(** What request [n] comes to when it goes to the request's own provider. *)
Definition asked (check : bool) (u : Url) (body : string) (n : nat) : result Response DispatchError :=
  dispatch_sync from_slice to_vec nonzero check (send n provider u body).

(** Request [n] ends the first round, which starts in [st], with [x]: every
    request before it failed in a way that is retried, and [x] does too only
    when no retry is left. *)
Definition ends_first_round (kind : RequestKind) (check : bool) (u : Url) (body : string) (st : DState) (n : nat)
    (x : result Response DispatchError) : Prop :=
  (sent st ≤ n ≤ sent st + retries kind)%nat ∧ x = asked check u body n
  ∧ (∀ i, (sent st ≤ i < n)%nat → sync_dispatch_result_is_retryable (asked check u body i) = true)
  ∧ (sync_dispatch_result_is_retryable x = true → n = (sent st + retries kind)%nat).

Lemma primary_spec kind check u body st x st' :
  primary kind check u body st = (x, st') →
  regional st' = regional st ∧ ∃ n, sent st' = S n ∧ ends_first_round kind check u body st n x.
Proof.
  rw /primary /ends_first_round /retries /asked. destruct (get_retry_config config kind) as [c|].
  - pose proof (attempts_spec (λ i, dispatch_sync from_slice to_vec nonzero check (send (sent st + i)%nat provider u body))
      sync_dispatch_result_is_retryable (delays c) 0) as H.
    destruct (attempts _ _ _ _) as [y m]. destruct H as (H1 & H2 & H3 & H4). intros [= <- <-]. cbn [sent regional].
    split; [done|]. exists (sent st + pred m)%nat. split_and!; [lia..|done| |intros Hy%H4; lia].
    intros i Hi. rw -(H3 (i - sent st)%nat); [do 4 f_equal; lia|lia].
  - intros [= <- <-]. cbn [sent regional]. split; [done|]. exists (sent st). split_and!; [lia..|done|intros; lia|intros; lia].
Qed.

(** The provider refuses the request: 401 or 403. *)
Definition refused (x : result Response DispatchError) : Prop :=
  ∃ resp, x = Ok resp ∧ (resp_status resp = 401 ∨ resp_status resp = 403)%Z.

(** The region retry sends nothing, or one request after a refusal. *)
Lemma regional_retry_spec up ep body x st x' u produced st' :
  regional_retry up ep body x st = (x', u, produced, st') →
  (x' = x ∧ u = url ep ∧ sent st' = sent st ∧ regional st' = regional st)
  ∨ (sent st' = S (sent st) ∧ refused x
     ∧ (x' = x ∧ u = url ep ∧ regional st' = regional st
        ∨ ∃ resp, produced = true ∧ x' = Ok resp ∧ cn_retry_url ep = Some u
            ∧ source ep = GlobalProviderBaseUrl
            ∧ asked (checks_business_errors checks provider (url_path u)) u body (sent st) = Ok resp
            ∧ regional st' = if is_success (resp_status resp)
                             then remember_region up (auth_context ctx ≫= master_key_id) Cn (regional st)
                             else regional st)).
Proof.
  rw /regional_retry. destruct x as [resp|e]; [|by intros [= <- <- _ <-]; left].
  destruct (should_attempt_regional_endpoint_retry ep (resp_status resp)) eqn:Ea; [|by intros [= <- <- _ <-]; left].
  rw /should_attempt_regional_endpoint_retry /regional_retry_eligible_status in Ea.
  apply andb_true_iff in Ea as [[Hsrc%bool_decide_eq_true Hcn%bool_decide_eq_true]%andb_true_iff Hst].
  assert (Hnr : refused (Ok resp)).
  { exists resp. split; [done|]. apply orb_true_iff in Hst as [?%Z.eqb_eq|?%Z.eqb_eq]; auto. }
  rw /retry_once. destruct Hcn as [v Hv]. rw Hv.
  destruct (authenticate provider v body) as [|e]; [|cbn; intros [= <- <- _ <-]; by left].
  rw /exchange. destruct (dispatch_sync _ _ _ _ (send (sent st) provider v body)) as [r|e] eqn:Ed; cbn.
  - intros [= <- <- <- <-]. right. destruct (is_success (resp_status r)) eqn:Es; cbn [sent regional];
      (split_and!; [done|done|]; right; exists r; rw Es; split_and!; done).
  - intros [= <- <- _ <-]. right. split_and!; [done|done|]. by left.
Qed.

Lemma fallback_spec up path body st r st' :
  try_cross_provider_default_model_fallback up path body st = (r, st') →
  (sent st ≤ sent st' ≤ S (sent st))%nat ∧ regional st' = regional st
  ∧ ∀ o, r = Ok (Some o) → (sent st < sent st')%nat ∧
      dispatch_sync from_slice to_vec nonzero (checks_business_errors checks (effective_provider o) path)
        (send (sent st) (effective_provider o) (effective_target_url o) (effective_request_body o)) = Ok (response o) ∧
      fallback_request up path body st
      = Ok (Some (effective_provider o, effective_target_url o, effective_request_body o)).
Proof.
  rw /try_cross_provider_default_model_fallback.
  destruct (fallback_request up path body st) as [[[[p u] b]|]|e] eqn:Ef;
    [|intros [= <- <-]; split_and!; [lia..|done|done]|intros [= <- <-]; split_and!; [lia..|done|done]].
  destruct (client_ok p); cbn [negb]; [|intros [= <- <-]; split_and!; [lia..|done|done]].
  destruct (authenticate p u b) as [|e]; [|intros [= <- <-]; split_and!; [lia..|done|done]].
  rw /exchange. destruct (dispatch_sync _ _ _ _ (send (sent st) p u b)) as [resp|e] eqn:Ed; cbn;
    intros [= <- <-]; cbn [sent regional]; (split_and!; [lia..|done|]); [|done].
  intros o [= <-]. split_and!; [lia|done|done].
Qed.

Lemma answered_weaken st0 st1 st2 st3 o :
  (sent st0 ≤ sent st1)%nat → (sent st2 ≤ sent st3)%nat → answered_between st1 st2 o → answered_between st0 st3 o.
Proof. intros H1 H2 (n & check & Hn & Hd). exists n, check. split; [lia|done]. Qed.

Lemma refused_not_retried x : refused x → sync_dispatch_result_is_retryable x = false.
Proof. intros (resp & -> & Hs). cbn. rw /is_server_error. by destruct Hs as [->| ->]. Qed.

(** Where an answer comes from, for a dispatch that starts in [st]: the media
    request, which is sent once; the target, at the end of the first round; the
    China address, in the request that follows a first round that the target
    ended with a refusal, when nobody redirected the request; the fallback, in
    the request that follows a first round in which every attempt, the last
    included, failed in a way that is retried. *)
Inductive from (kind : RequestKind) (redis2 : bool) (path body : string) (ep : TargetEndpoint (Url := Url))
    (st : DState) : Outcome Url → Prop :=
| FromMedia resp :
    is_media_path (before_query path) = true →
    asked (checks_business_errors checks provider path) (url ep) body (sent st) = Ok resp →
    from kind redis2 path body ep st (mkOutcome resp provider (url ep) body)
| FromTarget n resp :
    ends_first_round kind (checks_business_errors checks provider path) (url ep) body st n (Ok resp) →
    from kind redis2 path body ep st (mkOutcome resp provider (url ep) body)
| FromCn n x resp u :
    ends_first_round kind (checks_business_errors checks provider path) (url ep) body st n x → refused x →
    source ep = GlobalProviderBaseUrl → cn_retry_url ep = Some u →
    asked (checks_business_errors checks provider (url_path u)) u body (S n) = Ok resp →
    from kind redis2 path body ep st (mkOutcome resp provider u body)
| FromFallback o :
    kind = UnifiedApi → unified_chat_completions_path path = true → retry_exhausted_before_fallback kind = true →
    (∀ i, (sent st ≤ i ≤ sent st + retries kind)%nat →
       sync_dispatch_result_is_retryable
         (asked (checks_business_errors checks provider path) (url ep) body i) = true) →
    fallback_request redis2 path body (mkDState (S (sent st + retries kind)) (regional st))
      = Ok (Some (effective_provider o, effective_target_url o, effective_request_body o)) →
    dispatch_sync from_slice to_vec nonzero (checks_business_errors checks (effective_provider o) path)
      (send (S (sent st + retries kind)) (effective_provider o) (effective_target_url o) (effective_request_body o))
      = Ok (response o) →
    from kind redis2 path body ep st o.

(** How the learned regions change: not, or by the China address's success
    after a refusal. *)
Definition region_change (redis1 : bool) (kind : RequestKind) (path body : string)
    (ep : TargetEndpoint (Url := Url)) (st st' : DState) : Prop :=
  regional st' = regional st
  ∨ ∃ n x u resp,
      ends_first_round kind (checks_business_errors checks provider path) (url ep) body st n x ∧ refused x
      ∧ source ep = GlobalProviderBaseUrl ∧ cn_retry_url ep = Some u
      ∧ asked (checks_business_errors checks provider (url_path u)) u body (S n) = Ok resp
      ∧ is_success (resp_status resp) = true
      ∧ regional st' = remember_region redis1 (auth_context ctx ≫= master_key_id) Cn (regional st).

(** After the first result: the region retry and the answer it stands for. *)
Lemma primary_regional_spec kind up path body ep st0 x0 st1 x u produced st :
  primary kind (checks_business_errors checks provider path) (url ep) body st0 = (x0, st1) →
  regional_retry up ep body x0 st1 = (x, u, produced, st) →
  (sent st0 < sent st ≤ sent st0 + retries kind + 2)%nat
  ∧ (produced = false → sync_dispatch_result_is_retryable x = true →
       st = mkDState (S (sent st0 + retries kind)) (regional st0)
       ∧ ∃ n, ends_first_round kind (checks_business_errors checks provider path) (url ep) body st0 n x)
  ∧ region_change up kind path body ep st0 st
  ∧ ∀ resp up2, x = Ok resp → answered_between st0 st (mkOutcome resp provider u body)
      ∧ from kind up2 path body ep st0 (mkOutcome resp provider u body).
Proof.
  intros (Hreg & n & Hn & Hround)%primary_spec Hr. apply regional_retry_spec in Hr.
  pose proof Hround as (Hle & Hx & _ & Hlast).
  assert (Hx0 : ∀ st2 resp up2, (sent st1 ≤ sent st2)%nat → x0 = Ok resp →
    answered_between st0 st2 (mkOutcome resp provider (url ep) body)
    ∧ from kind up2 path body ep st0 (mkOutcome resp provider (url ep) body)).
  { intros st2 resp up2 Hle2 ->. split; [|by apply (FromTarget _ _ _ _ _ _ n)].
    exists n, (checks_business_errors checks provider path). cbn. split; [lia|by rw Hx]. }
  destruct Hr as [(-> & -> & Hs & Hreg')|(Hs & Hnr & Hcase)].
  - split_and!; [lia..| | |].
    + intros _ Hx'. split; [|by exists n]. destruct st. cbn in Hs, Hreg' |- *. apply Hlast in Hx'. f_equal; [lia|congruence].
    + left. congruence.
    + intros resp up2 Hok. apply Hx0; [lia|done].
  - destruct Hcase as [(-> & -> & Hreg')|(resp & -> & -> & Hcn & Hsrc & Hd & Hreg')].
    + split_and!; [lia..| | |].
      * intros _ Hr. by rw (refused_not_retried _ Hnr) in Hr.
      * left. congruence.
      * intros resp up2 Hok. apply Hx0; [lia|done].
    + rw Hn in Hd. split_and!; [lia..|done| |].
      * rw Hreg in Hreg'. destruct (is_success (resp_status resp)) eqn:Es; [right|by left]. by exists n, x0, u, resp.
      * intros resp' up2 [= <-]. split; [|by eapply FromCn].
        exists (S n), (checks_business_errors checks provider (url_path u)). cbn. split; [lia|done].
Qed.

Lemma dispatch_spec redis1 redis2 kind path body ep st r st' :
  dispatch_sync_with_retry redis1 redis2 kind path body ep st = (r, st') →
  (sent st < sent st' ≤ sent st + retries kind + 2)%nat
  ∧ region_change redis1 kind path body ep st st'
  ∧ ∀ o, r = Ok o → answered_between st st' o ∧ from kind redis2 path body ep st o.
Proof.
  rw /dispatch_sync_with_retry. destruct (is_media_path (before_query path)) eqn:Hm.
  { rw /exchange. cbn. intros [= <- <-]. cbn [sent regional]. split_and!; [lia..|by left|].
    intros o. destruct (dispatch_sync _ _ _ _ _) as [resp|] eqn:Ed; cbn; [|done]. intros [= <-].
    split; [|by apply FromMedia]. exists (sent st). eexists. cbn. split; [lia|exact Ed]. }
  destruct (primary _ _ _ _ _) as [x0 st1] eqn:Hp. destruct (regional_retry _ _ _ _ _) as [[[x u] produced] st2] eqn:Hr.
  destruct (primary_regional_spec kind redis1 path body ep st _ _ _ _ _ _ Hp Hr) as (Hn & Hf & Hc & Ho).
  clear Hp Hr. cbn zeta.
  assert (Horig : ∀ o, result_bind x (λ resp, Ok (mkOutcome resp provider u body)) = (Ok o : result _ DispatchError) →
    answered_between st st2 o ∧ from kind redis2 path body ep st o).
  { intros o. destruct x as [resp|]; [|done]. cbn. intros [= <-]. by apply Ho. }
  destruct (should_attempt_cross_provider_default_model_fallback _ _ _ _ _ _) eqn:Ea;
    [|intros [= <- <-]; split_and!; [lia..|done|done]].
  rw /should_attempt_cross_provider_default_model_fallback in Ea.
  apply andb_true_iff in Ea as [Ea Hx]. do 3 (apply andb_true_iff in Ea as [Ea ?]).
  apply andb_true_iff in Ea as [Hex Hpr]. apply negb_true_iff in Hpr.
  destruct (Hf Hpr Hx) as (-> & n & Hle & Hxn & Hbefore & Hlast). specialize (Hlast Hx). subst n.
  destruct (try_cross_provider_default_model_fallback _ _ _ _) as [fr st3] eqn:Ef.
  apply fallback_spec in Ef as (Hn3 & Hreg3 & Hfo). cbn [sent regional] in Hn, Hn3, Hreg3.
  assert (Hc3 : region_change redis1 kind path body ep st st3) by by left.
  assert (Horig3 : ∀ o, result_bind x (λ resp, Ok (mkOutcome resp provider u body)) = (Ok o : result _ DispatchError) →
    answered_between st st3 o ∧ from kind redis2 path body ep st o).
  { intros o [Hab Hfr]%Horig. split; [|done]. by eapply (answered_weaken st st (mkDState (S (sent st + retries kind)) (regional st)) st3); [lia|cbn; lia|]. }
  destruct fr as [[o'|]|e]; [|intros [= <- <-]; split_and!; [lia..|done|done]|].
  - intros [= <- <-]. split_and!; [lia..|done|]. intros o [= <-]. destruct (Hfo o' eq_refl) as (Hlt & Hd & Hreq). cbn [sent] in Hlt, Hd.
    split; [exists (S (sent st + retries kind)); eexists; split; [lia|exact Hd]|].
    apply FromFallback; [by bool_to_prop|done|done| |done|done]. intros i Hi.
    destruct (decide (i = sent st + retries kind)%nat) as [->|]; [by rw -Hxn|apply Hbefore; lia].
  - intros [= <- <-]. split_and!; [lia..|done|]. destruct (is_panic e); [done|exact Horig3].
Qed.


Definition max_retries_of (c : RetryConfig (Decimal := Decimal)) : Z :=
  match c with Exponential _ _ max_retries _ | Constant _ max_retries => max_retries end.

(** One dispatch sends at least one request and at most two more
    than the configured number of retries (a [u8]), the region retry and the
    fallback excluding each other. *)
Theorem sync_requests_bounded redis1 redis2 kind path body ep st r st' :
  (∀ c, 0 ≤ max_retries_of c ≤ u8_max → Z.of_nat (length (delays c)) = max_retries_of c)%Z →
  (∀ c, get_retry_config config kind = Some c → 0 ≤ max_retries_of c ≤ u8_max)%Z →
  dispatch_sync_with_retry redis1 redis2 kind path body ep st = (r, st') →
  (Z.of_nat (sent st) < Z.of_nat (sent st')
   ≤ Z.of_nat (sent st) + match get_retry_config config kind with Some c => max_retries_of c | None => 0 end + 2)%Z.
Proof.
  intros Hd Hu8 (Hn & _)%dispatch_spec. rw /retries in Hn. destruct (get_retry_config config kind) as [c|]; [|lia].
  rw -(Hd c); [lia|by apply Hu8].
Qed.

(** C2 (safety). A fallback stays within what the key and the workspace
    permit: the chosen model is one of the models of the key's allow-list, when
    it has one, and else of the list that the database holds for its department
    or workspace, expanded with the catalog index; it is not blocked for the
    key; the database has a catalog row for it, among those it returns for the
    listed models, whose kind serves chat completions; its provider is not that of the
    model that failed, and is the one the request goes to, which the workspace
    allows; and the body sent is the request's with the model replaced. *)
Theorem fallback_permitted redis_up path body st p u b :
  fallback_request redis_up path body st = Ok (Some (p, u, b)) →
  ∃ auth vk selected m current raw rows db v,
    auth_context ctx = Some auth ∧ vk_policy = Some vk ∧ implicit_ctx = Some selected
    ∧ store = Some db ∧ split_provider_model selected = Ok current
    ∧ resolve_model_id_list model_list_doc db (org_id auth) (department_id auth) vk = Ok raw
    ∧ (∀ allowed, nonempty_allow_list (allowed_models vk) = Some allowed → raw = allowed)
    ∧ m ∈ expand_policy_model_list index raw
    ∧ selection_info_batch db
        (map (λ c, (candidate_provider c, candidate_model c))
           (omap (candidate_of to_lowercase (blocked_models vk)) (expand_policy_model_list index raw))) = Ok rows
    ∧ eligible to_lowercase "chat/completions" vk (Some (provider_raw current)) rows m
    ∧ inference_provider_from_gateway_model parse_from_str year m = Ok p
    ∧ is_provider_allowed_for_workspace allowlist (org_id auth) p = true
    ∧ from_slice body = Some v ∧ (as_object v ≠ None ∧ b = to_vec (set_field "model" (Str m) v)
                                  ∨ v = Null ∧ b = to_vec (Object [("model", Str m)])).
Proof.
  rw /fallback_request. destruct (auth_context ctx) as [auth|]; [|done]. destruct vk_policy as [vk|]; [|done].
  destruct implicit_ctx as [selected|]; [|done]. destruct (split_provider_model selected) as [current|] eqn:Ec; [|done].
  destruct store as [db|]; [|done].
  destruct (choose_default_gateway_model_excluding_provider _ _ _ _ _ _ _ _ _ _) as [m|[]] eqn:Em; try done.
  apply choose_default_model_inv in Em as (raw & rows & Hraw & Hin & Hrows & He).
  assert (Hown : ∀ allowed, nonempty_allow_list (allowed_models vk) = Some allowed → raw = allowed).
  { intros allowed Ha. rw /resolve_model_id_list Ha in Hraw. by injection Hraw. }
  destruct (eq_ignore_ascii_case m selected); [done|].
  destruct (inference_provider_from_gateway_model parse_from_str year m) as [q|] eqn:Eq; [|done]. cbn [map_err result_bind].
  rw /enforce_workspace_provider_allowlist /=.
  destruct (is_provider_allowed_for_workspace allowlist (org_id auth) q) eqn:Ea; [|done]. cbn [negb map_err result_bind].
  rw /cross_provider_fallback_request_details Eq. cbn [map_err result_bind].
  destruct (resolve ctx redis_up (regional st) q path true) as [ep|]; [|done]. cbn [map_err result_bind].
  rw /rewrite_chat_completion_model. destruct (from_slice body) as [v|]; [|done]. cbn [ok_or result_bind].
  intros H. exists auth, vk, selected, m, current, raw, rows, db, v. destruct v; try done; cbn [result_bind] in H;
    injection H as <- _ <-; do 13 (split; [done|]); first [by right|by left].
Qed.

(** A learned region is not given up by any dispatch, whatever the China
    address answers: nothing calls [forget_region]. *)
Lemma learned_region_kept redis1 redis2 kind path body ep st r st' id :
  in_cache id (regional st) → dispatch_sync_with_retry redis1 redis2 kind path body ep st = (r, st') →
  in_cache id (regional st').
Proof.
  intros Hc (_ & Hr & _)%dispatch_spec. destruct Hr as [->|(n & x & v & resp & _ & _ & _ & _ & _ & _ & ->)]; [done|].
  destruct (auth_context ctx ≫= master_key_id) as [i|]; [|done].
  apply (in_cache_step id (regional st) (Remember i redis1)). by right.
Qed.
End dispatch.

(** ** What the probe does to a response *)

Section transparency.
Context (from_slice : string → option Value) (to_vec : Value → string) (nonzero : string → bool).

Abbreviation dispatched := (dispatch_sync from_slice to_vec nonzero).
Abbreviation classify := (classify_business_failure from_slice nonzero).

Lemma str_join_snoc prefix chunk : str_join "" (prefix ++ [chunk])%list = str_join "" prefix ++ chunk.
Proof.
  induction prefix as [|a [|b prefix] IH]; [done|done|]. cbn [str_join app] in IH |- *. rw IH. by rw !str_app_assoc.
Qed.

(** Nothing of the body is lost, and a complete body is short enough to look
    at. *)
Lemma probe_Ok l prefix chunks c p rest :
  l = Z.of_nat (len (str_join "" prefix)) → (l ≤ MAX_PROBE_BYTES)%Z →
  probe l prefix chunks = Ok (c, p, rest) →
  (map Ok p ++ rest = map Ok prefix ++ chunks)%list
  ∧ (c = true → rest = [] ∧ (Z.of_nat (len (str_join "" p)) ≤ MAX_PROBE_BYTES)%Z).
Proof.
  revert l prefix. induction chunks as [|[chunk|e] chunks IH]; intros l prefix Hl Hm; cbn [probe]; [|..|done].
  - intros [= <- <- <-]. split; [done|]. intros _. split; [done|]. lia.
  - destruct (MAX_PROBE_BYTES <? _)%Z eqn:E.
    + intros [= <- <- <-]. split; [|done]. by rw map_app -app_assoc.
    + intros H. apply Z.ltb_ge in E. apply IH in H; [|rw str_join_snoc len_app; rw /u64_saturating_add; 
        rw /u64_saturating_add in E; unfold MAX_PROBE_BYTES, u64_max in *; lia|done].
      destruct H as [H1 H2]. split; [|done]. rw H1 map_app -app_assoc. done.
Qed.

Lemma probe_complete l prefix chunks :
  l = Z.of_nat (len (str_join "" prefix)) →
  (Z.of_nat (len (str_join "" (prefix ++ chunks)%list)) ≤ MAX_PROBE_BYTES)%Z →
  probe l prefix (map Ok chunks) = Ok (true, (prefix ++ chunks)%list, []).
Proof.
  revert l prefix. induction chunks as [|chunk chunks IH]; intros l prefix Hl Hm; cbn [probe map].
  - by rw app_nil_r.
  - assert (Hs : (prefix ++ chunk :: chunks = (prefix ++ [chunk]) ++ chunks)%list) by (by rw -app_assoc).
    rw Hs in Hm |- *.
    assert (Hle : ∀ a b, (len (str_join "" a) ≤ len (str_join "" (a ++ b)%list))%nat).
    { clear. intros a b. induction b as [|x b IHb] using rev_ind; [by rw app_nil_r|].
      rw app_assoc str_join_snoc len_app. lia. }
    pose proof (Hle (prefix ++ [chunk])%list chunks) as H1. rw {1}str_join_snoc len_app in H1.
    assert (Hsum : u64_saturating_add l (Z.of_nat (len chunk)) = Z.of_nat (len (str_join "" (prefix ++ [chunk])%list))).
    { rw str_join_snoc len_app /u64_saturating_add. unfold MAX_PROBE_BYTES, u64_max in *. lia. }
    rw Hsum. replace (MAX_PROBE_BYTES <? _)%Z with false; [by apply IH|].
    symmetry. apply Z.ltb_ge. rw str_join_snoc len_app. lia.
Qed.

Definition passed_on (up : Upstream) : Response :=
  mkResponse (up_status up) (up_headers up) (up_chunks up) (up_status up).

Definition failure_headers (up : Upstream) : HeaderMap :=
  hinsert "content-type" "application/json"
    (hremove_all ["transfer-encoding"; "content-encoding"; "last-modified"; "etag"; "content-length"]
       (hinsert "x-alephant-upstream-status" (pretty (Z.to_N (up_status up))) (up_headers up))).

(** A success whose complete JSON body, short enough to probe, announces a
    failure. *)
Definition hidden_failure (check : bool) (up : Upstream) (f : BusinessFailure) : Prop :=
  check = true ∧ is_success (up_status up) = true ∧ json_response (up_headers up) = true
  ∧ ∃ chunks, up_chunks up = map Ok chunks ∧ (Z.of_nat (len (str_join "" chunks)) ≤ MAX_PROBE_BYTES)%Z
      ∧ classify (str_join "" chunks) = Some f.

(** C3 (safety). The probe is transparent: a response reaches the client with
    the status, the headers and the chunks the provider sent, in order and
    complete, even when the probe gave up half way through a long body; except
    for a success that hides a business failure, and only for that, whose
    answer is the failure's status and public body in place of the provider's. *)
Theorem probe_transparent check up :
  (∀ f, hidden_failure check up f →
     dispatched check (Some (Ok up))
     = Ok (mkResponse (status f) (failure_headers up) [Ok (to_vec (public_body f))] (up_status up)))
  ∧ (∀ r, dispatched check (Some (Ok up)) = Ok r → (∀ f, ¬ hidden_failure check up f) → r = passed_on up).
Proof.
  split.
  - intros f (-> & Hs & Hj & chunks & Hc & Hlen & Hf). rw /dispatch_sync. cbn [ok_or map_err result_bind].
    rw Hs Hj Hc. cbn [andb]. rw (probe_complete 0 [] chunks) //. cbn [map_err result_bind app]. by rw Hf.
  - intros r H Hno. rw /dispatch_sync in H. cbn [ok_or map_err result_bind] in H.
    destruct (check && is_success (up_status up) && json_response (up_headers up)) eqn:Ec; [|by injection H as <-].
    destruct (probe 0 [] (up_chunks up)) as [[[c p] rest]|] eqn:Ep; [|done]. cbn [map_err result_bind] in H.
    apply probe_Ok in Ep as [Hp Hc]; [|done|by unfold MAX_PROBE_BYTES; lia]. cbn [map app] in Hp.
    destruct c; [|injection H as <-; by rw Hp].
    destruct (Hc eq_refl) as [-> Hlen]. rw app_nil_r in Hp.
    destruct (classify (str_join "" p)) as [f|] eqn:Ef; [|injection H as <-; by rw app_nil_r Hp].
    destruct (Hno f). do 2 (apply andb_true_iff in Ec as [Ec ?]). split_and!; [done..|]. by exists p.
Qed.
End transparency.

(** ** A dispatch, computed *)

Section demo.
(** OpenAI answers 500; Anthropic answers. *)
Definition demo_send (n : nat) (p : InferenceProvider) (u : string * string) (body : string)
  : option (result Upstream SendError) :=
  Some (Ok (mkUpstream (match p with OpenAI => 500%Z | _ => 200%Z end) ∅ [Ok body])).
Definition demo_reader (body : string) : option Value := Some (Object [("model", Str body)]).
Definition demo_writer (v : Value) : string :=
  match get "model" v with Some (Str m) => m | _ => "" end.
Definition demo_delays (c : RetryConfig (Decimal := Z)) : list Duration :=
  repeat 0%Z (Z.to_nat (match c with Exponential _ _ n _ | Constant _ n => n end)).
Definition demo_config : Config (Decimal := Z) :=
  mkConfig default_policy (mkMonitorConfig 1%Z 0%Z (Requests 1)) None None [].
Definition demo_auth : AuthContext := mkAuth "ws" (Some "key") None uuid_nil false None.
Definition demo_ctx : EndpointContext (Url := string * string) :=
  mkEndpointContext (Some demo_auth) None
    {[ OpenAI := mkProviderConfig ("https://openai", "/v1") (Some ("https://openai.cn", "/v1"));
       Anthropic := mkProviderConfig ("https://anthropic", "/") None ]}.
Definition demo_endpoint : TargetEndpoint (Url := string * string) :=
  mkEndpoint ("https://openai", "/v1/chat/completions") GlobalProviderBaseUrl
    (Some ("https://openai.cn", "/v1/chat/completions")).

Definition demo_set_path (p : string) (u : string * string) : string * string := (u.1, p).

Definition demo_dispatch : DState → result (Outcome (string * string)) DispatchError * DState :=
  dispatch_sync_with_retry snd demo_set_path sample_join (λ _, None) demo_reader demo_writer (λ _, true)
    (λ _ _, None : option string) "2026" to_ascii_lowercase demo_price (λ _, None) demo_catalog (Some demo_db)
    demo_send (λ _ _ _, Ok tt) (λ _, true) demo_delays demo_config [] ∅ demo_ctx OpenAI (Some demo_vk)
    (Some "openai/gpt-4o") true true UnifiedApi "chat/completions" "gpt-4o" demo_endpoint.

Definition demo_start : DState := mkDState 0 (mkRegional None ∅).

Definition demo_outcome : Outcome (string * string) :=
  mkOutcome (mkResponse 200 ∅ [Ok "anthropic/claude-sonnet-4"] 200) Anthropic
    ("https://anthropic", "/chat/completions") "anthropic/claude-sonnet-4".
Definition demo_end : DState := mkDState 4 (mkRegional None ∅).

(** Three attempts at OpenAI, then one at Anthropic. *)
Example demo_dispatch_falls_back : demo_dispatch demo_start = (Ok demo_outcome, demo_end).
Proof. reflexivity. Qed.


Lemma sync_requests_bounded_witness : (0 < 4 ≤ 0 + 2 + 2)%Z.
Proof.
  apply (sync_requests_bounded snd demo_set_path sample_join (λ _, None) demo_reader demo_writer
    (λ _, true) (λ _ _, None : option string) "2026" to_ascii_lowercase demo_price (λ _, None) demo_catalog
    (Some demo_db) demo_send (λ _ _ _, Ok tt) (λ _, true) demo_delays demo_config [] ∅ demo_ctx OpenAI
    (Some demo_vk) (Some "openai/gpt-4o") true true UnifiedApi "chat/completions" "gpt-4o" demo_endpoint
    demo_start (Ok demo_outcome) demo_end).
  - intros c Hc. unfold demo_delays. rw repeat_length. destruct c; apply Z2Nat.id, Hc.
  - intros c [= <-]. cbv. split; discriminate.
  - reflexivity.
Defined.

Lemma fallback_permitted_witness :
  ∃ m, inference_provider_from_gateway_model (λ _ _, None : option string) "2026" m = Ok Anthropic.
Proof.
  destruct (fallback_permitted snd demo_set_path sample_join (λ _, None) demo_reader demo_writer
    (λ _ _, None : option string) "2026" to_ascii_lowercase demo_price (λ _, None) demo_catalog
    (Some demo_db) ∅ demo_ctx (Some demo_vk) (Some "openai/gpt-4o") true "chat/completions" "gpt-4o"
    demo_start Anthropic ("https://anthropic", "/chat/completions") "anthropic/claude-sonnet-4")
    as (auth & vk & selected & m & current & raw & rows & db & v & _ & _ & _ & _ & _ & _ & _ & _ & _ & _ & Hm & _); [reflexivity|].
  exists m. exact Hm.
Defined.
End demo.

(** ** The model policy of direct requests *)

Section direct.
Context (to_lowercase : string → string).
(** The [model] of an [async_openai] chat request. *)
Context (chat_model : string → option string).

(* src: ai-gateway/src/dispatcher/service.rs:1639-1695 enforce_direct_proxy_vk_model_policy *)
Definition enforce_direct_proxy_vk_model_policy (vk_policy : option VkPolicy) (request_kind : RequestKind)
    (provider : InferenceProvider) (path_and_query body : string) (policy_model_override : bool)
    (auth_ctx : option AuthContext) : result unit DispatchError :=
  if policy_model_override then Ok tt
  else if match auth_ctx with
          | Some a => is_custom_provider a && bool_decide (is_Some (master_key_base_url a))
          | None => false
          end then Ok tt
  else if negb (bool_decide (request_kind = DirectProxy) || bool_decide (request_kind = CustomProvider)) then Ok tt
  else if negb (bool_decide (provider = OpenAI)) then Ok tt
  else if negb (ends_with "chat/completions" path_and_query) then Ok tt
  else
    let? model := ok_or (chat_model body) DispatchInvalidBody in
    map_err DefaultModelFailed (check_model_access to_lowercase vk_policy model).

(** A direct chat request without a query is checked. *)
Lemma direct_policy_checked vk path body model :
  ends_with "chat/completions" path = true → chat_model body = Some model →
  enforce_direct_proxy_vk_model_policy vk DirectProxy OpenAI path body false None
  = map_err DefaultModelFailed (check_model_access to_lowercase vk model).
Proof. intros Hp Hm. rw /enforce_direct_proxy_vk_model_policy Hp Hm. done. Qed.
End direct.

(** With a query in the target the comparison of the path fails and a blocked
    model passes, although the same path without the query is refused. *)
Lemma direct_policy_skipped_by_query :
  let vk := Some (mkPolicy "vk" None (Some ["gpt-4"])) in
  let check path := enforce_direct_proxy_vk_model_policy to_ascii_lowercase (λ _, Some "gpt-4") vk DirectProxy
                      OpenAI path "{}" false None in
  check "/v1/chat/completions" = Err (DefaultModelFailed (ModelAccessDenied "gpt-4"))
  ∧ check "/v1/chat/completions?a=1" = Ok tt.
Proof. split; reflexivity. Qed.
