(* ===== verification/ToolCatalog.v ===== *)
(** * The catalog of agent tools

    Models the pure parts of [ai-gateway/src/agent/tools]: the catalog with its
    allow-lists and the names it gives to frameworks ([catalog.rs]), the check
    of arguments ([schema_validator.rs]) and the outcome of an OpenAPI call
    ([openapi/outcome.rs]).

    SHA-256 and the JSON writer are parameters. *)

From S2P Require Import Prelude RustStr Json StepState AgentContext AgentPolicy.
From Stdlib Require Import Ascii.
Local Open Scope string_scope.

(** ** Targets *)

(* src: ai-gateway/src/config/agent.rs:225-236 AgentToolTargetKind *)
Inductive AgentToolTargetKind := Mock | Http | McpHttp | McpStreamableHttp | McpSse | OpenApi.

#[global] Instance AgentToolTargetKind_eq_dec : EqDecision AgentToolTargetKind.
Proof. solve_decision. Defined.

(* src: ai-gateway/src/config/agent.rs:238-243 AgentToolRateCardConfig *)
Record RateCard := mkRateCard { rate_currency : string; fixed_micros : Z }.

(* src: ai-gateway/src/config/agent.rs:254-260 AgentToolAllowlistConfig *)
Record Allowlist := mkAllowlist {
  workspace_ids : list string;
  virtual_key_ids : list string;
  agent_ids : list string
}.

(* src: ai-gateway/src/config/agent.rs:176-199 AgentToolTargetConfig *)
Record ToolTarget := mkTarget {
  tool_id : string;
  tool_name : string;
  description : string;
  kind : AgentToolTargetKind;
  tool_url : option string;
  tool_method : string;
  service_slug : option string;
  operation_id : option string;
  operation_slug : option string;
  risk_level : string;
  tool_timeout_ms : option Z;
  input_schema : Value;
  detect_business_errors : bool;
  target_validation : option Value;
  request_contract : option Value;
  rate_card : RateCard;
  allowlist : Allowlist
}.

(* src: ai-gateway/src/agent/tools/catalog.rs:291-300 target_kind_name *)
Definition target_kind_name (k : AgentToolTargetKind) : string :=
  match k with
  | Mock => "mock" | Http => "http" | McpHttp => "mcp-http"
  | McpStreamableHttp => "mcp-streamable-http" | McpSse => "mcp-sse" | OpenApi => "openapi"
  end.

(** ** Who sees a tool *)

(* src: ai-gateway/src/agent/tools/catalog.rs:67-70 trusted_agent_id_from_auth *)
Definition trusted_agent_id_from_auth (auth : AuthContext) : option string :=
  if eq_ignore_ascii_case (entity_type auth) "agent" then entity_id auth else None.

Definition listed_or_all (l : list string) (x : option string) : bool :=
  match l with
  | [] => true
  | _ => match x with Some x => bool_decide (x ∈ l) | None => false end
  end.

(* src: ai-gateway/src/agent/tools/catalog.rs:44-65 target_visible *)
Definition target_visible (auth : AuthContext) (target : ToolTarget) (requested_agent_id : option string) : bool :=
  let allow := allowlist target in
  listed_or_all (workspace_ids allow) (Some (org_id auth))
  && listed_or_all (virtual_key_ids allow) (virtual_key_id auth)
  && listed_or_all (agent_ids allow) requested_agent_id.

(** The agent id a request reports is not looked at. *)
(* src: ai-gateway/src/agent/tools/catalog.rs:31-42 find_callable_tool *)
Definition find_callable_tool (auth : AuthContext) (targets : list ToolTarget) (reported_agent_id : option string)
    (id : string) : option ToolTarget :=
  let trusted := trusted_agent_id_from_auth auth in
  match List.find (λ t, String.eqb (tool_id t) id) targets with
  | Some t => if target_visible auth t trusted then Some t else None
  | None => None
  end.

(** ** Names for frameworks *)

Definition is_name_byte (c : ascii) : bool :=
  is_ascii_lowercase c || is_ascii_digit c || Ascii.eqb c "_".

Definition name_byte (c : ascii) : ascii :=
  if is_ascii_alphanumeric c then ascii_to_lower c else "_"%char.

(** One underscore for each character that is not alphanumeric ASCII: the
    continuation bytes of a character add nothing. *)
Fixpoint name_chars (s : string) : string :=
  match s with
  | EmptyString => ""
  | String c s' => if is_continuation c then name_chars s' else String (name_byte c) (name_chars s')
  end.

(* src: ai-gateway/src/agent/tools/catalog.rs:264-282 framework_tool_name_base *)
Definition framework_tool_name_base (id : string) : string :=
  let base := name_chars id in
  let base := if is_empty base then "tool" else base in
  str_take 64 base.

Section names.
(** The hexadecimal SHA-256 digest of a text. *)
Context (sha256_hex : string → string).

(* src: ai-gateway/src/agent/tools/catalog.rs:284-289 stable_hash_suffix *)
Definition stable_hash_suffix (value : string) : string := str_take 8 (sha256_hex value).

Definition with_suffix (base suffix : string) (keep : nat) : string := str_take keep base ++ "_" ++ suffix.

(** The loop over salts, from [salt]; the fuel bounds its turns. *)
(* src: ai-gateway/src/agent/tools/catalog.rs:251-259 framework_tool_name *)
Fixpoint salted_name (fuel : nat) (id base : string) (keep : nat) (salt : N) (seen : gset string)
  : option (string * gset string) :=
  match fuel with
  | O => None
  | S fuel =>
      let candidate := with_suffix base (stable_hash_suffix (id ++ ":" ++ pretty salt)) keep in
      if bool_decide (candidate ∈ seen) then salted_name fuel id base keep (salt + 1) seen
      else Some (candidate, {[candidate]} ∪ seen)
  end.

(** One more turn than there are names taken. *)
(* src: ai-gateway/src/agent/tools/catalog.rs:236-262 framework_tool_name *)
Definition framework_tool_name (id : string) (seen : gset string) : option (string * gset string) :=
  let base := framework_tool_name_base id in
  if bool_decide (base ∉ seen) then Some (base, {[base]} ∪ seen)
  else
    let suffix := stable_hash_suffix id in
    let keep := (64 - (1 + len suffix))%nat in
    let candidate := with_suffix base suffix keep in
    if bool_decide (candidate ∉ seen) then Some (candidate, {[candidate]} ∪ seen)
    else salted_name (S (size seen)) id base keep 1 seen.

(** The names of a listing, in order. *)
Fixpoint framework_names (ids : list string) (seen : gset string) : option (list string) :=
  match ids with
  | [] => Some []
  | id :: ids =>
      match framework_tool_name id seen with
      | None => None
      | Some (n, seen) => (n ::.) <$> framework_names ids seen
      end
  end.
End names.

(** ** Descriptors *)

(* src: ai-gateway/src/agent/tools/types.rs:74-95 ToolDescriptorMetadata *)
Record ToolDescriptorMetadata := mkDescriptorMetadata {
  dm_target_kind : string;
  dm_target_id : string;
  dm_service_slug : option string;
  dm_operation_id : option string;
  dm_operation_slug : option string;
  dm_target_hash : option string;
  dm_target_revision : option Z;
  dm_schema_hash : option string;
  dm_auth_revision : option Z;
  dm_rate_card_revision : option Z
}.

(* src: ai-gateway/src/agent/tools/types.rs:97-109 ToolAvailability *)
Record ToolAvailability := mkAvailability {
  catalog_status : string;
  policy_preview : string;
  runtime_status : string;
  visibility : string;
  availability_source : string;
  reason_code : string;
  availability_reason : string;
  may_become_available : bool;
  remediation : string
}.

(* src: ai-gateway/src/agent/tools/types.rs:111-118 ToolCostPolicy *)
Record ToolCostPolicy := mkCostPolicy {
  pricing_type : string;
  cost_fixed_micros : Z;
  cost_source : string;
  cost_currency : string
}.

(* src: ai-gateway/src/agent/tools/types.rs:47-72 ToolDescriptor *)
Record ToolDescriptor := mkDescriptor {
  d_tool_id : string;
  d_framework_tool_name : string;
  d_metadata : ToolDescriptorMetadata;
  d_upstream_tool_name : string;
  d_name_sanitization_version : string;
  d_mapping_revision : Z;
  d_snapshot_revision : Z;
  d_policy_revision : Z;
  d_display_name : string;
  d_safe_model_description : string;
  d_name : string;
  d_description : string;
  d_tool_version : Z;
  d_input_schema : Value;
  d_output_schema : Value;
  d_schema_version : string;
  d_schema_hash : string;
  d_risk_level : string;
  d_approval_mode : string;
  d_timeout_ms : Z;
  d_availability : ToolAvailability;
  d_cost_policy : ToolCostPolicy
}.

Section listing.
Context (sha256_hex : string → string) (to_vec : Value → string).

(* src: ai-gateway/src/agent/tools/catalog.rs:132-136 schema_hash_for_value *)
Definition schema_hash_for_value (schema : Value) : string := "sha256:" ++ sha256_hex (to_vec schema).

(* src: ai-gateway/src/agent/tools/idempotency.rs:5-8 arguments_hash *)
Definition arguments_hash (arguments : Value) : string := "sha256:" ++ sha256_hex (to_vec arguments).

(* src: ai-gateway/src/agent/tools/catalog.rs:72-130 descriptor *)
Definition descriptor (target : ToolTarget) (default_timeout_ms : Z) (framework_name : string) : ToolDescriptor := {|
  d_tool_id := tool_id target;
  d_framework_tool_name := framework_name;
  d_metadata := mkDescriptorMetadata (target_kind_name (kind target)) (tool_id target)
                  None None None None None None None None;
  d_upstream_tool_name := tool_id target;
  d_name_sanitization_version := "v1";
  d_mapping_revision := 0;
  d_snapshot_revision := 0;
  d_policy_revision := 0;
  d_display_name := tool_name target;
  d_safe_model_description := description target;
  d_name := tool_name target;
  d_description := description target;
  d_tool_version := 0;
  d_input_schema := input_schema target;
  d_output_schema := Object [];
  d_schema_version := "2026-06-05.1";
  d_schema_hash := schema_hash_for_value (input_schema target);
  d_risk_level := risk_level target;
  d_approval_mode := "none";
  d_timeout_ms := default default_timeout_ms (tool_timeout_ms target);
  d_availability := mkAvailability "published" "callable" "healthy" "listed_available" "static" "" "" false "";
  d_cost_policy := mkCostPolicy "per_call" (fixed_micros (rate_card target)) "rate_card" (rate_currency (rate_card target))
|}.

Fixpoint descriptors (targets : list ToolTarget) (default_timeout_ms : Z) (seen : gset string)
  : option (list ToolDescriptor) :=
  match targets with
  | [] => Some []
  | t :: targets =>
      match framework_tool_name sha256_hex (tool_id t) seen with
      | None => None
      | Some (n, seen) => (descriptor t default_timeout_ms n ::.) <$> descriptors targets default_timeout_ms seen
      end
  end.

(** [None]: the search for a name would not end. *)
(* src: ai-gateway/src/agent/tools/catalog.rs:16-29 visible_tools *)
Definition visible_tools (auth : AuthContext) (targets : list ToolTarget) (reported_agent_id : option string)
    (default_timeout_ms : Z) : option (list ToolDescriptor) :=
  let trusted := trusted_agent_id_from_auth auth in
  descriptors (filter (λ t, target_visible auth t trusted = true) targets) default_timeout_ms ∅.
End listing.

(** ** Arguments *)

(* src: ai-gateway/src/agent/tools/schema_validator.rs:1-9 SchemaValidationError *)
Inductive SchemaValidationError :=
| ArgumentsMustBeObject
| RequiredMissing (field : string)
| InvalidType (field : string).

(* src: ai-gateway/src/agent/tools/schema_validator.rs:47-56 matches_type *)
Definition matches_type (type_name : string) (value : Value) : bool :=
  if String.eqb type_name "string" then match value with Str _ => true | _ => false end
  else if String.eqb type_name "number" then match value with Number _ => true | _ => false end
  else if String.eqb type_name "boolean" then match value with Bool _ => true | _ => false end
  else if String.eqb type_name "object" then match value with Object _ => true | _ => false end
  else if String.eqb type_name "array" then match value with Array _ => true | _ => false end
  else true.

Fixpoint check_required (required : list Value) (arguments : list (string * Value))
  : result unit SchemaValidationError :=
  match required with
  | [] => Ok tt
  | Str field :: rest =>
      if bool_decide (is_Some (assoc field arguments)) then check_required rest arguments
      else Err (RequiredMissing field)
  | _ :: rest => check_required rest arguments
  end.

Definition property_ok (arguments : list (string * Value)) (field : string) (property_schema : Value) : bool :=
  match assoc field arguments with
  | None => true
  | Some value =>
      match get "type" property_schema ≫= Json.as_str with
      | None => true
      | Some type_name => matches_type type_name value
      end
  end.

Fixpoint check_properties (properties arguments : list (string * Value)) : result unit SchemaValidationError :=
  match properties with
  | [] => Ok tt
  | (field, property_schema) :: rest =>
      if property_ok arguments field property_schema then check_properties rest arguments
      else Err (InvalidType field)
  end.

(* src: ai-gateway/src/agent/tools/schema_validator.rs:11-45 validate_arguments *)
Definition validate_arguments (schema arguments : Value) : result unit SchemaValidationError :=
  match as_object arguments with
  | None => Err ArgumentsMustBeObject
  | Some argument_object =>
      let? _ := match get "required" schema ≫= as_array with
                | Some required => check_required required argument_object
                | None => Ok tt
                end in
      match get "properties" schema ≫= as_object with
      | None => Ok tt
      | Some properties => check_properties properties argument_object
      end
  end.

(** ** The outcome of an OpenAPI call *)

(* src: ai-gateway/src/agent/tools/types.rs:188-196 ToolExecutionStatus *)
Inductive ToolExecutionStatus := Completed | Denied | Blocked | Failed | Timeout.

#[global] Instance ToolExecutionStatus_eq_dec : EqDecision ToolExecutionStatus.
Proof. solve_decision. Defined.

(* src: ai-gateway/src/agent/tools/types.rs:198-204 ToolExecutionErrorEnvelope *)
Record ToolExecutionErrorEnvelope := mkError { error_code : string; error_message : string; error_retryable : bool }.

(* src: ai-gateway/src/agent/tools/types.rs:206-214 ToolBillingOverride *)
Record ToolBillingOverride := mkBilling {
  billing_reason : string;
  billable : bool;
  cost_micros : Z;
  currency : string;
  dedupe_key : string
}.

(* src: ai-gateway/src/agent/tools/openapi/outcome.rs:5-17 OpenApiOutcomeStatus *)
Inductive OpenApiOutcomeStatus :=
| HttpStatus (status : Z)
| SchemaInvalid | PolicyBlocked | EgressBlocked | SnapshotStale | OutcomeTimeout
| RequestTooLarge | ResponseTooLarge | InvalidJsonResponse | InternalError.

(* src: ai-gateway/src/agent/tools/openapi/outcome.rs:19-26 OpenApiOutcomeInput *)
Record OpenApiOutcomeInput := mkOutcomeInput {
  in_status : OpenApiOutcomeStatus;
  in_fixed_micros : Z;
  in_currency : string;
  in_charge_on_failure : bool;
  in_tool_execution_id : string
}.

(* src: ai-gateway/src/agent/tools/openapi/outcome.rs:28-37 OpenApiOutcomeDecision *)
Record OpenApiOutcomeDecision := mkOutcome {
  out_status : ToolExecutionStatus;
  out_error : option ToolExecutionErrorEnvelope;
  out_billing : ToolBillingOverride;
  out_executed : bool;
  out_failure_stage : string;
  out_billing_status : string;
  out_billing_reason : string
}.

(* src: ai-gateway/src/agent/tools/openapi/outcome.rs:272-274 billable_cost *)
Definition billable_cost (billable : bool) (fixed_micros : Z) : Z := if billable then fixed_micros else 0%Z.

(* src: ai-gateway/src/agent/tools/openapi/outcome.rs:256-270 billing *)
Definition outcome_billing (billable : bool) (cost : Z) (currency dedupe_key reason : string) : ToolBillingOverride :=
  mkBilling reason billable cost currency dedupe_key.

(* src: ai-gateway/src/agent/tools/openapi/outcome.rs:276-282 error *)
Definition outcome_error (code message : string) : ToolExecutionErrorEnvelope := mkError code message false.

(* src: ai-gateway/src/agent/tools/openapi/outcome.rs:215-254 waived_failure *)
Definition waived_failure (status : ToolExecutionStatus) (currency dedupe_key stage code reason message : string)
    (executed : bool) : OpenApiOutcomeDecision :=
  mkOutcome status (Some (outcome_error code message)) (outcome_billing false 0 currency dedupe_key reason)
    executed stage "waived" reason.

Definition in_range (lo hi n : Z) : bool := (lo <=? n)%Z && (n <=? hi)%Z.

(** An upstream failure that the target may charge for. *)
(* src: ai-gateway/src/agent/tools/openapi/outcome.rs:59-110 decide *)
Definition charged_failure (charge : bool) (fixed : Z) (currency dedupe_key code message per_call waived : string)
  : OpenApiOutcomeDecision :=
  let reason := if charge then per_call else waived in
  mkOutcome Failed (Some (outcome_error code message))
    (outcome_billing charge (billable_cost charge fixed) currency dedupe_key reason)
    true "upstream" (if charge then "billable" else "waived") reason.

(* src: ai-gateway/src/agent/tools/openapi/outcome.rs:39-213 decide *)
Definition decide_outcome (input : OpenApiOutcomeInput) : OpenApiOutcomeDecision :=
  let dedupe_key := "tool_execution:" ++ in_tool_execution_id input in
  let currency := in_currency input in
  let charge := in_charge_on_failure input in
  let waived status stage code reason message executed :=
    waived_failure status currency dedupe_key stage code reason message executed in
  match in_status input with
  | HttpStatus status =>
      if in_range 200 299 status then
        mkOutcome Completed None (outcome_billing true (in_fixed_micros input) currency dedupe_key "openapi_2xx")
          true "" "actual" "openapi_2xx"
      else if in_range 400 499 status then
        charged_failure charge (in_fixed_micros input) currency dedupe_key "openapi_http_4xx"
          "OpenAPI upstream returned 4xx" "openapi_4xx_per_call" "openapi_4xx_waived"
      else if in_range 500 599 status then
        charged_failure charge (in_fixed_micros input) currency dedupe_key "openapi_http_5xx"
          "OpenAPI upstream returned 5xx" "openapi_5xx_per_call" "openapi_5xx_waived"
      else
        waived Failed "upstream" "openapi_unexpected_http_status" "unexpected_http_status"
          "OpenAPI upstream returned unexpected HTTP status" true
  | SchemaInvalid => waived Failed "schema" "openapi_schema_invalid" "schema_invalid"
                       "OpenAPI request schema validation failed" false
  | PolicyBlocked => waived Blocked "policy" "openapi_policy_blocked" "policy_blocked"
                       "OpenAPI tool call blocked by policy" false
  | EgressBlocked => waived Blocked "egress" "openapi_egress_blocked" "egress_blocked" "OpenAPI egress blocked" false
  | SnapshotStale => waived Failed "snapshot" "openapi_snapshot_stale" "snapshot_stale"
                       "OpenAPI target snapshot is stale" false
  | OutcomeTimeout => waived Timeout "timeout" "openapi_timeout" "timeout" "OpenAPI upstream timed out" true
  | RequestTooLarge => waived Failed "request" "openapi_request_too_large" "request_too_large"
                         "OpenAPI request exceeded size limit" false
  | ResponseTooLarge => waived Failed "response" "openapi_response_too_large" "response_too_large"
                          "OpenAPI response exceeded size limit" true
  | InvalidJsonResponse => waived Failed "response" "openapi_invalid_json_response" "invalid_json_response"
                             "OpenAPI response was not valid JSON" true
  | InternalError => waived Failed "internal" "openapi_internal_error" "internal_error"
                       "OpenAPI gateway internal error" false
  end.

(** ** Names are fit for frameworks *)

Lemma str_take_len n s : (len (str_take n s) ≤ n)%nat.
Proof. revert s. induction n as [|n IH]; intros [|c s]; simpl; [lia..|]. specialize (IH s). rw /len /= in IH |- *. lia. Qed.

Lemma str_take_all p n s : str_all p s = true → str_all p (str_take n s) = true.
Proof.
  revert s. induction n as [|n IH]; intros [|c s]; simpl; [done..|].
  intros [-> Hs]%andb_true_iff. by rw IH.
Qed.

Lemma name_byte_ok c : is_name_byte (name_byte c) = true.
Proof. by destruct c as [[] [] [] [] [] [] [] []]. Qed.

Lemma name_chars_ok s : str_all is_name_byte (name_chars s) = true.
Proof. induction s as [|c s IH]; simpl; [done|]. destruct (is_continuation c); simpl; [done|]. by rw name_byte_ok. Qed.

Lemma name_base_ok id : str_all is_name_byte (framework_tool_name_base id) = true.
Proof.
  rw /framework_tool_name_base. apply str_take_all. destruct (is_empty _); [done|]. apply name_chars_ok.
Qed.

(** What frameworks accept as the name of a function. *)
Definition framework_name_ok (n : string) : Prop := (len n ≤ 64)%nat ∧ str_all is_name_byte n = true.

(** A digest is written in the digits of a name. *)
Definition hex_digest (sha256_hex : string → string) : Prop :=
  ∀ s, (8 ≤ len (sha256_hex s))%nat ∧ str_all is_name_byte (sha256_hex s) = true.

(** The first [n] salts give different suffixes. *)
Definition salts_differ (sha256_hex : string → string) (n : nat) (id : string) : Prop :=
  ∀ i j, (i ≤ n)%nat → (j ≤ n)%nat →
    stable_hash_suffix sha256_hex (id ++ ":" ++ pretty (N.of_nat (S i))) =
      stable_hash_suffix sha256_hex (id ++ ":" ++ pretty (N.of_nat (S j))) → i = j.

Lemma pigeonhole_set (f : nat → string) (X : gset string) :
  (∀ i j, (i ≤ size X)%nat → (j ≤ size X)%nat → f i = f j → i = j) →
  ¬ ∀ i, (i ≤ size X)%nat → f i ∈ X.
Proof.
  intros Hinj H. set (l := f <$> seq 0 (S (size X))).
  assert (Hn : NoDup l).
  { apply NoDup_fmap_2_strong; [|apply NoDup_seq]. intros i j Hi%elem_of_seq Hj%elem_of_seq. apply Hinj; lia. }
  assert (Hs : list_to_set l ⊆ X).
  { intros x (i & -> & Hi)%elem_of_list_to_set%list_elem_of_fmap. apply elem_of_seq in Hi. apply H. lia. }
  apply subseteq_size in Hs. rw size_list_to_set // /l length_fmap length_seq in Hs. lia.
Qed.

Section name_lemmas.
Context (sha256_hex : string → string).
Hypothesis digest_ok : hex_digest sha256_hex.

Lemma suffix_len s : len (stable_hash_suffix sha256_hex s) = 8%nat.
Proof using digest_ok.
  destruct (digest_ok s) as [Hl _]. rw /stable_hash_suffix. revert Hl. generalize (sha256_hex s). intros d.
  rw /len. do 8 (destruct d as [|? d]; [simpl; lia|]). intros _. by destruct d.
Qed.

Lemma with_suffix_ok id s :
  framework_name_ok
    (with_suffix (framework_tool_name_base id) (stable_hash_suffix sha256_hex s) (64 - (1 + 8))).
Proof using digest_ok.
  rw /with_suffix. split.
  - rw !len_app suffix_len. pose proof (str_take_len (64 - (1 + 8)) (framework_tool_name_base id)).
    change (len "_") with 1%nat. lia.
  - rw !str_all_app str_take_all ?name_base_ok //=. apply str_take_all. apply digest_ok.
Qed.

Lemma salted_name_spec fuel id base keep : ∀ salt seen,
  match salted_name sha256_hex fuel id base keep salt seen with
  | Some (n, seen') => (n ∉ seen) ∧ seen' = {[n]} ∪ seen ∧
      ∃ i : N, n = with_suffix base (stable_hash_suffix sha256_hex (id ++ ":" ++ pretty i)) keep
  | None => ∀ i, (i < fuel)%nat →
      with_suffix base (stable_hash_suffix sha256_hex (id ++ ":" ++ pretty (salt + N.of_nat i)%N)) keep ∈ seen
  end.
Proof using.
  induction fuel as [|fuel IH]; intros salt seen; cbn [salted_name]; [intros; lia|].
  destruct (bool_decide _) eqn:Hin; bool_to_prop; [|by eauto].
  specialize (IH (salt + 1)%N seen). destruct (salted_name _ fuel _ _ _ _ _) as [[]|]; [done|].
  intros [|i] Hi; [by rw N.add_0_r|]. replace (salt + N.of_nat (S i))%N with (salt + 1 + N.of_nat i)%N by lia.
  apply IH. lia.
Qed.

Lemma framework_tool_name_spec id seen :
  match framework_tool_name sha256_hex id seen with
  | Some (n, seen') => (n ∉ seen) ∧ seen' = {[n]} ∪ seen ∧ framework_name_ok n
  | None => ¬ salts_differ sha256_hex (size seen) id
  end.
Proof using digest_ok.
  rw /framework_tool_name suffix_len. destruct (bool_decide _) eqn:H1; bool_to_prop.
  { split_and!; [done|done|]. split; [apply str_take_len|apply name_base_ok]. }
  destruct (bool_decide _) eqn:H2; bool_to_prop; [split_and!; [done|done|]; apply with_suffix_ok|].
  pose proof (salted_name_spec (S (size seen)) id (framework_tool_name_base id) (64 - (1 + 8)) 1 seen) as H.
  destruct (salted_name _ _ _ _ _ _ _) as [[n seen']|].
  - destruct H as (? & ? & i & ->). split_and!; [done|done|]. apply with_suffix_ok.
  - intros Hd. refine (pigeonhole_set (λ i, with_suffix (framework_tool_name_base id)
      (stable_hash_suffix sha256_hex (id ++ ":" ++ pretty (1 + N.of_nat i)%N)) (64 - (1 + 8))) seen _ _).
    + intros i j Hi Hj Heq. apply Hd; [lia..|]. rw /with_suffix in Heq.
      apply str_app_inj_l in Heq. apply str_app_inj_l in Heq.
      by replace (N.of_nat (S i)) with (1 + N.of_nat i)%N by lia; replace (N.of_nat (S j)) with (1 + N.of_nat j)%N by lia.
    + intros i Hi. apply H. lia.
Qed.
End name_lemmas.

Lemma salts_differ_le sha m n id : (m ≤ n)%nat → salts_differ sha n id → salts_differ sha m id.
Proof. intros Hle H i j Hi Hj. apply H; lia. Qed.

(** The listing of [targets] when the names [seen] are taken. *)
Definition listing_ok (targets : list ToolTarget) (seen : gset string) (ds : list ToolDescriptor) : Prop :=
  d_tool_id <$> ds = tool_id <$> targets ∧
  NoDup (d_framework_tool_name <$> ds) ∧
  Forall (λ d, framework_name_ok (d_framework_tool_name d) ∧ (d_framework_tool_name d ∉ seen)) ds.

Lemma descriptors_spec sha to_vec ms targets : hex_digest sha → ∀ seen,
  Forall (salts_differ sha (size seen + length targets)) (tool_id <$> targets) →
  ∃ ds, descriptors sha to_vec targets ms seen = Some ds ∧ listing_ok targets seen ds.
Proof.
  intros Hhex. induction targets as [|t targets IH]; intros seen Hs; cbn [descriptors].
  { exists []. split; [done|]. split_and!; [done|constructor|done]. }
  apply Forall_cons in Hs as [Ht Hs].
  pose proof (framework_tool_name_spec sha Hhex (tool_id t) seen) as Hn.
  destruct (framework_tool_name sha (tool_id t) seen) as [[n seen']|]; cycle 1.
  { destruct Hn. eapply salts_differ_le, Ht. simpl. lia. }
  destruct Hn as (Hfresh & -> & Hok).
  assert (Hsz : size ({[n]} ∪ seen) = S (size seen)) by (rw size_union ?size_singleton; set_solver).
  destruct (IH ({[n]} ∪ seen)) as (ds & -> & Hids & Hnd & Hall).
  { eapply Forall_impl; [exact Hs|]. intros id. apply salts_differ_le. rw Hsz /=. lia. }
  eexists; split; [done|]. split_and!.
  - by rw !fmap_cons Hids.
  - rw fmap_cons. constructor; [|done]. intros (d & Heq & Hd)%list_elem_of_fmap.
    rw Forall_forall in Hall. destruct (Hall d Hd) as [_ Hnot]. set_solver.
  - constructor; [done|]. eapply Forall_impl; [exact Hall|]. set_solver.
Qed.

Lemma descriptors_ids sha to_vec targets ms seen ds :
  descriptors sha to_vec targets ms seen = Some ds → d_tool_id <$> ds = tool_id <$> targets.
Proof.
  revert seen ds. induction targets as [|t targets IH]; intros seen ds; cbn [descriptors]; [by intros [= <-]|].
  destruct (framework_tool_name _ _ _) as [[n seen']|]; [|done].
  destruct (descriptors _ _ targets _ _) as [ds'|] eqn:Hd; [|done]. intros [= <-].
  by rw !fmap_cons (IH _ _ Hd).
Qed.

(** A listing ends and its names are fit for frameworks: if
    the digests are hexadecimal and as many salts as there are targets give
    different suffixes, the search for a free name always ends, the tools are
    the visible targets in order, their framework names are pairwise distinct,
    at most 64 bytes, of lower-case letters, digits and underscores. *)
Theorem visible_tools_names sha to_vec auth targets reported ms :
  hex_digest sha → Forall (salts_differ sha (length targets)) (tool_id <$> targets) →
  ∃ ds, visible_tools sha to_vec auth targets reported ms = Some ds ∧
    d_tool_id <$> ds = tool_id <$> filter (λ t, target_visible auth t (trusted_agent_id_from_auth auth) = true) targets ∧
    NoDup (d_framework_tool_name <$> ds) ∧
    Forall framework_name_ok (d_framework_tool_name <$> ds).
Proof.
  intros Hhex Hs. rw /visible_tools. set (vis := filter _ targets).
  destruct (descriptors_spec sha to_vec ms vis Hhex ∅) as (ds & -> & Hids & Hnd & Hall).
  - rw size_empty. apply Forall_forall. intros id (t & -> & Ht)%list_elem_of_fmap.
    apply list_elem_of_filter in Ht as [_ Ht]. rw Forall_forall in Hs.
    eapply salts_differ_le, Hs; [|apply list_elem_of_fmap; by eauto]. apply length_filter.
  - exists ds. split_and!; [done..|]. apply Forall_fmap. eapply Forall_impl; [exact Hall|]. by intros d [].
Qed.

(** A digest for examples: a checksum of the text, in hexadecimal. *)
Definition toy_hex (n : nat) : ascii := default "0"%char (String.get n "0123456789abcdef").
Definition toy_digest (s : string) : string :=
  let n := fold_left (λ a c, (a * 5 + nat_of_ascii c) mod 251)%nat (String.list_ascii_of_string s) 7%nat in
  String (toy_hex (n / 16)) (String (toy_hex (n mod 16)) "000000").

Definition demo_target (id : string) : ToolTarget :=
  mkTarget id "Demo" "A demo tool" Mock None "POST" None None None "low" None (Object []) false None None
    (mkRateCard "USD" 0) (mkAllowlist [] [] []).
Definition demo_caller : AuthContext := mkAuth "org" "user" None None "user" None None.

Lemma toy_hex_ok n : is_name_byte (toy_hex n) = true.
Proof. do 16 (destruct n as [|n]; [done|]). by destruct n. Qed.

Lemma demo_hex : hex_digest toy_digest.
Proof. intros s. split; [by apply leb_complete|]. rw /toy_digest. cbn [str_all]. by rw !toy_hex_ok. Qed.

(** Three identifiers that come to the same base name. *)
Definition demo_targets : list ToolTarget := [demo_target "A.b"; demo_target "a b"; demo_target "a_b"].

Lemma demo_salts id : id ∈ ["A.b"; "a b"; "a_b"] → salts_differ toy_digest 3 id.
Proof.
  intros Hid i j Hi Hj.
  repeat (apply elem_of_cons in Hid as [->|Hid]; [|]); [..|by apply not_elem_of_nil in Hid];
    do 4 (destruct i as [|i]; [do 4 (destruct j as [|j]; [by vm_compute|]); lia|]); lia.
Qed.

Lemma visible_tools_names_witness :
  hex_digest toy_digest ∧
  map d_framework_tool_name <$> visible_tools toy_digest (λ _, "") demo_caller demo_targets None 8000 =
    Some ["a_b"; "a_b_2c000000"; "a_b_6c000000"] ∧
  ∃ ds, visible_tools toy_digest (λ _, "") demo_caller demo_targets None 8000 = Some ds ∧
    NoDup (d_framework_tool_name <$> ds).
Proof.
  split; [exact demo_hex|]. split; [vm_compute; reflexivity|].
  destruct (visible_tools_names toy_digest (λ _, "") demo_caller demo_targets None 8000) as (ds & Hds & _ & Hnd & _).
  - exact demo_hex.
  - apply Forall_forall. intros id Hid. by apply demo_salts.
  - by exists ds.
Defined.

(** ** Who may call *)

(** An allow-list lets a caller through: it is empty or names the caller. *)
Definition admits (l : list string) (x : option string) : Prop := l = [] ∨ ∃ id, x = Some id ∧ id ∈ l.

Lemma listed_or_all_spec l x : listed_or_all l x = true ↔ admits l x.
Proof.
  rw /listed_or_all /admits. destruct l as [|y l]; [naive_solver|].
  destruct x as [x|]; [|naive_solver]. rw bool_decide_eq_true. naive_solver.
Qed.

Lemma target_visible_spec auth t agent :
  target_visible auth t agent = true ↔
  admits (workspace_ids (allowlist t)) (Some (org_id auth)) ∧
  admits (virtual_key_ids (allowlist t)) (virtual_key_id auth) ∧
  admits (agent_ids (allowlist t)) agent.
Proof. rw /target_visible !andb_true_iff !listed_or_all_spec. naive_solver. Qed.

Lemma find_callable_Some auth targets reported id t :
  find_callable_tool auth targets reported id = Some t →
  t ∈ targets ∧ tool_id t = id ∧ target_visible auth t (trusted_agent_id_from_auth auth) = true.
Proof.
  rw /find_callable_tool. destruct (List.find _ _) as [t'|] eqn:Hf; [|done].
  apply find_some in Hf as [Hin Hid%String.eqb_eq]. case_match; [|done]. intros [= <-].
  split_and!; [by apply list_elem_of_In|done..].
Qed.

Lemma find_callable_ids auth targets reported t :
  NoDup (tool_id <$> targets) → t ∈ targets →
  target_visible auth t (trusted_agent_id_from_auth auth) = true →
  find_callable_tool auth targets reported (tool_id t) = Some t.
Proof.
  intros Hnd Ht Hv. rw /find_callable_tool.
  assert (List.find (λ t', String.eqb (tool_id t') (tool_id t)) targets = Some t) as ->; [|by rw Hv].
  clear Hv. induction targets as [|x targets IH]; [by apply elem_of_nil in Ht|]. cbn [List.find].
  rw fmap_cons NoDup_cons in Hnd. destruct Hnd as [Hx Hnd].
  apply elem_of_cons in Ht as [->|Ht]; [by rw String.eqb_refl|].
  destruct (String.eqb_spec (tool_id x) (tool_id t)) as [Heq|]; [|by apply IH].
  destruct Hx. rw Heq. by apply list_elem_of_fmap_2.
Qed.

(** With distinct tool ids a tool can be called exactly when it is
    listed, and both only for a caller that every allow-list of the target
    admits: the workspace and the virtual key of the credentials, and the
    agent the credentials are bound to; the agent id a request reports changes
    nothing. *)
Theorem callable_iff_listed sha to_vec auth targets reported reported' ms ds id :
  NoDup (tool_id <$> targets) →
  visible_tools sha to_vec auth targets reported' ms = Some ds →
  (id ∈ d_tool_id <$> ds ↔ is_Some (find_callable_tool auth targets reported id)) ∧
  ∀ t, find_callable_tool auth targets reported id = Some t →
    admits (workspace_ids (allowlist t)) (Some (org_id auth)) ∧
    admits (virtual_key_ids (allowlist t)) (virtual_key_id auth) ∧
    admits (agent_ids (allowlist t)) (trusted_agent_id_from_auth auth).
Proof.
  intros Hnd Hds. split; cycle 1.
  { intros t (_ & _ & Hv)%find_callable_Some. by apply target_visible_spec. }
  rw (descriptors_ids _ _ _ _ _ _ Hds). split.
  - intros (t & -> & [Hv Ht]%list_elem_of_filter)%list_elem_of_fmap. eexists. by apply find_callable_ids.
  - intros [t (Ht & <- & Hv)%find_callable_Some]. apply list_elem_of_fmap_2. by apply list_elem_of_filter.
Qed.

Lemma callable_iff_listed_witness :
  NoDup (tool_id <$> demo_targets) ∧
  ∃ ds, visible_tools toy_digest (λ _, "") demo_caller demo_targets None 8000 = Some ds ∧
    ("a b" ∈ d_tool_id <$> ds ↔ is_Some (find_callable_tool demo_caller demo_targets (Some "other") "a b")).
Proof.
  assert (Hnd : NoDup (tool_id <$> demo_targets)) by (by apply (bool_decide_unpack _); vm_compute).
  split; [exact Hnd|]. eexists. split; [vm_compute; reflexivity|].
  apply (callable_iff_listed toy_digest (λ _, "") demo_caller demo_targets (Some "other") None 8000 _ "a b");
    [exact Hnd|vm_compute; reflexivity].
Defined.

(** Without distinct ids: the second target of an id is listed for a caller the
    first one does not admit, and cannot be called. *)
Definition restricted (id : string) (workspaces : list string) : ToolTarget :=
  mkTarget id "Demo" "A demo tool" Mock None "POST" None None None "low" None (Object []) false None None
    (mkRateCard "USD" 0) (mkAllowlist workspaces [] []).

Example listed_but_not_callable :
  let targets := [restricted "t" ["other"]; restricted "t" ["org"]] in
  map d_tool_id <$> visible_tools toy_digest (λ _, "") demo_caller targets None 8000 = Some ["t"] ∧
  find_callable_tool demo_caller targets None "t" = None.
Proof. by vm_compute. Qed.

(** ** Arguments, exactly *)

Definition required_fields (schema : Value) : list string :=
  omap Json.as_str (default [] (get "required" schema ≫= as_array)).

Lemma check_required_spec required arguments :
  match check_required required arguments with
  | Ok _ => ∀ f, f ∈ omap Json.as_str required → is_Some (assoc f arguments)
  | Err e => ∃ f, e = RequiredMissing f ∧ f ∈ omap Json.as_str required ∧ assoc f arguments = None
  end.
Proof.
  induction required as [|v required IH]; cbn [check_required]; [by intros f Hf%elem_of_nil|].
  destruct v; try exact IH. cbn [omap list_omap Json.as_str].
  destruct (bool_decide _) eqn:Hd; bool_to_prop; cycle 1.
  { eexists; split_and!; [done|by left|by apply eq_None_not_Some]. }
  destruct (check_required required arguments) as [|e].
  - intros f [->|Hf]%elem_of_cons; [done|by apply IH].
  - destruct IH as (f & -> & Hf & Hn). exists f. split_and!; [done|by right|done].
Qed.

Lemma check_properties_spec properties arguments :
  match check_properties properties arguments with
  | Ok _ => Forall (λ p, property_ok arguments p.1 p.2 = true) properties
  | Err e => ∃ f schema, e = InvalidType f ∧ (f, schema) ∈ properties ∧ property_ok arguments f schema = false
  end.
Proof.
  induction properties as [|[f schema] properties IH]; cbn [check_properties]; [done|].
  destruct (property_ok arguments f schema) eqn:Hp; [|exists f, schema; split_and!; [done|by left|done]].
  destruct (check_properties properties arguments); [by constructor|].
  destruct IH as (g & s & -> & Hin & Hf). exists g, s. split_and!; [done|by right|done].
Qed.

(** Arguments pass the check exactly when they are an object
    that has every required field and in which no listed property has a value
    of another type than its schema names; otherwise the error names a field
    that is missing or has the wrong type. *)
Theorem validate_arguments_exact schema arguments :
  match validate_arguments schema arguments with
  | Ok _ => ∃ fields, arguments = Object fields ∧
      (∀ f, f ∈ required_fields schema → is_Some (assoc f fields)) ∧
      ∀ f s ty v, (f, s) ∈ default [] (get "properties" schema ≫= as_object) → assoc f fields = Some v →
        get "type" s = Some (Str ty) → matches_type ty v = true
  | Err ArgumentsMustBeObject => as_object arguments = None
  | Err (RequiredMissing f) => f ∈ required_fields schema ∧ get f arguments = None
  | Err (InvalidType f) => ∃ s ty v, (f, s) ∈ default [] (get "properties" schema ≫= as_object) ∧
      get f arguments = Some v ∧ get "type" s = Some (Str ty) ∧ matches_type ty v = false
  end.
Proof.
  rw /validate_arguments. destruct (as_object arguments) as [fields|] eqn:Ho; [|done].
  destruct arguments as [| | | | |fields']; try done. injection Ho as ->.
  assert (Hreq : ∃ req, req = default [] (get "required" schema ≫= as_array) ∧
    match get "required" schema ≫= as_array with
    | Some required => check_required required fields | None => Ok tt end = check_required req fields).
  { eexists; split; [done|]. by destruct (get "required" schema ≫= as_array). }
  destruct Hreq as (req & Hreq & ->). rw /required_fields -Hreq. clear Hreq.
  pose proof (check_required_spec req fields) as H1.
  destruct (check_required req fields) as [|e]; simpl; [|by destruct H1 as (f & -> & ?)].
  assert (Hprop : ∃ props, props = default [] (get "properties" schema ≫= as_object) ∧
    match get "properties" schema ≫= as_object with
    | None => Ok tt | Some properties => check_properties properties fields end = check_properties props fields).
  { eexists; split; [done|]. by destruct (get "properties" schema ≫= as_object). }
  destruct Hprop as (props & Hprop & ->). rw -Hprop. clear Hprop.
  pose proof (check_properties_spec props fields) as H2.
  destruct (check_properties props fields) as [|e].
  - eexists; split_and!; [done|done|]. intros f s ty v Hin Hv Hty. rw Forall_forall in H2.
    specialize (H2 _ Hin). by rw /property_ok Hv Hty /= in H2.
  - destruct H2 as (f & s & -> & Hin & Hp). rw /property_ok in Hp. cbn [get].
    destruct (assoc f fields) as [v|]; [|done]. destruct (get "type" s) as [[]|] eqn:Hty; try done.
    by eexists s, _, v.
Qed.

(** ** Outcomes *)

(** What an OpenAPI call costs: it completes exactly on a 2xx
    answer and is then charged the fixed price; a 4xx or 5xx answer is charged
    it only if the target charges on failure; everything else costs nothing,
    and a call that was not executed is never billable.  Only a completed call
    has no error. *)
Theorem decide_outcome_billing input :
  let d := decide_outcome input in
  (out_status d = Completed ↔ ∃ s, in_status input = HttpStatus s ∧ (200 ≤ s ≤ 299)%Z) ∧
  (out_error d = None ↔ out_status d = Completed) ∧
  (billable (out_billing d) = true ↔
     ∃ s, in_status input = HttpStatus s ∧
       ((200 ≤ s ≤ 299)%Z ∨ (in_charge_on_failure input = true ∧ (400 ≤ s ≤ 599)%Z))) ∧
  cost_micros (out_billing d) = (if billable (out_billing d) then in_fixed_micros input else 0%Z) ∧
  (out_executed d = false → billable (out_billing d) = false) ∧
  currency (out_billing d) = in_currency input ∧
  billing_reason (out_billing d) = out_billing_reason d ∧
  dedupe_key (out_billing d) = "tool_execution:" ++ in_tool_execution_id input.
Proof.
  destruct input as [status fixed cur charge id]. rw /decide_outcome. cbn [in_status].
  destruct status as [s| | | | | | | | |]; [|by split_and!; try done; naive_solver..].
  rw /in_range /charged_failure. cbn [in_status in_charge_on_failure].
  repeat case_match; bool_to_prop; simpl; split_and!; try done; try naive_solver lia.
  all: destruct charge; simpl; try done; naive_solver lia.
Qed.
