(* ===== verification/ToolCalls.v ===== *)
(** * Tool calls: requests, answers and audit events

    Models the data of [ai-gateway/src/agent/tools]: a call and its response
    ([types.rs]), the envelope the caller gets ([response.rs] and the
    conversions of [service.rs]), the responses of calls that are stopped
    before they are dispatched ([service.rs]), the events written for a call
    ([audit.rs], [agent/sink.rs], [agent/log_transport.rs]) and the executors
    of mock and HTTP tools ([executor.rs]).

    Parameters: SHA-256, the JSON reader and writer, the text of a floating
    point number, URL parsing, the HTTP client, Redis. *)

From S2P Require Import Prelude RustStr Float64 Json StepState AgentContext AgentPolicy Egress ToolCatalog.
From Stdlib Require Import Ascii.
Local Open Scope string_scope.

Definition opt_str (s : option string) : Value := match s with Some s => Str s | None => Null end.
Definition opt_num (n : option Z) : Value := match n with Some n => num n | None => Null end.

(** ** Calls and responses *)

(* src: ai-gateway/src/agent/tools/types.rs:120-147 ToolCallRequest *)
Record ToolCallRequest := mkCall {
  q_source : option string;
  q_agent_id : option string;
  q_agent_name : option string;
  q_run_id : option string;
  q_step_id : option string;
  q_parent_step_id : option string;
  q_tool_call_id : option string;
  q_tool_execution_id : option string;
  q_parallel_group_id : option string;
  q_tool_id : string;
  q_arguments : Value;
  q_snapshot_revision : option Z;
  q_schema_hash : option string;
  q_tool_version : option Z;
  q_target_hash : option string;
  q_target_revision : option Z;
  q_timeout_ms : option Z;
  q_idempotency_key : option string
}.

Definition with_execution_id (id : string) (q : ToolCallRequest) : ToolCallRequest :=
  mkCall (q_source q) (q_agent_id q) (q_agent_name q) (q_run_id q) (q_step_id q) (q_parent_step_id q)
    (q_tool_call_id q) (Some id) (q_parallel_group_id q) (q_tool_id q) (q_arguments q) (q_snapshot_revision q)
    (q_schema_hash q) (q_tool_version q) (q_target_hash q) (q_target_revision q) (q_timeout_ms q)
    (q_idempotency_key q).

(* src: ai-gateway/src/agent/tools/types.rs:216-259 ToolGatewayMetadata *)
Record ToolGatewayMetadata := mkGateway {
  g_execution_source : string;
  g_target_kind : string;
  g_target_id : string;
  g_target_hash : string;
  g_auth_revision : string;
  g_cache_hit : bool;
  g_reinitialized : bool;
  g_protocol_version : option string;
  g_sse_used : bool;
  g_failure_class : option string;
  g_blocked_before_dispatch : bool;
  g_latency_ms : option Z;
  g_service_slug : option string;
  g_operation_id : option string;
  g_operation_slug : option string;
  g_http_method : option string;
  g_http_status : option Z;
  g_request_bytes : option Z;
  g_response_bytes : option Z;
  g_target_revision : option Z;
  g_schema_hash : option string;
  g_rate_card_revision : option Z;
  g_billing_status : option string;
  g_billing_reason : option string;
  g_executed : option bool;
  g_failure_stage : option string
}.

(* src: ai-gateway/src/agent/tools/types.rs:261-266 ToolCost *)
Record ToolCost := mkToolCost { amount_micros : Z; tc_currency : string; tc_source : string }.

(* src: ai-gateway/src/agent/tools/types.rs:268-273 ToolPolicySummary *)
Record ToolPolicySummary := mkSummary { p_allowed : bool; p_decision : string; p_reason : string }.

(* src: ai-gateway/src/agent/tools/types.rs:275-279 ToolExecutionEvents *)
Record ToolExecutionEvents := mkEvents { started_event_id : option string; completed_event_id : option string }.

(* src: ai-gateway/src/agent/tools/types.rs:174-186 ToolCallResponse *)
Record ToolCallResponse := mkToolResponse {
  r_status : ToolExecutionStatus;
  r_tool_call_id : option string;
  r_tool_execution_id : string;
  r_output : Value;
  r_error : option ToolExecutionErrorEnvelope;
  r_gateway : option ToolGatewayMetadata;
  r_billing : ToolBillingOverride;
  r_cost : ToolCost;
  r_policy : ToolPolicySummary;
  r_events : ToolExecutionEvents
}.

Definition set_gateway (g : option ToolGatewayMetadata) (r : ToolCallResponse) : ToolCallResponse :=
  mkToolResponse (r_status r) (r_tool_call_id r) (r_tool_execution_id r) (r_output r) (r_error r) g
    (r_billing r) (r_cost r) (r_policy r) (r_events r).
Definition set_output (o : Value) (r : ToolCallResponse) : ToolCallResponse :=
  mkToolResponse (r_status r) (r_tool_call_id r) (r_tool_execution_id r) o (r_error r) (r_gateway r)
    (r_billing r) (r_cost r) (r_policy r) (r_events r).
Definition set_policy (p : ToolPolicySummary) (r : ToolCallResponse) : ToolCallResponse :=
  mkToolResponse (r_status r) (r_tool_call_id r) (r_tool_execution_id r) (r_output r) (r_error r) (r_gateway r)
    (r_billing r) (r_cost r) p (r_events r).
Definition set_events (e : ToolExecutionEvents) (r : ToolCallResponse) : ToolCallResponse :=
  mkToolResponse (r_status r) (r_tool_call_id r) (r_tool_execution_id r) (r_output r) (r_error r) (r_gateway r)
    (r_billing r) (r_cost r) (r_policy r) e.
Definition set_started (id : string) (r : ToolCallResponse) : ToolCallResponse :=
  set_events (mkEvents (Some id) (completed_event_id (r_events r))) r.
Definition set_completed (id : string) (r : ToolCallResponse) : ToolCallResponse :=
  set_events (mkEvents (started_event_id (r_events r)) (Some id)) r.

(** The configuration of the tools; the fields of [config/agent.rs] that no
    code reads outside of it are [require_policy_decision],
    [fail_open_for_static_targets] and [response_mode]. *)
(* src: ai-gateway/src/agent/tools/response.rs:16-22 AdapterResponseMode *)
Inductive AdapterResponseMode := AgentToolCompatible | HttpStrict.

(* src: ai-gateway/src/config/agent.rs:57-86 AgentToolsConfig *)
Record AgentToolsConfig := mkToolsConfig {
  tools_enabled : bool;
  require_policy_decision : bool;
  fail_open_for_static_targets : bool;
  schema_validation_enabled : bool;
  response_mode : AdapterResponseMode;
  mcp_sse_max_event_bytes : Z;
  mcp_sse_max_line_bytes : Z;
  mcp_sse_max_events : Z;
  mcp_sse_max_batch_items : Z;
  mcp_sse_idle_timeout_ms : Z;
  max_concurrent_per_workspace : Z;
  max_tool_call_cost_micros : option Z;
  egress_policy : AgentToolEgressPolicyConfig;
  timeout_ms : Z;
  max_request_bytes : Z;
  max_response_bytes : Z;
  targets : list ToolTarget
}.

(** ** What is said of a target *)

(* src: ai-gateway/src/agent/tools/service.rs:1040-1042 static_target_hash *)
Definition static_target_hash : string := "<absent>".

(* src: ai-gateway/src/agent/tools/service.rs:1044-1049 openapi_target_hash *)
Definition openapi_target_hash (request : ToolCallRequest) : string := default static_target_hash (q_target_hash request).

(* src: ai-gateway/src/agent/tools/service.rs:1051-1058 openapi_target_revision *)
Definition openapi_target_revision (request : ToolCallRequest) : option Z :=
  Some (match q_target_revision request with Some r => if (0 <=? r)%Z then r else 0%Z | None => 0%Z end).

(* src: ai-gateway/src/agent/tools/service.rs:1060-1065 openapi_service_slug *)
Definition openapi_service_slug (target : ToolTarget) : string := default (tool_id target) (service_slug target).

(* src: ai-gateway/src/agent/tools/service.rs:1067-1072 openapi_operation_id *)
Definition openapi_operation_id (target : ToolTarget) : string := default (tool_id target) (operation_id target).

(* src: ai-gateway/src/agent/tools/service.rs:1074-1080 openapi_operation_slug *)
Definition openapi_operation_slug (target : ToolTarget) : string :=
  match operation_slug target with
  | Some s => if is_empty s then tool_id target else s
  | None => tool_id target
  end.

(** The parts of a [url::Url] that enter the hash: scheme, host, port unless it
    is the scheme's default, path. *)
Record HashUrl := mkHashUrl {
  hash_scheme : string;
  hash_host : option string;
  hash_port : option Z;
  hash_path : string
}.

Section target_texts.
Context (sha256_hex : string → string) (to_vec : Value → string) (url_parse : string → option HashUrl).

(* src: ai-gateway/src/agent/tools/mcp_sse/target_hash.rs:35-51 normalize_url_for_hash *)
Definition normalize_url_for_hash (raw : string) : option string :=
  match url_parse raw with
  | None => None
  | Some parsed =>
      let scheme := to_ascii_lowercase (hash_scheme parsed) in
      match hash_host parsed with
      | None => None
      | Some host =>
          let host := to_ascii_lowercase host in
          let default_port := if String.eqb scheme "http" then Some 80%Z
                              else if String.eqb scheme "https" then Some 443%Z else None in
          let port_part := match hash_port parsed with
                           | Some p => if bool_decide (Some p ≠ default_port) then ":" ++ pretty p else ""
                           | None => ""
                           end in
          Some (scheme ++ "://" ++ host ++ port_part ++ hash_path parsed)
      end
  end.

(* src: ai-gateway/src/agent/tools/mcp_sse/target_hash.rs:6-33 canonical_mcp_sse_target_hash *)
Definition canonical_mcp_sse_target_hash (target : ToolTarget) (cfg : AgentToolsConfig) : string :=
  let normalized_url := default "" (tool_url target ≫= normalize_url_for_hash) in
  "sha256:" ++ sha256_hex (to_vec (Object [
    ("transportKind", Str "mcp-sse"); ("toolId", Str (tool_id target)); ("url", Str normalized_url);
    ("method", Str (to_ascii_uppercase (tool_method target)));
    ("timeoutMs", num (default (timeout_ms cfg) (tool_timeout_ms target)));
    ("authRevision", Str "0/static"); ("targetRevision", Str "0/static");
    ("sseMaxEventBytes", num (mcp_sse_max_event_bytes cfg)); ("sseMaxLineBytes", num (mcp_sse_max_line_bytes cfg));
    ("sseMaxEvents", num (mcp_sse_max_events cfg)); ("sseMaxBatchItems", num (mcp_sse_max_batch_items cfg));
    ("sseIdleTimeoutMs", num (mcp_sse_idle_timeout_ms cfg))])).

(* src: ai-gateway/src/agent/tools/service.rs:1210-1227 target_hash_for_gateway_metadata *)
Definition target_hash_for_gateway_metadata (target : ToolTarget) (request : ToolCallRequest) (cfg : AgentToolsConfig)
  : string :=
  match kind target with
  | McpSse => canonical_mcp_sse_target_hash target cfg
  | OpenApi => openapi_target_hash request
  | _ => default static_target_hash (q_target_hash request)
  end.

(* src: ai-gateway/src/agent/tools/service.rs:1096-1139 requested_openapi_operation_metadata *)
Definition requested_openapi_operation_metadata (target : ToolTarget) (request : ToolCallRequest) : Value :=
  let schema_hash := Str (schema_hash_for_value sha256_hex to_vec (input_schema target)) in
  let target_hash := Str (openapi_target_hash request) in
  let target_revision := num (default 0%Z (openapi_target_revision request)) in
  let cost := num (fixed_micros (rate_card target)) in
  let args := Str (arguments_hash sha256_hex to_vec (q_arguments request)) in
  let slug := Str (openapi_service_slug target) in
  let op := Str (openapi_operation_id target) in
  let op_slug := Str (openapi_operation_slug target) in
  Object [("targetKind", Str "openapi"); ("serviceSlug", slug); ("operationId", op); ("operationSlug", op_slug);
    ("targetHash", target_hash); ("schemaHash", schema_hash); ("targetRevision", target_revision);
    ("authRevision", Str "0/static"); ("rateCardRevision", num 0); ("estimatedCostMicros", cost);
    ("argumentsHash", args); ("currency", Str (rate_currency (rate_card target)));
    ("estimated_cost_micros", cost); ("schema_hash", schema_hash); ("arguments_hash", args);
    ("gateway", Object [("targetKind", Str "openapi"); ("serviceSlug", slug); ("operationId", op);
       ("operationSlug", op_slug); ("targetHash", target_hash); ("schemaHash", schema_hash);
       ("targetRevision", target_revision); ("authRevision", Str "0/static"); ("rateCardRevision", num 0)])].

(* src: ai-gateway/src/agent/tools/service.rs:1141-1180 requested_mcp_sse_operation_metadata *)
Definition requested_mcp_sse_operation_metadata (target : ToolTarget) (request : ToolCallRequest)
    (cfg : AgentToolsConfig) : Value :=
  let target_hash := Str (canonical_mcp_sse_target_hash target cfg) in
  let schema_hash := Str (schema_hash_for_value sha256_hex to_vec (input_schema target)) in
  let args := Str (arguments_hash sha256_hex to_vec (q_arguments request)) in
  let cost := num (fixed_micros (rate_card target)) in
  Object [("targetKind", Str "mcp-sse"); ("toolId", Str (tool_id target)); ("upstreamToolName", Str (tool_id target));
    ("targetHash", target_hash); ("schemaHash", schema_hash); ("targetRevision", Str "0/static");
    ("authRevision", Str "0/static"); ("rateCardRevision", num 0); ("estimatedCostMicros", cost);
    ("argumentsHash", args); ("currency", Str (rate_currency (rate_card target)));
    ("estimated_cost_micros", cost); ("schema_hash", schema_hash); ("arguments_hash", args);
    ("gateway", Object [("targetKind", Str "mcp-sse"); ("targetId", Str (tool_id target)); ("targetHash", target_hash);
       ("schemaHash", schema_hash); ("targetRevision", Str "0/static"); ("authRevision", Str "0/static");
       ("rateCardRevision", num 0)])].

(* src: ai-gateway/src/agent/tools/service.rs:1082-1094 requested_tool_operation_metadata *)
Definition requested_tool_operation_metadata (target : ToolTarget) (request : ToolCallRequest) (cfg : AgentToolsConfig)
  : Value :=
  match kind target with
  | OpenApi => requested_openapi_operation_metadata target request
  | McpSse => requested_mcp_sse_operation_metadata target request cfg
  | _ => Object []
  end.

Definition or_text (s alt : string) : string := if is_empty s then alt else s.
Definition or_else {A} (o : option A) (alt : option A) : option A := match o with Some _ => o | None => alt end.

(* src: ai-gateway/src/agent/tools/service.rs:1229-1268 enrich_openapi_gateway_metadata *)
Definition enrich_openapi (target : ToolTarget) (request : ToolCallRequest) (m : ToolGatewayMetadata)
  : ToolGatewayMetadata :=
  mkGateway (g_execution_source m) (or_text (g_target_kind m) "openapi") (g_target_id m)
    (or_text (g_target_hash m) (openapi_target_hash request)) (or_text (g_auth_revision m) "0/static")
    (g_cache_hit m) (g_reinitialized m) (g_protocol_version m) (g_sse_used m) (g_failure_class m)
    (g_blocked_before_dispatch m) (g_latency_ms m)
    (or_else (g_service_slug m) (Some (openapi_service_slug target)))
    (or_else (g_operation_id m) (Some (openapi_operation_id target)))
    (or_else (g_operation_slug m) (Some (openapi_operation_slug target)))
    (g_http_method m) (g_http_status m) (g_request_bytes m) (g_response_bytes m)
    (or_else (g_target_revision m) (openapi_target_revision request))
    (or_else (g_schema_hash m) (Some (schema_hash_for_value sha256_hex to_vec (input_schema target))))
    (or_else (g_rate_card_revision m) (Some 0%Z)) (g_billing_status m) (g_billing_reason m) (g_executed m)
    (g_failure_stage m).

(* src: ai-gateway/src/agent/tools/service.rs:1270-1302 enrich_mcp_sse_gateway_metadata *)
Definition enrich_mcp_sse (target : ToolTarget) (request : ToolCallRequest) (cfg : AgentToolsConfig)
    (m : ToolGatewayMetadata) : ToolGatewayMetadata :=
  mkGateway (g_execution_source m) (or_text (g_target_kind m) "mcp-sse") (or_text (g_target_id m) (tool_id target))
    (or_text (g_target_hash m) (target_hash_for_gateway_metadata target request cfg))
    (or_text (g_auth_revision m) "0/static") (g_cache_hit m) (g_reinitialized m) (g_protocol_version m) true
    (g_failure_class m) (g_blocked_before_dispatch m) (g_latency_ms m) (g_service_slug m) (g_operation_id m)
    (g_operation_slug m) (g_http_method m) (g_http_status m) (g_request_bytes m) (g_response_bytes m)
    (or_else (g_target_revision m) (Some 0%Z))
    (or_else (g_schema_hash m) (Some (schema_hash_for_value sha256_hex to_vec (input_schema target))))
    (or_else (g_rate_card_revision m) (Some 0%Z)) (g_billing_status m) (g_billing_reason m) (g_executed m)
    (g_failure_stage m).

(* src: ai-gateway/src/agent/tools/service.rs:1182-1197 enrich_target_gateway_metadata *)
Definition enrich_target_gateway_metadata (target : ToolTarget) (request : ToolCallRequest) (cfg : AgentToolsConfig)
    (response : ToolCallResponse) : ToolCallResponse :=
  match kind target with
  | OpenApi => set_gateway (enrich_openapi target request <$> r_gateway response) response
  | McpSse => set_gateway (enrich_mcp_sse target request cfg <$> r_gateway response) response
  | _ => response
  end.
End target_texts.

(** ** Calls stopped before they are dispatched *)

(** [ToolGatewayMetadata::default()] with the fields every such call sets. *)
Definition undispatched (kind id hash : string) (sse : bool) (failure : string) (latency : option Z)
  : ToolGatewayMetadata :=
  mkGateway "gateway_executed" kind id hash "0/static" false false None sse (Some failure) true latency
    None None None None None None None None None None None None None None.

Definition error_output (code message : string) (retryable : bool) : Value :=
  Object [("code", Str code); ("retryable", Bool retryable); ("message", Str message)].

Definition waived_cost (cur : string) : ToolCost := mkToolCost 0 cur "waived".

(* src: ai-gateway/src/agent/tools/service.rs:539-599 audit_unavailable_response *)
Definition audit_unavailable_response (request : ToolCallRequest) (exec_id requested_event_id : string)
  : ToolCallResponse :=
  let message := "audit sink unavailable; high-risk tool execution cannot proceed" in
  mkToolResponse Failed (q_tool_call_id request) exec_id
    (Object [("error", error_output "audit_unavailable" message true)])
    (Some (mkError "audit_unavailable" message true))
    (Some (undispatched "" (q_tool_id request) "" false "audit_unavailable" None))
    (mkBilling "audit_unavailable" false 0 "USD" exec_id) (waived_cost "USD")
    (mkSummary false "blocked" "audit_unavailable") (mkEvents (Some requested_event_id) None).

(* src: ai-gateway/src/agent/tools/service.rs:601-656 blocked_before_dispatch_response *)
Definition blocked_before_dispatch_response (request : ToolCallRequest) (reason exec_id : string) : ToolCallResponse :=
  let message := "agent tool call blocked before dispatch" in
  mkToolResponse Blocked (q_tool_call_id request) exec_id
    (Object [("error", error_output reason message false)]) (Some (mkError reason message false))
    (Some (undispatched "" (q_tool_id request) "" false reason None))
    (mkBilling reason false 0 "USD" exec_id) (waived_cost "USD")
    (mkSummary false "blocked" reason) (mkEvents None None).

Section stopped.
Context (sha256_hex : string → string) (to_vec : Value → string) (url_parse : string → option HashUrl).

Definition schema_hash_of (target : ToolTarget) : string := schema_hash_for_value sha256_hex to_vec (input_schema target).

(* src: ai-gateway/src/agent/tools/service.rs:658-741 openapi_pre_execution_failure_response *)
Definition openapi_pre_execution_failure_response (target : ToolTarget) (request : ToolCallRequest) (exec_id : string)
    (status : OpenApiOutcomeStatus) : ToolCallResponse :=
  let d := decide_outcome (mkOutcomeInput status (fixed_micros (rate_card target)) (rate_currency (rate_card target))
             false exec_id) in
  let failure := match out_error d with Some e => error_code e | None => out_billing_reason d end in
  let base := undispatched "openapi" (tool_id target) (openapi_target_hash request) false failure (Some 0%Z) in
  mkToolResponse (out_status d) (q_tool_call_id request) exec_id
    (Object [
       ("error", match out_error d with
                 | Some e => error_output (error_code e) (error_message e) (error_retryable e)
                 | None => Null
                 end);
       ("metadata", Object [
          ("billing", Object [("reason", Str (billing_reason (out_billing d)));
             ("billable", Bool (billable (out_billing d))); ("dedupeKey", Str (dedupe_key (out_billing d)))]);
          ("gateway", Object [("targetKind", Str "openapi"); ("executed", Bool (out_executed d));
             ("failureStage", Str (out_failure_stage d))])])])
    (out_error d)
    (Some (mkGateway (g_execution_source base) (g_target_kind base) (g_target_id base) (g_target_hash base)
       (g_auth_revision base) false false None false (Some failure) true (Some 0%Z)
       (Some (openapi_service_slug target)) (Some (openapi_operation_id target)) (Some (openapi_operation_slug target))
       None None None None (openapi_target_revision request) (Some (schema_hash_of target)) (Some 0%Z)
       (Some (out_billing_status d)) (Some (out_billing_reason d)) (Some (out_executed d))
       (Some (out_failure_stage d))))
    (out_billing d) (waived_cost (rate_currency (rate_card target)))
    (mkSummary true "allowed" "tool_allowed") (mkEvents None None).

(* src: ai-gateway/src/agent/tools/service.rs:830-925 generic_policy_blocked_response *)
Definition generic_policy_blocked_response (target : ToolTarget) (request : ToolCallRequest) (exec_id reason : string)
    (cfg : AgentToolsConfig) : ToolCallResponse :=
  let unavailable := String.eqb reason "policy_unavailable" in
  let code := if unavailable then "tool_policy_unavailable" else "tool_policy_denied" in
  let message := if unavailable then "Agent tool policy is unavailable"
                 else "Agent tool call was blocked by policy" in
  let kind_name := target_kind_name (kind target) in
  let key := "tool_execution:" ++ exec_id in
  mkToolResponse Blocked (q_tool_call_id request) exec_id
    (Object [
       ("error", error_output code message unavailable);
       ("metadata", Object [
          ("billing", Object [("reason", Str "policy_blocked"); ("billable", Bool false); ("dedupeKey", Str key)]);
          ("gateway", Object [("targetKind", Str kind_name); ("executed", Bool false);
             ("failureStage", Str "policy")])])])
    (Some (mkError code message unavailable))
    (Some (mkGateway "gateway_executed" kind_name (tool_id target)
       (target_hash_for_gateway_metadata sha256_hex to_vec url_parse target request cfg) "0/static" false false None
       (bool_decide (kind target = McpSse)) (Some reason) true (Some 0%Z) None None None None None None None
       (Some 0%Z) (Some (schema_hash_of target)) (Some 0%Z) (Some "waived") (Some "policy_blocked") (Some false)
       (Some "policy")))
    (mkBilling "policy_blocked" false 0 (rate_currency (rate_card target)) key)
    (waived_cost (rate_currency (rate_card target)))
    (mkSummary false "blocked" reason) (mkEvents None None).

(* src: ai-gateway/src/agent/tools/service.rs:789-809 policy_blocked_response_with_event *)
Definition policy_blocked_response (target : ToolTarget) (request : ToolCallRequest)
    (exec_id requested_event_id decision reason : string) (cfg : AgentToolsConfig) : ToolCallResponse :=
  let response := match kind target with
                  | OpenApi => openapi_pre_execution_failure_response target request exec_id PolicyBlocked
                  | _ => generic_policy_blocked_response target request exec_id reason cfg
                  end in
  set_policy (mkSummary false decision reason) (set_started requested_event_id response).

(* src: ai-gateway/src/agent/tools/service.rs:331-363 handle_call *)
Definition concurrency_limited_response (target : ToolTarget) (request : ToolCallRequest) (exec_id : string)
    (cfg : AgentToolsConfig) : ToolCallResponse :=
  let reason := "agent_tools_concurrency_limited" in
  let response := enrich_target_gateway_metadata sha256_hex to_vec url_parse target request cfg
                    (blocked_before_dispatch_response request reason exec_id) in
  let marked (m : ToolGatewayMetadata) :=
    mkGateway (g_execution_source m) (g_target_kind m) (g_target_id m) (g_target_hash m) (g_auth_revision m)
      (g_cache_hit m) (g_reinitialized m) (g_protocol_version m) (g_sse_used m) (g_failure_class m)
      (g_blocked_before_dispatch m) (g_latency_ms m) (g_service_slug m) (g_operation_id m) (g_operation_slug m)
      (g_http_method m) (g_http_status m) (g_request_bytes m) (g_response_bytes m) (g_target_revision m)
      (g_schema_hash m) (g_rate_card_revision m) (Some "waived") (Some reason) (Some false) (Some "concurrency") in
  set_output
    (Object [
       ("error", error_output reason "agent tool call blocked before dispatch" false);
       ("metadata", Object [
          ("billing", Object [("reason", Str reason); ("billable", Bool false);
             ("dedupeKey", Str (dedupe_key (r_billing response)))]);
          ("gateway", Object [("targetKind", Str (target_kind_name (kind target))); ("targetId", Str (tool_id target));
             ("executed", Bool false); ("failureStage", Str "concurrency"); ("failureClass", Str reason)])])])
    (set_gateway (marked <$> r_gateway response) response).
End stopped.

(** ** The envelope *)

(* src: ai-gateway/src/agent/tools/response.rs:3-14 ToolExecutionStatus *)
Inductive EnvelopeStatus :=
| EnvCompleted | EnvReplayed | EnvDenied | EnvBlocked | EnvApprovalRequired | EnvSnapshotStale | EnvFailed | EnvTimeout.

(* src: ai-gateway/src/agent/tools/response.rs:24-34 AgentAction *)
Inductive AgentAction :=
| ActNone | RefreshTools | WaitForApproval | ChooseAlternativeTool | AskUser | RetryAfter | Stop.

(* src: ai-gateway/src/agent/tools/response.rs:36-45 CostStage *)
Inductive CostStage := Estimated | Reserved | Settled | Released | Waived | Billed.

(* src: ai-gateway/src/agent/tools/response.rs:47-58 ToolCallCost *)
Record ToolCallCost := mkCallCost {
  stage : CostStage;
  estimated_micros : Z;
  reserved_micros : Z;
  actual_micros : Z;
  call_currency : string;
  call_billable : bool;
  rate_card_revision : Z;
  charge_on_failure : bool
}.

(* src: ai-gateway/src/agent/tools/response.rs:60-73 ToolCallCost::default *)
Definition default_call_cost : ToolCallCost := mkCallCost Waived 0 0 0 "USD" false 0 false.

(* src: ai-gateway/src/agent/tools/response.rs:75-83 ToolPolicyEnvelope *)
Record ToolPolicyEnvelope := mkPolicyEnvelope {
  pe_decision : string;
  pe_policy_id : string;
  pe_reason : string;
  pe_blocked_by : string;
  pe_policy_revision : Z
}.

(* src: ai-gateway/src/agent/tools/response.rs:85-92 ToolErrorEnvelope *)
Record ToolErrorEnvelope := mkErrorEnvelope {
  ee_code : string;
  ee_retryable : bool;
  ee_retry_after_ms : option Z;
  ee_message : string
}.

(* src: ai-gateway/src/agent/tools/response.rs:94-100 ToolEventIds *)
Record ToolEventIds := mkEventIds {
  requested_event_id : option string;
  policy_event_id : option string;
  env_completed_event_id : option string
}.

(* src: ai-gateway/src/agent/tools/response.rs:102-126 ToolCallEnvelope *)
Record ToolCallEnvelope := mkCallEnvelope {
  v_status : EnvelopeStatus;
  v_executed : bool;
  v_tool_execution_id : string;
  v_tool_id : string;
  v_run_id : option string;
  v_step_id : option string;
  v_tool_call_id : option string;
  v_snapshot_revision : Z;
  v_snapshot_source : string;
  v_policy_revision : Z;
  v_policy : ToolPolicyEnvelope;
  v_cost : ToolCallCost;
  v_events : ToolEventIds;
  v_agent_action : AgentAction;
  v_visible_to_user : bool;
  v_user_message : string;
  v_developer_message : string;
  v_admin_message : string;
  v_output : Value;
  v_error : option ToolErrorEnvelope;
  v_approval : option Value
}.

(* src: ai-gateway/src/agent/tools/service.rs:1409-1421 agent_action_for_response *)
Definition agent_action_for_response (r : ToolCallResponse) : AgentAction :=
  match r_status r with
  | Timeout | Failed =>
      match r_error r with Some e => if error_retryable e then RetryAfter else ActNone | None => ActNone end
  | Blocked | Denied => Stop
  | Completed => ActNone
  end.

(* src: ai-gateway/src/agent/tools/service.rs:1423-1438 tool_response_executed *)
Definition tool_response_executed (r : ToolCallResponse) : bool :=
  match r_gateway r ≫= g_executed with
  | Some executed => executed
  | None =>
      negb (match r_gateway r with Some m => g_blocked_before_dispatch m | None => false end)
      && bool_decide (r_status r ≠ Blocked) && bool_decide (r_status r ≠ Denied)
  end.

(* src: ai-gateway/src/agent/tools/service.rs:1344-1407 envelope_from_response *)
Definition envelope_from_response (request : ToolCallRequest) (r : ToolCallResponse) : ToolCallEnvelope := {|
  v_status := match r_status r with
              | Completed => EnvCompleted | Denied => EnvDenied | Blocked => EnvBlocked | Failed => EnvFailed
              | Timeout => EnvTimeout
              end;
  v_executed := tool_response_executed r;
  v_tool_execution_id := r_tool_execution_id r;
  v_tool_id := q_tool_id request;
  v_run_id := q_run_id request;
  v_step_id := q_step_id request;
  v_tool_call_id := r_tool_call_id r;
  v_snapshot_revision := 0;
  v_snapshot_source := "static";
  v_policy_revision := 0;
  v_policy := mkPolicyEnvelope (if String.eqb (p_decision (r_policy r)) "allowed" then "allow"
                                else p_decision (r_policy r)) "" (p_reason (r_policy r)) "" 0;
  v_cost := mkCallCost (if billable (r_billing r) then Settled else Waived) (cost_micros (r_billing r)) 0
              (cost_micros (r_billing r)) (currency (r_billing r)) (billable (r_billing r)) 0 false;
  v_events := mkEventIds (started_event_id (r_events r)) None (completed_event_id (r_events r));
  v_agent_action := agent_action_for_response r;
  v_visible_to_user := false;
  v_user_message := "";
  v_developer_message := "";
  v_admin_message := "";
  v_output := r_output r;
  v_error := (λ e, mkErrorEnvelope (error_code e) (error_retryable e) None (error_message e)) <$> r_error r;
  v_approval := None
|}.

(* src: ai-gateway/src/agent/tools/response.rs:164-181 http_status_for_response_mode *)
Definition http_status_for_response_mode (status : EnvelopeStatus) (mode : AdapterResponseMode) : Z :=
  match mode with
  | AgentToolCompatible => 200
  | HttpStrict =>
      match status with
      | EnvCompleted | EnvReplayed => 200
      | EnvDenied | EnvBlocked => 403
      | EnvApprovalRequired => 423
      | EnvSnapshotStale => 409
      | EnvFailed => 502
      | EnvTimeout => 504
      end
  end.

(** ** Stale catalogs *)

(* src: ai-gateway/src/agent/tools/service.rs:980-987 ToolCallStaleReason *)
Inductive ToolCallStaleReason :=
| StaleSnapshotRevision (requested active : Z)
| StaleSchemaHash (requested active : string)
| StaleToolVersion (requested active : Z)
| StaleTargetHash (requested active : string)
| StaleTargetRevision (requested active : Z).

(* src: ai-gateway/src/agent/tools/service.rs:990-998 ToolCallStaleReason::field_name *)
Definition stale_field_name (r : ToolCallStaleReason) : string :=
  match r with
  | StaleSnapshotRevision _ _ => "snapshotRevision" | StaleSchemaHash _ _ => "schemaHash"
  | StaleToolVersion _ _ => "toolVersion" | StaleTargetHash _ _ => "targetHash"
  | StaleTargetRevision _ _ => "targetRevision"
  end.

(* src: ai-gateway/src/agent/tools/service.rs:1007-1030 ToolCallStaleReason::admin_message *)
Definition stale_admin_message (r : ToolCallStaleReason) : string :=
  match r with
  | StaleSnapshotRevision a b => "requested snapshot revision " ++ pretty a ++
      " does not match active static snapshot revision " ++ pretty b
  | StaleSchemaHash a b => "requested schema hash " ++ a ++ " does not match active schema hash " ++ b
  | StaleToolVersion a b => "requested tool version " ++ pretty a ++ " does not match active tool version " ++ pretty b
  | StaleTargetHash a b => "requested target hash " ++ a ++ " does not match active target hash " ++ b
  | StaleTargetRevision a b => "requested target revision " ++ pretty a ++
      " does not match active target revision " ++ pretty b
  end.

(* src: ai-gateway/src/agent/tools/service.rs:1304-1342 stale_snapshot_response *)
Definition stale_snapshot_response (request : ToolCallRequest) (exec_id : string) (active : Z)
    (reason : ToolCallStaleReason) : ToolCallEnvelope := {|
  v_status := EnvSnapshotStale;
  v_executed := false;
  v_tool_execution_id := exec_id;
  v_tool_id := q_tool_id request;
  v_run_id := q_run_id request;
  v_step_id := q_step_id request;
  v_tool_call_id := q_tool_call_id request;
  v_snapshot_revision := active;
  v_snapshot_source := "static";
  v_policy_revision := 0;
  v_policy := mkPolicyEnvelope "blocked" "" "snapshot_stale" "" 0;
  v_cost := default_call_cost;
  v_events := mkEventIds None None None;
  v_agent_action := RefreshTools;
  v_visible_to_user := false;
  v_user_message := "";
  v_developer_message := "tool catalog " ++ stale_field_name reason ++ " is stale; refresh tools and retry";
  v_admin_message := stale_admin_message reason;
  v_output := Object [];
  v_error := Some (mkErrorEnvelope "snapshot_stale" true None
               ("tool catalog " ++ stale_field_name reason ++ " is stale; refresh tools before retrying"));
  v_approval := None
|}.

Definition nonzero (o : option Z) : option Z :=
  match o with Some n => if (n =? 0)%Z then None else Some n | None => None end.

Section stale.
Context (sha256_hex : string → string) (to_vec : Value → string).

(** The static catalog has revision 0 of everything and no target hashes. *)
(* src: ai-gateway/src/agent/tools/service.rs:931-978 tool_call_static_snapshot_guard_stale *)
Definition tool_call_static_snapshot_guard_stale (request : ToolCallRequest) (target : option ToolTarget)
  : option ToolCallStaleReason :=
  match nonzero (q_snapshot_revision request) with
  | Some requested => Some (StaleSnapshotRevision requested 0)
  | None =>
      match target with
      | None => None
      | Some target =>
          match nonzero (q_tool_version request) with
          | Some requested => Some (StaleToolVersion requested 0)
          | None =>
              match nonzero (q_target_revision request) with
              | Some requested => Some (StaleTargetRevision requested 0)
              | None =>
                  let active := schema_hash_for_value sha256_hex to_vec (input_schema target) in
                  match q_schema_hash request with
                  | Some requested =>
                      if negb (String.eqb requested active) then Some (StaleSchemaHash requested active)
                      else (λ h, StaleTargetHash h static_target_hash) <$> q_target_hash request
                  | None => (λ h, StaleTargetHash h static_target_hash) <$> q_target_hash request
                  end
              end
          end
      end
  end.
End stale.

(** ** Audit events *)

(** An event: what policy reads of it, and the rest. *)
(* src: ai-gateway/src/agent/event.rs:264-302 AgentEventEnvelope *)
Record ToolEvent := mkToolEvent {
  te_version : string;
  te_envelope : AgentEventEnvelope;
  te_source : AgentEventSource;
  te_phase : AgentEventPhase;
  te_policy_mode : AgentPolicyMode;
  te_source_trust : AgentEventSourceTrust;
  te_sequence : option Z;
  te_observed_at : Z;
  te_timestamp : option Z;
  te_agent_name : option string;
  te_agent_name_source : option string;
  te_agent_trust_level : option string;
  te_workspace_id : string;
  te_virtual_key_id : option string;
  te_parent_step_id : option string;
  te_handoff_id : option string;
  te_graph_node : option string;
  te_step_source : AgentStepSource;
  te_step_confidence : AgentConfidence;
  te_trust_level : AgentTrustLevel;
  te_context_conflict : bool;
  te_step_id_conflict : bool;
  te_attempt : option Z;
  te_input_hash : option string;
  te_billing_mirror_trusted : bool
}.

(* src: ai-gateway/src/agent/tools/audit.rs:222-228 first_nonempty_owned *)
Definition first_nonempty_owned (first second : option string) : option string :=
  or_else (nonempty_trimmed first) (nonempty_trimmed second).

(* src: ai-gateway/src/agent/tools/audit.rs:379-389 ToolExecutionStatus::as_str *)
Definition execution_status_as_str (s : ToolExecutionStatus) : string :=
  match s with
  | Completed => "completed" | Denied => "denied" | Blocked => "blocked" | Failed => "failed" | Timeout => "timeout"
  end.

(* src: ai-gateway/src/agent/tools/audit.rs:361-370 tool_billing_status *)
Definition tool_billing_status (r : ToolCallResponse) : string :=
  match r_status r with
  | Completed => if (0 <? amount_micros (r_cost r))%Z then "settled" else "waived"
  | Denied | Blocked | Failed => "waived"
  | Timeout => "pending"
  end.

(* src: ai-gateway/src/agent/tools/audit.rs:372-377 canonical_billing_status *)
Definition canonical_billing_status (status : string) : string :=
  if String.eqb status "actual" || String.eqb status "billable" then "settled" else status.

(* src: ai-gateway/src/agent/tools/audit.rs:333-346 insert_optional *)
Definition insert_optional (key : string) (v : option Value) (m : Value) : Value :=
  match v with Some v => set_field key v m | None => m end.

(* src: ai-gateway/src/agent/tools/audit.rs:291-331 gateway_tool_metadata *)
Definition gateway_tool_metadata (r : ToolCallResponse) : Value :=
  match r_gateway r with
  | None => Object []
  | Some g =>
      let m := Object [("targetKind", Str (g_target_kind g)); ("executionSource", Str (g_execution_source g));
        ("targetId", Str (g_target_id g)); ("targetHash", Str (g_target_hash g));
        ("authRevision", Str (g_auth_revision g)); ("cacheHit", Bool (g_cache_hit g));
        ("reinitialized", Bool (g_reinitialized g)); ("protocolVersion", opt_str (g_protocol_version g));
        ("sseUsed", Bool (g_sse_used g)); ("failureClass", opt_str (g_failure_class g));
        ("blockedBeforeDispatch", Bool (g_blocked_before_dispatch g)); ("latencyMs", opt_num (g_latency_ms g))] in
      let m := insert_optional "serviceSlug" (Str <$> g_service_slug g) m in
      let m := insert_optional "operationId" (Str <$> g_operation_id g) m in
      let m := insert_optional "operationSlug" (Str <$> g_operation_slug g) m in
      let m := insert_optional "httpMethod" (Str <$> g_http_method g) m in
      let m := insert_optional "httpStatus" (num <$> g_http_status g) m in
      let m := insert_optional "requestBytes" (num <$> g_request_bytes g) m in
      let m := insert_optional "responseBytes" (num <$> g_response_bytes g) m in
      let m := insert_optional "targetRevision" (num <$> g_target_revision g) m in
      let m := insert_optional "schemaHash" (Str <$> g_schema_hash g) m in
      let m := insert_optional "rateCardRevision" (num <$> g_rate_card_revision g) m in
      let m := insert_optional "billingStatus" (Str <$> g_billing_status g) m in
      let m := insert_optional "billingReason" (Str <$> g_billing_reason g) m in
      let m := insert_optional "executed" (Bool <$> g_executed g) m in
      insert_optional "failureStage" (Str <$> g_failure_stage g) m
  end.

Section events.
(** [serde_json]'s text of a floating point number. *)
Context (f64_text : f64 → string).

(* src: ai-gateway/src/agent/tools/audit.rs:357-359 micros_to_units *)
Definition micros_to_units (cost : ToolCost) : f64 := f64_div (f64_of_Z (amount_micros cost)) (f64_of_Z 1000000).

(* src: ai-gateway/src/agent/tools/audit.rs:230-289 tool_execution_metadata *)
Definition tool_execution_metadata (request : ToolCallRequest) (r : ToolCallResponse) : Value :=
  let status := match r_gateway r ≫= g_billing_status with
                | Some s => canonical_billing_status s
                | None => tool_billing_status r
                end in
  let reason := match r_gateway r ≫= g_billing_reason with
                | Some reason => Str reason
                | None => if String.eqb status "settled" then Null else Str (billing_reason (r_billing r))
                end in
  Object [("status", Str (execution_status_as_str (r_status r))); ("severity", Str "info");
    ("message", Str "agent tool execution completed"); ("tool_id", Str (q_tool_id request));
    ("tool_name", Str (q_tool_id request)); ("toolExecutionId", Str (r_tool_execution_id r));
    ("toolCallId", opt_str (r_tool_call_id r)); ("toolCostMicros", num (amount_micros (r_cost r)));
    ("toolCostCurrency", Str (tc_currency (r_cost r))); ("cost", Number (f64_text (micros_to_units (r_cost r))));
    ("policy", Object [("allowed", Bool (p_allowed (r_policy r))); ("decision", Str (p_decision (r_policy r)));
       ("reason", Str (p_reason (r_policy r)))]);
    ("gateway", gateway_tool_metadata r);
    ("billing", Object [("version", Str "2026-06-09"); ("costType", Str "tool"); ("costSubtype", Str "tool");
       ("status", Str status); ("billable", Bool (billable (r_billing r)));
       ("amountMicros", num (cost_micros (r_billing r))); ("costMicros", num (cost_micros (r_billing r)));
       ("currency", Str (currency (r_billing r))); ("pricingSource", Str (tc_source (r_cost r)));
       ("pricingRevision", num 0); ("dedupeKey", Str (dedupe_key (r_billing r)));
       ("observedKind", Str "runtime_confirmed"); ("chargeOnFailure", Bool false); ("reason", reason)])].

(** [now] and the event's identifier come from the clock and [Uuid::new_v4]. *)
(* src: ai-gateway/src/agent/tools/audit.rs:136-220 base_tool_event *)
Definition base_tool_event (now : Z) (uuid : string) (auth : AuthContext) (header : option AgentContext)
    (request : ToolCallRequest) (type : string) (phase : AgentEventPhase) (policy_stage : AgentPolicyStage)
    (step_kind : option AgentStepKind) (sequence : option Z) (meta : Value) : ToolEvent :=
  let bound := trusted_agent_id_from_auth auth in
  let resolved := resolve_agent_name (auth_agent_name auth) (q_agent_name request) (header ≫= agent_name) in
  let trust := match bound with Some _ => AuthBound | None => default SelfReported (resolved_trust resolved) end in
  mkToolEvent "2026-06-05"
    (mkEnvelope ("evt_" ++ uuid) type policy_stage (Some (q_tool_id request))
       (first_nonempty_owned (q_agent_id request) (header ≫= agent_id_external)) bound
       (first_nonempty_owned (q_run_id request) (header ≫= run_id))
       (first_nonempty_owned (q_step_id request) (header ≫= ctx_step_id))
       (first_nonempty_owned (q_tool_call_id request) (header ≫= ctx_tool_call_id)) step_kind meta)
    Alephant phase Audit GatewayExecuted sequence now (Some now) (name resolved) (source resolved)
    (Some (trust_level_as_str trust)) (org_id auth) (virtual_key_id auth)
    (first_nonempty_owned (q_parent_step_id request) (header ≫= ctx_parent_step_id)) None None
    Gateway High trust false false None None true.

(* src: ai-gateway/src/agent/tools/audit.rs:48-66 tool_execution_completed_event_with_optional_sequence *)
Definition tool_execution_completed_event (now : Z) (uuid : string) (auth : AuthContext) (header : option AgentContext)
    (request : ToolCallRequest) (r : ToolCallResponse) (sequence : option Z) : ToolEvent :=
  base_tool_event now uuid auth header request "tool.result.received" After AuditOnly (Some ToolResult) sequence
    (tool_execution_metadata request r).

(* src: ai-gateway/src/agent/tools/audit.rs:348-355 merge_object_metadata *)
Definition merge_object_metadata (m extra : Value) : Value :=
  match m, extra with
  | Object fields, Object more => Object (fold_left (λ f kv, assoc_set kv.1 kv.2 f) more fields)
  | _, _ => m
  end.

(* src: ai-gateway/src/agent/tools/audit.rs:68-101 tool_call_requested_event *)
Definition tool_call_requested_event (now : Z) (uuid : string) (auth : AuthContext) (header : option AgentContext)
    (request : ToolCallRequest) (exec_id : string) (sequence : Z) (operation : Value) : ToolEvent :=
  let m := Object [("status", Str "requested"); ("severity", Str "info");
    ("message", Str "agent tool call requested"); ("tool_id", Str (q_tool_id request));
    ("tool_name", Str (q_tool_id request)); ("toolExecutionId", Str exec_id); ("tool_execution_id", Str exec_id);
    ("toolCallId", opt_str (q_tool_call_id request)); ("executed", Bool false); ("failureStage", Str "")] in
  base_tool_event now uuid auth header request "tool.call.requested" Before PreAction (Some ToolCall) (Some sequence)
    (merge_object_metadata m operation).
End events.

Definition tool_event_id (e : ToolEvent) : string := event_id (te_envelope e).

(** ** Writing an event *)

(** What a Redis command comes to under the timeout. *)
Inductive RedisReply := RedisOk | RedisFailed | RedisElapsed.
(** What the HTTP request comes to. *)
Inductive HttpReply := HttpError | HttpAnswered (status : Z).

(* src: ai-gateway/src/agent/log_transport.rs:19-33 AgentEventLogTransportError *)
Inductive AgentEventLogTransportError :=
| TransportRedis | TransportRedisTimeout (command : string) | TransportHttp | TransportHttpStatus (status : Z)
| HttpFallbackDisabled.

(** The requests that left the gateway. *)
Inductive LogRequest := Ping | Xadd | HttpPost.

Section log_transport.
Context (http_fallback_enabled : bool) (http : HttpReply).

(* src: ai-gateway/src/agent/log_transport.rs:135-165 AgentEventLogTransport::send_http *)
Definition send_http (redis_error : option AgentEventLogTransportError)
  : list LogRequest * result unit AgentEventLogTransportError :=
  if negb http_fallback_enabled then ([], Err (default HttpFallbackDisabled redis_error))
  else ([HttpPost],
        match http with
        | HttpError => Err TransportHttp
        | HttpAnswered status =>
            if ((200 <=? status) && (status <=? 299))%Z then Ok tt else Err (TransportHttpStatus status)
        end).

(** [redis]: the replies to PING and XADD when Redis is configured. *)
(* src: ai-gateway/src/agent/log_transport.rs:57-133 AgentEventLogTransport::send *)
Definition transport_send (redis : option (RedisReply * RedisReply))
  : list LogRequest * result unit AgentEventLogTransportError :=
  match redis with
  | None => send_http None
  | Some (ping, xadd) =>
      match ping with
      | RedisOk =>
          match xadd with
          | RedisOk => ([Ping; Xadd], Ok tt)
          | RedisFailed => let '(l, r) := send_http (Some TransportRedis) in (Ping :: Xadd :: l, r)
          | RedisElapsed => let '(l, r) := send_http (Some (TransportRedisTimeout "xadd")) in (Ping :: Xadd :: l, r)
          end
      | RedisFailed => let '(l, r) := send_http (Some TransportRedis) in (Ping :: l, r)
      | RedisElapsed => let '(l, r) := send_http (Some (TransportRedisTimeout "ping")) in (Ping :: l, r)
      end
  end.
End log_transport.

(** ** Executors *)

(* src: ai-gateway/src/agent/tools/executor.rs:25-31 ToolExecutionErrorKind *)
Inductive ToolExecutionErrorKind := ToolTargetUnavailable | ToolExecutionFailed.

(* src: ai-gateway/src/agent/tools/executor.rs:382-391 effective_timeout_ms *)
Definition effective_timeout_ms (target_timeout request_timeout : option Z) (default_timeout : Z) : Z :=
  let configured := Z.max (default default_timeout target_timeout) 1 in
  match request_timeout with
  | Some requested => Z.min (Z.max requested 1) configured
  | None => configured
  end.

(** The execution id is always set by the service (see [AgentTools]); [fresh]
    is the one made here when it is not. *)
(* src: ai-gateway/src/agent/tools/executor.rs:344-380 completed_response *)
Definition completed_response (fresh : string) (target : ToolTarget) (request : ToolCallRequest) (output : Value)
  : ToolCallResponse :=
  let exec_id := default ("exec_" ++ fresh) (q_tool_execution_id request) in
  let price := fixed_micros (rate_card target) in
  let cur := rate_currency (rate_card target) in
  mkToolResponse Completed (q_tool_call_id request) exec_id output None None
    (mkBilling "success" true price cur exec_id) (mkToolCost price cur "rate_card")
    (mkSummary true "allowed" "tool_allowed") (mkEvents None None).

(* src: ai-gateway/src/agent/tools/executor.rs:244-258 mock_tool_response *)
Definition mock_tool_response (now_rfc3339 fresh : string) (target : ToolTarget) (request : ToolCallRequest)
  : ToolCallResponse :=
  completed_response fresh target request
    (Object [("tool_id", Str (q_tool_id request)); ("arguments", q_arguments request); ("mocked", Bool true);
       ("observed_at", Str now_rfc3339)]).

(** A response as the HTTP client gives it: its status, the length it
    announces, and the chunks of its body, each of which can be an error. *)
Record HttpResponse := mkHttpResponse {
  hr_status : Z;
  hr_content_length : option Z;
  hr_chunks : list (option string)
}.

(* src: ai-gateway/src/agent/tools/executor.rs:324-339 parse_limited_json_response *)
Fixpoint collect_limited (max : Z) (body : string) (chunks : list (option string))
  : result string ToolExecutionErrorKind :=
  match chunks with
  | [] => Ok body
  | None :: _ => Err ToolExecutionFailed
  | Some chunk :: rest =>
      if (max <? Z.of_nat (len body + len chunk))%Z then Err ToolExecutionFailed
      else collect_limited max (body ++ chunk) rest
  end.

Section http_tool.
Context (from_slice : string → option Value) (url_parse_egress : string → option Url).
(** [post url timeout_ms use_env_proxy body]: a request without redirects. *)
Context (post : string → Z → bool → Value → option HttpResponse).

(* src: ai-gateway/src/agent/tools/executor.rs:313-342 parse_limited_json_response *)
Definition parse_limited_json_response (response : HttpResponse) (max : Z) : result Value ToolExecutionErrorKind :=
  if (match hr_content_length response with Some n => (max <? n)%Z | None => false end) then Err ToolExecutionFailed
  else
    let? body := collect_limited max "" (hr_chunks response) in
    ok_or (from_slice body) ToolExecutionFailed.

(* src: ai-gateway/src/agent/tools/executor.rs:260-311 execute_http_tool *)
Definition execute_http_tool (fresh : string) (target : ToolTarget) (request : ToolCallRequest)
    (policy : AgentToolEgressPolicyConfig) (default_timeout max : Z)
  : result ToolCallResponse ToolExecutionErrorKind :=
  if negb (eq_ignore_ascii_case (tool_method target) "POST") then Err ToolTargetUnavailable
  else
    let? url := ok_or (tool_url target) ToolTargetUnavailable in
    let? _ := map_err (λ _, ToolTargetUnavailable) (validate_target_url (url_parse_egress url) policy) in
    let? parsed := ok_or (url_parse_egress url) ToolTargetUnavailable in
    if negb (String.eqb (scheme parsed) "http" || String.eqb (scheme parsed) "https") then Err ToolTargetUnavailable
    else
      let timeout := effective_timeout_ms (tool_timeout_ms target) (q_timeout_ms request) default_timeout in
      let payload := Object [("tool_id", Str (q_tool_id request)); ("arguments", q_arguments request);
        ("tool_call_id", opt_str (q_tool_call_id request));
        ("tool_execution_id", opt_str (q_tool_execution_id request))] in
      let? response := ok_or (post url timeout (allow_environment_proxy policy) payload) ToolTargetUnavailable in
      if negb ((200 <=? hr_status response) && (hr_status response <=? 299))%Z then Err ToolExecutionFailed
      else
        let? output := parse_limited_json_response response max in
        Ok (completed_response fresh target request output).
End http_tool.

(** ** Lemmas *)

(** A call that did not run: nothing is owed for it. *)
Definition not_charged (r : ToolCallResponse) : Prop :=
  tool_response_executed r = false ∧ billable (r_billing r) = false ∧ cost_micros (r_billing r) = 0%Z ∧
  amount_micros (r_cost r) = 0%Z.

Lemma not_charged_events e r : not_charged r → not_charged (set_events e r).
Proof. by destruct r. Qed.

Lemma not_charged_policy p r : not_charged r → not_charged (set_policy p r).
Proof. by destruct r. Qed.

Lemma not_charged_envelope request r :
  not_charged r →
  let v := envelope_from_response request r in
  v_executed v = false ∧ call_billable (v_cost v) = false ∧ actual_micros (v_cost v) = 0%Z ∧ stage (v_cost v) = Waived.
Proof. intros (He & Hb & Hc & _). simpl. by rw He Hb Hc. Qed.

Lemma enrich_executed sha to_vec url target request cfg r :
  tool_response_executed (enrich_target_gateway_metadata sha to_vec url target request cfg r) =
  tool_response_executed r.
Proof. rw /enrich_target_gateway_metadata. destruct r as [? ? ? ? ? [g|]]; by destruct (kind target). Qed.

Lemma enrich_billing sha to_vec url target request cfg r :
  let r' := enrich_target_gateway_metadata sha to_vec url target request cfg r in
  r_billing r' = r_billing r ∧ r_cost r' = r_cost r ∧ r_status r' = r_status r ∧ r_output r' = r_output r ∧
  r_tool_execution_id r' = r_tool_execution_id r.
Proof. rw /enrich_target_gateway_metadata. by destruct (kind target). Qed.

Lemma not_charged_enrich sha to_vec url target request cfg r :
  not_charged r → not_charged (enrich_target_gateway_metadata sha to_vec url target request cfg r).
Proof.
  intros (He & H). rw /not_charged enrich_executed.
  by destruct (enrich_billing sha to_vec url target request cfg r) as (-> & -> & _).
Qed.

Lemma not_charged_audit q x e : not_charged (audit_unavailable_response q x e).
Proof. done. Qed.
Lemma not_charged_blocked q reason x : not_charged (blocked_before_dispatch_response q reason x).
Proof. done. Qed.
Lemma not_charged_policy_blocked sha to_vec url t q x e d reason cfg :
  not_charged (policy_blocked_response sha to_vec url t q x e d reason cfg).
Proof.
  rw /policy_blocked_response /set_started. apply not_charged_policy, not_charged_events. by destruct (kind t).
Qed.
Lemma not_charged_limited sha to_vec url t q x cfg :
  not_charged (concurrency_limited_response sha to_vec url t q x cfg).
Proof. rw /concurrency_limited_response /enrich_target_gateway_metadata. by destruct (kind t). Qed.
Lemma not_charged_stale sha to_vec t q x :
  not_charged (openapi_pre_execution_failure_response sha to_vec t q x SnapshotStale) ∧
  not_charged (openapi_pre_execution_failure_response sha to_vec t q x SchemaInvalid).
Proof. done. Qed.

Create HintDb tool_calls.
#[export] Hint Resolve not_charged_events not_charged_policy not_charged_enrich not_charged_audit not_charged_blocked
  not_charged_policy_blocked not_charged_limited : tool_calls.

(** The guard for stale catalogs, as what a call may claim. *)
Lemma guard_stale_None sha to_vec q t :
  tool_call_static_snapshot_guard_stale sha to_vec q (Some t) = None ↔
  nonzero (q_snapshot_revision q) = None ∧ nonzero (q_tool_version q) = None ∧ nonzero (q_target_revision q) = None ∧
  q_target_hash q = None ∧
  (∀ h, q_schema_hash q = Some h → h = schema_hash_for_value sha to_vec (input_schema t)).
Proof.
  rw /tool_call_static_snapshot_guard_stale.
  destruct (nonzero (q_snapshot_revision q)); [naive_solver|].
  destruct (nonzero (q_tool_version q)); [naive_solver|].
  destruct (nonzero (q_target_revision q)); [naive_solver|].
  destruct (q_schema_hash q) as [h|]; [|destruct (q_target_hash q); naive_solver].
  destruct (String.eqb_spec h (schema_hash_for_value sha to_vec (input_schema t))); simpl;
    [destruct (q_target_hash q); naive_solver|naive_solver].
Qed.

Lemma transport_send_ok fallback http redis :
  (transport_send fallback http redis).2 = Ok tt ↔
  redis = Some (RedisOk, RedisOk) ∨
  (redis ≠ Some (RedisOk, RedisOk) ∧ fallback = true ∧ ∃ s, http = HttpAnswered s ∧ (200 ≤ s ≤ 299)%Z).
Proof.
  rw /transport_send /send_http.
  destruct redis as [[[] []]|], fallback, http as [|s]; simpl; try case_match; bool_to_prop; naive_solver lia.
Qed.

(** XADD acknowledged: the event is not sent a second time. *)
Lemma transport_send_once fallback http redis :
  HttpPost ∈ (transport_send fallback http redis).1 → redis ≠ Some (RedisOk, RedisOk).
Proof. intros H ->. set_solver. Qed.

Lemma collect_limited_bound max chunks : ∀ body r,
  collect_limited max body chunks = Ok r → (Z.of_nat (len body) ≤ max)%Z → (Z.of_nat (len r) ≤ max)%Z.
Proof.
  induction chunks as [|[c|] chunks IH]; intros body r; cbn [collect_limited]; [by intros [= <-]| |done].
  case_match; [done|]. bool_to_prop. intros Hr _. eapply IH; [exact Hr|]. rw len_app. lia.
Qed.
