(* ===== verification/AgentTools.v ===== *)
(** * The service that lists and calls agent tools

    Models [ai-gateway/src/agent/tools/service.rs]: the limit on concurrent
    calls of a workspace, the two handlers with every early return, and the
    errors.  A call gives the sequence of its effects on the outside (events
    written, policy asked, tool run) and its answer.

    The executors of MCP and OpenAPI tools are a parameter, as are the event
    sink, the policy service, the clock, identifiers and serde. *)

From S2P Require Import Prelude Routing RustStr Float64 Json StepState Headers AgentContext AgentPolicy Egress ToolCatalog ToolCalls.
From Stdlib Require Import Ascii.
Local Open Scope string_scope.

(** ** Concurrency of a workspace *)

(** The permits that are left in the semaphore of each workspace seen. *)
(* src: ai-gateway/src/agent/tools/service.rs:66-69 AgentToolsConcurrencyLimiter *)
Record Limiter := mkLimiter { workspaces : gmap string Z }.

(* src: ai-gateway/src/agent/tools/service.rs:71-75 AgentToolsWorkspacePermit *)
Inductive WorkspacePermit := Unlimited | Limited (workspace : string).

(* src: ai-gateway/src/agent/tools/service.rs:78-99 AgentToolsConcurrencyLimiter::try_acquire_workspace *)
Definition try_acquire_workspace (l : Limiter) (workspace_id : string) (limit : Z) : option WorkspacePermit * Limiter :=
  if (limit =? 0)%Z then (Some Unlimited, l)
  else
    let available := default limit (workspaces l !! workspace_id) in
    if (0 <? available)%Z
    then (Some (Limited workspace_id), mkLimiter (<[workspace_id := (available - 1)%Z]> (workspaces l)))
    else (None, mkLimiter (<[workspace_id := available]> (workspaces l))).

(** Dropping a permit. *)
Definition drop_permit (l : Limiter) (p : WorkspacePermit) : Limiter :=
  match p with
  | Unlimited => l
  | Limited w => mkLimiter (<[w := (default 0 (workspaces l !! w) + 1)%Z]> (workspaces l))
  end.

(** ** Errors *)

(* src: ai-gateway/src/agent/tools/service.rs:140-164 AgentToolsServiceError *)
Inductive AgentToolsServiceError :=
| Disabled | MethodNotAllowed | MissingRoute | MissingAuth | PayloadTooLarge | InvalidJson | InvalidArguments
| ToolIdRequired | ToolNotAllowed | TargetUnavailable | ExecutionFailed.

(* src: ai-gateway/src/agent/tools/service.rs:167-181 AgentToolsServiceError::code *)
Definition service_error_code (e : AgentToolsServiceError) : string :=
  match e with
  | Disabled => "agent_tools_disabled" | MethodNotAllowed => "method_not_allowed" | MissingRoute => "missing_route"
  | MissingAuth => "missing_auth" | PayloadTooLarge => "payload_too_large" | InvalidJson => "invalid_json"
  | InvalidArguments => "invalid_arguments" | ToolIdRequired => "tool_id_required"
  | ToolNotAllowed => "tool_not_allowed" | TargetUnavailable => "tool_target_unavailable"
  | ExecutionFailed => "tool_execution_failed"
  end.

(* src: ai-gateway/src/agent/tools/service.rs:140-164 AgentToolsServiceError *)
Definition service_error_message (e : AgentToolsServiceError) : string :=
  match e with
  | Disabled => "agent tools gateway is disabled"
  | MethodNotAllowed => "agent tools route only supports POST"
  | MissingRoute => "agent tools route type is missing"
  | MissingAuth => "agent tools authentication context is missing"
  | PayloadTooLarge => "agent tools request payload is too large"
  | InvalidJson => "agent tools request payload is invalid JSON"
  | InvalidArguments => "agent tool arguments do not satisfy the input schema"
  | ToolIdRequired => "agent tools call requires tool_id"
  | ToolNotAllowed => "agent tool is not allowed"
  | TargetUnavailable => "agent tool target is unavailable"
  | ExecutionFailed => "agent tool execution failed"
  end.

Inductive AnswerBody :=
| EnvelopeBody (e : ToolCallEnvelope)
| ListBody (tools : list ToolDescriptor)
| ErrorBody (code message : string).

Record Answer := mkAnswer { answer_status : Z; answer_body : AnswerBody }.

(* src: ai-gateway/src/agent/tools/service.rs:1454-1476 error_response *)
Definition error_response (e : AgentToolsServiceError) : Answer :=
  let status := match e with
                | Disabled => 503 | MethodNotAllowed => 405 | MissingRoute => 404 | MissingAuth => 401
                | PayloadTooLarge => 413 | InvalidJson | InvalidArguments | ToolIdRequired => 400
                | ToolNotAllowed => 403 | TargetUnavailable | ExecutionFailed => 502
                end%Z in
  mkAnswer status (ErrorBody (service_error_code e) (service_error_message e)).

(* src: ai-gateway/src/agent/tools/service.rs:523-528 is_fail_closed_risk_level *)
Definition is_fail_closed_risk_level (risk : string) : bool :=
  let r := to_ascii_lowercase (trim risk) in String.eqb r "high" || String.eqb r "critical".

(* src: ai-gateway/src/agent/tools/service.rs:530-537 target_requires_policy_preflight *)
Definition target_requires_policy_preflight (k : AgentToolTargetKind) : bool :=
  match k with OpenApi | McpStreamableHttp | McpSse => true | _ => false end.

(* src: ai-gateway/src/agent/tools/service.rs:927-929 estimate_tool_cost_micros *)
Definition estimate_tool_cost_micros (target : ToolTarget) : Z := fixed_micros (rate_card target).

(** ** Effects *)

Inductive Effect :=
| EmitEvent (event : ToolEvent) (accepted : bool)
| AskPolicy (event : ToolEvent)
| ExecuteTool (target : ToolTarget) (request : ToolCallRequest).

(** A step of a call: its effects, and a value or the answer it returns early. *)
Definition Call (A : Type) : Type := Traced Effect (result Answer AgentToolsServiceError) A.

Definition call_stop {A} (r : result Answer AgentToolsServiceError) : Call A := traced_stop r.
Definition call_tell (e : Effect) : Call unit := traced_tell e.

(** What the service asks of the outside during one call. *)
Record World := mkWorld {
  sha256_hex : string → string;
  to_vec : Value → string;
  hash_url : string → option HashUrl;
  f64_text : f64 → string;
  as_i64 : string → option Z;
  from_slice : string → option Value;
  egress_url : string → option Url;
  http_post : string → Z → bool → Value → option HttpResponse;
  (** The derived readers of a call and of a listing's agent id. *)
  read_call : string → option ToolCallRequest;
  read_list : string → option (option string);
  now : Z;
  now_rfc3339 : string;
  (** The identifiers drawn in the call, by their order in the code. *)
  uuid : nat → string;
  (** Whether [emit_agent_event] succeeds. *)
  sink : ToolEvent → bool;
  policy_enabled : bool;
  policy_client : option (ValidateAgentPolicyRequest → PolicyCall);
  (** The executors of MCP and OpenAPI tools. *)
  remote_execute : ToolTarget → ToolCallRequest → result ToolCallResponse ToolExecutionErrorKind
}.

Section service.
Context (w : World) (cfg : AgentToolsConfig) (auth : AuthContext) (header : option AgentContext).

(** ** Executing *)

(* src: ai-gateway/src/agent/tools/executor.rs:109-200 execute_tool_with_context *)
Definition execute_tool (target : ToolTarget) (request : ToolCallRequest)
  : result ToolCallResponse ToolExecutionErrorKind :=
  match kind target with
  | Mock => Ok (mock_tool_response (now_rfc3339 w) (uuid w 3) target request)
  | Http => execute_http_tool (from_slice w) (egress_url w) (http_post w) (uuid w 3) target request
              (egress_policy cfg) (timeout_ms cfg) (max_response_bytes cfg)
  | McpHttp | McpStreamableHttp | McpSse | OpenApi => remote_execute w target request
  end.

Definition service_error (e : ToolExecutionErrorKind) : AgentToolsServiceError :=
  match e with ToolTargetUnavailable => TargetUnavailable | ToolExecutionFailed => ExecutionFailed end.

(** ** Events *)

Definition emit (e : ToolEvent) : Call bool := ([EmitEvent e (sink w e)], inl (sink w e)).

Definition completed_event (request : ToolCallRequest) (r : ToolCallResponse) (sequence : Z) : ToolEvent :=
  tool_execution_completed_event (f64_text w) (now w) (uuid w 2) auth header request r (Some sequence).

(** The event that ends a call is written, whatever becomes of it, and its
    identifier is in the answer. *)
(* src: ai-gateway/src/agent/tools/service.rs:503-520 handle_call *)
Definition finish {A} (request : ToolCallRequest) (r : ToolCallResponse) (sequence : Z) : Call A :=
  let event := completed_event request r sequence in
  let r := set_completed (tool_event_id event) r in
  let* _ := emit event in
  call_stop (Ok (mkAnswer 200 (EnvelopeBody (envelope_from_response request r)))).

(* src: ai-gateway/src/agent/tools/service.rs:743-774 openapi_pre_execution_failure_response_with_event *)
Definition openapi_failure {A} (target : ToolTarget) (request : ToolCallRequest) (exec_id : string)
    (status : OpenApiOutcomeStatus) (sequence : Z) : Call A :=
  finish request (openapi_pre_execution_failure_response (sha256_hex w) (to_vec w) target request exec_id status)
    sequence.

(** ** Before a call is let in *)

(* src: ai-gateway/src/agent/tools/service.rs:260-323 handle_call *)
Definition accept_call (body : string) : Call (ToolCallRequest * string * ToolTarget) :=
  match read_call w body with
  | None => call_stop (Err InvalidJson)
  | Some request =>
      if is_empty (trim (q_tool_id request)) then call_stop (Err ToolIdRequired)
      else
        let exec_id := "exec_" ++ uuid w 0 in
        let request := with_execution_id exec_id request in
        let stale target := tool_call_static_snapshot_guard_stale (sha256_hex w) (to_vec w) request target in
        match stale None with
        | Some reason => call_stop (Ok (mkAnswer 200 (EnvelopeBody (stale_snapshot_response request exec_id 0 reason))))
        | None =>
            match find_callable_tool auth (targets cfg) (q_agent_id request) (q_tool_id request) with
            | None => call_stop (Err ToolNotAllowed)
            | Some target =>
                match stale (Some target) with
                | Some reason =>
                    if bool_decide (kind target = OpenApi) then openapi_failure target request exec_id SnapshotStale 1
                    else call_stop (Ok (mkAnswer 200 (EnvelopeBody (stale_snapshot_response request exec_id 0 reason))))
                | None =>
                    if schema_validation_enabled cfg
                       && negb (is_ok (validate_arguments (input_schema target) (q_arguments request)))
                    then if bool_decide (kind target = OpenApi)
                         then openapi_failure target request exec_id SchemaInvalid 1
                         else call_stop (Err InvalidArguments)
                    else traced_ret (request, exec_id, target)
                end
            end
        end
  end.

(** ** With a permit *)

Definition requested_event (target : ToolTarget) (request : ToolCallRequest) (exec_id : string) : ToolEvent :=
  tool_call_requested_event (now w) (uuid w 1) auth header request exec_id 1
    (requested_tool_operation_metadata (sha256_hex w) (to_vec w) (hash_url w) target request cfg).

(* src: ai-gateway/src/agent/tools/service.rs:371-406 handle_call *)
Definition request_audit (target : ToolTarget) (request : ToolCallRequest) (exec_id : string) : Call unit :=
  let event := requested_event target request exec_id in
  let* accepted := emit event in
  if negb accepted && is_fail_closed_risk_level (risk_level target)
  then call_stop (Ok (mkAnswer 503 (EnvelopeBody (envelope_from_response request
         (audit_unavailable_response request exec_id (tool_event_id event))))))
  else traced_ret tt.

(* src: ai-gateway/src/agent/tools/service.rs:776-828 policy_blocked_response_with_event *)
Definition policy_blocked {A} (target : ToolTarget) (request : ToolCallRequest) (exec_id decision reason : string)
  : Call A :=
  finish request
    (policy_blocked_response (sha256_hex w) (to_vec w) (hash_url w) target request exec_id
       (tool_event_id (requested_event target request exec_id)) decision reason cfg) 2.

(* src: ai-gateway/src/agent/tools/service.rs:408-449 handle_call *)
Definition policy_preflight (target : ToolTarget) (request : ToolCallRequest) (exec_id : string) : Call unit :=
  if target_requires_policy_preflight (kind target) then
    let event := requested_event target request exec_id in
    let* _ := call_tell (AskPolicy event) in
    match validate_agent_policy (as_i64 w) (to_vec w) (policy_enabled w) (policy_client w) auth (te_envelope event) with
    | Ok decision =>
        if allowed decision then traced_ret tt
        else policy_blocked target request exec_id (policy_decision decision) (reason decision)
    | Err _ => policy_blocked target request exec_id "blocked" "policy_unavailable"
    end
  else traced_ret tt.

Definition enrich (target : ToolTarget) (request : ToolCallRequest) (r : ToolCallResponse) : ToolCallResponse :=
  enrich_target_gateway_metadata (sha256_hex w) (to_vec w) (hash_url w) target request cfg r.

(* src: ai-gateway/src/agent/tools/service.rs:451-476 handle_call *)
Definition budget_check (target : ToolTarget) (request : ToolCallRequest) (exec_id : string) : Call unit :=
  match max_tool_call_cost_micros cfg with
  | None => traced_ret tt
  | Some limit =>
      if (limit <? estimate_tool_cost_micros target)%Z then
        let r := enrich target request (blocked_before_dispatch_response request "budget_blocked" exec_id) in
        finish request (set_started (tool_event_id (requested_event target request exec_id)) r) 2
      else traced_ret tt
  end.

(* src: ai-gateway/src/agent/tools/service.rs:478-520 handle_call *)
Definition run_and_report (target : ToolTarget) (request : ToolCallRequest) (exec_id : string) : Call Answer :=
  let* _ := call_tell (ExecuteTool target request) in
  match execute_tool target request with
  | Err e => call_stop (Err (service_error e))
  | Ok r =>
      let r := enrich target request r in
      finish request (set_started (tool_event_id (requested_event target request exec_id)) r) 2
  end.

Definition dispatch_call (target : ToolTarget) (request : ToolCallRequest) (exec_id : string) : Call Answer :=
  let* _ := request_audit target request exec_id in
  let* _ := policy_preflight target request exec_id in
  let* _ := budget_check target request exec_id in
  run_and_report target request exec_id.

(** Every path ends in an answer or an error. *)
Definition outcome {A} (c : Call A) (ok : A → result Answer AgentToolsServiceError)
  : result Answer AgentToolsServiceError :=
  match c.2 with inl a => ok a | inr r => r end.

(** The permit is held until the call returns. *)
(* src: ai-gateway/src/agent/tools/service.rs:252-521 handle_call *)
Definition handle_call (limiter : Limiter) (body : string)
  : list Effect * result Answer AgentToolsServiceError * Limiter :=
  let accepted := accept_call body in
  match accepted.2 with
  | inr r => (accepted.1, r, limiter)
  | inl (request, exec_id, target) =>
      let '(permit, limiter) := try_acquire_workspace limiter (org_id auth) (max_concurrent_per_workspace cfg) in
      match permit with
      | None =>
          (accepted.1,
           Ok (mkAnswer 429 (EnvelopeBody (envelope_from_response request
             (concurrency_limited_response (sha256_hex w) (to_vec w) (hash_url w) target request exec_id cfg)))),
           limiter)
      | Some permit =>
          let c := dispatch_call target request exec_id in
          ((accepted.1 ++ c.1)%list, outcome c Ok, drop_permit limiter permit)
      end
  end.
End service.

(** ** Both handlers *)

(** A request as the service gets it: [tr_body] is what can be read of the
    body, [None] when reading fails. *)
Record ToolsRequest := mkToolsRequest {
  tr_method : string;
  tr_route : option RouteType;
  tr_auth : option AuthContext;
  tr_context_auth : option AuthContext;
  tr_agent_context : option AgentContext;
  tr_headers : HeaderMap;
  tr_body : option string
}.

(* src: ai-gateway/src/agent/tools/service.rs:1440-1446 auth_context_from_extensions *)
Definition auth_context_from_extensions (req : ToolsRequest) : option AuthContext :=
  or_else (tr_auth req) (tr_context_auth req).

(** [http_body_util::Limited]. *)
Definition read_limited (max : Z) (body : option string) : option string :=
  match body with
  | Some b => if (Z.of_nat (len b) <=? max)%Z then Some b else None
  | None => None
  end.

(** [None]: the listing does not end. *)
(* src: ai-gateway/src/agent/tools/service.rs:184-250 handle_agent_tools *)
Definition handle_agent_tools (w : World) (agent_enabled allow_header_context : bool) (max_header_value_bytes : Z)
    (cfg : AgentToolsConfig) (limiter : Limiter) (req : ToolsRequest)
  : option (list Effect * result Answer AgentToolsServiceError * Limiter) :=
  let fail e := Some ([], Err e, limiter) in
  if negb agent_enabled || negb (tools_enabled cfg) then fail Disabled
  else if negb (String.eqb (tr_method req) "POST") then fail MethodNotAllowed
  else
    match tr_route req with
    | Some (AgentToolsRoute action) =>
        match auth_context_from_extensions req with
        | None => fail MissingAuth
        | Some auth =>
            let parsed := if allow_header_context
                          then parse_agent_context_from_headers (tr_headers req) max_header_value_bytes else None in
            let header := or_else (tr_agent_context req) parsed in
            match read_limited (max_request_bytes cfg) (tr_body req) with
            | None => fail PayloadTooLarge
            | Some body =>
                match action with
                | ToolsCall => Some (handle_call w cfg auth header limiter body)
                | ToolsList =>
                    match read_list w body with
                    | None => fail InvalidJson
                    | Some agent_id =>
                        match visible_tools (sha256_hex w) (to_vec w) auth (targets cfg) agent_id (timeout_ms cfg) with
                        | None => None
                        | Some tools => Some ([], Ok (mkAnswer 200 (ListBody tools)), limiter)
                        end
                    end
                end
            end
        end
    | _ => fail MissingRoute
    end.

(** The service turns an error into its answer. *)
(* src: ai-gateway/src/agent/tools/service.rs:111-119 AgentToolsService::call *)
Definition service_call (r : result Answer AgentToolsServiceError) : Answer :=
  match r with Ok a => a | Err e => error_response e end.

(** ** What the steps of a call guarantee *)

Definition is_execute (e : Effect) : bool := match e with ExecuteTool _ _ => true | _ => false end.
Definition quiet (effects : list Effect) : Prop := Forall (λ e, is_execute e = false) effects.

(** An envelope that says the tool did not run and costs nothing. *)
Definition free_envelope (v : ToolCallEnvelope) : Prop :=
  v_executed v = false ∧ call_billable (v_cost v) = false ∧ actual_micros (v_cost v) = 0%Z ∧ stage (v_cost v) = Waived.
Definition free_answer (r : result Answer AgentToolsServiceError) : Prop :=
  match r with Ok a => ∃ v, answer_body a = EnvelopeBody v ∧ free_envelope v | Err _ => True end.

(** A step either goes on after [effects], knowing [cond], or answers without
    having run the tool. *)
Definition step_ok {A} (c : Call A) (effects : list Effect) (cond : A → Prop) : Prop :=
  match c.2 with
  | inl a => c.1 = effects ∧ cond a
  | inr r => quiet c.1 ∧ free_answer r
  end.

Lemma step_ok_bind {A B} (c : Call A) (k : A → Call B) effs1 effs2 (P : A → Prop) (Q : B → Prop) :
  quiet effs1 → step_ok c effs1 P → (∀ a, P a → step_ok (k a) effs2 Q) →
  step_ok (traced_bind c k) (effs1 ++ effs2)%list (λ b, (∃ a, P a) ∧ Q b).
Proof.
  intros Hq Hc Hk. rw /step_ok /traced_bind in Hc |- *. destruct c as [effs [a|r]]; simpl in *; [|done].
  destruct Hc as [-> Ha]. specialize (Hk a Ha). rw /step_ok in Hk. destruct (k a) as [e2 [b|r]]; simpl in *.
  - destruct Hk as [-> HQ]. naive_solver.
  - destruct Hk as [Hq2 Hf]. split; [|done]. by apply Forall_app.
Qed.

Lemma step_ok_weaken {A} (c : Call A) effs (P Q : A → Prop) :
  (∀ a, P a → Q a) → step_ok c effs P → step_ok c effs Q.
Proof. intros H. rw /step_ok. destruct c.2; naive_solver. Qed.

Lemma free_not_charged q r s : not_charged r → free_answer (Ok (mkAnswer s (EnvelopeBody (envelope_from_response q r)))).
Proof. intros H. eexists; split; [done|]. by apply not_charged_envelope. Qed.

#[export] Hint Resolve free_not_charged : tool_calls.

Section steps.
Context (w : World) (cfg : AgentToolsConfig) (auth : AuthContext) (header : option AgentContext).

Lemma finish_ok {A} q r n effs P : not_charged r → step_ok (A := A) (finish w auth header q r n) effs P.
Proof. intros Hr. split; [by constructor|]. apply free_not_charged. by apply not_charged_events. Qed.

Lemma openapi_failure_ok {A} t q x s n effs P :
  s = SnapshotStale ∨ s = SchemaInvalid → step_ok (A := A) (openapi_failure w auth header t q x s n) effs P.
Proof. intros Hs. apply finish_ok. by destruct Hs as [-> | ->]. Qed.

Lemma policy_blocked_ok {A} t q x d reason effs P :
  step_ok (A := A) (policy_blocked w cfg auth header t q x d reason) effs P.
Proof. apply finish_ok. auto with tool_calls. Qed.

(** What is known of a call that is let in. *)
Definition accepted (body : string) (q : ToolCallRequest) (exec_id : string) (t : ToolTarget) : Prop :=
  exec_id = "exec_" ++ uuid w 0 ∧
  (∃ raw, read_call w body = Some raw ∧ q = with_execution_id exec_id raw) ∧
  is_empty (trim (q_tool_id q)) = false ∧
  find_callable_tool auth (targets cfg) (q_agent_id q) (q_tool_id q) = Some t ∧
  tool_call_static_snapshot_guard_stale (sha256_hex w) (to_vec w) q (Some t) = None ∧
  (schema_validation_enabled cfg = true → is_ok (validate_arguments (input_schema t) (q_arguments q)) = true).

Lemma stale_free q x n reason s : free_answer (Ok (mkAnswer s (EnvelopeBody (stale_snapshot_response q x n reason)))).
Proof. by eexists. Qed.

Lemma accept_call_ok body :
  step_ok (accept_call w cfg auth header body) [] (λ '(q, x, t), accepted body q x t).
Proof.
  rw /accept_call. destruct (read_call w body) as [raw|] eqn:Hr; [|by split; constructor].
  destruct (is_empty (trim (q_tool_id raw))) eqn:He; [by split; constructor|].
  set (q := with_execution_id _ raw). cbv zeta.
  destruct (tool_call_static_snapshot_guard_stale _ _ q None); [split; [constructor|apply stale_free]|].
  destruct (find_callable_tool _ _ _ _) as [t|] eqn:Hf; [|by split; constructor].
  destruct (tool_call_static_snapshot_guard_stale _ _ q (Some t)) eqn:Hs.
  { case_bool_decide; [apply openapi_failure_ok; auto|]. split; [constructor|apply stale_free]. }
  destruct (schema_validation_enabled cfg && _) eqn:Hv.
  { case_bool_decide; [apply openapi_failure_ok; auto|]. by split; constructor. }
  split; [done|]. split_and!; [done|by eauto|done|done|done|].
  intros Hen. rw Hen /= in Hv. by apply negb_false_iff in Hv.
Qed.

(** What is known when the tool is run. *)
Definition cleared (t : ToolTarget) (q : ToolCallRequest) (exec_id : string) : Prop :=
  let event := requested_event w cfg auth header t q exec_id in
  (sink w event = true ∨ is_fail_closed_risk_level (risk_level t) = false) ∧
  (target_requires_policy_preflight (kind t) = true →
     ∃ d, validate_agent_policy (as_i64 w) (to_vec w) (policy_enabled w) (policy_client w) auth (te_envelope event) = Ok d ∧
       allowed d = true) ∧
  (∀ limit, max_tool_call_cost_micros cfg = Some limit → (fixed_micros (rate_card t) ≤ limit)%Z).

(** The effects that come before the tool is run. *)
Definition before_execution (t : ToolTarget) (q : ToolCallRequest) (exec_id : string) : list Effect :=
  let event := requested_event w cfg auth header t q exec_id in
  EmitEvent event (sink w event) :: (if target_requires_policy_preflight (kind t) then [AskPolicy event] else []).

Lemma request_audit_ok t q x :
  let event := requested_event w cfg auth header t q x in
  step_ok (request_audit w cfg auth header t q x) [EmitEvent event (sink w event)]
    (λ _, sink w event = true ∨ is_fail_closed_risk_level (risk_level t) = false).
Proof.
  simpl. rw /request_audit /emit /step_ok /traced_bind /=. set (event := requested_event _ _ _ _ _ _ _).
  destruct (sink w event); simpl; [by auto|]. destruct (is_fail_closed_risk_level _) eqn:Hr; simpl; [|by auto].
  split; [by constructor|]. apply (free_not_charged q (audit_unavailable_response _ _ _) 503), not_charged_audit.
Qed.

Lemma policy_preflight_ok t q x :
  let event := requested_event w cfg auth header t q x in
  step_ok (policy_preflight w cfg auth header t q x)
    (if target_requires_policy_preflight (kind t) then [AskPolicy event] else [])
    (λ _, target_requires_policy_preflight (kind t) = true →
     ∃ d, validate_agent_policy (as_i64 w) (to_vec w) (policy_enabled w) (policy_client w) auth (te_envelope event) = Ok d ∧
       allowed d = true).
Proof.
  simpl. rw /policy_preflight. set (event := requested_event _ _ _ _ _ _ _).
  destruct (target_requires_policy_preflight (kind t)); [|done].
  eapply step_ok_weaken; cycle 1.
  { rw -(app_nil_r [AskPolicy event]).
    eapply (step_ok_bind _ _ _ _ (λ _, True)); [by constructor|by split|]. intros _ _.
    destruct (validate_agent_policy _ _ _ _ _ _) as [d|] eqn:Hv; [|apply policy_blocked_ok].
    destruct (allowed d) eqn:Ha; [|apply policy_blocked_ok].
    split; [done|]. instantiate (1 := λ _, ∃ d, validate_agent_policy _ _ _ _ _ _ = Ok d ∧ allowed d = true). by exists d. }
  intros [] [_ H] _. exact H.
Qed.

Lemma budget_check_ok t q x :
  step_ok (budget_check w cfg auth header t q x) []
    (λ _, ∀ limit, max_tool_call_cost_micros cfg = Some limit → (fixed_micros (rate_card t) ≤ limit)%Z).
Proof.
  rw /budget_check /estimate_tool_cost_micros. destruct (max_tool_call_cost_micros cfg) as [limit|]; [|by split].
  case_match; bool_to_prop; [|by split; [|intros ? [= <-]]].
  apply finish_ok. rw /set_started /enrich. auto with tool_calls.
Qed.

Lemma dispatch_call_spec t q x :
  let c := dispatch_call w cfg auth header t q x in
  (quiet c.1 ∧ ∃ r, c.2 = inr r ∧ free_answer r) ∨
  (cleared t q x ∧ c.1 = (before_execution t q x ++ (run_and_report w cfg auth header t q x).1)%list ∧
     c.2 = (run_and_report w cfg auth header t q x).2).
Proof.
  rw /dispatch_call. set (run := run_and_report _ _ _ _ _ _ _). set (event := requested_event w cfg auth header t q x).
  pose proof (request_audit_ok t q x) as H1. pose proof (policy_preflight_ok t q x) as H2.
  pose proof (budget_check_ok t q x) as H3. rw /step_ok -/event in H1 H2 H3 |- *. rw /traced_bind.
  destruct (request_audit w cfg auth header t q x) as [e1 [[]|r]]; simpl in *; [|left; naive_solver].
  destruct H1 as [-> H1].
  destruct (policy_preflight w cfg auth header t q x) as [e2 [[]|r]]; simpl in *; cycle 1.
  { left. destruct H2 as [Hq Hf]. split; [by constructor|]. by eexists. }
  destruct H2 as [-> H2].
  destruct (budget_check w cfg auth header t q x) as [e3 [[]|r]]; simpl in *; cycle 1.
  { left. destruct H3 as [Hq Hf]. split; [|by eexists]. constructor; [done|].
    apply Forall_app. split; [|done]. destruct (target_requires_policy_preflight _); by repeat constructor. }
  destruct H3 as [-> H3]. right. split_and!; [by split_and!| |done].
  rw /before_execution -/event /=. done.
Qed.

(** The effects of running the tool. *)
Definition after_execution (t : ToolTarget) (q : ToolCallRequest) (exec_id : string) : list Effect :=
  match execute_tool w cfg t q with
  | Err _ => []
  | Ok r =>
      let r := set_started (tool_event_id (requested_event w cfg auth header t q exec_id))
                 (enrich w cfg t q r) in
      let event := completed_event w auth header q r 2 in
      [EmitEvent event (sink w event)]
  end.

Lemma run_and_report_effects t q x :
  (run_and_report w cfg auth header t q x).1 = ExecuteTool t q :: after_execution t q x.
Proof. rw /run_and_report /after_execution /traced_bind /=. by destruct (execute_tool w cfg t q). Qed.

Lemma quiet_no_execute effects t q : quiet effects → ExecuteTool t q ∉ effects.
Proof. intros Hq Hin. rw /quiet Forall_forall in Hq. by specialize (Hq _ Hin). Qed.

Lemma before_execution_quiet t q x : quiet (before_execution t q x).
Proof. constructor; [done|]. destruct (target_requires_policy_preflight _); by repeat constructor. Qed.

Lemma after_execution_quiet t q x : quiet (after_execution t q x).
Proof. rw /after_execution. destruct (execute_tool w cfg t q); by repeat constructor. Qed.

(** The effects of a call: it answers without running the tool, or it is
    accepted and cleared and runs it once. *)
Lemma handle_call_cases limiter body :
  let '(effects, answer, limiter') := handle_call w cfg auth header limiter body in
  (quiet effects ∧ free_answer answer) ∨
  (∃ q x t p, accepted body q x t ∧ cleared t q x ∧
     (try_acquire_workspace limiter (org_id auth) (max_concurrent_per_workspace cfg)).1 = Some p ∧
     effects = (before_execution t q x ++ ExecuteTool t q :: after_execution t q x)%list ∧
     answer = outcome (run_and_report w cfg auth header t q x) Ok).
Proof.
  rw /handle_call. pose proof (accept_call_ok body) as Ha. rw /step_ok in Ha.
  destruct (accept_call w cfg auth header body) as [effs [[[q x] t]|r]]; simpl in *; [|by left].
  destruct Ha as [-> Ha].
  destruct (try_acquire_workspace _ _ _) as [[p|] l] eqn:Hp; cycle 1.
  { left. split; [constructor|]. apply free_not_charged, not_charged_limited. }
  destruct (dispatch_call_spec t q x) as [[Hq (r & Hr & Hf)]|(Hc & He & Hr)].
  - left. split; [done|]. by rw /outcome Hr.
  - right. exists q, x, t, p. split_and!; [done..| |]; [by rw /= He run_and_report_effects|by rw /outcome Hr].
Qed.
End steps.

(** C9 (safety). A tool is run only when everything allows it: the call was
    read and names a tool that the caller's allow-lists admit, the catalog it
    was made from is not stale, its arguments passed the schema (unless
    checking is off), a permit of the workspace was free, the requested event
    was written (or the tool's risk level is neither high nor critical), policy
    allowed it for OpenAPI and streaming MCP tools, and its price is within the
    budget of a call.  It is run once, after the requested event and the
    question to policy, and a result is followed by one completed event. *)
Theorem tool_runs_only_when_cleared w cfg auth header limiter body effects answer limiter' t q :
  handle_call w cfg auth header limiter body = (effects, answer, limiter') →
  ExecuteTool t q ∈ effects →
  ∃ exec_id, accepted w cfg auth body q exec_id t ∧ cleared w cfg auth header t q exec_id ∧
    is_Some (try_acquire_workspace limiter (org_id auth) (max_concurrent_per_workspace cfg)).1 ∧
    effects = (before_execution w cfg auth header t q exec_id ++
               ExecuteTool t q :: after_execution w cfg auth header t q exec_id)%list.
Proof.
  intros H Hin. pose proof (handle_call_cases w cfg auth header limiter body) as Hc. rw H in Hc.
  destruct Hc as [[Hq _]|(q' & x & t' & p & Ha & Hcl & Hp & -> & _)]; [by apply (quiet_no_execute _ t q) in Hq|].
  apply elem_of_app in Hin as [Hin|Hin]; [by apply quiet_no_execute in Hin; [|apply before_execution_quiet]|].
  apply elem_of_cons in Hin as [Hin|Hin]; [|by apply quiet_no_execute in Hin; [|apply after_execution_quiet]].
  injection Hin as -> ->. exists x. split_and!; [done|done|by eexists|done].
Qed.

(** A call that did not run its tool costs nothing and says so:
    whatever stopped it, the answer is an error or an envelope that reports
    that the tool was not executed, is not billable and has no cost. *)
Theorem stopped_call_is_free w cfg auth header limiter body effects answer limiter' :
  handle_call w cfg auth header limiter body = (effects, answer, limiter') →
  (∀ t q, ExecuteTool t q ∉ effects) → free_answer answer.
Proof.
  intros Hh H. pose proof (handle_call_cases w cfg auth header limiter body) as Hc. rw Hh in Hc.
  destruct Hc as [[_ Hf]|(q & x & t & p & _ & _ & _ & -> & _)]; [done|].
  destruct (H t q). apply elem_of_app. right. by left.
Qed.

(** ** The limit on concurrent calls *)

(** The limiter and the workspaces of the permits that are out. *)
Record LimiterState := mkLimiterState { limiter_of : Limiter; held : list string }.

Definition held_by (ws : string) (h : list string) : Z := Z.of_nat (length (filter (ws =.) h)).

(** Calls of any number of tasks, in any order: a try, or the end of a call that
    holds a permit. *)
Inductive limiter_step (limit : Z) : LimiterState → LimiterState → Prop :=
| step_try s ws :
    limiter_step limit s
      (let '(p, l) := try_acquire_workspace (limiter_of s) ws limit in
       mkLimiterState l (match p with Some (Limited w) => w :: held s | _ => held s end))
| step_drop l ws before after :
    limiter_step limit (mkLimiterState l (before ++ ws :: after))
      (mkLimiterState (drop_permit l (Limited ws)) (before ++ after)).

Definition limiter_init : LimiterState := mkLimiterState (mkLimiter ∅) [].

(** Every semaphore has what is not out, and permits are out only of
    semaphores that exist. *)
Definition limiter_inv (limit : Z) (s : LimiterState) : Prop :=
  ∀ ws, default limit (workspaces (limiter_of s) !! ws) = (limit - held_by ws (held s))%Z ∧ (held_by ws (held s) ≤ limit)%Z ∧
    (held_by ws (held s) ≠ 0%Z → is_Some (workspaces (limiter_of s) !! ws)).

Lemma held_cons ws w h :
  held_by ws (w :: h) = ((if bool_decide (ws = w) then 1 else 0) + held_by ws h)%Z.
Proof. rw /held_by /= filter_cons. case_decide; case_bool_decide; try done; simpl; lia. Qed.

Lemma held_remove ws w before after :
  held_by ws (before ++ w :: after) =
  ((if bool_decide (ws = w) then 1 else 0) + held_by ws (before ++ after))%Z.
Proof.
  rw /held_by /= !filter_app filter_cons !length_app. case_decide; case_bool_decide; try done; simpl; lia.
Qed.

Lemma held_by_nonneg ws h : (0 ≤ held_by ws h)%Z.
Proof. rw /held_by. lia. Qed.

Lemma limiter_inv_step limit s s' :
  (0 < limit)%Z → limiter_inv limit s → limiter_step limit s s' → limiter_inv limit s'.
Proof.
  intros Hl Hinv Hstep. destruct Hstep as [[l h] ws|l ws before after].
  - rw /try_acquire_workspace. destruct (Z.eqb_spec limit 0); [lia|].
    destruct (Hinv ws) as (Hav & Hle & _). cbn [limiter_of held] in *. rw Hav.
    destruct (Z.ltb_spec 0 (limit - held_by ws h)); intros ws';
      destruct (Hinv ws') as (Hav' & Hle' & Hsome); cbn [limiter_of held workspaces] in *; rw ?held_cons.
    + destruct (decide (ws' = ws)) as [->|Hne].
      * rw bool_decide_true // lookup_insert_eq /=. split_and!; [lia|lia|by eauto].
      * by rw bool_decide_false // lookup_insert_ne // Z.add_0_l.
    + destruct (decide (ws' = ws)) as [->|Hne].
      * rw lookup_insert_eq /=. split_and!; [lia|lia|by eauto].
      * rw lookup_insert_ne //.
  - intros ws'. destruct (Hinv ws') as (Hav & Hle & Hsome). cbn [limiter_of held] in *. rw held_remove in Hav Hle Hsome. pose proof (held_by_nonneg ws' (before ++ after)) as Hpos.
    cbn [drop_permit limiter_of workspaces]. set (n := held_by ws' _) in *.
    destruct (decide (ws' = ws)) as [->|Hne].
    + rw bool_decide_true // in Hav Hle Hsome. rw lookup_insert_eq. destruct Hsome as [a Ha]; [lia|].
      rw Ha /= in Hav |- *. split_and!; [lia|lia|by eauto].
    + rw bool_decide_false // in Hav Hle Hsome. rw lookup_insert_ne //.
Qed.

(** C12 (invariant). The limit of a workspace is exact in every interleaving of
    calls: never more than [limit] permits of a workspace are out, and a call
    is let in exactly when fewer are; other workspaces do not matter, and no
    permit is lost. *)
Theorem workspace_limit_exact limit s ws :
  (0 < limit)%Z → rtc (limiter_step limit) limiter_init s →
  (0 ≤ held_by ws (held s) ≤ limit)%Z ∧
  (is_Some (try_acquire_workspace (limiter_of s) ws limit).1 ↔ (held_by ws (held s) < limit)%Z).
Proof.
  intros Hl Hr. assert (Hinv : limiter_inv limit s).
  { revert Hr. apply rtc_ind_r.
    - intros ws'. rw /= lookup_empty /held_by /=. split_and!; [lia|lia|done].
    - intros y z _ Hstep IH. by eapply limiter_inv_step. }
  destruct (Hinv ws) as (Hav & Hle & _). split; [split; [apply held_by_nonneg|done]|].
  rw /try_acquire_workspace. destruct (Z.eqb_spec limit 0); [lia|]. rw Hav.
  destruct (Z.ltb_spec 0 (limit - held_by ws (held s))); simpl; [split; [lia|by eauto]|]. split; [by intros []|lia].
Qed.

(** ** What policy is asked *)

Definition policy_request (w : World) (cfg : AgentToolsConfig) (auth : AuthContext) (header : option AgentContext)
    (t : ToolTarget) (q : ToolCallRequest) (exec_id : string) : ValidateAgentPolicyRequest :=
  build_validate_agent_policy_request (as_i64 w) (to_vec w) auth (te_envelope (requested_event w cfg auth header t q exec_id)).

(** [Value::as_i64] reads back an [i64]. *)
Definition reads_i64 (as_i64 : string → option Z) : Prop :=
  ∀ n, (i64_min ≤ n ≤ i64_max)%Z → as_i64 (pretty n) = Some n.

(** Policy is asked about the call that would be run: for an
    OpenAPI or an SSE tool the question names the tool, the execution, the
    caller's workspace, the hashes of the tool's schema and of this call's
    arguments, and the price and currency of the rate card. *)
Theorem policy_asked_about_the_call w cfg auth header t q exec_id :
  reads_i64 (as_i64 w) → kind t = OpenApi ∨ kind t = McpSse → (0 ≤ fixed_micros (rate_card t) ≤ i64_max)%Z →
  let r := policy_request w cfg auth header t q exec_id in
  req_phase r = PhaseToolCall ∧ req_workspace_id r = org_id auth ∧
  req_tool_id r = q_tool_id q ∧ req_tool_name r = q_tool_id q ∧ req_tool_execution_id r = exec_id ∧
  req_schema_hash r = schema_hash_for_value (sha256_hex w) (to_vec w) (input_schema t) ∧
  req_arguments_hash r = arguments_hash (sha256_hex w) (to_vec w) (q_arguments q) ∧
  req_estimated_cost_micros r = fixed_micros (rate_card t) ∧
  req_currency r = rate_currency (rate_card t).
Proof.
  intros Hread Hk Hc. assert (Has : as_i64 w (pretty (fixed_micros (rate_card t))) = Some (fixed_micros (rate_card t))).
  { apply Hread. rw /i64_min. lia. }
  rw /policy_request /requested_event /requested_tool_operation_metadata.
  destruct Hk as [-> | ->]; cbn -[pretty String.append i64_max]; split_and!; try done;
    try by destruct (q_tool_id q).
  all: rw /estimated_cost_micros /metadata_i64 /num; cbn -[pretty]; by rw Has.
Qed.

(** For a streamable MCP tool it names neither: the price is reported as 0 and
    the hashes are empty, whatever the rate card says. *)
Lemma streamable_mcp_policy_sees_no_price w cfg auth header t q exec_id :
  kind t = McpStreamableHttp →
  let r := policy_request w cfg auth header t q exec_id in
  req_estimated_cost_micros r = 0%Z ∧ req_schema_hash r = "" ∧ req_arguments_hash r = "" ∧ req_currency r = "".
Proof.
  intros Hk. rw /policy_request /requested_event /requested_tool_operation_metadata Hk.
  by cbn -[pretty String.append].
Qed.

(** ** Examples *)

Definition demo_as_i64 (s : string) : option Z :=
  match s with
  | String "-"%char s' => Z.opp <$> parse_uint 9223372036854775808 s'
  | _ => parse_uint i64_max s
  end.

Lemma demo_as_i64_reads : reads_i64 demo_as_i64.
Proof.
  intros [|p|p] Hn; [done| |].
  - change (pretty (Z.pos p)) with (pretty (N.pos p)). pose proof (pretty_no_byte "-"%char (N.pos p) eq_refl) as Hc.
    assert (Hp : parse_uint i64_max (pretty (N.pos p)) = Some (Z.pos p)) by (apply (parse_uint_pretty _ (N.pos p)); lia).
    rw /demo_as_i64. destruct (pretty (N.pos p)) as [|[[] [] [] [] [] [] [] []] s]; done.
  - change (pretty (Z.neg p)) with (String "-"%char (pretty (N.pos p))). cbn [demo_as_i64].
    rw parse_uint_pretty; [done|]. rw /i64_min in Hn. lia.
Qed.

Definition demo_openapi : ToolTarget :=
  mkTarget "crm.lookup" "Lookup" "Looks a customer up" OpenApi (Some "https://crm.example/lookup") "POST" None None None
    "high" None (Object [("required", Array [Str "id"])]) false None None (mkRateCard "USD" 250)
    (mkAllowlist ["org"] [] []).

Definition demo_mock : ToolTarget :=
  mkTarget "echo" "Echo" "Echoes" Mock None "POST" None None None "low" None (Object []) false None None
    (mkRateCard "USD" 10) (mkAllowlist [] [] []).

Definition demo_tools_config : AgentToolsConfig :=
  mkToolsConfig true true false true HttpStrict 16384 8192 256 64 5000 32 (Some 1000%Z) default_policy 8000 65536 65536
    [demo_openapi; demo_mock].

Definition demo_call (tool : string) : ToolCallRequest :=
  mkCall None None None (Some "run") None None None None None tool (Object [("id", Str "7")]) None None None None None
    None None.

Definition demo_policy_answer (decision : Z) : ValidateAgentPolicyResponse :=
  mkResponse false decision "by rule" "" "" 0 "" "" 0 [] [].

(** A world in which bodies name their tool, policy answers [decision] and the
    sink works when [audit] is set. *)
Definition demo_world (decision : Z) (audit : bool) : World :=
  mkWorld toy_digest (λ _, "{}") (λ _, None) (λ _, "0.0") demo_as_i64 (λ _, None) (λ _, None) (λ _ _ _ _, None)
    (λ body, Some (demo_call body)) (λ _, Some None) 0 "2026-01-01T00:00:00Z" (λ n, pretty (N.of_nat n))
    (λ _, audit) true (Some (λ _, Answered (demo_policy_answer decision)))
    (λ t q, Ok (completed_response "" t q (Object []))).

Definition demo_run (decision : Z) (audit : bool) (body : string)
  : list Effect * result Answer AgentToolsServiceError * Limiter :=
  handle_call (demo_world decision audit) demo_tools_config demo_caller None (mkLimiter ∅) body.

Lemma tool_runs_only_when_cleared_witness :
  let q := with_execution_id "exec_0" (demo_call "crm.lookup") in
  ExecuteTool demo_openapi q ∈ (demo_run 1 true "crm.lookup").1.1 ∧
  ∃ exec_id, accepted (demo_world 1 true) demo_tools_config demo_caller "crm.lookup" q exec_id demo_openapi ∧
    cleared (demo_world 1 true) demo_tools_config demo_caller None demo_openapi q exec_id.
Proof.
  intros q. assert (Hin : ExecuteTool demo_openapi q ∈ (demo_run 1 true "crm.lookup").1.1).
  { apply list_elem_of_lookup_2 with (i := 2%nat). reflexivity. }
  split; [exact Hin|]. destruct (demo_run 1 true "crm.lookup") as [[effects answer] l] eqn:Hrun.
  destruct (tool_runs_only_when_cleared _ _ _ _ _ _ _ _ _ _ _ Hrun Hin) as (x & Ha & Hc & _). by exists x.
Defined.

Lemma stopped_call_is_free_witness :
  free_answer (demo_run 2 true "crm.lookup").1.2 ∧ free_answer (demo_run 1 false "crm.lookup").1.2.
Proof.
  split.
  - destruct (demo_run 2 true "crm.lookup") as [[effects answer] l] eqn:Hrun.
    apply (stopped_call_is_free _ _ _ _ _ _ _ _ _ Hrun). intros t q. apply quiet_no_execute.
    change effects with (effects, answer, l).1.1. rewrite <- Hrun. repeat constructor.
  - destruct (demo_run 1 false "crm.lookup") as [[effects answer] l] eqn:Hrun.
    apply (stopped_call_is_free _ _ _ _ _ _ _ _ _ Hrun). intros t q. apply quiet_no_execute.
    change effects with (effects, answer, l).1.1. rewrite <- Hrun. repeat constructor.
Defined.

Lemma workspace_limit_exact_witness :
  let l1 := (try_acquire_workspace (mkLimiter ∅) "org" 1).2 in
  let s := mkLimiterState l1 ["org"] in
  rtc (limiter_step 1) limiter_init s ∧ (held_by "org" (held s) ≤ 1)%Z ∧ ¬ is_Some (try_acquire_workspace l1 "org" 1).1.
Proof.
  intros l1 s. assert (Hr : rtc (limiter_step 1) limiter_init s).
  { apply rtc_once. exact (step_try 1 limiter_init "org"). }
  destruct (workspace_limit_exact 1 s "org") as [[_ Hle] Hiff]; [lia|exact Hr|].
  split; [exact Hr|]. split; [exact Hle|]. intros Hs. apply Hiff in Hs. by vm_compute in Hs.
Defined.

Lemma policy_asked_about_the_call_witness :
  let r := policy_request (demo_world 1 true) demo_tools_config demo_caller None demo_openapi (demo_call "crm.lookup") "x" in
  req_tool_id r = "crm.lookup" ∧ req_estimated_cost_micros r = 250%Z ∧ req_currency r = "USD".
Proof.
  destruct (policy_asked_about_the_call (demo_world 1 true) demo_tools_config demo_caller None demo_openapi
    (demo_call "crm.lookup") "x") as (_ & _ & H1 & _ & _ & _ & _ & H2 & H3).
  - exact demo_as_i64_reads.
  - by left.
  - by vm_compute.
  - exact (conj H1 (conj H2 H3)).
Defined.

(** ** A catalog read back *)

(** A call that repeats what a listing said of its tool. *)
Definition echoes (d : ToolDescriptor) (q : ToolCallRequest) : Prop :=
  q_tool_id q = d_tool_id d ∧
  q_snapshot_revision q ∈ [None; Some (d_snapshot_revision d)] ∧
  q_tool_version q ∈ [None; Some (d_tool_version d)] ∧
  q_schema_hash q ∈ [None; Some (d_schema_hash d)] ∧
  q_target_hash q = dm_target_hash (d_metadata d) ∧
  q_target_revision q = dm_target_revision (d_metadata d).

Lemma descriptors_of_targets sha to_vec targets ms : ∀ seen ds,
  descriptors sha to_vec targets ms seen = Some ds →
  ∀ d, d ∈ ds → ∃ t n, t ∈ targets ∧ d = descriptor sha to_vec t ms n.
Proof.
  induction targets as [|t targets IH]; intros seen ds; cbn [descriptors]; [by intros [= <-] d Hd%elem_of_nil|].
  destruct (framework_tool_name _ _ _) as [[n seen']|]; [|done].
  destruct (descriptors _ _ targets _ _) as [ds'|] eqn:Hd; [|done]. intros [= <-] d [->|Hin]%elem_of_cons.
  - exists t, n. split; [by left|done].
  - destruct (IH _ _ Hd d Hin) as (t' & n' & Ht & ->). exists t', n'. split; [by right|done].
Qed.

(** What a listing says can be sent back: if tool ids are
    distinct, a call that repeats the revision, version and hashes the listing
    gave for a tool is neither refused as unknown nor told that its catalog is
    stale. *)
Theorem listed_tool_call_not_stale sha to_vec auth tgts reported ms ds d q :
  NoDup (tool_id <$> tgts) →
  visible_tools sha to_vec auth tgts reported ms = Some ds → d ∈ ds → echoes d q →
  ∃ t, find_callable_tool auth tgts (q_agent_id q) (q_tool_id q) = Some t ∧
    tool_call_static_snapshot_guard_stale sha to_vec q None = None ∧
    tool_call_static_snapshot_guard_stale sha to_vec q (Some t) = None.
Proof.
  intros Hnd Hds Hd (Hid & Hsnap & Hver & Hhash & Hth & Htr).
  destruct (descriptors_of_targets _ _ _ _ _ _ Hds d Hd) as (t & n & [Hv Ht]%list_elem_of_filter & ->). cbn in *.
  assert (Hz : nonzero (q_snapshot_revision q) = None ∧ nonzero (q_tool_version q) = None).
  { rw !elem_of_cons !elem_of_nil in Hsnap Hver.
    destruct Hsnap as [-> | [-> | []]], Hver as [-> | [-> | []]]; done. }
  exists t. split_and!.
  - rw Hid. by apply find_callable_ids.
  - by rw /tool_call_static_snapshot_guard_stale (proj1 Hz).
  - apply guard_stale_None. rw Htr Hth. destruct Hz. split_and!; try done.
    intros h Hh. rw Hh in Hhash. set_solver.
Qed.

Lemma listed_tool_call_not_stale_witness :
  ∃ ds d q, visible_tools toy_digest (λ _, "") demo_caller demo_targets None 8000 = Some ds ∧ d ∈ ds ∧
    q_schema_hash q = Some (d_schema_hash d) ∧
    ∃ t, find_callable_tool demo_caller demo_targets None (q_tool_id q) = Some t ∧
      tool_call_static_snapshot_guard_stale toy_digest (λ _, "") q (Some t) = None.
Proof.
  set (d := descriptor toy_digest (λ _, "") (demo_target "A.b") 8000 "a_b").
  set (q := mkCall None None None None None None None None None "A.b" (Object []) (Some 0%Z)
              (Some (d_schema_hash d)) (Some 0%Z) None None None None).
  eexists _, d, q. split; [vm_compute; reflexivity|]. split; [by left|]. split; [done|].
  destruct (listed_tool_call_not_stale toy_digest (λ _, "") demo_caller demo_targets None 8000
    (default [] (visible_tools toy_digest (λ _, "") demo_caller demo_targets None 8000)) d q) as (t & Hf & _ & Hg).
  - by apply (bool_decide_unpack _); vm_compute.
  - by vm_compute.
  - by left.
  - repeat split; set_solver.
  - by exists t.
Defined.

(** ** Behaviour worth knowing *)

(** A call that names a target hash is stale, whatever the hash. *)
Lemma target_hash_always_stale sha to_vec q t :
  is_Some (q_target_hash q) → tool_call_static_snapshot_guard_stale sha to_vec q (Some t) ≠ None.
Proof. intros [h Hh] (_ & _ & _ & Hn & _)%guard_stale_None. congruence. Qed.

(** A tool that fails leaves no event that ends its call. *)
Lemma failed_execution_leaves_no_event w cfg auth header t q exec_id e :
  execute_tool w cfg t q = Err e → after_execution w cfg auth header t q exec_id = [].
Proof. intros H. by rw /after_execution H. Qed.

(** Policy refuses every call, the configuration requires a policy decision,
    and the tool is run without one. *)
Example mock_tool_runs_without_policy :
  require_policy_decision demo_tools_config = true ∧
  List.existsb is_execute (demo_run 2 true "echo").1.1 = true ∧
  List.existsb (λ e, match e with AskPolicy _ => true | _ => false end) (demo_run 2 true "echo").1.1 = false.
Proof. split_and!; reflexivity. Qed.

(** A blocked call is answered 200, though the configured mode says 403. *)
Example blocked_call_answered_200 :
  answer_status <$> result_ok (demo_run 2 true "crm.lookup").1.2 = Some 200%Z ∧
  http_status_for_response_mode EnvBlocked (response_mode demo_tools_config) = 403%Z.
Proof. split; reflexivity. Qed.
