(* ===== verification/EventAdapter.v ===== *)
(** * Events of agent frameworks

    Models [ai-gateway/src/agent/adapter.rs] and the event types of
    [ai-gateway/src/agent/event.rs]: how the events that LangGraph, OpenAI
    Agents, n8n, CrewAI, Mastra and unknown clients report become the gateway's
    own, with the kind of step, the phase and the policy stage. *)

From S2P Require Import Prelude RustStr Json StepState AgentContext.
From Stdlib Require Import Ascii.
Local Open Scope string_scope.

(** ** Events as they arrive *)

(* src: ai-gateway/src/agent/event.rs:131-159 AgentEventInput *)
Record AgentEventInput := mkEventInput {
  i_source : option AgentEventSource;
  i_framework : option AgentEventSource;
  i_version : string;
  i_event_id : option string;
  i_event_type : string;
  i_event_phase : AgentEventPhase;
  i_policy_stage : AgentPolicyStage;
  i_source_trust : AgentEventSourceTrust;
  i_sequence : option Z;
  i_name : option string;
  i_agent_name : option string;
  i_agent_id_external : option string;
  i_run_id : option string;
  i_step_id : option string;
  i_parent_step_id : option string;
  i_tool_call_id : option string;
  i_handoff_id : option string;
  i_graph_node : option string;
  i_step_kind : option AgentStepKind;
  i_step_source : AgentStepSource;
  i_step_confidence : AgentConfidence;
  i_attempt : option Z;
  i_input_hash : option string;
  i_timestamp : option Z;
  i_metadata : Value;
  i_raw_fields : list (string * Value)
}.

(* src: ai-gateway/src/agent/event.rs:12-23 AgentEventsRequest *)
Inductive AgentEventsRequest :=
| Batch (source framework : option AgentEventSource) (events : list AgentEventInput)
| Single (event : AgentEventInput).

Definition first_source (a b : option AgentEventSource) (alt : AgentEventSource) : AgentEventSource :=
  match a with Some s => s | None => default alt b end.

(* src: ai-gateway/src/agent/event.rs:34-59 AgentEventsRequest::into_sourced_events *)
Definition into_sourced_events (r : AgentEventsRequest) : list (AgentEventSource * AgentEventInput) :=
  match r with
  | Batch source framework events =>
      let batch := first_source source framework UnknownEventSource in
      map (λ e, (first_source (i_source e) (i_framework e) batch, e)) events
  | Single e => [(first_source (i_source e) (i_framework e) UnknownEventSource, e)]
  end.

(** Updates of single fields. *)
Definition with_source (s : AgentEventSource) (e : AgentEventInput) : AgentEventInput :=
  mkEventInput (Some s) (i_framework e) (i_version e) (i_event_id e) (i_event_type e) (i_event_phase e)
    (i_policy_stage e) (i_source_trust e) (i_sequence e) (i_name e) (i_agent_name e) (i_agent_id_external e)
    (i_run_id e) (i_step_id e) (i_parent_step_id e) (i_tool_call_id e) (i_handoff_id e) (i_graph_node e)
    (i_step_kind e) (i_step_source e) (i_step_confidence e) (i_attempt e) (i_input_hash e) (i_timestamp e)
    (i_metadata e) (i_raw_fields e).
Definition with_metadata (m : Value) (e : AgentEventInput) : AgentEventInput :=
  mkEventInput (i_source e) (i_framework e) (i_version e) (i_event_id e) (i_event_type e) (i_event_phase e)
    (i_policy_stage e) (i_source_trust e) (i_sequence e) (i_name e) (i_agent_name e) (i_agent_id_external e)
    (i_run_id e) (i_step_id e) (i_parent_step_id e) (i_tool_call_id e) (i_handoff_id e) (i_graph_node e)
    (i_step_kind e) (i_step_source e) (i_step_confidence e) (i_attempt e) (i_input_hash e) (i_timestamp e)
    m (i_raw_fields e).
Definition with_trust (t : AgentEventSourceTrust) (e : AgentEventInput) : AgentEventInput :=
  mkEventInput (i_source e) (i_framework e) (i_version e) (i_event_id e) (i_event_type e) (i_event_phase e)
    (i_policy_stage e) t (i_sequence e) (i_name e) (i_agent_name e) (i_agent_id_external e)
    (i_run_id e) (i_step_id e) (i_parent_step_id e) (i_tool_call_id e) (i_handoff_id e) (i_graph_node e)
    (i_step_kind e) (i_step_source e) (i_step_confidence e) (i_attempt e) (i_input_hash e) (i_timestamp e)
    (i_metadata e) (i_raw_fields e).
Definition with_ids (agent run step parent node : option string) (e : AgentEventInput) : AgentEventInput :=
  mkEventInput (i_source e) (i_framework e) (i_version e) (i_event_id e) (i_event_type e) (i_event_phase e)
    (i_policy_stage e) (i_source_trust e) (i_sequence e) (i_name e) (i_agent_name e) agent
    run step parent (i_tool_call_id e) (i_handoff_id e) node
    (i_step_kind e) (i_step_source e) (i_step_confidence e) (i_attempt e) (i_input_hash e) (i_timestamp e)
    (i_metadata e) (i_raw_fields e).

(* src: ai-gateway/src/agent/adapter.rs:230-245 set_mapping *)
Definition set_mapping (type : string) (kind : AgentStepKind) (phase : AgentEventPhase) (stage : AgentPolicyStage)
    (source : AgentStepSource) (confidence : AgentConfidence) (e : AgentEventInput) : AgentEventInput :=
  mkEventInput (i_source e) (i_framework e) (i_version e) (i_event_id e) type phase
    stage (i_source_trust e) (i_sequence e) (i_name e) (i_agent_name e) (i_agent_id_external e)
    (i_run_id e) (i_step_id e) (i_parent_step_id e) (i_tool_call_id e) (i_handoff_id e) (i_graph_node e)
    (Some kind) source confidence (i_attempt e) (i_input_hash e) (i_timestamp e) (i_metadata e) (i_raw_fields e).

(** ** The tables *)

Definition Mapping : Type := string * AgentStepKind * AgentEventPhase * AgentPolicyStage.

Definition starts (type : string) (kind : AgentStepKind) : Mapping := (type, kind, Before, PreAction).
Definition ends (type : string) (kind : AgentStepKind) : Mapping := (type, kind, After, AuditOnly).
Definition state_of (type : string) (kind : AgentStepKind) : Mapping := (type, kind, State, AuditOnly).

(* src: ai-gateway/src/agent/adapter.rs:247-300 map_langgraph_event_type *)
Definition map_langgraph_event_type (type : string) : option Mapping :=
  lookup_name type [
    ("on_tool_start", starts "tool.call.requested" ToolCall); ("on_tool_end", ends "tool.call.completed" ToolCall);
    ("on_chat_model_start", starts "llm.call.started" LlmCall); ("on_llm_start", starts "llm.call.started" LlmCall);
    ("on_chat_model_end", ends "llm.call.completed" LlmCall); ("on_llm_end", ends "llm.call.completed" LlmCall);
    ("on_chain_start", state_of "step.started" UnknownKind); ("on_chain_end", ends "step.completed" UnknownKind);
    ("on_chain_error", ends "step.failed" ErrorRecovery); ("on_tool_error", ends "step.failed" ErrorRecovery);
    ("on_llm_error", ends "step.failed" ErrorRecovery)].

(* src: ai-gateway/src/agent/adapter.rs:302-349 map_openai_agents_event_type *)
Definition map_openai_agents_event_type (type : string) : option Mapping :=
  lookup_name type [
    ("tool_called", starts "tool.call.requested" ToolCall); ("tool_output", ends "tool.result.received" ToolResult);
    ("handoff_requested", starts "handoff.requested" Handoff); ("handoff_occurred", ends "handoff.completed" Handoff);
    ("tool_approval_requested", starts "approval.requested" Approval);
    ("reasoning_item_created", state_of "step.started" Reasoning)].

(* src: ai-gateway/src/agent/adapter.rs:351-356 is_openai_agents_tool_metadata_event *)
Definition is_openai_agents_tool_metadata_event (type : string) : bool :=
  String.eqb type "tool_called" || String.eqb type "tool_output" || String.eqb type "tool_approval_requested".

(* src: ai-gateway/src/agent/adapter.rs:433-492 map_crewai_event_type *)
Definition map_crewai_event_type (type : string) : option Mapping :=
  lookup_name type [
    ("CrewKickoffStartedEvent", state_of "run.started" UnknownKind);
    ("CrewKickoffCompletedEvent", state_of "run.completed" UnknownKind);
    ("CrewKickoffFailedEvent", state_of "run.failed" ErrorRecovery);
    ("TaskStartedEvent", state_of "step.started" UnknownKind);
    ("TaskCompletedEvent", ends "step.completed" UnknownKind);
    ("ToolUsageStartedEvent", starts "tool.call.requested" ToolCall);
    ("ToolUsageFinishedEvent", ends "tool.result.received" ToolResult);
    ("ToolUsageErrorEvent", ends "tool.call.failed" ToolCall)].

(* src: ai-gateway/src/agent/adapter.rs:494-565 map_mastra_event_type *)
Definition map_mastra_event_type (type : string) : option Mapping :=
  lookup_name type [
    ("workflow.run.started", state_of "run.started" UnknownKind);
    ("workflow.run.completed", state_of "run.completed" UnknownKind);
    ("workflow.run.failed", state_of "run.failed" ErrorRecovery);
    ("workflow.step.started", state_of "step.started" UnknownKind);
    ("workflow.step.completed", ends "step.completed" UnknownKind);
    ("tool.call.started", starts "tool.call.requested" ToolCall);
    ("tool.call.completed", ends "tool.result.received" ToolResult);
    ("llm.call.started", starts "llm.call.started" LlmCall);
    ("llm.call.completed", ends "llm.call.completed" LlmCall);
    ("checkpoint.created", state_of "checkpoint.created" Checkpoint)].

(** ** Words of an event type *)

Definition is_separator (c : ascii) : bool :=
  Ascii.eqb c "." || Ascii.eqb c "_" || Ascii.eqb c "-" || Ascii.eqb c ":" || Ascii.eqb c "/".

(** [skip] bytes are left of a separator that was recognised. *)
Fixpoint tokens_from (skip : nat) (cur s : string) : list string :=
  match s with
  | EmptyString => [cur]
  | String c s' =>
      match skip with
      | S skip => tokens_from skip cur s'
      | O =>
          if is_separator c then cur :: tokens_from 0 "" s'
          else match ws_prefix_len s with
               | O => tokens_from 0 (cur ++ String c "") s'
               | S n => cur :: tokens_from n "" s'
               end
      end
  end.

(* src: ai-gateway/src/agent/adapter.rs:647-653 event_tokens *)
Definition event_tokens (type : string) : list string := filter (λ t, t ≠ "") (tokens_from 0 "" type).

(** [rsplit(..).next()]: what follows the last separator. *)
Fixpoint last_part (cur s : string) : string :=
  match s with
  | EmptyString => cur
  | String c s' => if is_separator c then last_part "" s' else last_part (cur ++ String c "") s'
  end.

Definition has_token (p : string → bool) (type : string) : bool := existsb p (event_tokens type).

(* src: ai-gateway/src/agent/adapter.rs:626-628 has_tool_token *)
Definition has_tool_token (type : string) : bool :=
  has_token (λ t, String.eqb t "tool" || String.eqb t "tools") type.

Fixpoint llm_in (tokens : list string) : bool :=
  match tokens with
  | [] => false
  | t :: rest =>
      String.eqb t "llm"
      || (String.eqb t "chat" && match rest with n :: _ => String.eqb n "model" | [] => false end)
      || llm_in rest
  end.

(* src: ai-gateway/src/agent/adapter.rs:630-641 has_llm_token *)
Definition has_llm_token (type : string) : bool := llm_in (event_tokens type).

(* src: ai-gateway/src/agent/adapter.rs:643-645 has_approval_token *)
Definition has_approval_token (type : string) : bool := has_token (λ t, String.eqb t "approval") type.

Definition is_completion_word (t : string) : bool :=
  String.eqb t "completed" || String.eqb t "complete" || String.eqb t "end".

Fixpoint not_then_completion (tokens : list string) : bool :=
  match tokens with
  | t :: rest =>
      (String.eqb t "not" && match rest with n :: _ => is_completion_word n | [] => false end)
      || not_then_completion rest
  | [] => false
  end.

(* src: ai-gateway/src/agent/adapter.rs:615-624 has_not_completion_tokens *)
Definition has_not_completion_tokens (type : string) : bool := not_then_completion (event_tokens type).

Definition separators : list string := ["."; "_"; "-"; ":"; "/"].

(* src: ai-gateway/src/agent/adapter.rs:596-613 is_ambiguous_incomplete_event *)
Definition is_ambiguous_incomplete_event (type : string) : bool :=
  has_token (λ t, String.eqb t "incomplete") type
  || has_not_completion_tokens type
  || existsb (λ sep, match strip_suffix (sep ++ "complete") type with
                     | Some prefix => String.eqb (last_part "" prefix) "not"
                     | None => false
                     end) separators.

(* src: ai-gateway/src/agent/adapter.rs:655-660 has_false_positive_tool_or_llm_token *)
Definition has_false_positive_tool_or_llm_token (type : string) : bool :=
  has_token (λ t, negb (String.eqb t "tool" || String.eqb t "tools" || String.eqb t "llm" || String.eqb t "chat"
                        || String.eqb t "model")
                  && (contains "tool" t || contains "llm" t)) type.

(* src: ai-gateway/src/agent/adapter.rs:681-689 has_completion_suffix *)
Definition has_completion_suffix (type suffix : string) : bool :=
  match strip_suffix suffix type with
  | None => false
  | Some prefix => negb (String.eqb (last_part "" prefix) "not")
  end.

(* src: ai-gateway/src/agent/adapter.rs:662-679 is_generic_completion_event *)
Definition is_generic_completion_event (type : string) : bool :=
  is_completion_word type
  || existsb (λ word, existsb (λ sep, has_completion_suffix type (sep ++ word)) separators)
       ["completed"; "complete"; "end"].

(* src: ai-gateway/src/agent/adapter.rs:567-594 map_unknown_event_type *)
Definition map_unknown_event_type (type : string) : option (string * AgentStepKind) :=
  let compact := to_ascii_lowercase type in
  if is_ambiguous_incomplete_event compact then None
  else if has_tool_token compact then
    if is_generic_completion_event compact then Some ("tool.call.completed", ToolCall)
    else Some ("tool.call.requested", ToolCall)
  else if has_llm_token compact then
    if is_generic_completion_event compact then Some ("llm.call.completed", LlmCall)
    else Some ("llm.call.started", LlmCall)
  else if has_approval_token compact then Some ("approval.requested", Approval)
  else if contains "checkpoint" compact then Some ("checkpoint.created", Checkpoint)
  else if negb (has_false_positive_tool_or_llm_token compact) && is_generic_completion_event compact
  then Some ("step.completed", UnknownKind)
  else None.

(* src: ai-gateway/src/agent/adapter.rs:725-728 is_tool_node_type *)
Definition is_tool_node_type (node_type : string) : bool := has_tool_token (to_ascii_lowercase node_type).

(* src: ai-gateway/src/agent/adapter.rs:358-431 map_n8n_event_type *)
Definition map_n8n_event_type (type : string) (node_type : option string) : option Mapping :=
  let tool := match node_type with Some t => is_tool_node_type t | None => false end in
  lookup_name type [
    ("execution.started", state_of "run.started" Planning);
    ("execution.success", state_of "run.completed" UnknownKind);
    ("execution.error", state_of "run.failed" ErrorRecovery);
    ("node.started", if tool then starts "tool.call.requested" ToolCall else state_of "step.started" UnknownKind);
    ("node.finished", if tool then ends "tool.result.received" ToolResult else ends "step.completed" UnknownKind);
    ("node.error", if tool then ends "tool.call.failed" ToolCall else ends "step.failed" ErrorRecovery);
    ("waiting", starts "approval.requested" Approval)].

(** ** Metadata *)

(** An object, wrapping any other value under [value]. *)
Definition wrap (m : Value) : list (string * Value) :=
  match m with Object fields => fields | v => [("value", v)] end.

(** [map.entry(key).or_insert_with(..)]. *)
Definition or_insert (key : string) (v : Value) (fields : list (string * Value)) : list (string * Value) :=
  match assoc key fields with Some _ => fields | None => (fields ++ [(key, v)])%list end.

(* src: ai-gateway/src/agent/adapter.rs:713-723 metadata_insert_string *)
Definition metadata_insert_string (key value : string) (m : Value) : Value :=
  Object (or_insert key (Str value) (wrap m)).

(* src: ai-gateway/src/agent/adapter.rs:730-753 enrich_adapter_metadata *)
Definition enrich_adapter_metadata (source : AgentEventSource) (raw_event_type : string) (name : option string)
    (m : Value) : Value :=
  let f := or_insert "framework" (Str (event_source_as_str source)) (wrap m) in
  let f := or_insert "rawEventType" (Str raw_event_type) f in
  Object (match name with Some n => or_insert "rawName" (Str n) f | None => f end).

Definition ALLOWLIST : list string :=
  ["frameworkVersion"; "rawEventType"; "rawEventName"; "traceId"; "trace_id"; "spanId"; "span_id"; "executionId";
   "execution_id"; "workflowId"; "workflow_id"; "nodeId"; "node_id"; "taskId"; "task_id"; "toolName"; "tool_name";
   "sequence"].

(* src: ai-gateway/src/agent/adapter.rs:755-790 copy_allowlisted_raw_fields_to_metadata *)
Definition copy_allowlisted (raw : list (string * Value)) (m : Value) : Value :=
  Object (fold_left (λ f key, match assoc key raw with Some v => or_insert key v f | None => f end) ALLOWLIST (wrap m)).

Definition copy_raw (e : AgentEventInput) : AgentEventInput :=
  with_metadata (copy_allowlisted (i_raw_fields e) (i_metadata e)) e.

(* src: ai-gateway/src/agent/adapter.rs:699-705 raw_string *)
Definition raw_string (e : AgentEventInput) (key : string) : option string := assoc key (i_raw_fields e) ≫= Json.as_str.

(* src: ai-gateway/src/agent/adapter.rs:707-711 fill_option *)
Definition fill_option (target value : option string) : option string :=
  match target with Some _ => target | None => value end.

Definition insert_raw (key raw_key : string) (e : AgentEventInput) : AgentEventInput :=
  match raw_string e raw_key with
  | Some v => with_metadata (metadata_insert_string key v (i_metadata e)) e
  | None => e
  end.

(** ** The adapters *)

(* src: ai-gateway/src/agent/adapter.rs:197-210 finish_framework_event *)
Definition finish_framework_event (e : AgentEventInput) (source : AgentEventSource) (raw_type : string)
  : AgentEventInput :=
  copy_raw (with_metadata (enrich_adapter_metadata source raw_type (i_name e) (i_metadata e)) e).

(* src: ai-gateway/src/agent/adapter.rs:212-228 apply_unknown_heuristic_phase_and_stage *)
Definition heuristic_phase (e : AgentEventInput) : AgentEventPhase * AgentPolicyStage :=
  let t := i_event_type e in
  if String.eqb t "tool.call.requested" || String.eqb t "llm.call.started" || String.eqb t "approval.requested"
  then (Before, PreAction)
  else if String.eqb t "checkpoint.created" then (State, AuditOnly)
  else if ends_with ".completed" t then (After, AuditOnly)
  else (i_event_phase e, i_policy_stage e).

(* src: ai-gateway/src/agent/adapter.rs:168-195 adapt_unknown_event *)
Definition adapt_unknown_event (source : AgentEventSource) (e : AgentEventInput) : AgentEventInput :=
  let e := if bool_decide (source = UnknownEventSource) then with_trust TrustSelfReported e else e in
  let raw_type := i_event_type e in
  let e := match map_unknown_event_type raw_type with
           | Some (type, kind) =>
               let e := set_mapping type kind (i_event_phase e) (i_policy_stage e) Heuristic Medium e in
               let '(phase, stage) := heuristic_phase e in
               set_mapping type kind phase stage Heuristic Medium e
           | None => set_mapping "unknown" UnknownKind UnknownPhase AuditOnly Heuristic Low e
           end in
  finish_framework_event e source raw_type.

Definition apply_mapping (m : Mapping) (e : AgentEventInput) : AgentEventInput :=
  let '(type, kind, phase, stage) := m in set_mapping type kind phase stage Runtime High e.

(* src: ai-gateway/src/agent/adapter.rs:25-50 adapt_langgraph_event *)
Definition adapt_langgraph_event (e : AgentEventInput) : AgentEventInput :=
  let raw_type := i_event_type e in
  let e := match map_langgraph_event_type raw_type with Some m => apply_mapping m e | None => e end in
  let node := fill_option (i_graph_node e)
                (fill_option (get "langgraph_node" (i_metadata e) ≫= Json.as_str) (i_name e)) in
  let e := with_ids (i_agent_id_external e) (i_run_id e) (i_step_id e) (i_parent_step_id e) node e in
  finish_framework_event e LangGraph raw_type.

(* src: ai-gateway/src/agent/adapter.rs:52-81 adapt_openai_agents_event *)
Definition adapt_openai_agents_event (e : AgentEventInput) : AgentEventInput :=
  let e := with_ids (i_agent_id_external e) (fill_option (i_run_id e) (raw_string e "trace_id"))
             (fill_option (i_step_id e) (fill_option (raw_string e "span_id") (raw_string e "item_id")))
             (fill_option (i_parent_step_id e) (raw_string e "parent_id")) (i_graph_node e) e in
  let raw_type := i_event_type e in
  match map_openai_agents_event_type raw_type with
  | None => adapt_unknown_event OpenAiAgents e
  | Some m =>
      let e := apply_mapping m e in
      let e := match is_openai_agents_tool_metadata_event raw_type, i_name e with
               | true, Some n => with_metadata (metadata_insert_string "tool_name" n (i_metadata e)) e
               | _, _ => e
               end in
      finish_framework_event e OpenAiAgents raw_type
  end.

(* src: ai-gateway/src/agent/adapter.rs:83-114 adapt_n8n_event *)
Definition adapt_n8n_event (e : AgentEventInput) : AgentEventInput :=
  let e := with_ids (fill_option (i_agent_id_external e) (raw_string e "workflowId"))
             (fill_option (i_run_id e) (raw_string e "executionId")) (fill_option (i_step_id e) (raw_string e "nodeId"))
             (i_parent_step_id e) (fill_option (i_graph_node e) (raw_string e "nodeName")) e in
  let e := insert_raw "node_type" "nodeType" e in
  let raw_type := i_event_type e in
  match map_n8n_event_type raw_type (raw_string e "nodeType") with
  | None => adapt_unknown_event N8n e
  | Some m => finish_framework_event (apply_mapping m e) N8n raw_type
  end.

(* src: ai-gateway/src/agent/adapter.rs:116-140 adapt_crewai_event *)
Definition adapt_crewai_event (e : AgentEventInput) : AgentEventInput :=
  let e := with_ids (i_agent_id_external e) (fill_option (i_run_id e) (raw_string e "crew_id"))
             (fill_option (i_step_id e) (raw_string e "task_id")) (i_parent_step_id e) (i_graph_node e) e in
  let e := insert_raw "tool_name" "tool_name" e in
  let raw_type := i_event_type e in
  match map_crewai_event_type raw_type with
  | None => adapt_unknown_event CrewAi e
  | Some m => finish_framework_event (apply_mapping m e) CrewAi raw_type
  end.

(* src: ai-gateway/src/agent/adapter.rs:142-166 adapt_mastra_event *)
Definition adapt_mastra_event (e : AgentEventInput) : AgentEventInput :=
  let e := with_ids (i_agent_id_external e) (fill_option (i_run_id e) (raw_string e "traceId"))
             (fill_option (i_step_id e) (raw_string e "spanId")) (i_parent_step_id e) (i_graph_node e) e in
  let e := insert_raw "tool_name" "toolName" e in
  let raw_type := i_event_type e in
  match map_mastra_event_type raw_type with
  | None => adapt_unknown_event Mastra e
  | Some m => finish_framework_event (apply_mapping m e) Mastra raw_type
  end.

(* src: ai-gateway/src/agent/adapter.rs:9-23 adapt_agent_event *)
Definition adapt_agent_event (source : AgentEventSource) (e : AgentEventInput) : AgentEventInput :=
  let e := with_source source e in
  match source with
  | Alephant => copy_raw e
  | LangGraph => adapt_langgraph_event e
  | OpenAiAgents => adapt_openai_agents_event e
  | N8n => adapt_n8n_event e
  | CrewAi => adapt_crewai_event e
  | Mastra => adapt_mastra_event e
  | UnknownEventSource => adapt_unknown_event UnknownEventSource e
  end.

(** ** What the adapters keep *)

(** Every field the first metadata has, the second has with the same value. *)
Definition keeps (m m' : Value) : Prop := ∀ k v, assoc k (wrap m) = Some v → assoc k (wrap m') = Some v.

#[global] Instance keeps_preorder : PreOrder keeps.
Proof. split; [by intros m k v|]. intros a b c Hab Hbc k v H. by apply Hbc, Hab. Qed.

Lemma assoc_app k f g : assoc k (f ++ g)%list = match assoc k f with Some v => Some v | None => assoc k g end.
Proof. induction f as [|[k' v] f IH]; [done|]. simpl. by destruct (String.eqb k' k). Qed.

Lemma or_insert_keeps key v f k w : assoc k f = Some w → assoc k (or_insert key v f) = Some w.
Proof. intros H. rw /or_insert. destruct (assoc key f); [done|]. by rw assoc_app H. Qed.

Lemma metadata_insert_keeps key v m : keeps m (metadata_insert_string key v m).
Proof. intros k w H. by apply or_insert_keeps. Qed.

Lemma enrich_keeps source type name m : keeps m (enrich_adapter_metadata source type name m).
Proof.
  intros k w H. rw /enrich_adapter_metadata /=. destruct name; by repeat apply or_insert_keeps.
Qed.

Lemma copy_allowlisted_keeps raw m : keeps m (copy_allowlisted raw m).
Proof.
  intros k w. rw /copy_allowlisted. cbn [wrap]. generalize (wrap m). generalize ALLOWLIST. intros l.
  induction l as [|key l IH]; intros f H; [done|]. apply IH. destruct (assoc key raw); [|done].
  by apply or_insert_keeps.
Qed.

Create HintDb adapter.
#[local] Hint Resolve metadata_insert_keeps enrich_keeps copy_allowlisted_keeps : adapter.

(** The fields no adapter may touch, and the identifiers it may only fill in. *)
Definition preserved (e e' : AgentEventInput) : Prop :=
  (i_source e' = i_source e ∧ i_event_id e' = i_event_id e ∧ i_version e' = i_version e ∧ i_sequence e' = i_sequence e ∧ i_name e' = i_name e ∧
   i_agent_name e' = i_agent_name e ∧ i_tool_call_id e' = i_tool_call_id e ∧ i_handoff_id e' = i_handoff_id e ∧
   i_attempt e' = i_attempt e ∧ i_input_hash e' = i_input_hash e ∧ i_timestamp e' = i_timestamp e) ∧
  Forall (λ f : AgentEventInput → option string, is_Some (f e) → f e' = f e)
    [i_agent_id_external; i_run_id; i_step_id; i_parent_step_id; i_graph_node] ∧
  keeps (i_metadata e) (i_metadata e').

#[global] Instance preserved_preorder : PreOrder preserved.
Proof.
  split; [intros e; split_and!; try done; by repeat constructor|].
  intros a b c (H1 & H2 & H3) (G1 & G2 & G3). split; [naive_solver congruence|]. split; [|by etrans].
  apply Forall_forall. intros f Hf Hs. rw Forall_forall in H2. rw Forall_forall in G2.
  rw (G2 f Hf) ?(H2 f Hf) //.
Qed.

Lemma preserved_metadata e m : keeps (i_metadata e) m → preserved e (with_metadata m e).
Proof. intros H. split_and!; try done; by repeat constructor. Qed.

Lemma preserved_mapping e t k p s src c : preserved e (set_mapping t k p s src c e).
Proof. split_and!; try done; by repeat constructor. Qed.

Lemma preserved_trust e t : preserved e (with_trust t e).
Proof. split_and!; try done; by repeat constructor. Qed.

Lemma fill_option_keeps a b : is_Some a → fill_option a b = a.
Proof. by intros [x ->]. Qed.

Lemma preserved_ids e a r s p n :
  (is_Some (i_agent_id_external e) → a = i_agent_id_external e) → (is_Some (i_run_id e) → r = i_run_id e) →
  (is_Some (i_step_id e) → s = i_step_id e) → (is_Some (i_parent_step_id e) → p = i_parent_step_id e) →
  (is_Some (i_graph_node e) → n = i_graph_node e) → preserved e (with_ids a r s p n e).
Proof. intros. split_and!; try done. by repeat constructor. Qed.

Ltac ids_preserved := apply preserved_ids; first [done | apply fill_option_keeps].

Lemma preserved_insert_raw e k r : preserved e (insert_raw k r e).
Proof.
  rw /insert_raw. destruct (raw_string e r); [|done]. apply preserved_metadata. auto with adapter.
Qed.

Lemma preserved_finish e s t : preserved e (finish_framework_event e s t).
Proof.
  rw /finish_framework_event /copy_raw. etrans; [|apply preserved_metadata; auto with adapter].
  apply preserved_metadata. auto with adapter.
Qed.

Lemma preserved_unknown s e : preserved e (adapt_unknown_event s e).
Proof.
  rw /adapt_unknown_event. set (e1 := if bool_decide _ then _ else _).
  trans e1; [rw /e1; case_bool_decide; [apply preserved_trust|done]|].
  etrans; [|apply preserved_finish]. destruct (map_unknown_event_type _) as [[t k]|]; [|apply preserved_mapping].
  destruct (heuristic_phase _). etrans; [apply preserved_mapping|apply preserved_mapping].
Qed.

Lemma preserved_apply m e : preserved e (apply_mapping m e).
Proof. destruct m as [[[]]]. apply preserved_mapping. Qed.

Lemma preserved_langgraph e : preserved e (adapt_langgraph_event e).
Proof.
  rw /adapt_langgraph_event. etrans; [|apply preserved_finish].
  set (e1 := match map_langgraph_event_type _ with Some _ => _ | None => _ end).
  trans e1; [rw /e1; case_match; [apply preserved_apply|done]|]. ids_preserved.
Qed.

Lemma preserved_openai e : preserved e (adapt_openai_agents_event e).
Proof.
  rw /adapt_openai_agents_event. set (e1 := with_ids _ _ _ _ _ e).
  trans e1; [ids_preserved|]. case_match; [|apply preserved_unknown].
  etrans; [|apply preserved_finish]. etrans; [apply preserved_apply|].
  repeat case_match; try done. apply preserved_metadata. auto with adapter.
Qed.

Lemma preserved_table e (table : option Mapping) s t :
  preserved e (match table with
               | None => adapt_unknown_event s e
               | Some m => finish_framework_event (apply_mapping m e) s t
               end).
Proof. destruct table; [|apply preserved_unknown]. etrans; [apply preserved_apply|apply preserved_finish]. Qed.

Lemma preserved_adapt source e : preserved (with_source source e) (adapt_agent_event source e).
Proof.
  rw /adapt_agent_event.
  generalize (with_source source e). clear e. intros e. destruct source.
  - apply preserved_metadata. auto with adapter.
  - apply preserved_langgraph.
  - apply preserved_openai.
  - etrans; [|apply preserved_table]. etrans; [|apply preserved_insert_raw]. ids_preserved.
  - etrans; [|apply preserved_table]. etrans; [|apply preserved_insert_raw]. ids_preserved.
  - etrans; [|apply preserved_table]. etrans; [|apply preserved_insert_raw]. ids_preserved.
  - apply preserved_unknown.
Qed.

(** Adapting an event never overwrites what the client said:
    identifiers it gave, its name, sequence and times are unchanged, and every
    field of its metadata keeps its value (metadata that is not an object is
    kept under [value]); what is missing is filled in from the framework's own
    fields. *)
Theorem adapter_keeps_what_was_said source e :
  preserved (with_source source e) (adapt_agent_event source e) ∧
  is_Some (as_object (i_metadata (adapt_agent_event source e))).
Proof.
  split; [apply preserved_adapt|]. destruct source; try by eexists.
  - rw /= /adapt_openai_agents_event. case_match; by eexists.
  - rw /= /adapt_n8n_event. case_match; by eexists.
  - rw /= /adapt_crewai_event. case_match; by eexists.
  - rw /= /adapt_mastra_event. case_match; by eexists.
Qed.

(** ** Which events go before policy *)

Definition before_types : list string :=
  ["tool.call.requested"; "llm.call.started"; "approval.requested"; "handoff.requested"].

(** The stage, the phase and the type say the same of an event. *)
Definition staged (type : string) (phase : AgentEventPhase) (stage : AgentPolicyStage) : Prop :=
  (stage = PreAction ↔ phase = Before) ∧ (stage = PreAction ↔ type ∈ before_types) ∧ stage ≠ PostAction.

#[global] Instance AgentEventPhase_eq_dec : EqDecision AgentEventPhase.
Proof. solve_decision. Defined.
#[global] Instance AgentPolicyStage_eq_dec : EqDecision AgentPolicyStage.
Proof. solve_decision. Defined.
#[global] Instance staged_dec t p s : Decision (staged t p s).
Proof. rw /staged. apply _. Defined.

Lemma lookup_name_Forall {A} (P : A → Prop) s l a :
  Forall (λ x, P x.2) l → lookup_name s l = Some a → P a.
Proof.
  induction 1 as [|[n b] l Hb _ IH]; [done|]. simpl. destruct (String.eqb n s); [by intros [= <-]|done].
Qed.

Definition staged_mapping (m : Mapping) : Prop := let '(t, _, p, s) := m in staged t p s.
#[global] Instance staged_mapping_dec m : Decision (staged_mapping m).
Proof. destruct m as [[[]]]. apply _. Defined.

Ltac table_staged := apply lookup_name_Forall; apply (bool_decide_unpack _); by vm_compute.

Lemma langgraph_staged t m : map_langgraph_event_type t = Some m → staged_mapping m.
Proof. table_staged. Qed.
Lemma openai_staged t m : map_openai_agents_event_type t = Some m → staged_mapping m.
Proof. table_staged. Qed.
Lemma crewai_staged t m : map_crewai_event_type t = Some m → staged_mapping m.
Proof. table_staged. Qed.
Lemma mastra_staged t m : map_mastra_event_type t = Some m → staged_mapping m.
Proof. table_staged. Qed.
Lemma n8n_staged t n m : map_n8n_event_type t n = Some m → staged_mapping m.
Proof. rw /map_n8n_event_type. destruct (match n with Some _ => _ | None => _ end); table_staged. Qed.

Definition well_staged (e : AgentEventInput) : Prop :=
  staged (i_event_type e) (i_event_phase e) (i_policy_stage e) ∧
  (i_policy_stage e = PreAction → i_step_confidence e ∈ [Medium; High]).

Lemma staged_apply m e s t : staged_mapping m → well_staged (finish_framework_event (apply_mapping m e) s t).
Proof. destruct m as [[[t' k] p] st]. intros H. split; [exact H|]. intros _. right. by left. Qed.

Lemma unknown_types t x k :
  map_unknown_event_type t = Some (x, k) →
  x ∈ ["tool.call.requested"; "llm.call.started"; "approval.requested"; "checkpoint.created"; "tool.call.completed";
       "llm.call.completed"; "step.completed"].
Proof. rw /map_unknown_event_type. intros H. repeat case_match; simplify_eq; set_solver. Qed.

Lemma staged_unknown s e : well_staged (adapt_unknown_event s e).
Proof.
  rw /adapt_unknown_event. set (e1 := if bool_decide _ then _ else _). clearbody e1.
  destruct (map_unknown_event_type (i_event_type e1)) as [[t k]|] eqn:Hm; cycle 1.
  { split; [by apply (bool_decide_unpack _); vm_compute|done]. }
  apply unknown_types in Hm. rw !elem_of_cons elem_of_nil in Hm.
  destruct_or! Hm; try done; subst; (split; [by apply (bool_decide_unpack _); vm_compute|]);
    intros _; by left.
Qed.

(** Which events are put before policy: of an event that a
    framework adapter classifies, the policy stage is before the action
    exactly when the phase is and exactly when it announces a tool call, an
    LLM call, an approval or a handoff; such an event is never of low
    confidence, so its policy check is not skipped. *)
Lemma classified_staged source e :
  source ≠ Alephant → (source = LangGraph → is_Some (map_langgraph_event_type (i_event_type e))) →
  well_staged (adapt_agent_event source e).
Proof.
  intros Hs Hl. destruct source; [done| | | | | |].
  - destruct (Hl eq_refl) as [m Hm]. rw /= /adapt_langgraph_event. cbn [with_source i_event_type]. rw Hm.
    eapply langgraph_staged in Hm. destruct m as [[[t k] p] st]. split; [exact Hm|]. intros _. right. by left.
  - rw /= /adapt_openai_agents_event. destruct (map_openai_agents_event_type _) as [m|] eqn:Hm; [|apply staged_unknown].
    apply openai_staged in Hm. destruct m as [[[t k] p] st].
    repeat case_match; (split; [exact Hm|]); intros _; right; by left.
  - rw /= /adapt_n8n_event. destruct (map_n8n_event_type _ _) as [m|] eqn:Hm; [|apply staged_unknown].
    by eapply staged_apply, n8n_staged.
  - rw /= /adapt_crewai_event. destruct (map_crewai_event_type _) as [m|] eqn:Hm; [|apply staged_unknown].
    by eapply staged_apply, crewai_staged.
  - rw /= /adapt_mastra_event. destruct (map_mastra_event_type _) as [m|] eqn:Hm; [|apply staged_unknown].
    by eapply staged_apply, mastra_staged.
  - apply staged_unknown.
Qed.

Definition demo_event (type : string) : AgentEventInput :=
  mkEventInput None None "2026-05-27" (Some "evt") type UnknownPhase AuditOnly TrustSelfReported None None None None
    (Some "run") None None None None None None UnknownSource UnknownConfidence None None None
    (Object [("framework", Str "mine")]) [("toolName", Str "search")].

Example demo_event_adapted :
  i_metadata (adapt_agent_event Mastra (demo_event "workflow.run.started")) =
  Object [("framework", Str "mine"); ("tool_name", Str "search"); ("rawEventType", Str "workflow.run.started");
          ("toolName", Str "search")].
Proof. reflexivity. Qed.

(** An unknown client that reports the failure of a tool is taken to ask for
    one. *)
Example failed_tool_taken_for_a_request :
  let e := adapt_agent_event UnknownEventSource (demo_event "tool.failed") in
  i_event_type e = "tool.call.requested" ∧ i_event_phase e = Before ∧ i_policy_stage e = PreAction.
Proof. split_and!; reflexivity. Qed.
