(* ===== verification/AgentEvents.v ===== *)
(** * The service that takes agent events

    Models [ai-gateway/src/agent/service.rs]: the limits on a batch, conflicts
    of an event with the request's headers and with earlier reports of its
    step, the normalised envelope, the policy check with its failure, the
    metadata that is written, and the answer.  It composes [EventAdapter],
    [AgentContext], [StepState], [AgentPolicy] and the event sink.

    The reader of the body, the JSON writer, Redis, the policy service and the
    sink are parameters; their replies may differ from event to event. *)

From S2P Require Import Prelude RustStr Json StepState Headers AgentContext AgentPolicy ToolCatalog ToolCalls EventAdapter.
From Stdlib Require Import Ascii.
Local Open Scope string_scope.

(** ** Errors and limits *)

(* src: ai-gateway/src/agent/service.rs:78-102 AgentServiceError *)
Inductive AgentServiceError :=
| EvDisabled | EvMethodNotAllowed | EvBatchTooLarge | EvPayloadTooLarge | EvMetadataTooLarge | EvInvalidJson
| EvMissingAuth | EvSinkFailed | EvStepConflict | EvContextConflict | EvPolicyUnavailable.

(* src: ai-gateway/src/agent/service.rs:105-119 AgentServiceError::code *)
Definition event_error_code (e : AgentServiceError) : string :=
  match e with
  | EvDisabled => "disabled" | EvMethodNotAllowed => "method_not_allowed" | EvBatchTooLarge => "batch_too_large"
  | EvPayloadTooLarge => "payload_too_large" | EvMetadataTooLarge => "metadata_too_large"
  | EvInvalidJson => "invalid_json" | EvMissingAuth => "missing_auth" | EvSinkFailed => "sink_failed"
  | EvStepConflict => "step_conflict" | EvContextConflict => "context_conflict"
  | EvPolicyUnavailable => "policy_unavailable"
  end.

(* src: ai-gateway/src/agent/service.rs:587-602 error_response *)
Definition event_error_status (e : AgentServiceError) : Z :=
  match e with
  | EvDisabled => 404 | EvMethodNotAllowed => 405
  | EvBatchTooLarge | EvPayloadTooLarge | EvMetadataTooLarge => 413
  | EvInvalidJson => 400 | EvMissingAuth => 401 | EvSinkFailed | EvPolicyUnavailable => 502
  | EvStepConflict | EvContextConflict => 409
  end.

(* src: ai-gateway/src/agent/service.rs:122-135 validate_event_limits *)
Definition validate_event_limits (event_count payload_bytes max_batch_events max_event_bytes : Z)
  : result unit AgentServiceError :=
  if (max_batch_events <? event_count)%Z then Err EvBatchTooLarge
  else if (max_event_bytes <? payload_bytes)%Z then Err EvPayloadTooLarge
  else Ok tt.

(* src: ai-gateway/src/config/agent.rs:271-277 AgentMetadataRedaction *)
Inductive AgentMetadataRedaction := RedactionDisabled | RedactionBasic.

(** What the service reads of the configuration. *)
(* src: ai-gateway/src/config/agent.rs:6-29 AgentConfig *)
Record AgentConfig := mkAgentConfig {
  agent_enabled : bool;
  allow_header_context : bool;
  context_conflict_action : AgentConflictAction;
  step_conflict_action : AgentConflictAction;
  max_header_value_bytes : Z;
  max_event_bytes : Z;
  max_batch_events : Z;
  max_metadata_bytes : Z;
  metadata_redaction : AgentMetadataRedaction;
  agent_policy_mode : AgentPolicyMode
}.

#[global] Instance StepConflictDecision_eq_dec : EqDecision StepConflictDecision.
Proof. solve_decision. Defined.

(** ** Conflicts with the headers *)

(* src: ai-gateway/src/agent/service.rs:543-549 optional_value_conflicts *)
Definition conflicts {A} `{EqDecision A} (left right : option A) : bool :=
  match left, right with Some a, Some b => bool_decide (a ≠ b) | _, _ => false end.

(* src: ai-gateway/src/agent/service.rs:515-541 context_fields_conflict *)
Definition context_fields_conflict (h : AgentContext) (e : AgentEventInput) : bool :=
  conflicts (agent_id_external h) (i_agent_id_external e) || conflicts (run_id h) (i_run_id e)
  || conflicts (ctx_step_id h) (i_step_id e) || conflicts (ctx_parent_step_id h) (i_parent_step_id e)
  || conflicts (ctx_tool_call_id h) (i_tool_call_id e) || conflicts (handoff_id h) (i_handoff_id e)
  || conflicts (ctx_graph_node h) (i_graph_node e) || conflicts (ctx_step_kind h) (i_step_kind e)
  || (bool_decide (step_source h ≠ UnknownSource) && bool_decide (i_step_source e ≠ UnknownSource)
      && bool_decide (step_source h ≠ i_step_source e)).

(* src: ai-gateway/src/agent/service.rs:496-513 check_context_conflict *)
Definition check_context_conflict (header : option AgentContext) (e : AgentEventInput) (action : AgentConflictAction)
  : result bool AgentServiceError :=
  if bool_decide (action = Disabled) then Ok false
  else match header with
       | None => Ok false
       | Some h =>
           let conflict := context_fields_conflict h e in
           if conflict && bool_decide (action = Strict) then Err EvContextConflict else Ok conflict
       end.

(** ** The envelope *)

(* src: ai-gateway/src/agent/service.rs:470-494 attach_agent_name_conflict_metadata *)
Definition attach_agent_name_conflict_metadata (c : AgentNameConflict) (m : Value) : Value :=
  let f := assoc_set "registeredAgentName" (Str (registered_agent_name c)) (wrap m) in
  let f := assoc_set "selfReportedAgentName" (Str (self_reported_agent_name c)) f in
  let f := assoc_set "selfReportedAgentNameSource" (Str (self_reported_agent_name_source c)) f in
  Object (assoc_set "agentNameConflict" (Bool true) f).

Definition set_envelope_metadata (m : Value) (v : AgentEventEnvelope) : AgentEventEnvelope :=
  mkEnvelope (event_id v) (event_type v) (policy_stage v) (envelope_name v) (envelope_agent_id_external v)
    (envelope_agent_uid v) (envelope_run_id v) (envelope_step_id v) (envelope_tool_call_id v) (envelope_step_kind v) m.
Definition set_envelope_type (t : string) (v : AgentEventEnvelope) : AgentEventEnvelope :=
  mkEnvelope (event_id v) t (policy_stage v) (envelope_name v) (envelope_agent_id_external v)
    (envelope_agent_uid v) (envelope_run_id v) (envelope_step_id v) (envelope_tool_call_id v) (envelope_step_kind v)
    (metadata v).
Definition with_envelope (v : AgentEventEnvelope) (e : ToolEvent) : ToolEvent :=
  mkToolEvent (te_version e) v (te_source e) (te_phase e) (te_policy_mode e) (te_source_trust e) (te_sequence e)
    (te_observed_at e) (te_timestamp e) (te_agent_name e) (te_agent_name_source e) (te_agent_trust_level e)
    (te_workspace_id e) (te_virtual_key_id e) (te_parent_step_id e) (te_handoff_id e) (te_graph_node e)
    (te_step_source e) (te_step_confidence e) (te_trust_level e) (te_context_conflict e) (te_step_id_conflict e)
    (te_attempt e) (te_input_hash e) (te_billing_mirror_trusted e).
Definition with_conflicts (context step : bool) (e : ToolEvent) : ToolEvent :=
  mkToolEvent (te_version e) (te_envelope e) (te_source e) (te_phase e) (te_policy_mode e) (te_source_trust e)
    (te_sequence e) (te_observed_at e) (te_timestamp e) (te_agent_name e) (te_agent_name_source e)
    (te_agent_trust_level e) (te_workspace_id e) (te_virtual_key_id e) (te_parent_step_id e) (te_handoff_id e)
    (te_graph_node e) (te_step_source e) (te_step_confidence e) (te_trust_level e) context step
    (te_attempt e) (te_input_hash e) (te_billing_mirror_trusted e).
Definition event_metadata (e : ToolEvent) : Value := metadata (te_envelope e).
Definition set_event_metadata (m : Value) (e : ToolEvent) : ToolEvent :=
  with_envelope (set_envelope_metadata m (te_envelope e)) e.

(* src: ai-gateway/src/agent/service.rs:395-468 normalize_event *)
Definition normalize_event (now : Z) (uuid : string) (e : AgentEventInput) (auth : AuthContext)
    (redaction : AgentMetadataRedaction) (header : option AgentContext) (mode : AgentPolicyMode) : ToolEvent :=
  let m := match redaction with RedactionBasic => redact_metadata (i_metadata e) | RedactionDisabled => i_metadata e end in
  let resolved := resolve_agent_name (auth_agent_name auth) (i_agent_name e) (header ≫= agent_name) in
  let m := match conflict resolved with Some c => attach_agent_name_conflict_metadata c m | None => m end in
  mkToolEvent (i_version e)
    (mkEnvelope (default ("evt_" ++ uuid) (i_event_id e)) (i_event_type e) (i_policy_stage e) (i_name e)
       (i_agent_id_external e) None (i_run_id e) (i_step_id e) (i_tool_call_id e) (i_step_kind e) m)
    (default UnknownEventSource (i_source e)) (i_event_phase e) mode (i_source_trust e) (i_sequence e) now
    (i_timestamp e) (name resolved) (source resolved) (trust_level_as_str <$> resolved_trust resolved) (org_id auth)
    (virtual_key_id auth) (i_parent_step_id e) (i_handoff_id e) (i_graph_node e)
    (if bool_decide (i_step_source e = UnknownSource) then Heuristic else i_step_source e)
    (if bool_decide (i_step_confidence e = UnknownConfidence) then Low else i_step_confidence e)
    (default SelfReported (resolved_trust resolved)) false false (i_attempt e) (i_input_hash e) false.

(* src: ai-gateway/src/agent/service.rs:150-157 should_validate_policy_for_event *)
Definition should_validate_policy_for_event (e : ToolEvent) : bool :=
  bool_decide (te_phase e = Before) && bool_decide (policy_stage (te_envelope e) = PreAction)
  && match te_step_confidence e with Medium | High => true | _ => false end.

(** ** The metadata that is written *)

(* src: ai-gateway/src/agent/service.rs:376-385 attach_sink_status_to_metadata *)
Definition attach_sink_status_to_metadata (status : string) (m : Value) : Value :=
  Object (assoc_set "sinkStatus" (Str status) (wrap m)).

Definition numbered (key : string) (index : N) : string := key ++ "_" ++ pretty index.

Fixpoint original_key_loop (fuel : nat) (original : string) (index : N) (obj : Fields) : option string :=
  match fuel with
  | O => None
  | S fuel =>
      let key := numbered original index in
      if negb (has_key key obj) then Some key else original_key_loop fuel original (index + 1) obj
  end.

(** One more candidate than there are keys: the search ends (see
    [available_original_key_free]). *)
(* src: ai-gateway/src/agent/service.rs:199-215 available_original_key *)
Definition available_original_key (obj : Fields) (original : string) : string :=
  if negb (has_key original obj) then original
  else default original (original_key_loop (S (length obj)) original 1 obj).

(* src: ai-gateway/src/agent/service.rs:188-197 preserve_original_field *)
Definition preserve_original_field (source original : string) (obj : Fields) : Fields :=
  match assoc source obj with
  | None => obj
  | Some existing =>
      let obj := assoc_remove source obj in
      assoc_set (available_original_key obj original) existing obj
  end.

Definition unavailable_policy : Value :=
  Object [("allowed", Null); ("policyDecision", Str "unavailable"); ("reason", Str "policy_unavailable");
    ("blocked_by", Str "agent.policy.unavailable"); ("policy_id", Str "");
    ("policy_scope", Str "AGENT_POLICY_SCOPE_NONE"); ("snapshot_revision", num 0)].

(* src: ai-gateway/src/agent/service.rs:159-186 attach_policy_unavailable_audit *)
Definition attach_policy_unavailable_audit (e : ToolEvent) : ToolEvent :=
  let f := wrap (event_metadata e) in
  let f := preserve_original_field "policy" "policy_original" f in
  let f := preserve_original_field "status" "status_original" f in
  let f := preserve_original_field "severity" "severity_original" f in
  let f := assoc_set "status" (Str "failed") f in
  let f := assoc_set "severity" (Str "error") f in
  let f := assoc_set "policy" unavailable_policy f in
  with_envelope (set_envelope_metadata (Object f) (set_envelope_type "policy_unavailable" (te_envelope e))) e.

(* src: ai-gateway/src/agent/service.rs:217-233 compact_policy_unavailable_audit *)
Definition compact_policy_unavailable_audit : Value :=
  Object [("status", Str "failed"); ("severity", Str "error"); ("metadata_truncated", Bool true);
    ("metadata_truncation_reason", Str "agent_policy_unavailable_metadata_limit"); ("policy", unavailable_policy)].

(* src: ai-gateway/src/agent/service.rs:368-374 with_sink_status *)
Definition with_sink_status (d : AgentPolicyDecision) (status : string) : AgentPolicyDecision :=
  mkDecision (decision_event_id d) (decision_event_type d) (decision_run_id d) (decision_step_id d) (allowed d)
    (policy_decision d) (decision_policy_stage d) status (reason d) (blocked_by d) (route_hint d) (snapshot_revision d)
    (reason_message d) (policy_id d) (policy_scope d) (violations d) (warnings d).

(** ** Handling a batch *)

(** What the outside answers, for the event at each position. *)
Record EventsWorld := mkEventsWorld {
  ev_to_vec : Value → string;
  ev_as_i64 : string → option Z;
  ev_read : string → option AgentEventsRequest;
  ev_now : nat → Z;
  ev_uuid : nat → string;
  ev_has_redis : bool;
  (** Replies to SET NX EX and GET, by key. *)
  ev_setnx : nat → string → result bool unit;
  ev_get : nat → string → result (option string) unit;
  ev_policy_enabled : bool;
  ev_policy : nat → option (ValidateAgentPolicyRequest → PolicyCall);
  ev_sink : ToolEvent → bool
}.

Section service.
Context (w : EventsWorld) (cfg : AgentConfig) (auth : AuthContext) (header : option AgentContext).

(* src: ai-gateway/src/agent/service.rs:137-148 validate_metadata_limit *)
Definition metadata_too_large (m : Value) : bool := (max_metadata_bytes cfg <? Z.of_nat (len (ev_to_vec w m)))%Z.

(* src: ai-gateway/src/agent/service.rs:551-585 check_step_conflict *)
Definition check_step_conflict (i : nat) (e : ToolEvent) : result StepConflictDecision AgentServiceError :=
  let v := te_envelope e in
  match envelope_run_id v, envelope_step_id v with
  | Some run_id, Some step_id =>
      let agent_identity :=
        match envelope_agent_uid v with
        | Some id => id
        | None => match envelope_agent_id_external v with
                  | Some id => id
                  | None => match virtual_key_id auth with Some id => "vk:" ++ id | None => "unknown" end
                  end
        end in
      let input := mkInput (te_parent_step_id e) (envelope_step_kind v) (te_graph_node e) (envelope_tool_call_id v)
                     (Z.to_N <$> te_attempt e) (te_input_hash e) in
      let key := step_state_key (λ s, s) (org_id auth) agent_identity run_id step_id in
      map_err (λ _, EvSinkFailed)
        (detect_step_conflict (ev_has_redis w) (ev_setnx w i key) (ev_get w i key) (step_fingerprint input)
           (step_conflict_action cfg))
  | _, _ => Ok NoConflict
  end.

(** An event written, and whether the sink took it. *)
Definition Emission : Type := ToolEvent * bool.

(** Writing the event that says policy could not be asked. *)
(* src: ai-gateway/src/agent/service.rs:301-323 handle_agent_events *)
Definition refuse_unavailable (e : ToolEvent) : list Emission * result AgentPolicyDecision AgentServiceError :=
  let e := attach_policy_unavailable_audit e in
  let e := set_event_metadata (attach_sink_status_to_metadata "sent" (event_metadata e)) e in
  let e := if metadata_too_large (event_metadata e)
           then set_event_metadata (attach_sink_status_to_metadata "sent" compact_policy_unavailable_audit) e else e in
  if metadata_too_large (event_metadata e) then ([], Err EvMetadataTooLarge)
  else ([(e, ev_sink w e)], Err (if ev_sink w e then EvPolicyUnavailable else EvSinkFailed)).

(** Writing the event with its decision. *)
(* src: ai-gateway/src/agent/service.rs:328-353 handle_agent_events *)
Definition accept_event (e : ToolEvent) (d : AgentPolicyDecision)
  : list Emission * result AgentPolicyDecision AgentServiceError :=
  let d := with_sink_status d "sent" in
  let m := default (event_metadata e) (attach_policy_decision_to_metadata (event_metadata e) d) in
  let e := set_event_metadata (attach_sink_status_to_metadata (sink_status d) m) e in
  let too_large := metadata_too_large (event_metadata e) in
  if too_large && allowed d then ([], Err EvMetadataTooLarge)
  else
    let e := if too_large
             then set_event_metadata (attach_sink_status_to_metadata (sink_status d) (compact_policy_decision_metadata d)) e
             else e in
    if metadata_too_large (event_metadata e) then ([], Err EvMetadataTooLarge)
    else ([(e, ev_sink w e)], if ev_sink w e then Ok d else Err EvSinkFailed).

(** The envelope of an event before policy, or the error that stops the batch. *)
(* src: ai-gateway/src/agent/service.rs:274-296 handle_agent_events *)
Definition prepare_event (i : nat) (src : AgentEventSource) (input : AgentEventInput) : result ToolEvent AgentServiceError :=
  let event := adapt_agent_event src input in
  if metadata_too_large (i_metadata event) then Err EvMetadataTooLarge
  else
    let? context_conflict := check_context_conflict header event (context_conflict_action cfg) in
    let e := with_conflicts context_conflict false
               (normalize_event (ev_now w i) (ev_uuid w i) event auth (metadata_redaction cfg) header
                  (agent_policy_mode cfg)) in
    let? step_conflict := check_step_conflict i e in
    let e := with_conflicts context_conflict (bool_decide (step_conflict = ConflictWarn ∨ step_conflict = ConflictStrict)) e in
    if bool_decide (step_conflict = ConflictStrict) then Err EvStepConflict else Ok e.

(* src: ai-gateway/src/agent/service.rs:273-354 handle_agent_events *)
Definition process_event (i : nat) (src : AgentEventSource) (input : AgentEventInput)
  : list Emission * result AgentPolicyDecision AgentServiceError :=
  match prepare_event i src input with
  | Err err => ([], Err err)
  | Ok e =>
      if should_validate_policy_for_event e then
        match validate_agent_policy (ev_as_i64 w) (ev_to_vec w) (ev_policy_enabled w) (ev_policy w i) auth (te_envelope e) with
        | Ok d => accept_event e d
        | Err Unavailable => refuse_unavailable e
        end
      else accept_event e (skipped_audit_decision (te_envelope e))
  end.

(** The loop of the handler, from position [i]. *)
(* src: ai-gateway/src/agent/service.rs:271-354 handle_agent_events *)
Fixpoint process_events (i : nat) (events : list (AgentEventSource * AgentEventInput))
  : list Emission * result (list AgentPolicyDecision) AgentServiceError :=
  match events with
  | [] => ([], Ok [])
  | (src, input) :: rest =>
      let '(out, r) := process_event i src input in
      match r with
      | Err err => (out, Err err)
      | Ok d =>
          let '(out', r') := process_events (S i) rest in
          ((out ++ out')%list, match r' with Ok ds => Ok (d :: ds) | Err err => Err err end)
      end
  end.

(* src: ai-gateway/src/agent/event.rs:304-310 AgentEventsResponse *)
Record AgentEventsResponse := mkEventsResponse {
  resp_accepted : Z;
  resp_rejected : Z;
  resp_allowed : bool;
  resp_decisions : list AgentPolicyDecision
}.

(* src: ai-gateway/src/agent/service.rs:261-366 handle_agent_events *)
Definition handle_body (body : string) : list Emission * result AgentEventsResponse AgentServiceError :=
  match ev_read w body with
  | None => ([], Err EvInvalidJson)
  | Some request =>
      let events := into_sourced_events request in
      match validate_event_limits (Z.of_nat (length events)) (Z.of_nat (len body)) (max_batch_events cfg)
              (max_event_bytes cfg) with
      | Err err => ([], Err err)
      | Ok _ =>
          let '(out, r) := process_events 0 events in
          (out, match r with
                | Err err => Err err
                | Ok ds => Ok (mkEventsResponse (Z.of_nat (length ds)) 0 (forallb allowed ds) ds)
                end)
      end
  end.
End service.

(** A request: its method, headers, credentials and body ([None] when reading
    it fails). *)
Record EventsRequest := mkEventsRequest {
  er_method : string;
  er_headers : HeaderMap;
  er_auth : option AuthContext;
  er_body : option string
}.

(* src: ai-gateway/src/agent/service.rs:235-260 handle_agent_events *)
Definition handle_agent_events (w : EventsWorld) (cfg : AgentConfig) (req : EventsRequest)
  : list Emission * result AgentEventsResponse AgentServiceError :=
  if negb (agent_enabled cfg) then ([], Err EvDisabled)
  else if negb (String.eqb (er_method req) "POST") then ([], Err EvMethodNotAllowed)
  else
    let header := if allow_header_context cfg
                  then parse_agent_context_from_headers (er_headers req) (max_header_value_bytes cfg) else None in
    match er_auth req with
    | None => ([], Err EvMissingAuth)
    | Some auth =>
        match er_body req with
        | Some body =>
            if (Z.of_nat (len body) <=? max_event_bytes cfg)%Z then handle_body w cfg auth header body
            else ([], Err EvPayloadTooLarge)
        | None => ([], Err EvPayloadTooLarge)
        end
    end.

(** ** The search for a free key ends *)

#[local] Instance numbered_inj key : Inj (=) (=) (numbered key).
Proof. intros i j H. rw /numbered in H. apply str_app_inj_l in H. apply str_app_inj_l in H. by apply (inj pretty) in H. Qed.

Lemma original_key_loop_spec fuel original : ∀ index obj,
  match original_key_loop fuel original index obj with
  | Some key => (key ∉ obj.*1) ∧ ∃ i, key = numbered original i
  | None => ∀ i, (i < fuel)%nat → numbered original (index + N.of_nat i) ∈ obj.*1
  end.
Proof.
  induction fuel as [|fuel IH]; intros index obj; cbn [original_key_loop]; [intros; lia|].
  rw /has_key. destruct (bool_decide _) eqn:Hin; bool_to_prop; simpl; [|by eauto].
  specialize (IH (index + 1)%N obj). destruct (original_key_loop fuel original _ obj); [done|].
  intros [|i] Hi; [by rw N.add_0_r|]. replace (index + N.of_nat (S i))%N with (index + 1 + N.of_nat i)%N by lia.
  apply IH. lia.
Qed.

Lemma size_keys_le (l : list string) : (size (list_to_set l : gset string) ≤ length l)%nat.
Proof.
  induction l as [|x l IH]; [done|]. cbn [list_to_set length].
  rw size_union_alt size_singleton. apply le_n_S. etrans; [|exact IH]. apply subseteq_size. set_solver.
Qed.

(** The key found is free, and is the original name with or without a number. *)
Lemma available_original_key_free obj original :
  let key := available_original_key obj original in
  (key ∉ obj.*1) ∧ (key = original ∨ ∃ i, key = numbered original i).
Proof.
  rw /available_original_key /has_key. destruct (bool_decide _) eqn:H; bool_to_prop; cbn [negb]; [|by auto].
  pose proof (original_key_loop_spec (S (length obj)) original 1 obj) as Hs.
  destruct (original_key_loop (S (length obj)) original 1 obj) as [key|]; [simpl; naive_solver|].
  destruct (pigeonhole_set (λ i, numbered original (1 + N.of_nat i)%N) (list_to_set obj.*1)).
  - intros i j _ _ Heq. apply (inj (numbered original)) in Heq. lia.
  - intros i Hi. apply elem_of_list_to_set, Hs.
    assert (size (list_to_set obj.*1 : gset string) ≤ length obj)%nat; [|lia].
    etrans; [apply size_keys_le|]. by rw length_fmap.
Qed.

Lemma attach_policy_is_Some m d : is_Some (attach_policy_decision_to_metadata m d).
Proof.
  rw /attach_policy_decision_to_metadata. case_match; [|by eexists].
  destruct (available_key_free (assoc_remove "policy" (match m with Object f => f | v => [("value", v)] end)))
    as (key & -> & _). by eexists.
Qed.

(** ** What is written *)

(** Everything written fits the limit on metadata. *)
Definition within_limit (w : EventsWorld) (cfg : AgentConfig) (out : Emission) : Prop :=
  (Z.of_nat (len (ev_to_vec w (event_metadata out.1))) ≤ max_metadata_bytes cfg)%Z.

Section written.
Context (w : EventsWorld) (cfg : AgentConfig) (auth : AuthContext) (header : option AgentContext).

Lemma too_large_false m : metadata_too_large w cfg m = false → (Z.of_nat (len (ev_to_vec w m)) ≤ max_metadata_bytes cfg)%Z.
Proof. rw /metadata_too_large. intros H. bool_to_prop. lia. Qed.

Lemma refuse_within e : Forall (within_limit w cfg) (refuse_unavailable w cfg e).1.
Proof. rw /refuse_unavailable. case_match; [constructor|]. constructor; [by apply too_large_false|constructor]. Qed.

Lemma accept_within e d : Forall (within_limit w cfg) (accept_event w cfg e d).1.
Proof.
  rw /accept_event. case_match; [constructor|]. case_match; [constructor|].
  constructor; [by apply too_large_false|constructor].
Qed.

Lemma process_within i src input : Forall (within_limit w cfg) (process_event w cfg auth header i src input).1.
Proof.
  rw /process_event. destruct (prepare_event _ _ _ _ _ _ _) as [e|]; [|constructor].
  destruct (should_validate_policy_for_event e); [|apply accept_within].
  destruct (validate_agent_policy _ _ _ _ _ _) as [|[]]; [apply accept_within|apply refuse_within].
Qed.

Lemma process_events_Forall (P : Emission → Prop) events :
  (∀ i src input, Forall P (process_event w cfg auth header i src input).1) →
  ∀ i, Forall P (process_events w cfg auth header i events).1.
Proof.
  intros HP. induction events as [|[src input] events IH]; intros i; cbn [process_events]; [constructor|].
  pose proof (HP i src input) as H. destruct (process_event _ _ _ _ i src input) as [out [d|err]]; [|exact H].
  specialize (IH (S i)). destruct (process_events _ _ _ _ (S i) events) as [out' r]. by apply Forall_app.
Qed.

Lemma handle_body_Forall (P : Emission → Prop) body :
  (∀ i src input, Forall P (process_event w cfg auth header i src input).1) →
  Forall P (handle_body w cfg auth header body).1.
Proof.
  intros HP. rw /handle_body. destruct (ev_read w body) as [request|]; [|constructor].
  destruct (validate_event_limits _ _ _ _); [|constructor].
  pose proof (process_events_Forall P (into_sourced_events request) HP 0) as H.
  by destruct (process_events _ _ _ _ 0 _).
Qed.
End written.

(** ** No secret is written *)

(** Every string below a sensitive key is the mark of redaction. *)
Definition clean (m : Value) : Prop :=
  ∀ path s, at_path path m = Some (Str s) → hidden is_sensitive_key path = true → s = "[redacted]".

Lemma clean_redact v : clean (redact_metadata v).
Proof. intros path s Hp Hh. apply at_path_redact in Hp as [[= ->]|(Hn & _)]; [done|congruence]. Qed.

Lemma clean_leaf v : as_object v = None → as_array v = None → clean v.
Proof. intros Ho Ha [|[k|i] path] s; [done| |]; destruct v; done. Qed.

Lemma clean_object f :
  (∀ k v, assoc k f = Some v → clean v ∧ (is_sensitive_key k = true → ∀ path s, at_path path v = Some (Str s) → s = "[redacted]")) →
  clean (Object f).
Proof.
  intros H [|[k|i] path] s; [done| |done]. cbn [at_path get hidden existsb].
  destruct (assoc k f) as [v|] eqn:Hk; [|done]. destruct (H k v Hk) as [Hc Hs]. intros Hp.
  destruct (is_sensitive_key k); simpl; [intros _; by eapply Hs|]. by apply Hc.
Qed.

Lemma clean_field f k v : clean (Object f) → assoc k f = Some v → clean v.
Proof.
  intros H Hk path s Hp Hh. apply (H (Key k :: path)); cbn [at_path get hidden existsb]; [by rw Hk|].
  rw /hidden in Hh. rw Hh. by destruct (is_sensitive_key k).
Qed.

Lemma clean_field_marked f k v :
  clean (Object f) → assoc k f = Some v → is_sensitive_key k = true → ∀ path s, at_path path v = Some (Str s) → s = "[redacted]".
Proof.
  intros H Hk Hs path s Hp. apply (H (Key k :: path)); cbn [at_path get hidden existsb]; [by rw Hk|]. by rw Hs.
Qed.

Lemma clean_restrict f g :
  clean (Object f) → (∀ k v, assoc k g = Some v → assoc k f = Some v ∨ (is_sensitive_key k = false ∧ clean v)) →
  clean (Object g).
Proof.
  intros Hf H. apply clean_object. intros k v Hk. destruct (H k v Hk) as [Hold|[Hn Hc]].
  - split; [by eapply clean_field|]. intros Hs. by eapply clean_field_marked.
  - split; [done|congruence].
Qed.

Lemma clean_set k v f :
  is_sensitive_key k = false → clean v → clean (Object f) → clean (Object (assoc_set k v f)).
Proof.
  intros Hn Hv Hf. eapply clean_restrict; [exact Hf|]. intros k' v'.
  destruct (decide (k = k')) as [<-|Hne]; [rw assoc_set_eq; intros [= <-]; by right|].
  rw assoc_set_ne //. by left.
Qed.

Lemma assoc_remove_Some key k v f : assoc k (assoc_remove key f) = Some v → assoc k f = Some v.
Proof.
  destruct (decide (key = k)) as [->|Hne]; [|by rw assoc_remove_ne].
  intros H. exfalso. assert (Hin : k ∉ (assoc_remove k f).*1).
  { intros (x & -> & Hx)%list_elem_of_fmap. by apply list_elem_of_filter in Hx as [? _]. }
  apply assoc_None in Hin. congruence.
Qed.

Lemma clean_remove key f : clean (Object f) → clean (Object (assoc_remove key f)).
Proof. intros Hf. eapply clean_restrict; [exact Hf|]. intros k v Hk. left. by eapply assoc_remove_Some. Qed.

Lemma clean_wrap m : clean m → clean (Object (wrap m)).
Proof.
  intros H. destruct m; try exact H; apply clean_object; intros k v; cbn [wrap assoc];
    destruct (String.eqb_spec "value" k) as [<-|]; try done; intros [= <-]; by split.
Qed.

(** A sensitive word has no digit, so a number at the end of a key does not make
    it sensitive. *)
Lemma starts_with_digits p a b :
  p ≠ "" → str_all (λ c, negb (is_ascii_digit c)) p = true → str_all is_ascii_digit b = true →
  starts_with p (a ++ b) = true → starts_with p a = true.
Proof.
  rw !starts_with_spec. revert a. induction p as [|c p IH]; [done|]. intros a _ Hp Hb [r Hr].
  cbn [str_all] in Hp. apply andb_true_iff in Hp as [Hc Hp]. destruct a as [|d a].
  - cbn in Hr. subst b. cbn [str_all] in Hb. apply andb_true_iff in Hb as [Hd _]. by rw Hd in Hc.
  - cbn in Hr. injection Hr as -> Hr. destruct p as [|c' p']; [by exists a|].
    destruct (IH a) as [r' Hr']; [done..|by exists r|]. exists r'. cbn. by rw Hr'.
Qed.

Lemma contains_digits p a b :
  p ≠ "" → str_all (λ c, negb (is_ascii_digit c)) p = true → str_all is_ascii_digit b = true →
  contains p (a ++ b) = true → contains p a = true.
Proof.
  intros Hne Hp Hb. induction a as [|c a IH].
  - cbn [String.append]. induction b as [|d b IHb]; [done|]. cbn [str_all] in Hb.
    apply andb_true_iff in Hb as [Hd Hb]. cbn [contains]. intros [H|H]%orb_true_iff; [|by apply IHb].
    destruct p as [|c p]; [done|]. apply starts_with_spec in H as [r [= -> ?]].
    cbn [str_all] in Hp. by rw Hd in Hp.
  - change ((String c a ++ b)) with (String c (a ++ b)). cbn [contains]. intros [H|H]%orb_true_iff.
    + apply orb_true_iff. left. by eapply (starts_with_digits p (String c a) b).
    + apply orb_true_iff. right. by apply IH.
Qed.

Lemma lower_digit c : is_ascii_digit c = true → ascii_to_lower c = c.
Proof. by destruct c as [[] [] [] [] [] [] [] []]. Qed.

Lemma numbered_not_sensitive prefix (n : N) :
  is_sensitive_key prefix = false → is_sensitive_key (prefix ++ pretty n) = false.
Proof.
  rw /is_sensitive_key /to_ascii_lowercase str_map_app (str_map_id ascii_to_lower is_ascii_digit (pretty n));
    [|exact lower_digit|apply pretty_digits].
  set (a := str_map ascii_to_lower prefix). intros H. apply not_true_iff_false. intros Hs.
  apply not_true_iff_false in H. apply H. apply existsb_exists in Hs as (word & Hin & Hw). apply existsb_exists.
  exists word. split; [done|]. apply orb_true_iff. right.
  assert (Hgood : word ≠ "" ∧ str_all (λ c, negb (is_ascii_digit c)) word = true).
  { apply list_elem_of_In in Hin. clear -Hin. revert word Hin. apply Forall_forall. by repeat constructor. }
  destruct Hgood as [Hne Hnd]. apply (contains_digits word a (pretty n)); [done|done|apply pretty_digits|].
  apply orb_true_iff in Hw as [<-%String.eqb_eq|Hw]; [|done].
  destruct (a ++ pretty n); [done|]. cbn [contains]. apply orb_true_iff. left. apply starts_with_spec. exists "".
  by rw str_app_nil_r.
Qed.

Lemma clean_literal f : Forall (λ kv, is_sensitive_key kv.1 = false ∧ clean kv.2) f → clean (Object f).
Proof.
  intros H. apply clean_object. intros k v Hk. assert (Hin : (k, v) ∈ f).
  { clear H. induction f as [|[k' v'] f IH]; [done|]. cbn [assoc] in Hk.
    destruct (String.eqb_spec k' k) as [->|]; [injection Hk as ->; by left|]. right. by apply IH. }
  rw Forall_forall in H. specialize (H _ Hin). simpl in H. destruct H. split; [done|congruence].
Qed.

Ltac clean_lit := apply clean_literal; repeat (constructor; [split; [reflexivity|by apply clean_leaf]|]); constructor.

Lemma clean_policy_object d : clean (policy_object d).
Proof. rw /policy_object. clean_lit. Qed.

Lemma clean_unavailable : clean unavailable_policy.
Proof. rw /unavailable_policy. clean_lit. Qed.

Lemma available_policy_key_not_sensitive obj key :
  available_policy_original_key obj = Some key → is_sensitive_key key = false.
Proof.
  rw /available_policy_original_key. case_match; [by intros [= <-]|]. case_match; [by intros [= <-]|].
  intros Hk. pose proof (numbered_key_loop_spec (S (length obj)) 1 obj) as Hs. rw Hk in Hs.
  destruct Hs as (_ & i & ->). by apply numbered_not_sensitive.
Qed.

Lemma clean_attach_policy m d m' :
  clean m → attach_policy_decision_to_metadata m d = Some m' → clean m'.
Proof.
  intros Hm. rw /attach_policy_decision_to_metadata -/(wrap m). apply clean_wrap in Hm. revert Hm. generalize (wrap m).
  intros f Hf. destruct (assoc "policy" f) as [client|] eqn:Hc.
  - destruct (available_policy_original_key _) as [key|] eqn:Hk; [|done]. intros [= <-].
    apply clean_set; [done|apply clean_policy_object|]. apply clean_set.
    + by eapply available_policy_key_not_sensitive.
    + by eapply clean_field.
    + by apply clean_remove.
  - intros [= <-]. apply clean_set; [done|apply clean_policy_object|done].
Qed.

Lemma clean_sink_status s m : clean m → clean (attach_sink_status_to_metadata s m).
Proof. intros H. apply clean_set; [done|by apply clean_leaf|]. by apply clean_wrap. Qed.

Lemma clean_preserve source original f :
  is_sensitive_key original = false → is_sensitive_key (original ++ "_") = false →
  clean (Object f) → clean (Object (preserve_original_field source original f)).
Proof.
  intros Hn Hn' Hf. rw /preserve_original_field. destruct (assoc source f) as [v|] eqn:Hv; [|done]. apply clean_set.
  - destruct (available_original_key_free (assoc_remove source f) original) as [_ [->|[i ->]]]; [done|].
    rw /numbered -str_app_assoc. by apply numbered_not_sensitive.
  - by eapply clean_field.
  - by apply clean_remove.
Qed.

Lemma clean_unavailable_audit e :
  clean (event_metadata e) → clean (event_metadata (attach_policy_unavailable_audit e)).
Proof.
  intros H%clean_wrap. rw /attach_policy_unavailable_audit /event_metadata. cbn [metadata te_envelope with_envelope set_envelope_metadata].
  apply clean_set; [done|apply clean_unavailable|]. do 2 (apply clean_set; [done|by apply clean_leaf|]).
  do 3 (apply clean_preserve; [done|done|]). exact H.
Qed.

Lemma clean_name_conflict c m : clean m → clean (attach_agent_name_conflict_metadata c m).
Proof.
  intros H. rw /attach_agent_name_conflict_metadata. do 4 (apply clean_set; [done|by apply clean_leaf|]). by apply clean_wrap.
Qed.

Section clean_events.
Context (w : EventsWorld) (cfg : AgentConfig) (auth : AuthContext) (header : option AgentContext).
Hypothesis redacted : metadata_redaction cfg = RedactionBasic.

Lemma normalize_clean now uuid e mode :
  clean (event_metadata (normalize_event now uuid e auth (metadata_redaction cfg) header mode)).
Proof using redacted.
  rw /normalize_event redacted /event_metadata /=. case_match; [apply clean_name_conflict|]; apply clean_redact.
Qed.

Lemma prepare_clean i src input e :
  prepare_event w cfg auth header i src input = Ok e → clean (event_metadata e).
Proof using redacted.
  rw /prepare_event. case_match; [done|]. destruct (check_context_conflict _ _ _) as [cc|]; [|done].
  cbn [result_bind]. destruct (check_step_conflict _ _ _ _ _) as [sc|]; [|done]. cbn [result_bind].
  case_match; [done|]. intros [= <-].
  apply (normalize_clean (ev_now w i) (ev_uuid w i) _ (agent_policy_mode cfg)).
Qed.

Lemma refuse_clean e : clean (event_metadata e) → Forall (λ o, clean (event_metadata o.1)) (refuse_unavailable w cfg e).1.
Proof using.
  intros He. rw /refuse_unavailable. case_match; [constructor|]. constructor; [|constructor]. simpl.
  case_match; apply clean_sink_status; [|by apply clean_unavailable_audit].
  rw /compact_policy_unavailable_audit. apply clean_literal.
  repeat (constructor; [split; [reflexivity|first [apply clean_unavailable|by apply clean_leaf]]|]). constructor.
Qed.

Lemma accept_clean e d : clean (event_metadata e) → Forall (λ o, clean (event_metadata o.1)) (accept_event w cfg e d).1.
Proof using.
  intros He. rw /accept_event. case_match; [constructor|]. case_match; [constructor|]. constructor; [|constructor]. cbn [fst].
  case_match; rw /event_metadata; cbn [te_envelope with_envelope set_event_metadata set_envelope_metadata metadata];
    apply clean_sink_status.
  - rw /compact_policy_decision_metadata. apply clean_literal.
    do 2 (constructor; [split; [reflexivity|by apply clean_leaf]|]). constructor; [|constructor].
    split; [reflexivity|]. simpl. clean_lit.
  - destruct (attach_policy_is_Some (event_metadata e) (with_sink_status d "sent")) as [m Hm]. rw Hm /=.
    by eapply clean_attach_policy.
Qed.

Lemma process_clean i src input :
  Forall (λ o, clean (event_metadata o.1)) (process_event w cfg auth header i src input).1.
Proof using redacted.
  rw /process_event. destruct (prepare_event _ _ _ _ _ _ _) as [e|] eqn:He; [|constructor]. apply prepare_clean in He.
  destruct (should_validate_policy_for_event e); [|by apply accept_clean].
  destruct (validate_agent_policy _ _ _ _ _ _) as [|[]]; [by apply accept_clean|by apply refuse_clean].
Qed.
End clean_events.

(** Nothing secret and nothing oversized is written: with
    redaction on, in the metadata of every event a batch writes, be it accepted,
    refused or compacted, every string below a sensitive key at any depth is
    the mark of redaction, also where the client's own fields were moved out
    of the way; and the metadata is within the configured limit. *)
Theorem written_events_redacted w cfg req :
  metadata_redaction cfg = RedactionBasic →
  Forall (λ o, clean (event_metadata o.1) ∧ within_limit w cfg o) (handle_agent_events w cfg req).1.
Proof.
  intros Hr. rw /handle_agent_events. case_match; [constructor|]. case_match; [constructor|].
  destruct (er_auth req) as [auth|]; [|constructor]. destruct (er_body req) as [body|]; [|constructor].
  destruct (_ <=? _)%Z; [|constructor].
  apply Forall_and; split; apply handle_body_Forall; intros i src input.
  - by apply process_clean.
  - apply process_within.
Qed.

(** ** Announced actions and policy *)

Lemma prepare_fields w cfg auth header i src input e :
  prepare_event w cfg auth header i src input = Ok e →
  te_phase e = i_event_phase (adapt_agent_event src input) ∧
  policy_stage (te_envelope e) = i_policy_stage (adapt_agent_event src input) ∧
  (i_step_confidence (adapt_agent_event src input) ≠ UnknownConfidence →
   te_step_confidence e = i_step_confidence (adapt_agent_event src input)).
Proof.
  rw /prepare_event. case_match; [done|]. destruct (check_context_conflict _ _ _) as [cc|]; [|done].
  cbn [result_bind]. destruct (check_step_conflict _ _ _ _ _) as [sc|]; [|done]. cbn [result_bind].
  case_match; [done|]. intros [= <-]. split_and!; [done|done|]. intros Hc. simpl. by rw bool_decide_false.
Qed.

(** The record of a decision in the metadata of an event. *)
Definition records (d : AgentPolicyDecision) (e : ToolEvent) : Prop :=
  event_id (te_envelope e) = decision_event_id d ∧
  get "sinkStatus" (event_metadata e) = Some (Str "sent") ∧
  get2 "policy" "allowed" (event_metadata e) = Some (Bool (allowed d)) ∧
  get2 "policy" "policyDecision" (event_metadata e) = Some (Str (policy_decision d)).

(** What an event that is written keeps of the one at position [i] of the
    batch, as its adapter reads it. *)
Definition event_of (w : EventsWorld) (auth : AuthContext) (i : nat) (source : AgentEventSource * AgentEventInput)
    (e : ToolEvent) : Prop :=
  let a := adapt_agent_event source.1 source.2 in
  event_id (te_envelope e) = default ("evt_" ++ ev_uuid w i) (i_event_id source.2) ∧
  event_type (te_envelope e) = i_event_type a ∧ policy_stage (te_envelope e) = i_policy_stage a ∧
  te_phase e = i_event_phase a ∧ envelope_name (te_envelope e) = i_name source.2 ∧
  envelope_run_id (te_envelope e) = i_run_id a ∧ envelope_step_id (te_envelope e) = i_step_id a ∧
  envelope_tool_call_id (te_envelope e) = i_tool_call_id source.2 ∧ te_sequence e = i_sequence source.2 ∧
  te_workspace_id e = org_id auth ∧ te_observed_at e = ev_now w i.

Lemma prepare_event_of w cfg auth header i src input e :
  prepare_event w cfg auth header i src input = Ok e → event_of w auth i (src, input) e.
Proof.
  rw /prepare_event. case_match; [done|]. destruct (check_context_conflict _ _ _) as [cc|]; [|done].
  cbn [result_bind]. destruct (check_step_conflict _ _ _ _ _) as [sc|]; [|done]. cbn [result_bind].
  case_match; [done|]. intros [= <-].
  destruct (preserved_adapt src input) as ((_ & Hid & _ & Hseq & Hn & _ & Ht & _) & _).
  rw /event_of /= Hid Hseq Hn Ht. by split_and!.
Qed.

Lemma event_of_metadata w auth i ev m e : event_of w auth i ev e → event_of w auth i ev (set_event_metadata m e).
Proof. done. Qed.

Lemma attach_policy_get m d m' : attach_policy_decision_to_metadata m d = Some m' → get "policy" m' = Some (policy_object d).
Proof.
  rw /attach_policy_decision_to_metadata.
  case_match; [destruct (available_policy_original_key _); [|done]|]; intros [= <-]; apply assoc_set_eq.
Qed.

Lemma records_sent d e m p :
  event_metadata e = attach_sink_status_to_metadata "sent" m → event_id (te_envelope e) = decision_event_id d →
  get "policy" m = Some p → get "allowed" p = Some (Bool (allowed d)) →
  get "policyDecision" p = Some (Str (policy_decision d)) → records d e.
Proof.
  intros Hm Hid Hp H1 H2. rw /records /get2 Hm. destruct m as [| | | | |f]; try done. cbn [get wrap attach_sink_status_to_metadata] in *.
  rw assoc_set_eq !assoc_set_ne // Hp. done.
Qed.

Lemma accept_event_Ok w cfg e d out d' :
  decision_event_id d = event_id (te_envelope e) →
  accept_event w cfg e d = (out, Ok d') →
  d' = with_sink_status d "sent" ∧ ∃ e' m, out = [(e', true)] ∧ e' = set_event_metadata m e ∧ records d' e'.
Proof.
  intros Hid. rw /accept_event. set (d1 := with_sink_status d "sent"). change (sink_status d1) with "sent".
  destruct (attach_policy_is_Some (event_metadata e) d1) as [m Hm]. rw Hm. apply attach_policy_get in Hm.
  cbn [default]. set (large := metadata_too_large w cfg _). destruct (large && allowed d1); [done|].
  set (e1 := if large then _ else _). destruct (metadata_too_large w cfg (event_metadata e1)); [done|].
  destruct (ev_sink w e1); [|done]. intros [= <- <-]. split; [done|].
  assert (He1 : ∃ m', e1 = set_event_metadata m' e) by (rw /e1; destruct large; by eexists).
  destruct He1 as [m' He1]. exists e1, m'. split; [done|]. split; [done|]. clear He1 m'. rw /e1. destruct large.
  - eapply (records_sent d1 _ (compact_policy_decision_metadata d1)); [done|by symmetry|done..].
  - eapply (records_sent d1 _ m); [done|by symmetry|exact Hm|done..].
Qed.

Lemma policy_decision_id as_i64 to_vec enabled client auth v d :
  validate_agent_policy as_i64 to_vec enabled client auth v = Ok d → decision_event_id d = event_id v.
Proof.
  rw /validate_agent_policy. case_match; [by intros [= <-]|]. case_match; [|done]. case_match; try done.
  intros [= <-]. rw /decision_from_policy_response. by case_match.
Qed.

Lemma process_event_Ok w cfg auth header i src input out d :
  process_event w cfg auth header i src input = (out, Ok d) →
  ∃ e, out = [(e, true)] ∧ event_of w auth i (src, input) e ∧ records d e.
Proof.
  rw /process_event. destruct (prepare_event _ _ _ _ _ _ _) as [e|] eqn:He; [|done]. apply prepare_event_of in He.
  destruct (should_validate_policy_for_event e); cycle 1.
  { intros (_ & e' & m & -> & -> & H)%accept_event_Ok; [|done]. eexists. split; [done|]. split; [|exact H].
    by apply event_of_metadata. }
  destruct (validate_agent_policy _ _ _ _ _ _) as [d'|[]] eqn:Hv.
  - apply policy_decision_id in Hv. intros (_ & e' & m & -> & -> & H)%accept_event_Ok; [|done].
    eexists. split; [done|]. split; [|exact H]. by apply event_of_metadata.
  - rw /refuse_unavailable. case_match; by intros [=].
Qed.

(** The event at each position of the batch, what was written of it and what
    was decided. *)
Lemma process_events_Ok w cfg auth header events : ∀ i out ds,
  process_events w cfg auth header i events = (out, Ok ds) →
  length out = length events ∧ length ds = length events ∧
  ∀ k ev, events !! k = Some ev → ∃ e d, out !! k = Some (e, true) ∧ ds !! k = Some d ∧
    process_event w cfg auth header (i + k) ev.1 ev.2 = ([(e, true)], Ok d) ∧ event_of w auth (i + k) ev e ∧ records d e.
Proof.
  induction events as [|[src input] events IH]; intros i out ds; cbn [process_events]; [intros [= <- <-]; by split_and!|].
  destruct (process_event _ _ _ _ i src input) as [out1 [d|]] eqn:He; [|done].
  destruct (process_event_Ok _ _ _ _ _ _ _ _ _ He) as (e & -> & Hof & Hrec).
  destruct (process_events _ _ _ _ (S i) events) as [out2 [ds2|]] eqn:Hr; [|done].
  intros [= <- <-]. destruct (IH _ _ _ Hr) as (Hlo & Hld & Hall). split_and!; [by rw /= Hlo|by rw /= Hld|].
  intros [|k] ev; cbn [lookup list_lookup app].
  - intros [= <-]. exists e, d. rw Nat.add_0_r. by split_and!.
  - intros Hk. destruct (Hall k ev Hk) as (e' & d' & H). exists e', d'. by rw Nat.add_succ_r -Nat.add_succ_l.
Qed.

(** C34 (functional). An accepted batch is a written batch: if the service
    answers with decisions, there are as many events written and as many
    decisions as there are events in the batch, which is within its limit, and
    they correspond position by position: what is written at a position is the
    batch's event of that position as its adapter reads it, with its own
    identifier (or a fresh one), type, stage, phase, run, step and tool call, in
    the caller's workspace; the sink took it; the decision is the one that this
    event came to, and the event carries it in its metadata.  The batch counts
    as allowed exactly when every event is. *)
Theorem accepted_batch_is_written w cfg auth header body out resp :
  handle_body w cfg auth header body = (out, Ok resp) →
  ∃ request, ev_read w body = Some request ∧
    let events := into_sourced_events request in
    resp_accepted resp = Z.of_nat (length events) ∧ (resp_accepted resp ≤ max_batch_events cfg)%Z ∧
    length out = length events ∧ length (resp_decisions resp) = length events ∧
    (∀ i ev, events !! i = Some ev → ∃ e d, out !! i = Some (e, true) ∧ resp_decisions resp !! i = Some d ∧
       process_event w cfg auth header i ev.1 ev.2 = ([(e, true)], Ok d) ∧ event_of w auth i ev e ∧ records d e) ∧
    (resp_allowed resp = true ↔ Forall (λ d, allowed d = true) (resp_decisions resp)).
Proof.
  rw /handle_body. destruct (ev_read w body) as [request|] eqn:Hread; [|done]. set (events := into_sourced_events request).
  rw /validate_event_limits. case_match eqn:Hl; [|done]. simplify_eq.
  destruct (process_events _ _ _ _ 0 events) as [out1 [ds|]] eqn:Hp; [|done]. intros [= <- <-].
  apply process_events_Ok in Hp as (Hlo & Hld & Hall). exists request. split; [done|]. cbn zeta. fold events.
  cbn [resp_accepted resp_decisions resp_allowed].
  repeat case_match; simplify_eq; bool_to_prop. split_and!; try done; [by rw Hld|rw Hld; lia|].
  rw forallb_forall Forall_forall. by setoid_rewrite list_elem_of_In.
Qed.

Lemma refuse_labelled w cfg e (P : AgentPolicyDecision → Prop) :
  match refuse_unavailable w cfg e with
  | (_, Ok d) => P d
  | (out, Err _) => Forall (λ o, o.2 = false ∨ event_type (te_envelope o.1) = "policy_unavailable") out
  end.
Proof.
  rw /refuse_unavailable. set (e1 := set_event_metadata _ (attach_policy_unavailable_audit e)).
  set (e2 := if metadata_too_large w cfg (event_metadata e1) then _ else e1).
  destruct (metadata_too_large w cfg (event_metadata e2)); [constructor|]. constructor; [|constructor]. right. cbn [fst].
  rw /e2. by destruct (metadata_too_large w cfg _).
Qed.

(** C33 (safety). No announced action passes without policy: with policy enabled,
    an event that a framework adapter recognises as the announcement of a tool
    call, an LLM call, an approval or a handoff is accepted as allowed only
    after the policy service answered for this very event and allowed it; when
    it cannot be asked the event is refused, and what is written says so. *)
Theorem announced_actions_need_policy w cfg auth header i src input :
  ev_policy_enabled w = true → src ≠ Alephant →
  (src = LangGraph → is_Some (map_langgraph_event_type (i_event_type input))) →
  i_event_type (adapt_agent_event src input) ∈ before_types →
  match process_event w cfg auth header i src input with
  | (_, Ok d) => ∃ e call r, prepare_event w cfg auth header i src input = Ok e ∧ ev_policy w i = Some call ∧
      call (build_validate_agent_policy_request (ev_as_i64 w) (ev_to_vec w) auth (te_envelope e)) = Answered r ∧
      allowed d = (event_decision_from_policy_response r).1
  | (out, Err _) => Forall (λ o, o.2 = false ∨ event_type (te_envelope o.1) = "policy_unavailable") out
  end.
Proof.
  intros Hen Hs Hl Ht. rw /process_event. destruct (prepare_event _ _ _ _ _ _ _) as [e|] eqn:He; [|constructor].
  assert (Hv : should_validate_policy_for_event e = true).
  { destruct (classified_staged src input Hs Hl) as [(H1 & H2 & _) Hc]. apply H2 in Ht as Hst.
    specialize (Hc Hst). apply H1 in Hst as Hph. apply prepare_fields in He as (Hp1 & Hp2 & Hconf).
    rw /should_validate_policy_for_event Hp1 Hp2 Hconf; [|by intros Heq; rw Heq in Hc; set_solver].
    rw Hph Hst !bool_decide_true //=. rw !elem_of_cons elem_of_nil in Hc. by destruct Hc as [-> | [-> | []]]. }
  rw Hv Hen /validate_agent_policy /=. destruct (ev_policy w i) as [call|]; [|apply (refuse_labelled w cfg e (λ d, _))].
  destruct (call _) as [r| |] eqn:Hcall; [|apply (refuse_labelled w cfg e (λ d, _))..].
  destruct (accept_event w cfg e _) as [out [d|]] eqn:Ha; cycle 1.
  { rw /accept_event in Ha. repeat case_match; simplify_eq; by repeat constructor. }
  exists e, call, r. split_and!; [done|done|done|].
  apply accept_event_Ok in Ha as [-> _]; [|rw /decision_from_policy_response; by case_match].
  rw /= /decision_from_policy_response. by case_match.
Qed.

(** ** Examples *)

Definition secret_event : AgentEventInput :=
  with_metadata (Object [("policy", Str "mine"); ("args", Object [("api_key", Str "sk-1")])]) (demo_event "on_tool_start").

Definition demo_events_world (decision : Z) : EventsWorld :=
  mkEventsWorld (λ _, "{}") (λ _, None) (λ _, Some (Batch (Some LangGraph) None [secret_event; demo_event "on_tool_end"]))
    (λ _, 0%Z) (λ _, "u") true (λ _ _, Ok true) (λ _ _, Ok None) true
    (λ _, Some (λ _, Answered (mkResponse false decision "" "" "" 0 "" "" 0 [] []))) (λ _, true).

Definition demo_agent_config : AgentConfig :=
  mkAgentConfig true true Warn Warn 256 65536 100 8192 RedactionBasic Enforce.

Definition demo_events_request : EventsRequest := mkEventsRequest "POST" ∅ (Some demo_caller) (Some "[]").

Lemma written_events_redacted_witness :
  map (λ o, get2 "args" "api_key" (event_metadata o.1)) (handle_agent_events (demo_events_world 1) demo_agent_config demo_events_request).1
    = [Some (Str "[redacted]"); None] ∧
  Forall (λ o, clean (event_metadata o.1) ∧ within_limit (demo_events_world 1) demo_agent_config o)
    (handle_agent_events (demo_events_world 1) demo_agent_config demo_events_request).1.
Proof. split; [reflexivity|]. by apply written_events_redacted. Defined.

Lemma accepted_batch_is_written_witness :
  ∃ out resp, handle_body (demo_events_world 2) demo_agent_config demo_caller None "[]" = (out, Ok resp) ∧
    length out = 2%nat ∧ resp_allowed resp = false ∧
    ∃ e d, out !! 0%nat = Some (e, true) ∧ resp_decisions resp !! 0%nat = Some d ∧
      event_of (demo_events_world 2) demo_caller 0 (LangGraph, secret_event) e ∧ records d e.
Proof.
  assert (Hv : let h := handle_body (demo_events_world 2) demo_agent_config demo_caller None "[]" in
    length h.1 = 2%nat ∧ resp_allowed <$> result_ok h.2 = Some false) by (split; reflexivity).
  destruct (handle_body (demo_events_world 2) demo_agent_config demo_caller None "[]") as [out [resp|]] eqn:H;
    destruct Hv as [Hl Ha]; [|discriminate Ha].
  destruct (accepted_batch_is_written _ _ _ _ _ _ _ H) as (request & Hr & _ & _ & _ & _ & Hall & _).
  exists out, resp. split; [reflexivity|]. split; [exact Hl|]. split; [by injection Ha|]. injection Hr as <-.
  destruct (Hall 0%nat _ eq_refl) as (e & d & H1 & H2 & _ & H3 & H4). exists e, d. by split_and!.
Defined.

Lemma announced_actions_need_policy_witness :
  i_event_type (adapt_agent_event LangGraph secret_event) ∈ before_types ∧
  ∃ e call r,
    prepare_event (demo_events_world 2) demo_agent_config demo_caller None 0 LangGraph secret_event = Ok e ∧
    call (build_validate_agent_policy_request (λ _, None) (λ _, "{}") demo_caller (te_envelope e)) = Answered r ∧
    (event_decision_from_policy_response r).1 = false.
Proof.
  assert (Ht : i_event_type (adapt_agent_event LangGraph secret_event) ∈ before_types) by (by left).
  split; [exact Ht|].
  assert (Hd : allowed <$> result_ok (process_event (demo_events_world 2) demo_agent_config demo_caller None 0 LangGraph
    secret_event).2 = Some false) by reflexivity.
  pose proof (announced_actions_need_policy (demo_events_world 2) demo_agent_config demo_caller None 0 LangGraph secret_event
    eq_refl (λ H, match H with eq_refl => I end) (λ _, mk_is_Some _ _ eq_refl) Ht) as H.
  destruct (process_event _ _ _ _ _ _ _) as [out [d|]]; [|discriminate Hd].
  destruct H as (e & call & r & H1 & _ & H3 & H4). exists e, call, r. split; [exact H1|]. split; [exact H3|].
  rewrite <- H4. by injection Hd.
Defined.

(** A batch that fails at an event has already written the ones before it, and
    the answer does not say how many. *)
Lemma failing_batch_leaves_a_prefix w cfg auth header i events x rest out ds out' err :
  process_events w cfg auth header i events = (out, Ok ds) →
  process_event w cfg auth header (i + length events) x.1 x.2 = (out', Err err) →
  process_events w cfg auth header i (events ++ x :: rest) = ((out ++ out')%list, Err err).
Proof.
  revert i out ds. induction events as [|[src input] events IH]; intros i out ds.
  - intros [= <- <-]. simpl. rw Nat.add_0_r. destruct x as [src input]. simpl. by intros ->.
  - cbn [process_events app length]. destruct (process_event _ _ _ _ i src input) as [o [d|]]; [|done].
    destruct (process_events _ _ _ _ (S i) events) as [o2 [ds2|]] eqn:Hr; [|done]. intros [= <- <-] Hx.
    replace (i + S (length events))%nat with (S i + length events)%nat in Hx by lia.
    rw (IH _ _ _ Hr Hx). by rw app_assoc.
Qed.
