(* ===== verification/MasterKeys.v ===== *)
(** * Provider keys: encryption and the cache of decrypted keys

    Models [ai-gateway/src/crypto/master_key.rs] and
    [ai-gateway/src/store/master_key_cache.rs]: the checks around the cipher,
    the cache of decrypted keys with its invalidation, and the fallback to
    another key of the workspace.

    The cipher, the row of a key, the ids a query finds, the random choice and
    the entry an LRU cache gives up are parameters. *)

From S2P Require Import Prelude RustStr Provider.
Local Open Scope string_scope.

(** ** Encryption *)

(* src: ai-gateway/src/crypto/master_key.rs:11-11 MASTER_KEY_ENCRYPTION_KEY_LEN *)
Definition MASTER_KEY_ENCRYPTION_KEY_LEN : nat := 32.

(* src: ai-gateway/src/crypto/master_key.rs:13-13 MASTER_KEY_NONCE_LEN *)
Definition MASTER_KEY_NONCE_LEN : nat := 12.

(* src: ai-gateway/src/crypto/master_key.rs:16-23 DecryptError *)
Inductive DecryptError := InvalidKeyLen (len : nat) | InvalidNonceLen (len : nat) | DecryptFailed.

(* src: ai-gateway/src/crypto/master_key.rs:26-31 EncryptError *)
Inductive EncryptError := EncryptKeyLen (len : nat) | EncryptFailed.

(** AES-256-GCM: key, nonce and text. *)
Record Cipher := mkCipher {
  cipher_encrypt : string → string → string → option string;
  cipher_decrypt : string → string → string → option string
}.

(* src: ai-gateway/src/crypto/master_key.rs:34-47 decrypt *)
Definition decrypt (c : Cipher) (ciphertext nonce key : string) : result string DecryptError :=
  if negb (len key =? MASTER_KEY_ENCRYPTION_KEY_LEN)%nat then Err (InvalidKeyLen (len key))
  else if negb (len nonce =? MASTER_KEY_NONCE_LEN)%nat then Err (InvalidNonceLen (len nonce))
  else ok_or (cipher_decrypt c key nonce ciphertext) DecryptFailed.

(** [nonce] is the generated one. *)
(* src: ai-gateway/src/crypto/master_key.rs:50-61 encrypt *)
Definition encrypt (c : Cipher) (nonce plaintext key : string) : result (string * string) EncryptError :=
  if negb (len key =? MASTER_KEY_ENCRYPTION_KEY_LEN)%nat then Err (EncryptKeyLen (len key))
  else let? ciphertext := ok_or (cipher_encrypt c key nonce plaintext) EncryptFailed in Ok (ciphertext, nonce).

(** What is encrypted is read back, by a cipher that does so. *)
Lemma encrypt_decrypt c nonce plaintext key ciphertext nonce' :
  (∀ t, cipher_encrypt c key nonce plaintext = Some t → cipher_decrypt c key nonce t = Some plaintext) →
  len nonce = MASTER_KEY_NONCE_LEN →
  encrypt c nonce plaintext key = Ok (ciphertext, nonce') → decrypt c ciphertext nonce' key = Ok plaintext.
Proof.
  intros Hc Hn. rw /encrypt /decrypt. destruct (len key =? _)%nat eqn:Hk; [|done]. cbn [negb].
  destruct (cipher_encrypt c key nonce plaintext) as [t|] eqn:He; [|done]. intros [= <- <-].
  rw Hn /=. by rw Hc.
Qed.

(** ** The cache *)

Module MasterKeyCache.

(* src: ai-gateway/src/store/router.rs:30-44 DbMasterKeyRow *)
Record DbMasterKeyRow := mkMasterRow {
  mk_id : string;
  mk_workspace_id : string;
  mk_key_ciphertext : string;
  mk_key_nonce : string;
  mk_base_url : option string;
  mk_status : string;
  mk_updated_at : Z;
  mk_provider_code : string
}.

(* src: ai-gateway/src/store/master_key_cache.rs:33-42 DecryptedMasterKey *)
Record DecryptedMasterKey := mkDecrypted {
  plaintext : string;
  key_provider : InferenceProvider;
  base_url : option string;
  key_updated_at : Z
}.

(* src: ai-gateway/src/store/master_key_cache.rs:45-54 MasterKeyCacheError *)
Inductive MasterKeyCacheError :=
| MasterKeyNotFound (id : string) | UnknownProvider (code : string) | MasterKeyDecrypt (e : DecryptError) | MasterKeyDb.

Abbreviation KeyCache := (gmap string DecryptedMasterKey).

Section cache.
Context (c : Cipher) (enc_key : string).

(** The entry a row is decrypted to. *)
(* src: ai-gateway/src/store/master_key_cache.rs:102-125 MasterKeyCache::get *)
Definition load_entry (id : string) (row : result (option DbMasterKeyRow) unit)
  : result DecryptedMasterKey MasterKeyCacheError :=
  let? row := map_err (λ _, MasterKeyDb) row in
  let? row := ok_or row (MasterKeyNotFound id) in
  let? provider := map_err (λ _, UnknownProvider (mk_provider_code row)) (from_provider_code (mk_provider_code row)) in
  let? bytes := map_err MasterKeyDecrypt (decrypt c (mk_key_ciphertext row) (mk_key_nonce row) enc_key) in
  Ok (mkDecrypted (from_utf8_lossy bytes) provider (mk_base_url row) (mk_updated_at row)).

(** [LruCache::put]: when it is full, another entry may go. *)
Definition put (victim : option string) (id : string) (e : DecryptedMasterKey) (cache : KeyCache) : KeyCache :=
  <[id := e]> (match victim with Some v => delete v cache | None => cache end).

(* src: ai-gateway/src/store/master_key_cache.rs:88-134 MasterKeyCache::get *)
Definition get (id : string) (row : result (option DbMasterKeyRow) unit) (victim : option string) (cache : KeyCache)
  : result DecryptedMasterKey MasterKeyCacheError * KeyCache :=
  match cache !! id with
  | Some e => (Ok e, cache)
  | None =>
      match load_entry id row with
      | Ok e => (Ok e, put victim id e cache)
      | Err err => (Err err, cache)
      end
  end.

(* src: ai-gateway/src/store/master_key_cache.rs:139-143 MasterKeyCache::invalidate *)
Definition invalidate (id : string) (cache : KeyCache) : KeyCache := delete id cache.

(** [rows] are the rows as they are read, [ids] what the query for the
    workspace's keys of the provider finds, [pick] the random choice. *)
(* src: ai-gateway/src/store/master_key_cache.rs:152-220 MasterKeyCache::get_primary_or_fallback *)
Definition get_primary_or_fallback (rows : string → result (option DbMasterKeyRow) unit) (ids : result (list string) unit)
    (pick : nat) (victim : option string) (primary_id : string) (fallback_enabled : bool) (cache : KeyCache)
  : result DecryptedMasterKey MasterKeyCacheError * KeyCache :=
  match get primary_id (rows primary_id) victim cache with
  | (Ok key, cache) => (Ok key, cache)
  | (Err e, cache) =>
      if negb fallback_enabled then (Err e, cache)
      else match ids with
           | Err _ => (Err MasterKeyDb, cache)
           | Ok ids =>
               let candidates := filter (λ id, id ≠ primary_id) ids in
               match candidates !! (pick `mod` length candidates)%nat with
               | None => (Err (MasterKeyNotFound primary_id), cache)
               | Some selected => get selected (rows selected) victim cache
               end
           end
  end.

(** ** What the cache holds *)

(** Every entry is what the rows give now. *)
Definition coherent (rows : string → result (option DbMasterKeyRow) unit) (cache : KeyCache) : Prop :=
  ∀ id e, cache !! id = Some e → load_entry id (rows id) = Ok e.

Lemma get_coherent rows id victim cache r cache' :
  coherent rows cache → get id (rows id) victim cache = (r, cache') → r = load_entry id (rows id) ∧ coherent rows cache'.
Proof.
  intros Hc. rw /get. destruct (cache !! id) as [e|] eqn:Hl.
  - intros [= <- <-]. split; [by rw (Hc _ _ Hl)|done].
  - destruct (load_entry id (rows id)) as [e|err] eqn:Hr; intros [= <- <-]; [|done]. split; [done|].
    intros id' e'. rw /put lookup_insert_Some. intros [[<- <-]|[Hne Hl']]; [done|].
    destruct victim as [v|]; [apply lookup_delete_Some in Hl' as [_ Hl']|]; by apply Hc.
Qed.

(** A row that changes and is invalidated leaves the cache coherent. *)
Lemma invalidate_coherent rows rows' id cache :
  coherent rows cache → (∀ id', id' ≠ id → rows' id' = rows id') → coherent rows' (invalidate id cache).
Proof.
  intros Hc Hr id' e. rw /invalidate lookup_delete_Some. intros [Hne Hl]. rw (Hr id'); [by apply Hc|done].
Qed.

(** The key a request gets is the primary one, or another one that the
    workspace has for the provider and only when that is enabled; it is what
    the database holds for it. *)
Lemma fallback_key_spec rows ids pick victim primary enabled cache e cache' :
  coherent rows cache →
  get_primary_or_fallback rows ids pick victim primary enabled cache = (Ok e, cache') →
  load_entry primary (rows primary) = Ok e ∨
  (enabled = true ∧ (∃ err, load_entry primary (rows primary) = Err err) ∧
   ∃ l selected, ids = Ok l ∧ selected ∈ l ∧ selected ≠ primary ∧ load_entry selected (rows selected) = Ok e).
Proof.
  intros Hc. rw /get_primary_or_fallback. destruct (get primary _ _ _) as [r cache1] eqn:Hg.
  apply get_coherent in Hg as [-> Hc1]; [|done]. destruct (load_entry primary (rows primary)) as [k|err] eqn:Hl.
  { intros [= -> _]. by left. }
  destruct enabled; [|done]. cbn [negb] in *. destruct ids as [l|]; [|done].
  destruct (_ !! _) as [selected|] eqn:Hs; [|done]. intros Hg2. apply get_coherent in Hg2 as [Hg2 _]; [|done].
  apply list_elem_of_lookup_2, list_elem_of_filter in Hs as [Hne Hin].
  right. split; [done|]. split; [by exists err|]. exists l, selected. by split_and!.
Qed.

(** The row is read before the entry is put, and the lock is not held between:
    a change whose invalidation falls in between is lost, and the old key is
    served from then on. *)
Lemma stale_key_outlives_invalidation old new id victim cache e e' :
  cache !! id = None → load_entry id (Ok (Some old)) = Ok e → load_entry id (Ok (Some new)) = Ok e' → e ≠ e' →
  let cache' := put victim id e (invalidate id cache) in
  ∀ n victims, let serve := λ cache victim, (get id (Ok (Some new)) victim cache).2 in
  (get id (Ok (Some new)) victim (fold_left serve (take n victims) cache')).1 = Ok e.
Proof.
  intros Hm He He' Hne cache' n victims serve.
  assert (H : ∀ vs, fold_left serve vs cache' = cache').
  { induction vs as [|v vs IH]; [done|]. cbn [fold_left]. rw /serve {2}/cache' /get /put lookup_insert_eq. apply IH. }
  rw H /cache' /get /put lookup_insert_eq. done.
Qed.
End cache.
End MasterKeyCache.
