(* ===== verification/X402Proxy.v ===== *)
(** * Paid endpoints: snapshots, upstream requests and their signatures

    Models [ai-gateway/src/x402/types.rs], [snapshot.rs], [proxy.rs],
    [forward_signature.rs], [secret.rs], [body_schema.rs] and [policy.rs]: where
    the description of an endpoint comes from, the address and the headers of
    the request that goes to the seller, what is signed, and what the policy
    service is asked.

    The [url] and [http] crates, SHA-256, HMAC, base64, the cipher, jsonschema,
    serde, Redis and the database are parameters.  What the theorems need of the
    [url] crate is the class [SegmentLaws]. *)

From S2P Require Import Prelude RustStr Json Headers MasterKeys.
From Stdlib Require Import Ascii.
Local Open Scope string_scope.

(** ** Snapshots of endpoints *)

(* src: ai-gateway/src/x402/types.rs:6-9 SnapshotSource *)
Inductive SnapshotSource := Redis | Db.

(* src: ai-gateway/src/x402/types.rs:11-19 SnapshotSource::as_str *)
Definition snapshot_source_as_str (s : SnapshotSource) : string := match s with Redis => "redis" | Db => "db" end.

(* src: ai-gateway/src/x402/types.rs:67-71 X402TargetHeaderPolicyItem *)
Record X402TargetHeaderPolicyItem := mkHeaderItem { item_name : string; item_value : option string }.

(* src: ai-gateway/src/x402/types.rs:54-64 X402TargetSnapshot *)
Record X402TargetSnapshot := mkTarget {
  kind : string;
  original_target_url : string;
  forward_method : string;
  path_rewrite : Value;
  headers_policy : list X402TargetHeaderPolicyItem;
  origin_signature_required : bool
}.

(* src: ai-gateway/src/x402/types.rs:79-91 X402PolicySnapshot *)
Record X402PolicySnapshot := mkPolicySnapshot {
  policy_id : string;
  buyer_access : string;
  rate_limit_rpm : Z;
  max_request_size : Z;
  timeout_seconds : Z;
  payment_retry_attempts : Z;
  schema_validation_required : bool;
  facilitator : option string;
  cache_billing_mode : string;
  cache_hit_discount_bps : Z
}.

(** Identifiers are in their canonical text; [origin_auth] has one field. *)
(* src: ai-gateway/src/x402/types.rs:22-51 X402EndpointSnapshot *)
Record X402EndpointSnapshot := mkSnapshot {
  endpoint_id : string;
  workspace_id : string;
  agent_id : option string;
  status : string;
  name : string;
  slug : string;
  endpoint_type : option string;
  method : string;
  path : string;
  pricing_model : string;
  price_amount : string;
  asset : string;
  network : string;
  receive_wallet_address : string;
  fee_bps : Z;
  body_schema : Value;
  target : X402TargetSnapshot;
  active_secret_version : Z;
  policy : X402PolicySnapshot;
  snapshot_revision : Z;
  config_revision : option Z;
  compiled_at : option Z
}.

(* src: ai-gateway/src/x402/snapshot.rs:14-50 DbX402EndpointSnapshotRow *)
Record DbX402EndpointSnapshotRow := mkRow {
  row_endpoint_id : string;
  row_workspace_id : string;
  row_agent_id : option string;
  row_status : string;
  row_name : string;
  row_slug : string;
  row_endpoint_type : option string;
  row_method : string;
  row_path : string;
  row_pricing_model : string;
  row_price_amount : string;
  row_asset : string;
  row_network : string;
  row_receive_wallet_address : string;
  row_body_schema : Value;
  row_target_kind : string;
  row_original_target_url : string;
  row_target_forward_method : string;
  row_target_path_rewrite : Value;
  row_target_headers_policy : Value;
  row_origin_signature_required : bool;
  row_active_secret_version : Z;
  row_policy_id : string;
  row_buyer_access : string;
  row_rate_limit_rpm : Z;
  row_max_request_size : Z;
  row_timeout_seconds : Z;
  row_payment_retry_attempts : Z;
  row_schema_validation_required : bool;
  row_facilitator : option string;
  row_cache_billing_mode : string;
  row_cache_hit_discount_bps : Z;
  row_snapshot_revision : Z;
  row_updated_at : Z
}.

(* src: ai-gateway/src/x402/snapshot.rs:53-59 endpoint_snapshot_redis_key *)
Definition endpoint_snapshot_redis_key (slug method : string) : string :=
  "x402:endpoint:snapshot:" ++ to_ascii_lowercase slug ++ ":" ++ to_ascii_uppercase method.

(* src: ai-gateway/src/x402/snapshot.rs:65-70 normalize_endpoint_type *)
Definition normalize_endpoint_type (value : option string) : option string :=
  value ≫= λ value, let trimmed := trim value in if is_empty trimmed then None else Some (to_ascii_lowercase trimmed).

Definition with_type_and_agent (ty agent : option string) (s : X402EndpointSnapshot) : X402EndpointSnapshot :=
  mkSnapshot (endpoint_id s) (workspace_id s) agent (status s) (name s) (slug s) ty (method s) (path s) (pricing_model s)
    (price_amount s) (asset s) (network s) (receive_wallet_address s) (fee_bps s) (body_schema s) (target s)
    (active_secret_version s) (policy s) (snapshot_revision s) (config_revision s) (compiled_at s).

Inductive SnapshotError := SnapshotDeserialize | SnapshotDatabase.

Section snapshots.
(** serde on a snapshot's text and on the header policy of a row. *)
Context (from_str : string → option X402EndpointSnapshot)
        (header_items : Value → option (list X402TargetHeaderPolicyItem)).
(** The replies of Redis and of the query for an active endpoint; [None] when
    the gateway runs without them. *)
Context (redis : option (string → result (option string) unit))
        (store : option (string → string → result (option DbX402EndpointSnapshotRow) unit)).

(* src: ai-gateway/src/x402/snapshot.rs:72-122 snapshot_from_db_row *)
Definition snapshot_from_db_row (row : DbX402EndpointSnapshotRow) : option X402EndpointSnapshot :=
  (λ items,
    mkSnapshot (row_endpoint_id row) (row_workspace_id row) (row_agent_id row) (row_status row) (row_name row)
      (row_slug row) (normalize_endpoint_type (row_endpoint_type row)) (row_method row) (row_path row)
      (row_pricing_model row) (row_price_amount row) (row_asset row) (row_network row) (row_receive_wallet_address row)
      0 (row_body_schema row)
      (mkTarget (row_target_kind row) (row_original_target_url row) (row_target_forward_method row)
         (row_target_path_rewrite row) items (row_origin_signature_required row))
      (row_active_secret_version row)
      (mkPolicySnapshot (row_policy_id row) (row_buyer_access row) (row_rate_limit_rpm row) (row_max_request_size row)
         (row_timeout_seconds row) (row_payment_retry_attempts row) (row_schema_validation_required row)
         (row_facilitator row) (row_cache_billing_mode row) (row_cache_hit_discount_bps row))
      (row_snapshot_revision row) (Some (row_snapshot_revision row)) (Some (row_updated_at row)))
  <$> header_items (row_target_headers_policy row).

(* src: ai-gateway/src/x402/snapshot.rs:124-155 fill_missing_redis_snapshot_fields_from_db *)
Definition fill_missing_redis_snapshot_fields_from_db (s : X402EndpointSnapshot) (slug method : string)
  : result X402EndpointSnapshot SnapshotError :=
  let s := with_type_and_agent (normalize_endpoint_type (endpoint_type s)) (agent_id s) s in
  match endpoint_type s, agent_id s with
  | Some _, Some _ => Ok s
  | _, _ =>
      match store with
      | None => Ok s
      | Some fetch =>
          let? row := map_err (λ _, SnapshotDatabase) (fetch slug method) in
          match row with
          | None => Ok s
          | Some row =>
              let ty := match endpoint_type s with Some t => Some t | None => normalize_endpoint_type (row_endpoint_type row) end in
              let agent := match agent_id s with Some a => Some a | None => row_agent_id row end in
              Ok (with_type_and_agent ty agent s)
          end
      end
  end.

(* src: ai-gateway/src/x402/types.rs:94-97 ResolvedSnapshot *)
Definition ResolvedSnapshot : Type := X402EndpointSnapshot * SnapshotSource.

(* src: ai-gateway/src/x402/snapshot.rs:196-222 resolve_snapshot *)
Definition resolve_from_db (slug method : string) : result (option ResolvedSnapshot) SnapshotError :=
  match store with
  | None => Ok None
  | Some fetch =>
      let? row := map_err (λ _, SnapshotDatabase) (fetch slug method) in
      match row with
      | None => Ok None
      | Some row => let? s := ok_or (snapshot_from_db_row row) SnapshotDeserialize in Ok (Some (s, Db))
      end
  end.

(* src: ai-gateway/src/x402/snapshot.rs:157-223 resolve_snapshot *)
Definition resolve_snapshot (slug method : string) : result (option ResolvedSnapshot) SnapshotError :=
  match redis with
  | None => resolve_from_db slug method
  | Some get =>
      match get (endpoint_snapshot_redis_key slug method) with
      | Ok (Some raw) =>
          let? s := ok_or (from_str raw) SnapshotDeserialize in
          let? s := fill_missing_redis_snapshot_fields_from_db s slug method in
          Ok (Some (s, Redis))
      | Ok None | Err _ => resolve_from_db slug method
      end
  end.
End snapshots.

(** ** The body against the endpoint's schema *)

(* src: ai-gateway/src/x402/body_schema.rs:7-14 BodySchemaValidationError *)
Inductive BodySchemaValidationError := InvalidJson | InvalidSchema (error : string) | Mismatch (error : string).

(* src: ai-gateway/src/x402/body_schema.rs:17-19 schema_is_empty *)
Definition schema_is_empty (schema : Value) : bool :=
  match schema with Null => true | Object fields => match fields with [] => true | _ => false end | _ => false end.

(** [validator_for schema] is a validator or the reason there is none. *)
(* src: ai-gateway/src/x402/body_schema.rs:21-36 validate_body_against_schema *)
Definition validate_body_against_schema (from_slice : string → option Value)
    (validator_for : Value → result (Value → result unit string) string) (body : string) (schema : Value)
  : result unit BodySchemaValidationError :=
  if is_empty body || schema_is_empty schema then Ok tt
  else
    let? body_json := ok_or (from_slice body) InvalidJson in
    let? validate := map_err InvalidSchema (validator_for schema) in
    map_err Mismatch (validate body_json).

(** ** The upstream address *)

(* src: ai-gateway/src/x402/proxy.rs:88-95 hex_value *)
Definition hex_value (value : ascii) : option N :=
  if is_ascii_digit value then Some (N_of_ascii value - 48)%N
  else if byte_in 97 102 value then Some (N_of_ascii value - 97 + 10)%N
  else if byte_in 65 70 value then Some (N_of_ascii value - 65 + 10)%N
  else None.

Definition hex_byte (high low : ascii) : option ascii :=
  match hex_value high, hex_value low with
  | Some h, Some l => Some (ascii_of_N (N.lor (N.shiftl h 4) l))
  | _, _ => None
  end.

(** The bytes of the loop. *)
(* src: ai-gateway/src/x402/proxy.rs:66-83 percent_decode_ascii *)
Fixpoint percent_decode_bytes (s : string) : string :=
  match s with
  | EmptyString => ""
  | String c s1 =>
      let plain := String c (percent_decode_bytes s1) in
      if Ascii.eqb c "%" then
        match s1 with
        | String high (String low rest) =>
            match hex_byte high low with Some b => String b (percent_decode_bytes rest) | None => plain end
        | _ => plain
        end
      else plain
  end.

(* src: ai-gateway/src/x402/proxy.rs:65-86 percent_decode_ascii *)
Definition percent_decode_ascii (segment : string) : option string :=
  let decoded := percent_decode_bytes segment in if utf8_valid decoded then Some decoded else None.

(* src: ai-gateway/src/x402/proxy.rs:60-63 is_dangerous_path_segment *)
Definition is_dangerous_path_segment (segment : string) : bool :=
  bool_decide (percent_decode_ascii segment = Some "." ∨ percent_decode_ascii segment = Some "..").

(** The non-empty parts of a path between slashes. *)
Definition path_segments (path : string) : list string := filter (λ s, s ≠ "") (split "/" path).

(** What the builder uses of the [url] crate; errors are their text. *)
Record UrlOps (Url : Type) := mkUrlOps {
  url_parse : string → result Url string;
  relative_url_without_base : string;
  url_path : Url → string;
  url_query : Url → option string;
  url_fragment : Url → option string;
  cannot_be_a_base : Url → bool;
  pop_if_empty : Url → Url;
  push_segment : string → Url → Url;
  set_query : string → Url → Url
}.
Arguments url_parse {Url}. Arguments relative_url_without_base {Url}. Arguments url_path {Url}. Arguments url_query {Url}. Arguments url_fragment {Url}.
Arguments cannot_be_a_base {Url}. Arguments pop_if_empty {Url}. Arguments push_segment {Url}. Arguments set_query {Url}.

Section upstream_url.
Context {Url : Type} (ops : UrlOps Url).

(* src: ai-gateway/src/x402/proxy.rs:47-58 push_safe_path_segments *)
Fixpoint push_segments (segments : list string) (u : Url) : option Url :=
  match segments with
  | [] => Some u
  | segment :: rest =>
      if is_dangerous_path_segment segment then None else push_segments rest (push_segment ops segment u)
  end.

(* src: ai-gateway/src/x402/proxy.rs:15-45 build_upstream_url *)
Definition build_upstream_url (original_target_url endpoint_path remaining_path : string) (query : option string)
  : result Url string :=
  let base := trim_end_byte "/" original_target_url in
  let endpoint_path := trim_slashes endpoint_path in
  let remaining_path := trim_start_matches "/" remaining_path in
  let refused := relative_url_without_base ops in
  let? u := url_parse ops base in
  if bool_decide (is_Some (url_query ops u) ∨ is_Some (url_fragment ops u)) then Err refused
  else if cannot_be_a_base ops u then Err refused
  else
    let? u := ok_or (push_segments (path_segments endpoint_path) (pop_if_empty ops u)) refused in
    let? u := ok_or (push_segments (path_segments remaining_path) u) refused in
    Ok (match query with Some q => if is_empty q then u else set_query ops q u | None => u end).

(* src: ai-gateway/src/x402/forward_signature.rs:45-50 upstream_path_with_query *)
Definition upstream_path_with_query (u : Url) : string :=
  match url_query ops u with
  | Some q => if is_empty q then url_path ops u else url_path ops u ++ "?" ++ q
  | None => url_path ops u
  end.
End upstream_url.

(* src: ai-gateway/src/x402/proxy.rs:97-109 method_for_upstream *)
Definition method_for_upstream (parse_method : string → result string string) (inbound : string)
    (s : X402EndpointSnapshot) : result string string :=
  if String.eqb (forward_method (target s)) "preserve" then Ok inbound else parse_method (method s).

(** ** Headers *)

(* src: ai-gateway/src/x402/service.rs:1342-1347 is_payment_header *)
Definition is_payment_header (name : string) : bool :=
  eq_ignore_ascii_case name "payment-signature" || eq_ignore_ascii_case (str_take 8 name) "payment-".

(* src: ai-gateway/src/x402/proxy.rs:176-187 is_hop_by_hop_or_framing_header *)
Definition request_hop_by_hop : list string :=
  ["host"; "connection"; "transfer-encoding"; "content-length"; "upgrade"; "te"; "trailer"; "keep-alive";
   "proxy-authorization"; "proxy-authenticate"].

(* src: ai-gateway/src/x402/service.rs:1576-1588 is_hop_by_hop_or_framing_header *)
Definition response_hop_by_hop : list string :=
  ["connection"; "transfer-encoding"; "content-length"; "upgrade"; "te"; "trailer"; "keep-alive";
   "proxy-authorization"; "proxy-authenticate"; "host"; "http2-settings"].

Definition named (names : list string) (n : string) : bool := existsb (eq_ignore_ascii_case n) names.

Section headers.
(** [HeaderName::from_bytes]. *)
Context (header_name : string → option string).

(* src: ai-gateway/src/x402/proxy.rs:137-145 connection_header_tokens *)
Definition connection_header_tokens (h : HeaderMap) : list string :=
  omap (λ token, header_name (trim token)) (concat (map (split ",") (omap to_str (hget_all "connection" h)))).

(* src: ai-gateway/src/x402/proxy.rs:130-135 allowed_header_names *)
Definition allowed_header_names (policy : list X402TargetHeaderPolicyItem) : list string :=
  omap (λ item, header_name (item_name item)) policy.

(* src: ai-gateway/src/x402/proxy.rs:147-174 should_strip_header *)
Definition should_strip_header (name : string) (allowed tokens : list string) : bool :=
  if negb (eq_ignore_ascii_case name "content-type") && bool_decide (name ∉ allowed) then true
  else if eq_ignore_ascii_case name "payment-signature" then true
  else if eq_ignore_ascii_case name "x-payment-service-key" then true
  else if named request_hop_by_hop name || bool_decide (name ∈ tokens) then true
  else eq_ignore_ascii_case name "payment-required" || eq_ignore_ascii_case name "payment-response"
       || eq_ignore_ascii_case (str_take 8 name) "payment-".

(* src: ai-gateway/src/x402/proxy.rs:112-128 filtered_upstream_headers *)
Definition filtered_upstream_headers (inbound : HeaderMap) (policy : list X402TargetHeaderPolicyItem) : HeaderMap :=
  filter (λ '(n, _), should_strip_header n (allowed_header_names policy) (connection_header_tokens inbound) = false)
    inbound.

(* src: ai-gateway/src/x402/service.rs:1565-1574 should_strip_upstream_response_header *)
Definition should_strip_upstream_response_header (name : string) (tokens : list string) : bool :=
  is_payment_header name || named response_hop_by_hop name || bool_decide (name ∈ tokens).

(* src: ai-gateway/src/x402/service.rs:1540-1553 sanitized_upstream_response_headers *)
Definition sanitized_upstream_response_headers (h : HeaderMap) : HeaderMap :=
  filter (λ '(n, _), should_strip_upstream_response_header n (connection_header_tokens h) = false) h.
End headers.

(* src: ai-gateway/src/x402/service.rs:1325-1340 is_sensitive_policy_header_name *)
Definition sensitive_words : list string :=
  ["auth"; "cookie"; "key"; "token"; "secret"; "credential"; "signature"; "payment"; "session"].
Definition is_sensitive_policy_header_name (name : string) : bool :=
  String.eqb name "authorization" || String.eqb name "proxy-authorization" || String.eqb name "proxy-authenticate"
  || String.eqb name "cookie" || String.eqb name "set-cookie" || existsb (λ word, contains word name) sensitive_words.

(* src: ai-gateway/src/x402/service.rs:1315-1323 should_strip_policy_header *)
Definition should_strip_policy_header (name : string) : bool :=
  let lower := to_ascii_lowercase name in
  is_payment_header name || is_sensitive_policy_header_name lower || String.eqb lower "alephant-session-id"
  || starts_with "alephant-session-" lower.

(** A name without a value left does not appear. *)
(* src: ai-gateway/src/x402/service.rs:1301-1313 safe_policy_headers *)
Definition safe_policy_headers (h : HeaderMap) : HeaderMap :=
  map_imap (λ n values,
    if should_strip_policy_header n then None
    else match omap to_str values with [] => None | values => Some values end) h.

(** Names of the header map are in lower case already; of several values of a
    name the last one is kept. *)
(* src: ai-gateway/src/x402/policy.rs:15-23 headers_for_policy *)
Definition headers_for_policy (h : HeaderMap) : gmap string string :=
  omap (λ values, last (omap to_str values)) h.

(** ** Signing what is forwarded *)

(* src: ai-gateway/src/x402/forward_signature.rs:18-25 ForwardSignatureHeaderError *)
Inductive ForwardSignatureHeaderError := InvalidTimestamp | InvalidSignature | InvalidEndpointId.

(* src: ai-gateway/src/x402/secret.rs:12-23 X402SecretDecryptError *)
Inductive X402SecretDecryptError := InvalidPrefix | InvalidBase64 | InvalidCiphertextLength (got : Z) | Decrypt (e : DecryptError)
| MasterKeyConfig.

(* src: ai-gateway/src/x402/forward_signature.rs:28-37 ForwardSignatureSecretError *)
Inductive ForwardSignatureSecretError :=
| SecretNotFound | SecretStoreUnavailable | SecretQuery | SecretDecrypt (e : X402SecretDecryptError).

(* src: ai-gateway/src/x402/forward_signature.rs:40-42 endpoint_secret_redis_key *)
Definition endpoint_secret_redis_key (endpoint_id : string) : string := "lc:x402:secret:endpoint:" ++ endpoint_id.

Section signing.
(** SHA-256 and HMAC-SHA-256 in hexadecimal, base64, and the cipher. *)
Context (sha256_hex : string → string) (hmac_hex : string → string → string) (b64_decode : string → option string)
        (cipher : Cipher).

(* src: ai-gateway/src/x402/secret.rs:42-56 decrypt_secret *)
Definition decrypt_secret (secret_ciphertext key : string) : result string X402SecretDecryptError :=
  let? packed := ok_or (strip_prefix "v1:" secret_ciphertext) InvalidPrefix in
  let? packed := ok_or (b64_decode packed) InvalidBase64 in
  if (len packed <? MASTER_KEY_NONCE_LEN)%nat then Err (InvalidCiphertextLength (Z.of_nat (len packed)))
  else map_err Decrypt (decrypt cipher (str_drop MASTER_KEY_NONCE_LEN packed) (str_take MASTER_KEY_NONCE_LEN packed) key).

(** [master_key] is the key from the environment, if it is configured. *)
(* src: ai-gateway/src/x402/forward_signature.rs:52-89 resolve_endpoint_signing_secret *)
Definition resolve_endpoint_signing_secret (redis : option (string → result (option string) unit))
    (fetch_ciphertext : option (string → result (option string) unit)) (master_key : option string) (endpoint_id : string)
  : result string ForwardSignatureSecretError :=
  let from_store :=
    let? fetch := ok_or fetch_ciphertext SecretStoreUnavailable in
    let? found := map_err (λ _, SecretQuery) (fetch endpoint_id) in
    let? ciphertext := ok_or found SecretNotFound in
    let? key := ok_or master_key (SecretDecrypt MasterKeyConfig) in
    map_err SecretDecrypt (decrypt_secret ciphertext key) in
  match redis with
  | Some get =>
      match get (endpoint_secret_redis_key endpoint_id) with
      | Ok (Some secret) => if is_empty (trim secret) then from_store else Ok secret
      | Ok None | Err _ => from_store
      end
  | None => from_store
  end.

Definition nl : string := String newline "".

(* src: ai-gateway/src/x402/forward_signature.rs:101-114 canonical_forward_signature_string *)
Definition canonical_forward_signature_string (timestamp method path_with_query body : string) : string :=
  "v2" ++ nl ++ timestamp ++ nl ++ to_ascii_uppercase method ++ nl ++ path_with_query ++ nl ++ sha256_hex body.

(* src: ai-gateway/src/x402/forward_signature.rs:117-129 sign_forwarded_request *)
Definition sign_forwarded_request (secret timestamp method path_with_query body : string) : string :=
  "v2=" ++ hmac_hex secret (canonical_forward_signature_string timestamp method path_with_query body).

(** [header_value_ok] is [HeaderValue::from_str(_).is_ok()]. *)
(* src: ai-gateway/src/x402/forward_signature.rs:131-153 inject_forward_signature_headers *)
Definition inject_forward_signature_headers (header_value_ok : string → bool) (h : HeaderMap)
    (endpoint_id secret timestamp method path_with_query body : string) : result HeaderMap ForwardSignatureHeaderError :=
  let signature := sign_forwarded_request secret timestamp method path_with_query body in
  if negb (header_value_ok timestamp) then Err InvalidTimestamp
  else if negb (header_value_ok signature) then Err InvalidSignature
  else if negb (header_value_ok endpoint_id) then Err InvalidEndpointId
  else Ok (hinsert "x-alephant-endpoint-id" endpoint_id
             (hinsert "x-alephant-signature" signature (hinsert "x-alephant-timestamp" timestamp h))).
End signing.

(** ** Asking policy *)

(* src: ai-gateway/src/proto/evaluate.proto:146-192 X402InboundEvaluateRequest *)
Record X402InboundEvaluateRequest := mkPolicyRequest {
  pr_workspace_id : string;
  pr_endpoint_id : string;
  pr_req_tokens : string;
  pr_req_body : string;
  pr_headers : gmap string string;
  pr_trace_id : string;
  pr_request_id : string;
  pr_session_id : string;
  pr_req_estimated_usd : string;
  pr_buyer_wallet : string;
  pr_amount_usdc : string;
  pr_network : string;
  pr_source : string
}.

(** [detail] as its fund policy, the part that is read. *)
(* src: ai-gateway/src/proto/evaluate.proto:194-212 X402InboundEvaluateResponse *)
Record X402InboundEvaluateResponse := mkPolicyResponse {
  allowed : bool;
  reason : string;
  blocked_by : string;
  route_hint : string;
  response_revision : Z;
  fund_policy : option string
}.

(* src: ai-gateway/src/x402/policy.rs:26-29 body_for_policy *)
Definition body_for_policy (body : string) (max_bytes : nat) : string :=
  from_utf8_lossy (str_take (Nat.min (len body) max_bytes) body).

(* src: ai-gateway/src/x402/policy.rs:33-57 build_policy_request *)
Definition build_policy_request (s : X402EndpointSnapshot) (h : HeaderMap) (body : string) (max_body_bytes : nat)
    (trace_id request_id session_id : string) : X402InboundEvaluateRequest :=
  mkPolicyRequest (workspace_id s) (endpoint_id s) "" (body_for_policy body max_body_bytes) (headers_for_policy h)
    trace_id request_id session_id "" "" (price_amount s) (network s) "direct".

(* src: ai-gateway/src/config/policy.rs:19-23 OnUnavailable *)
Inductive OnUnavailable := Deny | Allow.

(** The reply of a remote service within its time. *)
Inductive Reply (A : Type) := Replied (a : A) | Refused (message : string) | Elapsed.
Arguments Replied {A} a. Arguments Refused {A} message. Arguments Elapsed {A}.

(* src: ai-gateway/src/x402/policy.rs:59-68 unavailable_response *)
Definition unavailable_response : X402InboundEvaluateResponse :=
  mkPolicyResponse true "policy_unavailable_allowed" "" "" 0 None.

(** The error is [ContentFilterUnavailable] with the message. *)
(* src: ai-gateway/src/x402/policy.rs:70-83 unavailable_result *)
Definition unavailable_result (on_unavailable : OnUnavailable) (message : string)
  : result X402InboundEvaluateResponse string :=
  match on_unavailable with Allow => Ok unavailable_response | Deny => Err message end.

(* src: ai-gateway/src/x402/policy.rs:85-109 evaluate_x402_inbound *)
Definition evaluate_x402_inbound (on_unavailable : OnUnavailable)
    (client : option (X402InboundEvaluateRequest → Reply X402InboundEvaluateResponse)) (req : X402InboundEvaluateRequest)
  : result X402InboundEvaluateResponse string :=
  match client with
  | None => unavailable_result on_unavailable "x402 policy client not initialised"
  | Some call =>
      match call req with
      | Replied resp => Ok resp
      | Refused status => unavailable_result on_unavailable status
      | Elapsed => unavailable_result on_unavailable "x402 policy evaluate timed out"
      end
  end.

(** ** Where the upstream request goes *)

(** What the builder relies on of the [url] crate: [pop_if_empty] removes a
    trailing slash other than the root's, [push] appends one encoded segment
    (the crate skips a dot segment, which never comes here), and neither they
    nor [set_query] touch the other parts. *)
Class SegmentLaws {Url : Type} (ops : UrlOps Url) (origin : Url → string) (encode : string → string) : Prop := {
  pop_path : ∀ u, cannot_be_a_base ops u = false → url_path ops (pop_if_empty ops u) =
    if String.eqb (url_path ops u) "/" then "/" else default (url_path ops u) (strip_suffix "/" (url_path ops u));
  push_path : ∀ s u, cannot_be_a_base ops u = false → s ≠ "." → s ≠ ".." → url_path ops (push_segment ops s u) =
    (if String.eqb (url_path ops u) "/" then "/" else url_path ops u ++ "/") ++ encode s;
  encode_segment : ∀ s c, c ∈ ["/"; "?"; "#"]%char → count_byte c (encode s) = 0%nat;
  pop_rest : ∀ u, origin (pop_if_empty ops u) = origin u ∧ url_query ops (pop_if_empty ops u) = url_query ops u ∧
    cannot_be_a_base ops (pop_if_empty ops u) = cannot_be_a_base ops u;
  push_rest : ∀ s u, origin (push_segment ops s u) = origin u ∧ url_query ops (push_segment ops s u) = url_query ops u ∧
    cannot_be_a_base ops (push_segment ops s u) = cannot_be_a_base ops u;
  query_rest : ∀ q u, origin (set_query ops q u) = origin u ∧ url_path ops (set_query ops q u) = url_path ops u
}.

(** A path with segments below it. *)
Definition below (base : string) (segments : list string) : string :=
  fold_left (λ p s, (if String.eqb p "/" then "/" else p ++ "/") ++ s) segments base.

Lemma below_app base l k : below base (l ++ k)%list = below (below base l) k.
Proof. apply fold_left_app. Qed.

Lemma below_prefix l : ∀ base, starts_with base (below base l) = true.
Proof.
  induction l as [|s l IH]; intros base; [apply starts_with_spec; exists ""; by rw str_app_nil_r|].
  cbn [below fold_left]. specialize (IH ((if String.eqb base "/" then "/" else base ++ "/") ++ s)).
  apply starts_with_spec in IH as [r Hr]. apply starts_with_spec.
  fold (below ((if String.eqb base "/" then "/" else base ++ "/") ++ s) l). rw Hr.
  destruct (String.eqb_spec base "/") as [->|]; [by exists (s ++ r)|]. exists ("/" ++ s ++ r). by rw !str_app_assoc.
Qed.

(** A segment that is no way up. *)
Definition safe_segment (s : string) : Prop :=
  s ≠ "" ∧ percent_decode_ascii s ≠ Some "." ∧ percent_decode_ascii s ≠ Some "..".

Lemma safe_not_dot s : is_dangerous_path_segment s = false → s ≠ "." ∧ s ≠ "..".
Proof. rw /is_dangerous_path_segment bool_decide_eq_false. intros H. split; intros ->; apply H; [by left|by right]. Qed.

Section confined.
Context {Url : Type} (ops : UrlOps Url) (origin : Url → string) (encode : string → string)
        `{!SegmentLaws ops origin encode}.

Lemma push_segments_spec l : ∀ u u',
  push_segments ops l u = Some u' → cannot_be_a_base ops u = false →
  url_path ops u' = below (url_path ops u) (map encode l) ∧ origin u' = origin u ∧
  url_query ops u' = url_query ops u ∧ cannot_be_a_base ops u' = false ∧
  Forall (λ s, is_dangerous_path_segment s = false) l.
Proof using SegmentLaws0.
  induction l as [|s l IH]; intros u u'; cbn [push_segments]; [by intros [= <-]|].
  destruct (is_dangerous_path_segment s) eqn:Hd; [done|]. intros H Hb.
  destruct (push_rest s u) as (Ho & Hq & Hc). apply safe_not_dot in Hd as Hs.
  apply IH in H as (H1 & H2 & H3 & H4 & H5); [|by rw Hc].
  rw push_path // in H1; [|apply Hs|apply Hs]. rw H2 H3 Ho Hq. split_and!; [exact H1|done|done|done|by constructor].
Qed.

(** What [pop_if_empty] leaves is the path less a trailing slash. *)
Lemma build_upstream_url_spec target_url endpoint remaining query u :
  build_upstream_url ops target_url endpoint remaining query = Ok u →
  ∃ base, url_parse ops (trim_end_byte "/" target_url) = Ok base ∧ cannot_be_a_base ops base = false ∧
    url_query ops base = None ∧
    let segments := (path_segments (trim_slashes endpoint) ++ path_segments (trim_start_matches "/" remaining))%list in
    origin u = origin base ∧
    url_path ops u = below (url_path ops (pop_if_empty ops base)) (map encode segments) ∧
    Forall safe_segment segments.
Proof using SegmentLaws0.
  rw /build_upstream_url. destruct (url_parse ops _) as [base|]; [|done]. cbn [result_bind]. case_bool_decide as Hq; [done|].
  destruct (cannot_be_a_base ops base) eqn:Hb; [done|]. destruct (pop_rest base) as (Ho & _ & Hc).
  destruct (push_segments ops (path_segments (trim_slashes endpoint)) _) as [u1|] eqn:H1; [|done]. cbn [result_bind ok_or].
  destruct (push_segments ops (path_segments (trim_start_matches "/" remaining)) u1) as [u2|] eqn:H2; [|done]. cbn [result_bind ok_or].
  apply push_segments_spec in H1 as (Hp1 & Ho1 & _ & Hc1 & Hf1); [|by rw Hc].
  apply push_segments_spec in H2 as (Hp2 & Ho2 & _ & _ & Hf2); [|done].
  intros [= <-]. exists base. split_and!; [done|done| | | |].
  - destruct (url_query ops base); [|done]. destruct Hq. left. by eexists.
  - rw -Ho -Ho1 -Ho2. destruct query as [q|]; [|done]. destruct (is_empty q); [done|]. apply query_rest.
  - rw map_app below_app -Hp1 -Hp2. destruct query as [q|]; [|done]. destruct (is_empty q); [done|]. apply query_rest.
  - assert (Hsafe : ∀ p, Forall (λ s, is_dangerous_path_segment s = false) (path_segments p) →
      Forall safe_segment (path_segments p)).
    { intros p Hp. apply Forall_forall. intros s Hs. rw Forall_forall in Hp. specialize (Hp s Hs).
      apply list_elem_of_filter in Hs as [Hs _]. rw /is_dangerous_path_segment bool_decide_eq_false in Hp.
      split; [done|]. naive_solver. }
    apply Forall_app. split; by apply Hsafe.
Qed.
End confined.

(** C31 (safety). A paid request cannot leave the seller's address: the upstream
    address has the origin of the configured target, its path is the target's
    path followed by the endpoint's and the caller's segments in order, each
    encoded so that it adds no slash and no query, and none of them is empty
    or decodes to a dot segment. *)
Theorem upstream_url_confined {Url : Type} (ops : UrlOps Url) (origin : Url → string) (encode : string → string)
    `{!SegmentLaws ops origin encode} target_url endpoint remaining query u :
  build_upstream_url ops target_url endpoint remaining query = Ok u →
  ∃ base, url_parse ops (trim_end_byte "/" target_url) = Ok base ∧ origin u = origin base ∧
    let root := url_path ops (pop_if_empty ops base) in
    let segments := (path_segments (trim_slashes endpoint) ++ path_segments (trim_start_matches "/" remaining))%list in
    url_path ops u = below root (map encode segments) ∧ starts_with root (url_path ops u) = true ∧
    Forall safe_segment segments ∧
    ∀ s c, s ∈ segments → c ∈ ["/"; "?"; "#"]%char → count_byte c (encode s) = 0%nat.
Proof.
  intros H. destruct (build_upstream_url_spec ops origin encode _ _ _ _ _ H) as (base & Hp & _ & _ & Ho & Hpath & Hs).
  exists base. cbv zeta. rw Hpath. split_and!; [done|done|done|apply below_prefix|done|]. intros s c _ Hc. by apply encode_segment.
Qed.

(** ** What a signature covers *)

(** A forwarded request's signature covers the request: when the
    timestamp, the method and the path hold no line break, the text that is
    signed determines the timestamp, the method, the path with its query and
    the hash of the body, so no part can be traded against another. *)
Theorem signed_text_determines_request sha t m p b t' m' p' b' :
  Forall (λ s, count_byte newline s = 0%nat) [t; t'; to_ascii_uppercase m; to_ascii_uppercase m'; p; p'] →
  canonical_forward_signature_string sha t m p b = canonical_forward_signature_string sha t' m' p' b' →
  t = t' ∧ to_ascii_uppercase m = to_ascii_uppercase m' ∧ p = p' ∧ sha b = sha b'.
Proof.
  rw !Forall_cons. intros (H1 & H2 & H3 & H4 & H5 & H6 & _).
  rw /canonical_forward_signature_string /nl. intros H. apply str_app_inj_l, str_app_inj_l in H.
  apply (field_inj newline) in H as [-> H]; [|done|done].
  apply (field_inj newline) in H as [-> H]; [|done|done].
  by apply (field_inj newline) in H as [-> ->].
Qed.

(** ** What policy is told *)

(** No header that carries a credential reaches the policy service. *)
Lemma policy_headers_safe h n v :
  headers_for_policy (safe_policy_headers h) !! n = Some v →
  existsb (λ word, contains word (to_ascii_lowercase n)) sensitive_words = false ∧ is_payment_header n = false ∧
  ∃ values, h !! n = Some values ∧ v ∈ values.
Proof.
  rw /headers_for_policy lookup_omap /safe_policy_headers map_lookup_imap.
  intros (ws & (values & Hh & Hv)%bind_Some & Hl)%bind_Some. rw /should_strip_policy_header in Hv.
  destruct (is_payment_header n); [done|]. cbn [orb] in Hv.
  rw /is_sensitive_policy_header_name in Hv. destruct (existsb _ sensitive_words); [by rw orb_true_r in Hv|].
  case_match; [done|]. split; [done|]. split; [done|]. exists values. split; [done|].
  assert (Hws : omap to_str values = ws) by (by destruct (omap to_str values); simplify_eq).
  apply last_Some_elem_of, list_elem_of_omap in Hl as (x & Hx & Hxv). rw -Hws in Hx.
  apply list_elem_of_omap in Hx as (y & Hy & Hyx). rw /to_str in Hxv Hyx. do 2 case_match; naive_solver.
Qed.

(** ** Examples *)

(** An address as its origin, its path and its query. *)
Definition toy_url : Type := string * string * option string.
Definition toy_encode : string → string := str_map (λ c, if bool_decide (c ∈ ["/"; "?"; "#"]%char) then "_"%char else c).
Definition toy_ops : UrlOps toy_url := {|
  url_parse := λ s,
    match strip_prefix "https://" s with
    | None => Err "invalid"
    | Some rest =>
        match split_once "/" rest with
        | Some (host, p) => Ok ("https://" ++ host, "/" ++ p, None)
        | None => Ok ("https://" ++ rest, "/", None)
        end
    end;
  relative_url_without_base := "relative URL without a base";
  url_path := λ u, u.1.2;
  url_query := λ u, u.2;
  url_fragment := λ _, None;
  cannot_be_a_base := λ _, false;
  pop_if_empty := λ u,
    (u.1.1, if String.eqb u.1.2 "/" then "/" else default u.1.2 (strip_suffix "/" u.1.2), u.2);
  push_segment := λ s u, (u.1.1, (if String.eqb u.1.2 "/" then "/" else u.1.2 ++ "/") ++ toy_encode s, u.2);
  set_query := λ q u, (u.1, Some q)
|}.

Lemma toy_encode_segment s c : c ∈ ["/"; "?"; "#"]%char → count_byte c (toy_encode s) = 0%nat.
Proof.
  intros Hc. induction s as [|d s IH]; [done|]. cbn [toy_encode str_map count_byte]. fold (toy_encode s). rw IH.
  case_bool_decide as Hd.
  - destruct (Ascii.eqb_spec c "_"%char) as [->|]; [|done]. set_solver.
  - destruct (Ascii.eqb_spec c d) as [->|]; [done|done].
Qed.

#[global] Instance toy_laws : SegmentLaws toy_ops (λ u, u.1.1) toy_encode.
Proof. split; try done; [apply toy_encode_segment]. Qed.

Lemma upstream_url_confined_witness :
  ∃ u, build_upstream_url toy_ops "https://seller.example/api/" "/v1/quote/" "/eur//usd" (Some "day=1") = Ok u ∧
    starts_with "/api" (url_path toy_ops u) = true ∧ url_path toy_ops u = "/api/v1/quote/eur/usd".
Proof.
  eexists. split; [reflexivity|].
  destruct (upstream_url_confined toy_ops (λ u, u.1.1) toy_encode "https://seller.example/api/" "/v1/quote/" "/eur//usd"
    (Some "day=1") _ eq_refl) as (base & Hb & _ & _ & Hp & _).
  injection Hb as <-. split; [exact Hp|reflexivity].
Defined.

Example dot_segments_refused :
  build_upstream_url toy_ops "https://seller.example/api" "" "../admin" None = Err "relative URL without a base" ∧
  build_upstream_url toy_ops "https://seller.example/api" "" ".%2E/admin" None = Err "relative URL without a base" ∧
  build_upstream_url toy_ops "https://seller.example/api" "" "%2e%2E" None = Err "relative URL without a base".
Proof. split_and!; reflexivity. Qed.

Lemma signed_text_determines_request_witness :
  let sha := λ s, pretty (N.of_nat (len s)) in
  canonical_forward_signature_string sha "17" "post" "/a" "x" = canonical_forward_signature_string sha "17" "POST" "/a" "y" ∧
  sha "x" = sha "y".
Proof.
  assert (H : canonical_forward_signature_string (λ s, pretty (N.of_nat (len s))) "17" "post" "/a" "x"
    = canonical_forward_signature_string (λ s, pretty (N.of_nat (len s))) "17" "POST" "/a" "y") by reflexivity.
  split; [exact H|].
  destruct (signed_text_determines_request (λ s, pretty (N.of_nat (len s))) "17" "post" "/a" "x" "17" "POST" "/a" "y")
    as (_ & _ & _ & Hs); [|exact H|exact Hs].
  repeat constructor.
Defined.

(** An allow-list of buyers is checked against a header: the field for the
    buyer's wallet is always empty, and a [buyer_wallet] header of the caller
    reaches policy unchanged. *)
Lemma buyer_wallet_is_self_declared s body max trace request session wallet :
  str_all is_visible wallet = true →
  let req := build_policy_request s (safe_policy_headers {["buyer_wallet" := [wallet]]}) body max trace request session in
  pr_buyer_wallet req = "" ∧ pr_headers req !! "buyer_wallet" = Some wallet.
Proof.
  intros Hw. split; [done|]. cbn [pr_headers build_policy_request].
  rw /headers_for_policy lookup_omap /safe_policy_headers map_lookup_imap lookup_singleton_eq. cbn [mbind option_bind].
  replace (should_strip_policy_header "buyer_wallet") with false by reflexivity.
  simpl. rw /to_str Hw. simpl. by rw /to_str Hw.
Qed.

(** Without Redis the fee that is announced for an endpoint is nil. *)
Lemma db_snapshot_has_no_fee from_str items store slug method s :
  resolve_snapshot from_str items None store slug method = Ok (Some (s, Db)) → fee_bps s = 0%Z.
Proof.
  rw /resolve_snapshot /resolve_from_db. destruct store as [fetch|]; [|done].
  destruct (fetch slug method) as [[row|]|]; [|done|done]. simpl. rw /snapshot_from_db_row.
  destruct (items _); [|done]. by intros [= <-].
Qed.
