(* ===== verification/X402Log.v ===== *)
(** * Payment logs of paid endpoints

    Models [ai-gateway/src/x402/log.rs] and the log part of
    [ai-gateway/src/x402/service.rs]: the message, what every stage of a request
    writes into it, its enrichment from the stored activity, and the way it
    takes to the collector.  The messages of the payment service
    ([proto/payment.proto]) are here too.

    UUIDs, decimal text and the database are parameters. *)

From S2P Require Import Prelude RustStr Json Float64 Headers X402Proxy.
Local Open Scope string_scope.

(** ** Messages of the payment service *)

(* src: ai-gateway/src/proto/payment.proto:44-48 Money *)
Record Money := mkMoney { money_amount : string; money_asset : string; money_network : string }.

(* src: ai-gateway/src/proto/payment.proto:50-59 PaymentAcceptSummary *)
Record PaymentAcceptSummary := mkAccept {
  accept_scheme : string;
  accept_network : string;
  accept_asset : string;
  accept_amount : string;
  accept_pay_to : string;
  accept_resource : string;
  accept_facilitator : string;
  accept_hash : string
}.

(* src: ai-gateway/src/proto/payment.proto:61-79 EndpointPaymentSnapshot *)
Record EndpointPaymentSnapshot := mkPaymentSnapshot {
  ps_workspace_id : string;
  ps_endpoint_id : string;
  ps_agent_id : string;
  ps_snapshot_revision : string;
  ps_method : string;
  ps_path : string;
  ps_price : option Money;
  ps_receive_wallet_address : string;
  ps_ale_receive_wallet_address : string;
  ps_fee_wallet_address : string;
  ps_fee_bps : Z;
  ps_facilitator : string;
  ps_cache_billing_mode : string;
  ps_resource_url : string;
  ps_resource_description : string;
  ps_resource_mime_type : string;
  ps_split_treasury_id : string
}.

(* src: ai-gateway/src/proto/payment.proto:81-87 RequestContext *)
Record PaymentRequestContext := mkPaymentContext {
  pc_trace_id : string;
  pc_request_id : string;
  pc_request_hash : string;
  pc_buyer_ip_hash : string;
  pc_user_agent_hash : string
}.

(* src: ai-gateway/src/proto/payment.proto:94-101 GetPaymentRequirementsResponse *)
Record GetPaymentRequirementsResponse := mkRequirements {
  gr_activity_id : string;
  gr_payment_required_header : string;
  gr_failure_reason : string;
  gr_success : bool;
  gr_accepts : list PaymentAcceptSummary
}.

(* src: ai-gateway/src/proto/payment.proto:124-129 VerifyAndSettlePaymentRequest *)
Record VerifyAndSettlePaymentRequest := mkVerify {
  vq_activity_id : string;
  vq_snapshot : EndpointPaymentSnapshot;
  vq_context : PaymentRequestContext;
  vq_payment_signature : string
}.

(** The fields that are read. *)
(* src: ai-gateway/src/proto/payment.proto:131-151 VerifyAndSettlePaymentResponse *)
Record VerifyAndSettlePaymentResponse := mkSettled {
  vr_activity_id : string;
  vr_payment_status : string;
  vr_settlement_status : string;
  vr_buyer_wallet : string;
  vr_facilitator : string;
  vr_tx_hash : string;
  vr_gross : option Money;
  vr_alephant_fee : option Money;
  vr_net : option Money;
  vr_payment_response_header : string;
  vr_failure_reason : string;
  vr_success : bool
}.

(* src: ai-gateway/src/proto/payment.proto:173-181 RecordServiceResultRequest *)
Record RecordServiceResultRequest := mkRecord {
  rr_activity_id : string;
  rr_trace_id : string;
  rr_service_status : string;
  rr_upstream_status_code : Z;
  rr_failure_reason : string;
  rr_cache_billing_mode : string;
  rr_response_hash : string
}.

(** ** The log message *)

(* src: ai-gateway/src/x402/log.rs:9-9 ZERO_UUID *)
Definition ZERO_UUID : string := "00000000-0000-0000-0000-000000000000".

(* src: ai-gateway/src/x402/log.rs:16-25 X402LogStage *)
Inductive X402LogStage :=
| SnapshotMiss | SnapshotErrorStage | PolicyDenied | PaymentRequired | VerifyFailed | SettleFailed | UpstreamCompleted
| GatewayError.

#[global] Instance X402LogStage_eq_dec : EqDecision X402LogStage.
Proof. solve_decision. Defined.

(* src: ai-gateway/src/x402/log.rs:28-61 X402PaymentLogMessage *)
Record X402PaymentLogMessage := mkLog {
  event_time : Z;
  log_workspace_id : string;
  activity_id : string;
  log_endpoint_id : string;
  log_agent_id : string;
  log_trace_id : string;
  direction : string;
  payment_status : string;
  settlement_status : string;
  settled_at : option Z;
  service_status : string;
  available_at : option Z;
  ledger_status : string;
  log_source : string;
  log_facilitator : string;
  log_network : string;
  log_asset : string;
  gross_revenue : f64;
  alephant_fee : f64;
  net_revenue : f64;
  ai_cost : f64;
  tx_hash : string;
  platform_receive_wallet_address : string;
  seller_receive_wallet_address : string;
  fee_wallet_address : string;
  buyer_wallet : string;
  fund_status : string;
  trace_status : string;
  agent_session_id : string;
  failure_reason : string;
  created_at : Z;
  verify_time : option Z
}.

(** Assignments to the fields. *)
Definition set_log_workspace_id (x : string) (m : X402PaymentLogMessage) : X402PaymentLogMessage :=
  mkLog (event_time m) x (activity_id m) (log_endpoint_id m) (log_agent_id m) (log_trace_id m) (direction m)
    (payment_status m) (settlement_status m) (settled_at m) (service_status m) (available_at m) (ledger_status m)
    (log_source m) (log_facilitator m) (log_network m) (log_asset m) (gross_revenue m) (alephant_fee m)
    (net_revenue m) (ai_cost m) (tx_hash m) (platform_receive_wallet_address m) (seller_receive_wallet_address m)
    (fee_wallet_address m) (buyer_wallet m) (fund_status m) (trace_status m) (agent_session_id m)
    (failure_reason m) (created_at m) (verify_time m).
Definition set_activity_id (x : string) (m : X402PaymentLogMessage) : X402PaymentLogMessage :=
  mkLog (event_time m) (log_workspace_id m) x (log_endpoint_id m) (log_agent_id m) (log_trace_id m) (direction m)
    (payment_status m) (settlement_status m) (settled_at m) (service_status m) (available_at m) (ledger_status m)
    (log_source m) (log_facilitator m) (log_network m) (log_asset m) (gross_revenue m) (alephant_fee m)
    (net_revenue m) (ai_cost m) (tx_hash m) (platform_receive_wallet_address m) (seller_receive_wallet_address m)
    (fee_wallet_address m) (buyer_wallet m) (fund_status m) (trace_status m) (agent_session_id m)
    (failure_reason m) (created_at m) (verify_time m).
Definition set_log_endpoint_id (x : string) (m : X402PaymentLogMessage) : X402PaymentLogMessage :=
  mkLog (event_time m) (log_workspace_id m) (activity_id m) x (log_agent_id m) (log_trace_id m) (direction m)
    (payment_status m) (settlement_status m) (settled_at m) (service_status m) (available_at m) (ledger_status m)
    (log_source m) (log_facilitator m) (log_network m) (log_asset m) (gross_revenue m) (alephant_fee m)
    (net_revenue m) (ai_cost m) (tx_hash m) (platform_receive_wallet_address m) (seller_receive_wallet_address m)
    (fee_wallet_address m) (buyer_wallet m) (fund_status m) (trace_status m) (agent_session_id m)
    (failure_reason m) (created_at m) (verify_time m).
Definition set_log_agent_id (x : string) (m : X402PaymentLogMessage) : X402PaymentLogMessage :=
  mkLog (event_time m) (log_workspace_id m) (activity_id m) (log_endpoint_id m) x (log_trace_id m) (direction m)
    (payment_status m) (settlement_status m) (settled_at m) (service_status m) (available_at m) (ledger_status m)
    (log_source m) (log_facilitator m) (log_network m) (log_asset m) (gross_revenue m) (alephant_fee m)
    (net_revenue m) (ai_cost m) (tx_hash m) (platform_receive_wallet_address m) (seller_receive_wallet_address m)
    (fee_wallet_address m) (buyer_wallet m) (fund_status m) (trace_status m) (agent_session_id m)
    (failure_reason m) (created_at m) (verify_time m).
Definition set_log_trace_id (x : string) (m : X402PaymentLogMessage) : X402PaymentLogMessage :=
  mkLog (event_time m) (log_workspace_id m) (activity_id m) (log_endpoint_id m) (log_agent_id m) x (direction m)
    (payment_status m) (settlement_status m) (settled_at m) (service_status m) (available_at m) (ledger_status m)
    (log_source m) (log_facilitator m) (log_network m) (log_asset m) (gross_revenue m) (alephant_fee m)
    (net_revenue m) (ai_cost m) (tx_hash m) (platform_receive_wallet_address m) (seller_receive_wallet_address m)
    (fee_wallet_address m) (buyer_wallet m) (fund_status m) (trace_status m) (agent_session_id m)
    (failure_reason m) (created_at m) (verify_time m).
Definition set_payment_status (x : string) (m : X402PaymentLogMessage) : X402PaymentLogMessage :=
  mkLog (event_time m) (log_workspace_id m) (activity_id m) (log_endpoint_id m) (log_agent_id m) (log_trace_id m)
    (direction m) x (settlement_status m) (settled_at m) (service_status m) (available_at m) (ledger_status m)
    (log_source m) (log_facilitator m) (log_network m) (log_asset m) (gross_revenue m) (alephant_fee m)
    (net_revenue m) (ai_cost m) (tx_hash m) (platform_receive_wallet_address m) (seller_receive_wallet_address m)
    (fee_wallet_address m) (buyer_wallet m) (fund_status m) (trace_status m) (agent_session_id m)
    (failure_reason m) (created_at m) (verify_time m).
Definition set_settlement_status (x : string) (m : X402PaymentLogMessage) : X402PaymentLogMessage :=
  mkLog (event_time m) (log_workspace_id m) (activity_id m) (log_endpoint_id m) (log_agent_id m) (log_trace_id m)
    (direction m) (payment_status m) x (settled_at m) (service_status m) (available_at m) (ledger_status m)
    (log_source m) (log_facilitator m) (log_network m) (log_asset m) (gross_revenue m) (alephant_fee m)
    (net_revenue m) (ai_cost m) (tx_hash m) (platform_receive_wallet_address m) (seller_receive_wallet_address m)
    (fee_wallet_address m) (buyer_wallet m) (fund_status m) (trace_status m) (agent_session_id m)
    (failure_reason m) (created_at m) (verify_time m).
Definition set_settled_at (x : option Z) (m : X402PaymentLogMessage) : X402PaymentLogMessage :=
  mkLog (event_time m) (log_workspace_id m) (activity_id m) (log_endpoint_id m) (log_agent_id m) (log_trace_id m)
    (direction m) (payment_status m) (settlement_status m) x (service_status m) (available_at m) (ledger_status m)
    (log_source m) (log_facilitator m) (log_network m) (log_asset m) (gross_revenue m) (alephant_fee m)
    (net_revenue m) (ai_cost m) (tx_hash m) (platform_receive_wallet_address m) (seller_receive_wallet_address m)
    (fee_wallet_address m) (buyer_wallet m) (fund_status m) (trace_status m) (agent_session_id m)
    (failure_reason m) (created_at m) (verify_time m).
Definition set_service_status (x : string) (m : X402PaymentLogMessage) : X402PaymentLogMessage :=
  mkLog (event_time m) (log_workspace_id m) (activity_id m) (log_endpoint_id m) (log_agent_id m) (log_trace_id m)
    (direction m) (payment_status m) (settlement_status m) (settled_at m) x (available_at m) (ledger_status m)
    (log_source m) (log_facilitator m) (log_network m) (log_asset m) (gross_revenue m) (alephant_fee m)
    (net_revenue m) (ai_cost m) (tx_hash m) (platform_receive_wallet_address m) (seller_receive_wallet_address m)
    (fee_wallet_address m) (buyer_wallet m) (fund_status m) (trace_status m) (agent_session_id m)
    (failure_reason m) (created_at m) (verify_time m).
Definition set_available_at (x : option Z) (m : X402PaymentLogMessage) : X402PaymentLogMessage :=
  mkLog (event_time m) (log_workspace_id m) (activity_id m) (log_endpoint_id m) (log_agent_id m) (log_trace_id m)
    (direction m) (payment_status m) (settlement_status m) (settled_at m) (service_status m) x (ledger_status m)
    (log_source m) (log_facilitator m) (log_network m) (log_asset m) (gross_revenue m) (alephant_fee m)
    (net_revenue m) (ai_cost m) (tx_hash m) (platform_receive_wallet_address m) (seller_receive_wallet_address m)
    (fee_wallet_address m) (buyer_wallet m) (fund_status m) (trace_status m) (agent_session_id m)
    (failure_reason m) (created_at m) (verify_time m).
Definition set_ledger_status (x : string) (m : X402PaymentLogMessage) : X402PaymentLogMessage :=
  mkLog (event_time m) (log_workspace_id m) (activity_id m) (log_endpoint_id m) (log_agent_id m) (log_trace_id m)
    (direction m) (payment_status m) (settlement_status m) (settled_at m) (service_status m) (available_at m) x
    (log_source m) (log_facilitator m) (log_network m) (log_asset m) (gross_revenue m) (alephant_fee m)
    (net_revenue m) (ai_cost m) (tx_hash m) (platform_receive_wallet_address m) (seller_receive_wallet_address m)
    (fee_wallet_address m) (buyer_wallet m) (fund_status m) (trace_status m) (agent_session_id m)
    (failure_reason m) (created_at m) (verify_time m).
Definition set_log_facilitator (x : string) (m : X402PaymentLogMessage) : X402PaymentLogMessage :=
  mkLog (event_time m) (log_workspace_id m) (activity_id m) (log_endpoint_id m) (log_agent_id m) (log_trace_id m)
    (direction m) (payment_status m) (settlement_status m) (settled_at m) (service_status m) (available_at m)
    (ledger_status m) (log_source m) x (log_network m) (log_asset m) (gross_revenue m) (alephant_fee m)
    (net_revenue m) (ai_cost m) (tx_hash m) (platform_receive_wallet_address m) (seller_receive_wallet_address m)
    (fee_wallet_address m) (buyer_wallet m) (fund_status m) (trace_status m) (agent_session_id m)
    (failure_reason m) (created_at m) (verify_time m).
Definition set_log_network (x : string) (m : X402PaymentLogMessage) : X402PaymentLogMessage :=
  mkLog (event_time m) (log_workspace_id m) (activity_id m) (log_endpoint_id m) (log_agent_id m) (log_trace_id m)
    (direction m) (payment_status m) (settlement_status m) (settled_at m) (service_status m) (available_at m)
    (ledger_status m) (log_source m) (log_facilitator m) x (log_asset m) (gross_revenue m) (alephant_fee m)
    (net_revenue m) (ai_cost m) (tx_hash m) (platform_receive_wallet_address m) (seller_receive_wallet_address m)
    (fee_wallet_address m) (buyer_wallet m) (fund_status m) (trace_status m) (agent_session_id m)
    (failure_reason m) (created_at m) (verify_time m).
Definition set_log_asset (x : string) (m : X402PaymentLogMessage) : X402PaymentLogMessage :=
  mkLog (event_time m) (log_workspace_id m) (activity_id m) (log_endpoint_id m) (log_agent_id m) (log_trace_id m)
    (direction m) (payment_status m) (settlement_status m) (settled_at m) (service_status m) (available_at m)
    (ledger_status m) (log_source m) (log_facilitator m) (log_network m) x (gross_revenue m) (alephant_fee m)
    (net_revenue m) (ai_cost m) (tx_hash m) (platform_receive_wallet_address m) (seller_receive_wallet_address m)
    (fee_wallet_address m) (buyer_wallet m) (fund_status m) (trace_status m) (agent_session_id m)
    (failure_reason m) (created_at m) (verify_time m).
Definition set_gross_revenue (x : f64) (m : X402PaymentLogMessage) : X402PaymentLogMessage :=
  mkLog (event_time m) (log_workspace_id m) (activity_id m) (log_endpoint_id m) (log_agent_id m) (log_trace_id m)
    (direction m) (payment_status m) (settlement_status m) (settled_at m) (service_status m) (available_at m)
    (ledger_status m) (log_source m) (log_facilitator m) (log_network m) (log_asset m) x (alephant_fee m)
    (net_revenue m) (ai_cost m) (tx_hash m) (platform_receive_wallet_address m) (seller_receive_wallet_address m)
    (fee_wallet_address m) (buyer_wallet m) (fund_status m) (trace_status m) (agent_session_id m)
    (failure_reason m) (created_at m) (verify_time m).
Definition set_alephant_fee (x : f64) (m : X402PaymentLogMessage) : X402PaymentLogMessage :=
  mkLog (event_time m) (log_workspace_id m) (activity_id m) (log_endpoint_id m) (log_agent_id m) (log_trace_id m)
    (direction m) (payment_status m) (settlement_status m) (settled_at m) (service_status m) (available_at m)
    (ledger_status m) (log_source m) (log_facilitator m) (log_network m) (log_asset m) (gross_revenue m) x
    (net_revenue m) (ai_cost m) (tx_hash m) (platform_receive_wallet_address m) (seller_receive_wallet_address m)
    (fee_wallet_address m) (buyer_wallet m) (fund_status m) (trace_status m) (agent_session_id m)
    (failure_reason m) (created_at m) (verify_time m).
Definition set_net_revenue (x : f64) (m : X402PaymentLogMessage) : X402PaymentLogMessage :=
  mkLog (event_time m) (log_workspace_id m) (activity_id m) (log_endpoint_id m) (log_agent_id m) (log_trace_id m)
    (direction m) (payment_status m) (settlement_status m) (settled_at m) (service_status m) (available_at m)
    (ledger_status m) (log_source m) (log_facilitator m) (log_network m) (log_asset m) (gross_revenue m)
    (alephant_fee m) x (ai_cost m) (tx_hash m) (platform_receive_wallet_address m)
    (seller_receive_wallet_address m) (fee_wallet_address m) (buyer_wallet m) (fund_status m) (trace_status m)
    (agent_session_id m) (failure_reason m) (created_at m) (verify_time m).
Definition set_ai_cost (x : f64) (m : X402PaymentLogMessage) : X402PaymentLogMessage :=
  mkLog (event_time m) (log_workspace_id m) (activity_id m) (log_endpoint_id m) (log_agent_id m) (log_trace_id m)
    (direction m) (payment_status m) (settlement_status m) (settled_at m) (service_status m) (available_at m)
    (ledger_status m) (log_source m) (log_facilitator m) (log_network m) (log_asset m) (gross_revenue m)
    (alephant_fee m) (net_revenue m) x (tx_hash m) (platform_receive_wallet_address m)
    (seller_receive_wallet_address m) (fee_wallet_address m) (buyer_wallet m) (fund_status m) (trace_status m)
    (agent_session_id m) (failure_reason m) (created_at m) (verify_time m).
Definition set_tx_hash (x : string) (m : X402PaymentLogMessage) : X402PaymentLogMessage :=
  mkLog (event_time m) (log_workspace_id m) (activity_id m) (log_endpoint_id m) (log_agent_id m) (log_trace_id m)
    (direction m) (payment_status m) (settlement_status m) (settled_at m) (service_status m) (available_at m)
    (ledger_status m) (log_source m) (log_facilitator m) (log_network m) (log_asset m) (gross_revenue m)
    (alephant_fee m) (net_revenue m) (ai_cost m) x (platform_receive_wallet_address m)
    (seller_receive_wallet_address m) (fee_wallet_address m) (buyer_wallet m) (fund_status m) (trace_status m)
    (agent_session_id m) (failure_reason m) (created_at m) (verify_time m).
Definition set_platform_receive_wallet_address (x : string) (m : X402PaymentLogMessage) : X402PaymentLogMessage :=
  mkLog (event_time m) (log_workspace_id m) (activity_id m) (log_endpoint_id m) (log_agent_id m) (log_trace_id m)
    (direction m) (payment_status m) (settlement_status m) (settled_at m) (service_status m) (available_at m)
    (ledger_status m) (log_source m) (log_facilitator m) (log_network m) (log_asset m) (gross_revenue m)
    (alephant_fee m) (net_revenue m) (ai_cost m) (tx_hash m) x (seller_receive_wallet_address m)
    (fee_wallet_address m) (buyer_wallet m) (fund_status m) (trace_status m) (agent_session_id m)
    (failure_reason m) (created_at m) (verify_time m).
Definition set_seller_receive_wallet_address (x : string) (m : X402PaymentLogMessage) : X402PaymentLogMessage :=
  mkLog (event_time m) (log_workspace_id m) (activity_id m) (log_endpoint_id m) (log_agent_id m) (log_trace_id m)
    (direction m) (payment_status m) (settlement_status m) (settled_at m) (service_status m) (available_at m)
    (ledger_status m) (log_source m) (log_facilitator m) (log_network m) (log_asset m) (gross_revenue m)
    (alephant_fee m) (net_revenue m) (ai_cost m) (tx_hash m) (platform_receive_wallet_address m) x
    (fee_wallet_address m) (buyer_wallet m) (fund_status m) (trace_status m) (agent_session_id m)
    (failure_reason m) (created_at m) (verify_time m).
Definition set_fee_wallet_address (x : string) (m : X402PaymentLogMessage) : X402PaymentLogMessage :=
  mkLog (event_time m) (log_workspace_id m) (activity_id m) (log_endpoint_id m) (log_agent_id m) (log_trace_id m)
    (direction m) (payment_status m) (settlement_status m) (settled_at m) (service_status m) (available_at m)
    (ledger_status m) (log_source m) (log_facilitator m) (log_network m) (log_asset m) (gross_revenue m)
    (alephant_fee m) (net_revenue m) (ai_cost m) (tx_hash m) (platform_receive_wallet_address m)
    (seller_receive_wallet_address m) x (buyer_wallet m) (fund_status m) (trace_status m) (agent_session_id m)
    (failure_reason m) (created_at m) (verify_time m).
Definition set_buyer_wallet (x : string) (m : X402PaymentLogMessage) : X402PaymentLogMessage :=
  mkLog (event_time m) (log_workspace_id m) (activity_id m) (log_endpoint_id m) (log_agent_id m) (log_trace_id m)
    (direction m) (payment_status m) (settlement_status m) (settled_at m) (service_status m) (available_at m)
    (ledger_status m) (log_source m) (log_facilitator m) (log_network m) (log_asset m) (gross_revenue m)
    (alephant_fee m) (net_revenue m) (ai_cost m) (tx_hash m) (platform_receive_wallet_address m)
    (seller_receive_wallet_address m) (fee_wallet_address m) x (fund_status m) (trace_status m)
    (agent_session_id m) (failure_reason m) (created_at m) (verify_time m).
Definition set_fund_status (x : string) (m : X402PaymentLogMessage) : X402PaymentLogMessage :=
  mkLog (event_time m) (log_workspace_id m) (activity_id m) (log_endpoint_id m) (log_agent_id m) (log_trace_id m)
    (direction m) (payment_status m) (settlement_status m) (settled_at m) (service_status m) (available_at m)
    (ledger_status m) (log_source m) (log_facilitator m) (log_network m) (log_asset m) (gross_revenue m)
    (alephant_fee m) (net_revenue m) (ai_cost m) (tx_hash m) (platform_receive_wallet_address m)
    (seller_receive_wallet_address m) (fee_wallet_address m) (buyer_wallet m) x (trace_status m)
    (agent_session_id m) (failure_reason m) (created_at m) (verify_time m).
Definition set_trace_status (x : string) (m : X402PaymentLogMessage) : X402PaymentLogMessage :=
  mkLog (event_time m) (log_workspace_id m) (activity_id m) (log_endpoint_id m) (log_agent_id m) (log_trace_id m)
    (direction m) (payment_status m) (settlement_status m) (settled_at m) (service_status m) (available_at m)
    (ledger_status m) (log_source m) (log_facilitator m) (log_network m) (log_asset m) (gross_revenue m)
    (alephant_fee m) (net_revenue m) (ai_cost m) (tx_hash m) (platform_receive_wallet_address m)
    (seller_receive_wallet_address m) (fee_wallet_address m) (buyer_wallet m) (fund_status m) x
    (agent_session_id m) (failure_reason m) (created_at m) (verify_time m).
Definition set_agent_session_id (x : string) (m : X402PaymentLogMessage) : X402PaymentLogMessage :=
  mkLog (event_time m) (log_workspace_id m) (activity_id m) (log_endpoint_id m) (log_agent_id m) (log_trace_id m)
    (direction m) (payment_status m) (settlement_status m) (settled_at m) (service_status m) (available_at m)
    (ledger_status m) (log_source m) (log_facilitator m) (log_network m) (log_asset m) (gross_revenue m)
    (alephant_fee m) (net_revenue m) (ai_cost m) (tx_hash m) (platform_receive_wallet_address m)
    (seller_receive_wallet_address m) (fee_wallet_address m) (buyer_wallet m) (fund_status m) (trace_status m) x
    (failure_reason m) (created_at m) (verify_time m).
Definition set_failure_reason (x : string) (m : X402PaymentLogMessage) : X402PaymentLogMessage :=
  mkLog (event_time m) (log_workspace_id m) (activity_id m) (log_endpoint_id m) (log_agent_id m) (log_trace_id m)
    (direction m) (payment_status m) (settlement_status m) (settled_at m) (service_status m) (available_at m)
    (ledger_status m) (log_source m) (log_facilitator m) (log_network m) (log_asset m) (gross_revenue m)
    (alephant_fee m) (net_revenue m) (ai_cost m) (tx_hash m) (platform_receive_wallet_address m)
    (seller_receive_wallet_address m) (fee_wallet_address m) (buyer_wallet m) (fund_status m) (trace_status m)
    (agent_session_id m) x (created_at m) (verify_time m).
Definition set_verify_time (x : option Z) (m : X402PaymentLogMessage) : X402PaymentLogMessage :=
  mkLog (event_time m) (log_workspace_id m) (activity_id m) (log_endpoint_id m) (log_agent_id m) (log_trace_id m)
    (direction m) (payment_status m) (settlement_status m) (settled_at m) (service_status m) (available_at m)
    (ledger_status m) (log_source m) (log_facilitator m) (log_network m) (log_asset m) (gross_revenue m)
    (alephant_fee m) (net_revenue m) (ai_cost m) (tx_hash m) (platform_receive_wallet_address m)
    (seller_receive_wallet_address m) (fee_wallet_address m) (buyer_wallet m) (fund_status m) (trace_status m)
    (agent_session_id m) (failure_reason m) (created_at m) x.

(* src: ai-gateway/src/x402/log.rs:63-102 X402PaymentLogMessage::new *)
Definition log_new (now : Z) (stage : X402LogStage) : X402PaymentLogMessage :=
  let zero := f64_of_Z 0 in
  mkLog now ZERO_UUID ZERO_UUID ZERO_UUID ZERO_UUID "" "inbound" "" "" None "" None "" "ai_gateway" "" "" ""
    zero zero zero zero "" "" "" "" "" "" "" "" "" now None.

(* src: ai-gateway/src/x402/service.rs:95-105 X402LogContext *)
Record X402LogContext := mkLogContext {
  lc_trace_id : string;
  lc_session_id : string;
  lc_endpoint_id : string;
  lc_workspace_id : string;
  lc_agent_id : string;
  lc_payment_network : string;
  lc_payment_asset : string;
  lc_payment_pay_to : string;
  lc_payment_facilitator : string
}.

(* src: ai-gateway/src/x402/service.rs:109-122 X402LogContext::from_request *)
Definition log_context_from_request (trace_id session_id : string) : X402LogContext :=
  mkLogContext trace_id session_id "" "" "" "" "" "" "".

(* src: ai-gateway/src/x402/service.rs:125-141 X402LogContext::with_resolved_snapshot *)
Definition with_resolved_snapshot (s : X402EndpointSnapshot) (c : X402LogContext) : X402LogContext :=
  mkLogContext (lc_trace_id c) (lc_session_id c) (endpoint_id s) (workspace_id s) (default "" (agent_id s)) (network s)
    (asset s) (receive_wallet_address s) (default "" (facilitator (policy s))).

Definition unless_empty (value : string) (set : string → X402PaymentLogMessage → X402PaymentLogMessage)
    (m : X402PaymentLogMessage) : X402PaymentLogMessage :=
  if is_empty value then m else set value m.

(* src: ai-gateway/src/x402/service.rs:1357-1363 payment_failure_message *)
Definition payment_failure_message (reason fallback : string) : string := if is_empty reason then fallback else reason.

(* src: ai-gateway/src/x402/service.rs:263-272 apply_error_log_fields *)
Definition apply_error_log_fields (kind message : string) (m : X402PaymentLogMessage) : X402PaymentLogMessage :=
  set_failure_reason message (set_ledger_status kind m).

(* src: ai-gateway/src/x402/service.rs:173-183 apply_policy_log_fields *)
Definition apply_policy_log_fields (r : X402InboundEvaluateResponse) (m : X402PaymentLogMessage) : X402PaymentLogMessage :=
  let m := match fund_policy r with Some p => set_fund_status p m | None => m end in
  if negb (allowed r) && negb (is_empty (reason r)) then set_failure_reason (reason r) m else m.

(* src: ai-gateway/src/x402/service.rs:253-261 apply_upstream_log_fields *)
Definition apply_upstream_log_fields (status failure : string) (m : X402PaymentLogMessage) : X402PaymentLogMessage :=
  set_failure_reason failure (set_service_status status m).

(* src: ai-gateway/src/x402/service.rs:1445-1453 money_fields *)
Definition money_fields (price : option Money) : string * string * string :=
  match price with Some p => (money_amount p, money_asset p, money_network p) | None => ("", "", "") end.

(* src: ai-gateway/src/store/router.rs:95-103 DbX402PaymentActivityLogFields *)
Record ActivityLogFields := mkActivity {
  af_ale_receive_wallet_address : option string;
  af_fee_wallet_address : option string;
  af_ai_cost : option f64;
  af_trace_status : option string;
  af_settled_at : option Z;
  af_available_at : option Z;
  af_verified_at : option Z
}.

(* src: ai-gateway/src/x402/service.rs:318-337 apply_activity_log_fields *)
Definition apply_activity_log_fields (f : ActivityLogFields) (m : X402PaymentLogMessage) : X402PaymentLogMessage :=
  let m := match af_ale_receive_wallet_address f with Some v => set_platform_receive_wallet_address v m | None => m end in
  let m := match af_fee_wallet_address f with Some v => set_fee_wallet_address v m | None => m end in
  let m := match af_ai_cost f with Some v => set_ai_cost v m | None => m end in
  let m := match af_trace_status f with Some v => set_trace_status v m | None => m end in
  set_verify_time (af_verified_at f) (set_available_at (af_available_at f) (set_settled_at (af_settled_at f) m)).

Section log.
(** [Uuid::parse_str(..).to_string()] and [str::parse::<f64>]. *)
Context (uuid_parse : string → option string) (parse_f64 : string → option f64).

(* src: ai-gateway/src/x402/service.rs:274-278 uuid_or_zero *)
Definition uuid_or_zero (value : string) : string := default ZERO_UUID (uuid_parse value).

(* src: ai-gateway/src/x402/service.rs:280-282 parse_money_amount *)
Definition parse_money_amount (value : string) : f64 := default (f64_of_Z 0) (parse_f64 value).

(* src: ai-gateway/src/x402/service.rs:156-171 build_x402_log_message *)
Definition build_x402_log_message (now : Z) (stage : X402LogStage) (c : X402LogContext) : X402PaymentLogMessage :=
  let m := log_new now stage in
  let m := set_log_trace_id (lc_trace_id c) m in
  let m := set_agent_session_id (lc_session_id c) m in
  let m := set_log_endpoint_id (uuid_or_zero (lc_endpoint_id c)) m in
  let m := set_log_workspace_id (uuid_or_zero (lc_workspace_id c)) m in
  let m := set_log_agent_id (uuid_or_zero (lc_agent_id c)) m in
  let m := set_log_network (lc_payment_network c) m in
  let m := set_log_asset (lc_payment_asset c) m in
  let m := set_seller_receive_wallet_address (lc_payment_pay_to c) m in
  set_log_facilitator (lc_payment_facilitator c) m.

(* src: ai-gateway/src/x402/service.rs:185-220 apply_payment_requirements_log_fields *)
Definition apply_payment_requirements_log_fields (r : GetPaymentRequirementsResponse) (m : X402PaymentLogMessage)
  : X402PaymentLogMessage :=
  let m := set_activity_id (uuid_or_zero (gr_activity_id r)) m in
  let m := set_gross_revenue (f64_of_Z 0) m in
  let m := set_log_facilitator "" (set_seller_receive_wallet_address "" (set_log_network "" (set_log_asset "" m))) in
  let m :=
    match gr_accepts r with
    | a :: _ =>
        let m := set_gross_revenue (parse_money_amount (accept_amount a)) m in
        let m := unless_empty (accept_asset a) set_log_asset m in
        let m := unless_empty (accept_network a) set_log_network m in
        let m := unless_empty (accept_pay_to a) set_seller_receive_wallet_address m in
        unless_empty (accept_facilitator a) set_log_facilitator m
    | [] => m
    end in
  if negb (gr_success r)
  then apply_error_log_fields "x402_payment_requirements_failed"
         (payment_failure_message (gr_failure_reason r) "x402 payment requirements failed") m
  else m.

(* src: ai-gateway/src/x402/service.rs:222-251 apply_verify_and_settle_log_fields *)
Definition apply_verify_and_settle_log_fields (r : VerifyAndSettlePaymentResponse) (m : X402PaymentLogMessage)
  : X402PaymentLogMessage :=
  let m := if is_empty (vr_activity_id r) then m else set_activity_id (uuid_or_zero (vr_activity_id r)) m in
  let m := set_payment_status (vr_payment_status r) m in
  let m := set_settlement_status (vr_settlement_status r) m in
  let m := set_tx_hash (vr_tx_hash r) m in
  let m := set_failure_reason (vr_failure_reason r) m in
  let m := set_buyer_wallet (vr_buyer_wallet r) m in
  let m := unless_empty (vr_facilitator r) set_log_facilitator m in
  let '(amount, asset, network) := money_fields (vr_gross r) in
  let m := if is_empty amount then m else set_gross_revenue (parse_money_amount amount) m in
  let m := unless_empty asset set_log_asset m in
  let m := unless_empty network set_log_network m in
  let m := set_alephant_fee (parse_money_amount (money_fields (vr_alephant_fee r)).1.1) m in
  set_net_revenue (parse_money_amount (money_fields (vr_net r)).1.1) m.

(** [fetch] is the stored activity, without a store [None]; the nil UUID is not
    looked up. *)
(* src: ai-gateway/src/x402/service.rs:291-316 enrich_x402_log_from_activity *)
Definition enrich_x402_log_from_activity (fetch : option (string → result (option ActivityLogFields) unit))
    (m : X402PaymentLogMessage) : X402PaymentLogMessage :=
  match uuid_parse (activity_id m) with
  | None => m
  | Some id =>
      if String.eqb id ZERO_UUID then m
      else match fetch with
           | None => m
           | Some fetch => match fetch id with Ok (Some fields) => apply_activity_log_fields fields m | _ => m end
           end
  end.
End log.

(** ** The way to the collector *)

Inductive LogWrite := XAdd (stream : string) | HttpPost (auth : option string).

(* src: ai-gateway/src/x402/log.rs:151-158 x402_payment_log_auth_value *)
Definition x402_payment_log_auth_value (token : string) : option string :=
  let token := trim token in if is_empty token then None else Some ("Bearer " ++ token).

(** The POST of the fallback: the collector's address may not join, the token
    may be no header value; [post] says whether the collector answered without
    an error. *)
(* src: ai-gateway/src/x402/log.rs:199-253 send_x402_log_http *)
Definition send_x402_log_http (token : string) (url_ok : bool) (auth_ok : string → bool) (post : bool)
  : list LogWrite * bool :=
  if negb url_ok then ([], false)
  else match x402_payment_log_auth_value token with
       | Some auth => if auth_ok auth then ([HttpPost (Some auth)], post) else ([], false)
       | None => ([HttpPost None], post)
       end.

(** [xadd] says whether Redis took the entry, [None] without Redis.  The result
    is whether the message arrived. *)
(* src: ai-gateway/src/x402/log.rs:117-145 write_x402_log *)
Definition write_x402_log (stream_key token : string) (url_ok : bool) (auth_ok : string → bool) (xadd : option bool)
    (post : bool) : list LogWrite * bool :=
  match xadd with
  | None => send_x402_log_http token url_ok auth_ok post
  | Some true => ([XAdd stream_key], true)
  | Some false => let http := send_x402_log_http token url_ok auth_ok post in (XAdd stream_key :: http.1, http.2)
  end.
