(* ===== verification/X402.v ===== *)
(** * Paid endpoints: the service

    Models [ai-gateway/src/x402/service.rs]: a request to a paid endpoint from
    its route to its answer, with everything it does on the way, in order: the
    question to policy, the quote for a request that does not pay, settlement
    for one that does, the signed request to the seller, the record of how it
    went, and the log.  It composes [X402Proxy] and [X402Log].

    Remote services, the database, clocks and the crates are in [X402World];
    the body of a request is a function of the limit it is read with. *)

From S2P Require Import Prelude RustStr Json Float64 Headers MasterKeys X402Proxy X402Log.
From Stdlib Require Import Ascii.
Local Open Scope string_scope.

(** What the service reads of the configuration. *)
(* src: ai-gateway/src/config/x402.rs:28-40 X402Config *)
Record X402Config := mkX402Config {
  enabled : bool;
  log_stream_key : string;
  request_body_policy_max_bytes : nat;
  payment_service_key : string;
  policy_on_unavailable : OnUnavailable;
  log_auth_token : string
}.

(* src: ai-gateway/src/x402/service.rs:1217-1220 RequestBodyReadError *)
Inductive RequestBodyReadError := TooLarge | ReadFailed.

(** A request: the route it was given, if it is one of a paid endpoint, and its
    body, read with a limit. *)
Record X402Request := mkX402Request {
  rq_route : option (string * string);
  rq_method : string;
  rq_query : option string;
  rq_headers : HeaderMap;
  rq_collect : Z → result string RequestBodyReadError
}.

Record GatewayResponse := mkResponse { rs_status : Z; rs_headers : HeaderMap; rs_body : string }.

(* src: ai-gateway/src/x402/proxy.rs:189-195 UpstreamProxyResult *)
Record UpstreamProxyResult := mkUpstream { up_status : Z; up_headers : HeaderMap; up_body : string }.

Record Store := mkStore {
  fetch_active_x402_endpoint_snapshot : string → string → result (option DbX402EndpointSnapshotRow) unit;
  fetch_active_x402_endpoint_secret_ciphertext : string → result (option string) unit;
  fetch_x402_payment_activity_log_fields : string → result (option ActivityLogFields) unit
}.

Record PaymentClient := mkPaymentClient {
  get_payment_requirements : EndpointPaymentSnapshot → PaymentRequestContext → Reply GetPaymentRequirementsResponse;
  verify_and_settle_payment : VerifyAndSettlePaymentRequest → Reply VerifyAndSettlePaymentResponse
}.

(** What the service asks of the outside during one request. *)
Record X402World (Url : Type) := mkX402World {
  w_url : UrlOps Url;
  w_header_name : string → option string;
  w_header_value_ok : string → bool;
  w_metadata_ok : string → bool;
  w_parse_method : string → result string string;
  w_sha256_hex : string → string;
  w_hmac_hex : string → string → string;
  w_b64_decode : string → option string;
  w_cipher : Cipher;
  w_uuid_parse : string → option string;
  w_parse_f64 : string → option f64;
  w_to_vec : Value → string;
  w_from_slice : string → option Value;
  w_validator_for : Value → result (Value → result unit string) string;
  w_from_str : string → option X402EndpointSnapshot;
  w_header_items : Value → option (list X402TargetHeaderPolicyItem);
  w_snapshot_error : SnapshotError → string;
  w_secret_error : ForwardSignatureSecretError → string;
  w_redis : option (string → result (option string) unit);
  w_store : option Store;
  w_master_key : option string;
  w_policy : option (X402InboundEvaluateRequest → Reply X402InboundEvaluateResponse);
  w_payment : option PaymentClient;
  w_record : option (RecordServiceResultRequest → Reply bool);
  w_upstream : string → Url → HeaderMap → string → Z → result UpstreamProxyResult string;
  w_xadd : option (X402PaymentLogMessage → bool);
  w_collector_url_ok : bool;
  w_collector : X402PaymentLogMessage → bool;
  w_now : Z;
  w_unix_seconds : N;
  w_fresh_uuid : string
}.
Arguments w_url {Url}. Arguments w_header_name {Url}. Arguments w_header_value_ok {Url}. Arguments w_metadata_ok {Url}.
Arguments w_parse_method {Url}. Arguments w_sha256_hex {Url}. Arguments w_hmac_hex {Url}. Arguments w_b64_decode {Url}.
Arguments w_cipher {Url}. Arguments w_uuid_parse {Url}. Arguments w_parse_f64 {Url}. Arguments w_to_vec {Url}.
Arguments w_from_slice {Url}. Arguments w_validator_for {Url}. Arguments w_from_str {Url}. Arguments w_header_items {Url}.
Arguments w_snapshot_error {Url}. Arguments w_secret_error {Url}. Arguments w_redis {Url}. Arguments w_store {Url}.
Arguments w_master_key {Url}. Arguments w_policy {Url}. Arguments w_payment {Url}. Arguments w_record {Url}.
Arguments w_upstream {Url}. Arguments w_xadd {Url}. Arguments w_collector_url_ok {Url}. Arguments w_collector {Url}.
Arguments w_now {Url}. Arguments w_unix_seconds {Url}. Arguments w_fresh_uuid {Url}.

(** What a request does, in order.  A message under [LogOnBodyEnd] is written
    when the body of the answer has been sent. *)
Inductive X402Effect (Url : Type) :=
| AskPolicy (req : X402InboundEvaluateRequest)
| GetRequirements (auth : string) (snapshot : EndpointPaymentSnapshot) (context : PaymentRequestContext)
| VerifyAndSettle (auth : string) (req : VerifyAndSettlePaymentRequest)
| CallUpstream (method : string) (url : Url) (headers : HeaderMap) (body : string) (timeout_seconds : Z)
| RecordResult (auth : string) (req : RecordServiceResultRequest)
| WriteLog (message : X402PaymentLogMessage) (ways : list LogWrite)
| LogOnBodyEnd (message : X402PaymentLogMessage).
Arguments AskPolicy {Url}. Arguments GetRequirements {Url}. Arguments VerifyAndSettle {Url}. Arguments CallUpstream {Url}.
Arguments RecordResult {Url}. Arguments WriteLog {Url}. Arguments LogOnBodyEnd {Url}.

(** ** Parts of a request *)

(* src: ai-gateway/src/x402/service.rs:1207-1214 header_string *)
Definition header_string (h : HeaderMap) (name : string) : option string :=
  header_str name h ≫= λ v, let v := trim v in if is_empty v then None else Some v.

Definition or_else {A} (a b : option A) : option A := match a with Some _ => a | None => b end.

(* src: ai-gateway/src/x402/service.rs:1196-1201 trace_id_from_headers *)
Definition trace_id_from_headers (fresh : string) (h : HeaderMap) : string :=
  default fresh (or_else (header_string h "x-alephant-trace-id")
    (or_else (header_string h "x-trace-id") (header_string h "x-request-id"))).

(* src: ai-gateway/src/x402/service.rs:1203-1205 request_id_from_headers *)
Definition request_id_from_headers (h : HeaderMap) (trace_id : string) : string :=
  default trace_id (header_string h "x-request-id").

(* src: ai-gateway/src/x402/service.rs:1222-1224 request_body_limit *)
Definition request_body_limit (s : X402EndpointSnapshot) : Z := Z.max (max_request_size (policy s)) 0.

(* src: ai-gateway/src/x402/service.rs:1226-1236 content_length_exceeds_policy *)
Definition content_length_exceeds_policy (h : HeaderMap) (max_bytes : Z) : bool :=
  existsb (λ n, (max_bytes <? n)%Z)
    (omap (λ v, parse_uint (2 ^ 64 - 1) (trim v)) (concat (map (split ",") (omap to_str (hget_all "content-length" h))))).

(* src: ai-gateway/src/x402/service.rs:1392-1395 response_timeout *)
Definition response_timeout (s : X402EndpointSnapshot) : Z := Z.max (timeout_seconds (policy s)) 1.

(** The decimal text of a signed number. *)
Definition to_text (n : Z) : string := if (n <? 0)%Z then "-" ++ pretty (Z.to_N (- n)) else pretty (Z.to_N n).

(* src: ai-gateway/src/x402/service.rs:1397-1425 endpoint_payment_snapshot *)
Definition endpoint_payment_snapshot (s : X402EndpointSnapshot) : EndpointPaymentSnapshot :=
  mkPaymentSnapshot (workspace_id s) (endpoint_id s) (default "" (agent_id s)) (to_text (snapshot_revision s)) (method s)
    (path s) (Some (mkMoney (price_amount s) (asset s) (network s))) (receive_wallet_address s) "" "" (fee_bps s)
    (default "" (facilitator (policy s))) (cache_billing_mode (policy s)) (original_target_url (target s)) (name s) "" "".

(* src: ai-gateway/src/x402/service.rs:1349-1355 policy_denied_message *)
Definition policy_denied_message (reason : string) : string := if is_empty reason then "x402 policy denied" else reason.

(** The text of the error with which policy is unavailable. *)
(* src: ai-gateway/src/error/internal.rs:80-81 InternalError *)
Definition policy_unavailable_text (message : string) : string :=
  "Internal error: Content filter service unavailable: " ++ message.

(* src: ai-gateway/src/x402/service.rs:1384-1390 verify_and_settle_failure_stage *)
Definition verify_and_settle_failure_stage (r : VerifyAndSettlePaymentResponse) : X402LogStage :=
  if eq_ignore_ascii_case (vr_payment_status r) "success" then SettleFailed else VerifyFailed.

(* src: ai-gateway/src/x402/service.rs:1365-1374 payment_required_error_message *)
Definition payment_required_error_message (r : GetPaymentRequirementsResponse) : string :=
  if gr_success r then "Payment required"
  else payment_failure_message (gr_failure_reason r) "x402 payment requirements failed".

(* src: ai-gateway/src/x402/service.rs:1264-1270 body_schema_validation_error_code *)
Definition body_schema_validation_error_code (e : BodySchemaValidationError) : string :=
  match e with
  | InvalidJson => "x402_body_json_invalid"
  | Mismatch _ => "x402_body_schema_invalid"
  | InvalidSchema _ => "x402_body_schema_config_invalid"
  end.

(* src: ai-gateway/src/x402/service.rs:1272-1280 body_schema_validation_error_message *)
Definition body_schema_validation_error_message (e : BodySchemaValidationError) : string :=
  match e with
  | InvalidJson => "request body must be valid JSON"
  | Mismatch _ => "request body does not match x402 endpoint schema"
  | InvalidSchema _ => "x402 endpoint body schema is invalid"
  end.

(* src: ai-gateway/src/x402/service.rs:1049-1052 PaidUpstreamRequestError *)
Inductive PaidUpstreamRequestError := BadUrl (error : string) | BadMethod (error : string).

(* src: ai-gateway/src/x402/service.rs:1055-1060 PaidUpstreamRequestError::client_message *)
Definition client_message (e : PaidUpstreamRequestError) : string :=
  match e with BadUrl _ => "invalid x402 upstream URL" | BadMethod _ => "invalid x402 upstream method" end.

(* src: ai-gateway/src/x402/service.rs:1062-1067 PaidUpstreamRequestError::error_code *)
Definition upstream_error_code (e : PaidUpstreamRequestError) : string :=
  match e with BadUrl _ => "x402_invalid_upstream_url" | BadMethod _ => "x402_invalid_upstream_method" end.

(* src: ai-gateway/src/x402/service.rs:1070-1079 PaidUpstreamRequestError::fmt *)
Definition upstream_error_text (e : PaidUpstreamRequestError) : string :=
  match e with
  | BadUrl error => "invalid x402 upstream URL: " ++ error
  | BadMethod error => "invalid x402 upstream method: " ++ error
  end.

(** The text of a failure to write a signature header. *)
(* src: ai-gateway/src/x402/forward_signature.rs:18-25 ForwardSignatureHeaderError *)
Definition signature_header_error_text (e : ForwardSignatureHeaderError) : string :=
  match e with
  | InvalidTimestamp => "invalid x-alephant-timestamp header value"
  | InvalidSignature => "invalid x-alephant-signature header value"
  | InvalidEndpointId => "invalid x-alephant-endpoint-id header value"
  end.

(* src: ai-gateway/src/x402/service.rs:377-393 payment_grpc_request_with_auth *)
Definition payment_grpc_auth (metadata_ok : string → bool) (payment_service_key : string) : option string :=
  let key := trim payment_service_key in
  if is_empty key then None
  else let auth := "Bearer " ++ key in if metadata_ok auth then Some auth else None.

(* src: ai-gateway/src/x402/service.rs:1176-1194 build_record_service_result_request *)
Definition build_record_service_result_request (activity_id trace_id service_status : string) (upstream_status_code : Z)
    (failure_reason cache_billing_mode response_hash : string) : RecordServiceResultRequest :=
  mkRecord activity_id trace_id service_status upstream_status_code failure_reason cache_billing_mode response_hash.

Section service.
Context {Url : Type} (w : X402World Url) (cfg : X402Config).

Local Abbreviation X402 := (Traced (X402Effect Url) GatewayResponse).

(** ** Answers *)

(* src: ai-gateway/src/x402/service.rs:1590-1594 empty_response *)
Definition empty_response (status : Z) : GatewayResponse := mkResponse status ∅ "".

(* src: ai-gateway/src/x402/service.rs:1491-1515 json_error_response *)
Definition json_error_response (status : Z) (message ty code : string) : GatewayResponse :=
  mkResponse status (hinsert "content-type" "application/json" ∅)
    (w_to_vec w (Object [("error", Object [("message", Str message); ("type", Str ty); ("param", Null); ("code", Str code)])])).

(* src: ai-gateway/src/x402/service.rs:1483-1489 payment_error_response *)
Definition payment_error_response (status : Z) (message code : string) : GatewayResponse :=
  json_error_response status message "invalid_request_error" code.

Definition gateway_error_response (status : Z) (message code : string) : GatewayResponse :=
  json_error_response status message "x402_gateway_error" code.

Definition not_found_response : GatewayResponse :=
  json_error_response 404 "Resource not found" "invalid_request_error" "not_found".

(* src: ai-gateway/src/x402/service.rs:1255-1262 payload_too_large_response *)
Definition payload_too_large_response : GatewayResponse :=
  json_error_response 413 "request body exceeds x402 policy limit" "invalid_request_error" "x402_payload_too_large".

(* src: ai-gateway/src/x402/service.rs:1282-1299 body_schema_validation_error_response *)
Definition body_schema_validation_error_response (e : BodySchemaValidationError) : GatewayResponse :=
  let message := body_schema_validation_error_message e in
  let code := body_schema_validation_error_code e in
  match e with
  | InvalidJson | Mismatch _ => json_error_response 400 message "invalid_request_error" code
  | InvalidSchema _ => json_error_response 500 message "x402_gateway_error" code
  end.

(* src: ai-gateway/src/x402/service.rs:1455-1465 build_payment_required_body *)
Definition build_payment_required_body (r : GetPaymentRequirementsResponse) : string :=
  w_to_vec w (Object [("error", Object [("message", Str (payment_required_error_message r));
    ("type", Str "payment_required"); ("param", Null); ("code", Str "x402_payment_required")])]).

(** A header that is none makes the answer an empty one. *)
(* src: ai-gateway/src/x402/service.rs:1467-1481 payment_required_response *)
Definition payment_required_response (r : GetPaymentRequirementsResponse) : GatewayResponse :=
  let h := hinsert "content-type" "application/json" ∅ in
  let header := gr_payment_required_header r in
  if is_empty header then mkResponse 402 h (build_payment_required_body r)
  else if w_header_value_ok w header
       then mkResponse 402 (happend "Payment-Required" header h) (build_payment_required_body r)
       else empty_response 402.

(* src: ai-gateway/src/x402/service.rs:1517-1538 upstream_response *)
Definition upstream_response (status : Z) (h : HeaderMap) (body payment_response_header : string) : GatewayResponse :=
  let h := sanitized_upstream_response_headers (w_header_name w) h in
  mkResponse status
    (if negb (is_empty payment_response_header) && w_header_value_ok w payment_response_header
     then hinsert "Payment-Response" payment_response_header h else h)
    body.

(** ** Logs *)

Definition new_message (stage : X402LogStage) (c : X402LogContext) : X402PaymentLogMessage :=
  build_x402_log_message (w_uuid_parse w) (w_now w) stage c.

(* src: ai-gateway/src/x402/service.rs:284-289 emit_x402_log_best_effort *)
Definition emit_x402_log_best_effort (m : X402PaymentLogMessage) : X402 unit :=
  let m := enrich_x402_log_from_activity (w_uuid_parse w) (fetch_x402_payment_activity_log_fields <$> w_store w) m in
  traced_tell (WriteLog m (write_x402_log (log_stream_key cfg) (log_auth_token cfg) (w_collector_url_ok w)
    (w_header_value_ok w) ((λ xadd, xadd m) <$> w_xadd w) (w_collector w m)).1).

(** Write a message and return an answer. *)
Definition log_and_stop {A} (m : X402PaymentLogMessage) (r : GatewayResponse) : X402 A :=
  let* _ := emit_x402_log_best_effort m in traced_stop r.

Definition error_message (stage : X402LogStage) (c : X402LogContext) (kind text : string) : X402PaymentLogMessage :=
  apply_error_log_fields kind text (new_message stage c).

(** ** Settlement *)

(* src: ai-gateway/src/x402/service.rs:1081-1100 prepare_paid_upstream_request *)
Definition prepare_paid_upstream_request (s : X402EndpointSnapshot) (remaining_path inbound_method : string)
    (query : option string) : result (string * Url) PaidUpstreamRequestError :=
  let? u := map_err BadUrl (build_upstream_url (w_url w) (original_target_url (target s)) (path s) remaining_path query) in
  let? m := map_err BadMethod (method_for_upstream (w_parse_method w) inbound_method s) in
  Ok (m, u).

(** The address and the method of the upstream request, before any money moves. *)
(* src: ai-gateway/src/x402/service.rs:796-817 handle_paid_request *)
Definition prepare_upstream (s : X402EndpointSnapshot) (remaining_path inbound_method : string) (query : option string)
    (c : X402LogContext) : X402 (string * Url) :=
  match prepare_paid_upstream_request s remaining_path inbound_method query with
  | Ok r => traced_ret r
  | Err e =>
      log_and_stop (error_message GatewayError c (upstream_error_code e) (upstream_error_text e))
        (gateway_error_response 500 (client_message e) (upstream_error_code e))
  end.

(* src: ai-gateway/src/x402/service.rs:819-919 handle_paid_request *)
Definition settle (ps : EndpointPaymentSnapshot) (pc : PaymentRequestContext) (signature : string) (c : X402LogContext)
  : X402 VerifyAndSettlePaymentResponse :=
  match w_payment w with
  | None =>
      log_and_stop (error_message PaymentRequired c "x402_payment_unavailable" "x402 payment service unavailable")
        (payment_error_response 503 "x402 payment service unavailable" "x402_payment_unavailable")
  | Some client =>
      match payment_grpc_auth (w_metadata_ok w) (payment_service_key cfg) with
      | None =>
          traced_stop (payment_error_response 500 "x402 payment service key is not configured"
            "x402_payment_service_key_unconfigured")
      | Some auth =>
          let req := mkVerify "" ps pc signature in
          let* _ := traced_tell (VerifyAndSettle auth req) in
          match verify_and_settle_payment client req with
          | Refused status =>
              log_and_stop (error_message VerifyFailed c "x402_verify_failed" status)
                (payment_error_response 502 "x402 payment verification failed" "x402_verify_failed")
          | Elapsed =>
              log_and_stop (error_message VerifyFailed c "x402_verify_timeout" "x402 payment verification timed out")
                (payment_error_response 504 "x402 payment verification timed out" "x402_verify_timeout")
          | Replied r =>
              if vr_success r then traced_ret r
              else
                let stage := verify_and_settle_failure_stage r in
                let '(code, fallback) :=
                  if bool_decide (stage = SettleFailed) then ("x402_settle_failed", "x402 payment settlement failed")
                  else ("x402_verify_failed", "x402 payment verification failed") in
                let text := payment_failure_message (vr_failure_reason r) fallback in
                log_and_stop
                  (apply_error_log_fields code text
                     (apply_verify_and_settle_log_fields (w_uuid_parse w) (w_parse_f64 w) r (new_message stage c)))
                  (payment_error_response 400 text code)
          end
      end
  end.

(** The message of a stage after settlement. *)
Definition settled_message (stage : X402LogStage) (c : X402LogContext) (r : VerifyAndSettlePaymentResponse)
  : X402PaymentLogMessage :=
  apply_verify_and_settle_log_fields (w_uuid_parse w) (w_parse_f64 w) r (new_message stage c).

(** ** Delivery *)

(* src: ai-gateway/src/x402/service.rs:921-973 handle_paid_request *)
Definition sign_upstream (s : X402EndpointSnapshot) (h : HeaderMap) (upstream_method : string) (u : Url) (body : string)
    (settled : VerifyAndSettlePaymentResponse) (c : X402LogContext) : X402 HeaderMap :=
  let upstream_headers := filtered_upstream_headers (w_header_name w) h (headers_policy (target s)) in
  match resolve_endpoint_signing_secret (w_b64_decode w) (w_cipher w) (w_redis w)
          (fetch_active_x402_endpoint_secret_ciphertext <$> w_store w) (w_master_key w) (endpoint_id s) with
  | Err e =>
      log_and_stop (apply_error_log_fields "x402_signing_secret_unavailable" (w_secret_error w e)
                      (settled_message GatewayError c settled))
        (gateway_error_response 500 "x402 endpoint signing secret unavailable" "x402_signing_secret_unavailable")
  | Ok secret =>
      match inject_forward_signature_headers (w_sha256_hex w) (w_hmac_hex w) (w_header_value_ok w) upstream_headers
              (endpoint_id s) secret (pretty (w_unix_seconds w)) upstream_method
              (upstream_path_with_query (w_url w) u) body with
      | Err e =>
          log_and_stop (apply_error_log_fields "x402_signing_header_failed" (signature_header_error_text e)
                          (settled_message GatewayError c settled))
            (gateway_error_response 500 "x402 endpoint signing header failed" "x402_signing_header_failed")
      | Ok h => traced_ret h
      end
  end.

(** The reply is only logged. *)
(* src: ai-gateway/src/x402/service.rs:1110-1174 record_service_result_best_effort *)
Definition record_service_result_best_effort (req : RecordServiceResultRequest) : X402 unit :=
  match w_record w, payment_grpc_auth (w_metadata_ok w) (payment_service_key cfg) with
  | Some _, Some auth => traced_tell (RecordResult auth req)
  | _, _ => traced_ret tt
  end.

Definition is_success (status : Z) : bool := (200 <=? status)%Z && (status <? 300)%Z.

(* src: ai-gateway/src/x402/service.rs:976-1045 handle_paid_request *)
Definition deliver (s : X402EndpointSnapshot) (upstream_method : string) (u : Url) (h : HeaderMap) (body : string)
    (ps : EndpointPaymentSnapshot) (pc : PaymentRequestContext) (settled : VerifyAndSettlePaymentResponse)
    (c : X402LogContext) : X402 GatewayResponse :=
  let* _ := traced_tell (CallUpstream upstream_method u h body (response_timeout s)) in
  match w_upstream w upstream_method u h body (response_timeout s) with
  | Ok upstream =>
      let service_status := if is_success (up_status upstream) then "succeeded" else "failed" in
      let* _ := record_service_result_best_effort
                  (build_record_service_result_request (vr_activity_id settled) (pc_trace_id pc) service_status
                     (up_status upstream) "" (ps_cache_billing_mode ps) (w_sha256_hex w (up_body upstream))) in
      let m := apply_upstream_log_fields service_status "" (settled_message UpstreamCompleted c settled) in
      let response := upstream_response (up_status upstream) (up_headers upstream) (up_body upstream)
                        (vr_payment_response_header settled) in
      let* _ := traced_tell (LogOnBodyEnd m) in
      traced_ret response
  | Err failure_reason =>
      let* _ := record_service_result_best_effort
                  (build_record_service_result_request (vr_activity_id settled) (pc_trace_id pc) "gateway_error" 0
                     failure_reason (ps_cache_billing_mode ps) "") in
      let m := apply_error_log_fields "x402_upstream_failed" failure_reason
                 (set_failure_reason failure_reason
                    (set_service_status "gateway_error" (settled_message GatewayError c settled))) in
      log_and_stop m (gateway_error_response 502 "x402 upstream request failed" "x402_upstream_failed")
  end.

(* src: ai-gateway/src/x402/service.rs:778-1046 handle_paid_request *)
Definition handle_paid_request (s : X402EndpointSnapshot) (remaining_path inbound_method : string) (query : option string)
    (h : HeaderMap) (body : string) (ps : EndpointPaymentSnapshot) (pc : PaymentRequestContext) (signature : string)
    (c : X402LogContext) : X402 GatewayResponse :=
  let* upstream := prepare_upstream s remaining_path inbound_method query c in
  let* settled := settle ps pc signature c in
  let* upstream_headers := sign_upstream s h upstream.1 upstream.2 body settled c in
  deliver s upstream.1 upstream.2 upstream_headers body ps pc settled c.

(** ** The quote *)

(* src: ai-gateway/src/x402/service.rs:688-775 handle_payment_requirements *)
Definition handle_payment_requirements (ps : EndpointPaymentSnapshot) (pc : PaymentRequestContext) (c : X402LogContext)
  : X402 GatewayResponse :=
  match w_payment w with
  | None =>
      log_and_stop (error_message PaymentRequired c "x402_payment_unavailable" "x402 payment service unavailable")
        (gateway_error_response 503 "x402 payment service unavailable" "x402_payment_unavailable")
  | Some client =>
      match payment_grpc_auth (w_metadata_ok w) (payment_service_key cfg) with
      | None =>
          traced_stop (gateway_error_response 500 "x402 payment service key is not configured"
            "x402_payment_service_key_unconfigured")
      | Some auth =>
          let* _ := traced_tell (GetRequirements auth ps pc) in
          match get_payment_requirements client ps pc with
          | Replied r =>
              let* _ := emit_x402_log_best_effort
                          (apply_payment_requirements_log_fields (w_uuid_parse w) (w_parse_f64 w) r
                             (new_message PaymentRequired c)) in
              traced_ret (payment_required_response r)
          | Refused status =>
              log_and_stop (error_message PaymentRequired c "x402_payment_requirements_failed" status)
                (gateway_error_response 502 "x402 payment requirements failed" "x402_payment_requirements_failed")
          | Elapsed =>
              log_and_stop (error_message PaymentRequired c "x402_payment_timeout" "x402 payment requirements timed out")
                (gateway_error_response 504 "x402 payment requirements timed out" "x402_payment_timeout")
          end
      end
  end.

(** ** From the route to the payment *)

(* src: ai-gateway/src/x402/service.rs:531-558 handle_x402_request *)
Definition find_endpoint (slug method : string) (c : X402LogContext) : X402 X402EndpointSnapshot :=
  match resolve_snapshot (w_from_str w) (w_header_items w) (w_redis w) (fetch_active_x402_endpoint_snapshot <$> w_store w)
          slug method with
  | Ok (Some resolved) => traced_ret resolved.1
  | Ok None =>
      log_and_stop (error_message SnapshotMiss c "not_found" "x402 snapshot not found") not_found_response
  | Err e =>
      log_and_stop (error_message SnapshotErrorStage c "x402_snapshot_error" (w_snapshot_error w e))
        (gateway_error_response 500 "x402 snapshot resolution failed" "x402_snapshot_error")
  end.

(* src: ai-gateway/src/x402/service.rs:560-610 handle_x402_request *)
Definition read_body (req : X402Request) (s : X402EndpointSnapshot) (c : X402LogContext) : X402 string :=
  let max := request_body_limit s in
  let too_large := error_message GatewayError c "x402_payload_too_large" "request body exceeds x402 policy limit" in
  if content_length_exceeds_policy (rq_headers req) max then log_and_stop too_large payload_too_large_response
  else
    match rq_collect req max with
    | Err TooLarge => log_and_stop too_large payload_too_large_response
    | Err ReadFailed =>
        log_and_stop (error_message GatewayError c "x402_body_read_failed" "failed to read request body")
          (json_error_response 400 "failed to read request body" "invalid_request_error" "x402_body_read_failed")
    | Ok body =>
        match validate_body_against_schema (w_from_slice w) (w_validator_for w) body (body_schema s) with
        | Ok _ => traced_ret body
        | Err e =>
            log_and_stop
              (error_message GatewayError c (body_schema_validation_error_code e) (body_schema_validation_error_message e))
              (body_schema_validation_error_response e)
        end
    end.

(* src: ai-gateway/src/x402/service.rs:612-654 handle_x402_request *)
Definition check_policy (s : X402EndpointSnapshot) (h : HeaderMap) (body trace_id request_id session_id : string)
    (c : X402LogContext) : X402 unit :=
  let req := build_policy_request s (safe_policy_headers h) body (request_body_policy_max_bytes cfg) trace_id request_id
               session_id in
  let* _ := match w_policy w with Some _ => traced_tell (AskPolicy req) | None => traced_ret tt end in
  match evaluate_x402_inbound (policy_on_unavailable cfg) (w_policy w) req with
  | Err e =>
      log_and_stop (error_message PolicyDenied c "x402_policy_unavailable" (policy_unavailable_text e))
        (json_error_response 403 "x402 policy denied" "x402_policy_denied" "x402_policy_unavailable")
  | Ok r =>
      if allowed r then traced_ret tt
      else
        let text := policy_denied_message (reason r) in
        log_and_stop
          (apply_error_log_fields "x402_policy_denied" text (apply_policy_log_fields r (new_message PolicyDenied c)))
          (json_error_response 403 text "x402_policy_denied" "x402_policy_denied")
  end.

(* src: ai-gateway/src/x402/service.rs:1427-1443 payment_context *)
Definition payment_context (h : HeaderMap) (body trace_id request_id : string) : PaymentRequestContext :=
  let hashed o := match o with Some v => w_sha256_hex w v | None => "" end in
  mkPaymentContext trace_id request_id (w_sha256_hex w body)
    (hashed (or_else (header_string h "x-forwarded-for") (header_string h "x-real-ip")))
    (hashed (header_string h "user-agent")).

(* src: ai-gateway/src/x402/service.rs:519-520 handle_x402_request *)
Definition payment_signature (h : HeaderMap) : option string :=
  or_else (header_string h "PAYMENT-SIGNATURE") (header_string h "payment-signature").

(* src: ai-gateway/src/x402/service.rs:485-686 handle_x402_request *)
Definition handle_steps (req : X402Request) : X402 GatewayResponse :=
  if negb (enabled cfg) then traced_stop not_found_response
  else
    match rq_route req with
    | None => traced_stop not_found_response
    | Some (slug, remaining_path) =>
        let h := rq_headers req in
        let trace_id := trace_id_from_headers (w_fresh_uuid w) h in
        let request_id := request_id_from_headers h trace_id in
        let session_id := default "" (header_string h "alephant-session-id") in
        let c := log_context_from_request trace_id session_id in
        let* s := find_endpoint slug (rq_method req) c in
        let c := with_resolved_snapshot s c in
        let* body := read_body req s c in
        let* _ := check_policy s h body trace_id request_id session_id c in
        let ps := endpoint_payment_snapshot s in
        let pc := payment_context h body trace_id request_id in
        match payment_signature h with
        | None => handle_payment_requirements ps pc c
        | Some signature =>
            handle_paid_request s remaining_path (rq_method req) (rq_query req) h body ps pc signature c
        end
    end.

(* src: ai-gateway/src/x402/service.rs:87-91 X402AgentService::call *)
Definition handle_x402_request (req : X402Request) : list (X402Effect Url) * GatewayResponse :=
  let r := handle_steps req in (r.1, match r.2 with inl a => a | inr a => a end).
End service.

(** ** What a request comes to *)

Section outcomes.
Context {Url : Type} (w : X402World Url) (cfg : X402Config).

Definition no_upstream (e : X402Effect Url) : Prop := match e with CallUpstream _ _ _ _ _ => False | _ => True end.
Definition quiet (e : X402Effect Url) : Prop :=
  match e with CallUpstream _ _ _ _ _ | VerifyAndSettle _ _ => False | _ => True end.
Definition is_log (e : X402Effect Url) : bool := match e with WriteLog _ _ | LogOnBodyEnd _ => true | _ => false end.

(** The payment service has settled a request. *)
Definition settles (vq : VerifyAndSettlePaymentRequest) (settled : VerifyAndSettlePaymentResponse) : Prop :=
  ∃ client, w_payment w = Some client ∧ verify_and_settle_payment client vq = Replied settled ∧ vr_success settled = true.

(** The record of a delivery, when the payment service can be told. *)
Definition recorded (req : RecordServiceResultRequest) : list (X402Effect Url) :=
  (record_service_result_best_effort w cfg req).1.

(** The message says what was settled. *)
Definition tells_settlement (settled : VerifyAndSettlePaymentResponse) (m : X402PaymentLogMessage) : Prop :=
  payment_status m = vr_payment_status settled ∧ settlement_status m = vr_settlement_status settled ∧
  tx_hash m = vr_tx_hash settled ∧ buyer_wallet m = vr_buyer_wallet settled ∧
  (vr_activity_id settled ≠ "" → activity_id m = uuid_or_zero (w_uuid_parse w) (vr_activity_id settled)).

(** How a delivery went: what is recorded of it, what is answered and what is
    logged. *)
Definition delivery (vq : VerifyAndSettlePaymentRequest) (settled : VerifyAndSettlePaymentResponse)
    (reply : result UpstreamProxyResult string) (rr : RecordServiceResultRequest) (log : X402Effect Url) (r : GatewayResponse)
  : Prop :=
  rr_activity_id rr = vr_activity_id settled ∧ rr_trace_id rr = pc_trace_id (vq_context vq) ∧
  match reply with
  | Ok up =>
      rr_service_status rr = (if is_success (up_status up) then "succeeded" else "failed") ∧
      rr_upstream_status_code rr = up_status up ∧ rr_response_hash rr = w_sha256_hex w (up_body up) ∧
      rs_status r = up_status up ∧ rs_body r = up_body up ∧
      ∃ m, log = LogOnBodyEnd m ∧ tells_settlement settled m ∧ service_status m = rr_service_status rr
  | Err failure =>
      rr_service_status rr = "gateway_error" ∧ rr_failure_reason rr = failure ∧ rs_status r = 502%Z ∧
      ∃ m ways, log = WriteLog m ways ∧ tells_settlement settled m ∧ service_status m = "gateway_error" ∧
        failure_reason m = failure
  end.

(** The headers of the upstream request: the caller's that may pass, and the
    signature with the endpoint's secret. *)
Definition signed_headers (s : X402EndpointSnapshot) (inbound : HeaderMap) (m : string) (u : Url) (body : string)
    (h : HeaderMap) : Prop :=
  ∃ secret,
    resolve_endpoint_signing_secret (w_b64_decode w) (w_cipher w) (w_redis w)
      (fetch_active_x402_endpoint_secret_ciphertext <$> w_store w) (w_master_key w) (endpoint_id s) = Ok secret ∧
    inject_forward_signature_headers (w_sha256_hex w) (w_hmac_hex w) (w_header_value_ok w)
      (filtered_upstream_headers (w_header_name w) inbound (headers_policy (target s))) (endpoint_id s) secret
      (pretty (w_unix_seconds w)) m (upstream_path_with_query (w_url w) u) body = Ok h.

(** What is logged and answered when the payment service was asked and did not
    say that the payment is settled: it said so, it failed, or its answer did
    not arrive in time, in which case nobody knows whether the money moved. *)
Definition unsettled (reply : Reply VerifyAndSettlePaymentResponse) (m : X402PaymentLogMessage) (r : GatewayResponse) : Prop :=
  match reply with
  | Replied failed =>
      vr_success failed = false ∧ rs_status r = 400%Z ∧ tells_settlement failed m ∧
      ledger_status m = (if bool_decide (verify_and_settle_failure_stage failed = SettleFailed)
                         then "x402_settle_failed" else "x402_verify_failed")
  | Refused _ => rs_status r = 502%Z ∧ ledger_status m = "x402_verify_failed" ∧ tx_hash m = ""
  | Elapsed => rs_status r = 504%Z ∧ ledger_status m = "x402_verify_timeout" ∧ tx_hash m = ""
  end.

(** What a request that carries a payment comes to: the payment service is not
    asked; or it does not say that the payment is settled; or the payment is
    settled and the call cannot be signed; or it is delivered. *)
Inductive paid_outcome (s : X402EndpointSnapshot) (inbound : HeaderMap)
    (upstream : result (string * Url) PaidUpstreamRequestError) (body : string) (vq : VerifyAndSettlePaymentRequest) : list (X402Effect Url) → GatewayResponse → Prop :=
| NotAsked es r : Forall quiet es → paid_outcome s inbound upstream body vq es r
| NotSettled auth client m ways r :
    w_payment w = Some client → unsettled (verify_and_settle_payment client vq) m r →
    paid_outcome s inbound upstream body vq [VerifyAndSettle auth vq; WriteLog m ways] r
| NotSigned auth settled m ways r :
    settles vq settled → is_ok upstream = true → rs_status r = 500%Z → tells_settlement settled m →
    ledger_status m ∈ ["x402_signing_secret_unavailable"; "x402_signing_header_failed"] →
    paid_outcome s inbound upstream body vq [VerifyAndSettle auth vq; WriteLog m ways] r
| Delivered auth settled m u h rr log r :
    settles vq settled → upstream = Ok (m, u) → signed_headers s inbound m u body h →
    delivery vq settled (w_upstream w m u h body (response_timeout s)) rr log r →
    paid_outcome s inbound upstream body vq
      ([VerifyAndSettle auth vq; CallUpstream m u h body (response_timeout s)] ++ recorded rr ++ [log])%list r.

(** What a message says of its request, apart from what a stored activity adds. *)
Definition says (m : X402PaymentLogMessage) :=
  (payment_status m, settlement_status m, tx_hash m, buyer_wallet m, activity_id m,
   (ledger_status m, service_status m, failure_reason m)).

Lemma activity_says f m : says (apply_activity_log_fields f m) = says m.
Proof. rw /apply_activity_log_fields. by repeat case_match. Qed.

Lemma enrich_says fetch m : says (enrich_x402_log_from_activity (w_uuid_parse w) fetch m) = says m.
Proof. rw /enrich_x402_log_from_activity. repeat case_match; try done. apply activity_says. Qed.

Lemma says_tells settled m m' : says m' = says m → tells_settlement settled m → tells_settlement settled m'.
Proof. rw /tells_settlement. intros [= -> -> -> -> -> _ _ _]. done. Qed.

Lemma log_and_stop_post {A} m r (Q : list (X402Effect Url) → A → Prop) S :
  (∀ m' ways, says m' = says m → S [WriteLog m' ways] r) → traced_post (log_and_stop w cfg m r) Q S.
Proof. intros H. rw /traced_post /=. apply H, enrich_says. Qed.

Lemma settled_message_tells stage c settled : tells_settlement settled (settled_message w stage c settled).
Proof.
  rw /settled_message /apply_verify_and_settle_log_fields /tells_settlement /unless_empty.
  destruct (money_fields _) as [[a b] n]. destruct (vr_activity_id settled) as [|x y];
    repeat case_match; by split_and!.
Qed.

Lemma settle_post ps pc signature c :
  let vq := mkVerify "" ps pc signature in
  traced_post (settle w cfg ps pc signature c)
    (λ es settled, settles vq settled ∧ ∃ auth, es = [VerifyAndSettle auth vq])
    (λ es r, Forall quiet es ∨ ∃ auth client m ways, w_payment w = Some client ∧
       unsettled (verify_and_settle_payment client vq) m r ∧ es = [VerifyAndSettle auth vq; WriteLog m ways]).
Proof.
  intros vq. rw /settle. destruct (w_payment w) as [client|] eqn:Hp.
  2: { apply log_and_stop_post. intros. left. by repeat constructor. }
  destruct (payment_grpc_auth _ _) as [auth|]; [|left; constructor].
  eapply traced_post_bind; [rw /traced_post /=; exact (conj eq_refl I : (λ es (_ : unit), es = [VerifyAndSettle auth vq] ∧ True) _ _)|].
  intros es [] [-> _]. fold vq. destruct (verify_and_settle_payment client vq) as [failed|status|] eqn:Hv.
  - destruct (vr_success failed) eqn:Hs.
    + rw /traced_post /=. split; [by exists client|by exists auth].
    + destruct (if bool_decide _ then _ else _) as [code fallback] eqn:Hcode. apply log_and_stop_post. intros m ways Hm.
      right. exists auth, client, m, ways. split; [done|]. split; [|done]. rw Hv /unsettled.
      split_and!; [done|done| |injection Hm as _ _ _ _ _ -> _ _; case_bool_decide; by injection Hcode].
      eapply says_tells; [exact Hm|]. exact (settled_message_tells _ c failed).
  - apply log_and_stop_post. intros m ways Hm. right. exists auth, client, m, ways. split; [done|]. split; [|done].
    rw Hv /unsettled. by injection Hm as _ _ -> _ _ -> _ _.
  - apply log_and_stop_post. intros m ways Hm. right. exists auth, client, m, ways. split; [done|]. split; [|done].
    rw Hv /unsettled. by injection Hm as _ _ -> _ _ -> _ _.
Qed.

Lemma sign_post s inbound m u body settled c :
  traced_post (sign_upstream w cfg s inbound m u body settled c)
    (λ es h, es = [] ∧ signed_headers s inbound m u body h)
    (λ es r, ∃ msg ways, es = [WriteLog msg ways] ∧ rs_status r = 500%Z ∧ tells_settlement settled msg ∧
       ledger_status msg ∈ ["x402_signing_secret_unavailable"; "x402_signing_header_failed"]).
Proof.
  assert (Hstop : ∀ code text message, code ∈ ["x402_signing_secret_unavailable"; "x402_signing_header_failed"] →
    traced_post (log_and_stop w cfg (apply_error_log_fields code text (settled_message w GatewayError c settled))
        (gateway_error_response w 500 message code))
      (λ es h, es = [] ∧ signed_headers s inbound m u body h)
      (λ es r, ∃ msg ways, es = [WriteLog msg ways] ∧ rs_status r = 500%Z ∧ tells_settlement settled msg ∧
         ledger_status msg ∈ ["x402_signing_secret_unavailable"; "x402_signing_header_failed"])).
  { intros code text message Hc. apply log_and_stop_post. intros m' ways Hm. exists m', ways.
    split_and!; [done|done| |by injection Hm as _ _ _ _ _ -> _ _]. eapply says_tells; [exact Hm|].
    exact (settled_message_tells GatewayError c settled). }
  rw /sign_upstream. destruct (resolve_endpoint_signing_secret _ _ _ _ _ _) as [secret|e] eqn:Hs;
    [|apply Hstop; set_solver].
  destruct (inject_forward_signature_headers _ _ _ _ _ _ _ _ _ _) as [h|e] eqn:Hh; [|apply Hstop; set_solver].
  rw /traced_post /=. split; [done|]. by exists secret.
Qed.

Lemma record_post req :
  traced_post (record_service_result_best_effort w cfg req) (λ es _, es = recorded req) (λ _ _, False).
Proof. rw /recorded /record_service_result_best_effort. by repeat case_match. Qed.

Lemma deliver_post s m u h body ps pc vq settled c :
  vq_context vq = pc →
  let P es r := ∃ rr log, delivery vq settled (w_upstream w m u h body (response_timeout s)) rr log r ∧
    es = (CallUpstream m u h body (response_timeout s) :: recorded rr ++ [log])%list in
  traced_post (deliver w cfg s m u h body ps pc settled c) P P.
Proof.
  intros <- P. rw /deliver. eapply (traced_post_bind _ _ (λ es _, es = [CallUpstream m u h body (response_timeout s)])); [done|].
  intros es [] ->. destruct (w_upstream w _ _ _ _ _) as [up|failure] eqn:Hup; eapply traced_post_bind.
  - eapply traced_post_weaken; [| |apply record_post]; [exact (λ es _ H, H)|done].
  - intros es [] ->. rw /traced_post /=. eexists _, _. split; [|done].
    rw /delivery /=. split_and!; try done. eexists. split; [done|].
    split; [exact (settled_message_tells UpstreamCompleted c settled)|done].
  - eapply traced_post_weaken; [| |apply record_post]; [exact (λ es _ H, H)|done].
  - intros es [] ->. apply log_and_stop_post. intros m' ways Hm. eexists _, _. split; [|done].
    rw /delivery /=. split_and!; try done. exists m', ways. split; [done|].
    split; [|by injection Hm as _ _ _ _ _ _ -> ->]. eapply says_tells; [exact Hm|].
    exact (settled_message_tells GatewayError c settled).
Qed.

Lemma paid_request_outcome s rest inbound_method query inbound body ps pc signature c :
  let P := paid_outcome s inbound (prepare_paid_upstream_request w s rest inbound_method query) body
             (mkVerify "" ps pc signature) in
  traced_post (handle_paid_request w cfg s rest inbound_method query inbound body ps pc signature c) P P.
Proof.
  intros P. rw /handle_paid_request.
  eapply (traced_post_bind _ _ (λ es a, es = [] ∧ prepare_paid_upstream_request w s rest inbound_method query = Ok a)).
  { rw /prepare_upstream. destruct (prepare_paid_upstream_request w s rest inbound_method query) as [a|e] eqn:Hp; [done|].
    apply log_and_stop_post. intros. apply NotAsked. by repeat constructor. }
  intros es [m u] [-> Hu]. simpl. eapply traced_post_bind.
  { eapply traced_post_weaken; [| |apply settle_post]; [exact (λ es a H, H)|].
    intros es r [Hq|(auth & client & msg & ways & Hc & Hr & ->)]; [by apply NotAsked|by eapply NotSettled]. }
  intros es settled [Hset [auth ->]]. eapply traced_post_bind.
  { eapply traced_post_weaken; [| |apply sign_post]; [exact (λ es a H, H)|].
    intros es r (msg & ways & -> & H1 & H2 & H3). eapply NotSigned; [exact Hset|by rw Hu|done|done|done]. }
  intros es h [-> Hh]. pose proof (deliver_post s m u h body ps pc (mkVerify "" ps pc signature) settled c eq_refl) as Hd.
  eapply traced_post_weaken; [| |exact Hd]; intros es r (rr & log & Hr & ->); by eapply (Delivered _ _ _ _ _ auth).
Qed.

(** Everything that stands before the payment has let the request through. *)
Record cleared (req : X402Request) (rest : string) (s : X402EndpointSnapshot) (body : string) : Prop := mkCleared {
  cleared_enabled : enabled cfg = true;
  cleared_endpoint : ∃ slug source, rq_route req = Some (slug, rest) ∧
    resolve_snapshot (w_from_str w) (w_header_items w) (w_redis w) (fetch_active_x402_endpoint_snapshot <$> w_store w)
      slug (rq_method req) = Ok (Some (s, source));
  cleared_body : rq_collect req (request_body_limit s) = Ok body ∧
    content_length_exceeds_policy (rq_headers req) (request_body_limit s) = false;
  cleared_schema : validate_body_against_schema (w_from_slice w) (w_validator_for w) body (body_schema s) = Ok tt;
  cleared_policy : ∃ r, allowed r = true ∧
    let trace_id := trace_id_from_headers (w_fresh_uuid w) (rq_headers req) in
    evaluate_x402_inbound (policy_on_unavailable cfg) (w_policy w)
      (build_policy_request s (safe_policy_headers (rq_headers req)) body (request_body_policy_max_bytes cfg) trace_id
         (request_id_from_headers (rq_headers req) trace_id) (default "" (header_string (rq_headers req) "alephant-session-id")))
    = Ok r
}.

(** The settlement a request with a signature asks for: the price and the
    wallets of the endpoint, and the hash of the very body. *)
Definition settlement_request (req : X402Request) (s : X402EndpointSnapshot) (body signature : string)
  : VerifyAndSettlePaymentRequest :=
  let trace_id := trace_id_from_headers (w_fresh_uuid w) (rq_headers req) in
  mkVerify "" (endpoint_payment_snapshot s)
    (payment_context w (rq_headers req) body trace_id (request_id_from_headers (rq_headers req) trace_id)) signature.

Definition request_outcome (req : X402Request) (es : list (X402Effect Url)) (r : GatewayResponse) : Prop :=
  Forall quiet es ∨
  ∃ rest s body signature pre es', es = (pre ++ es')%list ∧ Forall quiet pre ∧ Forall (λ e, is_log e = false) pre ∧
    cleared req rest s body ∧ payment_signature (rq_headers req) = Some signature ∧
    paid_outcome s (rq_headers req) (prepare_paid_upstream_request w s rest (rq_method req) (rq_query req)) body
      (settlement_request req s body signature) es' r.

Lemma stop_quiet {A} m r req (Q : list (X402Effect Url) → A → Prop) pre :
  Forall quiet pre → traced_post (log_and_stop w cfg m r) Q (λ es r, request_outcome req (pre ++ es)%list r).
Proof. intros Hp. apply log_and_stop_post. intros. left. apply Forall_app. split; [done|by repeat constructor]. Qed.

Lemma find_endpoint_post slug m c req :
  traced_post (find_endpoint w cfg slug m c)
    (λ es s, es = [] ∧ ∃ source, resolve_snapshot (w_from_str w) (w_header_items w) (w_redis w)
       (fetch_active_x402_endpoint_snapshot <$> w_store w) slug m = Ok (Some (s, source)))
    (request_outcome req).
Proof.
  rw /find_endpoint. destruct (resolve_snapshot _ _ _ _ _ _) as [[[s source]|]|e]; [by split; [|exists source]| |];
    apply (stop_quiet _ _ req _ []); constructor.
Qed.

Lemma read_body_post req s c :
  traced_post (read_body w cfg req s c)
    (λ es body, es = [] ∧ (rq_collect req (request_body_limit s) = Ok body ∧
         content_length_exceeds_policy (rq_headers req) (request_body_limit s) = false) ∧
       validate_body_against_schema (w_from_slice w) (w_validator_for w) body (body_schema s) = Ok tt)
    (request_outcome req).
Proof.
  rw /read_body. assert (Hstop : ∀ m r Q, traced_post (A := string) (log_and_stop w cfg m r) Q (request_outcome req)).
  { intros m r Q. apply (stop_quiet _ _ req _ []). constructor. }
  destruct (content_length_exceeds_policy _ _); [apply Hstop|].
  destruct (rq_collect req _) as [body|[]]; [|apply Hstop|apply Hstop].
  destruct (validate_body_against_schema _ _ _ _) as [[]|e] eqn:Hv; [|apply Hstop]. done.
Qed.

Lemma check_policy_post s h body trace request session c req :
  traced_post (check_policy w cfg s h body trace request session c)
    (λ es _, Forall quiet es ∧ Forall (λ e, is_log e = false) es ∧ ∃ r, allowed r = true ∧
       evaluate_x402_inbound (policy_on_unavailable cfg) (w_policy w)
         (build_policy_request s (safe_policy_headers h) body (request_body_policy_max_bytes cfg) trace request session) = Ok r)
    (request_outcome req).
Proof.
  rw /check_policy.
  eapply (traced_post_bind _ _ (λ es _, Forall quiet es ∧ Forall (λ e, is_log e = false) es)).
  { destruct (w_policy w); rw /traced_post /=; split; by repeat constructor. }
  intros es [] [Hq Hl]. destruct (evaluate_x402_inbound _ _ _) as [r|e]; [|by apply stop_quiet].
  destruct (allowed r) eqn:Ha; [|by apply stop_quiet]. rw /traced_post /= app_nil_r. split_and!; [done|done|by exists r].
Qed.

Lemma requirements_post ps pc c :
  traced_post (handle_payment_requirements w cfg ps pc c) (λ es _, Forall quiet es) (λ es _, Forall quiet es).
Proof.
  rw /handle_payment_requirements. assert (Hstop : ∀ m r pre, Forall quiet pre →
    traced_post (A := GatewayResponse) (log_and_stop w cfg m r) (λ es _, Forall quiet (pre ++ es)%list)
      (λ es _, Forall quiet (pre ++ es)%list)).
  { intros m r pre Hp. apply log_and_stop_post. intros. apply Forall_app. split; [done|by repeat constructor]. }
  destruct (w_payment w) as [client|]; [|by apply (Hstop _ _ [])].
  destruct (payment_grpc_auth _ _) as [auth|]; [|constructor].
  eapply (traced_post_bind _ _ (λ es _, Forall quiet es)); [by repeat constructor|].
  intros es [] He. destruct (get_payment_requirements client ps pc) as [r|status|]; [|by apply Hstop|by apply Hstop].
  rw /traced_post /=. apply Forall_app. split; [done|by repeat constructor].
Qed.

Lemma handle_steps_post req :
  traced_post (handle_steps w cfg req) (request_outcome req) (request_outcome req).
Proof.
  rw /handle_steps. destruct (enabled cfg) eqn:Hen; [|left; constructor]. cbn [negb].
  destruct (rq_route req) as [[slug rest]|] eqn:Hr; [|left; constructor].
  eapply traced_post_bind; [apply (find_endpoint_post _ _ _ req)|]. intros es s [-> [source Hs]]. simpl.
  eapply traced_post_bind; [apply read_body_post|]. intros es body (-> & Hb & Hsch). simpl.
  eapply traced_post_bind; [apply check_policy_post|]. intros pre [] (Hq & Hl & Hpol). simpl.
  destruct (payment_signature (rq_headers req)) as [signature|] eqn:Hsig.
  - eapply traced_post_weaken; [| |apply paid_request_outcome]; intros es r H; right;
      exists rest, s, body, signature, pre, es; split_and!; try done; constructor; by eauto.
  - eapply traced_post_weaken; [| |apply requirements_post]; intros es r H; left; by apply Forall_app.
Qed.

Lemma handle_outcome req :
  request_outcome req (handle_x402_request w cfg req).1 (handle_x402_request w cfg req).2.
Proof.
  pose proof (handle_steps_post req) as H. rw /traced_post in H. rw /handle_x402_request.
  by destruct (handle_steps w cfg req) as [es [r|r]].
Qed.
End outcomes.

Lemma recorded_quiet {Url : Type} (w : X402World Url) cfg rr :
  Forall quiet (recorded w cfg rr) ∧ Forall (λ e, is_log e = false) (recorded w cfg rr).
Proof. rw /recorded /record_service_result_best_effort. repeat case_match; split; by repeat constructor. Qed.

Lemma quiet_not_called {Url : Type} (es : list (X402Effect Url)) m u h b t :
  Forall quiet es → CallUpstream m u h b t ∉ es.
Proof. rw Forall_forall. intros H Hin. by apply H in Hin. Qed.

(** The log of a delivery is no settlement, no call and a log. *)
Lemma delivery_log {Url : Type} (w : X402World Url) vq settled reply rr log r :
  delivery w vq settled reply rr log r → quiet log ∧ is_log log = true.
Proof. rw /delivery. destruct reply; naive_solver. Qed.

Lemma quiet_not_upstream {Url : Type} (es : list (X402Effect Url)) m u h b t :
  Forall no_upstream es → CallUpstream m u h b t ∉ es.
Proof. rw Forall_forall. intros H Hin. by apply H in Hin. Qed.

(** C5 (safety). The seller is called only for money: when a request makes the
    gateway call a seller, the service is on and the request names an endpoint
    that was found; its body was read within the endpoint's limit, fits its
    schema and policy let it pass; and directly before the call the payment
    service was asked, once and for this very signature, price, wallet and
    body hash, and answered that the payment is settled.  The call goes to the
    address and with the method prepared before, carries the body that was
    paid for and headers signed with the endpoint's secret, and is the only
    call. *)
Theorem upstream_called_only_when_paid {Url : Type} (w : X402World Url) cfg req m u h b t :
  CallUpstream m u h b t ∈ (handle_x402_request w cfg req).1 →
  ∃ rest s signature settled auth pre post,
    cleared w cfg req rest s b ∧ payment_signature (rq_headers req) = Some signature ∧
    settles w (settlement_request w req s b signature) settled ∧
    prepare_paid_upstream_request w s rest (rq_method req) (rq_query req) = Ok (m, u) ∧
    signed_headers w s (rq_headers req) m u b h ∧ t = response_timeout s ∧
    (handle_x402_request w cfg req).1 =
      (pre ++ [VerifyAndSettle auth (settlement_request w req s b signature); CallUpstream m u h b t] ++ post)%list ∧
    Forall quiet (pre ++ post)%list.
Proof.
  intros Hin. destruct (handle_outcome w cfg req) as [Hq|(rest & s & body & signature & pre & es & Hes & Hpre & _ & Hc & Hs & Ho)].
  { by apply quiet_not_called in Hin. }
  rw Hes in Hin |- *. apply elem_of_app in Hin as [Hin|Hin].
  { by apply quiet_not_called in Hin. }
  destruct Ho as [es r Hn|auth client msg ways r|auth settled msg ways r|auth settled m' u' h' rr log r Hset Hu Hh Hd].
  - by apply quiet_not_called in Hin.
  - by apply quiet_not_upstream in Hin; [|repeat constructor].
  - by apply quiet_not_upstream in Hin; [|repeat constructor].
  - destruct (recorded_quiet w cfg rr) as [Hr _]. apply delivery_log in Hd as Hl. destruct Hl as [Hl _].
    assert (Heq : (m, u, h, b, t) = (m', u', h', body, response_timeout s)).
    { rw !elem_of_app !elem_of_cons in Hin. destruct Hin as [[Hin|[Hin|Hin]]|[Hin|[<-|Hin]]];
        [done|by injection Hin as -> -> -> -> ->|by apply not_elem_of_nil in Hin|by apply quiet_not_called in Hin|done|].
      by apply not_elem_of_nil in Hin. }
    injection Heq as -> -> -> -> ->. exists rest, s, signature, settled, auth, pre, (recorded w cfg rr ++ [log])%list.
    split_and!; try done. apply Forall_app. split; [done|]. apply Forall_app. split; [done|]. by repeat constructor.
Qed.


(** ** Examples *)

Definition demo_row : DbX402EndpointSnapshotRow :=
  mkRow "e1" "w1" (Some "a1") "active" "Quotes" "quotes" (Some " Api ") "POST" "/v1" "fixed" "0.01" "USDC" "eip155:8453"
    "0xseller" Null "http" "https://seller.example/api" "preserve" Null (Array []) true 1 "p1" "public" 60 100 30 1 false
    None "charge" 0 7 0.

(** A gateway without Redis but with an endpoint in its database; the payment
    service settles what it is asked, the seller answers 200. *)
Definition demo_x402_world (secret : option string) : X402World toy_url := {|
  w_url := toy_ops;
  w_header_name := λ s, Some (to_ascii_lowercase s);
  w_header_value_ok := λ _, true;
  w_metadata_ok := λ _, true;
  w_parse_method := Ok;
  w_sha256_hex := λ s, "h" ++ s;
  w_hmac_hex := λ k s, k;
  w_b64_decode := Some;
  w_cipher := mkCipher (λ _ _ t, Some t) (λ _ _ t, Some t);
  w_uuid_parse := Some;
  w_parse_f64 := λ _, None;
  w_to_vec := λ _, "{}";
  w_from_slice := λ _, None;
  w_validator_for := λ _, Err "none";
  w_from_str := λ _, None;
  w_header_items := λ _, Some [];
  w_snapshot_error := λ _, "snapshot";
  w_secret_error := λ _, "secret";
  w_redis := None;
  w_store := Some (mkStore (λ _ _, Ok (Some demo_row)) (λ _, Ok secret) (λ _, Ok None));
  w_master_key := Some "0123456789abcdef0123456789abcdef";
  w_policy := Some (λ _, Replied (mkPolicyResponse true "x402_endpoint_ok" "" "" 7 None));
  w_payment := Some (mkPaymentClient (λ _ _, Elapsed)
    (λ _, Replied (mkSettled "act1" "success" "settled" "0xbuyer" "" "0xtx" None None None "paid" "" true)));
  w_record := Some (λ _, Replied true);
  w_upstream := λ _ _ _ _ _, Ok (mkUpstream 200 ∅ "42");
  w_xadd := None;
  w_collector_url_ok := true;
  w_collector := λ _, true;
  w_now := 0;
  w_unix_seconds := 17;
  w_fresh_uuid := "trace"
|}.

Definition demo_x402_config : X402Config := mkX402Config true "logs" 10 "service-key" Deny "".
Definition demo_x402_request : X402Request :=
  mkX402Request (Some ("quotes", "/eur")) "POST" None {["payment-signature" := ["sig"]]} (λ _, Ok "body").

Definition is_upstream {Url} (e : X402Effect Url) : bool := match e with CallUpstream _ _ _ _ _ => true | _ => false end.
Definition is_settle {Url} (e : X402Effect Url) : bool := match e with VerifyAndSettle _ _ => true | _ => false end.
Definition is_record {Url} (e : X402Effect Url) : bool := match e with RecordResult _ _ => true | _ => false end.

Lemma upstream_called_only_when_paid_witness :
  let w := demo_x402_world (Some "v1:0123456789abcipher") in
  ∃ m u h b t s settled, CallUpstream m u h b t ∈ (handle_x402_request w demo_x402_config demo_x402_request).1 ∧
    b = "body" ∧ settles w (settlement_request w demo_x402_request s b "sig") settled.
Proof.
  intros w.
  assert (H : existsb is_upstream (handle_x402_request w demo_x402_config demo_x402_request).1 = true) by reflexivity.
  apply existsb_exists in H as (e & Hin & He). apply list_elem_of_In in Hin.
  destruct e as [| | |m u h b t| | |]; try discriminate He.
  destruct (upstream_called_only_when_paid w demo_x402_config demo_x402_request m u h b t Hin)
    as (rest & s & signature & settled & auth & pre & post & Hc & Hs & Hset & _).
  exists m, u, h, b, t, s, settled. split; [exact Hin|]. destruct Hc as [_ _ [Hb _] _ _]. injection Hb as <-.
  split; [reflexivity|]. injection Hs as <-. exact Hset.
Defined.


(** An endpoint without a signing secret takes the money and gives a 500: the
    payment is settled, the seller is not called, and the payment service,
    which is there to be told how a paid request went, is not told. *)
Example unsigned_payment_is_kept :
  let '(es, r) := handle_x402_request (demo_x402_world None) demo_x402_config demo_x402_request in
  existsb is_settle es = true ∧ existsb is_upstream es = false ∧ existsb is_record es = false ∧ rs_status r = 500%Z.
Proof. split_and!; reflexivity. Qed.
