(* ===== verification/ProviderCatalog.v ===== *)
(** * The provider catalog of the database

    Models [ai-gateway/src/discover/router/provider_db_config.rs] and the types
    of [ai-gateway/src/config/providers.rs] it builds: from the rows of the
    tables of providers and of their models, the addresses and models of each
    provider and the index of bare model names.

    Parsing of addresses and dates and the metadata embedded in the binary are
    parameters. *)

From S2P Require Import Prelude RustStr Provider ModelId ModelSupport.
Local Open Scope string_scope.

(* src: ai-gateway/src/config/providers.rs:20-26 UpstreamAuthStyle *)
Inductive UpstreamAuthStyle := Bearer | ApiKeyHeader.

(* src: ai-gateway/src/store/router.rs:119-132 DbGatewayProvider *)
Record DbGatewayProvider := mkDbProvider {
  dbp_id : string;
  dbp_code : string;
  dbp_default_base_url : option string;
  dbp_cn_base_url : option string;
  dbp_updated_at : Z;
  dbp_is_router : bool
}.

(* src: ai-gateway/src/store/router.rs:135-139 DbGatewayProviderModel *)
Record DbGatewayProviderModel := mkDbModel { dbm_provider_id : string; dbm_model_id : string }.

Section catalog.
Context {Date Url : Type} `{EqDecision Date}.
Context (parse_from_str : string → string → option Date) (year : string) (parse_url : string → option Url).

(* src: ai-gateway/src/config/providers.rs:37-50 GlobalProviderConfig *)
Record GlobalProviderConfig := mkGlobal {
  g_models : list (ModelId Date);
  g_base_url : Url;
  g_cn_base_url : option Url;
  g_version : option string;
  g_upstream_auth : UpstreamAuthStyle
}.

(* src: ai-gateway/src/config/providers.rs:59-64 EmbeddedProviderDefaults *)
Record EmbeddedProviderDefaults := mkEmbedded {
  e_base_url : Url;
  e_cn_base_url : option Url;
  e_version : option string;
  e_upstream_auth : UpstreamAuthStyle
}.

Context (embedded : InferenceProvider → option EmbeddedProviderDefaults).

(* src: ai-gateway/src/discover/router/provider_db_config.rs:36-42 build_from_db *)
Definition index_models (db_models : list DbGatewayProviderModel) : gmap string (list string) :=
  fold_left (λ m row, <[dbm_provider_id row := (default [] (m !! dbm_provider_id row) ++ [dbm_model_id row])%list]> m)
    db_models ∅.

(** The address of a provider; [None] is [continue]. *)
(* src: ai-gateway/src/discover/router/provider_db_config.rs:60-91 build_from_db *)
Definition resolve_base_url (provider : InferenceProvider) (row : DbGatewayProvider) : option Url :=
  match dbp_default_base_url row with
  | Some url => match parse_url url with Some u => Some u | None => e_base_url <$> embedded provider end
  | None => e_base_url <$> embedded provider
  end.

(* src: ai-gateway/src/discover/router/provider_db_config.rs:93-110 build_from_db *)
Definition resolve_cn_base_url (provider : InferenceProvider) (row : DbGatewayProvider) : option Url :=
  match dbp_cn_base_url row with
  | Some url => parse_url url
  | None => embedded provider ≫= e_cn_base_url
  end.

(** [IndexSet::insert]. *)
Definition set_insert (m : ModelId Date) (s : list (ModelId Date)) : list (ModelId Date) :=
  if bool_decide (m ∈ s) then s else (s ++ [m])%list.

(* src: ai-gateway/src/discover/router/provider_db_config.rs:117-133 build_from_db *)
Definition register_models (provider : InferenceProvider) (code : string) (raw : list string) (index : BareModelExpandIndex)
  : list (ModelId Date) * BareModelExpandIndex :=
  fold_left (λ '(models, index) model,
    match from_str_and_provider parse_from_str year provider model with
    | Ok m => (set_insert m models, push code model index)
    | Err _ => (models, index)
    end) raw ([], index).

Record Build := mkBuild {
  b_raw : gmap string (list string);
  b_entries : list (InferenceProvider * GlobalProviderConfig);
  b_index : BareModelExpandIndex
}.

(** One turn of the loop over the providers. *)
(* src: ai-gateway/src/discover/router/provider_db_config.rs:50-163 build_from_db *)
Definition build_step (b : Build) (row : DbGatewayProvider) : Build :=
  match from_provider_code (dbp_code row) with
  | Err _ => b
  | Ok provider =>
      match resolve_base_url provider row with
      | None => b
      | Some base_url =>
          let cn_base_url := resolve_cn_base_url provider row in
          let raw := default [] (b_raw b !! dbp_id row) in
          let '(models, index) := register_models provider (dbp_code row) raw (b_index b) in
          mkBuild (delete (dbp_id row) (b_raw b))
            (b_entries b ++ [(provider, mkGlobal models base_url cn_base_url (embedded provider ≫= e_version)
               (default Bearer (e_upstream_auth <$> embedded provider)))])%list
            index
      end
  end.

(** The pairs collected into an [IndexMap]: a later one replaces an earlier
    one of the same provider. *)
(* src: ai-gateway/src/config/providers.rs:232-239 ProvidersConfig::from_iter *)
Definition providers_config_from_iter (entries : list (InferenceProvider * GlobalProviderConfig))
  : gmap InferenceProvider GlobalProviderConfig :=
  fold_left (λ m '(p, c), <[p := c]> m) entries ∅.

(* src: ai-gateway/src/discover/router/provider_db_config.rs:31-167 build_from_db *)
Definition build_from_db (db_providers : list DbGatewayProvider) (db_models : list DbGatewayProviderModel)
  : gmap InferenceProvider GlobalProviderConfig * BareModelExpandIndex :=
  let b := fold_left build_step db_providers (mkBuild (index_models db_models) [] ∅) in
  (providers_config_from_iter (b_entries b), b_index b).

(** ** What is built *)

(** The rows that get into the index, in its order. *)
Definition parsed (provider : InferenceProvider) (model : string) : Prop :=
  is_ok (from_str_and_provider parse_from_str year provider model) = true.

#[local] Instance parsed_dec p m : Decision (parsed p m).
Proof. rw /parsed. apply _. Qed.

Lemma register_models_index provider code raw index models index' :
  register_models provider code raw index = (models, index') →
  index' = foldl (λ idx '(c, m), push c m idx) index (pair code <$> filter (parsed provider) raw).
Proof.
  rw /register_models. generalize (@nil (ModelId Date)) as ms. revert index.
  induction raw as [|r raw IH]; intros index ms; cbn [fold_left].
  { by intros [= _ <-]. }
  rw filter_cons. destruct (from_str_and_provider _ _ provider r) as [m|] eqn:E.
  - rw decide_True; last by rw /parsed E. intros H. by apply IH in H.
  - rw decide_False; last by rw /parsed E. intros H. by apply IH in H.
Qed.

Lemma index_models_lookup db_models id :
  default [] (index_models db_models !! id) = dbm_model_id <$> filter (λ r, dbm_provider_id r = id) db_models.
Proof.
  rw /index_models. induction db_models as [|r l IH] using rev_ind; [done|].
  rw fold_left_app filter_app fmap_app -IH /=. destruct (decide (dbm_provider_id r = id)) as [<-|Hne].
  - by rw lookup_insert_eq filter_cons_True.
  - by rw lookup_insert_ne // filter_cons_False // app_nil_r.
Qed.

Lemma from_iter_lookup entries p :
  is_Some (providers_config_from_iter entries !! p) ↔ p ∈ entries.*1.
Proof.
  rw /providers_config_from_iter. induction entries as [|[q c] l IH] using rev_ind.
  { cbn. rw lookup_empty. split; [by intros []|set_solver]. }
  rw fold_left_app fmap_app /= lookup_insert_is_Some IH elem_of_app list_elem_of_singleton.
  destruct (decide (q = p)); naive_solver.
Qed.

(** What the loop keeps: the index is built from rows of registered
    providers, each name parsed for the provider of its code. *)
Definition build_ok (b : Build) : Prop :=
  ∃ rows, b_index b = build_index rows ∧
  ∀ code model, (code, model) ∈ rows →
  ∃ p, from_provider_code code = Ok p ∧ p ∈ (b_entries b).*1 ∧ parsed p model.

Lemma build_step_ok b row : build_ok b → build_ok (build_step b row).
Proof.
  intros (rows & Hi & Hr). rw /build_step. destruct (from_provider_code (dbp_code row)) as [p|] eqn:Hp; [|by exists rows].
  destruct (resolve_base_url p row) as [u|]; [|by exists rows].
  destruct (register_models _ _ _ _) as [models index] eqn:Hm. apply register_models_index in Hm.
  eexists (rows ++ (pair (dbp_code row) <$> _))%list. split.
  { cbn [b_index]. rw Hm Hi /build_index foldl_app. done. }
  intros code model [Hin|Hin]%elem_of_app; cbn [b_entries]; rw fmap_app.
  - destruct (Hr _ _ Hin) as (q & Hq & Hin' & Hpq). exists q. split_and!; [done|set_solver|done].
  - apply list_elem_of_fmap in Hin as (m & [= -> ->] & Hm'). apply list_elem_of_filter in Hm' as [Hm' _].
    exists p. split_and!; [done|set_solver|done].
Qed.

Lemma build_ok_all rows b : build_ok b → build_ok (fold_left build_step rows b).
Proof. revert b. induction rows as [|r l IH]; intros b Hb; [done|]. by apply IH, build_step_ok. Qed.

(** Every name that a bare model name expands to is [code/model] for a
    provider of the catalog, which can be asked for that model. *)
Lemma expansions_are_registered db_providers db_models bare full config index :
  build_from_db db_providers db_models = (config, index) →
  full ∈ gateway_models_for_bare_id bare index →
  ∃ code model p, full = code ++ "/" ++ model ∧ eq_ignore_ascii_case model bare = true ∧
    from_provider_code code = Ok p ∧ is_Some (config !! p) ∧ parsed p model.
Proof.
  rw /build_from_db. intros [= <- <-] Hin.
  destruct (build_ok_all db_providers (mkBuild (index_models db_models) [] ∅)) as (rows & Hi & Hr).
  { exists []. split; [done|]. set_solver. }
  rw Hi in Hin. apply build_index_spec in Hin as ([code model] & Hrow & [Hne Hm] & ->).
  destruct (Hr _ _ Hrow) as (p & Hp & Hin & Hpm). exists code, model, p. split_and!; try done.
  by apply from_iter_lookup.
Qed.

(** Where the address of an entry comes from. *)
Definition addressed (db_providers : list DbGatewayProvider) (p : InferenceProvider) (c : GlobalProviderConfig) : Prop :=
  (∃ row url, row ∈ db_providers ∧ from_provider_code (dbp_code row) = Ok p ∧
     dbp_default_base_url row = Some url ∧ parse_url url = Some (g_base_url c)) ∨
  (∃ e, embedded p = Some e ∧ g_base_url c = e_base_url e).

Lemma resolve_base_url_addressed rows row p c :
  row ∈ rows → from_provider_code (dbp_code row) = Ok p → resolve_base_url p row = Some (g_base_url c) → addressed rows p c.
Proof.
  intros Hin Hp. rw /resolve_base_url. destruct (dbp_default_base_url row) as [url|] eqn:Hd.
  - destruct (parse_url url) as [u|] eqn:Hurl.
    + intros [= Hu]. left. exists row, url. by rw Hurl Hu.
    + intros (e & He & Hu)%fmap_Some. right. by exists e.
  - intros (e & He & Hu)%fmap_Some. right. by exists e.
Qed.

Lemma build_step_addressed all rows b :
  (∀ row, row ∈ rows → row ∈ all) → (∀ p c, (p, c) ∈ b_entries b → addressed all p c) →
  ∀ p c, (p, c) ∈ b_entries (fold_left build_step rows b) → addressed all p c.
Proof.
  revert b. induction rows as [|row rows IH]; intros b Hsub Hb; [done|]. cbn [fold_left]. apply IH; [set_solver|].
  rw /build_step. destruct (from_provider_code (dbp_code row)) as [p|] eqn:Hp; [|done].
  destruct (resolve_base_url p row) as [u|] eqn:Hu; [|done].
  destruct (register_models _ _ _ _) as [models index]. cbn [b_entries].
  intros q c [Hin|Hin]%elem_of_app; [by apply Hb|]. apply list_elem_of_singleton in Hin. injection Hin as -> ->.
  apply (resolve_base_url_addressed all row); [set_solver|done|done].
Qed.

Lemma from_iter_elem entries p c : providers_config_from_iter entries !! p = Some c → (p, c) ∈ entries.
Proof.
  rw /providers_config_from_iter. induction entries as [|[q d] l IH] using rev_ind; [done|].
  rw fold_left_app /= lookup_insert_Some elem_of_app. intros [[-> ->]|[_ Hl]]; [right; by left|left; by apply IH].
Qed.

(** Without an address in a row or in the embedded metadata a provider is not
    in the catalog: none is called at an unknown address. *)
Lemma catalog_base_url db_providers db_models p c :
  (build_from_db db_providers db_models).1 !! p = Some c → addressed db_providers p c.
Proof.
  intros Hl%from_iter_elem. eapply build_step_addressed; [| |exact Hl]; [done|]. intros q d Hin. by apply not_elem_of_nil in Hin.
Qed.
End catalog.
