(* ===== verification/VirtualKeys.v ===== *)
(** * Virtual keys: rows, hashes and the cache of the application state

    Models the row and the queries of [ai-gateway/src/store/router.rs] for the
    keys of callers, [virtual_key/legacy_key.rs], [config/local_auth.rs] and the
    key caches of [app_state.rs] and [app.rs].

    SHA-256, the environment and the clock are parameters; a table is its list
    of rows. *)

From S2P Require Import Prelude RustStr Provider.
From Stdlib Require Import Ascii.
Local Open Scope string_scope.

(** ** Rows *)

(* src: ai-gateway/src/store/router.rs:61-87 DbVirtualKey *)
Record DbVirtualKey := mkVk {
  vk_id : string;
  vk_workspace_id : string;
  vk_master_key_id : string;
  vk_key_hash : string;
  vk_key_prefix : string;
  vk_label : string;
  vk_entity_type : option string;
  vk_entity_id : option string;
  vk_status : string;
  vk_expires_at : option Z;
  vk_deleted_at : option Z;
  vk_updated_at : Z;
  vk_rate_limit_rpm : option Z;
  vk_rate_limit_rph : option Z;
  vk_allowed_models : option (list string);
  vk_blocked_models : option (list string);
  vk_subscription_log_limit : Z
}.

#[global] Instance DbVirtualKey_eq_dec : EqDecision DbVirtualKey.
Proof. solve_decision. Defined.

(** [deleted_at IS NULL AND status = 'active']. *)
(* src: ai-gateway/src/store/router.rs:245-246 GET_ALL_DB_VIRTUAL_KEYS_SQL *)
Definition row_active (r : DbVirtualKey) : bool :=
  match vk_deleted_at r with None => (vk_status r =? "active") | Some _ => false end.

(* src: ai-gateway/src/store/router.rs:216-246 GET_ALL_DB_VIRTUAL_KEYS_SQL *)
Definition get_all_db_virtual_keys (table : list DbVirtualKey) : list DbVirtualKey :=
  filter (λ r, row_active r = true) table.

(* src: ai-gateway/src/store/router.rs:248-280 GET_DB_VIRTUAL_KEY_BY_KEY_HASH_SQL *)
Definition get_db_virtual_key_by_key_hash (table : list DbVirtualKey) (key_hash : string) : option DbVirtualKey :=
  head (filter (λ r, vk_key_hash r = key_hash ∧ row_active r = true) table).

(* src: ai-gateway/src/store/router.rs:282-311 GET_DB_VIRTUAL_KEYS_UPDATED_AFTER_SQL *)
Definition get_db_virtual_keys_updated_after (table : list DbVirtualKey) (since : Z) : list DbVirtualKey :=
  filter (λ r, (since < vk_updated_at r)%Z) table.

(** ** Hashes *)

(** [u8::is_ascii_graphic]. *)
Definition is_ascii_graphic (c : ascii) : bool := (33 <=? byte_of c)%Z && (byte_of c <=? 126)%Z.

Section hash.
Context (sha256_hex : string → string).

(* src: ai-gateway/src/virtual_key/legacy_key.rs:12-24 hash_key *)
Definition hash_key (key : string) : string := sha256_hex (default key (strip_prefix "Bearer " key)).

(** ** Identities of a gateway without a database *)

(* src: ai-gateway/src/config/local_auth.rs:21-30 LocalKeyConfig *)
Record LocalKeyConfig := mkLocal {
  lk_id : string;
  lk_workspace_id : string;
  lk_key_env : string;
  lk_provider : InferenceProvider;
  lk_allowed_models : option (list string);
  lk_blocked_models : option (list string)
}.

Definition nil_uuid : string := "00000000-0000-0000-0000-000000000000".

(* src: ai-gateway/src/config/local_auth.rs:45-50 LocalAuthConfig::validate *)
Definition env_name_ok (name : string) : bool :=
  negb (is_empty name)
  && negb (match name with String c _ => is_ascii_digit c | EmptyString => false end)
  && str_all (λ c, is_ascii_alphanumeric c || Ascii.eqb c "_") name.

(** The loop of [validate], with the ids and the names it has seen. *)
(* src: ai-gateway/src/config/local_auth.rs:39-58 LocalAuthConfig::validate *)
Fixpoint validate_keys (ids names : list string) (keys : list LocalKeyConfig) : result unit string :=
  match keys with
  | [] => Ok tt
  | key :: rest =>
      if (lk_id key =? nil_uuid) || (lk_workspace_id key =? nil_uuid) || bool_decide (lk_id key ∈ ids)
      then Err "key and workspace IDs must be non-nil; key IDs must be unique"
      else if negb (env_name_ok (lk_key_env key)) || bool_decide (lk_key_env key ∈ names)
      then Err "key-env must be a unique environment variable name"
      else validate_keys (lk_id key :: ids) (lk_key_env key :: names) rest
  end.

(* src: ai-gateway/src/config/local_auth.rs:33-59 LocalAuthConfig::validate *)
Definition validate (keys : list LocalKeyConfig) : result unit string :=
  match keys with [] => Err "keys must not be empty" | _ => validate_keys [] [] keys end.

(* src: ai-gateway/src/config/local_auth.rs:76-76 LocalAuthConfig::load_keys *)
Definition credential_ok (value : string) : bool := (32 <=? len value)%nat && str_all is_ascii_graphic value.

(* src: ai-gateway/src/config/local_auth.rs:87-105 LocalAuthConfig::load_keys *)
Definition local_row (now : Z) (key : LocalKeyConfig) (key_hash : string) : DbVirtualKey :=
  mkVk (lk_id key) (lk_workspace_id key) (lk_id key) key_hash "local" "local" None None "active" None None now None None
    (lk_allowed_models key) (lk_blocked_models key) 90.

Context (lookup_env : string → option string) (now : Z).

(** The iterator of [load_keys], with the hashes it has seen. *)
(* src: ai-gateway/src/config/local_auth.rs:70-107 LocalAuthConfig::load_keys *)
Fixpoint load_each (hashes : list string) (keys : list LocalKeyConfig) : result (list DbVirtualKey) string :=
  match keys with
  | [] => Ok []
  | key :: rest =>
      let? value := ok_or (lookup_env (lk_key_env key)) "a key-env credential is missing" in
      if negb (credential_ok value) then Err "credentials must contain at least 32 non-whitespace ASCII bytes"
      else
        let key_hash := hash_key value in
        if bool_decide (key_hash ∈ hashes) then Err "credentials must be unique across local identities"
        else let? rows := load_each (key_hash :: hashes) rest in Ok (local_row now key key_hash :: rows)
  end.

(* src: ai-gateway/src/config/local_auth.rs:65-108 LocalAuthConfig::load_keys *)
Definition load_keys (keys : list LocalKeyConfig) : result (list DbVirtualKey) string :=
  let? _ := validate keys in load_each [] keys.
End hash.

(** ** The caches of the application state *)

(* src: ai-gateway/src/virtual_key/legacy_key.rs:26-32 Key *)
Record Key := mkKey { key_hash : string; owner_id : string; organization_id : string }.

#[global] Instance Key_eq_dec : EqDecision Key.
Proof. solve_decision. Defined.

Abbreviation VkCache := (gmap string DbVirtualKey).

(** The caches with the three counters their operations move. *)
Record Keys := mkKeys {
  alephant_api_keys : option (list Key);
  virtual_keys_cache : option VkCache;
  api_keys_gauge : Z;
  pg_fallback_heal : Z;
  pg_fallback_db_errors : Z
}.

(* src: ai-gateway/src/app.rs:270-290 App::new *)
Definition initial_virtual_keys (rows : list DbVirtualKey) : VkCache :=
  fold_left (λ m r, <[vk_key_hash r := r]> m) rows ∅.

Definition with_vks (c : VkCache) (delta : Z) (s : Keys) : Keys :=
  mkKeys (alephant_api_keys s) (Some c) (api_keys_gauge s + delta)%Z (pg_fallback_heal s) (pg_fallback_db_errors s).

(* src: ai-gateway/src/app_state.rs:410-417 AppState::check_alephant_api_key *)
Definition check_alephant_api_key (s : Keys) (api_key_hash : string) : option Key :=
  alephant_api_keys s ≫= λ keys, find (λ k, (key_hash k =? api_key_hash)) keys.

(* src: ai-gateway/src/app_state.rs:426-434 AppState::check_virtual_key *)
Definition check_virtual_key (s : Keys) (key_hash : string) : option DbVirtualKey :=
  virtual_keys_cache s ≫= λ c, c !! key_hash.

(* src: ai-gateway/src/app_state.rs:647-649 upsert_virtual_key_entry *)
Definition upsert_virtual_key_entry (map : VkCache) (vk : DbVirtualKey) : VkCache * bool :=
  (<[vk_key_hash vk := vk]> map, bool_decide (map !! vk_key_hash vk = None)).

(* src: ai-gateway/src/app_state.rs:651-653 remove_virtual_key_entry *)
Definition remove_virtual_key_entry (map : VkCache) (key_hash : string) : VkCache * bool :=
  (delete key_hash map, bool_decide (is_Some (map !! key_hash))).

(* src: ai-gateway/src/app_state.rs:476-483 AppState::set_virtual_key *)
Definition set_virtual_key (vk : DbVirtualKey) (s : Keys) : Keys :=
  match virtual_keys_cache s with
  | None => s
  | Some map => let '(map, fresh) := upsert_virtual_key_entry map vk in with_vks map (if fresh then 1%Z else 0%Z) s
  end.

(* src: ai-gateway/src/app_state.rs:486-493 AppState::remove_virtual_key *)
Definition remove_virtual_key (key_hash : string) (s : Keys) : Keys :=
  match virtual_keys_cache s with
  | None => s
  | Some map => let '(map, gone) := remove_virtual_key_entry map key_hash in with_vks map (if gone then (-1)%Z else 0%Z) s
  end.

(** [fetch] is the query, when there is a database. *)
(* src: ai-gateway/src/app_state.rs:441-472 AppState::resolve_virtual_key_for_auth *)
Definition resolve_virtual_key_for_auth (fetch : option (string → result (option DbVirtualKey) unit))
    (key_hash : string) (s : Keys) : option DbVirtualKey * Keys :=
  match check_virtual_key s key_hash with
  | Some vk => (Some vk, s)
  | None =>
      match fetch, virtual_keys_cache s with
      | None, _ | _, None => (None, s)
      | Some fetch, Some _ =>
          match fetch key_hash with
          | Ok (Some vk) =>
              (Some vk, set_virtual_key vk (mkKeys (alephant_api_keys s) (virtual_keys_cache s) (api_keys_gauge s)
                                              (pg_fallback_heal s + 1)%Z (pg_fallback_db_errors s)))
          | Ok None => (None, s)
          | Err _ => (None, mkKeys (alephant_api_keys s) (virtual_keys_cache s) (api_keys_gauge s)
                              (pg_fallback_heal s) (pg_fallback_db_errors s + 1)%Z)
          end
      end
  end.

Definition with_api_keys (keys : list Key) (delta : Z) (s : Keys) : Keys :=
  mkKeys (Some keys) (virtual_keys_cache s) (api_keys_gauge s + delta)%Z (pg_fallback_heal s) (pg_fallback_db_errors s).

(* src: ai-gateway/src/app_state.rs:495-506 AppState::set_alephant_api_key *)
Definition set_alephant_api_key (k : Key) (s : Keys) : result Keys unit :=
  let? keys := ok_or (alephant_api_keys s) tt in
  Ok (with_api_keys (if bool_decide (k ∈ keys) then keys else k :: keys) 1 s).

(* src: ai-gateway/src/app_state.rs:508-519 AppState::remove_alephant_api_key *)
Definition remove_alephant_api_key (api_key_hash : string) (s : Keys) : result Keys unit :=
  let? keys := ok_or (alephant_api_keys s) tt in
  Ok (with_api_keys (filter (λ k, key_hash k ≠ api_key_hash) keys) (-1) s).

(** ** Setting and removing *)

Definition cache_loaded (s : Keys) : bool := match virtual_keys_cache s with Some _ => true | None => false end.

Lemma set_loaded vk s : cache_loaded (set_virtual_key vk s) = cache_loaded s.
Proof. rw /cache_loaded /set_virtual_key. destruct (virtual_keys_cache s) eqn:E; [done|by rw E]. Qed.

Lemma remove_loaded h s : cache_loaded (remove_virtual_key h s) = cache_loaded s.
Proof. rw /cache_loaded /remove_virtual_key. destruct (virtual_keys_cache s) eqn:E; [done|by rw E]. Qed.

Lemma check_set vk s h :
  check_virtual_key (set_virtual_key vk s) h
  = if cache_loaded s && bool_decide (vk_key_hash vk = h) then Some vk else check_virtual_key s h.
Proof.
  rw /cache_loaded /check_virtual_key /set_virtual_key. destruct (virtual_keys_cache s) as [m|] eqn:E; cbn; [|by rw E].
  case_bool_decide as Hh; [by rw Hh lookup_insert_eq|by rw lookup_insert_ne].
Qed.

Lemma check_remove h' s h :
  check_virtual_key (remove_virtual_key h' s) h = if bool_decide (h' = h) then None else check_virtual_key s h.
Proof.
  rw /check_virtual_key /remove_virtual_key. destruct (virtual_keys_cache s) as [m|] eqn:E; cbn.
  - case_bool_decide as Hh; [by rw Hh lookup_delete_eq|by rw lookup_delete_ne].
  - rw E. by case_bool_decide.
Qed.

(** ** Local identities *)

Section local_auth.
Context (sha256_hex : string → string) (lookup_env : string → option string) (now : Z).

(** What a loaded row says of the identity it was loaded for. *)
Definition loaded_from (key : LocalKeyConfig) (row : DbVirtualKey) : Prop :=
  ∃ value, lookup_env (lk_key_env key) = Some value ∧ credential_ok value = true ∧
    row = local_row now key (hash_key sha256_hex value).

Lemma load_each_spec hashes keys rows :
  load_each sha256_hex lookup_env now hashes keys = Ok rows →
  Forall2 loaded_from keys rows ∧ NoDup (vk_key_hash <$> rows) ∧ ∀ r, r ∈ rows → vk_key_hash r ∉ hashes.
Proof.
  revert hashes rows. induction keys as [|key keys IH]; intros hashes rows; cbn [load_each].
  { intros [= <-]. split_and!; [constructor|constructor|set_solver]. }
  destruct (lookup_env _) as [value|] eqn:Hv; [|done]. cbn [ok_or result_bind].
  destruct (credential_ok value) eqn:Hc; [|done]. cbn [negb]. case_bool_decide as Hin; [done|].
  destruct (load_each _ _ _ _ keys) as [rows'|] eqn:Hl; [|done]. intros [= <-].
  apply IH in Hl as (Hall & Hnd & Hno). split_and!.
  - constructor; [|done]. by exists value.
  - rw fmap_cons. constructor; [|done]. rw list_elem_of_fmap. intros (r & Heq & Hr). apply (Hno _ Hr). rw -Heq. by left.
  - intros r [->|Hr]%elem_of_cons; [done|]. intros Hr'. apply (Hno _ Hr). by right.
Qed.

Lemma validate_keys_ids ids names keys :
  validate_keys ids names keys = Ok tt → 
  NoDup (lk_id <$> keys) ∧ (∀ k, k ∈ keys → (lk_id k ∉ ids) ∧ lk_workspace_id k ≠ nil_uuid).
Proof.
  revert ids names. induction keys as [|key keys IH]; intros ids names; cbn [validate_keys].
  { split; [constructor|set_solver]. }
  case_match eqn:H1; [done|]. case_match; [done|].
  apply orb_false_iff in H1 as [[_ Hws]%orb_false_iff Hid%bool_decide_eq_false].
  apply String.eqb_neq in Hws. intros (Hnd & Hall)%IH. split.
  - rw fmap_cons. constructor; [|done]. rw list_elem_of_fmap. intros (k & Heq & Hk).
    destruct (Hall _ Hk) as [Hn _]. apply Hn. rw Heq. by left.
  - intros k [->|Hk]%elem_of_cons; [done|]. destruct (Hall _ Hk) as [Hn Hw]. split; [|done]. intros Hin. apply Hn. by right.
Qed.

Lemma initial_lookup rows r :
  NoDup (vk_key_hash <$> rows) → r ∈ rows → initial_virtual_keys rows !! vk_key_hash r = Some r.
Proof.
  rw /initial_virtual_keys. induction rows as [|r' rows IH] using rev_ind; [set_solver|].
  rw fmap_app NoDup_app. intros (Hnd & Hdis & _) Hin. rw fold_left_app /=.
  apply elem_of_app in Hin as [Hin|Hin].
  - rw lookup_insert_ne; [by apply IH|]. intros Heq. apply (Hdis (vk_key_hash r)); [by apply list_elem_of_fmap_2|].
    rw -Heq. by left.
  - apply list_elem_of_singleton in Hin as ->. apply lookup_insert_eq.
Qed.

Lemma initial_lookup_inv rows h r : initial_virtual_keys rows !! h = Some r → r ∈ rows ∧ vk_key_hash r = h.
Proof.
  rw /initial_virtual_keys. induction rows as [|r' rows IH] using rev_ind; [done|].
  rw fold_left_app /= lookup_insert_Some elem_of_app. intros [[<- ->]|[_ Hl]]; [split; [right; by left|done]|].
  apply IH in Hl as [Hin Hh]. split; [by left|done].
Qed.

(** A gateway with local identities answers each credential, sent bare or
    after [Bearer], with the identity it was configured for, and knows no other
    credential. *)
Lemma local_credential_resolves keys rows :
  load_keys sha256_hex lookup_env now keys = Ok rows →
  (∀ key, key ∈ keys → ∃ value row, lookup_env (lk_key_env key) = Some value ∧
     initial_virtual_keys rows !! hash_key sha256_hex value = Some row ∧
     vk_id row = lk_id key ∧ vk_workspace_id row = lk_workspace_id key ∧
     vk_allowed_models row = lk_allowed_models key ∧ vk_blocked_models row = lk_blocked_models key) ∧
  (∀ h row, initial_virtual_keys rows !! h = Some row → ∃ key value, key ∈ keys ∧
     lookup_env (lk_key_env key) = Some value ∧ credential_ok value = true ∧ h = hash_key sha256_hex value ∧
     row_active row = true).
Proof.
  rw /load_keys. destruct (validate keys); [|done]. cbn [result_bind]. intros (Hall & Hnd & _)%load_each_spec. split.
  - intros key (i & Hi)%list_elem_of_lookup. destruct (Forall2_lookup_l _ _ _ _ _ Hall Hi) as (row & Hr & value & Hv & Hc & ->).
    exists value, (local_row now key (hash_key sha256_hex value)). split_and!; try done.
    apply (initial_lookup _ (local_row now key (hash_key sha256_hex value))); [done|]. by apply list_elem_of_lookup_2 in Hr.
  - intros h row ((i & Hi)%list_elem_of_lookup & <-)%initial_lookup_inv.
    destruct (Forall2_lookup_r _ _ _ _ _ Hall Hi) as (key & Hk & value & Hv & Hc & ->).
    exists key, value. split_and!; try done. by apply list_elem_of_lookup_2 in Hk.
Qed.
End local_auth.

(** ** The counters *)

(** Setting and removing virtual keys moves the gauge by what the cache grows
    or shrinks. *)
Definition vk_count (s : Keys) : Z := default 0%Z (count_map (λ _, true) <$> virtual_keys_cache s).

Lemma set_virtual_key_gauge vk s :
  (api_keys_gauge (set_virtual_key vk s) - vk_count (set_virtual_key vk s) = api_keys_gauge s - vk_count s)%Z.
Proof.
  rw /set_virtual_key /vk_count. destruct (virtual_keys_cache s) as [m|] eqn:Hm; [|by rw Hm]. cbn.
  case_bool_decide as Hl.
  - rw count_map_insert_None //=. lia.
  - destruct (m !! vk_key_hash vk) as [r|] eqn:Hr; [|done]. rw (count_map_insert_Some _ _ _ _ _ Hr) /=. lia.
Qed.

Lemma remove_virtual_key_gauge h s :
  (api_keys_gauge (remove_virtual_key h s) - vk_count (remove_virtual_key h s) = api_keys_gauge s - vk_count s)%Z.
Proof.
  rw /remove_virtual_key /vk_count. destruct (virtual_keys_cache s) as [m|] eqn:Hm; [|by rw Hm]. cbn.
  case_bool_decide as Hl.
  - destruct Hl as [r Hr]. rw (count_map_delete _ _ _ _ Hr) /=. lia.
  - rw -eq_None_not_Some in Hl. rw delete_id //. lia.
Qed.

(** Setting a key that is there, or removing one that is not, still moves the
    gauge. *)
Lemma api_key_gauge_drifts k s :
  alephant_api_keys s = Some [k] →
  (∃ s', set_alephant_api_key k s = Ok s' ∧ alephant_api_keys s' = Some [k] ∧ api_keys_gauge s' = (api_keys_gauge s + 1)%Z) ∧
  (∀ h, h ≠ key_hash k → ∃ s', remove_alephant_api_key h s = Ok s' ∧ alephant_api_keys s' = Some [k] ∧
     api_keys_gauge s' = (api_keys_gauge s - 1)%Z).
Proof.
  intros Hs. split.
  - rw /set_alephant_api_key Hs /=. rw bool_decide_true; last by left. by eexists.
  - intros h Hh. rw /remove_alephant_api_key Hs /=. rw filter_cons_True; last by apply not_eq_sym. by eexists.
Qed.

(** ** The counters of routers *)

Module RouterMetrics.
(** What a router's configuration counts under: the strategies of its
    endpoints, whether it maps models and retries. *)
Record RouterShape := mkShape { strategies : list (string * string); has_mappings : bool; has_retries : bool }.

Record Metrics := mkMetrics {
  m_routers : gmap (string * string) Z;
  m_strategies : gmap (string * string * (string * string)) Z;
  m_mappings : gmap string Z;
  m_retries : gmap string Z
}.

Definition add `{Countable L} (delta : Z) (l : L) (m : gmap L Z) : gmap L Z := <[l := (default 0%Z (m !! l) + delta)%Z]> m.

Section metrics.
Context (router_id : string) (shape : RouterShape) (organization_id : option string).

Let org := default "unknown" organization_id.

(* src: ai-gateway/src/app_state.rs:536-576 AppState::increment_router_metrics *)
Definition increment_router_metrics (m : Metrics) : Metrics :=
  mkMetrics (add 1 (org, router_id) (m_routers m))
    (fold_left (λ ms s, add 1 (org, router_id, s) ms) (strategies shape) (m_strategies m))
    (if has_mappings shape then add 1 router_id (m_mappings m) else m_mappings m)
    (if has_retries shape then add 1 router_id (m_retries m) else m_retries m).

(* src: ai-gateway/src/app_state.rs:578-618 AppState::decrement_router_metrics *)
Definition decrement_router_metrics (m : Metrics) : Metrics :=
  mkMetrics (add (-1) (org, router_id) (m_routers m))
    (fold_left (λ ms s, add 1 (org, router_id, s) ms) (strategies shape) (m_strategies m))
    (if has_mappings shape then add 1 router_id (m_mappings m) else m_mappings m)
    (if has_retries shape then add 1 router_id (m_retries m) else m_retries m).

(** A router that was added and removed is counted no more among the routers,
    but twice among the mappings and the retries. *)
Lemma removed_router_counted_twice :
  has_mappings shape = true → has_retries shape = true →
  let m := decrement_router_metrics (increment_router_metrics (mkMetrics ∅ ∅ ∅ ∅)) in
  m_routers m !! (org, router_id) = Some 0%Z ∧ m_mappings m !! router_id = Some 2%Z ∧ m_retries m !! router_id = Some 2%Z.
Proof.
  intros Hm Hr. rw /decrement_router_metrics /increment_router_metrics Hm Hr /add /=.
  by rw !lookup_insert_eq !lookup_empty.
Qed.
End metrics.
End RouterMetrics.
