(* ===== verification/DbListener.v ===== *)
(** * The database listener

    Models [ai-gateway/src/store/db_listener.rs]: polling of the database for
    changed keys, providers and allow-lists, the notifications, and the loop
    that serves both; and [store/enrichment_touch.rs].

    The answers of the database, serde, Redis and the clock are parameters.  How
    the table of keys may change over time is the class [VkHistory]. *)

From S2P Require Import Prelude RustStr Provider ModelId ModelSupport ProviderCatalog MasterKeys VirtualKeys.
Local Open Scope string_scope.

(** ** Messages and states *)

(* src: ai-gateway/src/store/db_listener.rs:50-59 Op *)
Inductive Op := Insert | Update | Delete | Truncate.

(* src: ai-gateway/src/store/enrichment_touch.rs:7-13 EnrichmentTouchScope *)
Inductive EnrichmentTouchScope := ScopeVirtualKey | ScopeWorkspace | ScopeAgent | ScopeMember | ScopeDepartment.

(* src: ai-gateway/src/store/db_listener.rs:63-85 ConnectedCloudGatewaysNotification *)
Inductive ConnectedCloudGatewaysNotification :=
| RouterConfigUpdated
| ApiKeyUpdated (owner organization api_key_hash : string) (soft_delete : bool) (op : Op)
| EnrichmentTouch (scope : EnrichmentTouchScope) (id : string)
| UnknownNotification.

(* src: ai-gateway/src/store/db_listener.rs:95-99 VirtualKeyUpdateAction *)
Inductive VirtualKeyUpdateAction := Upsert (vk : DbVirtualKey) | Remove (key_hash : string) | Skip.

Inductive RuntimeError := QueryFailed | ReloadFailed | BadPayload | KeysNotInitialized.

(* src: ai-gateway/src/store/enrichment_redis.rs:18-20 enrichment_cache_key *)
Definition enrichment_cache_key (virtual_key_id : string) : string := "enrichment:vk:" ++ virtual_key_id.

(* src: ai-gateway/src/store/db_listener.rs:624-641 classify_virtual_key_update *)
Definition classify_virtual_key_update (last_seen : option Z) (vk : DbVirtualKey) : VirtualKeyUpdateAction :=
  let should_process := match last_seen with None => true | Some seen => (seen <? vk_updated_at vk)%Z end in
  if negb should_process then Skip
  else if (match vk_deleted_at vk with Some _ => true | None => false end) || negb (vk_status vk =? "active")
  then Remove (vk_key_hash vk)
  else Upsert vk.

(* src: ai-gateway/src/store/db_listener.rs:643-658 should_reload_providers *)
Definition should_reload_providers (last_poll_time : option Z) (provider_probe : option bool) (provider_bootstrapped : bool)
  : bool :=
  match last_poll_time with
  | Some _ => default false provider_probe
  | None => if provider_bootstrapped then default false provider_probe else true
  end.

Section listener.
Context {Date Url : Type} `{EqDecision Date}.
Context (parse_from_str : string → string → option Date) (year : string) (parse_url : string → option Url)
        (embedded : InferenceProvider → option (EmbeddedProviderDefaults (Url := Url))).

(** The parts of the application state the listener writes. *)
Record App := mkApp {
  app_keys : Keys;
  app_key_cache : option (gmap string MasterKeyCache.DecryptedMasterKey);
  app_is_router_flags : gmap string bool;
  app_providers : gmap InferenceProvider (GlobalProviderConfig (Date := Date) (Url := Url));
  app_bare_models : BareModelExpandIndex;
  app_allowlist : gmap string (gset InferenceProvider);
  app_cache_warmed : bool
}.

(* src: ai-gateway/src/store/db_listener.rs:27-47 DatabaseListener *)
Record Listener := mkListener {
  l_app : App;
  last_api_key_created_at : gmap string Z;
  last_virtual_key_updated_at : gmap string Z;
  last_master_key_updated_at : gmap string Z;
  last_poll_time : option Z;
  provider_fingerprint_baseline : option string
}.

Definition with_app (f : App → App) (l : Listener) : Listener :=
  mkListener (f (l_app l)) (last_api_key_created_at l) (last_virtual_key_updated_at l) (last_master_key_updated_at l)
    (last_poll_time l) (provider_fingerprint_baseline l).
Definition with_keys (f : Keys → Keys) : Listener → Listener :=
  with_app (λ a, mkApp (f (app_keys a)) (app_key_cache a) (app_is_router_flags a) (app_providers a) (app_bare_models a)
                   (app_allowlist a) (app_cache_warmed a)).
Definition with_last_vk (m : gmap string Z) (l : Listener) : Listener :=
  mkListener (l_app l) (last_api_key_created_at l) m (last_master_key_updated_at l) (last_poll_time l)
    (provider_fingerprint_baseline l).
Definition with_last_api (m : gmap string Z) (l : Listener) : Listener :=
  mkListener (l_app l) m (last_virtual_key_updated_at l) (last_master_key_updated_at l) (last_poll_time l)
    (provider_fingerprint_baseline l).
Definition with_fingerprint (f : option string) (l : Listener) : Listener :=
  mkListener (l_app l) (last_api_key_created_at l) (last_virtual_key_updated_at l) (last_master_key_updated_at l)
    (last_poll_time l) f.
Definition with_last_poll (t : Z) (l : Listener) : Listener :=
  mkListener (l_app l) (last_api_key_created_at l) (last_virtual_key_updated_at l) (last_master_key_updated_at l) (Some t)
    (provider_fingerprint_baseline l).

(* src: ai-gateway/src/store/db_listener.rs:102-134 DatabaseListener::new *)
Definition new_listener (app : App) (bootstrap_fingerprint : option string) : Listener :=
  mkListener app ∅ ∅ ∅ None bootstrap_fingerprint.

(** What the database answers during one poll, and the time it ends. *)
Record PollReads := mkReads {
  r_virtual_keys : Z → result (list DbVirtualKey) unit;
  r_master_keys : Z → result (list (string * Z)) unit;
  r_fingerprint : result string unit;
  r_fingerprint_after_reload : result string unit;
  r_providers_updated_since : Z → result bool unit;
  r_providers : result (list DbGatewayProvider) unit;
  r_models : result (list DbGatewayProviderModel) unit;
  r_configs_updated_since : Z → result bool unit;
  r_allowlist : result (gmap string (gset InferenceProvider)) unit;
  r_end : Z
}.

(** One row of the polled virtual keys. *)
(* src: ai-gateway/src/store/db_listener.rs:171-187 DatabaseListener::poll_database *)
Definition apply_virtual_key (l : Listener) (vk : DbVirtualKey) : Listener :=
  match classify_virtual_key_update (last_virtual_key_updated_at l !! vk_key_hash vk) vk with
  | Upsert vk =>
      with_last_vk (<[vk_key_hash vk := vk_updated_at vk]> (last_virtual_key_updated_at l)) (with_keys (set_virtual_key vk) l)
  | Remove h => with_last_vk (delete h (last_virtual_key_updated_at l)) (with_keys (remove_virtual_key h) l)
  | Skip => l
  end.

(** One row of the polled master keys. *)
(* src: ai-gateway/src/store/db_listener.rs:206-219 DatabaseListener::poll_database *)
Definition apply_master_key (l : Listener) (row : string * Z) : Listener :=
  let '(id, updated_at) := row in
  if match last_master_key_updated_at l !! id with None => true | Some seen => (seen <? updated_at)%Z end
  then
    let a := l_app l in
    mkListener (mkApp (app_keys a) (MasterKeyCache.invalidate id <$> app_key_cache a) (app_is_router_flags a) (app_providers a)
                  (app_bare_models a) (app_allowlist a) (app_cache_warmed a))
      (last_api_key_created_at l) (last_virtual_key_updated_at l) (<[id := updated_at]> (last_master_key_updated_at l))
      (last_poll_time l) (provider_fingerprint_baseline l)
  else l.

(* src: ai-gateway/src/store/db_listener.rs:412-449 DatabaseListener::reload_providers *)
Definition reload_providers (r : PollReads) (l : Listener) : result Listener RuntimeError :=
  let? db_providers := map_err (λ _, ReloadFailed) (r_providers r) in
  let? db_models := map_err (λ _, ReloadFailed) (r_models r) in
  let '(providers_config, bare_model_expand) := build_from_db parse_from_str year parse_url embedded db_providers db_models in
  let flags := fold_left (λ m p, <[dbp_code p := dbp_is_router p]> m) db_providers ∅ in
  Ok (with_app (λ a, mkApp (app_keys a) (app_key_cache a) flags providers_config bare_model_expand (app_allowlist a)
                       (app_cache_warmed a)) l).

(* src: ai-gateway/src/store/db_listener.rs:453-470 DatabaseListener::reload_workspace_provider_allowlist *)
Definition reload_workspace_provider_allowlist (r : PollReads) (l : Listener) : Listener :=
  match r_allowlist r with
  | Ok allowlist => with_app (λ a, mkApp (app_keys a) (app_key_cache a) (app_is_router_flags a) (app_providers a)
                                     (app_bare_models a) allowlist (app_cache_warmed a)) l
  | Err _ => l
  end.

(** Is the catalog changed, and its fingerprint when it was read. *)
(* src: ai-gateway/src/store/db_listener.rs:224-254 DatabaseListener::poll_database *)
Definition probe_providers (r : PollReads) (l : Listener) : option bool * option string :=
  match provider_fingerprint_baseline l with
  | Some baseline =>
      match r_fingerprint r with
      | Ok current => (Some (negb (current =? baseline)), Some current)
      | Err _ => (Some true, None)
      end
  | None =>
      match last_poll_time l with
      | Some last_poll => (Some (match r_providers_updated_since r last_poll with Ok b => b | Err _ => false end), None)
      | None => (None, None)
      end
  end.

(* src: ai-gateway/src/store/db_listener.rs:255-286 DatabaseListener::poll_database *)
Definition poll_providers (r : PollReads) (l : Listener) : Listener :=
  let '(probe, current) := probe_providers r l in
  let bootstrapped := match provider_fingerprint_baseline l with Some _ => true | None => false end in
  if should_reload_providers (last_poll_time l) probe bootstrapped then
    match reload_providers r l with
    | Ok l =>
        match current with
        | Some current => with_fingerprint (Some current) l
        | None =>
            if bootstrapped then
              match r_fingerprint_after_reload r with Ok current => with_fingerprint (Some current) l | Err _ => l end
            else l
        end
    | Err _ => l
    end
  else match current with Some current => with_fingerprint (Some current) l | None => l end.

(* src: ai-gateway/src/store/db_listener.rs:291-306 DatabaseListener::poll_database *)
Definition poll_allowlist (r : PollReads) (l : Listener) : Listener :=
  let changed :=
    match last_poll_time l with
    | Some last_poll => match r_configs_updated_since r last_poll with Ok b => b | Err _ => false end
    | None => true
    end in
  if changed then reload_workspace_provider_allowlist r l else l.

(** The rows changed since the last poll; none on the first one. *)
Definition changed_since {A} (query : Z → result (list A) unit) (l : Listener) : result (list A) RuntimeError :=
  match last_poll_time l with Some last_poll => map_err (λ _, QueryFailed) (query last_poll) | None => Ok [] end.

(* src: ai-gateway/src/store/db_listener.rs:138-315 DatabaseListener::poll_database *)
Definition poll_database (r : PollReads) (l : Listener) : result unit RuntimeError * Listener :=
  match changed_since (r_virtual_keys r) l with
  | Err e => (Err e, l)
  | Ok vks =>
      let l := fold_left apply_virtual_key vks l in
      match changed_since (r_master_keys r) l with
      | Err e => (Err e, l)
      | Ok mks =>
          let l := fold_left apply_master_key mks l in
          let l := poll_allowlist r (poll_providers r l) in
          (Ok tt, with_last_poll (r_end r) l)
      end
  end.

(** ** Notifications *)

(** What handling a notification asks: serde, the ids of an enrichment scope,
    whether there is Redis, and the clock. *)
Record NotifyWorld := mkNotify {
  n_parse : string → option ConnectedCloudGatewaysNotification;
  n_ids_for_touch : EnrichmentTouchScope → string → result (list string) unit;
  n_has_redis : bool;
  n_now : Z
}.

(** The answer, the listener, and the keys deleted in Redis. *)
(* src: ai-gateway/src/store/db_listener.rs:474-621 DatabaseListener::handle_notification *)
Definition handle_notification (w : NotifyWorld) (channel payload : string) (l : Listener)
  : result unit RuntimeError * Listener * list string :=
  if negb (channel =? "connected_cloud_gateways") then (Ok tt, l, [])
  else
    match n_parse w payload with
    | None => (Err BadPayload, l, [])
    | Some RouterConfigUpdated | Some UnknownNotification => (Ok tt, l, [])
    | Some (ApiKeyUpdated owner organization h soft_delete op) =>
        let remove :=
          match remove_alephant_api_key h (app_keys (l_app l)) with
          | Ok keys => (Ok tt, with_last_api (delete h (last_api_key_created_at l)) (with_keys (λ _, keys) l), [])
          | Err _ => (Err KeysNotInitialized, l, [])
          end in
        match op with
        | Insert =>
            match set_alephant_api_key (mkKey h owner organization) (app_keys (l_app l)) with
            | Ok keys => (Ok tt, with_last_api (<[h := n_now w]> (last_api_key_created_at l)) (with_keys (λ _, keys) l), [])
            | Err _ => (Err KeysNotInitialized, l, [])
            end
        | Delete => remove
        | Update => if soft_delete then remove else (Ok tt, with_last_api (<[h := n_now w]> (last_api_key_created_at l)) l, [])
        | Truncate => (Ok tt, l, [])
        end
    | Some (EnrichmentTouch scope id) =>
        match n_ids_for_touch w scope id with
        | Err _ => (Err QueryFailed, l, [])
        | Ok ids => (Ok tt, l, if n_has_redis w then enrichment_cache_key <$> ids else [])
        end
    end.

(** ** The loop *)

(** What wakes the loop in its idle state. *)
Inductive Wake :=
| Notified (w : NotifyWorld) (channel payload : string)
| ReceiveFailed
| PollTick (r : PollReads)
| ReconnectTick.

(** One turn from the idle state back to it. *)
(* src: ai-gateway/src/store/db_listener.rs:348-407 DatabaseListener::run_service *)
Definition service_turn (l : Listener) (wake : Wake) : Listener :=
  match wake with
  | Notified w channel payload => (handle_notification w channel payload l).1.2
  | ReceiveFailed | ReconnectTick => l
  | PollTick r => (poll_database r l).2
  end.

(** The first poll, then the turns; [listens] is whether the channel can be
    listened to at the start. *)
(* src: ai-gateway/src/store/db_listener.rs:320-408 DatabaseListener::run_service *)
Definition run_service (first : PollReads) (listens : bool) (wakes : list Wake) (l : Listener) : result Listener RuntimeError :=
  let l := (poll_database first l).2 in
  let l := with_app (λ a, mkApp (app_keys a) (app_key_cache a) (app_is_router_flags a) (app_providers a) (app_bare_models a)
                            (app_allowlist a) true) l in
  if listens then Ok (fold_left service_turn wakes l) else Err QueryFailed.

(** ** The keys that are served *)

Lemma NoDup_fmap_filter {A B} (f : A → B) (P : A → Prop) `{!∀ x, Decision (P x)} (rows : list A) :
  NoDup (f <$> rows) → NoDup (f <$> filter P rows).
Proof.
  induction rows as [|r rows IH]; [done|]. rw fmap_cons NoDup_cons. intros [Hni Hnd]. rw filter_cons. case_decide; [|by apply IH].
  rw fmap_cons NoDup_cons. split; [|by apply IH]. intros (x & Hf & [_ Hx]%list_elem_of_filter)%list_elem_of_fmap.
  apply Hni. rw Hf. by apply list_elem_of_fmap_2.
Qed.

(** A row without the plan of its workspace, which is another table's. *)
Definition own_row (r : DbVirtualKey) : DbVirtualKey :=
  mkVk (vk_id r) (vk_workspace_id r) (vk_master_key_id r) (vk_key_hash r) (vk_key_prefix r) (vk_label r) (vk_entity_type r)
    (vk_entity_id r) (vk_status r) (vk_expires_at r) (vk_deleted_at r) (vk_updated_at r) (vk_rate_limit_rpm r)
    (vk_rate_limit_rph r) (vk_allowed_models r) (vk_blocked_models r) 0.

(** How the table of keys may change: hashes are unique, a row is written with
    the time of the write, one that was not written since is as it was, and
    rows are not deleted but marked so. *)
Class VkHistory (table : Z → list DbVirtualKey) := {
  vkh_unique t : NoDup (vk_key_hash <$> table t);
  vkh_clock t r : r ∈ table t → (vk_updated_at r ≤ t)%Z;
  vkh_unwritten t t' r' : (t ≤ t')%Z → r' ∈ table t' → (vk_updated_at r' ≤ t)%Z → ∃ r, r ∈ table t ∧ own_row r = own_row r';
  vkh_kept t t' r : (t ≤ t')%Z → r ∈ table t → ∃ r', r' ∈ table t' ∧ vk_key_hash r' = vk_key_hash r
}.

Section served.
Context (table : Z → list DbVirtualKey) `{!VkHistory table} (h : string).

(** The row the hash is entitled to at a time. *)
Definition entitled (t : Z) : option DbVirtualKey := own_row <$> get_db_virtual_key_by_key_hash (table t) h.

Definition served (l : Listener) : option DbVirtualKey := own_row <$> check_virtual_key (app_keys (l_app l)) h.

Lemma own_row_active r r' : own_row r = own_row r' → row_active r = row_active r'.
Proof. intros [=]. rw /row_active. by repeat match goal with H : _ = _ |- _ => rw H; clear H end. Qed.

Lemma by_hash_spec rows r :
  NoDup (vk_key_hash <$> rows) → r ∈ rows → vk_key_hash r = h →
  get_db_virtual_key_by_key_hash rows h = if row_active r then Some r else None.
Proof.
  rw /get_db_virtual_key_by_key_hash. induction rows as [|r' rows IH]; [set_solver|].
  rw fmap_cons NoDup_cons. intros [Hni Hnd] [->|Hin]%elem_of_cons Hh.
  - destruct (row_active r') eqn:Ha; [by rw filter_cons_True|]. rw filter_cons_False; last (intros [_ ?]; congruence).
    rw list_filter_none; [done|]. apply Forall_forall. intros x Hx [Hxh _]. apply Hni. rw Hh -Hxh. by apply list_elem_of_fmap_2.
  - rw filter_cons_False; [by apply IH|]. intros [Hr' _]. apply Hni. rw Hr' -Hh. by apply list_elem_of_fmap_2.
Qed.

Lemma by_hash_none rows : h ∉ vk_key_hash <$> rows → get_db_virtual_key_by_key_hash rows h = None.
Proof.
  intros Hni. rw /get_db_virtual_key_by_key_hash list_filter_none; [done|]. apply Forall_forall.
  intros x Hx [<- _]. by apply Hni, list_elem_of_fmap_2.
Qed.

Lemma entitled_row t r : r ∈ table t → vk_key_hash r = h → entitled t = if row_active r then Some (own_row r) else None.
Proof. intros Hin Hh. rw /entitled (by_hash_spec _ _ (vkh_unique t) Hin Hh). by destruct (row_active r). Qed.

(** A row not written since [t] gives what it gave at [t]. *)
Lemma entitled_unwritten t t' r :
  (t ≤ t')%Z → r ∈ table t' → vk_key_hash r = h → (vk_updated_at r ≤ t)%Z → entitled t' = entitled t.
Proof.
  intros Ht Hin Hh Hu. destruct (vkh_unwritten _ _ _ Ht Hin Hu) as (r0 & Hin0 & Heq).
  assert (Hh0 : vk_key_hash r0 = h) by (rw -Hh; by injection Heq).
  rw (entitled_row t' r) // (entitled_row t r0) //.
  by rw (own_row_active _ _ Heq) Heq.
Qed.

Lemma entitled_absent t t' : (t ≤ t')%Z → h ∉ vk_key_hash <$> table t' → entitled t' = entitled t.
Proof.
  intros Ht Hni. rw /entitled !by_hash_none //. intros (r & -> & Hin)%list_elem_of_fmap. apply Hni.
  destruct (vkh_kept _ _ _ Ht Hin) as (r' & Hin' & <-). by apply list_elem_of_fmap_2.
Qed.

(** ** What one poll does to the keys *)

(** The key's part of the listener's state. *)
Definition key_view (l : Listener) : option DbVirtualKey * option Z * bool :=
  (served l, last_virtual_key_updated_at l !! h, cache_loaded (app_keys (l_app l))).

Lemma classify_spec seen r :
  classify_virtual_key_update seen r
  = match seen with Some u => if (u <? vk_updated_at r)%Z then if row_active r then Upsert r else Remove (vk_key_hash r) else Skip
               | None => if row_active r then Upsert r else Remove (vk_key_hash r) end.
Proof.
  rw /classify_virtual_key_update /row_active. destruct (vk_deleted_at r), (vk_status r =? "active"), seen; cbn; try done.
  all: by destruct (_ <? _)%Z.
Qed.

Lemma key_view_upsert l r :
  key_view (with_last_vk (<[vk_key_hash r := vk_updated_at r]> (last_virtual_key_updated_at l)) (with_keys (set_virtual_key r) l))
  = (if cache_loaded (app_keys (l_app l)) && bool_decide (vk_key_hash r = h) then Some (own_row r) else served l,
     if bool_decide (vk_key_hash r = h) then Some (vk_updated_at r) else last_virtual_key_updated_at l !! h,
     cache_loaded (app_keys (l_app l))).
Proof.
  rw /key_view /served /= check_set set_loaded. f_equal. f_equal.
  - by case_match.
  - case_bool_decide as Hh; [by rw Hh lookup_insert_eq|by rw lookup_insert_ne].
Qed.

Lemma key_view_remove l h' :
  key_view (with_last_vk (delete h' (last_virtual_key_updated_at l)) (with_keys (remove_virtual_key h') l))
  = (if bool_decide (h' = h) then None else served l,
     if bool_decide (h' = h) then None else last_virtual_key_updated_at l !! h,
     cache_loaded (app_keys (l_app l))).
Proof.
  rw /key_view /served /= check_remove remove_loaded. f_equal. f_equal.
  - by case_match.
  - case_bool_decide as Hh; [by rw Hh lookup_delete_eq|by rw lookup_delete_ne].
Qed.

Lemma apply_virtual_key_other l r : vk_key_hash r ≠ h → key_view (apply_virtual_key l r) = key_view l.
Proof.
  intros Hne. rw /apply_virtual_key classify_spec.
  destruct (_ !! _) as [u|]; [destruct (u <? _)%Z; [|done]|]; destruct (row_active r).
  all: rw ?key_view_upsert ?key_view_remove bool_decide_false // ?andb_false_r //.
Qed.

Lemma apply_virtual_keys_other rows l :
  h ∉ vk_key_hash <$> rows → key_view (fold_left apply_virtual_key rows l) = key_view l.
Proof.
  revert l. induction rows as [|r rows IH]; intros l Hni; [done|]. cbn [fold_left].
  rw IH; [apply apply_virtual_key_other|]; set_solver.
Qed.

(** The row of the key decides, whatever the others are. *)
Lemma apply_virtual_keys_one rows l r :
  NoDup (vk_key_hash <$> rows) → r ∈ rows → vk_key_hash r = h →
  ∃ l', key_view l' = key_view l ∧ key_view (fold_left apply_virtual_key rows l) = key_view (apply_virtual_key l' r).
Proof.
  intros Hnd (pre & post & ->)%list_elem_of_split Hh.
  rw fmap_app fmap_cons in Hnd. apply NoDup_app in Hnd as (_ & Hdis & [Hni _]%NoDup_cons).
  exists (fold_left apply_virtual_key pre l). rw fold_left_app /=. split.
  - apply apply_virtual_keys_other. intros Hin. apply (Hdis _ Hin). rw Hh. by left.
  - apply apply_virtual_keys_other. by rw -Hh.
Qed.

(** The key is served as it was at [t], and nothing later than [t] was noted
    of it. *)
Definition as_of (t : Z) (l : Listener) : Prop :=
  cache_loaded (app_keys (l_app l)) = true ∧ served l = entitled t ∧
  (∀ u, last_virtual_key_updated_at l !! h = Some u → (u ≤ t)%Z).

Lemma as_of_view t l l' : key_view l' = key_view l → as_of t l → as_of t l'.
Proof. rw /as_of. intros [= -> -> ->]. done. Qed.

(** The row of the key, as it is at [q], brings the key to [q]. *)
Lemma apply_row_as_of t q l r :
  (t ≤ q)%Z → r ∈ table q → vk_key_hash r = h → as_of t l → as_of q (apply_virtual_key l r).
Proof.
  intros Htq Hr Hh (Hc & Hs & Hu). rw /apply_virtual_key classify_spec Hh.
  assert (Hnew : as_of q (match (if row_active r then Upsert r else Remove h) with
    | Upsert vk => with_last_vk (<[vk_key_hash vk := vk_updated_at vk]> (last_virtual_key_updated_at l)) (with_keys (set_virtual_key vk) l)
    | Remove h => with_last_vk (delete h (last_virtual_key_updated_at l)) (with_keys (remove_virtual_key h) l)
    | Skip => l end)).
  { destruct (row_active r) eqn:Ha.
    - pose proof (key_view_upsert l r) as Hv. rw Hc (bool_decide_true _ Hh) /= in Hv. injection Hv as Hv1 Hv2 Hv3.
      split_and!; [done|by rw Hv1 (entitled_row q r) // Ha|]. rw Hv2. intros u [= <-]. by apply vkh_clock.
    - pose proof (key_view_remove l h) as Hv. rw Hc (bool_decide_true _ eq_refl) /= in Hv. injection Hv as Hv1 Hv2 Hv3.
      split_and!; [done|by rw Hv1 (entitled_row q r) // Ha|]. by rw Hv2. }
  destruct (last_virtual_key_updated_at l !! h) as [u|] eqn:Hl; [|exact Hnew].
  destruct (u <? vk_updated_at r)%Z eqn:Hlt; [exact Hnew|]. apply Z.ltb_ge in Hlt. specialize (Hu u eq_refl).
  split_and!; [done| |rw Hl; intros u' [= <-]; lia]. rw Hs. symmetry. apply (entitled_unwritten _ _ r); [done..|lia].
Qed.

(** The rows written since [since], as they are at [q], bring the key to [q]. *)
Lemma poll_keys_as_of since t q l :
  (since ≤ t)%Z → (t ≤ q)%Z → as_of t l →
  as_of q (fold_left apply_virtual_key (get_db_virtual_keys_updated_after (table q) since) l).
Proof.
  intros Hst Htq Hl. rw /get_db_virtual_keys_updated_after.
  assert (Hnd : NoDup (vk_key_hash <$> filter (λ r, (since < vk_updated_at r)%Z) (table q))).
  { apply NoDup_fmap_filter, vkh_unique. }
  destruct (decide (h ∈ vk_key_hash <$> filter (λ r, (since < vk_updated_at r)%Z) (table q))) as [Hin|Hni].
  - apply list_elem_of_fmap in Hin as (r & Hh & Hr).
    destruct (apply_virtual_keys_one _ l r Hnd Hr (eq_sym Hh)) as (l' & Hv & Hf).
    apply list_elem_of_filter in Hr as [Hsr Hr]. eapply as_of_view; [exact Hf|]. apply (as_of_view t l l' Hv) in Hl.
    by apply apply_row_as_of with t.
  - eapply as_of_view; [by apply apply_virtual_keys_other|]. destruct Hl as (Hc & Hs & Hu).
    split_and!; [done| |intros u Hlu; specialize (Hu u Hlu); lia]. rw Hs. symmetry.
    destruct (decide (h ∈ vk_key_hash <$> table q)) as [(r & Hh & Hr)%list_elem_of_fmap|Hno]; [|by apply entitled_absent].
    apply (entitled_unwritten _ _ r); [done..|]. destruct (decide (since < vk_updated_at r)%Z) as [Hlt|Hge]; [|lia].
    exfalso. apply Hni. rw Hh. apply list_elem_of_fmap_2, list_elem_of_filter. done.
Qed.

(** ** What the rest of a poll, and notifications, leave alone *)

Definition keys_part (l : Listener) : Keys * gmap string Z * option Z :=
  (app_keys (l_app l), last_virtual_key_updated_at l, last_poll_time l).

Lemma apply_master_keys_keys rows l : keys_part (fold_left apply_master_key rows l) = keys_part l.
Proof.
  revert l. induction rows as [|[id u] rows IH]; intros l; [done|]. cbn [fold_left]. rw IH /apply_master_key.
  by destruct (last_master_key_updated_at l !! id) as [seen|]; [destruct (seen <? u)%Z|].
Qed.

Lemma poll_providers_keys r l : keys_part (poll_providers r l) = keys_part l.
Proof.
  rw /poll_providers. destruct (probe_providers r l) as [probe current]. case_match; [|by destruct current].
  rw /reload_providers. destruct (r_providers r) as [ps|]; [|done]. destruct (r_models r) as [ms|]; [|done]. cbn [map_err result_bind].
  destruct (build_from_db parse_from_str year parse_url embedded ps ms). repeat (case_match; try done).
Qed.

Lemma poll_allowlist_keys r l : keys_part (poll_allowlist r l) = keys_part l.
Proof. rw /poll_allowlist /reload_workspace_provider_allowlist. by repeat (case_match; try done). Qed.

Lemma apply_virtual_keys_last_poll rows l : last_poll_time (fold_left apply_virtual_key rows l) = last_poll_time l.
Proof.
  revert l. induction rows as [|r rows IH]; intros l; [done|]. cbn [fold_left]. rw IH /apply_virtual_key. by case_match.
Qed.

(** A poll that got as far as the keys leaves them as the query's rows say;
    it moves its time only when it succeeds. *)
Lemma poll_database_keys r l res l' :
  poll_database r l = (res, l') →
  match changed_since (r_virtual_keys r) l with
  | Err _ => l' = l ∧ is_ok res = false
  | Ok rows => key_view l' = key_view (fold_left apply_virtual_key rows l) ∧
      last_poll_time l' = if is_ok res then Some (r_end r) else last_poll_time l
  end.
Proof.
  rw /poll_database. destruct (changed_since (r_virtual_keys r) l) as [rows|e]; [|by intros [= <- <-]].
  set (l1 := fold_left apply_virtual_key rows l). destruct (changed_since (r_master_keys r) l1) as [mks|e].
  - intros [= <- <-]. split; [|done].
    pose proof (apply_master_keys_keys mks l1) as H1. set (l2 := fold_left apply_master_key mks l1) in *.
    pose proof (poll_providers_keys r l2) as H2. pose proof (poll_allowlist_keys r (poll_providers r l2)) as H3.
    rw H2 H1 in H3. injection H3 as H3a H3b _. rw /key_view /served /= H3a H3b. done.
  - intros [= <- <-]. split; [done|]. by rw /l1 apply_virtual_keys_last_poll.
Qed.

Lemma handle_notification_keys w channel payload l :
  let l' := (handle_notification w channel payload l).1.2 in
  key_view l' = key_view l ∧ last_poll_time l' = last_poll_time l.
Proof.
  rw /handle_notification /set_alephant_api_key /remove_alephant_api_key.
  destruct (negb _); [done|]. destruct (n_parse w payload) as [[|o org k soft op|scope id|]|]; try done.
  - destruct (alephant_api_keys (app_keys (l_app l))); destruct op; try done; by destruct soft.
  - by destruct (n_ids_for_touch w scope id).
Qed.

(** ** Runs *)

(** The query of a poll at [q] answers from the table, or fails. *)
Definition reads_table (r : PollReads) (q : Z) : Prop :=
  ∀ since, r_virtual_keys r since = Ok (get_db_virtual_keys_updated_after (table q) since) ∨ r_virtual_keys r since = Err tt.

Definition fetch_at (t : Z) : string → result (option DbVirtualKey) unit :=
  λ h, Ok (get_db_virtual_key_by_key_hash (table t) h).

(** A query for a key at [t] answers from the table, or fails. *)
Definition fetches (t : Z) (fetch : string → result (option DbVirtualKey) unit) : Prop :=
  ∀ h', fetch h' = fetch_at t h' ∨ fetch h' = Err tt.

(** The runs of a gateway that loaded the table at [t0]: time passes, polls and
    notifications come and go, and requests resolve keys, at once or with other
    steps between the query, at [f], and the storing of its row.  A poll's
    changes take effect at its end.  The windows are the spans in which a change
    of the table can be missed: from the query of a poll that succeeds to its
    end (the first poll reads no keys: from [t0]), and from a request's query
    to the storing of its row. *)
Inductive run (t0 : Z) : Z → list (Z * Z) → Listener → Prop :=
| run_start l :
    virtual_keys_cache (app_keys (l_app l)) = Some (initial_virtual_keys (get_all_db_virtual_keys (table t0))) →
    last_virtual_key_updated_at l = ∅ → last_poll_time l = None → run t0 t0 [] l
| run_time now now' ws l : run t0 now ws l → (now ≤ now')%Z → run t0 now' ws l
| run_poll now q r res ws l l' :
    run t0 now ws l → (now ≤ q ≤ r_end r)%Z → reads_table r q → poll_database r l = (res, l') →
    run t0 (r_end r)
      (if is_ok res then (match last_poll_time l with Some _ => q | None => t0 end, r_end r) :: ws else ws) l'
| run_resolve now fetch h' ws l :
    run t0 now ws l → fetches now fetch →
    run t0 now ws (with_keys (λ s, (resolve_virtual_key_for_auth (Some fetch) h' s).2) l)
| run_heal now f h' row ws l :
    run t0 now ws l → (f ≤ now)%Z → fetch_at f h' = Ok (Some row) →
    run t0 now ((f, now) :: ws) (with_keys (set_virtual_key row) l)
| run_notify now w channel payload ws l :
    run t0 now ws l → run t0 now ws (handle_notification w channel payload l).1.2.

(** The key's entitlement does not change in a window. *)
Definition calm (w : Z * Z) : Prop := ∀ t, (w.1 ≤ t ≤ w.2)%Z → entitled t = entitled w.2.

Lemma initial_entitled t0 : own_row <$> initial_virtual_keys (get_all_db_virtual_keys (table t0)) !! h = entitled t0.
Proof.
  rw /entitled. destruct (initial_virtual_keys _ !! h) as [r|] eqn:Hl.
  - apply initial_lookup_inv in Hl as [[Ha Hin]%list_elem_of_filter Hh].
    by rw (by_hash_spec _ r (vkh_unique t0) Hin Hh) Ha.
  - destruct (decide (h ∈ vk_key_hash <$> table t0)) as [(r & Hh & Hin)%list_elem_of_fmap|Hni]; [|by rw by_hash_none].
    rw (by_hash_spec _ r (vkh_unique t0) Hin (eq_sym Hh)). destruct (row_active r) eqn:Ha; [|done].
    rw Hh initial_lookup in Hl; [done|by apply NoDup_fmap_filter, vkh_unique|by apply list_elem_of_filter].
Qed.

Lemma as_of_later t t' l : (t ≤ t')%Z → entitled t = entitled t' → as_of t l → as_of t' l.
Proof. intros Ht He (Hc & Hs & Hu). split_and!; [done|by rw -He|]. intros u Hl. specialize (Hu u Hl). lia. Qed.

Lemma poll_as_of t0 t now q r res l l' :
  (default t0 (last_poll_time l) ≤ t ≤ now)%Z → (t0 ≤ t)%Z → as_of t l → (now ≤ q ≤ r_end r)%Z → reads_table r q →
  poll_database r l = (res, l') →
  (is_ok res = true → ∀ t, (match last_poll_time l with Some _ => q | None => t0 end ≤ t ≤ r_end r)%Z →
     entitled t = entitled (r_end r)) →
  ∃ t', (default t0 (last_poll_time l') ≤ t' ≤ r_end r)%Z ∧ (t0 ≤ t')%Z ∧ as_of t' l'.
Proof.
  intros Ht H0 Hl Hq Hr Hp Hcalm. apply poll_database_keys in Hp. revert Hp. rw /changed_since.
  destruct (last_poll_time l) as [since|] eqn:Hlast; simpl in Ht.
  - destruct (Hr since) as [-> | ->]; cbn [map_err].
    + intros [Hv Hlp]. eapply as_of_view in Hv; [|apply (poll_keys_as_of since t q); [lia|lia|done]].
      destruct res; cbn [is_ok] in *; rw Hlp.
      * exists (r_end r). cbn. split_and!; [lia|lia|lia|]. eapply as_of_later; [| |exact Hv]; [lia|]. apply Hcalm; [done|lia].
      * exists q. cbn. split_and!; [lia|lia|lia|done].
    + intros [-> _]. rw Hlast. exists t. cbn. split_and!; [lia|lia|lia|done].
  - intros [Hv Hlp]. eapply as_of_view in Hv; [|exact Hl]. destruct res; cbn [is_ok] in *; rw Hlp ?Hlast.
    + exists (r_end r). cbn. split_and!; [lia|lia|lia|]. eapply as_of_later; [| |exact Hv]; [lia|]. apply Hcalm; [done|lia].
    + exists t. cbn. split_and!; [lia|lia|lia|done].
Qed.

Lemma by_hash_hash rows h' vk : get_db_virtual_key_by_key_hash rows h' = Some vk → vk_key_hash vk = h'.
Proof. rw /get_db_virtual_key_by_key_hash. intros Hin%head_Some_elem_of. by apply list_elem_of_filter in Hin as [[]]. Qed.

(** Storing the row that the table has at [f] brings its key to [f]. *)
Lemma set_as_of t f now h' row l :
  (t ≤ now)%Z → (h' = h → entitled f = entitled now) → get_db_virtual_key_by_key_hash (table f) h' = Some row → as_of t l →
  let l' := with_keys (set_virtual_key row) l in as_of t l' ∨ as_of now l'.
Proof.
  intros Ht Hf Hg (Hc & Hs & Hu). rw /as_of /served /=. pose proof (by_hash_hash _ _ _ Hg) as Hrow.
  rw set_loaded check_set Hc /= Hrow. case_bool_decide as Hh; [right|by left].
  split_and!; [done| |intros u Hlu; specialize (Hu u Hlu); lia]. by rw -Hf // /entitled -Hh Hg.
Qed.

Lemma resolve_as_of t now fetch h' l :
  (t ≤ now)%Z → fetches now fetch → as_of t l →
  let l' := with_keys (λ s, (resolve_virtual_key_for_auth (Some fetch) h' s).2) l in as_of t l' ∨ as_of now l'.
Proof.
  intros Ht Hf Hl. rw /resolve_virtual_key_for_auth. pose proof Hl as (Hc & Hs & Hu).
  cbn [with_keys with_app l_app app_keys]. rw /as_of /served /=.
  destruct (check_virtual_key (app_keys (l_app l)) h') as [vk|] eqn:Hk; [by left|].
  destruct (virtual_keys_cache (app_keys (l_app l))) as [m|] eqn:Hm; [|by left].
  destruct (Hf h') as [-> | ->]; [|left; revert Hl; rw /as_of /served /check_virtual_key /cache_loaded /=; by rw Hm].
  rw /fetch_at.
  destruct (get_db_virtual_key_by_key_hash (table now) h') as [vk|] eqn:Hg; [|by left]. cbn [snd].
  destruct (set_as_of t now now h' vk l Ht (λ _, eq_refl) Hg Hl) as [H|H]; [left|right]; revert H;
    rw /as_of /served /=; rw !set_loaded !check_set; rw /check_virtual_key /cache_loaded /=; by rw Hm.
Qed.

Lemma run_as_of t0 now ws l :
  run t0 now ws l → Forall calm ws → ∃ t, (default t0 (last_poll_time l) ≤ t ≤ now)%Z ∧ (t0 ≤ t)%Z ∧ as_of t l.
Proof.
  induction 1 as [l Hm Hv Hp|now now' ws l _ IH Hn|now q r res ws l l' _ IH Hq Hr Hp
    |now fetch h' ws l _ IH Hf|now f h' row ws l _ IH Hf Hg|now w channel payload ws l _ IH]; intros Hcalm.
  - exists t0. rw Hp /as_of Hv /served /check_virtual_key /cache_loaded Hm /=. split_and!; [lia|lia|lia|done|apply initial_entitled|done].
  - destruct (IH Hcalm) as (t & Ht & H0 & Hl). exists t. split_and!; [lia|lia|lia|done].
  - destruct (is_ok res) eqn:Hok.
    + apply Forall_cons in Hcalm as [Hw Hcalm]. destruct (IH Hcalm) as (t & Ht & H0 & Hl). by eapply poll_as_of.
    + destruct (IH Hcalm) as (t & Ht & H0 & Hl). eapply poll_as_of; [done..|]. by rw Hok.
  - destruct (IH Hcalm) as (t & Ht & H0 & Hl).
    destruct (resolve_as_of t now fetch h' l) as [H|H]; [lia|done|done|exists t|exists now]; cbn; (split_and!; [lia|lia|lia|done]).
  - apply Forall_cons in Hcalm as [Hw Hcalm]. destruct (IH Hcalm) as (t & Ht & H0 & Hl). injection Hg as Hg.
    destruct (set_as_of t f now h' row l) as [H|H]; [lia|intros _; apply Hw; cbn; lia|done|done|exists t|exists now];
      cbn; (split_and!; [lia|lia|lia|done]).
  - destruct (IH Hcalm) as (t & Ht & H0 & Hl). destruct (handle_notification_keys w channel payload l) as [Hv ->].
    exists t. split_and!; [lia|lia|lia|]. by eapply as_of_view.
Qed.

(** What a key resolves to is current. *)
Lemma resolved_as_of t0 now ws l f fetch vk keys' :
  run t0 now ws l → Forall calm ws → (now ≤ f)%Z → fetches f fetch →
  resolve_virtual_key_for_auth (Some fetch) h (app_keys (l_app l)) = (vk, keys') →
  (∃ t, (default t0 (last_poll_time l) ≤ t ≤ f)%Z ∧ own_row <$> vk = entitled t) ∨ (vk = None ∧ fetch h = Err tt).
Proof.
  intros Hrun Hcalm Hnf Hf. destruct (run_as_of _ _ _ _ Hrun Hcalm) as (t & Ht & _ & Hc & Hs & _).
  revert Hs. rw /resolve_virtual_key_for_auth /served.
  destruct (check_virtual_key (app_keys (l_app l)) h) as [r|]; [intros Hs [= <- _]; left; exists t; split; [lia|done]|].
  revert Hc. rw /cache_loaded. destruct (virtual_keys_cache (app_keys (l_app l))); [|done]. intros _ _.
  destruct (Hf h) as [-> | ->]; [|intros [= <- _]; by right]. rw /fetch_at.
  destruct (get_db_virtual_key_by_key_hash (table f) h) as [r|] eqn:Hg; intros [= <- _].
  all: left; exists f; split; [lia|by rw /entitled Hg].
Qed.


(** ** What polling misses *)

(** A change that is not later than the end of the last poll is never seen by
    the polls that follow: one made between the query of a poll and its end
    leaves a revoked key served for good. *)
Lemma change_before_poll_end_is_never_seen u l polls :
  (∀ t r, r ∈ table t → vk_key_hash r = h → (vk_updated_at r ≤ u)%Z) →
  (∃ e, last_poll_time l = Some e ∧ (u ≤ e)%Z) →
  Forall (λ qr, reads_table qr.2 qr.1 ∧ (u ≤ r_end qr.2)%Z) polls →
  served (fold_left (λ l qr, (poll_database qr.2 l).2) polls l) = served l.
Proof.
  intros Hu He Hall. revert l He. induction Hall as [|[q r] polls [Hr Hend] _ IH]; intros l (e & Hlast & Hue); [done|].
  cbn [fold_left snd fst] in *. destruct (poll_database r l) as [res l'] eqn:Hp. pose proof (poll_database_keys _ _ _ _ Hp) as Hk.
  revert Hk. rw /changed_since Hlast. destruct (Hr e) as [-> | ->]; cbn [map_err snd].
  - intros [Hv Hlp]. rw apply_virtual_keys_other in Hv.
    + injection Hv as Hv _ _. rw IH //. rw Hlp. destruct (is_ok res); by eexists.
    + intros (x & Hx & [Hlt Hin]%list_elem_of_filter)%list_elem_of_fmap. specialize (Hu q x Hin (eq_sym Hx)). lia.
  - intros [-> _]. apply IH. by exists e.
Qed.

(** A request that fetched the row before a revocation puts it back after the
    poll that removed it: the key is served again, and by the above for good. *)
Lemma heal_resurrects_revoked_key r s :
  vk_key_hash r = h → cache_loaded s = true → check_virtual_key (set_virtual_key r (remove_virtual_key h s)) h = Some r.
Proof. intros Hh Hc. by rw check_set remove_loaded Hc bool_decide_true. Qed.

(** A change of the workspace's plan writes no row of the keys: it is not
    seen until the key itself is written. *)
Lemma plan_change_unseen l since q r :
  last_poll_time l = Some since → r ∈ table q → vk_key_hash r = h → (vk_updated_at r ≤ since)%Z →
  check_virtual_key (app_keys (l_app (fold_left apply_virtual_key (get_db_virtual_keys_updated_after (table q) since) l))) h
  = check_virtual_key (app_keys (l_app l)) h.
Proof.
  intros Hl Hr Hh Hu. rw /get_db_virtual_keys_updated_after.
  assert (Hni : Forall (λ x, vk_key_hash x ≠ h) (filter (λ r, (since < vk_updated_at r)%Z) (table q))).
  { apply Forall_forall. intros x [Hlt Hx]%list_elem_of_filter Heq.
    apply list_elem_of_lookup in Hr as [i Hi], Hx as [j Hj].
    assert (i = j) as ->; [|rw Hi in Hj; injection Hj as ->; lia].
    eapply (NoDup_lookup (vk_key_hash <$> table q)); [apply vkh_unique|by rw list_lookup_fmap Hi|].
    rw list_lookup_fmap Hj /= Hh Heq. done. }
  clear Hl. revert l. induction Hni as [|x rows Hx _ IH]; intros l; [done|]. cbn [fold_left]. rw IH /apply_virtual_key classify_spec.
  destruct (_ !! _) as [u|]; [destruct (u <? _)%Z; [|done]|]; destruct (row_active x); cbn.
  all: rw ?check_set ?check_remove bool_decide_false // ?andb_false_r //.
Qed.

(** When the question whether the allow-lists changed fails, the poll goes on
    and moves its time all the same: the change is not asked for again. *)
Lemma failed_allowlist_probe_is_not_retried r l l' since :
  last_poll_time l = Some since → (∀ t, r_configs_updated_since r t = Err tt) →
  poll_database r l = (Ok tt, l') → app_allowlist (l_app l') = app_allowlist (l_app l) ∧ last_poll_time l' = Some (r_end r).
Proof.
  intros Hl Hr. rw /poll_database.
  destruct (changed_since (r_virtual_keys r) l) as [rows|]; [|done]. set (l1 := fold_left apply_virtual_key rows l).
  destruct (changed_since (r_master_keys r) l1) as [mks|]; [|done]. set (l2 := fold_left apply_master_key mks l1).
  intros [= <-]. split; [|done]. cbn [with_last_poll l_app]. rw /poll_allowlist.
  assert (Hal : app_allowlist (l_app l2) = app_allowlist (l_app l)).
  { transitivity (app_allowlist (l_app l1)); [rw /l2|rw /l1].
    - generalize l1. induction mks as [|[id u] mks IH]; intros l0; [done|]. cbn [fold_left]. rw IH /apply_master_key. by case_match.
    - generalize l. induction rows as [|x rows IH]; intros l0; [done|]. cbn [fold_left]. rw IH /apply_virtual_key. by case_match. }
  assert (Hp : app_allowlist (l_app (poll_providers r l2)) = app_allowlist (l_app l2)).
  { rw /poll_providers. destruct (probe_providers r l2) as [probe current]. case_match; [|by destruct current].
    rw /reload_providers. destruct (r_providers r) as [ps|]; [|done]. destruct (r_models r) as [ms|]; [|done]. cbn [map_err result_bind].
    destruct (build_from_db parse_from_str year parse_url embedded ps ms). repeat (case_match; try done). }
  destruct (last_poll_time (poll_providers r l2)) as [t|] eqn:Ht; [by rw Hr Hp|].
  pose proof (poll_providers_keys r l2) as Hk. pose proof (apply_master_keys_keys mks l1) as Hk'.
  injection Hk as _ _ Hk. injection Hk' as _ _ Hk'. revert Ht. rw Hk /l2 Hk' /l1 apply_virtual_keys_last_poll Hl. done.
Qed.

(** A catalog that could not be reloaded is asked for again: the fingerprint
    stays the one of the catalog in use. *)
Lemma failed_reload_is_retried r l :
  r_providers r = Err tt → is_Some (provider_fingerprint_baseline l) →
  (∀ f, r_fingerprint r = Ok f → provider_fingerprint_baseline l ≠ Some f) →
  poll_providers r l = l.
Proof.
  intros Hr [b Hb] Hf. rw /poll_providers /probe_providers /reload_providers Hb Hr.
  destruct (r_fingerprint r) as [f|] eqn:E; cbn.
  - rw (proj2 (String.eqb_neq f b)) /=; last (intros ->; by apply (Hf b)). by destruct (last_poll_time l).
  - by destruct (last_poll_time l).
Qed.
End served.
End listener.

(** ** A key that is revoked *)

Definition demo_row (status : string) (updated_at : Z) : DbVirtualKey :=
  mkVk "k1" "w1" "m1" "h1" "sk-" "member:ann" None None status None None updated_at None None None None 90.

(** Created at 5, revoked at 10. *)
Definition demo_table (t : Z) : list DbVirtualKey :=
  if (t <? 5)%Z then [] else if (t <? 10)%Z then [demo_row "active" 5] else [demo_row "revoked" 10].

Lemma demo_table_inv t r :
  r ∈ demo_table t → (5 ≤ t < 10 ∧ r = demo_row "active" 5)%Z ∨ (10 ≤ t ∧ r = demo_row "revoked" 10)%Z.
Proof.
  rw /demo_table. destruct (Z.ltb_spec t 5); [set_solver|]. destruct (Z.ltb_spec t 10); intros ->%list_elem_of_singleton.
  - left. split; [lia|done].
  - right. split; [lia|done].
Qed.

#[global] Instance demo_history : VkHistory demo_table.
Proof.
  split.
  - intros t. rw /demo_table. repeat case_match; cbn; [constructor|apply NoDup_singleton..].
  - intros t r [[? ->]|[? ->]]%demo_table_inv; cbn; lia.
  - intros t t' r' Ht [[? ->]|[? ->]]%demo_table_inv; cbn; intros Hu; (eexists; split; [|done]); rw /demo_table.
    + rw (proj2 (Z.ltb_ge t 5)) ?(proj2 (Z.ltb_lt t 10)); [by left|lia|lia].
    + rw (proj2 (Z.ltb_ge t 5)) ?(proj2 (Z.ltb_ge t 10)); [by left|lia|lia].
  - intros t t' r Ht Hr. assert (Hh : vk_key_hash r = "h1") by (apply demo_table_inv in Hr as [[_ ->]|[_ ->]]; done).
    assert (5 ≤ t)%Z by (apply demo_table_inv in Hr; lia). rw Hh /demo_table (proj2 (Z.ltb_ge t' 5)); [|lia].
    destruct (t' <? 10)%Z; (eexists; split; [by left|done]).
Qed.

Definition demo_reads (q e : Z) : PollReads :=
  mkReads (λ since, Ok (get_db_virtual_keys_updated_after (demo_table q) since)) (λ _, Ok []) (Ok "f") (Ok "f")
    (λ _, Ok false) (Ok []) (Ok []) (λ _, Ok false) (Ok ∅) e.

Abbreviation demo_poll q e l :=
  (poll_database (Date := Z) (Url := string) (λ _ _, None) "" (λ _, None) (λ _, None) (demo_reads q e) l).

Definition demo_listener : Listener (Date := Z) (Url := string) :=
  new_listener (mkApp (mkKeys None (Some (initial_virtual_keys (get_all_db_virtual_keys (demo_table 6)))) 1 0 0) None ∅ ∅ ∅ ∅ true)
    (Some "f").


(** The revocation at 10 falls between the query at 9 and the end of the poll
    at 11: no later poll sees it. *)
Example revocation_during_poll_is_lost :
  let l := (demo_poll 9 11 (demo_poll 7 8 demo_listener).2).2 in
  served "h1" (demo_poll 100 101 (demo_poll 50 51 l).2).2 = Some (own_row (demo_row "active" 5)).
Proof. reflexivity. Qed.
