(* ===== verification/Auth.v ===== *)
(** * Authentication

    Models [ai-gateway/src/middleware/auth.rs] and the extensions it writes
    ([types/extensions.rs]): the whole [authorize] handler, from the header
    through the virtual key, its master key, the workspace of the router, the
    log enrichment and the workspace's request rate limit, to the request that
    goes on.

    The state is the key caches, the limiter's memory and the counters; SHA-256,
    the cipher, serde, Redis, the database and the clock are parameters. *)

From S2P Require Import Prelude RustStr Provider Headers AgentContext MasterKeys VirtualKeys DbListener IdentityLimit.
Local Open Scope string_scope.

(** ** What is attached to a request *)

(* src: ai-gateway/src/types/extensions.rs:28-32 VkPolicy *)
Record VkPolicy := mkVkPolicy {
  vp_virtual_key_id : string;
  vp_allowed_models : option (list string);
  vp_blocked_models : option (list string)
}.

(* src: ai-gateway/src/types/extensions.rs:35-83 AuthContext *)
Record AuthContext := mkAuthContext {
  ac_api_key : string;
  ac_user_id : string;
  ac_org_id : string;
  ac_workspace_type : option string;
  ac_virtual_key_id : option string;
  ac_virtual_key_prefix : string;
  ac_master_key_id : option string;
  ac_master_key_base_url : option string;
  ac_department_id : string;
  ac_entity_type : string;
  ac_entity_id : string;
  ac_entity_name : string;
  ac_registered_agent_name : option string;
  ac_body_ttl_days : Z;
  ac_is_custom_provider : bool;
  ac_master_key_allowed_providers : option (list InferenceProvider)
}.

(** ** Errors *)

(* src: ai-gateway/src/error/auth.rs:13-20 AuthError *)
Inductive AuthError := MissingAuthorizationHeader | InvalidCredentials | ProviderKeyNotFound.

(** The errors of [ApiError] that authentication makes. *)
Inductive ApiError :=
| Authentication (e : AuthError)
| ExtensionNotFound (name : string)
| RouterNotFound
| CustomProviderMissingBaseUrl
| InternalError.

Inductive Denial :=
| Denied (e : ApiError)
| QuotaExceeded (limit retry_after : Z)
| LimiterUnavailable.

(* src: ai-gateway/src/error/auth.rs:22-62 AuthError::into_response *)
Definition api_error_status (e : ApiError) : Z :=
  match e with
  | Authentication _ => 401%Z
  | ExtensionNotFound _ | InternalError => 500%Z
  | RouterNotFound => 404%Z
  | CustomProviderMissingBaseUrl => 400%Z
  end.

Definition denial_status (d : Denial) : Z :=
  match d with Denied e => api_error_status e | QuotaExceeded _ _ => 429%Z | LimiterUnavailable => 503%Z end.

(** ** State and surroundings *)

Record AuthState := mkAuthState {
  as_keys : Keys;
  as_key_cache : option (gmap string MasterKeyCache.DecryptedMasterKey);
  as_memory : MemoryState;
  as_enrichment_writes : list (string * option string * option string);
  as_attempts : Z;
  as_rejections : Z;
  as_limit_allowed : Z;
  as_limit_rejected : Z;
  as_limit_unavailable : Z
}.

(** [aw_enrichment] is the query for the workspace type and the department;
    [aw_redis_get] gives what Redis holds, parsed; [aw_uuid_bits] is the number
    of a UUID. *)
Record AuthWorld := mkAuthWorld {
  aw_auth_disabled : bool;
  aw_sha256_hex : string → string;
  aw_now : Z;
  aw_instant : Z;
  aw_fetch : option (string → result (option DbVirtualKey) unit);
  aw_local_auth : option (list LocalKeyConfig);
  aw_provider_base_url : InferenceProvider → option string;
  aw_cipher : Cipher;
  aw_enc_key : string;
  aw_master_rows : string → result (option MasterKeyCache.DbMasterKeyRow) unit;
  aw_victim : option string;
  aw_router_organization : string → option string;
  aw_redis_get : option (string → result (option string) unit);
  aw_parse_enrichment : string → option (option string * option string);
  aw_enrichment : option (string → result (option (string * option string)) unit);
  aw_identity_limit : option IdentityRateLimitConfig;
  aw_limiter_poisoned : bool;
  aw_limiter_redis : option redis_outcome;
  aw_uuid_bits : string → Z
}.

Record AuthRequest := mkAuthRequest {
  aq_headers : HeaderMap;
  aq_kind : option RequestKind;
  aq_router_id : option string;
  aq_auth : option AuthContext;
  aq_policy : option VkPolicy
}.

(** ** Helpers *)

(* src: ai-gateway/src/middleware/auth.rs:281-283 strip_bearer_prefix *)
Definition strip_bearer_prefix (api_key : string) : string := default api_key (strip_prefix "Bearer " api_key).

(* src: ai-gateway/src/middleware/auth.rs:285-294 should_mark_custom_provider_request_kind *)
Definition should_mark_custom_provider_request_kind (is_custom_provider : bool) (kind : option RequestKind) : bool :=
  is_custom_provider && match kind with Some (UnifiedApi | DirectProxy | CustomProvider) => true | _ => false end.

(* src: ai-gateway/src/middleware/auth.rs:299-305 body_ttl_days_from_subscription_log_limit *)
Definition body_ttl_days_from_subscription_log_limit (n : Z) : Z := if ((1 <=? n) && (n <=? 730))%Z then n else 90%Z.

(* src: ai-gateway/src/middleware/auth.rs:307-312 virtual_key_owner_and_org *)
Definition virtual_key_owner_and_org (vk : DbVirtualKey) : string * string :=
  (default (vk_workspace_id vk) (vk_entity_id vk), vk_workspace_id vk).

(* src: ai-gateway/src/middleware/auth.rs:315-321 auth_entity_scope_from_vk *)
Definition auth_entity_scope_from_vk (vk : DbVirtualKey) : string * string * string :=
  (default "" (vk_entity_type vk), default nil_uuid (vk_entity_id vk), vk_label vk).

(* src: ai-gateway/src/middleware/auth.rs:323-325 virtual_key_is_expired *)
Definition virtual_key_is_expired (vk : DbVirtualKey) (now : Z) : bool :=
  match vk_expires_at vk with Some e => (e <=? now)%Z | None => false end.

Section auth.
Context (w : AuthWorld).

Definition with_key_cache (c : option (gmap string MasterKeyCache.DecryptedMasterKey)) (s : AuthState) : AuthState :=
  mkAuthState (as_keys s) c (as_memory s) (as_enrichment_writes s) (as_attempts s) (as_rejections s)
    (as_limit_allowed s) (as_limit_rejected s) (as_limit_unavailable s).
Definition with_auth_keys (k : Keys) (s : AuthState) : AuthState :=
  mkAuthState k (as_key_cache s) (as_memory s) (as_enrichment_writes s) (as_attempts s) (as_rejections s)
    (as_limit_allowed s) (as_limit_rejected s) (as_limit_unavailable s).
Definition with_memory (m : MemoryState) (s : AuthState) : AuthState :=
  mkAuthState (as_keys s) (as_key_cache s) m (as_enrichment_writes s) (as_attempts s) (as_rejections s)
    (as_limit_allowed s) (as_limit_rejected s) (as_limit_unavailable s).
Definition note_write (x : string * option string * option string) (s : AuthState) : AuthState :=
  mkAuthState (as_keys s) (as_key_cache s) (as_memory s) (x :: as_enrichment_writes s) (as_attempts s) (as_rejections s)
    (as_limit_allowed s) (as_limit_rejected s) (as_limit_unavailable s).
Definition count_auth (attempts rejections allowed rejected unavailable : Z) (s : AuthState) : AuthState :=
  mkAuthState (as_keys s) (as_key_cache s) (as_memory s) (as_enrichment_writes s) (as_attempts s + attempts)%Z
    (as_rejections s + rejections)%Z (as_limit_allowed s + allowed)%Z (as_limit_rejected s + rejected)%Z
    (as_limit_unavailable s + unavailable)%Z.

(** The workspace type and the department for the logs. *)
(* src: ai-gateway/src/middleware/auth.rs:45-122 resolve_request_log_enrichment_after_vk_auth *)
Definition resolve_request_log_enrichment_after_vk_auth (vk_id : string) (s : AuthState)
  : option string * string * AuthState :=
  let cache_key := enrichment_cache_key vk_id in
  let from_store :=
    match aw_enrichment w with
    | None => (None, nil_uuid, s)
    | Some fetch =>
        match fetch vk_id with
        | Ok (Some (workspace_type, department_id)) =>
            (Some workspace_type, default nil_uuid department_id,
             match aw_redis_get w with Some _ => note_write (cache_key, Some workspace_type, department_id) s | None => s end)
        | Ok None | Err _ => (None, nil_uuid, s)
        end
    end in
  match aw_redis_get w with
  | Some get =>
      match get cache_key with
      | Ok (Some raw) =>
          match aw_parse_enrichment w raw with
          | Some (Some workspace_type, department_id) => (Some workspace_type, default nil_uuid department_id, s)
          | _ => from_store
          end
      | Ok None | Err _ => from_store
      end
  | None => from_store
  end.

(** The base address, whether the provider is a custom one, and the providers
    the master key is for. *)
(* src: ai-gateway/src/middleware/auth.rs:157-193 AuthService::authenticate_request_inner *)
Definition resolve_master_key (vk : DbVirtualKey) (s : AuthState)
  : option string * bool * option (list InferenceProvider) * AuthState :=
  match aw_local_auth w ≫= λ keys, find (λ k, (lk_id k =? vk_id vk)) keys with
  | Some local =>
      let custom := bool_decide (lk_provider local = Custom) in
      (if custom then aw_provider_base_url w (lk_provider local) else None, custom, Some [lk_provider local], s)
  | None =>
      match as_key_cache s with
      | Some cache =>
          let '(r, cache) := MasterKeyCache.get (aw_cipher w) (aw_enc_key w) (vk_master_key_id vk)
                               (aw_master_rows w (vk_master_key_id vk)) (aw_victim w) cache in
          let s := with_key_cache (Some cache) s in
          match r with
          | Ok dk => (MasterKeyCache.base_url dk, bool_decide (MasterKeyCache.key_provider dk = Custom),
                      Some [MasterKeyCache.key_provider dk], s)
          | Err _ => (None, false, None, s)
          end
      | None => (None, false, None, s)
      end
  end.

(* src: ai-gateway/src/middleware/auth.rs:130-278 AuthService::authenticate_request_inner *)
Definition authenticate_request_inner (api_key : string) (kind : option RequestKind) (router_id : option string)
    (s : AuthState) : result (AuthContext * VkPolicy) ApiError * AuthState :=
  let api_key_without_bearer := strip_bearer_prefix api_key in
  let computed_hash := hash_key (aw_sha256_hex w) api_key_without_bearer in
  match kind with
  | None => (Err (ExtensionNotFound "RequestKind"), s)
  | Some kind =>
      let '(found, keys) := resolve_virtual_key_for_auth (aw_fetch w) computed_hash (as_keys s) in
      let s := with_auth_keys keys s in
      match found with
      | None => (Err (Authentication InvalidCredentials), s)
      | Some vk =>
          if virtual_key_is_expired vk (aw_now w) then (Err (Authentication InvalidCredentials), s)
          else
            let '(owner_id, org_id) := virtual_key_owner_and_org vk in
            let '(base_url, is_custom, allowed_providers, s) := resolve_master_key vk s in
            if is_custom && bool_decide (base_url = None) then (Err CustomProviderMissingBaseUrl, s)
            else
              let vk_policy := mkVkPolicy (vk_id vk) (vk_allowed_models vk) (vk_blocked_models vk) in
              let '(entity_type, entity_id, entity_name) := auth_entity_scope_from_vk vk in
              let '(workspace_type, department_id, s) := resolve_request_log_enrichment_after_vk_auth (vk_id vk) s in
              let ctx :=
                mkAuthContext api_key_without_bearer owner_id org_id workspace_type (Some (vk_id vk)) (vk_key_prefix vk)
                  (Some (vk_master_key_id vk)) base_url department_id entity_type entity_id entity_name
                  (parse_agent_name_from_vk_label (vk_label vk))
                  (body_ttl_days_from_subscription_log_limit (vk_subscription_log_limit vk)) is_custom allowed_providers in
              match kind with
              | Router =>
                  match router_id with
                  | None => (Err (ExtensionNotFound "RouterId"), s)
                  | Some router_id =>
                      match aw_router_organization w router_id with
                      | None => (Err RouterNotFound, s)
                      | Some router_organization_id =>
                          if router_organization_id =? org_id then (Ok (ctx, vk_policy), s)
                          else (Err (Authentication InvalidCredentials), s)
                      end
                  end
              | UnifiedApi | DirectProxy | CustomProvider | AgentEvents | AgentTools => (Ok (ctx, vk_policy), s)
              | X402Agent => (Err InternalError, s)
              end
      end
  end.

(** The limiter, when it applies to the request. *)
(* src: ai-gateway/src/middleware/auth.rs:372-423 AuthService::authorize *)
Definition check_identity_limit (kind : option RequestKind) (org_id : string) (s : AuthState) : result unit Denial * AuthState :=
  match aw_identity_limit w with
  | Some limit =>
      if applies_to limit kind then
        let '(r, memory) := check (aw_limiter_poisoned w) (aw_uuid_bits w org_id) limit (aw_limiter_redis w) (aw_instant w)
                              (as_memory s) in
        let s := with_memory memory s in
        match r with
        | Ok _ => (Ok tt, count_auth 0 0 1 0 0 s)
        | Err (Rejected retry_after) => (Err (QuotaExceeded (requests limit) retry_after), count_auth 0 0 0 1 0 s)
        | Err Unavailable => (Err LimiterUnavailable, count_auth 0 0 0 0 1 s)
        end
      else (Ok tt, s)
  | None => (Ok tt, s)
  end.

(* src: ai-gateway/src/middleware/auth.rs:336-458 AuthService::authorize *)
Definition authorize (req : AuthRequest) (s : AuthState) : result AuthRequest Denial * AuthState :=
  if aw_auth_disabled w then (Ok req, s)
  else if (match aq_kind req with Some X402Agent => true | _ => false end) then (Ok req, s)
  else
    match header_str "authorization" (aq_headers req) with
    | None => (Err (Denied (Authentication MissingAuthorizationHeader)), s)
    | Some api_key =>
        let s := count_auth 1 0 0 0 0 s in
        match authenticate_request_inner api_key (aq_kind req) (aq_router_id req) s with
        | (Err e, s) =>
            (Err (Denied e), match e with Authentication _ => count_auth 0 1 0 0 0 s | _ => s end)
        | (Ok (ctx, policy), s) =>
            match check_identity_limit (aq_kind req) (ac_org_id ctx) s with
            | (Err d, s) => (Err d, s)
            | (Ok _, s) =>
                let kind := if should_mark_custom_provider_request_kind (ac_is_custom_provider ctx) (aq_kind req)
                            then Some CustomProvider else aq_kind req in
                (Ok (mkAuthRequest (aq_headers req) kind (aq_router_id req) (Some ctx) (Some policy)), s)
            end
        end
    end.

(** ** Who is let in *)

(** The hash a header is looked up by. *)
Definition header_hash (api_key : string) : string := hash_key (aw_sha256_hex w) (strip_bearer_prefix api_key).

(** What a request carries is the key's. *)
Definition granted_for (vk : DbVirtualKey) (ctx : AuthContext) (policy : VkPolicy) : Prop :=
  ac_org_id ctx = vk_workspace_id vk ∧ ac_user_id ctx = default (vk_workspace_id vk) (vk_entity_id vk) ∧
  ac_virtual_key_id ctx = Some (vk_id vk) ∧ ac_master_key_id ctx = Some (vk_master_key_id vk) ∧
  (ac_is_custom_provider ctx = true → is_Some (ac_master_key_base_url ctx)) ∧
  (1 ≤ ac_body_ttl_days ctx ≤ 730)%Z ∧
  policy = mkVkPolicy (vk_id vk) (vk_allowed_models vk) (vk_blocked_models vk).

Lemma enrichment_state vk_id s ws dep s' :
  resolve_request_log_enrichment_after_vk_auth vk_id s = (ws, dep, s') →
  as_keys s' = as_keys s ∧ as_memory s' = as_memory s ∧ as_key_cache s' = as_key_cache s.
Proof.
  rw /resolve_request_log_enrichment_after_vk_auth. intros H.
  repeat (case_match; simplify_eq/=; try done).
Qed.

Lemma master_key_state vk s base custom providers s' :
  resolve_master_key vk s = (base, custom, providers, s') → as_keys s' = as_keys s ∧ as_memory s' = as_memory s.
Proof.
  rw /resolve_master_key. intros H. repeat (case_match; simplify_eq/=; try done).
Qed.

Lemma ttl_bounds n : (1 ≤ body_ttl_days_from_subscription_log_limit n ≤ 730)%Z.
Proof. rw /body_ttl_days_from_subscription_log_limit. destruct (_ && _)%Z eqn:E; [bool_to_prop|]; lia. Qed.

Lemma authenticate_spec api_key kind router_id s ctx policy s' :
  authenticate_request_inner api_key kind router_id s = (Ok (ctx, policy), s') →
  ∃ vk keys, resolve_virtual_key_for_auth (aw_fetch w) (header_hash api_key) (as_keys s) = (Some vk, keys) ∧
    virtual_key_is_expired vk (aw_now w) = false ∧ granted_for vk ctx policy ∧ as_memory s' = as_memory s ∧
    kind ≠ None ∧ kind ≠ Some X402Agent ∧
    (kind = Some Router → ∃ rid, router_id = Some rid ∧ aw_router_organization w rid = Some (vk_workspace_id vk)).
Proof.
  rw /authenticate_request_inner. destruct kind as [kind|]; [|done]. fold (header_hash api_key).
  destruct (resolve_virtual_key_for_auth _ _ _) as [[vk|] keys] eqn:Hres; [|done]. cbn zeta iota.
  destruct (virtual_key_is_expired vk (aw_now w)) eqn:Hexp; [done|]. cbn [virtual_key_owner_and_org auth_entity_scope_from_vk].
  destruct (resolve_master_key vk _) as [[[base custom] providers] s1] eqn:Hmk. apply master_key_state in Hmk as [_ Hm1].
  destruct (custom && bool_decide (base = None)) eqn:Hcb; [done|].
  destruct (resolve_request_log_enrichment_after_vk_auth _ _) as [[ws dep] s2] eqn:Hen.
  apply enrichment_state in Hen as (_ & Hm2 & _). intros H. exists vk, keys.
  assert (Hctx : (∃ rid, router_id = Some rid ∧ aw_router_organization w rid = Some (vk_workspace_id vk)) ∨ kind ≠ Router).
  { destruct kind; [|by right..]. left. destruct router_id as [rid|]; [|done].
    destruct (aw_router_organization w rid) as [org|] eqn:Ho; [|done]. destruct (String.eqb_spec org (vk_workspace_id vk)) as [->|]; [|done].
    by exists rid. }
  assert (Hout : kind ≠ X402Agent ∧ s' = s2 ∧ granted_for vk ctx policy).
  { repeat (case_match; simplify_eq/=; try done); (split; [done|split; [done|]]);
      (split_and!; [done|done|done|done| |apply ttl_bounds|apply ttl_bounds|done]); cbn; intros ->; revert Hcb; destruct base; done. }
  destruct Hout as (Hk & -> & Hgr). split_and!; try done.
  - by rw Hm2 Hm1.
  - congruence.
  - intros [= ->]. by destruct Hctx.
Qed.

Lemma limit_spec kind org s s' :
  check_identity_limit kind org s = (Ok tt, s') →
  ∀ limit, aw_identity_limit w = Some limit → applies_to limit kind = true →
  (check (aw_limiter_poisoned w) (aw_uuid_bits w org) limit (aw_limiter_redis w) (aw_instant w) (as_memory s)).1 = Ok tt.
Proof.
  rw /check_identity_limit. intros H limit Hl Ha. rw Hl Ha in H.
  destruct (check _ _ _ _ _ _) as [[[]|[]] memory]; done.
Qed.

Lemma authorize_spec req s req' s' :
  aw_auth_disabled w = false → aq_kind req ≠ Some X402Agent → authorize req s = (Ok req', s') →
  ∃ api_key ctx policy s1 s2, header_str "authorization" (aq_headers req) = Some api_key ∧
    authenticate_request_inner api_key (aq_kind req) (aq_router_id req) (count_auth 1 0 0 0 0 s) = (Ok (ctx, policy), s1) ∧
    check_identity_limit (aq_kind req) (ac_org_id ctx) s1 = (Ok tt, s2) ∧
    aq_auth req' = Some ctx ∧ aq_policy req' = Some policy.
Proof.
  intros Hd Hk. rw /authorize Hd. destruct (aq_kind req) as [kind|] eqn:Hkind.
  - destruct (header_str _ _) as [api_key|] eqn:Hh; [|by destruct kind].
    destruct (authenticate_request_inner _ _ _ _) as [[[ctx policy]|e] s1] eqn:Ha; [|by destruct kind].
    destruct (check_identity_limit _ _ _) as [[[]|d] s2] eqn:Hl; [|by destruct kind].
    intros H. exists api_key, ctx, policy, s1, s2. split_and!; try done; destruct kind; try done; injection H as <- _; done.
  - destruct (header_str _ _) as [api_key|]; [|done]. by cbn.
Qed.

(** The providers a request may use are the one of the key's master key. *)
Lemma master_key_providers vk s base custom providers s' cache :
  aw_local_auth w = None → as_key_cache s = Some cache →
  MasterKeyCache.coherent (aw_cipher w) (aw_enc_key w) (aw_master_rows w) cache →
  resolve_master_key vk s = (base, custom, providers, s') →
  providers = (λ e, [MasterKeyCache.key_provider e]) <$>
    result_ok (MasterKeyCache.load_entry (aw_cipher w) (aw_enc_key w) (vk_master_key_id vk) (aw_master_rows w (vk_master_key_id vk))).
Proof.
  intros Hl Hc Hco. rw /resolve_master_key Hl Hc /=. destruct (MasterKeyCache.get _ _ _ _ _ _) as [r cache'] eqn:Hg.
  apply MasterKeyCache.get_coherent in Hg as [-> _]; [|done].
  by destruct (MasterKeyCache.load_entry _ _ _ _); intros [= _ _ <- _].
Qed.

(** A key that does not resolve, or is expired, is denied with 401, before
    its master key is decrypted or its workspace's quota is used. *)
Lemma unknown_or_expired_key_denied req s api_key kind found keys :
  aw_auth_disabled w = false → aq_kind req = Some kind → kind ≠ X402Agent →
  header_str "authorization" (aq_headers req) = Some api_key →
  resolve_virtual_key_for_auth (aw_fetch w) (header_hash api_key) (as_keys s) = (found, keys) →
  match found with None => True | Some vk => virtual_key_is_expired vk (aw_now w) = true end →
  ∃ s', authorize req s = (Err (Denied (Authentication InvalidCredentials)), s') ∧
    as_key_cache s' = as_key_cache s ∧ as_memory s' = as_memory s ∧ as_rejections s' = (as_rejections s + 1)%Z.
Proof.
  intros Hd Hk Hne Hh Hr Hf. rw /authorize Hd Hk Hh /authenticate_request_inner.
  fold (header_hash api_key). cbn [count_auth as_keys]. rw Hr.
  destruct found as [vk|]; [rw Hf|]; (destruct kind; [..|done]); eexists; (split; [done|]); cbn; split_and!; try done; lia.
Qed.

Section entitlement.
Context {Date Url : Type} `{EqDecision Date}.
Context (parse_from_str : string → string → option Date) (year : string) (parse_url : string → option Url)
        (embedded : InferenceProvider → option (ProviderCatalog.EmbeddedProviderDefaults (Url := Url))).
Context (table : Z → list DbVirtualKey) `{!VkHistory table}.

End entitlement.
End auth.

(** ** A request with a key of the database *)

Definition demo_auth_world : AuthWorld :=
  mkAuthWorld false (λ _, "h1") 7 0 (Some (fetch_at demo_table 7)) None (λ _, None) (mkCipher (λ _ _ _, None) (λ _ _ _, None)) ""
    (λ _, Ok None) None (λ _, Some "w1") None (λ _, None) (Some (λ _, Ok (Some ("team", Some "d1")))) (Some
      (mkConfig true 1 60 ClientIpLimit.Memory "gw:identityrl:" [Models])) false None (λ _, 1%Z).

Definition demo_auth_state : AuthState :=
  mkAuthState (app_keys (l_app demo_listener)) None default_memory [] 0 0 0 0 0.

Definition demo_auth_request : AuthRequest :=
  mkAuthRequest (hinsert "authorization" "Bearer sk-1" ∅) (Some Router) (Some "r1") None None.

