(* ===== verification/Balance.v ===== *)
(** * The balancers

    Models the crates [weighted-balance], [latency-router] and
    [dynamic-router]: how they follow the discovered services, select one that
    is ready, and call it.

    Tower's [ReadyCache] is a parameter: its operations are the record
    [ReadyCache] and what its documentation promises is the class
    [ReadyCacheLaws]; so is the weighted sampling of the rand crate. *)

From S2P Require Import Prelude.

(** ** Tower's cache of services *)

(** [poll_pending]: no service is pending, some are, or one failed and is
    gone. *)
Inductive PendingPoll := NonePending | SomePending | PendingFailed.

(** [check_ready_index]: still ready, not ready any more, failed and gone. *)
Inductive ReadyCheck := StillReady | NoLongerReady | ReadyFailed.

(** [Cx] is what the services answer during one poll. *)
Record ReadyCache (K S C Cx : Type) := mkReadyCache {
  rc_ready : C → list (K * S);
  rc_known : C → list K;
  rc_pending_len : C → nat;
  rc_evict : K → C → C;
  rc_push : K → S → C → C;
  rc_poll_pending : Cx → C → PendingPoll * C;
  rc_check_ready_index : Cx → nat → C → ReadyCheck * C;
  rc_call_ready_index : nat → C → option ((K * S) * C)
}.
Arguments rc_ready {K S C Cx}. Arguments rc_known {K S C Cx}. Arguments rc_pending_len {K S C Cx}.
Arguments rc_evict {K S C Cx}. Arguments rc_push {K S C Cx}. Arguments rc_poll_pending {K S C Cx}.
Arguments rc_check_ready_index {K S C Cx}. Arguments rc_call_ready_index {K S C Cx}.

Class ReadyCacheLaws {K S C Cx} (ops : ReadyCache K S C Cx) := {
  ready_known c k s : (k, s) ∈ rc_ready ops c → k ∈ rc_known ops c;
  evict_known k k' c : k' ∈ rc_known ops (rc_evict ops k c) → k' ≠ k ∧ k' ∈ rc_known ops c;
  push_known k s k' c : k' ∈ rc_known ops (rc_push ops k s c) → k' = k ∨ k' ∈ rc_known ops c;
  poll_pending_known cx c p c' k : rc_poll_pending ops cx c = (p, c') → k ∈ rc_known ops c' → k ∈ rc_known ops c;
  poll_pending_failed cx c c' : rc_poll_pending ops cx c = (PendingFailed, c') → rc_pending_len ops c' < rc_pending_len ops c;
  check_still cx i c c' : rc_check_ready_index ops cx i c = (StillReady, c') →
    i < length (rc_ready ops c) ∧ rc_ready ops c' = rc_ready ops c;
  check_lost cx i c r c' : rc_check_ready_index ops cx i c = (r, c') → r ≠ StillReady → i < length (rc_ready ops c) →
    length (rc_ready ops c') < length (rc_ready ops c);
  check_out_of_range cx i c r c' : rc_check_ready_index ops cx i c = (r, c') → length (rc_ready ops c) ≤ i →
    rc_ready ops c' = rc_ready ops c;
  call_ready i c x : rc_ready ops c !! i = Some x → ∃ c', rc_call_ready_index ops i c = Some (x, c')
}.

(** ** Discovery *)

(** [tower::discover::Change]. *)
Inductive Change (K S : Type) := ChangeRemove (k : K) | ChangeInsert (k : K) (s : S).
Arguments ChangeRemove {K S}. Arguments ChangeInsert {K S}.

(** How one poll of the stream of changes ends after the changes it gave. *)
Inductive DiscoverEnd := DiscoverPending | DiscoverClosed | DiscoverFailed.

Section balance.
Context {K S C Cx : Type} `{EqDecision K} (ops : ReadyCache K S C Cx).

(* src: crates/weighted-balance/src/balance/mod.rs:146-161 WeightedBalance::update_pending_from_discover *)
Definition apply_change (c : C) (change : Change K S) : C :=
  match change with ChangeRemove k => rc_evict ops k c | ChangeInsert k s => rc_push ops k s c end.

(** [false] is an error of the stream. *)
(* src: crates/weighted-balance/src/balance/mod.rs:140-163 WeightedBalance::update_pending_from_discover *)
Definition update_pending_from_discover (changes : list (Change K S)) (ending : DiscoverEnd) (c : C) : bool * C :=
  (match ending with DiscoverFailed => false | _ => true end, fold_left apply_change changes c).

(** [fuel] bounds the failures; the number of pending services is enough. *)
(* src: crates/weighted-balance/src/balance/mod.rs:165-190 WeightedBalance::promote_pending_to_ready *)
Fixpoint promote_loop (fuel : nat) (cx : Cx) (c : C) : option C :=
  match fuel with
  | 0 => None
  | Datatypes.S fuel =>
      match rc_poll_pending ops cx c with
      | (NonePending, c) | (SomePending, c) => Some c
      | (PendingFailed, c) => promote_loop fuel cx c
      end
  end.

Definition promote_pending_to_ready (cx : Cx) (c : C) : option C := promote_loop (1 + rc_pending_len ops c) cx c.

(** ** weighted-balance *)

Context (weight : K → Z).
(** [sample_weighted rng len weights]: an index, or an error. *)
Context (sample : nat → (nat → Z) → option nat).

(* src: crates/weighted-balance/src/balance/mod.rs:70-83 WeightedBalance *)
Record WeightedBalance := mkBalance { services : C; ready_index : option nat }.

(* src: crates/weighted-balance/src/balance/mod.rs:192-213 WeightedBalance::ready_index *)
Definition select_index (c : C) : option (option nat) :=
  match rc_ready ops c with
  | [] => Some None
  | [_] => Some (Some 0)
  | l => Some <$> sample (length l) (λ i, default 0%Z (weight <$> (l.*1 !! i)))
  end.

Inductive PollReady := ReadyOk | ReadyErr | ReadyPending.

(** The loop of [poll_ready]; [None] is the end of the fuel. *)
(* src: crates/weighted-balance/src/balance/mod.rs:238-272 WeightedBalance::poll_ready *)
Fixpoint select_loop (fuel : nat) (cx : Cx) (b : WeightedBalance) : option (PollReady * WeightedBalance) :=
  match fuel with
  | 0 => None
  | Datatypes.S fuel =>
      let reselect (c : C) :=
        match select_index c with
        | None => Some (ReadyErr, mkBalance c None)
        | Some None => Some (ReadyPending, mkBalance c None)
        | Some (Some i) => select_loop fuel cx (mkBalance c (Some i))
        end in
      match ready_index b with
      | Some i =>
          match rc_check_ready_index ops cx i (services b) with
          | (StillReady, c) => Some (ReadyOk, mkBalance c (Some i))
          | (NoLongerReady, c) | (ReadyFailed, c) => reselect c
          end
      | None => reselect (services b)
      end
  end.

(* src: crates/weighted-balance/src/balance/mod.rs:231-273 WeightedBalance::poll_ready *)
Definition poll_ready (changes : list (Change K S)) (ending : DiscoverEnd) (cx : Cx) (b : WeightedBalance)
  : option (PollReady * WeightedBalance) :=
  let '(ok, c) := update_pending_from_discover changes ending (services b) in
  if negb ok then Some (ReadyErr, mkBalance c (ready_index b))
  else
    c ← promote_pending_to_ready cx c;
    select_loop (3 + length (rc_ready ops c)) cx (mkBalance c (ready_index b)).

(** [None] is a panic. *)
(* src: crates/weighted-balance/src/balance/mod.rs:275-281 WeightedBalance::call *)
Definition call (b : WeightedBalance) : option ((K * S) * WeightedBalance) :=
  i ← ready_index b;
  '(x, c) ← rc_call_ready_index ops i (services b);
  Some (x, mkBalance c None).

(** ** dynamic-router *)

Inductive RouterError := ExtensionNotFound | RouterNotFound | NoServicesAvailable.

(* src: crates/dynamic-router/src/router/mod.rs:186-190 DynamicRouter::poll_ready *)
Definition dynamic_poll_ready (changes : list (Change K S)) (ending : DiscoverEnd) (cx : Cx) (c : C) : option (bool * C) :=
  let '(ok, c) := update_pending_from_discover changes ending c in
  if negb ok then Some (false, c) else c ← promote_pending_to_ready cx c; Some (true, c).

(** The index of a key among the ready services. *)
Definition ready_position (k : K) (c : C) : option nat := fst <$> list_find (λ x, x.1 = k) (rc_ready ops c).

(** [None] is a panic. *)
(* src: crates/dynamic-router/src/router/mod.rs:192-207 DynamicRouter::call *)
Definition dynamic_call (key : option K) (c : C) : option (result (K * S) RouterError * C) :=
  match key with
  | None => Some (Err ExtensionNotFound, c)
  | Some key =>
      match ready_position key c with
      | Some i => '(x, c) ← rc_call_ready_index ops i c; Some (Ok x, c)
      | None => Some (Err RouterNotFound, c)
      end
  end.

(** ** latency-router *)

Section latency.
Context {M L : Type} `{Countable M} (model_of : K → M) (empty_cache : C).
(** [Load::load] and [partial_cmp] of its metric. *)
Context (load : S → L) (partial_cmp : L → L → option comparison).

(* src: crates/latency-router/src/router/mod.rs:113-128 LatencyRouter::update_pending_from_discover *)
Definition latency_change (services : gmap M C) (change : Change K S) : gmap M C :=
  match change with
  | ChangeRemove k => alter (rc_evict ops k) (model_of k) services
  | ChangeInsert k s => <[model_of k := rc_push ops k s (default empty_cache (services !! model_of k))]> services
  end.

(* src: crates/latency-router/src/router/mod.rs:132-159 LatencyRouter::promote_pending_to_ready *)
Definition latency_promote (cx : Cx) (services : gmap M C) : gmap M (option C) := promote_pending_to_ready cx <$> services.

(** The answer is an error, a loop that does not end in its fuel, or the
    caches. *)
(* src: crates/latency-router/src/router/mod.rs:203-207 LatencyRouter::poll_ready *)
Definition latency_poll_ready (changes : list (Change K S)) (ending : DiscoverEnd) (cx : Cx) (services : gmap M C)
  : bool * gmap M (option C) :=
  let services := fold_left latency_change changes services in
  match ending with
  | DiscoverFailed => (false, Some <$> services)
  | _ => (true, latency_promote cx services)
  end.

(** [Iterator::min_by] with the comparison of the loads. *)
Definition compare_loads (a b : nat * (K * S)) : comparison :=
  default Eq (partial_cmp (load a.2.2) (load b.2.2)).

Definition min_by (l : list (nat * (K * S))) : option (nat * (K * S)) :=
  match l with
  | [] => None
  | x :: l => Some (fold_left (λ best y, match compare_loads best y with Gt => y | _ => best end) l x)
  end.

(* src: crates/latency-router/src/router/mod.rs:161-184 LatencyRouter::ready_index *)
Definition latency_ready_index (model : M) (services : gmap M C) : result nat RouterError :=
  let? cache := ok_or (services !! model) NoServicesAvailable in
  match rc_ready ops cache with
  | [] => Err NoServicesAvailable
  | l => ok_or (fst <$> min_by (imap pair l)) NoServicesAvailable
  end.

(* src: crates/latency-router/src/router/mod.rs:209-237 LatencyRouter::call *)
Definition latency_call (model : option M) (services : gmap M C) : option (result (K * S) RouterError * gmap M C) :=
  match model with
  | None => Some (Err ExtensionNotFound, services)
  | Some model =>
      match latency_ready_index model services, services !! model with
      | Ok i, Some cache => '(x, cache) ← rc_call_ready_index ops i cache; Some (Ok x, <[model := cache]> services)
      | _, _ => Some (Err NoServicesAvailable, services)
      end
  end.
End latency.

(** ** The loops end *)

Section correctness.
Context `{!ReadyCacheLaws ops}.

Lemma promote_loop_total fuel cx c : rc_pending_len ops c < fuel → is_Some (promote_loop fuel cx c).
Proof.
  revert c. induction fuel as [|fuel IH]; intros c Hf; [lia|]. cbn [promote_loop].
  destruct (rc_poll_pending ops cx c) as [[| |] c'] eqn:Hp; [by eexists..|].
  apply IH. pose proof (poll_pending_failed _ _ _ Hp). lia.
Qed.

Lemma promote_total cx c : is_Some (promote_pending_to_ready cx c).
Proof. apply promote_loop_total. lia. Qed.

Lemma promote_loop_known fuel cx c c' k : promote_loop fuel cx c = Some c' → k ∈ rc_known ops c' → k ∈ rc_known ops c.
Proof.
  revert c. induction fuel as [|fuel IH]; intros c; [done|]. cbn [promote_loop].
  destruct (rc_poll_pending ops cx c) as [p c1] eqn:Hp. destruct p; [intros [= <-]|intros [= <-]|intros H Hk; specialize (IH _ H Hk)].
  all: by eapply poll_pending_known.
Qed.

(** The sampling gives an index of the range, of a service that has weight,
    when there is one. *)
Class SampleLaws := {
  sample_range len ws i : sample len ws = Some i → i < len ∧ (0 < ws i)%Z;
  sample_some len ws : (∃ i, i < len ∧ (0 < ws i)%Z) → is_Some (sample len ws)
}.

Context `{!SampleLaws}.

Lemma select_index_range c i : select_index c = Some (Some i) → i < length (rc_ready ops c).
Proof.
  rw /select_index. destruct (rc_ready ops c) as [|x [|y l]]; [done|intros [= <-]; cbn; lia|].
  intros (j & Hj & [= ->])%fmap_Some. by apply sample_range in Hj as [? _].
Qed.

(** What [poll_ready] leaves: [ReadyOk] only with a selected service that was
    just checked, and no service selected otherwise. *)
Definition poll_ok (r : PollReady) (b : WeightedBalance) : Prop :=
  match r with
  | ReadyOk => ∃ i, ready_index b = Some i ∧ i < length (rc_ready ops (services b))
  | ReadyErr | ReadyPending => ready_index b = None
  end.

(** Enough fuel: one turn for each ready service that may be lost, one when
    the selected index is not among them, and the last one. *)
Lemma select_loop_total fuel cx b :
  (match ready_index b with
   | Some i => if decide (i < length (rc_ready ops (services b))) then 0 else 1
   | None => 1
   end + length (rc_ready ops (services b)) < fuel) →
  ∃ r b', select_loop fuel cx b = Some (r, b') ∧ poll_ok r b'.
Proof.
  revert b. induction fuel as [|fuel IH]; intros b Hf; [lia|].
  assert (Hre : ∀ c, length (rc_ready ops c) < fuel →
    ∃ r b', match select_index c with
            | None => Some (ReadyErr, mkBalance c None)
            | Some None => Some (ReadyPending, mkBalance c None)
            | Some (Some i) => select_loop fuel cx (mkBalance c (Some i))
            end = Some (r, b') ∧ poll_ok r b').
  { intros c Hc. destruct (select_index c) as [[i|]|] eqn:Hs; [|by eexists _, _..].
    apply IH. cbn. rw decide_True; [lia|by apply select_index_range]. }
  cbn [select_loop]. destruct (ready_index b) as [i|] eqn:Hi; [|apply Hre; lia].
  destruct (rc_check_ready_index ops cx i (services b)) as [r c] eqn:Hc.
  assert (Hlost : r ≠ StillReady → length (rc_ready ops c) < fuel).
  { intros Hr. case_decide as Hd; [pose proof (check_lost _ _ _ _ _ Hc Hr Hd); lia|].
    rw (check_out_of_range _ _ _ _ _ Hc); lia. }
  destruct r; [|by apply Hre, Hlost..]. eexists _, _. split; [done|]. cbn. exists i. split; [done|].
  apply check_still in Hc as [Hlt ->]. done.
Qed.

(** C17 (termination). [poll_ready] of the weighted balancer returns,
    whatever the services do meanwhile; when it says ready, the call that
    follows reaches a service and does not panic. *)
Theorem balance_ready_then_call changes ending cx b :
  ∃ r b', poll_ready changes ending cx b = Some (r, b') ∧
  (r = ReadyOk → ∃ x b'', call b' = Some (x, b'') ∧ x ∈ rc_ready ops (services b') ∧ ready_index b'' = None).
Proof.
  rw /poll_ready /=. destruct (negb _); [by eexists _, _|].
  destruct (promote_total cx (fold_left apply_change changes (services b))) as [c ->]. cbn [mbind option_bind].
  destruct (select_loop_total (3 + length (rc_ready ops c)) cx (mkBalance c (ready_index b))) as (r & b' & Hs & Hok).
  { cbn. destruct (ready_index b); [case_decide|]; lia. }
  exists r, b'. split; [done|]. intros ->. destruct Hok as (i & Hi & Hlt).
  destruct (lookup_lt_is_Some_2 (rc_ready ops (services b')) i Hlt) as [x Hx]. destruct (call_ready _ _ _ Hx) as [c' Hc].
  exists x, (mkBalance c' None). rw /call Hi /= Hc /=. split_and!; [done|by eapply list_elem_of_lookup_2|done].
Qed.

(** A service of weight 0 is not selected while another one is ready. *)
Lemma selected_has_weight c i x :
  select_index c = Some (Some i) → 1 < length (rc_ready ops c) → rc_ready ops c !! i = Some x → (0 < weight x.1)%Z.
Proof.
  rw /select_index. destruct (rc_ready ops c) as [|y [|z l]] eqn:Hr; cbn [length]; [lia|lia|].
  intros (j & Hj & [= ->])%fmap_Some _ Hx. apply sample_range in Hj as [_ Hw]. revert Hw. by rw list_lookup_fmap Hx.
Qed.

(** ** Dynamic router *)

(** The keys known after a list of changes. *)
Lemma apply_changes_known changes c k :
  k ∈ rc_known ops (fold_left apply_change changes c) → k ∈ rc_known ops c ∨ (∃ s, ChangeInsert k s ∈ changes).
Proof.
  revert c. induction changes as [|ch changes IH]; intros c; [by left|]. cbn [fold_left].
  intros [Hk|[s Hs]]%IH; [|right; exists s; by right].
  destruct ch as [k'|k' s]; cbn in Hk; [apply evict_known in Hk as [_ Hk]; by left|].
  apply push_known in Hk as [->|Hk]; [right; exists s; by left|by left].
Qed.

(** A router is called by its own key, and one that was removed and not
    inserted again is not found. *)
Lemma dynamic_call_own_key key c x c' :
  dynamic_call (Some key) c = Some (Ok x, c') → x.1 = key.
Proof.
  rw /dynamic_call /ready_position. destruct (list_find _ _) as [[i y]|] eqn:Hf; [|done]. cbn.
  apply list_find_Some in Hf as (Hy & Hk & _). destruct (call_ready _ _ _ Hy) as [c1 Hc]. rw Hc /=. by intros [= <- _].
Qed.

Lemma removed_router_not_called before after ending cx key c ok c' :
  (∀ s, ChangeInsert key s ∉ after) →
  dynamic_poll_ready (before ++ ChangeRemove key :: after) ending cx c = Some (ok, c') →
  dynamic_call (Some key) c' = Some (Err RouterNotFound, c').
Proof.
  intros Hno Hp. assert (Hk : key ∉ rc_known ops c').
  { intros Hk. set (c1 := fold_left apply_change (before ++ ChangeRemove key :: after) c) in *.
    assert (Hk1 : key ∈ rc_known ops c1).
    { revert Hp. rw /dynamic_poll_ready /=. fold c1. destruct (negb _); [by intros [= _ <-]|].
      destruct (promote_pending_to_ready cx c1) as [c2|] eqn:Hpr; [|done]. intros [= _ <-]. by eapply promote_loop_known. }
    rw /c1 fold_left_app /= in Hk1. apply apply_changes_known in Hk1 as [Hk1|[s Hs]]; [|by apply (Hno s)].
    by apply evict_known in Hk1 as [? _]. }
  rw /dynamic_call /ready_position. destruct (list_find _ _) as [[i [k s]]|] eqn:Hf; [|done].
  apply list_find_Some in Hf as (Hy & Heq & _). cbn in Heq. exfalso. apply Hk. rw -Heq. eapply ready_known.
  by eapply list_elem_of_lookup_2.
Qed.

(** ** Latency router *)

Section least_load.
Context {M L : Type} `{Countable M} (load : S → L) (partial_cmp : L → L → option comparison).

(** The metrics are totally preordered. *)
Class LoadLaws := {
  load_refl a : partial_cmp a a ≠ Some Gt;
  load_total a b : partial_cmp a b = Some Gt → partial_cmp b a ≠ Some Gt;
  load_trans a b c : partial_cmp a b ≠ Some Gt → partial_cmp b c ≠ Some Gt → partial_cmp a c ≠ Some Gt
}.

Lemma compare_loads_gt a b :
  compare_loads load partial_cmp a b = Gt ↔ partial_cmp (load a.2.2) (load b.2.2) = Some Gt.
Proof. rw /compare_loads. by destruct (partial_cmp _ _) as [[]|]. Qed.

Lemma min_by_least `{!LoadLaws} l x :
  min_by load partial_cmp l = Some x → x ∈ l ∧ ∀ y, y ∈ l → partial_cmp (load x.2.2) (load y.2.2) ≠ Some Gt.
Proof.
  destruct l as [|z l]; [done|]. intros [= <-]. revert z. induction l as [|y l IH]; intros z; cbn [fold_left].
  { split; [by left|]. intros y ->%list_elem_of_singleton. apply load_refl. }
  set (best := match compare_loads load partial_cmp z y with Gt => y | _ => z end).
  destruct (IH best) as [Hin Hmin]. set (r := fold_left _ l best) in *.
  assert (Hz : partial_cmp (load best.2.2) (load z.2.2) ≠ Some Gt ∧ partial_cmp (load best.2.2) (load y.2.2) ≠ Some Gt).
  { rw /best. destruct (compare_loads load partial_cmp z y) eqn:Hc; [| |apply compare_loads_gt in Hc; split; [by apply load_total|apply load_refl]].
    all: split; [apply load_refl|]; intros Hg; apply compare_loads_gt in Hg; congruence. }
  assert (Hb : best ∈ z :: y :: l) by (rw /best; case_match; set_solver).
  split; [apply elem_of_cons in Hin as [->|Hin]; [exact Hb|set_solver]|].
  assert (Hr : partial_cmp (load r.2.2) (load best.2.2) ≠ Some Gt) by (apply Hmin; by left).
  intros w [->|[->|Hw]%elem_of_cons]%elem_of_cons.
  - eapply load_trans; [exact Hr|by destruct Hz].
  - eapply load_trans; [exact Hr|by destruct Hz].
  - apply Hmin. by right.
Qed.

(** The router calls a ready service of the model with the least load, and
    does not panic. *)
Lemma latency_call_least_load `{!LoadLaws} (model : M) (services : gmap M C) :
  ∃ r services', latency_call load partial_cmp (Some model) services = Some (r, services') ∧
  match r with
  | Ok x => ∃ cache, services !! model = Some cache ∧ x ∈ rc_ready ops cache ∧
      ∀ y, y ∈ rc_ready ops cache → partial_cmp (load x.2) (load y.2) ≠ Some Gt
  | Err e => e = NoServicesAvailable ∧ (services !! model = None ∨ ∃ cache, services !! model = Some cache ∧ rc_ready ops cache = [])
  end.
Proof.
  rw /latency_call /latency_ready_index. destruct (services !! model) as [cache|] eqn:Hm; cbn [ok_or result_bind].
  2: { eexists _, _. split; [done|]. split; [done|by left]. }
  destruct (rc_ready ops cache) as [|z l] eqn:Hr.
  { eexists _, _. split; [done|]. split; [done|]. right. by exists cache. }
  destruct (min_by load partial_cmp (imap pair (z :: l))) as [[i x]|] eqn:Hmin; [|by rw imap_cons in Hmin].
  pose proof (min_by_least _ _ Hmin) as [Hin Hle]. cbn [fmap option_fmap option_map ok_or fst].
  apply list_elem_of_lookup in Hin as [j Hj]. rw list_lookup_imap in Hj. apply fmap_Some in Hj as (y & Hj & [= -> ->]).
  rw -Hr in Hj. destruct (call_ready _ _ _ Hj) as [c' Hc]. rw Hc /=. eexists _, _. split; [done|]. exists cache. split; [done|].
  split; [by eapply list_elem_of_lookup_2|]. intros w [k Hk]%list_elem_of_lookup.
  apply (Hle (k, w)). apply list_elem_of_lookup. exists k. by rw list_lookup_imap -Hr Hk.
Qed.
End least_load.
End correctness.
End balance.

(** ** A cache of services *)

Module Toy.
(** The services' answers: ready, not yet, failed. *)
Inductive health := Up | Down | Gone.

#[global] Instance health_eq_dec : EqDecision health.
Proof. solve_decision. Defined.

(** Ready and pending services. *)
Definition cache : Type := list (nat * nat) * list (nat * nat).

(** [swap_remove]: the last one takes the place. *)
Definition swap_remove (i : nat) (l : list (nat * nat)) : list (nat * nat) :=
  match last l with
  | Some x => if decide (S i = length l) then take i l else <[i := x]> (take (length l - 1) l)
  | None => l
  end.

Definition evict (k : nat) (c : cache) : cache :=
  (match list_find (λ x, x.1 = k) c.1 with Some (i, _) => filter (λ x, x.1 ≠ k) (swap_remove i c.1) | None => c.1 end,
   filter (λ x, x.1 ≠ k) c.2).

Definition poll_pending (cx : nat → health) (c : cache) : PendingPoll * cache :=
  match list_find (λ x, cx x.1 = Gone) c.2 with
  | Some (i, _) => (PendingFailed, (c.1, delete i c.2))
  | None =>
      let up := filter (λ x, cx x.1 = Up) c.2 in
      let down := filter (λ x, cx x.1 ≠ Up) c.2 in
      (if decide (down = []) then NonePending else SomePending, ((c.1 ++ up)%list, down))
  end.

Definition check_ready_index (cx : nat → health) (i : nat) (c : cache) : ReadyCheck * cache :=
  match c.1 !! i with
  | None => (NoLongerReady, c)
  | Some x =>
      match cx x.1 with
      | Up => (StillReady, c)
      | Down => (NoLongerReady, (delete i c.1, (c.2 ++ [x])%list))
      | Gone => (ReadyFailed, (delete i c.1, c.2))
      end
  end.

Definition ops : ReadyCache nat nat cache (nat → health) :=
  mkReadyCache _ _ _ _ (λ c, c.1) (λ c, (c.1.*1 ++ c.2.*1)%list) (λ c, length c.2) evict
    (λ k s c, (c.1, (c.2 ++ [(k, s)])%list)) poll_pending check_ready_index
    (λ i c, x ← c.1 !! i; Some (x, (delete i c.1, (c.2 ++ [x])%list))).

Lemma swap_remove_subset i l x : x ∈ swap_remove i l → x ∈ l.
Proof.
  rw /swap_remove. destruct (last l) as [y|] eqn:Hl; [|done]. case_decide; intros Hx.
  { apply list_elem_of_lookup in Hx as [j Hj]. apply lookup_take_Some in Hj as [Hj _]. by eapply list_elem_of_lookup_2. }
  apply list_elem_of_lookup in Hx as [j Hj]. apply list_lookup_insert_Some in Hj as [(-> & <- & _)|(_ & Hj)].
  - by apply last_Some_elem_of.
  - apply lookup_take_Some in Hj as [Hj _]. by eapply list_elem_of_lookup_2.
Qed.

#[global] Instance laws : ReadyCacheLaws ops.
Proof.
  split; cbn.
  - intros c k s Hin. apply elem_of_app. left. apply list_elem_of_fmap. by exists (k, s).
  - intros k k' c. rw !elem_of_app !list_elem_of_fmap.
    intros [(x & -> & Hx)|(x & -> & [Hne Hx]%list_elem_of_filter)]; [|split; [done|right; by exists x]].
    destruct (list_find (λ x, x.1 = k) c.1) as [[i y]|] eqn:Hf.
    + apply list_elem_of_filter in Hx as [Hne Hx]. split; [done|]. left. exists x. split; [done|]. by eapply swap_remove_subset.
    + split; [|left; by exists x]. intros Heq. apply list_find_None in Hf. rw Forall_forall in Hf. by apply (Hf x).
  - intros k s k' c. rw !fmap_app !elem_of_app. set_solver.
  - intros cx c p c' k. rw /poll_pending. destruct (list_find _ _) as [[i y]|]; intros [= _ <-]; cbn.
    + rw !elem_of_app !list_elem_of_fmap. intros [Hx|(x & -> & Hx)]; [by left|]. right. exists x. split; [done|].
      apply list_elem_of_lookup in Hx as [j Hj]. rw list_lookup_delete in Hj.
      case_decide; by eapply list_elem_of_lookup_2.
    + rw !fmap_app !elem_of_app !list_elem_of_fmap. intros [[Hx|(x & -> & [_ Hx]%list_elem_of_filter)]|(x & -> & [_ Hx]%list_elem_of_filter)].
      * by left.
      * right. by exists x.
      * right. by exists x.
  - intros cx c c'. rw /poll_pending. destruct (list_find _ _) as [[i y]|] eqn:Hf; [|case_decide; done].
    intros [= <-]. apply list_find_Some in Hf as (Hy & _). apply lookup_lt_Some in Hy. cbn. rw length_delete; [lia|by apply lookup_lt_is_Some].
  - intros cx i c c'. rw /check_ready_index. destruct (c.1 !! i) as [x|] eqn:Hi; [|done]. destruct (cx x.1); [|done..].
    intros [= <-]. split; [by eapply lookup_lt_Some|done].
  - intros cx i c r c'. rw /check_ready_index. intros H Hr Hlt. destruct (c.1 !! i) as [x|] eqn:Hi.
    + destruct (cx x.1); simplify_eq; cbn; rw length_delete ?Hi //; lia.
    + apply lookup_ge_None in Hi. lia.
  - intros cx i c r c'. rw /check_ready_index. intros H Hle. rw lookup_ge_None_2 in H; [by simplify_eq|done].
  - intros i c x Hx. rw Hx /=. by eexists.
Qed.

(** The first index that has weight. *)
Definition sample (len : nat) (ws : nat → Z) : option nat := fst <$> list_find (λ i, (0 < ws i)%Z) (seq 0 len).

#[global] Instance sample_laws : SampleLaws sample.
Proof.
  split.
  - intros len ws i. rw /sample. intros ([j y] & Hf & ->)%fmap_Some. apply list_find_Some in Hf as (Hj & Hy & _).
    apply lookup_seq in Hj as [-> Hlt]. cbn in *. split; [lia|done].
  - intros len ws (i & Hi & Hw). rw /sample fmap_is_Some. apply list_find_elem_of with i; [apply elem_of_seq; lia|done].
Qed.
End Toy.

(** Two services of which the selected one failed: the other one is called. *)
Lemma balance_ready_then_call_witness :
  let cx k := if decide (k = 1) then Toy.Gone else Toy.Up in
  let b := mkBalance (C := Toy.cache) ([(1, 10); (2, 20)], []) (Some 0) in
  ∃ b' x b'', poll_ready Toy.ops (λ _, 1%Z) Toy.sample [] DiscoverPending cx b = Some (ReadyOk, b') ∧
  call Toy.ops b' = Some (x, b'') ∧ x = (2, 20).
Proof.
  intros cx b. destruct (balance_ready_then_call Toy.ops (λ _, 1%Z) Toy.sample [] DiscoverPending cx b) as (r & b' & Hp & Hc).
  assert (r = ReadyOk) as -> by (vm_compute in Hp; congruence).
  destruct (Hc eq_refl) as (x & b'' & Hcall & _). exists b', x, b''. split; [exact Hp|]. split; [exact Hcall|].
  vm_compute in Hp. injection Hp as <-. vm_compute in Hcall. congruence.
Defined.

(** The index that was selected before an eviction is another service's after
    it: the comment in [poll_ready] says that updates do not disturb the order
    of the ready services, the one on removals that they may. *)
Example eviction_moves_the_selected_index :
  let b := mkBalance (C := Toy.cache) ([(1, 10); (2, 20); (3, 30)], []) (Some 0) in
  let weight k := if decide (k = 3) then 0%Z else 1%Z in
  match poll_ready Toy.ops weight Toy.sample [ChangeRemove 1] DiscoverPending (λ _, Toy.Up) b with
  | Some (ReadyOk, b') => fst <$> call Toy.ops b' = Some (3, 30)
  | _ => False
  end.
Proof. vm_compute. reflexivity. Qed.
