(* ===== verification/ChatTypes.v ===== *)
(** * Chat requests, responses and streams

    The bodies the request mappers read and write: the OpenAI chat completion
    types of [vendor/async-openai-patched/src/types/chat.rs], the Responses
    request of [responses.rs] beside it, and the Anthropic message types of
    [vendor/anthropic-ai-sdk-patched/src/types/message.rs].  A struct is a
    record with every field, an enum an inductive type.  A floating-point
    option, which is only carried, is its bit pattern; a struct that is only
    carried (audio, prediction, logarithms of probabilities, web search) is its
    JSON. *)

From S2P Require Import Prelude RustStr Json.
Local Open Scope string_scope.

(** An [f32] that is only carried: its bits. *)
Definition F32 := Z.

(** ** OpenAI chat completions: the request *)

(* src: vendor/async-openai-patched/src/types/chat.rs:21-24 Stop *)
Inductive Stop := StopString (s : string) | StopArray (l : list string).
(* src: vendor/async-openai-patched/src/types/chat.rs:69-76 Role *)
Inductive OaRole := OaSystem | OaUser | OaAssistant | OaTool | OaFunction.
(* src: vendor/async-openai-patched/src/types/chat.rs:80-85 FunctionCall *)
Record FunctionCall := mkCall { call_name : string; call_arguments : string }.
(* src: vendor/async-openai-patched/src/types/chat.rs:194-199 ImageDetail *)
Inductive ImageDetail := DetailAuto | DetailLow | DetailHigh.
(* src: vendor/async-openai-patched/src/types/chat.rs:207-212 ImageUrl *)
Record ImageUrl := mkImageUrl { image_url_url : string; image_url_detail : option ImageDetail }.
(* src: vendor/async-openai-patched/src/types/chat.rs:226-230 InputAudioFormat *)
Inductive InputAudioFormat := Wav | Mp3.
(* src: vendor/async-openai-patched/src/types/chat.rs:233-238 InputAudio *)
Record InputAudio := mkAudio { audio_data : string; audio_format : InputAudioFormat }.
(* src: vendor/async-openai-patched/src/types/chat.rs:523-528 ChatCompletionToolType *)
Inductive ToolType := ToolFunction | ToolUnknown.
(* src: vendor/async-openai-patched/src/types/chat.rs:405-412 ChatCompletionMessageToolCall *)
Record ToolCall := mkToolCall { tc_id : string; tc_type : ToolType; tc_function : FunctionCall }.

(** A text part is its text, a refusal part its refusal. *)
(* src: vendor/async-openai-patched/src/types/chat.rs:157-160 ChatCompletionRequestDeveloperMessageContent *)
Inductive TextContent := TText (s : string) | TArray (parts : list string).
(* src: vendor/async-openai-patched/src/types/chat.rs:254-258 ChatCompletionRequestUserMessageContentPart *)
Inductive UserPart := UPText (text : string) | UPImage (image : ImageUrl) | UPAudio (audio : InputAudio).
(* src: vendor/async-openai-patched/src/types/chat.rs:293-298 ChatCompletionRequestUserMessageContent *)
Inductive UserContent := UText (s : string) | UArray (parts : list UserPart).
(* src: vendor/async-openai-patched/src/types/chat.rs:270-273 ChatCompletionRequestAssistantMessageContentPart *)
Inductive AssistantPart := APText (text : string) | APRefusal (refusal : string).
(* src: vendor/async-openai-patched/src/types/chat.rs:302-307 ChatCompletionRequestAssistantMessageContent *)
Inductive AssistantContent := AText (s : string) | AArray (parts : list AssistantPart).

(* src: vendor/async-openai-patched/src/types/chat.rs:344-364 ChatCompletionRequestAssistantMessage *)
Record AssistantMessage := mkAssistant {
  am_content : option AssistantContent;
  am_refusal : option string;
  am_name : option string;
  am_audio : option string;
  am_tool_calls : option (list ToolCall);
  am_function_call : option FunctionCall
}.

(* src: vendor/async-openai-patched/src/types/chat.rs:395-402 ChatCompletionRequestMessage *)
Inductive ChatMessage :=
| Developer (content : TextContent) (name : option string)
| System (content : TextContent) (name : option string)
| User (content : UserContent) (name : option string)
| Assistant (m : AssistantMessage)
| Tool (content : TextContent) (tool_call_id : string)
| Function (content : option string) (name : string).

(* src: vendor/async-openai-patched/src/types/chat.rs:476-491 FunctionObject *)
Record FunctionObject := mkFunction {
  fo_name : string;
  fo_description : option string;
  fo_parameters : option Value;
  fo_strict : option bool
}.

(* src: vendor/async-openai-patched/src/types/chat.rs:536-544 ChatCompletionTool *)
Record ChatTool := mkChatTool {
  ct_type : ToolType;
  ct_function : option FunctionObject;
  ct_extra : list (string * Value)
}.

(* src: vendor/async-openai-patched/src/types/chat.rs:570-577 ChatCompletionToolChoiceOption *)
Inductive ToolChoiceOption := OptNone | OptAuto | OptRequired | OptNamed (type : ToolType) (name : string).

(* src: vendor/async-openai-patched/src/types/chat.rs:507-519 ResponseFormatJsonSchema *)
Record JsonSchema := mkSchema {
  js_description : option string;
  js_name : string;
  js_schema : option Value;
  js_strict : option bool
}.

(* src: vendor/async-openai-patched/src/types/chat.rs:495-504 ResponseFormat *)
Inductive ResponseFormat := AsText | AsJsonObject | AsJsonSchema (schema : JsonSchema).
(* src: vendor/async-openai-patched/src/types/chat.rs:628-634 ServiceTier *)
Inductive ServiceTier := TierAuto | TierDefault | TierFlex | TierUnknown (s : string).
(* src: vendor/async-openai-patched/src/types/chat.rs:648-656 ReasoningEffort *)
Inductive ReasoningEffort := EffortNone | EffortLow | EffortMedium | EffortHigh | EffortXHigh.

(* src: vendor/async-openai-patched/src/types/chat.rs:727-910 CreateChatCompletionRequest *)
Record ChatRequest := mkChat {
  cr_messages : list ChatMessage;
  cr_model : string;
  cr_store : option bool;
  cr_reasoning_effort : option ReasoningEffort;
  cr_metadata : option Value;
  cr_frequency_penalty : option F32;
  cr_logit_bias : option (list (string * Value));
  cr_logprobs : option bool;
  cr_top_logprobs : option Z;
  cr_max_tokens : option Z;
  cr_max_completion_tokens : option Z;
  cr_n : option Z;
  cr_modalities : option Value;
  cr_prediction : option Value;
  cr_audio : option Value;
  cr_presence_penalty : option F32;
  cr_response_format : option ResponseFormat;
  cr_seed : option Z;
  cr_service_tier : option ServiceTier;
  cr_stop : option Stop;
  cr_stream : option bool;
  cr_stream_options : option bool;   (* [include_usage] *)
  cr_temperature : option F32;
  cr_top_p : option F32;
  cr_tools : option (list ChatTool);
  cr_tool_choice : option ToolChoiceOption;
  cr_parallel_tool_calls : option bool;
  cr_user : option string;
  cr_web_search_options : option Value;
  cr_function_call : option Value;
  cr_functions : option Value;
  cr_extra : list (string * Value)
}.

(** ** OpenAI chat completions: the response and the stream *)

(* src: vendor/async-openai-patched/src/types/chat.rs:113-122 PromptTokensDetails *)
Record PromptTokensDetails := mkPromptDetails {
  pd_audio_tokens : option Z;
  pd_cached_tokens : option Z;
  pd_cache_write_tokens : option Z;
  pd_cache_write_details : option (Z * Z)   (* five minutes, one hour *)
}.

(* src: vendor/async-openai-patched/src/types/chat.rs:126-138 CompletionTokensDetails *)
Record CompletionTokensDetails := mkCompletionDetails {
  cd_accepted_prediction_tokens : option Z;
  cd_audio_tokens : option Z;
  cd_reasoning_tokens : option Z;
  cd_rejected_prediction_tokens : option Z
}.

(* src: vendor/async-openai-patched/src/types/chat.rs:89-100 CompletionUsage *)
Record CompletionUsage := mkUsage {
  prompt_tokens : Z;
  completion_tokens : Z;
  total_tokens : Z;
  prompt_tokens_details : option PromptTokensDetails;
  completion_tokens_details : option CompletionTokensDetails
}.

(* src: vendor/async-openai-patched/src/types/chat.rs:428-449 ChatCompletionResponseMessage *)
Record ResponseMessage := mkResponseMessage {
  rm_content : option string;
  rm_refusal : option string;
  rm_tool_calls : option (list ToolCall);
  rm_role : OaRole;
  rm_function_call : option FunctionCall;
  rm_audio : option Value;
  rm_reasoning_content : option string
}.

(* src: vendor/async-openai-patched/src/types/chat.rs:921-927 FinishReason *)
Inductive FinishReason := FinishStop | FinishLength | FinishToolCalls | FinishContentFilter | FinishFunctionCall.

(* src: vendor/async-openai-patched/src/types/chat.rs:959-970 ChatChoice *)
Record ChatChoice := mkChoice {
  ch_index : Z;
  ch_message : ResponseMessage;
  ch_finish_reason : option FinishReason;
  ch_logprobs : option Value
}.

(* src: vendor/async-openai-patched/src/types/chat.rs:974-993 CreateChatCompletionResponse *)
Record ChatResponse := mkChatResponse {
  resp_id : string;
  resp_choices : list ChatChoice;
  resp_created : Z;
  resp_model : string;
  resp_service_tier : option Value;
  resp_system_fingerprint : option string;
  resp_object : string;
  resp_usage : option CompletionUsage
}.

(* src: vendor/async-openai-patched/src/types/chat.rs:1000-1008 FunctionCallStream *)
Record FunctionCallStream := mkCallStream { fcs_name : option string; fcs_arguments : option string }.

(* src: vendor/async-openai-patched/src/types/chat.rs:1011-1018 ChatCompletionMessageToolCallChunk *)
Record ToolCallChunk := mkChunk {
  chunk_index : Z;
  chunk_id : option string;
  chunk_type : option ToolType;
  chunk_function : option FunctionCallStream
}.

(* src: vendor/async-openai-patched/src/types/chat.rs:1022-1037 ChatCompletionStreamResponseDelta *)
Record StreamDelta := mkDelta {
  d_content : option string;
  d_function_call : option FunctionCallStream;
  d_tool_calls : option (list ToolCallChunk);
  d_role : option OaRole;
  d_refusal : option string;
  d_reasoning_content : option string
}.

(* src: vendor/async-openai-patched/src/types/chat.rs:1040-1057 ChatChoiceStream *)
Record StreamChoice := mkStreamChoice {
  sc_index : Z;
  sc_delta : StreamDelta;
  sc_finish_reason : option FinishReason;
  sc_logprobs : option Value
}.

(* src: vendor/async-openai-patched/src/types/chat.rs:1061-1082 CreateChatCompletionStreamResponse *)
Record StreamResponse := mkStreamResponse {
  sr_id : string;
  sr_choices : list StreamChoice;
  sr_created : Z;
  sr_model : string;
  sr_service_tier : option Value;
  sr_system_fingerprint : option string;
  sr_object : string;
  sr_usage : option CompletionUsage
}.

(** ** Anthropic messages *)

(* src: vendor/anthropic-ai-sdk-patched/src/types/message.rs:171-174 Role *)
Inductive AnRole := AnUser | AnAssistant.
(* src: vendor/anthropic-ai-sdk-patched/src/types/message.rs:219-227 ImageSource *)
Record ImageSource := mkSource { source_type : string; source_media_type : string; source_data : string }.

(* src: vendor/anthropic-ai-sdk-patched/src/types/message.rs:189-215 ContentBlock *)
Inductive ContentBlock :=
| BText (text : string)
| BImage (source : ImageSource)
| BToolUse (id name : string) (input : Value)
| BToolResult (tool_use_id content : string)
| BThinking (thinking signature : string)
| BRedactedThinking (data : string).

(* src: vendor/anthropic-ai-sdk-patched/src/types/message.rs:179-184 MessageContent *)
Inductive MessageContent := CText (content : string) | CBlocks (content : list ContentBlock).
(* src: vendor/anthropic-ai-sdk-patched/src/types/message.rs:160-166 Message *)
Record Message := mkMessage { msg_role : AnRole; msg_content : MessageContent }.

(* src: vendor/anthropic-ai-sdk-patched/src/types/message.rs:231-239 Tool *)
Record AnTool := mkAnTool { at_name : string; at_description : option string; at_input_schema : Value }.
(* src: vendor/anthropic-ai-sdk-patched/src/types/message.rs:244-257 ToolChoice *)
Inductive AnToolChoice := TcAuto | TcAny | TcTool (name : string) | TcNone.
(** [Thinking]: its only type is [Enabled]. *)
(* src: vendor/anthropic-ai-sdk-patched/src/types/message.rs:261-272 Thinking *)
Record Thinking := mkThinking { budget_tokens : Z }.

(* src: vendor/anthropic-ai-sdk-patched/src/types/message.rs:50-87 CreateMessageParams *)
Record MessageParams := mkParams {
  mp_max_tokens : Z;
  mp_messages : list Message;
  mp_model : string;
  mp_system : option string;
  mp_temperature : option F32;
  mp_stop_sequences : option (list string);
  mp_stream : option bool;
  mp_top_k : option Z;
  mp_top_p : option F32;
  mp_tools : option (list AnTool);
  mp_tool_choice : option AnToolChoice;
  mp_thinking : option Thinking;
  mp_metadata : option (list (string * string))
}.

(* src: vendor/anthropic-ai-sdk-patched/src/types/message.rs:306-312 StopReason *)
Inductive StopReason := EndTurn | MaxTokens | StopSequence | ToolUse | Refusal.

(** The cache breakdown: five minutes, one hour. *)
(* src: vendor/anthropic-ai-sdk-patched/src/types/message.rs:325-336 Usage *)
Record AnUsage := mkAnUsage {
  u_input_tokens : Z;
  u_output_tokens : Z;
  u_cache_read : option Z;
  u_cache_creation_tokens : option Z;
  u_cache_creation : option (Z * Z)
}.

(* src: vendor/anthropic-ai-sdk-patched/src/types/message.rs:283-301 CreateMessageResponse *)
Record MessageResponse := mkMessageResponse {
  mr_content : list ContentBlock;
  mr_id : string;
  mr_model : string;
  mr_role : AnRole;
  mr_stop_reason : option StopReason;
  mr_stop_sequence : option string;
  mr_type : string;
  mr_usage : AnUsage
}.

(* src: vendor/anthropic-ai-sdk-patched/src/types/message.rs:439-449 MessageStartContent *)
Record MessageStart := mkMessageStart {
  ms_id : string;
  ms_type : string;
  ms_role : AnRole;
  ms_content : list ContentBlock;
  ms_model : string;
  ms_stop_reason : option StopReason;
  ms_stop_sequence : option string;
  ms_usage : AnUsage
}.

(* src: vendor/anthropic-ai-sdk-patched/src/types/message.rs:453-462 ContentBlockDelta *)
Inductive BlockDelta := TextDelta (text : string) | InputJsonDelta (partial_json : string) | ThinkingDelta (thinking : string) | SignatureDelta (signature : string).

(** [StreamUsage] has the fields of [Usage]. *)
(* src: vendor/anthropic-ai-sdk-patched/src/types/message.rs:410-436 StreamEvent *)
Inductive StreamEvent :=
| EvMessageStart (message : MessageStart)
| EvBlockStart (index : Z) (content_block : ContentBlock)
| EvBlockDelta (index : Z) (delta : BlockDelta)
| EvBlockStop (index : Z)
| EvMessageDelta (stop_reason : option StopReason) (stop_sequence : option string) (usage : option AnUsage)
| EvMessageStop
| EvPing
| EvError (type message : string).

(** ** The Responses request *)

(* src: vendor/async-openai-patched/src/types/responses.rs:16-21 Role *)
Inductive RespRole := RUser | RAssistant | RSystem | RDeveloper.
(* src: vendor/async-openai-patched/src/types/responses.rs:113-123 InputImage *)
Record InputImage := mkInputImage { ii_detail : ImageDetail; ii_file_id : option string; ii_image_url : option string }.
(* src: vendor/async-openai-patched/src/types/responses.rs:133-143 InputFile *)
Record InputFile := mkInputFile { if_data : option string; if_id : option string; if_filename : option string }.
(* src: vendor/async-openai-patched/src/types/responses.rs:91-98 ContentType *)
Inductive ContentType := InputText (text : string) | CtImage (image : InputImage) | CtFile (file : InputFile).
(* src: vendor/async-openai-patched/src/types/responses.rs:80-86 InputContent *)
Inductive InputContent := TextInput (s : string) | ContentList (parts : list ContentType).
(* src: vendor/async-openai-patched/src/types/responses.rs:47-69 InputItem *)
Inductive InputItem := ItemMessage (role : RespRole) (content : InputContent) | ItemCustom (v : Value).
(* src: vendor/async-openai-patched/src/types/responses.rs:35-42 Input *)
Inductive Input := InputTextOnly (s : string) | InputItems (items : list InputItem).

(** A tool that is not a function is its JSON. *)
(* src: vendor/async-openai-patched/src/types/responses.rs:413-435 ToolDefinition *)
Inductive ToolDefinition := DefFunction (name : string) (parameters : Value) (strict : bool) (description : option string) | DefOther (v : Value).
(* src: vendor/async-openai-patched/src/types/responses.rs:835-843 ToolChoiceMode *)
Inductive ChoiceMode := ModeNone | ModeAuto | ModeRequired.
(* src: vendor/async-openai-patched/src/types/responses.rs:848-852 HostedToolType *)
Inductive HostedToolType := HostedFileSearch | HostedWebSearch | HostedComputerUse.
(* src: vendor/async-openai-patched/src/types/responses.rs:815-830 ToolChoice *)
Inductive RespToolChoice := ChoiceOf (mode : ChoiceMode) | ChoiceHosted (kind : HostedToolType) | ChoiceFunction (name : string).
(* src: vendor/async-openai-patched/src/types/responses.rs:400-408 TextResponseFormat *)
Inductive TextFormat := FmtText | FmtJsonObject | FmtJsonSchema (schema : JsonSchema).
(* src: vendor/async-openai-patched/src/types/responses.rs:346-350 ServiceTier *)
Inductive RespTier := RTierAuto | RTierDefault | RTierFlex.

(** The fields the mapper does not read ([background], [include],
    [max_tool_calls], [previous_response_id], [prompt], [truncation], the
    reasoning summary, the verbosity and [extra]) are their JSON. *)
(* src: vendor/async-openai-patched/src/types/responses.rs:154-324 CreateResponse *)
Record ResponsesRequest := mkResponses {
  rq_input : Input;
  rq_model : string;
  rq_instructions : option string;
  rq_max_output_tokens : option Z;
  rq_metadata : option (list (string * string));
  rq_parallel_tool_calls : option bool;
  rq_reasoning : option (option ReasoningEffort);
  rq_service_tier : option RespTier;
  rq_store : option bool;
  rq_stream : option bool;
  rq_temperature : option F32;
  rq_text : option TextFormat;
  rq_tool_choice : option RespToolChoice;
  rq_tools : option (list ToolDefinition);
  rq_top_logprobs : option Z;
  rq_top_p : option F32;
  rq_user : option string;
  rq_unread : list (string * Value)
}.
