(* ===== verification/MapperProfiles.v ===== *)
(** * Profiles of the request mappers

    Models [ai-gateway/src/middleware/mapper/families.rs], [rules.rs],
    [capabilities.rs], [non_stream_profile.rs], [profile_resolver.rs],
    [rule_validator.rs], [request_rule_engine.rs] and
    [non_stream_request_interpreter.rs], the patches of
    [config/mapper_profiles.rs] and the embedded
    [config/embedded/mapper-profiles.yaml]: what a provider's requests and
    responses may contain, and the request that is left. *)

From S2P Require Import Prelude RustStr Provider Json ModelId HealthMonitor ChatTypes.
Local Open Scope string_scope.

(** ** Modes *)

(* src: ai-gateway/src/middleware/mapper/families.rs:5-12 ProviderProtocolFamily *)
Inductive ProviderProtocolFamily := OpenAiCompatible | AnthropicMessages | BedrockConverse | GeminiOpenAiLike | OllamaChat.

#[global] Instance family_eq_dec : EqDecision ProviderProtocolFamily.
Proof. solve_decision. Defined.

(* src: ai-gateway/src/middleware/mapper/families.rs:16-26 ProviderProtocolFamily::for_provider *)
Definition for_provider (p : InferenceProvider) : ProviderProtocolFamily :=
  match p with
  | OpenAI | Custom | Named _ => OpenAiCompatible
  | Anthropic => AnthropicMessages
  | Bedrock => BedrockConverse
  | GoogleGemini => GeminiOpenAiLike
  | Ollama => OllamaChat
  end.

(* src: ai-gateway/src/middleware/mapper/rules.rs:6-10 SystemHandling *)
Inductive SystemHandling := SystemIgnore | SystemMerge | FirstClassField.
(* src: ai-gateway/src/middleware/mapper/rules.rs:14-19 ToolChoiceMode *)
Inductive ToolChoiceMode := ChoiceNative | MapToAny | MapToTool | ChoiceUnsupported.
(* src: ai-gateway/src/middleware/mapper/rules.rs:23-27 ResponseFormatMode *)
Inductive ResponseFormatMode := FormatPassthrough | FormatUnsupported | FormatHelper.
(* src: ai-gateway/src/middleware/mapper/rules.rs:31-36 ReasoningMode *)
Inductive ReasoningMode := ReasoningPassthrough | MapToThinking | MapToAdditionalFields | ReasoningUnsupported.
#[global] Instance format_mode_eq_dec : EqDecision ResponseFormatMode.
Proof. solve_decision. Defined.
#[global] Instance reasoning_mode_eq_dec : EqDecision ReasoningMode.
Proof. solve_decision. Defined.

(* src: ai-gateway/src/middleware/mapper/rules.rs:40-46 MultimodalMode *)
Inductive MultimodalMode := MediaOpenAiStyle | ContentBlocks | ImagesOnly | MediaUnsupported.
(* src: ai-gateway/src/middleware/mapper/rules.rs:50-53 FinishReasonMapping *)
Inductive FinishReasonMapping := FinishPassthrough | FinishProviderSpecific.
(* src: ai-gateway/src/middleware/mapper/rules.rs:57-60 ToolCallMapping *)
Inductive ToolCallMapping := CallsNative | CallsProviderSpecific.
(* src: ai-gateway/src/middleware/mapper/rules.rs:64-67 UsageMapping *)
Inductive UsageMapping := UsagePassthrough | UsageProviderSpecific.
(* src: ai-gateway/src/middleware/mapper/rules.rs:71-76 StreamMode *)
Inductive StreamMode := OpenAiSse | AnthropicEvents | BedrockEventStream.
(* src: ai-gateway/src/middleware/mapper/non_stream_profile.rs:9-14 MessageContentMode *)
Inductive MessageContentMode := ContentOpenAiStyle | AnthropicBlocks | BedrockContent.
(* src: ai-gateway/src/middleware/mapper/non_stream_profile.rs:18-22 ResponseContentMode *)
Inductive ResponseContentMode := ContentPassthrough | AnthropicMessageContent | BedrockOutputMessage.
(* src: ai-gateway/src/middleware/mapper/non_stream_profile.rs:26-29 ToolCallMappingMode *)
Inductive ToolCallMappingMode := CallsNativeMode | CallsHelper.
(* src: ai-gateway/src/middleware/mapper/non_stream_profile.rs:33-36 FinishReasonMappingMode *)
Inductive FinishReasonMappingMode := FinishPassthroughMode | FinishHelper.
(* src: ai-gateway/src/middleware/mapper/non_stream_profile.rs:40-43 UsageMappingMode *)
Inductive UsageMappingMode := UsagePassthroughMode | UsageHelper.

(** ** Rules, capabilities and profiles *)

(* src: ai-gateway/src/middleware/mapper/capabilities.rs:4-12 ProviderCapabilities *)
Record ProviderCapabilities := mkCaps {
  cap_provider : InferenceProvider;
  openai_compatible : bool;
  supports_response_format : bool;
  supports_tool_choice : bool;
  supports_parallel_tool_calls : bool;
  supports_thinking : bool;
  supports_streaming_reasoning : bool
}.

(* src: ai-gateway/src/middleware/mapper/rules.rs:79-85 ProviderRequestRuleSet *)
Record ProviderRequestRuleSet := mkRequestRules {
  rr_system : SystemHandling;
  rr_tool_choice : ToolChoiceMode;
  rr_response_format : ResponseFormatMode;
  rr_reasoning : ReasoningMode;
  rr_multimodal : MultimodalMode
}.

(* src: ai-gateway/src/middleware/mapper/rules.rs:88-92 ProviderResponseRuleSet *)
Record ProviderResponseRuleSet := mkResponseRules {
  rr_finish : FinishReasonMapping;
  rr_calls : ToolCallMapping;
  rr_usage : UsageMapping
}.

(* src: ai-gateway/src/middleware/mapper/rules.rs:100-106 ProviderRuleSet *)
Record ProviderRuleSet := mkRules {
  rule_provider : InferenceProvider;
  rule_family : ProviderProtocolFamily;
  rule_request : ProviderRequestRuleSet;
  rule_response : ProviderResponseRuleSet;
  rule_stream : StreamMode
}.

(* src: ai-gateway/src/middleware/mapper/non_stream_profile.rs:47-54 RequestProfile *)
Record RequestProfile := mkRequestProfile {
  rp_system : SystemHandling;
  rp_content : MessageContentMode;
  rp_tool_choice : ToolChoiceMode;
  rp_response_format : ResponseFormatMode;
  rp_reasoning : ReasoningMode;
  rp_multimodal : MultimodalMode
}.

(* src: ai-gateway/src/middleware/mapper/non_stream_profile.rs:58-63 ResponseProfile *)
Record ResponseProfile := mkResponseProfile {
  rp_out_content : ResponseContentMode;
  rp_calls : ToolCallMappingMode;
  rp_finish : FinishReasonMappingMode;
  rp_usage : UsageMappingMode
}.

(* src: ai-gateway/src/middleware/mapper/non_stream_profile.rs:66-71 NonStreamFormatProfile *)
Record NonStreamFormatProfile := mkProfile {
  p_provider : InferenceProvider;
  p_family : ProviderProtocolFamily;
  p_request : RequestProfile;
  p_response : ResponseProfile
}.

(* src: ai-gateway/src/middleware/mapper/profile_resolver.rs:22-26 ResolvedMapperMetadata *)
Record ResolvedMapperMetadata := mkMeta {
  m_caps : ProviderCapabilities;
  m_rules : ProviderRuleSet;
  m_profile : NonStreamFormatProfile
}.

(** ** Patches *)

(* src: ai-gateway/src/config/mapper_profiles.rs:25-32 MapperCapabilitiesPatch *)
Record MapperCapabilitiesPatch := mkCapsPatch {
  cp_openai_compatible : option bool;
  cp_response_format : option bool;
  cp_tool_choice : option bool;
  cp_parallel : option bool;
  cp_thinking : option bool;
  cp_streaming_reasoning : option bool
}.

(* src: ai-gateway/src/config/mapper_profiles.rs:49-56 RequestProfilePatch *)
Record RequestProfilePatch := mkRequestPatch {
  qp_system : option SystemHandling;
  qp_content : option MessageContentMode;
  qp_tool_choice : option ToolChoiceMode;
  qp_response_format : option ResponseFormatMode;
  qp_reasoning : option ReasoningMode;
  qp_multimodal : option MultimodalMode
}.

(* src: ai-gateway/src/config/mapper_profiles.rs:60-65 ResponseProfilePatch *)
Record ResponseProfilePatch := mkResponsePatch {
  sp_content : option ResponseContentMode;
  sp_calls : option ToolCallMappingMode;
  sp_finish : option FinishReasonMappingMode;
  sp_usage : option UsageMappingMode
}.

(* src: ai-gateway/src/config/mapper_profiles.rs:75-81 MapperProfileCatalogEntry *)
Record MapperProfileCatalogEntry := mkEntry {
  e_family : option ProviderProtocolFamily;
  e_capabilities : option MapperCapabilitiesPatch;
  e_request : option RequestProfilePatch;
  e_response : option ResponseProfilePatch;
  e_stream : option (option StreamMode)
}.

(* src: ai-gateway/src/config/mapper_profiles.rs:85-89 MapperProfilesConfig *)
Record MapperProfilesConfig := mkProfilesConfig {
  family_defaults : ProviderProtocolFamily → option MapperProfileCatalogEntry;
  provider_defaults : InferenceProvider → option MapperProfileCatalogEntry;
  model_overrides : string → option MapperProfileCatalogEntry
}.

(* src: ai-gateway/src/middleware/mapper/profile_resolver.rs:331-343 finish_reason_mapping_from_mode *)
Definition finish_reason_mapping_from_mode (m : FinishReasonMappingMode) : FinishReasonMapping :=
  match m with FinishPassthroughMode => FinishPassthrough | FinishHelper => FinishProviderSpecific end.
(* src: ai-gateway/src/middleware/mapper/profile_resolver.rs:345-356 tool_call_mapping_from_mode *)
Definition tool_call_mapping_from_mode (m : ToolCallMappingMode) : ToolCallMapping :=
  match m with CallsNativeMode => CallsNative | CallsHelper => CallsProviderSpecific end.
(* src: ai-gateway/src/middleware/mapper/profile_resolver.rs:358-369 usage_mapping_from_mode *)
Definition usage_mapping_from_mode (m : UsageMappingMode) : UsageMapping :=
  match m with UsagePassthroughMode => UsagePassthrough | UsageHelper => UsageProviderSpecific end.

(** [None] is a panic of [expect]. *)
(* src: ai-gateway/src/middleware/mapper/profile_resolver.rs:105-130 provider_capabilities_from_patch *)
Definition provider_capabilities_from_patch (p : InferenceProvider) (c : MapperCapabilitiesPatch) : option ProviderCapabilities :=
  a ← cp_openai_compatible c; b ← cp_response_format c; d ← cp_tool_choice c; e ← cp_parallel c; f ← cp_thinking c;
  g ← cp_streaming_reasoning c; Some (mkCaps p a b d e f g).

(* src: ai-gateway/src/middleware/mapper/profile_resolver.rs:132-183 provider_rules_from_patches *)
Definition provider_rules_from_patches (p : InferenceProvider) (family : ProviderProtocolFamily) (q : RequestProfilePatch)
    (s : ResponseProfilePatch) (stream : option StreamMode) : option ProviderRuleSet :=
  sys ← qp_system q; tc ← qp_tool_choice q; rf ← qp_response_format q; rea ← qp_reasoning q; mm ← qp_multimodal q;
  fin ← sp_finish s; calls ← sp_calls s; us ← sp_usage s; st ← stream;
  Some (mkRules p family (mkRequestRules sys tc rf rea mm)
    (mkResponseRules (finish_reason_mapping_from_mode fin) (tool_call_mapping_from_mode calls) (usage_mapping_from_mode us)) st).

(* src: ai-gateway/src/middleware/mapper/profile_resolver.rs:185-230 non_stream_profile_from_patches *)
Definition non_stream_profile_from_patches (p : InferenceProvider) (family : ProviderProtocolFamily) (q : RequestProfilePatch)
    (s : ResponseProfilePatch) : option NonStreamFormatProfile :=
  sys ← qp_system q; mc ← qp_content q; tc ← qp_tool_choice q; rf ← qp_response_format q; rea ← qp_reasoning q;
  mm ← qp_multimodal q; oc ← sp_content s; calls ← sp_calls s; fin ← sp_finish s; us ← sp_usage s;
  Some (mkProfile p family (mkRequestProfile sys mc tc rf rea mm) (mkResponseProfile oc calls fin us)).

(* src: ai-gateway/src/middleware/mapper/profile_resolver.rs:66-103 resolved_from_family_entry *)
Definition resolved_from_family_entry (p : InferenceProvider) (family : ProviderProtocolFamily) (e : MapperProfileCatalogEntry)
  : option ResolvedMapperMetadata :=
  c ← e_capabilities e; q ← e_request e; s ← e_response e; st ← e_stream e;
  caps ← provider_capabilities_from_patch p c;
  rules ← provider_rules_from_patches p family q s st;
  profile ← non_stream_profile_from_patches p family q s;
  Some (mkMeta caps rules profile).

(* src: ai-gateway/src/middleware/mapper/profile_resolver.rs:254-276 apply_capabilities_patch *)
Definition apply_capabilities_patch (c : ProviderCapabilities) (p : MapperCapabilitiesPatch) : ProviderCapabilities :=
  mkCaps (cap_provider c) (default (openai_compatible c) (cp_openai_compatible p))
    (default (supports_response_format c) (cp_response_format p)) (default (supports_tool_choice c) (cp_tool_choice p))
    (default (supports_parallel_tool_calls c) (cp_parallel p)) (default (supports_thinking c) (cp_thinking p))
    (default (supports_streaming_reasoning c) (cp_streaming_reasoning p)).

(* src: ai-gateway/src/middleware/mapper/profile_resolver.rs:278-302 apply_request_patch *)
Definition apply_request_patch (m : ResolvedMapperMetadata) (p : RequestProfilePatch) : ResolvedMapperMetadata :=
  let r := rule_request (m_rules m) in
  let q := p_request (m_profile m) in
  let r := mkRequestRules (default (rr_system r) (qp_system p)) (default (rr_tool_choice r) (qp_tool_choice p))
             (default (rr_response_format r) (qp_response_format p)) (default (rr_reasoning r) (qp_reasoning p))
             (default (rr_multimodal r) (qp_multimodal p)) in
  let q := mkRequestProfile (default (rp_system q) (qp_system p)) (default (rp_content q) (qp_content p))
             (default (rp_tool_choice q) (qp_tool_choice p)) (default (rp_response_format q) (qp_response_format p))
             (default (rp_reasoning q) (qp_reasoning p)) (default (rp_multimodal q) (qp_multimodal p)) in
  mkMeta (m_caps m)
    (mkRules (rule_provider (m_rules m)) (rule_family (m_rules m)) r (rule_response (m_rules m)) (rule_stream (m_rules m)))
    (mkProfile (p_provider (m_profile m)) (p_family (m_profile m)) q (p_response (m_profile m))).

(* src: ai-gateway/src/middleware/mapper/profile_resolver.rs:304-323 apply_response_patch *)
Definition apply_response_patch (m : ResolvedMapperMetadata) (p : ResponseProfilePatch) : ResolvedMapperMetadata :=
  let r := rule_response (m_rules m) in
  let s := p_response (m_profile m) in
  let r := mkResponseRules (from_option finish_reason_mapping_from_mode (rr_finish r) (sp_finish p))
             (from_option tool_call_mapping_from_mode (rr_calls r) (sp_calls p))
             (from_option usage_mapping_from_mode (rr_usage r) (sp_usage p)) in
  let s := mkResponseProfile (default (rp_out_content s) (sp_content p)) (default (rp_calls s) (sp_calls p))
             (default (rp_finish s) (sp_finish p)) (default (rp_usage s) (sp_usage p)) in
  mkMeta (m_caps m)
    (mkRules (rule_provider (m_rules m)) (rule_family (m_rules m)) (rule_request (m_rules m)) r (rule_stream (m_rules m)))
    (mkProfile (p_provider (m_profile m)) (p_family (m_profile m)) (p_request (m_profile m)) s).

(* src: ai-gateway/src/middleware/mapper/profile_resolver.rs:325-329 apply_stream_patch *)
Definition apply_stream_patch (m : ResolvedMapperMetadata) (p : option StreamMode) : ResolvedMapperMetadata :=
  let r := m_rules m in
  mkMeta (m_caps m) (mkRules (rule_provider r) (rule_family r) (rule_request r) (rule_response r) (default (rule_stream r) p))
    (m_profile m).

(* src: ai-gateway/src/middleware/mapper/profile_resolver.rs:232-252 apply_catalog_entry *)
Definition apply_catalog_entry (m : ResolvedMapperMetadata) (entry : option MapperProfileCatalogEntry) : ResolvedMapperMetadata :=
  match entry with
  | None => m
  | Some e =>
      let m := from_option (λ c, mkMeta (apply_capabilities_patch (m_caps m) c) (m_rules m) (m_profile m)) m (e_capabilities e) in
      let m := from_option (apply_request_patch m) m (e_request e) in
      let m := from_option (apply_response_patch m) m (e_response e) in
      from_option (apply_stream_patch m) m (e_stream e)
  end.

(** ** Validation *)

(* src: ai-gateway/src/middleware/mapper/rule_validator.rs:11-29 ProviderRuleValidationError *)
Inductive ProviderRuleValidationError :=
| FamilyCapabilityMismatch (p : InferenceProvider) (family : ProviderProtocolFamily) (compatible : bool)
| ReasoningCapabilityMismatch (p : InferenceProvider) (mode : ReasoningMode)
| ResponseFormatCapabilityMismatch (p : InferenceProvider) (mode : ResponseFormatMode)
| ToolChoiceCapabilityMismatch (p : InferenceProvider) (mode : ToolChoiceMode).

(* src: ai-gateway/src/middleware/mapper/rule_validator.rs:73-135 validate_provider_rules *)
Definition validate_provider_rules (c : ProviderCapabilities) (r : ProviderRuleSet) : result unit ProviderRuleValidationError :=
  let compatible := match rule_family r with OpenAiCompatible | GeminiOpenAiLike | OllamaChat => true | _ => false end in
  if negb (Bool.eqb compatible (openai_compatible c))
     && negb (bool_decide (rule_family r = GeminiOpenAiLike) && bool_decide (cap_provider c = GoogleGemini))
     && negb (bool_decide (rule_family r = OllamaChat) && bool_decide (cap_provider c = Ollama))
  then Err (FamilyCapabilityMismatch (cap_provider c) (rule_family r) (openai_compatible c))
  else if (match rr_reasoning (rule_request r) with MapToThinking | MapToAdditionalFields => true | _ => false end)
          && negb (supports_thinking c)
  then Err (ReasoningCapabilityMismatch (cap_provider c) (rr_reasoning (rule_request r)))
  else if negb (supports_response_format c)
          && negb (match rr_response_format (rule_request r) with FormatUnsupported => true | _ => false end)
  then Err (ResponseFormatCapabilityMismatch (cap_provider c) (rr_response_format (rule_request r)))
  else if negb (supports_tool_choice c)
          && negb (match rr_tool_choice (rule_request r) with ChoiceUnsupported => true | _ => false end)
  then Err (ToolChoiceCapabilityMismatch (cap_provider c) (rr_tool_choice (rule_request r)))
  else Ok tt.

(** [None] is a panic. *)
(* src: ai-gateway/src/middleware/mapper/profile_resolver.rs:36-59 resolve_mapper_metadata_from_config *)
Definition resolve_mapper_metadata_from_config (config : MapperProfilesConfig) (p : InferenceProvider) (model : option string)
  : option (result ResolvedMapperMetadata ProviderRuleValidationError) :=
  let provider_entry := provider_defaults config p in
  let model_entry := model ≫= model_overrides config in
  let family :=
    match model_entry ≫= e_family with
    | Some f => f
    | None => match provider_entry ≫= e_family with Some f => f | None => for_provider p end
    end in
  family_entry ← family_defaults config family;
  m ← resolved_from_family_entry p family family_entry;
  let m := apply_catalog_entry (apply_catalog_entry m provider_entry) model_entry in
  Some (match validate_provider_rules (m_caps m) (m_rules m) with Ok _ => Ok m | Err e => Err e end).

(** ** The embedded catalogue *)

Definition no_caps : MapperCapabilitiesPatch := mkCapsPatch None None None None None None.
Definition no_request : RequestProfilePatch := mkRequestPatch None None None None None None.

(* src: ai-gateway/config/embedded/mapper-profiles.yaml:1-116 family-defaults *)
Definition embedded_family (f : ProviderProtocolFamily) : MapperProfileCatalogEntry :=
  let passthrough := mkResponsePatch (Some ContentPassthrough) (Some CallsNativeMode) (Some FinishPassthroughMode) (Some UsagePassthroughMode) in
  let helper c := mkResponsePatch (Some c) (Some CallsHelper) (Some FinishHelper) (Some UsageHelper) in
  match f with
  | OpenAiCompatible =>
      mkEntry (Some f) (Some (mkCapsPatch (Some true) (Some true) (Some true) (Some true) (Some false) (Some false)))
        (Some (mkRequestPatch (Some FirstClassField) (Some ContentOpenAiStyle) (Some ChoiceNative) (Some FormatPassthrough)
          (Some ReasoningUnsupported) (Some MediaOpenAiStyle)))
        (Some passthrough) (Some (Some OpenAiSse))
  | AnthropicMessages =>
      mkEntry (Some f) (Some (mkCapsPatch (Some false) (Some false) (Some true) (Some true) (Some true) (Some true)))
        (Some (mkRequestPatch (Some FirstClassField) (Some AnthropicBlocks) (Some ChoiceNative) (Some FormatUnsupported)
          (Some MapToThinking) (Some ContentBlocks)))
        (Some (helper AnthropicMessageContent)) (Some (Some AnthropicEvents))
  | BedrockConverse =>
      mkEntry (Some f) (Some (mkCapsPatch (Some false) (Some false) (Some true) (Some true) (Some true) (Some false)))
        (Some (mkRequestPatch (Some SystemIgnore) (Some BedrockContent) (Some ChoiceNative) (Some FormatUnsupported)
          (Some MapToAdditionalFields) (Some ContentBlocks)))
        (Some (helper BedrockOutputMessage)) (Some (Some BedrockEventStream))
  | GeminiOpenAiLike =>
      mkEntry (Some f) (Some (mkCapsPatch (Some false) (Some false) (Some true) (Some true) (Some true) (Some false)))
        (Some (mkRequestPatch (Some FirstClassField) (Some ContentOpenAiStyle) (Some ChoiceNative) (Some FormatUnsupported)
          (Some ReasoningUnsupported) (Some MediaOpenAiStyle)))
        (Some passthrough) (Some (Some OpenAiSse))
  | OllamaChat =>
      mkEntry (Some f) (Some (mkCapsPatch (Some false) (Some false) (Some true) (Some false) (Some false) (Some false)))
        (Some (mkRequestPatch (Some SystemMerge) (Some ContentOpenAiStyle) (Some ChoiceNative) (Some FormatUnsupported)
          (Some ReasoningUnsupported) (Some MediaOpenAiStyle)))
        (Some passthrough) (Some (Some OpenAiSse))
  end.

(* src: ai-gateway/config/embedded/mapper-profiles.yaml:117-139 provider-defaults *)
Definition embedded_provider (p : InferenceProvider) : option MapperProfileCatalogEntry :=
  match p with
  | OpenAI =>
      Some (mkEntry (Some OpenAiCompatible) (Some (mkCapsPatch None None None None (Some true) (Some true)))
        (Some (mkRequestPatch None None None None (Some ReasoningPassthrough) None)) None None)
  | Anthropic =>
      Some (mkEntry (Some AnthropicMessages) (Some (mkCapsPatch None None None None (Some true) (Some true)))
        (Some (mkRequestPatch None None None None (Some MapToThinking) (Some ContentBlocks)))
        (Some (mkResponsePatch (Some AnthropicMessageContent) (Some CallsHelper) (Some FinishHelper) (Some UsageHelper)))
        (Some (Some AnthropicEvents)))
  | _ => None
  end.

(* src: ai-gateway/config/embedded/mapper-profiles.yaml:140-145 model-overrides *)
Definition embedded_model (m : string) : option MapperProfileCatalogEntry :=
  if String.eqb m "deepseek/deepseek-reasoner"
  then Some (mkEntry None (Some (mkCapsPatch None None None None (Some true) None))
         (Some (mkRequestPatch None None None None (Some ReasoningPassthrough) None)) None None)
  else None.

(* src: ai-gateway/src/config/mapper_profiles.rs:91-95 MapperProfilesConfig::default *)
Definition embedded_profiles : MapperProfilesConfig :=
  mkProfilesConfig (λ f, Some (embedded_family f)) embedded_provider embedded_model.

(* src: ai-gateway/src/middleware/mapper/profile_resolver.rs:28-34 resolve_mapper_metadata *)
Definition resolve_mapper_metadata (p : InferenceProvider) (model : option string)
  : option (result ResolvedMapperMetadata ProviderRuleValidationError) :=
  resolve_mapper_metadata_from_config embedded_profiles p model.

(** ** The JSON of a conversation *)

Definition type_name (t : ToolType) : string := match t with ToolFunction => "function" | ToolUnknown => "unknown" end.
Definition detail_name (d : ImageDetail) : string :=
  match d with DetailAuto => "auto" | DetailLow => "low" | DetailHigh => "high" end.

(** [#[serde(skip_serializing_if = "Option::is_none")]]. *)
Definition opt_field (k : string) (v : option Value) : list (string * Value) := from_option (λ v, [(k, v)]) [] v.

Definition text_part (t : string) : Value := Object [("type", Str "text"); ("text", Str t)].

(* src: vendor/async-openai-patched/src/types/chat.rs:251-258 ChatCompletionRequestUserMessageContentPart *)
Definition user_part_value (p : UserPart) : Value :=
  match p with
  | UPText t => text_part t
  | UPImage i =>
      Object [("type", Str "image_url");
              ("image_url", Object [("url", Str (image_url_url i));
                                    ("detail", from_option (λ d, Str (detail_name d)) Null (image_url_detail i))])]
  | UPAudio a =>
      Object [("type", Str "input_audio");
              ("input_audio", Object [("data", Str (audio_data a));
                                      ("format", Str (match audio_format a with Wav => "wav" | Mp3 => "mp3" end))])]
  end.

(* src: vendor/async-openai-patched/src/types/chat.rs:267-273 ChatCompletionRequestAssistantMessageContentPart *)
Definition assistant_part_value (p : AssistantPart) : Value :=
  match p with
  | APText t => text_part t
  | APRefusal r => Object [("type", Str "refusal"); ("refusal", Str r)]
  end.

(** A developer's parts carry no tag, a system's or a tool's do. *)
Definition text_content_value (part : string → Value) (c : TextContent) : Value :=
  match c with TText s => Str s | TArray l => Array (map part l) end.

Definition function_call_value (f : FunctionCall) : Value :=
  Object [("name", Str (call_name f)); ("arguments", Str (call_arguments f))].

(* src: vendor/async-openai-patched/src/types/chat.rs:404-412 ChatCompletionMessageToolCall *)
Definition tool_call_value (c : ToolCall) : Value :=
  Object [("id", Str (tc_id c)); ("type", Str (type_name (tc_type c))); ("function", function_call_value (tc_function c))].

(* src: vendor/async-openai-patched/src/types/chat.rs:392-402 ChatCompletionRequestMessage *)
Definition message_value (m : ChatMessage) : Value :=
  match m with
  | Developer c n =>
      Object (("role", Str "developer") :: ("content", text_content_value (λ t, Object [("text", Str t)]) c)
        :: opt_field "name" (Str <$> n))
  | System c n =>
      Object (("role", Str "system") :: ("content", text_content_value text_part c) :: opt_field "name" (Str <$> n))
  | User c n =>
      Object (("role", Str "user")
        :: ("content", match c with UText s => Str s | UArray l => Array (map user_part_value l) end)
        :: opt_field "name" (Str <$> n))
  | Assistant a =>
      Object (("role", Str "assistant")
        :: opt_field "content"
             ((λ c, match c with AText s => Str s | AArray l => Array (map assistant_part_value l) end) <$> am_content a)
        ++ opt_field "refusal" (Str <$> am_refusal a)
        ++ opt_field "name" (Str <$> am_name a)
        ++ opt_field "audio" ((λ i, Object [("id", Str i)]) <$> am_audio a)
        ++ opt_field "tool_calls" ((λ l, Array (map tool_call_value l)) <$> am_tool_calls a)
        ++ opt_field "function_call" (function_call_value <$> am_function_call a))%list
  | Tool c i =>
      Object [("role", Str "tool"); ("content", text_content_value text_part c); ("tool_call_id", Str i)]
  | Function c n => Object [("role", Str "function"); ("content", from_option Str Null c); ("name", Str n)]
  end.

(* src: ai-gateway/src/middleware/mapper/non_stream_request_interpreter.rs:53-64 contains_image_url_part *)
Fixpoint contains_image_url_part (v : Value) : bool :=
  match v with
  | Object fields =>
      (match assoc "type" fields with Some (Str s) => String.eqb s "image_url" | _ => false end)
      || existsb (λ f, contains_image_url_part f.2) fields
  | Array values => existsb contains_image_url_part values
  | _ => false
  end.

(* src: ai-gateway/src/middleware/mapper/non_stream_request_interpreter.rs:46-51 request_contains_multimodal_content *)
Definition request_contains_multimodal_content (r : ChatRequest) : bool :=
  contains_image_url_part (Array (map message_value (cr_messages r))).

(** ** The request engine *)

(* src: ai-gateway/src/middleware/mapper/rules.rs:108-118 RequestRuleContext *)
Record RequestRuleContext := mkContext {
  rc_provider : InferenceProvider;
  rc_family : ProviderProtocolFamily;
  rc_system : SystemHandling;
  rc_tool_choice : ToolChoiceMode;
  rc_response_format : ResponseFormatMode;
  rc_reasoning : ReasoningMode;
  rc_multimodal : MultimodalMode;
  rc_parallel : bool
}.

(* src: ai-gateway/src/middleware/mapper/request_rule_engine.rs:8-31 build_request_rule_context *)
Definition build_request_rule_context (c : ProviderCapabilities) (r : ProviderRuleSet) : RequestRuleContext :=
  mkContext (rule_provider r) (rule_family r) (rr_system (rule_request r))
    (if supports_tool_choice c then rr_tool_choice (rule_request r) else ChoiceUnsupported)
    (if supports_response_format c then rr_response_format (rule_request r) else FormatUnsupported)
    (rr_reasoning (rule_request r)) (rr_multimodal (rule_request r)) (supports_parallel_tool_calls c).

(** The fields the engine touches. *)
Definition set_request (r : ChatRequest) (effort : option ReasoningEffort) (mt mct : option Z) (rf : option ResponseFormat)
    (tools : option (list ChatTool)) (choice : option ToolChoiceOption) (parallel : option bool) : ChatRequest :=
  mkChat (cr_messages r) (cr_model r) (cr_store r) effort (cr_metadata r) (cr_frequency_penalty r) (cr_logit_bias r)
    (cr_logprobs r) (cr_top_logprobs r) mt mct (cr_n r) (cr_modalities r) (cr_prediction r) (cr_audio r)
    (cr_presence_penalty r) rf (cr_seed r) (cr_service_tier r) (cr_stop r) (cr_stream r) (cr_stream_options r)
    (cr_temperature r) (cr_top_p r) tools choice parallel (cr_user r) (cr_web_search_options r) (cr_function_call r)
    (cr_functions r) (cr_extra r).

Inductive EngineError := ImageMappingInvalid (message : string).

(* src: ai-gateway/src/middleware/mapper/non_stream_request_interpreter.rs:10-44 apply_non_stream_request_profile *)
Definition apply_non_stream_request_profile (p : NonStreamFormatProfile) (r : ChatRequest) : result ChatRequest EngineError :=
  let rf := match rp_response_format (p_request p) with FormatUnsupported => None | _ => cr_response_format r end in
  let '(tools, choice, parallel) :=
    match rp_tool_choice (p_request p) with
    | ChoiceUnsupported => (None, None, None)
    | _ => (cr_tools r, cr_tool_choice r, cr_parallel_tool_calls r)
    end in
  let effort := match rp_reasoning (p_request p) with ReasoningUnsupported => None | _ => cr_reasoning_effort r end in
  let r := set_request r effort (cr_max_tokens r) (cr_max_completion_tokens r) rf tools choice parallel in
  if (match rp_multimodal (p_request p) with MediaUnsupported => true | _ => false end) && request_contains_multimodal_content r
  then Err (ImageMappingInvalid ("provider " ++ provider_display (p_provider p) ++ " does not support multimodal requests"))
  else Ok r.

Section engine.
Context {Date : Type}.
Context (parse : string → option (ModelId Date)).   (* [ModelId::from_str(..).ok()] *)

(* src: ai-gateway/src/middleware/mapper/envelope.rs:16-28 RequestEnvelope *)
Record RequestEnvelope := mkEnvelope {
  e_source_endpoint : ApiEndpoint;
  e_target_provider : InferenceProvider;
  e_target_capabilities : option ProviderCapabilities;
  e_target_rules : option ProviderRuleSet;
  e_rule_context : option RequestRuleContext;
  e_metadata : option ResolvedMapperMetadata;
  e_raw_model : string;
  e_source_model : option (ModelId Date);
  e_is_stream : bool;
  e_openai_request : ChatRequest
}.

(* src: ai-gateway/src/middleware/mapper/envelope.rs:30-57 RequestEnvelope::from_openai_chat_request *)
Definition from_openai_chat_request (ep : ApiEndpoint) (p : InferenceProvider) (r : ChatRequest) : RequestEnvelope :=
  let '(mt, mct) :=
    match cr_max_completion_tokens r, cr_max_tokens r with
    | None, Some v => (None, Some v)
    | mct, mt => (mt, mct)
    end in
  mkEnvelope ep p None None None None (cr_model r) (parse (cr_model r)) (default false (cr_stream r))
    (set_request r (cr_reasoning_effort r) mt mct (cr_response_format r) (cr_tools r) (cr_tool_choice r)
       (cr_parallel_tool_calls r)).

(* src: ai-gateway/src/middleware/mapper/service.rs:370-373 map_request *)
Definition with_resolved (e : RequestEnvelope) (m : ResolvedMapperMetadata) : RequestEnvelope :=
  mkEnvelope (e_source_endpoint e) (e_target_provider e) (Some (m_caps m)) (Some (m_rules m)) (e_rule_context e) (Some m)
    (e_raw_model e) (e_source_model e) (e_is_stream e) (e_openai_request e).

(* src: ai-gateway/src/middleware/mapper/request_rule_engine.rs:33-53 prepare_request_envelope *)
Definition prepare_request_envelope (e : RequestEnvelope) : result RequestEnvelope EngineError :=
  match e_metadata e with
  | None => Ok e
  | Some m =>
      let context := build_request_rule_context (m_caps m) (m_rules m) in
      let? r :=
        if e_is_stream e then Ok (e_openai_request e)
        else
          let? r := apply_non_stream_request_profile (m_profile m) (e_openai_request e) in
          Ok (if rc_parallel context then r
              else set_request r (cr_reasoning_effort r) (cr_max_tokens r) (cr_max_completion_tokens r) (cr_response_format r)
                     (cr_tools r) (cr_tool_choice r) None) in
      Ok (mkEnvelope (e_source_endpoint e) (e_target_provider e) (e_target_capabilities e) (e_target_rules e) (Some context)
            (e_metadata e) (e_raw_model e) (e_source_model e) (e_is_stream e) r)
  end.

(** [map_request]'s use of the two: the [expect] on the metadata is [None]. *)
(* src: ai-gateway/src/middleware/mapper/service.rs:359-382 map_request *)
Definition envelope_for (ep : ApiEndpoint) (p : InferenceProvider) (r : ChatRequest) : option (result RequestEnvelope EngineError) :=
  let e := from_openai_chat_request ep p r in
  match resolve_mapper_metadata (e_target_provider e) (Some (e_raw_model e)) with
  | Some (Ok m) => Some (prepare_request_envelope (with_resolved e m))
  | _ => None
  end.

End engine.

(** ** Invariants *)

(** What the two halves of resolved metadata say about each other. *)
Definition consistent (m : ResolvedMapperMetadata) : Prop :=
  let q := p_request (m_profile m) in
  let s := p_response (m_profile m) in
  cap_provider (m_caps m) = p_provider (m_profile m) ∧ rule_provider (m_rules m) = p_provider (m_profile m) ∧
  rule_family (m_rules m) = p_family (m_profile m) ∧
  rule_request (m_rules m) =
    mkRequestRules (rp_system q) (rp_tool_choice q) (rp_response_format q) (rp_reasoning q) (rp_multimodal q) ∧
  rule_response (m_rules m) =
    mkResponseRules (finish_reason_mapping_from_mode (rp_finish s)) (tool_call_mapping_from_mode (rp_calls s))
      (usage_mapping_from_mode (rp_usage s)).

Ltac use_consistent := intros (?&?&?&E1&E2); repeat split; simpl; rw ?E1 ?E2; try done.

Lemma from_family_consistent p f e m : resolved_from_family_entry p f e = Some m → consistent m.
Proof.
  unfold resolved_from_family_entry. intros H. repeat (apply bind_Some in H as (?&?&H)). simplify_eq.
  repeat match goal with
    H : provider_capabilities_from_patch _ _ = _ |- _ => unfold provider_capabilities_from_patch in H
  | H : provider_rules_from_patches _ _ _ _ _ = _ |- _ => unfold provider_rules_from_patches in H
  | H : non_stream_profile_from_patches _ _ _ _ = _ |- _ => unfold non_stream_profile_from_patches in H
  | H : _ ≫= _ = Some _ |- _ => apply bind_Some in H as (?&?&H)
  end; by simplify_eq.
Qed.

Lemma default_mapped {A B} (f : A → B) (o : option A) x : from_option f (f x) o = f (default x o).
Proof. by destruct o. Qed.

Lemma apply_request_consistent m p : consistent m → consistent (apply_request_patch m p).
Proof. use_consistent. Qed.

Lemma apply_response_consistent m p : consistent m → consistent (apply_response_patch m p).
Proof.
  use_consistent.
  by rw /= (default_mapped finish_reason_mapping_from_mode) (default_mapped tool_call_mapping_from_mode)
    (default_mapped usage_mapping_from_mode).
Qed.

Lemma apply_stream_consistent m p : consistent m → consistent (apply_stream_patch m p).
Proof. use_consistent. Qed.

Lemma apply_capabilities_consistent m c :
  consistent m → consistent (mkMeta (apply_capabilities_patch (m_caps m) c) (m_rules m) (m_profile m)).
Proof. use_consistent. Qed.

Create HintDb mapper.
#[export] Hint Resolve apply_request_consistent apply_response_consistent apply_stream_consistent
  apply_capabilities_consistent : mapper.

Lemma apply_entry_consistent m e : consistent m → consistent (apply_catalog_entry m e).
Proof. destruct e as [[? [c|] [q|] [s|] [st|]]|]; simpl; eauto 6 with mapper. Qed.

Lemma resolve_from_config_consistent config p model m :
  resolve_mapper_metadata_from_config config p model = Some (Ok m) → consistent m.
Proof.
  unfold resolve_mapper_metadata_from_config. intros H. simplify_option_eq.
  case_match; simplify_eq. do 2 apply apply_entry_consistent. by eapply from_family_consistent.
Qed.

(** Every provider and model of the embedded catalogue resolves, the
    metadata is the provider's own, and no profile refuses images. *)
Lemma embedded_resolves p model : ∃ m,
  resolve_mapper_metadata p model = Some (Ok m) ∧ p_provider (m_profile m) = p ∧
  rp_multimodal (p_request (m_profile m)) ≠ MediaUnsupported ∧ rp_tool_choice (p_request (m_profile m)) ≠ ChoiceUnsupported ∧
  (supports_response_format (m_caps m) = false ↔ rp_response_format (p_request (m_profile m)) = FormatUnsupported) ∧
  (supports_thinking (m_caps m) = false → rp_reasoning (p_request (m_profile m)) = ReasoningUnsupported).
Proof.
  unfold resolve_mapper_metadata, resolve_mapper_metadata_from_config.
  destruct model as [model|]; simpl; [unfold embedded_model; destruct (String.eqb model _)|];
    destruct p; eexists; (split; [reflexivity|]); done.
Qed.

(** ** Images in a conversation *)

Definition part_has_image (p : UserPart) : bool := match p with UPImage _ => true | _ => false end.
Definition has_image (m : ChatMessage) : bool :=
  match m with User (UArray l) _ => existsb part_has_image l | _ => false end.

Lemma existsb_map_ext {A} (f : A → Value) (g : A → bool) l :
  (∀ x, contains_image_url_part (f x) = g x) → existsb contains_image_url_part (map f l) = existsb g l.
Proof. intros H. induction l as [|x l IH]; simpl; [done|]. by rw H IH. Qed.

Lemma no_image {A} (f : A → Value) l : (∀ x, contains_image_url_part (f x) = false) →
  existsb contains_image_url_part (map f l) = false.
Proof. intros H. rw (existsb_map_ext f (λ _, false)) //. by induction l. Qed.

Lemma user_part_image p : contains_image_url_part (user_part_value p) = part_has_image p.
Proof. by destruct p as [|[? []]|[? []]]. Qed.

Lemma text_content_image part c : (∀ t, contains_image_url_part (part t) = false) →
  contains_image_url_part (text_content_value part c) = false.
Proof. intros H. destruct c; simpl; [done|]. by apply no_image. Qed.

Lemma tool_call_image c : contains_image_url_part (tool_call_value c) = false.
Proof. by destruct c as [? [] []]. Qed.

(** The scan of the serialised messages finds the image parts of the users'
    messages and nothing else. *)
Lemma message_image m : contains_image_url_part (message_value m) = has_image m.
Proof.
  destruct m as [c n|c n|c n|[c r n a t f]|c i|c n]; simpl; rw ?text_content_image //; try by destruct n.
  - destruct c as [s|l], n; simpl; rw ?(existsb_map_ext _ _ _ user_part_image) ?orb_false_r //.
  - destruct t as [t|], c as [[s|l]|], r, n, a, f; simpl; rw ?(no_image _ _ tool_call_image) //;
      rw (no_image assistant_part_value) //; by intros [].
  - by destruct c.
Qed.

(** The scan of the whole request. *)
Theorem multimodal_is_image_parts r : request_contains_multimodal_content r = existsb has_image (cr_messages r).
Proof. apply existsb_map_ext, message_image. Qed.

(** ** Theorems *)

(** Over one profile that takes images and tools, the interpreter keeps the
    request but for the response format and the reasoning effort. *)
Lemma apply_profile_ok p r :
  rp_multimodal (p_request p) ≠ MediaUnsupported → rp_tool_choice (p_request p) ≠ ChoiceUnsupported →
  apply_non_stream_request_profile p r = Ok
    (set_request r (if decide (rp_reasoning (p_request p) = ReasoningUnsupported) then None else cr_reasoning_effort r)
       (cr_max_tokens r) (cr_max_completion_tokens r)
       (if decide (rp_response_format (p_request p) = FormatUnsupported) then None else cr_response_format r)
       (cr_tools r) (cr_tool_choice r) (cr_parallel_tool_calls r)).
Proof.
  intros Hm Ht. unfold apply_non_stream_request_profile.
  destruct (rp_multimodal _), (rp_tool_choice _), (rp_response_format _), (rp_reasoning _); done.
Qed.

(** C21 (functional). The request a provider is sent.  For every provider, every
    model and every chat request, the mapper's metadata resolves (the [expect]
    never panics) and the engine accepts the request.  What leaves is the
    client's request, messages, tools and every option included, except that
    [max_tokens] is sent as [max_completion_tokens] when the latter is absent
    (both are sent when both are given), and that a request that is not streamed
    loses the response format and the parallel tool calls of a provider that
    does not support them, exactly then, and the reasoning effort exactly when
    the provider's profile says that it is not supported, which is so whenever
    the provider does not support thinking; a streamed request keeps them all. *)
Theorem prepared_request_is_supported {Date} (parse : string → option (ModelId Date)) ep p r :
  ∃ m e effort mt mct rf parallel,
    resolve_mapper_metadata p (Some (cr_model r)) = Some (Ok m) ∧
    envelope_for parse ep p r = Some (Ok e) ∧ e_metadata e = Some m ∧
    e_openai_request e = set_request r effort mt mct rf (cr_tools r) (cr_tool_choice r) parallel ∧
    mct = match cr_max_completion_tokens r with Some v => Some v | None => cr_max_tokens r end ∧
    mt = match cr_max_completion_tokens r with Some _ => cr_max_tokens r | None => None end ∧
    if default false (cr_stream r)
    then rf = cr_response_format r ∧ effort = cr_reasoning_effort r ∧ parallel = cr_parallel_tool_calls r
    else
      rf = (if supports_response_format (m_caps m) then cr_response_format r else None) ∧
      parallel = (if supports_parallel_tool_calls (m_caps m) then cr_parallel_tool_calls r else None) ∧
      effort = (if decide (rp_reasoning (p_request (m_profile m)) = ReasoningUnsupported) then None
                else cr_reasoning_effort r) ∧
      (supports_thinking (m_caps m) = false → effort = None).
Proof.
  destruct (embedded_resolves p (Some (cr_model r))) as (m & Hm & _ & Hi & Ht & Hf & Hr).
  set (mt := match cr_max_completion_tokens r with Some _ => cr_max_tokens r | None => None end).
  set (mct := match cr_max_completion_tokens r with Some v => Some v | None => cr_max_tokens r end).
  assert (from_openai_chat_request parse ep p r =
    mkEnvelope ep p None None None None (cr_model r) (parse (cr_model r)) (default false (cr_stream r))
      (set_request r (cr_reasoning_effort r) mt mct (cr_response_format r) (cr_tools r) (cr_tool_choice r)
         (cr_parallel_tool_calls r))) as He.
  { unfold from_openai_chat_request, mt, mct. by destruct (cr_max_completion_tokens r), (cr_max_tokens r). }
  exists m. unfold envelope_for. rw He /= Hm /prepare_request_envelope /=.
  destruct (default false (cr_stream r)); simpl.
  { do 6 eexists. by split_and!. }
  rw (apply_profile_ok _ _ Hi Ht) /=.
  eexists _, _, mt, mct, _, (if supports_parallel_tool_calls (m_caps m) then cr_parallel_tool_calls r else None).
  split_and!; [done|reflexivity|done| |done|done| |done|done|].
  - simpl. by destruct (supports_parallel_tool_calls _).
  - simpl. destruct (supports_response_format _); case_decide; naive_solver.
  - simpl. intros Hs. by rw (decide_True _ _ (Hr Hs)).
Qed.
