(* ===== verification/AnthropicMap.v ===== *)
(** * Chat requests and responses as Anthropic messages, and back

    Models [ai-gateway/src/middleware/mapper/anthropic.rs] (requests and
    responses), [response_normalizer.rs], the Anthropic half of
    [non_stream_response_interpreter.rs], [system_prompt] of
    [endpoints/openai/chat_completions.rs], [mime_from_data_uri] of [mod.rs], and
    the opposite direction of [openai.rs].

    An outer [None] is a panic.  JSON text, base64 and the recognition of an
    image by its first bytes are parameters.  Sums of [u32] wrap around, as in
    the release profile. *)

From S2P Require Import Prelude RustStr Provider Json ModelId ModelMapper Float64 ChatTypes MapperProfiles.
From Stdlib Require Import Ascii SpecFloat.
Local Open Scope string_scope.

Definition u32_wrapping_add (a b : Z) : Z := (a + b) mod 2 ^ 32.

(** The errors of [MapperError] this code raises. *)
Inductive ConvertError :=
| ModelError (e : MapperError)
| MappingError (e : MapError)
| ProfileUnsupported (message : string)
| InvalidRequest.

(* src: ai-gateway/src/middleware/mapper/mod.rs:54-54 DEFAULT_MAX_TOKENS *)
Definition DEFAULT_MAX_TOKENS : Z := 2000.

(** ** Pieces of a request *)

(* src: ai-gateway/src/endpoints/openai/chat_completions.rs:34-73 system_prompt *)
Definition system_prompt (r : ChatRequest) : option string :=
  match cr_messages r with
  | (Developer c _ | System c _) :: _ =>
      Some (match c with TText t => t | TArray parts => str_join (String newline "") parts end)
  | _ => None
  end.

(* src: ai-gateway/src/middleware/mapper/anthropic.rs:101-123 map_reasoning_effort_to_thinking *)
Definition map_reasoning_effort_to_thinking (effort : option ReasoningEffort) (max_tokens : Z) : option Thinking :=
  if (max_tokens <? 1024)%Z then None
  else match effort with
       | None | Some EffortNone => None
       | Some EffortLow => Some (mkThinking 1024)
       | Some EffortMedium => Some (mkThinking (Z.max 1024 (max_tokens * 2 / 3)))
       | Some (EffortHigh | EffortXHigh) => Some (mkThinking max_tokens)
       end.

(* src: ai-gateway/src/middleware/mapper/anthropic.rs:176-195 try_convert *)
Definition map_tools (tools : option (list ChatTool)) : option (list AnTool) :=
  l ← tools;
  let mapped := omap (λ t, (λ f, mkAnTool (fo_name f) (fo_description f) (default Null (fo_parameters f))) <$> ct_function t) l in
  match mapped with [] => None | _ => Some mapped end.

(* src: ai-gateway/src/middleware/mapper/anthropic.rs:202-214 try_convert *)
Definition map_tool_choice (c : ToolChoiceOption) : AnToolChoice :=
  match c with OptNamed _ name => TcTool name | OptAuto => TcAuto | OptRequired => TcAny | OptNone => TcNone end.

(* src: ai-gateway/src/middleware/mapper/anthropic.rs:169-173 try_convert *)
Definition map_stop (s : Stop) : list string := match s with StopString t => [t] | StopArray l => l end.

Section request.
Context (from_str : string → option Value).          (* [serde_json::from_str] *)
Context (sniff : string → option string).            (* base64 and [infer]: the type of the first bytes *)

(** The slice [&b64[..64]] panics when byte 64 is inside a character. *)
(* src: ai-gateway/src/middleware/mapper/mod.rs:488-504 mime_from_data_uri *)
Definition mime_from_data_uri (uri : string) : option (option string) :=
  match split_once ("," : ascii) uri with
  | None => Some None
  | Some (_, b64) =>
      if (match String.get 64 b64 with Some c => is_continuation c | None => false end) then None
      else Some (sniff (str_take 64 b64))
  end.

(* src: ai-gateway/src/middleware/mapper/anthropic.rs:228-256 try_convert *)
Definition map_user_part (p : UserPart) : option (option ContentBlock) :=
  match p with
  | UPText t => Some (Some (BText t))
  | UPImage i =>
      let url := image_url_url i in
      if starts_with "http" url then Some (Some (BImage (mkSource "url" "" url)))
      else
        mime ← mime_from_data_uri url;
        Some (mime ← mime; x ← split_once ("," : ascii) url; Some (BImage (mkSource "base64" mime x.2)))
  | UPAudio _ => Some None
  end.

(* src: ai-gateway/src/middleware/mapper/anthropic.rs:222-267 try_convert *)
Definition map_user (c : UserContent) : option (list Message) :=
  match c with
  | UText t => Some [mkMessage AnUser (CText t)]
  | UArray parts => blocks ← mapM map_user_part parts; Some [mkMessage AnUser (CBlocks (omap id blocks))]
  end.

(* src: ai-gateway/src/middleware/mapper/anthropic.rs:300-314 try_convert *)
Definition map_tool_call (c : ToolCall) : ContentBlock :=
  let arguments := call_arguments (tc_function c) in
  BToolUse (tc_id c) (call_name (tc_function c))
    (if is_empty arguments then Object [] else default (Object []) (from_str arguments)).

(* src: ai-gateway/src/middleware/mapper/anthropic.rs:268-328 try_convert *)
Definition map_assistant (m : AssistantMessage) : list Message :=
  let texts :=
    match am_content m with
    | Some (AText t) => if is_empty t then [] else [BText t]
    | Some (AArray parts) => map (λ p, match p with APText t => BText t | APRefusal t => BText t end) parts
    | None => []
    end in
  let blocks := (texts ++ map map_tool_call (default [] (am_tool_calls m)))%list in
  match blocks with [] => [] | _ => [mkMessage AnAssistant (CBlocks blocks)] end.

(* src: ai-gateway/src/middleware/mapper/anthropic.rs:329-363 try_convert *)
Definition map_tool_message (c : TextContent) (tool_call_id : string) : list Message :=
  let blocks := match c with TText t => [BToolResult tool_call_id t] | TArray l => map (BToolResult tool_call_id) l end in
  [mkMessage AnUser (CBlocks blocks)].

(* src: ai-gateway/src/middleware/mapper/anthropic.rs:364-384 try_convert *)
Definition map_function_message (tools : option (list AnTool)) (name : string) : list Message :=
  match tools ≫= λ l, list_find (λ t, at_name t = name) l with
  | None => []
  | Some (_, t) => [mkMessage AnAssistant (CBlocks [BToolUse name (at_name t) (at_input_schema t)])]
  end.

(* src: ai-gateway/src/middleware/mapper/anthropic.rs:216-385 try_convert *)
Definition map_message (tools : option (list AnTool)) (m : ChatMessage) : option (list Message) :=
  match m with
  | Developer _ _ | System _ _ => Some []
  | User c _ => map_user c
  | Assistant a => Some (map_assistant a)
  | Tool c i => Some (map_tool_message c i)
  | Function _ name => Some (map_function_message tools name)
  end.

(** The parameters but for the model, which the two conversions choose
    differently. *)
(* src: ai-gateway/src/middleware/mapper/anthropic.rs:163-402 try_convert *)
Definition message_params (r : ChatRequest) (model : string) : option MessageParams :=
  let max_tokens := match cr_max_completion_tokens r with Some v => v | None => default DEFAULT_MAX_TOKENS (cr_max_tokens r) end in
  let tools := map_tools (cr_tools r) in
  messages ← mapM (map_message tools) (cr_messages r);
  Some (mkParams max_tokens (concat messages) model (system_prompt r) (cr_temperature r) (map_stop <$> cr_stop r)
    (cr_stream r) None (cr_top_p r) tools (map_tool_choice <$> cr_tool_choice r)
    (map_reasoning_effort_to_thinking (cr_reasoning_effort r) max_tokens) ((λ u, [("user_id", u)]) <$> cr_user r)).

(* src: ai-gateway/src/middleware/mapper/anthropic.rs:405-635 try_convert_model_passthrough *)
Definition try_convert_model_passthrough (r : ChatRequest) : option MessageParams := message_params r (cr_model r).

Section model.
Context {Date : Type} (parse : string → string → option Date) (year : string) (format : Date → string → string).
Context (mm : ModelMapper (Date := Date)).

(* src: ai-gateway/src/middleware/mapper/anthropic.rs:147-161 try_convert *)
Definition anthropic_alias (m : ModelId Date) : ModelId Date :=
  match m with
  | WithVersion Anthropic id =>
      WithVersion Anthropic (mkModelIdWithVersion (model id) (if contains "claude-3" (model id) then Latest else ImplicitLatest))
  | _ => m
  end.

(* src: ai-gateway/src/middleware/mapper/anthropic.rs:134-162 try_convert *)
Definition try_convert (r : ChatRequest) : option (result MessageParams ConvertError) :=
  match model_id_from_str parse year (cr_model r) with
  | Err e => Some (Err (ModelError e))
  | Ok source =>
      match map_model mm source Anthropic with
      | Err e => Some (Err (MappingError e))
      | Ok target => Ok <$> message_params r (model_id_display format (anthropic_alias target))
      end
  end.

End model.
End request.

(** ** Responses *)

(* src: ai-gateway/src/middleware/mapper/response_normalizer.rs:8-26 build_usage *)
Definition build_usage (prompt completion : Z) (cached : option Z) : CompletionUsage :=
  mkUsage prompt completion (u32_wrapping_add prompt completion) (Some (mkPromptDetails None cached None None)) None.

(* src: ai-gateway/src/middleware/mapper/response_normalizer.rs:28-37 normalize_tool_calls *)
Definition normalize_tool_calls (l : list ToolCall) : option (list ToolCall) := match l with [] => None | _ => Some l end.

(* src: ai-gateway/src/middleware/mapper/response_normalizer.rs:39-54 build_assistant_message *)
Definition build_assistant_message (content : option string) (calls : option (list ToolCall)) : ResponseMessage :=
  mkResponseMessage content None calls OaAssistant None None None.

(* src: ai-gateway/src/middleware/mapper/response_normalizer.rs:56-85 build_chat_response *)
Definition build_chat_response (id model : string) (content : option string) (calls : option (list ToolCall))
    (finish : option FinishReason) (usage : CompletionUsage) : ChatResponse :=
  mkChatResponse id [mkChoice 0 (build_assistant_message content calls) finish None] 0 model None None "chat.completion" (Some usage).

(* src: ai-gateway/src/middleware/mapper/non_stream_response_interpreter.rs:309-323 map_anthropic_finish_reason *)
Definition map_anthropic_finish_reason (r : option StopReason) : option FinishReason :=
  match r with
  | Some (EndTurn | StopSequence) => Some FinishStop
  | Some MaxTokens => Some FinishLength
  | Some ToolUse => Some FinishToolCalls
  | Some Refusal => Some FinishContentFilter
  | None => None
  end.

(* src: ai-gateway/src/middleware/mapper/non_stream_response_interpreter.rs:180-219 validate_anthropic_response_profile *)
Definition validate_anthropic_response_profile (p : NonStreamFormatProfile) : result unit ConvertError :=
  if negb (bool_decide (p_provider p = Anthropic))
  then Err (ProfileUnsupported ("anthropic response interpreter does not support provider " ++ provider_display (p_provider p)))
  else match p_response p with
       | mkResponseProfile AnthropicMessageContent CallsHelper FinishHelper UsageHelper => Ok tt
       | _ => Err InvalidRequest
       end.

Section response.
Context (to_string : Value → string) (from_str : string → option Value).

(* src: ai-gateway/src/middleware/mapper/non_stream_response_interpreter.rs:274-304 extract_anthropic_content *)
Definition extract_block (acc : option string * list ToolCall) (b : ContentBlock) : option string * list ToolCall :=
  match b with
  | BToolUse id name input => (acc.1, acc.2 ++ [mkToolCall id ToolFunction (mkCall name (to_string input))])%list
  | BToolResult id content => (acc.1, acc.2 ++ [mkToolCall id ToolFunction (mkCall id (to_string (Str content)))])%list
  | BText t => (Some t, acc.2)
  | BImage _ | BThinking _ _ | BRedactedThinking _ => acc
  end.

(* src: ai-gateway/src/middleware/mapper/non_stream_response_interpreter.rs:260-307 extract_anthropic_content *)
Definition extract_anthropic_content (blocks : list ContentBlock) : option string * list ToolCall :=
  foldl extract_block (None, []) blocks.

(* src: ai-gateway/src/middleware/mapper/non_stream_response_interpreter.rs:42-63 convert_anthropic_response *)
Definition convert_anthropic_response (p : NonStreamFormatProfile) (v : MessageResponse) : result ChatResponse ConvertError :=
  let? _ := validate_anthropic_response_profile p in
  let usage := build_usage (u_input_tokens (mr_usage v)) (u_output_tokens (mr_usage v)) None in
  let '(content, calls) := extract_anthropic_content (mr_content v) in
  Ok (build_chat_response (mr_id v) (mr_model v) content (normalize_tool_calls calls)
        (map_anthropic_finish_reason (mr_stop_reason v)) usage).

(** [value.choices.remove(0)] panics when there is no choice. *)
(* src: ai-gateway/src/middleware/mapper/openai.rs:278-339 try_convert *)
Definition message_of_chat_response (v : ChatResponse) : option MessageResponse :=
  let usage :=
    match resp_usage v with
    | None => mkAnUsage 0 0 None None None
    | Some u => mkAnUsage (prompt_tokens u) (completion_tokens u) None None None
    end in
  choice ← head (resp_choices v);
  let m := ch_message choice in
  let stop_reason := match rm_refusal m with Some _ => Some Refusal | None => None end in
  let uses := omap (λ c, (λ input, BToolUse (tc_id c) (call_name (tc_function c)) input) <$> from_str (call_arguments (tc_function c)))
                (default [] (rm_tool_calls m)) in
  let text := from_option (λ t, [BText t]) [] (rm_content m) in
  Some (mkMessageResponse (uses ++ text)%list (resp_id v) (resp_model v) AnAssistant stop_reason None "message" usage).

End response.

(** ** Anthropic requests for an OpenAI provider *)

Definition percent (n : Z) : f64 := f64_div (f64_of_Z n) (f64_of_Z 100).

(* src: ai-gateway/src/middleware/mapper/openai.rs:46-68 try_convert *)
Definition effort_of_thinking (t : Thinking) (max_tokens : Z) : ReasoningEffort :=
  let budget := f64_div (f64_of_Z (budget_tokens t)) (f64_of_Z max_tokens) in
  if f64_lt budget (percent 33) then EffortLow
  else if f64_lt budget (percent 66) then EffortMedium
  else if SFleb budget (f64_of_Z 1) then EffortHigh
  else EffortMedium.

(* src: ai-gateway/src/middleware/mapper/openai.rs:82-100 try_convert *)
Definition chat_tool_choice (c : AnToolChoice) : ToolChoiceOption :=
  match c with TcAuto => OptAuto | TcNone => OptNone | TcAny => OptRequired | TcTool name => OptNamed ToolFunction name end.

(* src: ai-gateway/src/middleware/mapper/openai.rs:101-119 try_convert *)
Definition chat_tool (t : AnTool) : ChatTool :=
  mkChatTool ToolFunction (Some (mkFunction (at_name t) (at_description t) (Some (at_input_schema t)) None)) [].

(* src: ai-gateway/src/middleware/mapper/openai.rs:143-227 try_convert *)
Definition chat_message (m : Message) : ChatMessage :=
  match msg_role m with
  | AnAssistant =>
      let content :=
        match msg_content m with
        | CText t => AText t
        | CBlocks l => AArray (omap (λ b, match b with BText t => Some (APText t) | _ => None end) l)
        end in
      Assistant (mkAssistant (Some content) None None None None None)
  | AnUser =>
      User (match msg_content m with
            | CText t => UText t
            | CBlocks l =>
                UArray (omap (λ b, match b with
                                   | BText t => Some (UPText t)
                                   | BImage s => Some (UPImage (mkImageUrl (source_data s) None))
                                   | _ => None
                                   end) l)
            end) None
  end.

(* src: ai-gateway/src/middleware/mapper/openai.rs:34-266 try_convert *)
Definition chat_request_of_message {Date} (parse : string → string → option Date) (year : string)
    (format : Date → string → string) (mm : ModelMapper (Date := Date)) (v : MessageParams) : result ChatRequest ConvertError :=
  let? source := map_err ModelError (model_id_from_str parse year (mp_model v)) in
  let? target := map_err MappingError (map_model mm source OpenAI) in
  let effort := (λ t, effort_of_thinking t (mp_max_tokens v)) <$> mp_thinking v in
  let fields := mp_metadata v in
  let user := fields ≫= λ l, snd <$> (snd <$> list_find (λ f, f.1 = "user_id") l) in
  let metadata := (λ l, Object (map (λ f, (f.1, Str f.2)) (filter (λ f, f.1 ≠ "user_id") l))) <$> fields in
  let messages := (from_option (λ s, [Developer (TText s) None]) [] (mp_system v) ++ map chat_message (mp_messages v))%list in
  Ok (mkChat messages (model_id_display format target) None effort metadata None None None None None (Some (mp_max_tokens v))
        None None None None None None None None (StopArray <$> mp_stop_sequences v) (mp_stream v)
        (if default false (mp_stream v) then Some true else None) (mp_temperature v) (mp_top_p v)
        (map chat_tool <$> mp_tools v) (chat_tool_choice <$> mp_tool_choice v) None user None None None []).

(** ** What a conversation says *)

(** The tool calls, the tool results and the texts of the two formats. *)
Definition calls_of (m : ChatMessage) : list ToolCall := match m with Assistant a => default [] (am_tool_calls a) | _ => [] end.
Definition results_of (m : ChatMessage) : list (string * string) :=
  match m with Tool c i => map (pair i) (match c with TText t => [t] | TArray l => l end) | _ => [] end.
Definition texts_of (m : ChatMessage) : list (AnRole * string) :=
  match m with
  | User (UText t) _ => [(AnUser, t)]
  | User (UArray l) _ => omap (λ p, match p with UPText t => Some (AnUser, t) | _ => None end) l
  | Assistant a =>
      match am_content a with
      | Some (AText t) => [(AnAssistant, t)]
      | Some (AArray l) => map (λ p, (AnAssistant, match p with APText t => t | APRefusal t => t end)) l
      | None => []
      end
  | _ => []
  end.

(** The instructions a message gives. *)
Definition instructions_of (m : ChatMessage) : option (list string) :=
  match m with
  | Developer (TText t) _ | System (TText t) _ => Some [t]
  | Developer (TArray l) _ | System (TArray l) _ => Some l
  | _ => None
  end.

Definition blocks_of (m : Message) : list ContentBlock := match msg_content m with CText t => [BText t] | CBlocks l => l end.
Definition block_use (_ : AnRole) (b : ContentBlock) : list (string * string * Value) :=
  match b with BToolUse i n v => [(i, n, v)] | _ => [] end.
Definition block_result (_ : AnRole) (b : ContentBlock) : list (string * string) :=
  match b with BToolResult i t => [(i, t)] | _ => [] end.
Definition block_text (r : AnRole) (b : ContentBlock) : list (AnRole * string) := match b with BText t => [(r, t)] | _ => [] end.

(** What one projection sees of the messages. *)
Definition seen {C} (g : AnRole → ContentBlock → list C) (l : list Message) : list C :=
  flat_map (λ m, flat_map (g (msg_role m)) (blocks_of m)) l.

(** The texts that say something. *)
Definition spoken (l : list (AnRole * string)) : list (AnRole * string) := filter (λ x, x.2 ≠ "") l.

Lemma seen_concat {A C} (f : A → option (list Message)) (g : AnRole → ContentBlock → list C) (h : A → list C) l out :
  (∀ x y, x ∈ l → f x = Some y → seen g y = h x) → mapM f l = Some out → seen g (concat out) = flat_map h l.
Proof.
  intros H Hl. apply mapM_Some in Hl. unfold seen in *.
  induction Hl as [|x y l out Hxy Hl IH]; simpl; [done|].
  rw flat_map_app (H x y) //; [|by left]. rw IH //. intros. eapply H; [by right|done].
Qed.

Lemma spoken_app a b : spoken (a ++ b) = (spoken a ++ spoken b)%list.
Proof. apply filter_app. Qed.

Lemma spoken_flat {A} (f : A → list (AnRole * string)) l : spoken (flat_map f l) = flat_map (λ x, spoken (f x)) l.
Proof. induction l; simpl; [done|]. by rw spoken_app IHl. Qed.

Lemma flat_map_map {A B C} (f : A → B) (g : B → list C) l : flat_map g (map f l) = flat_map (λ x, g (f x)) l.
Proof. induction l; simpl; [done|]. by rw IHl. Qed.

Lemma flat_map_nil {A C} (f : A → list C) l : (∀ x, f x = []) → flat_map f l = [].
Proof. intros H. induction l; simpl; [done|]. by rw H IHl. Qed.

Lemma flat_map_single {A C} (f : A → C) l : flat_map (λ x, [f x]) l = map f l.
Proof. induction l; simpl; [done|]. by rw IHl. Qed.

Section conversation.
Context (from_str : string → option Value) (sniff : string → option string).

(** What a converted user part shows. *)
Lemma user_parts {C} (g : ContentBlock → list C) (h : UserPart → list C) l blocks :
  (∀ t, g (BText t) = h (UPText t)) → (∀ i s, g (BImage s) = [] ∧ h (UPImage i) = []) → (∀ a, h (UPAudio a) = []) →
  mapM (map_user_part sniff) l = Some blocks → flat_map g (omap id blocks) = flat_map h l.
Proof.
  intros Ht Hi Ha H. apply mapM_Some in H. induction H as [|p b l blocks Hp _ IH]; [done|].
  assert (Hb : from_option g [] b = h p).
  { destruct p as [t|i|a]; simpl in Hp.
    - injection Hp as <-. apply Ht.
    - destruct (starts_with _ _); [injection Hp as <-; simpl; by destruct (Hi i (mkSource "url" "" (image_url_url i))) as [-> ->]|].
      destruct (mime_from_data_uri _ _) as [mime|]; [|done]. injection Hp as <-. rw (proj2 (Hi i (mkSource "" "" ""))).
      destruct mime as [mime|]; [|done]. simpl. destruct (split_once _ _); [|done]. simpl. by apply Hi.
    - injection Hp as <-. by rw Ha. }
  simpl. rw -Hb -IH. by destruct b.
Qed.

(** The blocks of an assistant message, whether or not a message is built. *)
Definition assistant_texts (a : AssistantMessage) : list ContentBlock :=
  match am_content a with
  | Some (AText t) => if is_empty t then [] else [BText t]
  | Some (AArray parts) => map (λ p, match p with APText t => BText t | APRefusal t => BText t end) parts
  | None => []
  end.

Lemma seen_assistant {C} (g : AnRole → ContentBlock → list C) a :
  seen g (map_assistant from_str a) =
  (flat_map (g AnAssistant) (assistant_texts a)
   ++ flat_map (λ c, g AnAssistant (map_tool_call from_str c)) (default [] (am_tool_calls a)))%list.
Proof.
  unfold map_assistant, seen. fold (assistant_texts a).
  rw -(flat_map_map (map_tool_call from_str) (g AnAssistant)) -flat_map_app.
  destruct (_ ++ _)%list eqn:E; [done|]. simpl. by rw app_nil_r.
Qed.

Lemma assistant_texts_only {C} (g : ContentBlock → list C) a : (∀ t, g (BText t) = []) → flat_map g (assistant_texts a) = [].
Proof.
  intros H. unfold assistant_texts. destruct (am_content a) as [[t|l]|]; [|rw flat_map_map; apply flat_map_nil; by intros []|done].
  destruct (is_empty t); simpl; by rw ?H.
Qed.

Definition no_function (m : ChatMessage) : Prop := match m with Function _ _ => False | _ => True end.

Lemma message_uses tools m out : no_function m → map_message from_str sniff tools m = Some out →
  seen block_use out = map (λ c, match map_tool_call from_str c with BToolUse i n v => (i, n, v) | _ => ("", "", Null) end) (calls_of m).
Proof.
  intros Hf H. destruct m as [| |c n|a|c i|]; simpl in *; simplify_eq; [done..| | | |done].
  - unfold map_user in H. destruct c as [t|l]; [by simplify_eq|].
    destruct (mapM _ _) as [blocks|] eqn:E; simplify_eq/=. unfold seen; simpl. rw app_nil_r.
    rw (user_parts _ (λ _, []) _ _ _ _ _ E) //. by apply flat_map_nil.
  - rw seen_assistant (assistant_texts_only (block_use AnAssistant)) //.
  - unfold seen; simpl. rw app_nil_r. destruct c; simpl; [done|]. rw flat_map_map. by apply flat_map_nil.
Qed.

Lemma message_results tools m out : no_function m → map_message from_str sniff tools m = Some out → seen block_result out = results_of m.
Proof.
  intros Hf H. destruct m as [| |c n|a|c i|]; simpl in *; simplify_eq; [done..| | | |done].
  - unfold map_user in H. destruct c as [t|l]; [by simplify_eq|].
    destruct (mapM _ _) as [blocks|] eqn:E; simplify_eq/=. unfold seen; simpl. rw app_nil_r.
    rw (user_parts _ (λ _, []) _ _ _ _ _ E) //. by apply flat_map_nil.
  - rw seen_assistant (assistant_texts_only (block_result AnAssistant)) //. by apply flat_map_nil.
  - unfold seen; simpl. rw app_nil_r. destruct c; simpl; [done|]. rw flat_map_map /=. apply flat_map_single.
Qed.

Lemma message_texts tools m out : no_function m → map_message from_str sniff tools m = Some out →
  spoken (seen block_text out) = spoken (texts_of m).
Proof.
  intros Hf H. destruct m as [| |c n|a|c i|]; simpl in *; simplify_eq; [done..| | | |done].
  - unfold map_user in H. destruct c as [t|l]; [by simplify_eq|].
    destruct (mapM _ _) as [blocks|] eqn:E; simplify_eq/=. unfold seen; simpl. rw app_nil_r.
    rw (user_parts _ (λ p, match p with UPText t => [(AnUser, t)] | _ => [] end) _ _ _ _ _ E) //.
    f_equal. clear. induction l as [|[] l IH]; simpl; [done|..]; by rw ?IH.
  - rw seen_assistant (flat_map_nil (λ c, block_text AnAssistant (map_tool_call from_str c))) // app_nil_r.
    unfold assistant_texts. destruct (am_content a) as [[[]|l]|]; [done|done| |done].
    rw flat_map_map -flat_map_single. f_equal. induction l as [|[] l IH]; simpl; [done|..]; by rw IH.
  - unfold seen; simpl. rw app_nil_r. destruct c; simpl; [done|]. rw flat_map_map. by rw flat_map_nil.
Qed.

End conversation.

(** ** Theorems *)

(** The arguments of a call are the input of its use: the JSON they spell. *)
Definition same_call (from_str : string → option Value) (c : ToolCall) (u : string * string * Value) : Prop :=
  u.1 = (tc_id c, call_name (tc_function c)) ∧
  (∀ v, call_arguments (tc_function c) ≠ "" → from_str (call_arguments (tc_function c)) = Some v → u.2 = v).

(** What the messages of the parameters hold. *)
Lemma params_conversation from_str sniff r model p :
  message_params from_str sniff r model = Some p →
  Forall no_function (cr_messages r) →
  Forall2 (same_call from_str) (flat_map calls_of (cr_messages r)) (seen block_use (mp_messages p)) ∧
  seen block_result (mp_messages p) = flat_map results_of (cr_messages r) ∧
  spoken (seen block_text (mp_messages p)) = spoken (flat_map texts_of (cr_messages r)).
Proof.
  intros H Hf. apply bind_Some in H as (out & Hout & [= <-]); simpl.
  assert (Hf' : ∀ m, m ∈ cr_messages r → no_function m) by by apply Forall_forall. clear Hf. rename Hf' into Hf.
  split_and!.
  - rw (seen_concat _ _ _ _ _ (λ m y Hm, message_uses _ _ _ m y (Hf m Hm)) Hout).
    clear. induction (cr_messages r) as [|m l IH]; simpl; [constructor|].
    apply Forall2_app; [|done].
    clear. induction (calls_of m) as [|c cs IH]; simpl; constructor; [|done].
    split; [done|]. simpl. intros v Hne Hv. destruct (call_arguments _); [done|]. simpl. by rw Hv.
  - exact (seen_concat _ _ _ _ _ (λ m y Hm, message_results _ _ _ m y (Hf m Hm)) Hout).
  - rw spoken_flat. unfold seen. apply mapM_Some in Hout. revert Hf.
    induction Hout as [|m y l ys Hm _ IH]; simpl; intros Hf; [done|].
    rw flat_map_app spoken_app (message_texts _ _ _ _ _ (Hf m _) Hm); [|by left]. f_equal. apply IH. intros. apply Hf. by right.
Qed.

(** C22 (functional). A conversation sent to Anthropic is the client's.  For a
    chat request without messages of the deprecated [function] role, whatever the
    model and whichever of the two conversions is used, the messages sent hold the
    client's tool calls in order, each with its id, its function and the JSON its
    arguments spell; the client's tool results in order, each with the id of its
    call; and every text of a user or an assistant that is not empty, in order,
    under the role that said it.  The system prompt is the text of the first
    message when that is a system or a developer message, its parts on lines of
    their own, and else there is none; such a message anywhere else is dropped
    ([later_instructions_are_dropped]).  The limits are the client's, and a
    thinking budget lies between 1024 and the tokens allowed. *)
Theorem anthropic_request_keeps_the_conversation from_str sniff r model p :
  message_params from_str sniff r model = Some p →
  Forall no_function (cr_messages r) →
  Forall2 (same_call from_str) (flat_map calls_of (cr_messages r)) (seen block_use (mp_messages p)) ∧
  seen block_result (mp_messages p) = flat_map results_of (cr_messages r) ∧
  spoken (seen block_text (mp_messages p)) = spoken (flat_map texts_of (cr_messages r)) ∧
  mp_system p = str_join (String newline "") <$> (head (cr_messages r) ≫= instructions_of) ∧
  mp_max_tokens p = default (default DEFAULT_MAX_TOKENS (cr_max_tokens r)) (cr_max_completion_tokens r) ∧
  (∀ t, mp_thinking p = Some t → (1024 ≤ budget_tokens t ≤ mp_max_tokens p)%Z).
Proof.
  intros H Hf. destruct (params_conversation _ _ _ _ _ H Hf) as (H1 & H2 & H3). split_and!; [done..| | |].
  all: apply bind_Some in H as (out & _ & [= <-]); simpl.
  - unfold system_prompt. by destruct (cr_messages r) as [|[[]| [] | | | |] l].
  - by destruct (cr_max_completion_tokens r).
  - intros t. unfold map_reasoning_effort_to_thinking.
    set (n := match cr_max_completion_tokens r with Some v => v | None => _ end).
    destruct (Z.ltb_spec n 1024); [done|].
    destruct (cr_reasoning_effort r) as [[]|]; intros; simplify_eq/=; try lia.
    pose proof (Z.div_le_upper_bound (n * 2) 3 n ltac:(lia) ltac:(lia)). lia.
Qed.

(** A text of the request. *)
Definition blank_chat (messages : list ChatMessage) : ChatRequest :=
  mkChat messages "claude-opus-4" None (Some EffortMedium) None None None None None None (Some 3000%Z) None None None None None None
    None None None None None None None None None None None None None None [].
Definition sample_assistant : AssistantMessage :=
  mkAssistant (Some (AText "on it")) None None None (Some [mkToolCall "t1" ToolFunction (mkCall "look" "{1}")]) None.
Definition sample_chat : ChatRequest :=
  blank_chat [System (TText "be kind") None; User (UArray [UPText "hello"; UPAudio (mkAudio "x" Wav)]) None;
              Assistant sample_assistant; Tool (TText "seen") "t1"].
Definition sample_from_str (s : string) : option Value := if String.eqb s "{1}" then Some (Object [("n", Number "1")]) else None.

Lemma anthropic_request_keeps_the_conversation_witness :
  ∃ p, message_params sample_from_str (λ _, None) sample_chat "claude-opus-4" = Some p ∧
    seen block_result (mp_messages p) = [("t1", "seen")] ∧ seen block_use (mp_messages p) = [("t1", "look", Object [("n", Number "1")])] ∧
    mp_system p = Some "be kind" ∧ mp_thinking p = Some (mkThinking 2000).
Proof.
  eexists. split; [reflexivity|].
  destruct (anthropic_request_keeps_the_conversation sample_from_str (λ _, None) sample_chat "claude-opus-4" _ eq_refl
    ltac:(repeat constructor)) as (_ & H & _ & Hs & _ & _).
  split; [exact H|]. split; [reflexivity|]. split; [exact Hs|reflexivity].
Defined.

Definition with_messages (r : ChatRequest) (messages : list ChatMessage) : ChatRequest :=
  mkChat messages (cr_model r) (cr_store r) (cr_reasoning_effort r) (cr_metadata r) (cr_frequency_penalty r) (cr_logit_bias r)
    (cr_logprobs r) (cr_top_logprobs r) (cr_max_tokens r) (cr_max_completion_tokens r) (cr_n r) (cr_modalities r) (cr_prediction r)
    (cr_audio r) (cr_presence_penalty r) (cr_response_format r) (cr_seed r) (cr_service_tier r) (cr_stop r) (cr_stream r)
    (cr_stream_options r) (cr_temperature r) (cr_top_p r) (cr_tools r) (cr_tool_choice r) (cr_parallel_tool_calls r) (cr_user r)
    (cr_web_search_options r) (cr_function_call r) (cr_functions r) (cr_extra r).

Lemma mapM_app {A B} (f : A → option B) l1 l2 :
  mapM f (l1 ++ l2) = (y1 ← mapM f l1; y2 ← mapM f l2; Some (y1 ++ y2)%list).
Proof.
  induction l1 as [|x l1 IH]; simpl; [by destruct (mapM f l2)|].
  destruct (f x); [|done]. simpl. rw IH. destruct (mapM f l1); [|done]. simpl. by destruct (mapM f l2).
Qed.

(** Instructions after the first message are lost: a developer or system
    message anywhere else leaves the request as if it were not there. *)
Theorem later_instructions_are_dropped from_str sniff r model m0 l1 l2 c n :
  message_params from_str sniff (with_messages r (m0 :: l1 ++ Developer c n :: l2)%list) model =
  message_params from_str sniff (with_messages r (m0 :: l1 ++ l2)%list) model.
Proof.
  unfold message_params, system_prompt; simpl.
  set (f := map_message from_str sniff (map_tools (cr_tools r))).
  destruct (f m0) as [y0|]; [|done]. simpl. rw !mapM_app /=.
  destruct (mapM f l1) as [y1|]; [|done]. simpl. destruct (mapM f l2) as [y2|]; [|done]. simpl.
  by rw !concat_app.
Qed.

(** A data URI whose 64th byte of data is inside a character panics the
    request, whatever the libraries do. *)
Definition e_acute : string := String (ascii_of_N 195) (String (ascii_of_N 169) "").
Definition odd_uri : string := "data:image/png;base64," ++ String.concat "" (repeat "A" 63) ++ e_acute.

Theorem image_url_can_panic from_str sniff r model :
  message_params from_str sniff (with_messages r [User (UArray [UPImage (mkImageUrl odd_uri None)]) None]) model = None.
Proof. reflexivity. Qed.

(** ** Responses *)

(** The tool uses of a response, and its texts. *)
Definition uses (l : list ContentBlock) : list ContentBlock := flat_map (λ b, match b with BToolUse _ _ _ => [b] | _ => [] end) l.
Definition texts (l : list ContentBlock) : list string := flat_map (λ b, match b with BText t => [t] | _ => [] end) l.

Section responses.
Context (to_string : Value → string) (from_str : string → option Value).

(** What the content of a response must be for its tool uses to be read
    back: the text of each input reads as the input. *)
Definition rereads (b : ContentBlock) : Prop :=
  match b with BToolUse _ _ v => from_str (to_string v) = Some v | BToolResult _ _ => False | _ => True end.

Definition reread (c : ToolCall) : option ContentBlock :=
  (λ input, BToolUse (tc_id c) (call_name (tc_function c)) input) <$> from_str (call_arguments (tc_function c)).

Lemma reread_cons c l : omap reread (c :: l) = from_option (λ b, b :: omap reread l) (omap reread l) (reread c).
Proof. simpl. by destruct (reread c). Qed.

Lemma extract_spec l : Forall rereads l → ∀ content calls,
  ∃ calls', foldl (extract_block to_string) (content, calls) l =
      (match last (texts l) with Some t => Some t | None => content end, (calls ++ calls')%list) ∧
    omap reread calls' = uses l.
Proof.
  induction 1 as [|b l Hb _ IH]; intros content calls; simpl; [exists []; by rw app_nil_r|].
  destruct b as [t|s|i n v|i t|t s|d]; try done; simpl in *; try by apply IH.
  - destruct (IH (Some t) calls) as (calls' & -> & Hu). exists calls'. split; [|done].
    rw last_cons. by destruct (last (texts l)).
  - destruct (IH content (calls ++ [mkToolCall i ToolFunction (mkCall n (to_string v))])%list) as (calls' & -> & Hu).
    eexists. rw -app_assoc. split; [reflexivity|]. rw reread_cons /reread /= Hb /= Hu //.
Qed.

(** C23 (roundtrip). A response that goes from Anthropic through the chat format
    and back keeps its id, its model, its token counts, its tool uses in order,
    each with its id, its tool and its input, and its last text, which comes
    after them. *)
Theorem anthropic_response_round_trip p v c :
  Forall rereads (mr_content v) → convert_anthropic_response to_string p v = Ok c →
  ∃ v', message_of_chat_response from_str c = Some v' ∧
    mr_content v' = (uses (mr_content v) ++ from_option (λ t, [BText t]) [] (last (texts (mr_content v))))%list ∧
    mr_id v' = mr_id v ∧ mr_model v' = mr_model v ∧
    u_input_tokens (mr_usage v') = u_input_tokens (mr_usage v) ∧ u_output_tokens (mr_usage v') = u_output_tokens (mr_usage v).
Proof.
  intros Hr. unfold convert_anthropic_response. destruct (validate_anthropic_response_profile p); [|done]. simpl.
  unfold extract_anthropic_content. destruct (extract_spec _ Hr None []) as (calls & -> & Hu). intros [= <-].
  eexists. split; [reflexivity|]. simpl. split_and!; [|done..].
  rw -Hu. f_equal; [by destruct calls|by destruct (last _)].
Qed.

(** Two texts: the first is lost. *)
Theorem several_texts_keep_the_last p v c t1 t2 :
  mr_content v = [BText t1; BText t2] → convert_anthropic_response to_string p v = Ok c →
  map (λ ch, rm_content (ch_message ch)) (resp_choices c) = [Some t2].
Proof.
  intros E. unfold convert_anthropic_response. destruct (validate_anthropic_response_profile p); [|done]. simpl.
  rw E /=. by intros [= <-].
Qed.

(** The way back never says why the model stopped, unless it refused. *)
Theorem finish_reason_is_lost v v' :
  message_of_chat_response from_str v = Some v' →
  mr_stop_reason v' = None ∨ mr_stop_reason v' = Some Refusal.
Proof.
  intros H. apply bind_Some in H as (c & _ & [= <-]). simpl. destruct (rm_refusal _); auto.
Qed.

(** A chat response without choices panics. *)
Theorem empty_choices_panic v : resp_choices v = [] → message_of_chat_response from_str v = None.
Proof. intros E. unfold message_of_chat_response. by rw E. Qed.

End responses.

Definition sample_profile : NonStreamFormatProfile :=
  mkProfile Anthropic AnthropicMessages
    (mkRequestProfile FirstClassField AnthropicBlocks ChoiceNative FormatUnsupported MapToThinking ContentBlocks)
    (mkResponseProfile AnthropicMessageContent CallsHelper FinishHelper UsageHelper).
Definition sample_message : MessageResponse :=
  mkMessageResponse [BText "let me see"; BToolUse "t1" "look" (Object [("n", Number "1")]); BThinking "hm" "s"; BText "done"] "m" "claude"
    AnAssistant (Some ToolUse) None "message" (mkAnUsage 10 5 None None None).

Lemma anthropic_response_round_trip_witness :
  ∃ c v', convert_anthropic_response (λ _, "{1}") sample_profile sample_message = Ok c ∧
    message_of_chat_response sample_from_str c = Some v' ∧
    mr_content v' = [BToolUse "t1" "look" (Object [("n", Number "1")]); BText "done"].
Proof.
  eexists.
  destruct (anthropic_response_round_trip (λ _, "{1}") sample_from_str sample_profile sample_message _
    ltac:(repeat constructor) eq_refl) as (v' & H1 & H2 & _).
  exists v'. split; [reflexivity|]. split; [exact H1|]. exact H2.
Defined.

(** The total of a response's usage is the sum of its parts unless the sum
    passes [u32], and then it wraps below both. *)
Theorem usage_total_wraps : total_tokens (build_usage 4294967295 1 None) = 0%Z ∧
  ∀ a b cached, (0 ≤ a)%Z → (0 ≤ b)%Z → (a + b ≤ u32_max)%Z → total_tokens (build_usage a b cached) = (a + b)%Z.
Proof. split; [done|]. intros. simpl. unfold u32_wrapping_add, u32_max in *. apply Z.mod_small. lia. Qed.

(** ** Anthropic requests for an OpenAI provider *)

(** The tool uses and the tool results of an Anthropic conversation do not
    reach an OpenAI provider. *)
Theorem tool_history_is_dropped {Date} parse year format (mm : ModelMapper (Date := Date)) v r :
  chat_request_of_message parse year format mm v = Ok r →
  flat_map calls_of (cr_messages r) = [] ∧ flat_map results_of (cr_messages r) = [].
Proof.
  unfold chat_request_of_message. intros H.
  destruct (model_id_from_str _ _ _); [|done]. simpl in H. destruct (map_model _ _ _); [|done]. simpl in H. injection H as <-. simpl.
  rw !flat_map_app !flat_map_map.
  rw (flat_map_nil (λ x, calls_of (chat_message x))); last by intros [[] []].
  rw (flat_map_nil (λ x, results_of (chat_message x))); last by intros [[] []].
  by destruct (mp_system v).
Qed.

(** A medium effort's budget is read back as a high effort. *)
Theorem medium_effort_becomes_high :
  (λ t, effort_of_thinking t 3000) <$> map_reasoning_effort_to_thinking (Some EffortMedium) 3000 = Some EffortHigh.
Proof. vm_compute. reflexivity. Qed.
