(* ===== verification/AnthropicStream.v ===== *)
(** * Anthropic streams as chat completion streams, and back

    Models [try_convert_chunk] of [ai-gateway/src/middleware/mapper/anthropic.rs]
    and of [openai.rs], [stream_normalizer.rs] and
    [anthropic_stream_openai.rs].  The usage cell shared by the chunks of one
    stream is a state passed from event to event. *)

From S2P Require Import Prelude RustStr Provider Json ChatTypes MapperProfiles AnthropicMap.
Local Open Scope string_scope.

(** ** The usage of a stream *)

(* src: ai-gateway/src/types/extensions.rs:101-111 AnthropicStreamOpenAiUsageState *)
Record UsageState := mkUsageState {
  us_id : string;
  us_model : string;
  us_input : Z;
  us_cache_read : Z;
  us_cache_creation : Z;
  us_5m : Z;
  us_1h : Z;
  us_output : Z
}.

(* src: ai-gateway/src/types/extensions.rs:101-101 AnthropicStreamOpenAiUsageState::default *)
Definition empty_usage : UsageState := mkUsageState "" "" 0 0 0 0 0 0.

(* src: ai-gateway/src/middleware/mapper/anthropic_stream_openai.rs:10-28 on_message_start *)
Definition on_message_start (_ : UsageState) (m : MessageStart) : UsageState :=
  let u := ms_usage m in
  let '(m5, h1) := default (0%Z, 0%Z) (u_cache_creation u) in
  mkUsageState (ms_id m) (ms_model m) (u_input_tokens u) (default 0%Z (u_cache_read u)) (default 0%Z (u_cache_creation_tokens u))
    m5 h1 (u_output_tokens u).

(* src: ai-gateway/src/middleware/mapper/anthropic_stream_openai.rs:30-51 on_message_delta *)
Definition on_message_delta (s : UsageState) (usage : option AnUsage) : UsageState :=
  match usage with
  | None => s
  | Some u =>
      let '(m5, h1) := default (us_5m s, us_1h s) (u_cache_creation u) in
      mkUsageState (us_id s) (us_model s) (if (0 <? u_input_tokens u)%Z then u_input_tokens u else us_input s)
        (default (us_cache_read s) (u_cache_read u)) (default (us_cache_creation s) (u_cache_creation_tokens u)) m5 h1
        (u_output_tokens u)
  end.

Definition u32_saturating_add (a b : Z) : Z := Z.min u32_max (a + b).

(* src: ai-gateway/src/middleware/mapper/anthropic_stream_openai.rs:53-96 build_openai_completion_usage *)
Definition build_openai_completion_usage (s : UsageState) : CompletionUsage :=
  let cached := us_cache_read s in
  let cache_write := us_cache_creation s in
  let total := u32_saturating_add (u32_saturating_add (u32_saturating_add (us_input s) (us_output s)) cached) cache_write in
  let positive n := if (0 <? n)%Z then Some n else None in
  let details :=
    if (0 <? cached)%Z || (0 <? cache_write)%Z then
      Some (mkPromptDetails None (positive cached) (positive cache_write)
              (if (0 <? cache_write)%Z then Some (if (0 <? us_5m s)%Z then us_5m s else cache_write, us_1h s) else None))
    else None in
  mkUsage (u32_saturating_add (us_input s) cached) (us_output s) total details
    (Some (mkCompletionDetails (Some 0%Z) (Some 0%Z) None (Some 0%Z))).

(** ** Chunks *)

(* src: ai-gateway/src/middleware/mapper/stream_normalizer.rs:10-19 build_stream_usage *)
Definition build_stream_usage (prompt completion : Z) : CompletionUsage :=
  mkUsage prompt completion (u32_wrapping_add prompt completion) None None.

(* src: ai-gateway/src/middleware/mapper/stream_normalizer.rs:21-36 build_delta *)
Definition build_delta (role : option OaRole) (content : option string) (calls : option (list ToolCallChunk))
    (refusal : option string) : StreamDelta := mkDelta content None calls role refusal None.

(* src: ai-gateway/src/middleware/mapper/stream_normalizer.rs:38-49 build_reasoning_choice *)
Definition build_reasoning_choice (index : Z) (r : string) : StreamChoice :=
  mkStreamChoice index (mkDelta None None None None None (Some r)) None None.

(* src: ai-gateway/src/middleware/mapper/stream_normalizer.rs:51-59 build_role_choice *)
Definition build_role_choice (index : Z) (role : OaRole) : StreamChoice :=
  mkStreamChoice index (build_delta (Some role) None None None) None None.

(* src: ai-gateway/src/middleware/mapper/stream_normalizer.rs:61-69 build_text_choice *)
Definition build_text_choice (index : Z) (content : string) : StreamChoice :=
  mkStreamChoice index (build_delta None (Some content) None None) None None.

(* src: ai-gateway/src/middleware/mapper/stream_normalizer.rs:71-84 build_tool_call_chunk *)
Definition build_tool_call_chunk (index : Z) (id name arguments : option string) : ToolCallChunk :=
  mkChunk index id (Some ToolFunction) (Some (mkCallStream name arguments)).

(* src: ai-gateway/src/middleware/mapper/stream_normalizer.rs:86-97 build_tool_choice *)
Definition build_tool_choice (index : Z) (c : ToolCallChunk) : StreamChoice :=
  mkStreamChoice index (build_delta None None (Some [c]) None) None None.

(* src: ai-gateway/src/middleware/mapper/stream_normalizer.rs:99-111 build_finish_choice *)
Definition build_finish_choice (finish : option FinishReason) (_ : CompletionUsage) (refusal : option string) : StreamChoice :=
  mkStreamChoice 0 (build_delta None None None refusal) finish None.

(* src: ai-gateway/src/middleware/mapper/stream_normalizer.rs:113-130 build_stream_response *)
Definition build_stream_response (id model : string) (choices : list StreamChoice) (usage : option CompletionUsage) : StreamResponse :=
  mkStreamResponse id choices 0 model None None "chat.completion.chunk" usage.

Definition PLACEHOLDER_STREAM_ID : string := "anthropic-stream-id".
Definition PLACEHOLDER_MODEL_NAME : string := "anthropic-model".

(** [u32::try_from(index).unwrap_or(0)]. *)
Definition u32_index (i : Z) : Z := if (i <=? u32_max)%Z then i else 0%Z.

Definition placeholder_chunk (c : StreamChoice) : StreamResponse :=
  build_stream_response PLACEHOLDER_STREAM_ID PLACEHOLDER_MODEL_NAME [c] None.

Section stream.
Context (to_string : Value → string) (from_str : string → option Value).

(** The text of the first blocks, and their tool calls by position. *)
(* src: ai-gateway/src/middleware/mapper/anthropic.rs:710-736 try_convert_chunk *)
Definition start_text (blocks : list ContentBlock) : string :=
  String.concat "" (map (λ b, match b with BText t => t | BToolResult _ t => String newline t | _ => "" end) blocks).
(* src: ai-gateway/src/middleware/mapper/anthropic.rs:713-728 try_convert_chunk *)
Definition start_calls (blocks : list ContentBlock) : list ToolCallChunk :=
  omap id (imap (λ idx b, match b with
    | BToolUse id name input => Some (build_tool_call_chunk (u32_index (Z.of_nat idx)) (Some id) (Some name) (Some (to_string input)))
    | _ => None
    end) blocks).

(* src: ai-gateway/src/middleware/mapper/anthropic.rs:704-781 try_convert_chunk *)
Definition start_chunk (m : MessageStart) : StreamResponse :=
  let refusal := match ms_stop_reason m with Some Refusal => ms_stop_sequence m | _ => None end in
  let role := match ms_role m with AnUser => OaUser | AnAssistant => OaAssistant end in
  build_stream_response (ms_id m) (ms_model m)
    [mkStreamChoice 0
       (mkDelta (Some (start_text (ms_content m))) None (Some (start_calls (ms_content m))) (Some role) refusal None)
       (map_anthropic_finish_reason (ms_stop_reason m)) None] None.

(** A stream with its usage cell, [None] without one. *)
(* src: ai-gateway/src/middleware/mapper/anthropic.rs:686-912 try_convert_chunk *)
Definition try_convert_chunk (cell : option UsageState) (ev : StreamEvent) : option UsageState * option StreamResponse :=
  match ev with
  | EvMessageStart m => ((λ s, on_message_start s m) <$> cell, Some (start_chunk m))
  | EvBlockStart index (BToolUse id name input) =>
      (cell, Some (placeholder_chunk
        (build_tool_choice 0 (build_tool_call_chunk (u32_index index) (Some id) (Some name) (Some (to_string input))))))
  | EvBlockStart _ _ => (cell, None)
  | EvBlockDelta index (TextDelta t) => (cell, Some (placeholder_chunk (build_text_choice (u32_index index) t)))
  | EvBlockDelta index (InputJsonDelta json) =>
      (cell, Some (placeholder_chunk
        (build_tool_choice (u32_index index) (build_tool_call_chunk (u32_index index) None None (Some json)))))
  | EvBlockDelta index (ThinkingDelta t) => (cell, Some (placeholder_chunk (build_reasoning_choice (u32_index index) t)))
  | EvBlockDelta _ (SignatureDelta _) | EvBlockStop _ | EvPing | EvError _ _ => (cell, None)
  | EvMessageStop =>
      let or_default s d := if is_empty s then d else s in
      (cell, Some (match cell with
        | Some g => build_stream_response (or_default (us_id g) PLACEHOLDER_STREAM_ID) (or_default (us_model g) PLACEHOLDER_MODEL_NAME)
                      [] (Some (build_openai_completion_usage g))
        | None => build_stream_response PLACEHOLDER_STREAM_ID PLACEHOLDER_MODEL_NAME [] None
        end))
  | EvMessageDelta stop sequence usage =>
      let u := build_stream_usage (from_option u_input_tokens 0%Z usage) (from_option u_output_tokens 0%Z usage) in
      ((λ s, on_message_delta s usage) <$> cell,
       Some (placeholder_chunk (build_finish_choice (map_anthropic_finish_reason stop) u sequence)))
  end.

(** A whole stream: the chunks the client is sent, and the cell at the end. *)
(* src: ai-gateway/src/middleware/mapper/service.rs:1044-1091 map_response *)
Fixpoint convert_stream (cell : option UsageState) (evs : list StreamEvent) : option UsageState * list StreamResponse :=
  match evs with
  | [] => (cell, [])
  | ev :: evs =>
      let '(cell, c) := try_convert_chunk cell ev in
      let '(cell, cs) := convert_stream cell evs in
      (cell, from_option (λ c, c :: cs) cs c)
  end.

(** ** OpenAI chunks for an Anthropic client *)

(** A chunk that opens a tool call: its id, its name and its first
    arguments. *)
Definition opening (c : ToolCallChunk) : option (string * string * string) :=
  id ← chunk_id c; f ← chunk_function c; name ← fcs_name f; Some (id, name, default "{}" (fcs_arguments f)).

(* src: ai-gateway/src/middleware/mapper/openai.rs:384-413 try_convert_chunk *)
Definition first_tool_blocks (c : ToolCallChunk) : list ContentBlock :=
  match opening c with
  | Some (id, name, input) =>
      (from_option (λ v, [BToolUse id name v]) [] (from_str input) ++ [BToolUse id name (Object [])])%list
  | None => []
  end.

(* src: ai-gateway/src/middleware/mapper/openai.rs:368-433 try_convert_chunk *)
Definition first_event (v : StreamResponse) (d : StreamDelta) (role : OaRole) : result (option StreamEvent) ConvertError :=
  let? role := match role with OaAssistant => Ok AnAssistant | OaUser => Ok AnUser | _ => Err InvalidRequest end in
  let blocks := (from_option (λ t, [BText t]) [] (d_content d) ++ flat_map first_tool_blocks (default [] (d_tool_calls d)))%list in
  Ok (Some (EvMessageStart (mkMessageStart (sr_id v) "message" role blocks (sr_model v) None None (mkAnUsage 0 0 None None None)))).

(* src: ai-gateway/src/middleware/mapper/openai.rs:436-469 try_convert_chunk *)
Definition finish_event (v : StreamResponse) (r : FinishReason) : StreamEvent :=
  let stop :=
    match r with
    | FinishStop => EndTurn
    | FinishLength => MaxTokens
    | FinishToolCalls | FinishFunctionCall => ToolUse
    | FinishContentFilter => Refusal
    end in
  let usage := from_option (λ u, mkAnUsage (prompt_tokens u) (completion_tokens u) None None None) (mkAnUsage 0 0 None None None) (sr_usage v) in
  EvMessageDelta (Some stop) None (Some usage).

(* src: ai-gateway/src/middleware/mapper/openai.rs:472-522 try_convert_chunk *)
Definition tool_event (c : ToolCallChunk) : option StreamEvent :=
  match opening c with
  | Some (id, name, input) => Some (EvBlockStart (chunk_index c) (BToolUse id name (default (Object []) (from_str input))))
  | None => (λ a, EvBlockDelta (chunk_index c) (InputJsonDelta a)) <$> (chunk_function c ≫= fcs_arguments)
  end.

(* src: ai-gateway/src/middleware/mapper/openai.rs:351-551 try_convert_chunk *)
Definition event_of_chunk (v : StreamResponse) : result (option StreamEvent) ConvertError :=
  match sr_choices v with
  | [] => Ok None
  | choice :: _ =>
      let d := sc_delta choice in
      match d_role d with
      | Some role => first_event v d role
      | None =>
          match sc_finish_reason choice with
          | Some r => Ok (Some (finish_event v r))
          | None =>
              match (d_tool_calls d ≫= λ l, head l ≫= tool_event) with
              | Some ev => Ok (Some ev)
              | None =>
                  Ok (match d_content d, d_refusal d with
                      | Some t, _ | None, Some t => Some (EvBlockDelta 0 (TextDelta t))
                      | None, None => None
                      end)
              end
          end
      end
  end.

End stream.

(** ** What a client reads *)

(** The text of one choice of the chunks, as a client joins it. *)
Definition choice_text (i : Z) (c : StreamChoice) : string :=
  if (sc_index c =? i)%Z then default "" (d_content (sc_delta c)) else "".
Definition text_at (i : Z) (chunks : list StreamResponse) : string :=
  String.concat "" (map (choice_text i) (flat_map sr_choices chunks)).

(** The arguments of call [k] of one choice. *)
Definition chunk_arguments (k : Z) (c : ToolCallChunk) : string :=
  if (chunk_index c =? k)%Z then default "" (chunk_function c ≫= fcs_arguments) else "".
Definition choice_arguments (i k : Z) (c : StreamChoice) : string :=
  if (sc_index c =? i)%Z then String.concat "" (map (chunk_arguments k) (default [] (d_tool_calls (sc_delta c)))) else "".
Definition arguments_at (i k : Z) (chunks : list StreamResponse) : string :=
  String.concat "" (map (choice_arguments i k) (flat_map sr_choices chunks)).

(** The text an event adds to block [i]. *)
Definition event_text (i : Z) (ev : StreamEvent) : string :=
  match ev with
  | EvMessageStart m => if (0 =? i)%Z then start_text (ms_content m) else ""
  | EvBlockDelta index (TextDelta t) => if (index =? i)%Z then t else ""
  | _ => ""
  end.

Definition event_index_ok (ev : StreamEvent) : Prop :=
  match ev with EvBlockStart i _ | EvBlockDelta i _ => (0 ≤ i ≤ u32_max)%Z | _ => True end.

Lemma concat_app_str l1 l2 : String.concat "" (l1 ++ l2)%list = String.concat "" l1 ++ String.concat "" l2.
Proof. induction l1 as [|x l1 IH]; [done|]. rw -app_comm_cons !concat_cons IH. by rw str_app_assoc. Qed.

Lemma text_at_cons i c cs : text_at i (c :: cs) = String.concat "" (map (choice_text i) (sr_choices c)) ++ text_at i cs.
Proof. unfold text_at. simpl. by rw map_app concat_app_str. Qed.

Lemma u32_index_id i : (0 ≤ i ≤ u32_max)%Z → u32_index i = i.
Proof. intros [_ H]. unfold u32_index. by destruct (Z.leb_spec i u32_max); [|lia]. Qed.

Section reading.
Context (to_string : Value → string).

Lemma chunk_text i cell ev : event_index_ok ev →
  from_option (λ c, String.concat "" (map (choice_text i) (sr_choices c))) "" (try_convert_chunk to_string cell ev).2 = event_text i ev.
Proof.
  intros Hok. destruct ev as [m|j b|j d| |st sq u| | |]; simpl in *; [| |destruct d; rw ?u32_index_id //|..]; try done.
  - destruct b; try done. simpl. unfold choice_text; simpl. by case_match.
  - unfold choice_text; simpl. by case_match.
  - unfold choice_text; simpl. by case_match.
  - unfold choice_text; simpl. by case_match.
  - by destruct cell.
Qed.

(** C24 (functional). The text of a streamed answer arrives whole.  Whatever
    the events of an Anthropic stream, with or without a usage cell, what a
    client joins from the chunks of choice [i] is the text of the opening
    message, for choice 0, followed by the text deltas of content block [i] in
    the order they were sent: nothing is lost, repeated or moved between the
    choices. *)
Theorem streamed_text_arrives cell evs i :
  Forall event_index_ok evs →
  text_at i (convert_stream to_string cell evs).2 = String.concat "" (map (event_text i) evs).
Proof.
  intros Hok. revert cell. induction Hok as [|ev evs Hev _ IH]; intros cell; [done|].
  rw map_cons concat_cons -(chunk_text i cell ev Hev) /=.
  destruct (try_convert_chunk to_string cell ev) as [cell' c]. specialize (IH cell').
  destruct (convert_stream to_string cell' evs) as [cell'' cs]. simpl in *.
  destruct c; simpl; rw ?text_at_cons IH //.
Qed.

(** The text of a second block is not in choice 0, where the message began. *)
Theorem later_block_leaves_choice_zero cell t :
  let chunks := (convert_stream to_string cell [EvBlockDelta 1 (TextDelta t)]).2 in
  text_at 0 chunks = "" ∧ text_at 1 chunks = t.
Proof. split; [done|]. unfold text_at; simpl. unfold choice_text; simpl. done. Qed.

(** A tool call's arguments are announced as the empty object and then sent:
    in block 0 the client joins both, and in a later block the announcement
    alone is in choice 0 while the arguments go to another choice. *)
Theorem streamed_arguments_are_prefixed cell k id name json :
  (0 ≤ k ≤ u32_max)%Z →
  let chunks := (convert_stream to_string cell
    [EvBlockStart k (BToolUse id name (Object [])); EvBlockDelta k (InputJsonDelta json)]).2 in
  if (k =? 0)%Z then arguments_at 0 0 chunks = to_string (Object []) ++ json
  else arguments_at 0 k chunks = to_string (Object []) ∧ arguments_at k k chunks = json.
Proof.
  intros Hk. unfold arguments_at; simpl. rw !u32_index_id // /choice_arguments /chunk_arguments /=.
  destruct (Z.eqb_spec k 0) as [->|Hne]; [done|].
  rw !Z.eqb_refl str_app_nil_r. by destruct k.
Qed.

(** *** Usage *)

Definition delta_usages (evs : list StreamEvent) : list AnUsage :=
  flat_map (λ ev, match ev with EvMessageDelta _ _ (Some u) => [u] | _ => [] end) evs.
Definition inside (ev : StreamEvent) : Prop := match ev with EvMessageStart _ | EvMessageStop => False | _ => True end.

(** The last value reported, or the one before the reports. *)
Definition latest {A} (d : A) (l : list A) : A := default d (last l).

Lemma latest_cons {A} (d x : A) l : latest d (x :: l) = latest x l.
Proof. unfold latest. rw last_cons. by destruct (last l). Qed.

Definition read_input (u : AnUsage) : list Z := if (0 <? u_input_tokens u)%Z then [u_input_tokens u] else [].
Definition opt_list {A} (o : option A) : list A := from_option (λ x, [x]) [] o.

Lemma on_delta_reads s u :
  let s' := on_message_delta s (Some u) in
  us_id s' = us_id s ∧ us_model s' = us_model s ∧ us_output s' = u_output_tokens u ∧ us_input s' = latest (us_input s) (read_input u) ∧
  us_cache_read s' = latest (us_cache_read s) (opt_list (u_cache_read u)) ∧
  us_cache_creation s' = latest (us_cache_creation s) (opt_list (u_cache_creation_tokens u)).
Proof.
  unfold on_message_delta, read_input. destruct (default _ (u_cache_creation u)). simpl.
  split_and!; [done..| | |]; [by case_match|by destruct (u_cache_read u)|by destruct (u_cache_creation_tokens u)].
Qed.

Lemma latest_app {A} (d : A) l1 l2 : latest d (l1 ++ l2)%list = latest (latest d l1) l2.
Proof. revert d. induction l1 as [|x l1 IH]; intros d; [done|]. by rw -app_comm_cons !latest_cons IH. Qed.

Lemma convert_stream_app cell a b :
  convert_stream to_string cell (a ++ b)%list =
    let '(cell, l1) := convert_stream to_string cell a in
    let '(cell, l2) := convert_stream to_string cell b in (cell, l1 ++ l2)%list.
Proof.
  revert cell. induction a as [|ev a IH]; intros cell; simpl; [by destruct (convert_stream to_string cell b)|].
  destruct (try_convert_chunk to_string cell ev) as [cell1 c]. rw IH.
  destruct (convert_stream to_string cell1 a) as [cell2 l1]. destruct (convert_stream to_string cell2 b) as [cell3 l2].
  by destruct c.
Qed.

(** The events between the opening and the end: no chunk reports usage, and
    the cell holds the latest reports. *)
Lemma inside_stream evs s : Forall inside evs → ∃ s' chunks,
  convert_stream to_string (Some s) evs = (Some s', chunks) ∧ Forall (λ c, sr_usage c = None) chunks ∧
  us_id s' = us_id s ∧ us_model s' = us_model s ∧
  us_output s' = latest (us_output s) (map u_output_tokens (delta_usages evs)) ∧
  us_input s' = latest (us_input s) (flat_map read_input (delta_usages evs)) ∧
  us_cache_read s' = latest (us_cache_read s) (flat_map (λ u, opt_list (u_cache_read u)) (delta_usages evs)) ∧
  us_cache_creation s' = latest (us_cache_creation s) (flat_map (λ u, opt_list (u_cache_creation_tokens u)) (delta_usages evs)).
Proof.
  intros H. revert s. induction H as [|ev evs Hev _ IH]; intros s; [by exists s, []|].
  assert (∃ s1 c, try_convert_chunk to_string (Some s) ev = (Some s1, c) ∧ from_option (λ c, sr_usage c = None) True c ∧
    s1 = match ev with EvMessageDelta _ _ u => on_message_delta s u | _ => s end) as (s1 & c & E & Hc & Hs1).
  { destruct ev as [m|j []|j []| |st sq u| | |]; try done; eexists _, _; (split; [reflexivity|done]). }
  destruct (IH s1) as (s' & chunks & E' & Hu & Hid & Hm & Ho & Hi & Hr & Hw).
  exists s', (from_option (λ c, c :: chunks) chunks c). simpl. rw E E'. split; [done|].
  split; [destruct c; simpl; auto|].
  rw Hid Hm Ho Hi Hr Hw Hs1. clear -Hev.
  destruct ev as [m|j b|j d| |st sq [u|]| | |]; try done.
  destruct (on_delta_reads s u) as (-> & -> & -> & -> & -> & ->).
  simpl. by rw latest_cons !latest_app.
Qed.

(** The usage of a streamed answer.  For a stream that opens
    with a message, goes on with any events and stops, only the last chunk
    reports usage, under the message's id and model, and it reports the latest
    counts of the events: the completion tokens last reported, the prompt tokens
    last reported above zero together with the cached tokens last reported, and
    in the total the tokens written to the cache as well, saturated at the
    largest [u32]. *)
Theorem streamed_usage_is_the_latest m evs cell :
  Forall inside evs → ms_id m ≠ "" → ms_model m ≠ "" →
  let start := ms_usage m in
  let us := delta_usages evs in
  let input := latest (u_input_tokens start) (flat_map read_input us) in
  let output := latest (u_output_tokens start) (map u_output_tokens us) in
  let cached := latest (default 0%Z (u_cache_read start)) (flat_map (λ u, opt_list (u_cache_read u)) us) in
  let written := latest (default 0%Z (u_cache_creation_tokens start)) (flat_map (λ u, opt_list (u_cache_creation_tokens u)) us) in
  (0 ≤ input)%Z → (0 ≤ output)%Z → (0 ≤ cached)%Z → (0 ≤ written)%Z →
  ∃ chunks final u,
    (convert_stream to_string (Some cell) (EvMessageStart m :: evs ++ [EvMessageStop])%list).2 = (chunks ++ [final])%list ∧
    Forall (λ c, sr_usage c = None) chunks ∧
    sr_id final = ms_id m ∧ sr_model final = ms_model m ∧ sr_choices final = [] ∧ sr_usage final = Some u ∧
    completion_tokens u = output ∧ prompt_tokens u = Z.min u32_max (input + cached) ∧
    total_tokens u = Z.min u32_max (input + output + cached + written).
Proof.
  intros Hin Hid Hm start us input output cached written H1 H2 H3 H4.
  set (s0 := on_message_start cell m).
  assert (E0 : us_id s0 = ms_id m ∧ us_model s0 = ms_model m ∧ us_input s0 = u_input_tokens start ∧
    us_output s0 = u_output_tokens start ∧ us_cache_read s0 = default 0%Z (u_cache_read start) ∧
    us_cache_creation s0 = default 0%Z (u_cache_creation_tokens start)).
  { unfold s0, on_message_start. by destruct (u_cache_creation (ms_usage m)) as [[]|]. }
  destruct E0 as (Ei & Em & Ein & Eout & Ec & Ew).
  destruct (inside_stream evs s0 Hin) as (s & chunks & E & Hu & Hsid & Hsm & Ho & Hi & Hr & Hw).
  rw Ei in Hsid. rw Em in Hsm. rw Eout in Ho. rw Ein in Hi. rw Ec in Hr. rw Ew in Hw.
  assert (Econv : convert_stream to_string (Some s0) (evs ++ [EvMessageStop])%list =
    (Some s, chunks ++ [build_stream_response (ms_id m) (ms_model m) [] (Some (build_openai_completion_usage s))])%list).
  { rw convert_stream_app E /= Hsid Hsm. destruct (ms_id m), (ms_model m); done. }
  simpl. fold s0. rw Econv. eexists (start_chunk to_string m :: chunks), _, _. split_and!; [done| |done..| | |].
  - by constructor.
  - done.
  - simpl. by rw Hi Hr.
  - simpl. rw Hi Ho Hr Hw. fold us input output cached written. unfold u32_saturating_add. unfold u32_max. lia.
Qed.

End reading.

Definition sample_start : MessageStart :=
  mkMessageStart "m1" "message" AnAssistant [] "claude" None None (mkAnUsage 7 1 (Some 5%Z) None None).
Definition sample_events : list StreamEvent :=
  [EvBlockStart 0 (BText ""); EvBlockDelta 0 (TextDelta "hel"); EvPing; EvBlockDelta 0 (TextDelta "lo"); EvBlockStop 0;
   EvMessageDelta (Some EndTurn) None (Some (mkAnUsage 0 9 None (Some 2%Z) None))].

Lemma streamed_text_arrives_witness :
  text_at 0 (convert_stream (λ _, "{}") (Some empty_usage) (EvMessageStart sample_start :: sample_events)).2 = "hello".
Proof.
  exact (streamed_text_arrives (λ _, "{}") (Some empty_usage) (EvMessageStart sample_start :: sample_events) 0
    ltac:(repeat constructor; discriminate)).
Defined.

Lemma streamed_usage_is_the_latest_witness :
  ∃ chunks final u,
    (convert_stream (λ _, "{}") (Some empty_usage) (EvMessageStart sample_start :: sample_events ++ [EvMessageStop])%list).2
      = (chunks ++ [final])%list ∧
    sr_usage final = Some u ∧ completion_tokens u = 9%Z ∧ prompt_tokens u = 12%Z ∧ total_tokens u = 23%Z.
Proof.
  destruct (streamed_usage_is_the_latest (λ _, "{}") sample_start sample_events empty_usage
    ltac:(repeat constructor) ltac:(discriminate) ltac:(discriminate)
    ltac:(vm_compute; discriminate) ltac:(vm_compute; discriminate) ltac:(vm_compute; discriminate) ltac:(vm_compute; discriminate))
    as (chunks & final & u & H1 & _ & _ & _ & _ & H2 & H3 & H4 & H5).
  by exists chunks, final, u.
Defined.

(** The total of a stream that wrote to the cache is above the sum of its
    prompt and its completion. *)
Theorem streamed_total_exceeds_its_parts s :
  (0 ≤ us_input s)%Z → (0 ≤ us_output s)%Z → (0 ≤ us_cache_read s)%Z → (0 < us_cache_creation s)%Z →
  (us_input s + us_output s + us_cache_read s + us_cache_creation s ≤ u32_max)%Z →
  let u := build_openai_completion_usage s in
  total_tokens u = (prompt_tokens u + completion_tokens u + us_cache_creation s)%Z.
Proof. intros. subst u. simpl. unfold u32_saturating_add, u32_max in *. lia. Qed.

(** A stop at one of the client's own stop sequences is reported with the
    sequence as a refusal. *)
Theorem stop_sequence_is_reported_as_refusal to_string cell q u :
  (λ c, map (λ ch, (d_refusal (sc_delta ch), sc_finish_reason ch)) (sr_choices c))
    <$> (try_convert_chunk to_string cell (EvMessageDelta (Some StopSequence) (Some q) u)).2
  = Some [(Some q, Some FinishStop)].
Proof. done. Qed.

(** In the opening chunk of an OpenAI stream a tool call whose arguments are
    JSON becomes two tool uses, the second with an empty input. *)
Theorem opening_chunk_doubles_tool_uses from_str id name args v k :
  from_str args = Some v →
  first_tool_blocks from_str (build_tool_call_chunk k (Some id) (Some name) (Some args)) =
    [BToolUse id name v; BToolUse id name (Object [])].
Proof. intros H. unfold first_tool_blocks. simpl. by rw H. Qed.

(** A later chunk becomes one: its arguments, or an empty input when they are
    not JSON. *)
Theorem later_chunk_opens_one_tool_use from_str v index d k id name args rest :
  sr_choices v = [mkStreamChoice index d None None] → d_role d = None →
  d_tool_calls d = Some (build_tool_call_chunk k (Some id) (Some name) (Some args) :: rest) →
  event_of_chunk from_str v = Ok (Some (EvBlockStart k (BToolUse id name (default (Object []) (from_str args))))).
Proof. intros E1 E2 E3. unfold event_of_chunk. by rw E1 /= E2 E3. Qed.
