(* ===== verification/ResponsesToChat.v ===== *)
(** * Responses requests as chat requests

    Models [ai-gateway/src/middleware/mapper/responses_to_chat_request.rs] and
    [maybe_preconvert_responses_to_chat] of
    [ide_adapation/responses_strategy.rs]: a request of the Responses API, with
    its history of messages, function calls and their outputs, as a chat
    request, which the other mappers take on. *)

From S2P Require Import Prelude RustStr Provider Json HealthMonitor ChatTypes MapperProfiles AnthropicMap.
Local Open Scope string_scope.

(** ** Messages *)

(** The parts are read through their JSON: a text always has one, an image
    only when it has a URL. *)
(* src: ai-gateway/src/middleware/mapper/responses_to_chat_request.rs:184-211 convert_content_type_to_user_part *)
Definition convert_content_type_to_user_part (p : ContentType) : option UserPart :=
  match p with
  | InputText t => Some (UPText t)
  | CtImage i => (λ url, UPImage (mkImageUrl url (Some (ii_detail i)))) <$> ii_image_url i
  | CtFile _ => None
  end.

(* src: ai-gateway/src/middleware/mapper/responses_to_chat_request.rs:167-182 convert_user_content *)
Definition convert_user_content (c : InputContent) : UserContent :=
  match c with TextInput t => UText t | ContentList l => UArray (omap convert_content_type_to_user_part l) end.

(* src: ai-gateway/src/middleware/mapper/responses_to_chat_request.rs:224-240 extract_plain_text *)
Definition extract_plain_text (c : InputContent) : string :=
  match c with
  | TextInput t => t
  | ContentList l => String.concat "" (map (λ p, match p with InputText t => t | _ => "" end) l)
  end.

(* src: ai-gateway/src/middleware/mapper/responses_to_chat_request.rs:213-222 convert_assistant_content *)
Definition convert_assistant_content (c : InputContent) : option AssistantContent :=
  let text := extract_plain_text c in if is_empty text then None else Some (AText text).

Definition plain_assistant (c : option AssistantContent) : AssistantMessage := mkAssistant c None None None None None.

(* src: ai-gateway/src/middleware/mapper/responses_to_chat_request.rs:117-165 convert_message *)
Definition convert_message (role : RespRole) (c : InputContent) (messages : list ChatMessage) : list ChatMessage :=
  (messages ++ [match role with
    | RUser => User (convert_user_content c) None
    | RAssistant => Assistant (plain_assistant (convert_assistant_content c))
    | RSystem => System (TText (extract_plain_text c)) None
    | RDeveloper => Developer (TText (extract_plain_text c)) None
    end])%list.

(* src: ai-gateway/src/middleware/mapper/responses_to_chat_request.rs:302-319 ensure_last_is_assistant *)
Definition ensure_last_is_assistant (messages : list ChatMessage) : list ChatMessage :=
  match last messages with
  | Some (Assistant _) => messages
  | _ => (messages ++ [Assistant (plain_assistant None)])%list
  end.

(** [asst.tool_calls.get_or_insert_with(Vec::new).push(call)] on the last
    message. *)
(* src: ai-gateway/src/middleware/mapper/responses_to_chat_request.rs:273-276 convert_custom_item *)
Fixpoint push_call (call : ToolCall) (messages : list ChatMessage) : list ChatMessage :=
  match messages with
  | [] => []
  | [Assistant a] =>
      [Assistant (mkAssistant (am_content a) (am_refusal a) (am_name a) (am_audio a)
                    (Some (default [] (am_tool_calls a) ++ [call])%list) (am_function_call a))]
  | m :: rest => m :: push_call call rest
  end.

Definition str_field (v : Value) (key fallback : string) : string := default fallback (get key v ≫= as_str).

(* src: ai-gateway/src/middleware/mapper/responses_to_chat_request.rs:242-300 convert_custom_item *)
Definition convert_custom_item (v : Value) (messages : list ChatMessage) : list ChatMessage :=
  let kind := str_field v "type" "" in
  if String.eqb kind "function_call" then
    push_call (mkToolCall (str_field v "call_id" "") ToolFunction (mkCall (str_field v "name" "") (str_field v "arguments" "{}")))
      (ensure_last_is_assistant messages)
  else if String.eqb kind "function_call_output" then
    (messages ++ [Tool (TText (str_field v "output" "")) (str_field v "call_id" "")])%list
  else messages.

Definition convert_item (messages : list ChatMessage) (i : InputItem) : list ChatMessage :=
  match i with ItemMessage role c => convert_message role c messages | ItemCustom v => convert_custom_item v messages end.

(* src: ai-gateway/src/middleware/mapper/responses_to_chat_request.rs:77-115 convert_input *)
Definition convert_input (r : ResponsesRequest) : list ChatMessage :=
  let first := from_option (λ t, [Developer (TText t) None]) [] (rq_instructions r) in
  match rq_input r with
  | InputTextOnly t => (first ++ [User (UText t) None])%list
  | InputItems items => foldl convert_item first items
  end.

(** ** Options *)

(* src: ai-gateway/src/middleware/mapper/responses_to_chat_request.rs:321-347 convert_tools *)
Definition convert_tools (r : ResponsesRequest) : option (list ChatTool) :=
  l ← rq_tools r;
  match omap (λ t, match t with
      | DefFunction name parameters strict description =>
          Some (mkChatTool ToolFunction (Some (mkFunction name description (Some parameters) (Some strict))) [])
      | DefOther _ => None
      end) l with
  | [] => None
  | tools => Some tools
  end.

(* src: ai-gateway/src/middleware/mapper/responses_to_chat_request.rs:349-362 convert_tool_choice *)
Definition convert_tool_choice (c : RespToolChoice) : ToolChoiceOption :=
  match c with
  | ChoiceOf ModeNone => OptNone
  | ChoiceOf ModeAuto | ChoiceHosted _ => OptAuto
  | ChoiceOf ModeRequired => OptRequired
  | ChoiceFunction name => OptNamed ToolFunction name
  end.

(* src: ai-gateway/src/middleware/mapper/responses_to_chat_request.rs:364-373 convert_response_format *)
Definition convert_response_format (f : TextFormat) : ResponseFormat :=
  match f with FmtText => AsText | FmtJsonObject => AsJsonObject | FmtJsonSchema s => AsJsonSchema s end.

(* src: ai-gateway/src/middleware/mapper/responses_to_chat_request.rs:375-381 convert_service_tier *)
Definition convert_service_tier (t : RespTier) : ServiceTier :=
  match t with RTierAuto => TierAuto | RTierDefault => TierDefault | RTierFlex => TierFlex end.

(** [top_logprobs.map(|v| v as u8)] keeps the low byte. *)
(* src: ai-gateway/src/middleware/mapper/responses_to_chat_request.rs:28-75 convert *)
Definition convert (r : ResponsesRequest) : ChatRequest :=
  mkChat (convert_input r) (rq_model r) (rq_store r) (rq_reasoning r ≫= id)
    ((λ l, Object (map (λ f, (f.1, Str f.2)) l)) <$> rq_metadata r) None None None
    ((λ v, (v mod 256)%Z) <$> rq_top_logprobs r) None (rq_max_output_tokens r) None None None None None
    (convert_response_format <$> rq_text r) None (convert_service_tier <$> rq_service_tier r) None (rq_stream r) None
    (rq_temperature r) (rq_top_p r) (convert_tools r) (convert_tool_choice <$> rq_tool_choice r) (rq_parallel_tool_calls r)
    (rq_user r) None None None [].

Section preconvert.
Context (read_responses : string → option ResponsesRequest) (write_chat : ChatRequest → string).

Definition is_responses (e : ApiEndpoint) : bool :=
  match e with EOpenAI Responses | EOpenAICompatible _ Responses => true | _ => false end.

(** [None] when the body is not a Responses request. *)
(* src: ai-gateway/src/ide_adapation/responses_strategy.rs:39-76 maybe_preconvert_responses_to_chat *)
Definition maybe_preconvert_responses_to_chat (source target : ApiEndpoint) (body : string) : option (string * ApiEndpoint) :=
  let should_preconvert := match source with EOpenAI Responses => true | _ => false end && negb (is_responses target) in
  if negb should_preconvert then Some (body, source)
  else r ← read_responses body; Some (write_chat (convert r), EOpenAI ChatCompletions).

End preconvert.

(** ** What a history says *)

(** Calls and outputs in the order they happened. *)
Definition trace_of (m : ChatMessage) : list (ToolCall + string * string) := (map inl (calls_of m) ++ map inr (results_of m))%list.
Definition item_trace (i : InputItem) : list (ToolCall + string * string) :=
  match i with
  | ItemMessage _ _ => []
  | ItemCustom v =>
      if String.eqb (str_field v "type" "") "function_call" then
        [inl (mkToolCall (str_field v "call_id" "") ToolFunction (mkCall (str_field v "name" "") (str_field v "arguments" "{}")))]
      else if String.eqb (str_field v "type" "") "function_call_output" then
        [inr (str_field v "call_id" "", str_field v "output" "")]
      else []
  end.
(** The texts of a content. *)
Definition content_texts (c : InputContent) : list string :=
  match c with TextInput t => [t] | ContentList l => flat_map (λ p, match p with InputText t => [t] | _ => [] end) l end.

(** Who says what: a user's texts one by one, the others' joined. *)
Definition item_says (i : InputItem) : list (RespRole * string) :=
  match i with
  | ItemMessage RUser c => map (pair RUser) (content_texts c)
  | ItemMessage role c => [(role, String.concat "" (content_texts c))]
  | ItemCustom _ => []
  end.
Definition message_says (m : ChatMessage) : list (RespRole * string) :=
  let texts c := match c with TText t => [t] | TArray l => l end in
  match m with
  | User (UText t) _ => [(RUser, t)]
  | User (UArray l) _ => flat_map (λ p, match p with UPText t => [(RUser, t)] | _ => [] end) l
  | Assistant a =>
      match am_content a with
      | Some (AText t) => [(RAssistant, t)]
      | Some (AArray l) => map (λ p, (RAssistant, match p with APText t => t | APRefusal t => t end)) l
      | None => []
      end
  | System c _ => map (pair RSystem) (texts c)
  | Developer c _ => map (pair RDeveloper) (texts c)
  | Tool _ _ | Function _ _ => []
  end.
(** What is not empty of it. *)
Definition heard (l : list (RespRole * string)) : list (RespRole * string) := filter (λ x, x.2 ≠ "") l.

(** What of it an Anthropic message can carry. *)
Definition turn_of (x : RespRole * string) : option (AnRole * string) :=
  match x.1 with RUser => Some (AnUser, x.2) | RAssistant => Some (AnAssistant, x.2) | RSystem | RDeveloper => None end.
Definition input_items (i : Input) : list InputItem :=
  match i with InputTextOnly t => [ItemMessage RUser (TextInput t)] | InputItems l => l end.

(** A projection of messages that does not look at the tool calls. *)
Definition blind {C} (f : ChatMessage → list C) : Prop :=
  ∀ a c, f (Assistant (mkAssistant (am_content a) (am_refusal a) (am_name a) (am_audio a) c (am_function_call a))) = f (Assistant a).

Lemma ensure_last l : ∃ l' a, ensure_last_is_assistant l = (l' ++ [Assistant a])%list ∧
  (l = (l' ++ [Assistant a])%list ∨ l = l' ∧ a = plain_assistant None).
Proof.
  unfold ensure_last_is_assistant. destruct (last l) as [m|] eqn:E; [|by exists l, (plain_assistant None); auto].
  apply last_Some in E as [l' ->].
  destruct m; try by (eexists _, (plain_assistant None); split; [done|by right]).
  exists l', m. auto.
Qed.

Lemma push_call_snoc c l a : push_call c (l ++ [Assistant a]) =
  (l ++ [Assistant (mkAssistant (am_content a) (am_refusal a) (am_name a) (am_audio a) (Some (default [] (am_tool_calls a) ++ [c])%list)
           (am_function_call a))])%list.
Proof. induction l as [|m l IH]; [done|]. simpl. rw IH. destruct m, l; done. Qed.

Lemma push_trace c l : flat_map trace_of (push_call c (ensure_last_is_assistant l)) = (flat_map trace_of l ++ [inl c])%list.
Proof.
  destruct (ensure_last l) as (l' & a & -> & H). rw push_call_snoc flat_map_app /=.
  assert (flat_map trace_of l = flat_map trace_of l' ++ map inl (default [] (am_tool_calls a)))%list as ->.
  { destruct H as [->|[-> ->]]; [rw flat_map_app /=|by rw app_nil_r]. unfold trace_of; simpl. by rw !app_nil_r. }
  unfold trace_of; simpl. by rw !app_nil_r map_app app_assoc.
Qed.

Lemma push_blind {C} (f : ChatMessage → list C) c l : blind f → f (Assistant (plain_assistant None)) = [] →
  flat_map f (push_call c (ensure_last_is_assistant l)) = flat_map f l.
Proof.
  intros Hb H0. destruct (ensure_last l) as (l' & a & -> & H). rw push_call_snoc flat_map_app /= Hb.
  destruct H as [->|[-> ->]]; [by rw flat_map_app|]. by rw H0 !app_nil_r.
Qed.

Lemma item_trace_ok ms i : flat_map trace_of (convert_item ms i) = (flat_map trace_of ms ++ item_trace i)%list.
Proof.
  destruct i as [role c|v]; simpl.
  - unfold convert_message. rw flat_map_app /=. by destruct role.
  - unfold convert_custom_item. destruct (String.eqb _ "function_call"); [apply push_trace|].
    destruct (String.eqb _ "function_call_output"); [by rw flat_map_app|by rw app_nil_r].
Qed.

Lemma user_texts l : flat_map (λ p, match p with UPText t => [(RUser, t)] | _ => [] end) (omap convert_content_type_to_user_part l) =
  map (pair RUser) (flat_map (λ p, match p with InputText t => [t] | _ => [] end) l).
Proof. induction l as [|[t|[? ? []]|f] l IH]; simpl; first [done|exact IH|f_equal; exact IH]. Qed.

Lemma concat_nil_app l : String.concat "" ("" :: l) = String.concat "" l.
Proof. by destruct l. Qed.

Lemma plain_text_is_the_texts c : extract_plain_text c = String.concat "" (content_texts c).
Proof.
  destruct c as [t|l]; [done|]. cbn [extract_plain_text content_texts].
  induction l as [|[t|i|f] l IH]; cbn [map flat_map app]; rw ?concat_cons; [done|by rw IH|exact IH|exact IH].
Qed.

Lemma heard_app a b : heard (a ++ b)%list = (heard a ++ heard b)%list.
Proof. apply filter_app. Qed.

Lemma item_says_ok ms i : heard (flat_map message_says (convert_item ms i)) = heard (flat_map message_says ms ++ item_says i)%list.
Proof.
  destruct i as [role c|v]; simpl.
  - unfold convert_message. rw flat_map_app /= app_nil_r !heard_app. f_equal.
    destruct role; simpl; rw -?plain_text_is_the_texts //.
    + destruct c; simpl; by rw ?user_texts.
    + unfold convert_assistant_content. by destruct (extract_plain_text c).
  - rw app_nil_r. unfold convert_custom_item. destruct (String.eqb _ "function_call"); [by rw (push_blind message_says)|].
    destruct (String.eqb _ "function_call_output"); [by rw flat_map_app app_nil_r|done].
Qed.

Lemma items_ok items : ∀ ms,
  flat_map trace_of (foldl convert_item ms items) = (flat_map trace_of ms ++ flat_map item_trace items)%list ∧
  heard (flat_map message_says (foldl convert_item ms items)) = heard (flat_map message_says ms ++ flat_map item_says items)%list.
Proof.
  induction items as [|i items IH]; intros ms; simpl; [by rw !app_nil_r|].
  destruct (IH (convert_item ms i)) as [-> E]. split; [by rw item_trace_ok -app_assoc|].
  by rw E heard_app item_says_ok -heard_app app_assoc.
Qed.

(** What a request says, its instructions first. *)
Definition request_says (r : ResponsesRequest) : list (RespRole * string) :=
  (from_option (λ t, [(RDeveloper, t)]) [] (rq_instructions r) ++ flat_map item_says (input_items (rq_input r)))%list.

Lemma input_ok r :
  flat_map trace_of (convert_input r) = flat_map item_trace (input_items (rq_input r)) ∧
  heard (flat_map message_says (convert_input r)) = heard (request_says r).
Proof.
  unfold convert_input, request_says. destruct (rq_input r) as [t|items]; simpl.
  - by destruct (rq_instructions r).
  - destruct (items_ok items (from_option (λ t, [Developer (TText t) None]) [] (rq_instructions r))) as [-> ->].
    by destruct (rq_instructions r).
Qed.

(** The turns of what is said are the texts of the messages. *)
Lemma turns_of_message m : omap turn_of (message_says m) = texts_of m.
Proof.
  destruct m as [[t|l] n|[t|l] n|[t|l] n|a|c i|c n]; simpl; try done.
  1, 2: by induction l.
  - induction l as [|[] l IH]; simpl; first [done|exact IH|f_equal; exact IH].
  - destruct (am_content a) as [[t|l]|]; [done| |done]. induction l as [|x l IH]; simpl; [done|]. f_equal. exact IH.
Qed.

Lemma turns_heard l : omap turn_of (heard l) = spoken (omap turn_of l).
Proof.
  induction l as [|[role t] l IH]; [done|].
  assert (Hh : heard ((role, t) :: l) = if decide (t ≠ "") then (role, t) :: heard l else heard l) by (rw /heard filter_cons; by repeat case_decide).
  rw Hh. destruct role; simpl; rw /spoken ?filter_cons /=; case_decide; simpl; first [exact IH|f_equal; exact IH].
Qed.

Lemma turns_of_messages ms : omap turn_of (flat_map message_says ms) = flat_map texts_of ms.
Proof. induction ms as [|m ms IH]; simpl; [done|]. by rw omap_app turns_of_message IH. Qed.

Definition lefts {A B} (l : list (A + B)) : list A := flat_map (λ x, match x with inl a => [a] | inr _ => [] end) l.
Definition rights {A B} (l : list (A + B)) : list B := flat_map (λ x, match x with inl _ => [] | inr b => [b] end) l.

Lemma lefts_trace l : lefts (flat_map trace_of l) = flat_map calls_of l.
Proof.
  unfold lefts. induction l as [|m l IH]; simpl; [done|]. rw flat_map_app IH /trace_of flat_map_app !flat_map_map.
  rw (flat_map_nil (λ x : string * string, [])) // app_nil_r. f_equal. rw flat_map_single. apply map_id.
Qed.

Lemma rights_trace l : rights (flat_map trace_of l) = flat_map results_of l.
Proof.
  unfold rights. induction l as [|m l IH]; simpl; [done|]. rw flat_map_app IH /trace_of flat_map_app !flat_map_map.
  rw (flat_map_nil (λ x : ToolCall, [])) //. f_equal. rw flat_map_single. apply map_id.
Qed.

Lemma item_no_function ms i : Forall no_function ms → Forall no_function (convert_item ms i).
Proof.
  intros H. destruct i as [role c|v]; simpl.
  - apply Forall_app. split; [done|]. by destruct role; repeat constructor.
  - unfold convert_custom_item. destruct (String.eqb _ "function_call").
    + destruct (ensure_last ms) as (l' & a & -> & Hl). rw push_call_snoc. apply Forall_app. split; [|by repeat constructor].
      destruct Hl as [->|[-> _]]; [by apply Forall_app in H as [? _]|done].
    + destruct (String.eqb _ "function_call_output"); [|done]. apply Forall_app. split; [done|by repeat constructor].
Qed.

Lemma input_no_function r : Forall no_function (convert_input r).
Proof.
  unfold convert_input.
  assert (H0 : Forall no_function (from_option (λ t, [Developer (TText t) None]) [] (rq_instructions r)))
    by (destruct (rq_instructions r); repeat constructor).
  destruct (rq_input r) as [t|items]; [apply Forall_app; split; [done|by repeat constructor]|].
  revert H0. generalize (from_option (λ t, [Developer (TText t) None]) [] (rq_instructions r)).
  induction items as [|i items IH]; intros ms Hms; [done|]. by apply IH, item_no_function.
Qed.

(** Instructions stay in front. *)
Lemma input_front r t : rq_instructions r = Some t → head (convert_input r) = Some (Developer (TText t) None).
Proof.
  intros E. unfold convert_input. rw E /=. destruct (rq_input r) as [|items]; [done|].
  assert (H : ∀ ms, head ms = Some (Developer (TText t) None) → head (foldl convert_item ms items) = Some (Developer (TText t) None));
    [|by apply H].
  induction items as [|i items IH]; intros ms Hms; [done|]. apply IH.
  destruct ms as [|m ms]; [done|]. injection Hms as ->. destruct i as [role c|v]; [done|].
  unfold convert_item, convert_custom_item. destruct (String.eqb _ "function_call").
  - destruct (ensure_last (Developer (TText t) None :: ms)) as (l' & a & -> & Hl). rw push_call_snoc.
    by destruct l' as [|m' l'], Hl as [Hl|[Hl _]]; simplify_eq/=.
  - by destruct (String.eqb _ "function_call_output").
Qed.


(** Other instructions do not survive the crossing. *)
Theorem second_developer_message_is_lost from_str sniff model m0 t items r :
  rq_input r = InputItems (m0 :: items ++ [ItemMessage RDeveloper (TextInput t)])%list →
  ∃ l, convert_input r = (l ++ [Developer (TText t) None])%list ∧
    (l ≠ [] → message_params from_str sniff (convert r) model = message_params from_str sniff (with_messages (convert r) l) model).
Proof.
  intros E. unfold convert, convert_input at 1. rw E.
  eexists. rw app_comm_cons foldl_app. split; [reflexivity|]. intros Hl.
  set (l := foldl convert_item _ (m0 :: items)) in *.
  assert (Hc : convert_input r = (l ++ [Developer (TText t) None])%list).
  { unfold convert_input. by rw E app_comm_cons foldl_app. }
  rw Hc. destruct l as [|x l]; [done|].
  pose proof (later_instructions_are_dropped from_str sniff (convert r) model x l [] (TText t) None) as H.
  rw app_nil_r in H. exact H.
Qed.

(** A count of log probabilities keeps its low byte only. *)
Theorem top_logprobs_wraps r : rq_top_logprobs r = Some 256%Z → cr_top_logprobs (convert r) = Some 0%Z.
Proof. intros E. unfold convert; simpl. by rw E. Qed.
