(* ===== verification/MapperLenient.v ===== *)
(** * Lenient reading of upstream bodies

    Models [ai-gateway/src/middleware/mapper/chat_completion_role_normalize.rs],
    [wrapped_error_lenient.rs] and [anthropic_error_lenient.rs]: the repairs made
    to an upstream's chat completion before it is read strictly, and the
    errors read from bodies of any shape. *)

From S2P Require Import Prelude RustStr Json HealthMonitor.
Local Open Scope string_scope.

(** ** Roles *)

(* src: ai-gateway/src/middleware/mapper/chat_completion_role_normalize.rs:15-15 ALLOWED_ROLES *)
Definition ALLOWED_ROLES : list string := ["system"; "user"; "assistant"; "tool"; "function"].

(* src: ai-gateway/src/middleware/mapper/chat_completion_role_normalize.rs:19-23 NormalizeRoleStats *)
Record NormalizeRoleStats := mkStats { empty_normalized : Z; unknown_normalized : Z }.

(** What becomes of one role, and what it counts for. *)
(* src: ai-gateway/src/middleware/mapper/chat_completion_role_normalize.rs:57-85 normalize_chat_completion_roles_in_place *)
Definition normalize_role (s : string) (st : NormalizeRoleStats) : string * NormalizeRoleStats :=
  let trimmed := trim s in
  if is_empty trimmed then ("assistant", mkStats (empty_normalized st + 1) (unknown_normalized st))
  else if bool_decide (trimmed ∈ ALLOWED_ROLES) then (s, st)
  else ("assistant", mkStats (empty_normalized st) (unknown_normalized st + 1)).

(* src: ai-gateway/src/middleware/mapper/chat_completion_role_normalize.rs:43-86 normalize_chat_completion_roles_in_place *)
Definition normalize_choice (container_key : string) (choice : Value) (st : NormalizeRoleStats) : Value * NormalizeRoleStats :=
  match get container_key choice with
  | Some (Object container) =>
      match assoc "role" container with
      | Some (Str s) =>
          let '(s', st) := normalize_role s st in
          (set_field container_key (Object (assoc_set "role" (Str s') container)) choice, st)
      | _ => (choice, st)
      end
  | _ => (choice, st)
  end.

Fixpoint normalize_choices (key : string) (l : list Value) (st : NormalizeRoleStats) : list Value * NormalizeRoleStats :=
  match l with
  | [] => ([], st)
  | c :: l =>
      let '(c, st) := normalize_choice key c st in
      let '(l, st) := normalize_choices key l st in
      (c :: l, st)
  end.

(* src: ai-gateway/src/middleware/mapper/chat_completion_role_normalize.rs:30-89 normalize_chat_completion_roles_in_place *)
Definition normalize_chat_completion_roles_in_place (root : Value) (stream_chunk : bool) : Value * NormalizeRoleStats :=
  let st := mkStats 0 0 in
  match get "choices" root with
  | Some (Array choices) =>
      let '(choices, st) := normalize_choices (if stream_chunk then "delta" else "message") choices st in
      (set_field "choices" (Array choices) root, st)
  | _ => (root, st)
  end.

(** ** Required fields *)

Definition missing (v : option Value) : bool := match v with None | Some Null => true | _ => false end.
Definition missing_text (v : option Value) : bool := match v with None | Some Null => true | Some (Str s) => is_empty s | _ => false end.
Definition patch (needed : option Value → bool) (key : string) (v : Value) (root : Value) : Value :=
  if needed (get key root) then set_field key v root else root.

(** [uuid] is the fresh identifier, [now] the clock in whole seconds, as text
    within [u32]. *)
(* src: ai-gateway/src/middleware/mapper/chat_completion_role_normalize.rs:91-179 ensure_openai_chat_completion_required_fields_in_place *)
Definition ensure_openai_chat_completion_required_fields_in_place (uuid now : string) (root : Value) (stream_chunk : bool) : Value :=
  match as_object root with
  | None => root
  | Some _ =>
      let root := patch missing_text "id" (Str ("chatcmpl-" ++ uuid)) root in
      let root := patch missing "choices" (Array []) root in
      let root := patch missing "created" (Number now) root in
      let root := patch missing_text "model" (Str "") root in
      patch missing_text "object" (Str (if stream_chunk then "chat.completion.chunk" else "chat.completion")) root
  end.

(* src: ai-gateway/src/middleware/mapper/chat_completion_role_normalize.rs:181-189 truncate_original *)
Definition truncate_original (s : string) (max_chars : nat) : string :=
  if (count_chars s <=? max_chars)%nat then s else take_chars max_chars s ++ "...".

(* src: ai-gateway/src/middleware/mapper/chat_completion_role_normalize.rs:191-201 lenient_openai_chat_roles_for_target_endpoint *)
Definition lenient_openai_chat_roles_for_target_endpoint (e : ApiEndpoint) : bool :=
  match e with EOpenAI ChatCompletions | EOpenAICompatible _ ChatCompletions => true | _ => false end.

(** ** Errors *)

(* src: vendor/async-openai-patched/src/error.rs:32-37 ApiError *)
Record WrappedError := mkWrapped {
  we_message : string;
  we_type : option string;
  we_param : option string;
  we_code : option string
}.

(* src: ai-gateway/src/endpoints/anthropic/messages.rs:31-43 AnthropicApiError *)
Record AnthropicApiError := mkAnthropicError { ae_message : string; ae_error_type : string; ae_type : string }.

(** 8192. *)
Definition MESSAGE_MAX_CHARS : nat := 2 ^ 13.

Section errors.
(** [serde_json]: the strict readers, the reader of any value, and its text. *)
Context (strict_wrapped : string → option WrappedError) (strict_anthropic : string → option AnthropicApiError).
Context (from_slice : string → option Value) (to_text : Value → string).

(* src: ai-gateway/src/middleware/mapper/wrapped_error_lenient.rs:133-147 value_as_message_fragment *)
Definition value_as_message_fragment (v : Value) : option string :=
  match v with
  | Str s => if is_empty s then None else Some s
  | Number n => Some n
  | Bool b => Some (if b then "true" else "false")
  | Null => None
  | Array _ | Object _ => Some (to_text v)
  end.

(** [map.get(a).or_else(|| map.get(b))]. *)
Definition either (a b : string) (map : list (string * Value)) : option Value :=
  match assoc a map with Some v => Some v | None => assoc b map end.

Definition object_text (map : list (string * Value)) : string :=
  match map with [] => "upstream error" | _ => to_text (Object map) end.

(* src: ai-gateway/src/middleware/mapper/wrapped_error_lenient.rs:82-131 api_error_from_object *)
Definition api_error_from_object (map : list (string * Value)) : WrappedError :=
  let message :=
    match either "message" "msg" map ≫= value_as_message_fragment with
    | Some m => m
    | None =>
        match assoc "detail" map with
        | Some (Str s) => s
        | Some d => to_text d
        | None => object_text map
        end
    end in
  let type :=
    match (λ v, default (to_text v) (value_as_message_fragment v)) <$> either "type" "error_type" map with
    | Some t => if is_empty t then "invalid_request_error" else t
    | None => "invalid_request_error"
    end in
  let code :=
    c ← assoc "code" map;
    let t := match c with Str s => s | Number n => n | _ => to_text c end in
    if is_empty t then None else Some t in
  mkWrapped (take_chars MESSAGE_MAX_CHARS message) (Some type) (assoc "param" map ≫= as_str) code.

Definition plain_error (message : string) : WrappedError :=
  mkWrapped (take_chars MESSAGE_MAX_CHARS message) (Some "invalid_request_error") None None.

(* src: ai-gateway/src/middleware/mapper/wrapped_error_lenient.rs:39-80 wrapped_error_from_json_value *)
Definition wrapped_error_from_json_value (v : Value) : WrappedError :=
  match get "error" v with
  | Some (Str s) => plain_error s
  | Some (Object map) => api_error_from_object map
  | _ =>
      match v with
      | Object map => api_error_from_object map
      | Str s => plain_error s
      | _ => plain_error (to_text v)
      end
  end.

(* src: ai-gateway/src/middleware/mapper/wrapped_error_lenient.rs:30-33 trim_lossy_message *)
Definition trim_lossy_message (bytes : string) : string := take_chars MESSAGE_MAX_CHARS (trim (from_utf8_lossy bytes)).

(* src: ai-gateway/src/middleware/mapper/wrapped_error_lenient.rs:17-28 deserialize_wrapped_error_lenient *)
Definition deserialize_wrapped_error_lenient (bytes : string) : WrappedError :=
  match strict_wrapped bytes with
  | Some w => w
  | None => wrapped_error_from_json_value (default (Str (trim_lossy_message bytes)) (from_slice bytes))
  end.

(* src: ai-gateway/src/middleware/mapper/anthropic_error_lenient.rs:124-132 value_to_message_fragment *)
Definition value_to_message_fragment (v : Value) : string :=
  match v with
  | Str s => s
  | Number n => n
  | Bool b => if b then "true" else "false"
  | Null => ""
  | Array _ | Object _ => to_text v
  end.

Definition fragment_or (d : string) (v : option Value) : string := from_option value_to_message_fragment d v.

(* src: ai-gateway/src/middleware/mapper/anthropic_error_lenient.rs:32-113 anthropic_error_from_json_value *)
Definition anthropic_error_from_json_value (v : Value) : AnthropicApiError :=
  let plain s := mkAnthropicError (take_chars MESSAGE_MAX_CHARS s) "invalid_request_error" "error" in
  match get "error" v with
  | Some (Str s) => plain s
  | Some (Object map) =>
      mkAnthropicError (take_chars MESSAGE_MAX_CHARS (fragment_or (object_text map) (either "message" "msg" map)))
        (take_chars 256 (fragment_or "invalid_request_error" (assoc "type" map)))
        (take_chars 256 (fragment_or "error" (get "type" v)))
  | _ =>
      match v with
      | Object map =>
          let message := match either "message" "msg" map with Some m => Some m | None => assoc "detail" map end in
          mkAnthropicError (take_chars MESSAGE_MAX_CHARS (fragment_or (object_text map) message))
            (take_chars 256 (fragment_or "invalid_request_error" (either "type" "error_type" map))) "error"
      | Str s => plain s
      | _ => plain (to_text v)
      end
  end.

(* src: ai-gateway/src/middleware/mapper/anthropic_error_lenient.rs:19-30 deserialize_anthropic_error_lenient *)
Definition deserialize_anthropic_error_lenient (bytes : string) : AnthropicApiError :=
  match strict_anthropic bytes with
  | Some w => w
  | None => anthropic_error_from_json_value (default (Str (trim_lossy_message bytes)) (from_slice bytes))
  end.

End errors.

(** ** Roles after the repair *)

(** The role a choice shows, when it shows one. *)
Definition choice_role (key : string) (choice : Value) : option string :=
  match get key choice with Some (Object c) => match assoc "role" c with Some (Str s) => Some s | _ => None end | _ => None end.

Definition allowed_role (s : string) : Prop := trim s ∈ ALLOWED_ROLES.

Lemma normalize_role_allowed s st : allowed_role (normalize_role s st).1.
Proof.
  unfold normalize_role. destruct (is_empty (trim s)); [by apply (bool_decide_unpack _)|].
  case_bool_decide; [done|by apply (bool_decide_unpack _)].
Qed.

Lemma normalize_role_fixed s st : allowed_role s → normalize_role s st = (s, st).
Proof.
  unfold allowed_role. intros H. unfold normalize_role. rw (bool_decide_eq_true_2 _ H).
  destruct (trim s); [|done]. by apply (bool_decide_pack _) in H.
Qed.

Lemma normalize_choice_role key c st s : choice_role key (normalize_choice key c st).1 = Some s → allowed_role s.
Proof.
  unfold normalize_choice, choice_role. destruct (get key c) as [[| | | | |f]|] eqn:E; simpl; rw ?E //.
  destruct (assoc "role" f) as [[| | |t| |]|] eqn:Er; simpl; rw ?E ?Er //.
  pose proof (normalize_role_allowed t st) as H. destruct (normalize_role t st) as [s' st']. simpl in *.
  rw get_set_field; [by rw assoc_set_eq; intros [= <-]|by eapply get_Some_object].
Qed.

Lemma normalize_choice_fixed key c st : from_option allowed_role True (choice_role key c) → normalize_choice key c st = (c, st).
Proof.
  unfold normalize_choice, choice_role. destruct (get key c) as [[| | | | |f]|] eqn:E; try done.
  destruct (assoc "role" f) as [[| | |t| |]|] eqn:Er; try done. simpl. intros H.
  rw (normalize_role_fixed _ _ H) (assoc_set_same _ _ _ Er) (set_field_same _ _ _ E) //.
Qed.

Lemma normalize_choices_role key l st :
  Forall (λ c, from_option allowed_role True (choice_role key c)) (normalize_choices key l st).1.
Proof.
  revert st. induction l as [|c l IH]; intros st; simpl; [constructor|].
  destruct (normalize_choice key c st) as [c' st'] eqn:E. specialize (IH st').
  destruct (normalize_choices key l st') as [l' st'']. simpl in *. constructor; [|done].
  destruct (choice_role key c') as [s|] eqn:Er; [|done]. simpl.
  apply (normalize_choice_role key c st). by rw E.
Qed.

Lemma normalize_choices_fixed key l st :
  Forall (λ c, from_option allowed_role True (choice_role key c)) l → normalize_choices key l st = (l, st).
Proof. intros H. induction H as [|c l Hc _ IH]; simpl; [done|]. by rw normalize_choice_fixed // IH. Qed.

(** After the repair every role shown is, up to spaces around it, one of the
    five; a second repair changes and counts nothing; and only [choices]
    changed. *)
Theorem normalized_roles_allowed root stream :
  let '(root', st) := normalize_chat_completion_roles_in_place root stream in
  let key := if stream then "delta" else "message" in
  (∀ choices, get "choices" root' = Some (Array choices) → Forall (λ c, from_option allowed_role True (choice_role key c)) choices) ∧
  normalize_chat_completion_roles_in_place root' stream = (root', mkStats 0 0) ∧
  (∀ k, k ≠ "choices" → get k root' = get k root).
Proof.
  unfold normalize_chat_completion_roles_in_place. set (key := if stream then "delta" else "message").
  destruct (get "choices" root) as [[| | | |choices|]|] eqn:E; simpl; rw ?E; try by split_and!.
  pose proof (normalize_choices_role key choices (mkStats 0 0)) as H.
  destruct (normalize_choices key choices (mkStats 0 0)) as [choices' st]. simpl in *.
  assert (Hg : get "choices" (set_field "choices" (Array choices') root) = Some (Array choices'))
    by (apply get_set_field; by eapply get_Some_object).
  rw Hg. split_and!.
  - by intros ? [= <-].
  - rw normalize_choices_fixed //. by rw (set_field_same _ _ _ Hg).
  - intros k Hk. by apply get_set_field_ne.
Qed.

(** A role with spaces around it is allowed, and left as it is. *)
Theorem padded_role_is_left st : normalize_role " assistant " st = (" assistant ", st) ∧ " assistant " ∉ ALLOWED_ROLES.
Proof. split; [by vm_compute|]. apply (bool_decide_unpack _). by vm_compute. Qed.

(** ** Fields after the repair *)

Lemma patch_get needed key v root : is_Some (as_object root) → needed (Some v) = false → needed (get key (patch needed key v root)) = false.
Proof. intros H Hv. unfold patch. destruct (needed (get key root)) eqn:E; [|done]. by rw get_set_field. Qed.

Lemma patch_ne needed key v root k : key ≠ k → get k (patch needed key v root) = get k root.
Proof. intros H. unfold patch. destruct (needed _); [by apply get_set_field_ne|done]. Qed.

Lemma patch_object needed key v root : is_Some (as_object root) → is_Some (as_object (patch needed key v root)).
Proof. intros [f H]. destruct root; try done. unfold patch. by destruct (needed _); eexists. Qed.

Lemma patch_kept needed key v root : needed (get key root) = false → patch needed key v root = root.
Proof. unfold patch. by intros ->. Qed.

(** The fields a strict reader asks of a chat completion are there after the
    repair, a field that was there is untouched, and the others are as they
    were. *)
Theorem repaired_completion_has_required_fields uuid now root stream :
  is_Some (as_object root) →
  let root' := ensure_openai_chat_completion_required_fields_in_place uuid now root stream in
  missing_text (get "id" root') = false ∧ missing (get "choices" root') = false ∧ missing (get "created" root') = false ∧
  missing (get "model" root') = false ∧ missing_text (get "object" root') = false ∧
  (∀ k, k ∉ ["id"; "choices"; "created"; "model"; "object"] → get k root' = get k root) ∧
  (∀ k, k ∈ ["id"; "choices"; "created"; "model"; "object"] → missing_text (get k root) = false → get k root' = get k root).
Proof.
  intros Ho. unfold ensure_openai_chat_completion_required_fields_in_place. destruct (as_object root) eqn:Eo; [|by destruct Ho].
  rw -Eo in Ho. simpl.
  remember (patch missing_text "id" _ root) as r1 eqn:E1. remember (patch missing "choices" _ r1) as r2 eqn:E2.
  remember (patch missing "created" _ r2) as r3 eqn:E3. remember (patch missing_text "model" _ r3) as r4 eqn:E4.
  remember (patch missing_text "object" _ r4) as r5 eqn:E5.
  assert (H1 : is_Some (as_object r1)) by (rw E1; by apply patch_object).
  assert (H2 : is_Some (as_object r2)) by (rw E2; by apply patch_object).
  assert (H3 : is_Some (as_object r3)) by (rw E3; by apply patch_object).
  assert (H4 : is_Some (as_object r4)) by (rw E4; by apply patch_object).
  assert (Hm : ∀ o, missing_text o = false → missing o = false) by by intros [[]|].
  assert (N1 : ∀ k, k ≠ "id" → get k r1 = get k root) by (intros; rw E1; by apply patch_ne).
  assert (N2 : ∀ k, k ≠ "choices" → get k r2 = get k r1) by (intros; rw E2; by apply patch_ne).
  assert (N3 : ∀ k, k ≠ "created" → get k r3 = get k r2) by (intros; rw E3; by apply patch_ne).
  assert (N4 : ∀ k, k ≠ "model" → get k r4 = get k r3) by (intros; rw E4; by apply patch_ne).
  assert (N5 : ∀ k, k ≠ "object" → get k r5 = get k r4) by (intros; rw E5; by apply patch_ne).
  split_and!.
  - rw N5 // N4 // N3 // N2 // E1. by apply patch_get.
  - rw N5 // N4 // N3 // E2. by apply patch_get.
  - rw N5 // N4 // E3. by apply patch_get.
  - rw N5 // E4 /patch. destruct (missing_text (get "model" r3)) eqn:E; [by rw get_set_field|by apply Hm].
  - rw E5. apply patch_get; [done|]. by destruct stream.
  - intros k Hk. rw N5 ?N4 ?N3 ?N2 ?N1 //; set_solver.
  - intros k Hk Hv. apply list_elem_of_In in Hk. destruct Hk as [<-|[<-|[<-|[<-|[<-|[]]]]]].
    + by rw N5 // N4 // N3 // N2 // E1 patch_kept.
    + rw N5 // N4 // N3 // E2 patch_kept N1 //. by apply Hm.
    + rw N5 // N4 // E3 patch_kept N2 // N1 //. by apply Hm.
    + by rw N5 // E4 patch_kept N3 // N2 // N1.
    + by rw E5 patch_kept N4 // N3 // N2 // N1.
Qed.

(** ** Errors *)

(** Whatever the upstream sent, a body that is not already an OpenAI error
    becomes one whose message has at most 8192 characters and whose type is
    not empty. *)
Theorem lenient_error_is_bounded strict from_slice to_text bytes :
  strict bytes = None →
  let e := deserialize_wrapped_error_lenient strict from_slice to_text bytes in
  (count_chars (we_message e) ≤ MESSAGE_MAX_CHARS)%nat ∧ ∃ t, we_type e = Some t ∧ t ≠ "".
Proof.
  intros E. unfold deserialize_wrapped_error_lenient. rw E.
  generalize (default (Str (trim_lossy_message bytes)) (from_slice bytes)) as v. intros v.
  assert (Ho : ∀ map, (count_chars (we_message (api_error_from_object to_text map)) ≤ MESSAGE_MAX_CHARS)%nat ∧
    ∃ t, we_type (api_error_from_object to_text map) = Some t ∧ t ≠ "").
  { intros map. split; [apply take_chars_count|]. eexists. split; [reflexivity|].
    destruct (_ <$> _) as [[]|]; done. }
  assert (Hp : ∀ s, (count_chars (we_message (plain_error s)) ≤ MESSAGE_MAX_CHARS)%nat ∧ ∃ t, we_type (plain_error s) = Some t ∧ t ≠ "").
  { intros s. split; [apply take_chars_count|by eexists]. }
  unfold wrapped_error_from_json_value. destruct (get "error" v) as [[| | |s| |map]|]; destruct v; auto.
Qed.
