(* ===== verification/MapperRegistry.v ===== *)
(** * Endpoints, client profiles and the converter registry

    Models [ai-gateway/src/endpoints/mod.rs], [mappings.rs] and
    [bedrock/mod.rs] (from the path a client asked for to the endpoint and the
    path of the upstream), [ide_adapation/client_profile.rs] and
    [responses_upstream_strategy.rs] (which client is calling, and which wire
    format it may be given), and [middleware/mapper/registry.rs] (the table of
    converters between endpoints).

    An [unreachable!] and an [expect] are [None]. *)

From S2P Require Import Prelude RustStr Json Provider ModelId Headers HealthMonitor RateLimitMonitor ChatTypes MapperProfiles.
From Stdlib Require Import Ascii.
Local Open Scope string_scope.

(** ** Routes *)

(* src: ai-gateway/src/endpoints/mod.rs:31-66 define_endpoints macro *)
Inductive EndpointRoute :=
| RChatCompletions | RCompletions | REmbeddings | RImageGenerations | RImageEdits | RAudioSpeech
| RAudioTranscriptions | RResponses | RMessages.

#[global] Instance EndpointRoute_eq_dec : EqDecision EndpointRoute.
Proof. solve_decision. Defined.

(* src: ai-gateway/src/endpoints/mod.rs:39-43 EndpointRoute::path *)
Definition route_path (r : EndpointRoute) : string :=
  match r with
  | RChatCompletions => "chat/completions"
  | RCompletions => "completions"
  | REmbeddings => "embeddings"
  | RImageGenerations => "images/generations"
  | RImageEdits => "images/edits"
  | RAudioSpeech => "audio/speech"
  | RAudioTranscriptions => "audio/transcriptions"
  | RResponses => "responses"
  | RMessages => "messages"
  end.

Definition all_routes : list EndpointRoute :=
  [RChatCompletions; RCompletions; REmbeddings; RImageGenerations; RImageEdits; RAudioSpeech; RAudioTranscriptions;
   RResponses; RMessages].

(* src: ai-gateway/src/endpoints/mod.rs:46-51 EndpointRoute::from_path *)
Definition from_path (path : string) : option EndpointRoute :=
  List.find (λ r, String.eqb path (route_path r)) all_routes.

Inductive EndpointError :=
| UnsupportedEndpoint (message : string)
| UnsupportedProvider (p : InferenceProvider).

(* src: ai-gateway/src/endpoints/openai/mod.rs:91-107 OpenAI::try_from *)
Definition openai_try_from (r : EndpointRoute) : result OpenAIEndpoint EndpointError :=
  match r with
  | RChatCompletions => Ok ChatCompletions
  | RCompletions => Ok Completions
  | REmbeddings => Ok Embeddings
  | RImageEdits => Ok ImageEdits
  | RImageGenerations => Ok ImageGenerations
  | RAudioSpeech => Ok AudioSpeech
  | RAudioTranscriptions => Ok AudioTranscriptions
  | RResponses => Ok Responses
  | RMessages => Err (UnsupportedEndpoint "messages is resolved via Anthropic, not OpenAI")
  end.

(* src: ai-gateway/src/endpoints/mod.rs:88-94 ApiEndpoint::new *)
Definition api_endpoint_new (path : string) : option ApiEndpoint :=
  r ← from_path path;
  match r with
  | RMessages => Some EAnthropicMessages
  | _ => EOpenAI <$> result_ok (openai_try_from r)
  end.

(** ** The endpoint of the upstream *)

(* src: ai-gateway/src/endpoints/mappings.rs:14-30 Anthropic::from *)
Definition anthropic_from (e : OpenAIEndpoint) : option ApiEndpoint :=
  match e with ChatCompletions => Some EAnthropicMessages | _ => None end.

(* src: ai-gateway/src/endpoints/mappings.rs:42-55 Google::from *)
Definition google_from (e : OpenAIEndpoint) : option ApiEndpoint :=
  match e with ChatCompletions => Some EGoogleGenerateContents | _ => None end.

(* src: ai-gateway/src/endpoints/mappings.rs:59-72 Ollama::from *)
Definition ollama_from (e : OpenAIEndpoint) : option ApiEndpoint :=
  match e with ChatCompletions => Some EOllamaChatCompletions | _ => None end.

(* src: ai-gateway/src/endpoints/mappings.rs:83-96 Bedrock::from *)
Definition bedrock_from (e : OpenAIEndpoint) : option ApiEndpoint :=
  match e with ChatCompletions => Some EBedrockConverse | _ => None end.

Definition CROSS : string :=
  "this path is only routed to the same OpenAPI family (e.g. OpenAI or a named OpenAI-compatible); use chat/completions for cross-vendor chat mapping".

(** [OpenAI], a named provider or a custom one. *)
Definition same_family (p : InferenceProvider) : bool :=
  match p with OpenAI | Named _ | Custom => true | _ => false end.

Definition is_chat (e : OpenAIEndpoint) : bool := match e with ChatCompletions => true | _ => false end.

(* src: ai-gateway/src/endpoints/mod.rs:96-136 ApiEndpoint::mapped *)
Definition mapped (source : ApiEndpoint) (p : InferenceProvider) : option (result ApiEndpoint EndpointError) :=
  match source with
  | EOpenAI o =>
      if negb (is_chat o) && negb (same_family p) then Some (Err (UnsupportedEndpoint CROSS))
      else
        match p with
        | Anthropic => Ok <$> anthropic_from o
        | OpenAI => Some (Ok (EOpenAI o))
        | GoogleGemini => Ok <$> google_from o
        | Ollama => Ok <$> ollama_from o
        | Bedrock => Ok <$> bedrock_from o
        | Named name => Some (Ok (EOpenAICompatible (Named name) o))
        | Custom => Some (Ok (EOpenAICompatible Custom o))
        end
  | _ => Some (Err (UnsupportedProvider p))
  end.

(** ** Paths *)

(* src: ai-gateway/src/endpoints/openai/mod.rs:37-48 OpenAI::path *)
Definition openai_path (e : OpenAIEndpoint) : string :=
  match e with
  | ChatCompletions => "v1/chat/completions"
  | Completions => "v1/completions"
  | Embeddings => "v1/embeddings"
  | ImageGenerations => "v1/images/generations"
  | ImageEdits => "v1/images/edits"
  | Responses => "v1/responses"
  | AudioSpeech => "v1/audio/speech"
  | AudioTranscriptions => "v1/audio/transcriptions"
  end.

Definition path_punct : list ascii :=
  ["-"; "."; "_"; "~"; "!"; "$"; "&"; "'"; "("; ")"; "*"; "+"; ","; ";"; "="; ":"; "@"]%char.

(** The bytes a path segment carries as they are. *)
Definition is_path_byte (c : ascii) : bool := is_ascii_alphanumeric c || existsb (Ascii.eqb c) path_punct.

Definition hex_digit (n : Z) : ascii :=
  ascii_of_N (Z.to_N (if n <? 10 then 48 + n else 55 + n)%Z).

(* src: ai-gateway/src/endpoints/bedrock/mod.rs:47-80 percent_encode_path_segment *)
Fixpoint percent_encode_path_segment (s : string) : string :=
  match s with
  | EmptyString => ""
  | String c s' =>
      (if is_path_byte c then String c ""
       else String "%"%char (String (hex_digit (byte_of c / 16)%Z) (String (hex_digit (byte_of c mod 16)%Z) "")))
      ++ percent_encode_path_segment s'
  end.

Section paths.
Context {Date : Type} (format : Date → string → string).

(* src: ai-gateway/src/endpoints/bedrock/mod.rs:40-45 bedrock_model_path_segment *)
Definition bedrock_model_path_segment (m : ModelId Date) : string :=
  match m with Unknown raw => percent_encode_path_segment raw | _ => model_id_display format m end.

(* src: ai-gateway/src/endpoints/bedrock/mod.rs:14-25 Bedrock::path *)
Definition bedrock_path (m : ModelId Date) (is_stream : bool) : string :=
  "model/" ++ bedrock_model_path_segment m ++ (if is_stream then "/converse-stream" else "/converse").

(** [None] is [InternalError::Internal]. *)
(* src: ai-gateway/src/endpoints/mod.rs:150-172 ApiEndpoint::path *)
Definition endpoint_path (e : ApiEndpoint) (m : option (ModelId Date)) (is_stream : bool) : option string :=
  match e with
  | EOpenAI o | EOpenAICompatible _ o => Some (openai_path o)
  | EAnthropicMessages => Some "v1/messages"
  | EGoogleGenerateContents => Some "v1beta/openai/chat/completions"
  | EOllamaChatCompletions => Some "v1/chat/completions"
  | EBedrockConverse => m ← m; Some (bedrock_path m is_stream)
  end.
End paths.

(** ** Client profiles *)

(* src: ai-gateway/src/ide_adapation/client_profile.rs:12-22 ClientProfile *)
Inductive ClientProfile := PUnknown | ClaudeCode | CodexCli | CursorIde | GithubCopilot | Cline | OpenClaw | Hermes.

#[global] Instance ClientProfile_eq_dec : EqDecision ClientProfile.
Proof. solve_decision. Defined.

(* src: ai-gateway/src/ide_adapation/client_profile.rs:26-37 ClientProfile::as_otel_label *)
Definition as_otel_label (p : ClientProfile) : string :=
  match p with
  | PUnknown => "unknown" | ClaudeCode => "claude_code" | CodexCli => "codex_cli" | CursorIde => "cursor_ide"
  | GithubCopilot => "github_copilot" | Cline => "cline" | OpenClaw => "openclaw" | Hermes => "hermes"
  end.

(* src: ai-gateway/src/ide_adapation/client_profile.rs:42-45 ClientProfileResolution *)
Record ClientProfileResolution := mkResolution { cp_profile : ClientProfile; cp_explicit : bool }.

(* src: ai-gateway/src/ide_adapation/client_profile.rs:141-152 profile_from_str *)
Definition profile_from_str (s : string) : ClientProfile :=
  let s := to_ascii_lowercase s in
  if String.eqb s "claude" || String.eqb s "claude-code" then ClaudeCode
  else if String.eqb s "codex" then CodexCli
  else if String.eqb s "cursor" then CursorIde
  else if String.eqb s "copilot" || String.eqb s "github-copilot" then GithubCopilot
  else if String.eqb s "cline" then Cline
  else if String.eqb s "openclaw" then OpenClaw
  else if String.eqb s "hermes" then Hermes
  else PUnknown.

(** A header whose name begins so, whatever its case. *)
Definition has_header_prefix (prefix : string) (h : HeaderMap) : bool :=
  existsb (λ name, starts_with prefix (to_ascii_lowercase name)) (map_to_list h).*1.

(* src: ai-gateway/src/ide_adapation/client_profile.rs:90-106 is_codex_stack *)
Definition is_codex_stack (h : HeaderMap) (ua : string) : bool :=
  if contains "codex-cli" ua || contains "codex_vscode" ua then true
  else if has_header_prefix "x-codex-" h then true
  else match header_str "originator" h with
       | Some v => starts_with "codex_" (to_ascii_lowercase v)
       | None => false
       end.

(* src: ai-gateway/src/ide_adapation/client_profile.rs:108-139 heuristic_from_headers *)
Definition heuristic_from_headers (h : HeaderMap) : option ClientProfile :=
  let ua := to_ascii_lowercase (default "" (header_str "user-agent" h)) in
  if contains "claude-cli" ua || contains "claude-code" ua then Some ClaudeCode
  else if is_codex_stack h ua then Some CodexCli
  else if contains "githubcopilotchat" ua then Some GithubCopilot
  else if contains "cursor" ua || contains "connect-es" ua || has_header_prefix "x-cursor-" h then Some CursorIde
  else None.

(* src: ai-gateway/src/ide_adapation/client_profile.rs:53-88 resolve_client_profile *)
Definition resolve_client_profile (h : HeaderMap) : ClientProfileResolution :=
  let explicit :=
    match trim <$> header_str "alephant-client-profile" h with
    | Some s => if is_empty s then None else Some s
    | None => None
    end in
  match explicit, heuristic_from_headers h with
  | Some e, _ => mkResolution (profile_from_str e) true
  | None, Some p => mkResolution p false
  | None, None => mkResolution PUnknown false
  end.

(* src: ai-gateway/src/ide_adapation/client_profile.rs:183-197 endpoints_same_wire_family *)
Definition endpoints_same_wire_family (source target : ApiEndpoint) : bool :=
  match source, target with
  | EOpenAI ChatCompletions, EOpenAI ChatCompletions
  | EOpenAI Responses, EOpenAI Responses
  | EAnthropicMessages, EAnthropicMessages => true
  | _, _ => false
  end.

(* src: ai-gateway/src/ide_adapation/client_profile.rs:158-181 native_semantic_passthrough *)
Definition native_semantic_passthrough (profile : ClientProfile) (source target : ApiEndpoint) (p : InferenceProvider) : bool :=
  if negb (endpoints_same_wire_family source target) then false
  else match profile, p with
       | ClaudeCode, Anthropic => true
       | CodexCli, OpenAI => true
       | _, _ => false
       end.

(* src: ai-gateway/src/ide_adapation/responses_upstream_strategy.rs:8-12 ResponsesUpstreamStrategy *)
Inductive ResponsesUpstreamStrategy := NativePassthrough | BridgeToChat | Convert.

Definition is_openai_responses (e : ApiEndpoint) : bool := match e with EOpenAI Responses => true | _ => false end.
Definition is_compatible_responses (e : ApiEndpoint) : bool := match e with EOpenAICompatible _ Responses => true | _ => false end.

(* src: ai-gateway/src/ide_adapation/responses_upstream_strategy.rs:14-42 responses_upstream_strategy *)
Definition responses_upstream_strategy (profile : ClientProfile) (source target : ApiEndpoint) (p : InferenceProvider)
  : ResponsesUpstreamStrategy :=
  if bool_decide (profile = CodexCli) && bool_decide (p = OpenAI) && endpoints_same_wire_family source target
     && is_openai_responses source
  then NativePassthrough
  else if (bool_decide (profile = CodexCli) || bool_decide (profile = CursorIde)) && is_openai_responses source
          && is_compatible_responses target
  then BridgeToChat
  else Convert.

(** ** The registry *)

(* src: ai-gateway/src/middleware/mapper/registry.rs:61-64 RegistryKey *)
Definition RegistryKey : Type := ApiEndpoint * ApiEndpoint.

(** The implementations of [EndpointConverter] that are registered: the wire
    types of the client and of the upstream, and the converter between them. *)
Inductive ConverterImpl :=
| AnthropicConverter | GoogleConverter | OpenAIConverter | OllamaConverter | BedrockConverter
| OpenAICompatibleConverter (p : InferenceProvider).

Inductive WireType :=
| WChat | WCompletions | WEmbeddings | WImages | WResponses | WMessages | WGoogle | WOllama | WConverse | WCompatibleChat.

(* src: ai-gateway/src/middleware/mapper/mod.rs:163-172 TypedEndpointConverter *)
Record TypedEndpointConverter := mkConverter {
  tc_source : WireType;
  tc_target : WireType;
  tc_impl : ConverterImpl;
  tc_metadata : option (ProviderCapabilities * ProviderRuleSet)
}.

(* src: ai-gateway/src/middleware/mapper/registry.rs:76-82 EndpointConverterRegistryInner *)
Record Registry := mkRegistry {
  converters : list (RegistryKey * TypedEndpointConverter);   (* the latest insertion first *)
  capabilities : gmap InferenceProvider ProviderCapabilities;
  registered_rules : gmap InferenceProvider ProviderRuleSet
}.

Definition lookup_key (k : RegistryKey) (l : list (RegistryKey * TypedEndpointConverter)) : option TypedEndpointConverter :=
  snd <$> List.find (λ e, bool_decide (e.1 = k)) l.

(* src: ai-gateway/src/middleware/mapper/registry.rs:32-44 EndpointConverterRegistry::get_converter *)
Definition get_converter (r : Registry) (source target : ApiEndpoint) : option TypedEndpointConverter :=
  lookup_key (source, target) (converters r).

(* src: ai-gateway/src/middleware/mapper/registry.rs:279-284 register_converter *)
Definition register_converter (k : RegistryKey) (c : TypedEndpointConverter) (r : Registry) : Registry :=
  mkRegistry ((k, c) :: converters r) (capabilities r) (registered_rules r).

Definition metadata_of (p : InferenceProvider) : option ResolvedMapperMetadata :=
  m ← resolve_mapper_metadata p None; result_ok m.

(* src: ai-gateway/src/middleware/mapper/registry.rs:286-294 register_provider_capabilities *)
Definition register_provider_capabilities (p : InferenceProvider) (r : Registry) : option (ProviderCapabilities * Registry) :=
  m ← metadata_of p;
  Some (m_caps m, mkRegistry (converters r) (<[p := m_caps m]> (capabilities r)) (registered_rules r)).

(* src: ai-gateway/src/middleware/mapper/registry.rs:296-306 register_provider_rules *)
Definition register_provider_rules (p : InferenceProvider) (r : Registry) : option Registry :=
  '(caps, r) ← match capabilities r !! p with
               | Some c => Some (c, r)
               | None => register_provider_capabilities p r
               end;
  m ← metadata_of p;
  _ ← result_ok (validate_provider_rules caps (m_rules m));
  Some (mkRegistry (converters r) (capabilities r) (<[p := m_rules m]> (registered_rules r))).

(* src: ai-gateway/src/middleware/mapper/registry.rs:308-314 register_provider_metadata *)
Definition register_provider_metadata (p : InferenceProvider) (r : Registry) : option Registry :=
  m ← metadata_of p;
  Some (mkRegistry (converters r) (<[p := m_caps m]> (capabilities r)) (<[p := m_rules m]> (registered_rules r))).

(* src: ai-gateway/src/middleware/mapper/registry.rs:325-403 register_openai_compatible_converter *)
Definition register_openai_compatible_converter (p : InferenceProvider) (r : Registry) : option Registry :=
  '(caps, r) ← match capabilities r !! p with
               | Some c => Some (c, r)
               | None => register_provider_capabilities p r
               end;
  '(rules, r) ← match registered_rules r !! p with
                | Some u => Some (u, r)
                | None => r' ← register_provider_rules p r; u ← registered_rules r' !! p; Some (u, r')
                end;
  let meta := Some (caps, rules) in
  let r := register_converter (EOpenAI ChatCompletions, EOpenAICompatible p ChatCompletions)
             (mkConverter WChat WCompatibleChat (OpenAICompatibleConverter p) meta) r in
  let r := register_converter (EOpenAI Embeddings, EOpenAICompatible p Embeddings)
             (mkConverter WEmbeddings WEmbeddings (OpenAICompatibleConverter p) meta) r in
  Some (register_converter (EOpenAI Responses, EOpenAICompatible p Responses)
          (mkConverter WResponses WResponses (OpenAICompatibleConverter p) meta) r).

(* src: ai-gateway/src/middleware/mapper/registry.rs:316-323 register_named_openai_compatible_providers *)
Fixpoint register_named_openai_compatible_providers (configured : list InferenceProvider) (r : Registry) : option Registry :=
  match configured with
  | [] => Some r
  | Named n :: ps =>
      r ← register_provider_metadata (Named n) r;
      r ← register_openai_compatible_converter (Named n) r;
      register_named_openai_compatible_providers ps r
  | _ :: ps => register_named_openai_compatible_providers ps r
  end.

(** A converter built from the metadata the registry holds for its provider. *)
Definition register_with_metadata (p : InferenceProvider) (k : RegistryKey) (target : WireType) (i : ConverterImpl)
  (r : Registry) : option Registry :=
  c ← capabilities r !! p;
  u ← registered_rules r !! p;
  Some (register_converter k (mkConverter WChat target i (Some (c, u))) r).

(** The converters that need no metadata, in the order they are inserted. *)
Definition plain_converters : list (RegistryKey * TypedEndpointConverter) :=
  [((EOpenAI Completions, EOpenAI Completions), mkConverter WCompletions WCompletions OpenAIConverter None);
   ((EOpenAI Embeddings, EOpenAI Embeddings), mkConverter WEmbeddings WEmbeddings OpenAIConverter None);
   ((EOpenAI ImageGenerations, EOpenAI ImageGenerations), mkConverter WImages WImages OpenAIConverter None);
   ((EOpenAI Responses, EOpenAI Responses), mkConverter WResponses WResponses OpenAIConverter None);
   ((EAnthropicMessages, EAnthropicMessages), mkConverter WMessages WMessages AnthropicConverter None)].

(* src: ai-gateway/src/middleware/mapper/registry.rs:94-277 EndpointConverterRegistryInner::new *)
Definition registry_new (configured : list InferenceProvider) : option Registry :=
  r ← register_provider_metadata OpenAI (mkRegistry [] ∅ ∅);
  r ← register_provider_metadata Anthropic r;
  r ← register_provider_metadata GoogleGemini r;
  r ← register_provider_metadata Ollama r;
  r ← register_provider_metadata Bedrock r;
  r ← register_named_openai_compatible_providers configured r;
  r ← register_provider_metadata Custom r;
  r ← register_openai_compatible_converter Custom r;
  r ← register_with_metadata Anthropic (EOpenAI ChatCompletions, EAnthropicMessages) WMessages AnthropicConverter r;
  r ← register_with_metadata GoogleGemini (EOpenAI ChatCompletions, EGoogleGenerateContents) WGoogle GoogleConverter r;
  let r := register_converter (EOpenAI ChatCompletions, EOpenAI ChatCompletions)
             (mkConverter WChat WChat OpenAIConverter None) r in
  let r := register_converter (EOpenAI ChatCompletions, EOllamaChatCompletions)
             (mkConverter WChat WOllama OllamaConverter None) r in
  r ← register_with_metadata Bedrock (EOpenAI ChatCompletions, EBedrockConverse) WConverse BedrockConverter r;
  Some (foldl (λ r e, register_converter e.1 e.2 r) r plain_converters).

(** ** Routes and mapped endpoints *)

Theorem route_path_round_trip r path : from_path path = Some r ↔ path = route_path r.
Proof.
  split; [|intros ->; by destruct r].
  rw /from_path /all_routes /=. intros H.
  repeat match type of H with (if String.eqb ?a ?b then _ else _) = _ => destruct (String.eqb_spec a b) end;
    naive_solver.
Qed.

(** The [unreachable!] arms of [mappings.rs] are unreachable. *)
Lemma mapped_never_panics s p : is_Some (mapped s p).
Proof. destruct s as [o| | | | |]; [|by eexists..]. destruct o, p; by eexists. Qed.

(** What [mapped] gives for the endpoint of a client. *)
Lemma mapped_Ok s p t : mapped s p = Some (Ok t) → ∃ o, s = EOpenAI o ∧ ep_provider t = p ∧
  (o = ChatCompletions ∨ t = EOpenAI o ∨ t = EOpenAICompatible p o).
Proof. destruct s as [o| | | | |]; [|done..]. intros H. exists o. destruct o, p; simplify_eq/=; eauto. Qed.

(** A request on [/v1/messages] is refused whatever its provider: the
    Anthropic-to-Anthropic converter of the registry and the native
    passthrough of Claude Code are never used. *)
Theorem messages_endpoint_is_refused p : mapped EAnthropicMessages p = Some (Err (UnsupportedProvider p)).
Proof. done. Qed.

Theorem claude_code_never_passes_through s p t :
  mapped s p = Some (Ok t) → native_semantic_passthrough ClaudeCode s t (ep_provider t) = false.
Proof.
  intros (o & -> & <- & H)%mapped_Ok. unfold native_semantic_passthrough.
  destruct (endpoints_same_wire_family _ _) eqn:E; [|done]. simpl.
  destruct o, t as [[]| | | | |]; done.
Qed.

(** Codex is given its own wire format exactly on OpenAI's chat and Responses
    endpoints. *)
Theorem codex_passes_through s p t :
  mapped s p = Some (Ok t) →
  native_semantic_passthrough CodexCli s t (ep_provider t) = true ↔
  p = OpenAI ∧ (s = EOpenAI ChatCompletions ∨ s = EOpenAI Responses).
Proof.
  intros H. pose proof (mapped_Ok _ _ _ H) as (o & -> & <- & _).
  destruct o, t as [[]| | | | |]; simpl in *; simplify_eq; unfold native_semantic_passthrough; simpl; naive_solver.
Qed.

(** ** The registry is complete for what it promises *)

Definition registered_keys (r : Registry) : list RegistryKey := (converters r).*1.

Lemma lookup_key_is_Some k l : is_Some (lookup_key k l) ↔ k ∈ l.*1.
Proof.
  unfold lookup_key. induction l as [|[k' c] l IH]; simpl; [split; [by intros []|by intros ?%not_elem_of_nil]|].
  rw elem_of_cons. case_bool_decide; simpl; [subst; split; eauto|]. rw IH. naive_solver.
Qed.

Definition compatible_keys (p : InferenceProvider) : list RegistryKey :=
  [(EOpenAI Responses, EOpenAICompatible p Responses); (EOpenAI Embeddings, EOpenAICompatible p Embeddings);
   (EOpenAI ChatCompletions, EOpenAICompatible p ChatCompletions)].

(** A provider has its metadata. *)
Definition described (p : InferenceProvider) (r : Registry) : Prop :=
  is_Some (capabilities r !! p) ∧ is_Some (registered_rules r !! p).

Lemma metadata_of_Some p : is_Some (metadata_of p).
Proof. destruct (embedded_resolves p None) as (m & H & _). unfold metadata_of. rw H. by eexists. Qed.

Lemma register_metadata_spec p r : ∃ r', register_provider_metadata p r = Some r' ∧
  registered_keys r' = registered_keys r ∧ described p r' ∧ (∀ q, described q r → described q r').
Proof.
  unfold register_provider_metadata. destruct (metadata_of_Some p) as [m ->]. eexists. split; [done|]. split; [done|].
  split.
  - split; simpl; rw lookup_insert_eq; eauto.
  - intros q [H1 H2]. destruct (decide (p = q)) as [->|Hne].
    + split; simpl; rw lookup_insert_eq; eauto.
    + split; simpl; by rw lookup_insert_ne.
Qed.

Lemma register_compatible_spec p r : described p r → ∃ r', register_openai_compatible_converter p r = Some r' ∧
  registered_keys r' = (compatible_keys p ++ registered_keys r)%list ∧ (∀ q, described q r → described q r').
Proof. unfold register_openai_compatible_converter. intros [[c Hc] [u Hu]]. rw Hc /= Hu /=. eexists. done. Qed.

#[local] Opaque register_provider_metadata register_openai_compatible_converter.

Lemma register_named_spec ps : ∀ r, ∃ r', register_named_openai_compatible_providers ps r = Some r' ∧
  (∀ k, k ∈ registered_keys r' ↔ k ∈ registered_keys r ∨ ∃ n, Named n ∈ ps ∧ k ∈ compatible_keys (Named n)) ∧
  (∀ q, described q r → described q r').
Proof.
  induction ps as [|p ps IH]; intros r; simpl.
  { exists r. split; [done|]. split; [|done]. intros k. split; [eauto|]. intros [?|(n & []%not_elem_of_nil & _)]. done. }
  assert (Hskip : (∀ n, p ≠ Named n) → ∀ r', (∀ k, k ∈ registered_keys r' ↔ k ∈ registered_keys r ∨ ∃ n, Named n ∈ ps ∧ k ∈ compatible_keys (Named n)) →
    ∀ k, k ∈ registered_keys r' ↔ k ∈ registered_keys r ∨ ∃ n, Named n ∈ p :: ps ∧ k ∈ compatible_keys (Named n)).
  { intros Hp r' Hr' k. rw Hr'. setoid_rewrite elem_of_cons. naive_solver. }
  destruct (IH r) as (r' & E & Hk & Hd).
  destruct p as [| | | | | |n]; try (exists r'; split; [done|]; split; [by apply Hskip|done]).
  destruct (register_metadata_spec (Named n) r) as (r1 & E1 & K1 & D1 & M1). rw E1 /=.
  destruct (register_compatible_spec (Named n) r1 D1) as (r2 & E2 & K2 & M2). rw E2 /=.
  destruct (IH r2) as (r3 & E3 & K3 & M3). rw E3. exists r3. split; [done|]. split; [|naive_solver].
  intros k. rw K3 K2 K1. rw elem_of_app. setoid_rewrite elem_of_cons. naive_solver.
Qed.

(** The requests the registry can convert, by their endpoint and provider. *)
Definition convertible (configured : list InferenceProvider) (s : ApiEndpoint) (p : InferenceProvider) : Prop :=
  match s, p with
  | EOpenAI ChatCompletions, Named n | EOpenAI Embeddings, Named n | EOpenAI Responses, Named n => Named n ∈ configured
  | EOpenAI ChatCompletions, _ => True
  | EOpenAI Embeddings, (OpenAI | Custom) | EOpenAI Responses, (OpenAI | Custom) => True
  | EOpenAI Completions, OpenAI | EOpenAI ImageGenerations, OpenAI => True
  | _, _ => False
  end.

Definition fixed_keys : list RegistryKey :=
  (rev plain_converters.*1 ++
   [(EOpenAI ChatCompletions, EBedrockConverse); (EOpenAI ChatCompletions, EOllamaChatCompletions);
    (EOpenAI ChatCompletions, EOpenAI ChatCompletions); (EOpenAI ChatCompletions, EGoogleGenerateContents);
    (EOpenAI ChatCompletions, EAnthropicMessages)])%list.

Lemma register_with_metadata_spec p k t i r : described p r → ∃ r', register_with_metadata p k t i r = Some r' ∧
  registered_keys r' = k :: registered_keys r ∧ (∀ q, described q r → described q r').
Proof. unfold register_with_metadata. intros [[c Hc] [u Hu]]. rw Hc /= Hu /=. eexists. done. Qed.

Lemma register_converter_keys k c r : registered_keys (register_converter k c r) = k :: registered_keys r.
Proof. done. Qed.

#[local] Opaque register_converter register_with_metadata register_named_openai_compatible_providers.

Lemma registry_new_spec configured : ∃ r, registry_new configured = Some r ∧
  ∀ k, k ∈ registered_keys r ↔ k ∈ fixed_keys ∨ k ∈ compatible_keys Custom ∨
    ∃ n, Named n ∈ configured ∧ k ∈ compatible_keys (Named n).
Proof.
  unfold registry_new.
  destruct (register_metadata_spec OpenAI (mkRegistry [] ∅ ∅)) as (r1 & -> & K1 & D1 & M1). rw /=.
  destruct (register_metadata_spec Anthropic r1) as (r2 & -> & K2 & D2 & M2). rw /=.
  destruct (register_metadata_spec GoogleGemini r2) as (r3 & -> & K3 & D3 & M3). rw /=.
  destruct (register_metadata_spec Ollama r3) as (r4 & -> & K4 & D4 & M4). rw /=.
  destruct (register_metadata_spec Bedrock r4) as (r5 & -> & K5 & D5 & M5). rw /=.
  destruct (register_named_spec configured r5) as (r6 & -> & K6 & M6). rw /=.
  destruct (register_metadata_spec Custom r6) as (r7 & -> & K7 & D7 & M7). rw /=.
  destruct (register_compatible_spec Custom r7 D7) as (r8 & -> & K8 & M8). rw /=.
  destruct (register_with_metadata_spec Anthropic (EOpenAI ChatCompletions, EAnthropicMessages) WMessages AnthropicConverter r8)
    as (r9 & -> & K9 & M9); [auto 10|]. rw /=.
  destruct (register_with_metadata_spec GoogleGemini (EOpenAI ChatCompletions, EGoogleGenerateContents) WGoogle GoogleConverter r9)
    as (r10 & -> & K10 & M10); [auto 10|]. rw /=.
  match goal with |- context [register_with_metadata Bedrock ?k ?t ?i ?r] =>
    destruct (register_with_metadata_spec Bedrock k t i r) as (r11 & -> & K11 & M11); [apply M10; auto 10|] end.
  rw /mbind /option_bind. eexists. split; [done|]. intros k.
  assert (K0 : k ∉ registered_keys r5) by (rw K5 K4 K3 K2 K1; apply not_elem_of_nil).
  rw !register_converter_keys K11 !register_converter_keys K10 K9 K8 K7 /fixed_keys /=.
  rw !elem_of_cons. rw K6 elem_of_nil. tauto.
Qed.

Definition is_compatible_kind (o : OpenAIEndpoint) : bool :=
  match o with ChatCompletions | Embeddings | Responses => true | _ => false end.
Definition is_fixed_target (o : OpenAIEndpoint) (t : ApiEndpoint) : bool :=
  match o, t with
  | ChatCompletions, EOpenAICompatible _ _ => false
  | ChatCompletions, EOpenAI ChatCompletions => true
  | ChatCompletions, EOpenAI _ => false
  | ChatCompletions, _ => true
  | Completions, EOpenAI Completions | Embeddings, EOpenAI Embeddings | ImageGenerations, EOpenAI ImageGenerations
  | Responses, EOpenAI Responses => true
  | _, _ => false
  end.

Lemma elem_of_compatible_keys p o t :
  (EOpenAI o, t) ∈ compatible_keys p ↔ t = EOpenAICompatible p o ∧ is_compatible_kind o = true.
Proof.
  rw /compatible_keys !elem_of_cons elem_of_nil. split.
  - intros [?|[?|[?|[]]]]; by simplify_eq.
  - intros [-> H]. destruct o; simplify_eq; auto.
Qed.

Lemma elem_of_fixed_keys o t : (EOpenAI o, t) ∈ fixed_keys ↔ is_fixed_target o t = true.
Proof.
  rw /fixed_keys /plain_converters /= !elem_of_cons elem_of_nil. split.
  - intros H. repeat destruct H as [H|H]; by simplify_eq.
  - intros H. destruct o, t as [[]| | | | |]; simplify_eq; auto 20.
Qed.

(** The registry is built without panicking for every set of
    configured providers, and a request whose endpoint is mapped to an upstream
    endpoint finds a converter exactly when it is a chat request, or an
    embedding or Responses request for the same family, or a completion or
    image request for OpenAI itself, with a named provider having to be
    configured.  The other requests that [mapped] lets through end in
    [InvalidConverter]. *)
Theorem mapped_request_finds_converter configured : ∃ r, registry_new configured = Some r ∧
  ∀ s p t, mapped s p = Some (Ok t) → is_Some (get_converter r s t) ↔ convertible configured s p.
Proof.
  destruct (registry_new_spec configured) as (r & Hr & Hk). exists r. split; [done|]. intros s p t Ht.
  rw /get_converter lookup_key_is_Some. rw Hk. clear Hr Hk.
  destruct s as [o| | | | |]; [|done..]. rw elem_of_fixed_keys elem_of_compatible_keys.
  setoid_rewrite elem_of_compatible_keys.
  destruct o, p; simplify_eq/=; clear; naive_solver.
Qed.

(** ** Paths *)

Definition unhex (c : ascii) : Z := if (byte_of c <? 58)%Z then (byte_of c - 48)%Z else (byte_of c - 55)%Z.

(** What a server reads in a percent-encoded segment. *)
Fixpoint percent_decode (s : string) : string :=
  match s with
  | EmptyString => ""
  | String c s' =>
      if Ascii.eqb c "%"%char then
        match s' with
        | String a (String b s'') => String (ascii_of_N (Z.to_N (16 * unhex a + unhex b))) (percent_decode s'')
        | _ => s'
        end
      else String c (percent_decode s')
  end.

Lemma ascii_of_byte_of c : ascii_of_N (Z.to_N (byte_of c)) = c.
Proof. rw /byte_of N2Z.id. apply ascii_N_embedding. Qed.

(** A property of all bytes, checked byte by byte. *)
Lemma all_bytes (P : ascii → bool) :
  forallb (λ n, P (ascii_of_N (N.of_nat n))) (seq 0 256) = true → ∀ c, P c = true.
Proof.
  rw forallb_forall. intros H c. rw -(ascii_N_embedding c) -(N2Nat.id (N_of_ascii c)). apply H, in_seq.
  pose proof (N_ascii_bounded c). lia.
Qed.

Definition escape_reads_back (c : ascii) : bool :=
  Ascii.eqb (ascii_of_N (Z.to_N (16 * unhex (hex_digit (byte_of c / 16)) + unhex (hex_digit (byte_of c mod 16))))) c.

Lemma escape_inverse c :
  ascii_of_N (Z.to_N (16 * unhex (hex_digit (byte_of c / 16)) + unhex (hex_digit (byte_of c mod 16)))) = c.
Proof. apply Ascii.eqb_eq. apply (all_bytes escape_reads_back). by vm_compute. Qed.

Definition escape_is_plain (c : ascii) : bool :=
  is_path_byte (hex_digit (byte_of c / 16)) && is_path_byte (hex_digit (byte_of c mod 16)).

Lemma escape_plain c : escape_is_plain c = true.
Proof. apply (all_bytes escape_is_plain). by vm_compute. Qed.

(** An unknown Bedrock model is one path segment whatever its name: the encoded
    segment has no byte that a URL gives a meaning to, and reads back as the
    name. *)
Theorem encoded_segment_is_one_segment s :
  percent_decode (percent_encode_path_segment s) = s ∧
  str_all (λ c, is_path_byte c || Ascii.eqb c "%"%char) (percent_encode_path_segment s) = true.
Proof.
  induction s as [|c s [IH1 IH2]]; [done|]. simpl. destruct (is_path_byte c) eqn:E; simpl.
  - rw E IH2. destruct (Ascii.eqb_spec c "%"%char) as [->|_]; [done|]. by rw IH1.
  - rw escape_inverse IH1 IH2. pose proof (escape_plain c) as [-> ->]%andb_true_iff. done.
Qed.

(** A Bedrock identifier that parses is not encoded: what stands before its
    first point goes into the path as it is. *)
Theorem bedrock_region_reaches_the_path {Date} (format : Date → string → string) b g st :
  geo b = Some g → ∃ rest, bedrock_path format (BedrockId b) st = "model/" ++ g ++ "." ++ rest.
Proof.
  intros Hg. rw /bedrock_path /= /bedrock_display Hg. destruct (b_version b); eexists; by rw !str_app_assoc.
Qed.

Example bedrock_region_in_the_path :
  match bedrock_from_str (λ _ _, None : option string) "2025" "x/../../y?z=.anthropic.claude-v1:0" with
  | Ok b => bedrock_path (λ _ _, "") (BedrockId b) false
  | Err _ => ""
  end = "model/x/../../y?z=.anthropic.claude-v1:0/converse".
Proof. done. Qed.

Example explicit_profile_wins :
  resolve_client_profile {["alephant-client-profile" := ["codex"]; "user-agent" := ["claude-cli/1.0"]]} = mkResolution CodexCli true.
Proof. done. Qed.
