(* ===== verification/IngressNormalize.v ===== *)
(** * Normalising a client's chat request

    Models [ai-gateway/src/ide_adapation/ide_ingress_adjust]: the rewriting of
    the JSON of a chat request before it is read strictly, which every chat
    request goes through and a Cursor client's goes through twice.

    A pass over the messages visits them in order with their index; each step
    returns the rewritten message and whether it changed.  [to_string] is
    [serde_json::to_string] of a value that can be written, [to_lowercase] is
    [str::to_lowercase]. *)

From S2P Require Import Prelude RustStr Json HealthMonitor MapperRegistry.
From Stdlib Require Import Ascii.
Local Open Scope string_scope.

(** [==] on values: the entries of an object have no order. *)
Fixpoint value_eqb (a b : Value) : bool :=
  match a, b with
  | Null, Null => true
  | Bool x, Bool y => Bool.eqb x y
  | Number x, Number y => String.eqb x y
  | Str x, Str y => String.eqb x y
  | Array l, Array m =>
      (fix go (l m : list Value) : bool :=
         match l, m with
         | [], [] => true
         | x :: l, y :: m => value_eqb x y && go l m
         | _, _ => false
         end) l m
  | Object f, Object g =>
      (length f =? length g)%nat &&
      forallb (λ e, match assoc (fst e) g with Some w => value_eqb (snd e) w | None => false end) f
  | _, _ => false
  end.

Inductive IngressError := InvalidRequestBody.

(** ** Visiting messages *)

Definition MessageStep : Type := nat → Value → result (Value * bool) IngressError.

Fixpoint visit (step : MessageStep) (i : nat) (msgs : list Value) : result (list Value * bool) IngressError :=
  match msgs with
  | [] => Ok ([], false)
  | m :: rest =>
      let? p := step i m in
      let? q := visit step (S i) rest in
      Ok (p.1 :: q.1, p.2 || q.2)
  end.

Definition role_is (r : string) (msg : Value) : bool := field_is_str "role" r msg.
Definition str_or (d : string) (key : string) (v : Value) : string := default d (get key v ≫= as_str).
Definition type_is (t : string) (v : Value) : bool := field_is_str "type" t v.

(** ** Tool-call identifiers *)

Definition is_id_byte (c : ascii) : bool := is_ascii_alphanumeric c || Ascii.eqb c "_"%char || Ascii.eqb c "-"%char.

(* src: ai-gateway/src/ide_adapation/ide_ingress_adjust/cursor_openai_normalize.rs:19-24 tool_id_is_valid *)
Definition tool_id_is_valid (id : string) : bool := negb (is_empty id) && str_all is_id_byte id.

(* src: ai-gateway/src/ide_adapation/ide_ingress_adjust/cursor_openai_normalize.rs:26-36 sanitize_tool_id *)
Definition sanitize_tool_id (id : string) : option string :=
  let sanitized := str_filter is_id_byte id in
  if is_empty sanitized then None else Some sanitized.

(* src: ai-gateway/src/ide_adapation/ide_ingress_adjust/cursor_openai_normalize.rs:38-49 generate_tool_call_id *)
Definition generate_tool_call_id (msg_index tc_index : nat) (tool_name : string) : string :=
  let suffix := if is_empty tool_name then "" else "_" ++ str_filter is_id_byte tool_name in
  "call_msg" ++ pretty (N.of_nat msg_index) ++ "_tc" ++ pretty (N.of_nat tc_index) ++ suffix.

(** The identifier that replaces an invalid one. *)
Definition repaired_id (i j : nat) (name id : string) : string :=
  if tool_id_is_valid id then id else default (generate_tool_call_id i j name) (sanitize_tool_id id).

(** ** Text of a block *)

Definition push_line (acc s : string) : string := (if is_empty acc then acc else acc ++ String newline "") ++ s.

Definition fold_item (acc : string) (it : Value) : string :=
  match it with
  | Str s => push_line acc s
  | Object o => match assoc "text" o with Some (Str t) => push_line acc t | _ => acc end
  | _ => acc
  end.

(** The [?] on [map.get] leaves at the first key that is absent. *)
Fixpoint fold_keys (keys : list string) (map : list (string * Value)) : option string :=
  match keys with
  | [] => None
  | k :: keys =>
      match assoc k map with
      | None => None
      | Some (Str s) => Some s
      | Some (Number n) => Some n
      | Some (Array items) =>
          let acc := foldl fold_item "" items in
          if is_empty acc then fold_keys keys map else Some acc
      | Some _ => fold_keys keys map
      end
  end.

(* src: ai-gateway/src/ide_adapation/ide_ingress_adjust/cursor_openai_normalize.rs:52-90 extract_foldable_text_from_block *)
Definition extract_foldable_text_from_block (map : list (string * Value)) : option string :=
  fold_keys ["text"; "thinking"; "reasoning"; "content"; "summary"; "encrypted_content"] map.

Definition text_value (t : string) : Value := Object [("type", Str "text"); ("text", Str t)].
Definition opt_text (t : option string) : list Value := from_option (λ t, [text_value t]) [] t.

Section normalize.
Context (to_string : Value → string) (to_lowercase : string → string).

(* src: ai-gateway/src/ide_adapation/ide_ingress_adjust/cursor_openai_normalize.rs:92-111 tool_use_block_to_openai_tool_call *)
Definition tool_use_block_to_openai_tool_call (block : Value) : option Value :=
  id ← get "id" block ≫= as_str;
  let arguments :=
    match (match get "input" block with Some v => Some v | None => get "arguments" block end) with
    | None => "{}"
    | Some (Str s) => s
    | Some v => to_string v
    end in
  Some (Object [("id", Str id); ("type", Str "function");
                ("function", Object [("name", Str (str_or "" "name" block)); ("arguments", Str arguments)])]).

Definition join_texts (a b : string) : string :=
  if is_empty a then b else if is_empty b then a else a ++ String newline "" ++ b.

Fixpoint merge_from (cur : Value) (rest : list Value) : list Value :=
  match rest with
  | [] => [cur]
  | p :: rest =>
      if type_is "text" cur && type_is "text" p
      then merge_from (text_value (join_texts (str_or "" "text" cur) (str_or "" "text" p))) rest
      else cur :: merge_from p rest
  end.

(* src: ai-gateway/src/ide_adapation/ide_ingress_adjust/cursor_openai_normalize.rs:113-139 merge_adjacent_text_content_parts *)
Definition merge_adjacent_text_content_parts (parts : list Value) : list Value :=
  match parts with [] => [] | p :: rest => merge_from p rest end.

Definition lower_type (map : list (string * Value)) : option string := to_lowercase <$> (assoc "type" map ≫= as_str).

Definition media_part (key : string) (map : list (string * Value)) : list Value :=
  match assoc key map with Some v => [Object [("type", Str key); (key, v)]] | None => [] end.

(* src: ai-gateway/src/ide_adapation/ide_ingress_adjust/cursor_openai_normalize.rs:143-220 block_to_user_openai_content_parts *)
Definition block_to_user_openai_content_parts (block : Value) : list Value :=
  match block with
  | Str s => [text_value s]
  | Object map =>
      match lower_type map with
      | Some ty =>
          if String.eqb ty "text" || String.eqb ty "input_text" then
            [text_value (match assoc "text" map with Some (Str s) => s | Some v => to_string v | None => "" end)]
          else if String.eqb ty "image_url" then media_part "image_url" map
          else if String.eqb ty "input_audio" then media_part "input_audio" map
          else if String.eqb ty "tool_result" then
            let from_content := match assoc "content" map with Some (Str s) => Some s | Some v => Some (to_string v) | None => None end in
            opt_text (match from_content with Some t => Some t | None => extract_foldable_text_from_block map end)
          else opt_text (extract_foldable_text_from_block map)
      | None =>
          match media_part "image_url" map, media_part "input_audio" map with
          | (_ :: _) as l, _ => l
          | [], (_ :: _) as l => l
          | [], [] => opt_text (extract_foldable_text_from_block map)
          end
      end
  | _ => []
  end.

Definition is_media (p : Value) : bool := type_is "image_url" p || type_is "input_audio" p.

Definition join_part (acc : string) (p : Value) : string :=
  if type_is "text" p then
    let t := str_or "" "text" p in
    (if negb (is_empty acc) && negb (is_empty t) then acc ++ String newline "" else acc) ++ t
  else acc.

(* src: ai-gateway/src/ide_adapation/ide_ingress_adjust/cursor_openai_normalize.rs:224-248 finalize_user_style_content_parts *)
Definition finalize_user_style_content_parts (parts : list Value) : Value :=
  match parts with
  | [] => Str ""
  | _ => if existsb is_media parts then Array parts else Str (foldl join_part "" parts)
  end.

(** The content that is one block. *)
(* src: ai-gateway/src/ide_adapation/ide_ingress_adjust/cursor_openai_normalize.rs:292-299 sanitize_user_system_tool_developer_messages_for_openai_chat_schema object *)
Definition object_content (map : list (string * Value)) : Value :=
  match extract_foldable_text_from_block map with
  | Some t => Str t
  | None => match assoc "text" map with Some (Str s) => Str s | _ => Str "" end
  end.

Definition text_only_role (msg : Value) : bool := role_is "system" msg || role_is "developer" msg || role_is "tool" msg.

(* src: ai-gateway/src/ide_adapation/ide_ingress_adjust/cursor_openai_normalize.rs:254-323 sanitize_user_system_tool_developer_messages_for_openai_chat_schema *)
Definition sanitize_user_message (msg : Value) : Value * bool :=
  if negb (role_is "user" msg || text_only_role msg) then (msg, false)
  else
    match get "content" msg with
    | None | Some (Str _) | Some Null => (msg, false)
    | Some content =>
        let out :=
          match content with
          | Array blocks =>
              let parts := flat_map (λ b,
                let from_b := block_to_user_openai_content_parts b in
                if text_only_role msg then List.filter (type_is "text") from_b else from_b) blocks in
              finalize_user_style_content_parts (merge_adjacent_text_content_parts parts)
          | Object map => object_content map
          | other => Str (to_string other)
          end in
        (set_field "content" out msg, negb (value_eqb out content))
    end.

(** ** Assistant messages *)

Definition call_ids (msg : Value) : list string :=
  match get "tool_calls" msg with
  | Some (Array tcs) => flat_map (λ tc, match get "id" tc ≫= as_str with Some id => [id] | None => [] end) tcs
  | _ => []
  end.

Definition str_mem (s : string) (l : list string) : bool := existsb (String.eqb s) l.

(** The part, the promoted call and the flag of one block. *)
(* src: ai-gateway/src/ide_adapation/ide_ingress_adjust/cursor_openai_normalize.rs:363-439 sanitize_assistant_messages_for_openai_chat_schema loop *)
Definition assistant_block (existing : list string) (block : Value) : list Value * list Value * bool :=
  match block with
  | Str s => ([text_value s], [], true)
  | Object map =>
      match lower_type map with
      | Some ty =>
          if String.eqb ty "text" then
            match assoc "text" map with
            | Some (Str s) => ([text_value s], [], false)
            | Some v => ([text_value (to_string v)], [], true)
            | None => ([text_value ""], [], false)
            end
          else if String.eqb ty "refusal" then
            ([Object [("type", Str "refusal"); ("refusal", Str (default "" (assoc "refusal" map ≫= as_str)))]], [], false)
          else if String.eqb ty "tool_use" then
            ([], match tool_use_block_to_openai_tool_call block with
                 | Some tc =>
                     let id := str_or "" "id" tc in
                     if negb (is_empty id) && negb (str_mem id existing) then [tc] else []
                 | None => []
                 end, true)
          else if bool_decide (ty ∈ ["image_url"; "input_audio"; "input_file"; "file"]) then ([], [], true)
          else (opt_text (extract_foldable_text_from_block map), [], true)
      | None => (opt_text (extract_foldable_text_from_block map), [], true)
      end
  | _ => ([], [], true)
  end.

Definition has_id (id : string) (tc : Value) : bool := field_is_str "id" id tc.

Definition push_promoted (tcs : list Value) (tc : Value) : list Value :=
  let id := str_or "" "id" tc in
  if negb (is_empty id) && negb (existsb (has_id id) tcs) then (tcs ++ [tc])%list else tcs.

(* src: ai-gateway/src/ide_adapation/ide_ingress_adjust/cursor_openai_normalize.rs:453-477 sanitize_assistant_messages_for_openai_chat_schema promoted calls *)
Definition add_promoted (promoted : list Value) (msg : Value) : result Value IngressError :=
  match promoted with
  | [] => Ok msg
  | _ =>
      match get "tool_calls" msg with
      | None => Ok (set_field "tool_calls" (Array (foldl push_promoted [] promoted)) msg)
      | Some (Array tcs) => Ok (set_field "tool_calls" (Array (foldl push_promoted tcs promoted)) msg)
      | Some _ => Err InvalidRequestBody
      end
  end.

Definition has_calls (msg : Value) : bool :=
  match get "tool_calls" msg with Some (Array (_ :: _)) => true | _ => false end.

(* src: ai-gateway/src/ide_adapation/ide_ingress_adjust/cursor_openai_normalize.rs:479-493 sanitize_assistant_messages_for_openai_chat_schema content *)
Definition assistant_content (parts : list Value) (will_have_tool_calls : bool) : Value :=
  match parts with
  | [] => if will_have_tool_calls then Null else Str ""
  | [p] => if type_is "text" p then Str (str_or "" "text" p) else Array parts
  | _ => Array parts
  end.

(* src: ai-gateway/src/ide_adapation/ide_ingress_adjust/cursor_openai_normalize.rs:329-531 sanitize_assistant_messages_for_openai_chat_schema *)
Definition sanitize_assistant_message (msg : Value) : result (Value * bool) IngressError :=
  if negb (role_is "assistant" msg) then Ok (msg, false)
  else
    match get "content" msg with
    | None | Some (Str _) | Some Null => Ok (msg, false)
    | Some (Array blocks as content) =>
        let visited := map (assistant_block (call_ids msg)) blocks in
        let new_parts := flat_map (λ r, r.1.1) visited in
        let promoted := flat_map (λ r, r.1.2) visited in
        let changed := existsb snd visited || negb (length blocks =? length new_parts)%nat
                       || match promoted with [] => false | _ => true end in
        let parts := merge_adjacent_text_content_parts new_parts in
        let will_have := has_calls msg || match promoted with [] => false | _ => true end in
        let? msg1 := add_promoted promoted msg in
        let out := assistant_content parts will_have in
        Ok (set_field "content" out msg1, changed || negb (value_eqb out content))
    | Some (Object map as content) =>
        let out := object_content map in
        Ok (set_field "content" out msg, negb (value_eqb out content))
    | Some other => Ok (set_field "content" (Str (to_string other)) msg, true)
    end.

(** ** Tool calls *)

Definition strip_index (tc : Value) : Value * bool :=
  match tc with
  | Object f => (Object (assoc_remove "index" f), match assoc "index" f with Some _ => true | None => false end)
  | _ => (tc, false)
  end.

(** Rewriting the calls of an assistant message. *)
Definition on_calls (f : nat → Value → Value * bool) (msg : Value) : Value * bool :=
  if role_is "assistant" msg then
    match get "tool_calls" msg with
    | Some (Array tcs) =>
        let r := imap f tcs in
        (set_field "tool_calls" (Array r.*1) msg, existsb snd r)
    | _ => (msg, false)
    end
  else (msg, false).

(* src: ai-gateway/src/ide_adapation/ide_ingress_adjust/cursor_openai_normalize.rs:533-555 strip_tool_call_index_fields *)
Definition strip_message (msg : Value) : Value * bool := on_calls (λ _, strip_index) msg.

(* src: ai-gateway/src/ide_adapation/ide_ingress_adjust/cursor_openai_normalize.rs:557-570 stringify_tool_arguments *)
Definition stringify_tool_arguments (tc : Value) : Value * bool :=
  match get "function" tc with
  | Some (Object func) =>
      match assoc "arguments" func with
      | None | Some (Str _) => (tc, false)
      | Some args => (set_field "function" (Object (assoc_set "arguments" (Str (to_string args)) func)) tc, true)
      end
  | _ => (tc, false)
  end.

(** Setting a field to a repaired identifier. *)
Definition repair_field (key : string) (i j : nat) (name id : string) (v : Value) : Value * bool :=
  if tool_id_is_valid id then (v, false) else (set_field key (Str (repaired_id i j name id)) v, true).

Definition tool_name (tc : Value) : string := default "" (get2 "function" "name" tc ≫= as_str).

(* src: ai-gateway/src/ide_adapation/ide_ingress_adjust/cursor_openai_normalize.rs:583-610 ensure_tool_call_ids assistant calls *)
Definition repair_call (i j : nat) (tc : Value) : Value * bool :=
  match tc with
  | Object _ =>
      let r1 := repair_field "id" i j (tool_name tc) (str_or "" "id" tc) tc in
      let r2 := match get "type" r1.1 with
                | None => (set_field "type" (Str "function") r1.1, true)
                | Some _ => (r1.1, false)
                end in
      let r3 := stringify_tool_arguments r2.1 in
      (r3.1, r1.2 || r2.2 || r3.2)
  | _ => (tc, false)
  end.

(* src: ai-gateway/src/ide_adapation/ide_ingress_adjust/cursor_openai_normalize.rs:612-622 ensure_tool_call_ids answers *)
Definition repair_answer (i : nat) (msg : Value) : Value * bool :=
  if role_is "tool" msg then
    match get "tool_call_id" msg with
    | Some (Str id) => repair_field "tool_call_id" i 0 "" id msg
    | _ => (msg, false)
    end
  else (msg, false).

(* src: ai-gateway/src/ide_adapation/ide_ingress_adjust/cursor_openai_normalize.rs:625-661 ensure_tool_call_ids blocks *)
Definition repair_block (i k : nat) (block : Value) : Value * bool :=
  match get "type" block with
  | Some (Str ty) =>
      if String.eqb ty "tool_use" then
        match get "id" block with
        | Some (Str id) => repair_field "id" i k (str_or "" "name" block) id block
        | _ => (block, false)
        end
      else if String.eqb ty "tool_result" then
        match get "tool_use_id" block with
        | Some (Str id) => repair_field "tool_use_id" i k "" id block
        | _ => (block, false)
        end
      else (block, false)
  | _ => (block, false)
  end.

Definition repair_content (i : nat) (msg : Value) : Value * bool :=
  match get "content" msg with
  | Some (Array blocks) =>
      let r := imap (repair_block i) blocks in
      (set_field "content" (Array r.*1) msg, existsb snd r)
  | _ => (msg, false)
  end.

(* src: ai-gateway/src/ide_adapation/ide_ingress_adjust/cursor_openai_normalize.rs:574-664 ensure_tool_call_ids *)
Definition ensure_message (i : nat) (msg : Value) : Value * bool :=
  let r1 := on_calls (repair_call i) msg in
  let r2 := repair_answer i r1.1 in
  let r3 := repair_content i r2.1 in
  (r3.1, r1.2 || r2.2 || r3.2).

(* src: ai-gateway/src/ide_adapation/ide_ingress_adjust/cursor_openai_normalize.rs:666-696 get_tool_call_ids *)
Definition get_tool_call_ids (msg : Value) : list string :=
  if role_is "assistant" msg then
    let nonempty o := match o with Some (Str id) => if is_empty id then [] else [id] | _ => [] end in
    (match get "tool_calls" msg with Some (Array tcs) => flat_map (λ tc, nonempty (get "id" tc)) tcs | _ => [] end ++
     match get "content" msg with
     | Some (Array blocks) => flat_map (λ b, if type_is "tool_use" b then nonempty (get "id" b) else []) blocks
     | _ => []
     end)%list
  else [].

(* src: ai-gateway/src/ide_adapation/ide_ingress_adjust/cursor_openai_normalize.rs:698-724 has_tool_results *)
Definition has_tool_results (msg : Value) (ids : list string) : bool :=
  match ids with
  | [] => false
  | _ =>
      match (if role_is "tool" msg then get "tool_call_id" msg ≫= as_str else None) with
      | Some id => str_mem id ids
      | None =>
          role_is "user" msg &&
          match get "content" msg with
          | Some (Array blocks) =>
              existsb (λ b, type_is "tool_result" b &&
                match get "tool_use_id" b ≫= as_str with Some id => str_mem id ids | None => false end) blocks
          | _ => false
          end
      end
  end.

Definition empty_answer (id : string) : Value :=
  Object [("role", Str "tool"); ("tool_call_id", Str id); ("content", Str "")].

(* src: ai-gateway/src/ide_adapation/ide_ingress_adjust/cursor_openai_normalize.rs:726-754 fix_missing_tool_responses *)
Fixpoint fix_missing_tool_responses (msgs : list Value) : list Value * bool :=
  match msgs with
  | [] => ([], false)
  | m :: rest =>
      let ids := get_tool_call_ids m in
      let need_fill :=
        match ids, rest with
        | [], _ | _, [] => false
        | _, next :: _ => negb (has_tool_results next ids)
        end in
      let r := fix_missing_tool_responses rest in
      (m :: (if need_fill then map empty_answer ids else []) ++ r.1, need_fill || r.2)%list
  end.

(** ** Top level *)

Definition named_function (m : list (string * Value)) : option string :=
  match (match assoc "function" m with Some f => get "name" f ≫= as_str | None => None end) with
  | Some s => if is_empty s then None else Some s
  | None => None
  end.

Definition named_choice (name : string) : Value :=
  Object [("type", Str "function"); ("function", Object [("name", Str name)])].

(* src: ai-gateway/src/ide_adapation/ide_ingress_adjust/cursor_openai_normalize.rs:779-843 normalize_tool_choice_value *)
Definition normalize_tool_choice_value (tc : Value) : Value :=
  match tc with
  | Str s =>
      let lower := to_ascii_lowercase (trim s) in
      Str (if String.eqb lower "none" then "none"
           else if String.eqb lower "auto" then "auto"
           else if String.eqb lower "required" then "required"
           else if String.eqb lower "any" then "required"
           else "auto")
  | Object m =>
      match lower_type m with
      | Some ty =>
          if String.eqb ty "function" then
            match named_function m with Some n => named_choice n | None => Str "auto" end
          else if String.eqb ty "none" || String.eqb ty "auto" || String.eqb ty "required" then Str ty
          else if String.eqb ty "any" then Str "required"
          else Str "auto"
      | None => match named_function m with Some n => named_choice n | None => Str "auto" end
      end
  | _ => Str "auto"
  end.

(* src: ai-gateway/src/ide_adapation/ide_ingress_adjust/cursor_openai_normalize.rs:758-777 normalize_top_level_tool_choice *)
Definition normalize_top_level_tool_choice (body : Value) : Value * bool :=
  match get "tool_choice" body with
  | None | Some Null => (body, false)
  | Some tc =>
      let new_v := normalize_tool_choice_value tc in
      if value_eqb new_v tc then (body, false) else (set_field "tool_choice" new_v body, true)
  end.

(** [input_schema] becomes [parameters] unless there are some. *)
Definition schema_to_parameters (inner : list (string * Value)) : list (string * Value) :=
  match assoc "input_schema" inner with
  | Some s =>
      let inner := assoc_remove "input_schema" inner in
      match assoc "parameters" inner with Some _ => inner | None => assoc_set "parameters" s inner end
  | None => inner
  end.

Definition has_name (inner : list (string * Value)) : bool :=
  match assoc "name" inner with Some (Str s) => negb (is_empty s) | _ => false end.

Definition function_tool (inner : list (string * Value)) : Value :=
  Object [("type", Str "function"); ("function", Object inner)].

Definition rewritten_function (tool : Value) (f : list (string * Value)) : Value :=
  let inner := schema_to_parameters f in if has_name inner then function_tool inner else tool.

Definition empty_schema : Value := Object [("type", Str "object"); ("properties", Object [])].

(* src: ai-gateway/src/ide_adapation/ide_ingress_adjust/cursor_openai_normalize.rs:874-894 normalize_single_tool_definition named tools *)
Definition wrapped_tool (name : string) (m : list (string * Value)) : Value :=
  let description := match assoc "description" m with None | Some Null => [] | Some d => [("description", d)] end in
  let params := default empty_schema (match assoc "input_schema" m with Some v => Some v | None => assoc "parameters" m end) in
  function_tool ([("name", Str name)] ++ description ++ [("parameters", params)])%list.

(* src: ai-gateway/src/ide_adapation/ide_ingress_adjust/cursor_openai_normalize.rs:845-917 normalize_single_tool_definition *)
Definition normalize_single_tool_definition (tool : Value) : Value :=
  match tool with
  | Object m =>
      let ty_str := assoc "type" m ≫= as_str in
      let func := match assoc "function" m with Some (Object f) => Some f | _ => None end in
      match (if from_option (eq_ignore_ascii_case "function") false ty_str then func else None) with
      | Some f => rewritten_function tool f
      | None =>
          match (match assoc "name" m with Some (Str name) => if is_empty name then None else Some name | _ => None end) with
          | Some name => wrapped_tool name m
          | None =>
              match ty_str, func with
              | None, Some f => rewritten_function tool f
              | _, _ => tool
              end
          end
      end
  | _ => tool
  end.

(* src: ai-gateway/src/ide_adapation/ide_ingress_adjust/cursor_openai_normalize.rs:919-935 normalize_tools_array_for_openai *)
Definition normalize_tools_array_for_openai (body : Value) : Value * bool :=
  match get "tools" body with
  | Some (Array tools) =>
      let r := map (λ t, let n := normalize_single_tool_definition t in
                         if value_eqb n t then (t, false) else (n, true)) tools in
      (set_field "tools" (Array r.*1) body, existsb snd r)
  | _ => (body, false)
  end.

Definition pure (f : nat → Value → Value * bool) : MessageStep := λ i m, Ok (f i m).

(** The passes over the messages, in their order. *)
Definition normalize_messages (msgs : list Value) : result (list Value * bool) IngressError :=
  let? r1 := visit (pure (λ _, strip_message)) 0 msgs in
  let? r2 := visit (pure (λ _, sanitize_user_message)) 0 r1.1 in
  let? r3 := visit (λ _, sanitize_assistant_message) 0 r2.1 in
  let? r4 := visit (pure ensure_message) 0 r3.1 in
  let r5 := fix_missing_tool_responses r4.1 in
  Ok (r5.1, r1.2 || r2.2 || r3.2 || r4.2 || r5.2).

(* src: ai-gateway/src/ide_adapation/ide_ingress_adjust/cursor_openai_normalize.rs:939-956 normalize_cursor_openai_request_value *)
Definition normalize_cursor_openai_request_value (body : Value) : result (Value * bool) IngressError :=
  let r1 := normalize_top_level_tool_choice body in
  let r2 := normalize_tools_array_for_openai r1.1 in
  match get "messages" r2.1 with
  | None => Ok (r2.1, r1.2 || r2.2)
  | Some (Array msgs) =>
      let? r3 := normalize_messages msgs in
      Ok (set_field "messages" (Array r3.1) r2.1, r1.2 || r2.2 || r3.2)
  | Some _ => Err InvalidRequestBody
  end.

(** ** Bodies *)

(** [serde_json] on text, and whether a text reads as a chat request. *)
Context (from_slice : string → option Value) (to_vec : Value → string) (reads_as_chat : string → bool).

Definition rewritten (body : string) : result (string * bool) IngressError :=
  let? value := ok_or (from_slice body) InvalidRequestBody in
  let? r := normalize_cursor_openai_request_value value in
  Ok (if r.2 then to_vec r.1 else body, r.2).

(* src: ai-gateway/src/ide_adapation/ide_ingress_adjust/mod.rs:26-36 apply_global_chat_completions_wire_normalize *)
Definition apply_global_chat_completions_wire_normalize (body : string) : result string IngressError :=
  let? r := rewritten body in Ok r.1.

(* src: ai-gateway/src/ide_adapation/ide_ingress_adjust/cursor_ingress.rs:28-58 adjust *)
Definition adjust (source : ApiEndpoint) (body : string) : result (string * bool) IngressError :=
  match source with
  | EOpenAI ChatCompletions =>
      let? r := rewritten body in
      if reads_as_chat r.1 then Ok (r.1, true) else Err InvalidRequestBody
  | _ => Ok (body, false)
  end.

(* src: ai-gateway/src/ide_adapation/ide_ingress_adjust/mod.rs:49-75 apply_ide_ingress_adjust *)
Definition apply_ide_ingress_adjust (profile : ClientProfile) (source : ApiEndpoint) (body : string)
  : result (string * bool) IngressError :=
  match profile with
  | CursorIde => adjust source body
  | _ => Ok (body, false)
  end.
End normalize.

(** ** Visits *)

Lemma visit_Forall2 step i l l' c : visit step i l = Ok (l', c) →
  Forall2 (λ m m', ∃ j d, step j m = Ok (m', d)) l l'.
Proof.
  revert i l' c. induction l as [|m l IH]; intros i l' c; simpl; [intros; by simplify_eq/=|].
  destruct (step i m) as [[m' d]|] eqn:E; [|done]. simpl. destruct (visit step (S i) l) as [[r e]|] eqn:V; [|done].
  intros [= <- <-]. constructor; eauto.
Qed.

Lemma visit_id step i l : Forall (λ m, ∀ j, ∃ d, step j m = Ok (m, d)) l → ∃ c, visit step i l = Ok (l, c).
Proof.
  intros H. revert i. induction H as [|m l Hm Hl IH]; intros i; simpl; [by eexists|].
  destruct (Hm i) as [d ->]. destruct (IH (S i)) as [c ->]. simpl. by eexists.
Qed.

Lemma imap_id {A} (f : nat → A → A * bool) l : Forall (λ x, ∀ j, (f j x).1 = x) l → (imap f l).*1 = l.
Proof.
  intros H. revert f H. induction l as [|x l IH]; intros f H; [done|]. inversion H; subst. simpl. f_equal; [done|].
  apply IH. eapply Forall_impl; [done|]. intros y Hy j. apply (Hy (S j)).
Qed.

Lemma Forall_imap {A B} (P : B → Prop) (f : nat → A → B) l : (∀ j x, x ∈ l → P (f j x)) → Forall P (imap f l).
Proof.
  revert f. induction l as [|x l IH]; intros f H; simpl; constructor; [apply H, elem_of_cons; auto|].
  apply IH. intros j y Hy. apply H, elem_of_cons. auto.
Qed.

(** ** Identifiers *)

Lemma digits_are_id_bytes n : str_all is_id_byte (pretty (n : N)) = true.
Proof.
  eapply str_all_impl; [|apply pretty_digits]. intros c Hc. by rw /is_id_byte /is_ascii_alphanumeric Hc !orb_true_r.
Qed.

Lemma generated_id_valid i j name : tool_id_is_valid (generate_tool_call_id i j name) = true.
Proof.
  rw /tool_id_is_valid /generate_tool_call_id. apply andb_true_iff. split; [done|].
  rw !str_all_app !digits_are_id_bytes. destruct (is_empty name); [done|]. by rw str_all_app str_filter_all.
Qed.

Lemma repaired_id_valid i j name id : tool_id_is_valid (repaired_id i j name id) = true.
Proof.
  rw /repaired_id. destruct (tool_id_is_valid id) eqn:E; [done|]. rw /sanitize_tool_id.
  destruct (is_empty (str_filter is_id_byte id)) eqn:F; [apply generated_id_valid|].
  by rw /= /tool_id_is_valid F str_filter_all.
Qed.

(** ** Merged parts *)

Fixpoint no_adjacent_texts (l : list Value) : Prop :=
  match l with
  | p :: (q :: _) as rest => ¬ (type_is "text" p = true ∧ type_is "text" q = true) ∧ no_adjacent_texts rest
  | _ => True
  end.

Lemma merge_from_id rest : ∀ cur, no_adjacent_texts (cur :: rest) → merge_from cur rest = cur :: rest.
Proof.
  induction rest as [|p rest IH]; intros cur; simpl; [done|]. intros [Hn Hr].
  destruct (type_is "text" cur && type_is "text" p) eqn:E; [by apply andb_true_iff in E|]. by rw IH.
Qed.

Lemma merge_from_head rest : ∀ cur, ∃ h t, merge_from cur rest = h :: t ∧ type_is "text" h = type_is "text" cur.
Proof.
  induction rest as [|p rest IH]; intros cur; simpl; [by eauto|].
  destruct (type_is "text" cur && type_is "text" p) eqn:E; [|by eauto].
  apply andb_true_iff in E as [E _]. destruct (IH (text_value (join_texts (str_or "" "text" cur) (str_or "" "text" p))))
    as (h & t & H & Ht). exists h, t. by rw H Ht E.
Qed.

Lemma merge_from_no_adjacent rest : ∀ cur, no_adjacent_texts (merge_from cur rest).
Proof.
  induction rest as [|p rest IH]; intros cur; simpl; [done|].
  destruct (type_is "text" cur && type_is "text" p) eqn:E; [apply IH|].
  pose proof (IH p) as Hp. destruct (merge_from_head rest p) as (h & t & H & Ht). rw H in Hp. rw H.
  split; [|done]. rw Ht. intros [H1 H2]. by rw H1 H2 in E.
Qed.

Lemma merge_no_adjacent l : no_adjacent_texts (merge_adjacent_text_content_parts l).
Proof. destruct l; [done|apply merge_from_no_adjacent]. Qed.

Lemma merge_id l : no_adjacent_texts l → merge_adjacent_text_content_parts l = l.
Proof. destruct l; [done|]. apply merge_from_id. Qed.

Lemma merge_from_Forall (P : Value → Prop) rest : ∀ cur,
  (∀ t, P (text_value t)) → Forall P (cur :: rest) → Forall P (merge_from cur rest).
Proof.
  intros cur Ht. revert cur. induction rest as [|p rest IH]; intros cur H; simpl; [done|].
  inversion H as [|?? H1 H2]; inversion H2; subst. destruct (_ && _); [apply IH; by constructor|]. constructor; auto.
Qed.

Lemma merge_Forall (P : Value → Prop) l :
  (∀ t, P (text_value t)) → Forall P l → Forall P (merge_adjacent_text_content_parts l).
Proof. intros Ht H. destruct l; [done|]. by apply merge_from_Forall. Qed.

(** ** Messages in normal form *)

Definition media_value (key : string) (v : Value) : Value := Object [("type", Str key); (key, v)].
Definition refusal_value (t : string) : Value := Object [("type", Str "refusal"); ("refusal", Str t)].

Definition user_part (p : Value) : Prop :=
  (∃ t, p = text_value t) ∨ (∃ v, p = media_value "image_url" v) ∨ (∃ v, p = media_value "input_audio" v).
Definition assistant_part (p : Value) : Prop := (∃ t, p = text_value t) ∨ (∃ t, p = refusal_value t).

Definition userish (msg : Value) : bool := role_is "user" msg || text_only_role msg.

Definition settled_call (tc : Value) : Prop :=
  match tc with
  | Object f =>
      assoc "index" f = None ∧ tool_id_is_valid (str_or "" "id" tc) = true ∧ is_Some (get "type" tc) ∧
      (∀ func args, get "function" tc = Some (Object func) → assoc "arguments" func = Some args → is_Some (as_str args))
  | _ => True
  end.

Definition settled_block (b : Value) : Prop :=
  (type_is "tool_use" b = true → ∀ id, get "id" b = Some (Str id) → tool_id_is_valid id = true) ∧
  (type_is "tool_result" b = true → ∀ id, get "tool_use_id" b = Some (Str id) → tool_id_is_valid id = true).

(** The content of a message by its role. *)
Definition settled_content (msg c : Value) : Prop :=
  match c with
  | Str _ | Null => True
  | Array l =>
      (userish msg = true → Forall user_part l ∧ no_adjacent_texts l ∧ existsb is_media l = true ∧ text_only_role msg = false) ∧
      (role_is "assistant" msg = true → Forall assistant_part l ∧ no_adjacent_texts l ∧ ∀ b, assistant_content l b = Array l)
  | _ => userish msg = false ∧ role_is "assistant" msg = false
  end.

Definition no_index (tc : Value) : Prop := get "index" tc = None.

(** Set by the first pass, the next two and the fourth. *)
Definition unindexed (msg : Value) : Prop :=
  role_is "assistant" msg = true → ∀ tcs, get "tool_calls" msg = Some (Array tcs) → Forall no_index tcs.
Definition contents_settled (msg : Value) : Prop := ∀ c, get "content" msg = Some c → settled_content msg c.

Record settled (msg : Value) : Prop := {
  settled_calls : role_is "assistant" msg = true → ∀ tcs, get "tool_calls" msg = Some (Array tcs) → Forall settled_call tcs;
  settled_answer : role_is "tool" msg = true → ∀ id, get "tool_call_id" msg = Some (Str id) → tool_id_is_valid id = true;
  settled_contents : contents_settled msg;
  settled_blocks : ∀ l, get "content" msg = Some (Array l) → Forall settled_block l
}.

Lemma role_set_ne key v r msg : "role" ≠ key → role_is r (set_field key v msg) = role_is r msg.
Proof. intros H. by apply field_is_set_ne. Qed.

Lemma userish_set_ne key v msg : "role" ≠ key → userish (set_field key v msg) = userish msg.
Proof. intros H. by rw /userish /text_only_role !role_set_ne. Qed.

Lemma text_only_set_ne key v msg : "role" ≠ key → text_only_role (set_field key v msg) = text_only_role msg.
Proof. intros H. by rw /text_only_role !role_set_ne. Qed.

Lemma settled_content_set_ne key v msg c : "role" ≠ key → settled_content (set_field key v msg) c ↔ settled_content msg c.
Proof. intros H. destruct c; simpl; rw ?userish_set_ne // ?role_set_ne // ?text_only_set_ne //. Qed.

Lemma settled_content_roles a b c : (∀ r, role_is r a = role_is r b) → settled_content a c → settled_content b c.
Proof. intros H. destruct c; simpl; rw /userish /text_only_role ?H //. Qed.

Lemma assistant_not_userish msg : role_is "assistant" msg = true → userish msg = false.
Proof. intros H. rw /userish /text_only_role /role_is !(field_is_str_exclusive _ _ _ _ H) //. Qed.

Lemma get_set_object key v o w k : get k o = Some w → get key (set_field key v o) = Some v.
Proof. intros H. apply get_set_field. by eapply get_Some_object. Qed.

Section stable.
Context (to_string : Value → string) (to_lowercase : string → string).

(** [str::to_lowercase] leaves a text of lowercase ASCII letters as it is. *)
Definition lowers_ascii : Prop := ∀ s,
  str_all (λ c, is_ascii_lowercase c || Ascii.eqb c "_"%char) s = true → to_lowercase s = s.
Hypothesis lower_id : lowers_ascii.

Abbreviation user_parts := (block_to_user_openai_content_parts to_string to_lowercase).
Abbreviation assistant_parts := (assistant_block to_string to_lowercase).

Lemma user_part_fixed p : user_part p → user_parts p = [p].
Proof.
  intros [[t ->]|[[v ->]|[v ->]]]; rw /block_to_user_openai_content_parts /lower_type /= lower_id //.
Qed.

Lemma assistant_part_fixed ids p : assistant_part p → assistant_parts ids p = ([p], [], false).
Proof. intros [[t ->]|[t ->]]; rw /assistant_block /lower_type /= lower_id //. Qed.

Lemma flat_map_singleton {A B} (f : A → list B) (g : A → B) l : Forall (λ x, f x = [g x]) l → flat_map f l = map g l.
Proof. induction 1 as [|x l H _ IH]; simpl; [done|]. by rw H IH. Qed.

Lemma sanitize_user_fixed msg : contents_settled msg → (sanitize_user_message to_string to_lowercase msg).1 = msg.
Proof.
  intros Hc. rw /sanitize_user_message -/(userish msg). destruct (userish msg) eqn:U; [|done]. simpl.
  destruct (get "content" msg) as [c|] eqn:E; [|done]. specialize (Hc c E).
  destruct c as [| | | |l|m]; simpl in Hc; try done; try (by destruct Hc; congruence).
  destruct Hc as [(Hp & Hm & He & Ht)%(λ f, f U) _]. rw Ht. simpl. apply set_field_same. rw E. do 2 f_equal.
  rw (flat_map_singleton _ id) ?map_id; last (eapply Forall_impl; [done|]; apply user_part_fixed).
  rw merge_id // /finalize_user_style_content_parts He. by destruct l.
Qed.

Lemma sanitize_assistant_fixed msg : contents_settled msg →
  ∃ c, sanitize_assistant_message to_string to_lowercase msg = Ok (msg, c).
Proof.
  intros Hc. rw /sanitize_assistant_message. destruct (role_is "assistant" msg) eqn:R; [|by eauto]. simpl.
  destruct (get "content" msg) as [c|] eqn:E; [|by eauto]. specialize (Hc c E).
  destruct c as [| | | |l|m]; simpl in Hc; try (by eauto); try (by destruct Hc; congruence).
  destruct Hc as [_ (Hp & Hm & Ho)%(λ f, f R)].
  assert (Hv : map (assistant_parts (call_ids msg)) l = map (λ p, ([p], [], false)) l).
  { clear -Hp lower_id. induction Hp as [|p l Hp _ IH]; simpl; [done|]. by rw assistant_part_fixed // IH. }
  rw Hv. assert (H1 : flat_map (λ r, r.1.1) (map (λ p : Value, ([p], [] : list Value, false)) l) = l)
    by (clear; induction l; simpl; congruence).
  assert (H2 : flat_map (λ r, r.1.2) (map (λ p : Value, ([p], [] : list Value, false)) l) = [])
    by (clear; induction l; simpl; congruence).
  rw H1 H2. simpl. rw merge_id // Ho. eexists. f_equal. f_equal. by apply set_field_same.
Qed.

Lemma strip_index_fixed tc : no_index tc → (strip_index tc).1 = tc.
Proof. destruct tc; try done. rw /no_index /=. intros H. by rw assoc_remove_id. Qed.

Lemma on_calls_fixed f msg :
  (role_is "assistant" msg = true → ∀ tcs, get "tool_calls" msg = Some (Array tcs) → Forall (λ tc, ∀ j, (f j tc).1 = tc) tcs) →
  (on_calls f msg).1 = msg.
Proof.
  intros H. rw /on_calls. destruct (role_is "assistant" msg) eqn:R; [|done].
  destruct (get "tool_calls" msg) as [[| | | |tcs|]|] eqn:E; try done. simpl.
  rw imap_id; [|by apply H]. by apply set_field_same.
Qed.

Lemma stringify_fixed tc :
  (∀ func args, get "function" tc = Some (Object func) → assoc "arguments" func = Some args → is_Some (as_str args)) →
  stringify_tool_arguments to_string tc = (tc, false).
Proof.
  intros H. rw /stringify_tool_arguments. destruct (get "function" tc) as [[| | | | |func]|] eqn:F; try done.
  destruct (assoc "arguments" func) as [args|] eqn:A; [|done]. destruct (H func args eq_refl A) as [s Hs].
  by destruct args.
Qed.

Lemma repair_call_fixed i j tc : settled_call tc → (repair_call to_string i j tc).1 = tc.
Proof.
  destruct tc as [| | | | |f]; try done. intros (_ & Hid & [ty Hty] & Hargs). rw /repair_call /repair_field Hid /=.
  simpl in Hty. rw Hty /=. by rw stringify_fixed.
Qed.

Lemma repair_block_fixed i k b : settled_block b → (repair_block i k b).1 = b.
Proof.
  intros [H1 H2]. rw /repair_block. destruct (get "type" b) as [[| | |ty| |]|] eqn:T; try done.
  destruct (String.eqb_spec ty "tool_use") as [->|_].
  - destruct (get "id" b) as [[| | |id| |]|] eqn:I; try done. rw /repair_field H1 //. by apply field_is_str_true.
  - destruct (String.eqb_spec ty "tool_result") as [->|_]; [|done].
    destruct (get "tool_use_id" b) as [[| | |id| |]|] eqn:I; try done. rw /repair_field H2 //. by apply field_is_str_true.
Qed.

Lemma repair_content_fixed i msg : (∀ l, get "content" msg = Some (Array l) → Forall settled_block l) →
  (repair_content i msg).1 = msg.
Proof.
  intros H. rw /repair_content. destruct (get "content" msg) as [[| | | |l|]|] eqn:E; try done. simpl.
  rw imap_id; [by apply set_field_same|]. eapply Forall_impl; [by apply H|]. intros b Hb k. by apply repair_block_fixed.
Qed.

Lemma ensure_fixed i msg : settled msg → (ensure_message to_string i msg).1 = msg.
Proof.
  intros [Hc Ha _ Hb]. rw /ensure_message /=. rw (on_calls_fixed (repair_call to_string i) msg).
  2: { intros R tcs E. eapply Forall_impl; [by apply Hc|]. intros tc Htc j. by apply repair_call_fixed. }
  assert (H2 : (repair_answer i msg).1 = msg).
  { rw /repair_answer. destruct (role_is "tool" msg) eqn:R; [|done].
    destruct (get "tool_call_id" msg) as [[| | |id| |]|] eqn:E; try done. rw /repair_field Ha //. }
  rw H2. by apply repair_content_fixed.
Qed.

Lemma settled_unindexed msg : settled msg → unindexed msg.
Proof.
  intros H R tcs E. eapply Forall_impl; [by apply H|]. intros tc Htc. destruct tc; try done. apply Htc.
Qed.

Lemma strip_fixed msg : settled msg → (strip_message msg).1 = msg.
Proof.
  intros H. apply on_calls_fixed. intros R tcs E. eapply Forall_impl; [exact (settled_unindexed _ H R tcs E)|].
  intros tc Htc _. by apply strip_index_fixed.
Qed.

(** ** What the passes establish *)

Lemma on_calls_get f msg key : "tool_calls" ≠ key → get key (on_calls f msg).1 = get key msg.
Proof. intros H. rw /on_calls. repeat case_match; try done. simpl. by rw get_set_field_ne. Qed.

Lemma on_calls_role f r msg : role_is r (on_calls f msg).1 = role_is r msg.
Proof. rw /role_is /field_is_str on_calls_get //. Qed.

Lemma on_calls_Forall (P : Value → Prop) f msg :
  role_is "assistant" msg = true →
  (∀ tcs j tc, get "tool_calls" msg = Some (Array tcs) → tc ∈ tcs → P (f j tc).1) →
  ∀ tcs, get "tool_calls" (on_calls f msg).1 = Some (Array tcs) → Forall P tcs.
Proof.
  intros R H tcs. rw /on_calls R. destruct (get "tool_calls" msg) as [[| | | |l|]|] eqn:E; rw /= ?E; try done.
  rw (get_set_object _ _ _ _ _ E). intros [= <-]. rw Forall_fmap. apply Forall_imap. intros j x Hx. by apply (H l).
Qed.

Lemma strip_unindexed msg : unindexed (strip_message msg).1.
Proof.
  intros R. rw on_calls_role in R. apply on_calls_Forall; [done|]. intros _ _ tc _ _. destruct tc; try done.
  rw /strip_index /no_index /=. apply assoc_remove_eq.
Qed.

Lemma parts_are_user_parts b : Forall user_part (user_parts b).
Proof.
  assert (Ho : ∀ o, Forall user_part (opt_text o)) by (intros [t|]; simpl; [apply Forall_singleton; left; by eexists|constructor]).
  assert (Hi : ∀ m, Forall user_part (media_part "image_url" m)).
  { intros m. rw /media_part. case_match; [apply Forall_singleton; right; left; by eexists|constructor]. }
  assert (Ha : ∀ m, Forall user_part (media_part "input_audio" m)).
  { intros m. rw /media_part. case_match; [apply Forall_singleton; right; right; by eexists|constructor]. }
  rw /block_to_user_openai_content_parts. destruct b as [| | |s| |m]; try constructor.
  { left. by eexists. }
  { constructor. }
  destruct (lower_type to_lowercase m).
  - repeat case_match; try done; apply Forall_singleton; left; by eexists.
  - pose proof (Hi m) as H1. pose proof (Ha m) as H2. destruct (media_part "image_url" m); [|done].
    by destruct (media_part "input_audio" m).
Qed.

Lemma text_part_not_media p : user_part p → type_is "text" p = true → is_media p = false.
Proof. intros [[t ->]|[[v ->]|[v ->]]]; done. Qed.

Lemma text_parts_no_media l : Forall user_part l → Forall (λ p, type_is "text" p = true) l → existsb is_media l = false.
Proof.
  intros H1 H2. induction H1 as [|p l Hp _ IH]; [done|]. inversion H2; subst. simpl. by rw text_part_not_media // IH.
Qed.

Lemma sanitize_user_get msg key : "content" ≠ key →
  get key (sanitize_user_message to_string to_lowercase msg).1 = get key msg.
Proof. intros H. rw /sanitize_user_message. repeat case_match; try done; simpl; by rw get_set_field_ne. Qed.

Lemma object_content_str m : ∃ s, object_content m = Str s.
Proof. rw /object_content. repeat case_match; by eexists. Qed.

Lemma finalized_settled msg l : userish msg = true → Forall user_part l → no_adjacent_texts l →
  (text_only_role msg = true → Forall (λ p, type_is "text" p = true) l) →
  settled_content msg (finalize_user_style_content_parts l).
Proof.
  intros U Hp Hm Ht. rw /finalize_user_style_content_parts. destruct l as [|p l]; [done|].
  destruct (existsb is_media (p :: l)) eqn:E; [|done]. split.
  - intros _. split_and!; try done. destruct (text_only_role msg) eqn:T; [|done].
    by rw (text_parts_no_media _ Hp (Ht eq_refl)) in E.
  - intros R. by rw (assistant_not_userish _ R) in U.
Qed.

Lemma sanitize_user_settles msg : unindexed msg →
  let m := (sanitize_user_message to_string to_lowercase msg).1 in
  unindexed m ∧ (userish m = true → contents_settled m).
Proof.
  intros Hu m. assert (Hr : ∀ r, role_is r m = role_is r msg).
  { intros r. rw /role_is /field_is_str /m sanitize_user_get //. }
  split. { intros R tcs. rw Hr in R. rw /m sanitize_user_get //. by apply Hu. }
  assert (Hus : userish m = userish msg) by rw /userish /text_only_role !Hr //.
  intros U. rw Hus in U. intros c. rw /m /sanitize_user_message -/(userish msg) U /=.
  destruct (get "content" msg) as [c0|] eqn:E; [|by rw E].
  destruct c0; rw /= ?E ?(get_set_object _ _ _ _ _ E); try (by intros [= <-]); intros [= <-];
    rw settled_content_set_ne //.
  - apply finalized_settled; [done| |apply merge_no_adjacent|].
    + apply merge_Forall; [left; by eexists|]. apply Forall_flat_map, Forall_forall. intros b _.
      pose proof (parts_are_user_parts b) as Hb. destruct (text_only_role msg); [|done].
      apply Forall_forall. intros x [Hx _]%list_elem_of_In%filter_In. rw Forall_forall in Hb. by apply Hb, list_elem_of_In.
    + intros T. rw T. apply merge_Forall; [done|]. apply Forall_flat_map, Forall_forall. intros b _.
      apply Forall_forall. intros x [_ Hx]%list_elem_of_In%filter_In. done.
  - destruct (object_content_str fields) as [s ->]. done.
Qed.

Lemma assistant_parts_ok ids b :
  Forall assistant_part (assistant_parts ids b).1.1 ∧ Forall no_index (assistant_parts ids b).1.2.
Proof.
  assert (Ht : ∀ t, Forall assistant_part [text_value t]) by (intros t; apply Forall_singleton; left; by eexists).
  assert (Ho : ∀ o, Forall assistant_part (opt_text o)) by (intros [t|]; simpl; [apply Ht|constructor]).
  assert (Hn : Forall no_index []) by constructor. assert (Hp : Forall assistant_part []) by constructor.
  assert (Hr : ∀ t, Forall assistant_part [refusal_value t]) by (intros t; apply Forall_singleton; right; by eexists).
  rw /assistant_block. destruct b as [| | |s| |m]; try (by split; simpl; auto).
  destruct (lower_type to_lowercase m) as [ty|]; [|by split; simpl; auto].
  destruct (String.eqb ty "text"); [repeat case_match; by split; simpl; auto|].
  destruct (String.eqb ty "refusal"); [by split; [apply Hr|]|].
  destruct (String.eqb ty "tool_use"); [|case_bool_decide; by split; simpl; auto].
  split; [done|]. rw /tool_use_block_to_openai_tool_call /=. destruct (assoc "id" m ≫= as_str); [|done]. simpl.
  case_match; [|done]. by apply Forall_singleton.
Qed.

Lemma visited_parts_ok ids l :
  Forall assistant_part (flat_map (λ r, r.1.1) (map (assistant_parts ids) l)) ∧
  Forall no_index (flat_map (λ r, r.1.2) (map (assistant_parts ids) l)).
Proof.
  induction l as [|b l [IH1 IH2]]; simpl; [split; constructor|]. destruct (assistant_parts_ok ids b).
  split; by apply Forall_app_2.
Qed.

Lemma push_promoted_Forall (P : Value → Prop) promoted : ∀ tcs,
  Forall P tcs → Forall P promoted → Forall P (foldl push_promoted tcs promoted).
Proof.
  induction promoted as [|tc l IH]; intros tcs Ht Hp; simpl; [done|]. inversion Hp; subst. apply IH; [|done].
  rw /push_promoted. case_match; [|done]. apply Forall_app_2; [done|]. by apply Forall_singleton.
Qed.

Lemma add_promoted_get promoted msg m key : add_promoted promoted msg = Ok m → "tool_calls" ≠ key → get key m = get key msg.
Proof.
  rw /add_promoted. intros H Hne. destruct promoted; [by simplify_eq|].
  destruct (get "tool_calls" msg) as [[]|]; simplify_eq; by rw get_set_field_ne.
Qed.

Lemma add_promoted_unindexed promoted msg m : add_promoted promoted msg = Ok m → is_Some (as_object msg) →
  Forall no_index promoted → unindexed msg → unindexed m.
Proof.
  intros H Ho Hp Hu R tcs. assert (R' : role_is "assistant" msg = true).
  { by rw /role_is /field_is_str (add_promoted_get _ _ _ "role" H) in R. }
  rw /add_promoted in H. destruct promoted as [|q promoted]; [simplify_eq; by apply Hu|].
  specialize (Hu R'). destruct (get "tool_calls" msg) as [[| | | |l|]|]; simplify_eq; rw get_set_field //; intros [= <-];
    apply (push_promoted_Forall _ (q :: promoted)); auto.
Qed.

Lemma assistant_content_settled msg l w : role_is "assistant" msg = true →
  Forall assistant_part l → no_adjacent_texts l → settled_content msg (assistant_content l w).
Proof.
  intros R Hp Hn. pose proof (assistant_not_userish _ R) as U. rw /assistant_content.
  destruct l as [|p [|q l]]; [by destruct w| |]; [destruct (type_is "text" p) eqn:T; [done|]|]; (split; [congruence|]);
    intros _; split_and!; try done; intros b; by rw /= ?T.
Qed.

Lemma other_roles_settled msg : userish msg = false → role_is "assistant" msg = false → contents_settled msg.
Proof. intros U A c _. destruct c; simpl; try done. split; congruence. Qed.

Lemma sanitize_assistant_settles msg m c : unindexed msg → (userish msg = true → contents_settled msg) →
  sanitize_assistant_message to_string to_lowercase msg = Ok (m, c) → unindexed m ∧ contents_settled m.
Proof.
  intros Hu Hc. rw /sanitize_assistant_message. destruct (role_is "assistant" msg) eqn:R; simpl.
  2: { intros [= <- <-]. split; [done|]. destruct (userish msg) eqn:U; [by apply Hc|]. by apply other_roles_settled. }
  assert (Hkeep : ∀ out, settled_content msg out → is_Some (as_object msg) →
    unindexed (set_field "content" out msg) ∧ contents_settled (set_field "content" out msg)).
  { intros out Ho Hobj. split.
    - intros R' tcs. rw get_set_field_ne //. rw role_set_ne // in R'. by apply Hu.
    - intros c'. rw get_set_field //. intros [= <-]. by rw settled_content_set_ne. }
  destruct (get "content" msg) as [c0|] eqn:E.
  2: { intros [= <- <-]. split; [done|]. intros c'. by rw E. }
  pose proof (get_Some_object _ _ _ E) as Ho.
  destruct c0 as [|b|n|s|l|fs]; simpl; try (intros [= <- <-]; by apply Hkeep);
    try (intros [= <- <-]; split; [done|]; intros c'; rw E; by intros [= <-]).
  - destruct (visited_parts_ok (call_ids msg) l) as [Hp Hn].
    destruct (add_promoted _ msg) as [msg1|] eqn:A; [|done]. intros [= <- <-].
    assert (Hro : ∀ r, role_is r msg1 = role_is r msg).
    { intros r. by rw /role_is /field_is_str (add_promoted_get _ _ _ "role" A). }
    assert (Hobj : is_Some (as_object msg1)).
    { rw -(add_promoted_get _ _ _ "content" A) // in E. by eapply get_Some_object. }
    split.
    + intros R' tcs. rw get_set_field_ne //. rw role_set_ne // in R'. by eapply add_promoted_unindexed.
    + intros c'. rw get_set_field //. intros [= <-]. rw settled_content_set_ne //. apply assistant_content_settled.
      * by rw Hro.
      * apply merge_Forall; [left; by eexists|done].
      * apply merge_no_adjacent.
  - intros [= <- <-]. destruct (object_content_str fs) as [s ->]. by apply Hkeep.
Qed.

Lemma repair_field_get_ne key key' i j name id v : key ≠ key' → get key' (repair_field key i j name id v).1 = get key' v.
Proof. intros H. rw /repair_field. case_match; [done|]. simpl. by rw get_set_field_ne. Qed.

Lemma repair_field_valid key i j name v : is_Some (as_object v) →
  tool_id_is_valid (str_or "" key (repair_field key i j name (str_or "" key v) v).1) = true.
Proof.
  intros Ho. rw /repair_field. destruct (tool_id_is_valid (str_or "" key v)) eqn:E; [done|]. rw /= /str_or get_set_field //=.
  apply repaired_id_valid.
Qed.

Lemma stringify_get_ne tc key : "function" ≠ key → get key (stringify_tool_arguments to_string tc).1 = get key tc.
Proof. intros H. rw /stringify_tool_arguments. repeat case_match; try done; simpl; by rw get_set_field_ne. Qed.

Lemma stringify_settles tc func args :
  get "function" (stringify_tool_arguments to_string tc).1 = Some (Object func) → assoc "arguments" func = Some args →
  is_Some (as_str args).
Proof.
  rw /stringify_tool_arguments. destruct (get "function" tc) as [[| | | | |f]|] eqn:F; rw /= ?F; try done.
  destruct (assoc "arguments" f) as [a|] eqn:A.
  - destruct a; rw /= ?F ?(get_set_object _ _ _ _ _ F); intros [= <-]; rw ?assoc_set_eq ?A; intros [= <-]; by eexists.
  - rw /= F. intros [= <-]. by rw A.
Qed.

Lemma object_get_eq tc f key : tc = Object f → get key tc = assoc key f.
Proof. by intros ->. Qed.

Lemma repair_call_settled i j tc : no_index tc → settled_call (repair_call to_string i j tc).1.
Proof.
  destruct tc as [| | | | |f]; try done. intros Hi. rw /repair_call. set (tc := Object f) in *.
  set (r1 := repair_field "id" i j (tool_name tc) (str_or "" "id" tc) tc).
  assert (Hid : tool_id_is_valid (str_or "" "id" r1.1) = true) by (by apply repair_field_valid; eexists).
  assert (Hi1 : get "index" r1.1 = None) by (by rw repair_field_get_ne).
  assert (Ho1 : is_Some (as_object r1.1)) by (rw /r1 /repair_field; case_match; by eexists).
  set (r2 := match get "type" r1.1 with None => _ | Some _ => _ end).
  assert (Hr2 : tool_id_is_valid (str_or "" "id" r2.1) = true ∧ get "index" r2.1 = None ∧ is_Some (get "type" r2.1)).
  { rw /r2. destruct (get "type" r1.1) as [t|] eqn:T; simpl; [by rw T; eauto|].
    rw /str_or (get_set_field_ne "type" "id") // (get_set_field_ne "type" "index") // get_set_field //. }
  destruct Hr2 as (Hid2 & Hi2 & Ht2). simpl. set (out := (stringify_tool_arguments to_string r2.1).1).
  assert (Hout : ∀ key, "function" ≠ key → get key out = get key r2.1) by (intros; by apply stringify_get_ne).
  assert (Hd : settled_call out ∨ ∃ g, out = Object g) by (destruct out; [left; done..|right; by eexists]). destruct Hd as [|[g Hg]]; [done|].
  rw Hg /settled_call -Hg. rw -(object_get_eq out g) // (Hout "index") // (Hout "type") // /str_or (Hout "id") //.
  split_and!; try done. intros func args. apply stringify_settles.
Qed.

Lemma repair_block_settled i k b : settled_block (repair_block i k b).1.
Proof.
  rw /repair_block. destruct (get "type" b) as [[| | |ty| |]|] eqn:T;
    try (split; simpl; intros H; rw /type_is /field_is_str T in H; done).
  destruct (String.eqb_spec ty "tool_use") as [->|N1].
  - destruct (get "id" b) as [[| | |id| |]|] eqn:I; try (split; simpl; intros H; [by rw I|by rw /type_is /field_is_str T in H]).
    pose proof (get_Some_object _ _ _ I) as Ho. pose proof (repair_field_valid "id" i k (str_or "" "name" b) b Ho) as Hv.
    rw /str_or I /= -/(str_or "" "name" b) in Hv. split; intros H.
    + intros id' Hg. by rw Hg /= in Hv.
    + by rw /type_is /field_is_str repair_field_get_ne // T in H.
  - destruct (String.eqb_spec ty "tool_result") as [->|N2].
    + destruct (get "tool_use_id" b) as [[| | |id| |]|] eqn:I; try (split; simpl; intros H; [by rw /type_is /field_is_str T in H|by rw I]).
      pose proof (get_Some_object _ _ _ I) as Ho. pose proof (repair_field_valid "tool_use_id" i k "" b Ho) as Hv.
      rw /str_or I /= in Hv. split; intros H; [by rw /type_is /field_is_str repair_field_get_ne // T in H|].
      intros id' Hg. by rw Hg /= in Hv.
    + split; simpl; intros H; rw /type_is field_is_str_true T in H; by simplify_eq.
Qed.

Lemma part_block_settled p : user_part p ∨ assistant_part p → settled_block p.
Proof. intros [[[t ->]|[[t ->]|[t ->]]]|[[t ->]|[t ->]]]; done. Qed.

Lemma repair_answer_get_ne i msg key : "tool_call_id" ≠ key → get key (repair_answer i msg).1 = get key msg.
Proof. intros H. rw /repair_answer. repeat case_match; try done. by apply repair_field_get_ne. Qed.

Lemma repair_content_get_ne i msg key : "content" ≠ key → get key (repair_content i msg).1 = get key msg.
Proof. intros H. rw /repair_content. repeat case_match; try done. simpl. by rw get_set_field_ne. Qed.

(** The parts of a message with a known role are left alone. *)
Lemma repair_content_parts i msg l : contents_settled msg → userish msg = true ∨ role_is "assistant" msg = true →
  get "content" msg = Some (Array l) → (imap (repair_block i) l).*1 = l.
Proof.
  intros Hc Hr E. destruct (Hc _ E) as [H1 H2]. apply imap_id.
  assert (Hl : Forall (λ p, user_part p ∨ assistant_part p) l).
  { destruct Hr as [U|A]; [destruct (H1 U) as [Hp _]|destruct (H2 A) as [Hp _]]; eapply Forall_impl; try done; auto. }
  eapply Forall_impl; [done|]. intros p Hp j. by apply repair_block_fixed, part_block_settled.
Qed.

Lemma ensure_settles i msg : unindexed msg → contents_settled msg → settled (ensure_message to_string i msg).1.
Proof.
  intros Hu Hc. rw /ensure_message /=. set (m1 := (on_calls (repair_call to_string i) msg).1).
  set (m2 := (repair_answer i m1).1). set (m3 := (repair_content i m2).1).
  assert (G1 : ∀ key, "tool_calls" ≠ key → get key m1 = get key msg) by (intros; by apply on_calls_get).
  assert (G2 : ∀ key, "tool_call_id" ≠ key → get key m2 = get key m1) by (intros; by apply repair_answer_get_ne).
  assert (G3 : ∀ key, "content" ≠ key → get key m3 = get key m2) by (intros; by apply repair_content_get_ne).
  assert (Hr : ∀ r, role_is r m3 = role_is r msg) by (intros r; rw /role_is /field_is_str (G3 "role") // (G2 "role") // G1 //).
  assert (Hr2 : ∀ r, role_is r m2 = role_is r msg) by (intros r; rw /role_is /field_is_str (G2 "role") // G1 //).
  assert (Hc2 : contents_settled m2).
  { intros c. rw (G2 "content") // G1 //. intros E. eapply settled_content_roles; [|by apply Hc].
    intros r. by rw Hr2. }
  split.
  - intros R tcs. rw (G3 "tool_calls") // (G2 "tool_calls") //. rw Hr in R. apply on_calls_Forall; [done|].
    intros l j tc E Hin. apply repair_call_settled. specialize (Hu R l E). rw Forall_forall in Hu. by apply Hu.
  - intros R id. rw Hr in R. rw (G3 "tool_call_id") //. rw /m2 /repair_answer.
    assert (R1 : role_is "tool" m1 = true) by rw /role_is /field_is_str G1 //. rw R1.
    destruct (get "tool_call_id" m1) as [v|] eqn:E; [|by rw E].
    destruct v as [| | |w| |]; rw /= ?E; try done. pose proof (get_Some_object _ _ _ E) as Ho.
    pose proof (repair_field_valid "tool_call_id" i 0 "" m1 Ho) as Hv. rw /str_or E /= in Hv.
    intros Hg. by rw Hg /= in Hv.
  - intros c. rw /m3 /repair_content. destruct (get "content" m2) as [c2|] eqn:E; [|by rw E].
    specialize (Hc2 c2 E) as Hc3. destruct c2 as [| | | |l|]; rw /= ?E; try (by intros [= <-]).
    rw (get_set_object _ _ _ _ _ E). intros [= <-]. rw settled_content_set_ne //. simpl.
    split; intros H; rw (repair_content_parts i m2) //; auto; by apply Hc3.
  - intros l. rw /m3 /repair_content. destruct (get "content" m2) as [c2|] eqn:E; [|by rw E].
    destruct c2 as [| | | |l2|]; rw /= ?E; try done.
    rw (get_set_object _ _ _ _ _ E). intros [= <-]. rw Forall_fmap. apply Forall_imap. intros j x _. apply repair_block_settled.
Qed.

(** ** Missing answers *)

Lemma settled_ids_valid msg : settled msg → Forall (λ id, tool_id_is_valid id = true) (get_tool_call_ids msg).
Proof.
  intros [Hc _ Hco Hb]. rw /get_tool_call_ids. destruct (role_is "assistant" msg) eqn:R; [|constructor].
  apply Forall_app_2.
  - destruct (get "tool_calls" msg) as [[| | | |tcs|]|] eqn:E; try constructor.
    apply Forall_flat_map. specialize (Hc eq_refl tcs eq_refl). eapply Forall_impl; [done|]. intros tc Htc.
    destruct (get "id" tc) as [[| | |id| |]|] eqn:I; try constructor. destruct (is_empty id); constructor; [|constructor].
    destruct tc; try done. destruct Htc as (_ & Hv & _). by rw /str_or I in Hv.
  - destruct (get "content" msg) as [[| | | |l|]|] eqn:E; try constructor.
    apply Forall_flat_map. eapply Forall_impl; [by apply Hb|]. intros b [Hu _]. destruct (type_is "tool_use" b); [|constructor].
    destruct (get "id" b) as [[| | |id| |]|] eqn:I; try constructor. destruct (is_empty id); constructor; [|constructor].
    by apply Hu.
Qed.

Lemma empty_answer_settled id : tool_id_is_valid id = true → settled (empty_answer id).
Proof.
  intros H. split; try done; simpl.
  - by intros _ id' [= <-].
  - by intros c [= <-].
Qed.

Lemma answered_empty id ids : id ∈ ids → has_tool_results (empty_answer id) ids = true.
Proof.
  intros H. rw /has_tool_results /=. destruct ids as [|x ids]; [by apply not_elem_of_nil in H|].
  apply existsb_exists. exists id. split; [by apply list_elem_of_In|apply String.eqb_refl].
Qed.

(** Every message with calls that has a successor is answered by it. *)
Fixpoint answered (msgs : list Value) : Prop :=
  match msgs with
  | m :: (next :: _) as rest =>
      (get_tool_call_ids m ≠ [] → has_tool_results next (get_tool_call_ids m) = true) ∧ answered rest
  | _ => True
  end.

Lemma answered_fixed msgs : answered msgs → (fix_missing_tool_responses msgs).1 = msgs.
Proof.
  induction msgs as [|m msgs IH]; [done|]. intros H. cbn [fix_missing_tool_responses].
  destruct msgs as [|n msgs]; [by destruct (get_tool_call_ids m)|]. destruct H as [H1 H2].
  destruct (get_tool_call_ids m) as [|id ids] eqn:E; [cbn [fst app]; by rw IH|].
  rw H1 //. cbn [negb fst app]. by rw IH.
Qed.

Lemma answered_fill ids l : answered l → answered (map empty_answer ids ++ l)%list.
Proof.
  intros Hl. induction ids as [|id ids IH]; [done|]. simpl. destruct (map empty_answer ids ++ l)%list; [done|].
  split; [|done]. by intros [].
Qed.

Lemma fix_head m msgs : ∃ l, (fix_missing_tool_responses (m :: msgs)).1 = m :: l.
Proof. by eexists. Qed.

Lemma fixed_answered msgs : answered (fix_missing_tool_responses msgs).1.
Proof.
  induction msgs as [|m msgs IH]; [done|]. cbn [fix_missing_tool_responses].
  destruct (get_tool_call_ids m) as [|id ids] eqn:E.
  { simpl. destruct (fix_missing_tool_responses msgs).1 eqn:F; [done|]. split; [by rw E|done]. }
  destruct msgs as [|n msgs]; [done|]. destruct (has_tool_results n (id :: ids)) eqn:H.
  - cbn [negb]. destruct (fix_head n msgs) as [l Hl]. rw Hl in IH. cbn [fst app]. rw Hl. split; [by rw E|done].
  - cbn [negb]. cbn [fst map app]. split.
    + intros _. rw E. apply answered_empty, elem_of_cons. auto.
    + apply (answered_fill (id :: ids)). done.
Qed.

Lemma fix_settled msgs : Forall settled msgs → Forall settled (fix_missing_tool_responses msgs).1.
Proof.
  induction 1 as [|m msgs Hm _ IH]; [done|]. cbn [fix_missing_tool_responses]. simpl. constructor; [done|].
  apply Forall_app_2; [|done]. case_match; [|constructor]. apply Forall_fmap. eapply Forall_impl; [by apply settled_ids_valid|].
  intros id. apply empty_answer_settled.
Qed.

(** ** The whole pass *)

Lemma visit_Forall (P Q : Value → Prop) step i l l' c : visit step i l = Ok (l', c) →
  (∀ j m m' d, P m → step j m = Ok (m', d) → Q m') → Forall P l → Forall Q l'.
Proof.
  intros H%visit_Forall2 Hs Hl. induction H as [|m m' l l' (j & d & H) _ IH]; [constructor|].
  inversion Hl; subst. constructor; eauto.
Qed.

Lemma pure_Ok f j m m' d : pure f j m = Ok (m', d) → m' = (f j m).1.
Proof. rw /pure. by intros [= ->]. Qed.

Abbreviation normalized_messages := (normalize_messages to_string to_lowercase).

Lemma normalize_messages_settles l l' c : normalized_messages l = Ok (l', c) → Forall settled l' ∧ answered l'.
Proof.
  rw /normalize_messages.
  destruct (visit (pure (λ _, strip_message)) 0 l) as [[l1 c1]|] eqn:E1; [|done]. simpl.
  destruct (visit (pure (λ _, sanitize_user_message to_string to_lowercase)) 0 l1) as [[l2 c2]|] eqn:E2; [|done]. simpl.
  destruct (visit (λ _, sanitize_assistant_message to_string to_lowercase) 0 l2) as [[l3 c3]|] eqn:E3; [|done]. simpl.
  destruct (visit (pure (ensure_message to_string)) 0 l3) as [[l4 c4]|] eqn:E4; [|done]. simpl. intros [= <- <-].
  split; [|apply fixed_answered]. apply fix_settled.
  assert (H1 : Forall unindexed l1).
  { apply (visit_Forall (λ _, True) unindexed _ _ _ _ _ E1); [|by apply Forall_true].
    intros j m m' d _ ->%pure_Ok. apply strip_unindexed. }
  assert (H2 : Forall (λ m, unindexed m ∧ (userish m = true → contents_settled m)) l2).
  { eapply visit_Forall; [exact E2| |exact H1]. intros j m m' d Hm ->%pure_Ok. by apply sanitize_user_settles. }
  assert (H3 : Forall (λ m, unindexed m ∧ contents_settled m) l3).
  { eapply visit_Forall; [exact E3| |exact H2]. intros j m m' d [Ha Hb] H. by eapply sanitize_assistant_settles. }
  eapply visit_Forall; [exact E4| |exact H3]. intros j m m' d [Ha Hb] ->%pure_Ok. by apply ensure_settles.
Qed.

Lemma pure_fixed (f : nat → Value → Value * bool) m : (∀ j, (f j m).1 = m) → ∀ j, ∃ d, pure f j m = Ok (m, d).
Proof. intros H j. exists (f j m).2. rw /pure -{2}(H j). by destruct (f j m). Qed.

Lemma normalize_messages_fixed l : Forall settled l → answered l → ∃ c, normalized_messages l = Ok (l, c).
Proof.
  intros Hs Ha. rw /normalize_messages.
  destruct (visit_id (pure (λ _, strip_message)) 0 l) as [c1 ->].
  { eapply Forall_impl; [done|]. intros m Hm. apply pure_fixed. intros _. by apply strip_fixed. }
  simpl. destruct (visit_id (pure (λ _, sanitize_user_message to_string to_lowercase)) 0 l) as [c2 ->].
  { eapply Forall_impl; [done|]. intros m Hm. apply pure_fixed. intros _. by apply sanitize_user_fixed, settled_contents. }
  simpl. destruct (visit_id (λ _, sanitize_assistant_message to_string to_lowercase) 0 l) as [c3 ->].
  { eapply Forall_impl; [done|]. intros m Hm _. by apply sanitize_assistant_fixed, settled_contents. }
  simpl. destruct (visit_id (pure (ensure_message to_string)) 0 l) as [c4 ->].
  { eapply Forall_impl; [done|]. intros m Hm. apply pure_fixed. intros j. by apply ensure_fixed. }
  simpl. rw answered_fixed //. by eexists.
Qed.

(** ** Tools and tool choice *)

Lemma named_function_nonempty m n : named_function m = Some n → is_empty n = false.
Proof. rw /named_function. repeat case_match; by intros [= <-]. Qed.

Lemma tool_choice_fixed tc :
  normalize_tool_choice_value to_lowercase (normalize_tool_choice_value to_lowercase tc) = normalize_tool_choice_value to_lowercase tc.
Proof.
  assert (Hn : ∀ n, named_function [("type", Str "function"); ("function", Object [("name", Str n)])] = (if is_empty n then None else Some n)) by done.
  assert (Hf : ∀ m n, named_function m = Some n → normalize_tool_choice_value to_lowercase (named_choice n) = named_choice n).
  { intros m n H. rw /normalize_tool_choice_value /named_choice /lower_type /= lower_id //= Hn.
    by rw (named_function_nonempty m). }
  destruct tc as [| | |s| |m]; try done; simpl.
  - repeat (case_match; try done).
  - destruct (lower_type to_lowercase m) as [ty|].
    + destruct (String.eqb_spec ty "function") as [->|]; [destruct (named_function m) eqn:N; [by eapply Hf|done]|].
      destruct (String.eqb_spec ty "none") as [->|]; [done|]. destruct (String.eqb_spec ty "auto") as [->|]; [done|].
      destruct (String.eqb_spec ty "required") as [->|]; [done|]. simpl. by destruct (String.eqb ty "any").
    + destruct (named_function m) eqn:N; [by eapply Hf|done].
Qed.

Lemma top_level_choice_cases body : let b := (normalize_top_level_tool_choice to_lowercase body).1 in
  b = body ∨ ∃ n, get "tool_choice" b = Some n ∧ normalize_tool_choice_value to_lowercase n = n.
Proof.
  rw /normalize_top_level_tool_choice. destruct (get "tool_choice" body) as [tc|] eqn:E; [|by left].
  assert (H : ∃ n, get "tool_choice" (set_field "tool_choice" (normalize_tool_choice_value to_lowercase tc) body) = Some n ∧
    normalize_tool_choice_value to_lowercase n = n).
  { eexists. split; [by eapply get_set_object|apply tool_choice_fixed]. }
  destruct tc; try (by left); case_match; eauto.
Qed.

Lemma top_level_choice_fixed body : let b := (normalize_top_level_tool_choice to_lowercase body).1 in
  (normalize_top_level_tool_choice to_lowercase b).1 = b.
Proof.
  destruct (top_level_choice_cases body) as [H|(n & Hn & Hf)]; simpl; [by rw !H|].
  rw {1}/normalize_top_level_tool_choice Hn Hf. by destruct n; try case_match; simpl; rw ?set_field_same.
Qed.

Lemma schema_to_parameters_fixed f : schema_to_parameters (schema_to_parameters f) = schema_to_parameters f.
Proof.
  assert (H : assoc "input_schema" (schema_to_parameters f) = None).
  { rw /schema_to_parameters. destruct (assoc "input_schema" f) eqn:E; [|done].
    destruct (assoc "parameters" (assoc_remove "input_schema" f)); [apply assoc_remove_eq|].
    rw assoc_set_ne //. apply assoc_remove_eq. }
  by rw {1}/schema_to_parameters H.
Qed.

Definition settled_tool (t : Value) : Prop :=
  ∃ inner, t = function_tool inner ∧ has_name inner = true ∧ schema_to_parameters inner = inner.

Lemma rewritten_function_shape tool f : rewritten_function tool f = tool ∨ settled_tool (rewritten_function tool f).
Proof.
  rw /rewritten_function. destruct (has_name (schema_to_parameters f)) eqn:N; [right|by left].
  eexists. split_and!; [done|done|apply schema_to_parameters_fixed].
Qed.

Lemma wrapped_tool_settled name m : is_empty name = false → settled_tool (wrapped_tool name m).
Proof.
  intros H. eexists. split_and!; [done|by rw /has_name /= H|]. rw /schema_to_parameters /=. by repeat case_match.
Qed.

Lemma tool_shape t : normalize_single_tool_definition t = t ∨ settled_tool (normalize_single_tool_definition t).
Proof.
  destruct t as [| | | | |m]; try (by left). rw /normalize_single_tool_definition.
  destruct (if from_option _ false _ then _ else None); [apply rewritten_function_shape|].
  destruct (match assoc "name" m with Some (Str name) => if is_empty name then None else Some name | _ => None end) as [name|] eqn:E.
  { right. apply wrapped_tool_settled. destruct (assoc "name" m) as [[| | |s| |]|]; try done. by destruct (is_empty s) eqn:N; simplify_eq. }
  repeat case_match; try (by left); apply rewritten_function_shape.
Qed.

Lemma tool_fixed t : normalize_single_tool_definition (normalize_single_tool_definition t) = normalize_single_tool_definition t.
Proof.
  destruct (tool_shape t) as [H|(inner & -> & Hn & Hs)]; [by rw !H|].
  rw /normalize_single_tool_definition /function_tool /= /rewritten_function Hs Hn //.
Qed.

Lemma tools_fixed body : let b := (normalize_tools_array_for_openai body).1 in
  (normalize_tools_array_for_openai b).1 = b.
Proof.
  rw /normalize_tools_array_for_openai. destruct (get "tools" body) as [[| | | |ts|]|] eqn:E; rw /= ?E //.
  rw (get_set_object _ _ _ _ _ E) /=. apply set_field_same. rw (get_set_object _ _ _ _ _ E). do 2 f_equal.
  rw -!list_fmap_compose. apply list_fmap_ext. intros i t _. simpl.
  destruct (value_eqb (normalize_single_tool_definition t) t) eqn:V; simpl; [by rw V|].
  rw tool_fixed. by case_match.
Qed.

Abbreviation normalized := (normalize_cursor_openai_request_value to_string to_lowercase).

Lemma top_level_choice_get body key : "tool_choice" ≠ key →
  get key (normalize_top_level_tool_choice to_lowercase body).1 = get key body.
Proof. intros H. rw /normalize_top_level_tool_choice. repeat case_match; try done; simpl; by rw get_set_field_ne. Qed.

Lemma tools_get body key : "tools" ≠ key → get key (normalize_tools_array_for_openai body).1 = get key body.
Proof. intros H. rw /normalize_tools_array_for_openai. repeat case_match; try done; simpl; by rw get_set_field_ne. Qed.

(** What a normalised body looks like. *)
Definition normal_body (b : Value) : Prop :=
  (normalize_top_level_tool_choice to_lowercase b).1 = b ∧ (normalize_tools_array_for_openai b).1 = b ∧
  ∀ v, get "messages" b = Some v → ∃ msgs, v = Array msgs ∧ Forall settled msgs ∧ answered msgs.

Lemma normal_body_fixed b : normal_body b → ∃ c, normalized b = Ok (b, c).
Proof.
  intros (H1 & H2 & H3). rw /normalize_cursor_openai_request_value H1 H2.
  destruct (get "messages" b) as [v|] eqn:E; [|by eauto]. destruct (H3 v eq_refl) as (msgs & -> & Hs & Ha).
  destruct (normalize_messages_fixed msgs Hs Ha) as [c Hc]. rw Hc /=. eexists. by rw set_field_same.
Qed.

Lemma choice_fixed_by_field a b : get "tool_choice" a = get "tool_choice" b →
  (normalize_top_level_tool_choice to_lowercase a).1 = a → (normalize_top_level_tool_choice to_lowercase b).1 = b.
Proof.
  rw /normalize_top_level_tool_choice. intros E. rw E. destruct (get "tool_choice" b) as [tc|] eqn:F; [|done].
  assert (H : set_field "tool_choice" (normalize_tool_choice_value to_lowercase tc) a = a →
    set_field "tool_choice" (normalize_tool_choice_value to_lowercase tc) b = b).
  { intros H. apply set_field_same. by rw F -E -{1}H (get_set_object _ _ _ _ _ E). }
  destruct tc; try done; case_match; simpl; try done; apply H.
Qed.

Lemma tools_fixed_by_field a b : get "tools" a = get "tools" b →
  (normalize_tools_array_for_openai a).1 = a → (normalize_tools_array_for_openai b).1 = b.
Proof.
  rw /normalize_tools_array_for_openai. intros E. rw E. destruct (get "tools" b) as [[| | | |ts|]|] eqn:F; try done. simpl.
  intros H. apply set_field_same. by rw F -E -{1}H (get_set_object _ _ _ _ _ E).
Qed.

Lemma normalized_is_normal body b c : normalized body = Ok (b, c) → normal_body b ∧
  ∀ key, key ∉ ["tool_choice"; "tools"; "messages"] → get key b = get key body.
Proof.
  rw /normalize_cursor_openai_request_value.
  set (b1 := (normalize_top_level_tool_choice to_lowercase body).1). set (b2 := (normalize_tools_array_for_openai b1).1).
  assert (N1 : (normalize_top_level_tool_choice to_lowercase b2).1 = b2).
  { apply (choice_fixed_by_field b1); [by rw /b2 tools_get|apply top_level_choice_fixed]. }
  assert (N2 : (normalize_tools_array_for_openai b2).1 = b2) by apply tools_fixed.
  assert (Hk : ∀ key, key ∉ ["tool_choice"; "tools"; "messages"] → get key b2 = get key body).
  { intros key Hn. rw /b2 tools_get; [|set_solver]. rw /b1 top_level_choice_get //. set_solver. }
  destruct (get "messages" b2) as [v|] eqn:E.
  2: { intros [= <- <-]. split; [|done]. split_and!; try done. intros v. by rw E. }
  destruct v as [| | | |msgs|]; try done. destruct (normalized_messages msgs) as [[l d]|] eqn:M; [|done]. simpl.
  intros [= <- <-]. split.
  - split_and!.
    + apply (choice_fixed_by_field b2); [|done]. by rw get_set_field_ne.
    + apply (tools_fixed_by_field b2); [|done]. by rw get_set_field_ne.
    + intros v. rw (get_set_object _ _ _ _ _ E). intros [= <-]. eexists. split; [done|].
      by eapply normalize_messages_settles.
  - intros key Hn. rw get_set_field_ne; [|set_solver]. by apply Hk.
Qed.

End stable.

(** ** Theorems *)

(** A normalised chat request is in normal form, and stays
    there: every tool call it carries has an identifier the providers accept,
    every message with tool calls that has a successor is answered by it,
    nothing outside [messages], [tools] and [tool_choice] was touched (the
    model, in particular), and normalising it again changes nothing. *)
Theorem normalized_request_is_normal to_string to_lowercase body b c :
  lowers_ascii to_lowercase →
  normalize_cursor_openai_request_value to_string to_lowercase body = Ok (b, c) →
  (∀ msgs, get "messages" b = Some (Array msgs) →
     answered msgs ∧ Forall (λ m, Forall (λ id, tool_id_is_valid id = true) (get_tool_call_ids m)) msgs) ∧
  (∀ key, key ∉ ["tool_choice"; "tools"; "messages"] → get key b = get key body) ∧
  ∃ c', normalize_cursor_openai_request_value to_string to_lowercase b = Ok (b, c').
Proof.
  intros Hl H. destruct (normalized_is_normal _ _ Hl _ _ _ H) as [Hn Hk]. split_and!; [|done|by apply (normal_body_fixed to_string to_lowercase Hl)].
  intros msgs E. destruct Hn as (_ & _ & Hm). destruct (Hm _ E) as (l & [= <-] & Hs & Ha). split; [done|].
  eapply Forall_impl; [done|]. apply settled_ids_valid.
Qed.

(** [serde_json] reads back what it writes. *)
Definition reads_back (from_slice : string → option Value) (to_vec : Value → string) : Prop :=
  ∀ v, from_slice (to_vec v) = Some v.

(** A Cursor client's request goes through the pass a second time, which leaves
    the bytes of the first alone. *)
Theorem second_pass_is_idle to_string to_lowercase from_slice to_vec reads_as_chat body body' :
  lowers_ascii to_lowercase → reads_back from_slice to_vec →
  apply_global_chat_completions_wire_normalize to_string to_lowercase from_slice to_vec body = Ok body' →
  reads_as_chat body' = true →
  adjust to_string to_lowercase from_slice to_vec reads_as_chat (EOpenAI ChatCompletions) body' = Ok (body', true).
Proof.
  intros Hl Hr. rw /apply_global_chat_completions_wire_normalize.
  destruct (rewritten to_string to_lowercase from_slice to_vec body) as [[out c]|] eqn:E; [|done]. simpl. intros [= <-] Hchat.
  rw /adjust. assert (H : rewritten to_string to_lowercase from_slice to_vec out = Ok (out, c) ∨
    ∃ c', rewritten to_string to_lowercase from_slice to_vec out = Ok (out, c')).
  { rw /rewritten in E. destruct (from_slice body) as [v|] eqn:V; [|done]. simpl in E.
    destruct (normalize_cursor_openai_request_value to_string to_lowercase v) as [[b d]|] eqn:N; [|done]. simpl in E. simplify_eq.
    destruct (normalized_is_normal _ _ Hl _ _ _ N) as [Hn _]. destruct (normal_body_fixed to_string _ Hl _ Hn) as [d' Hd].
    destruct c; [right|left]; rw /rewritten; [|by rw V /= N]. rw Hr /= Hd /=. exists d'. by destruct d'. }
  destruct H as [->|[c' ->]]; by rw /= Hchat.
Qed.

(** Only Cursor's requests on the chat endpoint are adjusted. *)
Theorem adjust_is_for_cursor_chat to_string to_lowercase from_slice to_vec reads_as_chat profile source body :
  profile ≠ CursorIde ∨ source ≠ EOpenAI ChatCompletions →
  apply_ide_ingress_adjust to_string to_lowercase from_slice to_vec reads_as_chat profile source body = Ok (body, false).
Proof.
  intros H. rw /apply_ide_ingress_adjust /adjust. destruct profile; try done. destruct H as [H|H]; [done|].
  by destruct source as [[]| | | | |].
Qed.

(** A block of thinking without a [text] is dropped: the search of its keys ends
    at the first that is missing. *)
Theorem thinking_without_text_is_dropped fields :
  assoc "text" fields = None → extract_foldable_text_from_block fields = None.
Proof. intros H. by rw /extract_foldable_text_from_block /= H. Qed.

(** An identifier without an acceptable byte is replaced by a different one in
    the call and in its answer, which then no longer belong together. *)
Theorem unacceptable_ids_are_parted i k j name id :
  str_filter is_id_byte id = "" → i ≠ k → repaired_id i j name id ≠ repaired_id k 0 "" id.
Proof.
  intros H Hne. assert (Hv : tool_id_is_valid id = false).
  { rw /tool_id_is_valid. destruct id as [|c id]; [done|]. simpl in *. by destruct (is_id_byte c). }
  rw /repaired_id Hv /sanitize_tool_id H /= /generate_tool_call_id. intros E. apply str_app_inj_l in E.
  set (tail1 := pretty (N.of_nat j) ++ _) in E. change ("_tc" ++ tail1) with (String "_" ("tc" ++ tail1)) in E.
  set (tail2 := pretty (N.of_nat 0) ++ _) in E. change ("_tc" ++ tail2) with (String "_" ("tc" ++ tail2)) in E.
  apply field_inj in E as [E _]; [|by apply pretty_no_byte|by apply pretty_no_byte].
  apply (inj pretty) in E. lia.
Qed.

(** The result of a tool that a client sends as a block of a user message
    becomes text, and the call gets an empty answer instead. *)
Definition anthropic_style_history : Value :=
  Object [("model", Str "m"); ("messages", Array
    [Object [("role", Str "assistant"); ("content", Array
       [Object [("type", Str "tool_use"); ("id", Str "t1"); ("name", Str "read"); ("input", Object [])]])];
     Object [("role", Str "user"); ("content", Array
       [Object [("type", Str "tool_result"); ("tool_use_id", Str "t1"); ("content", Str "42")]])]])].

Example tool_result_becomes_user_text :
  normalize_cursor_openai_request_value (λ _, "{}") (λ s, s) anthropic_style_history =
  Ok (Object [("model", Str "m"); ("messages", Array
    [Object [("role", Str "assistant"); ("content", Null);
             ("tool_calls", Array [Object [("id", Str "t1"); ("type", Str "function");
               ("function", Object [("name", Str "read"); ("arguments", Str "{}")])]])];
     empty_answer "t1";
     Object [("role", Str "user"); ("content", Str "42")]])], true).
Proof. by vm_compute. Qed.

Lemma lowers_ascii_id : lowers_ascii (λ s, s).
Proof. done. Qed.

Lemma normalized_request_is_normal_witness : ∃ b, get "model" b = Some (Str "m").
Proof.
  destruct (normalize_cursor_openai_request_value (λ _, "{}") (λ s, s) anthropic_style_history) as [[b c]|] eqn:E;
    [|by rw tool_result_becomes_user_text in E].
  destruct (normalized_request_is_normal _ _ _ _ _ lowers_ascii_id E) as (_ & Hk & _).
  exists b. rw Hk; [done|]. set_solver.
Defined.
