(* ===== verification/ResponsesIngress.v ===== *)
(** * Normalising a Responses request

    Models [ai-gateway/src/ide_adapation/responses_ingress_normalize.rs], the
    rewriting of the JSON of a Responses request, [unified_chat_routing.rs],
    what the unified API reads in a body before it is normalised, and the
    first half of [responses_strategy.rs].

    A Responses request of the unified API is rewritten by the route planner
    and again by the mapper.  [to_string] is [serde_json::to_string]. *)

From S2P Require Import Prelude RustStr Json Provider HealthMonitor Routing MapperRegistry.
Local Open Scope string_scope.

(* src: ai-gateway/src/ide_adapation/responses_ingress_normalize.rs:16-19 ResponsesNormalizeMode *)
Inductive ResponsesNormalizeMode := CreateResponseCompat | OpenAiWire.

(* src: ai-gateway/src/ide_adapation/responses_ingress_normalize.rs:22-25 ResponsesRequestRoutingFields *)
Record ResponsesRequestRoutingFields := mkRoutingFields { rf_model : string; rf_stream : bool }.

Definition or_else {A} (a b : option A) : option A := match a with Some _ => a | None => b end.
Definition has_key (key : string) (f : list (string * Value)) : bool := match assoc key f with Some _ => true | None => false end.

(** ** Tools *)

Definition str_field_of (key : string) (v : Value) : option string := get key v ≫= as_str.

(** One tool of a Codex namespace, as a function. *)
Definition namespace_child (namespace : string) (child : Value) : list Value :=
  match child with
  | Object c =>
      match str_field_of "name" child with
      | None => []
      | Some name =>
          let description := match assoc "description" c with Some d => [("description", d)] | None => [] end in
          let parameters := default (Object [("type", Str "object")]) (or_else (assoc "parameters" c) (assoc "input_schema" c)) in
          [Object ([("type", Str "function"); ("name", Str (namespace ++ "__" ++ name))] ++ description ++ [("parameters", parameters)])%list]
      end
  | _ => []
  end.

(* src: ai-gateway/src/ide_adapation/responses_ingress_normalize.rs:165-203 flatten_codex_namespace_tool *)
Definition flatten_codex_namespace_tool (namespace : Value) : list Value :=
  match str_field_of "name" namespace, get "tools" namespace with
  | Some name, Some (Array tools) => flat_map (namespace_child name) tools
  | _, _ => []
  end.

Definition kept_types : list string :=
  ["function"; "custom"; "file_search"; "mcp"; "image_generation"; "code_interpreter"; "computer_use_preview"; "local_shell"].

(** The tools one tool becomes, and whether that is a change. *)
(* src: ai-gateway/src/ide_adapation/responses_ingress_normalize.rs:114-156 normalize_tools_array loop *)
Definition normalize_tool (profile : ClientProfile) (tool : Value) : list Value * bool :=
  match str_field_of "type" tool with
  | Some typ =>
      if String.eqb typ "tool_search" && bool_decide (profile = CodexCli) then
        match tool with
        | Object f =>
            let f := assoc_set "type" (Str "function") f in
            let f := match assoc "name" f with Some _ => f | None => assoc_set "name" (Str "tool_search") f end in
            ([Object (assoc_remove "execution" f)], true)
        | _ => ([tool], false)
        end
      else if String.eqb typ "namespace" && bool_decide (profile = CodexCli) then (flatten_codex_namespace_tool tool, true)
      else if String.eqb typ "web_search" then ([set_field "type" (Str "web_search_preview") tool], true)
      else if bool_decide (typ ∈ kept_types) then ([tool], false)
      else match str_field_of "name" tool with Some _ => ([tool], false) | None => ([], true) end
  | None => ([], true)
  end.

(* src: ai-gateway/src/ide_adapation/responses_ingress_normalize.rs:104-163 normalize_tools_array *)
Definition normalize_tools_array (root : Value) (profile : ClientProfile) : Value * bool :=
  match get "tools" root with
  | Some (Array tools) =>
      let visited := map (normalize_tool profile) tools in
      match flat_map fst visited with
      | [] => (match root with Object f => Object (assoc_remove "tools" f) | _ => root end, true)
      | normalized => (set_field "tools" (Array normalized) root, existsb snd visited)
      end
  | _ => (root, false)
  end.

Section content.
Context (to_string : Value → string).

(* src: ai-gateway/src/ide_adapation/responses_ingress_normalize.rs:205-211 json_text_field *)
Definition json_text_field (v : option Value) : string :=
  match v with Some (Str s) => s | Some t => to_string t | None => "" end.

(* src: ai-gateway/src/ide_adapation/responses_ingress_normalize.rs:213-220 json_image_url_field *)
Definition json_image_url_field (v : option Value) : string :=
  match v with
  | Some (Str s) => s
  | Some u => default "" (str_field_of "url" u)
  | None => ""
  end.

Definition line : string := String newline "".

Definition input_text_part (t : string) : Value := Object [("type", Str "input_text"); ("text", Str t)].
Definition input_image_part (url : string) : Value :=
  Object [("type", Str "input_image"); ("detail", Str "auto"); ("image_url", Str url)].

Definition typ_of (v : Value) : string := default "" (str_field_of "type" v).

Definition input_types : list string := ["input_text"; "input_image"; "input_file"].

(* src: ai-gateway/src/ide_adapation/responses_ingress_normalize.rs:238-290 normalize_input_message_content_json parts *)
Definition normalize_input_part (part : Value) : Value * bool :=
  match part with
  | Object obj =>
      let typ := typ_of part in
      if bool_decide (typ ∈ input_types) then (part, false)
      else if String.eqb typ "text" then (input_text_part (json_text_field (assoc "text" obj)), true)
      else if String.eqb typ "image_url" then
        let url := json_image_url_field (assoc "image_url" obj) in
        (if is_empty url then input_text_part ("[alephant:image_url]" ++ line ++ to_string part) else input_image_part url, true)
      else if is_empty typ && has_key "text" obj then (input_text_part (json_text_field (assoc "text" obj)), true)
      else (input_text_part ("[alephant:content_part type=" ++ typ ++ "]" ++ line ++ to_string part), true)
  | _ => (input_text_part (to_string part), true)
  end.

(* src: ai-gateway/src/ide_adapation/responses_ingress_normalize.rs:228-337 normalize_input_message_content_json *)
Definition normalize_input_message_content_json (content : Value) : Value * bool :=
  match content with
  | Str _ => (content, false)
  | Array [] => (Str "", true)
  | Array parts =>
      let r := map normalize_input_part parts in (Array (map fst r), existsb snd r)
  | Object map =>
      let typ := typ_of content in
      if String.eqb typ "text" || String.eqb typ "input_text" then (Str (json_text_field (assoc "text" map)), true)
      else if String.eqb typ "image_url" then
        let url := json_image_url_field (assoc "image_url" map) in
        (if is_empty url then Str ("[alephant:message_content image_url]" ++ line ++ to_string content)
         else Array [input_image_part url], true)
      else if is_empty typ && has_key "text" map then (Str (json_text_field (assoc "text" map)), true)
      else (Str ("[alephant:message_content_object type=" ++ typ ++ "]" ++ line ++ to_string content), true)
  | _ => (Str (to_string content), true)
  end.

(* src: ai-gateway/src/ide_adapation/responses_ingress_normalize.rs:339-345 output_text_part *)
Definition output_text_part (t : string) : Value :=
  Object [("type", Str "output_text"); ("text", Str t); ("annotations", Array [])].

(* src: ai-gateway/src/ide_adapation/responses_ingress_normalize.rs:347-352 refusal_part *)
Definition refusal_part (t : string) : Value := Object [("type", Str "refusal"); ("refusal", Str t)].

(* src: ai-gateway/src/ide_adapation/responses_ingress_normalize.rs:364-414 normalize_assistant_message_content_json parts *)
Definition normalize_assistant_part (part : Value) : Value * bool :=
  match part with
  | Object obj =>
      let typ := typ_of part in
      if String.eqb typ "output_text" then
        (if has_key "annotations" obj then (part, false) else (set_field "annotations" (Array []) part, true))
      else if String.eqb typ "refusal" then
        (refusal_part (json_text_field (or_else (assoc "refusal" obj) (assoc "text" obj))), true)
      else if String.eqb typ "text" || String.eqb typ "input_text" || (is_empty typ && has_key "text" obj)
      then (output_text_part (json_text_field (assoc "text" obj)), true)
      else (output_text_part ("[alephant:assistant_content_part type=" ++ typ ++ "]" ++ line ++ to_string part), true)
  | _ => (output_text_part (to_string part), true)
  end.

(* src: ai-gateway/src/ide_adapation/responses_ingress_normalize.rs:354-451 normalize_assistant_message_content_json *)
Definition normalize_assistant_message_content_json (content : Value) : Value * bool :=
  match content with
  | Str _ => (content, false)
  | Array [] => (Str "", true)
  | Array parts =>
      let r := map normalize_assistant_part parts in (Array (map fst r), existsb snd r)
  | Object map =>
      let typ := typ_of content in
      if String.eqb typ "output_text" || String.eqb typ "text" || String.eqb typ "input_text"
      then (Array [output_text_part (json_text_field (assoc "text" map))], true)
      else if String.eqb typ "refusal"
      then (Array [refusal_part (json_text_field (or_else (assoc "refusal" map) (assoc "text" map)))], true)
      else if is_empty typ && has_key "text" map then (Array [output_text_part (json_text_field (assoc "text" map))], true)
      else (Array [output_text_part ("[alephant:assistant_content_object type=" ++ typ ++ "]" ++ line ++ to_string content)], true)
  | _ => (Array [output_text_part (to_string content)], true)
  end.

(** ** Input items *)

Definition is_message (item : Value) : bool :=
  match str_field_of "type" item with
  | Some t => String.eqb t "message"
  | None => match get "role" item, get "content" item with Some _, Some _ => true | _, _ => false end
  end.

Definition is_assistant_item (item : Value) : bool := field_is_str "role" "assistant" item.

Definition normalize_content (mode : ResponsesNormalizeMode) (item content : Value) : Value * bool :=
  match mode with
  | OpenAiWire => if is_assistant_item item then normalize_assistant_message_content_json content
                  else normalize_input_message_content_json content
  | CreateResponseCompat => normalize_input_message_content_json content
  end.

(** An item that is no message, told to the model in words. *)
Definition described_item (item : Value) : Value :=
  Object [("type", Str "message"); ("role", Str "user");
          ("content", Str ("[alephant:responses_input type=" ++ default "unknown" (str_field_of "type" item) ++ "]" ++ line ++ to_string item))].

(* src: ai-gateway/src/ide_adapation/responses_ingress_normalize.rs:470-501 rewrite_responses_input_items loop *)
Definition rewrite_item (mode : ResponsesNormalizeMode) (item : Value) : Value * bool :=
  if is_message item then
    match get "content" item with
    | Some content => let r := normalize_content mode item content in (set_field "content" r.1 item, r.2)
    | None => (item, false)
    end
  else (described_item item, true).

(* src: ai-gateway/src/ide_adapation/responses_ingress_normalize.rs:459-503 rewrite_responses_input_items *)
Definition rewrite_responses_input_items (root : Value) (mode : ResponsesNormalizeMode) : Value * bool :=
  match get "input" root with
  | Some (Array items) =>
      let r := map (rewrite_item mode) items in
      (set_field "input" (Array (map fst r)) root, existsb snd r)
  | _ => (root, false)
  end.

(* src: ai-gateway/src/ide_adapation/responses_ingress_normalize.rs:92-102 normalize_responses_request_value *)
Definition normalize_responses_request_value (root : Value) (mode : ResponsesNormalizeMode) (profile : ClientProfile) : Value * bool :=
  let r1 := normalize_tools_array root profile in
  let r2 := rewrite_responses_input_items r1.1 mode in
  (r2.1, r1.2 || r2.2).

(** ** Bodies *)

Context (from_slice : string → option Value) (to_vec : Value → string).

(* src: ai-gateway/src/ide_adapation/responses_ingress_normalize.rs:73-90 apply_responses_normalize *)
Definition apply_responses_normalize (body : string) (mode : ResponsesNormalizeMode) (profile : ClientProfile)
  : result string RoutingError :=
  let? root := ok_or (from_slice body) InvalidRequestBody in
  let r := normalize_responses_request_value root mode profile in
  Ok (if r.2 then to_vec r.1 else body).

(* src: ai-gateway/src/ide_adapation/responses_ingress_normalize.rs:51-56 apply_responses_wire_normalize_for_client *)
Definition apply_responses_wire_normalize_for_client (body : string) (profile : ClientProfile) : result string RoutingError :=
  apply_responses_normalize body CreateResponseCompat profile.

(* src: ai-gateway/src/ide_adapation/responses_ingress_normalize.rs:66-71 apply_openai_responses_wire_normalize_for_client *)
Definition apply_openai_responses_wire_normalize_for_client (body : string) (profile : ClientProfile) : result string RoutingError :=
  apply_responses_normalize body OpenAiWire profile.

(* src: ai-gateway/src/ide_adapation/responses_strategy.rs:15-36 normalize_responses_for_target *)
Definition normalize_responses_for_target (source target : ApiEndpoint) (body : string) (profile : ClientProfile)
  : result string RoutingError :=
  match source with
  | EOpenAI HealthMonitor.Responses =>
      if is_compatible_responses target then apply_responses_wire_normalize_for_client body profile
      else apply_openai_responses_wire_normalize_for_client body profile
  | _ => Ok body
  end.

(* src: ai-gateway/src/ide_adapation/responses_ingress_normalize.rs:27-41 responses_request_routing_fields *)
Definition responses_request_routing_fields (body : string) : result ResponsesRequestRoutingFields RoutingError :=
  let? root := ok_or (from_slice body) InvalidRequestBody in
  match str_field_of "model" root with
  | Some m =>
      if is_empty m then Err MissingModelId
      else Ok (mkRoutingFields m (default false (get "stream" root ≫= as_bool)))
  | None => Err MissingModelId
  end.

(* src: ai-gateway/src/ide_adapation/unified_chat_routing.rs:24-38 unified_chat_completions_routing_model *)
Definition unified_chat_completions_routing_model (body : string) : result string RoutingError :=
  let? v := ok_or (from_slice body) InvalidRequestBody in
  let? s := ok_or (str_field_of "model" v) MissingModelId in
  let t := trim s in
  if is_empty t then Err MissingModelId else Ok t.
End content.

(** ** From a chat URL to the Responses endpoint *)

Section redirect.
Context {PathAndQuery : Type} (pq_from_str : string → option PathAndQuery) (pq_query : PathAndQuery → option string).
Context (from_slice : string → option Value).

(** The extensions of the request that the redirection reads and writes. *)
Record RedirectParts := mkRedirectParts {
  responses_bridge : bool;                     (* [UnifiedChatCompletionsResponsesBridge] *)
  redirect_endpoint : option ApiEndpoint;
  redirect_path : option PathAndQuery
}.

Inductive RedirectError := PathMissing | InvalidUri.

(* src: ai-gateway/src/ide_adapation/unified_chat_routing.rs:45-87 apply_chat_completions_body_redirect_if_needed *)
Definition apply_chat_completions_body_redirect_if_needed (path body : string) (parts : RedirectParts)
  : result (string * RedirectParts) RedirectError :=
  let redirect :=
    String.eqb path "chat/completions" &&
    match from_slice body with Some (Object obj) => negb (has_key "messages" obj) && has_key "input" obj | _ => false end in
  if negb redirect then Ok (path, parts)
  else
    let? pq := ok_or (redirect_path parts) PathMissing in
    let text := match pq_query pq with Some q => "responses?" ++ q | None => "responses" end in
    let? new_pq := ok_or (pq_from_str text) InvalidUri in
    Ok ("responses", mkRedirectParts true (Some (EOpenAI HealthMonitor.Responses)) (Some new_pq)).
End redirect.

(** ** What a normalised request is *)

Definition input_content_ok (c : Value) : Prop :=
  match c with
  | Str _ => True
  | Array parts => parts ≠ [] ∧ Forall (λ p, typ_of p ∈ input_types) parts
  | _ => False
  end.

Definition assistant_output_part (p : Value) : Prop :=
  (typ_of p = "output_text" ∧ is_Some (get "annotations" p)) ∨ ∃ t, p = refusal_part t.

Definition assistant_content_ok (c : Value) : Prop :=
  match c with Str _ => True | Array parts => parts ≠ [] ∧ Forall assistant_output_part parts | _ => False end.

(** Every item is a message, with content of the kind its reader takes. *)
Definition item_ok (mode : ResponsesNormalizeMode) (item : Value) : Prop :=
  is_message item = true ∧
  ∀ c, get "content" item = Some c →
    match mode with
    | OpenAiWire => if is_assistant_item item then assistant_content_ok c else input_content_ok c
    | CreateResponseCompat => input_content_ok c
    end.

Section normal.
Context (to_string : Value → string).

Lemma input_part_typ p : typ_of (normalize_input_part to_string p).1 ∈ input_types.
Proof.
  assert (Ht : ∀ t, typ_of (input_text_part t) ∈ input_types) by (intros t; by apply list_elem_of_here).
  rw /normalize_input_part. destruct p as [| | | | |obj]; try apply Ht.
  case_bool_decide; [done|]. repeat case_match; try apply Ht. simpl. apply list_elem_of_further, list_elem_of_here.
Qed.

Lemma input_part_fixed p : typ_of p ∈ input_types → normalize_input_part to_string p = (p, false).
Proof.
  intros H. destruct p as [| | | | |obj]; try (by rw /typ_of /= in H; set_solver).
  rw /normalize_input_part bool_decide_true //.
Qed.

Lemma map_fst_id {A} (f : A → A * bool) l : Forall (λ x, (f x).1 = x) l → map fst (map f l) = l.
Proof. induction 1 as [|x l H _ IH]; simpl; [done|]. by rw H IH. Qed.

Lemma input_content_settles c : input_content_ok (normalize_input_message_content_json to_string c).1.
Proof.
  rw /normalize_input_message_content_json. destruct c as [| | | |[|p l]|m]; try done.
  - cbn [fst map]. split; [done|]. change (Forall (λ p, typ_of p ∈ input_types) (map fst (map (normalize_input_part to_string) (p :: l)))).
    rw map_map. apply Forall_fmap, Forall_true. intros x. apply input_part_typ.
  - repeat case_match; try done. simpl. split; [done|]. apply Forall_singleton. apply list_elem_of_further, list_elem_of_here.
Qed.

Lemma input_content_fixed c : input_content_ok c → (normalize_input_message_content_json to_string c).1 = c.
Proof.
  destruct c as [| | | |[|p l]|m]; try done; [by intros [? _]|]. intros [_ H].
  rw /normalize_input_message_content_json. cbn [fst]. f_equal. apply map_fst_id.
  eapply Forall_impl; [exact H|]. intros x Hx. by rw input_part_fixed.
Qed.

Lemma assistant_part_settles p : assistant_output_part (normalize_assistant_part to_string p).1.
Proof.
  assert (Ht : ∀ t, assistant_output_part (output_text_part t)) by (intros t; left; split; [done|by eexists]).
  rw /normalize_assistant_part. destruct p as [| | | | |obj]; try apply Ht.
  destruct (String.eqb_spec (typ_of (Object obj)) "output_text") as [E|_].
  - left. rw /has_key. destruct (assoc "annotations" obj) eqn:A.
    + split; [done|]. simpl. rw A. by eexists.
    + rw /typ_of /str_field_of get_set_field_ne // get_set_field //.
  - destruct (String.eqb (typ_of (Object obj)) "refusal"); [right; by eexists|]. repeat case_match; apply Ht.
Qed.

Lemma assistant_output_fixed p : assistant_output_part p → (normalize_assistant_part to_string p).1 = p.
Proof.
  intros [[E [v A]]|[t ->]]; [|done]. destruct p as [| | | | |obj]; try done.
  rw /normalize_assistant_part E /=. simpl in A. by rw /has_key A.
Qed.

Lemma assistant_content_settles c : assistant_content_ok (normalize_assistant_message_content_json to_string c).1.
Proof.
  assert (Ht : ∀ t, assistant_content_ok (Array [output_text_part t])).
  { intros t. split; [done|]. apply Forall_singleton. left. split; [done|by eexists]. }
  rw /normalize_assistant_message_content_json. destruct c as [| | | |[|p l]|m]; try done; try apply Ht.
  - cbn [fst]. split; [done|]. rw map_map. apply Forall_fmap, Forall_true. intros x. apply assistant_part_settles.
  - repeat case_match; try apply Ht. split; [done|]. apply Forall_singleton. right. by eexists.
Qed.

Lemma assistant_content_fixed c : assistant_content_ok c → (normalize_assistant_message_content_json to_string c).1 = c.
Proof.
  destruct c as [| | | |[|p l]|m]; try done; [by intros [? _]|]. intros [_ H].
  rw /normalize_assistant_message_content_json. cbn [fst]. f_equal. apply map_fst_id.
  eapply Forall_impl; [exact H|]. intros x Hx. by apply assistant_output_fixed.
Qed.

Lemma is_message_set_content v item : is_message item = true → is_Some (get "content" item) → is_message (set_field "content" v item) = true.
Proof.
  intros H [c Hc]. pose proof (get_Some_object _ _ _ Hc) as Ho.
  rw /is_message /str_field_of (get_set_field_ne "content" "type") // (get_set_field_ne "content" "role") // get_set_field //.
  rw /is_message /str_field_of in H. destruct (get "type" item ≫= as_str); [done|]. by destruct (get "role" item).
Qed.

Lemma rewrite_item_ok mode item : item_ok mode (rewrite_item to_string mode item).1.
Proof.
  rw /rewrite_item. destruct (is_message item) eqn:M.
  2: { split; [done|]. intros c [= <-]. by destruct mode. }
  destruct (get "content" item) as [c|] eqn:E; [|split; [done|]; simpl; by rw E]. simpl.
  split; [apply is_message_set_content; eauto|]. intros c'. rw get_set_field; last by eapply get_Some_object. intros [= <-].
  destruct mode; [apply input_content_settles|]. rw /is_assistant_item field_is_set_ne //= -/(is_assistant_item item).
  destruct (is_assistant_item item); [apply assistant_content_settles|apply input_content_settles].
Qed.

Lemma rewrite_item_fixed mode item : item_ok mode item → (rewrite_item to_string mode item).1 = item.
Proof.
  intros [M H]. rw /rewrite_item M. destruct (get "content" item) as [c|] eqn:E; [|done]. specialize (H c eq_refl). simpl.
  apply set_field_same. rw E. f_equal. destruct mode; simpl; [by rw input_content_fixed|].
  destruct (is_assistant_item item); [by rw assistant_content_fixed|by rw input_content_fixed].
Qed.

Lemma tools_get_ne root profile key : "tools" ≠ key → get key (normalize_tools_array root profile).1 = get key root.
Proof.
  intros H. rw /normalize_tools_array. destruct (get "tools" root) as [[| | | |ts|]|] eqn:E; try done.
  destruct (flat_map fst _); [|simpl; by rw get_set_field_ne]. destruct root; try done. simpl. by apply assoc_remove_ne.
Qed.

Lemma items_get_ne root mode key : "input" ≠ key → get key (rewrite_responses_input_items to_string root mode).1 = get key root.
Proof. intros H. rw /rewrite_responses_input_items. repeat case_match; try done. simpl. by rw get_set_field_ne. Qed.

Lemma normalize_get_ne root mode profile key : key ∉ ["tools"; "input"] →
  get key (normalize_responses_request_value to_string root mode profile).1 = get key root.
Proof. intros H. rw /= items_get_ne; [|set_solver]. apply tools_get_ne. set_solver. Qed.
End normal.

(** ** Theorems *)

(** C27 (type). Normalising a Responses request leaves every item of its
    input a message whose content the strict reader takes (plain text, or a
    non-empty list of input parts; for the assistant's own messages on OpenAI's
    wire, of output parts), keeps every field but [tools] and [input], and
    leaves the input of a normalised request alone. *)
Theorem normalized_responses_input to_string root mode profile :
  let r := (normalize_responses_request_value to_string root mode profile).1 in
  (∀ items, get "input" r = Some (Array items) → Forall (item_ok mode) items) ∧
  (∀ key, key ∉ ["tools"; "input"] → get key r = get key root) ∧
  get "input" (normalize_responses_request_value to_string r mode profile).1 = get "input" r.
Proof.
  intros r. assert (Hi : ∀ items, get "input" r = Some (Array items) → Forall (item_ok mode) items).
  { intros items. rw /r /= /rewrite_responses_input_items.
    set (root1 := (normalize_tools_array root profile).1). destruct (get "input" root1) as [[| | | |l|]|] eqn:E; rw /= ?E; try done.
    rw get_set_field; last by eapply get_Some_object. intros [= <-]. rw map_map. apply Forall_fmap, Forall_true.
    intros x. apply rewrite_item_ok. }
  split_and!; [done|intros key Hk; by apply normalize_get_ne|].
  rw {1}/normalize_responses_request_value /=. rw /rewrite_responses_input_items tools_get_ne //.
  destruct (get "input" r) as [[| | | |l|]|] eqn:E; rw /= ?tools_get_ne //.
  rw get_set_field; last (eapply (get_Some_object "input"); by rw tools_get_ne).
  do 2 f_equal. apply map_fst_id. eapply Forall_impl; [by apply Hi|]. intros x. apply rewrite_item_fixed.
Qed.

(** What the router reads in a body survives its normalisation. *)
Theorem normalisation_keeps_routing_fields to_string from_slice to_vec body mode profile body' :
  (∀ v, from_slice (to_vec v) = Some v) →
  apply_responses_normalize to_string from_slice to_vec body mode profile = Ok body' →
  responses_request_routing_fields from_slice body' = responses_request_routing_fields from_slice body.
Proof.
  intros Hr. rw /apply_responses_normalize. destruct (from_slice body) as [root|] eqn:E; [|done]. simpl. intros [= <-].
  case_match; [|done]. rw /responses_request_routing_fields Hr E /=.
  rw /str_field_of (items_get_ne to_string _ mode "model") // (items_get_ne to_string _ mode "stream") //.
  by rw (tools_get_ne root profile "model") // (tools_get_ne root profile "stream").
Qed.

(** The planner of the unified API with the readers of this file; the readers
    of the other bodies stay parameters. *)
Definition gateway_readers to_string from_slice to_vec (completion embedding message : string → option string)
    (image : string → option (option ImageModel)) : BodyReaders (Profile := ClientProfile) :=
  mkReaders (unified_chat_completions_routing_model from_slice)
    (apply_responses_wire_normalize_for_client to_string from_slice to_vec)
    (λ body, let? f := responses_request_routing_fields from_slice body in Ok (rf_model f))
    completion embedding image message.

(** The model that a Responses request is planned and checked for is the one
    the mapper reads, after rewriting the body a second time. *)
Theorem planned_responses_model_is_mapped to_string from_slice to_vec completion embedding message image to_lowercase
    body auth vk explicit profile d target body' :
  (∀ v, from_slice (to_vec v) = Some v) →
  plan (gateway_readers to_string from_slice to_vec completion embedding message image) to_lowercase
    "responses" body auth vk explicit profile = Ok d →
  normalize_responses_for_target to_string from_slice to_vec (EOpenAI HealthMonitor.Responses) target (out_body d) profile = Ok body' →
  (let? f := responses_request_routing_fields from_slice body' in Ok (rf_model f)) = Ok (selected_model d) ∧
  DefaultModel.check_model_access to_lowercase vk (selected_model d) = Ok tt.
Proof.
  intros Hr. rw /plan /routing_model_for_path /=.
  destruct (apply_responses_wire_normalize_for_client to_string from_slice to_vec body profile) as [b1|] eqn:E1; [|done]. simpl.
  destruct (responses_request_routing_fields from_slice b1) as [f|] eqn:E2; [|done]. simpl.
  destruct (DefaultModel.check_model_access to_lowercase vk (rf_model f)) as [[]|] eqn:E3; [|done]. simpl.
  destruct (resolve_provider_from_master_key auth); [|done]. intros [= <-]. simpl. intros Hn. split; [|done].
  assert (Hb : ∃ mode, apply_responses_normalize to_string from_slice to_vec b1 mode profile = Ok body').
  { destruct (is_compatible_responses target); eexists; exact Hn. }
  destruct Hb as [mode Hb]. by rw (normalisation_keeps_routing_fields _ _ _ _ _ _ _ Hr Hb) E2.
Qed.

(** A web search tool survives one normalisation and not the second: its new
    type is not one of those that are kept. *)
Theorem web_search_is_lost profile tool :
  is_Some (as_object tool) → str_field_of "type" tool = Some "web_search" → str_field_of "name" tool = None →
  (normalize_tool profile tool).1 = [set_field "type" (Str "web_search_preview") tool] ∧
  normalize_tool profile (set_field "type" (Str "web_search_preview") tool) = ([], true).
Proof.
  intros Ho Ht Hn. rw /normalize_tool Ht /=. split; [done|]. rw /str_field_of get_set_field //=. rw get_set_field_ne //.
  by rw -/(str_field_of "name" tool) Hn.
Qed.

Definition searching_request : Value :=
  Object [("model", Str "gpt-5"); ("input", Str "news?"); ("tools", Array [Object [("type", Str "web_search")]])].

Example web_search_never_reaches_the_provider :
  let once := (normalize_responses_request_value (λ _, "") searching_request CreateResponseCompat PUnknown).1 in
  get "tools" (normalize_responses_request_value (λ _, "") once OpenAiWire PUnknown).1 = None.
Proof. by vm_compute. Qed.

(** A call and its result in the history of a Responses request become text of
    the user: no item of type [function_call] is left to convert. *)
Theorem calls_become_text to_string mode item :
  str_field_of "type" item = Some "function_call" ∨ str_field_of "type" item = Some "function_call_output" →
  (rewrite_item to_string mode item).1 = described_item to_string item.
Proof. intros [H|H]; by rw /rewrite_item /is_message H. Qed.
