(* ===== verification/Prompts.v ===== *)
(** * Prompt templates

    Models [ai-gateway/src/middleware/prompts/] ([templating.rs], which puts the
    inputs of a request into the variables of its messages, schemas and tools,
    and [service.rs], which merges a stored prompt with a request) and
    [content_filter/prompt_cache.rs] (stored messages put in front of the
    messages of a request).

    The two patterns of [templating.rs] are written out as scanners: neither
    needs to backtrack, since white space, identifiers and braces exclude one
    another.  [serde_json]'s reader and writer, the lower-casing of Unicode text,
    Redis and the store of prompts are parameters. *)

From S2P Require Import Prelude RustStr Json Headers.
From Stdlib Require Import Ascii.
Local Open Scope string_scope.

(** ** Patterns *)

Definition is_ident_start (c : ascii) : bool :=
  is_ascii_uppercase c || is_ascii_lowercase c || Ascii.eqb c "_"%char || Ascii.eqb c "-"%char.
Definition is_ident_byte (c : ascii) : bool := is_ident_start c || is_ascii_digit c.

(** The longest prefix of identifier bytes, and what follows it. *)
Fixpoint ident_span (s : string) : string * string :=
  match s with
  | EmptyString => ("", "")
  | String c s' => if is_ident_byte c then let r := ident_span s' in (String c r.1, r.2) else ("", s)
  end.

(** [[a-zA-Z_-][a-zA-Z0-9_-]*] at the start of a text. *)
Definition ident (s : string) : option (string * string) :=
  match s with
  | String c _ => if is_ident_start c then Some (ident_span s) else None
  | EmptyString => None
  end.

(** The pattern with one name between double braces at the start of a text:
    the name and what follows the match. *)
(* src: ai-gateway/src/middleware/prompts/templating.rs:17-18 legacy_variable_regex *)
Definition legacy_variable (s : string) : option (string * string) :=
  s ← strip_prefix "{{" s;
  '(name, s) ← ident (trim_start s);
  s ← strip_prefix "}}" (trim_start s);
  Some (name, s).

(** The pattern with [hc], a name and a type. *)
(* src: ai-gateway/src/middleware/prompts/templating.rs:13-16 typed_variable_regex *)
Definition typed_variable (s : string) : option (string * string * string) :=
  s ← strip_prefix "{{" s;
  s ← strip_prefix "hc" (trim_start s);
  s ← strip_prefix ":" (trim_start s);
  '(name, s) ← ident (trim_start s);
  s ← strip_prefix ":" (trim_start s);
  '(ty, s) ← ident (trim_start s);
  s ← strip_prefix "}}" (trim_start s);
  Some (name, ty, s).

(** A text cut at the matches of a pattern, as [captures_iter] and
    [replace_all] see it: from left to right, not overlapping.  [skip] counts
    the bytes of the current match that are left. *)
Inductive Piece (M : Type) := Plain (c : ascii) | Match (text : string) (m : M).
Arguments Plain {M} c.
Arguments Match {M} text m.

Section scan.
Context {M : Type} (pattern : string → option (M * string)).

Fixpoint pieces_from (skip : nat) (s : string) : list (Piece M) :=
  match s with
  | EmptyString => []
  | String c s' =>
      match skip with
      | S k => pieces_from k s'
      | O =>
          match pattern s with
          | Some (m, rest) =>
              Match (str_take (len s - len rest) s) m :: pieces_from (len s - len rest - 1) s'
          | None => Plain c :: pieces_from 0 s'
          end
      end
  end.

Definition pieces (s : string) : list (Piece M) := pieces_from 0 s.

(** [captures_iter]. *)
Definition captures (s : string) : list M := omap (λ p, match p with Match _ m => Some m | Plain _ => None end) (pieces s).

(** [is_match]. *)
Definition is_match (s : string) : bool := match captures s with [] => false | _ => true end.

(** [replace_all]. *)
Definition replace_all (f : string → M → string) (s : string) : string :=
  String.concat "" (map (λ p, match p with Plain c => String c "" | Match text m => f text m end) (pieces s)).

(** The first match, when it is the whole text. *)
Definition whole_match (s : string) : option M :=
  match List.find (λ p, match p with Match _ _ => true | Plain _ => false end) (pieces s) with
  | Some (Match text m) => if String.eqb text s then Some m else None
  | _ => None
  end.

End scan.

(** ** Putting inputs into a text *)

(** [InvalidPromptInputs], [PromptCacheInvalid], [InvalidRequestBody] and
    [InternalError::Internal]. *)
Inductive PromptError :=
| InvalidPromptInputs (message : string)
| PromptCacheInvalid (message : string)
| BodyNotJson
| PromptInternal.

Definition missing_input {A} (name : string) : result A PromptError :=
  Err (InvalidPromptInputs ("Missing prompt input: " ++ name)).

Definition digits_span (s : string) : nat * string :=
  (fix go (n : nat) (s : string) : nat * string :=
     match s with
     | String c s' => if is_ascii_digit c then go (S n) s' else (n, s)
     | EmptyString => (n, s)
     end) 0 s.

Definition strip_sign (s : string) : string :=
  match s with
  | String c s' => if Ascii.eqb c "+"%char || Ascii.eqb c "-"%char then s' else s
  | EmptyString => s
  end.

Definition exponent_ok (s : string) : bool :=
  match s with
  | EmptyString => true
  | String c s' =>
      (Ascii.eqb c "e"%char || Ascii.eqb c "E"%char) &&
      (let r := digits_span (strip_sign s') in negb (Nat.eqb r.1 0) && is_empty r.2)
  end.

(** The texts that [str::parse::<f64>] accepts. *)
Definition parses_f64 (s : string) : bool :=
  let s := strip_sign s in
  let lower := to_ascii_lowercase s in
  String.eqb lower "inf" || String.eqb lower "infinity" || String.eqb lower "nan" ||
  (let r := digits_span s in
   match r.2 with
   | String c s' =>
       if Ascii.eqb c "."%char then
         let r' := digits_span s' in negb (Nat.eqb (r.1 + r'.1) 0) && exponent_ok r'.2
       else negb (Nat.eqb r.1 0) && exponent_ok r.2
   | EmptyString => negb (Nat.eqb r.1 0)
   end).

Definition Inputs := list (string * Value).

Section templates.
(** [Value::to_string] and [str::to_lowercase]. *)
Context (to_string : Value → string) (to_lowercase : string → string).


(* src: ai-gateway/src/middleware/prompts/templating.rs:373-408 validate_variable_type *)
Definition validate_variable_type (value : Value) (expected_type : string) : result string PromptError :=
  let value_string := to_string value in
  if String.eqb expected_type "number" then
    match value with
    | Number _ => Ok value_string
    | _ =>
        if parses_f64 value_string then Ok value_string
        else Err (InvalidPromptInputs ("Variable value '" ++ value_string ++ "' cannot be converted to number"))
    end
  else if String.eqb expected_type "boolean" then
    match value with
    | Bool _ => Ok value_string
    | _ =>
        if existsb (String.eqb (to_lowercase value_string)) ["true"; "false"; "yes"; "no"] then Ok value_string
        else Err (InvalidPromptInputs ("Variable value '" ++ value_string
               ++ "' is not a valid boolean (expected: true, false, yes, no)"))
    end
  else Ok value_string.

(* src: ai-gateway/src/middleware/prompts/templating.rs:366-371 legacy_value_to_string *)
Definition legacy_value_to_string (value : Value) : string :=
  match value with Str text => text | _ => to_string value end.

(** [typed_variable_regex] and [legacy_variable_regex] as patterns. *)
Definition typed (s : string) : option ((string * string) * string) := typed_variable s.

(** The first loop of [replace_variables]: the names checked so far are kept. *)
Fixpoint check_typed (inputs : Inputs) (l : list (string * string)) (validated : list string)
  : result (list string) PromptError :=
  match l with
  | [] => Ok validated
  | (name, ty) :: l =>
      if existsb (String.eqb name) validated then check_typed inputs l validated
      else
        match assoc name inputs with
        | None => missing_input name
        | Some value =>
            let? _ := validate_variable_type value ty in
            check_typed inputs l (name :: validated)
        end
  end.

(** The second loop. *)
Fixpoint check_legacy (inputs : Inputs) (l : list string) : result unit PromptError :=
  match l with
  | [] => Ok tt
  | name :: l =>
      if String.eqb name "hc" then check_legacy inputs l
      else match assoc name inputs with None => missing_input name | Some _ => check_legacy inputs l end
  end.

Definition put_typed (inputs : Inputs) (text : string) (m : string * string) : string :=
  match assoc m.1 inputs with Some v => to_string v | None => text end.

Definition put_legacy (inputs : Inputs) (text name : string) : string :=
  if String.eqb name "hc" then text
  else match assoc name inputs with Some v => legacy_value_to_string v | None => text end.

(* src: ai-gateway/src/middleware/prompts/templating.rs:297-364 replace_variables *)
Definition replace_variables (text : string) (inputs : Inputs) (validated : list string)
  : result (string * list string) PromptError :=
  let? validated := check_typed inputs (captures typed text) validated in
  let? _ := check_legacy inputs (captures legacy_variable text) in
  let typed_processed := replace_all typed (put_typed inputs) text in
  Ok (replace_all legacy_variable (put_legacy inputs) typed_processed, validated).

(** ** Messages *)

Definition contains_variable (s : string) : bool := is_match typed s || is_match legacy_variable s.

(* src: ai-gateway/src/middleware/prompts/templating.rs:82-101 contains_prompt_variables *)
Fixpoint contains_prompt_variables (value : Value) : bool :=
  match value with
  | Str text => contains_variable text
  | Array values => existsb contains_prompt_variables values
  | Object map => existsb (λ e, contains_variable e.1 || contains_prompt_variables e.2) map
  | _ => false
  end.

(** The texts of a content given as parts. *)
Fixpoint process_parts (inputs : Inputs) (parts : list Value) (validated : list string)
  : result (list Value * list string) PromptError :=
  match parts with
  | [] => Ok ([], validated)
  | part :: parts =>
      let? r := match get "text" part with
                | Some (Str text) =>
                    let? r := replace_variables text inputs validated in
                    Ok (set_field "text" (Str r.1) part, r.2)
                | _ => Ok (part, validated)
                end in
      let? rest := process_parts inputs parts r.2 in
      Ok (r.1 :: rest.1, rest.2)
  end.

(* src: ai-gateway/src/middleware/prompts/templating.rs:255-295 process_message_variables *)
Definition process_message_variables (message : Value) (inputs : Inputs) (validated : list string)
  : result (Value * list string) PromptError :=
  match get "content" message with
  | Some (Str text) =>
      let? r := replace_variables text inputs validated in
      Ok (set_field "content" (Str r.1) message, r.2)
  | Some (Array parts) =>
      let? r := process_parts inputs parts validated in
      Ok (set_field "content" (Array r.1) message, r.2)
  | _ => Ok (message, validated)
  end.

Fixpoint process_messages (inputs : Inputs) (messages : list Value) (validated : list string)
  : result (list Value) PromptError :=
  match messages with
  | [] => Ok []
  | m :: messages =>
      let? r := process_message_variables m inputs validated in
      let? rest := process_messages inputs messages r.2 in
      Ok (r.1 :: rest)
  end.

(* src: ai-gateway/src/middleware/prompts/templating.rs:103-126 process_messages_value *)
Definition process_messages_value (messages : Value) (inputs : Inputs) : result Value PromptError :=
  match messages with
  | Array l => let? l := process_messages inputs l [] in Ok (Array l)
  | _ => Ok messages
  end.

(** ** Schemas *)

(** The input that a whole text stands for, if it is one variable. *)
Definition whole_variable (text : string) (inputs : Inputs) : result (option (string * Value)) PromptError :=
  match whole_match typed text with
  | Some (name, ty) =>
      match assoc name inputs with
      | None => missing_input name
      | Some v => let? _ := validate_variable_type v ty in Ok (Some (name, v))
      end
  | None =>
      match whole_match legacy_variable text with
      | Some name => match assoc name inputs with None => missing_input name | Some v => Ok (Some (name, v)) end
      | None => Ok None
      end
  end.

(** Keys must be texts. *)
Definition process_key (key : string) (inputs : Inputs) : result string PromptError :=
  let? w := whole_variable key inputs in
  match w with
  | Some (_, Str s) => Ok s
  | Some (name, v) =>
      Err (InvalidPromptInputs ("Variable '" ++ name ++ "' in object schema key must be a string, got: " ++ to_string v))
  | None => let? r := replace_variables key inputs [] in Ok r.1
  end.

(* src: ai-gateway/src/middleware/prompts/templating.rs:128-227 process_prompt_schema *)
Fixpoint process_prompt_schema (value : Value) (inputs : Inputs) : result Value PromptError :=
  match value with
  | Str text =>
      let? w := whole_variable text inputs in
      match w with
      | Some (_, v) => Ok v
      | None => let? r := replace_variables text inputs [] in Ok (Str r.1)
      end
  | Array arr =>
      let? l := (fix go (arr : list Value) : result (list Value) PromptError :=
                   match arr with
                   | [] => Ok []
                   | v :: arr => let? v := process_prompt_schema v inputs in let? l := go arr in Ok (v :: l)
                   end) arr in
      Ok (Array l)
  | Object obj =>
      let? l := (fix go (obj : list (string * Value)) (acc : list (string * Value)) : result (list (string * Value)) PromptError :=
                   match obj with
                   | [] => Ok acc
                   | (k, v) :: obj =>
                       let? k := process_key k inputs in
                       let? v := process_prompt_schema v inputs in
                       go obj (assoc_set k v acc)
                   end) obj [] in
      Ok (Object l)
  | _ => Ok value
  end.

(** [if let Some(v) = map.get_mut(key) { *v = f(v)? }] *)
Definition modify_field (key : string) (f : Value → result Value PromptError) (fields : list (string * Value))
  : result (list (string * Value)) PromptError :=
  match assoc key fields with
  | Some v => let? v := f v in Ok (assoc_set key v fields)
  | None => Ok fields
  end.

(* src: ai-gateway/src/middleware/prompts/templating.rs:12-80 apply_prompt_inputs_to_body *)
Definition apply_prompt_inputs_to_body (body : Value) : result Value PromptError :=
  match body with
  | Object fields =>
      let inputs := assoc "inputs" fields ≫= as_object in
      let has_template_variables :=
        existsb contains_prompt_variables (omap (λ key, assoc key fields) ["messages"; "response_format"; "tools"]) in
      match inputs with
      | None =>
          if has_template_variables then Err (InvalidPromptInputs "Prompt inputs are required for template variables")
          else Ok body
      | Some inputs =>
          let? fields := modify_field "messages" (λ v, process_messages_value v inputs) fields in
          let? fields := modify_field "response_format" (λ v, process_prompt_schema v inputs) fields in
          let? fields := modify_field "tools" (λ v, process_prompt_schema v inputs) fields in
          Ok (Object (assoc_remove "inputs" fields))
      end
  | _ => Ok body
  end.

(** ** Stored prompts *)

(* src: ai-gateway/src/middleware/prompts/service.rs:215-250 merge_prompt_with_request *)
Definition merge_prompt_with_request (prompt_body request_body : Value) : result Value PromptError :=
  match prompt_body, request_body with
  | Object prompt_obj, Object request_obj =>
      match assoc "messages" prompt_obj ≫= as_array, assoc "messages" request_obj ≫= as_array with
      | Some prompt_messages, Some request_messages =>
          let merged := assoc_set "messages" (Array (prompt_messages ++ request_messages)%list) prompt_obj in
          Ok (Object (foldl (λ acc e, if String.eqb e.1 "messages" then acc else assoc_set e.1 e.2 acc) merged request_obj))
      | _, _ => Err PromptInternal
      end
  | _, _ => Err PromptInternal
  end.

(* src: ai-gateway/src/types/extensions.rs:189-193 PromptContext *)
Record PromptContext := mkPromptContext {
  pc_prompt_id : string;
  pc_prompt_version_id : option string;
  pc_inputs : option Inputs
}.

(** The parts of the request and of the services that the prompt layer uses:
    serde's readers and writers, the caller, the production version of a prompt
    and the stored body ([None] is a failure of the service). *)
Record PromptWorld (Auth : Type) := mkPromptWorld {
  pw_from_slice : string → option Value;
  pw_to_vec : Value → string;
  pw_params : Value → option PromptContext;
  pw_auth : option Auth;
  pw_production_version : Auth → string → option string;
  pw_pull_prompt_body : Auth → string → string → option Value
}.
Arguments mkPromptWorld {Auth}.
Arguments pw_from_slice {Auth}.
Arguments pw_to_vec {Auth}.
Arguments pw_params {Auth}.
Arguments pw_auth {Auth}.
Arguments pw_production_version {Auth}.
Arguments pw_pull_prompt_body {Auth}.

(** The body that goes on, and the context that is attached. *)
(* src: ai-gateway/src/middleware/prompts/service.rs:96-159 build_prompt_request *)
Definition build_prompt_request {Auth} (w : PromptWorld Auth) (body : string) : result (string * option PromptContext) PromptError :=
  let? request := ok_or (pw_from_slice w body) BodyNotJson in
  match get "prompt_id" request with
  | None => Ok (body, None)
  | Some _ =>
      match pw_params w request with
      | None => Ok (body, None)
      | Some ctx =>
          let? auth := ok_or (pw_auth w) PromptInternal in
          let? version := match pc_prompt_version_id ctx with
                          | Some v => Ok v
                          | None => ok_or (pw_production_version w auth (pc_prompt_id ctx)) PromptInternal
                          end in
          let? prompt := ok_or (pw_pull_prompt_body w auth (pc_prompt_id ctx) version) PromptInternal in
          let? merged := merge_prompt_with_request prompt request in
          let? processed := apply_prompt_inputs_to_body merged in
          Ok (pw_to_vec w processed, Some (mkPromptContext (pc_prompt_id ctx) (Some version) (pc_inputs ctx)))
      end
  end.

(** ** The prompt cache *)

(* src: ai-gateway/src/content_filter/prompt_cache.rs:32-41 prompt_cache_redis_key *)
Definition prompt_cache_redis_key (workspace_id prompt_id : string) : string :=
  "prompt:cache:" ++ workspace_id ++ ":" ++ prompt_id.

(* src: ai-gateway/src/content_filter/prompt_cache.rs:29-29 MAX_PROMPT_ID_BYTES *)
Definition MAX_PROMPT_ID_BYTES : nat := 256.

(* src: ai-gateway/src/content_filter/prompt_cache.rs:45-56 template_messages_from_prompt_cache_value *)
Definition template_messages_from_prompt_cache_value (root : Value) : result (list Value) string :=
  match get "template" root with
  | None => Err "`template` missing in prompt cache"
  | Some template =>
      match get "messages" template with
      | None => Err "`template.messages` missing in prompt cache"
      | Some (Array arr) => Ok arr
      | Some _ => Err "`template.messages` must be a JSON array"
      end
  end.

(* src: ai-gateway/src/content_filter/prompt_cache.rs:69-82 current_version_for_request_log_from_cache_root *)
Definition current_version_for_request_log_from_cache_root (root : Value) : option string :=
  match get "template" root ≫= get "current_version" with
  | Some (Str s) => if is_empty (trim s) then None else Some (trim s)
  | Some (Number text) => Some text
  | _ => None
  end.

(* src: ai-gateway/src/content_filter/prompt_cache.rs:87-108 prepend_messages_array *)
Definition prepend_messages_array (root : Value) (prefix : list Value) : result Value string :=
  match prefix with
  | [] => Ok root
  | _ =>
      match root with
      | Object map =>
          match assoc "messages" map with
          | None => Ok (Object (assoc_set "messages" (Array prefix) map))
          | Some (Array existing) =>
              Ok (Object (assoc_set "messages" (Array (prefix ++ existing)%list) (assoc_remove "messages" map)))
          | Some _ => Err "`messages` must be a JSON array"
          end
      | _ => Err "Request body must be a JSON object"
      end
  end.

(* src: ai-gateway/src/content_filter/prompt_cache.rs:110-116 prompt_id_from_headers *)
Definition prompt_id_from_headers (h : HeaderMap) : option string :=
  match header_str "alephant-prompt-id" h with
  | Some v => if is_empty (trim v) then None else Some (trim v)
  | None => None
  end.

(* src: ai-gateway/src/types/extensions.rs:200-203 PromptHeaderForRequestLog *)
Record PromptHeaderForRequestLog := mkPromptHeader { ph_prompt_id : string; ph_prompt_version : option string }.

(** What happened, as the metrics count it. *)
Definition Outcome := string.

Context (from_slice : string → option Value) (to_vec : Value → string).

(* src: ai-gateway/src/content_filter/prompt_cache.rs:132-215 merge_prompt_cache_hit_into_body *)
Definition merge_prompt_cache_hit_into_body (prompt_id redis_str forward_body : string)
  : Outcome * result (string * option PromptHeaderForRequestLog) PromptError :=
  match from_slice redis_str with
  | None => ("cache_invalid_skip", Ok (forward_body, None))
  | Some cache_root =>
      match template_messages_from_prompt_cache_value cache_root with
      | Err _ => ("cache_invalid_skip", Ok (forward_body, None))
      | Ok template_messages =>
          let header_log := mkPromptHeader prompt_id (current_version_for_request_log_from_cache_root cache_root) in
          match template_messages with
          | [] => ("hit_noop_empty_template", Ok (forward_body, Some header_log))
          | _ =>
              match from_slice forward_body with
              | None =>
                  ("parse_or_shape_400",
                   Err (PromptCacheInvalid "Request body must be valid JSON when using Alephant-Prompt-ID"))
              | Some body_root =>
                  match prepend_messages_array body_root template_messages with
                  | Err msg => ("parse_or_shape_400", Err (PromptCacheInvalid msg))
                  | Ok body_root =>
                      match apply_prompt_inputs_to_body body_root with
                      | Err e => ("", Err e)
                      | Ok body_root => ("hit_injected", Ok (to_vec body_root, Some header_log))
                      end
                  end
              end
          end
      end
  end.

(** [redis] is the client if there is one: the answer for a key, [None] for an
    error. *)
(* src: ai-gateway/src/content_filter/prompt_cache.rs:224-311 merge_prompt_cache_messages_into_body *)
Definition merge_prompt_cache_messages_into_body (redis : option (string → option (option string))) (h : HeaderMap)
    (workspace_id forward_body : string) : Outcome * result (string * option PromptHeaderForRequestLog) PromptError :=
  match prompt_id_from_headers h with
  | None => ("skipped_no_header", Ok (forward_body, None))
  | Some prompt_id =>
      if is_empty workspace_id then ("skipped_no_workspace", Ok (forward_body, None))
      else if (MAX_PROMPT_ID_BYTES <? len prompt_id)%nat then
        ("prompt_id_too_long_400", Err (PromptCacheInvalid "Alephant-Prompt-ID exceeds maximum length (256 bytes)"))
      else
        match redis with
        | None => ("no_redis", Ok (forward_body, None))
        | Some client =>
            match client (prompt_cache_redis_key workspace_id prompt_id) with
            | None => ("redis_error", Ok (forward_body, None))
            | Some None => ("miss", Ok (forward_body, None))
            | Some (Some redis_str) =>
                if is_empty redis_str then ("miss", Ok (forward_body, None))
                else merge_prompt_cache_hit_into_body prompt_id redis_str forward_body
            end
        end
  end.

End templates.

(** ** Texts cut into pieces *)

Section cut.
Context {M : Type} (pattern : string → option (M * string)).

Definition piece_text (p : Piece M) : string := match p with Plain c => String c "" | Match text _ => text end.

(** A pattern that takes something from the front of its text. *)
Definition consumes : Prop := ∀ s m rest, pattern s = Some (m, rest) → ∃ p, s = p ++ rest ∧ is_empty p = false.

Lemma pieces_from_text : consumes → ∀ s skip, (skip ≤ len s)%nat →
  String.concat "" (map piece_text (pieces_from pattern skip s)) = str_drop skip s.
Proof.
  intros Hc. induction s as [|c s IH]; intros skip Hs; [by destruct skip|].
  destruct skip as [|k]; [|apply IH; simpl in Hs; lia].
  cbn [pieces_from]. destruct (pattern (String c s)) as [[m rest]|] eqn:E; cbn [map]; rw concat_cons.
  - destruct (Hc _ _ _ E) as (p & Hp & Hne). destruct p as [|c' p]; [done|]. simplify_eq/=.
    replace (S (len (p ++ rest)) - len rest)%nat with (S (len p)) by (rw len_app; lia). cbn.
    rw str_take_app Nat.sub_0_r IH; last (rw len_app; lia). by rw str_drop_app.
  - rw IH; [|lia]. by destruct s.
Qed.

(** Cutting a text loses nothing of it. *)
Lemma pieces_text s : consumes → String.concat "" (map piece_text (pieces pattern s)) = s.
Proof. intros Hc. rw /pieces (pieces_from_text Hc); [|lia]. by destruct s. Qed.

Lemma no_capture_plain (l : list (Piece M)) :
  omap (λ p, match p with Match _ m => Some m | Plain _ => None end) l = [] →
  Forall (λ p, match p with Plain _ => True | Match _ _ => False end) l.
Proof. induction l as [|[c|t m] l IH]; intros H; [done| |done]. constructor; [done|by apply IH]. Qed.

(** A text without a match is left alone. *)
Lemma replace_all_idle f s : consumes → captures pattern s = [] → replace_all pattern f s = s.
Proof.
  intros Hc H. rw -{2}(pieces_text s Hc). rw /replace_all. f_equal. apply map_ext_in.
  intros p Hp%list_elem_of_In. apply no_capture_plain in H. rw Forall_forall in H. specialize (H p Hp). by destruct p.
Qed.
End cut.

Lemma ident_span_app s : (ident_span s).1 ++ (ident_span s).2 = s.
Proof. induction s as [|c s IH]; [done|]. simpl. case_match; [by rw /= IH|done]. Qed.

Lemma ident_Some s name rest : ident s = Some (name, rest) → s = name ++ rest.
Proof.
  destruct s as [|c s]; [done|]. rw /ident. case_match; [|done].
  pose proof (ident_span_app (String c s)) as Ha. destruct (ident_span (String c s)). intros [= <- <-]. by symmetry.
Qed.

Lemma trim_start_suffix s : ∃ p, s = p ++ trim_start s.
Proof.
  rw /trim_start. generalize (len s). intros n. revert s. induction n as [|n IH]; intros s; [by exists ""|]. simpl.
  destruct (ws_prefix_len s) as [|k] eqn:E; [by exists ""|].
  destruct (IH (str_drop (S k) s)) as [p Hp]. exists (str_take (S k) s ++ p). rw str_app_assoc -Hp. by rw str_take_drop.
Qed.

(** [s] is some text in front of [rest]. *)
Definition ends_in (rest s : string) : Prop := ∃ p, s = p ++ rest.

Lemma ends_in_trans a b c : ends_in a b → ends_in b c → ends_in a c.
Proof. intros [p ->] [q ->]. exists (q ++ p). by rw str_app_assoc. Qed.

Lemma ends_in_trim s : ends_in (trim_start s) s.
Proof. apply trim_start_suffix. Qed.

Lemma ends_in_strip p s r : strip_prefix p (trim_start s) = Some r → ends_in r s.
Proof. intros H%strip_prefix_Some. apply (ends_in_trans _ (trim_start s)); [by exists p|apply ends_in_trim]. Qed.

Lemma ends_in_ident s name r : ident (trim_start s) = Some (name, r) → ends_in r s.
Proof. intros H%ident_Some. apply (ends_in_trans _ (trim_start s)); [by exists name|apply ends_in_trim]. Qed.

#[local] Opaque strip_prefix ident trim_start.

Lemma legacy_consumes : consumes legacy_variable.
Proof.
  intros s m rest. rw /legacy_variable. destruct (strip_prefix "{{" s) as [s1|] eqn:E1; [|done]. simpl.
  destruct (ident (trim_start s1)) as [[name s2]|] eqn:E2; [|done]. simpl.
  destruct (strip_prefix "}}" (trim_start s2)) as [s3|] eqn:E3; [|done]. simpl. intros [= <- <-].
  apply strip_prefix_Some in E1 as ->. apply ends_in_ident in E2. apply ends_in_strip in E3.
  destruct (ends_in_trans _ _ _ E3 E2) as [p ->]. by exists ("{{" ++ p).
Qed.

Lemma typed_consumes : consumes typed.
Proof.
  intros s m rest. rw /typed /typed_variable. destruct (strip_prefix "{{" s) as [s1|] eqn:E1; [|done]. simpl.
  destruct (strip_prefix "hc" (trim_start s1)) as [s2|] eqn:E2; [|done]. simpl.
  destruct (strip_prefix ":" (trim_start s2)) as [s3|] eqn:E3; [|done]. simpl.
  destruct (ident (trim_start s3)) as [[name s4]|] eqn:E4; [|done]. simpl.
  destruct (strip_prefix ":" (trim_start s4)) as [s5|] eqn:E5; [|done]. simpl.
  destruct (ident (trim_start s5)) as [[ty s6]|] eqn:E6; [|done]. simpl.
  destruct (strip_prefix "}}" (trim_start s6)) as [s7|] eqn:E7; [|done]. simpl. intros [= <- <-].
  apply strip_prefix_Some in E1 as ->. apply ends_in_strip in E2, E3, E5, E7. apply ends_in_ident in E4, E6.
  assert (H : ends_in s7 s1) by eauto 8 using ends_in_trans. destruct H as [p ->]. by exists ("{{" ++ p).
Qed.
#[local] Transparent strip_prefix ident trim_start.

(** ** What a filled template is *)

Section filled.
Context (to_string : Value → string) (to_lowercase : string → string).
Abbreviation validate := (validate_variable_type to_string to_lowercase).
Abbreviation replace := (replace_variables to_string to_lowercase).

Definition has_input (inputs : Inputs) (name : string) : Prop := is_Some (assoc name inputs).

Lemma check_typed_inputs inputs l : ∀ seen seen', Forall (has_input inputs) seen →
  check_typed to_string to_lowercase inputs l seen = Ok seen' →
  Forall (has_input inputs) seen' ∧ Forall (has_input inputs) l.*1.
Proof.
  induction l as [|[name ty] l IH]; intros seen seen' Hs H; simplify_eq/=; [done|].
  destruct (existsb (String.eqb name) seen) eqn:E.
  - destruct (IH _ _ Hs H) as [H1 H2]. split; [done|]. constructor; [|done].
    apply existsb_exists in E as (n & Hn & <-%String.eqb_eq). rw Forall_forall in Hs. apply Hs. by apply list_elem_of_In.
  - destruct (assoc name inputs) as [v|] eqn:Ea; [|done]. destruct (validate v ty); [|done]. simpl in H.
    assert (Hn : has_input inputs name) by (rw /has_input Ea; eauto).
    destruct (IH (name :: seen) seen') as [H1 H2]; [by constructor|done|]. split; [done|by constructor].
Qed.

Lemma check_legacy_inputs inputs l : check_legacy inputs l = Ok tt →
  Forall (λ name, name = "hc" ∨ has_input inputs name) l.
Proof.
  induction l as [|name l IH]; [done|]. simpl. destruct (String.eqb_spec name "hc").
  - intros H. constructor; auto.
  - destruct (assoc name inputs) eqn:E; [|done]. intros H. constructor; [|auto]. right. rw /has_input E. eauto.
Qed.

(** The variables of a text have inputs. *)
Definition provided (inputs : Inputs) (text : string) : Prop :=
  Forall (has_input inputs) (captures typed text).*1 ∧
  Forall (λ name, name = "hc" ∨ has_input inputs name) (captures legacy_variable text).

Lemma replace_provided text inputs seen r : Forall (has_input inputs) seen → replace text inputs seen = Ok r →
  provided inputs text ∧ Forall (has_input inputs) r.2.
Proof.
  rw /replace_variables. intros Hs. destruct (check_typed _ _ _ _ _) as [seen'|] eqn:E1; [|done]. simpl.
  destruct (check_legacy _ _) as [[]|] eqn:E2; [|done]. simpl. intros [= <-].
  apply check_typed_inputs in E1 as [H1 H2]; [|done]. apply check_legacy_inputs in E2. done.
Qed.

(** A text without variables is left alone. *)
Lemma replace_idle text inputs seen : contains_variable text = false → replace text inputs seen = Ok (text, seen).
Proof.
  rw /contains_variable /is_match. destruct (captures typed text) eqn:E1; [|done].
  destruct (captures legacy_variable text) eqn:E2; [|done]. intros _.
  rw /replace_variables E1 E2 /=. rw (replace_all_idle typed); [|apply typed_consumes|done].
  by rw (replace_all_idle legacy_variable); [|apply legacy_consumes|].
Qed.

(** The texts of a message. *)
Definition message_texts (m : Value) : list string :=
  match get "content" m with
  | Some (Str t) => [t]
  | Some (Array parts) => omap (λ p, get "text" p ≫= as_str) parts
  | _ => []
  end.

Lemma process_parts_provided inputs parts : ∀ seen r, Forall (has_input inputs) seen →
  process_parts to_string to_lowercase inputs parts seen = Ok r →
  Forall (provided inputs) (omap (λ p, get "text" p ≫= as_str) parts) ∧ Forall (has_input inputs) r.2 ∧
  length r.1 = length parts.
Proof.
  induction parts as [|p parts IH]; intros seen r Hs H; simplify_eq/=; [done|].
  destruct (get "text" p) as [[| | |t| |]|] eqn:E; simplify_eq/=.
  all: try (destruct (process_parts _ _ _ _ _) as [r'|] eqn:E2; [|done]; simplify_eq/=;
            destruct (IH _ _ Hs E2) as (H1 & H2 & H3); rw H3; done).
  destruct (replace t inputs seen) as [r1|] eqn:E1; [|done]. simpl in H.
  destruct (replace_provided _ _ _ _ Hs E1) as [Hp Hr].
  destruct (process_parts _ _ _ _ _) as [r'|] eqn:E2; [|done]. simplify_eq/=.
  destruct (IH _ _ Hr E2) as (H1 & H2 & H3). split_and!; [by constructor|done|by rw H3].
Qed.

Lemma process_message_provided m inputs seen r : Forall (has_input inputs) seen →
  process_message_variables to_string to_lowercase m inputs seen = Ok r →
  Forall (provided inputs) (message_texts m) ∧ Forall (has_input inputs) r.2 ∧
  (∀ key, "content" ≠ key → get key r.1 = get key m).
Proof.
  rw /process_message_variables /message_texts. intros Hs.
  destruct (get "content" m) as [[| | |t|parts|]|] eqn:E; intros H; simplify_eq/=; try done.
  - destruct (replace t inputs seen) as [r1|] eqn:E1; [|done]. simplify_eq/=.
    destruct (replace_provided _ _ _ _ Hs E1). split_and!; [by constructor|done|].
    intros key Hk. by apply get_set_field_ne.
  - destruct (process_parts _ _ _ _ _) as [r1|] eqn:E1; [|done]. simplify_eq/=.
    destruct (process_parts_provided _ _ _ _ Hs E1) as (H1 & H2 & _). split_and!; [done..|].
    intros key Hk. by apply get_set_field_ne.
Qed.

Lemma process_messages_provided inputs l : ∀ seen l', Forall (has_input inputs) seen →
  process_messages to_string to_lowercase inputs l seen = Ok l' →
  Forall2 (λ m m', Forall (provided inputs) (message_texts m) ∧ ∀ key, "content" ≠ key → get key m' = get key m) l l'.
Proof.
  induction l as [|m l IH]; intros seen l' Hs H; simplify_eq/=; [done|].
  destruct (process_message_variables _ _ _ _ _) as [r|] eqn:E1; [|done]. simpl in H.
  destruct (process_messages _ _ _ _ _) as [l1|] eqn:E2; [|done]. simplify_eq/=.
  destruct (process_message_provided _ _ _ _ Hs E1) as (H1 & H2 & H3). constructor; [done|]. by eapply IH.
Qed.

Lemma modify_field_Ok key f fields fields' : modify_field key f fields = Ok fields' →
  (∀ k, key ≠ k → assoc k fields' = assoc k fields) ∧
  (∀ v, assoc key fields = Some v → ∃ v', f v = Ok v' ∧ assoc key fields' = Some v') ∧
  (assoc key fields = None → assoc key fields' = None).
Proof.
  rw /modify_field. destruct (assoc key fields) as [v|] eqn:E; [|by intros [= ->]].
  destruct (f v) as [v'|] eqn:Ef; [|done]. intros [= <-]. split_and!; [|intros ? [= <-]; exists v'; by rw assoc_set_eq|done].
  intros k Hk. by apply assoc_set_ne.
Qed.
End filled.

(** ** Theorems *)

(** Filling a template changes the messages' contents, the response format and
    the tools only; the inputs are not forwarded; no message is lost, and every
    variable of every text has its input. *)
Theorem filled_template to_string to_lowercase fields b :
  apply_prompt_inputs_to_body to_string to_lowercase (Object fields) = Ok b →
  (∀ key, key ∉ ["messages"; "response_format"; "tools"; "inputs"] → get key b = assoc key fields) ∧
  (∀ inputs, assoc "inputs" fields = Some (Object inputs) → get "inputs" b = None ∧
     ∀ l, assoc "messages" fields = Some (Array l) → ∃ l', get "messages" b = Some (Array l') ∧
       Forall2 (λ m m', Forall (provided inputs) (message_texts m) ∧ ∀ key, "content" ≠ key → get key m' = get key m) l l').
Proof.
  rw /apply_prompt_inputs_to_body. destruct (assoc "inputs" fields ≫= as_object) as [inputs|] eqn:Ei.
  2:{ case_match; [done|]. intros [= <-]. split; [done|]. intros inputs Hi. by rw Hi in Ei. }
  destruct (modify_field "messages" _ fields) as [f1|] eqn:E1; [|done]. simpl.
  destruct (modify_field "response_format" _ f1) as [f2|] eqn:E2; [|done]. simpl.
  destruct (modify_field "tools" _ f2) as [f3|] eqn:E3; [|done]. simpl. intros [= <-]. simpl.
  apply modify_field_Ok in E1 as (A1 & B1 & _), E2 as (A2 & _), E3 as (A3 & _). split.
  - intros key Hk. rw assoc_remove_ne; [|set_solver]. rw A3; [|set_solver]. rw A2; [|set_solver]. apply A1. set_solver.
  - intros inputs' Hi. rw Hi in Ei. simplify_eq/=. split; [apply assoc_remove_eq|]. intros l Hl.
    destruct (B1 _ Hl) as (v' & Hv & Ha). simpl in Hv.
    destruct (process_messages _ _ _ _ _) as [l'|] eqn:El; [|done]. simplify_eq/=.
    exists l'. rw assoc_remove_ne // A3 // A2 //. split; [done|]. by eapply process_messages_provided.
Qed.

(** Without inputs a request is either left alone or, when it has variables,
    refused. *)
Theorem template_without_inputs to_string to_lowercase fields : assoc "inputs" fields ≫= as_object = None →
  apply_prompt_inputs_to_body to_string to_lowercase (Object fields) =
  if existsb contains_prompt_variables (omap (λ key, assoc key fields) ["messages"; "response_format"; "tools"])
  then Err (InvalidPromptInputs "Prompt inputs are required for template variables")
  else Ok (Object fields).
Proof. intros H. by rw /apply_prompt_inputs_to_body H. Qed.

(** A stored prompt is put in front of the messages of a request, and of the
    other fields the request's win. *)
Lemma foldl_fields key l : ∀ acc, assoc key (foldl (λ acc (e : string * Value), if String.eqb e.1 "messages" then acc else assoc_set e.1 e.2 acc) acc l) =
  match List.find (λ e, String.eqb e.1 key && negb (String.eqb e.1 "messages")) (rev l) with
  | Some e => Some e.2
  | None => assoc key acc
  end.
Proof.
  induction l as [|[k v] l IH] using rev_ind; intros acc; [done|].
  rw foldl_app rev_app_distr /=. destruct (String.eqb_spec k "messages") as [->|Hk].
  - rw andb_false_r. apply IH.
  - rw andb_true_r. destruct (String.eqb_spec k key) as [->|Hn]; [by rw assoc_set_eq|]. by rw assoc_set_ne // IH.
Qed.

Theorem merged_prompt prompt request b : merge_prompt_with_request prompt request = Ok b →
  ∃ p r, get "messages" prompt = Some (Array p) ∧ get "messages" request = Some (Array r) ∧
    get "messages" b = Some (Array (p ++ r)%list) ∧
    ∀ key, get key request = None → "messages" ≠ key → get key b = get key prompt.
Proof.
  destruct prompt as [| | | | |po], request as [| | | | |ro]; try done. simpl.
  destruct (assoc "messages" po) as [[| | | |p|]|] eqn:Ep; try done.
  destruct (assoc "messages" ro) as [[| | | |r|]|] eqn:Er; try done. simpl. intros [= <-]. exists p, r. split_and!; [done..| |].
  - simpl. rw foldl_fields. destruct (List.find _ _) as [e|] eqn:E; [|by rw assoc_set_eq].
    apply find_some in E as [_ E]. by destruct (String.eqb e.1 "messages").
  - intros key Hk Hm. simpl. rw foldl_fields. destruct (List.find _ _) as [e|] eqn:E; [|by rw assoc_set_ne].
    apply find_some in E as [Hi He]. apply andb_true_iff in He as [He%String.eqb_eq _]. simpl in Hk.
    apply assoc_None in Hk. destruct Hk. apply list_elem_of_fmap. exists e. split; [done|]. by apply list_elem_of_In, in_rev.
Qed.

(** A workspace reads its own prompts only. *)
Theorem prompt_cache_keys_are_apart w w' p p' : count_byte ":" w = 0%nat → count_byte ":" w' = 0%nat →
  prompt_cache_redis_key w p = prompt_cache_redis_key w' p' → w = w' ∧ p = p'.
Proof. intros Hw Hw' H%str_app_inj_l. by apply (field_inj ":"%char) in H. Qed.

(** Whatever the cache holds, what follows keeps the model of the request. *)
Theorem prompt_cache_keeps_the_model to_string to_lowercase from_slice to_vec redis h ws body body' log :
  (∀ v, from_slice (to_vec v) = Some v) →
  (merge_prompt_cache_messages_into_body to_string to_lowercase from_slice to_vec redis h ws body).2 = Ok (body', log) →
  from_slice body' ≫= get "model" = from_slice body ≫= get "model".
Proof.
  intros Hr. rw /merge_prompt_cache_messages_into_body.
  repeat (first [progress case_match|by intros [= <- _]]); try done; try by intros [= <- _].
  rw /merge_prompt_cache_hit_into_body. destruct (from_slice _) as [root|]; [|by intros [= <- _]].
  destruct (template_messages_from_prompt_cache_value root) as [msgs|]; [|by intros [= <- _]].
  destruct msgs as [|m msgs]; [by intros [= <- _]|].
  destruct (from_slice body) as [v|] eqn:Eb; [|done].
  destruct (prepend_messages_array v (m :: msgs)) as [v1|] eqn:Ep; [|done].
  destruct (apply_prompt_inputs_to_body _ _ v1) as [v2|] eqn:Ea; [|done]. intros [= <- _]. rw Hr /=.
  rw /prepend_messages_array in Ep. destruct v as [| | | | |map]; try done.
  assert (∃ f, v1 = Object f ∧ assoc "model" f = assoc "model" map) as (f & -> & Hf).
  { destruct (assoc "messages" map) as [[]|]; simplify_eq/=; eexists; (split; [done|]); by rw assoc_set_ne // ?assoc_remove_ne. }
  destruct (filled_template _ _ _ _ Ea) as [Hk _]. rw Hk; [done|set_solver].
Qed.

(** ** What the templates do not do *)

Definition double_quote : ascii := ascii_of_N 34.

(** JSON text of a string starts with a quote, and so does its lower-case form. *)
Definition quotes (to_string : Value → string) (to_lowercase : string → string) : Prop :=
  ∀ s, ∃ t t', to_string (Str s) = String double_quote t ∧ to_lowercase (String double_quote t) = String double_quote t'.

(** A number or a boolean given as text is refused, although the check reads
    texts as numbers and takes yes and no for booleans: it looks at the JSON
    form, with its quotes. *)
Theorem typed_texts_are_refused to_string to_lowercase s : quotes to_string to_lowercase →
  is_ok (validate_variable_type to_string to_lowercase (Str s) "number") = false ∧
  is_ok (validate_variable_type to_string to_lowercase (Str s) "boolean") = false.
Proof.
  intros H. destruct (H s) as (t & t' & H1 & H2). by rw /validate_variable_type H1 /= H2.
Qed.

(** A writer for examples. *)
Definition small_json (v : Value) : string :=
  match v with
  | Str s => String double_quote (s ++ String double_quote "")
  | Number t => t
  | Bool true => "true"
  | Bool false => "false"
  | _ => "null"
  end.

(** The text of an input is itself read as a template. *)
Example inputs_are_expanded_again :
  replace_variables small_json (λ s, s) "{{hc:quote:string}}" [("quote", Str "{{key}}"); ("key", Str "secret")] [] =
  Ok (String double_quote ("secret" ++ String double_quote ""), ["quote"]).
Proof. by vm_compute. Qed.

(** A variable is checked against the first of its types only. *)
Example second_type_is_not_checked :
  replace_variables small_json (λ s, s) "{{hc:n:string}} {{hc:n:number}}" [("n", Str "x")] [] =
  Ok (small_json (Str "x") ++ " " ++ small_json (Str "x"), ["n"]).
Proof. by vm_compute. Qed.

Example filled_message :
  apply_prompt_inputs_to_body small_json (λ s, s)
    (Object [("model", Str "m"); ("inputs", Object [("name", Str "legend"); ("age", Number "30")]);
             ("messages", Array [Object [("role", Str "user"); ("content", Str "{{ name }} is {{hc:age:number}}")]])]) =
  Ok (Object [("model", Str "m"); ("messages", Array [Object [("role", Str "user"); ("content", Str "legend is 30")]])]).
Proof. by vm_compute. Qed.
