(* ===== verification/LargeContext.v ===== *)
(** * Requests that are too long for a model

    Models [ai-gateway/src/middleware/large_context/] (the header that asks for
    it, the view of a chat request it works on, the estimate of input tokens,
    the shortening of messages and the fallback to a second model) and
    [middleware/prompt_compression/mod.rs], which uses the same parts.

    [serde_json], the tokenizer ([tiktoken]) and the reader of dates in model
    names are parameters.  [f32] and [f64] are executable IEEE numbers. *)

From S2P Require Import Prelude RustStr Json Float64 Provider ModelId Headers.
From Stdlib Require Import Ascii SpecFloat.
Local Open Scope string_scope.

(** ** White space *)

(** [str::split_whitespace]; [skip] counts the bytes left of a white-space
    character of several bytes. *)
Fixpoint words_from (cur : string) (skip : nat) (s : string) : list string :=
  match s with
  | EmptyString => if is_empty cur then [] else [cur]
  | String c s' =>
      match skip with
      | S k => words_from cur k s'
      | O =>
          match ws_prefix_len s with
          | O => words_from (cur ++ String c "") 0 s'
          | S k => ((if is_empty cur then [] else [cur]) ++ words_from "" k s')%list
          end
      end
  end.

Definition split_whitespace (s : string) : list string := words_from "" 0 s.

(* src: ai-gateway/src/middleware/large_context/heuristics.rs:24-26 normalize_text *)
Definition normalize_text (text : string) : string := str_join " " (split_whitespace text).

(** ** Headers *)

(* src: ai-gateway/src/middleware/large_context/headers.rs:9-13 TokenLimitExceptionHandler *)
Inductive TokenLimitExceptionHandler := Truncate | MiddleOut | HandlerFallback.

(* src: ai-gateway/src/middleware/large_context/headers.rs:27-30 LargeContextHeaders *)
Record LargeContextHeaders := mkLcHeaders {
  lc_handler : option TokenLimitExceptionHandler;
  lc_model_override : option string
}.

(** [InvalidRequestHeader], [InvalidLargeContextHandler] and
    [InvalidRequestBody]. *)
Inductive LargeContextError := InvalidHeader | InvalidHandler (value : string) | LcInvalidBody.

(* src: ai-gateway/src/middleware/large_context/headers.rs:32-42 parse_header_string *)
Definition parse_header_string (h : HeaderMap) (key : string) : result (option string) LargeContextError :=
  match hget key h with
  | None => Ok None
  | Some v =>
      match to_str v with
      | None => Err InvalidHeader
      | Some s => Ok (if is_empty (trim s) then None else Some (trim s))
      end
  end.

(* src: ai-gateway/src/middleware/large_context/headers.rs:44-53 parse_handler_value *)
Definition parse_handler_value (value : string) : result TokenLimitExceptionHandler LargeContextError :=
  let v := to_ascii_lowercase (trim value) in
  if String.eqb v "truncate" then Ok Truncate
  else if String.eqb v "middle-out" then Ok MiddleOut
  else if String.eqb v "fallback" then Ok HandlerFallback
  else Err (InvalidHandler value).

(* src: ai-gateway/src/middleware/large_context/headers.rs:55-67 parse_large_context_headers *)
Definition parse_large_context_headers (h : HeaderMap) : result LargeContextHeaders LargeContextError :=
  let? v := parse_header_string h "alephant-token-limit-exception-handler" in
  let? handler := match v with
                  | None => Ok None
                  | Some v => let? x := parse_handler_value v in Ok (Some x)
                  end in
  let? model_override := parse_header_string h "alephant-model-override" in
  Ok (mkLcHeaders handler model_override).

(** ** The request *)

(* src: ai-gateway/src/middleware/large_context/parse.rs:5-9 ChatMessageTextRef *)
Record ChatMessageTextRef := mkRef { m_index : nat; m_role : option string; m_content : string }.

(* src: ai-gateway/src/middleware/large_context/parse.rs:12-19 ChatCompletionsPayload *)
Record ChatCompletionsPayload := mkPayload {
  pl_raw : Value;
  pl_model : option string;
  pl_messages : list ChatMessageTextRef;
  pl_has_non_text : bool;
  pl_tools : option Value;
  pl_completion_tokens : option Z
}.

(* src: ai-gateway/src/middleware/large_context/parse.rs:21-27 trimmed_string *)
Definition trimmed_string (v : Value) : option string :=
  match v with Str s => if is_empty (trim s) then None else Some (trim s) | _ => None end.

(* src: ai-gateway/src/middleware/large_context/parse.rs:29-38 completion_budget_from_object *)
Definition completion_budget_from_object (f : list (string * Value)) : option Z :=
  head (omap (λ key, v ← assoc key f; n ← as_u64 v; if (n <=? u32_max)%Z then Some n else None)
          ["max_completion_tokens"; "max_tokens"; "max_output_tokens"]).

(** The loop over the messages: the texts with their places, and whether some
    content is not text. *)
Fixpoint parse_messages (index : nat) (l : list Value) : list ChatMessageTextRef * bool :=
  match l with
  | [] => ([], false)
  | m :: l =>
      let r := parse_messages (S index) l in
      match m with
      | Object f =>
          match assoc "content" f with
          | Some (Str content) => (mkRef index (assoc "role" f ≫= trimmed_string) content :: r.1, r.2)
          | Some Null | None => r
          | Some _ => (r.1, true)
          end
      | _ => (r.1, true)
      end
  end.

(** [None] is [Ok(None)] as well as an error of the reader: every caller treats
    them alike. *)
(* src: ai-gateway/src/middleware/large_context/parse.rs:40-85 parse_chat_completions_payload *)
Definition parse_chat_completions_payload (from_slice : string → option Value) (body : string) : option ChatCompletionsPayload :=
  raw ← from_slice body;
  f ← as_object raw;
  l ← assoc "messages" f ≫= as_array;
  let r := parse_messages 0 l in
  Some (mkPayload raw (assoc "model" f ≫= trimmed_string) r.1 r.2 (assoc "tools" f) (completion_budget_from_object f)).

(** ** Models *)

(* src: ai-gateway/src/middleware/large_context/heuristics.rs:149-156 extract_fallback_model_candidates *)
Definition extract_fallback_model_candidates (model : string) : list string :=
  List.filter (λ c, negb (is_empty c)) (map trim (split "," model)).

(* src: ai-gateway/src/middleware/large_context/heuristics.rs:139-147 resolve_primary_model *)
Definition resolve_primary_model (body_model header_model_override : option string) : option string :=
  source ← match body_model with Some m => Some m | None => header_model_override end;
  head (extract_fallback_model_candidates source).

(** [s.split_once('/').map_or(s, |(_, suffix)| suffix)] *)
Definition model_suffix (s : string) : string := match split_once "/" s with Some (_, suffix) => suffix | None => s end.

(* src: ai-gateway/src/middleware/large_context/model_limits.rs:17-28 StaticModelContextLimitResolver::resolve *)
Definition resolve_context_limit (model : string) : option Z :=
  let suffix := model_suffix (to_ascii_lowercase (trim model)) in
  if starts_with "gpt-4o-mini" suffix then Some 128000%Z
  else if starts_with "gpt-4o" suffix then Some 128000%Z
  else None.

(* src: ai-gateway/src/middleware/large_context/heuristics.rs:172-179 compute_input_budget_tokens *)
Definition compute_input_budget_tokens (model_context_limit : Z) (requested : option Z) : Z :=
  let reserved := default (Z.max (model_context_limit / 10) 1) requested in
  Z.max 0 (model_context_limit - reserved).

(** ** Estimates *)

(* src: ai-gateway/src/middleware/large_context/input_token_estimate/profile.rs:9-22 EstimateProfile *)
Inductive EstimateProfile := OpenAiCompatibleProfile | GeminiText | AnthropicMessages | BedrockMultiFoundation | HeuristicDefault.

(* src: ai-gateway/src/middleware/large_context/input_token_estimate/profile.rs:66-80 is_openai_compatible_code *)
Definition is_openai_compatible_code (code : string) : bool :=
  existsb (eq_ignore_ascii_case (trim code))
    ["openai"; "azure"; "deepseek"; "mistral"; "groq"; "moonshotai"; "qwen"; "minimax"; "xai"; "openrouter"; "nvidia"; "hyperbolic"].

(* src: ai-gateway/src/middleware/large_context/input_token_estimate/profile.rs:45-61 profile_for_inference_provider *)
Definition profile_for_inference_provider (p : InferenceProvider) : EstimateProfile :=
  match p with
  | OpenAI | Custom => OpenAiCompatibleProfile
  | Anthropic => AnthropicMessages
  | GoogleGemini => GeminiText
  | Bedrock => BedrockMultiFoundation
  | Ollama => HeuristicDefault
  | Named name => if is_openai_compatible_code name then OpenAiCompatibleProfile else HeuristicDefault
  end.

(* src: ai-gateway/src/middleware/large_context/input_token_estimate/profile.rs:37-43 profile_from_model_id *)
Definition profile_from_model_id {Date} (m : ModelId Date) : EstimateProfile :=
  match m with
  | WithVersion p _ => profile_for_inference_provider p
  | BedrockId _ => BedrockMultiFoundation
  | OllamaId _ | Unknown _ => HeuristicDefault
  end.

(** The code points of a text: the bytes that start them with what follows.  The
    ranges of [char_is_cjk_related_dense], on the first bytes of their UTF-8
    form: U+3000 to U+303F, kana, extension A, the unified ideographs and the
    full-width forms. *)
(* src: ai-gateway/src/middleware/large_context/input_token_estimate/heuristic_layer_d.rs:19-29 char_is_cjk_related_dense *)
Definition char_is_cjk_related_dense (s : string) : bool :=
  match s with
  | String a (String b (String c _)) =>
      let cp := ((byte_of a - 224) * 4096 + (byte_of b - 128) * 64 + (byte_of c - 128))%Z in
      byte_in 224 239 a && is_continuation b && is_continuation c &&
      ((0x4e00 <=? cp)%Z && (cp <=? 0x9fff)%Z || (0x3400 <=? cp)%Z && (cp <=? 0x4dbf)%Z || (0x3000 <=? cp)%Z && (cp <=? 0x303f)%Z
       || (0xff00 <=? cp)%Z && (cp <=? 0xffef)%Z || (0x3040 <=? cp)%Z && (cp <=? 0x309f)%Z || (0x30a0 <=? cp)%Z && (cp <=? 0x30ff)%Z)
  | _ => false
  end.

Fixpoint count_cjk (s : string) : nat :=
  match s with
  | EmptyString => 0
  | String _ s' => ((if char_is_cjk_related_dense s then 1 else 0) + count_cjk s')%nat
  end.

(** 0.25 and 0.55 as [f64]. *)
Definition TOKENS_PER_CHAR_BASE : f64 := f64_div (f64_of_Z 1) (f64_of_Z 4).
Definition TOKENS_PER_CHAR_CJK_EXTRA : f64 := f64_div (f64_of_Z 55) (f64_of_Z 100).

(** [x.ceil() as u32] of a number that is not negative. *)
Definition f64_ceil_u32 (a : f64) : Z :=
  match a with
  | S754_finite false m e =>
      Z.min u32_max (if (0 <=? e)%Z then Z.pos m * 2 ^ e else (Z.pos m + 2 ^ (- e) - 1) / 2 ^ (- e))%Z
  | S754_infinity false => u32_max
  | _ => 0%Z
  end.

Section estimate.
(** [Value::to_string]; the tokenizer: whether it knows a model, its count for
    messages of a role and a content ([None] when it does not support the
    model) and for a text; and what the reader of model names needs. *)
Context (to_string : Value → string).
Context (knows_model : string → bool) (num_tokens_from_messages : string → list (string * string) → option Z)
        (bpe_count : string → option (string → Z)).
Context {Date : Type} (parse_from_str : string → string → option Date) (year : string).

(** The counts of the [u32] and [usize] kinds saturate far above any text. *)
(* src: ai-gateway/src/middleware/large_context/input_token_estimate/heuristic_layer_d.rs:39-78 estimate_heuristic_layer_d *)
Definition estimate_heuristic_layer_d (p : ChatCompletionsPayload) : option Z :=
  if pl_has_non_text p then None
  else
    let texts := (map (λ m, normalize_text (m_content m)) (pl_messages p) ++
                  match pl_tools p with Some t => [to_string t] | None => [] end)%list in
    let total_chars := sum_list (map count_chars texts) in
    let cjk_chars := sum_list (map count_cjk texts) in
    let cjk_ratio := if Nat.eqb total_chars 0 then f64_of_Z 0
                     else f64_div (f64_of_Z (Z.of_nat cjk_chars)) (f64_of_Z (Z.of_nat total_chars)) in
    let effective := f64_add TOKENS_PER_CHAR_BASE (f64_mul TOKENS_PER_CHAR_CJK_EXTRA cjk_ratio) in
    let base_tokens := f64_ceil_u32 (f64_mul (f64_of_Z (Z.of_nat total_chars)) effective) in
    let structure := ((Z.of_nat (length (pl_messages p)) * 4) mod (u32_max + 1))%Z in
    Some (Z.min u32_max (base_tokens + structure)).

(* src: ai-gateway/src/middleware/large_context/input_token_estimate/openai_tiktoken.rs:49-54 openai_model_suffix *)
Definition openai_model_suffix (primary_model : string) : string :=
  match head (split "," (model_suffix primary_model)) with Some s => trim s | None => model_suffix primary_model end.

(* src: ai-gateway/src/middleware/large_context/input_token_estimate/openai_tiktoken.rs:18-44 chat_tokens_cookbook_fallback *)
Definition chat_tokens_cookbook_fallback (model : string) (messages : list (string * string)) : option Z :=
  count ← bpe_count model;
  let tokens_per_message := (if String.eqb model "gpt-3.5-turbo-0301" then 4 else 3)%Z in
  Some (Z.max 0 (foldl (λ n m, n + tokens_per_message + count m.1 + count m.2)%Z 0%Z messages + 3)).

(* src: ai-gateway/src/middleware/large_context/input_token_estimate/openai_tiktoken.rs:59-88 count_tokens_openai_profile *)
Definition count_tokens_openai_profile (p : ChatCompletionsPayload) (primary_model : string) : option Z :=
  let model := openai_model_suffix primary_model in
  if negb (knows_model model) then None
  else
    let messages := map (λ m, (default "user" (m_role m), m_content m)) (pl_messages p) in
    n ← match num_tokens_from_messages model messages with
        | Some n => Some n
        | None => chat_tokens_cookbook_fallback model messages
        end;
    n ← match pl_tools p with
        | Some tools => count ← bpe_count model; Some (Z.min u64_max (n + count (to_string tools)))
        | None => Some n
        end;
    if (n <=? u32_max)%Z then Some n else None.

(* src: ai-gateway/src/middleware/large_context/input_token_estimate/bedrock.rs:11-26 refine_bedrock_profile *)
Definition refine_bedrock_profile (primary_model : string) : EstimateProfile :=
  match bedrock_from_str parse_from_str year (model_suffix primary_model) with
  | Err _ => HeuristicDefault
  | Ok id =>
      if eq_ignore_ascii_case (b_provider id) "anthropic" then AnthropicMessages
      else if existsb (String.eqb (to_ascii_lowercase (b_provider id))) ["meta"; "mistral"; "ai21"; "amazon"]
      then OpenAiCompatibleProfile
      else HeuristicDefault
  end.

(* src: ai-gateway/src/middleware/large_context/input_token_estimate/profile.rs:25-35 resolve_profile *)
Definition resolve_profile (provider_hint : option InferenceProvider) (primary_model : string) : EstimateProfile :=
  match provider_hint with
  | Some p => profile_for_inference_provider p
  | None =>
      match model_id_from_str parse_from_str year primary_model with
      | Ok m => profile_from_model_id m
      | Err _ => HeuristicDefault
      end
  end.

(* src: ai-gateway/src/middleware/large_context/input_token_estimate/mod.rs:24-56 estimate_chat_completion_input_tokens *)
Definition estimate_input_tokens (p : ChatCompletionsPayload) (primary_model : string) (provider_hint : option InferenceProvider)
  : option Z :=
  if pl_has_non_text p then None
  else
    let profile := match resolve_profile provider_hint primary_model with
                   | BedrockMultiFoundation => refine_bedrock_profile primary_model
                   | q => q
                   end in
    match profile with
    | OpenAiCompatibleProfile =>
        match count_tokens_openai_profile p primary_model, estimate_heuristic_layer_d p with
        | Some t, Some h => Some (Z.max t h)
        | Some t, None => Some t
        | None, h => h
        end
    | _ => estimate_heuristic_layer_d p
    end.
End estimate.

(** ** Shortening *)

(** [f32], as the standard library's floats with 24 bits. *)
Definition f32_of_Z (n : Z) : spec_float := binary_normalize 24 128 n 0 false.
Definition f32_div (a b : spec_float) : spec_float := SFdiv 24 128 a b.
Definition f32_mul (a b : spec_float) : spec_float := SFmul 24 128 a b.

(** 0.25, 0.20 and 0.90 rounded to [f32]. *)
Definition DEFAULT_TOKENS_PER_CHAR : spec_float := f32_div (f32_of_Z 1) (f32_of_Z 4).
Definition GPT_35_TOKENS_PER_CHAR : spec_float := f32_div (f32_of_Z 1) (f32_of_Z 5).
Definition TRUNCATE_CHAR_RATIO : spec_float := f32_div (f32_of_Z 9) (f32_of_Z 10).
Definition ELLIPSIS : string := "...".

(* src: ai-gateway/src/middleware/large_context/heuristics.rs:11-21 tokens_per_char *)
Definition tokens_per_char (model : string) : spec_float :=
  if starts_with "gpt-3.5-turbo" (model_suffix (to_ascii_lowercase (trim model))) then GPT_35_TOKENS_PER_CHAR
  else DEFAULT_TOKENS_PER_CHAR.

(** [x.floor() as usize] of a number that is not negative. *)
Definition f32_floor_usize (a : spec_float) : nat := Z.to_nat (f64_as_u64 a).

(* src: ai-gateway/src/middleware/large_context/heuristics.rs:44-47 budget_chars *)
Definition budget_chars (input_budget_tokens : Z) (primary_model : string) : nat :=
  f32_floor_usize (f32_mul (f32_div (f32_of_Z input_budget_tokens) (tokens_per_char primary_model)) TRUNCATE_CHAR_RATIO).

Definition text_chars (m : ChatMessageTextRef) : nat := count_chars (normalize_text (m_content m)).

(* src: ai-gateway/src/middleware/large_context/heuristics.rs:36-42 total_message_chars *)
Definition total_message_chars (p : ChatCompletionsPayload) : nat := sum_list (map text_chars (pl_messages p)).

(** The loop of [proportional_char_budgets].  [saturating_mul] does not saturate
    for texts that fit in memory. *)
Fixpoint split_budget (remaining_chars remaining_source_chars : nat) (messages : list ChatMessageTextRef) : list nat :=
  match messages with
  | [] => []
  | m :: rest =>
      let message_budget :=
        match rest with
        | [] => remaining_chars
        | _ => if Nat.eqb remaining_source_chars 0 then 0
               else (text_chars m * remaining_chars / remaining_source_chars)%nat
        end in
      message_budget :: split_budget (remaining_chars - message_budget) (remaining_source_chars - text_chars m) rest
  end.

(* src: ai-gateway/src/middleware/large_context/heuristics.rs:49-77 proportional_char_budgets *)
Definition proportional_char_budgets (p : ChatCompletionsPayload) (total_budget_chars : nat) : list nat :=
  let total_chars := total_message_chars p in
  if Nat.eqb total_chars 0 || Nat.eqb total_budget_chars 0 then map (λ _, 0%nat) (pl_messages p)
  else split_budget total_budget_chars total_chars (pl_messages p).

(** The place of the last white-space character. *)
Fixpoint last_whitespace (i : nat) (s : string) : option nat :=
  match s with
  | EmptyString => None
  | String _ s' =>
      match last_whitespace (S i) s' with
      | Some j => Some j
      | None => if Nat.eqb (ws_prefix_len s) 0 then None else Some i
      end
  end.

(* src: ai-gateway/src/middleware/large_context/heuristics.rs:79-108 truncate_text_to_limit *)
Definition truncate_text_to_limit (text : string) (max_chars : nat) : string :=
  let normalized := normalize_text text in
  if Nat.eqb max_chars 0 then ""
  else if (count_chars normalized <=? max_chars)%nat then normalized
  else if (max_chars <=? len ELLIPSIS)%nat then take_chars max_chars normalized
  else
    let raw_limit := (max_chars - len ELLIPSIS)%nat in
    let candidate := take_chars raw_limit normalized in
    let cut := match last_whitespace 0 candidate with
               | Some i => if (raw_limit - 32 <=? i)%nat then i else len candidate
               | None => len candidate
               end in
    let trimmed := trim_end (str_take cut candidate) in
    (if is_empty trimmed then candidate else trimmed) ++ ELLIPSIS.

(** The last [n] code points: [chars().rev().take(n)] put in order again. *)
Fixpoint last_chars (n : nat) (s : string) : string :=
  match s with
  | EmptyString => ""
  | String c s' => if negb (is_continuation c) && (count_chars s <=? n)%nat then s else last_chars n s'
  end.

(* src: ai-gateway/src/middleware/large_context/heuristics.rs:110-136 middle_out_text_to_limit *)
Definition middle_out_text_to_limit (text : string) (max_chars : nat) : string :=
  let normalized := normalize_text text in
  if Nat.eqb max_chars 0 then ""
  else if (count_chars normalized <=? max_chars)%nat then normalized
  else if (max_chars <=? len ELLIPSIS + 2)%nat then take_chars max_chars normalized
  else
    let visible_chars := (max_chars - len ELLIPSIS)%nat in
    let head_chars := ((visible_chars + 1) / 2)%nat in
    let tail_chars := (visible_chars / 2)%nat in
    take_chars head_chars normalized ++ ELLIPSIS ++ last_chars tail_chars normalized.

(* src: ai-gateway/src/middleware/large_context/heuristics.rs:28-34 value_with_model *)
Definition value_with_model (raw : Value) (model : string) : Value := set_field "model" (Str model) raw.

(** The texts of the messages replaced, each by its shortened form. *)
Definition put_texts (shorten : string → nat → string) (p : ChatCompletionsPayload) (budgets : list nat) (l : list Value) : list Value :=
  foldl (λ l e, alter (set_field "content" (Str (shorten (m_content e.1) e.2))) (m_index e.1) l) l (zip (pl_messages p) budgets).

(** [apply_truncate] and [apply_middle_out] are this function with their ways
    of shortening. *)
Definition shorten_messages (shorten : string → nat → string) (p : ChatCompletionsPayload) (primary_model : string)
    (input_budget_tokens : Z) : option Value :=
  if pl_has_non_text p || Nat.eqb (length (pl_messages p)) 0 then None
  else
    let total_budget_chars := budget_chars input_budget_tokens primary_model in
    if Nat.eqb total_budget_chars 0 then None
    else if (total_message_chars p <=? total_budget_chars)%nat then None
    else
      let cloned := value_with_model (pl_raw p) primary_model in
      l ← get "messages" cloned ≫= as_array;
      Some (set_field "messages" (Array (put_texts shorten p (proportional_char_budgets p total_budget_chars) l)) cloned).

(* src: ai-gateway/src/middleware/large_context/heuristics.rs:181-210 apply_truncate *)
Definition apply_truncate := shorten_messages truncate_text_to_limit.

(* src: ai-gateway/src/middleware/large_context/heuristics.rs:212-241 apply_middle_out *)
Definition apply_middle_out := shorten_messages middle_out_text_to_limit.

(* src: ai-gateway/src/middleware/large_context/heuristics.rs:244-262 apply_fallback *)
Definition apply_fallback (p : ChatCompletionsPayload) (model_source : string) (estimated budget : option Z) : option Value :=
  fallback_model ← extract_fallback_model_candidates model_source !! 1%nat;
  let over := match estimated, budget with Some e, Some b => (b <=? e)%Z | _, _ => true end in
  if over then Some (value_with_model (pl_raw p) fallback_model) else None.

(** ** The transformation *)

(* src: ai-gateway/src/types/extensions.rs:229-240 LargeContextAction *)
Inductive LargeContextAction :=
| SkippedNoModel | SkippedNoTextMessages | SkippedNonTextMessages | SkippedNoEstimate | SkippedBelowLimit
| SkippedNoModelLimit | SkippedNoFallbackModel | Truncated | MiddleOutApplied | FallbackApplied.

(* src: ai-gateway/src/types/extensions.rs:261-269 LargeContextDecision *)
Record LargeContextDecision := mkLcDecision {
  ld_handler : TokenLimitExceptionHandler;
  ld_action : LargeContextAction;
  ld_original_model : option string;
  ld_effective_model : option string;
  ld_estimated_input_tokens : option Z;
  ld_model_context_limit : option Z;
  ld_input_budget_tokens : option Z
}.

Definition option_or {A} (a b : option A) : option A := match a with Some _ => a | None => b end.

(** The branches for [Truncate] and [MiddleOut], which differ in the function
    and the action. *)
Definition shorten_branch (shorten : ChatCompletionsPayload → string → Z → option Value) (done : LargeContextAction)
    (p : ChatCompletionsPayload) (primary_model : string) (limit estimated budget : option Z) (normalized : option Value)
  : LargeContextAction * option Value :=
  match pl_messages p with
  | [] => (SkippedNoTextMessages, normalized)
  | _ =>
      if pl_has_non_text p then (SkippedNonTextMessages, normalized)
      else
        match limit, estimated, budget with
        | None, _, _ => (SkippedNoModelLimit, normalized)
        | Some _, None, _ => (SkippedNoEstimate, normalized)
        | Some _, Some e, Some b =>
            if (e <? b)%Z then (SkippedBelowLimit, normalized)
            else match shorten p primary_model b with
                 | Some v => (done, Some v)
                 | None => (SkippedNoTextMessages, normalized)
                 end
        | Some _, Some _, None => (SkippedNoModelLimit, normalized)
        end
  end.

Section transform.
Context (from_slice : string → option Value) (to_vec : Value → string).
(** The estimate of the section above. *)
Context (estimate : ChatCompletionsPayload → string → option InferenceProvider → option Z).

(* src: ai-gateway/src/middleware/large_context/mod.rs:38-217 maybe_transform_unified_api_chat_request *)
Definition maybe_transform_unified_api_chat_request (h : HeaderMap) (body : string)
  : result (string * option LargeContextDecision) LargeContextError :=
  let? headers := parse_large_context_headers h in
  match lc_handler headers with
  | None => Ok (body, None)
  | Some handler =>
      match parse_chat_completions_payload from_slice body with
      | None => Ok (body, None)
      | Some p =>
          let model_source := option_or (pl_model p) (lc_model_override headers) in
          match resolve_primary_model (pl_model p) (lc_model_override headers) with
          | None => Ok (body, Some (mkLcDecision handler SkippedNoModel model_source None None None None))
          | Some primary_model =>
              let limit := resolve_context_limit primary_model in
              let estimated := estimate p primary_model None in
              let budget := (λ l, compute_input_budget_tokens l (pl_completion_tokens p)) <$> limit in
              let normalized := if bool_decide (pl_model p = Some primary_model) then None
                                else Some (value_with_model (pl_raw p) primary_model) in
              let r :=
                match handler with
                | HandlerFallback =>
                    let transformed := s ← model_source; apply_fallback p s estimated budget in
                    let action :=
                      match transformed with
                      | Some _ => FallbackApplied
                      | None =>
                          if match model_source with
                             | Some s => (length (extract_fallback_model_candidates s) <? 2)%nat
                             | None => false
                             end
                          then SkippedNoFallbackModel else SkippedBelowLimit
                      end in
                    (action, option_or transformed normalized)
                | Truncate => shorten_branch apply_truncate Truncated p primary_model limit estimated budget normalized
                | MiddleOut => shorten_branch apply_middle_out MiddleOutApplied p primary_model limit estimated budget normalized
                end in
              let effective := option_or (v ← r.2; m ← get "model" v; as_str m) (Some primary_model) in
              let decision := mkLcDecision handler r.1 model_source effective estimated limit budget in
              Ok (match r.2 with Some v => to_vec v | None => body end, Some decision)
          end
      end
  end.

(** ** Compression *)

(* src: ai-gateway/src/types/extensions.rs:274-277 PromptCompressionTokenPair *)
Record PromptCompressionTokenPair := mkTokenPair { origin_prompt_token : Z; compression_prompt_token : Z }.

Definition normalize_content (m : Value) : Value :=
  match get "content" m with Some (Str t) => set_field "content" (Str (normalize_text t)) m | _ => m end.

(* src: ai-gateway/src/middleware/prompt_compression/mod.rs:15-38 patch_messages_whitespace *)
Definition patch_messages_whitespace (raw : Value) (p : ChatCompletionsPayload) : Value :=
  match get "messages" raw with
  | Some (Array l) =>
      set_field "messages" (Array (foldl (λ l m, alter normalize_content (m_index m) l) l (pl_messages p))) raw
  | _ => raw
  end.

(* src: ai-gateway/src/middleware/prompt_compression/mod.rs:43-83 apply_chat_completions *)
Definition apply_chat_completions (h : HeaderMap) (body : string) (provider : InferenceProvider)
  : result (string * option PromptCompressionTokenPair) LargeContextError :=
  match parse_chat_completions_payload from_slice body with
  | None => Ok (body, None)
  | Some p =>
      let? headers := parse_large_context_headers h in
      match resolve_primary_model (pl_model p) (lc_model_override headers) with
      | None => Ok (body, None)
      | Some primary =>
          if pl_has_non_text p || Nat.eqb (length (pl_messages p)) 0 then Ok (body, None)
          else
            match estimate p primary (Some provider) with
            | None => Ok (body, None)
            | Some before =>
                let after_bytes := to_vec (patch_messages_whitespace (pl_raw p) p) in
                match parse_chat_completions_payload from_slice after_bytes with
                | None => Ok (body, None)
                | Some after_pl =>
                    match estimate after_pl primary (Some provider) with
                    | None => Ok (body, None)
                    | Some after => Ok (after_bytes, Some (mkTokenPair before after))
                    end
                end
            end
      end
  end.
End transform.

(** ** Counting characters *)

Lemma count_chars_take n s : (count_chars (str_take n s) ≤ count_chars s)%nat.
Proof. rw -{2}(str_take_drop n s) count_chars_app. lia. Qed.

Lemma count_chars_trim_end s : (count_chars (trim_end s) ≤ count_chars s)%nat.
Proof. induction s as [|c s IH]; [done|]. cbn [trim_end]. case_match; [simpl; lia|]. cbn [count_chars]. lia. Qed.

Lemma last_chars_count n s : (count_chars (last_chars n s) ≤ n)%nat.
Proof.
  induction s as [|c s IH]; [simpl; lia|]. cbn [last_chars].
  destruct (negb (is_continuation c) && _) eqn:E; [|done]. apply andb_true_iff in E as [_ E]. by apply Nat.leb_le.
Qed.

(** A shortened text has at most the characters it was given. *)
Lemma truncate_within text n : (count_chars (truncate_text_to_limit text n) ≤ n)%nat.
Proof.
  rw /truncate_text_to_limit. set (t := normalize_text text).
  destruct (Nat.eqb_spec n 0) as [->|]; [done|]. destruct (Nat.leb_spec (count_chars t) n); [done|].
  destruct (Nat.leb_spec n (len ELLIPSIS)) as [|Hn]; [apply take_chars_count|]. rw count_chars_app.
  change (len ELLIPSIS) with 3%nat in *. change (count_chars ELLIPSIS) with 3%nat.
  pose proof (take_chars_count (n - 3) t). set (c := take_chars (n - 3) t) in *.
  case_match; [lia|]. etrans; [apply Nat.add_le_mono_r; etrans; [apply count_chars_trim_end|apply count_chars_take]|]. lia.
Qed.

Lemma middle_out_within text n : (count_chars (middle_out_text_to_limit text n) ≤ n)%nat.
Proof.
  rw /middle_out_text_to_limit. set (t := normalize_text text).
  destruct (Nat.eqb_spec n 0) as [->|]; [done|]. destruct (Nat.leb_spec (count_chars t) n); [done|].
  destruct (Nat.leb_spec n (len ELLIPSIS + 2)) as [|Hn]; [apply take_chars_count|]. rw !count_chars_app.
  change (len ELLIPSIS) with 3%nat in *. change (count_chars ELLIPSIS) with 3%nat.
  pose proof (take_chars_count ((n - 3 + 1) / 2) t). pose proof (last_chars_count ((n - 3) / 2) t).
  pose proof (Nat.div_mod (n - 3 + 1) 2 ltac:(lia)). pose proof (Nat.div_mod (n - 3) 2 ltac:(lia)).
  pose proof (Nat.mod_upper_bound (n - 3 + 1) 2 ltac:(lia)). lia.
Qed.

(** ** Budgets *)

Lemma split_budget_length rc rs l : length (split_budget rc rs l) = length l.
Proof. revert rc rs. induction l as [|m l IH]; intros rc rs; [done|]. cbn. f_equal. apply IH. Qed.

Lemma split_budget_cons rc rs m m' l : split_budget rc rs (m :: m' :: l) =
  let b := if Nat.eqb rs 0 then 0%nat else (text_chars m * rc / rs)%nat in
  b :: split_budget (rc - b) (rs - text_chars m) (m' :: l).
Proof. done. Qed.

(** The budgets of the messages use up the whole. *)
Lemma split_budget_sum l : ∀ rc, l ≠ [] → sum_list (split_budget rc (sum_list (map text_chars l)) l) = rc.
Proof.
  induction l as [|m l IH]; intros rc Hl; [done|]. destruct l as [|m' l]; [simpl; lia|].
  set (rest := m' :: l) in *. set (s := sum_list (map text_chars rest)) in *.
  change (map text_chars (m :: rest)) with (text_chars m :: map text_chars rest).
  change (sum_list (text_chars m :: map text_chars rest)) with (text_chars m + s)%nat.
  rw /rest split_budget_cons -/rest.
  replace (text_chars m + s - text_chars m)%nat with s by lia.
  cbv zeta. set (b := if Nat.eqb (text_chars m + s) 0 then 0%nat else _). cbn [sum_list]. rw IH //.
  assert (b ≤ rc)%nat; [|simpl; lia]. rw /b.
  destruct (Nat.eqb_spec (text_chars m + s) 0); [lia|]. apply Nat.Div0.div_le_upper_bound. nia.
Qed.

Lemma budgets_sum p n : (sum_list (proportional_char_budgets p n) ≤ n)%nat.
Proof.
  rw /proportional_char_budgets. destruct (_ || _) eqn:E.
  - assert (∀ l : list ChatMessageTextRef, sum_list (map (λ _, 0%nat) l) = 0%nat) as ->; [|lia]. by induction l.
  - destruct (pl_messages p) as [|m l] eqn:Em; [simpl; lia|]. rw /total_message_chars Em split_budget_sum; [lia|done].
Qed.

Lemma budgets_length p n : length (proportional_char_budgets p n) = length (pl_messages p).
Proof. rw /proportional_char_budgets. case_match; [by rw length_map|apply split_budget_length]. Qed.

(** ** Shortened requests *)

(** The characters of a message's text, and of a list of messages. *)
Definition raw_chars (m : Value) : nat := match get "content" m with Some (Str t) => count_chars t | _ => 0 end.
Definition array_chars (l : list Value) : nat := sum_list (map raw_chars l).

(** A message with another content. *)
Definition only_content_changed (m m' : Value) : Prop := ∀ key, "content" ≠ key → get key m' = get key m.

Section shortened.
Context (shorten : string → nat → string).

Abbreviation upd := (λ l (e : ChatMessageTextRef * nat), alter (set_field "content" (Str (shorten (m_content e.1) e.2))) (m_index e.1) l).

Lemma put_texts_spec (Hs : ∀ t n, (count_chars (shorten t n) ≤ n)%nat) l : ∀ pre bs,
  length bs = length (parse_messages (length pre) l).1 → (parse_messages (length pre) l).2 = false →
  ∃ l', foldl upd (pre ++ l)%list (zip (parse_messages (length pre) l).1 bs) = (pre ++ l')%list ∧
    Forall2 only_content_changed l l' ∧ (array_chars l' ≤ sum_list bs)%nat.
Proof.
  induction l as [|m l IH]; intros pre bs Hb Hn.
  { exists []. destruct bs; [|done]. split_and!; [by rw /=|done|done]. }
  assert (IH' : ∀ m bs, length bs = length (parse_messages (S (length pre)) l).1 → (parse_messages (S (length pre)) l).2 = false →
    ∃ l', foldl upd (pre ++ m :: l)%list (zip (parse_messages (S (length pre)) l).1 bs) = (pre ++ m :: l')%list ∧
      Forall2 only_content_changed l l' ∧ (array_chars l' ≤ sum_list bs)%nat).
  { intros m' bs' H1 H2. destruct (IH (pre ++ [m'])%list bs') as (l' & H); rw ?length_app ?Nat.add_1_r //.
    exists l'. by rw length_app Nat.add_1_r -!app_assoc /= in H. }
  clear IH. simpl in Hb, Hn |- *. destruct m as [| | | | |f]; try done.
  destruct (assoc "content" f) as [[| | |t| |]|] eqn:Ec; try done.
  1,3: destruct (IH' (Object f) bs Hb Hn) as (l' & H1 & H2 & H3); exists (Object f :: l'); rw H1;
       (split_and!; [done|by constructor|]); rw /array_chars /= /raw_chars /= Ec; exact H3.
  destruct bs as [|b bs]; [done|]. simpl in Hb, Hn |- *.
  rw -{1}(Nat.add_0_r (length pre)) alter_app_r /=.
  destruct (IH' (Object (assoc_set "content" (Str (shorten t b)) f)) bs) as (l' & H1 & H2 & H3); [lia|done|].
  eexists. split; [exact H1|]. split.
  - constructor; [|done]. intros key Hk. apply assoc_set_ne. done.
  - rw /array_chars /=. rw {1}/raw_chars /= assoc_set_eq. specialize (Hs t b). unfold array_chars in H3. lia.
Qed.
End shortened.

(** The two ways of shortening a request. *)
Lemma shortened_request shorten from_slice body p model tokens v :
  (∀ t n, (count_chars (shorten t n) ≤ n)%nat) →
  parse_chat_completions_payload from_slice body = Some p →
  shorten_messages shorten p model tokens = Some v →
  ∃ f l l', from_slice body = Some (Object f) ∧ assoc "messages" f = Some (Array l) ∧
    get "messages" v = Some (Array l') ∧ Forall2 only_content_changed l l' ∧
    (array_chars l' ≤ budget_chars tokens model)%nat ∧ get "model" v = Some (Str model) ∧
    ∀ key, key ∉ ["messages"; "model"] → get key v = assoc key f.
Proof.
  intros Hs. rw /parse_chat_completions_payload. destruct (from_slice body) as [[| | | | |f]|]; try done. simpl.
  destruct (assoc "messages" f) as [[| | | |l|]|] eqn:El; try done. simpl. intros [= <-].
  rw /shorten_messages /=. destruct (parse_messages 0 l).2 eqn:En; [done|]. simpl.
  case_match; [done|]. case_match; [done|]. case_match; [done|].
  rw assoc_set_ne // El /=. intros [= <-].
  destruct (put_texts_spec shorten Hs l [] (proportional_char_budgets (mkPayload (Object f) (assoc "model" f ≫= trimmed_string)
    (parse_messages 0 l).1 (parse_messages 0 l).2 (assoc "tools" f) (completion_budget_from_object f)) (budget_chars tokens model)))
    as (l' & Ha & Hb & Hc); [by rw budgets_length|done|].
  exists f, l, l'. split_and!; [done..| |done| | |].
  - simpl. rw assoc_set_eq. do 2 f_equal. rw -En. exact Ha.
  - etrans; [exact Hc|apply budgets_sum].
  - simpl. rw assoc_set_ne // assoc_set_eq. done.
  - intros key Hk. simpl. rw !assoc_set_ne; [done|set_solver..].
Qed.

(** ** White space once more *)

(** What [ws_prefix_len] answers depends on the character it finds only. *)
Lemma ws_prefix_local x y z k : ws_prefix_len (x ++ y) = S k → (S k ≤ len x)%nat → ws_prefix_len (x ++ z) = S k.
Proof.
  destruct x as [|a [|b [|c x]]]; simpl; [lia|..].
  all: repeat (case_match; try done); intros; simplify_eq; try lia.
Qed.

(** A text that ends here or goes on after a space. *)
Definition stops (z : string) : Prop := z = "" ∨ ∃ z', z = String " " z'.

Lemma ws_prefix_stops x z k : stops z → x ≠ "" → ws_prefix_len (x ++ z) = S k → (S k ≤ len x)%nat.
Proof.
  intros [->|[z' ->]]; destruct x as [|a [|b [|c x]]]; try done; intros _; cbn -[Z.leb Z.eqb].
  all: repeat (case_match; try done); intros; simplify_eq; simpl; try lia.
  all: exfalso; change (byte_of " "%char) with 32%Z in *; lia.
Qed.

Lemma snoc_suffix c a x : x ≠ "" → ∀ cur, cur ++ String c "" = a ++ x → ∃ y, x = y ++ String c "" ∧ cur = a ++ y.
Proof.
  intros Hx. induction a as [|d a IH]; intros cur H; [by exists cur|].
  destruct cur as [|e cur]; simplify_eq/=; [by destruct a, x|]. destruct (IH cur) as (y & -> & ->); [done|]. by exists y.
Qed.

(** A word: no white space starts in it, whatever follows. *)
Definition is_word (w : string) : Prop := w ≠ "" ∧ ∀ a x z, w = a ++ x → x ≠ "" → stops z → ws_prefix_len (x ++ z) = 0%nat.

Lemma words_of_word w z : stops z → (∀ a x, w = a ++ x → x ≠ "" → ws_prefix_len (x ++ z) = 0%nat) →
  ∀ cur, words_from cur 0 (w ++ z) = words_from (cur ++ w) 0 z.
Proof.
  intros Hz. induction w as [|c w IH]; intros Hw cur; [by rw str_app_nil_r|].
  change (String c w ++ z) with (String c (w ++ z)). cbn [words_from].
  rw (Hw "" (String c w)) //. rw IH.
  - by rw str_app_assoc.
  - intros a x -> Hx. by apply (Hw (String c a)).
Qed.

Lemma words_of_join ws : Forall is_word ws → split_whitespace (str_join " " ws) = ws.
Proof.
  rw /split_whitespace. induction 1 as [|w ws [Hne Hw] Hws IH]; [done|].
  destruct ws as [|w' ws].
  - simpl. rw -{1}(str_app_nil_r w) words_of_word; [by destruct w|by left|]. intros a x Ha Hx. by apply (Hw a); [..|left].
  - change (str_join " " (w :: w' :: ws)) with (w ++ String " " (str_join " " (w' :: ws))).
    assert (Hs : stops (String " " (str_join " " (w' :: ws)))) by (right; eauto).
    rw words_of_word //; [|intros a x Ha Hx; by apply (Hw a)]. 
    rw {1}/words_from -/words_from /=. destruct w; [done|]. simpl. f_equal. exact IH.
Qed.

Lemma words_are_words s : ∀ cur skip, (skip ≠ 0%nat → cur = "") →
  (∀ a x, cur = a ++ x → x ≠ "" → ws_prefix_len (x ++ s) = 0%nat) → Forall is_word (words_from cur skip s).
Proof.
  assert (Hend : ∀ cur s, (∀ a x, cur = a ++ x → x ≠ "" → ws_prefix_len (x ++ s) = 0%nat) →
    Forall is_word (if is_empty cur then [] else [cur])).
  { intros cur t H. destruct (is_empty cur) eqn:E; [done|]. constructor; [|done]. split; [by intros ->|].
    intros a x z Ha Hx Hz. destruct (ws_prefix_len (x ++ z)) as [|k] eqn:Ek; [done|].
    pose proof (ws_prefix_stops x z k Hz Hx Ek) as Hk.
    pose proof (ws_prefix_local x z t k Ek Hk) as Hl. by rw (H a x Ha Hx) in Hl. }
  induction s as [|c s IH]; intros cur skip Hk Hc; [by eapply Hend|].
  cbn [words_from]. destruct skip as [|k].
  - destruct (ws_prefix_len (String c s)) as [|k] eqn:E.
    + apply IH; [done|]. intros a x Ha Hx.
      destruct (snoc_suffix c a x Hx cur Ha) as (y & -> & ->). rw str_app_assoc.
      destruct y; [done|]. by apply (Hc a).
    + apply Forall_app. split; [by eapply Hend|]. apply IH; [done|]. intros a x Ha. by destruct a, x.
  - rw (Hk) //. apply IH; [done|]. intros a x Ha. by destruct a, x.
Qed.

(** Compressing a text a second time changes nothing. *)
Theorem compression_is_idempotent t : normalize_text (normalize_text t) = normalize_text t.
Proof. rw {1}/normalize_text words_of_join //. apply words_are_words; [done|]. intros a x Ha. by destruct a, x. Qed.

(** ** Theorems *)

Lemma shorten_branch_done shorten action p model limit estimated budget normalized :
  let r := shorten_branch shorten action p model limit estimated budget normalized in
  r.1 ∈ [Truncated; MiddleOutApplied] → ∃ w b, r.2 = Some w ∧ budget = Some b ∧ shorten p model b = Some w.
Proof.
  rw /shorten_branch. destruct (pl_messages p); [set_solver|]. case_match; [set_solver|].
  destruct limit, estimated, budget as [b|]; try set_solver.
  case_match; [set_solver|]. destruct (shorten p model b) as [w|] eqn:E; [eauto|set_solver].
Qed.

(** C30 (bounds). A request that was shortened fits its budget: the texts of its
    messages have together at most the characters that the budget of input
    tokens stands for.  No message is lost or reordered, only contents are
    changed, and apart from the messages only the model is set. *)
Theorem shortened_request_fits from_slice to_vec estimate h body body' d :
  maybe_transform_unified_api_chat_request from_slice to_vec estimate h body = Ok (body', Some d) →
  ld_action d ∈ [Truncated; MiddleOutApplied] →
  ∃ f l v l' model tokens,
    from_slice body = Some (Object f) ∧ assoc "messages" f = Some (Array l) ∧
    body' = to_vec v ∧ get "messages" v = Some (Array l') ∧
    ld_input_budget_tokens d = Some tokens ∧ ld_effective_model d = Some model ∧ get "model" v = Some (Str model) ∧
    (array_chars l' ≤ budget_chars tokens model)%nat ∧ Forall2 only_content_changed l l' ∧
    ∀ key, key ∉ ["messages"; "model"] → get key v = assoc key f.
Proof.
  rw /maybe_transform_unified_api_chat_request.
  destruct (parse_large_context_headers h) as [hs|]; [|done]. simpl.
  destruct (lc_handler hs) as [handler|]; [|done].
  destruct (parse_chat_completions_payload from_slice body) as [p|] eqn:Ep; [|done].
  destruct (resolve_primary_model _ _) as [model|] eqn:Em; [|intros [= <- <-]; simpl; set_solver].
  set (limit := resolve_context_limit model). set (est := estimate p model None).
  set (budget := _ <$> limit). set (norm := if bool_decide _ then None else _).
  set (r := match handler with Truncate => _ | MiddleOut => _ | HandlerFallback => _ end).
  intros [= <- <-] Ha. simpl in Ha.
  assert (Hs : ∃ shorten w b, (∀ t n, (count_chars (shorten t n) ≤ n)%nat) ∧ r.2 = Some w ∧ budget = Some b ∧
                 shorten_messages shorten p model b = Some w).
  { destruct handler; simpl in r.
    - exists truncate_text_to_limit. apply shorten_branch_done in Ha as (w & b & H). eauto using truncate_within.
    - exists middle_out_text_to_limit. apply shorten_branch_done in Ha as (w & b & H). eauto using middle_out_within.
    - exfalso. revert Ha. rw /r /=. repeat case_match; set_solver. }
  destruct Hs as (shorten & w & b & Hw & Hr2 & Hb & Hsh).
  destruct (shortened_request _ _ _ _ _ _ _ Hw Ep Hsh) as (f & l & l' & H1 & H2 & H3 & H4 & H5 & H6 & H7).
  exists f, l, w, l', model, b. rw Hr2 /= H6 /=. split_and!; done.
Qed.

(** A text that counts more than 0.28 tokens to the character can be over its
    budget of tokens and within the budget of characters: it is recognised as
    too long and then left alone, with the remark that it has no text. *)
Theorem dense_request_is_not_shortened p model l e b normalized :
  pl_messages p ≠ [] → pl_has_non_text p = false → (b ≤ e)%Z → (total_message_chars p ≤ budget_chars b model)%nat →
  shorten_branch apply_truncate Truncated p model (Some l) (Some e) (Some b) normalized = (SkippedNoTextMessages, normalized).
Proof.
  intros Hm Hn He Hc. rw /shorten_branch. destruct (pl_messages p) eqn:Em; [done|]. rw Hn.
  rw (proj2 (Z.ltb_ge e b) He). rw /apply_truncate /shorten_messages Hn Em /=.
  rw (proj2 (Nat.leb_le _ _) Hc). by destruct (Nat.eqb _ 0).
Qed.

(** A fallback is taken only for a request that is over its budget, or whose
    budget or size is not known, and the fallback is the client's second
    choice. *)
Theorem fallback_is_the_second_choice p source e b v : apply_fallback p source e b = Some v →
  ∃ model, extract_fallback_model_candidates source !! 1%nat = Some model ∧ v = value_with_model (pl_raw p) model ∧
    ∀ e' b', e = Some e' → b = Some b' → (b' ≤ e')%Z.
Proof.
  rw /apply_fallback. destruct (extract_fallback_model_candidates source !! 1%nat) as [model|]; [|done]. simpl.
  case_match eqn:E; [|done]. intros [= <-]. exists model. split_and!; [done..|]. intros e' b' -> ->. by apply Z.leb_le.
Qed.

#[local] Instance only_content_changed_trans : Transitive only_content_changed.
Proof. intros x y z Hxy Hyz key Hk. by rw (Hyz _ Hk) (Hxy _ Hk). Qed.

Lemma alter_contents ms : ∀ l, Forall2 only_content_changed l (foldl (λ l m, alter normalize_content (m_index m) l) l ms).
Proof.
  assert (Hrefl : ∀ l, Forall2 only_content_changed l l) by (intros l; by apply Forall_Forall2_diag, Forall_true).
  induction ms as [|m ms IH]; intros l; [apply Hrefl|]. simpl.
  assert (H1 : Forall2 only_content_changed l (alter normalize_content (m_index m) l)).
  { apply Forall2_lookup. intros i. rw list_lookup_alter. case_decide as Hi; subst; destruct (l !! _) as [v|]; simpl; constructor; try done.
    rw /normalize_content. intros key Hk. repeat case_match; try done. by apply get_set_field_ne. }
  etrans; [exact H1|apply IH].
Qed.

(** Compression touches the contents of the messages only. *)
Theorem compression_keeps_the_rest from_slice to_vec estimate h body provider body' pair :
  apply_chat_completions from_slice to_vec estimate h body provider = Ok (body', pair) →
  body' = body ∨ ∃ f v l l', from_slice body = Some (Object f) ∧ body' = to_vec v ∧
    assoc "messages" f = Some (Array l) ∧ get "messages" v = Some (Array l') ∧ Forall2 only_content_changed l l' ∧
    ∀ key, "messages" ≠ key → get key v = assoc key f.
Proof.
  rw /apply_chat_completions.
  destruct (parse_chat_completions_payload from_slice body) as [p|] eqn:Ep; [|by intros [= <- _]; left].
  destruct (parse_large_context_headers h) as [hs|]; [|done]. simpl.
  repeat (case_match; try by intros [= <- _]; left). intros [= <- _]. right.
  revert Ep. rw {1}/parse_chat_completions_payload. destruct (from_slice body) as [[| | | | |f]|]; try done. simpl.
  destruct (assoc "messages" f) as [[| | | |l|]|] eqn:El; try done. simpl. intros [= <-]. simpl.
  rw /patch_messages_whitespace /= El. eexists f, _, l, _. split_and!; [done..|exact (assoc_set_eq _ _ _)|apply alter_contents|].
  intros key Hk. by apply assoc_set_ne.
Qed.

(** ** Witness *)

Definition long_message : string := "aaaa aaaa aaaa aaaa aaaa".
Definition long_request : list (string * Value) :=
  [("model", Str "openai/gpt-4o"); ("max_tokens", Number "127996");
   ("messages", Array [Object [("role", Str "user"); ("content", Str long_message)]])].
Definition truncate_headers : HeaderMap := hinsert "alephant-token-limit-exception-handler" "truncate" ∅.

Lemma truncate_headers_parsed : parse_large_context_headers truncate_headers = Ok (mkLcHeaders (Some Truncate) None).
Proof.
  rw /parse_large_context_headers /parse_header_string /truncate_headers /hget /hget_all /hinsert.
  rw lookup_insert_eq lookup_insert_ne //.
Qed.

Definition long_decision : LargeContextDecision :=
  mkLcDecision Truncate Truncated (Some "openai/gpt-4o") (Some "openai/gpt-4o") (Some 10%Z) (Some 128000%Z) (Some 4%Z).

Lemma shortened_request_fits_witness : ∃ l', (array_chars l' ≤ 14)%nat ∧ length l' = 1%nat.
Proof.
  destruct (shortened_request_fits (λ s, if String.eqb s "q" then Some (Object long_request) else None) (λ _, "shorter")
    (λ _ _ _, Some 10%Z) truncate_headers "q" "shorter" long_decision) as (f & l & v & l' & m & n & H1 & H2 & _ & _ & H5 & H6 & _ & H8 & H9 & _).
  - rw /maybe_transform_unified_api_chat_request truncate_headers_parsed. by vm_compute.
  - set_solver.
  - exists l'. simplify_eq/=. simplify_eq/=. split; [exact H8|]. by apply Forall2_length in H9.
Defined.
