(* ===== verification/ContentFilter.v ===== *)
(** * The content filter

    Models [ai-gateway/src/content_filter/]: the request that asks the policy
    service about the request of a virtual key ([request.rs], [piicache.rs],
    [estimate.rs]), and what is done with its answer ([evaluate.rs]).  The
    prompt cache of the same directory is in [Prompts].

    The policy service, Redis, the catalogue of models and [serde_json] are
    parameters; the metrics that are counted are part of the result. *)

From S2P Require Import Prelude RustStr Json Float64 Provider ModelId Headers VirtualKeys X402Proxy Auth LargeContext.
From Stdlib Require Import Ascii SpecFloat.
Local Open Scope string_scope.

(** ** Settings and messages *)

(* src: ai-gateway/src/config/policy.rs:27-34 PolicyConfig *)
Record PolicyConfig := mkPolicyConfig {
  pol_enabled : bool;
  pol_grpc_endpoint : string;
  pol_on_unavailable : OnUnavailable
}.

(* src: ai-gateway/src/config/policy.rs:15-15 POLICY_MAX_REQUEST_BODY_BYTES *)
Definition POLICY_MAX_REQUEST_BODY_BYTES : nat := N.to_nat (1024 * 1024).
Lemma policy_max_bytes : N.of_nat POLICY_MAX_REQUEST_BODY_BYTES = 1048576%N.
Proof. by rw /POLICY_MAX_REQUEST_BODY_BYTES N2Nat.id. Qed.
#[global] Opaque POLICY_MAX_REQUEST_BODY_BYTES.

(** The messages of [evaluate.proto], as their use in [request.rs] and
    [evaluate.rs] shows them. *)
Record EvaluateRequest := mkEvaluate {
  ev_workspace_id : string;
  ev_request_id : string;
  ev_model : string;
  ev_provider : string;
  ev_virtual_key_id : string;
  ev_client_ip : string;
  ev_locale : string;
  ev_department_id : string;
  ev_body : string;
  ev_estimated_input_tokens : Z;
  ev_estimated_input_usd : f64;
  ev_headers : gmap string string
}.

Record EvaluateResponse := mkEvaluated {
  er_allowed : bool;
  er_reason : string;
  er_blocked_by : string;
  er_reason_message : string;
  er_out_body : string;
  er_change_model : string
}.

(** What becomes of a call: an answer, an error status, or no answer in time. *)
Inductive EvaluateOutcome := Answered (r : EvaluateResponse) | GrpcError (status : string) | TimedOut.

(* src: ai-gateway/src/content_filter/evaluate.rs:28-33 ContentFilterForwardBody *)
Inductive ContentFilterForwardBody := UseOriginal | UseReplaced (b : string).

(* src: ai-gateway/src/content_filter/evaluate.rs:38-43 ContentFilterResult *)
Record ContentFilterResult := mkFilterResult {
  forward_body : ContentFilterForwardBody;
  change_model : option string
}.

(* src: ai-gateway/src/content_filter/evaluate.rs:50-53 PolicyModelOverride *)
Record PolicyModelOverride := mkOverride { original_model : string; downgraded_model : string }.

Inductive FilterError :=
| ContentPolicyDenied (message : string)
| PiicacheOutBodyMissing (message : string)
| ContentFilterUnavailable (message : string).

(** The counters of [VkMetrics] that the filter adds to. *)
Inductive FilterMetric := CountAllowed | CountDenied | CountUnavailable | CountPiiBody (outcome : string).

(** The extensions of a request that the filter reads; a request context without
    a caller is [Some None]. *)
Record FilterExtensions := mkFilterExt {
  fx_context : option (option AuthContext);
  fx_router_id : option string;
  fx_provider : option InferenceProvider;
  fx_peer_ip : option string
}.

(** ** Messages to the client *)

Definition first_nonempty (a b c : string) : string :=
  if is_empty (trim a) then if is_empty (trim b) then c else trim b else trim a.

(* src: ai-gateway/src/content_filter/evaluate.rs:56-66 message_for_piicache_out_body_missing *)
Definition message_for_piicache_out_body_missing (reason_message reason : string) : string :=
  first_nonempty reason_message reason "Policy did not return a rewritten request body for PII cache.".

(* src: ai-gateway/src/content_filter/evaluate.rs:93-117 build_content_policy_denied_message *)
Definition build_content_policy_denied_message (reason_message reason blocked_by : string) : string :=
  let message := first_nonempty reason_message reason "Content policy denied this request." in
  if is_empty blocked_by then message else message ++ " (blocked_by: " ++ blocked_by ++ ")".

(* src: ai-gateway/src/content_filter/evaluate.rs:71-88 forward_body_for_allowed_evaluate_response *)
Definition forward_body_for_allowed_evaluate_response (piicache_forward_active : bool) (out_body reason_message reason : string)
  : result ContentFilterForwardBody FilterError :=
  if negb piicache_forward_active then Ok UseOriginal
  else if is_empty out_body then
    Err (PiicacheOutBodyMissing (message_for_piicache_out_body_missing reason_message reason))
  else Ok (UseReplaced out_body).

(** [None] is a panic: assigning to a field of a value that is neither an
    object nor null. *)
(* src: ai-gateway/src/content_filter/evaluate.rs:122-132 apply_model_downgrade *)
Definition apply_model_downgrade (from_slice : string → option Value) (to_vec : Value → string) (body new_model : string)
  : option (string * option string) :=
  match from_slice body with
  | None => Some (body, None)
  | Some v =>
      let original := get "model" v ≫= as_str in
      match v with
      | Object f => Some (to_vec (Object (assoc_set "model" (Str new_model) f)), original)
      | Null => Some (to_vec (Object [("model", Str new_model)]), original)
      | _ => None
      end
  end.

Section filter.
Context (from_slice : string → option Value).

(** ** The question *)

(* src: ai-gateway/src/content_filter/request.rs:30-39 extract_model_hint *)
Definition extract_model_hint (body : string) : string :=
  default "" (v ← from_slice body; m ← get "model" v; as_str m).

(* src: ai-gateway/src/content_filter/request.rs:44-57 resolve_client_ip *)
Definition resolve_client_ip (h : HeaderMap) (fx : FilterExtensions) : string :=
  let peer := default "" (fx_peer_ip fx) in
  match header_str "x-forwarded-for" h with
  | Some raw =>
      match split "," raw with
      | first :: _ => if is_empty (trim first) then peer else trim first
      | [] => peer
      end
  | None => peer
  end.

(** The values of a name that are text, joined. *)
(* src: ai-gateway/src/content_filter/request.rs:60-77 build_policy_headers_map *)
Definition build_policy_headers_map (h : HeaderMap) : gmap string string :=
  omap (λ values, match omap to_str values with [] => None | l => Some (str_join "," l) end) h.

(* src: ai-gateway/src/content_filter/request.rs:83-124 build_evaluate_request *)
Definition build_evaluate_request (fx : FilterExtensions) (h : HeaderMap) (auth : AuthContext) (body : string)
  : option EvaluateRequest :=
  vk_id ← ac_virtual_key_id auth;
  let request_id := default "" (header_str "x-request-id" h) in
  let request_id := if is_empty request_id then default "" (fx_router_id fx) else request_id in
  Some (mkEvaluate (ac_org_id auth) request_id (extract_model_hint body)
          (default "" (provider_display <$> fx_provider fx)) vk_id (resolve_client_ip h fx) ""
          (if String.eqb (ac_department_id auth) nil_uuid then "" else ac_department_id auth)
          "" 0 (S754_zero false) (build_policy_headers_map h)).

(* src: ai-gateway/src/content_filter/request.rs:129-137 vk_auth_present *)
Definition vk_auth_present (fx : FilterExtensions) : bool :=
  match fx_context fx with
  | Some (Some auth) => match ac_virtual_key_id auth with Some _ => true | None => false end
  | _ => false
  end.

(** *** The body for the policy *)

(* src: ai-gateway/src/content_filter/piicache.rs:18-23 piicache_redis_key *)
Definition piicache_redis_key (workspace_id : string) : string := "policy:piicache:" ++ workspace_id.

(* src: ai-gateway/src/content_filter/piicache.rs:27-29 piicache_redis_value_is_true *)
Definition piicache_redis_value_is_true (raw : string) : bool := String.eqb (trim raw) "true".

(* src: ai-gateway/src/content_filter/piicache.rs:32-38 truncate_request_body_bytes *)
Definition truncate_request_body_bytes (body : string) (max : nat) : string * bool :=
  if (len body <=? max)%nat then (body, false) else (str_take max body, true).

Definition with_body (body : string) (r : EvaluateRequest) : EvaluateRequest :=
  mkEvaluate (ev_workspace_id r) (ev_request_id r) (ev_model r) (ev_provider r) (ev_virtual_key_id r) (ev_client_ip r)
    (ev_locale r) (ev_department_id r) body (ev_estimated_input_tokens r) (ev_estimated_input_usd r) (ev_headers r).

(** [redis] is the client, if there is one: the value of a key, [None] for an
    error. *)
(* src: ai-gateway/src/content_filter/piicache.rs:40-102 attach_request_body_from_piicache_redis *)
Definition attach_request_body_from_piicache_redis (redis : option (string → option (option string))) (workspace_id body : string)
    (req : EvaluateRequest) : EvaluateRequest * FilterMetric :=
  match redis with
  | None => (req, CountPiiBody "no_redis")
  | Some client =>
      match client (piicache_redis_key workspace_id) with
      | Some (Some v) =>
          if piicache_redis_value_is_true v then
            let r := truncate_request_body_bytes body POLICY_MAX_REQUEST_BODY_BYTES in
            (with_body r.1 req, CountPiiBody (if r.2 then "attached_truncated" else "attached"))
          else (req, CountPiiBody (if String.eqb (trim v) "false" then "skipped_false" else "skipped_other"))
      | Some None => (req, CountPiiBody "skipped_nil")
      | None => (req, CountPiiBody "redis_error")
      end
  end.

(** *** Estimates *)

Context {Date : Type} (parse_from_str : string → string → option Date) (year : string).
(** The estimate of [LargeContext], and the price of a model's prompt tokens in
    the catalogue. *)
Context (estimate : ChatCompletionsPayload → string → option InferenceProvider → option Z).
Context (prompt_price : InferenceProvider → ModelId Date → option f64).

(* src: ai-gateway/src/content_filter/estimate.rs:21-33 model_override_from_headers *)
Definition model_override_from_headers (h : HeaderMap) : option string :=
  raw ← header_str "alephant-model-override" h;
  let v := trim raw in
  if is_empty v then None else if negb (contains "/" v) then None else Some v.

(* src: ai-gateway/src/content_filter/estimate.rs:36-43 model_id_for_catalog *)
Definition model_id_for_catalog (p : InferenceProvider) (model : string) : ModelId Date :=
  let r := if contains "/" model then model_id_from_str parse_from_str year model
           else from_str_and_provider parse_from_str year p model in
  match r with Ok m => m | Err _ => Unknown model end.

(* src: ai-gateway/src/logger/model_info.rs:79-84 policy_estimated_input_micro_usd *)
Definition policy_estimated_input_micro_usd (tokens : Z) (price : f64) : f64 :=
  f64_mul (f64_mul (f64_of_Z tokens) price) (f64_of_Z 1000000).

Definition with_estimates (tokens : Z) (usd : f64) (r : EvaluateRequest) : EvaluateRequest :=
  mkEvaluate (ev_workspace_id r) (ev_request_id r) (ev_model r) (ev_provider r) (ev_virtual_key_id r) (ev_client_ip r)
    (ev_locale r) (ev_department_id r) (ev_body r) tokens usd (ev_headers r).

(* src: ai-gateway/src/content_filter/estimate.rs:45-83 fill_evaluate_request_estimates *)
Definition fill_evaluate_request_estimates (h : HeaderMap) (fx : FilterExtensions) (body : string) (req : EvaluateRequest) : EvaluateRequest :=
  let none := with_estimates 0 (S754_zero false) req in
  default none (
    provider ← fx_provider fx;
    payload ← parse_chat_completions_payload from_slice body;
    primary_model ← resolve_primary_model (pl_model payload) (model_override_from_headers h);
    tokens ← estimate payload primary_model (Some provider);
    Some (match prompt_price provider (model_id_for_catalog provider primary_model) with
          | None => with_estimates tokens (S754_zero false) req
          | Some price => with_estimates tokens (policy_estimated_input_micro_usd tokens price) req
          end)).

(** ** The answer *)

(* src: ai-gateway/src/content_filter/evaluate.rs:150-173 unavailable_on_failure *)
Definition unavailable_on_failure (on_unavailable : OnUnavailable) (message : string)
  : list FilterMetric * result ContentFilterResult FilterError :=
  match on_unavailable with
  | Allow => ([CountUnavailable], Ok (mkFilterResult UseOriginal None))
  | Deny => ([], Err (ContentFilterUnavailable message))
  end.

(** The policy client, if it is connected, and Redis. *)
Record FilterWorld := mkFilterWorld {
  fw_client : option (EvaluateRequest → EvaluateOutcome);
  fw_redis : option (string → option (option string))
}.

(** The request that is put to the policy, and the metric of its body. *)
Definition policy_question (w : FilterWorld) (h : HeaderMap) (fx : FilterExtensions) (body : string) (req : EvaluateRequest)
  : EvaluateRequest * FilterMetric :=
  let r := attach_request_body_from_piicache_redis (fw_redis w) (ev_workspace_id req) body req in
  (fill_evaluate_request_estimates h fx body r.1, r.2).

(* src: ai-gateway/src/content_filter/evaluate.rs:282-384 evaluate_for_vk_request answer *)
Definition on_answer (cfg : PolicyConfig) (piicache_forward_active : bool) (o : EvaluateOutcome)
  : list FilterMetric * result ContentFilterResult FilterError :=
  match o with
  | Answered r =>
      if er_allowed r then
        let cm := trim (er_change_model r) in
        let change := if is_empty cm then None else Some cm in
        match forward_body_for_allowed_evaluate_response piicache_forward_active (er_out_body r) (er_reason_message r) (er_reason r) with
        | Err e => ([CountPiiBody "out_body_missing_400"], Err e)
        | Ok plan =>
            (((match plan with UseOriginal => [] | UseReplaced _ => [CountPiiBody "forward_replaced_with_out_body"] end)
               ++ [CountAllowed])%list,
             Ok (mkFilterResult plan change))
        end
      else ([CountDenied],
            Err (ContentPolicyDenied (build_content_policy_denied_message (er_reason_message r) (er_reason r) (er_blocked_by r))))
  | GrpcError status =>
      let u := unavailable_on_failure (pol_on_unavailable cfg) status in (CountUnavailable :: u.1, u.2)
  | TimedOut =>
      let u := unavailable_on_failure (pol_on_unavailable cfg) "content filter evaluate timed out" in (CountUnavailable :: u.1, u.2)
  end.

(* src: ai-gateway/src/content_filter/evaluate.rs:177-384 evaluate_for_vk_request *)
Definition evaluate_for_vk_request (w : FilterWorld) (cfg : PolicyConfig) (h : HeaderMap) (fx : FilterExtensions) (body : string)
  : list FilterMetric * result ContentFilterResult FilterError :=
  let original := ([], Ok (mkFilterResult UseOriginal None)) in
  if negb (pol_enabled cfg) || negb (vk_auth_present fx) then original
  else
    match fw_client w with
    | None => unavailable_on_failure (pol_on_unavailable cfg) "content filter client not initialised"
    | Some client =>
        match fx_context fx with
        | Some (Some auth) =>
            match build_evaluate_request fx h auth body with
            | None => original
            | Some req =>
                let q := policy_question w h fx body req in
                let r := on_answer cfg (negb (is_empty (ev_body q.1))) (client q.1) in
                (q.2 :: r.1, r.2)
            end
        | _ => original
        end
    end.
End filter.

(** ** Theorems *)

Section filtered.
Context {Date : Type} (from_slice : string → option Value) (parse_from_str : string → string → option Date) (year : string)
        (estimate : ChatCompletionsPayload → string → option InferenceProvider → option Z)
        (prompt_price : InferenceProvider → ModelId Date → option f64).
Abbreviation evaluate := (evaluate_for_vk_request from_slice parse_from_str year estimate prompt_price).
Abbreviation question := (policy_question from_slice parse_from_str year estimate prompt_price).

(** Whether the workspace wants the policy to rewrite its requests. *)
Definition pii_switch (w : FilterWorld) (workspace_id : string) : bool :=
  match fw_redis w with
  | Some client =>
      match client (piicache_redis_key workspace_id) with Some (Some v) => piicache_redis_value_is_true v | _ => false end
  | None => false
  end.

Lemma fill_keeps h fx body r : let r' := fill_evaluate_request_estimates from_slice parse_from_str year estimate prompt_price h fx body r in
  ev_body r' = ev_body r ∧ ev_workspace_id r' = ev_workspace_id r ∧ ev_model r' = ev_model r ∧ ev_virtual_key_id r' = ev_virtual_key_id r.
Proof.
  rw /fill_evaluate_request_estimates. destruct (fx_provider fx) as [p|]; [|done]. simpl.
  destruct (parse_chat_completions_payload _ _) as [pl|]; [|done]. simpl.
  destruct (resolve_primary_model _ _) as [m|]; [|done]. simpl.
  destruct (estimate pl m (Some p)) as [t|]; [|done]. simpl. by case_match.
Qed.

(** What the policy is told of a request. *)
Lemma question_is_about_the_request w fx h auth body req : build_evaluate_request from_slice fx h auth body = Some req →
  let q := (question w h fx body req).1 in
  ev_workspace_id q = ac_org_id auth ∧ Some (ev_virtual_key_id q) = ac_virtual_key_id auth ∧
  ev_model q = extract_model_hint from_slice body ∧
  ev_body q = if pii_switch w (ac_org_id auth) then str_take POLICY_MAX_REQUEST_BODY_BYTES body else "".
Proof.
  rw /build_evaluate_request. destruct (ac_virtual_key_id auth) as [id|]; [|done]. simpl. intros [= <-].
  rw /policy_question. set (req := mkEvaluate _ _ _ _ _ _ _ _ _ _ _ _). cbn zeta.
  set (a := attach_request_body_from_piicache_redis _ _ _ _).
  destruct (fill_keeps h fx body a.1) as (-> & -> & -> & ->).
  rw /a /attach_request_body_from_piicache_redis /pii_switch /=. destruct (fw_redis w) as [client|]; [|done].
  destruct (client _) as [[v|]|]; [|done..]. destruct (piicache_redis_value_is_true v); [|done]. split_and!; [done..|].
  simpl. rw /truncate_request_body_bytes. destruct (Nat.leb_spec (len body) POLICY_MAX_REQUEST_BODY_BYTES) as [H|]; [|done].
  simpl. symmetry. clear -H. revert H. generalize POLICY_MAX_REQUEST_BODY_BYTES. induction body as [|c s IH]; intros [|n]; simpl; try done; try lia.
  intros H. f_equal. apply IH. lia.
Qed.

(** The question is about this request: its caller, its model and, when Redis
    answers that the workspace has its bodies rewritten, the first mebibyte of
    its body. *)
Definition about_request (w : FilterWorld) (fx : FilterExtensions) (body : string) (q : EvaluateRequest) : Prop :=
  ∃ auth, fx_context fx = Some (Some auth) ∧
    ev_workspace_id q = ac_org_id auth ∧ Some (ev_virtual_key_id q) = ac_virtual_key_id auth ∧
    ev_model q = extract_model_hint from_slice body ∧
    ev_body q = (if pii_switch w (ac_org_id auth) then str_take POLICY_MAX_REQUEST_BODY_BYTES body else "").

(** The model an answer names. *)
Definition named_model (a : EvaluateResponse) : option string :=
  let m := trim (er_change_model a) in if is_empty m then None else Some m.

(** What the filter may let through, and how: the filter is off, or the request
    has no virtual key; or the policy service is asked about this request, and
    its answer, or, if it gives none, the setting for that case, decides; or
    there is no service to ask, and the same setting decides. *)
Definition cleared (w : FilterWorld) (cfg : PolicyConfig) (fx : FilterExtensions) (body : string)
    (r : ContentFilterResult) : Prop :=
  (pol_enabled cfg = false ∨ vk_auth_present fx = false) ∧ r = mkFilterResult UseOriginal None ∨
  (∃ client q, fw_client w = Some client ∧ about_request w fx body q ∧
     match client q with
     | Answered a =>
         er_allowed a = true ∧ (is_empty (ev_body q) = false → er_out_body a ≠ "") ∧
         r = mkFilterResult (if is_empty (ev_body q) then UseOriginal else UseReplaced (er_out_body a)) (named_model a)
     | GrpcError _ | TimedOut => pol_on_unavailable cfg = Allow ∧ r = mkFilterResult UseOriginal None
     end) ∨
  fw_client w = None ∧ pol_on_unavailable cfg = Allow ∧ r = mkFilterResult UseOriginal None.

Lemma on_answer_Ok cfg active o r : (on_answer cfg active o).2 = Ok r →
  match o with
  | Answered a =>
      er_allowed a = true ∧ (active = true → er_out_body a ≠ "") ∧
      r = mkFilterResult (if active then UseReplaced (er_out_body a) else UseOriginal) (named_model a)
  | GrpcError _ | TimedOut => pol_on_unavailable cfg = Allow ∧ r = mkFilterResult UseOriginal None
  end.
Proof.
  destruct o as [a|s|]; simpl.
  - destruct (er_allowed a); [|done]. rw /forward_body_for_allowed_evaluate_response /named_model.
    destruct active; simpl; [|by intros [= <-]]. destruct (is_empty (er_out_body a)) eqn:Eo; [done|].
    intros [= <-]. split_and!; try done. intros _ H. by rw H in Eo.
  - rw /unavailable_on_failure. destruct (pol_on_unavailable cfg); [done|]. by intros [= <-].
  - rw /unavailable_on_failure. destruct (pol_on_unavailable cfg); [done|]. by intros [= <-].
Qed.

Lemma filtered_is_cleared w cfg h fx body r : (evaluate w cfg h fx body).2 = Ok r → cleared w cfg fx body r.
Proof.
  rw /evaluate_for_vk_request. destruct (pol_enabled cfg) eqn:E1; simpl; [|intros [= <-]; left; eauto].
  destruct (vk_auth_present fx) eqn:E2; simpl; [|intros [= <-]; left; eauto].
  destruct (fw_client w) as [client|] eqn:E3.
  2:{ rw /unavailable_on_failure. destruct (pol_on_unavailable cfg) eqn:E; [done|]. intros [= <-]. right. right. done. }
  rw /vk_auth_present in E2. destruct (fx_context fx) as [[auth|]|] eqn:E4; try done.
  destruct (build_evaluate_request from_slice fx h auth body) as [req|] eqn:E5.
  2:{ exfalso. rw /build_evaluate_request in E5. destruct (ac_virtual_key_id auth); simpl in E5; done. }
  intros H. change ((on_answer cfg (negb (is_empty (ev_body (question w h fx body req).1))) (client (question w h fx body req).1)).2 = Ok r) in H.
  pose proof (question_is_about_the_request w fx h auth body req E5) as Hq.
  set (q := (question w h fx body req).1) in *. right. left. exists client, q. split; [done|].
  split; [by exists auth|]. apply on_answer_Ok in H. destruct (client q) as [a|s|]; [|done..].
  destruct H as (Hal & Ho & ->). split; [done|]. destruct (is_empty (ev_body q)); [done|]. split; [intros _; by apply Ho|done].
Qed.
End filtered.

(** C28 (safety). A request passes the content filter only when the filter is
    off, or the request has no virtual key; or the policy service was asked
    about this very request and allowed it; or the service was asked about this
    very request and failed or timed out, or there is no service, and the
    settings say to let requests pass then.  The question names the workspace,
    the key and the model; it carries the body only when Redis answers that the
    workspace has its bodies rewritten (not when Redis fails), and only its
    first mebibyte.  When it carries a body, the service's rewritten body, which
    is not empty, replaces the client's; otherwise the body goes on as it is.
    The model is changed to the one the answer names, and only then. *)
Theorem filtered_request_is_cleared {Date} from_slice parse_from_str year estimate
    (prompt_price : InferenceProvider → ModelId Date → option f64) w cfg h fx body r :
  (evaluate_for_vk_request from_slice parse_from_str year estimate prompt_price w cfg h fx body).2 = Ok r →
  cleared from_slice w cfg fx body r.
Proof. apply filtered_is_cleared. Qed.

(** A denial is final, whatever the settings. *)
Theorem denial_is_final cfg active a : er_allowed a = false →
  (on_answer cfg active (Answered a)).2 =
  Err (ContentPolicyDenied (build_content_policy_denied_message (er_reason_message a) (er_reason a) (er_blocked_by a))).
Proof. simpl. by intros ->. Qed.

(** ** What goes wrong *)

(** A policy that returns the body it is given cuts a long request: it is given
    the first mebibyte. *)
Theorem long_body_is_cut cfg body : (POLICY_MAX_REQUEST_BODY_BYTES < len body)%nat →
  let seen := (truncate_request_body_bytes body POLICY_MAX_REQUEST_BODY_BYTES).1 in
  ∀ a, er_allowed a = true → er_out_body a = seen → seen ≠ "" →
  (on_answer cfg true (Answered a)).2 = Ok (mkFilterResult (UseReplaced seen)
    (if is_empty (trim (er_change_model a)) then None else Some (trim (er_change_model a)))) ∧ seen ≠ body.
Proof.
  intros Hl seen a Ha Ho Hne. split.
  - simpl. rw Ha /forward_body_for_allowed_evaluate_response Ho /=. by destruct seen.
  - rw /seen /truncate_request_body_bytes (proj2 (Nat.leb_gt _ _) Hl) /=. intros H.
    assert (Hlen : ∀ n s, (len (str_take n s) ≤ n)%nat) by (induction n as [|n IH]; intros [|c s]; simpl; try lia; specialize (IH s); lia).
    specialize (Hlen POLICY_MAX_REQUEST_BODY_BYTES body). rw H in Hlen. lia.
Qed.

(** An unavailable policy that may be passed over is counted twice when it does
    not answer, once when it is not connected. *)
Theorem unavailable_is_counted_twice cfg active s : pol_on_unavailable cfg = Allow →
  (on_answer cfg active (GrpcError s)).1 = [CountUnavailable; CountUnavailable] ∧
  (on_answer cfg active TimedOut).1 = [CountUnavailable; CountUnavailable] ∧
  (unavailable_on_failure (pol_on_unavailable cfg) s).1 = [CountUnavailable].
Proof. simpl. by intros ->. Qed.

(** The address the policy sees is what the client writes. *)
Theorem policy_address_is_the_clients_word h fx ip : header_str "x-forwarded-for" h = Some ip →
  count_byte "," ip = 0%nat → trim ip = ip → ip ≠ "" → resolve_client_ip h fx = ip.
Proof.
  intros Hh Hc Ht Hne. rw /resolve_client_ip Hh.
  assert (Hs : ∀ cur s, count_byte "," s = 0%nat → split_from "," cur s = [cur ++ s]).
  { intros cur s. revert cur. induction s as [|c s IH]; intros cur H; [by rw /= str_app_nil_r|]. cbn [count_byte split_from] in H |- *.
    destruct (Ascii.eqb "," c); [done|]. rw IH // str_app_assoc. done. }
  rw /split Hs //= Ht. by destruct ip.
Qed.

(** A downgrade of a request whose body is JSON, but no object, panics. *)
Theorem downgrade_can_panic from_slice to_vec body new_model items :
  from_slice body = Some (Array items) → apply_model_downgrade from_slice to_vec body new_model = None.
Proof. rw /apply_model_downgrade. by intros ->. Qed.

(** A downgrade names the new model, and touches nothing else. *)
Theorem downgrade_sets_the_model from_slice to_vec body new_model f :
  from_slice body = Some (Object f) →
  ∃ v, apply_model_downgrade from_slice to_vec body new_model = Some (to_vec v, assoc "model" f ≫= as_str) ∧
    get "model" v = Some (Str new_model) ∧ ∀ key, "model" ≠ key → get key v = assoc key f.
Proof.
  intros H. rw /apply_model_downgrade H. eexists. split; [done|]. simpl. rw assoc_set_eq. split; [done|].
  intros key Hk. by apply assoc_set_ne.
Qed.

(** ** Witness *)

Definition sample_auth : AuthContext :=
  mkAuthContext "key" "user" "ws" None (Some "vk") "sk" None None nil_uuid "user" "e" "n" None 30%Z false None.
Definition sample_ext : FilterExtensions := mkFilterExt (Some (Some sample_auth)) None None (Some "10.0.0.1").
Definition rewriting_answer : EvaluateResponse := mkEvaluated true "" "" "" "masked" "".
Definition sample_world : FilterWorld := mkFilterWorld (Some (λ _, Answered rewriting_answer)) (Some (λ _, Some (Some "true"))).

Lemma filtered_request_is_cleared_witness :
  cleared (λ _, None) sample_world (mkPolicyConfig true "policy" Deny) sample_ext "secret" (mkFilterResult (UseReplaced "masked") None).
Proof.
  apply (filtered_request_is_cleared (Date := unit) (λ _, None) (λ _ _, None) "2026" (λ _ _ _, None) (λ _ _, None) sample_world
    (mkPolicyConfig true "policy" Deny) ∅ sample_ext "secret").
  rw /evaluate_for_vk_request /= /truncate_request_body_bytes. pose proof policy_max_bytes.
  by rw (proj2 (Nat.leb_le (len "secret") POLICY_MAX_REQUEST_BODY_BYTES)); [|simpl; lia].
Defined.
