(* ===== verification/TypedConverter.v ===== *)
(** * The conversion of bodies between endpoints

    Models the generic part of [ai-gateway/src/middleware/mapper/mod.rs]
    (reading a body, converting it, writing it again, with the context of the
    request and the errors of an upstream) and the chat converters of
    [openai.rs], [openai_compatible.rs], [google.rs] and [ollama.rs].  The
    conversions to and from Anthropic are in [AnthropicMap] and
    [AnthropicStream].

    [serde]'s readers and writers of the vendored types are fields of
    [WireOps]; a failing reader or writer is [None]. *)

From S2P Require Import Prelude RustStr Json Provider ModelId Headers HealthMonitor RateLimitMonitor ChatTypes ModelMapper MapperProfiles MapperLenient MapperRegistry.
From Stdlib Require Import Ascii.
Local Open Scope string_scope.

(** ** The context of a mapped request *)

(* src: ai-gateway/src/types/extensions.rs:118-123 ClientResponseSemantic *)
Inductive ClientResponseSemantic := SemOther | SemChatCompletions | SemResponses.

(* src: ai-gateway/src/types/extensions.rs:126-133 LoggerResponseWireSemantic *)
Inductive LoggerResponseWireSemantic := WireOther | WireChatJson | WireChatSse | WireResponsesJson | WireResponsesSse.

(* src: ai-gateway/src/types/extensions.rs:136-166 MapperContext *)
Record MapperContext (Date Cell Origin : Type) := mkCtx {
  mc_is_stream : bool;
  mc_client_semantic : ClientResponseSemantic;
  mc_logger_wire : LoggerResponseWireSemantic;
  mc_model : option (ModelId Date);
  mc_usage : option Cell;
  mc_unified_bridge : bool;
  mc_native_passthrough : bool;
  mc_via_chat : bool;                  (* [cursor_responses_via_chat_completions] *)
  mc_origin : option Origin;
  mc_expects_responses : bool
}.
Arguments mkCtx {Date Cell Origin}.
Arguments mc_is_stream {Date Cell Origin}.
Arguments mc_client_semantic {Date Cell Origin}.
Arguments mc_logger_wire {Date Cell Origin}.
Arguments mc_model {Date Cell Origin}.
Arguments mc_usage {Date Cell Origin}.
Arguments mc_unified_bridge {Date Cell Origin}.
Arguments mc_native_passthrough {Date Cell Origin}.
Arguments mc_via_chat {Date Cell Origin}.
Arguments mc_origin {Date Cell Origin}.
Arguments mc_expects_responses {Date Cell Origin}.

(* src: ai-gateway/src/middleware/mapper/mod.rs:56-62 client_response_semantic_for_source_endpoint *)
Definition client_response_semantic_for_source_endpoint (path : string) : ClientResponseSemantic :=
  if String.eqb path "v1/chat/completions" then SemChatCompletions
  else if String.eqb path "v1/responses" then SemResponses
  else SemOther.

(* src: ai-gateway/src/middleware/mapper/mod.rs:64-74 logger_response_wire_semantic_for_target_endpoint *)
Definition logger_response_wire_semantic_for_target_endpoint (path : string) (is_stream : bool) : LoggerResponseWireSemantic :=
  if String.eqb path "v1/chat/completions" then if is_stream then WireChatSse else WireChatJson
  else if String.eqb path "v1/responses" then if is_stream then WireResponsesSse else WireResponsesJson
  else WireOther.

(** ** Errors *)

(** The errors of [convert_req_body] and [convert_resp_body]. *)
Inductive ConvertApiError (M : Type) :=
| CInvalidBody          (* [InvalidRequestError::InvalidRequestBody] *)
| CMapper (e : M)       (* [InternalError::MapperError] *)
| CSerialize
| CDeserialize.
Arguments CInvalidBody {M}.
Arguments CMapper {M} e.
Arguments CSerialize {M}.
Arguments CDeserialize {M}.

(** How the error body of an upstream is read: the comparison of types picks the
    lenient readers for the errors of OpenAI and Anthropic, whose result then
    goes through [to_value] and [from_value]. *)
Inductive ErrorWire (E : Type) :=
| LenientWrapped (reread : WrappedError → option E)
| LenientAnthropic (reread : AnthropicApiError → option E)
| StrictError (read : string → option E).
Arguments LenientWrapped {E}.
Arguments LenientAnthropic {E}.
Arguments StrictError {E}.

(* src: ai-gateway/src/middleware/mapper/openai.rs:915-923 get_error_type *)
Definition get_error_type (status : Z) : string :=
  if (status =? 429)%Z then "tokens"
  else if ((400 <=? status) && (status <? 500))%Z then "invalid_request_error"
  else "server_error".

(* src: ai-gateway/src/middleware/mapper/openai.rs:925-933 get_error_code *)
Definition get_error_code (status : Z) : option string :=
  if ((status =? 401) || (status =? 403))%Z then Some "invalid_api_key"
  else if (status =? 429)%Z then Some "rate_limit_exceeded"
  else None.

(* src: ai-gateway/src/middleware/mapper/mod.rs:470-486 openai_error_from_status *)
Definition openai_error_from_status (status : Z) (message : option string) : WrappedError :=
  mkWrapped (default (get_error_type status) message) (Some (get_error_type status)) None (get_error_code status).

(** [is_client_error() || is_server_error()]. *)
Definition is_error_status (status : Z) : bool := ((400 <=? status) && (status <? 600))%Z.

(** ** A converter between two endpoints *)

(** [try_convert_response] is taken at the parts of the response, of which only
    the profile is ever read. *)
(* src: ai-gateway/src/middleware/mapper/mod.rs:78-131 TryConvert, TryConvertError and TryConvertStreamData *)
Record ConverterOps (SReq TReq TResp SResp TChunk SChunk TErr SErr Cell M : Type) := mkOps {
  try_convert : SReq → result TReq M;
  try_convert_model_passthrough : SReq → result TReq M;
  passthrough_model_for_mapper_context : TReq → option string;
  postprocess_converted_req_body : string → result string M;
  try_convert_response : TResp → result SResp M;
  try_convert_chunk : option Cell → TChunk → option Cell * result (option SChunk) M;
  try_convert_error : Z → TErr → result SErr M
}.
Arguments mkOps {SReq TReq TResp SResp TChunk SChunk TErr SErr Cell M}.
Arguments try_convert {SReq TReq TResp SResp TChunk SChunk TErr SErr Cell M}.
Arguments try_convert_model_passthrough {SReq TReq TResp SResp TChunk SChunk TErr SErr Cell M}.
Arguments passthrough_model_for_mapper_context {SReq TReq TResp SResp TChunk SChunk TErr SErr Cell M}.
Arguments postprocess_converted_req_body {SReq TReq TResp SResp TChunk SChunk TErr SErr Cell M}.
Arguments try_convert_response {SReq TReq TResp SResp TChunk SChunk TErr SErr Cell M}.
Arguments try_convert_chunk {SReq TReq TResp SResp TChunk SChunk TErr SErr Cell M}.
Arguments try_convert_error {SReq TReq TResp SResp TChunk SChunk TErr SErr Cell M}.

(** The endpoints: their paths, what [AiRequest] tells of a request, and serde's
    readers and writers. *)
Record WireOps (Date SReq TReq TResp SResp TChunk SChunk TErr SErr M : Type) := mkWire {
  source_path : string;
  target_path : string;
  source_is_stream : SReq → bool;
  target_model : TReq → result (ModelId Date) M;
  read_source : string → option SReq;
  write_target : TReq → option string;
  read_response : string → option TResp;
  write_response : SResp → option string;
  read_chunk : string → option TChunk;
  write_chunk : SChunk → option string;
  error_wire : ErrorWire TErr;
  write_error : SErr → option string
}.
Arguments mkWire {Date SReq TReq TResp SResp TChunk SChunk TErr SErr M}.
Arguments source_path {Date SReq TReq TResp SResp TChunk SChunk TErr SErr M}.
Arguments target_path {Date SReq TReq TResp SResp TChunk SChunk TErr SErr M}.
Arguments source_is_stream {Date SReq TReq TResp SResp TChunk SChunk TErr SErr M}.
Arguments target_model {Date SReq TReq TResp SResp TChunk SChunk TErr SErr M}.
Arguments read_source {Date SReq TReq TResp SResp TChunk SChunk TErr SErr M}.
Arguments write_target {Date SReq TReq TResp SResp TChunk SChunk TErr SErr M}.
Arguments read_response {Date SReq TReq TResp SResp TChunk SChunk TErr SErr M}.
Arguments write_response {Date SReq TReq TResp SResp TChunk SChunk TErr SErr M}.
Arguments read_chunk {Date SReq TReq TResp SResp TChunk SChunk TErr SErr M}.
Arguments write_chunk {Date SReq TReq TResp SResp TChunk SChunk TErr SErr M}.
Arguments error_wire {Date SReq TReq TResp SResp TChunk SChunk TErr SErr M}.
Arguments write_error {Date SReq TReq TResp SResp TChunk SChunk TErr SErr M}.

(** [serde_json] on any value, the strict readers of errors, the text of a value,
    a fresh identifier and the clock. *)
Record JsonOps := mkJsonOps {
  json_read : string → option Value;
  json_write : Value → string;
  strict_wrapped_error : string → option WrappedError;
  strict_anthropic_error : string → option AnthropicApiError;
  json_text : Value → string;
  fresh_uuid : string;
  now_seconds : string
}.

(** The error of an upstream, as its converter reads it. *)
(* src: ai-gateway/src/middleware/mapper/mod.rs:371-405 convert_resp_body reading errors *)
Definition read_error {E} (j : JsonOps) (w : ErrorWire E) (bytes : string) : option E :=
  match w with
  | LenientWrapped reread =>
      reread (deserialize_wrapped_error_lenient (strict_wrapped_error j) (json_read j) (json_text j) bytes)
  | LenientAnthropic reread =>
      reread (deserialize_anthropic_error_lenient (strict_anthropic_error j) (json_read j) (json_text j) bytes)
  | StrictError read => read bytes
  end.

Section typed.
Context {Date SReq TReq TResp SResp TChunk SChunk TErr SErr Cell Origin M : Type}.
Context (fresh_cell : Cell) (j : JsonOps).
Context (ops : ConverterOps SReq TReq TResp SResp TChunk SChunk TErr SErr Cell M).
Context (wire : WireOps Date SReq TReq TResp SResp TChunk SChunk TErr SErr M).

(* src: ai-gateway/src/middleware/mapper/mod.rs:211-285 convert_req_body_with *)
Definition convert_req_body_with (bytes : string) (convert : SReq → result TReq M) (use_passthrough_model_context : bool)
  : result (string * MapperContext Date Cell Origin) (ConvertApiError M) :=
  let? source_request := ok_or (read_source wire bytes) CInvalidBody in
  let is_stream := source_is_stream wire source_request in
  let? target_request := map_err CMapper (convert source_request) in
  let? model :=
    match (if use_passthrough_model_context then passthrough_model_for_mapper_context ops target_request else None) with
    | Some m => Ok (Unknown m)
    | None => map_err CMapper (target_model wire target_request)
    end in
  let ctx := mkCtx is_stream (client_response_semantic_for_source_endpoint (source_path wire))
               (logger_response_wire_semantic_for_target_endpoint (target_path wire) is_stream) (Some model)
               (if is_stream then Some fresh_cell else None) false false false None false in
  let? target_bytes := ok_or (write_target wire target_request) CSerialize in
  let? target_bytes := map_err CMapper (postprocess_converted_req_body ops target_bytes) in
  Ok (target_bytes, ctx).

(* src: ai-gateway/src/middleware/mapper/mod.rs:310-312 convert_req_body *)
Definition convert_req_body (bytes : string) := convert_req_body_with bytes (try_convert ops) false.

(* src: ai-gateway/src/middleware/mapper/mod.rs:314-319 convert_req_body_model_passthrough *)
Definition convert_req_body_model_passthrough (bytes : string) :=
  convert_req_body_with bytes (try_convert_model_passthrough ops) true.

(** The repairs of a completion or of a chunk before it is read. *)
Definition repaired (bytes : string) (stream_chunk : bool) : option string :=
  v ← json_read j bytes;
  Some (json_write j (ensure_openai_chat_completion_required_fields_in_place (fresh_uuid j) (now_seconds j)
          (normalize_chat_completion_roles_in_place v stream_chunk).1 stream_chunk)).

Definition read_repaired {A} (read : string → option A) (lenient stream_chunk : bool) (bytes : string)
  : result A (ConvertApiError M) :=
  if lenient then
    let? patched := ok_or (repaired bytes stream_chunk) CDeserialize in
    ok_or (read patched) CDeserialize
  else ok_or (read bytes) CDeserialize.

(** The usage cell is shared by the chunks of a stream: its new state is part of
    the result. *)
(* src: ai-gateway/src/middleware/mapper/mod.rs:321-467 convert_resp_body *)
Definition convert_resp_body (status : Z) (bytes : string) (is_stream : bool) (cell : option Cell) (lenient : bool)
  : option Cell * result (option string) (ConvertApiError M) :=
  if is_stream then
    match read_repaired (read_chunk wire) lenient true bytes with
    | Err e => (cell, Err e)
    | Ok chunk =>
        let r := try_convert_chunk ops cell chunk in
        (r.1,
         let? target := map_err CMapper r.2 in
         match target with
         | Some target => let? b := ok_or (write_chunk wire target) CSerialize in Ok (Some b)
         | None => Ok None
         end)
    end
  else if is_error_status status then
    (cell,
     let? source_error := ok_or (read_error j (error_wire wire) bytes) CDeserialize in
     let? target := map_err CMapper (try_convert_error ops status source_error) in
     let? b := ok_or (write_error wire target) CSerialize in
     Ok (Some b))
  else
    (cell,
     let? source_response := read_repaired (read_response wire) lenient false bytes in
     let? target := map_err CMapper (try_convert_response ops source_response) in
     let? b := ok_or (write_response wire target) CSerialize in
     Ok (Some b)).
End typed.

(** ** The chat converters of the OpenAI family *)

Inductive ConvError :=
| BadModel (e : ModelId.MapperError)
| NotMapped (e : MapError)
| ConverterNotSupported (provider : string)
| SerdeError.

(** The fields that the chat converters set. *)
Definition set_chat (r : ChatRequest) (model : string) (max_tokens max_completion_tokens : option Z) (stream_options : option bool) : ChatRequest :=
  mkChat (cr_messages r) model (cr_store r) (cr_reasoning_effort r) (cr_metadata r) (cr_frequency_penalty r) (cr_logit_bias r)
    (cr_logprobs r) (cr_top_logprobs r) max_tokens max_completion_tokens (cr_n r) (cr_modalities r) (cr_prediction r)
    (cr_audio r) (cr_presence_penalty r) (cr_response_format r) (cr_seed r) (cr_service_tier r) (cr_stop r) (cr_stream r)
    stream_options (cr_temperature r) (cr_top_p r) (cr_tools r) (cr_tool_choice r) (cr_parallel_tool_calls r) (cr_user r)
    (cr_web_search_options r) (cr_function_call r) (cr_functions r) (cr_extra r).

Definition set_model (r : ChatRequest) (model : string) : ChatRequest :=
  set_chat r model (cr_max_tokens r) (cr_max_completion_tokens r) (cr_stream_options r).

(** [if value.stream.is_some_and(|s| s) { value.stream_options = Some(include_usage) }] *)
Definition force_usage (r : ChatRequest) : ChatRequest :=
  if default false (cr_stream r) then set_chat r (cr_model r) (cr_max_tokens r) (cr_max_completion_tokens r) (Some true) else r.

(** [max_tokens] moved to [max_completion_tokens]. *)
Definition move_max_tokens (r : ChatRequest) : ChatRequest :=
  match cr_max_completion_tokens r, cr_max_tokens r with
  | None, Some v => set_chat r (cr_model r) None (Some v) (cr_stream_options r)
  | _, _ => r
  end.

Section chat.
Context {Date : Type} `{EqDecision Date} (parse_from_str : string → string → option Date) (year : string) (format : Date → string → string).
Context (mm : ModelMapper (Date := Date)).

(** The model as a provider of [target] is to be asked for it. *)
Definition mapped_name (model : string) (target : InferenceProvider) : result string ConvError :=
  let? source_model := map_err BadModel (model_id_from_str parse_from_str year model) in
  let? target_model := map_err NotMapped (map_model mm source_model target) in
  Ok (model_id_display format target_model).

(* src: ai-gateway/src/middleware/mapper/openai.rs:561-582 OpenAIConverter::try_convert chat *)
Definition openai_try_convert (r : ChatRequest) : result ChatRequest ConvError :=
  let? model := mapped_name (cr_model r) OpenAI in
  Ok (force_usage (set_model r model)).

(* src: ai-gateway/src/middleware/mapper/openai.rs:584-595 OpenAIConverter::try_convert_model_passthrough chat *)
Definition openai_passthrough (r : ChatRequest) : result ChatRequest ConvError := Ok (force_usage r).

(** The converter of a compatible provider: the provider, and what its metadata
    says of the family. *)
Record CompatibleConverter := mkCompatible { cc_provider : InferenceProvider; cc_openai_compatible : bool; cc_family_ok : bool }.

Definition cc_supported (c : CompatibleConverter) : result unit ConvError :=
  if negb (cc_openai_compatible c) || negb (cc_family_ok c) then Err (ConverterNotSupported (provider_display (cc_provider c))) else Ok tt.

(* src: ai-gateway/src/middleware/mapper/openai_compatible.rs:197-244 OpenAICompatibleConverter::try_convert chat *)
Definition compatible_try_convert (c : CompatibleConverter) (r : ChatRequest) : result ChatRequest ConvError :=
  let? _ := cc_supported c in
  let r := move_max_tokens r in
  let? r := if provider_skips_model_mapping_catalog (router_flags mm) (cc_provider c) then Ok r
            else let? model := mapped_name (cr_model r) (cc_provider c) in Ok (set_model r model) in
  Ok (if default false (cr_stream r) && bool_decide (cr_stream_options r = None)
      then set_chat r (cr_model r) (cr_max_tokens r) (cr_max_completion_tokens r) (Some true) else r).

(* src: ai-gateway/src/middleware/mapper/openai_compatible.rs:246-270 OpenAICompatibleConverter::try_convert_model_passthrough chat *)
Definition compatible_passthrough (c : CompatibleConverter) (r : ChatRequest) : result ChatRequest ConvError :=
  let? _ := cc_supported c in Ok (move_max_tokens r).

(* src: ai-gateway/src/middleware/mapper/google.rs:94-111 GoogleConverter::try_convert *)
Definition google_try_convert (r : ChatRequest) : result ChatRequest ConvError :=
  let? model := mapped_name (cr_model r) GoogleGemini in Ok (set_model r model).

(* src: ai-gateway/src/middleware/mapper/ollama.rs:29-42 OllamaConverter::try_convert *)
Definition ollama_try_convert (r : ChatRequest) : result ChatRequest ConvError :=
  let? model := mapped_name (cr_model r) Ollama in Ok (set_model r model).

(** *** OpenRouter's tool choices *)

(* src: ai-gateway/src/middleware/mapper/openai_compatible.rs:137-142 is_openrouter_provider *)
Definition is_openrouter_provider (p : InferenceProvider) : bool := match p with Named n => String.eqb n "openrouter" | _ => false end.

(* src: ai-gateway/src/middleware/mapper/openai_compatible.rs:144-153 responses_has_function_tool *)
Definition responses_has_function_tool (root : Value) (tool_name : string) : bool :=
  match get "tools" root with
  | Some (Array tools) => existsb (λ t, field_is_str "type" "function" t && field_is_str "name" tool_name t) tools
  | _ => false
  end.

(* src: ai-gateway/src/middleware/mapper/openai_compatible.rs:155-190 patch_openrouter_responses_tool_choice *)
Definition patch_openrouter_responses_tool_choice (from_slice : string → option Value) (to_vec : Value → string) (bytes : string)
  : result string ConvError :=
  let? root := ok_or (from_slice bytes) SerdeError in
  match get "tool_choice" root with
  | Some (Object obj) =>
      match assoc "type" obj with
      | Some _ => Ok bytes
      | None =>
          match assoc "name" obj with
          | Some (Str name) =>
              if is_empty name || negb (responses_has_function_tool root name) then Ok bytes
              else Ok (to_vec (set_field "tool_choice" (Object (assoc_set "type" (Str "function") obj)) root))
          | _ => Ok bytes
          end
      end
  | _ => Ok bytes
  end.
End chat.

(** ** Errors of the registered converters *)

(** The converters of OpenAI's family agree on this one. *)
(* src: ai-gateway/src/middleware/mapper/openai_compatible.rs:403-416 OpenAICompatibleConverter::try_convert_error *)
Definition family_error (status : Z) (e : WrappedError) : WrappedError := e.

(* src: ai-gateway/src/middleware/mapper/anthropic.rs:1001-1009 AnthropicConverter::try_convert_error *)
Definition anthropic_error_to_openai (status : Z) (e : AnthropicApiError) : WrappedError :=
  openai_error_from_status status (Some (ae_message e)).

(* src: ai-gateway/src/middleware/mapper/bedrock.rs:792-798 BedrockConverter::try_convert_error *)
Definition bedrock_error_to_openai (status : Z) (e : unit) : WrappedError := openai_error_from_status status None.

(** ** Theorems *)

(** What the body of an error says: the text itself when it is no JSON, a JSON
    text, an [error] that is a text, the [message] of an [error] object, or the
    [message] of an object without an [error]. *)
Inductive says (j : JsonOps) (bytes : string) : string → Prop :=
| SaysBytes : json_read j bytes = None → says j bytes (trim (from_utf8_lossy bytes))
| SaysText s : json_read j bytes = Some (Str s) → says j bytes s
| SaysError v s : json_read j bytes = Some v → get "error" v = Some (Str s) → says j bytes s
| SaysMessage v fields s :
    json_read j bytes = Some v → get "error" v = Some (Object fields) → assoc "message" fields = Some (Str s) → s ≠ "" →
    says j bytes s
| SaysFlat fields s :
    json_read j bytes = Some (Object fields) → assoc "error" fields = None → assoc "message" fields = Some (Str s) → s ≠ "" →
    says j bytes s.

Lemma wrapped_says j bytes w : strict_wrapped_error j bytes = None → says j bytes w →
  we_message (deserialize_wrapped_error_lenient (strict_wrapped_error j) (json_read j) (json_text j) bytes)
  = take_chars MESSAGE_MAX_CHARS w.
Proof.
  intros Hs Hw. rw /deserialize_wrapped_error_lenient Hs.
  destruct Hw as [Hj|s Hj|v s Hj He|v fields s Hj He Hm Hne|fields s Hj He Hm Hne]; rw Hj; cbn [default].
  - cbn. apply take_chars_short, take_chars_count.
  - done.
  - by rw /wrapped_error_from_json_value He.
  - rw /wrapped_error_from_json_value He /api_error_from_object /either Hm /=. by destruct s.
  - rw /wrapped_error_from_json_value /= He /api_error_from_object /either Hm /=. by destruct s.
Qed.

Lemma anthropic_says j bytes w : strict_anthropic_error j bytes = None → says j bytes w →
  ae_message (deserialize_anthropic_error_lenient (strict_anthropic_error j) (json_read j) (json_text j) bytes)
  = take_chars MESSAGE_MAX_CHARS w.
Proof.
  intros Hs Hw. rw /deserialize_anthropic_error_lenient Hs.
  destruct Hw as [Hj|s Hj|v s Hj He|v fields s Hj He Hm Hne|fields s Hj He Hm Hne]; rw Hj; cbn [default].
  - cbn. apply take_chars_short, take_chars_count.
  - done.
  - by rw /anthropic_error_from_json_value He.
  - by rw /anthropic_error_from_json_value He /either Hm.
  - by rw /anthropic_error_from_json_value /= He /either Hm.
Qed.

(** The body the client gets, once an error is chosen. *)
Definition written {Date SReq TReq TResp SResp TChunk SChunk TErr SErr M}
    (wire : WireOps Date SReq TReq TResp SResp TChunk SChunk TErr SErr M) (e : SErr) : result (option string) (ConvertApiError M) :=
  let? b := ok_or (write_error wire e) CSerialize in Ok (Some b).

(** C29 (error). An upstream's error reaches the client in the upstream's own
    words: when an answer that is not streamed has a status of 400 to 599,
    whatever its body and whether or not completions are repaired, the client's
    body is an error.  Over a converter that passes errors on (OpenAI's family)
    it is the upstream's error when that reads as one of OpenAI's; over
    Anthropic's converter for chat clients it is an OpenAI error of the kind and
    the code of the status, with the message of the upstream's error when that
    reads as one of Anthropic's.  Otherwise its message is the text of the body
    when that is no JSON, or the text in it, in its [error] or in a [message],
    cut at 8192 characters, in either case.  (serde reads back what it wrote;
    streams and Bedrock are not covered, see
    [stream_error_becomes_an_empty_chunk] and [bedrock_error_must_be_null].) *)
Theorem upstream_error_reaches_the_client {Date FReq FReq' FResp FResp' FChunk FChunk' SReq TReq TResp SResp TChunk SChunk Cell M} j
    (fops : ConverterOps FReq FReq' FResp FResp' FChunk FChunk' WrappedError WrappedError Cell M)
    (family : WireOps Date FReq FReq' FResp FResp' FChunk FChunk' WrappedError WrappedError M)
    (ops : ConverterOps SReq TReq TResp SResp TChunk SChunk AnthropicApiError WrappedError Cell M)
    (wire : WireOps Date SReq TReq TResp SResp TChunk SChunk AnthropicApiError WrappedError M)
    reread_wrapped reread_anthropic status bytes (cell : option Cell) lenient :
  error_wire family = LenientWrapped reread_wrapped → (∀ e, reread_wrapped e = Some e) →
  error_wire wire = LenientAnthropic reread_anthropic → (∀ e, reread_anthropic e = Some e) →
  (∀ st e, try_convert_error fops st e = Ok (family_error st e)) →
  (∀ st e, try_convert_error ops st e = Ok (anthropic_error_to_openai st e)) →
  (400 ≤ status < 600)%Z →
  (∃ e, convert_resp_body j fops family status bytes false cell lenient = (cell, written family e) ∧
     (∀ e0, strict_wrapped_error j bytes = Some e0 → e = e0) ∧
     (∀ w, strict_wrapped_error j bytes = None → says j bytes w → we_message e = take_chars MESSAGE_MAX_CHARS w)) ∧
  (∃ e, convert_resp_body j ops wire status bytes false cell lenient = (cell, written wire e) ∧
     we_type e = Some (get_error_type status) ∧ we_code e = get_error_code status ∧
     (∀ e0, strict_anthropic_error j bytes = Some e0 → we_message e = ae_message e0) ∧
     (∀ w, strict_anthropic_error j bytes = None → says j bytes w → we_message e = take_chars MESSAGE_MAX_CHARS w)).
Proof.
  intros Hf Hrw Hw Hra Hfops Hops Hst.
  assert (Hes : is_error_status status = true).
  { rw /is_error_status. apply andb_true_iff. split; [apply Z.leb_le|apply Z.ltb_lt]; lia. }
  split.
  - exists (deserialize_wrapped_error_lenient (strict_wrapped_error j) (json_read j) (json_text j) bytes). split_and!.
    + rw /convert_resp_body Hes Hf /= Hrw /= Hfops. done.
    + intros e0 H. by rw /deserialize_wrapped_error_lenient H.
    + intros w. apply wrapped_says.
  - exists (anthropic_error_to_openai status
      (deserialize_anthropic_error_lenient (strict_anthropic_error j) (json_read j) (json_text j) bytes)). split_and!.
    + rw /convert_resp_body Hes Hw /= Hra /= Hops. done.
    + done.
    + done.
    + intros e0 H. by rw /= /deserialize_anthropic_error_lenient H.
    + intros w. apply anthropic_says.
Qed.

(** Bedrock's error is read strictly, as a unit struct: a body that serde does
    not read as one ends in an internal error. *)
Lemma bedrock_error_must_be_null {Date SReq TReq TResp SResp TChunk SChunk Cell M} j
    (ops : ConverterOps SReq TReq TResp SResp TChunk SChunk unit WrappedError Cell M)
    (wire : WireOps Date SReq TReq TResp SResp TChunk SChunk unit WrappedError M) read status bytes (cell : option Cell) lenient :
  error_wire wire = StrictError read → is_error_status status = true → read bytes = None →
  convert_resp_body j ops wire status bytes false cell lenient = (cell, Err CDeserialize).
Proof. intros Hw Hs Hr. by rw /convert_resp_body Hs Hw /= Hr. Qed.

(** An upstream that reports an error in the middle of a stream is repaired into
    a chunk without choices: nothing of the error is left. *)
Theorem stream_error_becomes_an_empty_chunk uuid now e :
  let v := ensure_openai_chat_completion_required_fields_in_place uuid now
             (normalize_chat_completion_roles_in_place (Object [("error", e)]) true).1 true in
  get "choices" v = Some (Array []) ∧ get "id" v = Some (Str ("chatcmpl-" ++ uuid)) ∧ get "model" v = Some (Str "") ∧
  get "created" v = Some (Number now) ∧ get "object" v = Some (Str "chat.completion.chunk").
Proof. done. Qed.

(** Clients of OpenAI itself are always sent a report of usage with a stream,
    also when they asked not to be. *)
Theorem usage_is_forced {Date} `{EqDecision Date} parse year format (mm : ModelMapper (Date := Date)) r r' :
  cr_stream r = Some true → openai_try_convert parse year format mm r = Ok r' ∨ openai_passthrough r = Ok r' →
  cr_stream_options r' = Some true.
Proof.
  intros Hs [H|H].
  - rw /openai_try_convert in H. destruct (mapped_name _ _ _ _ _ _) as [s|]; simplify_eq/=. rw /force_usage. change (cr_stream (set_model r s)) with (cr_stream r). by rw Hs.
  - injection H as <-. by rw /force_usage Hs.
Qed.

(** A compatible provider is asked for usage when the model is mapped, and not
    when the model of the request is passed on. *)
Theorem passed_on_streams_report_no_usage c r r' : cr_stream_options r = None → compatible_passthrough c r = Ok r' →
  cr_stream_options r' = None.
Proof.
  rw /compatible_passthrough. destruct (cc_supported c); [|done]. simpl. intros Hs [= <-]. rw /move_max_tokens. by repeat case_match.
Qed.

(** The context of a converted request says what the request was. *)
Theorem converted_request_context {Date SReq TReq TResp SResp TChunk SChunk TErr SErr Cell Origin M} (cell : Cell)
    (ops : ConverterOps SReq TReq TResp SResp TChunk SChunk TErr SErr Cell M)
    (wire : WireOps Date SReq TReq TResp SResp TChunk SChunk TErr SErr M) bytes b (ctx : MapperContext Date Cell Origin) :
  convert_req_body cell ops wire bytes = Ok (b, ctx) →
  ∃ s t m, read_source wire bytes = Some s ∧ try_convert ops s = Ok t ∧ target_model wire t = Ok m ∧
    mc_model ctx = Some m ∧ mc_is_stream ctx = source_is_stream wire s ∧
    (is_Some (mc_usage ctx) ↔ source_is_stream wire s = true) ∧ mc_native_passthrough ctx = false.
Proof.
  rw /convert_req_body /convert_req_body_with. destruct (read_source wire bytes) as [s|]; [|done]. simpl.
  destruct (try_convert ops s) as [t|] eqn:Et; [|done]. simpl. destruct (target_model wire t) as [m|] eqn:Em; [|done]. simpl.
  destruct (write_target wire t); [|done]. simpl. destruct (postprocess_converted_req_body ops _); [|done]. simpl.
  intros [= <- <-]. exists s, t, m. split_and!; try done. simpl. destruct (source_is_stream wire s); simpl; split; try done; eauto.
Qed.

(** ** Witness *)

Definition plain_json : JsonOps :=
  mkJsonOps (λ s, if String.eqb s "null" then Some Null else None) (λ _, "") (λ _, None) (λ _, None) (λ _, "") "u" "0".

Definition sample_wire {TErr} (w : ErrorWire TErr) :
    WireOps unit ChatRequest ChatRequest unit unit unit unit TErr WrappedError ConvError :=
  mkWire "v1/chat/completions" "v1/chat/completions" (λ _, false) (λ _, Ok (Unknown "m")) (λ _, None) (λ _, None) (λ _, None) (λ _, None)
    (λ _, None) (λ _, None) w (λ e, Some (we_message e)).

Definition sample_anthropic_ops : ConverterOps ChatRequest ChatRequest unit unit unit unit AnthropicApiError WrappedError unit ConvError :=
  mkOps Ok Ok (λ _, None) Ok Ok (λ cell chunk, (cell, Ok (Some chunk))) (λ st e, Ok (anthropic_error_to_openai st e)).

Definition sample_family_ops : ConverterOps ChatRequest ChatRequest unit unit unit unit WrappedError WrappedError unit ConvError :=
  mkOps Ok Ok (λ _, None) Ok Ok (λ cell chunk, (cell, Ok (Some chunk))) (λ st e, Ok (family_error st e)).

Lemma upstream_error_reaches_the_client_witness :
  ∃ e, convert_resp_body plain_json sample_anthropic_ops (sample_wire (LenientAnthropic Some)) 429 "busy" false None false
         = (None, written (sample_wire (LenientAnthropic Some)) e) ∧
       we_message e = "busy" ∧ we_code e = Some "rate_limit_exceeded".
Proof.
  destruct (upstream_error_reaches_the_client plain_json sample_family_ops (sample_wire (LenientWrapped Some)) sample_anthropic_ops
    (sample_wire (LenientAnthropic Some)) Some Some 429 "busy" None false eq_refl (λ _, eq_refl) eq_refl (λ _, eq_refl) (λ _ _, eq_refl) (λ _ _, eq_refl)
    ltac:(lia)) as (_ & e & He & _ & Hc & _ & Hm).
  exists e. split; [exact He|]. split; [|exact Hc].
  rw (Hm "busy" eq_refl); [|exact (SaysBytes plain_json "busy" eq_refl)]. apply take_chars_short. cbn [count_chars]. 
  unfold MESSAGE_MAX_CHARS. pose proof (Nat.pow_le_mono_r 2 3 13 ltac:(lia) ltac:(lia)). simpl. lia.
Defined.
