(* ===== verification/ResponsesBridge.v ===== *)
(** * The bridges between chat streams and Responses streams

    Models [ai-gateway/src/ide_adapation/unified_responses_chat_compat.rs], which
    turns the events of a Responses stream into chunks of a chat stream, and
    [cursor_responses_openrouter_bridge.rs], which turns a Responses request into
    a chat request and the chunks of its answer into Responses events, with the
    bodies of answers that are not streamed.

    A bridge is a state machine that writes records.  A record is kept as the
    value it carries; [put_sse_record] gives its bytes.  Writing these values as
    JSON cannot fail, so [to_vec] is total.  Identifiers of items come from
    [Uuid::new_v4]: [fresh n] is the [n]th one asked for. *)

From S2P Require Import Prelude RustStr Json ChatTypes MapperProfiles AnthropicMap AnthropicStream Provider HealthMonitor Routing MapperRegistry ResponsesToChat ResponsesIngress.
From Stdlib Require Import Ascii.
Local Open Scope string_scope.

(** ** Steps that write *)

Definition Emit (S A : Type) : Type := S → S * list A.
Definition emit {S A} (a : A) : Emit S A := λ s, (s, [a]).
Definition silent {S A} : Emit S A := λ s, (s, []).
Definition update {S A} (f : S → S) : Emit S A := λ s, (f s, []).
Definition and_then {S A} (p q : Emit S A) : Emit S A := λ s, let r := p s in let t := q r.1 in (t.1, (r.2 ++ t.2)%list).
Definition emit_when {S A} (b : bool) (p : Emit S A) : Emit S A := if b then p else silent.
(** A step that looks at the state first. *)
Definition reading {S A} (p : S → Emit S A) : Emit S A := λ s, p s s.
Fixpoint emit_all {S A B} (step : B → Emit S A) (l : list B) : Emit S A :=
  match l with [] => silent | b :: l => and_then (step b) (emit_all step l) end.

Declare Scope emit_scope.
Delimit Scope emit_scope with emit.
Notation "p ;; q" := (and_then p q) (at level 100, q at level 200, right associativity) : emit_scope.
Local Open Scope emit_scope.

(* src: ai-gateway/src/ide_adapation/unified_responses_chat_compat.rs:80-84 put_sse_record *)
Definition put_sse_record (payload : string) : string := "data: " ++ payload ++ line ++ line.

(** ** From Responses events to chat chunks *)

Module Unified.

(* src: ai-gateway/src/ide_adapation/unified_responses_chat_compat.rs:27-36 BridgeStreamState *)
Record BridgeStreamState := mkBridge {
  bs_completion_id : option string;
  bs_model : option string;
  bs_role_sent : bool;
  bs_has_tool_calls : bool;
  bs_hidden_text_item_ids : gset string;
  bs_tool_call_indices : gmap string Z;
  bs_next_tool_index : Z
}.

(* src: ai-gateway/src/ide_adapation/unified_responses_chat_compat.rs:26-27 BridgeStreamState::default *)
Definition start : BridgeStreamState := mkBridge None None false false ∅ ∅ 0.

(** What the client is sent: a chunk, an error object or the end of the stream. *)
Inductive ChatRecord := RecChunk (c : StreamResponse) | RecError (v : Value) | RecDone.

Definition as_u32 (n : Z) : Z := (n mod 2 ^ 32)%Z.

(* src: ai-gateway/src/ide_adapation/unified_responses_chat_compat.rs:38-49 parse_prompt_tokens_details *)
Definition parse_prompt_tokens_details (v : Value) : option PromptTokensDetails :=
  (λ d, mkPromptDetails None (as_u32 <$> (get "cached_tokens" d ≫= as_u64)) None None) <$> get "input_tokens_details" v.

(* src: ai-gateway/src/ide_adapation/unified_responses_chat_compat.rs:51-62 parse_completion_tokens_details *)
Definition parse_completion_tokens_details (v : Value) : option CompletionTokensDetails :=
  (λ d, mkCompletionDetails None None (as_u32 <$> (get "reasoning_tokens" d ≫= as_u64)) None) <$> get "output_tokens_details" v.

(* src: ai-gateway/src/ide_adapation/unified_responses_chat_compat.rs:64-78 completion_usage_from_responses_value *)
Definition completion_usage_from_responses_value (u : Value) : option CompletionUsage :=
  input ← get "input_tokens" u ≫= as_u64;
  output ← get "output_tokens" u ≫= as_u64;
  let total := match get "total_tokens" u ≫= as_u64 with
               | Some t => as_u32 t
               | None => u32_saturating_add (as_u32 input) (as_u32 output)
               end in
  Some (mkUsage (as_u32 input) (as_u32 output) total (parse_prompt_tokens_details u) (parse_completion_tokens_details u)).

(* src: ai-gateway/src/ide_adapation/unified_responses_chat_compat.rs:98-108 ingest_response_snapshot *)
Definition ingest_response_snapshot (resp : option Value) (s : BridgeStreamState) : BridgeStreamState :=
  match resp with
  | None => s
  | Some r =>
      mkBridge (or_else (str_field_of "id" r) (bs_completion_id s)) (or_else (str_field_of "model" r) (bs_model s))
        (bs_role_sent s) (bs_has_tool_calls s) (bs_hidden_text_item_ids s) (bs_tool_call_indices s) (bs_next_tool_index s)
  end.

(* src: ai-gateway/src/ide_adapation/unified_responses_chat_compat.rs:110-114 completion_id *)
Definition completion_id (s : BridgeStreamState) : string := default "chatcmpl-bridge" (bs_completion_id s).
(* src: ai-gateway/src/ide_adapation/unified_responses_chat_compat.rs:116-118 model_name *)
Definition model_name (s : BridgeStreamState) : string := default "unknown" (bs_model s).

Definition with_role_sent (s : BridgeStreamState) : BridgeStreamState :=
  mkBridge (bs_completion_id s) (bs_model s) true (bs_has_tool_calls s) (bs_hidden_text_item_ids s) (bs_tool_call_indices s) (bs_next_tool_index s).
Definition with_tool_calls (s : BridgeStreamState) : BridgeStreamState :=
  mkBridge (bs_completion_id s) (bs_model s) (bs_role_sent s) true (bs_hidden_text_item_ids s) (bs_tool_call_indices s) (bs_next_tool_index s).
Definition with_hidden (id : string) (s : BridgeStreamState) : BridgeStreamState :=
  mkBridge (bs_completion_id s) (bs_model s) (bs_role_sent s) (bs_has_tool_calls s) ({[id]} ∪ bs_hidden_text_item_ids s) (bs_tool_call_indices s) (bs_next_tool_index s).
Definition with_call (id : string) (s : BridgeStreamState) : BridgeStreamState :=
  mkBridge (bs_completion_id s) (bs_model s) (bs_role_sent s) (bs_has_tool_calls s) (bs_hidden_text_item_ids s)
    (<[id := bs_next_tool_index s]> (bs_tool_call_indices s)) (u32_wrapping_add (bs_next_tool_index s) 1).

Abbreviation Step := (Emit BridgeStreamState ChatRecord).

(** A chunk with the identity of the answer. *)
Definition say (c : StreamChoice) (usage : option CompletionUsage) : Step :=
  reading (λ s, emit (RecChunk (build_stream_response (completion_id s) (model_name s) [c] usage))).

(* src: ai-gateway/src/ide_adapation/unified_responses_chat_compat.rs:120-133 push_role_if_needed *)
Definition push_role_if_needed : Step :=
  reading (λ s, emit_when (negb (bs_role_sent s)) (say (build_role_choice 0 OaAssistant) None ;; update with_role_sent)).

(* src: ai-gateway/src/ide_adapation/unified_responses_chat_compat.rs:135-154 finish_chunk *)
Definition finish_chunk (usage : option CompletionUsage) : Step :=
  reading (λ s, say (build_finish_choice (Some (if bs_has_tool_calls s then FinishToolCalls else FinishStop))
                       (mkUsage 0 0 0 None None) None) usage).

(** The types of events the bridge knows. *)
Inductive EventKind :=
| Snapshot | SummaryDelta | OutputTextDelta | ReasoningDelta | RefusalDelta | ItemAdded
| ArgumentsDelta | ArgumentsDone | Completed | ErrorEvent | Failed | OtherEvent.

(* src: ai-gateway/src/ide_adapation/unified_responses_chat_compat.rs:171-345 process_upstream_sse_json dispatch *)
Definition kind_names : list (string * EventKind) := [
  ("response.created", Snapshot); ("response.in_progress", Snapshot);
  ("response.reasoning_summary_text.delta", SummaryDelta); ("response.output_text.delta", OutputTextDelta);
  ("response.reasoning_text.delta", ReasoningDelta); ("response.refusal.delta", RefusalDelta);
  ("response.output_item.added", ItemAdded); ("response.function_call_arguments.delta", ArgumentsDelta);
  ("response.function_call_arguments.done", ArgumentsDone); ("response.completed", Completed);
  ("error", ErrorEvent); ("response.failed", Failed)].

Fixpoint kind_of (names : list (string * EventKind)) (ty : string) : EventKind :=
  match names with [] => OtherEvent | (name, k) :: names => if String.eqb name ty then k else kind_of names ty end.
Definition event_kind (v : Value) : EventKind := kind_of kind_names (str_field v "type" "").

(** The fields of an event that are read. *)
Definition delta_of (v : Value) : string := str_field v "delta" "".
Definition item_id_of (v : Value) : string := str_field v "item_id" "".

(** A chunk of the answer, after the one that announces the role. *)
Definition say_as_assistant (c : StreamChoice) : Step := push_role_if_needed ;; say c None.

(* src: ai-gateway/src/ide_adapation/unified_responses_chat_compat.rs:238-288 process_upstream_sse_json response.output_item.added *)
Definition item_added (item : Value) : Step :=
  let is_commentary := field_is_str "type" "message" item && field_is_str "phase" "commentary" item in
  emit_when is_commentary (match str_field_of "id" item with Some id => update (with_hidden id) | None => silent end) ;;
  emit_when (field_is_str "type" "function_call" item) (
    let item_id := str_field item "id" "" in
    let call_id := str_field item "call_id" item_id in
    let name := str_field item "name" "" in
    update with_tool_calls ;;
    reading (λ s,
      let idx := bs_next_tool_index s in
      update (with_call item_id) ;;
      say_as_assistant (build_tool_choice 0 (build_tool_call_chunk idx (Some call_id) (Some name) (Some ""))))).

Definition opt_str_value (o : option string) : Value := from_option Str Null o.

(* src: ai-gateway/src/ide_adapation/unified_responses_chat_compat.rs:157-352 process_upstream_sse_json *)
Definition process_event (v : Value) : Step :=
  let delta := delta_of v in
  match event_kind v with
  | Snapshot => update (ingest_response_snapshot (get "response" v))
  | SummaryDelta => silent
  | OutputTextDelta =>
      reading (λ s,
        let hidden := match str_field_of "item_id" v with Some id => bool_decide (id ∈ bs_hidden_text_item_ids s) | None => false end in
        emit_when (negb hidden && negb (is_empty delta)) (say_as_assistant (build_text_choice 0 delta)))
  | ReasoningDelta => emit_when (negb (is_empty delta)) (say_as_assistant (build_reasoning_choice 0 delta))
  | RefusalDelta =>
      emit_when (negb (is_empty delta))
        (say_as_assistant (mkStreamChoice 0 (mkDelta None None None None (Some delta) None) None None))
  | ItemAdded => match get "item" v with Some item => item_added item | None => silent end
  | ArgumentsDelta =>
      emit_when (negb (is_empty delta)) (reading (λ s,
        let idx := default 0%Z (bs_tool_call_indices s !! item_id_of v) in
        say (build_tool_choice 0 (build_tool_call_chunk idx None None (Some delta))) None))
  | ArgumentsDone => update with_tool_calls
  | Completed =>
      update (ingest_response_snapshot (get "response" v)) ;; push_role_if_needed ;;
      finish_chunk (get2 "response" "usage" v ≫= completion_usage_from_responses_value) ;; emit RecDone
  | ErrorEvent =>
      emit (RecError (Object [("error", Object [
        ("message", Str (str_field v "message" "unknown error")); ("type", Str "invalid_request_error");
        ("code", opt_str_value (str_field_of "code" v)); ("param", opt_str_value (str_field_of "param" v))])]))
  | Failed =>
      update (ingest_response_snapshot (get "response" v)) ;; push_role_if_needed ;; finish_chunk None ;; emit RecDone
  | OtherEvent => silent
  end.

Section wire.
Context (from_slice : string → option Value) (chunk_text : StreamResponse → string) (value_text : Value → string).

Definition record_text (r : ChatRecord) : string :=
  put_sse_record (match r with RecChunk c => chunk_text c | RecError v => value_text v | RecDone => "[DONE]" end).

(** A frame of the upstream that is not JSON ends the stream; a frame that gives
    nothing is left out. *)
(* src: ai-gateway/src/ide_adapation/mapper_service_hooks.rs:345-374 map_stream_unified_responses_chat_bridge *)
Fixpoint bridge_frames (s : BridgeStreamState) (frames : list string) : list string * option string :=
  match frames with
  | [] => ([], None)
  | raw :: frames =>
      match from_slice raw with
      | None => ([], Some "responses_sse_event")
      | Some v =>
          let r := process_event v s in
          let rest := bridge_frames r.1 frames in
          ((match r.2 with [] => [] | l => [String.concat "" (map record_text l)] end ++ rest.1)%list, rest.2)
      end
  end.
End wire.

End Unified.

(** ** From chat chunks to Responses events *)

Module Cursor.

(* src: ai-gateway/src/ide_adapation/cursor_responses_openrouter_bridge.rs:276-283 ToolStreamTrack *)
Record ToolStreamTrack := mkTrack {
  tk_item_id : string;
  tk_call_id : string;
  tk_name : string;
  tk_arguments : string;
  tk_added : bool;
  tk_done : bool
}.

(** [st_uuids] counts the identifiers that were drawn. *)
(* src: ai-gateway/src/ide_adapation/cursor_responses_openrouter_bridge.rs:286-304 CursorChatToResponsesStreamState *)
Record StreamState := mkStream {
  st_seq : Z;
  st_started : bool;
  st_message_item_id : string;
  st_message_shell : bool;
  st_reasoning_item_id : string;
  st_reasoning_shell : bool;
  st_resp_id : option string;
  st_model : option string;
  st_created : option Z;
  st_tools : gmap Z ToolStreamTrack;
  st_last_usage : option CompletionUsage;
  st_last_finish : option FinishReason;
  st_emit_content_part_shell : bool;
  st_emit_tool_done : bool;
  st_uuids : nat
}.

Abbreviation Step := (Emit StreamState Value).

Definition with_seq (n : Z) (s : StreamState) : StreamState :=
  mkStream n (st_started s) (st_message_item_id s) (st_message_shell s) (st_reasoning_item_id s) (st_reasoning_shell s)
    (st_resp_id s) (st_model s) (st_created s) (st_tools s) (st_last_usage s) (st_last_finish s)
    (st_emit_content_part_shell s) (st_emit_tool_done s) (st_uuids s).
Definition with_shells (message reasoning : bool) (s : StreamState) : StreamState :=
  mkStream (st_seq s) (st_started s) (st_message_item_id s) message (st_reasoning_item_id s) reasoning
    (st_resp_id s) (st_model s) (st_created s) (st_tools s) (st_last_usage s) (st_last_finish s)
    (st_emit_content_part_shell s) (st_emit_tool_done s) (st_uuids s).
Definition with_header (id model : string) (created : Z) (s : StreamState) : StreamState :=
  mkStream (st_seq s) true (st_message_item_id s) (st_message_shell s) (st_reasoning_item_id s) (st_reasoning_shell s)
    (Some id) (Some model) (Some created) (st_tools s) (st_last_usage s) (st_last_finish s)
    (st_emit_content_part_shell s) (st_emit_tool_done s) (st_uuids s).
Definition with_last (usage : option CompletionUsage) (finish : option FinishReason) (s : StreamState) : StreamState :=
  mkStream (st_seq s) (st_started s) (st_message_item_id s) (st_message_shell s) (st_reasoning_item_id s) (st_reasoning_shell s)
    (st_resp_id s) (st_model s) (st_created s) (st_tools s) usage finish
    (st_emit_content_part_shell s) (st_emit_tool_done s) (st_uuids s).
Definition with_tools (tools : gmap Z ToolStreamTrack) (uuids : nat) (s : StreamState) : StreamState :=
  mkStream (st_seq s) (st_started s) (st_message_item_id s) (st_message_shell s) (st_reasoning_item_id s) (st_reasoning_shell s)
    (st_resp_id s) (st_model s) (st_created s) tools (st_last_usage s) (st_last_finish s)
    (st_emit_content_part_shell s) (st_emit_tool_done s) uuids.

Definition first_non_empty (v : Value) (keys : list string) : option string :=
  head (omap (λ key, s ← str_field_of key v; if is_empty s then None else Some s) keys).

(* src: ai-gateway/src/ide_adapation/cursor_responses_openrouter_bridge.rs:306-319 delta_reasoning_text *)
Definition delta_reasoning_text (raw : Value) : option string :=
  choices ← get "choices" raw ≫= as_array;
  delta ← head choices ≫= get "delta";
  first_non_empty delta ["reasoning_content"; "reasoning"].

(* src: ai-gateway/src/ide_adapation/cursor_responses_openrouter_bridge.rs:321-335 nonstream_choice_reasoning_text *)
Definition nonstream_choice_reasoning_text (raw : Value) (index : nat) : option string :=
  choices ← get "choices" raw ≫= as_array;
  message ← choices !! index ≫= get "message";
  first_non_empty message ["reasoning_content"; "reasoning"].

(* src: ai-gateway/src/ide_adapation/cursor_responses_openrouter_bridge.rs:337-342 chat_reasoning_tokens *)
Definition chat_reasoning_tokens (raw : Value) : option Z :=
  usage ← get "usage" raw;
  details ← get "completion_tokens_details" usage;
  get "reasoning_tokens" details ≫= as_u64.

(** The identifier of a Responses answer made from that of a chat answer. *)
Definition response_id (id : string) : string :=
  if starts_with "resp_" id then id else "resp_" ++ default id (strip_prefix "chatcmpl-" id).

Section bridge.
Context (fresh : nat → string).
(** The order in which the tracks of the hash map are visited. *)
Context (order : gmap Z ToolStreamTrack → list Z).

(* src: ai-gateway/src/ide_adapation/cursor_responses_openrouter_bridge.rs:345-351 with_tool_done_events *)
Definition with_tool_done_events (emit_tool_done_events : bool) : StreamState :=
  mkStream 0 false ("msg_" ++ fresh 0) false ("rs_" ++ fresh 1) false None None None ∅ None None
    emit_tool_done_events emit_tool_done_events 2.

Definition snapshot (type rid model : string) (created : Z) : Value :=
  Object [("type", Str type); ("response", Object [
    ("id", Str rid); ("object", Str "response"); ("created_at", num created); ("model", Str model); ("status", Str "in_progress")])].

(* src: ai-gateway/src/ide_adapation/cursor_responses_openrouter_bridge.rs:359-415 ensure_header *)
Definition ensure_header (chunk : StreamResponse) : Step :=
  reading (λ s, emit_when (negb (st_started s)) (
    let rid := default (response_id (sr_id chunk)) (st_resp_id s) in
    let model := default (sr_model chunk) (st_model s) in
    let created := default (sr_created chunk) (st_created s) in
    update (with_header rid model created) ;;
    emit (snapshot "response.created" rid model created) ;; emit (snapshot "response.in_progress" rid model created))).

(* src: ai-gateway/src/ide_adapation/cursor_responses_openrouter_bridge.rs:417-453 ensure_message_streaming_shell *)
Definition ensure_message_streaming_shell : Step :=
  reading (λ s, emit_when (negb (st_message_shell s)) (
    update (with_shells true (st_reasoning_shell s)) ;;
    emit (Object [("type", Str "response.output_item.added"); ("output_index", num 0); ("item", Object [
      ("id", Str (st_message_item_id s)); ("type", Str "message"); ("status", Str "in_progress"); ("role", Str "assistant");
      ("content", Array [])])]) ;;
    emit_when (st_emit_content_part_shell s)
      (emit (Object [("type", Str "response.content_part.added"); ("item_id", Str (st_message_item_id s));
        ("output_index", num 0); ("content_index", num 0);
        ("part", Object [("type", Str "output_text"); ("text", Str ""); ("annotations", Array [])])])))).

(* src: ai-gateway/src/ide_adapation/cursor_responses_openrouter_bridge.rs:455-474 ensure_reasoning_streaming_shell *)
Definition ensure_reasoning_streaming_shell : Step :=
  reading (λ s, emit_when (negb (st_reasoning_shell s)) (
    update (with_shells (st_message_shell s) true) ;;
    emit (Object [("type", Str "response.output_item.added"); ("output_index", num 0); ("item", Object [
      ("id", Str (st_reasoning_item_id s)); ("type", Str "reasoning"); ("status", Str "in_progress"); ("summary", Array [])])]))).

(** [next_seq]: the number is used and counted. *)
(* src: ai-gateway/src/ide_adapation/cursor_responses_openrouter_bridge.rs:353-357 next_seq *)
Definition numbered (event : Z → Value) : Step :=
  reading (λ s, update (with_seq (st_seq s + 1)) ;; emit (event (st_seq s))).

Definition arguments_delta (item_id arg : string) : Value :=
  Object [("type", Str "response.function_call_arguments.delta"); ("item_id", Str item_id); ("output_index", num 0); ("delta", Str arg)].

Definition call_added (tr : ToolStreamTrack) : Value :=
  Object [("type", Str "response.output_item.added"); ("output_index", num 0); ("item", Object [
    ("id", Str (tk_item_id tr)); ("type", Str "function_call"); ("call_id", Str (tk_call_id tr)); ("name", Str (tk_name tr));
    ("arguments", Str "")])].

(** The track of an index: the one there is, or a new one with fresh identifiers. *)
(* src: ai-gateway/src/ide_adapation/cursor_responses_openrouter_bridge.rs:506-519 process_upstream_chat_chunk tracks *)
Definition track_for (t : ToolCallChunk) (s : StreamState) : ToolStreamTrack * nat :=
  match st_tools s !! chunk_index t with
  | Some tr => (tr, st_uuids s)
  | None =>
      let n := st_uuids s in
      match chunk_id t with
      | Some id => (mkTrack ("item_" ++ fresh n) id "" "" false false, (n + 1)%nat)
      | None => (mkTrack ("item_" ++ fresh n) ("call_" ++ fresh (n + 1)) "" "" false false, (n + 2)%nat)
      end
  end.

(* src: ai-gateway/src/ide_adapation/cursor_responses_openrouter_bridge.rs:504-565 process_upstream_chat_chunk tool calls *)
Definition on_tool_chunk (t : ToolCallChunk) : Step :=
  reading (λ s,
    let '(tr, uuids) := track_for t s in
    let call_id := default (tk_call_id tr) (chunk_id t) in
    let name := default (tk_name tr) (chunk_function t ≫= fcs_name) in
    let arg := default "" (chunk_function t ≫= fcs_arguments) in
    let announce := negb (tk_added tr) && (negb (is_empty name) || bool_decide (is_Some (chunk_function t))) && negb (is_empty name) in
    let tr' := mkTrack (tk_item_id tr) call_id name (tk_arguments tr ++ arg) (tk_added tr || announce) (tk_done tr) in
    update (with_tools (<[chunk_index t := tr']> (st_tools s)) uuids) ;;
    emit_when announce (emit (call_added tr')) ;;
    emit_when (negb (is_empty arg)) (emit (arguments_delta (tk_item_id tr) arg))).

(* src: ai-gateway/src/ide_adapation/cursor_responses_openrouter_bridge.rs:608-637 emit_tool_done_events loop *)
Definition tool_done (idx : Z) : Step :=
  reading (λ s,
    match st_tools s !! idx with
    | Some tr =>
        emit_when (tk_added tr && negb (tk_done tr)) (
          emit (Object [("type", Str "response.function_call_arguments.done"); ("item_id", Str (tk_item_id tr));
            ("output_index", num 0); ("arguments", Str (tk_arguments tr))]) ;;
          emit (Object [("type", Str "response.output_item.done"); ("output_index", num 0); ("item", Object [
            ("id", Str (tk_item_id tr)); ("type", Str "function_call"); ("call_id", Str (tk_call_id tr)); ("name", Str (tk_name tr));
            ("arguments", Str (tk_arguments tr)); ("status", Str "completed")])]) ;;
          update (λ s, with_tools (<[idx := mkTrack (tk_item_id tr) (tk_call_id tr) (tk_name tr) (tk_arguments tr) true true]> (st_tools s))
                         (st_uuids s) s))
    | None => silent
    end).

(* src: ai-gateway/src/ide_adapation/cursor_responses_openrouter_bridge.rs:604-639 emit_tool_done_events *)
Definition emit_tool_done_events : Step :=
  reading (λ s, emit_when (st_emit_tool_done s) (emit_all tool_done (order (st_tools s)))).

Definition refusal_delta (r : string) (n : Z) : Value :=
  Object [("type", Str "response.refusal.delta"); ("sequence_number", num n); ("delta", Str r)].
Definition item_delta (type item_id delta : string) (n : Z) : Value :=
  Object [("type", Str type); ("item_id", Str item_id); ("output_index", num 0); ("content_index", num 0);
          ("delta", Str delta); ("sequence_number", num n)].

(** What is done with the first choice of a chunk. *)
(* src: ai-gateway/src/ide_adapation/cursor_responses_openrouter_bridge.rs:486-596 process_upstream_chat_chunk choice *)
Definition on_choice (ch : StreamChoice) (reasoning : option string) : Step :=
  let d := sc_delta ch in
  update (λ s, with_last (st_last_usage s) (or_else (sc_finish_reason ch) (st_last_finish s)) s) ;;
  emit_when (negb (is_empty (default "" (d_refusal d)))) (numbered (refusal_delta (default "" (d_refusal d)))) ;;
  emit_all on_tool_chunk (default [] (d_tool_calls d)) ;;
  emit_when (negb (is_empty (default "" (d_content d)))) (
    ensure_message_streaming_shell ;;
    reading (λ s, numbered (item_delta "response.output_text.delta" (st_message_item_id s) (default "" (d_content d))))) ;;
  match reasoning with
  | Some r => ensure_reasoning_streaming_shell ;;
              reading (λ s, numbered (item_delta "response.reasoning_text.delta" (st_reasoning_item_id s) r))
  | None => silent
  end.

(* src: ai-gateway/src/ide_adapation/cursor_responses_openrouter_bridge.rs:476-602 process_upstream_chat_chunk *)
Definition process_upstream_chat_chunk (chunk : StreamResponse) (raw : Value) : Step :=
  ensure_header chunk ;;
  update (λ s, with_last (or_else (sr_usage chunk) (st_last_usage s)) (st_last_finish s) s) ;;
  match sr_choices chunk with ch :: _ => on_choice ch (delta_reasoning_text raw) | [] => silent end ;;
  reading (λ s, emit_when (match st_last_finish s with Some FinishToolCalls => true | _ => false end) emit_tool_done_events).

Definition usage_value (u : CompletionUsage) : Value :=
  Object [("input_tokens", num (prompt_tokens u)); ("output_tokens", num (completion_tokens u)); ("total_tokens", num (total_tokens u))].

(** The events of the end; the end marker follows them. *)
(* src: ai-gateway/src/ide_adapation/cursor_responses_openrouter_bridge.rs:641-688 finalize_stream *)
Definition finalize_stream : Step :=
  reading (λ s,
    let incomplete := match st_last_finish s with
                      | Some FinishLength => Object [("reason", Str "max_output_tokens")] | _ => Null end in
    let status := match st_last_finish s with Some FinishLength => "incomplete" | _ => "completed" end in
    emit (Object [("type", Str "response.completed"); ("response", Object [
      ("id", Str (default ("resp_" ++ fresh (st_uuids s)) (st_resp_id s))); ("object", Str "response");
      ("created_at", num (default 0%Z (st_created s))); ("model", Str (default "unknown" (st_model s)));
      ("status", Str status); ("usage", from_option usage_value Null (st_last_usage s)); ("incomplete_details", incomplete)])])).

(** ** The stream *)

(** [u8::is_ascii_whitespace]. *)
Definition is_ascii_whitespace (c : ascii) : bool :=
  match byte_of c with 9 | 10 | 12 | 13 | 32 => true | _ => false end%Z.
Fixpoint skip_whitespace (s : string) : string :=
  match s with String c s' => if is_ascii_whitespace c then skip_whitespace s' else s | "" => "" end.
(** The part up to the last byte that is not white space. *)
Fixpoint without_trailing (s : string) : string :=
  match s with
  | "" => ""
  | String c s' => let t := without_trailing s' in if is_empty t && is_ascii_whitespace c then "" else String c t
  end.

(* src: ai-gateway/src/ide_adapation/cursor_responses_openrouter_bridge.rs:712-721 trim_sse_payload *)
Definition trim_sse_payload (bytes : string) : string := without_trailing (skip_whitespace bytes).

Section stream.
Context (from_slice : string → option StreamResponse) (to_value : StreamResponse → Value).

Definition is_payload (frame : string) : bool :=
  negb (is_empty (trim_sse_payload frame)) && negb (trim_sse_payload frame =? "[DONE]").

Definition on_chunk (c : StreamResponse) : Step := process_upstream_chat_chunk c (to_value c).

(** The events of every frame and at last those of the end, then the end
    marker; a frame that is not a chunk ends the stream with an error. *)
(* src: ai-gateway/src/ide_adapation/cursor_responses_openrouter_bridge.rs:723-773 map_stream_response_chat_to_responses *)
Fixpoint map_frames (frames : list string) (s : StreamState) : list Value * option string :=
  match frames with
  | [] => ((finalize_stream s).2, None)
  | frame :: frames =>
      if negb (is_payload frame) then map_frames frames s
      else match from_slice (trim_sse_payload frame) with
           | None => ([], Some "CreateChatCompletionStreamResponse")
           | Some c => let r := on_chunk c s in let rest := map_frames frames r.1 in ((r.2 ++ rest.1)%list, rest.2)
           end
  end.

(** The events for the chunks of a stream. *)
Definition stream_events (emit_tool_done_events : bool) (chunks : list StreamResponse) : list Value :=
  ((emit_all on_chunk chunks ;; finalize_stream) (with_tool_done_events emit_tool_done_events)).2.
End stream.
End bridge.

(** ** An answer that is not streamed *)

Section answer.
Context (fresh : nat → string).
(** The JSON of the echoed parts of the request. *)
Context (tool_choice_value : RespToolChoice → Value) (tools_value : list ToolDefinition → Value) (f32_value : F32 → Value).

(* src: ai-gateway/src/ide_adapation/cursor_responses_openrouter_bridge.rs:805-841 map_json_response_chat_to_responses choices *)
Definition choice_items (raw : Value) (n idx : nat) (ch : ChatChoice) : list Value :=
  let reasoning := from_option (λ r, [("rs_", λ id, Object [("id", Str id); ("type", Str "reasoning"); ("status", Str "completed");
                                   ("summary", Array [Object [("text", Str r)]])])]) [] (nonstream_choice_reasoning_text raw idx) in
  let text := match rm_content (ch_message ch) with
              | Some t => if is_empty t then [] else
                  [("msg_", λ id, Object [("id", Str id); ("type", Str "message"); ("role", Str "assistant"); ("status", Str "completed");
                     ("content", Array [Object [("type", Str "output_text"); ("text", Str t); ("annotations", Array [])]])])]
              | None => []
              end in
  let calls := map (λ tc, ("fc_", λ id, Object [("id", Str id); ("type", Str "function_call"); ("name", Str (call_name (tc_function tc)));
                   ("call_id", Str (tc_id tc)); ("arguments", Str (call_arguments (tc_function tc))); ("status", Str "completed")]))
                 (default [] (rm_tool_calls (ch_message ch))) in
  imap (λ i (p : string * (string → Value)), p.2 (p.1 ++ fresh (n + i))) (reasoning ++ text ++ calls)%list.

Fixpoint output_items (raw : Value) (n idx : nat) (choices : list ChatChoice) : list Value :=
  match choices with
  | [] => []
  | ch :: rest => let items := choice_items raw n idx ch in (items ++ output_items raw (n + length items) (S idx) rest)%list
  end.

Definition is_length_finish (ch : ChatChoice) : bool := match ch_finish_reason ch with Some FinishLength => true | _ => false end.

(* src: ai-gateway/src/ide_adapation/cursor_responses_openrouter_bridge.rs:804-888 map_json_response_chat_to_responses body *)
Definition response_body (raw : Value) (chat : ChatResponse) (origin : ResponsesRequest) : Value :=
  let truncated := existsb is_length_finish (resp_choices chat) in
  let usage (u : CompletionUsage) :=
    match chat_reasoning_tokens raw with
    | Some n => set_field "output_tokens_details" (Object [("reasoning_tokens", num n)]) (usage_value u)
    | None => usage_value u
    end in
  Object [("id", Str (response_id (resp_id chat))); ("object", Str "response"); ("created_at", num (resp_created chat));
    ("model", Str (resp_model chat)); ("output", Array (output_items raw 0 0 (resp_choices chat)));
    ("status", Str (if truncated then "incomplete" else "completed")); ("usage", from_option usage Null (resp_usage chat));
    ("incomplete_details", if truncated then Object [("reason", Str "max_output_tokens")] else Null);
    ("instructions", from_option Str Null (rq_instructions origin));
    ("parallel_tool_calls", from_option Bool Null (rq_parallel_tool_calls origin));
    ("temperature", from_option f32_value Null (rq_temperature origin)); ("top_p", from_option f32_value Null (rq_top_p origin));
    ("tool_choice", from_option tool_choice_value Null (rq_tool_choice origin));
    ("tools", from_option tools_value Null (rq_tools origin))].

Context (from_slice : string → option Value) (from_value : Value → option ChatResponse) (to_vec : Value → string).

(** An answer that is no success passes as it is. *)
(* src: ai-gateway/src/ide_adapation/cursor_responses_openrouter_bridge.rs:775-899 map_json_response_chat_to_responses *)
Definition map_json_response_chat_to_responses (status : Z) (bytes : string) (origin : ResponsesRequest) : result string string :=
  if negb ((200 <=? status) && (status <? 300))%Z then Ok bytes
  else
    let? raw := ok_or (from_slice bytes) "Value" in
    let? chat := ok_or (from_value raw) "CreateChatCompletionResponse" in
    Ok (to_vec (response_body raw chat origin)).
End answer.
End Cursor.

(** ** The body of a Responses answer as a chat completion *)

Module Answer.

(* src: vendor/async-openai-patched/src/types/responses.rs:881-888 Annotation *)
Inductive Annotation := AnnFileCitation (file_id : string) | AnnUrlCitation (title url : string) | AnnFilePath (file_id : string).
(* src: vendor/async-openai-patched/src/types/responses.rs:940-945 Content *)
Inductive OutContent := OutText (annotations : list Annotation) (text : string) | OutRefusal (refusal : string).
(** Items the bridge does not read are their JSON. *)
(* src: vendor/async-openai-patched/src/types/responses.rs:950-978 OutputContent *)
Inductive OutputItem := OutMessage (content : list OutContent) | OutFunctionCall (call_id name arguments : string) | OutOther (v : Value).
(* src: vendor/async-openai-patched/src/types/responses.rs:1477-1482 Status *)
Inductive RespStatus := StCompleted | StFailed | StInProgress | StIncomplete.

(** The fields that are read. *)
(* src: vendor/async-openai-patched/src/types/responses.rs:1375-1473 Response *)
Record ResponsesAnswer := mkAnswer {
  an_created_at : Z;
  an_id : string;
  an_model : string;
  an_output : list OutputItem;
  an_output_text : option string;
  an_status : RespStatus;
  an_usage : option (Z * Z * Z * PromptTokensDetails * CompletionTokensDetails)
}.

(* src: ai-gateway/src/ide_adapation/unified_responses_chat_compat.rs:355-359 AggregatedOutput *)
Record AggregatedOutput := mkAggregated { ag_content : option string; ag_refusal : option string; ag_tool_calls : list ToolCall }.

Definition content_of (i : OutputItem) : list OutContent := match i with OutMessage l => l | _ => [] end.
Definition texts (l : list OutContent) : list string := omap (λ c, match c with OutText _ t => Some t | _ => None end) l.
Definition refusals (l : list OutContent) : list string := omap (λ c, match c with OutRefusal r => Some r | _ => None end) l.
Definition notes (l : list OutContent) : list Annotation := flat_map (λ c, match c with OutText a _ => a | _ => [] end) l.

(* src: ai-gateway/src/ide_adapation/unified_responses_chat_compat.rs:400-420 aggregate_output footnotes *)
Definition footnote (i : nat) (a : Annotation) : string :=
  "[" ++ pretty (S i) ++ "] " ++
  match a with
  | AnnUrlCitation title url => (if is_empty title then url else title) ++ ": " ++ url
  | AnnFileCitation id | AnnFilePath id => "file: " ++ id
  end ++ line.

(* src: ai-gateway/src/ide_adapation/unified_responses_chat_compat.rs:361-428 aggregate_output *)
Definition aggregate_output (r : ResponsesAnswer) : AggregatedOutput :=
  let content := flat_map content_of (an_output r) in
  let body := default "" (an_output_text r) ++ String.concat "" (texts content) in
  let text := match notes content with
              | [] => body
              | anns => body ++ line ++ line ++ "---" ++ line ++ "References:" ++ line ++ String.concat "" (imap footnote anns)
              end in
  mkAggregated (if is_empty text then None else Some text) (last (refusals content))
    (omap (λ i, match i with OutFunctionCall id name args => Some (mkToolCall id ToolFunction (mkCall name args)) | _ => None end) (an_output r)).

(* src: ai-gateway/src/ide_adapation/unified_responses_chat_compat.rs:430-443 finish_reason_for_status *)
Definition finish_reason_for_status (s : RespStatus) (has_tool_calls : bool) : option FinishReason :=
  match s with
  | StCompleted => Some (if has_tool_calls then FinishToolCalls else FinishStop)
  | StIncomplete => Some FinishLength
  | StFailed => Some FinishStop
  | StInProgress => None
  end.

(* src: ai-gateway/src/ide_adapation/unified_responses_chat_compat.rs:445-508 non_stream_responses_body_to_chat_completion *)
Definition non_stream_responses_to_chat (r : ResponsesAnswer) : ChatResponse :=
  let agg := aggregate_output r in
  let calls := match ag_tool_calls agg with [] => None | l => Some l end in
  mkChatResponse (an_id r)
    [mkChoice 0 (mkResponseMessage (ag_content agg) (ag_refusal agg) calls OaAssistant None None None)
       (finish_reason_for_status (an_status r) (bool_decide (is_Some calls))) None]
    (if (an_created_at r <=? u32_max)%Z then an_created_at r else u32_max) (an_model r) None None "chat.completion"
    ((λ '(i, o, t, pd, cd), mkUsage i o t (Some pd) (Some cd)) <$> an_usage r).
End Answer.

(** ** A Responses request as a chat request *)

Module Request.
Inductive BridgeError := SerdeError | InvalidRequest.

Section request.
(** serde's reader of an input message, and what a tool that is no function is as
    a chat tool: nothing for the kinds of the SDK, for a custom one its JSON read
    again. *)
Context (read_message : Value → option (RespRole * InputContent)) (other_tool : Value → option ChatTool).

(* src: ai-gateway/src/ide_adapation/cursor_responses_openrouter_bridge.rs:58-74 text_from_input_content *)
Definition text_from_input_content (c : InputContent) : string :=
  match c with
  | TextInput s => s
  | ContentList parts => String.concat "" (omap (λ p, match p with InputText t => Some t | _ => None end) parts)
  end.

(* src: ai-gateway/src/ide_adapation/cursor_responses_openrouter_bridge.rs:76-109 input_message_to_chat *)
Definition input_message_to_chat (role : RespRole) (c : InputContent) : ChatMessage :=
  let text := text_from_input_content c in
  match role with
  | RUser => User (UText text) None
  | RAssistant => Assistant (mkAssistant (Some (AText text)) None None None None None)
  | RSystem => System (TText text) None
  | RDeveloper => Developer (TText text) None
  end.

(* src: ai-gateway/src/ide_adapation/cursor_responses_openrouter_bridge.rs:111-122 input_item_to_chat_message *)
Definition input_item_to_chat_message (i : InputItem) : result ChatMessage BridgeError :=
  match i with
  | ItemMessage role c => Ok (input_message_to_chat role c)
  | ItemCustom v => let? m := ok_or (read_message v) SerdeError in Ok (input_message_to_chat m.1 m.2)
  end.

Fixpoint messages_of_items (items : list InputItem) : result (list ChatMessage) BridgeError :=
  match items with
  | [] => Ok []
  | i :: items =>
      let? m := input_item_to_chat_message i in
      let? ms := messages_of_items items in Ok (m :: ms)
  end.

(* src: ai-gateway/src/ide_adapation/cursor_responses_openrouter_bridge.rs:124-160 input_to_messages *)
Definition input_to_messages (input : Input) (instructions : option string) : result (list ChatMessage) BridgeError :=
  let first := match instructions with
               | Some t => if is_empty (trim t) then [] else [System (TText (trim t)) None]
               | None => []
               end in
  let? rest := match input with
               | InputTextOnly s => Ok (if is_empty (trim s) then [] else [User (UText s) None])
               | InputItems items => messages_of_items items
               end in
  match (first ++ rest)%list with [] => Err InvalidRequest | out => Ok out end.

(* src: ai-gateway/src/ide_adapation/cursor_responses_openrouter_bridge.rs:162-177 map_tool_definition *)
Definition map_tool_definition (d : ToolDefinition) : option ChatTool :=
  match d with
  | DefFunction name parameters strict description =>
      Some (mkChatTool ToolFunction (Some (mkFunction name description (Some parameters) (Some strict))) [])
  | DefOther v => other_tool v
  end.

(* src: ai-gateway/src/ide_adapation/cursor_responses_openrouter_bridge.rs:179-200 map_tool_choice *)
Definition map_tool_choice (c : RespToolChoice) : option ToolChoiceOption :=
  match c with
  | ChoiceOf ModeNone => Some OptNone
  | ChoiceOf ModeAuto => Some OptAuto
  | ChoiceOf ModeRequired => Some OptRequired
  | ChoiceFunction name => Some (OptNamed ToolFunction name)
  | ChoiceHosted _ => None
  end.

(* src: ai-gateway/src/ide_adapation/cursor_responses_openrouter_bridge.rs:203-273 create_response_to_chat_request *)
Definition create_response_to_chat_request (r : ResponsesRequest) : result ChatRequest BridgeError :=
  let? messages := input_to_messages (rq_input r) (rq_instructions r) in
  let tools := match omap map_tool_definition (default [] (rq_tools r)) with [] => None | l => Some l end in
  Ok (mkChat messages (rq_model r) (rq_store r) (rq_reasoning r ≫= id) None None None None None None (rq_max_output_tokens r)
        None None None None None (convert_response_format <$> rq_text r) None None None (rq_stream r) None (rq_temperature r)
        (rq_top_p r) tools (rq_tool_choice r ≫= map_tool_choice) (rq_parallel_tool_calls r) (rq_user r) None None None []).
End request.
End Request.

(** ** Listening to a step *)

(** What a listener that joins [h] of every record hears. *)
Definition heard {S A} (h : A → string) (p : Emit S A) (s : S) : string := String.concat "" (map h (p s).2).

Section heard.
Context {S A : Type} (h : A → string).

Lemma heard_silent s : heard h (@silent S A) s = "".
Proof. done. Qed.
Lemma heard_update f s : heard h (@update S A f) s = "".
Proof. done. Qed.
Lemma heard_emit a (s : S) : heard h (emit a) s = h a.
Proof. done. Qed.
Lemma heard_reading (p : S → Emit S A) s : heard h (reading p) s = heard h (p s) s.
Proof. done. Qed.
Lemma heard_then (p q : Emit S A) s : heard h (p ;; q) s = heard h p s ++ heard h q (p s).1.
Proof. by rw /heard /= map_app concat_app_str. Qed.
Lemma heard_when b (p : Emit S A) s : heard h (emit_when b p) s = if b then heard h p s else "".
Proof. by destruct b. Qed.

(** A listener that hears nothing of a step, in any state. *)
Definition mute (p : Emit S A) : Prop := ∀ s, heard h p s = "".
Lemma mute_then p q : mute p → mute q → mute (p ;; q).
Proof. intros Hp Hq s. by rw heard_then Hp Hq. Qed.
Lemma mute_when b p : mute p → mute (emit_when b p).
Proof. intros Hp s. rw heard_when. by destruct b. Qed.
Lemma mute_reading (p : S → Emit S A) : (∀ s, mute (p s)) → mute (reading p).
Proof. intros Hp s. apply Hp. Qed.
Lemma mute_all {B} (step : B → Emit S A) l : (∀ b, mute (step b)) → mute (emit_all step l).
Proof. intros Hs. induction l as [|b l IH]; [done|]. by apply mute_then. Qed.
End heard.

Lemma emit_all_app {S A B} (step : B → Emit S A) l1 l2 s :
  emit_all step (l1 ++ l2)%list s = (emit_all step l1 ;; emit_all step l2) s.
Proof.
  revert s. induction l1 as [|b l1 IH]; intros s; simpl.
  - rw /and_then /=. by destruct (emit_all step l2 s).
  - rw /and_then /= IH /and_then /=. by rw app_assoc.
Qed.

Lemma emit_all_one {S A B} (step : B → Emit S A) b s : emit_all step [b] s = step b s.
Proof. rw /= /and_then /silent /= app_nil_r. by destruct (step b s). Qed.

(** *** What a step keeps *)

Section step_ok.
Context {S A : Type} (R : relation S) `{!PreOrder R} (P : A → Prop).

Definition step_ok (p : Emit S A) : Prop := ∀ s, R s (p s).1 ∧ Forall P (p s).2.

Lemma ok_silent : step_ok silent.
Proof. intros s. by split. Qed.
Lemma ok_update f : (∀ s, R s (f s)) → step_ok (update f).
Proof. intros Hf s. by split. Qed.
Lemma ok_emit a : P a → step_ok (emit a).
Proof. intros Ha s. split; [done|by constructor]. Qed.
Lemma ok_then p q : step_ok p → step_ok q → step_ok (p ;; q).
Proof.
  intros Hp Hq s. destruct (Hp s) as [P1 P2], (Hq (p s).1) as [Q1 Q2]. split; [by etrans|by apply Forall_app].
Qed.
Lemma ok_when b p : step_ok p → step_ok (emit_when b p).
Proof. intros Hp. destruct b; [done|apply ok_silent]. Qed.
Lemma ok_reading (p : S → Emit S A) : (∀ s, step_ok (p s)) → step_ok (reading p).
Proof. intros Hp s. apply Hp. Qed.
Lemma ok_all {B} (step : B → Emit S A) l : (∀ b, step_ok (step b)) → step_ok (emit_all step l).
Proof. intros Hs. induction l as [|b l IH]; [apply ok_silent|]. by apply ok_then. Qed.
End step_ok.

Lemma emit_ok_weaken {S A} (R R' : relation S) (P P' : A → Prop) p :
  (∀ s s', R s s' → R' s s') → (∀ a, P a → P' a) → step_ok R P p → step_ok R' P' p.
Proof. intros HR HP Hp s. destruct (Hp s) as [H1 H2]. split; [by apply HR|]. eapply Forall_impl; eauto. Qed.

Module UnifiedFacts.
Import Unified.

Definition record_reads (f : StreamChoice → string) (r : ChatRecord) : string :=
  match r with RecChunk c => String.concat "" (map f (sr_choices c)) | _ => "" end.
Definition chunks_of (l : list ChatRecord) : list StreamResponse := omap (λ r, match r with RecChunk c => Some c | _ => None end) l.
Definition joined (f : StreamChoice → string) (chunks : list StreamResponse) : string :=
  String.concat "" (map f (flat_map sr_choices chunks)).

Lemma joined_records f l : joined f (chunks_of l) = String.concat "" (map (record_reads f) l).
Proof.
  induction l as [|r l IH]; [done|]. rw map_cons concat_cons -IH. destruct r; [|done..].
  by rw /joined /= map_app concat_app_str.
Qed.

(** A reader that reads neither roles nor ends. *)
Definition blank (f : StreamChoice → string) : Prop :=
  f (build_role_choice 0 OaAssistant) = "" ∧ ∀ r u, f (build_finish_choice r u None) = "".

Section blank.
Context (f : StreamChoice → string) (Hf : blank f).

Lemma say_reads c usage s : heard (record_reads f) (say c usage) s = f c.
Proof. rw /heard /=. done. Qed.

Lemma role_mute : mute (record_reads f) push_role_if_needed.
Proof.
  apply mute_reading. intros s. apply mute_when, mute_then; [|done]. intros s'. rw say_reads. apply Hf.
Qed.

Lemma finish_mute usage : mute (record_reads f) (finish_chunk usage).
Proof. intros s. rw /finish_chunk heard_reading say_reads. apply Hf. Qed.

Lemma say_as_assistant_reads c s : heard (record_reads f) (say_as_assistant c) s = f c.
Proof. by rw /say_as_assistant heard_then role_mute say_reads. Qed.

(** What a reader reads of an event in a state. *)
Definition event_reads (s : BridgeStreamState) (v : Value) : string :=
  let d := delta_of v in
  match event_kind v with
  | OutputTextDelta =>
      match str_field_of "item_id" v with
      | Some id => if bool_decide (id ∈ bs_hidden_text_item_ids s) then "" else if is_empty d then "" else f (build_text_choice 0 d)
      | None => if is_empty d then "" else f (build_text_choice 0 d)
      end
  | ReasoningDelta => if is_empty d then "" else f (build_reasoning_choice 0 d)
  | RefusalDelta => if is_empty d then "" else f (mkStreamChoice 0 (mkDelta None None None None (Some d) None) None None)
  | ItemAdded =>
      match get "item" v with
      | Some item =>
          if field_is_str "type" "function_call" item
          then f (build_tool_choice 0 (build_tool_call_chunk (bs_next_tool_index s)
                    (Some (str_field item "call_id" (str_field item "id" ""))) (Some (str_field item "name" "")) (Some "")))
          else ""
      | None => ""
      end
  | ArgumentsDelta =>
      if is_empty d then ""
      else f (build_tool_choice 0 (build_tool_call_chunk (default 0%Z (bs_tool_call_indices s !! item_id_of v)) None None (Some d)))
  | _ => ""
  end.

Ltac listen := repeat first [rw say_as_assistant_reads | rw role_mute | rw finish_mute | rw say_reads | rw heard_then | rw heard_when
                            | rw heard_reading | rw heard_update | rw heard_silent | rw heard_emit].

Lemma process_reads v s : heard (record_reads f) (process_event v) s = event_reads s v.
Proof.
  rw /process_event /event_reads. destruct (event_kind v); try done; listen; try by destruct (is_empty (delta_of v)).
  - destruct (str_field_of "item_id" v) as [id|]; simpl; [case_bool_decide|]; simpl; try done; by destruct (is_empty (delta_of v)).
  - destruct (get "item" v) as [item|]; [|done]. rw /item_added. listen.
    destruct (field_is_str "type" "function_call" item) eqn:E.
    + by rw (field_is_str_exclusive _ _ "message" _ E).
    + destruct (_ && _); [destruct (str_field_of "id" item)|]; done.
Qed.
End blank.

(** The item an event announces as a comment, and the call it opens: the
    identifier of its item, its own and its name. *)
Definition comment_of (v : Value) : gset string :=
  match event_kind v, get "item" v with
  | ItemAdded, Some item =>
      if field_is_str "type" "message" item && field_is_str "phase" "commentary" item
      then from_option (λ id, {[id]}) ∅ (str_field_of "id" item) else ∅
  | _, _ => ∅
  end.
Definition call_of (v : Value) : option (string * string * string) :=
  match event_kind v, get "item" v with
  | ItemAdded, Some item =>
      if field_is_str "type" "function_call" item
      then Some (str_field item "id" "", str_field item "call_id" (str_field item "id" ""), str_field item "name" "") else None
  | _, _ => None
  end.

Definition same_calls (s s' : BridgeStreamState) : Prop :=
  bs_tool_call_indices s' = bs_tool_call_indices s ∧ bs_next_tool_index s' = bs_next_tool_index s.

Lemma role_keeps s : let s' := (push_role_if_needed s).1 in
  bs_hidden_text_item_ids s' = bs_hidden_text_item_ids s ∧ same_calls s s'.
Proof. rw /push_role_if_needed /reading. by destruct (bs_role_sent s). Qed.

Lemma ingest_keeps r s : let s' := ingest_response_snapshot r s in
  bs_hidden_text_item_ids s' = bs_hidden_text_item_ids s ∧ same_calls s s'.
Proof. by destruct r. Qed.

Lemma role_after_ingest r s : let s' := (push_role_if_needed (ingest_response_snapshot r s)).1 in
  bs_hidden_text_item_ids s' = bs_hidden_text_item_ids s ∧ same_calls s s'.
Proof.
  destruct (role_keeps (ingest_response_snapshot r s)) as (H1 & H2 & H3), (ingest_keeps r s) as (G1 & G2 & G3).
  split_and!; [by rw H1|split; [by rw H2|by rw H3]].
Qed.

(** What an event does to the bookkeeping of the bridge. *)
Lemma process_keeps v s : let s' := (process_event v s).1 in
  bs_hidden_text_item_ids s' = comment_of v ∪ bs_hidden_text_item_ids s ∧
  match call_of v with
  | Some (id, _, _) => bs_tool_call_indices s' = <[id := bs_next_tool_index s]> (bs_tool_call_indices s) ∧
                       bs_next_tool_index s' = u32_wrapping_add (bs_next_tool_index s) 1
  | None => same_calls s s'
  end.
Proof.
  rw /process_event /comment_of /call_of. destruct (event_kind v); simpl; rw ?left_id_L; try done;
    rw /reading /emit_when; try (repeat case_match; simpl; done || apply role_keeps).
  - apply ingest_keeps.
  - destruct (get "item" v) as [item|]; simpl; [|by rw left_id_L]. rw /item_added /and_then /reading /emit_when.
    destruct (field_is_str "type" "function_call" item) eqn:E; simpl.
    + rw (field_is_str_exclusive _ _ "message" _ E) //= left_id_L.
      destruct (role_keeps (with_call (str_field item "id" "") (with_tool_calls s))) as (-> & -> & ->). done.
    + destruct (_ && _); [destruct (str_field_of "id" item)|]; simpl; rw ?left_id_L; done.
  - apply role_after_ingest.
  - apply role_after_ingest.
Qed.

(** *** What is said *)

Definition event_field (k : EventKind) (v : Value) : string :=
  match event_kind v, k with
  | OutputTextDelta, OutputTextDelta | ReasoningDelta, ReasoningDelta | RefusalDelta, RefusalDelta | ArgumentsDelta, ArgumentsDelta => delta_of v
  | _, _ => ""
  end.

(** The text of the items that were not announced as comments before. *)
Fixpoint visible_text (comments : gset string) (evs : list Value) : string :=
  match evs with
  | [] => ""
  | v :: evs =>
      let hidden := match str_field_of "item_id" v with Some id => bool_decide (id ∈ comments) | None => false end in
      (if hidden then "" else event_field OutputTextDelta v) ++ visible_text (comment_of v ∪ comments) evs
  end.

Definition choice_reasoning (i : Z) (c : StreamChoice) : string :=
  if (sc_index c =? i)%Z then default "" (d_reasoning_content (sc_delta c)) else "".
Definition choice_refusal (i : Z) (c : StreamChoice) : string :=
  if (sc_index c =? i)%Z then default "" (d_refusal (sc_delta c)) else "".

Definition bridge_chunks (evs : list Value) : list StreamResponse := chunks_of (emit_all process_event evs start).2.

Lemma text_blank : blank (choice_text 0). Proof. done. Qed.
Lemma reasoning_blank : blank (choice_reasoning 0). Proof. done. Qed.
Lemma refusal_blank : blank (choice_refusal 0). Proof. done. Qed.

Lemma empty_delta s : (if is_empty s then "" else s) = s.
Proof. by destruct s. Qed.

Lemma bridge_heard f evs s : blank f →
  heard (record_reads f) (emit_all process_event evs) s =
  match evs with [] => "" | v :: evs => event_reads f s v ++ heard (record_reads f) (emit_all process_event evs) (process_event v s).1 end.
Proof. intros Hf. destruct evs as [|v evs]; [done|]. cbn [emit_all]. by rw heard_then process_reads. Qed.

Lemma text_heard evs : ∀ s, heard (record_reads (choice_text 0)) (emit_all process_event evs) s = visible_text (bs_hidden_text_item_ids s) evs.
Proof.
  induction evs as [|v evs IH]; intros s; rw bridge_heard //. rw IH. destruct (process_keeps v s) as [-> _].
  cbn [visible_text]. f_equal. rw /event_reads /event_field. destruct (event_kind v); simpl; try by repeat case_match.
  rw /choice_text /=. destruct (str_field_of "item_id" v) as [id|]; [case_bool_decide|]; rw ?empty_delta //.
Qed.

Lemma other_heard (k : EventKind) evs : ∀ s,
  k = ReasoningDelta ∨ k = RefusalDelta →
  heard (record_reads (if k is ReasoningDelta then choice_reasoning 0 else choice_refusal 0)) (emit_all process_event evs) s =
  String.concat "" (map (event_field k) evs).
Proof.
  intros s Hk. revert s. induction evs as [|v evs IH]; intros s; rw bridge_heard //; try by destruct k.
  rw map_cons concat_cons IH. f_equal. rw /event_reads /event_field.
  destruct Hk as [->| ->]; destruct (event_kind v); simpl; rw /choice_reasoning /choice_refusal /= ?empty_delta //; by repeat case_match.
Qed.

(** *** Calls *)

Definition calls (evs : list Value) : list (string * string * string) := omap call_of evs.
Definition call_item (c : string * string * string) : string := c.1.1.

(** The arguments an event adds to the call of an item. *)
Definition adds_to (id : string) (v : Value) : bool :=
  match event_kind v with ArgumentsDelta => item_id_of v =? id | _ => false end.
Definition arguments_of (id : string) (v : Value) : string := if adds_to id v then delta_of v else "".

(** A call is opened once, and before its arguments. *)
Definition announced (evs : list Value) : Prop :=
  NoDup (map call_item (calls evs)) ∧
  ∀ pre v post, evs = (pre ++ v :: post)%list → event_kind v = ArgumentsDelta → item_id_of v ∈ map call_item (calls pre).

Lemma calls_snoc evs v : calls (evs ++ [v])%list = (calls evs ++ from_option (λ c, [c]) [] (call_of v))%list.
Proof. rw /calls omap_app /=. by destruct (call_of v). Qed.

Lemma announced_init evs v : announced (evs ++ [v])%list → announced evs.
Proof.
  intros [Hnd Han]. split.
  - rw calls_snoc map_app in Hnd. by apply NoDup_app in Hnd as [Hnd _].
  - intros pre w post ->. eapply (Han pre w (post ++ [v])%list). by rw -app_assoc.
Qed.

Section calls.
(** A reader of a chunk of a call: its identifier, name and arguments. *)
Context (r : option string → option string → option string → string).

Definition call_chunk_reads (k : Z) (t : ToolCallChunk) : string :=
  if (chunk_index t =? k)%Z then r (chunk_id t) (chunk_function t ≫= fcs_name) (chunk_function t ≫= fcs_arguments) else "".
Definition call_choice_reads (k : Z) (c : StreamChoice) : string :=
  if (sc_index c =? 0)%Z then String.concat "" (map (call_chunk_reads k) (default [] (d_tool_calls (sc_delta c)))) else "".

Lemma call_blank k : blank (call_choice_reads k). Proof. done. Qed.

Definition argument_reads (id : string) (v : Value) : string :=
  if adds_to id v && negb (is_empty (delta_of v)) then r None None (Some (delta_of v)) else "".
Definition call_reads (k : nat) (evs : list Value) : string :=
  match calls evs !! k with
  | Some (id, call_id, name) =>
      r (Some call_id) (Some name) (Some "") ++ String.concat "" (map (argument_reads id) evs)
  | None => ""
  end.

(** The bridge knows the calls of the events it has seen. *)
Definition knows (s : BridgeStreamState) (evs : list Value) : Prop :=
  bs_next_tool_index s = (Z.of_nat (length (calls evs)) mod 2 ^ 32)%Z ∧
  ∀ j c, calls evs !! j = Some c → bs_tool_call_indices s !! call_item c = Some (Z.of_nat j).

Lemma knows_snoc s evs v : knows s evs → NoDup (map call_item (calls (evs ++ [v])%list)) →
  (Z.of_nat (length (calls (evs ++ [v])%list)) ≤ 2 ^ 32)%Z → knows (process_event v s).1 (evs ++ [v])%list.
Proof.
  intros [Hn Hk] Hnd Hlen. rw /knows calls_snoc in Hnd Hlen *. destruct (process_keeps v s) as [_ Hc].
  destruct (call_of v) as [[[id cid] nm]|] eqn:Ec; simpl in *; last first.
  { rw app_nil_r. destruct Hc as [-> ->]. done. }
  destruct Hc as [-> ->]. rw length_app /= in Hlen *. rw Hn /u32_wrapping_add. split.
  { rw Zplus_mod_idemp_l. f_equal. lia. }
  intros j c Hj. rw map_app in Hnd. apply NoDup_app in Hnd as (_ & Hnew & _).
  apply lookup_app_Some in Hj as [Hj|[Hge Hj]].
  - rw lookup_insert_ne; [by apply Hk|]. intros Heq. apply (Hnew (call_item c)); [|rw -Heq; set_solver].
    apply list_elem_of_In, in_map, list_elem_of_In. by eapply list_elem_of_lookup_2.
  - destruct (j - length (calls evs))%nat as [|i] eqn:Ej; [|done]. injection Hj as <-.
    rw lookup_insert_eq. f_equal. replace (length (calls evs)) with j by lia. apply Z.mod_small. lia.
Qed.

(** What is read of one event, by the calls the bridge knows. *)
Lemma event_call_reads k s v :
  event_reads (call_choice_reads k) s v =
  match call_of v with
  | Some (_, call_id, name) => if (bs_next_tool_index s =? k)%Z then r (Some call_id) (Some name) (Some "") else ""
  | None => if adds_to (item_id_of v) v && negb (is_empty (delta_of v))
            then if (default 0 (bs_tool_call_indices s !! item_id_of v) =? k)%Z then r None None (Some (delta_of v)) else ""
            else ""
  end.
Proof.
  rw /event_reads /call_of /adds_to. destruct (event_kind v); simpl; try done; try by repeat case_match.
  - destruct (get "item" v) as [item|]; [|done]. by destruct (field_is_str _ _ item).
  - rw String.eqb_refl /=. by destruct (is_empty (delta_of v)).
Qed.

Lemma call_item_elem evs j c : calls evs !! j = Some c → call_item c ∈ map call_item (calls evs).
Proof. intros H. apply list_elem_of_In, in_map, list_elem_of_In. by eapply list_elem_of_lookup_2. Qed.

Lemma call_item_inj evs i j c d : NoDup (map call_item (calls evs)) →
  calls evs !! i = Some c → calls evs !! j = Some d → call_item c = call_item d → i = j.
Proof.
  intros Hnd Hi Hj He. eapply (NoDup_lookup _ _ _ (call_item c) Hnd).
  - rw list_lookup_fmap. by rw Hi.
  - rw list_lookup_fmap. by rw Hj /= He.
Qed.

(** No arguments come before their call. *)
Lemma nothing_before evs v c : announced (evs ++ [v])%list → call_of v = Some c →
  Forall (λ w, adds_to (call_item c) w = false) evs.
Proof.
  intros [Hnd Han] Hc. apply Forall_forall. intros w Hw. rw /adds_to. destruct (event_kind w) eqn:Ek; try done.
  apply String.eqb_neq. intros He. rw calls_snoc Hc map_app in Hnd. apply NoDup_app in Hnd as (_ & Hnew & _).
  apply list_elem_of_split in Hw as (pre & post & ->).
  assert (Hin : item_id_of w ∈ map call_item (calls pre)) by (eapply Han; [by rw -app_assoc|done]).
  apply (Hnew (item_id_of w)); [|rw He; set_solver]. rw /calls omap_app map_app. set_solver.
Qed.

Lemma concat_empty {A} (f : A → string) l : Forall (λ a, f a = "") l → String.concat "" (map f l) = "".
Proof. induction 1 as [|a l Ha _ IH]; [done|]. by rw map_cons concat_cons Ha IH. Qed.

Lemma arguments_snoc id evs v : String.concat "" (map (argument_reads id) (evs ++ [v])%list) =
  String.concat "" (map (argument_reads id) evs) ++ argument_reads id v.
Proof. by rw map_app concat_app_str. Qed.

Lemma call_adds_nothing id v c : call_of v = Some c → adds_to id v = false.
Proof. rw /call_of /adds_to. by destruct (event_kind v). Qed.

Lemma adds_to_eq id v : adds_to (item_id_of v) v = true → adds_to id v = (item_id_of v =? id).
Proof. rw /adds_to. by destruct (event_kind v). Qed.

Lemma no_argument id v : adds_to (item_id_of v) v && negb (is_empty (delta_of v)) = false → argument_reads id v = "".
Proof.
  rw /argument_reads. destruct (adds_to (item_id_of v) v) eqn:E; simpl; [intros ->; by rw andb_false_r|].
  intros _. rw /adds_to in E *. destruct (event_kind v); try done. by rw String.eqb_refl in E.
Qed.

Lemma announced_at evs v : announced (evs ++ [v])%list → adds_to (item_id_of v) v = true →
  ∃ j c, calls evs !! j = Some c ∧ call_item c = item_id_of v.
Proof.
  intros [_ Han] Ha. rw /adds_to in Ha. destruct (event_kind v) eqn:Ek; try done.
  specialize (Han evs v [] eq_refl Ek). apply list_elem_of_In, in_map_iff in Han as (c & Hc & Hin).
  apply list_elem_of_In, list_elem_of_lookup in Hin as [j Hj]. eauto.
Qed.

Lemma calls_heard k evs : announced evs → (Z.of_nat (length (calls evs)) ≤ 2 ^ 32)%Z →
  knows (emit_all process_event evs start).1 evs ∧
  heard (record_reads (call_choice_reads (Z.of_nat k))) (emit_all process_event evs) start = call_reads k evs.
Proof.
  induction evs as [|v evs IH] using rev_ind; [by intros _ _|]. intros Han Hlen.
  assert (Hlen' : (Z.of_nat (length (calls evs)) ≤ 2 ^ 32)%Z) by (rw calls_snoc length_app in Hlen; lia).
  destruct (IH (announced_init _ _ Han) Hlen') as [Hk Hh]. set (s := (emit_all process_event evs start).1) in *.
  assert (Hs : (emit_all process_event (evs ++ [v])%list start).1 = (process_event v s).1).
  { by rw emit_all_app /and_then emit_all_one. }
  split; [rw Hs; apply knows_snoc; by destruct Han|].
  rw /heard emit_all_app -/(heard _ _ _) heard_then Hh -/s {1}/heard emit_all_one -/(heard _ _ _) process_reads // event_call_reads.
  rw /call_reads calls_snoc. destruct Hk as [Hn Hk], (call_of v) as [c|] eqn:Ec; simpl.
  - pose proof (nothing_before _ _ _ Han Ec) as Hnone. destruct c as [[id cid] nm].
    assert (Hl : (Z.of_nat (length (calls evs)) < 2 ^ 32)%Z) by (rw calls_snoc Ec length_app /= in Hlen; lia).
    rw Hn Z.mod_small; [|lia].
    destruct (lt_eq_lt_dec k (length (calls evs))) as [[Hlt|Heq]|Hgt].
    + rw (proj2 (Z.eqb_neq _ _)); [|lia]. rw str_app_nil_r lookup_app_l //. destruct (calls evs !! k) as [[[id' cid'] nm']|]; [|done].
      by rw arguments_snoc /argument_reads (call_adds_nothing _ _ _ Ec) str_app_nil_r.
    + subst k. rw Z.eqb_refl lookup_ge_None_2 // list_lookup_middle //.
      rw arguments_snoc concat_empty.
      * by rw /argument_reads (call_adds_nothing _ _ _ Ec) str_app_nil_r.
      * eapply Forall_impl; [exact Hnone|]. intros w Hw. by rw /argument_reads Hw.
    + rw (proj2 (Z.eqb_neq _ _)); [|lia]. rw !lookup_ge_None_2 //; rw ?length_app /=; lia.
  - rw app_nil_r. destruct (adds_to (item_id_of v) v && _) eqn:Ea; last first.
    + rw str_app_nil_r. destruct (calls evs !! k) as [[[id cid] nm]|]; [|done]. by rw arguments_snoc (no_argument id v Ea) str_app_nil_r.
    + apply andb_true_iff in Ea as [Ea Ed]. destruct (announced_at _ _ Han Ea) as (j & c & Hj & Hc).
      rw -Hc (Hk _ _ Hj) /=. destruct (calls evs !! k) as [[[id cid] nm]|] eqn:El; last first.
      { rw (proj2 (Z.eqb_neq _ _)) //. intros ->%Nat2Z.inj. congruence. }
      rw arguments_snoc str_app_assoc. do 2 f_equal. rw /argument_reads Ed andb_true_r (adds_to_eq _ _ Ea) -Hc.
      destruct (String.eqb_spec (call_item c) id) as [He|He].
      * rw (call_item_inj evs j k c (id, cid, nm)) ?Z.eqb_refl //. by destruct (announced_init _ _ Han).
      * rw (proj2 (Z.eqb_neq _ _)) //. intros ->%Nat2Z.inj. rw El in Hj. injection Hj as <-. done.
Qed.
End calls.
End UnifiedFacts.

Module CursorFacts.
Import Unified UnifiedFacts Cursor.

Section cursor.
Context (fresh : nat → string) (order : gmap Z ToolStreamTrack → list Z) (to_value : StreamResponse → Value).

(** The kinds of events that carry what is said. *)
Definition spoken_kind (k : EventKind) : Prop := k = OutputTextDelta ∨ k = ReasoningDelta ∨ k = RefusalDelta.

Section spoken.
Context (k : EventKind) (Hk : spoken_kind k).

Ltac by_kind := repeat intros ?; by destruct Hk as [->|[->| ->]].

Lemma header_mute c : mute (event_field k) (ensure_header c).
Proof. rw /ensure_header. apply mute_reading. intros s. apply mute_when. by_kind. Qed.

Lemma message_shell_mute : mute (event_field k) ensure_message_streaming_shell.
Proof.
  apply mute_reading. intros s. apply mute_when. repeat apply mute_then; [by_kind..|]. apply mute_when. by_kind.
Qed.

Lemma reasoning_shell_mute : mute (event_field k) ensure_reasoning_streaming_shell.
Proof. apply mute_reading. intros s. apply mute_when. by_kind. Qed.

Lemma tool_chunk_mute t : mute (event_field k) (on_tool_chunk fresh t).
Proof.
  apply mute_reading. intros s. destruct (track_for fresh t s) as [tr n].
  repeat apply mute_then; [by_kind|apply mute_when; by_kind..].
Qed.

Lemma tool_done_mute i : mute (event_field k) (tool_done i).
Proof.
  apply mute_reading. intros s. destruct (st_tools s !! i); [|done]. apply mute_when. repeat apply mute_then; by_kind.
Qed.

Lemma done_events_mute : mute (event_field k) (emit_tool_done_events order).
Proof. apply mute_reading. intros s. apply mute_when, mute_all, tool_done_mute. Qed.

Lemma finalize_mute : mute (event_field k) (finalize_stream fresh).
Proof. by_kind. Qed.

Definition chunk_field (c : StreamResponse) : string :=
  match sr_choices c, k with
  | ch :: _, OutputTextDelta => default "" (d_content (sc_delta ch))
  | ch :: _, RefusalDelta => default "" (d_refusal (sc_delta ch))
  | ch :: _, ReasoningDelta => default "" (delta_reasoning_text (to_value c))
  | _, _ => ""
  end.

Lemma numbered_heard f s : heard (event_field k) (numbered f) s = event_field k (f (st_seq s)).
Proof. done. Qed.

Lemma refusal_field r n : event_field k (refusal_delta r n) = if k is RefusalDelta then r else "".
Proof. by_kind. Qed.
Lemma text_field id d n : event_field k (item_delta "response.output_text.delta" id d n) = if k is OutputTextDelta then d else "".
Proof. by_kind. Qed.
Lemma reasoning_field id d n : event_field k (item_delta "response.reasoning_text.delta" id d n) = if k is ReasoningDelta then d else "".
Proof. by_kind. Qed.

Lemma said_after_nothing (s : string) : "" ++ s = s.
Proof. done. Qed.
Lemma when_said b : (if negb (is_empty b) then b else "") = b.
Proof. by destruct b. Qed.
Lemma when_nothing (b : bool) : (if b then "" else "") = "".
Proof. by destruct b. Qed.

Ltac listen := repeat first [rw header_mute | rw message_shell_mute | rw reasoning_shell_mute | rw numbered_heard | rw done_events_mute
  | rw (mute_all _ _ _ tool_chunk_mute) | rw heard_then | rw heard_when | rw heard_reading | rw heard_update | rw heard_silent | rw heard_emit].

Lemma choice_heard ch reasoning s : heard (event_field k) (on_choice fresh ch reasoning) s =
  match k with
  | OutputTextDelta => default "" (d_content (sc_delta ch))
  | RefusalDelta => default "" (d_refusal (sc_delta ch))
  | _ => default "" reasoning
  end.
Proof.
  rw /on_choice. listen. rw refusal_field text_field !said_after_nothing.
  transitivity ((if k is RefusalDelta then default "" (d_refusal (sc_delta ch)) else "") ++
                (if k is OutputTextDelta then default "" (d_content (sc_delta ch)) else "") ++
                (if k is ReasoningDelta then default "" reasoning else "")).
  - f_equal; [|f_equal].
    + destruct Hk as [->|[->| ->]]; rw ?when_said ?when_nothing //.
    + destruct Hk as [->|[->| ->]]; rw /= ?when_said ?when_nothing //.
    + destruct reasoning; listen; rw ?reasoning_field; by_kind.
  - destruct Hk as [->|[->| ->]]; rw /= ?str_app_nil_r //.
Qed.

Lemma chunk_heard c s : heard (event_field k) (on_chunk fresh order to_value c) s = chunk_field c.
Proof.
  rw /on_chunk /process_upstream_chat_chunk. listen. rw when_nothing str_app_nil_r /chunk_field.
  destruct (sr_choices c) as [|ch chs]; [done|]. rw choice_heard. by destruct Hk as [->|[->| ->]].
Qed.

Lemma stream_heard done_events chunks :
  String.concat "" (map (event_field k) (stream_events fresh order to_value done_events chunks)) = String.concat "" (map chunk_field chunks).
Proof.
  rw /stream_events -/(heard _ _ _) heard_then finalize_mute str_app_nil_r. generalize (with_tool_done_events fresh done_events).
  induction chunks as [|c chunks IH]; intros s; [done|]. cbn [emit_all]. by rw heard_then chunk_heard IH map_cons concat_cons.
Qed.
End spoken.

(** *** Calls *)

(** The chunks of calls that are read: those of the first choice. *)
Definition first_calls (c : StreamResponse) : list ToolCallChunk :=
  match sr_choices c with ch :: _ => default [] (d_tool_calls (sc_delta ch)) | [] => [] end.

(** The first chunk of an index, the indices in the order of these, and the
    arguments of an index. *)
Definition opening_of (k : Z) (ts : list ToolCallChunk) : option ToolCallChunk := head (filter (λ t, chunk_index t = k) ts).
Definition see (l : list Z) (t : ToolCallChunk) : list Z := if bool_decide (chunk_index t ∈ l) then l else (l ++ [chunk_index t])%list.
Definition seen (ts : list ToolCallChunk) : list Z := foldl see [] ts.
Definition arguments_for (k : Z) (ts : list ToolCallChunk) : string := String.concat "" (map (chunk_arguments k) ts).

Definition chunk_name (t : ToolCallChunk) : string := default "" (chunk_function t ≫= fcs_name).

(** The first chunk of every index names its function. *)
Definition named (ts : list ToolCallChunk) : Prop :=
  ∀ pre t post, ts = (pre ++ t :: post)%list → chunk_index t ∉ seen pre → chunk_name t ≠ "".

Definition view (s : StreamState) (k : Z) : option (string * string * bool) :=
  (λ tr, (tk_item_id tr, tk_arguments tr, tk_added tr)) <$> st_tools s !! k.

(** The tracks of the state, the chunks read and the events written agree. *)
Record tracks (s : StreamState) (ts : list ToolCallChunk) (evs : list Value) : Prop := mkTracks {
  tr_order : Forall2 (λ c k, ∃ t a, opening_of k ts = Some t ∧ view s k = Some (call_item c, a, true) ∧
                              c.2 = chunk_name t ∧ ∀ id, chunk_id t = Some id → c.1.2 = id) (calls evs) (seen ts);
  tr_seen : ∀ k, is_Some (view s k) ↔ k ∈ seen ts;
  tr_view : ∀ k id a b, view s k = Some (id, a, b) →
    b = true ∧ a = arguments_for k ts ∧ a = String.concat "" (map (arguments_of id) evs) ∧ ∃ n, (n < st_uuids s)%nat ∧ id = "item_" ++ fresh n;
  tr_inj : ∀ k k' id a a' b b', view s k = Some (id, a, b) → view s k' = Some (id, a', b') → k = k';
  tr_announced : announced evs
}.

(** Events that open no call and add to none. *)
Definition quiet (v : Value) : Prop := call_of v = None ∧ event_kind v ≠ ArgumentsDelta ∧ comment_of v = ∅.

Lemma quiet_adds id v : quiet v → arguments_of id v = "".
Proof. intros (_ & H & _). rw /arguments_of /adds_to. by destruct (event_kind v). Qed.

Lemma announced_snoc evs v : announced evs →
  (∀ c, call_of v = Some c → call_item c ∉ map call_item (calls evs)) →
  (event_kind v = ArgumentsDelta → item_id_of v ∈ map call_item (calls evs)) → announced (evs ++ [v])%list.
Proof.
  intros [Hnd Han] Hc Ha. split.
  - rw calls_snoc map_app. destruct (call_of v) as [c|]; simpl; [|by rw app_nil_r].
    apply NoDup_app. split_and!; [done| |apply NoDup_singleton]. intros x Hx. specialize (Hc c eq_refl). set_solver.
  - intros pre w post He Hw. destruct post as [|u post _] using rev_ind.
    + apply app_inj_tail in He as [<- <-]. by apply Ha.
    + rw app_comm_cons app_assoc in He. apply app_inj_tail in He as [-> _]. by eapply Han.
Qed.

Lemma calls_quiet new evs : Forall quiet new → calls (evs ++ new)%list = calls evs.
Proof. intros H. rw /calls omap_app. induction H as [|v new (Hv & _) _ IH]; simpl; [by rw app_nil_r|]. by rw Hv. Qed.

Lemma announced_quiet evs new : announced evs → Forall quiet new → announced (evs ++ new)%list.
Proof.
  intros Han Hq. revert evs Han. induction Hq as [|v new (Hv & Hk & _) _ IH]; intros evs Han; [by rw app_nil_r|].
  change (v :: new) with ([v] ++ new)%list. rw app_assoc. apply IH, announced_snoc; [done| |done]. by rw Hv.
Qed.

Lemma tracks_quiet s s' ts evs new : tracks s ts evs → (∀ k, view s' k = view s k) → (st_uuids s ≤ st_uuids s')%nat →
  Forall quiet new → tracks s' ts (evs ++ new)%list.
Proof.
  intros [Ho Hs Hv Hi Ha] Hview Hu Hq. split.
  - rw calls_quiet //. eapply Forall2_impl; [exact Ho|]. intros c k (t & a & H). exists t, a. by rw Hview.
  - intros k. by rw Hview.
  - intros k id a b. rw Hview. intros (H1 & H2 & H3 & n & Hn & Hid)%Hv. split_and!; [done..| |exists n; split; [lia|done]].
    rw H3 map_app concat_app_str (concat_empty (arguments_of id) new) ?str_app_nil_r //.
    eapply Forall_impl; [exact Hq|]. intros v. apply quiet_adds.
  - intros k k' id a a' b b'. rw !Hview. apply Hi.
  - by apply announced_quiet.
Qed.

Lemma seen_snoc ts t : seen (ts ++ [t])%list = see (seen ts) t.
Proof. by rw /seen foldl_app. Qed.

Lemma opening_snoc k ts t : opening_of k (ts ++ [t])%list =
  match opening_of k ts with Some u => Some u | None => if bool_decide (chunk_index t = k) then Some t else None end.
Proof.
  rw /opening_of filter_app. destruct (filter (λ t, chunk_index t = k) ts) as [|u us]; [|done]. simpl.
  case_bool_decide as H; [by rw filter_cons_True|by rw filter_cons_False].
Qed.

Lemma seen_opening k ts : k ∈ seen ts ↔ is_Some (opening_of k ts).
Proof.
  induction ts as [|t ts IH] using rev_ind; [split; [set_solver|by intros [? ?]]|].
  rw seen_snoc opening_snoc /see. case_bool_decide as H.
  - rw IH. destruct (opening_of k ts) as [u|] eqn:E; [done|]. case_bool_decide as Hk; [|done].
    subst. apply IH in H as [? ?]. congruence.
  - rw elem_of_app IH list_elem_of_singleton. destruct (opening_of k ts) as [u|]; [split; eauto|].
    case_bool_decide as Hk; [split; eauto|]. split; [intros [[? ?]|?]; congruence|by intros [? ?]].
Qed.

Lemma arguments_for_snoc k ts t : arguments_for k (ts ++ [t])%list = arguments_for k ts ++ chunk_arguments k t.
Proof. by rw /arguments_for map_app concat_app_str. Qed.

(** The event of some arguments, when there are any. *)
Definition arguments_event (id arg : string) : list Value := if negb (is_empty arg) then [arguments_delta id arg] else [].

Lemma arguments_event_calls evs id arg : calls (evs ++ arguments_event id arg)%list = calls evs.
Proof. rw /calls omap_app /arguments_event. by destruct (is_empty arg); rw /= app_nil_r. Qed.

Lemma arguments_event_adds evs id id' arg :
  String.concat "" (map (arguments_of id') (evs ++ arguments_event id arg)%list) =
  String.concat "" (map (arguments_of id') evs) ++ (if id =? id' then arg else "").
Proof.
  rw map_app concat_app_str. f_equal. rw /arguments_event. destruct arg as [|c arg]; [|done]. by destruct (id =? id').
Qed.

Lemma arguments_event_announced evs id arg : announced evs → id ∈ map call_item (calls evs) → announced (evs ++ arguments_event id arg)%list.
Proof.
  intros Han Hin. rw /arguments_event. destruct (negb (is_empty arg)); [|by rw app_nil_r]. by apply announced_snoc.
Qed.

Definition chunk_argument (t : ToolCallChunk) : string := default "" (chunk_function t ≫= fcs_arguments).

Lemma chunk_arguments_eq k t : chunk_arguments k t = if (chunk_index t =? k)%Z then chunk_argument t else "".
Proof. done. Qed.

(** A chunk of a call that is tracked. *)
Lemma tool_chunk_known t s id a : view s (chunk_index t) = Some (id, a, true) →
  let r := on_tool_chunk fresh t s in
  r.2 = arguments_event id (chunk_argument t) ∧ st_uuids r.1 = st_uuids s ∧
  ∀ k, view r.1 k = if (chunk_index t =? k)%Z then Some (id, a ++ chunk_argument t, true) else view s k.
Proof.
  rw /view /on_tool_chunk /reading /track_for. destruct (st_tools s !! chunk_index t) as [tr|] eqn:E; [|done].
  intros [= <- <- Hadd]. rw Hadd /= /arguments_event -/(chunk_argument t). split_and!.
  - by destruct (is_empty (chunk_argument t)).
  - by destruct (is_empty (chunk_argument t)).
  - intros k. destruct (is_empty (chunk_argument t)); simpl; destruct (Z.eqb_spec (chunk_index t) k) as [->|Hne];
      rw ?lookup_insert_eq ?lookup_insert_ne //.
Qed.

Lemma opening_elem u ts : u ∈ ts → is_Some (opening_of (chunk_index u) ts).
Proof.
  intros Hu. rw /opening_of. destruct (filter _ ts) as [|w ws] eqn:E; [|eauto].
  assert (Hin : u ∈ filter (λ t, chunk_index t = chunk_index u) ts) by (by apply list_elem_of_filter). rw E in Hin. set_solver.
Qed.

Lemma announced_item evs v id : announced evs → v ∈ evs → adds_to id v = true → id ∈ map call_item (calls evs).
Proof.
  intros [_ Han] Hv Ha. rw /adds_to in Ha. destruct (event_kind v) eqn:Ek; try done. apply String.eqb_eq in Ha as <-.
  apply list_elem_of_split in Hv as (pre & post & ->). specialize (Han pre v post eq_refl Ek).
  rw /calls omap_app map_app. set_solver.
Qed.

(** The first chunk of a call, which names it. *)
Lemma tool_chunk_new t s : view s (chunk_index t) = None → chunk_name t ≠ "" →
  let r := on_tool_chunk fresh t s in let id := "item_" ++ fresh (st_uuids s) in
  (∃ tr, tk_item_id tr = id ∧ tk_name tr = chunk_name t ∧ (∀ c, chunk_id t = Some c → tk_call_id tr = c) ∧
         r.2 = call_added tr :: arguments_event id (chunk_argument t)) ∧
  (st_uuids s < st_uuids r.1)%nat ∧
  ∀ k, view r.1 k = if (chunk_index t =? k)%Z then Some (id, chunk_argument t, true) else view s k.
Proof.
  rw /view /on_tool_chunk /reading /track_for. destruct (st_tools s !! chunk_index t) as [tr|] eqn:E; [done|].
  intros _ Hname. assert (Hn : is_empty (chunk_name t) = false) by (by destruct (chunk_name t)).
  destruct (chunk_id t) as [cid|] eqn:Ec; simpl; rw -/(chunk_argument t) -/(chunk_name t) Hn /arguments_event /=; split_and!.
  1,4: eexists; split_and!; [| | |by destruct (is_empty (chunk_argument t))]; simpl; congruence.
  1,3: destruct (is_empty (chunk_argument t)); simpl; lia.
  all: intros k; destruct (is_empty (chunk_argument t)); simpl; destruct (Z.eqb_spec (chunk_index t) k) as [->|Hne];
      rw ?lookup_insert_eq ?lookup_insert_ne //.
Qed.

Lemma tracks_item s ts evs k id a b : tracks s ts evs → view s k = Some (id, a, b) → id ∈ map call_item (calls evs).
Proof.
  intros Ht Hv. assert (Hk : k ∈ seen ts) by (apply (tr_seen _ _ _ Ht); eauto).
  apply list_elem_of_lookup in Hk as [j Hj]. destruct (Forall2_lookup_r _ _ _ _ _ (tr_order _ _ _ Ht) Hj) as (c & Hc & _ & a' & _ & Hv' & _).
  rw Hv in Hv'. injection Hv' as -> _ _. by eapply call_item_elem.
Qed.

Lemma tracks_known t s ts evs id a b : tracks s ts evs → view s (chunk_index t) = Some (id, a, b) →
  let r := on_tool_chunk fresh t s in tracks r.1 (ts ++ [t])%list (evs ++ r.2)%list.
Proof.
  intros Ht Hv. assert (b = true) as -> by (by apply (tr_view _ _ _ Ht) in Hv as [? _]).
  destruct (tool_chunk_known t s id a Hv) as (Hr & Hu & Hview). simpl. rw Hr.
  assert (Hseen : seen (ts ++ [t])%list = seen ts).
  { rw seen_snoc /see bool_decide_true //. apply (tr_seen _ _ _ Ht). eauto. }
  split.
  - rw arguments_event_calls Hseen. eapply Forall2_impl; [apply Ht|].
    intros c k (u & a' & Ho & Hv' & H). exists u. rw opening_snoc Ho Hview.
    destruct (Z.eqb_spec (chunk_index t) k) as [<-|]; [|by eauto]. rw Hv in Hv'. injection Hv' as -> <-. eauto.
  - intros k. rw Hseen -(tr_seen _ _ _ Ht) Hview. destruct (Z.eqb_spec (chunk_index t) k) as [<-|]; [|done]. rw Hv. split; eauto.
  - intros k id' a' b'. rw Hview arguments_for_snoc chunk_arguments_eq arguments_event_adds Hu.
    destruct (Z.eqb_spec (chunk_index t) k) as [<-|Hne].
    + intros [= <- <- <-]. destruct (tr_view _ _ _ Ht _ _ _ _ Hv) as (_ & Ha & Ha' & n & Hn). rw String.eqb_refl -Ha -Ha'. eauto.
    + intros Hv'. destruct (tr_view _ _ _ Ht _ _ _ _ Hv') as (-> & -> & Ha' & n & Hn).
      destruct (String.eqb_spec id id') as [<-|]; [destruct Hne; by eapply (tr_inj _ _ _ Ht)|]. rw !str_app_nil_r. eauto.
  - intros k k' id' a1 a2 b1 b2. rw !Hview.
    destruct (Z.eqb_spec (chunk_index t) k) as [<-|], (Z.eqb_spec (chunk_index t) k') as [<-|]; try done.
    + intros [= <- _ _] H. by eapply (tr_inj _ _ _ Ht).
    + intros H [= <- _ _]. by eapply (tr_inj _ _ _ Ht).
    + apply (tr_inj _ _ _ Ht).
  - apply arguments_event_announced; [apply Ht|by eapply tracks_item].
Qed.

(** A step that does not touch the calls, and one that does not touch the usage
    either. *)
Definition same_tracks (s s' : StreamState) : Prop := (∀ k, view s' k = view s k) ∧ (st_uuids s ≤ st_uuids s')%nat.
Definition same_usage (s s' : StreamState) : Prop := st_last_usage s' = st_last_usage s.
Definition still (s s' : StreamState) : Prop := same_tracks s s' ∧ same_usage s s'.

#[local] Instance same_tracks_preorder : PreOrder same_tracks.
Proof. split; [by split|]. intros s1 s2 s3 [H1 H2] [H3 H4]. split; [intros k; by rw H3|lia]. Qed.
#[local] Instance same_usage_preorder : PreOrder same_usage.
Proof. split; [done|]. intros s1 s2 s3 H1 H2. by rw /same_usage H2. Qed.
#[local] Instance still_preorder : PreOrder still.
Proof. split; [by split|]. intros s1 s2 s3 [H1 H2] [H3 H4]. split; by etrans. Qed.

Definition quiet_step : Step → Prop := step_ok same_tracks quiet.
Definition calm_step : Step → Prop := step_ok still quiet.
Definition modest_step : Step → Prop := step_ok same_usage (λ v, comment_of v = ∅).

Lemma calm_quiet p : calm_step p → quiet_step p.
Proof. by apply emit_ok_weaken; [intros ?? []|]. Qed.
Lemma calm_modest p : calm_step p → modest_step p.
Proof. by apply emit_ok_weaken; [intros ?? []|intros v (_ & _ & ?)]. Qed.

Lemma calm_events l : Forall quiet l → Forall (λ v, comment_of v = ∅) l.
Proof. intros H. eapply Forall_impl; [exact H|]. by intros v (_ & _ & ?). Qed.

Lemma calm_numbered f : (∀ n, quiet (f n)) → calm_step (numbered f).
Proof. intros Hf. apply ok_reading. intros ?. by apply ok_then; [apply _|apply ok_update|apply ok_emit; [apply _|]]. Qed.

Lemma tool_done_calm i : calm_step (tool_done i).
Proof.
  intros s. rw /tool_done /reading. destruct (st_tools s !! i) as [tr|] eqn:E; [|done].
  destruct (tk_added tr) eqn:Ea, (tk_done tr); try done. split; [|by repeat constructor]. split; [split; [|done]|done].
  intros k. rw /view /=. destruct (decide (i = k)) as [<-|]; [by rw lookup_insert_eq E /= Ea|by rw lookup_insert_ne].
Qed.

Ltac calm := repeat first [apply ok_then; [apply _|..] | apply ok_when; [apply _|] | apply ok_emit; [apply _|] | apply ok_update]; try done.

Lemma header_calm c : calm_step (ensure_header c).
Proof. apply ok_reading. intros ?. calm. Qed.
Lemma message_shell_calm : calm_step ensure_message_streaming_shell.
Proof. apply ok_reading. intros ?. calm. Qed.
Lemma reasoning_shell_calm : calm_step ensure_reasoning_streaming_shell.
Proof. apply ok_reading. intros ?. calm. Qed.
Lemma done_events_calm : calm_step (emit_tool_done_events order).
Proof. apply ok_reading. intros ?. calm. apply ok_all; [apply _|apply tool_done_calm]. Qed.
Lemma finalize_calm : calm_step (finalize_stream fresh).
Proof. apply ok_reading. intros ?. calm. Qed.

(** What is said about a choice apart from its calls. *)
Lemma words_calm ch reasoning : calm_step (
  emit_when (negb (is_empty (default "" (d_content (sc_delta ch))))) (
    ensure_message_streaming_shell ;;
    reading (λ s, numbered (item_delta "response.output_text.delta" (st_message_item_id s) (default "" (d_content (sc_delta ch)))))) ;;
  match reasoning with
  | Some r => ensure_reasoning_streaming_shell ;;
              reading (λ s, numbered (item_delta "response.reasoning_text.delta" (st_reasoning_item_id s) r))
  | None => silent
  end).
Proof.
  calm; [apply message_shell_calm| |destruct reasoning; [|done]; calm; [apply reasoning_shell_calm|]];
    apply ok_reading; intros ?; by apply calm_numbered.
Qed.

Lemma tool_chunk_modest t : modest_step (on_tool_chunk fresh t).
Proof. apply ok_reading. intros s. destruct (track_for fresh t s) as [tr n]. calm. Qed.

Lemma choice_modest ch reasoning : modest_step (on_choice fresh ch reasoning).
Proof.
  apply ok_then; [apply _|by apply ok_update|]. apply ok_then; [apply _|apply ok_when; [apply _|by apply calm_modest, calm_numbered]|].
  apply ok_then; [apply _|apply ok_all; [apply _|apply tool_chunk_modest]|]. apply calm_modest, words_calm.
Qed.

(** The usage of the last chunk that has one is kept, and no item is a comment. *)
Lemma chunk_usage c s : let r := on_chunk fresh order to_value c s in
  st_last_usage r.1 = or_else (sr_usage c) (st_last_usage s) ∧ Forall (λ v, comment_of v = ∅) r.2.
Proof.
  rw /on_chunk /process_upstream_chat_chunk. set (q := match sr_choices c with ch :: _ => _ | [] => silent end).
  assert (Hq : modest_step (q ;; reading (λ s, emit_when (match st_last_finish s with Some FinishToolCalls => true | _ => false end)
                                                (emit_tool_done_events order)))).
  { apply ok_then; [apply _|rw /q; destruct (sr_choices c); [done|apply choice_modest]|].
    apply ok_reading. intros s0. apply ok_when; [apply _|apply calm_modest, done_events_calm]. }
  destruct (header_calm c s) as [[_ Hu] Hh%calm_events].
  set (s1 := with_last (or_else (sr_usage c) (st_last_usage (ensure_header c s).1)) (st_last_finish (ensure_header c s).1) (ensure_header c s).1).
  destruct (Hq s1) as [Hu1 He]. split; [|by apply Forall_app].
  transitivity (st_last_usage s1); [exact Hu1|]. simpl. by rw Hu.
Qed.

Section fresh.
Hypothesis fresh_inj : ∀ m n, fresh m = fresh n → m = n.

Lemma new_item s ts evs k id a b : tracks s ts evs → view s k = Some (id, a, b) → id ≠ "item_" ++ fresh (st_uuids s).
Proof.
  intros Ht (_ & _ & _ & n & Hn & ->)%(tr_view _ _ _ Ht) He. apply (str_app_inj_l "item_") in He.
  apply fresh_inj in He. lia.
Qed.

Lemma tracks_new t s ts evs : tracks s ts evs → view s (chunk_index t) = None → chunk_name t ≠ "" →
  let r := on_tool_chunk fresh t s in tracks r.1 (ts ++ [t])%list (evs ++ r.2)%list.
Proof.
  intros Ht Hv Hname. destruct (tool_chunk_new t s Hv Hname) as ((tr & Hid & Htn & Hcid & Hr) & Hu & Hview). simpl. rw Hr.
  set (id := "item_" ++ fresh (st_uuids s)) in *.
  assert (Hns : chunk_index t ∉ seen ts) by (rw -(tr_seen _ _ _ Ht) Hv; by intros [? ?]).
  assert (Hseen : seen (ts ++ [t])%list = (seen ts ++ [chunk_index t])%list) by (by rw seen_snoc /see bool_decide_false).
  assert (Hopen : opening_of (chunk_index t) ts = None).
  { destruct (opening_of (chunk_index t) ts) eqn:E; [|done]. destruct Hns. apply seen_opening. by rw E. }
  assert (Hcalls : calls (evs ++ [call_added tr])%list = (calls evs ++ [(id, tk_call_id tr, chunk_name t)])%list).
  { rw calls_snoc. f_equal. cbn. by rw Hid Htn. }
  assert (Hitems : id ∉ map call_item (calls evs)).
  { intros Hin. apply list_elem_of_In, in_map_iff in Hin as (c & Hc & Hin). apply list_elem_of_In, list_elem_of_lookup in Hin as [j Hj].
    destruct (Forall2_lookup_l _ _ _ _ _ (tr_order _ _ _ Ht) Hj) as (k & _ & u & a & _ & Hvk & _).
    eapply new_item in Hvk; [|exact Ht]. by destruct Hvk. }
  change (call_added tr :: arguments_event id (chunk_argument t)) with ([call_added tr] ++ arguments_event id (chunk_argument t))%list.
  rw app_assoc. split.
  - rw arguments_event_calls Hseen Hcalls. apply Forall2_app.
    + eapply Forall2_impl; [apply Ht|]. intros c k (u & a & Ho & Hvk & H). exists u, a. rw opening_snoc Ho Hview.
      destruct (Z.eqb_spec (chunk_index t) k) as [<-|]; [|done]. congruence.
    + constructor; [|done]. exists t, (chunk_argument t). rw opening_snoc Hopen bool_decide_true // Hview Z.eqb_refl. eauto.
  - intros k. rw Hseen Hview elem_of_app list_elem_of_singleton -(tr_seen _ _ _ Ht).
    destruct (Z.eqb_spec (chunk_index t) k) as [<-|]; [split; eauto|]. split; [eauto|]. intros [?| ->]; done.
  - intros k id' a' b'. rw Hview arguments_for_snoc chunk_arguments_eq arguments_event_adds map_app concat_app_str.
    replace (String.concat "" (map (arguments_of id') [call_added tr])) with "" by done.
    destruct (Z.eqb_spec (chunk_index t) k) as [<-|Hne].
    + intros [= <- <- <-]. rw String.eqb_refl. split_and!; [done| | |exists (st_uuids s); split; [lia|done]].
      * rw /arguments_for concat_empty //. apply Forall_forall. intros u Hu'. rw chunk_arguments_eq (proj2 (Z.eqb_neq _ _)) //.
        intros He. destruct Hns. apply seen_opening. rw -He. by apply opening_elem.
      * rw concat_empty //. apply Forall_forall. intros v Hin. rw /arguments_of. destruct (adds_to id v) eqn:Ea; [|done].
        destruct Hitems. by eapply announced_item; [apply Ht|..].
    + intros Hv'. pose proof (new_item _ _ _ _ _ _ _ Ht Hv') as Hne'.
      destruct (tr_view _ _ _ Ht _ _ _ _ Hv') as (-> & -> & Ha' & n & Hn & Hid').
      rw (proj2 (String.eqb_neq _ _)); [|exact (not_eq_sym Hne')]. rw !str_app_nil_r. split_and!; [done..|]. exists n. split; [lia|done].
  - intros k k' id' a1 a2 b1 b2. rw !Hview.
    destruct (Z.eqb_spec (chunk_index t) k) as [<-|], (Z.eqb_spec (chunk_index t) k') as [<-|]; try done.
    + intros [= <- _ _] H. by eapply new_item in H.
    + intros H [= <- _ _]. by eapply new_item in H.
    + apply (tr_inj _ _ _ Ht).
  - apply arguments_event_announced.
    + apply announced_snoc; [apply Ht| |done]. intros c [= <-]. by rw /call_item /= Hid.
    + rw Hcalls map_app. set_solver.
Qed.

(** A step that reads the chunks [new] of calls. *)
Definition leads (p : Step) (new : list ToolCallChunk) : Prop :=
  ∀ s ts evs, tracks s ts evs → named (ts ++ new)%list → tracks (p s).1 (ts ++ new)%list (evs ++ (p s).2)%list.

Lemma named_init ts new : named (ts ++ new)%list → named ts.
Proof. intros H pre t post ->. apply (H pre t (post ++ new)%list). by rw -app_assoc. Qed.

Lemma leads_then p q a b : leads p a → leads q b → leads (p ;; q) (a ++ b)%list.
Proof.
  intros Hp Hq s ts evs Ht Hn. rw app_assoc in Hn *. rw /and_then /= app_assoc. apply Hq; [|done]. apply Hp; [done|]. by eapply named_init.
Qed.

Lemma leads_quiet p : quiet_step p → leads p [].
Proof. intros Hp s ts evs Ht _. rw app_nil_r. destruct (Hp s) as ((H1 & H2) & H3). by eapply tracks_quiet. Qed.

Lemma quiet_then_leads p q a : quiet_step p → leads q a → leads (p ;; q) a.
Proof. intros Hp Hq. apply (leads_then _ _ [] a); [by apply leads_quiet|done]. Qed.

Lemma leads_then_quiet p q a : leads p a → quiet_step q → leads (p ;; q) a.
Proof. intros Hp Hq. rw -(app_nil_r a). apply leads_then; [done|by apply leads_quiet]. Qed.

Lemma leads_chunk t : leads (on_tool_chunk fresh t) [t].
Proof.
  intros s ts evs Ht Hn. destruct (view s (chunk_index t)) as [[[id a] b]|] eqn:E; [by eapply tracks_known|].
  apply tracks_new; [done..|]. apply (Hn ts t []); [done|]. rw -(tr_seen _ _ _ Ht) E. by intros [? ?].
Qed.

Lemma leads_all ts' : leads (emit_all (on_tool_chunk fresh) ts') ts'.
Proof.
  induction ts' as [|t ts' IH]; [by apply leads_quiet|]. change (t :: ts') with ([t] ++ ts')%list. apply leads_then; [apply leads_chunk|done].
Qed.

Lemma choice_leads ch reasoning : leads (on_choice fresh ch reasoning) (default [] (d_tool_calls (sc_delta ch))).
Proof.
  apply quiet_then_leads; [done|]. apply quiet_then_leads; [by apply calm_quiet, ok_when; [apply _|apply calm_numbered]|].
  apply leads_then_quiet; [apply leads_all|apply calm_quiet, words_calm].
Qed.

Lemma chunk_leads c : leads (on_chunk fresh order to_value c) (first_calls c).
Proof.
  apply quiet_then_leads; [apply calm_quiet, header_calm|]. apply quiet_then_leads; [done|]. apply leads_then_quiet.
  - rw /first_calls. destruct (sr_choices c) as [|ch chs]; [by apply leads_quiet|apply choice_leads].
  - apply ok_reading. intros ?. apply ok_when; [apply _|apply calm_quiet, done_events_calm].
Qed.

Lemma stream_leads chunks : leads (emit_all (on_chunk fresh order to_value) chunks) (flat_map first_calls chunks).
Proof. induction chunks as [|c chunks IH]; [by apply leads_quiet|]. simpl. apply leads_then; [apply chunk_leads|done]. Qed.

(** The events of a stream, and the chunks of calls they were made from. *)
Lemma stream_tracks done_events chunks : named (flat_map first_calls chunks) →
  ∃ s, tracks s (flat_map first_calls chunks) (stream_events fresh order to_value done_events chunks).
Proof.
  intros Hn. eexists.
  apply (leads_then_quiet _ _ _ (stream_leads chunks) (calm_quiet _ finalize_calm) (with_tool_done_events fresh done_events) [] []); [|done].
  split; try done; try (split; [constructor|by intros [|? ?]]). intros k. split; [by intros [? ?]|set_solver].
Qed.
End fresh.
End cursor.
End CursorFacts.

(** ** There and back *)

Import Unified UnifiedFacts Cursor CursorFacts.

Definition u32_ok (n : Z) : Prop := (0 ≤ n ≤ u32_max)%Z.
Definition usage_ok (u : CompletionUsage) : Prop := u32_ok (prompt_tokens u) ∧ u32_ok (completion_tokens u) ∧ u32_ok (total_tokens u).
(** The three counts, without the details. *)
Definition counts (u : CompletionUsage) : CompletionUsage := mkUsage (prompt_tokens u) (completion_tokens u) (total_tokens u) None None.

Lemma as_u32_ok n : u32_ok n → as_u32 n = n.
Proof. rw /u32_ok /u32_max. intros H. apply Z.mod_small. lia. Qed.

Lemma usage_value_reads u : usage_ok u → completion_usage_from_responses_value (usage_value u) = Some (counts u).
Proof.
  intros (H1 & H2 & H3). rw /completion_usage_from_responses_value. cbn -[as_u64 num].
  rw !as_u64_num; cbn; rw ?as_u32_ok //; rw /u32_ok /u32_max /u64_max in H1 H2 H3 *; lia.
Qed.

(** What a client reads in the first choice of the chunks. *)
Definition first_choices (chunks : list StreamResponse) : list StreamChoice := omap (λ c, head (sr_choices c)) chunks.
Definition said (f : StreamDelta → option string) (chunks : list StreamResponse) : string :=
  String.concat "" (map (λ ch, default "" (f (sc_delta ch))) (first_choices chunks)).

(** The identifier and the name under which call [k] is opened. *)
Definition call_ids_at (k : nat) (chunks : list StreamResponse) : string :=
  joined (call_choice_reads (λ id _ _, default "" id) (Z.of_nat k)) chunks.
Definition call_names_at (k : nat) (chunks : list StreamResponse) : string :=
  joined (call_choice_reads (λ _ name _, default "" name) (Z.of_nat k)) chunks.

(** The records say what the first choices of the chunks say. *)
Record same_answer (chunks : list StreamResponse) (records : list ChatRecord) : Prop := mkSame {
  sa_text : text_at 0 (chunks_of records) = said d_content chunks;
  sa_reasoning : joined (choice_reasoning 0) (chunks_of records) = said d_reasoning_content chunks;
  sa_refusal : joined (choice_refusal 0) (chunks_of records) = said d_refusal chunks;
  sa_calls : let ts := flat_map first_calls chunks in ∀ j k, seen ts !! j = Some k →
    arguments_at 0 (Z.of_nat j) (chunks_of records) = arguments_for k ts ∧
    ∃ t, opening_of k ts = Some t ∧ call_names_at j (chunks_of records) = chunk_name t ∧
         ∀ id, chunk_id t = Some id → call_ids_at j (chunks_of records) = id;
  sa_end : ∃ before final, records = (before ++ [RecChunk final; RecDone])%list ∧
    sr_usage final = counts <$> last (omap sr_usage chunks)
}.

Lemma visible_all evs : Forall (λ v, comment_of v = ∅) evs → visible_text ∅ evs = String.concat "" (map (event_field OutputTextDelta) evs).
Proof.
  induction 1 as [|v evs Hv _ IH]; [done|]. cbn [visible_text]. rw Hv left_id_L IH map_cons concat_cons. f_equal.
  by destruct (str_field_of "item_id" v).
Qed.

Section round_trip.
Context (fresh : nat → string) (order : gmap Z ToolStreamTrack → list Z) (to_value : StreamResponse → Value).
(** serde writes the reasoning of a delta under its own name. *)
Hypothesis reasoning_written : ∀ c ch l, sr_choices c = ch :: l →
  default "" (delta_reasoning_text (to_value c)) = default "" (d_reasoning_content (sc_delta ch)).

Lemma said_cons f c chunks : said f (c :: chunks) = from_option (λ ch, default "" (f (sc_delta ch))) "" (head (sr_choices c)) ++ said f chunks.
Proof. rw /said /first_choices /omap. cbn [list_omap]. destruct (head (sr_choices c)); [by rw map_cons concat_cons|done]. Qed.

Lemma fields_said k f chunks : (∀ c ch l, sr_choices c = ch :: l → chunk_field to_value k c = default "" (f (sc_delta ch))) →
  (∀ c, sr_choices c = [] → chunk_field to_value k c = "") →
  String.concat "" (map (chunk_field to_value k) chunks) = said f chunks.
Proof.
  intros H H0. induction chunks as [|c chunks IH]; [done|]. rw map_cons concat_cons IH said_cons.
  destruct (sr_choices c) as [|ch l] eqn:E; simpl; [by rw H0|by rw (H _ _ _ E)].
Qed.

Lemma stream_usage chunks : ∀ s, let r := emit_all (on_chunk fresh order to_value) chunks s in
  st_last_usage r.1 = or_else (last (omap sr_usage chunks)) (st_last_usage s) ∧ Forall (λ v, comment_of v = ∅) r.2.
Proof.
  induction chunks as [|c chunks IH]; intros s; [done|]. cbn [emit_all]. rw /and_then.
  destruct (chunk_usage fresh order to_value c s) as [Hu He], (IH (on_chunk fresh order to_value c s).1) as [Hu' He'].
  split; [|by apply Forall_app]. cbn [fst]. rw Hu' Hu. rw /omap. cbn [list_omap]. destruct (sr_usage c) as [u|]; [|done].
  rw last_cons. by destruct (last (list_omap _ _ sr_usage chunks)).
Qed.

Lemma events_end done_events chunks : ∃ before s, stream_events fresh order to_value done_events chunks = (before ++ (finalize_stream fresh s).2)%list ∧
  st_last_usage s = last (omap sr_usage chunks) ∧ Forall (λ v, comment_of v = ∅) (before ++ (finalize_stream fresh s).2)%list.
Proof.
  destruct (stream_usage chunks (with_tool_done_events fresh done_events)) as [Hu He].
  eexists _, _. split; [done|]. split; [rw Hu /=; by destruct (last _)|]. apply Forall_app. split; [exact He|by repeat constructor].
Qed.

Lemma completed_records v s : event_kind v = Completed →
  ∃ pre final, (process_event v s).2 = (pre ++ [RecChunk final; RecDone])%list ∧
    sr_usage final = get2 "response" "usage" v ≫= completion_usage_from_responses_value.
Proof. intros Hk. rw /process_event Hk. eexists _, _. by split. Qed.

Lemma bridge_end before s : (∀ u, st_last_usage s = Some u → usage_ok u) →
  ∃ pre final, (emit_all process_event (before ++ (finalize_stream fresh s).2)%list start).2 = (pre ++ [RecChunk final; RecDone])%list ∧
    sr_usage final = counts <$> st_last_usage s.
Proof.
  intros Hu. rw emit_all_app /and_then. destruct (finalize_stream fresh s).2 as [|v [|]] eqn:E; [done| |done].
  cbn [snd]. rw emit_all_one. destruct (completed_records v (emit_all process_event before start).1) as (pre & final & -> & Hf).
  { by injection E as <-. }
  exists ((emit_all process_event before start).2 ++ pre)%list, final. split; [by rw app_assoc|]. rw Hf. injection E as <-.
  destruct (st_last_usage s) as [u|]; [|done]. exact (usage_value_reads u (Hu u eq_refl)).
Qed.

Lemma argument_reads_arguments id v : argument_reads (λ _ _ a, default "" a) id v = arguments_of id v.
Proof. rw /argument_reads /arguments_of. destruct (adds_to id v); [|done]. by destruct (delta_of v). Qed.

Lemma silent_arguments r id evs : (∀ a, r None None a = "") → String.concat "" (map (argument_reads r id) evs) = "".
Proof. intros Hr. apply concat_empty, Forall_true. intros v. rw /argument_reads. by case_match. Qed.

Lemma bridges_agree done_events chunks :
  (∀ m n, fresh m = fresh n → m = n) → named (flat_map first_calls chunks) →
  (Z.of_nat (length (seen (flat_map first_calls chunks))) ≤ 2 ^ 32)%Z →
  Forall usage_ok (omap sr_usage chunks) →
  same_answer chunks (emit_all process_event (stream_events fresh order to_value done_events chunks) start).2.
Proof.
  intros Hfresh Hnamed Hlen Hus. set (evs := stream_events fresh order to_value done_events chunks).
  destruct (stream_tracks fresh order to_value Hfresh done_events chunks Hnamed) as [st Ht]. rw -/evs in Ht.
  destruct (events_end done_events chunks) as (before & s & He & Hu & Hc). rw -/evs in He. rw -He in Hc.
  assert (Hn : (Z.of_nat (length (calls evs)) ≤ 2 ^ 32)%Z) by (by rw (Forall2_length _ _ _ (tr_order _ _ _ _ Ht))).
  split.
  - rw /text_at -/(joined _ _) joined_records -/(heard _ _ _) text_heard visible_all // /evs stream_heard; [|by left].
    by apply fields_said; intros; rw /chunk_field H.
  - rw joined_records -/(heard _ _ _) (other_heard ReasoningDelta); [|by left]. rw /evs stream_heard; [|by right; left].
    apply fields_said; intros; rw /chunk_field H //. by eapply reasoning_written.
  - rw joined_records -/(heard _ _ _) (other_heard RefusalDelta); [|by right]. rw /evs stream_heard; [|by right; right].
    by apply fields_said; intros; rw /chunk_field H.
  - intros ts j k Hj. destruct (Forall2_lookup_r _ _ _ _ _ (tr_order _ _ _ _ Ht) Hj) as ([[id cid] nm] & Hcj & t & a & Ho & Hv & Hnm & Hid).
    destruct (tr_view _ _ _ _ Ht _ _ _ _ Hv) as (_ & Ha & Ha' & _).
    assert (Hr : ∀ r, joined (call_choice_reads r (Z.of_nat j)) (chunks_of (emit_all process_event evs start).2) =
                      r (Some cid) (Some nm) (Some "") ++ String.concat "" (map (argument_reads r id) evs)).
    { intros r. rw joined_records -/(heard _ _ _). destruct (calls_heard r j evs (tr_announced _ _ _ _ Ht) Hn) as [_ ->]. by rw /call_reads Hcj. }
    split; [|exists t; split; [done|split]].
    + rw -Ha Ha'. transitivity (String.concat "" (map (argument_reads (λ _ _ a, default "" a) id) evs)); [exact (Hr (λ _ _ a, default "" a))|].
      f_equal. apply map_ext. intros v. apply argument_reads_arguments.
    + rw /call_names_at Hr silent_arguments // str_app_nil_r. exact Hnm.
    + intros i Hi. rw /call_ids_at Hr silent_arguments // str_app_nil_r. exact (Hid i Hi).
  - rw He. destruct (bridge_end before s) as (pre & final & -> & Hf).
    { intros u Hsu. rw Hu in Hsu. rw Forall_forall in Hus. apply Hus. by apply last_Some_elem_of. }
    exists pre, final. by rw Hf Hu.
Qed.
End round_trip.

(** C25 (roundtrip). A chat stream that is turned into Responses events and back
    says the same: the text, the reasoning and the refusal of its first choices,
    joined, every call in the order in which the calls appeared, with its name,
    its identifier and its arguments, and at the end the latest counts of tokens.
    The stream ends with one chunk and the end marker.  The identifiers that are
    drawn are distinct, a call is named by its first chunk, and numbers are
    those of [u32]. *)
Theorem bridges_round_trip fresh order to_value done_events chunks :
  (∀ m n, fresh m = fresh n → m = n) →
  (∀ c ch l, sr_choices c = ch :: l → default "" (delta_reasoning_text (to_value c)) = default "" (d_reasoning_content (sc_delta ch))) →
  named (flat_map first_calls chunks) →
  (Z.of_nat (length (seen (flat_map first_calls chunks))) ≤ 2 ^ 32)%Z →
  Forall usage_ok (omap sr_usage chunks) →
  same_answer chunks (emit_all process_event (stream_events fresh order to_value done_events chunks) start).2.
Proof. intros Hf Hr. by apply bridges_agree. Qed.

(** A stream with text, reasoning and a call in two pieces. *)
Definition sample_chunks : list StreamResponse :=
  let chunk d u := mkStreamResponse "chatcmpl-7" [mkStreamChoice 0 d None None] 5 "m" None None "chat.completion.chunk" u in
  [chunk (mkDelta (Some "Hel") None None (Some OaAssistant) None None) None;
   chunk (mkDelta (Some "lo") None None None None (Some "hm")) None;
   chunk (mkDelta None None (Some [mkChunk 4 (Some "call_1") (Some ToolFunction) (Some (mkCallStream (Some "look") (Some "{")))]) None None None) None;
   chunk (mkDelta None None (Some [mkChunk 4 None None (Some (mkCallStream None (Some "}")))]) None None None) (Some (mkUsage 3 4 7 None None))].

(** The part of serde's output that is read. *)
Definition sample_to_value (c : StreamResponse) : Value :=
  Object [("choices", Array (map (λ ch, Object [("delta", Object [
    ("reasoning_content", from_option Str Null (d_reasoning_content (sc_delta ch)))])]) (sr_choices c)))].

Lemma bridges_round_trip_witness :
  same_answer sample_chunks (emit_all process_event (stream_events pretty (λ _, []) sample_to_value true sample_chunks) start).2.
Proof.
  apply (bridges_round_trip pretty (λ _, []) sample_to_value true sample_chunks).
  - intros m n H. by apply (inj pretty) in H.
  - intros c ch l H. rw /delta_reasoning_text /sample_to_value H /=. by destruct (d_reasoning_content (sc_delta ch)) as [[]|].
  - intros pre t post He Hn. destruct pre as [|t1 [|t2 pre]]; simpl in He.
    + by injection He as <- _.
    + injection He as <- <- _. destruct Hn. by vm_compute; constructor.
    + injection He as _ _ He. by destruct pre.
  - by vm_compute.
  - repeat constructor; by vm_compute.
Defined.

(** ** What goes wrong *)

Lemma no_end_in_role s : RecDone ∉ (push_role_if_needed s).2.
Proof. rw /push_role_if_needed /reading. destruct (bs_role_sent s); simpl; set_solver. Qed.

Lemma no_end_as_assistant c s : RecDone ∉ (say_as_assistant c s).2.
Proof. rw /say_as_assistant /and_then /= elem_of_app. intros [H|H]; [by apply no_end_in_role in H|set_solver]. Qed.

Lemma event_end v s : RecDone ∈ (process_event v s).2 ↔ event_kind v = Completed ∨ event_kind v = Failed.
Proof.
  rw /process_event /reading. pose proof no_end_as_assistant.
  destruct (event_kind v); split; try (by intros [?|?]); try set_solver.
  1,2,3,5: rw /emit_when; match goal with |- context [if ?b then _ else _] => destruct b end;
    first [by intros ?%H | by intros ?%elem_of_nil | by intros ?%list_elem_of_singleton].
  destruct (get "item" v) as [item|]; [|by intros ?%elem_of_nil]. rw /item_added /and_then /emit_when /reading /= elem_of_app.
  intros [Hd|Hd]; revert Hd; repeat case_match; simpl; first [by intros ?%H | by intros ?%elem_of_nil].
Qed.

(** A Responses stream that was cut short ends with [response.incomplete], which
    the bridge does not know: the client gets neither a finish reason nor the end
    marker, which follow only a completion or a failure. *)
Theorem end_marker_needs_an_end evs s :
  RecDone ∈ (emit_all process_event evs s).2 ↔ ∃ v, v ∈ evs ∧ (event_kind v = Completed ∨ event_kind v = Failed).
Proof.
  revert s. induction evs as [|v evs IH]; intros s; [split; [set_solver|intros (? & ? & _); set_solver]|].
  cbn [emit_all]. rw /and_then elem_of_app IH. rw (event_end v s). setoid_rewrite elem_of_cons. naive_solver.
Qed.

(** A failure looks like the end of an answer: no error is sent. *)
Theorem failure_looks_like_an_end v s : event_kind v = Failed →
  (∀ e, RecError e ∉ (process_event v s).2) ∧
  ∃ pre final c, (process_event v s).2 = (pre ++ [RecChunk final; RecDone])%list ∧ sr_choices final = [c] ∧
    sc_finish_reason c = Some (if bs_has_tool_calls s then FinishToolCalls else FinishStop).
Proof.
  intros Hk. rw /process_event Hk /= /and_then /=. split.
  - intros e. rw !elem_of_app. rw /push_role_if_needed /reading. set_unfold. destruct (bs_role_sent _); set_solver.
  - eexists _, _, _. split; [done|]. split; [done|]. simpl. f_equal.
    rw /push_role_if_needed /reading. destruct (get "response" v); simpl; by destruct (bs_role_sent s).
Qed.

(** Arguments of an item that was not announced go to the first call. *)
Theorem stray_arguments_join_the_first_call v s :
  event_kind v = ArgumentsDelta → bs_tool_call_indices s !! item_id_of v = None → delta_of v ≠ "" →
  arguments_at 0 0 (chunks_of (process_event v s).2) = delta_of v.
Proof.
  intros Hk Hn Hd. rw /process_event Hk /reading /emit_when. destruct (is_empty (delta_of v)) eqn:E.
  - by destruct (delta_of v).
  - simpl. rw Hn /arguments_at /=. by rw /choice_arguments /= /chunk_arguments /=.
Qed.

(** Towards Responses, a call whose first chunk has no name is not announced,
    but its arguments are sent. *)
Theorem unnamed_arguments_are_sent fresh t s : view s (chunk_index t) = None → chunk_name t = "" → chunk_argument t ≠ "" →
  (on_tool_chunk fresh t s).2 = [arguments_delta ("item_" ++ fresh (st_uuids s)) (chunk_argument t)].
Proof.
  rw /view /on_tool_chunk /reading /track_for. destruct (st_tools s !! chunk_index t); [done|]. intros _ Hn Ha.
  assert (He : is_empty (chunk_argument t) = false) by (by destruct (chunk_argument t)).
  destruct (chunk_id t); simpl; rw -/(chunk_argument t) -/(chunk_name t) Hn /= He; by rw andb_false_r.
Qed.

(** The text of an answer that carries [output_text] beside its items is
    doubled. *)
Theorem output_text_is_repeated id model t created :
  Answer.ag_content (Answer.aggregate_output (Answer.mkAnswer created id model [Answer.OutMessage [Answer.OutText [] t]] (Some t) Answer.StCompleted None)) =
  if is_empty (t ++ t) then None else Some (t ++ t).
Proof. by rw /Answer.aggregate_output /=. Qed.

(** An answer of Responses that is not streamed becomes one choice with all of
    its text, its last refusal and its calls in order. *)
Theorem answer_is_kept r :
  let c := Answer.non_stream_responses_to_chat r in
  ∃ ch, resp_choices c = [ch] ∧
    (Answer.notes (flat_map Answer.content_of (Answer.an_output r)) = [] →
     default "" (rm_content (ch_message ch)) =
       default "" (Answer.an_output_text r) ++ String.concat "" (Answer.texts (flat_map Answer.content_of (Answer.an_output r)))) ∧
    default [] (rm_tool_calls (ch_message ch)) =
      omap (λ i, match i with Answer.OutFunctionCall id name args => Some (mkToolCall id ToolFunction (mkCall name args)) | _ => None end) (Answer.an_output r) ∧
    (ch_finish_reason ch = Some FinishToolCalls ↔
     Answer.an_status r = Answer.StCompleted ∧ default [] (rm_tool_calls (ch_message ch)) ≠ []).
Proof.
  eexists. split; [done|]. simpl. rw /Answer.aggregate_output. set (calls := omap _ (Answer.an_output r)). simpl. split_and!.
  - intros ->. by destruct (default "" (Answer.an_output_text r) ++ _).
  - by destruct calls.
  - destruct (Answer.an_status r), calls; simpl; naive_solver.
Qed.

(** *** Requests *)

(** Every message of the input becomes one message of the same role with its
    text; what is no text is dropped. *)
Theorem bridged_request_keeps_the_texts read_message other_tool r chat items :
  Request.create_response_to_chat_request read_message other_tool r = Ok chat → rq_input r = InputItems items →
  ∃ first rest, cr_messages chat = (first ++ rest)%list ∧ (length first ≤ 1)%nat ∧
    Forall2 (λ i m, ∃ role c, (i = ItemMessage role c ∨ ∃ v, i = ItemCustom v ∧ read_message v = Some (role, c)) ∧
                              m = Request.input_message_to_chat role c) items rest ∧
    cr_model chat = rq_model r ∧ cr_stream chat = rq_stream r.
Proof.
  rw /Request.create_response_to_chat_request /Request.input_to_messages. intros H Hi. rw Hi in H.
  set (first := match rq_instructions r with Some t => _ | None => [] end) in H.
  destruct (Request.messages_of_items read_message items) as [rest|] eqn:E; [|done]. simpl in H.
  exists first, rest. assert (Hm : cr_messages chat = (first ++ rest)%list ∧ cr_model chat = rq_model r ∧ cr_stream chat = rq_stream r).
  { destruct (first ++ rest)%list; [done|]. by injection H as <-. }
  destruct Hm as (-> & -> & ->). split_and!; [done| |clear -E|done..].
  { rw /first. destruct (rq_instructions r) as [t|]; [destruct (is_empty (trim t))|]; simpl; lia. }
  revert rest E. induction items as [|i items IH]; intros rest E; [by injection E as <-|]. simpl in E.
  destruct (Request.input_item_to_chat_message read_message i) as [m|] eqn:Ei; [|done]. simpl in E.
  destruct (Request.messages_of_items read_message items) as [ms|]; [|done]. injection E as <-. constructor; [|by apply IH].
  destruct i as [role c|v]; simpl in Ei; [injection Ei as <-; eauto 6|].
  destruct (read_message v) as [[role c]|] eqn:Er; [|done]. injection Ei as <-. eauto 8.
Qed.

(** An image in the input does not reach the model. *)
Theorem images_are_dropped role url t :
  Request.input_message_to_chat role (ContentList [InputText t; CtImage (mkInputImage DetailAuto None (Some url))]) =
  Request.input_message_to_chat role (TextInput t).
Proof. by rw /Request.input_message_to_chat /=. Qed.
