(* ===== verification/MapperService.v ===== *)
(** * The mapper service

    Models [ai-gateway/src/middleware/mapper/service.rs] with the hooks of
    [ai-gateway/src/ide_adapation/mapper_service_hooks.rs] and the first step of
    the Responses bridge: what happens to a request between the router and the
    dispatcher, and to the response on its way back.  The parts are the other
    files' definitions, composed in the order of the code; the trait of the
    converters is the record [EndpointConverter], which [TypedConverter]
    implements.

    Parameters ([ServiceOps]): [serde_json] on values and on the vendored
    types, [chrono], the tokenizer and the catalogue of prices.  Logging is
    left out apart from the log of a denial. *)

From S2P Require Import Prelude RustStr Json Float64 Provider ModelId Headers Routing ChatTypes MapperProfiles MapperLenient MapperRegistry IngressNormalize ResponsesToChat ResponsesIngress Prompts LargeContext VirtualKeys X402Proxy Auth ContentFilter DefaultModel TypedConverter ResponsesBridge RateLimitMonitor HealthMonitor.
From Stdlib Require Import Ascii.
Local Open Scope string_scope.

(** ** Requests and their extensions *)

(** The extensions that are read or written: those of the content filter, the
    policy of the virtual key, the four markers of the unified API, and what the
    service puts in itself. *)
Record Extensions := mkExtensions {
  x_filter : FilterExtensions;
  x_vk_policy : option VkPolicy;
  x_master_key : bool;             (* [MasterKeyUnifiedModelPassthrough] *)
  x_unified_body : bool;           (* [UnifiedModelBodyPassthrough] *)
  x_policy_checked : bool;         (* [UnifiedModelPolicyChecked] *)
  x_bridge : bool;                 (* [UnifiedChatCompletionsResponsesBridge] *)
  x_debug : option DebugLogConfig;
  x_policy_override : option PolicyModelOverride;
  x_prompt_header : option PromptHeaderForRequestLog;
  x_compression : option PromptCompressionTokenPair;
  x_native_passthrough : bool
}.

Definition with_override (o : option PolicyModelOverride) (x : Extensions) : Extensions :=
  mkExtensions (x_filter x) (x_vk_policy x) (x_master_key x) (x_unified_body x) (x_policy_checked x) (x_bridge x) (x_debug x)
    o (x_prompt_header x) (x_compression x) (x_native_passthrough x).
Definition with_prompt_header (p : option PromptHeaderForRequestLog) (x : Extensions) : Extensions :=
  mkExtensions (x_filter x) (x_vk_policy x) (x_master_key x) (x_unified_body x) (x_policy_checked x) (x_bridge x) (x_debug x)
    (x_policy_override x) p (x_compression x) (x_native_passthrough x).
Definition with_compression (c : option PromptCompressionTokenPair) (x : Extensions) : Extensions :=
  mkExtensions (x_filter x) (x_vk_policy x) (x_master_key x) (x_unified_body x) (x_policy_checked x) (x_bridge x) (x_debug x)
    (x_policy_override x) (x_prompt_header x) c (x_native_passthrough x).
Definition with_passthrough (b : bool) (x : Extensions) : Extensions :=
  mkExtensions (x_filter x) (x_vk_policy x) (x_master_key x) (x_unified_body x) (x_policy_checked x) (x_bridge x) (x_debug x)
    (x_policy_override x) (x_prompt_header x) (x_compression x) b.

(** Counters and the log of a denial, in the order they happen. *)
Inductive ServiceEffect :=
| EffPrompt (outcome : string)
| EffFilter (m : FilterMetric)
| EffDenyLog (url message : string)
| EffModelDenied
| EffIngressAdjust (label : string) (applied : bool)
| EffProfile (label : string) (explicit : bool)
| EffPassthrough (b : bool).

Inductive ServiceError (M : Type) :=
| EPrompt (e : PromptError)
| EFilter (e : FilterError)
| ERouting (e : RoutingError)
| ELargeContext (e : LargeContextError)
| EInvalidBody
| EMissingModelId
| EAccess (e : DefaultModel.ApiError)
| EModelId (e : ModelId.MapperError)
| EEngine (e : EngineError)
| EInvalidConverter (source target : ApiEndpoint)
| EConvert (e : ConvertApiError M)
| EBridge (e : Request.BridgeError)
| EMapperInvalid                      (* [MapperError::InvalidRequest] *)
| EEmptyBody                          (* [MapperError::EmptyResponseBody] *)
| EStream (what : string)
| EMissing (what : string)            (* [InternalError::ExtensionNotFound] *)
| EEndpoint (e : EndpointError)
| EInternal
| EInvalidUri
| EPanic.
Arguments EPrompt {M}. Arguments EFilter {M}. Arguments ERouting {M}. Arguments ELargeContext {M}. Arguments EInvalidBody {M}.
Arguments EMissingModelId {M}. Arguments EAccess {M}. Arguments EModelId {M}. Arguments EEngine {M}. Arguments EInvalidConverter {M}.
Arguments EConvert {M}. Arguments EBridge {M}. Arguments EMapperInvalid {M}. Arguments EEmptyBody {M}. Arguments EStream {M}.
Arguments EMissing {M}. Arguments EEndpoint {M}. Arguments EInternal {M}. Arguments EInvalidUri {M}. Arguments EPanic {M}.

(* src: ai-gateway/src/middleware/mapper/mod.rs:134-161 EndpointConverter *)
Record EndpointConverter (Date Cell M : Type) := mkEndpointConverter {
  ec_req : string → result (string * MapperContext Date Cell ResponsesRequest) (ConvertApiError M);
  ec_req_passthrough : string → result (string * MapperContext Date Cell ResponsesRequest) (ConvertApiError M);
  ec_resp : Z → string → bool → option Cell → bool → option Cell * result (option string) (ConvertApiError M)
}.
Arguments mkEndpointConverter {Date Cell M}.
Arguments ec_req {Date Cell M}.
Arguments ec_req_passthrough {Date Cell M}.
Arguments ec_resp {Date Cell M}.

(** The generic converter implements the trait. *)
(* src: ai-gateway/src/middleware/mapper/mod.rs:288-468 TypedEndpointConverter as EndpointConverter *)
Definition typed_endpoint_converter {Date SReq TReq TResp SResp TChunk SChunk TErr SErr Cell M}
    (fresh_cell : Cell) (j : JsonOps) (ops : ConverterOps SReq TReq TResp SResp TChunk SChunk TErr SErr Cell M)
    (wire : WireOps Date SReq TReq TResp SResp TChunk SChunk TErr SErr M) : EndpointConverter Date Cell M :=
  mkEndpointConverter (convert_req_body fresh_cell ops wire) (convert_req_body_model_passthrough fresh_cell ops wire)
    (convert_resp_body j ops wire).

(** What the service uses of other crates. *)
Record ServiceOps (Date Cell : Type) := mkServiceOps {
  so_from_slice : string → option Value;
  so_to_vec : Value → string;
  so_to_string : Value → string;
  so_to_lowercase : string → string;
  so_read_chat : string → option ChatRequest;
  so_write_chat : ChatRequest → string;
  so_write_compatible : InferenceProvider → ChatRequest → string;
  so_read_responses : string → option ResponsesRequest;
  so_responses_of : Value → option ResponsesRequest;
  so_input_message : Value → option (RespRole * InputContent);
  so_other_tool : Value → option ChatTool;
  so_completion_model : string → option string;
  so_embedding_model : string → option string;
  so_image_model : string → option (option string);
  so_read_message : string → option MessageParams;
  so_parse_date : string → string → option Date;
  so_year : string;
  so_format : Date → string → string;
  so_estimate : ChatCompletionsPayload → string → option InferenceProvider → option Z;
  so_price : InferenceProvider → ModelId Date → option f64;
  so_fresh_cell : Cell;
  so_getenv : string → option string;
  so_path_ok : string → bool           (* [PathAndQuery::from_str] *)
}.
Arguments so_from_slice {Date Cell}. Arguments so_to_vec {Date Cell}. Arguments so_to_string {Date Cell}. Arguments so_to_lowercase {Date Cell}.
Arguments so_read_chat {Date Cell}. Arguments so_write_chat {Date Cell}. Arguments so_write_compatible {Date Cell}. Arguments so_read_responses {Date Cell}.
Arguments so_responses_of {Date Cell}. Arguments so_input_message {Date Cell}. Arguments so_other_tool {Date Cell}. Arguments so_completion_model {Date Cell}.
Arguments so_embedding_model {Date Cell}. Arguments so_image_model {Date Cell}. Arguments so_read_message {Date Cell}. Arguments so_parse_date {Date Cell}.
Arguments so_year {Date Cell}. Arguments so_format {Date Cell}. Arguments so_estimate {Date Cell}. Arguments so_price {Date Cell}.
Arguments so_fresh_cell {Date Cell}. Arguments so_getenv {Date Cell}. Arguments so_path_ok {Date Cell}.

(** The state of the gateway that is read. *)
Record ServiceState := mkServiceState {
  ss_filter : FilterWorld;             (* the policy client, and Redis *)
  ss_policy : PolicyConfig;
  ss_protected : list (string * bool); (* the validation rules: path, and whether it has checks *)
  ss_observability : bool;
  ss_join : InferenceProvider → option (string → option string)   (* the providers' base addresses *)
}.

(** ** Small decisions *)

(* src: ai-gateway/src/middleware/mapper/service.rs:675-680 should_enforce_mapper_model_policy *)
Definition should_enforce_mapper_model_policy (x : Extensions) : bool := negb (x_master_key x) && negb (x_policy_checked x).

(* src: ai-gateway/src/middleware/mapper/service.rs:682-690 should_skip_semantic_envelope *)
Definition should_skip_semantic_envelope (x : Extensions) (native : bool) : bool := x_master_key x || native.

(* src: ai-gateway/src/middleware/mapper/service.rs:733-768 supports_unified_model_body_passthrough *)
Definition supports_unified_model_body_passthrough (source target : ApiEndpoint) : bool :=
  match source, target with
  | EOpenAI ChatCompletions, EOpenAI ChatCompletions | EOpenAI Completions, EOpenAI Completions
  | EOpenAI Embeddings, EOpenAI Embeddings | EOpenAI ImageGenerations, EOpenAI ImageGenerations
  | EOpenAI Responses, EOpenAI Responses => true
  | EOpenAI ChatCompletions, EOpenAICompatible _ ChatCompletions | EOpenAI ChatCompletions, EAnthropicMessages
  | EOpenAI ChatCompletions, EGoogleGenerateContents | EOpenAI ChatCompletions, EBedrockConverse
  | EOpenAI ChatCompletions, EOllamaChatCompletions => true
  | EOpenAI Responses, EOpenAICompatible _ Responses => true
  | _, _ => false
  end.

(* src: ai-gateway/src/middleware/mapper/service.rs:1128-1137 should_append_openai_sse_done_marker *)
Definition should_append_openai_sse_done_marker (e : ApiEndpoint) : bool :=
  match e with
  | EOpenAI (ChatCompletions | Completions) | EOpenAICompatible _ (ChatCompletions | Completions) => true
  | _ => false
  end.

(* src: ai-gateway/src/config/dispatcher.rs:48-61 protects_payload_logs *)
Definition protects_payload_logs (rules : list (string * bool)) (path : string) : bool :=
  let normalize s := trim_start_matches "v1/" (trim_start_matches "/" (default s (head (split "?" s)))) in
  existsb (λ r, r.2 && (normalize r.1 =? normalize path)) rules.

Section service.
Context {Date Cell M : Type} `{EqDecision Date}.
Context (ops : ServiceOps Date Cell) (state : ServiceState).
Context (registry : Registry) (implementation : TypedEndpointConverter → EndpointConverter Date Cell M).

Abbreviation Ctx := (MapperContext Date Cell ResponsesRequest).
Abbreviation Handler A := (Traced ServiceEffect (ServiceError M) A).

(** A fallible step, and one whose failure is a panic. *)
Definition attempt {A E} (f : E → ServiceError M) (r : result A E) : Handler A :=
  match r with Ok a => traced_ret a | Err e => traced_stop (f e) end.
Definition unless_panic {A} (o : option A) : Handler A := match o with Some a => traced_ret a | None => traced_stop EPanic end.
Definition require {A} (e : ServiceError M) (o : option A) : Handler A := match o with Some a => traced_ret a | None => traced_stop e end.
Definition tell_all (l : list ServiceEffect) : Handler unit := (l, inl tt).

(* src: ai-gateway/src/middleware/mapper/registry.rs:32-44 get_converter in the service *)
Definition converter_for (source target : ApiEndpoint) : Handler (EndpointConverter Date Cell M) :=
  require (EInvalidConverter source target) (implementation <$> get_converter registry source target).

(** ** The model of a body *)

(* src: ai-gateway/src/middleware/mapper/service.rs:703-731 normalize_top_level_model_for_target_provider *)
Definition normalize_top_level_model_for_target_provider (body : string) (p : InferenceProvider) : result (option string) (ServiceError M) :=
  let? value := ok_or (so_from_slice ops body) EInvalidBody in
  match str_field_of "model" value ≫= split_once "/" with
  | Some (prefix, raw_model) =>
      if is_empty raw_model then Ok None
      else if eq_ignore_ascii_case prefix (as_ref p) || eq_ignore_ascii_case prefix (as_provider_code p)
      then Ok (Some (so_to_vec ops (set_field "model" (Str raw_model) value)))
      else Ok None
  | None => Ok None
  end.

(* src: ai-gateway/src/middleware/mapper/service.rs:692-701 normalize_unified_passthrough_body_model *)
Definition normalize_unified_passthrough_body_model (body : string) (p : InferenceProvider) : result string (ServiceError M) :=
  let? r := normalize_top_level_model_for_target_provider body p in Ok (default body r).

(** The model that the policy of a key is asked about; [None] for endpoints that
    are not checked. *)
(* src: ai-gateway/src/middleware/mapper/service.rs:606-671 enforce_vk_model_policy_for_source_endpoint models *)
Definition policy_model (source : ApiEndpoint) (body : string) : option (result string (ServiceError M)) :=
  match source with
  | EOpenAI ChatCompletions => Some (let? r := ok_or (so_read_chat ops body) EInvalidBody in Ok (cr_model r))
  | EOpenAI Completions => Some (ok_or (so_completion_model ops body) EInvalidBody)
  | EOpenAI Embeddings => Some (ok_or (so_embedding_model ops body) EInvalidBody)
  | EOpenAI ImageGenerations =>
      Some (let? r := ok_or (so_image_model ops body) EInvalidBody in ok_or r EMissingModelId)
  | EOpenAI Responses =>
      Some (let? f := map_err ERouting (responses_request_routing_fields (so_from_slice ops) body) in Ok (rf_model f))
  | EAnthropicMessages => Some (let? r := ok_or (so_read_message ops body) EInvalidBody in Ok (mp_model r))
  | _ => None
  end.

(* src: ai-gateway/src/middleware/mapper/service.rs:580-673 enforce_vk_model_policy_for_source_endpoint *)
Definition enforce_vk_model_policy_for_source_endpoint (x : Extensions) (source : ApiEndpoint) (body : string) : Handler unit :=
  match x_policy_override x with
  | Some _ => traced_ret tt
  | None =>
      match policy_model source body with
      | None => traced_ret tt
      | Some r =>
          let* model := attempt id r in
          match check_model_access (so_to_lowercase ops) (x_vk_policy x) model with
          | Ok _ => traced_ret tt
          | Err e => let* _ := traced_tell EffModelDenied in traced_stop (EAccess e)
          end
      end
  end.

(** ** Before the conversion *)

(* src: ai-gateway/src/middleware/mapper/service.rs:770-938 emit_mapper_policy_deny_log *)
Definition emit_mapper_policy_deny_log (x : Extensions) (message path : string) : Handler unit :=
  match (if ss_observability state then
           _ ← fx_context (x_filter x) ≫= id;
           p ← fx_provider (x_filter x);
           join ← ss_join state p;
           join path
         else None) with
  | Some url => traced_tell (EffDenyLog url message)
  | None => traced_ret tt
  end.

(** The headers of a request: the ones that set up debugging are taken out once. *)
Definition request_headers (h : HeaderMap) (x : Extensions) : HeaderMap :=
  match x_debug x with Some _ => h | None => (from_headers_with_env h (so_getenv ops)).2 end.

(** The body with the stored prompt put in. *)
(* src: ai-gateway/src/middleware/mapper/service.rs:231-246 map_request stored prompt *)
Definition prompted (h : HeaderMap) (x : Extensions) (body : string) :=
  merge_prompt_cache_messages_into_body (so_to_string ops) (so_to_lowercase ops) (so_from_slice ops) (so_to_vec ops)
    (fw_redis (ss_filter state)) h (default "" (ac_org_id <$> (fx_context (x_filter x) ≫= id))) body.

(** The stored prompt, then the content filter. *)
(* src: ai-gateway/src/middleware/mapper/service.rs:231-289 map_request filter *)
Definition filtered (h : HeaderMap) (x : Extensions) (path body : string) : Handler (string * Extensions) :=
  let m := prompted h x body in
  let* _ := traced_tell (EffPrompt m.1) in
  let* merged := attempt EPrompt m.2 in
  let body := merged.1 in
  let x := match merged.2 with Some p => with_prompt_header (Some p) x | None => x end in
  let r := evaluate_for_vk_request (so_from_slice ops) (so_parse_date ops) (so_year ops) (so_estimate ops) (so_price ops)
             (ss_filter state) (ss_policy state) h (x_filter x) body in
  let* _ := tell_all (map EffFilter r.1) in
  let* verdict := match r.2 with
                  | Ok v => traced_ret v
                  | Err (ContentPolicyDenied message) =>
                      let* _ := emit_mapper_policy_deny_log x message path in
                      traced_stop (EFilter (ContentPolicyDenied message))
                  | Err e => traced_stop (EFilter e)
                  end in
  let body := match forward_body verdict with UseOriginal => body | UseReplaced b => b end in
  match change_model verdict with
  | None => traced_ret (body, x)
  | Some new_model =>
      let* d := unless_panic (apply_model_downgrade (so_from_slice ops) (so_to_vec ops) body new_model) in
      traced_ret (d.1, with_override (Some (mkOverride (default "" d.2) new_model)) x)
  end.

(** The rewriting of Responses and of chat requests. *)
(* src: ai-gateway/src/middleware/mapper/service.rs:291-318 map_request rewriting *)
Definition reshaped (h : HeaderMap) (profile : ClientProfile) (source target : ApiEndpoint) (x : Extensions) (body : string)
  : Handler (string * ApiEndpoint * Extensions) :=
  let* body := attempt ERouting (normalize_responses_for_target (so_to_string ops) (so_from_slice ops) (so_to_vec ops) source target body profile) in
  let* p := require EInvalidBody (maybe_preconvert_responses_to_chat (so_read_responses ops) (so_write_chat ops) source target body) in
  match p.2 with
  | EOpenAI ChatCompletions =>
      let* c := attempt ELargeContext (apply_chat_completions (so_from_slice ops) (so_to_vec ops) (so_estimate ops) h p.1 (ep_provider target)) in
      let* body := attempt (λ _, EInvalidBody)
                     (apply_global_chat_completions_wire_normalize (so_to_string ops) (so_to_lowercase ops) (so_from_slice ops) (so_to_vec ops) c.1) in
      traced_ret (body, p.2, match c.2 with Some tokens => with_compression (Some tokens) x | None => x end)
  | _ => traced_ret (p.1, p.2, x)
  end.

(** The semantic envelope of a chat request, and the body written from it. *)
(* src: ai-gateway/src/middleware/mapper/service.rs:355-396 map_request envelope *)
Definition enveloped (x : Extensions) (passthrough : bool) (source target : ApiEndpoint) (body : string)
  : Handler (string * option (RequestEnvelope (Date := Date))) :=
  if should_skip_semantic_envelope x passthrough then traced_ret (body, None)
  else
    match source with
    | EOpenAI ChatCompletions =>
        let* r := require EInvalidBody (so_read_chat ops body) in
        let* e := unless_panic (envelope_for (λ m, result_ok (model_id_from_str (so_parse_date ops) (so_year ops) m)) source (ep_provider target) r) in
        let* e := attempt EEngine e in
        traced_ret (so_write_chat ops (e_openai_request e), Some e)
    | _ => traced_ret (body, None)
    end.

Record Prepared := mkPrepared {
  pr_ext : Extensions;
  pr_profile : ClientProfile;
  pr_source : ApiEndpoint;
  pr_passthrough : bool;
  pr_envelope : option (RequestEnvelope (Date := Date));
  pr_body : string
}.

(** A request up to its conversion. *)
(* src: ai-gateway/src/middleware/mapper/service.rs:205-401 map_request before the conversion *)
Definition prepare (source target : ApiEndpoint) (path : string) (h : HeaderMap) (x : Extensions) (body : string) : Handler Prepared :=
  let h := request_headers h x in
  let resolution := resolve_client_profile h in
  let profile := cp_profile resolution in
  let* f := filtered h x path body in
  let* w := reshaped h profile source target f.2 f.1 in
  let '(body, source, x) := w in
  let* _ := if should_enforce_mapper_model_policy x then enforce_vk_model_policy_for_source_endpoint x source body else traced_ret tt in
  let* a := attempt (λ _, EInvalidBody)
              (apply_ide_ingress_adjust (so_to_string ops) (so_to_lowercase ops) (so_from_slice ops) (so_to_vec ops)
                 (λ b, bool_decide (is_Some (so_read_chat ops b))) profile source body) in
  let* _ := traced_tell (EffIngressAdjust (as_otel_label profile) a.2) in
  let passthrough := native_semantic_passthrough profile source target (ep_provider target) in
  let* _ := tell_all [EffProfile (as_otel_label profile) (cp_explicit resolution); EffPassthrough passthrough] in
  let x := if passthrough then with_passthrough true x else x in
  let* e := enveloped x passthrough source target a.1 in
  let* body := if x_unified_body x then attempt id (normalize_unified_passthrough_body_model e.1 (ep_provider target)) else traced_ret e.1 in
  traced_ret (mkPrepared x profile source passthrough e.2 body).

(** ** The conversion *)

Definition chat_wire (is_stream : bool) : LoggerResponseWireSemantic := if is_stream then WireChatSse else WireChatJson.
Definition new_cell (is_stream : bool) : option Cell := if is_stream then Some (so_fresh_cell ops) else None.

Definition model_for (p : InferenceProvider) (m : string) : Handler (ModelId Date) :=
  attempt EModelId (from_str_and_provider (so_parse_date ops) (so_year ops) p m).

(* src: ai-gateway/src/middleware/mapper/service.rs:525-578 master_key_unified_passthrough_chat_completions *)
Definition master_key_unified_passthrough_chat_completions (body : string) (p : InferenceProvider) : Handler (string * Ctx) :=
  let* r := require EInvalidBody (so_read_chat ops body) in
  let r := move_max_tokens r in
  let is_stream := default false (cr_stream r) in
  let* m := model_for p (cr_model r) in
  traced_ret (so_write_compatible ops p r,
    mkCtx is_stream SemChatCompletions (chat_wire is_stream) (Some m) (new_cell is_stream) false false false None false).

(* src: ai-gateway/src/ide_adapation/mapper_service_hooks.rs:130-220 mapper_context_native_semantic_passthrough *)
Definition mapper_context_native_semantic_passthrough (source target : ApiEndpoint) (body : string) : Handler Ctx :=
  let p := ep_provider target in
  match source with
  | EOpenAI ChatCompletions =>
      let* r := require EInvalidBody (so_read_chat ops body) in
      let is_stream := default false (cr_stream r) in
      let* m := model_for p (cr_model r) in
      traced_ret (mkCtx is_stream SemChatCompletions (chat_wire is_stream) (Some m) (new_cell is_stream) false true false None false)
  | EOpenAI Responses =>
      let* f := attempt ERouting (responses_request_routing_fields (so_from_slice ops) body) in
      let* m := model_for p (rf_model f) in
      traced_ret (mkCtx (rf_stream f) SemResponses (if rf_stream f then WireResponsesSse else WireResponsesJson) (Some m) None
                    false true false None false)
  | EAnthropicMessages =>
      let* r := require EInvalidBody (so_read_message ops body) in
      let is_stream := default false (mp_stream r) in
      let* m := model_for p (mp_model r) in
      traced_ret (mkCtx is_stream SemOther WireOther (Some m) (new_cell is_stream) false true false None false)
  | _ => traced_stop EMapperInvalid
  end.

(** The Responses bridge of Cursor and Codex: the request goes to the chat
    endpoint of the same provider. *)
(* src: ai-gateway/src/ide_adapation/cursor_responses_openrouter_bridge.rs:910-988 try_map_responses_to_compatible_chat *)
Definition try_map_responses_to_compatible_chat (profile : ClientProfile) (source target : ApiEndpoint) (body : string)
    (unified_body : bool) : Handler (option (string * Ctx * ApiEndpoint)) :=
  match profile, source, target with
  | (CursorIde | CodexCli), EOpenAI Responses, EOpenAICompatible p Responses =>
      let upstream := EOpenAICompatible p ChatCompletions in
      let* v := require EInvalidBody (so_from_slice ops body) in
      let v := (rewrite_responses_input_items (so_to_string ops) v CreateResponseCompat).1 in
      let* origin := require EInvalidBody (so_responses_of ops v) in
      let* chat := attempt EBridge (Request.create_response_to_chat_request (so_input_message ops) (so_other_tool ops) origin) in
      let is_stream := default false (cr_stream chat) in
      let* m := if unified_body then traced_ret (Unknown (cr_model chat)) else model_for p (cr_model chat) in
      let* c := converter_for (EOpenAI ChatCompletions) upstream in
      let* r := attempt EConvert ((if unified_body then ec_req_passthrough c else ec_req c) (so_write_chat ops chat)) in
      traced_ret (Some (r.1, mkCtx is_stream SemResponses (chat_wire is_stream) (Some m) (mc_usage r.2) (mc_unified_bridge r.2)
                               (mc_native_passthrough r.2) true (Some origin) (bool_decide (profile = CodexCli)), upstream))
  | _, _, _ => traced_ret None
  end.

(* src: ai-gateway/src/middleware/mapper/service.rs:408-464 map_request conversion *)
Definition converted (target : ApiEndpoint) (p : Prepared) : Handler (string * Ctx * ApiEndpoint) :=
  let source := pr_source p in
  let* bridged := try_map_responses_to_compatible_chat (pr_profile p) source target (pr_body p) (x_unified_body (pr_ext p)) in
  match bridged with
  | Some r => traced_ret r
  | None =>
      let* c := converter_for source target in
      let* r :=
        if x_master_key (pr_ext p) then
          match source, target with
          | EOpenAI ChatCompletions, EOpenAICompatible provider ChatCompletions =>
              master_key_unified_passthrough_chat_completions (pr_body p) provider
          | _, _ => attempt EConvert (ec_req c (pr_body p))
          end
        else if pr_passthrough p then
          let* ctx := mapper_context_native_semantic_passthrough source target (pr_body p) in traced_ret (pr_body p, ctx)
        else if x_unified_body (pr_ext p) && supports_unified_model_body_passthrough source target
        then attempt EConvert (ec_req_passthrough c (pr_body p))
        else attempt EConvert (ec_req c (pr_body p)) in
      traced_ret (r.1, r.2, target)
  end.

(* src: ai-gateway/src/middleware/mapper/service.rs:465-471 map_request bridge *)
Definition with_bridge (bridge : bool) (c : Ctx) : Ctx :=
  let semantic := if bridge && negb (mc_expects_responses c) then SemChatCompletions
                  else if mc_via_chat c then SemResponses else mc_client_semantic c in
  mkCtx (mc_is_stream c) semantic (mc_logger_wire c) (mc_model c) (mc_usage c) bridge (mc_native_passthrough c) (mc_via_chat c)
    (mc_origin c) (mc_expects_responses c).

Record Mapped := mkMapped {
  md_ext : Extensions;
  md_body : string;
  md_ctx : Ctx;
  md_endpoint : ApiEndpoint;
  md_path : string;
  md_envelope : option (RequestEnvelope (Date := Date));
  md_debug : DebugLogConfig
}.

Definition with_query (path : string) (query : option string) : string :=
  match query with Some q => path ++ "?" ++ q | None => path end.

(* src: ai-gateway/src/middleware/mapper/service.rs:196-523 map_request *)
Definition map_request (source target : ApiEndpoint) (path : string) (query : option string) (h : HeaderMap) (x : Extensions)
    (body : string) : Handler Mapped :=
  let debug := match x_debug x with Some d => d | None => (from_headers_with_env h (so_getenv ops)).1 end in
  let debug := if protects_payload_logs (ss_protected state) path then mkDebug false false else debug in
  let* p := prepare source target (with_query path query) h x body in
  let* r := converted target p in
  let '(body, ctx, upstream) := r in
  let ctx := with_bridge (x_bridge (pr_ext p)) ctx in
  let* base := require EInternal (endpoint_path (so_format ops) upstream (mc_model ctx) (mc_is_stream ctx)) in
  let full := with_query base query in
  if so_path_ok ops full then traced_ret (mkMapped (pr_ext p) body ctx upstream full (pr_envelope p) debug)
  else traced_stop EInvalidUri.

(** ** The response *)

(** The frames of a body, and whether it broke off. *)
Record Body := mkBody { bd_frames : list string; bd_broken : bool }.

(** A body that is passed on frame by frame, until an error if there is one, or
    a whole one. *)
Inductive MappedBody := StreamBody (frames : list string) (error : option (ServiceError M)) | WholeBody (bytes : string).

(* src: ai-gateway/src/middleware/mapper/service.rs:993-1002 map_response framing *)
Definition framed (b : Body) : MappedBody :=
  StreamBody (map put_sse_record (bd_frames b)) (if bd_broken b then Some (EStream "body") else None).

Definition collect (b : Body) : Handler string :=
  if bd_broken b then traced_stop (EStream "collect") else traced_ret (String.concat "" (bd_frames b)).

(** What the bridges use of serde, the identifiers and the order of the map. *)
Record ResponseOps := mkResponseOps {
  ro_fresh : nat → string;
  ro_order : gmap Z Cursor.ToolStreamTrack → list Z;
  ro_read_chunk : string → option StreamResponse;
  ro_chunk_value : StreamResponse → Value;
  ro_chunk_text : StreamResponse → string;
  ro_completion_of : Value → option ChatResponse;
  ro_read_answer : string → option Answer.ResponsesAnswer;
  ro_write_completion : ChatResponse → string;
  ro_tool_choice : RespToolChoice → Value;
  ro_tools : list ToolDefinition → Value;
  ro_f32 : F32 → Value
}.
Context (rops : ResponseOps).

(** After the error of a broken frame, or of a body that broke off, nothing
    follows. *)
Definition ended (b : Body) (error : option (ServiceError M)) : option (ServiceError M) :=
  match error with Some e => Some e | None => if bd_broken b then Some (EStream "body") else None end.

(* src: ai-gateway/src/ide_adapation/mapper_service_hooks.rs:255-329 map_response_cursor_responses_branch *)
Definition map_response_cursor_responses_branch (ctx : Ctx) (bridge : bool) (status : Z) (b : Body) : Handler (option MappedBody) :=
  if negb (mc_via_chat ctx) then traced_ret None
  else
    let as_chat := bridge && negb (mc_expects_responses ctx) in
    if mc_is_stream ctx then
      if as_chat then traced_ret (Some (framed b))
      else
        let* _ := require (EMissing "cursor_responses_origin") (mc_origin ctx) in
        let r := Cursor.map_frames (ro_fresh rops) (ro_order rops) (ro_read_chunk rops) (ro_chunk_value rops) (bd_frames b)
                   (Cursor.with_tool_done_events (ro_fresh rops) (mc_expects_responses ctx)) in
        let error := ended b (EStream <$> r.2) in
        let tail := match error with None => [put_sse_record "[DONE]" ++ line ++ line] | Some _ => [] end in
        traced_ret (Some (StreamBody (map (λ v, put_sse_record (so_to_vec ops v)) r.1 ++ tail)%list error))
    else if as_chat then let* bytes := collect b in traced_ret (Some (WholeBody bytes))
    else
      let* origin := require (EMissing "cursor_responses_origin") (mc_origin ctx) in
      let* bytes := collect b in
      let* out := attempt EStream (Cursor.map_json_response_chat_to_responses (ro_fresh rops) (ro_tool_choice rops) (ro_tools rops) (ro_f32 rops)
                                     (so_from_slice ops) (ro_completion_of rops) (so_to_vec ops) status bytes origin) in
      traced_ret (Some (WholeBody out)).

(* src: ai-gateway/src/ide_adapation/mapper_service_hooks.rs:345-374 map_stream_unified_responses_chat_bridge *)
Definition map_stream_unified_responses_chat_bridge (bridge is_stream : bool) (b : Body) : option MappedBody :=
  if negb bridge || negb is_stream then None
  else let r := Unified.bridge_frames (so_from_slice ops) (ro_chunk_text rops) (so_to_vec ops) Unified.start (bd_frames b) in
       Some (StreamBody r.1 (ended b (EStream <$> r.2))).

(** The frames of a stream through its converter: the usage cell goes from one
    to the next, and the first error is the last thing sent. *)
(* src: ai-gateway/src/middleware/mapper/service.rs:1033-1097 map_response stream *)
Fixpoint convert_frames (c : EndpointConverter Date Cell M) (status : Z) (lenient : bool) (cell : option Cell) (frames : list string)
  : list string * option (ServiceError M) :=
  match frames with
  | [] => ([], None)
  | f :: frames =>
      let r := ec_resp c status f true cell lenient in
      match r.2 with
      | Err e => ([], Some (EConvert e))
      | Ok out =>
          let rest := convert_frames c status lenient r.1 frames in
          ((from_option (λ o, [put_sse_record o]) [] out ++ rest.1)%list, rest.2)
      end
  end.

Definition is_responses_endpoint (e : ApiEndpoint) : bool :=
  match e with EOpenAI Responses | EOpenAICompatible _ Responses => true | _ => false end.

(** [upstream] is the endpoint the request was mapped to and [client] the one it
    came to. *)
(* src: ai-gateway/src/middleware/mapper/service.rs:940-1126 map_response *)
Definition map_response (upstream client : ApiEndpoint) (ctx : option Ctx) (status : Z) (b : Body) : Handler MappedBody :=
  let* ctx := require (EMissing "MapperContext") ctx in
  let is_stream := mc_is_stream ctx in
  let bridge := mc_unified_bridge ctx in
  let* cursor := map_response_cursor_responses_branch ctx bridge status b in
  match cursor with
  | Some done => traced_ret done
  | None =>
      match map_stream_unified_responses_chat_bridge bridge is_stream b with
      | Some done => traced_ret done
      | None =>
          if is_stream && (is_responses_endpoint upstream || mc_native_passthrough ctx) then traced_ret (framed b)
          else
            let* c := converter_for client upstream in
            let lenient := lenient_openai_chat_roles_for_target_endpoint client in
            if is_stream then
              let r := convert_frames c status lenient (mc_usage ctx) (bd_frames b) in
              let error := ended b r.2 in
              let tail := match error with
                          | None => if should_append_openai_sse_done_marker client then [put_sse_record "[DONE]"] else []
                          | Some _ => []
                          end in
              traced_ret (StreamBody (r.1 ++ tail)%list error)
            else
              let* bytes := collect b in
              if bridge then
                let* a := require (EStream "Response") (ro_read_answer rops bytes) in
                traced_ret (WholeBody (ro_write_completion rops (Answer.non_stream_responses_to_chat a)))
              else if mc_native_passthrough ctx then traced_ret (WholeBody bytes)
              else
                let* out := attempt EConvert (ec_resp c status bytes false None lenient).2 in
                let* out := require EEmptyBody out in
                traced_ret (WholeBody out)
      end
  end.

(** ** The service *)

Record Incoming := mkIncoming {
  in_provider : option InferenceProvider;
  in_path : option (string * option string);    (* [PathAndQuery] *)
  in_endpoint : option ApiEndpoint;
  in_media : option string;                     (* the model of a [MediaRequestContext] *)
  in_headers : HeaderMap;
  in_ext : Extensions;
  in_body : string
}.

(** A request for audio or images goes on with its own body. *)
(* src: ai-gateway/src/middleware/mapper/service.rs:120-154 call media *)
Definition map_media (p : InferenceProvider) (target : ApiEndpoint) (query : option string) (model : string) (req : Incoming) : Handler Mapped :=
  let raw_model := default model (strip_prefix (as_provider_code p ++ "/") model) in
  let* m := model_for p raw_model in
  let ctx := mkCtx false SemOther WireOther (Some m) None false true false None false in
  let* base := require EInternal (endpoint_path (so_format ops) target (mc_model ctx) false) in
  let full := with_query base query in
  if so_path_ok ops full
  then traced_ret (mkMapped (in_ext req) (in_body req) ctx target full None (default (mkDebug false false) (x_debug (in_ext req))))
  else traced_stop EInvalidUri.

(** [inner] is the dispatcher: the response to a mapped request. *)
(* src: ai-gateway/src/middleware/mapper/service.rs:86-192 call *)
Definition call (inner : Mapped → result (option Ctx * Z * Body) (ServiceError M)) (req : Incoming) : Handler (Z * MappedBody) :=
  let* p := require (EMissing "InferenceProvider") (in_provider req) in
  let p := if x_master_key (in_ext req) then Custom else p in
  let* pq := require (EMissing "PathAndQuery") (in_path req) in
  let* source := require (EMissing "ApiEndpoint") (in_endpoint req) in
  let* target := unless_panic (mapped source p) in
  let* target := attempt EEndpoint target in
  match in_media req with
  | Some model =>
      let* m := map_media p target pq.2 model req in
      let* r := attempt id (inner m) in
      traced_ret (r.1.2, StreamBody (bd_frames r.2) (ended r.2 None))
  | None =>
      let* m := map_request source target pq.1 pq.2 (in_headers req) (in_ext req) (in_body req) in
      let* r := attempt id (inner m) in
      let* body := map_response target source r.1.1 r.1.2 r.2 in
      traced_ret (r.1.2, body)
  end.
End service.

(** ** What a prepared request went through *)

Lemma traced_bind_inl {E R A B} (c : Traced E R A) (k : A → Traced E R B) b :
  (traced_bind c k).2 = inl b → ∃ a, c.2 = inl a ∧ (k a).2 = inl b.
Proof. rw /traced_bind. destruct c as [es [a|r]]; simpl; [eauto|done]. Qed.

Lemma attempt_inl {M A E} (f : E → ServiceError M) (r : result A E) a : (attempt f r).2 = inl a → r = Ok a.
Proof. destruct r; [|done]. by intros [= ->]. Qed.
Lemma require_inl {M A} (e : ServiceError M) (o : option A) a : (require e o).2 = inl a → o = Some a.
Proof. destruct o; [|done]. by intros [= ->]. Qed.
Lemma unless_panic_inl {M A} (o : option A) a : (unless_panic (M := M) o).2 = inl a → o = Some a.
Proof. destruct o; [|done]. by intros [= ->]. Qed.

Ltac into H x Hx := apply traced_bind_inl in H as (x & Hx & H); simpl in Hx.

Lemma profile_keeps_model p r r' : apply_non_stream_request_profile p r = Ok r' → cr_model r' = cr_model r.
Proof.
  rw /apply_non_stream_request_profile. repeat case_match; try done; by intros [= <-].
Qed.

Lemma envelope_keeps_model {Date} (parse : string → option (ModelId Date)) ep p r e :
  envelope_for parse ep p r = Some (Ok e) → cr_model (e_openai_request e) = cr_model r.
Proof.
  rw /envelope_for /prepare_request_envelope. destruct (resolve_mapper_metadata _ _) as [[m|]|]; [|done..]. simpl.
  assert (Hf : cr_model (e_openai_request (from_openai_chat_request parse ep p r)) = cr_model r).
  { rw /from_openai_chat_request. by repeat case_match. }
  destruct (e_is_stream _); simpl; [by intros [= <-]|].
  destruct (apply_non_stream_request_profile _ _) as [r'|] eqn:E; [|done]. simpl. apply profile_keeps_model in E.
  intros [= <-]. simpl. case_match; simpl; by rw E.
Qed.

(** serde reads the model of a body from its field, and writes it there. *)
Section laws.
Context {Date Cell : Type} (ops : ServiceOps Date Cell).

Definition model_field (body : string) : option string := v ← so_from_slice ops body; str_field_of "model" v.

Record ModelLaws : Prop := mkModelLaws {
  ml_lower : lowers_ascii (so_to_lowercase ops);
  ml_back : ∀ v, model_field (so_to_vec ops v) = str_field_of "model" v;
  ml_chat : ∀ b r, so_read_chat ops b = Some r → model_field b = Some (cr_model r);
  ml_write_chat : ∀ r, model_field (so_write_chat ops r) = Some (cr_model r);
  ml_completion : ∀ b m, so_completion_model ops b = Some m → model_field b = Some m;
  ml_embedding : ∀ b m, so_embedding_model ops b = Some m → model_field b = Some m;
  ml_image : ∀ b m, so_image_model ops b = Some (Some m) → model_field b = Some m;
  ml_message : ∀ b r, so_read_message ops b = Some r → model_field b = Some (mp_model r)
}.
End laws.

Section permitted.
Context {Date Cell M : Type} `{EqDecision Date} (ops : ServiceOps Date Cell) (state : ServiceState) (laws : ModelLaws ops).
Abbreviation field := (model_field ops).
Abbreviation lower := (so_to_lowercase ops).

Lemma policy_model_is_field source body r : policy_model (M := M) ops source body = Some (Ok r) → field body = Some r.
Proof.
  rw /policy_model. destruct source as [[]| | | | |]; try done; simpl.
  - destruct (so_read_chat ops body) eqn:E; [|done]. intros [= <-]. by apply (ml_chat _ laws).
  - destruct (so_completion_model ops body) eqn:E; [|done]. intros [= <-]. by apply (ml_completion _ laws).
  - destruct (so_embedding_model ops body) eqn:E; [|done]. intros [= <-]. by apply (ml_embedding _ laws).
  - destruct (so_image_model ops body) as [[m|]|] eqn:E; [|done..]. intros [= <-]. by apply (ml_image _ laws).
  - rw /responses_request_routing_fields /model_field. destruct (so_from_slice ops body) as [v|]; [|done]. simpl.
    destruct (str_field_of "model" v) as [m|]; [|done]. destruct (is_empty m); [done|]. simpl. by intros [= <-].
  - destruct (so_read_message ops body) eqn:E; [|done]. intros [= <-]. by apply (ml_message _ laws).
Qed.

Lemma ingress_keeps_model profile source body a :
  apply_ide_ingress_adjust (so_to_string ops) lower (so_from_slice ops) (so_to_vec ops) (λ b, bool_decide (is_Some (so_read_chat ops b)))
    profile source body = Ok a → field a.1 = field body.
Proof.
  rw /apply_ide_ingress_adjust /adjust. destruct profile; try by intros [= <-]. destruct source as [[]| | | | |]; try by intros [= <-].
  rw /IngressNormalize.rewritten. destruct (so_from_slice ops body) as [v|] eqn:V; [|done]. simpl.
  destruct (normalize_cursor_openai_request_value _ _ v) as [[b c]|] eqn:N; [|done]. simpl.
  destruct (bool_decide _); [|done]. intros [= <-]. simpl. destruct c; [|done].
  destruct (normalized_is_normal _ _ (ml_lower _ laws) _ _ _ N) as [_ Hk].
  rw (ml_back _ laws b) /model_field V /= /str_field_of Hk //. set_solver.
Qed.

Lemma enveloped_keeps_model x passthrough source target body e :
  (enveloped (M := M) ops x passthrough source target body).2 = inl e → field e.1 = field body.
Proof.
  rw /enveloped. destruct (should_skip_semantic_envelope x passthrough); [by intros [= <-]|].
  destruct source as [[]| | | | |]; try by intros [= <-]. intros H. into H r Hr. into H o Ho. into H env He.
  apply require_inl in Hr. apply unless_panic_inl in Ho. apply attempt_inl in He. subst o. injection H as <-.
  rw (ml_write_chat _ laws) (ml_chat _ laws _ _ Hr) (envelope_keeps_model _ _ _ _ _ Ho) //.
Qed.

(** A model with the prefix of a provider taken off. *)
Definition without_prefix (p : InferenceProvider) (m m' : string) : Prop :=
  ∃ prefix, m = prefix ++ "/" ++ m' ∧ (eq_ignore_ascii_case prefix (as_ref p) || eq_ignore_ascii_case prefix (as_provider_code p)) = true.

Lemma unified_model body p body' m : normalize_unified_passthrough_body_model (M := M) ops body p = Ok body' → field body = Some m →
  ∃ m', field body' = Some m' ∧ (m' = m ∨ without_prefix p m m').
Proof.
  rw /normalize_unified_passthrough_body_model /normalize_top_level_model_for_target_provider. intros H Hf.
  pose proof Hf as Hm. rw /model_field in Hm. destruct (so_from_slice ops body) as [v|] eqn:V; [|done]. simpl in H, Hm. rw Hm /= in H.
  destruct (split_once "/" m) as [[prefix raw]|] eqn:S.
  - destruct (is_empty raw); [injection H as <-; eauto|]. destruct (_ || _) eqn:Ep; [|injection H as <-; eauto].
    injection H as <-. exists raw. rw /= (ml_back _ laws (set_field "model" (Str raw) v)) /str_field_of get_set_field.
    + split; [done|]. right. apply split_once_Some in S as [-> _]. by exists prefix.
    + rw /str_field_of in Hm. destruct (get "model" v) eqn:G; [|done]. by eapply get_Some_object.
  - injection H as <-. eauto.
Qed.

Lemma enforced x source body u r : x_policy_override x = None →
  (enforce_vk_model_policy_for_source_endpoint (M := M) ops x source body).2 = inl u → policy_model (M := M) ops source body = Some r →
  ∃ m, r = Ok m ∧ check_model_access lower (x_vk_policy x) m = Ok tt.
Proof.
  rw /enforce_vk_model_policy_for_source_endpoint. intros -> H Hr. rw Hr in H. into H m Hm. apply attempt_inl in Hm. exists m.
  split; [done|]. destruct (check_model_access _ _ _) as [[]|]; [done|]. into H w Hw. done.
Qed.

(** What does not change on the way. *)
Definition same_rights (x x' : Extensions) : Prop :=
  x_vk_policy x' = x_vk_policy x ∧ x_master_key x' = x_master_key x ∧ x_policy_checked x' = x_policy_checked x ∧
  x_unified_body x' = x_unified_body x.

(** What the content filter says of a body. *)
Definition verdict (h : HeaderMap) (x : Extensions) (body : string) : result ContentFilterResult FilterError :=
  (evaluate_for_vk_request (so_from_slice ops) (so_parse_date ops) (so_year ops) (so_estimate ops) (so_price ops)
     (ss_filter state) (ss_policy state) h (x_filter x) body).2.

Lemma filtered_spec h x path body b x' : (filtered (M := M) ops state h x path body).2 = inl (b, x') →
  same_rights x x' ∧ ∃ merged r,
    (prompted ops state h x body).2 = Ok merged ∧ verdict h x merged.1 = Ok r ∧
    (change_model r = None → x_policy_override x' = x_policy_override x).
Proof.
  rw /filtered. intros H. into H u Hu. into H merged Hm. into H u' Hu'. into H r Hr. clear Hu Hu' u u'. apply attempt_inl in Hm.
  set (y := match merged.2 with Some p => with_prompt_header (Some p) x | None => x end) in *.
  assert (Hy : same_rights x y ∧ x_filter y = x_filter x ∧ x_policy_override y = x_policy_override x) by (rw /y; by destruct merged.2).
  destruct Hy as (Hs & Hf & Ho).
  assert (Hc : verdict h x merged.1 = Ok r).
  { rw /verdict -Hf.
    destruct ((evaluate_for_vk_request _ _ _ _ _ _ _ _ _ _).2) as [v|[]]; try done; [by injection Hr as <-|].
    into Hr w Hw. done. }
  destruct (change_model r) as [new|] eqn:Ec.
  - into H d Hd. injection H as _ <-. split; [done|]. exists merged, r. split; [done|]. split; [done|]. by rw Ec.
  - injection H as _ <-. split; [done|]. exists merged, r. split; [done|]. split; [done|]. intros _. exact Ho.
Qed.

Lemma reshaped_spec h profile source target x body b source' x' :
  (reshaped (M := M) ops h profile source target x body).2 = inl (b, source', x') →
  same_rights x x' ∧ x_policy_override x' = x_policy_override x.
Proof.
  rw /reshaped. intros H. into H b1 H1. into H q H2. destruct q.2 as [[]| | | | |]; try by injection H as _ _ <-.
  into H c Hc. into H b2 H3. injection H as _ _ <-. by destruct c.2.
Qed.

(** The endpoints whose requests name a model that is checked. *)
Definition has_policy_model (e : ApiEndpoint) : bool :=
  match e with
  | EOpenAI (ChatCompletions | Completions | Embeddings | ImageGenerations | Responses) | EAnthropicMessages => true
  | _ => false
  end.

Lemma has_policy_model_Some e body : has_policy_model e = true → ∃ r, policy_model (M := M) ops e body = Some r.
Proof. destruct e as [[]| | | | |]; try done; eauto. Qed.

Lemma prepared_spec source target path h x body p : (prepare (M := M) ops state source target path h x body).2 = inl p →
  x_unified_body (pr_ext p) = x_unified_body x ∧ x_master_key (pr_ext p) = x_master_key x ∧
  ∃ merged r,
    (prompted ops state (request_headers ops h x) x body).2 = Ok merged ∧
    verdict (request_headers ops h x) x merged.1 = Ok r ∧
    (change_model r = None → x_policy_override x = None → x_master_key x = false → x_policy_checked x = false →
     has_policy_model (pr_source p) = true →
     ∃ m m', check_model_access lower (x_vk_policy x) m = Ok tt ∧ field (pr_body p) = Some m' ∧
       (m' = m ∨ x_unified_body x = true ∧ without_prefix (ep_provider target) m m')).
Proof.
  rw /prepare. set (h' := request_headers ops h x). set (res := resolve_client_profile h').
  intros H. into H f Hf. destruct f as [b1 x1]. into H w Hw. destruct w as [[b2 s2] x2]. into H u Hu. into H a Ha.
  into H u1 Hu1. into H u2 Hu2. into H e He. into H b3 Hb. injection H as <-. clear Hu1 Hu2 u1 u2. simpl.
  destruct (filtered_spec _ _ _ _ _ _ Hf) as ((F1 & F2 & F3 & F4) & merged & r & Hm0 & Hc & Ho).
  destruct (reshaped_spec _ _ _ _ _ _ _ _ _ Hw) as ((R1 & R2 & R3 & R4) & R5).
  apply attempt_inl in Ha. apply ingress_keeps_model in Ha. apply enveloped_keeps_model in He.
  set (pt := native_semantic_passthrough _ _ _ _) in *.
  assert (Hx : x_unified_body (if pt then with_passthrough true x2 else x2) = x_unified_body x ∧
               x_master_key (if pt then with_passthrough true x2 else x2) = x_master_key x) by (destruct pt; simpl; split; congruence).
  split; [apply Hx|]. split; [apply Hx|]. exists merged, r. split; [done|]. split; [done|].
  intros Hch Hov Hmk Hpc Hs. destruct (has_policy_model_Some s2 b2 Hs) as [o Hp].
  rw /should_enforce_mapper_model_policy R2 F2 R3 F3 Hmk Hpc /= in Hu.
  destruct (enforced x2 s2 b2 u o) as (m & -> & Hm); [by rw R5 (Ho Hch)|done|done|].
  exists m. apply policy_model_is_field in Hp. rw -Ha -He in Hp. destruct Hx as [Hxu _]. rw Hxu in Hb.
  rw R1 F1 in Hm. destruct (x_unified_body x).
  - apply attempt_inl in Hb. destruct (unified_model _ _ _ _ Hb Hp) as (m' & Hm' & [->|Hpre]); eauto 10.
  - injection Hb as <-. eauto 6.
Qed.
End permitted.

(** C20 (safety). A request reaches the upstream's converter only when the
    content filter let its body pass, with the stored prompt put in, and only
    with a model its key may use: the model in the body that is converted is one
    the policy of the virtual key allows, apart from the prefix of the target
    provider, which the unified API takes off.  The second part is for the
    endpoints whose requests are read for their model (chat, completions,
    embeddings, image generation, Responses and Messages), and not for a request
    that passes on the master key's own terms or whose model was checked before,
    nor when the filter's verdict on this body names another model or an earlier
    one had done so: then the policy service's choice stands. *)
Theorem mapped_request_is_permitted {Date Cell M} `{EqDecision Date} (ops : ServiceOps Date Cell) state registry
    (implementation : TypedEndpointConverter → EndpointConverter Date Cell M) source target path query h x body md :
  ModelLaws ops →
  (map_request ops state registry implementation source target path query h x body).2 = inl md →
  ∃ p merged r ctx,
    (prepare (M := M) ops state source target (with_query path query) h x body).2 = inl p ∧
    (converted ops registry implementation target p).2 = inl (md_body md, ctx, md_endpoint md) ∧
    (prompted ops state (request_headers ops h x) x body).2 = Ok merged ∧
    verdict ops state (request_headers ops h x) x merged.1 = Ok r ∧
    cleared (so_from_slice ops) (ss_filter state) (ss_policy state) (x_filter x) merged.1 r ∧
    (change_model r = None → x_policy_override x = None → x_master_key x = false → x_policy_checked x = false →
     has_policy_model (pr_source p) = true →
     ∃ m m', check_model_access (so_to_lowercase ops) (x_vk_policy x) m = Ok tt ∧ model_field ops (pr_body p) = Some m' ∧
       (m' = m ∨ x_unified_body x = true ∧ without_prefix (ep_provider target) m m')).
Proof.
  intros laws. rw /map_request. intros H. into H p Hp. into H c Hc. destruct c as [[b ctx] up]. into H base Hb.
  destruct (so_path_ok ops _); [|done]. injection H as <-. destruct (prepared_spec ops state laws _ _ _ _ _ _ _ Hp) as (_ & _ & merged & r & Hm & Hv & Hr).
  exists p, merged, r, ctx. split_and!; try done. by eapply filtered_is_cleared.
Qed.

(** A mapped request stays with its provider: it goes to the endpoint it was
    mapped to, or, over the bridge of Cursor and Codex, to the chat endpoint of
    the same provider. *)
Theorem mapped_request_stays_with_the_provider {Date Cell M} `{EqDecision Date} (ops : ServiceOps Date Cell) state registry
    (implementation : TypedEndpointConverter → EndpointConverter Date Cell M) source target path query h x body md :
  (map_request ops state registry implementation source target path query h x body).2 = inl md →
  (md_endpoint md = target ∨ ∃ p, target = EOpenAICompatible p Responses ∧ md_endpoint md = EOpenAICompatible p ChatCompletions) ∧
  ep_provider (md_endpoint md) = ep_provider target ∧
  ∃ base, endpoint_path (so_format ops) (md_endpoint md) (mc_model (md_ctx md)) (mc_is_stream (md_ctx md)) = Some base ∧
    md_path md = with_query base query.
Proof.
  rw /map_request. intros H. into H p Hp. into H c Hc. destruct c as [[b ctx] up]. into H base Hb.
  destruct (so_path_ok ops _); [|done]. injection H as <-. apply require_inl in Hb. simpl.
  assert (Hup : up = target ∨ ∃ q, target = EOpenAICompatible q Responses ∧ up = EOpenAICompatible q ChatCompletions).
  { rw /converted in Hc. into Hc br Hbr. destruct br as [[[b' c'] up']|].
    - injection Hc as _ _ <-. rw /try_map_responses_to_compatible_chat in Hbr.
      destruct (pr_profile p); try done; destruct (pr_source p) as [[]| | | | |]; try done; destruct target as [ | | | | |q []]; try done;
        into Hbr v Hv; into Hbr origin Ho; into Hbr chat Hch; into Hbr m Hm; into Hbr cv Hcv; into Hbr rr Hrr;
        injection Hbr as _ _ <-; right; by exists q.
    - into Hc cv Hcv. into Hc rr Hrr. injection Hc as _ _ <-. by left. }
  split; [done|]. split; [by destruct Hup as [->|(q & -> & ->)]|]. by exists base.
Qed.

(** *** A request that is mapped *)

(** Bodies that are their model after a mark. *)
Definition sample_read (b : string) : option Value :=
  match b with String "m" m => Some (Object [("model", Str m)]) | _ => Some (Object []) end.
Definition sample_write (v : Value) : string := match str_field_of "model" v with Some m => "m" ++ m | None => "" end.
Definition sample_chat (m : string) : ChatRequest :=
  mkChat [] m None None None None None None None None None None None None None None None None None None None None None None None
    None None None None None None [].

Definition sample_ops : ServiceOps unit unit := {|
  so_from_slice := sample_read; so_to_vec := sample_write; so_to_string := sample_write; so_to_lowercase := λ s, s;
  so_read_chat b := (v ← sample_read b; sample_chat <$> str_field_of "model" v);
  so_write_chat r := "m" ++ cr_model r; so_write_compatible _ r := "m" ++ cr_model r;
  so_read_responses _ := None; so_responses_of _ := None; so_input_message _ := None; so_other_tool _ := None;
  so_completion_model _ := None; so_embedding_model _ := None; so_image_model _ := None; so_read_message _ := None;
  so_parse_date _ _ := None; so_year := "2025"; so_format _ _ := ""; so_estimate _ _ _ := None; so_price _ _ := None;
  so_fresh_cell := tt; so_getenv _ := None; so_path_ok _ := true |}.

Lemma sample_laws : ModelLaws sample_ops.
Proof.
  split; try done.
  - intros v. rw /model_field /= /sample_write. by destruct (str_field_of "model" v).
  - intros b r. rw /model_field /=. destruct (sample_read b) as [v|]; [|done]. simpl. destruct (str_field_of "model" v); [|done]. by intros [= <-].
Qed.

Definition sample_state : ServiceState :=
  mkServiceState (mkFilterWorld None None) (mkPolicyConfig false "" Deny) [] false (λ _, None).
Definition sample_registry : Registry :=
  mkRegistry [((EOpenAI ChatCompletions, EOpenAI ChatCompletions), mkConverter WChat WChat OpenAIConverter None)] ∅ ∅.
Definition sample_converter : EndpointConverter unit unit unit :=
  let ctx := mkCtx false SemChatCompletions WireChatJson (Some (Unknown "gpt")) None false false false None false in
  mkEndpointConverter (λ b, Ok (b, ctx)) (λ b, Ok (b, ctx)) (λ _ _ _ c _, (c, Ok None)).
Definition sample_extensions : Extensions :=
  mkExtensions (mkFilterExt None None None None) (Some (mkPolicy "vk" None (Some ["claude"]))) false false false false
    (Some (mkDebug false false)) None None None false.

Lemma sample_mapped : ∃ md, (map_request sample_ops sample_state sample_registry (λ _, sample_converter) (EOpenAI ChatCompletions)
  (EOpenAI ChatCompletions) "v1/chat/completions" None ∅ sample_extensions "mgpt").2 = inl md ∧ md_body md = "mgpt".
Proof. eexists. split; vm_compute; reflexivity. Qed.

Lemma mapped_request_is_permitted_witness : ∃ (md : Mapped (Date := unit) (Cell := unit)) p merged ctx,
  (converted sample_ops sample_registry (λ _, sample_converter) (EOpenAI ChatCompletions) p).2 = inl (md_body md, ctx, md_endpoint md) ∧
  verdict sample_ops sample_state ∅ sample_extensions merged = Ok (mkFilterResult UseOriginal None) ∧
  (has_policy_model (pr_source p) = true →
   ∃ m m', check_model_access (so_to_lowercase sample_ops) (x_vk_policy sample_extensions) m = Ok tt ∧ model_field sample_ops (pr_body p) = Some m').
Proof.
  destruct sample_mapped as (md & H & _). exists md.
  destruct (mapped_request_is_permitted sample_ops sample_state sample_registry (λ _, sample_converter) (EOpenAI ChatCompletions)
    (EOpenAI ChatCompletions) "v1/chat/completions" None ∅ sample_extensions "mgpt" md sample_laws H) as (p & merged & r & ctx & _ & Hc & _ & Hv & _ & Hm).
  exists p, merged.1, ctx. split; [done|]. split; [reflexivity|]. injection Hv as <-.
  intros Hp. destruct (Hm eq_refl) as (m & m' & H1 & H2 & _); [done..|]. by exists m, m'.
Defined.

(** A model the key may not use is refused before anything is converted. *)
Example other_model_is_refused :
  (map_request sample_ops sample_state sample_registry (λ _, sample_converter) (EOpenAI ChatCompletions)
     (EOpenAI ChatCompletions) "v1/chat/completions" None ∅ sample_extensions "mclaude").2 = inr (EAccess (ModelAccessDenied "claude")).
Proof. by vm_compute. Qed.

(** ** Answers *)

Section answers.
Context {Date Cell M : Type} `{EqDecision Date} (ops : ServiceOps Date Cell) (registry : Registry).
Context (implementation : TypedEndpointConverter → EndpointConverter Date Cell M) (rops : ResponseOps).
Abbreviation respond := (map_response ops registry implementation rops).

Lemma convert_frames_records c status lenient frames : ∀ cell, ∃ outs,
  (convert_frames (Date := Date) (Cell := Cell) (M := M) c status lenient cell frames).1 = map put_sse_record outs ∧
  (length outs ≤ length frames)%nat.
Proof.
  induction frames as [|f frames IH]; intros cell; [by exists []|]. simpl.
  destruct (ec_resp c status f true cell lenient) as [cell' [out|e]]; simpl; [|exists []; split; [done|simpl; lia]].
  destruct (IH cell') as (outs & -> & Hl). destruct out as [o|]; [exists (o :: outs)|exists outs]; simpl; split; (done || lia).
Qed.

(** A stream that goes through its converter: every frame is a record, and a
    chat client is sent the end marker exactly when nothing went wrong. *)
Theorem streamed_answer_is_framed upstream client ctx status b out :
  mc_is_stream ctx = true → mc_via_chat ctx = false → mc_unified_bridge ctx = false → mc_native_passthrough ctx = false →
  is_responses_endpoint upstream = false →
  (respond upstream client (Some ctx) status b).2 = inl out →
  ∃ outs error, (length outs ≤ length (bd_frames b))%nat ∧
    out = StreamBody (map put_sse_record outs ++
      match error with None => if should_append_openai_sse_done_marker client then [put_sse_record "[DONE]"] else [] | Some _ => [] end)%list error ∧
    (bd_broken b = true → error ≠ None).
Proof.
  intros Hs Hv Hb Hn Hu H. rw /map_response in H. into H c0 Hc0. injection Hc0 as <-. into H cur Hcur.
  rw /map_response_cursor_responses_branch Hv /= in Hcur. injection Hcur as <-.
  rw /map_stream_unified_responses_chat_bridge Hb Hs Hn Hu /= in H. into H c Hc.
  destruct (convert_frames_records c status (lenient_openai_chat_roles_for_target_endpoint client) (bd_frames b) (mc_usage ctx)) as (outs & Ho & Hl).
  injection H as <-. exists outs, (ended b (convert_frames c status (lenient_openai_chat_roles_for_target_endpoint client) (mc_usage ctx) (bd_frames b)).2).
  split; [done|]. split; [by rw Ho|]. rw /ended. intros ->. by destruct (convert_frames _ _ _ _ _).2.
Qed.

(** An answer that is not streamed is what the converter made of it.  Whether it
    is repaired first is decided by the client's endpoint, not by the upstream's:
    an answer of Anthropic to a chat client is repaired as if it were a chat
    completion. *)
Theorem whole_answer_is_converted upstream client ctx status b out :
  mc_is_stream ctx = false → mc_via_chat ctx = false → mc_unified_bridge ctx = false → mc_native_passthrough ctx = false →
  (respond upstream client (Some ctx) status b).2 = inl out →
  ∃ c o, (implementation <$> get_converter registry client upstream) = Some c ∧ out = WholeBody o ∧
    (ec_resp c status (String.concat "" (bd_frames b)) false None (lenient_openai_chat_roles_for_target_endpoint client)).2 = Ok (Some o).
Proof.
  intros Hs Hv Hb Hn H. rw /map_response in H. into H c0 Hc0. injection Hc0 as <-. into H cur Hcur.
  rw /map_response_cursor_responses_branch Hv /= in Hcur. injection Hcur as <-.
  rw /map_stream_unified_responses_chat_bridge Hb Hs Hn /= in H. into H c Hc. into H bytes Hby. into H o Ho. into H o' Ho'.
  injection H as <-. apply require_inl in Hc, Ho'. apply attempt_inl in Ho. subst o. exists c, o'. split; [done|]. split; [done|].
  rw /collect in Hby. destruct (bd_broken b); [done|]. by injection Hby as <-.
Qed.
End answers.
