(* ===== verification/ToolObserver.v ===== *)
(** * The observer of tool calls in model answers

    Models [ai-gateway/src/agent/tool_observer.rs]: what the gateway reads of the
    tool calls, hosted calls and reasoning in an answer, whole or streamed, to
    report them as events.  The observer of chat streams puts the pieces of calls
    together: [ChatStream] is its state, [observe_chat_completion_stream_frame]
    a step of it.

    Parameters: [serde_json]'s reader and writer, and SHA-256 in hexadecimal. *)

From S2P Require Import Prelude RustStr Json AgentContext ToolCatalog ToolCalls.
From Stdlib Require Import Ascii.
Local Open Scope string_scope.

(** ** Limits *)

(* src: ai-gateway/src/agent/tool_observer.rs:9-9 MAX_ARGUMENTS_SUMMARY_CHARS *)
Definition MAX_ARGUMENTS_SUMMARY_CHARS : nat := 1024.
(* src: ai-gateway/src/agent/tool_observer.rs:20-20 MAX_OBSERVED_CHAT_STREAM_TOOL_CALLS *)
Definition MAX_OBSERVED_CHAT_STREAM_TOOL_CALLS : nat := 16.
(* src: ai-gateway/src/agent/tool_observer.rs:21-21 MAX_CHAT_STREAM_FRAMES *)
Definition MAX_CHAT_STREAM_FRAMES : nat := 128.
(* src: ai-gateway/src/agent/tool_observer.rs:22-22 MAX_CHAT_STREAM_ARGUMENT_CHARS_PER_TOOL *)
Definition MAX_CHAT_STREAM_ARGUMENT_CHARS_PER_TOOL : nat := 16 * 1024.
(* src: ai-gateway/src/agent/tool_observer.rs:23-23 MAX_OBSERVER_BODY_BYTES *)
Definition MAX_OBSERVER_BODY_BYTES : N := 1024 * 1024.
(* src: ai-gateway/src/agent/tool_observer.rs:24-24 MAX_RESPONSE_OUTPUT_ITEMS *)
Definition MAX_RESPONSE_OUTPUT_ITEMS : nat := 64.
(* src: ai-gateway/src/agent/tool_observer.rs:25-25 MAX_RESPONSE_STREAM_EVENTS *)
Definition MAX_RESPONSE_STREAM_EVENTS : nat := 128.
(* src: ai-gateway/src/agent/tool_observer.rs:26-26 MAX_OBSERVED_EVENTS_PER_RESPONSE *)
Definition MAX_OBSERVED_EVENTS_PER_RESPONSE : nat := 16.
(* src: ai-gateway/src/agent/tool_observer.rs:27-27 MAX_REASONING_SUMMARY_CHARS *)
Definition MAX_REASONING_SUMMARY_CHARS : nat := 1024.

Definition too_large (body : string) : bool := (MAX_OBSERVER_BODY_BYTES <? N.of_nat (len body))%N.

(** ** What is read of values *)

(* src: ai-gateway/src/agent/tool_observer.rs:1352-1358 optional_string *)
Definition optional_string (value : option Value) : option string :=
  s ← value ≫= Json.as_str; if is_empty (trim s) then None else Some (trim s).

(* src: ai-gateway/src/agent/tool_observer.rs:1360-1371 optional_u32 *)
Definition optional_u32 (value : option Value) : option Z :=
  v ← value;
  or_else (n ← as_u64 v; if (n <=? u32_max)%Z then Some n else None)
    (s ← Json.as_str v; parse_uint u32_max (trim s)).

Definition sensitive_words : list string :=
  ["password"; "token"; "secret"; "apikey"; "authorization"; "credential"; "privatekey"].

(* src: ai-gateway/src/agent/tool_observer.rs:1404-1429 is_sensitive_key *)
Definition is_sensitive_key (key : string) : bool :=
  let normalized := to_ascii_lowercase (str_filter (λ c, negb (Ascii.eqb c "_" || Ascii.eqb c "-" || Ascii.eqb c " ")) key) in
  existsb (String.eqb normalized) (sensitive_words ++ ["accesstoken"; "refreshtoken"; "clientsecret"])%list
  || existsb (λ w, contains w normalized) sensitive_words.

(* src: ai-gateway/src/agent/tool_observer.rs:1384-1402 redact_sensitive_json *)
Definition redact_sensitive_json : Value → Value := redact_value is_sensitive_key "[redacted]".

(* src: ai-gateway/src/agent/tool_observer.rs:1431-1433 truncate_chars *)
Definition truncate_chars (value : string) (max_chars : nat) : string := take_chars max_chars value.

(** The frames of an event stream: the [data] lines between empty lines. *)
Fixpoint frames_from (data_lines ls : list string) : list string :=
  let flush rest := match data_lines with [] => rest | _ => str_join (String newline "") data_lines :: rest end in
  match ls with
  | [] => flush []
  | line :: ls =>
      if is_empty line then flush (frames_from [] ls)
      else if starts_with ":" line then frames_from data_lines ls
      else match strip_prefix "data:" line with
           | None => frames_from data_lines ls
           | Some data => frames_from (data_lines ++ [default data (strip_prefix " " data)])%list ls
           end
  end.

(* src: ai-gateway/src/agent/tool_observer.rs:1257-1284 parse_sse_data_frames *)
Definition parse_sse_data_frames (body : string) : list string := frames_from [] (lines (from_utf8_lossy body)).

(** ** Data *)

(* src: ai-gateway/src/agent/tool_observer.rs:12-18 ObservedToolCall *)
Record ObservedToolCall := mkObserved {
  ob_tool_call_id : option string;
  ob_tool_name : string;
  ob_tool_type : option string;
  ob_arguments_summary : option string;
  ob_choice_index : option Z
}.

(* src: ai-gateway/src/agent/tool_observer.rs:30-34 ChatStreamAggregationStatus *)
Inductive ChatStreamAggregationStatus := AggComplete | AggPartial | AggAborted.

(* src: ai-gateway/src/agent/tool_observer.rs:38-44 ChatStreamAggregationStatus::as_str *)
Definition aggregation_as_str (s : ChatStreamAggregationStatus) : string :=
  match s with AggComplete => "complete" | AggPartial => "partial" | AggAborted => "aborted" end.

(* src: ai-gateway/src/agent/tool_observer.rs:48-65 ObservedChatCompletionStreamToolCall *)
Record ObservedStreamCall := mkStreamCall {
  so_choice_index : Z;
  so_tool_call_index : option Z;
  so_tool_call_id : option string;
  so_tool_name : option string;
  so_tool_type : option string;
  so_arguments_summary : option string;
  so_arguments_hash : option string;
  so_arguments_chars : option Z;
  so_arguments_valid_json : option bool;
  so_arguments_truncated : bool;
  so_chunk_count : Z;
  so_finish_reason : option string;
  so_sse_done_seen : bool;
  so_aggregation_status : ChatStreamAggregationStatus;
  so_idempotency_key : string;
  so_metadata : Value
}.

(* src: ai-gateway/src/agent/tool_observer.rs:68-77 ChatStreamToolKey *)
Inductive ChatStreamToolKey :=
| Indexed (choice_index tool_call_index : Z)
| ProviderId (choice_index : Z) (tool_call_id : string).

#[global] Instance ChatStreamToolKey_eq : EqDecision ChatStreamToolKey.
Proof. solve_decision. Defined.
#[global] Instance ChatStreamToolKey_countable : Countable ChatStreamToolKey.
Proof.
  refine (inj_countable' (λ k, match k with Indexed c i => inl (c, i) | ProviderId c i => inr (c, i) end)
    (λ s : (Z * Z) + (Z * string), match s with inl p => Indexed p.1 p.2 | inr p => ProviderId p.1 p.2 end) _).
  by intros [].
Defined.

(* src: ai-gateway/src/agent/tool_observer.rs:80-91 ChatStreamToolDraft *)
Record Draft := mkDraft {
  df_choice_index : Z;
  df_tool_call_index : option Z;
  df_tool_call_id : option string;
  df_tool_name : option string;
  df_tool_type : option string;
  df_arguments : string;
  df_arguments_truncated : bool;
  df_chunk_count : Z;
  df_finish_reason : option string;
  df_sse_done_seen : bool
}.

(* src: ai-gateway/src/agent/tool_observer.rs:94-98 ObservedResponsesItemKind *)
Inductive ObservedItemKind := ItemFunctionCall | ItemMcpCall | ItemReasoning.

(* src: ai-gateway/src/agent/tool_observer.rs:101-111 ObservedResponsesItem *)
Record ObservedItem := mkItem {
  oi_kind : ObservedItemKind;
  oi_event_type : string;
  oi_response_id : option string;
  oi_output_index : option Z;
  oi_item_id : option string;
  oi_call_id : option string;
  oi_name : option string;
  oi_status : option string;
  oi_metadata : Value
}.

(* src: ai-gateway/src/agent/tool_observer.rs:114-120 ObservedResponsesStreamItemKind *)
Inductive ObservedStreamKind := StreamFunctionCall | StreamMcpCall | StreamReasoning | StreamCompleted | StreamError.

(* src: ai-gateway/src/agent/tool_observer.rs:123-135 ObservedResponsesStreamItem *)
Record StreamItem := mkStreamItem {
  si_kind : ObservedStreamKind;
  si_event_type : string;
  si_response_id : option string;
  si_sequence : Z;
  si_output_index : option Z;
  si_item_id : option string;
  si_call_id : option string;
  si_name : option string;
  si_status : option string;
  si_idempotency_key : string;
  si_metadata : Value
}.

(** Absent texts and flags. *)
Definition opt_text (s : option string) : string := default "" s.
Definition opt_flag (b : option bool) : Value := match b with Some b => Bool b | None => Null end.

(** Rust's [position] and the only candidate. *)
Fixpoint position {A} (p : A → bool) (l : list A) : option nat :=
  match l with [] => None | a :: l => if p a then Some 0%nat else S <$> position p l end.

Definition id_is (s : option string) (id : string) : bool := bool_decide (s = Some id).
Definition index_is (n : option Z) (index : Z) : bool := bool_decide (n = Some index).

Section observer.
Context (from_str : string → option Value) (to_string : Value → string) (sha256_hex : string → string).

(* src: ai-gateway/src/agent/tool_observer.rs:1373-1382 summarize_arguments *)
Definition summarize_arguments (arguments : string) : string :=
  truncate_chars (match from_str arguments with
                  | Some v => to_string (redact_sensitive_json v)
                  | None => "[non_json_arguments]" end) MAX_ARGUMENTS_SUMMARY_CHARS.

(* src: ai-gateway/src/agent/tool_observer.rs:1435-1442 stable_hash *)
Definition stable_hash (value : string) : string := sha256_hex value.

(* src: ai-gateway/src/agent/tool_observer.rs:1444-1450 value_char_count *)
Definition value_char_count (v : Value) : Z :=
  Z.of_nat (count_chars (match Json.as_str v with Some s => s | None => to_string v end)).

(** ** Whole chat answers *)

(** A call of a choice, as far as it is reported, and the key under which it is
    reported once. *)
(* src: ai-gateway/src/agent/tool_observer.rs:159-185 observe_chat_completion_tool_calls call *)
Definition observed_call (choice_index : nat) (tool_call : Value) : option (string * ObservedToolCall) :=
  let function := get "function" tool_call in
  tool_name ← or_else (optional_string (function ≫= get "name")) (optional_string (get "name" tool_call));
  let tool_call_id := optional_string (get "id" tool_call) in
  let summary := summarize_arguments <$> optional_string (function ≫= get "arguments") in
  let index := let n := Z.of_nat choice_index in if (n <=? u32_max)%Z then Some n else None in
  let key := default (pretty choice_index ++ ":" ++ tool_name ++ ":" ++ opt_text summary) tool_call_id in
  Some (key, mkObserved tool_call_id tool_name (optional_string (get "type" tool_call)) summary index).

(** Keeps the first of every key. *)
Fixpoint keep_first {A} (seen : gset string) (l : list (string * A)) : list A :=
  match l with
  | [] => []
  | (key, a) :: l => if bool_decide (key ∈ seen) then keep_first seen l else a :: keep_first ({[key]} ∪ seen) l
  end.

(* src: ai-gateway/src/agent/tool_observer.rs:138-201 observe_chat_completion_tool_calls *)
Definition observe_chat_completion_tool_calls (body : string) : list ObservedToolCall :=
  match (from_str body ≫= get "choices") ≫= as_array with
  | None => []
  | Some choices =>
      keep_first ∅ (List.concat (imap (λ i choice,
        omap (observed_call i) (default [] (get2 "message" "tool_calls" choice ≫= as_array))) choices))
  end.

(** ** Streamed chat answers *)

(* src: ai-gateway/src/agent/tool_observer.rs:415-436 chat_stream_tool_keys *)
Definition chat_stream_tool_keys (choice_index : Z) (tool_call_index : option Z) (tool_call_id : option string)
  : list ChatStreamToolKey :=
  (match tool_call_index with Some i => [Indexed choice_index i] | None => [] end
   ++ match tool_call_id with Some id => [ProviderId choice_index id] | None => [] end)%list.

(* src: ai-gateway/src/agent/tool_observer.rs:388-403 unique_chat_stream_draft_candidate *)
Fixpoint unique_from (p : Draft → bool) (drafts : list Draft) (index : nat) (candidate : option nat) : option nat :=
  match drafts with
  | [] => candidate
  | d :: drafts =>
      if negb (p d) then unique_from p drafts (S index) candidate
      else match candidate with Some _ => None | None => unique_from p drafts (S index) (Some index) end
  end.

Definition same_choice (choice_index : Z) (d : Draft) : bool := (df_choice_index d =? choice_index)%Z.

(* src: ai-gateway/src/agent/tool_observer.rs:346-386 find_chat_stream_draft_index *)
Definition find_chat_stream_draft_index (draft_indexes : gmap ChatStreamToolKey nat) (drafts : list Draft)
    (keys : list ChatStreamToolKey) (choice_index : Z) (tool_call_index : option Z) (tool_call_id tool_name : option string)
  : option nat :=
  match head (omap (λ key, draft_indexes !! key) keys) with
  | Some index => Some index
  | None =>
      match tool_call_index, tool_call_id with
      | Some index, None =>
          or_else
            (position (λ d, same_choice choice_index d && index_is (df_tool_call_index d) index
                            && bool_decide (df_tool_call_id d = None)) drafts)
            (unique_from (λ d, same_choice choice_index d && bool_decide (df_tool_call_index d = None)
                            && bool_decide (is_Some (df_tool_call_id d)) && bool_decide (is_Some tool_name)
                            && bool_decide (df_tool_name d = tool_name)) drafts 0 None)
      | None, Some id => position (λ d, same_choice choice_index d && id_is (df_tool_call_id d) id) drafts
      | Some index, Some id =>
          position (λ d, same_choice choice_index d && (index_is (df_tool_call_index d) index || id_is (df_tool_call_id d) id)) drafts
      | None, None => None
      end
  end.

(* src: ai-gateway/src/agent/tool_observer.rs:405-413 register_chat_stream_key_aliases *)
Definition register_chat_stream_key_aliases (keys : list ChatStreamToolKey) (index : nat)
    (draft_indexes : gmap ChatStreamToolKey nat) : gmap ChatStreamToolKey nat :=
  foldl (λ m key, <[key := index]> m) draft_indexes keys.

(* src: ai-gateway/src/agent/tool_observer.rs:438-453 append_chat_stream_arguments *)
Definition append_chat_stream_arguments (d : Draft) (arguments : string) : string * bool :=
  let current_chars := count_chars (df_arguments d) in
  if (MAX_CHAT_STREAM_ARGUMENT_CHARS_PER_TOOL <=? current_chars)%nat then (df_arguments d, true)
  else
    let remaining := (MAX_CHAT_STREAM_ARGUMENT_CHARS_PER_TOOL - current_chars)%nat in
    (df_arguments d ++ take_chars remaining arguments,
     df_arguments_truncated d || (remaining <? count_chars arguments)%nat).

(** A piece of a call, as it is read. *)
Record Piece := mkPiece {
  pc_choice : Z;
  pc_index : option Z;
  pc_id : option string;
  pc_name : option string;
  pc_type : option string;
  pc_arguments : option string;
  pc_finish : option string
}.

(* src: ai-gateway/src/agent/tool_observer.rs:274-278 observe_chat_completion_stream_frame piece *)
Definition read_piece (choice_index : Z) (finish : option string) (tool_call : Value) : Piece :=
  let function := get "function" tool_call in
  mkPiece choice_index (optional_u32 (get "index" tool_call)) (optional_string (get "id" tool_call))
    (function ≫= λ f, optional_string (get "name" f)) (optional_string (get "type" tool_call))
    (function ≫= λ f, get "arguments" f ≫= Json.as_str) finish.

(* src: ai-gateway/src/agent/tool_observer.rs:298-307 observe_chat_completion_stream_frame new draft *)
Definition new_draft (p : Piece) : Draft :=
  mkDraft (pc_choice p) (pc_index p) (pc_id p) None None "" false 0 None false.

(* src: ai-gateway/src/agent/tool_observer.rs:309-331 observe_chat_completion_stream_frame draft *)
Definition add_piece (sse_done_seen : bool) (p : Piece) (d : Draft) : Draft :=
  let a := match pc_arguments p with
           | Some arguments => append_chat_stream_arguments d arguments
           | None => (df_arguments d, df_arguments_truncated d) end in
  mkDraft (df_choice_index d) (or_else (df_tool_call_index d) (pc_index p)) (or_else (df_tool_call_id d) (pc_id p))
    (or_else (df_tool_name d) (pc_name p)) (or_else (df_tool_type d) (pc_type p)) a.1 a.2
    (Z.min u32_max (df_chunk_count d + 1)) (or_else (df_finish_reason d) (pc_finish p))
    (df_sse_done_seen d || sse_done_seen).

Record ChatStream := mkChatStream { cs_indexes : gmap ChatStreamToolKey nat; cs_drafts : list Draft }.

(** A draft is looked up by an index the map or the search gave, which is always
    one of a draft (see [stream_ok]). *)
(* src: ai-gateway/src/agent/tool_observer.rs:273-332 observe_chat_completion_stream_frame tool call *)
Definition on_piece (sse_done_seen : bool) (p : Piece) (s : ChatStream) : ChatStream :=
  let keys := chat_stream_tool_keys (pc_choice p) (pc_index p) (pc_id p) in
  let put index drafts :=
    mkChatStream (register_chat_stream_key_aliases keys index (cs_indexes s)) (alter (add_piece sse_done_seen p) index drafts) in
  match keys with
  | [] => s
  | _ =>
      match find_chat_stream_draft_index (cs_indexes s) (cs_drafts s) keys (pc_choice p) (pc_index p) (pc_id p) (pc_name p) with
      | Some index => put index (cs_drafts s)
      | None =>
          if (MAX_OBSERVED_CHAT_STREAM_TOOL_CALLS <=? length (cs_drafts s))%nat then s
          else put (length (cs_drafts s)) (cs_drafts s ++ [new_draft p])%list
      end
  end.

Definition with_finish (reason : string) (d : Draft) : Draft :=
  mkDraft (df_choice_index d) (df_tool_call_index d) (df_tool_call_id d) (df_tool_name d) (df_tool_type d) (df_arguments d)
    (df_arguments_truncated d) (df_chunk_count d) (Some reason) (df_sse_done_seen d).

Definition finish_draft (choice_index : Z) (reason : string) (d : Draft) : Draft :=
  if same_choice choice_index d && bool_decide (df_finish_reason d = None) then with_finish reason d else d.

(* src: ai-gateway/src/agent/tool_observer.rs:335-342 observe_chat_completion_stream_frame finish reason *)
Definition on_finish (choice_index : Z) (reason : string) (s : ChatStream) : ChatStream :=
  mkChatStream (cs_indexes s) (map (finish_draft choice_index reason) (cs_drafts s)).

(* src: ai-gateway/src/agent/tool_observer.rs:261-265 observe_chat_completion_stream_frame index *)
Definition choice_index_of (fallback : nat) (choice : Value) : option Z :=
  or_else (optional_u32 (get "index" choice)) (let n := Z.of_nat fallback in if (n <=? u32_max)%Z then Some n else None).

(** The pieces of calls in a choice. *)
Definition choice_pieces (choice_index : Z) (choice : Value) : list Piece :=
  map (read_piece choice_index (optional_string (get "finish_reason" choice)))
    (default [] (get2 "delta" "tool_calls" choice ≫= as_array)).

(* src: ai-gateway/src/agent/tool_observer.rs:260-343 observe_chat_completion_stream_frame choice *)
Definition on_choice (sse_done_seen : bool) (fallback : nat) (choice : Value) (s : ChatStream) : ChatStream :=
  match choice_index_of fallback choice with
  | None => s
  | Some choice_index =>
      let s := foldl (λ s p, on_piece sse_done_seen p s) s (choice_pieces choice_index choice) in
      match optional_string (get "finish_reason" choice) with Some reason => on_finish choice_index reason s | None => s end
  end.

(* src: ai-gateway/src/agent/tool_observer.rs:250-344 observe_chat_completion_stream_frame *)
Definition observe_chat_completion_stream_frame (value : Value) (sse_done_seen : bool) (s : ChatStream) : ChatStream :=
  match get "choices" value ≫= as_array with
  | None => s
  | Some choices => foldl (λ s c, on_choice sse_done_seen c.1 c.2 s) s (imap pair choices)
  end.

(* src: ai-gateway/src/agent/tool_observer.rs:479-487 observed_chat_stream_tool_call key *)
Definition draft_key (request_id : string) (d : Draft) : string :=
  let key_part := default "unknown" (or_else ((λ i, "index:" ++ pretty i) <$> df_tool_call_index d)
                                             ((λ id, "id:" ++ id) <$> df_tool_call_id d)) in
  request_id ++ ":chat_completions:" ++ pretty (df_choice_index d) ++ ":" ++ key_part.

(* src: ai-gateway/src/agent/tool_observer.rs:455-532 observed_chat_stream_tool_call *)
Definition observed_chat_stream_tool_call (request_id : string) (d : Draft) : ObservedStreamCall :=
  let when_any {A} (a : A) : option A := if is_empty (df_arguments d) then None else Some a in
  let summary := when_any (summarize_arguments (df_arguments d)) in
  let hash := when_any (stable_hash (df_arguments d)) in
  let chars := when_any (Z.of_nat (count_chars (df_arguments d))) in
  let valid := when_any (bool_decide (is_Some (from_str (df_arguments d)))) in
  let status := if df_arguments_truncated d then AggPartial
                else if id_is (df_finish_reason d) "tool_calls" || df_sse_done_seen d then AggComplete else AggPartial in
  let key := draft_key request_id d in
  mkStreamCall (df_choice_index d) (df_tool_call_index d) (df_tool_call_id d) (df_tool_name d) (df_tool_type d) summary hash
    chars valid (df_arguments_truncated d) (df_chunk_count d) (df_finish_reason d) (df_sse_done_seen d) status key
    (Object [("observer", Str "chat_completions_stream_tool_observer"); ("source_api", Str "chat_completions");
       ("source_wire", Str "chat_completions_sse"); ("observed_only", Bool true); ("execution_owner", Str "model_output");
       ("executed_by_gateway", Bool false); ("runtime_confirmed", Bool false); ("policy_evaluated", Bool false);
       ("provider_call_id", opt_str (df_tool_call_id d)); ("provider_call_id_missing", Bool (bool_decide (df_tool_call_id d = None)));
       ("choice_index", num (df_choice_index d)); ("tool_call_index", opt_num (df_tool_call_index d));
       ("tool_name_missing", Bool (bool_decide (df_tool_name d = None))); ("chunk_count", num (df_chunk_count d));
       ("finish_reason", opt_str (df_finish_reason d)); ("sse_done_seen", Bool (df_sse_done_seen d));
       ("aggregation_status", Str (aggregation_as_str status)); ("arguments_summary", opt_str summary);
       ("arguments_hash", opt_str hash); ("arguments_chars", opt_num chars); ("arguments_valid_json", opt_flag valid);
       ("arguments_truncated", Bool (df_arguments_truncated d)); ("idempotency_key", Str key)]).

(** The frames of a stream, and whether its end marker was among them. *)
(* src: ai-gateway/src/agent/tool_observer.rs:216-238 observe_chat_completion_stream_tool_calls frames *)
Definition on_frame (st : ChatStream * bool) (frame : string) : ChatStream * bool :=
  let frame := trim frame in
  if is_empty frame then st
  else if frame =? "[DONE]" then (st.1, true)
  else match from_str frame with
       | None => st
       | Some value => (observe_chat_completion_stream_frame value st.2 st.1, st.2)
       end.

Definition no_drafts : ChatStream := mkChatStream ∅ [].

(* src: ai-gateway/src/agent/tool_observer.rs:204-248 observe_chat_completion_stream_tool_calls *)
Definition observe_chat_completion_stream_tool_calls (request_id body : string) : list ObservedStreamCall :=
  if too_large body then []
  else
    let st := foldl on_frame (no_drafts, false) (take MAX_CHAT_STREAM_FRAMES (parse_sse_data_frames body)) in
    map (λ d, observed_chat_stream_tool_call request_id
                (mkDraft (df_choice_index d) (df_tool_call_index d) (df_tool_call_id d) (df_tool_name d) (df_tool_type d)
                   (df_arguments d) (df_arguments_truncated d) (df_chunk_count d) (df_finish_reason d)
                   (df_sse_done_seen d || st.2)))
      (take MAX_OBSERVED_CHAT_STREAM_TOOL_CALLS (cs_drafts st.1)).

(** ** Whole Responses answers *)

(* src: ai-gateway/src/agent/tool_observer.rs:1128-1157 observe_responses_function_call *)
Definition observe_responses_function_call (response_id : option string) (output_index : option Z) (item_id : option string)
    (item : Value) : option ObservedItem :=
  name ← optional_string (get "name" item);
  let status := optional_string (get "status" item) in
  let summary := summarize_arguments <$> optional_string (get "arguments" item) in
  Some (mkItem ItemFunctionCall "tool.call.observed" response_id output_index item_id (optional_string (get "call_id" item))
    (Some name) status
    (Object [("observer", Str "responses_nonstream_agent_observer"); ("source_api", Str "responses"); ("tool_type", Str "function");
       ("status", opt_str status); ("arguments_summary", opt_str summary)])).

(* src: ai-gateway/src/agent/tool_observer.rs:1159-1197 observe_responses_mcp_call *)
Definition observe_responses_mcp_call (response_id : option string) (output_index : option Z) (item_id : option string)
    (item : Value) : option ObservedItem :=
  let server_label := optional_string (get "server_label" item) in
  name ← or_else (optional_string (get "name" item)) server_label;
  let status := optional_string (get "status" item) in
  let output_chars := (λ s, Z.of_nat (count_chars s)) <$> (get "output" item ≫= Json.as_str) in
  Some (mkItem ItemMcpCall "tool.call.observed" response_id output_index item_id (optional_string (get "call_id" item))
    (Some name) status
    (Object [("observer", Str "responses_nonstream_agent_observer"); ("source_api", Str "responses"); ("tool_type", Str "mcp");
       ("execution_owner", Str "provider_hosted"); ("server_label", opt_str server_label); ("status", opt_str status);
       ("has_output", Bool (bool_decide (is_Some (get "output" item)))); ("output_chars", opt_num output_chars);
       ("has_error", Bool (bool_decide (is_Some (get "error" item))))])).

(* src: ai-gateway/src/agent/tool_observer.rs:1199-1242 observe_responses_reasoning *)
Definition observe_responses_reasoning (response_id : option string) (output_index : option Z) (item_id : option string)
    (item : Value) : option ObservedItem :=
  let summary := default [] (get "summary" item ≫= as_array) in
  let chars := Nat.min (sum_list (omap (λ part, count_chars <$> (get "text" part ≫= Json.as_str)) summary)) MAX_REASONING_SUMMARY_CHARS in
  let encrypted := bool_decide (is_Some (get "encrypted_content" item)) in
  if (length summary =? 0)%nat && negb encrypted then None
  else Some (mkItem ItemReasoning "llm.reasoning.observed" response_id output_index item_id None (Some "Reasoning summary observed")
    (optional_string (get "status" item))
    (Object [("observer", Str "responses_nonstream_agent_observer"); ("source_api", Str "responses");
       ("reasoning_visibility", Str "metadata_only"); ("summary_count", num (Z.of_nat (length summary)));
       ("summary_chars", num (Z.of_nat chars)); ("has_encrypted_content", Bool encrypted)])).

(* src: ai-gateway/src/agent/tool_observer.rs:1244-1255 responses_dedupe_key *)
Definition responses_dedupe_key (i : ObservedItem) : string :=
  oi_event_type i ++ ":" ++ opt_text (oi_response_id i) ++ ":" ++ opt_text (pretty <$> oi_output_index i) ++ ":"
  ++ opt_text (oi_item_id i) ++ ":" ++ opt_text (oi_call_id i).

(* src: ai-gateway/src/agent/tool_observer.rs:556-573 observe_responses_nonstream_agent_items item *)
Definition observe_item (response_id : option string) (output_index : nat) (item : Value) : option ObservedItem :=
  let item_type := optional_string (get "type" item) in
  let index := let n := Z.of_nat output_index in if (n <=? u32_max)%Z then Some n else None in
  let item_id := optional_string (get "id" item) in
  if id_is item_type "function_call" then observe_responses_function_call response_id index item_id item
  else if id_is item_type "mcp_call" then observe_responses_mcp_call response_id index item_id item
  else if id_is item_type "reasoning" then observe_responses_reasoning response_id index item_id item
  else None.

(** The loop over the output, which ends when enough was observed. *)
Fixpoint observe_items (response_id : option string) (output_index : nat) (items : list Value) (seen : gset string)
    (observed : list ObservedItem) : list ObservedItem :=
  match items with
  | [] => observed
  | item :: items =>
      if (MAX_OBSERVED_EVENTS_PER_RESPONSE <=? length observed)%nat then observed
      else match observe_item response_id output_index item with
           | None => observe_items response_id (S output_index) items seen observed
           | Some draft =>
               let key := responses_dedupe_key draft in
               if bool_decide (key ∈ seen) then observe_items response_id (S output_index) items seen observed
               else observe_items response_id (S output_index) items ({[key]} ∪ seen) (observed ++ [draft])%list
           end
  end.

(* src: ai-gateway/src/agent/tool_observer.rs:535-586 observe_responses_nonstream_agent_items *)
Definition observe_responses_nonstream_agent_items (body : string) : list ObservedItem :=
  if too_large body then []
  else match from_str body with
       | None => []
       | Some value =>
           match get "output" value ≫= as_array with
           | None => []
           | Some output =>
               observe_items (optional_string (get "id" value)) 0 (take MAX_RESPONSE_OUTPUT_ITEMS output) ∅ []
           end
       end.

(** ** Streamed Responses answers *)

(* src: ai-gateway/src/agent/tool_observer.rs:1286-1292 responses_stream_response_id *)
Definition responses_stream_response_id (event : Value) : option string :=
  or_else (optional_string (get "response_id" event)) (get "response" event ≫= λ r, optional_string (get "id" r)).

(* src: ai-gateway/src/agent/tool_observer.rs:1294-1298 responses_stream_sequence *)
Definition responses_stream_sequence (event : Value) : Z :=
  default 0%Z (or_else (optional_u32 (get "sequence_number" event)) (optional_u32 (get "sequence" event))).

(* src: ai-gateway/src/agent/tool_observer.rs:1300-1319 responses_stream_idempotency_key *)
Definition responses_stream_idempotency_key (request_id event_type : string) (response_id : option string) (sequence : Z)
    (item_id call_id name : option string) : string :=
  request_id ++ ":" ++ event_type ++ ":" ++ opt_text response_id ++ ":" ++ pretty sequence ++ ":" ++ opt_text item_id ++ ":"
  ++ opt_text call_id ++ ":" ++ opt_text name.

(* src: ai-gateway/src/agent/tool_observer.rs:1321-1350 responses_stream_function_call_idempotency_key *)
Definition responses_stream_function_call_idempotency_key (request_id : string) (response_id : option string) (sequence : Z)
    (item_id call_id : option string) : string :=
  request_id ++ ":function_call:" ++ opt_text response_id ++
  match item_id, call_id with
  | Some id, _ => ":item:" ++ id
  | None, Some id => ":call:" ++ id
  | None, None => ":sequence:" ++ pretty sequence
  end.

(** What all events of a stream report. *)
Definition stream_metadata (response_id : option string) (rest : list (string * Value)) (key : string) : Value :=
  Object ([("observer", Str "responses_stream_observer"); ("source_api", Str "responses"); ("source_wire", Str "responses_sse");
           ("event_source_trust", Str "gateway_observed"); ("provider_response_id", opt_str response_id)]
          ++ rest ++ [("idempotency_key", Str key)])%list.

(** A field of the item, or else of the event. *)
Definition item_text (key : string) (item event : Value) : option string :=
  or_else (optional_string (get key item)) (optional_string (get key event)).
Definition output_index_of (event item : Value) : option Z :=
  or_else (optional_u32 (get "output_index" event)) (optional_u32 (get "output_index" item)).
Definition item_id_of (item event : Value) : option string :=
  or_else (optional_string (get "id" item)) (optional_string (get "item_id" event)).

(** What both reports of a function call share. *)
Definition stream_function_call (request_id : string) (event item : Value) (name : string) (status : option string) : StreamItem :=
  let response_id := responses_stream_response_id event in
  let sequence := responses_stream_sequence event in
  let output_index := output_index_of event item in
  let item_id := item_id_of item event in
  let call_id := item_text "call_id" item event in
  let arguments := or_else (optional_string (get "arguments" event)) (optional_string (get "arguments" item)) in
  let key := responses_stream_function_call_idempotency_key request_id response_id sequence item_id call_id in
  mkStreamItem StreamFunctionCall "tool.call.observed" response_id sequence output_index item_id call_id (Some name) status key
    (stream_metadata response_id
       [("provider_item_id", opt_str item_id); ("provider_call_id", opt_str call_id); ("output_index", opt_num output_index);
        ("tool_type", Str "function"); ("observed_only", Bool true); ("status", opt_str status);
        ("arguments_summary", opt_str (summarize_arguments <$> arguments)); ("arguments_hash", opt_str (stable_hash <$> arguments));
        ("arguments_chars", opt_num ((λ a, Z.of_nat (count_chars a)) <$> arguments))] key).

(* src: ai-gateway/src/agent/tool_observer.rs:785-846 observe_responses_stream_function_call_from_item *)
Definition observe_responses_stream_function_call_from_item (request_id : string) (event item : Value)
    (status_override : option string) : option StreamItem :=
  name ← item_text "name" item event;
  Some (stream_function_call request_id event item name (or_else status_override (item_text "status" item event))).

(* src: ai-gateway/src/agent/tool_observer.rs:848-908 observe_responses_stream_function_call_arguments_done *)
Definition observe_responses_stream_function_call_arguments_done (request_id : string) (event : Value) : option StreamItem :=
  let item := default event (get "item" event) in
  let name := default "function_call" (or_else (optional_string (get "name" event)) (optional_string (get "name" item))) in
  Some (stream_function_call request_id event item name (Some "arguments_done")).

(* src: ai-gateway/src/agent/tool_observer.rs:910-981 observe_responses_stream_mcp_call_from_item *)
Definition observe_responses_stream_mcp_call_from_item (request_id : string) (event item : Value) (event_type : string)
    (kind : ObservedStreamKind) (status_override : option string) : option StreamItem :=
  let response_id := responses_stream_response_id event in
  let sequence := responses_stream_sequence event in
  let output_index := output_index_of event item in
  let item_id := item_id_of item event in
  let call_id := or_else (item_text "call_id" item event) ((λ id, "openai_item:" ++ id) <$> item_id) in
  let server_label := item_text "server_label" item event in
  let name := or_else (item_text "name" item event) server_label in
  let status := or_else status_override (item_text "status" item event) in
  let output := or_else (get "output" item) (get "output" event) in
  let has_error := bool_decide (is_Some (get "error" item)) || bool_decide (is_Some (get "error" event)) || id_is status "failed" in
  let key := responses_stream_idempotency_key request_id event_type response_id sequence item_id call_id name in
  Some (mkStreamItem kind event_type response_id sequence output_index item_id call_id name status key
    (stream_metadata response_id
       [("provider_item_id", opt_str item_id); ("provider_call_id", opt_str call_id); ("output_index", opt_num output_index);
        ("tool_type", Str "mcp"); ("execution_owner", Str "provider_hosted"); ("provider_execution_status", opt_str status);
        ("server_label", opt_str server_label); ("has_output", Bool (bool_decide (is_Some output)));
        ("output_chars", opt_num (value_char_count <$> output)); ("has_error", Bool has_error)] key)).

(* src: ai-gateway/src/agent/tool_observer.rs:983-1036 observe_responses_stream_reasoning *)
Definition observe_responses_stream_reasoning (request_id : string) (event : Value) : option StreamItem :=
  let response_id := responses_stream_response_id event in
  let sequence := responses_stream_sequence event in
  let output_index := optional_u32 (get "output_index" event) in
  let item_id := or_else (optional_string (get "item_id" event)) (optional_string (get "id" event)) in
  text ← optional_string (get "text" event);
  let key := responses_stream_idempotency_key request_id "llm.reasoning.observed" response_id sequence item_id None None in
  Some (mkStreamItem StreamReasoning "llm.reasoning.observed" response_id sequence output_index item_id None
    (Some "Reasoning text observed") (optional_string (get "status" event)) key
    (stream_metadata response_id
       [("provider_item_id", opt_str item_id); ("output_index", opt_num output_index); ("reasoning_visibility", Str "metadata_only");
        ("has_reasoning_text", Bool true);
        ("summary_chars", num (Z.of_nat (Nat.min (count_chars text) MAX_REASONING_SUMMARY_CHARS)))] key)).

(* src: ai-gateway/src/agent/tool_observer.rs:1038-1076 observe_responses_stream_response_completed *)
Definition observe_responses_stream_response_completed (request_id : string) (event : Value) : option StreamItem :=
  let response_id := responses_stream_response_id event in
  let sequence := responses_stream_sequence event in
  let status := or_else (optional_string (get "status" event)) (Some "completed") in
  let key := responses_stream_idempotency_key request_id "llm.response.completed.observed" response_id sequence None None None in
  Some (mkStreamItem StreamCompleted "llm.response.completed.observed" response_id sequence None None None
    (Some "Response completed") status key (stream_metadata response_id [("status", opt_str status)] key)).

(* src: ai-gateway/src/agent/tool_observer.rs:1078-1126 observe_responses_stream_response_error *)
Definition observe_responses_stream_response_error (request_id : string) (event : Value) : option StreamItem :=
  event_kind ← optional_string (get "type" event);
  let response_id := responses_stream_response_id event in
  let sequence := responses_stream_sequence event in
  let status := if event_kind =? "response.incomplete" then "incomplete" else "failed" in
  let key := responses_stream_idempotency_key request_id "error.observed" response_id sequence None None (Some event_kind) in
  Some (mkStreamItem StreamError "error.observed" response_id sequence None None None (Some event_kind) (Some status) key
    (stream_metadata response_id
       [("provider_execution_status", Str status); ("has_error", Bool (bool_decide (is_Some (get "error" event))));
        ("has_incomplete_details", Bool (bool_decide (is_Some (get "incomplete_details" event))))] key)).

(* src: ai-gateway/src/agent/tool_observer.rs:731-783 observe_responses_stream_event *)
Definition observe_responses_stream_event (request_id : string) (event : Value) : option StreamItem :=
  event_type ← optional_string (get "type" event);
  let kind_is t := event_type =? t in
  let item := default event (get "item" event) in
  if kind_is "response.output_item.done" then
    item ← get "item" event;
    let item_type := optional_string (get "type" item) in
    if id_is item_type "function_call" then observe_responses_stream_function_call_from_item request_id event item None
    else if id_is item_type "mcp_call" then
      observe_responses_stream_mcp_call_from_item request_id event item "tool.call.observed" StreamMcpCall
        (optional_string (get "status" item))
    else None
  else if kind_is "response.function_call_arguments.done" then observe_responses_stream_function_call_arguments_done request_id event
  else if kind_is "response.mcp_call.completed" then
    observe_responses_stream_mcp_call_from_item request_id event item "tool.call.observed" StreamMcpCall (Some "completed")
  else if kind_is "response.mcp_call.failed" then
    observe_responses_stream_mcp_call_from_item request_id event item "error.observed" StreamError (Some "failed")
  else if kind_is "response.reasoning_summary_text.done" || kind_is "response.reasoning_text.done" then
    observe_responses_stream_reasoning request_id event
  else if kind_is "response.completed" then observe_responses_stream_response_completed request_id event
  else if kind_is "response.failed" || kind_is "response.incomplete" then observe_responses_stream_response_error request_id event
  else None.

(** ** Reports of the same call *)

Definition says_other (s : option string) (default_text : string) : bool :=
  match s with Some t => negb (t =? default_text) | None => false end.

(* src: ai-gateway/src/agent/tool_observer.rs:675-687 responses_stream_function_call_richness *)
Definition responses_stream_function_call_richness (i : StreamItem) : nat :=
  (Nat.b2n (says_other (si_name i) "function_call") + Nat.b2n (bool_decide (is_Some (si_call_id i)))
   + Nat.b2n (says_other (si_status i) "arguments_done") + Nat.b2n (bool_decide (is_Some (si_output_index i))))%nat.

Definition is_null (v : Value) : bool := match v with Null => true | _ => false end.
Definition non_null (v : option Value) : option Value := v ← v; if is_null v then None else Some v.

(* src: ai-gateway/src/agent/tool_observer.rs:721-729 insert_non_null_metadata_value *)
Definition insert_non_null_metadata_value (source : Value) (key : string) (m : list (string * Value)) : list (string * Value) :=
  match non_null (get key source) with Some v => assoc_set key v m | None => m end.

(* src: ai-gateway/src/agent/tool_observer.rs:689-719 merge_function_call_metadata *)
Definition merge_function_call_metadata (existing draft : Value) : Value :=
  match as_object existing with
  | None => existing
  | Some m =>
      let m := foldl (λ m key, insert_non_null_metadata_value draft key m) m
                 ["provider_response_id"; "provider_item_id"; "provider_call_id"; "output_index"] in
      let m := match non_null (get "status" draft) with
               | Some v => if negb (bool_decide (Json.as_str v = Some "arguments_done")) || bool_decide (assoc "status" m = None)
                           then assoc_set "status" v m else m
               | None => m
               end in
      Object (foldl (λ m key, if bool_decide (is_Some (non_null (assoc key m))) then m
                              else insert_non_null_metadata_value draft key m) m
                ["arguments_summary"; "arguments_hash"; "arguments_chars"])
  end.

(* src: ai-gateway/src/agent/tool_observer.rs:627-673 merge_responses_stream_duplicate *)
Definition merge_responses_stream_duplicate (existing draft : StreamItem) : StreamItem :=
  match si_kind existing, si_kind draft with
  | StreamFunctionCall, StreamFunctionCall =>
      let richer := (responses_stream_function_call_richness existing <? responses_stream_function_call_richness draft)%nat in
      mkStreamItem (si_kind existing) (si_event_type existing)
        (or_else (si_response_id draft) (si_response_id existing))
        (if richer then si_sequence draft else si_sequence existing)
        (or_else (si_output_index draft) (si_output_index existing))
        (or_else (si_item_id draft) (si_item_id existing))
        (or_else (si_call_id draft) (si_call_id existing))
        (if says_other (si_name draft) "function_call" || bool_decide (si_name existing = None) then si_name draft else si_name existing)
        (if says_other (si_status draft) "arguments_done" || bool_decide (si_status existing = None)
         then si_status draft else si_status existing)
        (si_idempotency_key existing)
        (merge_function_call_metadata (si_metadata existing) (si_metadata draft))
  | _, _ => existing
  end.

(** The loop over the frames, which ends when enough was observed. *)
Fixpoint observe_frames (request_id : string) (frames : list string) (seen : gmap string nat) (observed : list StreamItem)
  : list StreamItem :=
  match frames with
  | [] => observed
  | frame :: frames =>
      if (MAX_OBSERVED_EVENTS_PER_RESPONSE <=? length observed)%nat then observed
      else if trim frame =? "[DONE]" then observe_frames request_id frames seen observed
      else match from_str frame ≫= observe_responses_stream_event request_id with
           | None => observe_frames request_id frames seen observed
           | Some draft =>
               match seen !! si_idempotency_key draft with
               | Some i =>
                   observe_frames request_id frames seen (alter (λ existing, merge_responses_stream_duplicate existing draft) i observed)
               | None =>
                   observe_frames request_id frames (<[si_idempotency_key draft := length observed]> seen) (observed ++ [draft])%list
               end
           end
  end.

(* src: ai-gateway/src/agent/tool_observer.rs:589-625 observe_responses_stream_agent_items *)
Definition observe_responses_stream_agent_items (request_id body : string) : list StreamItem :=
  if too_large body then []
  else observe_frames request_id (take MAX_RESPONSE_STREAM_EVENTS (parse_sse_data_frames body)) ∅ [].
End observer.

(** ** Keys and drafts *)

Definition key_choice (k : ChatStreamToolKey) : Z := match k with Indexed c _ | ProviderId c _ => c end.

Lemma or_else_Some {A} (a b : option A) x : or_else a b = Some x ↔ a = Some x ∨ a = None ∧ b = Some x.
Proof. destruct a; simpl; naive_solver. Qed.

Lemma or_else_None {A} (a b : option A) : or_else a b = None ↔ a = None ∧ b = None.
Proof. destruct a; simpl; naive_solver. Qed.

Lemma position_Some {A} (p : A → bool) l : ∀ k, position p l = Some k → ∃ a, l !! k = Some a ∧ p a = true.
Proof.
  induction l as [|a l IH]; intros k; simpl; [done|]. destruct (p a) eqn:E; [intros [= <-]; eauto|].
  intros (j & Hj & ->)%fmap_Some. by apply IH.
Qed.

Lemma position_None {A} (p : A → bool) l : (∀ a, a ∈ l → p a = false) → position p l = None.
Proof.
  induction l as [|a l IH]; intros H; [done|]. cbn [position]. rw (H a); [|by left]. rw IH; [done|]. intros b Hb. apply H. by right.
Qed.

Lemma unique_from_Some p l : ∀ n c k, unique_from p l n c = Some k →
  c = Some k ∨ ∃ j d, l !! j = Some d ∧ k = (n + j)%nat ∧ p d = true.
Proof.
  induction l as [|d l IH]; intros n c k; simpl; [by left|]. destruct (p d) eqn:E; simpl.
  - destruct c; [done|]. intros [[= <-]|(j & d' & Hj & -> & Hd)]%IH; right.
    + exists 0%nat, d. repeat split; [|done]. lia.
    + exists (S j), d'. repeat split; [done| |done]. lia.
  - intros [->|(j & d' & Hj & -> & Hd)]%IH; [by left|right]. exists (S j), d'. repeat split; [done| |done]. lia.
Qed.

Lemma unique_from_None p l n : (∀ d, d ∈ l → p d = false) → unique_from p l n None = None.
Proof.
  revert n. induction l as [|d l IH]; intros n H; simpl; [done|]. rw H; [|by left]. apply IH. intros b Hb. apply H. by right.
Qed.

Lemma keys_choice p key : key ∈ chat_stream_tool_keys (pc_choice p) (pc_index p) (pc_id p) → key_choice key = pc_choice p.
Proof. rw /chat_stream_tool_keys elem_of_app. destruct (pc_index p), (pc_id p); simpl; set_solver. Qed.

Lemma lookup_register keys k m key : register_chat_stream_key_aliases keys k m !! key = if decide (key ∈ keys) then Some k else m !! key.
Proof.
  rw /register_chat_stream_key_aliases. revert m. induction keys as [|key' keys IH]; intros m; simpl; [done|]. rw IH.
  destruct (decide (key ∈ keys)) as [H|H]; [rw decide_True //; by right|].
  destruct (decide (key = key')) as [->|Hne]; [rw lookup_insert decide_True // decide_True //; by left|].
  rw lookup_insert_ne // decide_False //. rw elem_of_cons. tauto.
Qed.

(** What the indexes and the drafts of a stream have to do with each other. *)
Record stream_ok (s : ChatStream) : Prop := mkStreamOk {
  ok_index : ∀ key k, cs_indexes s !! key = Some k → ∃ d, cs_drafts s !! k = Some d ∧ df_choice_index d = key_choice key;
  ok_indexed : ∀ k d i, cs_drafts s !! k = Some d → df_tool_call_index d = Some i →
    cs_indexes s !! Indexed (df_choice_index d) i = Some k;
  ok_named : ∀ k d, cs_drafts s !! k = Some d → df_tool_call_index d = None →
    ∃ id, df_tool_call_id d = Some id ∧ is_Some (cs_indexes s !! ProviderId (df_choice_index d) id);
  ok_unique : ∀ k k' d d', cs_drafts s !! k = Some d → cs_drafts s !! k' = Some d' →
    df_tool_call_index d = None → df_tool_call_index d' = None → df_choice_index d = df_choice_index d' →
    df_tool_call_id d = df_tool_call_id d' → k = k';
  ok_few : (length (cs_drafts s) ≤ MAX_OBSERVED_CHAT_STREAM_TOOL_CALLS)%nat;
  ok_short : ∀ d, d ∈ cs_drafts s → (count_chars (df_arguments d) ≤ MAX_CHAT_STREAM_ARGUMENT_CHARS_PER_TOOL)%nat
}.

(** A draft that is found is one of the choice, and the one of the index if
    there is one. *)
Lemma find_spec s p k : stream_ok s →
  find_chat_stream_draft_index (cs_indexes s) (cs_drafts s) (chat_stream_tool_keys (pc_choice p) (pc_index p) (pc_id p))
    (pc_choice p) (pc_index p) (pc_id p) (pc_name p) = Some k →
  (∃ d, cs_drafts s !! k = Some d ∧ df_choice_index d = pc_choice p) ∧
  (∀ i k', pc_index p = Some i → cs_indexes s !! Indexed (pc_choice p) i = Some k' → k' = k).
Proof.
  intros Hs. rw /find_chat_stream_draft_index. destruct (head _) as [k0|] eqn:Hh.
  - intros [= ->]. split.
    + apply head_Some_elem_of, list_elem_of_omap in Hh as (key & Hkey & Hl). destruct (ok_index s Hs _ _ Hl) as (d & Hd & Hc).
      exists d. split; [done|]. rw Hc. by apply keys_choice.
    + intros i k' Hi Hk'. rw /chat_stream_tool_keys Hi /= Hk' /= in Hh. by injection Hh.
  - intros H. split.
    + assert (Hp : ∃ f d, cs_drafts s !! k = Some d ∧ same_choice (pc_choice p) d && f d = true).
      { destruct (pc_index p) as [i|], (pc_id p) as [id|]; [| | |done].
        - apply position_Some in H as (d & Hd & Hp). exists (λ d, index_is (df_tool_call_index d) i || id_is (df_tool_call_id d) id), d. done.
        - apply or_else_Some in H as [H|[_ H]].
          + apply position_Some in H as (d & Hd & Hp). rw -andb_assoc in Hp. by eexists (λ d, _), d.
          + apply unique_from_Some in H as [H|(j & d & Hd & -> & Hp)]; [done|]. rw -!andb_assoc in Hp. by eexists (λ d, _), d.
        - apply position_Some in H as (d & Hd & Hp). by eexists (λ d, _), d. }
      destruct Hp as (f & d & Hd & [Hp _]%andb_true_iff). exists d. split; [done|]. by apply Z.eqb_eq.
    + intros i k' Hi Hk'. rw /chat_stream_tool_keys Hi /= Hk' in Hh. done.
Qed.

Lemma append_short d a : (count_chars (df_arguments d) ≤ MAX_CHAT_STREAM_ARGUMENT_CHARS_PER_TOOL)%nat →
  (count_chars (append_chat_stream_arguments d a).1 ≤ MAX_CHAT_STREAM_ARGUMENT_CHARS_PER_TOOL)%nat.
Proof.
  rw /append_chat_stream_arguments. case_match eqn:E; simpl; [done|]. apply Nat.leb_gt in E. intros _.
  pose proof (take_chars_count (MAX_CHAT_STREAM_ARGUMENT_CHARS_PER_TOOL - count_chars (df_arguments d)) a). rw count_chars_app. lia.
Qed.

Lemma add_piece_short done_seen p d : (count_chars (df_arguments d) ≤ MAX_CHAT_STREAM_ARGUMENT_CHARS_PER_TOOL)%nat →
  (count_chars (df_arguments (add_piece done_seen p d)) ≤ MAX_CHAT_STREAM_ARGUMENT_CHARS_PER_TOOL)%nat.
Proof. rw /add_piece /=. destruct (pc_arguments p); [apply append_short|done]. Qed.

Lemma in_keys c i id key : key ∈ chat_stream_tool_keys c i id ↔
  (∃ n, i = Some n ∧ key = Indexed c n) ∨ (∃ t, id = Some t ∧ key = ProviderId c t).
Proof. rw /chat_stream_tool_keys elem_of_app. destruct i, id; simpl; set_solver. Qed.

(** Adding a piece to the draft at [k], which is an old one or a new one. *)
Section put.
Context (s : ChatStream) (done_seen : bool) (p : Piece) (drafts : list Draft) (k : nat) (dk : Draft) (ok : stream_ok s).
Abbreviation keys := (chat_stream_tool_keys (pc_choice p) (pc_index p) (pc_id p)).
Context (old : ∀ j d, drafts !! j = Some d → j ≠ k → cs_drafts s !! j = Some d).
Context (kept : ∀ j d, cs_drafts s !! j = Some d → drafts !! j = Some d).
Context (at_k : drafts !! k = Some dk) (choice_k : df_choice_index dk = pc_choice p).
Context (origin : cs_drafts s !! k = Some dk ∨
  dk = new_draft p ∧ keys ≠ [] ∧ ∀ key, key ∈ keys → cs_indexes s !! key = None).
Context (first_key : ∀ i k', pc_index p = Some i → cs_indexes s !! Indexed (pc_choice p) i = Some k' → k' = k).
Context (few : (length drafts ≤ MAX_OBSERVED_CHAT_STREAM_TOOL_CALLS)%nat).

Definition put : ChatStream :=
  mkChatStream (register_chat_stream_key_aliases keys k (cs_indexes s)) (alter (add_piece done_seen p) k drafts).

Lemma put_lookup j d : cs_drafts put !! j = Some d →
  j = k ∧ d = add_piece done_seen p dk ∨ j ≠ k ∧ cs_drafts s !! j = Some d.
Proof using at_k old.
  simpl. destruct (decide (j = k)) as [->|Hne].
  - rw list_lookup_alter decide_True // at_k. intros [= <-]. by left.
  - rw list_lookup_alter_ne //. intros H. right. split; [done|]. by apply old.
Qed.

Lemma put_index key j : cs_indexes put !! key = Some j → key ∈ keys ∧ j = k ∨ cs_indexes s !! key = Some j.
Proof. rw /put /= lookup_register. case_decide; [|by right]. intros [= <-]. by left. Qed.

Lemma put_index_mono key : is_Some (cs_indexes s !! key) → is_Some (cs_indexes put !! key).
Proof. rw /put /= lookup_register. by case_decide. Qed.

Lemma put_keys key : key ∈ keys → cs_indexes put !! key = Some k.
Proof. intros H. rw /put /= lookup_register decide_True //. Qed.

Lemma put_ok_index key j : cs_indexes put !! key = Some j → ∃ d, cs_drafts put !! j = Some d ∧ df_choice_index d = key_choice key.
Proof using All.
  assert (Hk : cs_drafts put !! k = Some (add_piece done_seen p dk)) by (simpl; rw list_lookup_alter decide_True // at_k //).
  intros [[Hin ->]|H]%put_index.
  - eexists. split; [exact Hk|]. simpl. rw choice_k. symmetry. by apply keys_choice.
  - destruct (ok_index s ok _ _ H) as (d & Hd & Hc). destruct (decide (j = k)) as [->|Hne].
    + eexists. split; [exact Hk|]. simpl. apply kept in Hd. rw at_k in Hd. injection Hd as <-. done.
    + exists d. split; [|done]. simpl. rw list_lookup_alter_ne //. by apply kept.
Qed.

Lemma put_ok_indexed j d i : cs_drafts put !! j = Some d → df_tool_call_index d = Some i →
  cs_indexes put !! Indexed (df_choice_index d) i = Some j.
Proof using All.
  intros [[-> ->]|[Hne Hd]]%put_lookup Hi.
  - simpl in *. rw choice_k. destruct origin as [Ho|(-> & _ & _)].
    + apply or_else_Some in Hi as [Hi|[_ Hi]].
      * pose proof (ok_indexed s ok _ _ _ Ho Hi) as H. rw choice_k in H. rw lookup_register. by case_decide.
      * apply put_keys, in_keys. left. eauto.
    + simpl in Hi. apply put_keys, in_keys. left. exists i. split; [|done]. by destruct (pc_index p).
  - pose proof (ok_indexed s ok _ _ _ Hd Hi) as H. rw /put /= lookup_register. case_decide as Hin; [|done].
    apply in_keys in Hin as [(n & Hn & Hk)|(t & _ & Hk)]; [|done]. injection Hk as Hc ->. rw Hc in H.
    by destruct Hne; apply (first_key n).
Qed.

Lemma put_ok_named j d : cs_drafts put !! j = Some d → df_tool_call_index d = None →
  ∃ id, df_tool_call_id d = Some id ∧ is_Some (cs_indexes put !! ProviderId (df_choice_index d) id).
Proof using All.
  intros [[-> ->]|[Hne Hd]]%put_lookup Hi.
  - simpl in Hi. apply or_else_None in Hi as [Hi Hp]. destruct origin as [Ho|(Hdk & Hk & _)].
    + destruct (ok_named s ok _ _ Ho Hi) as (id & Hid & Hs). exists id. simpl. rw Hid. split; [done|]. by apply put_index_mono.
    + assert (∃ id, pc_id p = Some id) as [id Eid].
      { destruct (pc_id p) as [id|] eqn:E; [by exists id|]. destruct Hk. by rw /chat_stream_tool_keys Hp. }
      exists id. split; [by rw Hdk /= Eid|]. exists k. apply put_keys. rw Hdk. apply in_keys. right. eauto.
  - destruct (ok_named s ok _ _ Hd Hi) as (id & Hid & Hs). exists id. split; [done|]. by apply put_index_mono.
Qed.

(** A draft at [k] without an index has the same identifier as no other. *)
Lemma put_unique_k j d : cs_drafts s !! j = Some d → j ≠ k → df_tool_call_index d = None →
  df_tool_call_index (add_piece done_seen p dk) = None → df_choice_index d = df_choice_index dk →
  df_tool_call_id d = df_tool_call_id (add_piece done_seen p dk) → False.
Proof using All.
  intros Hd Hne Hi Hk Hc Hid. simpl in Hk. apply or_else_None in Hk as [Hk Hp].
  destruct (ok_named s ok _ _ Hd Hi) as (id & Hid' & Hs). simpl in Hid. rw Hid' in Hid. destruct origin as [Ho|(Hdk & _ & Hn)].
  - destruct (ok_named s ok _ _ Ho Hk) as (id' & Hidk & _). rw Hidk in Hid. injection Hid as ->.
    apply Hne. eapply (ok_unique s ok); [exact Hd|exact Ho|done|done|done|by rw Hid' Hidk].
  - rw Hc Hdk (Hn (ProviderId _ _)) in Hs; [by destruct Hs|]. apply in_keys. right. exists id. split; [|done].
    rw Hdk /= in Hid. by destruct (pc_id p).
Qed.

Lemma put_ok : stream_ok put.
Proof using All.
  split.
  - exact put_ok_index.
  - exact put_ok_indexed.
  - exact put_ok_named.
  - intros j j' d d' [[-> ->]|[Hne Hd]]%put_lookup [[-> ->]|[Hne' Hd']]%put_lookup Hi Hi' Hc Hid; [done| | |].
    + destruct (put_unique_k j' d'); [done..|]. by symmetry.
    + by destruct (put_unique_k j d).
    + by eapply (ok_unique s ok).
  - simpl. by rw length_alter.
  - intros d (j & [[-> ->]|[Hne Hd]]%put_lookup)%list_elem_of_lookup.
    + apply add_piece_short. destruct origin as [Ho|(-> & _)]; [apply (ok_short s ok); by eapply list_elem_of_lookup_2|simpl; lia].
    + apply (ok_short s ok). by eapply list_elem_of_lookup_2.
Qed.
End put.

(** A piece leaves the stream as it is, or is put into a draft. *)
Lemma on_piece_cases done_seen p s :
  let keys := chat_stream_tool_keys (pc_choice p) (pc_index p) (pc_id p) in
  let found := find_chat_stream_draft_index (cs_indexes s) (cs_drafts s) keys (pc_choice p) (pc_index p) (pc_id p) (pc_name p) in
  (keys = [] ∨ found = None ∧ (MAX_OBSERVED_CHAT_STREAM_TOOL_CALLS ≤ length (cs_drafts s))%nat) ∧ on_piece done_seen p s = s ∨
  keys ≠ [] ∧ (∃ k, found = Some k ∧ on_piece done_seen p s = put s done_seen p (cs_drafts s) k) ∨
  keys ≠ [] ∧ found = None ∧ (length (cs_drafts s) < MAX_OBSERVED_CHAT_STREAM_TOOL_CALLS)%nat ∧
    on_piece done_seen p s = put s done_seen p (cs_drafts s ++ [new_draft p])%list (length (cs_drafts s)).
Proof.
  rw /on_piece /put. cbv zeta. destruct (chat_stream_tool_keys _ _ _) as [|key l]; [left; by split; [left|]|]. cbv iota.
  destruct (find_chat_stream_draft_index _ _ _ _ _ _ _) as [k|]; [right; left; eauto|].
  case_match eqn:Hl; [apply Nat.leb_le in Hl; left; by split; [right|]|]. apply Nat.leb_gt in Hl. right; right. done.
Qed.

Lemma head_omap_None {A B} (f : A → option B) l : head (omap f l) = None → ∀ a, a ∈ l → f a = None.
Proof.
  induction l as [|b l IH]; intros H a Ha; [by apply not_elem_of_nil in Ha|]. simpl in H. destruct (f b) eqn:E; [done|].
  apply elem_of_cons in Ha as [->|Ha]; [done|]. by apply IH.
Qed.

Lemma not_found_keys s p : 
  find_chat_stream_draft_index (cs_indexes s) (cs_drafts s) (chat_stream_tool_keys (pc_choice p) (pc_index p) (pc_id p))
    (pc_choice p) (pc_index p) (pc_id p) (pc_name p) = None →
  ∀ key, key ∈ chat_stream_tool_keys (pc_choice p) (pc_index p) (pc_id p) → cs_indexes s !! key = None.
Proof. rw /find_chat_stream_draft_index. destruct (head _) eqn:Hh; [done|]. intros _. by apply head_omap_None. Qed.

Lemma on_piece_ok done_seen p s : stream_ok s → stream_ok (on_piece done_seen p s).
Proof.
  intros ok. destruct (on_piece_cases done_seen p s) as [[_ ->]|[(Hk & k & Hf & ->)|(Hk & Hf & Hl & ->)]]; [done| |].
  - destruct (find_spec s p k ok Hf) as [(d & Hd & Hc) H1]. apply (put_ok s done_seen p (cs_drafts s) k d); try done; [by left|apply ok].
  - pose proof (not_found_keys s p Hf) as Hn. apply (put_ok s done_seen p _ _ (new_draft p)); try done.
    + intros j d Hj Hne. apply lookup_app_Some in Hj as [Hj|[Hge Hj]]; [done|]. apply list_lookup_singleton_Some in Hj as [Hj _]. lia.
    + intros j d Hj. by apply lookup_app_l_Some.
    + by rw lookup_app_r // Nat.sub_diag.
    + right. done.
    + intros i k' Hi Hk'. rw Hn // in Hk'. apply in_keys. left. eauto.
    + rw length_app /=. lia.
Qed.

Lemma on_finish_ok c reason s : stream_ok s → stream_ok (on_finish c reason s).
Proof.
  intros ok. rw /on_finish. set (f := finish_draft c reason).
  assert (Hf : ∀ d, df_choice_index (f d) = df_choice_index d ∧ df_tool_call_index (f d) = df_tool_call_index d ∧
    df_tool_call_id (f d) = df_tool_call_id d ∧ df_arguments (f d) = df_arguments d) by (intros d; rw /f /finish_draft; by case_match).
  assert (Hl : ∀ k d, map f (cs_drafts s) !! k = Some d → ∃ d0, cs_drafts s !! k = Some d0 ∧ d = f d0).
  { intros k d. rw list_lookup_fmap. intros (d0 & H & ->)%fmap_Some. eauto. }
  split; simpl.
  - intros key k (d & Hd & Hc)%(ok_index s ok). exists (f d). rw list_lookup_fmap Hd /=. destruct (Hf d) as (-> & _). done.
  - intros k d i (d0 & Hd & ->)%Hl. destruct (Hf d0) as (-> & -> & _). by apply (ok_indexed s ok).
  - intros k d (d0 & Hd & ->)%Hl. destruct (Hf d0) as (-> & -> & -> & _). by apply (ok_named s ok k).
  - intros k k' d d' (d0 & Hd & ->)%Hl (d1 & Hd' & ->)%Hl. destruct (Hf d0) as (-> & -> & -> & _), (Hf d1) as (-> & -> & -> & _).
    by apply (ok_unique s ok).
  - rw length_map. apply ok.
  - intros d (d0 & -> & Hd)%list_elem_of_fmap. destruct (Hf d0) as (_ & _ & _ & ->). by apply (ok_short s ok).
Qed.

Lemma foldl_preserves {A B} (P : A → Prop) (f : A → B → A) l : ∀ a, P a → (∀ a b, P a → P (f a b)) → P (foldl f a l).
Proof. induction l as [|b l IH]; intros a Ha Hf; [done|]. apply IH; [by apply Hf|done]. Qed.

Lemma frame_ok value done_seen s : stream_ok s → stream_ok (observe_chat_completion_stream_frame value done_seen s).
Proof.
  intros Hs. rw /observe_chat_completion_stream_frame. case_match; [|done]. apply (foldl_preserves stream_ok); [done|].
  intros s' [i choice] Hs'. rw /on_choice /=. destruct (choice_index_of i choice) as [c|]; [|done].
  assert (H1 : stream_ok (foldl (λ s p, on_piece done_seen p s) s' (choice_pieces c choice))).
  { apply (foldl_preserves stream_ok); [done|]. intros ? ?. apply on_piece_ok. }
  by case_match; [apply on_finish_ok|].
Qed.

Lemma no_drafts_ok : stream_ok no_drafts.
Proof. split; simpl; try done; try lia. intros d Hd. by apply not_elem_of_nil in Hd. Qed.

(** The state after the frames of a body. *)
Section frames.
Context (from_str : string → option Value) (to_string : Value → string) (sha256_hex : string → string).

Definition after_frames (frames : list string) : ChatStream * bool := foldl (on_frame from_str) (no_drafts, false) frames.

Lemma frames_ok frames : stream_ok (after_frames frames).1.
Proof.
  apply (foldl_preserves (λ st : ChatStream * bool, stream_ok st.1)); [apply no_drafts_ok|]. intros [s done_seen] frame Hs.
  rw /on_frame /=. repeat case_match; simpl; try done. by apply frame_ok.
Qed.
End frames.

Lemma pretty_Z_no_byte c (z : Z) : is_ascii_digit c = false → c ≠ "-"%char → count_byte c (pretty z) = 0%nat.
Proof.
  intros Hc Hm. destruct z as [|n|n].
  - by apply (pretty_no_byte c 0%N).
  - by apply (pretty_no_byte c (N.pos n)).
  - change (count_byte c (String "-" (pretty (N.pos n))) = 0%nat). cbn [count_byte]. rw (pretty_no_byte c (N.pos n) Hc).
    case_match eqn:E; [|done]. apply Ascii.eqb_eq in E. congruence.
Qed.

(** The key tells which draft it is. *)
Lemma draft_key_inj r d d' :
  (df_tool_call_index d = None → is_Some (df_tool_call_id d)) → (df_tool_call_index d' = None → is_Some (df_tool_call_id d')) →
  draft_key r d = draft_key r d' →
  df_choice_index d = df_choice_index d' ∧
  (is_Some (df_tool_call_index d) ∧ df_tool_call_index d = df_tool_call_index d' ∨
   df_tool_call_index d = None ∧ df_tool_call_index d' = None ∧ df_tool_call_id d = df_tool_call_id d').
Proof.
  intros Hd Hd'. rw /draft_key. intros H. apply str_app_inj_l, str_app_inj_l in H.
  apply field_inj in H as [Hc H]; [|by apply pretty_Z_no_byte..]. apply (inj pretty) in Hc. split; [done|].
  destruct (df_tool_call_index d) as [i|], (df_tool_call_index d') as [i'|]; simpl in H.
  - left. apply (str_app_inj_l "index:"), (inj pretty) in H as ->. eauto.
  - destruct Hd' as [id Hid]; [done|]. by rw Hid in H.
  - destruct Hd as [id Hid]; [done|]. by rw Hid in H.
  - right. destruct Hd as [id Hid], Hd' as [id' Hid']; [done..|]. rw Hid Hid' /= in H. rw Hid Hid'.
    repeat split. f_equal. by apply (str_app_inj_l "id:") in H.
Qed.

Lemma truncate_chars_count s n : (count_chars (truncate_chars s n) ≤ n)%nat.
Proof. apply take_chars_count. Qed.

(** The calls observed in a chat stream, whatever the stream contains: no two are
    reported under the same idempotency key, there are at most sixteen, and what
    is kept of their arguments and shown of them is within its limit. *)
Theorem observed_stream_calls_distinct from_str to_string sha256_hex request_id body :
  let calls := observe_chat_completion_stream_tool_calls from_str to_string sha256_hex request_id body in
  NoDup (map so_idempotency_key calls) ∧ (length calls ≤ MAX_OBSERVED_CHAT_STREAM_TOOL_CALLS)%nat ∧
  Forall (λ c, (∀ s, so_arguments_summary c = Some s → (count_chars s ≤ MAX_ARGUMENTS_SUMMARY_CHARS)%nat) ∧
               (∀ n, so_arguments_chars c = Some n → (n ≤ Z.of_nat MAX_CHAT_STREAM_ARGUMENT_CHARS_PER_TOOL)%Z)) calls.
Proof.
  rw /observe_chat_completion_stream_tool_calls. destruct (too_large body); [split_and!; [apply NoDup_nil_2|simpl; lia|done]|].
  set (frames := take _ (parse_sse_data_frames body)). pose proof (frames_ok from_str frames) as ok. rw /after_frames in ok.
  set (st := foldl _ _ frames) in *. cbv zeta. rw !map_map /= length_map. split_and!.
  - apply NoDup_alt. intros j j' key. rw !list_lookup_fmap. intros (d & Hd & ->)%fmap_Some (d' & Hd' & He)%fmap_Some.
    apply lookup_take_Some in Hd as [Hd _], Hd' as [Hd' _]. apply (draft_key_inj request_id d d') in He as [Hc [[[i Hi] Hii]|(Hi & Hi' & Hid)]].
    + pose proof (ok_indexed _ ok _ _ _ Hd Hi) as H1. rw Hi in Hii. pose proof (ok_indexed _ ok _ _ _ Hd' (eq_sym Hii)) as H2.
      rw Hc H2 in H1. by injection H1.
    + by eapply (ok_unique _ ok).
    + intros Hn. destruct (ok_named _ ok _ _ Hd Hn) as (id & -> & _). by eexists.
    + intros Hn. destruct (ok_named _ ok _ _ Hd' Hn) as (id & -> & _). by eexists.
  - rw length_take. lia.
  - apply Forall_map, Forall_forall. intros d (j & Hd)%list_elem_of_lookup. apply lookup_take_Some in Hd as [Hd _].
    apply list_elem_of_lookup_2, (ok_short _ ok) in Hd. simpl. split.
    + intros s. case_match; [done|]. intros [= <-]. apply truncate_chars_count.
    + intros n. case_match; [done|]. intros [= <-]. lia.
Qed.

(** ** The calls of a well-formed stream *)

(** The call a piece belongs to, and the calls of a stream in the order in which
    they appear. *)
Definition call_of (p : Piece) : Z * Z := (pc_choice p, default 0%Z (pc_index p)).
Definition calls (ps : list Piece) : list (Z * Z) :=
  foldl (λ l p, if decide (call_of p ∈ l) then l else (l ++ [call_of p])%list) [] ps.
Definition pieces_of (call : Z * Z) (ps : list Piece) : list Piece := filter (λ p, call_of p = call) ps.
Definition first_of {A} (f : Piece → option A) (ps : list Piece) : option A := head (omap f ps).
Fixpoint joined (ps : list Piece) : string :=
  match ps with [] => "" | p :: ps => default "" (pc_arguments p) ++ joined ps end.

(** Every piece has the index of its call, an identifier names one call of its
    choice, and nothing exceeds its limit. *)
Record well_formed (ps : list Piece) : Prop := mkWellFormed {
  wf_indexed : ∀ p, p ∈ ps → is_Some (pc_index p);
  wf_ids : ∀ p q id, p ∈ ps → q ∈ ps → pc_choice p = pc_choice q → pc_id p = Some id → pc_id q = Some id → pc_index p = pc_index q;
  wf_few : (length (calls ps) ≤ MAX_OBSERVED_CHAT_STREAM_TOOL_CALLS)%nat;
  wf_fits : ∀ call, (count_chars (joined (pieces_of call ps)) < MAX_CHAT_STREAM_ARGUMENT_CHARS_PER_TOOL)%nat
}.

(** A draft that holds what the pieces of a call say. *)
Record drafted (ps : list Piece) (call : Z * Z) (d : Draft) : Prop := mkDrafted {
  dr_choice : df_choice_index d = call.1;
  dr_index : df_tool_call_index d = Some call.2;
  dr_id : df_tool_call_id d = first_of pc_id (pieces_of call ps);
  dr_name : df_tool_name d = first_of pc_name (pieces_of call ps);
  dr_type : df_tool_type d = first_of pc_type (pieces_of call ps);
  dr_arguments : df_arguments d = joined (pieces_of call ps);
  dr_whole : df_arguments_truncated d = false;
  dr_count : df_chunk_count d = Z.min u32_max (Z.of_nat (length (pieces_of call ps)))
}.

Record represents (ps : list Piece) (s : ChatStream) : Prop := mkRepresents {
  rp_drafts : Forall2 (drafted ps) (calls ps) (cs_drafts s);
  rp_indexed : ∀ c i k, cs_indexes s !! Indexed c i = Some k ↔ calls ps !! k = Some (c, i);
  rp_named : ∀ c id k, cs_indexes s !! ProviderId c id = Some k →
    ∃ p, p ∈ ps ∧ pc_choice p = c ∧ pc_id p = Some id ∧ calls ps !! k = Some (call_of p)
}.

Lemma calls_add_one ps p : calls (ps ++ [p])%list = if decide (call_of p ∈ calls ps) then calls ps else (calls ps ++ [call_of p])%list.
Proof. by rw /calls foldl_app. Qed.

Lemma calls_NoDup ps : NoDup (calls ps).
Proof.
  induction ps as [|p ps IH] using rev_ind; [apply NoDup_nil_2|]. rw calls_add_one. case_decide; [done|]. apply NoDup_app.
  split; [done|]. split; [set_solver|apply NoDup_singleton].
Qed.

Lemma elem_of_calls ps p : p ∈ ps → call_of p ∈ calls ps.
Proof.
  induction ps as [|q ps IH] using rev_ind; [by intros ?%not_elem_of_nil|]. rw calls_add_one elem_of_app list_elem_of_singleton.
  intros [H| ->]; case_decide; rw ?elem_of_app ?list_elem_of_singleton; auto.
Qed.

Lemma calls_prefix ps qs : calls ps `prefix_of` calls (ps ++ qs)%list.
Proof.
  induction qs as [|q qs IH] using rev_ind; [by rw app_nil_r|]. rw app_assoc calls_add_one. case_decide; [done|].
  by apply prefix_app_r.
Qed.

Lemma pieces_of_app call ps qs : pieces_of call (ps ++ qs)%list = (pieces_of call ps ++ pieces_of call qs)%list.
Proof. apply filter_app. Qed.

Lemma pieces_of_one call p : pieces_of call [p] = if decide (call_of p = call) then [p] else [].
Proof. rw /pieces_of filter_cons filter_nil. by case_decide. Qed.

Lemma first_of_snoc {A} (f : Piece → option A) ps p : first_of f (ps ++ [p])%list = or_else (first_of f ps) (f p).
Proof. rw /first_of omap_app. destruct (omap f ps); simpl; [by destruct (f p)|done]. Qed.

Lemma joined_app ps qs : joined (ps ++ qs)%list = joined ps ++ joined qs.
Proof. induction ps as [|p ps IH]; [done|]. simpl. by rw IH str_app_assoc. Qed.

Lemma well_formed_app ps qs : well_formed (ps ++ qs)%list → well_formed ps.
Proof.
  intros [H1 H2 H3 H4]. split.
  - intros p Hp. apply H1, elem_of_app. by left.
  - intros p q id Hp Hq. apply H2; apply elem_of_app; by left.
  - etrans; [|exact H3]. apply prefix_length, calls_prefix.
  - intros call. specialize (H4 call). rw pieces_of_app joined_app count_chars_app in H4. lia.
Qed.

Lemma first_of_Some {A} (f : Piece → option A) ps a : first_of f ps = Some a → ∃ p, p ∈ ps ∧ f p = Some a.
Proof. rw /first_of. by intros (p & Hp & Ha)%head_Some_elem_of%list_elem_of_omap; exists p. Qed.

(** A piece of the call that is added to its draft. *)
Lemma drafted_add ps p done_seen d : well_formed (ps ++ [p])%list → drafted ps (call_of p) d →
  drafted (ps ++ [p])%list (call_of p) (add_piece done_seen p d).
Proof.
  intros wf [H1 H2 H3 H4 H5 H6 H7 H8]. pose proof (wf_fits _ wf (call_of p)) as Hf.
  rw pieces_of_app pieces_of_one decide_True // joined_app count_chars_app /= str_app_nil_r in Hf.
  split; rw ?pieces_of_app ?pieces_of_one ?decide_True // ?first_of_snoc /=; rw ?H2 ?H3 ?H4 ?H5 //.
  - rw joined_app /= str_app_nil_r -H6. destruct (pc_arguments p) as [a|]; simpl in *; [|by rw str_app_nil_r].
    rw /append_chat_stream_arguments H6. case_match eqn:E; [apply Nat.leb_le in E; lia|]. simpl. rw take_chars_short //. lia.
  - destruct (pc_arguments p) as [a|]; simpl in *; [|done]. rw /append_chat_stream_arguments H6.
    case_match eqn:E; [apply Nat.leb_le in E; lia|]. simpl. rw H7 /=. apply Nat.ltb_ge. lia.
  - rw H8 length_app /=. lia.
Qed.

Lemma drafted_new ps p done_seen : well_formed (ps ++ [p])%list → pieces_of (call_of p) ps = [] →
  drafted (ps ++ [p])%list (call_of p) (add_piece done_seen p (new_draft p)).
Proof.
  intros wf Hn. pose proof (wf_fits _ wf (call_of p)) as Hf.
  rw pieces_of_app pieces_of_one decide_True // Hn /= str_app_nil_r in Hf.
  destruct (wf_indexed _ wf p) as [i Hi]; [set_solver|].
  split; rw ?pieces_of_app ?pieces_of_one ?decide_True // ?Hn /=; rw /call_of /= ?Hi //.
  - rw /first_of /=. by destruct (pc_id p).
  - rw /first_of /=. by destruct (pc_name p).
  - rw /first_of /=. by destruct (pc_type p).
  - rw str_app_nil_r. destruct (pc_arguments p) as [a|]; [|done]. simpl in Hf.
    rw /append_chat_stream_arguments /new_draft. cbn [df_arguments count_chars]. case_match eqn:E; [done|].
    cbn [fst]. rw take_chars_short //. lia.
  - destruct (pc_arguments p) as [a|]; [|done]. simpl in Hf.
    rw /append_chat_stream_arguments /new_draft. cbn [df_arguments df_arguments_truncated count_chars]. case_match eqn:E; [done|].
    cbn [snd orb]. apply Nat.ltb_ge. lia.
Qed.

Lemma drafted_other ps p call d : call_of p ≠ call → drafted ps call d → drafted (ps ++ [p])%list call d.
Proof.
  intros Hne [H1 H2 H3 H4 H5 H6 H7 H8].
  split; rw ?pieces_of_app ?pieces_of_one ?decide_False // ?app_nil_r //.
Qed.

Section step.
Context (ps : list Piece) (p : Piece) (s : ChatStream) (done_seen : bool) (i : Z).
Context (wf : well_formed (ps ++ [p])%list) (rp : represents ps s) (index_p : pc_index p = Some i).
Abbreviation keys := (chat_stream_tool_keys (pc_choice p) (pc_index p) (pc_id p)).
Abbreviation found := (find_chat_stream_draft_index (cs_indexes s) (cs_drafts s) keys (pc_choice p) (pc_index p) (pc_id p) (pc_name p)).

Lemma call_of_p : call_of p = (pc_choice p, i).
Proof using index_p. by rw /call_of index_p. Qed.

(** An identifier the piece carries is known for its own call only. *)
Lemma own_id id q : pc_id p = Some id → q ∈ ps → pc_choice q = pc_choice p → pc_id q = Some id → call_of q = call_of p.
Proof using wf.
  intros Hp Hq Hc Hid. clear rp index_p. rw /call_of Hc (wf_ids _ wf q p id) //; apply elem_of_app; [by left|right; by left].
Qed.

Lemma found_known k : calls ps !! k = Some (call_of p) → found = Some k.
Proof using index_p rp.
  rw call_of_p. intros H. rw /find_chat_stream_draft_index /chat_stream_tool_keys index_p /=. by apply (rp_indexed _ _ rp) in H as ->.
Qed.

Lemma not_drafted d : call_of p ∉ calls ps → d ∈ cs_drafts s →
  df_tool_call_index d ≠ None ∧ (df_choice_index d = pc_choice p → df_tool_call_index d ≠ Some i ∧ ∀ id, pc_id p = Some id → df_tool_call_id d ≠ Some id).
Proof using All.
  intros Hn (k & Hk)%list_elem_of_lookup. destruct (Forall2_lookup_r _ _ _ _ _ (rp_drafts _ _ rp) Hk) as (call & Hc & [H1 H2 H3 _ _ _ _ _]).
  assert (Hne : call ≠ call_of p) by (intros ->; destruct Hn; by eapply list_elem_of_lookup_2).
  rw H2. split; [done|]. rw H1. intros Hch. split.
  - intros [= He]. destruct Hne. rw call_of_p -He -Hch. by destruct call.
  - intros id Hid. rw H3. intros (q & Hq & Hqid)%first_of_Some. apply list_elem_of_filter in Hq as [Hcall Hq]. destruct Hne. rw -Hcall.
    apply (own_id id); try done. by rw -Hch -Hcall.
Qed.

Lemma found_unknown : call_of p ∉ calls ps → found = None.
Proof using All.
  intros Hn. rw /find_chat_stream_draft_index. destruct (head _) as [k|] eqn:Hh.
  - exfalso. apply head_Some_elem_of, list_elem_of_omap in Hh as (key & Hkey & Hl).
    apply in_keys in Hkey as [(n & Hn' & ->)|(id & Hid & ->)].
    + apply (rp_indexed _ _ rp) in Hl. apply Hn. rw /call_of Hn'. by eapply list_elem_of_lookup_2.
    + apply (rp_named _ _ rp) in Hl as (q & Hq & Hc & Hqid & _). apply Hn. rw -(own_id id q) //. by apply elem_of_calls.
  - assert (Hd := λ d, not_drafted d Hn). rw index_p. destruct (pc_id p) as [id|] eqn:Eid.
    + apply position_None. intros d Hin. destruct (Hd d Hin) as [_ H]. rw /same_choice. destruct (Z.eqb_spec (df_choice_index d) (pc_choice p)) as [Hc|]; [|done].
      destruct (H Hc) as [H1 H2]. rw /index_is /id_is bool_decide_false // bool_decide_false //. by apply H2.
    + rw position_None.
      * apply unique_from_None. intros d Hin. destruct (Hd d Hin) as [H _]. by rw (bool_decide_false (df_tool_call_index d = None)) // andb_false_r.
      * intros d Hin. destruct (Hd d Hin) as [_ H]. rw /same_choice. destruct (Z.eqb_spec (df_choice_index d) (pc_choice p)) as [Hc|]; [|done].
        destruct (H Hc) as [H1 _]. by rw /index_is bool_decide_false.
Qed.

(** The indexes after the piece was put into the draft of its call. *)
Lemma put_represents drafts k : Forall2 (drafted (ps ++ [p])%list) (calls (ps ++ [p])%list) (alter (add_piece done_seen p) k drafts) →
  calls (ps ++ [p])%list !! k = Some (call_of p) →
  represents (ps ++ [p])%list (put s done_seen p drafts k).
Proof using All.
  intros Hd Hk. assert (Hmono : ∀ k c, calls ps !! k = Some c → calls (ps ++ [p])%list !! k = Some c).
  { intros k' c Hc. by eapply prefix_lookup_Some, calls_prefix. }
  split; [exact Hd| |].
  - intros c n j. rw /put /= lookup_register. case_decide as Hin.
    + apply in_keys in Hin as [(m & Hm & He)|(t & _ & He)]; [|done]. injection He as -> ->.
      assert (Hcall : call_of p = (pc_choice p, m)) by by rw /call_of Hm. rw -Hcall. split; [by intros [= <-]|].
      intros Hj. f_equal. by eapply NoDup_lookup; [apply (calls_NoDup (ps ++ [p]))| |].
    + rw (rp_indexed _ _ rp). split; [apply Hmono|]. rw calls_add_one. case_decide; [done|].
      intros [Hj|[_ Hj]]%lookup_app_Some; [done|]. apply list_lookup_singleton_Some in Hj as [_ Hj]. destruct Hin.
      apply in_keys. left. exists n. rw call_of_p in Hj. injection Hj as -> ->. by rw index_p.
  - intros c id j. rw /put /= lookup_register. case_decide as Hin.
    + intros [= <-]. apply in_keys in Hin as [(m & _ & He)|(t & Ht & He)]; [done|]. injection He as -> ->.
      exists p. rw elem_of_app list_elem_of_singleton. auto.
    + intros (q & Hq & Hc & Hid & Hcall)%(rp_named _ _ rp). exists q. rw elem_of_app. auto.
Qed.

Lemma piece_represents : represents (ps ++ [p])%list (on_piece done_seen p s).
Proof using All.
  assert (Hkeys : keys ≠ []) by by rw /chat_stream_tool_keys index_p.
  pose proof (Forall2_length _ _ _ (rp_drafts _ _ rp)) as Hlen. pose proof (wf_few _ wf) as Hfew. rw calls_add_one in Hfew.
  destruct (decide (call_of p ∈ calls ps)) as [Hin|Hn].
  - apply list_elem_of_lookup in Hin as [k Hk]. pose proof (found_known k Hk) as Hf.
    destruct (on_piece_cases done_seen p s) as [[[Hx|[Hx _]] _]|[(_ & k' & Hx & ->)|(_ & Hx & _)]]; try congruence.
    rw Hf in Hx. injection Hx as <-. assert (Hc : calls (ps ++ [p])%list = calls ps) by (rw calls_add_one decide_True //; by eapply list_elem_of_lookup_2).
    apply put_represents; rw Hc //. apply Forall2_same_length_lookup_2; [by rw length_alter|]. intros j call d Hj Hd.
    destruct (decide (j = k)) as [->|Hne].
    + rw list_lookup_alter decide_True // in Hd. apply fmap_Some in Hd as (d0 & Hd0 & ->). rw Hk in Hj. injection Hj as <-.
      apply drafted_add; [done|]. by eapply (Forall2_lookup_lr _ _ _ _ _ _ (rp_drafts _ _ rp)).
    + rw list_lookup_alter_ne // in Hd. apply drafted_other; [|by eapply (Forall2_lookup_lr _ _ _ _ _ _ (rp_drafts _ _ rp))].
      intros He. apply Hne. rw -He in Hj. by eapply NoDup_lookup; [apply (calls_NoDup ps)| |].
  - pose proof (found_unknown Hn) as Hf. rw length_app /= in Hfew.
    destruct (on_piece_cases done_seen p s) as [[[Hx|[_ Hx]] _]|[(_ & k' & Hx & _)|(_ & _ & _ & ->)]]; [congruence|lia|congruence|].
    assert (Hc : calls (ps ++ [p])%list = (calls ps ++ [call_of p])%list) by rw calls_add_one decide_False //.
    apply put_represents; rw Hc.
    + rw alter_app_r_alt // Nat.sub_diag /=. apply Forall2_app.
      * pose proof (rp_drafts _ _ rp) as H. apply Forall2_same_length_lookup_2; [done|]. intros j call d Hj Hd.
        apply drafted_other; [|by eapply (Forall2_lookup_lr _ _ _ _ _ _ H)]. intros He. apply Hn. rw He. by eapply list_elem_of_lookup_2.
      * constructor; [|done]. apply drafted_new; [done|]. destruct (pieces_of (call_of p) ps) as [|q l] eqn:E; [done|]. destruct Hn.
        assert (Hq : q ∈ pieces_of (call_of p) ps) by (rw E; left). apply list_elem_of_filter in Hq as [<- Hq]. by apply elem_of_calls.
    + by rw -Hlen lookup_app_r // Nat.sub_diag.
Qed.
End step.

Lemma pieces_represent done_seen qs : ∀ ps s, well_formed (ps ++ qs)%list → represents ps s →
  represents (ps ++ qs)%list (foldl (λ s p, on_piece done_seen p s) s qs).
Proof.
  induction qs as [|q qs IH]; intros ps s wf rp; simpl; [by rw app_nil_r|]. rw (cons_middle q ps qs) app_assoc in wf *.
  destruct (wf_indexed _ wf q) as [i Hi]; [apply elem_of_app; left; apply elem_of_app; right; by left|]. apply IH; [done|]. apply (piece_represents ps q s done_seen i); try done.
  by apply (well_formed_app _ qs).
Qed.

Lemma finish_represents ps c reason s : represents ps s → represents ps (on_finish c reason s).
Proof.
  intros [H1 H2 H3]. split; [|done..]. simpl. apply Forall2_fmap_r. eapply Forall2_impl; [exact H1|].
  intros call d [D1 D2 D3 D4 D5 D6 D7 D8]. rw /compose /finish_draft. by case_match.
Qed.

(** The pieces in a frame, and in a list of frames. *)
Definition frame_pieces (value : Value) : list Piece :=
  match get "choices" value ≫= as_array with
  | None => []
  | Some choices =>
      flat_map (λ c, match choice_index_of c.1 c.2 with Some choice_index => choice_pieces choice_index c.2 | None => [] end)
        (imap pair choices)
  end.

Lemma frame_represents value done_seen ps s : well_formed (ps ++ frame_pieces value)%list → represents ps s →
  represents (ps ++ frame_pieces value)%list (observe_chat_completion_stream_frame value done_seen s).
Proof.
  rw /frame_pieces /observe_chat_completion_stream_frame. case_match; [|by rw app_nil_r]. generalize (imap pair l) as cs. intros cs.
  revert ps s. induction cs as [|[n choice] cs IH]; intros ps s wf rp; [by rw app_nil_r|]. cbn [foldl flat_map fst snd] in *.
  rw app_assoc in wf *. apply IH; [done|]. apply well_formed_app in wf. rw /on_choice. destruct (choice_index_of n choice) as [c|]; [|by rw app_nil_r].
  pose proof (pieces_represent done_seen _ _ _ wf rp) as H'. by case_match; [apply finish_represents|].
Qed.

Section stream.
Context (from_str : string → option Value) (to_string : Value → string) (sha256_hex : string → string).

Definition pieces_in (frame : string) : list Piece :=
  if is_empty (trim frame) || (trim frame =? "[DONE]") then []
  else match from_str (trim frame) with None => [] | Some value => frame_pieces value end.

(** The pieces of calls in all the frames of a body. *)
Definition stream_pieces (body : string) : list Piece := flat_map pieces_in (parse_sse_data_frames body).

Lemma frames_represent frames : ∀ ps st, well_formed (ps ++ flat_map pieces_in frames)%list → represents ps st.1 →
  represents (ps ++ flat_map pieces_in frames)%list (foldl (on_frame from_str) st frames).1.
Proof.
  induction frames as [|frame frames IH]; intros ps st wf rp; [by rw app_nil_r|]. cbn [foldl flat_map] in *. rw app_assoc in wf *.
  apply IH; [done|]. apply well_formed_app in wf. rw /pieces_in /on_frame in wf *.
  destruct (is_empty (trim frame)); [by rw app_nil_r|]. destruct (trim frame =? "[DONE]"); [by rw app_nil_r|].
  cbn [orb] in *. destruct (from_str (trim frame)) as [value|]; [by apply frame_represents|by rw app_nil_r].
Qed.

Lemma nothing_represented : represents [] no_drafts.
Proof. split; [constructor| |done]. intros c i k. by rw /= lookup_empty. Qed.

(** What is reported of a call. *)
Definition reports (ps : list Piece) (call : Z * Z) (o : ObservedStreamCall) : Prop :=
  let mine := pieces_of call ps in
  let arguments := joined mine in
  so_choice_index o = call.1 ∧ so_tool_call_index o = Some call.2 ∧
  so_tool_call_id o = first_of pc_id mine ∧ so_tool_name o = first_of pc_name mine ∧ so_tool_type o = first_of pc_type mine ∧
  so_arguments_truncated o = false ∧ so_chunk_count o = Z.min u32_max (Z.of_nat (length mine)) ∧
  if is_empty arguments then so_arguments_hash o = None ∧ so_arguments_summary o = None
  else so_arguments_hash o = Some (sha256_hex arguments) ∧
       so_arguments_summary o = Some (summarize_arguments from_str to_string arguments) ∧
       so_arguments_valid_json o = Some (bool_decide (is_Some (from_str arguments))).

Lemma draft_reported ps call d request_id : drafted ps call d → reports ps call (observed_chat_stream_tool_call from_str to_string sha256_hex request_id d).
Proof.
  intros [H1 H2 H3 H4 H5 H6 H7 H8]. rw /reports /observed_chat_stream_tool_call /= H6. split_and!; try done. by case_match.
Qed.
End stream.

(** C36 (refinement). The calls reported for a chat stream are the calls of the
    stream: when every piece of a call carries its index and an identifier is not
    used for two calls, there is one report for each call, in the order in which
    the calls appeared, with the identifier, the name and the type that were given
    first, the number of pieces, and the hash and the summary of all the pieces of
    its arguments put together.  This is for a body of at most a mebibyte and at
    most 128 frames, with at most 16 calls, each with fewer than 16384 characters
    of arguments; beyond the frames the rest of a stream is ignored
    ([late_frames_are_ignored]). *)
Theorem observed_calls_are_the_streams_calls from_str to_string sha256_hex request_id body :
  (N.of_nat (len body) ≤ MAX_OBSERVER_BODY_BYTES)%N →
  (length (parse_sse_data_frames body) ≤ MAX_CHAT_STREAM_FRAMES)%nat →
  well_formed (stream_pieces from_str body) →
  Forall2 (reports from_str to_string sha256_hex (stream_pieces from_str body)) (calls (stream_pieces from_str body))
    (observe_chat_completion_stream_tool_calls from_str to_string sha256_hex request_id body).
Proof.
  intros Hl Hfr wf. rw /observe_chat_completion_stream_tool_calls /too_large. destruct (N.ltb_spec MAX_OBSERVER_BODY_BYTES (N.of_nat (len body))); [lia|].
  rw (take_ge (parse_sse_data_frames body)); [|done].
  pose proof (frames_represent from_str (parse_sse_data_frames body) [] (no_drafts, false) wf nothing_represented) as rp.
  set (st := foldl _ _ _) in *. cbv zeta. pose proof (rp_drafts _ _ rp) as Hd. pose proof (Forall2_length _ _ _ Hd) as Hlen.
  pose proof (wf_few _ wf) as Hf. rw take_ge; [|by rw -Hlen]. apply Forall2_fmap_r. eapply Forall2_impl; [exact Hd|].
  intros call d [H1 H2 H3 H4 H5 H6 H7 H8]. rw /compose. by apply draft_reported.
Qed.

(** What follows the first 128 frames changes nothing in what is reported: a
    call whose arguments go on there is reported with the hash of their beginning,
    and not as truncated. *)
Lemma late_frames_are_ignored from_str to_string sha256_hex request_id body body' :
  (N.of_nat (len body) ≤ MAX_OBSERVER_BODY_BYTES)%N → (N.of_nat (len body') ≤ MAX_OBSERVER_BODY_BYTES)%N →
  take MAX_CHAT_STREAM_FRAMES (parse_sse_data_frames body) = take MAX_CHAT_STREAM_FRAMES (parse_sse_data_frames body') →
  observe_chat_completion_stream_tool_calls from_str to_string sha256_hex request_id body
  = observe_chat_completion_stream_tool_calls from_str to_string sha256_hex request_id body'.
Proof.
  intros Hl Hl' Hf. rw /observe_chat_completion_stream_tool_calls /too_large.
  destruct (N.ltb_spec MAX_OBSERVER_BODY_BYTES (N.of_nat (len body))); [lia|].
  destruct (N.ltb_spec MAX_OBSERVER_BODY_BYTES (N.of_nat (len body'))); [lia|]. by rw Hf.
Qed.

(** A call of the weather in two pieces, and one without arguments beside it. *)
Definition sample_call (index : Z) (fields : list (string * Value)) : Value := Object (("index", num index) :: fields).
Definition sample_chunk (calls : list Value) : Value :=
  Object [("choices", Array [Object [("index", num 0); ("delta", Object [("tool_calls", Array calls)])]])].
Definition sample_reader (s : string) : option Value :=
  if s =? "first" then Some (sample_chunk [
    sample_call 1 [("id", Str "call_7"); ("type", Str "function");
                   ("function", Object [("name", Str "weather"); ("arguments", Str "{")])];
    sample_call 0 [("id", Str "call_8"); ("function", Object [("name", Str "time")])]])
  else if s =? "second" then Some (sample_chunk [sample_call 1 [("function", Object [("arguments", Str "}")])]])
  else if s =? "{}" then Some (Object []) else None.
Definition sample_line (s : string) : string := "data: " ++ s ++ String newline (String newline "").
Definition sample_body : string := sample_line "first" ++ sample_line "second" ++ sample_line "[DONE]".

Definition sample_pieces : list Piece :=
  [mkPiece 0 (Some 1%Z) (Some "call_7") (Some "weather") (Some "function") (Some "{") None;
   mkPiece 0 (Some 0%Z) (Some "call_8") (Some "time") None None None;
   mkPiece 0 (Some 1%Z) None None None (Some "}") None].

Lemma sample_well_formed : well_formed sample_pieces.
Proof.
  split.
  - intros p [<-|[<-|[<-|[]]]]%list_elem_of_In; by eexists.
  - intros p q id [<-|[<-|[<-|[]]]]%list_elem_of_In [<-|[<-|[<-|[]]]]%list_elem_of_In _; simpl; congruence.
  - by vm_compute; lia.
  - intros call. rw /pieces_of /sample_pieces !filter_cons filter_nil. apply Nat.ltb_lt.
    repeat case_decide; by vm_compute.
Qed.

Lemma observed_calls_are_the_streams_calls_witness :
  stream_pieces sample_reader sample_body = sample_pieces ∧ calls sample_pieces = [(0, 1); (0, 0)]%Z ∧
  Forall2 (reports sample_reader (λ _, "{}") id sample_pieces) [(0, 1); (0, 0)]%Z
    (observe_chat_completion_stream_tool_calls sample_reader (λ _, "{}") id "r" sample_body).
Proof.
  assert (Hp : stream_pieces sample_reader sample_body = sample_pieces) by (by vm_compute).
  assert (Hc : calls sample_pieces = [(0, 1); (0, 0)]%Z) by (by vm_compute). split; [done|]. split; [done|].
  rw -Hc -Hp. apply observed_calls_are_the_streams_calls; [by vm_compute|by apply Nat.leb_le; vm_compute|]. rw Hp. apply sample_well_formed.
Defined.

(** ** Events of Responses streams *)

Lemma merge_keeps_key e d : si_idempotency_key (merge_responses_stream_duplicate e d) = si_idempotency_key e.
Proof. rw /merge_responses_stream_duplicate. by destruct (si_kind e), (si_kind d). Qed.

Section items.
Context (from_str : string → option Value) (to_string : Value → string) (sha256_hex : string → string) (request_id : string).
Abbreviation item_keys := (map si_idempotency_key).
Abbreviation event := (observe_responses_stream_event from_str to_string sha256_hex request_id).

(** The map knows where every item is. *)
Definition located (seen : gmap string nat) (observed : list StreamItem) : Prop :=
  ∀ key i, seen !! key = Some i ↔ item_keys observed !! i = Some key.

Lemma located_NoDup seen observed : located seen observed → NoDup (item_keys observed).
Proof. intros H. apply NoDup_alt. intros i j key Hi%H Hj%H. congruence. Qed.

Lemma alter_keys i d (observed : list StreamItem) :
  item_keys (alter (λ e, merge_responses_stream_duplicate e d) i observed) = item_keys observed.
Proof.
  revert i. induction observed as [|e observed IH]; intros [|i]; simpl; [done..| |]; [by rw merge_keeps_key|]. f_equal. apply IH.
Qed.

Lemma located_snoc seen observed d : located seen observed → seen !! si_idempotency_key d = None →
  located (<[si_idempotency_key d := length observed]> seen) (observed ++ [d])%list.
Proof.
  intros H Hn key i. rw map_app lookup_app. simpl. destruct (decide (key = si_idempotency_key d)) as [->|Hne].
  - rw lookup_insert decide_True //. split.
    + intros [= <-]. rw lookup_ge_None_2 length_map // Nat.sub_diag //.
    + destruct (item_keys observed !! i) eqn:E; [intros [= ->]; apply H in E; congruence|].
      intros Hl. apply lookup_ge_None in E. apply list_lookup_singleton_Some in Hl as [Hl _]. rw length_map in E, Hl. f_equal. lia.
  - rw lookup_insert_ne // H. destruct (item_keys observed !! i) eqn:E; [done|]. split; [done|].
    intros Hl. apply list_lookup_singleton_Some in Hl as [_ Hl]. by destruct Hne.
Qed.

Lemma observe_frames_spec frames : ∀ seen observed, located seen observed →
  (length observed ≤ MAX_OBSERVED_EVENTS_PER_RESPONSE)%nat →
  let r := observe_frames from_str to_string sha256_hex request_id frames seen observed in
  NoDup (item_keys r) ∧ (length r ≤ MAX_OBSERVED_EVENTS_PER_RESPONSE)%nat ∧ item_keys observed ⊆ item_keys r ∧
  ∀ frame d, frame ∈ frames → trim frame ≠ "[DONE]" → from_str frame ≫= event = Some d →
    si_idempotency_key d ∈ item_keys r ∨ length r = MAX_OBSERVED_EVENTS_PER_RESPONSE.
Proof.
  induction frames as [|frame frames IH]; intros seen observed Hl Hn; cbv zeta; cbn [observe_frames].
  - split_and!; [by eapply located_NoDup|done|done|]. by intros frame d ?%not_elem_of_nil.
  - case_match eqn:Hc.
    { apply Nat.leb_le in Hc. split_and!; [by eapply located_NoDup|done|done|]. intros. right. lia. }
    apply Nat.leb_gt in Hc. destruct (trim frame =? "[DONE]") eqn:Hdone.
    { destruct (IH seen observed Hl Hn) as (H1 & H2 & H3 & H4). split_and!; [done..|]. intros f d [->|Hf]%elem_of_cons Hnd; [|by apply H4].
      by apply String.eqb_eq in Hdone. }
    destruct (from_str frame ≫= event) as [draft|] eqn:He.
    + destruct (seen !! si_idempotency_key draft) as [i|] eqn:Hs.
      * destruct (IH seen (alter (λ e, merge_responses_stream_duplicate e draft) i observed)) as (H1 & H2 & H3 & H4).
        { intros key j. rw alter_keys. apply Hl. } { by rw length_alter. }
        rw alter_keys in H3. split_and!; [done..|]. intros f d [->|Hf]%elem_of_cons Hnd Hd; [|by eapply H4].
        left. rw He in Hd. injection Hd as <-. apply H3. apply Hl in Hs. by eapply list_elem_of_lookup_2.
      * destruct (IH _ _ (located_snoc _ _ _ Hl Hs)) as (H1 & H2 & H3 & H4); [rw length_app /=; lia|].
        rw map_app in H3. split_and!; [done..|set_solver|]. intros f d [->|Hf]%elem_of_cons Hnd Hd; [|by eapply H4].
        left. rw He in Hd. injection Hd as <-. apply H3, elem_of_app. right. by left.
    + destruct (IH seen observed Hl Hn) as (H1 & H2 & H3 & H4). split_and!; [done..|].
      intros f d [->|Hf]%elem_of_cons Hnd Hd; [congruence|by eapply H4].
Qed.
End items.

(** The events reported for a Responses stream: no key is reported twice, there
    are at most sixteen, and nothing that is recognised is left out before the
    limit is reached. *)
Theorem responses_stream_items_complete from_str to_string sha256_hex request_id body :
  let r := observe_responses_stream_agent_items from_str to_string sha256_hex request_id body in
  NoDup (map si_idempotency_key r) ∧ (length r ≤ MAX_OBSERVED_EVENTS_PER_RESPONSE)%nat ∧
  (too_large body = false → ∀ frame d, frame ∈ take MAX_RESPONSE_STREAM_EVENTS (parse_sse_data_frames body) → trim frame ≠ "[DONE]" →
   from_str frame ≫= observe_responses_stream_event from_str to_string sha256_hex request_id = Some d →
   si_idempotency_key d ∈ map si_idempotency_key r ∨ length r = MAX_OBSERVED_EVENTS_PER_RESPONSE).
Proof.
  rw /observe_responses_stream_agent_items. destruct (too_large body); [split_and!; [apply NoDup_nil_2|simpl; lia|done]|].
  destruct (observe_frames_spec from_str to_string sha256_hex request_id (take MAX_RESPONSE_STREAM_EVENTS (parse_sse_data_frames body)) ∅ [])
    as (H1 & H2 & _ & H4); [|simpl; lia|]; [|done]. intros key i. by rw lookup_empty.
Qed.

(** What a summary shows of arguments that are JSON: a text found in the value it
    is written from is the mark, or stood at the same place under no sensitive
    key. *)
Theorem summary_is_redacted from_str to_string arguments v : from_str arguments = Some v →
  ∃ w, summarize_arguments from_str to_string arguments = take_chars MAX_ARGUMENTS_SUMMARY_CHARS (to_string w) ∧
  ∀ path s, at_path path w = Some (Str s) → s = "[redacted]" ∨ hidden is_sensitive_key path = false ∧ at_path path v = Some (Str s).
Proof.
  intros H. exists (redact_sensitive_json v). rw /summarize_arguments H. split; [done|]. intros path s Hw.
  apply at_path_redact in Hw as [[= ->]|(Hh & u & Hu & Hs)]; [by left|right]. split; [done|]. destruct u; try done. by injection Hs as ->.
Qed.

(** ** What goes wrong *)

(** Arguments that fill their limit exactly count as cut when an empty piece
    follows, although nothing is missing. *)
Theorem empty_piece_marks_full_arguments d : count_chars (df_arguments d) = MAX_CHAT_STREAM_ARGUMENT_CHARS_PER_TOOL →
  append_chat_stream_arguments d "" = (df_arguments d, true).
Proof. intros H. rw /append_chat_stream_arguments H Nat.leb_refl //. Qed.

(** Two calls of a choice without identifiers that ask for the same thing are
    reported once. *)
Example equal_calls_are_reported_once :
  let call := Object [("function", Object [("name", Str "roll")])] in
  let answer := Object [("choices", Array [Object [("message", Object [("tool_calls", Array [call; call])])]])] in
  length (observe_chat_completion_tool_calls (λ _, Some answer) (λ _, "{}") "") = 1%nat.
Proof. by vm_compute. Qed.

(** A piece with an identifier of another call is taken for a piece of that call,
    whatever its index says. *)
Example shared_identifier_merges_calls :
  let piece index := mkPiece 0 (Some index) (Some "call_1") (Some "f") None (Some "{}") None in
  map df_arguments (cs_drafts (on_piece false (piece 1%Z) (on_piece false (piece 0%Z) no_drafts))) = ["{}{}"].
Proof. by vm_compute. Qed.
