(* ===== verification/AgentLogs.v ===== *)
(** * What is logged of agents

    Models [ai-gateway/src/agent/log_payload.rs], the record an agent event is
    logged as, and of [ai-gateway/src/logger/service.rs] the part that reports
    what it observes in answers: which answers are looked at, the events made from
    what [ToolObserver] finds in them, and the name and the properties a request
    is logged under.  The request and response logs themselves are data that is
    passed on.

    Parameters: [serde_json]'s text of values and numbers, upper-casing, the
    clock and the identifiers. *)

From S2P Require Import Prelude RustStr Json Float64 StepState Headers Provider ModelId AgentContext AgentPolicy ToolCatalog ToolCalls AgentEvents EventAdapter TypedConverter MapperRegistry ToolObserver Auth VirtualKeys.
From Stdlib Require Import Ascii.
Local Open Scope string_scope.

(** ** The payload *)

(* src: ai-gateway/src/agent/log_payload.rs:390-398 NonEmptyString *)
Definition or_non_empty (s : string) : option string := if is_empty s then None else Some s.

(* src: ai-gateway/src/agent/log_payload.rs:400-406 metadata_string *)
Definition metadata_string (metadata : Value) (key : string) : string := default "" (get key metadata ≫= Json.as_str).
(* src: ai-gateway/src/agent/log_payload.rs:408-414 nested_metadata_string *)
Definition nested_metadata_string (metadata : option Value) (key : string) : string :=
  default "" ((metadata ≫= get key) ≫= Json.as_str).
(* src: ai-gateway/src/agent/log_payload.rs:427-429 metadata_u64 *)
Definition metadata_u64 (metadata : Value) (key : string) : option Z := get key metadata ≫= as_u64.
(* src: ai-gateway/src/agent/log_payload.rs:431-433 metadata_bool *)
Definition metadata_bool (metadata : Value) (key : string) : option bool := get key metadata ≫= as_bool.

(* src: ai-gateway/src/agent/log_payload.rs:416-425 policy_decision_string *)
Definition policy_decision_string (metadata : Value) (policy : option Value) : string :=
  default "" (or_else (or_non_empty (nested_metadata_string policy "decision"))
    (or_else (or_non_empty (nested_metadata_string policy "policyDecision")) (or_non_empty (metadata_string metadata "policyDecision")))).

(* src: ai-gateway/src/agent/log_payload.rs:285-298 ToolBillingMirror *)
Record ToolBillingMirror := mkBillingMirror {
  bm_tool_execution_id : string;
  bm_tool_cost_micros : option Z;
  bm_tool_cost_currency : string;
  bm_tool_cost_source : string;
  bm_billing_cost_type : string;
  bm_billing_cost_subtype : string;
  bm_billing_status : string;
  bm_billing_reason : string;
  bm_billing_amount_micros : option Z;
  bm_billing_currency : string;
  bm_billing_billable : option bool;
  bm_billing_dedupe_key : string
}.
Definition no_billing : ToolBillingMirror := mkBillingMirror "" None "" "" "" "" "" "" None "" None "".

(* src: ai-gateway/src/agent/log_payload.rs:301-305 OperationMetadataMirror *)
Record OperationMetadataMirror := mkOperationMirror { om_target_kind : string; om_service_slug : string; om_operation_id : string }.
Definition no_operation : OperationMetadataMirror := mkOperationMirror "" "" "".

Definition object_field (key : string) (v : Value) : option Value :=
  o ← get key v; match o with Object _ => Some o | _ => None end.

(* src: ai-gateway/src/agent/log_payload.rs:381-388 is_trusted_gateway_tool_event *)
Definition is_trusted_gateway_tool_event (e : ToolEvent) : bool :=
  te_billing_mirror_trusted e && bool_decide (te_step_source e = Gateway)
  && match te_source_trust e with GatewayObserved | GatewayExecuted => true | _ => false end.

Definition billing_event_types : list string :=
  ["tool.result.received"; "tool.call.failed"; "tool.call.timeout"; "tool.policy.denied"; "tool.policy.blocked";
   "tool.approval.rejected"; "tool.approval.expired"; "tool.call.replayed"].

(* src: ai-gateway/src/agent/log_payload.rs:366-379 is_gateway_billing_tool_event *)
Definition is_gateway_billing_tool_event (e : ToolEvent) : bool :=
  is_trusted_gateway_tool_event e && existsb (String.eqb (event_type (te_envelope e))) billing_event_types.

(* src: ai-gateway/src/agent/log_payload.rs:307-331 operation_metadata_mirror *)
Definition operation_metadata_mirror (metadata : Value) (trusted : bool) : OperationMetadataMirror :=
  if negb trusted then no_operation
  else
    let gateway := object_field "gateway" metadata in
    let field key := default "" (or_else (or_non_empty (metadata_string metadata key)) (or_non_empty (nested_metadata_string gateway key))) in
    mkOperationMirror (field "targetKind") (field "serviceSlug") (field "operationId").

(* src: ai-gateway/src/agent/log_payload.rs:333-364 tool_billing_mirror *)
Definition tool_billing_mirror (e : ToolEvent) (metadata : Value) : ToolBillingMirror :=
  if negb (is_gateway_billing_tool_event e) then no_billing
  else
    let tool_execution_id := metadata_string metadata "toolExecutionId" in
    if is_empty tool_execution_id then no_billing
    else match object_field "billing" metadata with
         | None => no_billing
         | Some billing =>
             mkBillingMirror tool_execution_id (metadata_u64 metadata "toolCostMicros") (metadata_string metadata "toolCostCurrency")
               (metadata_string billing "pricingSource") (metadata_string billing "costType") (metadata_string billing "costSubtype")
               (metadata_string billing "status") (metadata_string billing "reason") (metadata_u64 billing "amountMicros")
               (metadata_string billing "currency") (metadata_bool billing "billable") (metadata_string billing "dedupeKey")
         end.

(* src: ai-gateway/src/agent/log_payload.rs:14-143 AgentEventLogPayload *)
Record AgentEventLogPayload := mkPayload {
  lp_version : string;
  lp_event_id : string;
  lp_workspace_id : string;
  lp_workspace_type : string;
  lp_user_id : string;
  lp_virtual_key_id : string;
  lp_entity_type : string;
  lp_entity_id : string;
  lp_entity_name : string;
  lp_alephant_agent_id : string;
  lp_alephant_agent_name : string;
  lp_alephant_agent_name_source : string;
  lp_alephant_agent_trust_level : string;
  lp_alephant_run_id : string;
  lp_alephant_step_id : string;
  lp_alephant_parent_step_id : string;
  lp_alephant_graph_node : string;
  lp_tool_call_id : string;
  lp_handoff_id : string;
  lp_tool_name : string;
  lp_tool_execution_id : string;
  lp_billing : ToolBillingMirror;       (* [tool_cost_micros] to [billing_dedupe_key] *)
  lp_operation : OperationMetadataMirror;
  lp_event_type : string;
  lp_event_source : string;
  lp_event_phase : string;
  lp_policy_stage : string;
  lp_policy_mode : string;
  lp_event_source_trust : string;
  lp_observed_at : Z;
  lp_event_time : option Z;
  lp_sequence : option Z;
  lp_step_kind : string;
  lp_step_source : string;
  lp_step_confidence : string;
  lp_agent_trust_level : string;
  lp_context_conflict : bool;
  lp_step_id_conflict : bool;
  lp_attempt : option Z;
  lp_input_hash : string;
  lp_status : string;
  lp_severity : string;
  lp_message : string;
  lp_duration_ms : option Z;
  lp_latency_ms : option Z;
  lp_request_id : string;
  lp_model : string;
  lp_provider : string;
  lp_cost : option f64;
  lp_policy_allowed : option bool;
  lp_policy_decision : string;
  lp_policy_reason : string;
  lp_policy_blocked_by : string;
  lp_policy_id : string;
  lp_policy_scope : string;
  lp_policy_snapshot_revision : option Z;
  lp_sink_status : string;
  lp_metadata : string
}.

Section payload.
(** [Value::as_i64] and [Value::as_f64] on a number's text, and the JSON writer. *)
Context (as_i64 : string → option Z) (as_f64 : string → option f64) (to_string : Value → string).

(* src: ai-gateway/src/agent/log_payload.rs:435-437 metadata_f64 *)
Definition metadata_f64 (metadata : Value) (key : string) : option f64 :=
  match get key metadata with Some (Number t) => as_f64 t | _ => None end.

(* src: ai-gateway/src/agent/log_payload.rs:153-262 from_envelope *)
Definition from_envelope (e : ToolEvent) : AgentEventLogPayload :=
  let v := te_envelope e in
  let m := AgentPolicy.metadata v in
  let policy := get "policy" m in
  let trusted := is_trusted_gateway_tool_event e in
  let billing := tool_billing_mirror e m in
  {| lp_version := te_version e;
     lp_event_id := event_id v;
     lp_workspace_id := te_workspace_id e;
     lp_workspace_type := "";
     lp_user_id := "";
     lp_virtual_key_id := default "" (te_virtual_key_id e);
     lp_entity_type := "";
     lp_entity_id := "";
     lp_entity_name := "";
     lp_alephant_agent_id := default "" (or_else (envelope_agent_uid v) (envelope_agent_id_external v));
     lp_alephant_agent_name := default "" (te_agent_name e);
     lp_alephant_agent_name_source := default "" (te_agent_name_source e);
     lp_alephant_agent_trust_level := default "" (te_agent_trust_level e);
     lp_alephant_run_id := default "" (envelope_run_id v);
     lp_alephant_step_id := default "" (envelope_step_id v);
     lp_alephant_parent_step_id := default "" (te_parent_step_id e);
     lp_alephant_graph_node := default "" (te_graph_node e);
     lp_tool_call_id := default "" (envelope_tool_call_id v);
     lp_handoff_id := default "" (te_handoff_id e);
     lp_tool_name := default (default "" (envelope_name v)) (or_non_empty (metadata_string m "tool_name"));
     lp_tool_execution_id := default "" (or_else (or_non_empty (bm_tool_execution_id billing))
                               (if trusted then or_non_empty (metadata_string m "toolExecutionId") else None));
     lp_billing := billing;
     lp_operation := operation_metadata_mirror m trusted;
     lp_event_type := event_type v;
     lp_event_source := as_str (te_source e);
     lp_event_phase := as_str (te_phase e);
     lp_policy_stage := as_str (policy_stage v);
     lp_policy_mode := as_str (te_policy_mode e);
     lp_event_source_trust := as_str (te_source_trust e);
     lp_observed_at := te_observed_at e;
     lp_event_time := Some (default (te_observed_at e) (te_timestamp e));
     lp_sequence := te_sequence e;
     lp_step_kind := from_option as_str "" (envelope_step_kind v);
     lp_step_source := as_str (te_step_source e);
     lp_step_confidence := as_str (te_step_confidence e);
     lp_agent_trust_level := trust_level_as_str (te_trust_level e);
     lp_context_conflict := te_context_conflict e;
     lp_step_id_conflict := te_step_id_conflict e;
     lp_attempt := te_attempt e;
     lp_input_hash := default "" (te_input_hash e);
     lp_status := metadata_string m "status";
     lp_severity := metadata_string m "severity";
     lp_message := metadata_string m "message";
     lp_duration_ms := metadata_u64 m "duration_ms";
     lp_latency_ms := metadata_u64 m "latency_ms";
     lp_request_id := metadata_string m "request_id";
     lp_model := metadata_string m "model";
     lp_provider := metadata_string m "provider";
     lp_cost := metadata_f64 m "cost";
     lp_policy_allowed := (policy ≫= get "allowed") ≫= as_bool;
     lp_policy_decision := policy_decision_string m policy;
     lp_policy_reason := nested_metadata_string policy "reason";
     lp_policy_blocked_by := nested_metadata_string policy "blocked_by";
     lp_policy_id := nested_metadata_string policy "policy_id";
     lp_policy_scope := nested_metadata_string policy "policy_scope";
     lp_policy_snapshot_revision := match policy ≫= get "snapshot_revision" with Some (Number t) => as_i64 t | _ => None end;
     lp_sink_status := metadata_string m "sinkStatus";
     lp_metadata := to_string m |}.

Definition with_auth (workspace_type user_id entity_type entity_id entity_name agent_id trust : string) (p : AgentEventLogPayload)
  : AgentEventLogPayload :=
  mkPayload (lp_version p) (lp_event_id p) (lp_workspace_id p) workspace_type user_id (lp_virtual_key_id p) entity_type entity_id
    entity_name agent_id (lp_alephant_agent_name p) (lp_alephant_agent_name_source p) (lp_alephant_agent_trust_level p)
    (lp_alephant_run_id p) (lp_alephant_step_id p) (lp_alephant_parent_step_id p) (lp_alephant_graph_node p) (lp_tool_call_id p)
    (lp_handoff_id p) (lp_tool_name p) (lp_tool_execution_id p) (lp_billing p) (lp_operation p) (lp_event_type p)
    (lp_event_source p) (lp_event_phase p) (lp_policy_stage p) (lp_policy_mode p) (lp_event_source_trust p) (lp_observed_at p)
    (lp_event_time p) (lp_sequence p) (lp_step_kind p) (lp_step_source p) (lp_step_confidence p) trust (lp_context_conflict p)
    (lp_step_id_conflict p) (lp_attempt p) (lp_input_hash p) (lp_status p) (lp_severity p) (lp_message p) (lp_duration_ms p)
    (lp_latency_ms p) (lp_request_id p) (lp_model p) (lp_provider p) (lp_cost p) (lp_policy_allowed p) (lp_policy_decision p)
    (lp_policy_reason p) (lp_policy_blocked_by p) (lp_policy_id p) (lp_policy_scope p) (lp_policy_snapshot_revision p)
    (lp_sink_status p) (lp_metadata p).

(* src: ai-gateway/src/agent/log_payload.rs:265-281 from_envelope_with_auth *)
Definition from_envelope_with_auth (e : ToolEvent) (auth : Auth.AuthContext) : AgentEventLogPayload :=
  let p := from_envelope e in
  let entity_known := negb (ac_entity_id auth =? nil_uuid) in
  let bound := eq_ignore_ascii_case (ac_entity_type auth) "agent" && entity_known in
  with_auth (default "" (ac_workspace_type auth)) (ac_user_id auth) (ac_entity_type auth)
    (if entity_known then ac_entity_id auth else "") (ac_entity_name auth)
    (if bound then ac_entity_id auth else lp_alephant_agent_id p)
    (if bound then trust_level_as_str AuthBound else lp_agent_trust_level p) p.
End payload.

(** ** Names and properties of a logged request *)

(* src: ai-gateway/src/logger/service.rs:56-62 nonempty_string_opt *)
Definition nonempty_string_opt (s : string) : option string := if is_empty s then None else Some s.

(* src: ai-gateway/src/logger/service.rs:548-550 clone_nonempty *)
Definition clone_nonempty (value : option string) : option string := value ≫= nonempty_string_opt.

(* src: ai-gateway/src/types/logger.rs:23-27 AiGatewayBodyMapping *)
Inductive AiGatewayBodyMapping := MapOpenai | MapNoMapping | MapResponses.

(* src: ai-gateway/src/logger/service.rs:64-75 parse_ai_gateway_body_mapping *)
Definition parse_ai_gateway_body_mapping (to_uppercase : string → string) (raw : option string) : option AiGatewayBodyMapping :=
  let s := trim (default "" raw) in
  if is_empty s then None
  else
    let u := to_uppercase s in
    if u =? "OPENAI" then Some MapOpenai else if u =? "NO_MAPPING" then Some MapNoMapping
    else if u =? "RESPONSES" then Some MapResponses else None.

(* src: ai-gateway/src/logger/service.rs:492-500 inference_provider_for_ingest_meta *)
Definition inference_provider_for_ingest_meta (p : InferenceProvider) : option string :=
  match p with
  | OpenAI => Some "openai" | Anthropic => Some "anthropic" | Bedrock => Some "bedrock" | GoogleGemini => Some "google-ai-studio"
  | Ollama | Custom | Named _ => None
  end.

(* src: ai-gateway/src/logger/service.rs:818-822 log provider *)
Definition log_provider (to_uppercase : string → string) (p : InferenceProvider) : string :=
  match p with Ollama => "CUSTOM" | GoogleGemini => "GOOGLE" | p => to_uppercase (provider_display p) end.

(** The headers are visited in the order of the map, [entries]. *)
(* src: ai-gateway/src/logger/service.rs:509-525 extract_request_properties *)
Definition extract_request_properties (entries : list (string * string)) (session_ctx : option SessionHeaders) : list (string * string) :=
  let properties := foldl (λ m kv, if starts_with "alephant-property-" kv.1 && bool_decide (is_Some (to_str kv.2))
                                   then index_insert kv.1 kv.2 m else m) [] entries in
  match session_ctx with Some s => inject_session_properties properties s | None => properties end.

(* src: ai-gateway/src/logger/service.rs:528-546 AgentLogFields *)
Record AgentLogFields := mkLogFields {
  al_agent_id : option string;
  al_self_reported_name : option string;
  al_agent_name : option string;
  al_agent_name_source : option string;
  al_agent_uid : option string;
  al_run_id : option string;
  al_step_id : option string;
  al_parent_step_id : option string;
  al_tool_call_id : option string;
  al_handoff_id : option string;
  al_graph_node : option string;
  al_iteration : option Z;
  al_state_hash : option string;
  al_step_kind : option string;
  al_step_source : option string;
  al_step_confidence : option string;
  al_trust_level : option string
}.
Definition no_log_fields : AgentLogFields :=
  mkLogFields None None None None None None None None None None None None None None None None None.

(* src: ai-gateway/src/logger/service.rs:552-576 agent_log_fields *)
Definition agent_log_fields (agent_ctx : option AgentContext) : AgentLogFields :=
  match agent_ctx with
  | None => no_log_fields
  | Some c =>
      mkLogFields (clone_nonempty (agent_id_external c)) (clone_nonempty (agent_name c)) None None (agent_uid c)
        (clone_nonempty (run_id c)) (clone_nonempty (ctx_step_id c)) (clone_nonempty (ctx_parent_step_id c))
        (clone_nonempty (ctx_tool_call_id c)) (clone_nonempty (handoff_id c)) (clone_nonempty (ctx_graph_node c)) (iteration c)
        (clone_nonempty (state_hash c)) (as_str <$> ctx_step_kind c) (Some (as_str (step_source c)))
        (Some (as_str (step_confidence c))) (Some (trust_level_as_str (trust_level c)))
  end.

Definition with_name (agent_name agent_name_source trust : option string) (f : AgentLogFields) : AgentLogFields :=
  mkLogFields (al_agent_id f) (al_self_reported_name f) agent_name agent_name_source (al_agent_uid f) (al_run_id f) (al_step_id f)
    (al_parent_step_id f) (al_tool_call_id f) (al_handoff_id f) (al_graph_node f) (al_iteration f) (al_state_hash f)
    (al_step_kind f) (al_step_source f) (al_step_confidence f) trust.

(* src: ai-gateway/src/logger/service.rs:578-608 apply_final_agent_name_to_request_log *)
Definition apply_final_agent_name_to_request_log (registered_agent_name : option string) (fields : AgentLogFields)
    (properties : list (string * string)) : AgentLogFields * list (string * string) :=
  let resolved := resolve_agent_name registered_agent_name None (al_self_reported_name fields) in
  let trust := match resolved_trust resolved with Some t => Some (trust_level_as_str t) | None => al_trust_level fields end in
  (with_name (name resolved) (source resolved) trust fields,
   match conflict resolved with
   | Some c =>
       index_insert "agentNameConflict" "true"
         (index_insert "selfReportedAgentNameSource" (self_reported_agent_name_source c)
           (index_insert "selfReportedAgentName" (self_reported_agent_name c)
             (index_insert "registeredAgentName" (AgentContext.registered_agent_name c) properties)))
   | None => properties
   end).

(** ** Which answers are observed *)

Section decisions.
Context (agent_enabled : bool) (agent_ctx : option AgentContext).

(* src: ai-gateway/src/logger/service.rs:77-89 should_observe_agent_response *)
Definition should_observe_agent_response (is_stream : bool) : bool :=
  if negb agent_enabled || is_stream then false
  else match agent_ctx with
       | None => false
       | Some c => negb (is_none (agent_id_external c)) || negb (is_none (agent_uid c)) || negb (is_none (run_id c))
       end.

(* src: ai-gateway/src/logger/service.rs:91-99 should_observe_chat_completion_tool_calls *)
Definition should_observe_chat_completion_tool_calls (is_stream : bool) (semantic : ClientResponseSemantic) : bool :=
  match semantic with SemChatCompletions => true | _ => false end && should_observe_agent_response is_stream.

(* src: ai-gateway/src/logger/service.rs:101-118 should_observe_chat_completion_stream_tool_calls *)
Definition should_observe_chat_completion_stream_tool_calls (is_stream : bool) (semantic : ClientResponseSemantic)
    (wire : LoggerResponseWireSemantic) (unified_bridge via_chat expects_responses : bool) : bool :=
  is_stream && negb unified_bridge && negb via_chat && negb expects_responses
  && match semantic with SemChatCompletions => true | _ => false end && match wire with WireChatSse => true | _ => false end
  && should_observe_agent_response false.

(* src: ai-gateway/src/logger/service.rs:120-128 should_observe_responses_agent_items *)
Definition should_observe_responses_agent_items (is_stream : bool) (semantic : ClientResponseSemantic) : bool :=
  match semantic with SemResponses => true | _ => false end && should_observe_agent_response is_stream.

(* src: ai-gateway/src/logger/service.rs:130-141 should_observe_responses_stream_agent_items *)
Definition should_observe_responses_stream_agent_items (is_stream : bool) (semantic : ClientResponseSemantic)
    (wire : LoggerResponseWireSemantic) : bool :=
  is_stream && match semantic with SemResponses => true | _ => false end && match wire with WireResponsesSse => true | _ => false end
  && should_observe_agent_response false.
End decisions.

(** ** Events made from what is observed *)

(** What every event of a request shares; [ob_now] and [ob_uuid] are the clock and
    the identifier of the event. *)
Record Observation := mkObservation {
  ob_ctx : AgentContext;
  ob_request_id : string;
  ob_provider : string;
  ob_model : string;
  ob_policy_mode : AgentPolicyMode;
  ob_agent_name : option string;
  ob_agent_name_source : option string;
  ob_agent_trust : option string
}.

(** The parts in which the four kinds of envelopes differ. *)
Definition observed_event (o : Observation) (now : Z) (uuid : string) (type : string) (tool : option string)
    (step_id parent_step_id call_id : option string) (kind : AgentStepKind) (confidence : AgentConfidence) (sequence : option Z)
    (m : Value) : ToolEvent :=
  let c := ob_ctx o in
  mkToolEvent "2026-05-27"
    (mkEnvelope ("evt_" ++ uuid) type AuditOnly tool (agent_id_external c) (agent_uid c) (run_id c) step_id call_id (Some kind) m)
    Alephant After (ob_policy_mode o) GatewayObserved sequence now None (ob_agent_name o) (ob_agent_name_source o)
    (ob_agent_trust o) "" None parent_step_id (handoff_id c) (ctx_graph_node c) Gateway confidence (trust_level c) false false
    None None false.

(** The fields that are put into the metadata of every observation. *)
Definition with_request (o : Observation) (m : Value) : Value :=
  set_field "request_id" (Str (ob_request_id o)) (set_field "model" (Str (ob_model o)) (set_field "provider" (Str (ob_provider o)) m)).
Definition object_or_empty (m : Value) : Value := match m with Object _ => m | _ => Object [] end.

(* src: ai-gateway/src/logger/service.rs:143-204 observed_tool_call_envelope *)
Definition observed_tool_call_envelope (o : Observation) (now : Z) (uuid : string) (call : ObservedToolCall) : ToolEvent :=
  observed_event o now uuid "tool.call.observed" (Some (ob_tool_name call)) (ctx_step_id (ob_ctx o)) (ctx_parent_step_id (ob_ctx o))
    (ob_tool_call_id call) ToolCall Medium None
    (Object [("observer", Str "chat_completions_tool_observer"); ("provider", Str (ob_provider o)); ("model", Str (ob_model o));
       ("request_id", Str (ob_request_id o)); ("tool_type", opt_str (ob_tool_type call));
       ("arguments_summary", opt_str (ob_arguments_summary call)); ("choice_index", opt_num (ob_choice_index call))]).

(* src: ai-gateway/src/logger/service.rs:206-225 observed_chat_stream_step_id *)
Definition observed_chat_stream_step_id (request_id : string) (c : ObservedStreamCall) : string :=
  let key := default "unknown" (or_else ((λ i, "index_" ++ pretty i) <$> so_tool_call_index c)
                                        ((λ id, "call_" ++ id) <$> so_tool_call_id c)) in
  "gwobs:chatcmpl:" ++ request_id ++ ":" ++ pretty (so_choice_index c) ++ ":" ++ key ++ ":tool_call_observed".

(* src: ai-gateway/src/logger/service.rs:227-297 observed_chat_stream_tool_call_envelope *)
Definition observed_chat_stream_tool_call_envelope (o : Observation) (now : Z) (uuid : string) (c : ObservedStreamCall) : ToolEvent :=
  observed_event o now uuid "tool.call.observed" (Some (default "unknown" (so_tool_name c)))
    (Some (observed_chat_stream_step_id (ob_request_id o) c)) (ctx_step_id (ob_ctx o)) (so_tool_call_id c) ToolCall Medium None
    (with_request o (object_or_empty (so_metadata c))).

(** [str::replace('.', "_")]. *)
Definition replace_dots (s : string) : string := str_map (λ c, if Ascii.eqb c "." then "_"%char else c) s.

(* src: ai-gateway/src/logger/service.rs:299-312 observed_stream_step_id *)
Definition observed_stream_step_id (request_id : string) (i : StreamItem) : string :=
  "gwobs:responses:" ++ request_id ++ ":" ++ default "unknown" (si_response_id i) ++ ":"
  ++ default (pretty (si_sequence i)) (pretty <$> si_output_index i) ++ ":" ++ default "none" (si_item_id i) ++ ":"
  ++ replace_dots (si_event_type i).

(** The identifiers of an item of a Responses answer. *)
Definition with_item (response_id : option string) (output_index : option Z) (item_id call_id : option string) (m : Value) : Value :=
  set_field "call_id" (opt_str call_id) (set_field "item_id" (opt_str item_id)
    (set_field "output_index" (opt_num output_index) (set_field "response_id" (opt_str response_id) m))).

(* src: ai-gateway/src/logger/service.rs:314-396 observed_responses_item_envelope *)
Definition observed_responses_item_envelope (o : Observation) (now : Z) (uuid : string) (i : ObservedItem) : ToolEvent :=
  let kind := match oi_kind i with ItemFunctionCall | ItemMcpCall => ToolCall | ItemReasoning => Reasoning end in
  let confidence := match ctx_step_id (ob_ctx o) with Some _ => Medium | None => Low end in
  observed_event o now uuid (oi_event_type i) (oi_name i) (ctx_step_id (ob_ctx o)) (ctx_parent_step_id (ob_ctx o)) (oi_call_id i)
    kind confidence None
    (with_item (oi_response_id i) (oi_output_index i) (oi_item_id i) (oi_call_id i) (with_request o (oi_metadata i))).

(* src: ai-gateway/src/logger/service.rs:398-481 observed_responses_stream_item_envelope *)
Definition observed_responses_stream_item_envelope (o : Observation) (now : Z) (uuid : string) (i : StreamItem) : ToolEvent :=
  let kind := match si_kind i with
              | StreamFunctionCall | StreamMcpCall => ToolCall
              | StreamReasoning => Reasoning
              | StreamCompleted => LlmCall
              | StreamError => ErrorRecovery
              end in
  observed_event o now uuid (si_event_type i) (si_name i) (Some (observed_stream_step_id (ob_request_id o) i))
    (ctx_step_id (ob_ctx o)) (si_call_id i) kind Medium (Some (si_sequence i))
    (with_item (si_response_id i) (si_output_index i) (si_item_id i) (si_call_id i)
       (with_request o (object_or_empty (si_metadata i)))).

(* src: ai-gateway/src/logger/service.rs:483-490 apply_auth_scope_to_observed_tool_event *)
Definition apply_auth_scope_to_observed_tool_event (workspace_id : string) (virtual_key_id : option string) (e : ToolEvent) : ToolEvent :=
  mkToolEvent (te_version e) (te_envelope e) (te_source e) (te_phase e) (te_policy_mode e) (te_source_trust e) (te_sequence e)
    (te_observed_at e) (te_timestamp e) (te_agent_name e) (te_agent_name_source e) (te_agent_trust_level e)
    workspace_id virtual_key_id (te_parent_step_id e) (te_handoff_id e) (te_graph_node e)
    (te_step_source e) (te_step_confidence e) (te_trust_level e) (te_context_conflict e) (te_step_id_conflict e)
    (te_attempt e) (te_input_hash e) (te_billing_mirror_trusted e).

(** ** The log of a request *)

(** The fields of [LoggerService] that the observation reads, with the settings
    of agents. *)
(* src: ai-gateway/src/logger/service.rs:635-680 LoggerService *)
Record LoggerService := mkLogger {
  lg_auth : Auth.AuthContext;
  lg_agent_enabled : bool;
  lg_policy_mode : string;
  lg_provider : InferenceProvider;
  lg_request_id : string;
  lg_agent_ctx : option AgentContext;
  lg_redact_payloads : bool;
  lg_response_body : string
}.

Section log.
Context {Date Cell Origin : Type}.
Context (from_str : string → option Value) (to_string : Value → string) (sha256_hex to_uppercase : string → string).
Context (now : nat → Z) (uuid : nat → string).
Context (model_text : ModelId Date → string).

Section request.
Context (l : LoggerService) (ctx : MapperContext Date Cell Origin).

(** A protected request has no agent. *)
(* src: ai-gateway/src/logger/service.rs:706-728 LoggerService::log protected request *)
Definition log_agent_ctx : option AgentContext := if lg_redact_payloads l then None else lg_agent_ctx l.

(* src: ai-gateway/src/logger/service.rs:818-831 LoggerService::log names *)
Definition observation (c : AgentContext) : Observation :=
  let fields := (apply_final_agent_name_to_request_log (ac_registered_agent_name (lg_auth l)) (agent_log_fields log_agent_ctx) []).1 in
  mkObservation c (lg_request_id l) (log_provider to_uppercase (lg_provider l)) (from_option model_text "unknown" (mc_model ctx))
    (AgentContext.from_str (lg_policy_mode l)) (al_agent_name fields) (al_agent_name_source fields) (al_trust_level fields).

(** The events of what was observed, one after the other. *)
Definition scoped {A} (c : AgentContext) (envelope : Observation → Z → string → A → ToolEvent) (found : list A) : list ToolEvent :=
  imap (λ i a, apply_auth_scope_to_observed_tool_event (ac_org_id (lg_auth l)) (ac_virtual_key_id (lg_auth l))
                 (envelope (observation c) (now i) (uuid i) a)) found.

(* src: ai-gateway/src/logger/service.rs:832-867 LoggerService::log tool calls *)
Definition chat_events (c : AgentContext) : list ToolEvent :=
  if should_observe_chat_completion_tool_calls (lg_agent_enabled l) (Some c) (mc_is_stream ctx) (mc_client_semantic ctx)
  then scoped c observed_tool_call_envelope (observe_chat_completion_tool_calls from_str to_string (lg_response_body l)) else [].

(* src: ai-gateway/src/logger/service.rs:1022-1137 LoggerService::log streams and Responses *)
Definition late_events (c : AgentContext) : list ToolEvent :=
  let on := lg_agent_enabled l in
  let body := lg_response_body l in
  ((if should_observe_chat_completion_stream_tool_calls on (Some c) (mc_is_stream ctx) (mc_client_semantic ctx)
         (mc_logger_wire ctx) (mc_unified_bridge ctx) (mc_via_chat ctx) (mc_expects_responses ctx)
    then scoped c observed_chat_stream_tool_call_envelope
           (observe_chat_completion_stream_tool_calls from_str to_string sha256_hex (lg_request_id l) body)
    else [])
   ++ if should_observe_responses_stream_agent_items on (Some c) (mc_is_stream ctx) (mc_client_semantic ctx) (mc_logger_wire ctx)
      then scoped c observed_responses_stream_item_envelope
             (observe_responses_stream_agent_items from_str to_string sha256_hex (lg_request_id l) body)
      else if should_observe_responses_agent_items on (Some c) (mc_is_stream ctx) (mc_client_semantic ctx)
      then scoped c observed_responses_item_envelope (observe_responses_nonstream_agent_items from_str to_string body)
      else [])%list.

(** The events of a request, in the order in which they are written.  [sent] says
    whether the log of the request was delivered: the events of streams and of
    Responses answers follow it.  A failure to write an event is a warning. *)
Definition log_events (sent : bool) : list ToolEvent :=
  match log_agent_ctx with
  | None => []
  | Some c => (chat_events c ++ if sent then late_events c else [])%list
  end.
End request.
End log.

(** ** Who may write bills *)

(** A payload without a tool's cost, billing, operation or execution.  The field
    [lp_cost] is not part of a bill: it is what the metadata say, see
    [clients_cost_is_logged]. *)
Definition unbilled (p : AgentEventLogPayload) : Prop :=
  lp_billing p = no_billing ∧ lp_operation p = no_operation ∧ lp_tool_execution_id p = "".

Section billing.
Context (as_i64 : string → option Z) (as_f64 : string → option f64) (to_string : Value → string).
Abbreviation payload := (from_envelope_with_auth as_i64 as_f64 to_string).

Lemma untrusted_is_unbilled e auth : te_billing_mirror_trusted e = false → unbilled (payload e auth).
Proof.
  intros H. assert (Ht : is_trusted_gateway_tool_event e = false) by by rw /is_trusted_gateway_tool_event H.
  rw /unbilled /=. by rw /tool_billing_mirror /is_gateway_billing_tool_event Ht.
Qed.

(** What is billed for a call that the gateway executed. *)
Definition billing_of (r : ToolCallResponse) : ToolBillingMirror :=
  let status := match r_gateway r ≫= g_billing_status with
                | Some s => canonical_billing_status s | None => tool_billing_status r end in
  let reason := match r_gateway r ≫= g_billing_reason with
                | Some reason => reason
                | None => if String.eqb status "settled" then "" else ToolCatalog.billing_reason (r_billing r) end in
  mkBillingMirror (r_tool_execution_id r) (Some (amount_micros (r_cost r))) (tc_currency (r_cost r)) (ToolCalls.tc_source (r_cost r))
    "tool" "tool" status reason (Some (cost_micros (r_billing r))) (currency (r_billing r)) (Some (billable (r_billing r)))
    (dedupe_key (r_billing r)).

Lemma executed_is_billed f64_text now uuid auth auth' header request r sequence :
  is_empty (r_tool_execution_id r) = false → (0 ≤ amount_micros (r_cost r) ≤ u64_max)%Z → (0 ≤ cost_micros (r_billing r) ≤ u64_max)%Z →
  lp_billing (payload (tool_execution_completed_event f64_text now uuid auth header request r sequence) auth') = billing_of r.
Proof.
  intros Hid Ha Hc. cbn [lp_billing from_envelope_with_auth with_auth from_envelope]. rw /tool_billing_mirror.
  set (m := AgentPolicy.metadata _). change m with (tool_execution_metadata f64_text request r). clear m.
  change (is_gateway_billing_tool_event _) with true. cbn [negb].
  change (metadata_string (tool_execution_metadata f64_text request r) "toolExecutionId") with (r_tool_execution_id r). rw Hid.
  set (b := object_field _ _). assert (Hb : ∃ v, b = Some v ∧ metadata_u64 v "amountMicros" = as_u64 (num (cost_micros (r_billing r))) ∧
    metadata_string v "status" = bm_billing_status (billing_of r) ∧ metadata_string v "reason" = bm_billing_reason (billing_of r) ∧
    metadata_string v "pricingSource" = ToolCalls.tc_source (r_cost r) ∧ metadata_string v "costType" = "tool" ∧
    metadata_string v "costSubtype" = "tool" ∧ metadata_string v "currency" = currency (r_billing r) ∧
    metadata_bool v "billable" = Some (billable (r_billing r)) ∧ metadata_string v "dedupeKey" = dedupe_key (r_billing r)).
  { eexists. repeat (split; [reflexivity|]). split; [|by repeat split]. rw /metadata_string /=. by repeat case_match. }
  destruct Hb as (v & -> & -> & -> & -> & -> & -> & -> & -> & -> & ->). rw as_u64_num //.
  change (metadata_u64 (tool_execution_metadata f64_text request r) "toolCostMicros") with (as_u64 (num (amount_micros (r_cost r)))).
  by rw as_u64_num.
Qed.
End billing.

(** Events a client sends are never trusted with costs. *)
Lemma prepared_untrusted w cfg auth header i src input e :
  prepare_event w cfg auth header i src input = Ok e → te_billing_mirror_trusted e = false.
Proof.
  rw /prepare_event. case_match; [done|]. destruct (check_context_conflict _ _ _) as [cc|]; [|done]. cbn [result_bind].
  destruct (check_step_conflict _ _ _ _ _) as [sc|]; [|done]. cbn [result_bind]. case_match; [done|]. by intros [= <-].
Qed.

Lemma accepted_untrusted w cfg e d : te_billing_mirror_trusted e = false →
  Forall (λ o, te_billing_mirror_trusted o.1 = false) (accept_event w cfg e d).1.
Proof. intros H. rw /accept_event. repeat case_match; repeat constructor; done. Qed.

Lemma refused_untrusted w cfg e : te_billing_mirror_trusted e = false →
  Forall (λ o, te_billing_mirror_trusted o.1 = false) (refuse_unavailable w cfg e).1.
Proof. intros H. rw /refuse_unavailable. repeat case_match; repeat constructor; done. Qed.

Lemma batch_untrusted w cfg req : Forall (λ o, te_billing_mirror_trusted o.1 = false) (handle_agent_events w cfg req).1.
Proof.
  rw /handle_agent_events. case_match; [constructor|]. case_match; [constructor|].
  destruct (er_auth req) as [auth|]; [|constructor]. destruct (er_body req) as [body|]; [|constructor].
  destruct (_ <=? _)%Z; [|constructor]. apply handle_body_Forall. intros i src input. rw /process_event.
  destruct (prepare_event _ _ _ _ _ _ _) as [e|] eqn:He; [|constructor]. apply prepared_untrusted in He.
  case_match; [|by apply accepted_untrusted]. case_match; [by apply accepted_untrusted|]. case_match. by apply refused_untrusted.
Qed.

(** ** Observed events *)

Section observed.
Context {Date Cell Origin : Type}.
Context (from_str : string → option Value) (to_string : Value → string) (sha256_hex to_uppercase : string → string).
Context (now : nat → Z) (uuid : nat → string) (model_text : ModelId Date → string).
Abbreviation events := (log_events (Cell := Cell) (Origin := Origin) from_str to_string sha256_hex to_uppercase now uuid model_text).

Lemma scoped_Forall {A} (P : ToolEvent → Prop) (f : nat → A → ToolEvent) l : (∀ i a, P (f i a)) → Forall P (imap f l).
Proof. intros H. revert f H. induction l as [|a l IH]; intros f H; simpl; constructor; [apply H|]. apply IH. intros. apply H. Qed.

(** An event of the request of [l], as it was observed. *)
Definition observation_of (l : LoggerService) (e : ToolEvent) : Prop :=
  te_workspace_id e = ac_org_id (lg_auth l) ∧ te_virtual_key_id e = ac_virtual_key_id (lg_auth l) ∧
  te_billing_mirror_trusted e = false ∧ te_source_trust e = GatewayObserved ∧ should_validate_policy_for_event e = false.

Lemma log_events_Forall l ctx sent : Forall (observation_of l) (events l ctx sent).
Proof.
  rw /log_events. destruct (log_agent_ctx l) as [c|]; [|constructor]. apply Forall_app. split.
  - rw /chat_events. case_match; [by apply scoped_Forall|constructor].
  - destruct sent; [|constructor]. rw /late_events. apply Forall_app. split; [case_match; [by apply scoped_Forall|constructor]|].
    case_match; [by apply scoped_Forall|]. case_match; [by apply scoped_Forall|constructor].
Qed.

(** Nothing is observed of a protected request, of one without the context of an
    agent, or when agents are off; and the events of streams need the log of the
    request. *)
Theorem observation_is_confined l ctx :
  (lg_redact_payloads l = true ∨ lg_agent_ctx l = None ∨ lg_agent_enabled l = false → ∀ sent, events l ctx sent = []) ∧
  (mc_is_stream ctx = true → events l ctx false = []).
Proof.
  rw /log_events. split.
  - intros [H|[H|H]] sent; [by rw /log_agent_ctx H|by rw /log_agent_ctx H; destruct (lg_redact_payloads l)|].
    destruct (log_agent_ctx l) as [c|]; [|done].
    rw /chat_events /late_events /should_observe_chat_completion_tool_calls /should_observe_chat_completion_stream_tool_calls
      /should_observe_responses_stream_agent_items /should_observe_responses_agent_items /should_observe_agent_response H /=
      !andb_false_r. by destruct sent.
  - intros H. destruct (log_agent_ctx l) as [c|]; [|done].
    rw /chat_events /should_observe_chat_completion_tool_calls /should_observe_agent_response H orb_true_r andb_false_r //.
Qed.
End observed.

(** The agent of a key is the one an event is logged for, whatever the client or
    the context of the request says. *)
Theorem logged_agent_is_the_keys as_i64 as_f64 to_string e auth :
  eq_ignore_ascii_case (ac_entity_type auth) "agent" = true → ac_entity_id auth ≠ nil_uuid →
  let p := from_envelope_with_auth as_i64 as_f64 to_string e auth in
  lp_alephant_agent_id p = ac_entity_id auth ∧ lp_agent_trust_level p = trust_level_as_str AuthBound ∧
  lp_user_id p = ac_user_id auth ∧ lp_entity_id p = ac_entity_id auth.
Proof.
  intros Ht Hid. apply String.eqb_neq in Hid. rw /from_envelope_with_auth Ht Hid /=. done.
Qed.

(** A registered name is the one a request is logged under, and a different name
    that the client reports is kept beside it. *)
Theorem logged_name_is_registered name fields properties : is_empty (trim name) = false →
  let r := apply_final_agent_name_to_request_log (Some name) fields properties in
  al_agent_name r.1 = Some (trim name) ∧ al_agent_name_source r.1 = Some "virtual_key_label" ∧
  al_trust_level r.1 = Some (trust_level_as_str AuthBound).
Proof.
  intros H. assert (Hn : nonempty_trimmed (Some name) = Some (trim name)) by by rw /nonempty_trimmed /= H.
  by rw /apply_final_agent_name_to_request_log /resolve_agent_name Hn.
Qed.

(** C35 (safety). Only the gateway's own tool calls are billed: whatever metadata a
    client sends, no event of a batch is logged with a tool's cost, with a billing
    type, status, amount or dedupe key, with an operation or with the identifier
    of an execution, and neither is an event observed in an answer; an execution by
    the gateway is logged with the cost and the billing of its response, exactly.
    The plain [cost] of a payload is outside this: for every event, a client's
    included, it is the number the metadata hold under that name. *)
Theorem only_the_gateway_bills {Date Cell Origin} as_i64 as_f64 to_string auth :
  let payload e := from_envelope_with_auth as_i64 as_f64 to_string e auth in
  (∀ w cfg req, Forall (λ o, unbilled (payload o.1)) (handle_agent_events w cfg req).1) ∧
  (∀ from_str writer sha256_hex to_uppercase now uuid (model_text : ModelId Date → string) l (ctx : MapperContext Date Cell Origin) sent,
     Forall (λ e, unbilled (payload e)) (log_events from_str writer sha256_hex to_uppercase now uuid model_text l ctx sent)) ∧
  (∀ f64_text now uuid caller header request r sequence,
     is_empty (r_tool_execution_id r) = false → (0 ≤ amount_micros (r_cost r) ≤ u64_max)%Z →
     (0 ≤ cost_micros (r_billing r) ≤ u64_max)%Z →
     lp_billing (payload (tool_execution_completed_event f64_text now uuid caller header request r sequence)) = billing_of r) ∧
  (∀ e, lp_cost (payload e) = metadata_f64 as_f64 (event_metadata e) "cost").
Proof.
  cbv zeta. split_and!.
  - intros w cfg req. eapply Forall_impl; [apply batch_untrusted|]. intros o. apply untrusted_is_unbilled.
  - intros. eapply Forall_impl; [apply log_events_Forall|]. intros e (_ & _ & H & _). by apply untrusted_is_unbilled.
  - intros. by apply executed_is_billed.
  - done.
Qed.

(** A client that reports a cost has it logged. *)
Example clients_cost_is_logged :
  let e := with_metadata (Object [("cost", Number "5")]) (demo_event "on_tool_end") in
  let w := mkEventsWorld (λ _, "{}") (λ _, None) (λ _, Some (Single e)) (λ _, 0%Z) (λ _, "u") true (λ _ _, Ok true) (λ _ _, Ok None)
             true (λ _, None) (λ _, true) in
  let out := (handle_agent_events w demo_agent_config demo_events_request).1 in
  map (λ o : Emission, (te_billing_mirror_trusted o.1, lp_cost (from_envelope (λ _, None) (λ n, if String.eqb n "5" then Some (f64_of_Z 5) else None)
                                     (λ _, "{}") o.1))) out = [(false, Some (f64_of_Z 5))].
Proof. vm_compute. reflexivity. Qed.
